(* ===== verification/_CoqProject ===== *)
-Q . S2P
Prelude.v
Utf8.v
GoLib.v
Json.v
SatConfig.v
Free.v
Float64.v
CryptoLib.v
AuditTrail.v
AuditFacts.v
Db.v
DbFacts.v
Duration.v
Redact.v
Limiter.v
Prog.v
Logic.v
Runs.v
Env.v
Harbor.v
Crypto.v
Spiffe.v
Server.v
Demo.v
Satellites.v
Auth.v
AuthFacts.v
Users.v
SatelliteFacts.v
Groups.v
RateLimit.v
Registration.v
Spire.v
Ztr.v
Status.v
Configs.v
Routes.v
RoutesFacts.v
SatState.v
StateFacts.v
SatWorld.v
SatRun.v
SatDemo.v
Tls.v
CertWatcher.v
ServerTls.v
HttpClient.v
ParsecWire.v
ParsecAlgorithms.v
ParsecClient.v
ParsecFacts.v
GcStart.v
GcStartFacts.v
ContainerRuntime.v
ContainerRuntimeFacts.v
Device.v
Secure.v
Parsec.v
ParsecProviderFacts.v
Manager.v
ZtrClient.v
ZtrClientFacts.v
Replicator.v
DirectDelivery.v
SatPersist.v
StateProcess.v
SyncFacts.v
SyncDemo.v
GroupSync.v
Stuck.v
PersistFacts.v
Scheduler.v
Report.v
ReportFacts.v
SchedulerFacts.v
HotReload.v
HotReloadFacts.v
Startup.v
SatelliteRun.v
Handshake.v
