(* ===== verification/Prelude.v ===== *)
(** * Harbor Satellite: a verification development

    Harbor Satellite keeps a small registry at the edge supplied with images
    from a central Harbor.  It is two Go programs.  Ground Control
    (cmd/ground-control, internal/groundcontrol) is an HTTP server over
    PostgreSQL: it keeps satellites, groups, configurations and users, creates
    robot accounts in Harbor, and publishes the desired state of every
    satellite, group and configuration as OCI artifacts.  The satellite
    (cmd/harbor-satellite, internal/satellite, pkg/config) registers once with
    a single-use token or its SPIFFE identity, then periodically fetches its
    state, replicates the images of its groups into the local registry,
    deletes what left them, and reports.  This development translates the code
    of both into Rocq and proves what makes it correct.

    ** How the code is modelled

    - A function without effects is a function.  A function with effects is a
      tree of operations of type [free] (Free), with the code's early returns,
      deferred calls and error wrapping in the continuations: [let?] is
      "if err != nil", [let*] a call without an error.  Each part has its own
      operations: [op] (Prog) for Ground Control's handlers, [base] and [sop]
      (SatWorld) for the satellite, [start] (GcStart), [parsec] (ParsecClient),
      the audit logger's (AuditTrail) and the hot reload's (HotReload).
    - A program is executed on an explicit world.  Every operation that can
      fail consults an oracle of that world, so a theorem for all worlds is a
      theorem for all patterns of failures.  Errors are values ([goerr]); a Go
      panic is an error whose text starts with "panic:", or [None].
    - A file operation is visible to the running programs at once.  What the
      disk holds after a power failure is a relation of its own ([Cache],
      [leaves], [power] in SatWorld): writes are lost or torn until the file is
      synced, and the names of a directory, which the program never syncs, can
      be the old ones.  It is applied to the state file; the other theorems on
      files speak of a process that stops.
    - An HTTP client sends one request after the other as net/http follows
      redirects ([Do] in HttpClient); the router answers 301 for a path that is
      not clean.
    - Goroutines are interleaved one operation at a time; a block under a
      mutex is one operation.  [wp] and [parallel] (Free) are a rely-guarantee
      logic for them.  The certificate watcher, the scheduler and the file
      watcher are transition systems; their theorems are by induction on runs.
    - Integers are Z with the conversions of the code written out (int32,
      uint16, ...); times are nanoseconds in Z; float64 is SpecFloat.  A
      string is its bytes.  Maps are [gmap]; where Go leaves the order of a
      map open it is the parameter [RangeOrder].

    ** The files

    Foundations: Prelude (strings and strconv, lists, errors, tactics), Utf8,
    GoLib (strings and path/filepath beyond ASCII), Json (encoding/json, its
    scanner, output and decoding into structs), Free (programs, their runs,
    interleavings), Float64, Duration (time.ParseDuration), CryptoLib (base64
    and the primitives that are parameters).

    Ground Control:
    - Db, DbFacts: the schema's tables and every statement of
      internal/groundcontrol/database, and the integrity they preserve.
    - Prog, Logic, Runs: handlers as programs over database, transactions,
      Harbor, registry, SPIRE, clock, audit log and response; triples, and the
      inversion of runs.
    - Server (handleResponse.go, helpers.go, middleware.go), Satellites with
      SatelliteFacts, Registration and Ztr (satellite_handlers.go), Groups,
      Configs with Redact, Auth with AuthFacts, Users, Status (cleanup.go,
      handlers.go), Spire, Spiffe, Harbor (harbor/, utils/), Crypto (argon2.go,
      password.go), Limiter and RateLimit (middleware/ratelimit.go).
    - Routes, RoutesFacts: routes.go with all middlewares around the handlers.
    - CertWatcher, ServerTls: TLS with reloaded certificates and with SPIFFE.
    - Env, GcStart, GcStartFacts: settings and start, to the listening server.
    - Demo: concrete services, for witnesses.

    The satellite:
    - SatConfig, Manager: pkg/config, its data, validation and manager.
    - SatState, StateFacts: the desired state and the changes computed from it.
    - SatWorld, SatRun, SatDemo: the world of the satellite's goroutines.
    - ZtrClient, ZtrClientFacts: registration; Handshake composes it with
      Ground Control's handler.
    - Replicator, DirectDelivery, SatPersist, StateProcess: one Execute of the
      replication, its goroutines and its state file; SyncFacts, GroupSync,
      Stuck, PersistFacts (SyncDemo: a concrete Harbor).
    - Scheduler, SchedulerFacts; Report, ReportFacts; SatelliteRun: the three
      periodic processes and how they are started.
    - HotReload, HotReloadFacts: configuration changes while running.
    - Tls, HttpClient, Device, Secure, ContainerRuntime with
      ContainerRuntimeFacts, Startup: the rest of start and stop.
    - ParsecWire, ParsecAlgorithms, ParsecClient, ParsecFacts: the client
      library of the PARSEC service, kept in parsec-client-go; Parsec,
      ParsecProviderFacts: the crypto providers, one of which uses it.
    - AuditTrail, AuditFacts: internal/logger.

    ** What the theorems show

    - Handlers are transactions: a request is refused with the database
      unchanged, or the database is the old one after exactly the abstract
      operation and the client has the answer that belongs to it
      ([Registration], [Groups], [Configs], [SatelliteFacts], [Users]); Harbor
      robots and SPIRE entries made on the way belong to a committed request
      or their deletion was requested.
    - Access: which client reaches which handler, through router, middlewares,
      sessions, lockout, robot secrets, certificates and rate limit
      ([RoutesFacts], [AuthFacts], [ServerTls], [RateLimit]).
    - Registration end to end: a token admits one satellite ([Ztr]; two
      concurrent requests can both succeed, which is shown too), and the
      satellite installs what it was given ([ZtrClientFacts], [Handshake]).
    - Synchronisation: under every interleaving a successful Execute brought
      each group to its published state image by image ([GroupSync]), the
      changes are the difference of the states ([StateFacts]), the state file
      survives a crash and a power failure at any point ([PersistFacts]), and
      every run ends.  Images that two groups share, and states whose entities
      name and tag do not tell apart, are outside these theorems, and what then
      happens is shown ([shared_image_lost], [project_move_missed]).
    - Configuration: validation settles, a reload changes what it should and
      nothing else, an edit takes effect unless its event is dropped
      ([SatConfig], [HotReloadFacts]); sealed configurations open on the same
      device only as sealed ([Secure]); backups of the runtimes' configuration
      are recoverable ([ContainerRuntimeFacts]).
    - Schedulers stop after their executions; certificates that are renewed
      are served ([SchedulerFacts], [CertWatcher]).
    - Audit: redaction hides exactly the sensitive values, frames are lines,
      reconfiguration swaps everything or nothing ([Redact], [AuditFacts]); the
      logger's sinks were opened for the targets that the configuration in
      force names ([logger_runs] in AuditFacts, [in_effect] in HotReloadFacts,
      [audit_as_set] in GcStartFacts).
    - Reports: results are kept until a report was answered with 200, and
      credentials go to https and to where that host redirects ([ReportFacts]).
    - Start: Ground Control listens only when database, migrations, Harbor and
      administrator are there ([GcStartFacts]); what a started satellite runs
      with ([Startup], [SatelliteRun]).
    - PARSEC: operations over the wire are calls of the service, malformed
      responses are errors, keys are never replaced ([ParsecFacts],
      [ParsecWire], [ParsecProviderFacts]).

    Where the code does not do what it means to, a theorem or an example shows
    the behaviour it has (for instance [Stuck], [edit_lost],
    [executions_can_overlap], [unlink_route_is_dead]).

    ** Parameters and assumptions

    Third-party code and other machines are parameters, with what is relied on
    as named hypotheses or class laws, each met by a concrete instance in a
    witness: the Harbor API, the OCI registries (go-containerregistry), SPIRE
    and go-spiffe, gorilla/mux, goose, viper and BurntSushi/toml, zot,
    robfig/cron, zerolog's levels, caarlos0/env, protobuf, the PARSEC service,
    the JSON patch library, PostgreSQL's text casts; of the standard library
    the primitives of crypto and crypto/x509, net/url, and the tables behind
    %q.  No property of a cipher or hash is assumed but that decryption
    inverts encryption, that an ECDSA signature verifies, and the lengths of
    digests.

    ** Fuel and bounds

    Recursion is structural nearly everywhere.  The scanners of Json run with
    the length of the text, the value reader with the number of tokens, which
    suffices because each step consumes one (the round trips of Json are
    proved for all values); the other loops over a text (time.ParseDuration,
    PEM blocks, the members of an object) take its length likewise.  A request is
    redirected nine times at most, which is net/http's limit.  The wait for
    PostgreSQL takes fuel, and [wait_ends] proves that the time-out needs no
    more.  The loops of goroutines are relations or schedules of arbitrary
    length, with termination proved by measures ([execute_ends],
    [cancelled_scheduler_ends]).

    ** Not modelled

    - internal/groundcontrol/logger repeats internal/logger.
    - groundcontrol/spiffe/source.go and embedded_server.go wrap the workload
      API and launch an external binary; the region and pattern authorizers and
      TokenAuthMiddleware have no caller.
    - Console formatting (logger.go), mocks, build-tag stubs other than
      PARSEC's detection, generated protobuf code, host.go and read_config.go
      of container_runtime (commented out), constructors without a caller in
      fetcher.go and replicator.go.
    - The String methods of parsec-client-go, and the texts with which errors
      quote values.
    - Column widths of the database, and time zones.
    - Referer headers and the user information in the address of a redirect. *)

From Stdlib Require Export ZArith Lia ZifyNat.
From Stdlib Require Import Ascii DecimalString DecimalPos DecimalZ DecimalN.
From stdpp Require Export base tactics strings numbers option sets list.

#[export] Set Default Goal Selector "!".

(* ------------------------------------------------------------------ *)
(** ** Go strings

    A Go string is a sequence of bytes, a Rocq [string] is a sequence of
    8-bit [ascii] characters.  The functions below are the ones of the
    packages [strings] and [strconv] that the program calls. *)

Module Go.

#[local] Open Scope string_scope.

Fixpoint drop_bytes (n : nat) (s : string) : string :=
  match n, s with
  | O, _ => s
  | S n', String _ s' => drop_bytes n' s'
  | S _, "" => ""
  end.

Fixpoint take_bytes (n : nat) (s : string) : string :=
  match n, s with
  | S n', String a s' => String a (take_bytes n' s')
  | _, _ => ""
  end.

(** [strings.HasPrefix] *)
Fixpoint has_prefix (p s : string) : bool :=
  match p, s with
  | "", _ => true
  | String a p', String b s' => Ascii.eqb a b && has_prefix p' s'
  | String _ _, "" => false
  end.

(** [strings.TrimPrefix] *)
Definition trim_prefix (p s : string) : string :=
  if has_prefix p s then drop_bytes (String.length p) s else s.

(** [strings.HasSuffix] *)
Fixpoint has_suffix (suf s : string) : bool :=
  String.eqb s suf ||
  match s with "" => false | String _ s' => has_suffix suf s' end.

(** [strings.TrimSuffix] *)
Definition trim_suffix (suf s : string) : string :=
  if has_suffix suf s then take_bytes (String.length s - String.length suf) s else s.

(** [strings.Contains] *)
Fixpoint contains (s sub : string) : bool :=
  has_prefix sub s ||
  match s with "" => false | String _ s' => contains s' sub end.

(** [strings.Split] with a one-byte separator *)
Fixpoint split_on (c : ascii) (s : string) : list string :=
  match s with
  | "" => [""]
  | String a s' =>
      if Ascii.eqb a c then "" :: split_on c s'
      else match split_on c s' with
           | w :: ws => String a w :: ws
           | [] => [String a ""]
           end
  end.

(** [strings.SplitN(s, sep, 2)] with a one-byte separator: [None] when the
    separator does not occur (Go returns a one-element slice). *)
Fixpoint cut (c : ascii) (s : string) : option (string * string) :=
  match s with
  | "" => None
  | String a s' =>
      if Ascii.eqb a c then Some ("", s')
      else match cut c s' with
           | Some (x, y) => Some (String a x, y)
           | None => None
           end
  end.

(** [strings.SplitN(s, sep, 2)\[1\]] with an arbitrary separator that occurs. *)
Fixpoint after (sep s : string) : option string :=
  if has_prefix sep s then Some (drop_bytes (String.length sep) s)
  else match s with "" => None | String _ s' => after sep s' end.

(** [strings.Join] *)
Fixpoint join (sep : string) (l : list string) : string :=
  match l with
  | [] => ""
  | [x] => x
  | x :: l' => x +:+ sep +:+ join sep l'
  end.

(** [strings.LastIndex(s, c)] followed by [s\[i+1:\]]; the whole string when
    the byte does not occur. *)
Fixpoint after_last (c : ascii) (s : string) : string :=
  match s with
  | "" => ""
  | String a s' =>
      if contains s' (String c "") then after_last c s'
      else if Ascii.eqb a c then s' else s
  end.

(** [strings.ToLower] on the ASCII range; bytes above 127 are left alone. *)
Definition lower_ascii (a : ascii) : ascii :=
  let n := nat_of_ascii a in
  if (65 <=? n)%nat && (n <=? 90)%nat then ascii_of_nat (n + 32) else a.

Fixpoint to_lower (s : string) : string :=
  match s with
  | "" => ""
  | String a s' => String (lower_ascii a) (to_lower s')
  end.

(** [strings.EqualFold] on the ASCII range *)
Definition equal_fold (s t : string) : bool := String.eqb (to_lower s) (to_lower t).

Definition is_space (a : ascii) : bool :=
  let n := nat_of_ascii a in (n =? 32)%nat || ((9 <=? n)%nat && (n <=? 13)%nat).

Fixpoint trim_left (s : string) : string :=
  match s with
  | String a s' => if is_space a then trim_left s' else s
  | "" => ""
  end.

Fixpoint all_space (s : string) : bool :=
  match s with "" => true | String a s' => is_space a && all_space s' end.

Fixpoint trim_right (s : string) : string :=
  match s with
  | "" => ""
  | String a s' => if all_space s then "" else String a (trim_right s')
  end.

(** [strings.TrimSpace] on the ASCII range *)
Definition trim_space (s : string) : string := trim_right (trim_left s).

Fixpoint forallb_bytes (p : ascii -> bool) (s : string) : bool :=
  match s with "" => true | String a s' => p a && forallb_bytes p s' end.

Fixpoint existsb_bytes (p : ascii -> bool) (s : string) : bool :=
  match s with "" => false | String a s' => p a || existsb_bytes p s' end.

Definition between (lo hi : nat) (a : ascii) : bool :=
  let n := nat_of_ascii a in (lo <=? n)%nat && (n <=? hi)%nat.

Definition is_upper_ascii := between 65 90.
Definition is_lower_ascii := between 97 122.
Definition is_digit_ascii := between 48 57.

(** [strconv.FormatInt(_, 10)] and [fmt]'s [%d] *)
Definition itoa (z : Z) : string := NilZero.string_of_int (Z.to_int z).

(** [strconv.ParseInt(_, 10, 64)]: an optional sign, at least one decimal
    digit, and a value in the int64 range. *)
Definition int64_min : Z := (- 2 ^ 63)%Z.
Definition int64_max : Z := (2 ^ 63 - 1)%Z.

Definition parse_uint (s : string) : option Z :=
  match NilZero.uint_of_string s with
  | Some d => Some (Z.of_N (N.of_uint d))
  | None => None
  end.

Definition in_int64 (z : Z) : bool := ((int64_min <=? z) && (z <=? int64_max))%Z.

Definition parse_int (s : string) : option Z :=
  let r :=
    match s with
    | String "-" s' => Z.opp <$> parse_uint s'
    | String "+" s' => parse_uint s'
    | _ => parse_uint s
    end in
  match r with
  | Some z => if in_int64 z then Some z else None
  | None => None
  end.

(** Conversion of an unsigned 64-bit value to a signed one, [int64(x)], and
    of an [int] to [int32], [int32(x)]: two's complement truncation. *)
Definition wrap_int (w : Z) (z : Z) : Z :=
  let m := (z mod 2 ^ w)%Z in if (m <? 2 ^ (w - 1))%Z then m else (m - 2 ^ w)%Z.
Definition to_int64 : Z -> Z := wrap_int 64.
Definition to_int32 : Z -> Z := wrap_int 32.

(** [hex.EncodeToString]: two lower-case digits per byte *)
Definition hex_digit (n : nat) : ascii :=
  if (n <? 10)%nat then ascii_of_nat (48 + n) else ascii_of_nat (87 + n).

Fixpoint hex_encode (bs : list ascii) : string :=
  match bs with
  | [] => ""
  | b :: bs' =>
      let n := nat_of_ascii b in
      String (hex_digit (n / 16)) (String (hex_digit (n mod 16)) (hex_encode bs'))
  end.

End Go.

(** *** Facts about the string functions *)

Section GoFacts.
Import Go.
#[local] Open Scope string_scope.

Lemma append_assoc (a b c : string) : (a +:+ b) +:+ c = a +:+ (b +:+ c).
Proof. induction a as [|x a IH]; [done|]. exact (f_equal (String x) IH). Qed.
Lemma append_nil_r (a : string) : a +:+ "" = a.
Proof. induction a as [|x a IH]; [done|]. exact (f_equal (String x) IH). Qed.
Lemma length_append (a b : string) :
  String.length (a +:+ b) = (String.length a + String.length b)%nat.
Proof. induction a as [|x a IH]; [done|]. exact (f_equal S IH). Qed.

Lemma drop_bytes_app p s : drop_bytes (String.length p) (p +:+ s) = s.
Proof. induction p; simpl; auto. Qed.

Lemma has_prefix_app p s : has_prefix p (p +:+ s) = true.
Proof. induction p as [|a p IH]; simpl; [done|]. by rewrite Ascii.eqb_refl, IH. Qed.

Lemma has_prefix_spec p s : has_prefix p s = true <-> exists r, s = p +:+ r.
Proof.
  split.
  - revert s. induction p as [|a p IH]; intros s H; [by exists s|].
    destruct s as [|b s]; [done|]. simpl in H.
    apply andb_prop in H as [->%Ascii.eqb_eq [r ->]%IH]. by exists r.
  - intros [r ->]. apply has_prefix_app.
Qed.

Lemma trim_prefix_app p s : trim_prefix p (p +:+ s) = s.
Proof. unfold trim_prefix. by rewrite has_prefix_app, drop_bytes_app. Qed.

Lemma trim_prefix_none p s : has_prefix p s = false -> trim_prefix p s = s.
Proof. unfold trim_prefix. by intros ->. Qed.

Lemma split_on_not_nil c s : split_on c s <> [].
Proof.
  induction s as [|a s IH]; simpl; [done|].
  case_match; [done|]. by destruct (split_on c s).
Qed.

Lemma split_on_join c s : join (String c "") (split_on c s) = s.
Proof.
  induction s as [|a s IH]; simpl; [done|].
  pose proof (split_on_not_nil c s) as Hn.
  destruct (Ascii.eqb_spec a c) as [->|_].
  - destruct (split_on c s); [done|]. simpl in *. by rewrite IH.
  - destruct (split_on c s) as [|w [|w' ws]]; [done| |]; simpl in *; by subst.
Qed.

Lemma cut_app c s x y : cut c s = Some (x, y) -> s = x +:+ String c y.
Proof.
  revert x. induction s as [|a s IH]; intros x H; [done|]. simpl in H.
  destruct (Ascii.eqb_spec a c) as [->|_]; simplify_eq; [done|].
  destruct (cut c s) as [[u v]|]; simplify_eq. simpl. by rewrite (IH u).
Qed.

Lemma parse_uint_itoa z : (0 <= z)%Z -> parse_uint (itoa z) = Some z.
Proof.
  unfold parse_uint, itoa. intros Hz. destruct z as [|p|p]; [done| |lia].
  simpl. unfold NilZero.string_of_int.
  assert (Pos.to_uint p <> Decimal.Nil) as Hn.
  { apply DecimalPos.Unsigned.to_uint_nonnil. }
  rewrite NilZero.usu by done. simpl.
  change (Pos.to_uint p) with (N.to_uint (N.pos p)).
  by rewrite DecimalN.Unsigned.of_to.
Qed.

Lemma itoa_no_sign z : (0 <= z)%Z ->
  match itoa z with String "-" _ => False | String "+" _ => False | _ => True end.
Proof.
  intros Hz. destruct z as [|p|p]; [done| |lia].
  unfold itoa. simpl. destruct (Pos.to_uint p); simpl; exact I.
Qed.

(** [strconv.ParseInt(strconv.FormatInt(z, 10), 10, 64)] gives [z] back for
    every int64: the robot id survives its storage as a string column. *)
Lemma parse_int_itoa z : in_int64 z = true -> parse_int (itoa z) = Some z.
Proof.
  intros Hr. unfold parse_int. destruct (decide (0 <= z)%Z) as [Hz|Hz].
  - pose proof (parse_uint_itoa z Hz) as Hp. pose proof (itoa_no_sign z Hz) as Hs.
    destruct (itoa z) as [|a s]; [by rewrite Hp, Hr|].
    destruct a as [[] [] [] [] [] [] [] []]; try done; by rewrite Hp, Hr.
  - destruct z as [|p|p]; try lia.
    change (itoa (Z.neg p)) with (String "-" (itoa (Z.pos p))). cbv iota beta.
    rewrite parse_uint_itoa by lia.
    change (Z.opp <$> Some (Z.pos p)) with (Some (Z.neg p)). cbv beta iota zeta. by rewrite Hr.
Qed.

Lemma to_int64_small z : in_int64 z = true -> to_int64 z = z.
Proof.
  unfold in_int64, to_int64, wrap_int, int64_min, int64_max. intros H.
  apply andb_prop in H as [H1%Z.leb_le H2%Z.leb_le].
  destruct (Z.ltb_spec (z mod 2 ^ 64) (2 ^ (64 - 1))); Z.div_mod_to_equations; lia.
Qed.

Lemma to_int64_range z : in_int64 (to_int64 z) = true.
Proof.
  unfold in_int64, to_int64, wrap_int, int64_min, int64_max.
  apply andb_true_intro; rewrite !Z.leb_le.
  destruct (Z.ltb_spec (z mod 2 ^ 64) (2 ^ (64 - 1))); Z.div_mod_to_equations; lia.
Qed.

Lemma existsb_forallb_bytes p s :
  existsb_bytes p s = negb (forallb_bytes (fun a => negb (p a)) s).
Proof. induction s as [|a s IH]; simpl; [done|]. rewrite IH. by destruct (p a). Qed.

Lemma hex_encode_length bs : String.length (hex_encode bs) = (2 * length bs)%nat.
Proof. induction bs as [|b bs IH]; simpl; [done|]. rewrite IH. lia. Qed.

Lemma hex_encode_app l1 l2 : hex_encode (l1 ++ l2) = hex_encode l1 +:+ hex_encode l2.
Proof. induction l1 as [|b l1 IH]; simpl; [done|]. by rewrite IH. Qed.

End GoFacts.

(* ------------------------------------------------------------------ *)
(** ** Go errors

    [goerr] is the part of Go's [error] values the program inspects: the
    [*AppError] of handleResponse.go, [sql.ErrNoRows], the [*pq.Error] with its
    SQLSTATE code, [os.ErrNotExist], the error of a cancelled context, an opaque
    error with its text, and [fmt.Errorf("...: %w")]. *)

Inductive goerr :=
| AppErr (msg : string) (code : Z)
| NoRows
| PqErr (code : string)
| NotExist
| Canceled
| PlainErr (msg : string)
| WrapErr (msg : string) (e : goerr).

#[export] Instance goerr_eq_dec : EqDecision goerr.
Proof. solve_decision. Defined.

Module Err.

(** [errors.As(err, &appErr)]: the first AppError of the chain *)
Fixpoint as_app (e : goerr) : option (string * Z) :=
  match e with
  | AppErr m c => Some (m, c)
  | WrapErr _ e' => as_app e'
  | _ => None
  end.

(** [errors.As(err, &pqErr)] *)
Fixpoint as_pq (e : goerr) : option string :=
  match e with
  | PqErr c => Some c
  | WrapErr _ e' => as_pq e'
  | _ => None
  end.

(** [errors.Is(err, sql.ErrNoRows)] *)
Fixpoint is_no_rows (e : goerr) : bool :=
  match e with
  | NoRows => true
  | WrapErr _ e' => is_no_rows e'
  | _ => false
  end.

(** [errors.Is(err, os.ErrNotExist)] *)
Fixpoint is_not_exist (e : goerr) : bool :=
  match e with
  | NotExist => true
  | WrapErr _ e' => is_not_exist e'
  | _ => false
  end.

(** SQLSTATE of a unique violation, foreign-key violation, check violation,
    not-null violation, of a statement in an aborted transaction, and of a
    value that does not parse as the type it is cast to. *)
Definition unique_violation : string := "23505".
Definition foreign_key_violation : string := "23503".
Definition check_violation : string := "23514".
Definition not_null_violation : string := "23502".
Definition in_failed_sql_transaction : string := "25P02".
Definition invalid_text_representation : string := "22P02".

End Err.

Abbreviation result A := (goerr + A)%type.

(* ------------------------------------------------------------------ *)
(** ** Lists: the generic facts the tables and the sync process share *)

Section ListFacts.
Context {A B : Type}.
Implicit Types l : list A.

Lemma find_Some_elem (p : A -> bool) l x : List.find p l = Some x -> x ∈ l /\ p x = true.
Proof. intros [H1 H2]%List.find_some. by rewrite list_elem_of_In. Qed.

Lemma find_None_elem (p : A -> bool) l x : List.find p l = None -> x ∈ l -> p x = false.
Proof. intros E Hx%list_elem_of_In. by eapply List.find_none. Qed.

Lemma find_is_Some (p : A -> bool) l x : x ∈ l -> p x = true -> is_Some (List.find p l).
Proof.
  intros Hx Hp. destruct (List.find p l) eqn:E; [eauto|].
  pose proof (find_None_elem _ _ _ E Hx). congruence.
Qed.

Lemma elem_of_List_filter (p : A -> bool) l x :
  x ∈ List.filter p l <-> x ∈ l /\ p x = true.
Proof. rewrite !list_elem_of_In. apply List.filter_In. Qed.

Lemma List_filter_sublist (p : A -> bool) l : List.filter p l `sublist_of` l.
Proof. induction l as [|a l IH]; simpl; [done|]. case_match; by constructor. Qed.

Lemma NoDup_List_filter (p : A -> bool) l : NoDup l -> NoDup (List.filter p l).
Proof. intros. eapply sublist_NoDup; [done|apply List_filter_sublist]. Qed.

Lemma NoDup_fmap_filter (f : A -> B) (p : A -> bool) l :
  NoDup (f <$> l) -> NoDup (f <$> List.filter p l).
Proof. intros H. eapply sublist_NoDup; [done|]. apply fmap_sublist, List_filter_sublist. Qed.

Lemma Forall_List_filter (P : A -> Prop) (p : A -> bool) l :
  Forall P l -> Forall P (List.filter p l).
Proof. rewrite !Forall_forall. intros H x [Hx _]%elem_of_List_filter. auto. Qed.

(** Updating rows in place keeps every column the update leaves alone. *)
Lemma fmap_if_same (f : A -> B) (p : A -> bool) (g : A -> A) l :
  (forall x, f (g x) = f x) -> f <$> ((fun x => if p x then g x else x) <$> l) = f <$> l.
Proof.
  intros H. rewrite <- list_fmap_compose. apply list_fmap_ext. intros i x _. simpl.
  by destruct (p x).
Qed.

(** A key that occurs once selects one row. *)
Lemma NoDup_fmap_inj (f : A -> B) l x y :
  NoDup (f <$> l) -> x ∈ l -> y ∈ l -> f x = f y -> x = y.
Proof.
  induction l as [|a l IH]; simpl; [by intros _ ?%not_elem_of_nil|].
  rewrite NoDup_cons, !elem_of_cons. intros [Ha Hl] [->|Hx] [->|Hy] E; auto.
  - destruct Ha. rewrite E. by apply list_elem_of_fmap_2.
  - destruct Ha. rewrite <- E. by apply list_elem_of_fmap_2.
Qed.

Lemma NoDup_snoc l x : NoDup l -> x ∉ l -> NoDup (l ++ [x]).
Proof.
  intros Hl Hx. apply NoDup_app. split_and!; [done| |apply NoDup_singleton].
  intros y Hy ->%list_elem_of_singleton. done.
Qed.
End ListFacts.

(** Linear arithmetic with division and modulo by constants *)
Ltac div_lia := zify; Z.to_euclidean_division_equations; lia.

Create HintDb tables.
#[export] Hint Resolve NoDup_fmap_filter Forall_List_filter NoDup_nil_2 : tables.
