(* ===== verification/Utf8.v ===== *)
(** * UTF-8

    Go's [for range] over a string and unicode/utf8: a string is a sequence of
    bytes; decoding yields runes, a malformed byte counts as one U+FFFD. *)

From S2P Require Import Prelude.
From Stdlib Require Import Ascii.

#[local] Open Scope string_scope.
#[local] Open Scope Z_scope.

Definition byte (a : ascii) : Z := Z.of_nat (nat_of_ascii a).
Definition chr (z : Z) : ascii := ascii_of_nat (Z.to_nat z).

Definition RuneError : Z := 65533.

Definition in_range (lo hi : Z) (a : ascii) : bool := (lo <=? byte a) && (byte a <=? hi).
Definition cont : ascii -> bool := in_range 128 191.

(** The bytes allowed after a first byte of a three or four byte sequence *)
Definition second3 (b : Z) : ascii -> bool :=
  if b =? 224 then in_range 160 191 else if b =? 237 then in_range 128 159 else cont.
Definition second4 (b : Z) : ascii -> bool :=
  if b =? 240 then in_range 144 191 else if b =? 244 then in_range 128 143 else cont.

Definition rune2 (a b : Z) : Z := (a - 192) * 64 + (b - 128).
Definition rune3 (a b c : Z) : Z := (a - 224) * 4096 + (b - 128) * 64 + (c - 128).
Definition rune4 (a b c d : Z) : Z :=
  (a - 240) * 262144 + (b - 128) * 4096 + (c - 128) * 64 + (d - 128).

(** The runes of a string, each with whether its bytes were well formed *)
Fixpoint scan (s : string) : list (Z * bool) :=
  match s with
  | "" => []
  | String a s1 =>
      let x := byte a in
      if x <? 128 then (x, true) :: scan s1
      else if x <? 194 then (RuneError, false) :: scan s1
      else if x <? 224 then
        match s1 with
        | String b s2 =>
            if cont b then (rune2 x (byte b), true) :: scan s2 else (RuneError, false) :: scan s1
        | "" => [(RuneError, false)]
        end
      else if x <? 240 then
        match s1 with
        | String b (String c s3) =>
            if second3 x b && cont c then (rune3 x (byte b) (byte c), true) :: scan s3
            else (RuneError, false) :: scan s1
        | _ => (RuneError, false) :: scan s1
        end
      else if x <? 245 then
        match s1 with
        | String b (String c (String d s4)) =>
            if second4 x b && cont c && cont d
            then (rune4 x (byte b) (byte c) (byte d), true) :: scan s4
            else (RuneError, false) :: scan s1
        | _ => (RuneError, false) :: scan s1
        end
      else (RuneError, false) :: scan s1
  end.

Definition runes (s : string) : list Z := fst <$> scan s.

(** [utf8.ValidString] *)
Definition valid (s : string) : bool := forallb snd (scan s).

(** Unicode scalar values *)
Definition scalar (r : Z) : bool :=
  ((0 <=? r) && (r <? 55296)) || ((57344 <=? r) && (r <=? 1114111)).

(** [utf8.EncodeRune] *)
Definition encode_rune (r : Z) : string :=
  let r := if scalar r then r else RuneError in
  if r <? 128 then String (chr r) ""
  else if r <? 2048 then String (chr (192 + r / 64)) (String (chr (128 + r mod 64)) "")
  else if r <? 65536 then
    String (chr (224 + r / 4096)) (String (chr (128 + r / 64 mod 64)) (String (chr (128 + r mod 64)) ""))
  else
    String (chr (240 + r / 262144)) (String (chr (128 + r / 4096 mod 64))
      (String (chr (128 + r / 64 mod 64)) (String (chr (128 + r mod 64)) ""))).

Fixpoint encode (l : list Z) : string :=
  match l with [] => "" | r :: l' => encode_rune r +:+ encode l' end.

(* ------------------------------------------------------------------ *)
(** ** Round trip *)

Lemma byte_chr z : 0 <= z < 256 -> byte (chr z) = z.
Proof. intros Hz. unfold byte, chr. rewrite nat_ascii_embedding by lia. lia. Qed.

Lemma chr_byte a : chr (byte a) = a.
Proof. unfold byte, chr. rewrite Nat2Z.id. apply ascii_nat_embedding. Qed.

Lemma byte_range a : 0 <= byte a < 256.
Proof. unfold byte. pose proof (nat_ascii_bounded a). lia. Qed.

Lemma ltb_t x y : x < y -> (x <? y) = true.
Proof. apply Z.ltb_lt. Qed.
Lemma ltb_f x y : y <= x -> (x <? y) = false.
Proof. apply Z.ltb_ge. Qed.

Lemma cont_chr z : 128 <= z < 192 -> cont (chr z) = true.
Proof. intros Hz. unfold cont, in_range. rewrite byte_chr by lia. lia. Qed.

Lemma mod64 z : 0 <= z mod 64 < 64.
Proof. apply Z.mod_pos_bound. lia. Qed.

Lemma app_cons a x s : String a x +:+ s = String a (x +:+ s).
Proof. done. Qed.
Lemma app_nil s : "" +:+ s = s.
Proof. done. Qed.

Lemma scan_encode_rune r s : scalar r = true -> scan (encode_rune r +:+ s) = (r, true) :: scan s.
Proof.
  intros Hr. unfold encode_rune. rewrite Hr. cbv iota zeta.
  assert (0 <= r < 55296 \/ 57344 <= r <= 1114111) as Hs by (unfold scalar in Hr; lia). clear Hr.
  destruct (Z.ltb_spec r 128).
  { rewrite ?app_cons, app_nil. cbn [scan]. rewrite byte_chr by lia. by rewrite ltb_t by lia. }
  pose proof (mod64 r). destruct (Z.ltb_spec r 2048).
  { rewrite ?app_cons, app_nil. cbn [scan]. rewrite !byte_chr by (try div_lia; lia).
    rewrite (ltb_f _ 128), (ltb_f _ 194), (ltb_t _ 224) by div_lia.
    rewrite cont_chr by lia. unfold rune2. do 2 f_equal. div_lia. }
  pose proof (mod64 (r / 64)). destruct (Z.ltb_spec r 65536).
  { rewrite ?app_cons, app_nil. cbn [scan]. rewrite !byte_chr by (try div_lia; lia).
    rewrite (ltb_f _ 128), (ltb_f _ 194), (ltb_f _ 224), (ltb_t _ 240) by div_lia.
    rewrite cont_chr by lia. replace (second3 _ _) with true; [unfold rune3; do 2 f_equal; div_lia|].
    unfold second3, cont, in_range. repeat case_match; rewrite byte_chr by lia; div_lia. }
  pose proof (mod64 (r / 4096)).
  rewrite ?app_cons, app_nil. cbn [scan]. rewrite !byte_chr by (try div_lia; lia).
  rewrite (ltb_f _ 128), (ltb_f _ 194), (ltb_f _ 224), (ltb_f _ 240), (ltb_t _ 245) by div_lia.
  rewrite !cont_chr by lia. replace (second4 _ _) with true; [unfold rune4; do 2 f_equal; div_lia|].
  unfold second4, cont, in_range. repeat case_match; rewrite byte_chr by lia; div_lia.
Qed.

Lemma runes_encode l : Forall (fun r => scalar r = true) l -> runes (encode l) = l.
Proof.
  unfold runes. induction 1 as [|r l Hr _ IH]; [done|].
  cbn [encode]. rewrite scan_encode_rune by done. cbn. by rewrite IH.
Qed.

(** ASCII text is its own list of runes. *)
Lemma scan_ascii a s : byte a < 128 -> scan (String a s) = (byte a, true) :: scan s.
Proof. intros Ha. cbn [scan]. by rewrite ltb_t. Qed.

(** What [scan] yields are scalar values; a malformed byte is U+FFFD. *)
Definition scanned (x : Z * bool) : Prop := scalar x.1 = true /\ (x.2 = false -> x.1 = RuneError).

Lemma scan_cases (P : list (Z * bool) -> Prop) s :
  P [] -> (forall x s', (String.length s' < String.length s)%nat -> scanned x -> P (x :: scan s')) ->
  P (scan s).
Proof.
  intros H0 H1. destruct s as [|a s1]; [done|]. cbn [scan].
  assert (forall s', (String.length s' < String.length (String a s1))%nat ->
    P ((RuneError, false) :: scan s')) as Hbad by (intros s' Hs; by apply H1).
  pose proof (byte_range a) as Ha.
  assert (forall b c, in_range b c a = true -> b <= byte a <= c) by (unfold in_range; lia).
  repeat match goal with
  | |- P ((RuneError, false) :: scan _) => apply Hbad; cbn; lia
  | |- P [(RuneError, false)] => apply (Hbad ""); cbn; lia
  | |- P (if ?b then _ else _) => destruct b eqn:?
  | |- P (match ?s with "" => _ | String _ _ => _ end) => destruct s as [|? ?]
  | H : _ && _ = true |- _ => apply andb_prop in H as [??]
  end; (apply H1; [cbn; lia|]; split; [|done]; cbn [fst]);
  unfold scalar, rune2, rune3, rune4, second3, second4, cont, in_range in *;
  repeat case_match; lia.
Qed.

Lemma scan_scanned s : Forall scanned (scan s).
Proof.
  remember (String.length s) as n eqn:En. revert s En.
  induction n as [n IH] using lt_wf_ind. intros s ->.
  apply scan_cases; [constructor|]. intros x s' Hs Hx. constructor; eauto.
Qed.
