(* ===== verification/GoLib.v ===== *)
(** * Facilities of Go the components share

    strings.ToLower and strings.TrimSpace beyond ASCII; path/filepath; and parameters: what the
    language leaves unspecified (the iteration order of a map), what
    follows tables this development does not hold (fmt's %q), and net/url. *)

From stdpp Require Import gmap.
From Stdlib Require Import Ascii.
From S2P Require Import Prelude Utf8.

#[local] Open Scope string_scope.

(** [for k, v := range m]: some order, of each loop its own.  The flag and the
    text tell the loops apart. *)
Class RangeOrder := {
  range : forall {A}, bool -> string -> gmap string A -> list (string * A);
  range_perm : forall A b p (m : gmap string A), range b p m ≡ₚ map_to_list m }.

Definition key_order : RangeOrder :=
  {| range _ _ _ m := map_to_list m; range_perm _ _ _ _ := reflexivity _ |}.

(** fmt's %q (strconv.Quote), whose escapes follow the tables of package unicode *)
Class GoQuote := go_quote : string -> string.

(** net/url: [url.URL] as Parse leaves it; [inl] is the error's text. *)
Class NetUrl := {
  url : Type;
  Parse : string -> string + url;
  ParseRequestURI : string -> string + url;
  url_scheme : url -> string;
  url_host : url -> string;
  url_path : url -> string;
  with_origin : string -> string -> url -> url;     (* u.Scheme = _; u.Host = _ *)
  ResolveReference : url -> string -> string + url; (* u.Parse(_) *)
  idna_hostname : url -> string;                    (* Hostname() in its ASCII form *)
  url_string : url -> string }.

(** unicode.ToLower where the result is ASCII: besides A-Z, the Kelvin sign
    and the dotted capital I.  The results are compared with ASCII text
    only, so the other runes are left alone. *)
Definition lower_rune (r : Z) : Z :=
  (if (65 <=? r) && (r <=? 90) then r + 32
   else if r =? 8490 then 107 else if r =? 304 then 105 else r)%Z.

Definition ToLower (s : string) : string := Utf8.encode (lower_rune <$> Utf8.runes s).

(** unicode.IsSpace *)
Definition is_space_rune (r : Z) : bool :=
  ((r =? 32) || ((9 <=? r) && (r <=? 13)) || (r =? 133) || (r =? 160) || (r =? 5760) ||
   ((8192 <=? r) && (r <=? 8202)) || (r =? 8232) || (r =? 8233) || (r =? 8239) || (r =? 8287) ||
   (r =? 12288))%Z.

Fixpoint trim_runes (l : list Z) : list Z :=
  match l with r :: l' => if is_space_rune r then trim_runes l' else l | [] => [] end.

(** [strings.TrimSpace], compared with ASCII text only *)
Definition TrimSpace (s : string) : string :=
  Utf8.encode (reverse (trim_runes (reverse (trim_runes (Utf8.runes s))))).

(* ------------------------------------------------------------------ *)
(** ** path/filepath on Unix *)

(** The elements of a path after ".", ".." and empty ones are resolved, in
    reverse; [rooted]: ".." at the root is dropped. *)
Definition path_step (rooted : bool) (out : list string) (e : string) : list string :=
  if String.eqb e "" || String.eqb e "." then out
  else if String.eqb e ".." then
    match out with
    | x :: out' => if String.eqb x ".." then e :: out else out'
    | [] => if rooted then [] else [e]
    end
  else e :: out.

Definition path_Clean (path : string) : string :=
  let rooted := Go.has_prefix "/" path in
  let out := Go.join "/" (rev (foldl (path_step rooted) [] (Go.split_on "/" path))) in
  if rooted then "/" +:+ out else if String.eqb out "" then "." else out.

(** Everything up to the last slash *)
Fixpoint up_to_slash (s : string) : string :=
  match s with
  | "" => ""
  | String a s' =>
      let r := up_to_slash s' in
      if String.eqb r "" then (if Ascii.eqb a "/" then String a "" else "") else String a r
  end.

Definition path_Dir (path : string) : string := path_Clean (up_to_slash path).

(** Empty elements are left out; no element at all gives "". *)
Definition path_Join (elems : list string) : string :=
  match List.filter (fun e => negb (String.eqb e "")) elems with
  | [] => ""
  | l => path_Clean (Go.join "/" l)
  end.

Example Dir_of_relative : path_Dir "state.json" = "." /\ path_Dir "/var/lib/../x//state.json" = "/var/x".
Proof. split; reflexivity. Qed.

(** ** Paths and their elements *)

(** No "/" in a text *)
Definition no_slash (s : string) : bool := Go.forallb_bytes (fun a => negb (Ascii.eqb a "/")) s.

Lemma split_plain n : no_slash n = true -> Go.split_on "/" n = [n].
Proof.
  induction n as [|a n IH]; [done|]. cbn. intros [Ha Hn]%andb_prop. apply negb_true_iff in Ha. rewrite Ha.
  by rewrite IH.
Qed.

Lemma split_element n rest : no_slash n = true ->
  Go.split_on "/" (n +:+ String "/" rest) = n :: Go.split_on "/" rest.
Proof.
  induction n as [|a n IH]; [done|]. rewrite Utf8.app_cons. cbn. intros [Ha Hn]%andb_prop.
  apply negb_true_iff in Ha. rewrite Ha, IH by done. done.
Qed.

Lemma no_slash_app s t : no_slash (s +:+ t) = no_slash s && no_slash t.
Proof.
  unfold no_slash. induction s as [|a s IH]; [done|]. rewrite Utf8.app_cons. cbn [Go.forallb_bytes].
  by rewrite <- andb_assoc, IH.
Qed.
