(* ===== verification/Json.v ===== *)
(** * encoding/json

    The parts of Go's encoding/json the program uses: the scanner's grammar
    (white space, escapes, nesting depth), json.Marshal's strings and compact
    output, json.Indent, and json.Unmarshal into an [any].  A text is cut into
    tokens first; a string token keeps its bytes as they are written. *)

From stdpp Require Import gmap sorting.
From Stdlib Require Import Ascii SpecFloat.
From S2P Require Import Prelude Utf8.

#[local] Open Scope string_scope.

(* ------------------------------------------------------------------ *)
(** ** Tokens *)

Inductive token :=
| LBrace | RBrace | LBracket | RBracket | Colon | Comma
| TNull | TTrue | TFalse
| TNum (lit : string)
| TStr (raw : string).      (* between the quotes *)

#[export] Instance token_eq_dec : EqDecision token.
Proof. solve_decision. Defined.

Definition dquote : ascii := ascii_of_nat 34.

Definition is_json_space (a : ascii) : bool :=
  let n := nat_of_ascii a in (n =? 32)%nat || (n =? 9)%nat || (n =? 10)%nat || (n =? 13)%nat.

Definition hex_value (a : ascii) : option Z :=
  let n := Z.of_nat (nat_of_ascii a) in
  if Go.is_digit_ascii a then Some (n - 48)%Z
  else if Go.between 97 102 a then Some (n - 87)%Z
  else if Go.between 65 70 a then Some (n - 55)%Z
  else None.

Definition hex4 (a b c d : ascii) : option Z :=
  match hex_value a, hex_value b, hex_value c, hex_value d with
  | Some a, Some b, Some c, Some d => Some (a * 4096 + b * 256 + c * 16 + d)%Z
  | _, _, _, _ => None
  end.

(** The byte a two-character escape stands for *)
Definition escape_value (c : ascii) : option ascii :=
  if Ascii.eqb c dquote || Ascii.eqb c "\" || Ascii.eqb c "/" then Some c
  else if Ascii.eqb c "b" then Some (ascii_of_nat 8)
  else if Ascii.eqb c "f" then Some (ascii_of_nat 12)
  else if Ascii.eqb c "n" then Some (ascii_of_nat 10)
  else if Ascii.eqb c "r" then Some (ascii_of_nat 13)
  else if Ascii.eqb c "t" then Some (ascii_of_nat 9)
  else None.

(** After the opening quote: the text up to the closing one, and the rest *)
Fixpoint lex_string (s : string) : option (string * string) :=
  match s with
  | "" => None
  | String a s1 =>
      if Ascii.eqb a dquote then Some ("", s1)
      else if Ascii.eqb a "\" then
        match s1 with
        | "" => None
        | String c s2 =>
            if Ascii.eqb c "u" then
              match s2 with
              | String h1 (String h2 (String h3 (String h4 s3))) =>
                  match hex4 h1 h2 h3 h4, lex_string s3 with
                  | Some _, Some (x, r) =>
                      Some (String a (String c (String h1 (String h2 (String h3 (String h4 x))))), r)
                  | _, _ => None
                  end
              | _ => None
              end
            else match escape_value c, lex_string s2 with
                 | Some _, Some (x, r) => Some (String a (String c x), r)
                 | _, _ => None
                 end
        end
      else if (nat_of_ascii a <? 32)%nat then None
      else match lex_string s1 with
           | Some (x, r) => Some (String a x, r)
           | None => None
           end
  end.

Fixpoint span_digits (s : string) : string * string :=
  match s with
  | String a s' =>
      if Go.is_digit_ascii a then let '(x, r) := span_digits s' in (String a x, r) else ("", s)
  | "" => ("", "")
  end.

Definition lex_integer (s : string) : option (string * string) :=
  match s with
  | String a s' =>
      if Ascii.eqb a "0" then Some ("0", s')
      else if Go.is_digit_ascii a then Some (span_digits s)
      else None
  | "" => None
  end.

Definition lex_fraction (s : string) : option (string * string) :=
  match s with
  | String "." s' =>
      let '(x, r) := span_digits s' in
      if String.eqb x "" then None else Some (String "." x, r)
  | _ => Some ("", s)
  end.

Definition lex_exponent (s : string) : option (string * string) :=
  match s with
  | String e s' =>
      if Ascii.eqb e "e" || Ascii.eqb e "E" then
        let '(sign, s2) :=
          match s' with
          | String "+" t => ("+", t)
          | String "-" t => ("-", t)
          | _ => ("", s')
          end in
        let '(x, r) := span_digits s2 in
        if String.eqb x "" then None else Some (String e (sign +:+ x), r)
      else Some ("", s)
  | "" => Some ("", "")
  end.

Definition lex_number (s : string) : option (string * string) :=
  let '(sign, s0) := match s with String "-" t => ("-", t) | _ => ("", s) end in
  match lex_integer s0 with
  | None => None
  | Some (i, s1) =>
      match lex_fraction s1 with
      | None => None
      | Some (f, s2) =>
          match lex_exponent s2 with
          | None => None
          | Some (e, s3) => Some (sign +:+ i +:+ f +:+ e, s3)
          end
      end
  end.

Definition punctuation (a : ascii) : option token :=
  if Ascii.eqb a "{" then Some LBrace else if Ascii.eqb a "}" then Some RBrace
  else if Ascii.eqb a "[" then Some LBracket else if Ascii.eqb a "]" then Some RBracket
  else if Ascii.eqb a ":" then Some Colon else if Ascii.eqb a "," then Some Comma
  else None.

(** One token of a text that does not start with white space *)
Definition lex_token (s : string) : option (token * string) :=
  match s with
  | "" => None
  | String a s' =>
      match punctuation a with
      | Some t => Some (t, s')
      | None =>
          if Ascii.eqb a dquote then
            match lex_string s' with Some (x, r) => Some (TStr x, r) | None => None end
          else if Go.has_prefix "null" s then Some (TNull, Go.drop_bytes 4 s)
          else if Go.has_prefix "true" s then Some (TTrue, Go.drop_bytes 4 s)
          else if Go.has_prefix "false" s then Some (TFalse, Go.drop_bytes 5 s)
          else match lex_number s with Some (x, r) => Some (TNum x, r) | None => None end
      end
  end.

(** Every token consumes a byte: the length of the text is enough fuel. *)
Fixpoint lex (fuel : nat) (s : string) : option (list token) :=
  match s with
  | "" => Some []
  | String a s' =>
      match fuel with
      | O => None
      | S fuel' =>
          if is_json_space a then lex fuel' s'
          else match lex_token s with
               | None => None
               | Some (t, r) =>
                   match lex fuel' r with Some ts => Some (t :: ts) | None => None end
               end
      end
  end.

Definition tokenize (s : string) : option (list token) := lex (String.length s) s.

(* ------------------------------------------------------------------ *)
(** ** Values and the grammar *)

#[warnings="-register-all"]
Inductive json :=
| JNull
| JBool (b : bool)
| JNum (lit : string)
| JStr (s : string)
| JArr (l : list json)
| JObj (l : list (string * json)).

Definition is_surrogate (r : Z) : bool := ((55296 <=? r) && (r <? 57344))%Z.
Definition is_high (r : Z) : bool := ((55296 <=? r) && (r <? 56320))%Z.
Definition is_low (r : Z) : bool := ((56320 <=? r) && (r <? 57344))%Z.

Definition pair_value (hi lo : Z) : Z := ((hi - 55296) * 1024 + (lo - 56320) + 65536)%Z.

(** Invalid bytes become U+FFFD. *)
Definition coerce (s : string) : string := Utf8.encode (Utf8.runes s).

(** The escapes of a string literal; a surrogate without its other half
    becomes U+FFFD. *)
Fixpoint unescape (s : string) : string :=
  match s with
  | "" => ""
  | String a s1 =>
      if negb (Ascii.eqb a "\") then String a (unescape s1)
      else match s1 with
      | "" => ""
      | String c s2 =>
          if Ascii.eqb c "u" then
            match s2 with
            | String h1 (String h2 (String h3 (String h4 s3))) =>
                let r := default 0%Z (hex4 h1 h2 h3 h4) in
                if is_surrogate r then
                  match s3 with
                  | String "\" (String "u" (String g1 (String g2 (String g3 (String g4 s4))))) =>
                      let r' := default 0%Z (hex4 g1 g2 g3 g4) in
                      if is_high r && is_low r'
                      then Utf8.encode_rune (pair_value r r') +:+ unescape s4
                      else Utf8.encode_rune Utf8.RuneError +:+ unescape s3
                  | _ => Utf8.encode_rune Utf8.RuneError +:+ unescape s3
                  end
                else Utf8.encode_rune r +:+ unescape s3
            | _ => ""
            end
          else String (default c (escape_value c)) (unescape s2)
      end
  end.

Definition unquote (raw : string) : string := unescape (coerce raw).

Section Elements.
Context (value : list token -> option (json * list token)).

(** After "[" when the array is not empty *)
Fixpoint elements (fuel : nat) (ts : list token) : option (list json * list token) :=
  match fuel with
  | O => None
  | S fuel' =>
      match value ts with
      | Some (v, RBracket :: r) => Some ([v], r)
      | Some (v, Comma :: r) =>
          match elements fuel' r with Some (l, r') => Some (v :: l, r') | None => None end
      | _ => None
      end
  end.

Fixpoint members (fuel : nat) (ts : list token) : option (list (string * json) * list token) :=
  match fuel with
  | O => None
  | S fuel' =>
      match ts with
      | TStr k :: Colon :: ts' =>
          match value ts' with
          | Some (v, RBrace :: r) => Some ([(unquote k, v)], r)
          | Some (v, Comma :: r) =>
              match members fuel' r with
              | Some (l, r') => Some ((unquote k, v) :: l, r')
              | None => None
              end
          | _ => None
          end
      | _ => None
      end
  end.
End Elements.

Definition maxNestingDepth : N := 10000.

(** [depth] arrays and objects are open. *)
Fixpoint value (fuel : nat) (depth : N) (ts : list token) : option (json * list token) :=
  match fuel with
  | O => None
  | S fuel' =>
      let sub := value fuel' (depth + 1)%N in
      match ts with
      | TNull :: r => Some (JNull, r)
      | TTrue :: r => Some (JBool true, r)
      | TFalse :: r => Some (JBool false, r)
      | TNum x :: r => Some (JNum x, r)
      | TStr x :: r => Some (JStr (unquote x), r)
      | LBracket :: r =>
          if (maxNestingDepth <? depth + 1)%N then None
          else match r with
               | RBracket :: r' => Some (JArr [], r')
               | _ => match elements sub fuel' r with
                      | Some (l, r') => Some (JArr l, r') | None => None end
               end
      | LBrace :: r =>
          if (maxNestingDepth <? depth + 1)%N then None
          else match r with
               | RBrace :: r' => Some (JObj [], r')
               | _ => match members sub fuel' r with
                      | Some (l, r') => Some (JObj l, r') | None => None end
               end
      | _ => None
      end
  end.

(** One value and nothing after it *)
Definition parse (s : string) : option json :=
  match tokenize s with
  | None => None
  | Some ts =>
      match value (length ts) 0 ts with
      | Some (v, []) => Some v
      | _ => None
      end
  end.

(* ------------------------------------------------------------------ *)
(** ** Output *)

(** appendString with HTML escaping, rune by rune *)
Definition hex_escape (r : Z) : string :=
  let digit k := String (Go.hex_digit (Z.to_nat (r / k mod 16))) "" in
  "\u" +:+ digit 4096%Z +:+ digit 256%Z +:+ digit 16%Z +:+ digit 1%Z.

Definition html_unsafe (r : Z) : bool := ((r <? 32) || (r =? 60) || (r =? 62) || (r =? 38))%Z.

Definition quote_rune (x : Z * bool) : string :=
  let '(r, ok) := x in
  if negb ok then "\ufffd"
  else if (r =? 34)%Z then String "\" (String dquote "")
  else if (r =? 92)%Z then "\\"
  else if (r =? 8)%Z then "\b"
  else if (r =? 12)%Z then "\f"
  else if (r =? 10)%Z then "\n"
  else if (r =? 13)%Z then "\r"
  else if (r =? 9)%Z then "\t"
  else if html_unsafe r || (r =? 8232)%Z || (r =? 8233)%Z then hex_escape r
  else Utf8.encode_rune r.

Fixpoint concat_map {A} (f : A -> string) (l : list A) : string :=
  match l with [] => "" | x :: l' => f x +:+ concat_map f l' end.

Definition quote_raw (s : string) : string := concat_map quote_rune (Utf8.scan s).

Section Tokens.
Context (toks : json -> list token).

(** After "[" and after "{" *)
Fixpoint arr_tokens (l : list json) : list token :=
  match l with
  | [] => [RBracket]
  | v :: l' => (toks v ++ match l' with [] => [RBracket] | _ => Comma :: arr_tokens l' end)%list
  end.

Fixpoint obj_tokens (l : list (string * json)) : list token :=
  match l with
  | [] => [RBrace]
  | (k, v) :: l' =>
      TStr (quote_raw k) :: Colon ::
      (toks v ++ match l' with [] => [RBrace] | _ => Comma :: obj_tokens l' end)%list
  end.
End Tokens.

Fixpoint tokens (v : json) : list token :=
  match v with
  | JNull => [TNull]
  | JBool b => [if b then TTrue else TFalse]
  | JNum x => [TNum x]
  | JStr s => [TStr (quote_raw s)]
  | JArr l => LBracket :: arr_tokens tokens l
  | JObj l => LBrace :: obj_tokens tokens l
  end.

Definition token_text (t : token) : string :=
  match t with
  | LBrace => "{" | RBrace => "}" | LBracket => "[" | RBracket => "]" | Colon => ":" | Comma => ","
  | TNull => "null" | TTrue => "true" | TFalse => "false"
  | TNum x => x
  | TStr x => String dquote (x +:+ String dquote "")
  end.

(** json.Marshal's layout *)
Definition compact (ts : list token) : string := concat_map token_text ts.

Definition newline (depth : nat) : string :=
  String (ascii_of_nat 10) (concat_map (fun _ => "  ") (seq 0 depth)).

(** json.Indent with prefix "" and indent "  " *)
Fixpoint indent (need : bool) (depth : nat) (ts : list token) : string :=
  match ts with
  | [] => ""
  | t :: r =>
      match t with
      | RBrace | RBracket =>
          if need then token_text t +:+ indent false depth r
          else newline (depth - 1) +:+ token_text t +:+ indent false (depth - 1) r
      | _ =>
          let '(pre, depth) := if need then (newline (S depth), S depth) else ("", depth) in
          pre +:+
          match t with
          | LBrace | LBracket => token_text t +:+ indent true depth r
          | Comma => "," +:+ newline depth +:+ indent false depth r
          | Colon => ": " +:+ indent false depth r
          | _ => token_text t +:+ indent false depth r
          end
      end
  end.

Definition Marshal (v : json) : string := compact (tokens v).
Definition MarshalIndent (v : json) : string := indent false 0 (tokens v).

Definition jint (z : Z) : json := JNum (Go.itoa z).


(* ------------------------------------------------------------------ *)
(** ** Well-formed values *)

Definition valid_utf8 (s : string) : Prop := coerce s = s.

Definition valid_number (x : string) : Prop := lex_number x = Some (x, "").

Section JsonInd.
Context (P : json -> Prop) (Hnull : P JNull) (Hbool : forall b, P (JBool b))
  (Hnum : forall x, P (JNum x)) (Hstr : forall s, P (JStr s))
  (Harr : forall l, Forall P l -> P (JArr l))
  (Hobj : forall l, Forall (fun kv => P kv.2) l -> P (JObj l)).

Fixpoint json_nested_ind (v : json) : P v :=
  match v with
  | JNull => Hnull
  | JBool b => Hbool b
  | JNum x => Hnum x
  | JStr s => Hstr s
  | JArr l => Harr l ((fix go l : Forall P l :=
      match l with [] => Forall_nil_2 _ | v :: l' => Forall_cons_2 _ _ _ (json_nested_ind v) (go l') end) l)
  | JObj l => Hobj l ((fix go l : Forall (fun kv => P kv.2) l :=
      match l with
      | [] => Forall_nil_2 _
      | kv :: l' => Forall_cons_2 _ _ _ (json_nested_ind kv.2) (go l')
      end) l)
  end.
End JsonInd.

(** Nesting depth *)
Fixpoint depth (v : json) : N :=
  match v with
  | JArr l => 1 + foldr (fun v n => N.max (depth v) n) 0 l
  | JObj l => 1 + foldr (fun kv n => N.max (depth kv.2) n) 0 l
  | _ => 0
  end%N.

Fixpoint wf (v : json) : Prop :=
  match v with
  | JNum x => valid_number x
  | JStr s => valid_utf8 s
  | JArr l => foldr (fun v P => wf v /\ P) True l
  | JObj l => foldr (fun kv P => valid_utf8 kv.1 /\ wf kv.2 /\ P) True l
  | _ => True
  end.

(* ------------------------------------------------------------------ *)
(** ** String literals *)

Section Strings.

Lemma coerce_encode r t : Utf8.scalar r = true ->
  coerce (Utf8.encode_rune r +:+ t) = Utf8.encode_rune r +:+ coerce t.
Proof. intros Hr. unfold coerce, Utf8.runes. by rewrite Utf8.scan_encode_rune. Qed.

Lemma encode_ascii a : (Utf8.byte a < 128)%Z -> Utf8.encode_rune (Utf8.byte a) = String a "".
Proof.
  intros Ha. pose proof (Utf8.byte_range a). unfold Utf8.encode_rune.
  replace (Utf8.scalar (Utf8.byte a)) with true by (unfold Utf8.scalar; lia). cbv iota zeta.
  rewrite Utf8.ltb_t by done. by rewrite Utf8.chr_byte.
Qed.

Lemma coerce_ascii a t : (Utf8.byte a < 128)%Z -> coerce (String a t) = String a (coerce t).
Proof.
  intros Ha. unfold coerce, Utf8.runes. rewrite Utf8.scan_ascii by done.
  cbn [fmap list_fmap fst Utf8.encode]. by rewrite encode_ascii.
Qed.

(** Bytes that stand for themselves in a literal *)
Definition plain (a : ascii) : bool :=
  negb (Ascii.eqb a dquote) && negb (Ascii.eqb a "\") && (32 <=? nat_of_ascii a)%nat.

Lemma lex_string_plain p t x r : Go.forallb_bytes plain p = true ->
  lex_string t = Some (x, r) -> lex_string (p +:+ t) = Some (p +:+ x, r).
Proof.
  induction p as [|a p IH]; intros Hp Ht; [done|]. cbn [Go.forallb_bytes] in Hp.
  apply andb_prop in Hp as [Ha Hp]. unfold plain in Ha.
  apply andb_prop in Ha as [[Ha1 Ha2]%andb_prop Ha3].
  rewrite Utf8.app_cons. cbn [lex_string].
  apply negb_true_iff in Ha1, Ha2. apply Nat.leb_le in Ha3. rewrite Ha1, Ha2.
  rewrite (proj2 (Nat.ltb_ge _ _) Ha3).
  by rewrite (IH Hp Ht).
Qed.

Lemma unescape_plain p t : Go.forallb_bytes plain p = true ->
  unescape (p +:+ t) = p +:+ unescape t.
Proof.
  induction p as [|a p IH]; intros Hp; [done|]. cbn [Go.forallb_bytes] in Hp.
  apply andb_prop in Hp as [Ha Hp]. unfold plain in Ha.
  apply andb_prop in Ha as [[Ha1 Ha2]%andb_prop Ha3].
  rewrite !Utf8.app_cons. cbn [unescape]. rewrite Ha2. by rewrite (IH Hp).
Qed.

Lemma plain_chr z : (32 <= z < 256)%Z -> z <> 34%Z -> z <> 92%Z -> plain (Utf8.chr z) = true.
Proof.
  intros Hz H1 H2. pose proof (Utf8.byte_chr z ltac:(lia)) as Hb. unfold Utf8.byte in Hb.
  assert (32 <= nat_of_ascii (Utf8.chr z))%nat as Hl%Nat.leb_le by lia.
  unfold plain. rewrite Hl.
  rewrite andb_true_r. apply andb_true_intro.
  split; apply negb_true_iff, Ascii.eqb_neq; intros E; rewrite E in Hb; vm_compute in Hb; lia.
Qed.

Lemma plain_encode r : Utf8.scalar r = true -> (32 <= r)%Z -> r <> 34%Z -> r <> 92%Z ->
  Go.forallb_bytes plain (Utf8.encode_rune r) = true.
Proof.
  intros Hr H1 H2 H3. unfold Utf8.encode_rune. rewrite Hr. cbv iota zeta.
  pose proof (Utf8.mod64 r). pose proof (Utf8.mod64 (r / 64)). pose proof (Utf8.mod64 (r / 4096)).
  assert (r <= 1114111)%Z by (unfold Utf8.scalar in Hr; lia).
  repeat case_match; cbn [Go.forallb_bytes]; rewrite ?plain_chr; try done; div_lia.
Qed.

Lemma hex_value_digit n : (n < 16)%nat -> hex_value (Go.hex_digit n) = Some (Z.of_nat n).
Proof. intros Hn. do 16 (destruct n as [|n]; [done|]). lia. Qed.

Lemma hex4_digits r : (0 <= r < 65536)%Z ->
  let d k := Go.hex_digit (Z.to_nat (r / k mod 16)) in
  hex4 (d 4096%Z) (d 256%Z) (d 16%Z) (d 1%Z) = Some r.
Proof.
  intros Hr d. unfold d, hex4. rewrite !hex_value_digit by div_lia. f_equal. div_lia.
Qed.

Lemma byte_hex_digit n : (n < 16)%nat -> (Utf8.byte (Go.hex_digit n) < 128)%Z.
Proof. intros Hn. do 16 (destruct n as [|n]; [done|]). lia. Qed.

(** One rune of a string literal *)
Lemma hex_escape_eq r : hex_escape r =
  String "\" (String "u" (String (Go.hex_digit (Z.to_nat (r / 4096 mod 16)))
    (String (Go.hex_digit (Z.to_nat (r / 256 mod 16)))
    (String (Go.hex_digit (Z.to_nat (r / 16 mod 16)))
    (String (Go.hex_digit (Z.to_nat (r / 1 mod 16))) ""))))).
Proof. done. Qed.

Inductive rune_form (x : Z * bool) : string -> Prop :=
| FormBad : x = (Utf8.RuneError, false) -> rune_form x "\ufffd"
| FormPlain : (32 <= x.1)%Z -> x.1 <> 34%Z -> x.1 <> 92%Z -> rune_form x (Utf8.encode_rune x.1)
| FormEscape c : c <> "u"%char -> (Utf8.byte c < 128)%Z -> escape_value c = Some (Utf8.chr x.1) ->
    (x.1 < 128)%Z -> rune_form x (String "\" (String c ""))
| FormHex : (0 <= x.1 < 65536)%Z -> is_surrogate x.1 = false -> rune_form x (hex_escape x.1).

Lemma quote_rune_form x : Utf8.scanned x -> rune_form x (quote_rune x).
Proof.
  destruct x as [r ok]. intros [Hs Hbad]. cbn [fst snd] in *. unfold quote_rune.
  destruct ok; [|constructor; by rewrite (Hbad eq_refl)]. cbn [negb].
  assert (0 <= r)%Z by (unfold Utf8.scalar in Hs; lia).
  repeat match goal with
  | |- rune_form _ (if (r =? ?k)%Z then _ else _) =>
      destruct (Z.eqb_spec r k) as [->|?]; [by apply FormEscape|]
  end.
  destruct (html_unsafe r || _ || _) eqn:E.
  - apply (FormHex (r, true)); cbn [fst]; unfold html_unsafe, is_surrogate in *; lia.
  - apply (FormPlain (r, true)); cbn [fst]; unfold html_unsafe in *; lia.
Qed.

Lemma lex_string_rune x t y r : Utf8.scanned x -> lex_string t = Some (y, r) ->
  lex_string (quote_rune x +:+ t) = Some (quote_rune x +:+ y, r).
Proof.
  intros Hx Ht. destruct (quote_rune_form x Hx) as [?|? ? ?|c Hc _ He _|Hr _].
  - rewrite !Utf8.app_cons, !Utf8.app_nil. cbn. by rewrite Ht.
  - apply lex_string_plain; [|done]. by apply plain_encode; [apply Hx|..].
  - rewrite !Utf8.app_cons, !Utf8.app_nil. cbn. apply Ascii.eqb_neq in Hc. by rewrite Hc, He, Ht.
  - rewrite hex_escape_eq, !Utf8.app_cons, !Utf8.app_nil. pose proof (hex4_digits _ Hr) as H4. cbv zeta in H4.
    cbn -[Go.hex_digit Z.div hex4]. by rewrite H4, Ht.
Qed.

Lemma coerce_rune x t : Utf8.scanned x -> coerce (quote_rune x +:+ t) = quote_rune x +:+ coerce t.
Proof.
  intros Hx. destruct (quote_rune_form x Hx) as [?|? ? ?|c _ Hc _ _|Hr _].
  - by rewrite !Utf8.app_cons, !coerce_ascii.
  - apply coerce_encode, Hx.
  - by rewrite !Utf8.app_cons, !coerce_ascii.
  - rewrite hex_escape_eq, !Utf8.app_cons, !coerce_ascii; try done; apply byte_hex_digit; div_lia.
Qed.

Lemma unescape_rune x t : Utf8.scanned x ->
  unescape (quote_rune x +:+ t) = Utf8.encode_rune x.1 +:+ unescape t.
Proof.
  intros Hx. destruct (quote_rune_form x Hx) as [->|? ? ?|c Hc _ He Hr|Hr Hs].
  - done.
  - apply unescape_plain. by apply plain_encode; [apply Hx|..].
  - rewrite !Utf8.app_cons, !Utf8.app_nil. cbn. apply Ascii.eqb_neq in Hc. rewrite Hc, He. cbn.
    destruct Hx as [Hx _]. unfold Utf8.encode_rune. rewrite Hx. cbv iota zeta.
    by rewrite Utf8.ltb_t.
  - rewrite hex_escape_eq, !Utf8.app_cons, !Utf8.app_nil.
    pose proof (hex4_digits _ Hr) as H4. cbv zeta in H4.
    cbn -[Go.hex_digit Z.div hex4 Utf8.encode_rune is_surrogate]. rewrite H4. cbn [default].
    unfold id. by rewrite Hs.
Qed.

Lemma lex_string_quote s t :
  lex_string (quote_raw s +:+ String dquote t) = Some (quote_raw s, t).
Proof.
  unfold quote_raw. induction (Utf8.scan_scanned s) as [|x l Hx _ IH]; [done|].
  cbn [concat_map]. rewrite append_assoc. by apply lex_string_rune.
Qed.

Lemma unquote_quote s : unquote (quote_raw s) = coerce s.
Proof.
  unfold unquote, coerce at 2, Utf8.runes, quote_raw.
  induction (Utf8.scan_scanned s) as [|x l Hx _ IH]; [done|].
  cbn [concat_map fmap list_fmap Utf8.encode].
  rewrite coerce_rune, unescape_rune by done. by f_equal.
Qed.

End Strings.

(* ------------------------------------------------------------------ *)
(** ** Number literals *)

Section Numbers.

(** What may follow a number literal *)
Definition ends_number (r : string) : bool :=
  match r with
  | "" => true
  | String a _ => negb (Go.is_digit_ascii a || Ascii.eqb a "." || Ascii.eqb a "e" || Ascii.eqb a "E")
  end.

(** The lexer [f] reads the same prefix whatever follows. *)
Definition extends (f : string -> option (string * string)) : Prop :=
  forall s x y r, f s = Some (x, y) -> y <> "" \/ ends_number r = true ->
    f (s +:+ r) = Some (x, y +:+ r).

Lemma span_digits_extends s x y r :
  span_digits s = (x, y) -> y <> "" \/ ends_number r = true -> span_digits (s +:+ r) = (x, y +:+ r).
Proof.
  revert x. induction s as [|a s IH]; intros x E H.
  - simplify_eq/=. destruct H as [?|H]; [done|]. destruct r as [|a r]; [done|].
    change ("" +:+ String a r) with (String a r). cbn [span_digits]. cbn [ends_number] in H.
    destruct (Go.is_digit_ascii a); [done|]. done.
  - rewrite Utf8.app_cons. cbn [span_digits] in *. destruct (Go.is_digit_ascii a).
    + destruct (span_digits s) as [u v]. simplify_eq. by rewrite (IH u).
    + simplify_eq. by rewrite Utf8.app_cons.
Qed.

Lemma lex_integer_extends : extends lex_integer.
Proof.
  intros [|a s] x y r E H; [done|]. rewrite Utf8.app_cons. cbn [lex_integer] in *.
  destruct (Ascii.eqb a "0"); [by simplify_eq|].
  destruct (Go.is_digit_ascii a); [|done]. injection E as E. f_equal.
  rewrite <- Utf8.app_cons. by apply span_digits_extends.
Qed.

Lemma lex_fraction_other a s : a <> "."%char -> lex_fraction (String a s) = Some ("", String a s).
Proof. by destruct a as [[] [] [] [] [] [] [] []]. Qed.

Lemma ends_number_not_dot a r : ends_number (String a r) = true -> a <> "."%char.
Proof. by intros H ->. Qed.

Lemma lex_fraction_extends : extends lex_fraction.
Proof.
  intros [|a s] x y r E H.
  - simplify_eq/=. destruct H as [?|H]; [done|]. rewrite Utf8.app_nil.
    destruct r as [|a r]; [done|]. apply lex_fraction_other. by eapply ends_number_not_dot.
  - rewrite Utf8.app_cons. destruct (ascii_dec a ".") as [->|Ha].
    + cbn in *. destruct (span_digits s) as [u v] eqn:Es.
      destruct (String.eqb u "") eqn:Eu; [done|]. simplify_eq.
      by rewrite (span_digits_extends _ _ _ r Es H), Eu.
    + rewrite lex_fraction_other in * by done. by simplify_eq.
Qed.

Lemma lex_exponent_extends : extends lex_exponent.
Proof.
  intros [|e s] x y r E H.
  - simplify_eq/=. destruct H as [?|H]; [done|]. rewrite Utf8.app_nil.
    destruct r as [|a r]; [done|]. cbn [lex_exponent ends_number] in *.
    destruct (Ascii.eqb a "e"); [by rewrite orb_true_r in H|].
    destruct (Ascii.eqb a "E"); [by rewrite orb_true_r in H|]. done.
  - rewrite Utf8.app_cons. cbn [lex_exponent] in *.
    destruct (Ascii.eqb e "e" || Ascii.eqb e "E"); [|by simplify_eq].
    destruct s as [|c s]; [done|]. rewrite Utf8.app_cons.
    assert (forall sg s2, 
      (let '(x, r) := span_digits s2 in
       if String.eqb x "" then None else Some (String e (sg +:+ x), r)) = Some (x, y) ->
      (let '(x, r) := span_digits (s2 +:+ r) in
       if String.eqb x "" then None else Some (String e (sg +:+ x), r)) = Some (x, y +:+ r)) as Hd.
    { intros sg s2 E2. destruct (span_digits s2) as [u v] eqn:Es.
      destruct (String.eqb u "") eqn:Eu; [done|]. simplify_eq.
      by rewrite (span_digits_extends _ _ _ r Es H), Eu. }
    destruct (ascii_dec c "+") as [->|H1]; [by apply (Hd "+")|].
    destruct (ascii_dec c "-") as [->|H2]; [by apply (Hd "-")|].
    assert (forall t, (match String c t with String "+" t => ("+", t) | String "-" t => ("-", t)
                       | _ => ("", String c t) end) = ("", String c t)) as Hc.
    { intros t. destruct c as [[] [] [] [] [] [] [] []]; done. }
    rewrite Hc in E |- *. rewrite <- Utf8.app_cons. by apply (Hd "").
Qed.

Lemma lex_number_extends : extends lex_number.
Proof.
  assert (forall sg s0 x y r, y <> "" \/ ends_number r = true ->
    match lex_integer s0 with
    | None => None
    | Some (i, s1) => match lex_fraction s1 with
      | None => None
      | Some (f, s2) => match lex_exponent s2 with
        | None => None
        | Some (e, s3) => Some (sg +:+ i +:+ f +:+ e, s3) end end end = Some (x, y) ->
    match lex_integer (s0 +:+ r) with
    | None => None
    | Some (i, s1) => match lex_fraction s1 with
      | None => None
      | Some (f, s2) => match lex_exponent s2 with
        | None => None
        | Some (e, s3) => Some (sg +:+ i +:+ f +:+ e, s3) end end end = Some (x, y +:+ r)) as Hd.
  { intros sg s0 x y r H E.
    destruct (lex_integer s0) as [[i s1]|] eqn:E1; [|done].
    destruct (lex_fraction s1) as [[f s2]|] eqn:E2; [|done].
    destruct (lex_exponent s2) as [[e s3]|] eqn:E3; [|done]. simplify_eq.
    assert (s2 <> "" \/ ends_number r = true) as H2.
    { destruct H as [H|H]; [left|by right]. intros ->. by simplify_eq/=. }
    assert (s1 <> "" \/ ends_number r = true) as H1.
    { destruct H2 as [H2|H2]; [left|by right]. intros ->. by simplify_eq/=. }
    by rewrite (lex_integer_extends _ _ _ r E1 H1), (lex_fraction_extends _ _ _ r E2 H2),
      (lex_exponent_extends _ _ _ r E3 H). }
  intros [|c s] x y r E H; [done|]. rewrite Utf8.app_cons. unfold lex_number in *.
  destruct (ascii_dec c "-") as [->|H1]; [by apply (Hd "-")|].
  assert (forall t, (match String c t with String "-" t => ("-", t) | _ => ("", String c t) end)
    = ("", String c t)) as Hc.
  { intros t. destruct c as [[] [] [] [] [] [] [] []]; done. }
  rewrite Hc in E |- *. rewrite <- Utf8.app_cons. by apply (Hd "").
Qed.

Lemma lex_number_first a s x r : lex_number (String a s) = Some (x, r) ->
  a = "-"%char \/ Go.is_digit_ascii a = true.
Proof.
  unfold lex_number. destruct (ascii_dec a "-") as [->|H1]; [by left|]. intros E. right.
  assert ((match String a s with String "-" t => ("-", t) | _ => ("", String a s) end)
    = ("", String a s)) as Hc.
  { destruct a as [[] [] [] [] [] [] [] []]; done. }
  rewrite Hc in E. cbn [lex_integer] in E.
  destruct (Ascii.eqb_spec a "0") as [->|]; [done|]. by destruct (Go.is_digit_ascii a).
Qed.

End Numbers.

(* ------------------------------------------------------------------ *)
(** ** Tokens survive both layouts *)

Section Lexing.

Definition lexes (s : string) (ts : list token) : Prop :=
  forall fuel, (String.length s <= fuel)%nat -> lex fuel s = Some ts.

Definition good_token (t : token) : Prop :=
  match t with
  | TNum x => valid_number x
  | TStr x => exists s, x = quote_raw s
  | _ => True
  end.

Definition is_number (t : token) : bool := match t with TNum _ => true | _ => false end.
Definition is_punctuation (t : token) : bool :=
  match t with LBrace | RBrace | LBracket | RBracket | Colon | Comma => true | _ => false end.

Lemma number_char a : a = "-"%char \/ Go.is_digit_ascii a = true ->
  punctuation a = None /\ Ascii.eqb a dquote = false /\ is_json_space a = false /\
  (forall s, Go.has_prefix "null" (String a s) = false /\ Go.has_prefix "true" (String a s) = false /\
     Go.has_prefix "false" (String a s) = false).
Proof.
  intros [->|H]; [done|].
  destruct a as [[] [] [] [] [] [] [] []]; vm_compute in H; try discriminate H; done.
Qed.

Lemma lex_token_text t r : good_token t -> (is_number t = true -> ends_number r = true) ->
  lex_token (token_text t +:+ r) = Some (t, r) /\
  exists a s, token_text t +:+ r = String a s /\ is_json_space a = false.
Proof.
  intros Hg Hn. destruct t; try (split; [done|by repeat eexists]).
  - cbn [token_text]. cbn in Hg. unfold valid_number in Hg.
    destruct lit as [|a lit]; [done|].
    destruct (number_char a (lex_number_first _ _ _ _ Hg)) as (H1 & H2 & H3 & H4).
    pose proof (lex_number_extends _ _ _ r Hg (or_intror (Hn eq_refl))) as E.
    rewrite Utf8.app_cons in E |- *. split; [|by repeat eexists].
    unfold lex_token. rewrite H1, H2. destruct (H4 (lit +:+ r)) as (-> & -> & ->). by rewrite E.
  - cbn [token_text]. destruct Hg as [s ->]. split; [|by repeat eexists].
    rewrite Utf8.app_cons, append_assoc, Utf8.app_cons, Utf8.app_nil.
    cbn [lex_token]. replace (punctuation dquote) with (@None token) by done.
    rewrite Ascii.eqb_refl. by rewrite lex_string_quote.
Qed.

Lemma lexes_nil : lexes "" [].
Proof. by intros [|fuel] _. Qed.

Lemma lexes_space a s ts : is_json_space a = true -> lexes s ts -> lexes (String a s) ts.
Proof.
  intros Ha Hs [|fuel] Hf; [cbn in Hf; lia|]. cbn [lex]. rewrite Ha. apply Hs. cbn in Hf. lia.
Qed.

Lemma lexes_token t r ts : good_token t -> (is_number t = true -> ends_number r = true) ->
  lexes r ts -> lexes (token_text t +:+ r) (t :: ts).
Proof.
  intros Hg Hn Hr. destruct (lex_token_text t r Hg Hn) as [El (a & s & Es & Ha)].
  assert (String.length r < String.length (token_text t +:+ r))%nat as Hl.
  { rewrite length_append. destruct t as [| | | | | | | | |[|]|]; cbn; try lia. discriminate Hg. }
  intros fuel Hf. rewrite Es in *. destruct fuel as [|fuel]; [cbn in Hf; lia|].
  cbn [lex]. rewrite Ha, El. rewrite Hr by lia. done.
Qed.

Lemma lexes_spaces n s ts : lexes s ts ->
  lexes (concat_map (fun _ => "  ") (seq 0 n) +:+ s) ts.
Proof.
  intros Hs. generalize 0%nat. induction n as [|n IH]; intros k; [done|].
  cbn [seq concat_map]. rewrite append_assoc.
  change ("  " +:+ ?x) with (String " " (String " " x)). by repeat apply lexes_space.
Qed.

Lemma lexes_newline d s ts : lexes s ts -> lexes (newline d +:+ s) ts.
Proof.
  intros Hs. unfold newline. rewrite Utf8.app_cons. apply lexes_space; [done|].
  by apply lexes_spaces.
Qed.

(** A number is followed by punctuation. *)
Fixpoint separated (ts : list token) : Prop :=
  match ts with
  | [] => True
  | t :: r =>
      good_token t /\
      (is_number t = true -> match r with [] => True | u :: _ => is_punctuation u = true end) /\
      separated r
  end.

Lemma lexes_compact ts : separated ts -> lexes (compact ts) ts.
Proof.
  induction ts as [|t ts IH]; [intros; apply lexes_nil|].
  intros (Hg & Hn & Hs). apply lexes_token; [done| |by apply IH].
  intros Ht. specialize (Hn Ht). destruct ts as [|u ts]; [done|]. by destruct u.
Qed.

Lemma ends_number_indent d ts :
  match ts with [] => True | u :: _ => is_punctuation u = true end ->
  ends_number (indent false d ts) = true.
Proof. destruct ts as [|u ts]; [done|]. by destruct u. Qed.

Lemma lexes_indent ts : separated ts -> forall need d, lexes (indent need d ts) ts.
Proof.
  induction ts as [|t ts IH]; [intros; apply lexes_nil|].
  intros (Hg & Hn & Hs) need d. specialize (IH Hs).
  assert (forall b d', lexes (token_text t +:+ indent false d' ts) (t :: ts) /\
    (is_number t = false -> lexes (token_text t +:+ indent b d' ts) (t :: ts))) as Ht.
  { intros b d'. split.
    - apply lexes_token; [done| |done]. intros Hi. by apply ends_number_indent, Hn.
    - intros Hi. apply lexes_token; [done| |done]. congruence. }
  assert (forall (b : bool) d' s ts, lexes s ts -> lexes ((if b then newline d' else "") +:+ s) ts) as Hp.
  { intros [] d' s ts' H; [by apply lexes_newline|done]. }
  destruct t; cbn [indent];
    try (destruct need; cbv iota beta zeta;
         [try apply lexes_newline; by apply (Ht true)
         |try apply lexes_newline; rewrite ?Utf8.app_nil; by apply (Ht true)]).
  - destruct need; cbv iota beta zeta; [apply lexes_newline|rewrite Utf8.app_nil];
      change (": " +:+ ?x) with (token_text Colon +:+ String " " x);
      (apply lexes_token; [done|done|]); by apply lexes_space.
  - destruct need; cbv iota beta zeta; [apply lexes_newline|rewrite Utf8.app_nil];
      change ("," +:+ ?x) with (token_text Comma +:+ x);
      (apply lexes_token; [done|done|]); by apply lexes_newline.
Qed.

End Lexing.

(* ------------------------------------------------------------------ *)
(** ** The grammar reads back what is printed *)

Section Grammar.
#[local] Open Scope list_scope.

Definition reads_back (v : json) : Prop :=
  wf v -> forall fuel d rest, (length (tokens v) <= fuel)%nat -> (d + depth v <= maxNestingDepth)%N ->
  value fuel d (tokens v ++ rest) = Some (v, rest).

Lemma unquote_valid s : valid_utf8 s -> unquote (quote_raw s) = s.
Proof. intros H. by rewrite unquote_quote. Qed.

Lemma tokens_not_nil v : exists t r, tokens v = t :: r /\ t <> RBracket.
Proof. destruct v as [|[]| | | |]; by repeat eexists. Qed.

Lemma elements_read l m d : l <> [] -> Forall reads_back l -> wf (JArr l) ->
  (d + foldr (fun v n => N.max (depth v) n) 0 l <= maxNestingDepth)%N ->
  forall n rest, (length (arr_tokens tokens l) <= n)%nat -> (length (arr_tokens tokens l) <= m)%nat ->
  elements (value m d) n (arr_tokens tokens l ++ rest) = Some (l, rest).
Proof.
  intros Hl HF. revert Hl. induction HF as [|v l Hv HF IH]; [done|].
  intros _ [Hw Hws] Hd n rest Hn Hm. cbn [foldr] in Hd.
  destruct n as [|n]; [cbn in Hn; rewrite length_app in Hn; destruct l; cbn in Hn; lia|].
  cbn [arr_tokens elements] in *. rewrite !length_app in *. rewrite <- app_assoc.
  rewrite Hv by (done || lia). destruct l as [|v' l]; [done|].
  cbn [length] in Hn, Hm. cbn [app].
  by rewrite IH by (done || lia).
Qed.

Lemma members_read l m d : l <> [] -> Forall (fun kv => reads_back kv.2) l -> wf (JObj l) ->
  (d + foldr (fun kv n => N.max (depth kv.2) n) 0 l <= maxNestingDepth)%N ->
  forall n rest, (length (obj_tokens tokens l) <= n)%nat -> (length (obj_tokens tokens l) <= m)%nat ->
  members (value m d) n (obj_tokens tokens l ++ rest) = Some (l, rest).
Proof.
  intros Hl HF. revert Hl. induction HF as [|[k v] l Hv HF IH]; [done|].
  intros _ (Hk & Hw & Hws) Hd n rest Hn Hm. cbn [foldr fst snd] in *.
  destruct n as [|n]; [cbn in Hn; lia|].
  cbn [obj_tokens length] in Hn, Hm. rewrite !length_app in *.
  cbn [obj_tokens members app]. rewrite <- app_assoc, (unquote_valid k Hk).
  rewrite Hv by (done || lia). destruct l as [|kv' l]; [done|].
  cbn [length] in Hn, Hm. cbn [app].
  by rewrite IH by (done || lia).
Qed.

Lemma value_tokens v : reads_back v.
Proof.
  induction v as [| | | |l IH|l IH] using json_nested_ind; intros Hw fuel d rest Hf Hd;
    (destruct fuel as [|fuel]; [cbn in Hf; lia|]).
  - done.
  - by destruct b.
  - done.
  - cbn. by rewrite unquote_valid.
  - cbn [tokens length depth] in *. cbn [app value].
    rewrite (proj2 (N.ltb_ge _ _)) by lia.
    destruct l as [|v l]; [done|].
    pose proof (elements_read (v :: l) fuel (d + 1)%N ltac:(done) IH Hw ltac:(lia) fuel rest
      ltac:(lia) ltac:(lia)) as E.
    destruct (tokens_not_nil v) as (t & r & Et & Ht).
    cbn [arr_tokens] in E |- *. rewrite Et in E |- *. cbn [app] in E |- *.
    by destruct t; try done; rewrite E.
  - cbn [tokens length depth] in *. cbn [app value].
    rewrite (proj2 (N.ltb_ge _ _)) by lia.
    destruct l as [|[k v] l]; [done|].
    pose proof (members_read ((k, v) :: l) fuel (d + 1)%N ltac:(done) IH Hw ltac:(lia) fuel rest
      ltac:(lia) ltac:(lia)) as E.
    cbn [obj_tokens app] in E |- *. by rewrite E.
Qed.

Definition punctuated (ts : list token) : Prop :=
  separated ts /\ match ts with [] => True | u :: _ => is_punctuation u = true end.

Lemma punctuated_cons t ts : is_punctuation t = true -> separated ts -> punctuated (t :: ts).
Proof. intros Ht Hs. split; [|done]. by destruct t. Qed.

Lemma separated_tokens v : wf v -> forall rest, punctuated rest -> separated (tokens v ++ rest).
Proof.
  induction v as [|b| | |l IH|l IH] using json_nested_ind; intros Hw rest [Hs Hp].
  - done.
  - by destruct b.
  - by split.
  - split; [by eexists|done].
  - cbn [tokens app]. split; [done|]. split; [done|].
    induction IH as [|v l Hv _ IHl]; [done|]. destruct Hw as [Hw Hws].
    cbn [arr_tokens]. rewrite <- app_assoc. apply Hv; [done|].
    destruct l; apply punctuated_cons; try done. by apply IHl.
  - cbn [tokens app]. split; [done|]. split; [done|].
    induction IH as [|[k v] l Hv _ IHl]; [done|]. destruct Hw as (Hk & Hw & Hws).
    cbn [obj_tokens app]. split; [by eexists|]. split; [done|]. split; [done|]. split; [done|].
    rewrite <- app_assoc. apply Hv; [done|].
    destruct l; apply punctuated_cons; try done. by apply IHl.
Qed.

Lemma parse_tokens s v : lexes s (tokens v) -> wf v -> (depth v <= maxNestingDepth)%N ->
  parse s = Some v.
Proof.
  intros Hs Hw Hd. unfold parse, tokenize. rewrite Hs by done.
  pose proof (value_tokens v Hw (length (tokens v)) 0%N [] ltac:(lia) ltac:(lia)) as E.
  rewrite app_nil_r in E. by rewrite E.
Qed.

(** What json.Marshal and json.MarshalIndent print is read back. *)
Lemma parse_Marshal v : wf v -> (depth v <= maxNestingDepth)%N -> parse (Marshal v) = Some v.
Proof.
  intros Hw Hd. apply parse_tokens; [|done..]. apply lexes_compact.
  rewrite <- (app_nil_r (tokens v)). by apply separated_tokens.
Qed.

Lemma parse_MarshalIndent v : wf v -> (depth v <= maxNestingDepth)%N ->
  parse (MarshalIndent v) = Some v.
Proof.
  intros Hw Hd. apply parse_tokens; [|done..]. apply lexes_indent.
  rewrite <- (app_nil_r (tokens v)). by apply separated_tokens.
Qed.

End Grammar.

(* ------------------------------------------------------------------ *)
(** ** encoding/json and Go structs

    json.Unmarshal into a struct, a slice, a pointer or a basic type, and the
    members json.Marshal prints for a struct.  Decoding happens in place: a
    decoder is given the value the variable holds.  [None] is an error (a type
    mismatch); Go then fills the rest of the variable before it returns the
    error, and no caller in this program reads the variable after one. *)

(* ------------------------------------------------------------------ *)
(** ** Decoders *)

Definition decoder (A : Type) : Type := json -> A -> option A.

Definition dec_string : decoder string := fun v old =>
  match v with JNull => Some old | JStr s => Some s | _ => None end.

Definition dec_bool : decoder bool := fun v old =>
  match v with JNull => Some old | JBool b => Some b | _ => None end.

(** int on a 64-bit platform: strconv.ParseInt of the literal *)
Definition dec_int : decoder Z := fun v old =>
  match v with JNull => Some old | JNum x => Go.parse_int x | _ => None end.

(** A pointer: null is nil, anything else is decoded into the pointee. *)
Definition dec_ptr {A} (zero : A) (dec : decoder A) : decoder (option A) := fun v old =>
  match v with JNull => Some None | _ => Some <$> dec v (default zero old) end.

(** A slice: null is nil; the elements are decoded into the ones there are. *)
Fixpoint dec_list {A} (zero : A) (dec : decoder A) (l : list json) (old : list A) : option (list A) :=
  match l with
  | [] => Some []
  | v :: l' =>
      match dec v (hd zero old), dec_list zero dec l' (tl old) with
      | Some a, Some r => Some (a :: r)
      | _, _ => None
      end
  end.

Definition dec_slice {A} (zero : A) (dec : decoder A) : decoder (option (list A)) := fun v old =>
  match v with
  | JNull => Some None
  | JArr l => Some <$> dec_list zero dec l (default [] old)
  | _ => None
  end.

(** foldName: ASCII letters, and the two other runes that fold to one *)
Definition fold_rune (r : Z) : Z :=
  (if (97 <=? r) && (r <=? 122) then r - 32
   else if r =? 8490 then 75 else if r =? 383 then 83 else r)%Z.

Definition foldName (s : string) : list Z := fold_rune <$> Utf8.runes s.

(** A field: its JSON name and the decoder of the struct's field *)
Definition field (A : Type) : Type := string * decoder A.

Definition set_field {A B} (get : A -> B) (set : B -> A -> A) (dec : decoder B) : decoder A :=
  fun v a => (fun b => set b a) <$> dec v (get a).

(** The exact name first, then a name that folds to the same *)
Definition find_field {A} (fields : list (field A)) (key : string) : option (decoder A) :=
  match List.find (fun f => String.eqb f.1 key) fields with
  | Some f => Some f.2
  | None => snd <$> List.find (fun f => bool_decide (foldName f.1 = foldName key)) fields
  end.

Fixpoint dec_members {A} (fields : list (field A)) (l : list (string * json)) (a : A) : option A :=
  match l with
  | [] => Some a
  | (k, v) :: l' =>
      match find_field fields k with
      | None => dec_members fields l' a
      | Some dec => match dec v a with Some a' => dec_members fields l' a' | None => None end
      end
  end.

Definition dec_struct {A} (fields : list (field A)) : decoder A := fun v a =>
  match v with JNull => Some a | JObj l => dec_members fields l a | _ => None end.

Definition Unmarshal {A} (dec : decoder A) (text : string) (a : A) : option A :=
  match parse text with Some v => dec v a | None => None end.

(* ------------------------------------------------------------------ *)
(** ** Members of a struct *)

(** [omitempty]: the zero value of a basic type, a nil pointer, an empty slice *)
Definition enc_string (name s : string) : list (string * json) := [(name, JStr s)].
Definition omit_string (name s : string) : list (string * json) :=
  if String.eqb s "" then [] else [(name, JStr s)].
Definition omit_bool (name : string) (b : bool) : list (string * json) :=
  if b then [(name, JBool true)] else [].
Definition omit_ptr {A} (enc : A -> json) (name : string) (p : option A) : list (string * json) :=
  match p with Some a => [(name, enc a)] | None => [] end.
Definition omit_slice {A} (enc : A -> json) (name : string) (l : option (list A)) : list (string * json) :=
  match l with Some (x :: l) => [(name, JArr (enc <$> (x :: l)))] | _ => [] end.

(** A map with string keys: json.Marshal prints the keys in order. *)
Definition key_le {A} (a b : string * A) : Prop := String.leb a.1 b.1 = true.
#[global] Instance key_le_dec {A} : RelDecision (@key_le A).
Proof. intros a b. unfold key_le. apply _. Defined.

Definition enc_map (m : gmap string json) : json := JObj (merge_sort key_le (map_to_list m)).

Definition enc_slice {A} (enc : A -> json) (l : option (list A)) : json :=
  match l with Some l => JArr (enc <$> l) | None => JNull end.

(* ------------------------------------------------------------------ *)
(** ** Round trips *)

Section RoundTrip.
Context {A : Type}.

(** [enc] is undone by [dec] on a fresh variable. *)
Definition inverse (zero : A) (dec : decoder A) (enc : A -> json) : Prop :=
  forall a, dec (enc a) zero = Some a.

Lemma dec_list_encoded zero dec (enc : A -> json) l :
  inverse zero dec enc -> dec_list zero dec (enc <$> l) [] = Some l.
Proof.
  intros Hi. induction l as [|a l IH]; [done|]. cbn. rewrite Hi. cbn in IH. by rewrite IH.
Qed.

Lemma dec_slice_encoded zero dec (enc : A -> json) l :
  inverse zero dec enc -> dec_slice zero dec (enc_slice enc l) None = Some l.
Proof. intros Hi. destruct l as [l|]; [|done]. cbn. by rewrite dec_list_encoded. Qed.

End RoundTrip.
