(* ===== verification/SatConfig.v ===== *)
(** * The satellite's configuration

    pkg/config: config.go (the data, defaults of the audit block, Equal),
    constants.go, modifiers.go and validate.go, with the part of
    internal/satellite/registry/config.go that validation uses.  A [*T] field
    is an [option]; a json.RawMessage is its text, empty when unset. *)

From Stdlib Require Import Ascii.
From S2P Require Import Prelude Utf8 GoLib Json.

#[local] Open Scope string_scope.
#[local] Open Scope list_scope.

(* ------------------------------------------------------------------ *)
(** ** config.go *)

Record RegistryCredentials := mkRegistryCredentials {
  rc_URL : string; rc_Username : string; rc_Password : string }.

Record TLSConfig := mkTLSConfig {
  tls_CertFile : string; tls_KeyFile : string; tls_CAFile : string; tls_SkipVerify : bool }.

Record SPIFFEConfig := mkSPIFFEConfig {
  sp_Enabled : bool; sp_EndpointSocket : string; sp_ExpectedServerID : string }.

Record MetricsConfig := mkMetricsConfig {
  mc_CollectCPU : bool; mc_CollectMemory : bool; mc_CollectStorage : bool }.

Record RegistryFallbackConfig := mkRegistryFallbackConfig {
  fb_Enabled : bool; fb_Registries : option (list string); fb_Runtimes : option (list string) }.

Record OtelAudit := mkOtelAudit { ot_Enabled : bool; ot_Endpoint : string }.

Record SyslogAuditFile := mkSyslogAuditFile {
  sf_Path : string; sf_MaxSizeMB : option Z; sf_MaxBackups : option Z; sf_MaxAgeDays : option Z;
  sf_Compress : option bool }.

Record SyslogAudit := mkSyslogAudit {
  sy_Enabled : option bool; sy_Target : string; sy_Tag : string; sy_SocketPath : string;
  sy_Network : string; sy_Address : string; sy_File : SyslogAuditFile }.

Record AuditConfig := mkAuditConfig {
  au_Enabled : bool; au_Syslog : SyslogAudit; au_Otel : OtelAudit }.

Record DirectDeliveryConfig := mkDirectDeliveryConfig { dd_Enabled : bool; dd_ImageDir : string }.

Record AppConfig := mkAppConfig {
  ac_GroundControlURL : string; ac_LogLevel : string; ac_UseUnsecure : bool;
  ac_StateReplicationInterval : string; ac_RegisterSatelliteInterval : string;
  ac_HeartbeatInterval : string; ac_Metrics : MetricsConfig; ac_BringOwnRegistry : bool;
  ac_LocalRegistryCredentials : RegistryCredentials; ac_TLS : TLSConfig; ac_SPIFFE : SPIFFEConfig;
  ac_EncryptConfig : bool; ac_RegistryFallback : RegistryFallbackConfig;
  ac_HarborRegistryURL : string; ac_DirectDelivery : DirectDeliveryConfig; ac_Audit : AuditConfig }.

Record StateConfig := mkStateConfig {
  stc_RegistryCredentials : RegistryCredentials; stc_StateURL : string }.

Record Config := mkConfig {
  cf_StateConfig : StateConfig; cf_AppConfig : AppConfig; cf_ZotConfigRaw : string }.

(** The zero values *)
Definition no_credentials := mkRegistryCredentials "" "" "".
Definition no_syslog_file := mkSyslogAuditFile "" None None None None.
Definition no_syslog := mkSyslogAudit None "" "" "" "" "" no_syslog_file.
Definition no_audit := mkAuditConfig false no_syslog (mkOtelAudit false "").
Definition no_app : AppConfig :=
  mkAppConfig "" "" false "" "" "" (mkMetricsConfig false false false) false no_credentials
    (mkTLSConfig "" "" "" false) (mkSPIFFEConfig false "" "") false
    (mkRegistryFallbackConfig false None None) "" (mkDirectDeliveryConfig false "") no_audit.
Definition no_state : StateConfig := mkStateConfig no_credentials "".
Definition no_config : Config := mkConfig no_state no_app "".

#[export] Instance RegistryCredentials_eq_dec : EqDecision RegistryCredentials.
Proof. solve_decision. Defined.
#[export] Instance TLSConfig_eq_dec : EqDecision TLSConfig.
Proof. solve_decision. Defined.
#[export] Instance SPIFFEConfig_eq_dec : EqDecision SPIFFEConfig.
Proof. solve_decision. Defined.
#[export] Instance MetricsConfig_eq_dec : EqDecision MetricsConfig.
Proof. solve_decision. Defined.
#[export] Instance RegistryFallbackConfig_eq_dec : EqDecision RegistryFallbackConfig.
Proof. solve_decision. Defined.
#[export] Instance OtelAudit_eq_dec : EqDecision OtelAudit.
Proof. solve_decision. Defined.
#[export] Instance SyslogAuditFile_eq_dec : EqDecision SyslogAuditFile.
Proof. solve_decision. Defined.
#[export] Instance SyslogAudit_eq_dec : EqDecision SyslogAudit.
Proof. solve_decision. Defined.
#[export] Instance AuditConfig_eq_dec : EqDecision AuditConfig.
Proof. solve_decision. Defined.
#[export] Instance DirectDeliveryConfig_eq_dec : EqDecision DirectDeliveryConfig.
Proof. solve_decision. Defined.
#[export] Instance AppConfig_eq_dec : EqDecision AppConfig.
Proof. solve_decision. Defined.
#[export] Instance StateConfig_eq_dec : EqDecision StateConfig.
Proof. solve_decision. Defined.
#[export] Instance Config_eq_dec : EqDecision Config.
Proof. solve_decision. Defined.

(** constants.go *)
Definition DefaultZTRCronExpr : string := "@every 00h00m05s".
Definition DefaultFetchAndReplicateCronExpr : string := "@every 00h00m30s".
Definition DefaultHeartbeatCronExpr : string := "@every 00h00m30s".
Definition DefaultAuditFilePath : string := "./audit.log".
Definition DefaultAuditMaxSizeMB : Z := 100.
Definition DefaultAuditMaxBackups : Z := 7.
Definition DefaultAuditMaxAgeDays : Z := 30.
Definition DefaultAuditCompress : bool := true.
Definition DefaultAuditSyslogTarget : string := "file".
Definition DefaultAuditSyslogTag : string := "harbor-audit".
Definition DefaultAuditSyslogSocket : string := "/dev/log".
Definition DefaultRemoteRegistryURL : string := "http://127.0.0.1:8585".

Definition lf : string := String (ascii_of_nat 10) "".

Definition member (name text : string) : string :=
  String dquote (name +:+ String dquote (": " +:+ text)).
Definition lit (s : string) : string := String dquote (s +:+ String dquote "").

Definition DefaultZotConfigJSON : string :=
  "{" +:+ lf +:+
  "  " +:+ member "distSpecVersion" (lit "1.1.0") +:+ "," +:+ lf +:+
  "  " +:+ member "storage" "{" +:+ lf +:+
  "    " +:+ member "rootDirectory" (lit "./zot") +:+ lf +:+
  "  }," +:+ lf +:+
  "  " +:+ member "http" "{" +:+ lf +:+
  "    " +:+ member "address" (lit "0.0.0.0") +:+ "," +:+ lf +:+
  "    " +:+ member "port" (lit "8585") +:+ lf +:+
  "  }," +:+ lf +:+
  "  " +:+ member "log" "{" +:+ lf +:+
  "    " +:+ member "level" (lit "info") +:+ lf +:+
  "  }" +:+ lf +:+
  "}".

(** The effective values of the audit block *)
Definition EnabledOrDefault (s : SyslogAudit) : bool := default true (sy_Enabled s).
Definition TargetOrDefault (s : SyslogAudit) : string :=
  if String.eqb (sy_Target s) "" then DefaultAuditSyslogTarget else sy_Target s.
Definition TagOrDefault (s : SyslogAudit) : string :=
  if String.eqb (sy_Tag s) "" then DefaultAuditSyslogTag else sy_Tag s.
Definition MaxSizeMBOrDefault (f : SyslogAuditFile) : Z := default DefaultAuditMaxSizeMB (sf_MaxSizeMB f).
Definition MaxBackupsOrDefault (f : SyslogAuditFile) : Z := default DefaultAuditMaxBackups (sf_MaxBackups f).
Definition MaxAgeDaysOrDefault (f : SyslogAuditFile) : Z := default DefaultAuditMaxAgeDays (sf_MaxAgeDays f).
Definition CompressOrDefault (f : SyslogAuditFile) : bool := default DefaultAuditCompress (sf_Compress f).

Definition file_equal (f o : SyslogAuditFile) : bool :=
  String.eqb (sf_Path f) (sf_Path o) &&
  (MaxSizeMBOrDefault f =? MaxSizeMBOrDefault o)%Z &&
  (MaxBackupsOrDefault f =? MaxBackupsOrDefault o)%Z &&
  (MaxAgeDaysOrDefault f =? MaxAgeDaysOrDefault o)%Z &&
  Bool.eqb (CompressOrDefault f) (CompressOrDefault o).

Definition syslog_equal (s o : SyslogAudit) : bool :=
  Bool.eqb (EnabledOrDefault s) (EnabledOrDefault o) &&
  String.eqb (TargetOrDefault s) (TargetOrDefault o) &&
  String.eqb (TagOrDefault s) (TagOrDefault o) &&
  String.eqb (sy_SocketPath s) (sy_SocketPath o) &&
  String.eqb (sy_Network s) (sy_Network o) &&
  String.eqb (sy_Address s) (sy_Address o) &&
  file_equal (sy_File s) (sy_File o).

Definition Equal (a b : AuditConfig) : bool :=
  Bool.eqb (au_Enabled a) (au_Enabled b) && syslog_equal (au_Syslog a) (au_Syslog b) &&
  bool_decide (au_Otel a = au_Otel b).

(* ------------------------------------------------------------------ *)
(** ** json.Marshal of a Config *)

Definition enc_credentials (c : RegistryCredentials) : json :=
  JObj (omit_string "url" (rc_URL c) ++ omit_string "username" (rc_Username c) ++
        omit_string "password" (rc_Password c)).

Definition enc_tls (t : TLSConfig) : json :=
  JObj (omit_string "cert_file" (tls_CertFile t) ++ omit_string "key_file" (tls_KeyFile t) ++
        omit_string "ca_file" (tls_CAFile t) ++ omit_bool "skip_verify" (tls_SkipVerify t)).

Definition enc_spiffe (s : SPIFFEConfig) : json :=
  JObj (omit_bool "enabled" (sp_Enabled s) ++ omit_string "endpoint_socket" (sp_EndpointSocket s) ++
        omit_string "expected_server_id" (sp_ExpectedServerID s)).

Definition enc_metrics (m : MetricsConfig) : json :=
  JObj (omit_bool "collect_cpu" (mc_CollectCPU m) ++ omit_bool "collect_memory" (mc_CollectMemory m) ++
        omit_bool "collect_storage" (mc_CollectStorage m)).

Definition enc_fallback (f : RegistryFallbackConfig) : json :=
  JObj (omit_bool "enabled" (fb_Enabled f) ++ omit_slice JStr "registries" (fb_Registries f) ++
        omit_slice JStr "runtimes" (fb_Runtimes f)).

Definition enc_syslog_file (f : SyslogAuditFile) : json :=
  JObj (omit_string "path" (sf_Path f) ++ omit_ptr jint "max_size_mb" (sf_MaxSizeMB f) ++
        omit_ptr jint "max_backups" (sf_MaxBackups f) ++ omit_ptr jint "max_age_days" (sf_MaxAgeDays f) ++
        omit_ptr JBool "compress" (sf_Compress f)).

Definition enc_syslog (s : SyslogAudit) : json :=
  JObj (omit_ptr JBool "enabled" (sy_Enabled s) ++ omit_string "target" (sy_Target s) ++
        omit_string "tag" (sy_Tag s) ++ omit_string "socket_path" (sy_SocketPath s) ++
        omit_string "network" (sy_Network s) ++ omit_string "address" (sy_Address s) ++
        [("file", enc_syslog_file (sy_File s))]).

Definition enc_audit (a : AuditConfig) : json :=
  JObj (omit_bool "enabled" (au_Enabled a) ++ [("syslog", enc_syslog (au_Syslog a))] ++
        [("otel", JObj (omit_bool "enabled" (ot_Enabled (au_Otel a)) ++
                        omit_string "endpoint" (ot_Endpoint (au_Otel a))))]).

Definition enc_delivery (d : DirectDeliveryConfig) : json :=
  JObj (omit_bool "enabled" (dd_Enabled d) ++ omit_string "image_dir" (dd_ImageDir d)).

(** omitempty never leaves a struct out. *)
Definition enc_app (a : AppConfig) : json :=
  JObj (omit_string "ground_control_url" (ac_GroundControlURL a) ++
        omit_string "log_level" (ac_LogLevel a) ++ omit_bool "use_unsecure" (ac_UseUnsecure a) ++
        omit_string "state_replication_interval" (ac_StateReplicationInterval a) ++
        omit_string "register_satellite_interval" (ac_RegisterSatelliteInterval a) ++
        omit_string "heartbeat_interval" (ac_HeartbeatInterval a) ++
        [("metrics", enc_metrics (ac_Metrics a))] ++
        omit_bool "bring_own_registry" (ac_BringOwnRegistry a) ++
        [("local_registry", enc_credentials (ac_LocalRegistryCredentials a))] ++
        [("tls", enc_tls (ac_TLS a))] ++ [("spiffe", enc_spiffe (ac_SPIFFE a))] ++
        omit_bool "encrypt_config" (ac_EncryptConfig a) ++
        [("registry_fallback", enc_fallback (ac_RegistryFallback a))] ++
        omit_string "harbor_registry_url" (ac_HarborRegistryURL a) ++
        [("direct_delivery", enc_delivery (ac_DirectDelivery a))] ++
        [("audit", enc_audit (ac_Audit a))]).

Definition enc_state (s : StateConfig) : json :=
  JObj ([("auth", enc_credentials (stc_RegistryCredentials s))] ++ omit_string "state" (stc_StateURL s)).

(** A RawMessage is validated, stripped of white space and HTML-escaped inside
    its strings, where U+2028 and U+2029 are escaped too. *)
Fixpoint html_escape (s : string) : string :=
  match s with
  | "" => ""
  | String a s1 =>
      let r := Z.of_nat (nat_of_ascii a) in
      if (r =? 60) || (r =? 62) || (r =? 38) then hex_escape r +:+ html_escape s1
      else if r =? 226 then
        match s1 with
        | String b (String c s3) =>
            let y := Z.of_nat (nat_of_ascii b) in let z := Z.of_nat (nat_of_ascii c) in
            if (y =? 128) && ((z =? 168) || (z =? 169))
            then hex_escape (8064 + z)%Z +:+ html_escape s3
            else String a (html_escape s1)
        | _ => String a (html_escape s1)
        end
      else String a (html_escape s1)
  end%Z.

Definition raw_tokens (raw : string) : option (list token) :=
  match parse raw, tokenize raw with
  | Some _, Some ts =>
      Some ((fun t => match t with TStr x => TStr (html_escape x) | _ => t end) <$> ts)
  | _, _ => None
  end.

(** The members of a Config, each with its tokens; [None] is json.Marshal's
    error for a RawMessage that is not JSON. *)
Definition config_tokens (c : Config) : option (list token) :=
  let known := [TStr "state_config"; Colon] ++ tokens (enc_state (cf_StateConfig c)) ++
               [Comma; TStr "app_config"; Colon] ++ tokens (enc_app (cf_AppConfig c)) in
  if String.eqb (cf_ZotConfigRaw c) "" then Some (LBrace :: known ++ [RBrace])%list
  else raw ← raw_tokens (cf_ZotConfigRaw c);
       Some (LBrace :: known ++ [Comma; TStr "zot_config"; Colon] ++ raw ++ [RBrace])%list.

Definition MarshalConfig (c : Config) : result string :=
  match config_tokens c with
  | Some ts => inr (compact ts)
  | None => inl (PlainErr "json: error calling MarshalJSON for type json.RawMessage")
  end.

Definition MarshalIndentConfig (c : Config) : result string :=
  match config_tokens c with
  | Some ts => inr (indent false 0 ts)
  | None => inl (PlainErr "json: error calling MarshalJSON for type json.RawMessage")
  end.

(* ------------------------------------------------------------------ *)
(** ** Assignments to one field *)

Definition set_rc_URL v r := mkRegistryCredentials v (rc_Username r) (rc_Password r).
Definition set_rc_Username v r := mkRegistryCredentials (rc_URL r) v (rc_Password r).
Definition set_rc_Password v r := mkRegistryCredentials (rc_URL r) (rc_Username r) v.
Definition set_tls_CertFile v r := mkTLSConfig v (tls_KeyFile r) (tls_CAFile r) (tls_SkipVerify
  r).
Definition set_tls_KeyFile v r := mkTLSConfig (tls_CertFile r) v (tls_CAFile r) (tls_SkipVerify
  r).
Definition set_tls_CAFile v r := mkTLSConfig (tls_CertFile r) (tls_KeyFile r) v (tls_SkipVerify
  r).
Definition set_tls_SkipVerify v r := mkTLSConfig (tls_CertFile r) (tls_KeyFile r) (tls_CAFile r)
  v.
Definition set_sp_Enabled v r := mkSPIFFEConfig v (sp_EndpointSocket r) (sp_ExpectedServerID r).
Definition set_sp_EndpointSocket v r := mkSPIFFEConfig (sp_Enabled r) v (sp_ExpectedServerID r).
Definition set_sp_ExpectedServerID v r := mkSPIFFEConfig (sp_Enabled r) (sp_EndpointSocket r) v.
Definition set_mc_CollectCPU v r := mkMetricsConfig v (mc_CollectMemory r) (mc_CollectStorage r).
Definition set_mc_CollectMemory v r := mkMetricsConfig (mc_CollectCPU r) v (mc_CollectStorage r).
Definition set_mc_CollectStorage v r := mkMetricsConfig (mc_CollectCPU r) (mc_CollectMemory r) v.
Definition set_fb_Enabled v r := mkRegistryFallbackConfig v (fb_Registries r) (fb_Runtimes r).
Definition set_fb_Registries v r := mkRegistryFallbackConfig (fb_Enabled r) v (fb_Runtimes r).
Definition set_fb_Runtimes v r := mkRegistryFallbackConfig (fb_Enabled r) (fb_Registries r) v.
Definition set_ot_Enabled v r := mkOtelAudit v (ot_Endpoint r).
Definition set_ot_Endpoint v r := mkOtelAudit (ot_Enabled r) v.
Definition set_sf_Path v r := mkSyslogAuditFile v (sf_MaxSizeMB r) (sf_MaxBackups r)
  (sf_MaxAgeDays r) (sf_Compress r).
Definition set_sf_MaxSizeMB v r := mkSyslogAuditFile (sf_Path r) v (sf_MaxBackups r)
  (sf_MaxAgeDays r) (sf_Compress r).
Definition set_sf_MaxBackups v r := mkSyslogAuditFile (sf_Path r) (sf_MaxSizeMB r) v
  (sf_MaxAgeDays r) (sf_Compress r).
Definition set_sf_MaxAgeDays v r := mkSyslogAuditFile (sf_Path r) (sf_MaxSizeMB r) (sf_MaxBackups
  r) v (sf_Compress r).
Definition set_sf_Compress v r := mkSyslogAuditFile (sf_Path r) (sf_MaxSizeMB r) (sf_MaxBackups r)
  (sf_MaxAgeDays r) v.
Definition set_sy_Enabled v r := mkSyslogAudit v (sy_Target r) (sy_Tag r) (sy_SocketPath r)
  (sy_Network r) (sy_Address r) (sy_File r).
Definition set_sy_Target v r := mkSyslogAudit (sy_Enabled r) v (sy_Tag r) (sy_SocketPath r)
  (sy_Network r) (sy_Address r) (sy_File r).
Definition set_sy_Tag v r := mkSyslogAudit (sy_Enabled r) (sy_Target r) v (sy_SocketPath r)
  (sy_Network r) (sy_Address r) (sy_File r).
Definition set_sy_SocketPath v r := mkSyslogAudit (sy_Enabled r) (sy_Target r) (sy_Tag r) v
  (sy_Network r) (sy_Address r) (sy_File r).
Definition set_sy_Network v r := mkSyslogAudit (sy_Enabled r) (sy_Target r) (sy_Tag r)
  (sy_SocketPath r) v (sy_Address r) (sy_File r).
Definition set_sy_Address v r := mkSyslogAudit (sy_Enabled r) (sy_Target r) (sy_Tag r)
  (sy_SocketPath r) (sy_Network r) v (sy_File r).
Definition set_sy_File v r := mkSyslogAudit (sy_Enabled r) (sy_Target r) (sy_Tag r) (sy_SocketPath
  r) (sy_Network r) (sy_Address r) v.
Definition set_au_Enabled v r := mkAuditConfig v (au_Syslog r) (au_Otel r).
Definition set_au_Syslog v r := mkAuditConfig (au_Enabled r) v (au_Otel r).
Definition set_au_Otel v r := mkAuditConfig (au_Enabled r) (au_Syslog r) v.
Definition set_dd_Enabled v r := mkDirectDeliveryConfig v (dd_ImageDir r).
Definition set_dd_ImageDir v r := mkDirectDeliveryConfig (dd_Enabled r) v.
Definition set_ac_GroundControlURL v r := mkAppConfig v (ac_LogLevel r) (ac_UseUnsecure r)
  (ac_StateReplicationInterval r) (ac_RegisterSatelliteInterval r) (ac_HeartbeatInterval r)
  (ac_Metrics r) (ac_BringOwnRegistry r) (ac_LocalRegistryCredentials r) (ac_TLS r) (ac_SPIFFE r)
  (ac_EncryptConfig r) (ac_RegistryFallback r) (ac_HarborRegistryURL r) (ac_DirectDelivery r)
  (ac_Audit r).
Definition set_ac_LogLevel v r := mkAppConfig (ac_GroundControlURL r) v (ac_UseUnsecure r)
  (ac_StateReplicationInterval r) (ac_RegisterSatelliteInterval r) (ac_HeartbeatInterval r)
  (ac_Metrics r) (ac_BringOwnRegistry r) (ac_LocalRegistryCredentials r) (ac_TLS r) (ac_SPIFFE r)
  (ac_EncryptConfig r) (ac_RegistryFallback r) (ac_HarborRegistryURL r) (ac_DirectDelivery r)
  (ac_Audit r).
Definition set_ac_UseUnsecure v r := mkAppConfig (ac_GroundControlURL r) (ac_LogLevel r) v
  (ac_StateReplicationInterval r) (ac_RegisterSatelliteInterval r) (ac_HeartbeatInterval r)
  (ac_Metrics r) (ac_BringOwnRegistry r) (ac_LocalRegistryCredentials r) (ac_TLS r) (ac_SPIFFE r)
  (ac_EncryptConfig r) (ac_RegistryFallback r) (ac_HarborRegistryURL r) (ac_DirectDelivery r)
  (ac_Audit r).
Definition set_ac_StateReplicationInterval v r := mkAppConfig (ac_GroundControlURL r) (ac_LogLevel
  r) (ac_UseUnsecure r) v (ac_RegisterSatelliteInterval r) (ac_HeartbeatInterval r) (ac_Metrics r)
  (ac_BringOwnRegistry r) (ac_LocalRegistryCredentials r) (ac_TLS r) (ac_SPIFFE r)
  (ac_EncryptConfig r) (ac_RegistryFallback r) (ac_HarborRegistryURL r) (ac_DirectDelivery r)
  (ac_Audit r).
Definition set_ac_RegisterSatelliteInterval v r := mkAppConfig (ac_GroundControlURL r)
  (ac_LogLevel r) (ac_UseUnsecure r) (ac_StateReplicationInterval r) v (ac_HeartbeatInterval r)
  (ac_Metrics r) (ac_BringOwnRegistry r) (ac_LocalRegistryCredentials r) (ac_TLS r) (ac_SPIFFE r)
  (ac_EncryptConfig r) (ac_RegistryFallback r) (ac_HarborRegistryURL r) (ac_DirectDelivery r)
  (ac_Audit r).
Definition set_ac_HeartbeatInterval v r := mkAppConfig (ac_GroundControlURL r) (ac_LogLevel r)
  (ac_UseUnsecure r) (ac_StateReplicationInterval r) (ac_RegisterSatelliteInterval r) v
  (ac_Metrics r) (ac_BringOwnRegistry r) (ac_LocalRegistryCredentials r) (ac_TLS r) (ac_SPIFFE r)
  (ac_EncryptConfig r) (ac_RegistryFallback r) (ac_HarborRegistryURL r) (ac_DirectDelivery r)
  (ac_Audit r).
Definition set_ac_Metrics v r := mkAppConfig (ac_GroundControlURL r) (ac_LogLevel r)
  (ac_UseUnsecure r) (ac_StateReplicationInterval r) (ac_RegisterSatelliteInterval r)
  (ac_HeartbeatInterval r) v (ac_BringOwnRegistry r) (ac_LocalRegistryCredentials r) (ac_TLS r)
  (ac_SPIFFE r) (ac_EncryptConfig r) (ac_RegistryFallback r) (ac_HarborRegistryURL r)
  (ac_DirectDelivery r) (ac_Audit r).
Definition set_ac_BringOwnRegistry v r := mkAppConfig (ac_GroundControlURL r) (ac_LogLevel r)
  (ac_UseUnsecure r) (ac_StateReplicationInterval r) (ac_RegisterSatelliteInterval r)
  (ac_HeartbeatInterval r) (ac_Metrics r) v (ac_LocalRegistryCredentials r) (ac_TLS r) (ac_SPIFFE
  r) (ac_EncryptConfig r) (ac_RegistryFallback r) (ac_HarborRegistryURL r) (ac_DirectDelivery r)
  (ac_Audit r).
Definition set_ac_LocalRegistryCredentials v r := mkAppConfig (ac_GroundControlURL r) (ac_LogLevel
  r) (ac_UseUnsecure r) (ac_StateReplicationInterval r) (ac_RegisterSatelliteInterval r)
  (ac_HeartbeatInterval r) (ac_Metrics r) (ac_BringOwnRegistry r) v (ac_TLS r) (ac_SPIFFE r)
  (ac_EncryptConfig r) (ac_RegistryFallback r) (ac_HarborRegistryURL r) (ac_DirectDelivery r)
  (ac_Audit r).
Definition set_ac_TLS v r := mkAppConfig (ac_GroundControlURL r) (ac_LogLevel r) (ac_UseUnsecure
  r) (ac_StateReplicationInterval r) (ac_RegisterSatelliteInterval r) (ac_HeartbeatInterval r)
  (ac_Metrics r) (ac_BringOwnRegistry r) (ac_LocalRegistryCredentials r) v (ac_SPIFFE r)
  (ac_EncryptConfig r) (ac_RegistryFallback r) (ac_HarborRegistryURL r) (ac_DirectDelivery r)
  (ac_Audit r).
Definition set_ac_SPIFFE v r := mkAppConfig (ac_GroundControlURL r) (ac_LogLevel r)
  (ac_UseUnsecure r) (ac_StateReplicationInterval r) (ac_RegisterSatelliteInterval r)
  (ac_HeartbeatInterval r) (ac_Metrics r) (ac_BringOwnRegistry r) (ac_LocalRegistryCredentials r)
  (ac_TLS r) v (ac_EncryptConfig r) (ac_RegistryFallback r) (ac_HarborRegistryURL r)
  (ac_DirectDelivery r) (ac_Audit r).
Definition set_ac_EncryptConfig v r := mkAppConfig (ac_GroundControlURL r) (ac_LogLevel r)
  (ac_UseUnsecure r) (ac_StateReplicationInterval r) (ac_RegisterSatelliteInterval r)
  (ac_HeartbeatInterval r) (ac_Metrics r) (ac_BringOwnRegistry r) (ac_LocalRegistryCredentials r)
  (ac_TLS r) (ac_SPIFFE r) v (ac_RegistryFallback r) (ac_HarborRegistryURL r) (ac_DirectDelivery
  r) (ac_Audit r).
Definition set_ac_RegistryFallback v r := mkAppConfig (ac_GroundControlURL r) (ac_LogLevel r)
  (ac_UseUnsecure r) (ac_StateReplicationInterval r) (ac_RegisterSatelliteInterval r)
  (ac_HeartbeatInterval r) (ac_Metrics r) (ac_BringOwnRegistry r) (ac_LocalRegistryCredentials r)
  (ac_TLS r) (ac_SPIFFE r) (ac_EncryptConfig r) v (ac_HarborRegistryURL r) (ac_DirectDelivery r)
  (ac_Audit r).
Definition set_ac_HarborRegistryURL v r := mkAppConfig (ac_GroundControlURL r) (ac_LogLevel r)
  (ac_UseUnsecure r) (ac_StateReplicationInterval r) (ac_RegisterSatelliteInterval r)
  (ac_HeartbeatInterval r) (ac_Metrics r) (ac_BringOwnRegistry r) (ac_LocalRegistryCredentials r)
  (ac_TLS r) (ac_SPIFFE r) (ac_EncryptConfig r) (ac_RegistryFallback r) v (ac_DirectDelivery r)
  (ac_Audit r).
Definition set_ac_DirectDelivery v r := mkAppConfig (ac_GroundControlURL r) (ac_LogLevel r)
  (ac_UseUnsecure r) (ac_StateReplicationInterval r) (ac_RegisterSatelliteInterval r)
  (ac_HeartbeatInterval r) (ac_Metrics r) (ac_BringOwnRegistry r) (ac_LocalRegistryCredentials r)
  (ac_TLS r) (ac_SPIFFE r) (ac_EncryptConfig r) (ac_RegistryFallback r) (ac_HarborRegistryURL r) v
  (ac_Audit r).
Definition set_ac_Audit v r := mkAppConfig (ac_GroundControlURL r) (ac_LogLevel r) (ac_UseUnsecure
  r) (ac_StateReplicationInterval r) (ac_RegisterSatelliteInterval r) (ac_HeartbeatInterval r)
  (ac_Metrics r) (ac_BringOwnRegistry r) (ac_LocalRegistryCredentials r) (ac_TLS r) (ac_SPIFFE r)
  (ac_EncryptConfig r) (ac_RegistryFallback r) (ac_HarborRegistryURL r) (ac_DirectDelivery r) v.
Definition set_stc_RegistryCredentials v r := mkStateConfig v (stc_StateURL r).
Definition set_stc_StateURL v r := mkStateConfig (stc_RegistryCredentials r) v.
Definition set_cf_StateConfig v r := mkConfig v (cf_AppConfig r) (cf_ZotConfigRaw r).
Definition set_cf_AppConfig v r := mkConfig (cf_StateConfig r) v (cf_ZotConfigRaw r).
Definition set_cf_ZotConfigRaw v r := mkConfig (cf_StateConfig r) (cf_AppConfig r) v.

(* ------------------------------------------------------------------ *)
(** ** json.Unmarshal into a Config *)

Definition dec_strings : decoder (option (list string)) := dec_slice "" dec_string.

Definition dec_credentials : decoder RegistryCredentials := dec_struct [
  ("url", set_field rc_URL set_rc_URL dec_string);
  ("username", set_field rc_Username set_rc_Username dec_string);
  ("password", set_field rc_Password set_rc_Password dec_string)].

Definition dec_tls : decoder TLSConfig := dec_struct [
  ("cert_file", set_field tls_CertFile set_tls_CertFile dec_string);
  ("key_file", set_field tls_KeyFile set_tls_KeyFile dec_string);
  ("ca_file", set_field tls_CAFile set_tls_CAFile dec_string);
  ("skip_verify", set_field tls_SkipVerify set_tls_SkipVerify dec_bool)].

Definition dec_spiffe : decoder SPIFFEConfig := dec_struct [
  ("enabled", set_field sp_Enabled set_sp_Enabled dec_bool);
  ("endpoint_socket", set_field sp_EndpointSocket set_sp_EndpointSocket dec_string);
  ("expected_server_id", set_field sp_ExpectedServerID set_sp_ExpectedServerID dec_string)].

Definition dec_metrics : decoder MetricsConfig := dec_struct [
  ("collect_cpu", set_field mc_CollectCPU set_mc_CollectCPU dec_bool);
  ("collect_memory", set_field mc_CollectMemory set_mc_CollectMemory dec_bool);
  ("collect_storage", set_field mc_CollectStorage set_mc_CollectStorage dec_bool)].

Definition dec_fallback : decoder RegistryFallbackConfig := dec_struct [
  ("enabled", set_field fb_Enabled set_fb_Enabled dec_bool);
  ("registries", set_field fb_Registries set_fb_Registries dec_strings);
  ("runtimes", set_field fb_Runtimes set_fb_Runtimes dec_strings)].

Definition dec_otel : decoder OtelAudit := dec_struct [
  ("enabled", set_field ot_Enabled set_ot_Enabled dec_bool);
  ("endpoint", set_field ot_Endpoint set_ot_Endpoint dec_string)].

Definition dec_syslog_file : decoder SyslogAuditFile := dec_struct [
  ("path", set_field sf_Path set_sf_Path dec_string);
  ("max_size_mb", set_field sf_MaxSizeMB set_sf_MaxSizeMB (dec_ptr 0%Z dec_int));
  ("max_backups", set_field sf_MaxBackups set_sf_MaxBackups (dec_ptr 0%Z dec_int));
  ("max_age_days", set_field sf_MaxAgeDays set_sf_MaxAgeDays (dec_ptr 0%Z dec_int));
  ("compress", set_field sf_Compress set_sf_Compress (dec_ptr false dec_bool))].

Definition dec_syslog : decoder SyslogAudit := dec_struct [
  ("enabled", set_field sy_Enabled set_sy_Enabled (dec_ptr false dec_bool));
  ("target", set_field sy_Target set_sy_Target dec_string);
  ("tag", set_field sy_Tag set_sy_Tag dec_string);
  ("socket_path", set_field sy_SocketPath set_sy_SocketPath dec_string);
  ("network", set_field sy_Network set_sy_Network dec_string);
  ("address", set_field sy_Address set_sy_Address dec_string);
  ("file", set_field sy_File set_sy_File dec_syslog_file)].

Definition dec_audit : decoder AuditConfig := dec_struct [
  ("enabled", set_field au_Enabled set_au_Enabled dec_bool);
  ("syslog", set_field au_Syslog set_au_Syslog dec_syslog);
  ("otel", set_field au_Otel set_au_Otel dec_otel)].

Definition dec_delivery : decoder DirectDeliveryConfig := dec_struct [
  ("enabled", set_field dd_Enabled set_dd_Enabled dec_bool);
  ("image_dir", set_field dd_ImageDir set_dd_ImageDir dec_string)].

Definition dec_app : decoder AppConfig := dec_struct [
  ("ground_control_url", set_field ac_GroundControlURL set_ac_GroundControlURL dec_string);
  ("log_level", set_field ac_LogLevel set_ac_LogLevel dec_string);
  ("use_unsecure", set_field ac_UseUnsecure set_ac_UseUnsecure dec_bool);
  ("state_replication_interval",
    set_field ac_StateReplicationInterval set_ac_StateReplicationInterval dec_string);
  ("register_satellite_interval",
    set_field ac_RegisterSatelliteInterval set_ac_RegisterSatelliteInterval dec_string);
  ("heartbeat_interval", set_field ac_HeartbeatInterval set_ac_HeartbeatInterval dec_string);
  ("metrics", set_field ac_Metrics set_ac_Metrics dec_metrics);
  ("bring_own_registry", set_field ac_BringOwnRegistry set_ac_BringOwnRegistry dec_bool);
  ("local_registry",
    set_field ac_LocalRegistryCredentials set_ac_LocalRegistryCredentials dec_credentials);
  ("tls", set_field ac_TLS set_ac_TLS dec_tls);
  ("spiffe", set_field ac_SPIFFE set_ac_SPIFFE dec_spiffe);
  ("encrypt_config", set_field ac_EncryptConfig set_ac_EncryptConfig dec_bool);
  ("registry_fallback", set_field ac_RegistryFallback set_ac_RegistryFallback dec_fallback);
  ("harbor_registry_url", set_field ac_HarborRegistryURL set_ac_HarborRegistryURL dec_string);
  ("direct_delivery", set_field ac_DirectDelivery set_ac_DirectDelivery dec_delivery);
  ("audit", set_field ac_Audit set_ac_Audit dec_audit)].

Definition dec_state : decoder StateConfig := dec_struct [
  ("auth", set_field stc_RegistryCredentials set_stc_RegistryCredentials dec_credentials);
  ("state", set_field stc_StateURL set_stc_StateURL dec_string)].

(** The text from a token on, and the text after it *)
Fixpoint spans (fuel : nat) (s : string) : list (string * string) :=
  match fuel, s with
  | S fuel', String a s' =>
      if is_json_space a then spans fuel' s'
      else match lex_token s with Some (_, r) => (s, r) :: spans fuel' r | None => [] end
  | _, _ => []
  end.

(** The members of an object whose tokens and spans are given: the text of the
    last value under [name].  [n] tokens make up a value. *)
Fixpoint last_raw (fuel : nat) (name : string) (ts : list token) (sp : list (string * string))
    (found : option string) : option string :=
  match fuel, ts, sp with
  | S fuel', TStr k :: Colon :: ts', _ :: _ :: ((start, _) :: _) as sp' =>
      match value (length ts') 1 ts' with
      | Some (_, rest) =>
          let n := (length ts' - length rest)%nat in
          let here :=
            match nth_error sp' (n - 1) with
            | Some (_, after) => Go.take_bytes (String.length start - String.length after) start
            | None => ""
            end in
          let found := if bool_decide (foldName name = foldName (unquote k)) then Some here else found in
          match rest with
          | Comma :: ts'' => last_raw fuel' name ts'' (drop (S n) sp') found
          | _ => found
          end
      | None => found
      end
  | _, _, _ => found
  end.

Definition raw_member (name text : string) : option string :=
  match tokenize text, spans (String.length text) text with
  | Some (LBrace :: ts), _ :: sp => last_raw (length ts) name ts sp None
  | _, _ => None
  end.

(** RawMessage.UnmarshalJSON keeps the text, that of null included. *)
Definition UnmarshalConfig (text : string) (c : Config) : option Config :=
  c' ← Unmarshal (dec_struct [
    ("state_config", set_field cf_StateConfig set_cf_StateConfig dec_state);
    ("app_config", set_field cf_AppConfig set_cf_AppConfig dec_app)]) text c;
  Some (match raw_member "zot_config" text with
        | Some raw => set_cf_ZotConfigRaw raw c'
        | None => c'
        end).

(* ------------------------------------------------------------------ *)
(** ** registry/config.go *)

Record ZotConfig := mkZotConfig {
  zc_Address : string; zc_Port : string; zc_Level : string; zc_RootDirectory : string }.

Definition no_zot : ZotConfig := mkZotConfig "" "" "" "".

Definition dec_zot : decoder ZotConfig := dec_struct [
  ("http", dec_struct [
    ("address", fun v z => (fun a => mkZotConfig a (zc_Port z) (zc_Level z) (zc_RootDirectory z)) <$>
                           dec_string v (zc_Address z));
    ("port", fun v z => (fun p => mkZotConfig (zc_Address z) p (zc_Level z) (zc_RootDirectory z)) <$>
                        dec_string v (zc_Port z))]);
  ("log", dec_struct [
    ("level", fun v z => (fun l => mkZotConfig (zc_Address z) (zc_Port z) l (zc_RootDirectory z)) <$>
                         dec_string v (zc_Level z))]);
  ("storage", dec_struct [
    ("rootDirectory", fun v z => (fun d => mkZotConfig (zc_Address z) (zc_Port z) (zc_Level z) d) <$>
                                 dec_string v (zc_RootDirectory z))])].

Definition GetRegistryURL (c : ZotConfig) : string :=
  let address := zc_Address c in
  let address :=
    if negb (Go.has_prefix "http://" address) && negb (Go.has_prefix "https://" address)
    then "http://" +:+ address else address in
  address +:+ ":" +:+ zc_Port c.

(* ------------------------------------------------------------------ *)
(** ** validate.go *)

(** What validation asks of its surroundings: the variable USE_UNSECURE,
    whether os.Stat finds no file at a path, and robfig/cron's ParseStandard. *)
Class SatEnv := {
  env_USE_UNSECURE : string;
  file_missing : string -> bool;
  ParseStandard : string -> bool }.

Definition on_app (f : AppConfig -> AppConfig) (c : Config) : Config :=
  set_cf_AppConfig (f (cf_AppConfig c)) c.

Definition local_url (c : Config) : string :=
  rc_URL (ac_LocalRegistryCredentials (cf_AppConfig c)).

Section Validate.
Context `{SatEnv, NetUrl, GoQuote}.

Definition isValidCronExpression (cronExpression : string) : bool := ParseStandard cronExpression.

(** The keys of validLogLevels: zerolog's level names *)
Definition validLogLevels : list string := ["debug"; "info"; "warn"; "error"; "fatal"; "panic"].

Definition validateAndEnforceLogLevel (c : Config) : Config * list string :=
  let level := ac_LogLevel (cf_AppConfig c) in
  if String.eqb level "" then (on_app (set_ac_LogLevel "info") c, [])
  else if bool_decide (ToLower level ∈ validLogLevels) then (c, [])
  else (on_app (set_ac_LogLevel "info") c,
        ["invalid log_level '" +:+ level +:+ "' provided. Valid options are: info, debug, panic, error, warn, fatal. Defaulting to 'info'."]).

Definition validateBringOwnRegistry (c : Config) : list string * result Config :=
  let creds := ac_LocalRegistryCredentials (cf_AppConfig c) in
  if String.eqb (rc_URL creds) "" then
    ([], inl (PlainErr "custom registry URL is required when BringOwnRegistry is enabled"))
  else match ParseRequestURI (rc_URL creds) with
  | inl m => ([], inl (WrapErr "invalid custom registry URL" (PlainErr m)))
  | inr _ =>
      let w1 := if String.eqb (rc_Username creds) "" || String.eqb (rc_Password creds) ""
                then ["username or password for custom registry is empty."] else [] in
      if negb (String.eqb (cf_ZotConfigRaw c) "")
      then (w1 ++ ["redundant zot_config provided for bring_own_registry: `true`."],
            inr (set_cf_ZotConfigRaw "" c))
      else (w1, inr c)
  end.

(** The default is given an address and a port; [None] cannot happen. *)
Definition validateAndEnforceZotConfig (c : Config) (bringOwnRegistry : bool) : list string * result Config :=
  if bringOwnRegistry then ([], inr c)
  else
    let needsDefault :=
      String.eqb (cf_ZotConfigRaw c) "" || String.eqb (TrimSpace (cf_ZotConfigRaw c)) "{}" in
    let '(c, w1) :=
      if needsDefault
      then (set_cf_ZotConfigRaw DefaultZotConfigJSON c,
            ["empty zot_config provided. Defaulting to: " +:+ DefaultZotConfigJSON])
      else (c, []) in
    match Unmarshal dec_zot (cf_ZotConfigRaw c) no_zot with
    | None => ([], inl (WrapErr "invalid zot_config" (PlainErr "json")))
    | Some zotConfig =>
        let incomplete := String.eqb (zc_Address zotConfig) "" || String.eqb (zc_Port zotConfig) "" in
        let '(c, w2) :=
          if incomplete
          then (set_cf_ZotConfigRaw DefaultZotConfigJSON c,
                ["zot_config missing required http address/port. Applying defaults."])
          else (c, []) in
        let final :=
          if incomplete then Unmarshal dec_zot DefaultZotConfigJSON zotConfig else Some zotConfig in
        match final with
        | None => ([], inl (WrapErr "invalid default zot_config" (PlainErr "json")))
        | Some zotConfig =>
            if String.eqb (local_url c) "" then
              (w1 ++ w2 ++ ["remote registry URL is empty. Defaulting to value from zot_config " +:+
                            DefaultRemoteRegistryURL],
               inr (on_app (fun a => set_ac_LocalRegistryCredentials
                      (set_rc_URL (GetRegistryURL zotConfig) (ac_LocalRegistryCredentials a)) a) c))
            else (w1 ++ w2, inr c)
        end
    end.

(** One schedule: a default and a warning when cron does not parse it *)
Definition enforce_schedule (get : AppConfig -> string) (set : string -> AppConfig -> AppConfig)
    (name expr : string) (c : Config) : Config * list string :=
  if isValidCronExpression (get (cf_AppConfig c)) then (c, [])
  else (on_app (set expr) c,
        ["invalid schedule provided for " +:+ name +:+ ", using default schedule " +:+ expr]).

Definition validateAndEnforceCronSchedules (c : Config) : Config * list string :=
  let '(c, w1) := enforce_schedule ac_StateReplicationInterval set_ac_StateReplicationInterval
    "state_replication_interval" DefaultFetchAndReplicateCronExpr c in
  let '(c, w2) := enforce_schedule ac_RegisterSatelliteInterval set_ac_RegisterSatelliteInterval
    "register_satellite_interval" DefaultZTRCronExpr c in
  let '(c, w3) := enforce_schedule ac_HeartbeatInterval set_ac_HeartbeatInterval
    "heartbeat_interval" DefaultHeartbeatCronExpr c in
  (c, w1 ++ w2 ++ w3).

Definition validateTLSConfig (t : TLSConfig) : list string * result unit :=
  let set s := negb (String.eqb s "") in
  if negb (set (tls_CertFile t)) && negb (set (tls_KeyFile t)) && negb (set (tls_CAFile t))
  then ([], inr tt)
  else if (set (tls_CertFile t) && negb (set (tls_KeyFile t))) ||
          (negb (set (tls_CertFile t)) && set (tls_KeyFile t))
  then ([], inl (PlainErr "both cert_file and key_file must be provided together"))
  else if set (tls_CertFile t) && file_missing (tls_CertFile t)
  then ([], inl (PlainErr ("TLS cert_file not found: " +:+ tls_CertFile t)))
  else if set (tls_KeyFile t) && file_missing (tls_KeyFile t)
  then ([], inl (PlainErr ("TLS key_file not found: " +:+ tls_KeyFile t)))
  else if set (tls_CAFile t) && file_missing (tls_CAFile t)
  then ([], inl (PlainErr ("TLS ca_file not found: " +:+ tls_CAFile t)))
  else (if tls_SkipVerify t
        then ["TLS skip_verify is enabled, certificate verification will be skipped"] else [], inr tt).

Definition validRuntimes : list string := ["docker"; "containerd"; "crio"; "podman"].

Definition slice {A} (l : option (list A)) : list A := default [] l.

Definition validateRegistryFallbackConfig (c : Config) : Config * list string :=
  let fb := ac_RegistryFallback (cf_AppConfig c) in
  if negb (fb_Enabled fb) then (c, [])
  else
    let '(c, w1) :=
      match slice (fb_Registries fb) with
      | [] => (on_app (fun a => set_ac_RegistryFallback
                 (set_fb_Registries (Some ["docker.io"]) (ac_RegistryFallback a)) a) c,
               ["registry_fallback is enabled but no registries specified, defaulting to docker.io"])
      | _ => (c, [])
      end in
    let fb := ac_RegistryFallback (cf_AppConfig c) in
    let w2 := List.flat_map (fun r =>
      if String.eqb (TrimSpace r) "" then ["registry_fallback contains an empty registry entry"] else [])
      (slice (fb_Registries fb)) in
    let w3 := List.flat_map (fun rt =>
      if bool_decide (rt ∈ validRuntimes) then []
      else ["registry_fallback contains unknown runtime " +:+ go_quote rt +:+
            ", valid values: docker, containerd, crio, podman"])
      (slice (fb_Runtimes fb)) in
    (c, w1 ++ w2 ++ w3).

(** *** The audit block *)

Definition enforceAuditRotation (f : SyslogAuditFile) : SyslogAuditFile * list string :=
  let number bad d what (v : option Z) : Z * list string :=
    match v with
    | None => (d, [])
    | Some n => if bad n : bool
                then (d, ["audit.syslog.file." +:+ what +:+ ", defaulting to " +:+ Go.itoa d])
                else (n, [])
    end in
  let '(size, w1) := number (fun n => (n <=? 0)%Z) DefaultAuditMaxSizeMB
    "max_size_mb must be > 0" (sf_MaxSizeMB f) in
  let '(backups, w2) := number (fun n => (n <? 0)%Z) DefaultAuditMaxBackups
    "max_backups must be >= 0" (sf_MaxBackups f) in
  let '(age, w3) := number (fun n => (n <? 0)%Z) DefaultAuditMaxAgeDays
    "max_age_days must be >= 0" (sf_MaxAgeDays f) in
  (mkSyslogAuditFile (sf_Path f) (Some size) (Some backups) (Some age) (sf_Compress f),
   w1 ++ w2 ++ w3).

Definition enforceFileTarget (s : SyslogAudit) : SyslogAudit * list string :=
  let '(path, w1) :=
    if String.eqb (sf_Path (sy_File s)) ""
    then (DefaultAuditFilePath, ["audit.syslog.file.path empty, defaulting to " +:+ DefaultAuditFilePath])
    else (sf_Path (sy_File s), []) in
  let '(f, w2) := enforceAuditRotation (set_sf_Path path (sy_File s)) in
  (set_sy_File f s, w1 ++ w2).

Definition enforceDaemonTarget (s : SyslogAudit) : SyslogAudit * list string :=
  (if String.eqb (sy_SocketPath s) "" then set_sy_SocketPath DefaultAuditSyslogSocket s else s, []).

Definition validateNetworkTarget (s : SyslogAudit) : SyslogAudit * list string :=
  let '(s, w1) :=
    if String.eqb (sy_Network s) ""
    then (set_sy_Network "udp" s, ["audit.syslog.network empty, defaulting to udp"]) else (s, []) in
  let w2 := if String.eqb (sy_Address s) ""
    then ["audit.syslog.target=network but audit.syslog.address is empty; the audit logger will fail to start"]
    else [] in
  (s, w1 ++ w2).

Definition enforceInvalidTarget (s : SyslogAudit) : SyslogAudit * list string :=
  let warning := "audit.syslog.target " +:+ go_quote (sy_Target s) +:+
    " is invalid (expected daemon|network|file), defaulting to " +:+ DefaultAuditSyslogTarget in
  let '(s, w) := enforceFileTarget (set_sy_Target DefaultAuditSyslogTarget s) in
  (s, warning :: w).

Definition enforceSyslogConfig (s : SyslogAudit) : SyslogAudit * list string :=
  let s := if String.eqb (sy_Target s) "" then set_sy_Target DefaultAuditSyslogTarget s else s in
  let s := if String.eqb (sy_Tag s) "" then set_sy_Tag DefaultAuditSyslogTag s else s in
  if String.eqb (sy_Target s) "daemon" then enforceDaemonTarget s
  else if String.eqb (sy_Target s) "network" then validateNetworkTarget s
  else if String.eqb (sy_Target s) "file" then enforceFileTarget s
  else enforceInvalidTarget s.

Definition validateOtelConfig (o : OtelAudit) : list string :=
  if ot_Enabled o && String.eqb (ot_Endpoint o) ""
  then ["audit.otel.enabled but audit.otel.endpoint is empty; the audit logger will fail to start"]
  else [].

Definition validateAndEnforceAuditConfig (c : Config) : Config * list string :=
  let a := ac_Audit (cf_AppConfig c) in
  if negb (au_Enabled a) then (c, [])
  else
    let '(s, w1) :=
      if EnabledOrDefault (au_Syslog a) then enforceSyslogConfig (au_Syslog a) else (au_Syslog a, []) in
    let w2 := validateOtelConfig (au_Otel a) in
    let w3 := if negb (EnabledOrDefault s) && negb (ot_Enabled (au_Otel a))
      then ["audit.enabled is true but no transport is enabled (audit.syslog.enabled=false and audit.otel.enabled=false); the audit logger will fail to start"]
      else [] in
    (on_app (set_ac_Audit (set_au_Syslog s a)) c, w1 ++ w2 ++ w3).

(** The warnings, and the validated configuration or the error *)
Definition ValidateAndEnforceDefaults (config : option Config) (defaultGroundControlURL : string)
    : list string * result Config :=
  let c := default no_config config in
  let gc := ac_GroundControlURL (cf_AppConfig c) in
  let '(c, w0) :=
    if negb (String.eqb defaultGroundControlURL "") then
      (on_app (set_ac_GroundControlURL defaultGroundControlURL) c,
       if negb (String.eqb gc "") && negb (String.eqb gc defaultGroundControlURL)
       then ["ground_control_url from env/CLI (" +:+ defaultGroundControlURL +:+
             ") takes precedence over config file (" +:+ gc +:+ ")"]
       else [])
    else (c, []) in
  match ParseRequestURI (ac_GroundControlURL (cf_AppConfig c)) with
  | inl m => ([], inl (WrapErr "invalid URL provided for ground_control_url" (PlainErr m)))
  | inr _ =>
      let '(c, w1) := validateAndEnforceLogLevel c in
      let c :=
        if negb (String.eqb env_USE_UNSECURE "")
        then on_app (set_ac_UseUnsecure
               (String.eqb (ToLower env_USE_UNSECURE) "true" || String.eqb env_USE_UNSECURE "1")) c
        else c in
      let bringOwnRegistry := ac_BringOwnRegistry (cf_AppConfig c) in
      let '(w2, bor) := if bringOwnRegistry then validateBringOwnRegistry c else ([], inr c) in
      match bor with
      | inl e => (w0 ++ w1 ++ w2, inl e)
      | inr c =>
          let '(w3, zot) := validateAndEnforceZotConfig c bringOwnRegistry in
          match zot with
          | inl e => (w0 ++ w1 ++ w2 ++ w3, inl e)
          | inr c =>
              let '(c, w4) := validateAndEnforceCronSchedules c in
              let '(w5, tls) := validateTLSConfig (ac_TLS (cf_AppConfig c)) in
              match tls with
              | inl e => (w0 ++ w1 ++ w2 ++ w3 ++ w4 ++ w5, inl e)
              | inr _ =>
                  let '(c, w6) := validateRegistryFallbackConfig c in
                  let '(c, w7) := validateAndEnforceAuditConfig c in
                  (w0 ++ w1 ++ w2 ++ w3 ++ w4 ++ w5 ++ w6 ++ w7, inr c)
              end
          end
      end
  end.

End Validate.

(* ------------------------------------------------------------------ *)
(** ** What validation establishes *)

Section Settled.
Context `{SatEnv, NetUrl, GoQuote}.

Definition parses (u : string) : Prop := exists p, ParseRequestURI u = inr p.

Definition good_level (level : string) : Prop := level <> "" /\ ToLower level ∈ validLogLevels.

Definition zot_complete (raw : string) : Prop :=
  raw <> "" /\ TrimSpace raw <> "{}" /\
  exists z, Unmarshal dec_zot raw no_zot = Some z /\ zc_Address z <> "" /\ zc_Port z <> "".

(** Everything that has a default is there: a target that is known, a tag, and
    what the target needs besides an address. *)
Record syslog_complete (s : SyslogAudit) : Prop := mkSyslogComplete {
  sc_target : sy_Target s ∈ ["daemon"; "network"; "file"];
  sc_tag : sy_Tag s <> "";
  sc_daemon : sy_Target s = "daemon" -> sy_SocketPath s <> "";
  sc_network : sy_Target s = "network" -> sy_Network s <> "";
  sc_file : sy_Target s = "file" -> sf_Path (sy_File s) <> "" /\ exists size backups age,
    sf_MaxSizeMB (sy_File s) = Some size /\ sf_MaxBackups (sy_File s) = Some backups /\
    sf_MaxAgeDays (sy_File s) = Some age /\ (0 < size /\ 0 <= backups /\ 0 <= age)%Z }.

Definition audit_settled (a : AuditConfig) : Prop :=
  au_Enabled a = true -> EnabledOrDefault (au_Syslog a) = true -> syslog_complete (au_Syslog a).

(** What has no default is warned of when it is missing: the logger will not
    start. *)
Definition no_address : string :=
  "audit.syslog.target=network but audit.syslog.address is empty; the audit logger will fail to start".
Definition no_endpoint : string :=
  "audit.otel.enabled but audit.otel.endpoint is empty; the audit logger will fail to start".
Definition no_transport : string :=
  "audit.enabled is true but no transport is enabled (audit.syslog.enabled=false and audit.otel.enabled=false); the audit logger will fail to start".

Definition audit_warned (a : AuditConfig) (w : list string) : Prop :=
  au_Enabled a = true ->
  (EnabledOrDefault (au_Syslog a) = true -> sy_Target (au_Syslog a) = "network" ->
   sy_Address (au_Syslog a) = "" -> no_address ∈ w) /\
  (ot_Enabled (au_Otel a) = true -> ot_Endpoint (au_Otel a) = "" -> no_endpoint ∈ w) /\
  (EnabledOrDefault (au_Syslog a) = false -> ot_Enabled (au_Otel a) = false -> no_transport ∈ w).

Lemma audit_warned_in a w w' : (forall x, x ∈ w -> x ∈ w') -> audit_warned a w -> audit_warned a w'.
Proof. unfold audit_warned. naive_solver. Qed.

(** A configuration the satellite can run on: what the readers of the
    configuration rely on, and what a second validation leaves alone. *)
Record settled (gc : string) (c : Config) : Prop := mkSettled {
  set_url : parses (ac_GroundControlURL (cf_AppConfig c)) /\
            (gc <> "" -> ac_GroundControlURL (cf_AppConfig c) = gc);
  set_level : good_level (ac_LogLevel (cf_AppConfig c));
  set_unsecure : env_USE_UNSECURE <> "" ->
    ac_UseUnsecure (cf_AppConfig c) =
      String.eqb (ToLower env_USE_UNSECURE) "true" || String.eqb env_USE_UNSECURE "1";
  set_registry : local_url c <> "";
  set_own : ac_BringOwnRegistry (cf_AppConfig c) = true ->
    parses (local_url c) /\ cf_ZotConfigRaw c = "";
  set_zot : ac_BringOwnRegistry (cf_AppConfig c) = false -> zot_complete (cf_ZotConfigRaw c);
  set_replication : ParseStandard (ac_StateReplicationInterval (cf_AppConfig c)) = true;
  set_registration : ParseStandard (ac_RegisterSatelliteInterval (cf_AppConfig c)) = true;
  set_heartbeat : ParseStandard (ac_HeartbeatInterval (cf_AppConfig c)) = true;
  set_tls : (validateTLSConfig (ac_TLS (cf_AppConfig c))).2 = inr tt;
  set_fallback : fb_Enabled (ac_RegistryFallback (cf_AppConfig c)) = true ->
    slice (fb_Registries (ac_RegistryFallback (cf_AppConfig c))) <> [];
  set_audit : audit_settled (ac_Audit (cf_AppConfig c)) }.

(** The documentation of robfig/cron: an @every schedule with a duration that
    time.ParseDuration accepts. *)
Definition cron_accepts_defaults : Prop :=
  ParseStandard DefaultFetchAndReplicateCronExpr = true /\
  ParseStandard DefaultZTRCronExpr = true /\ ParseStandard DefaultHeartbeatCronExpr = true.

(** *** One lemma per stage *)

Lemma eqb_ne s t : String.eqb s t = false -> s <> t.
Proof. apply String.eqb_neq. Qed.
Lemma ne_eqb s t : s <> t -> String.eqb s t = false.
Proof. apply String.eqb_neq. Qed.

Lemma on_app_id f c : f (cf_AppConfig c) = cf_AppConfig c -> on_app f c = c.
Proof. destruct c. unfold on_app, set_cf_AppConfig. cbn. by intros ->. Qed.

Lemma stage_level c c' w : validateAndEnforceLogLevel c = (c', w) ->
  exists l, c' = on_app (set_ac_LogLevel l) c /\ good_level l.
Proof.
  unfold validateAndEnforceLogLevel. intros E.
  assert (good_level "info") as Hi by (split; [done|]; vm_compute; set_solver).
  destruct (String.eqb (ac_LogLevel _) "") eqn:E1; [simplify_eq; eauto|].
  case_bool_decide; simplify_eq; [|eauto].
  exists (ac_LogLevel (cf_AppConfig c')). split; [|split; [by apply eqb_ne|done]].
  rewrite on_app_id; [done|]. by destruct (cf_AppConfig c').
Qed.

Lemma stage_own c w c' : validateBringOwnRegistry c = (w, inr c') ->
  c' = set_cf_ZotConfigRaw "" c /\ local_url c <> "" /\ parses (local_url c).
Proof.
  unfold validateBringOwnRegistry, parses, local_url. intros E.
  destruct (String.eqb (rc_URL _) "") eqn:E1; [done|]. apply eqb_ne in E1.
  destruct (ParseRequestURI _) eqn:E2; [done|].
  destruct (String.eqb (cf_ZotConfigRaw c) "") eqn:E3; simplify_eq/=; [|by eauto].
  split; [|by eauto]. apply String.eqb_eq in E3. destruct c'. cbn in *. by subst.
Qed.

Lemma registry_url_not_empty z : GetRegistryURL z <> "".
Proof.
  unfold GetRegistryURL. destruct (negb _ && negb _) eqn:E; [done|].
  destruct (zc_Address z); [done|]. done.
Qed.

Definition default_zot_json : json := Eval vm_compute in default JNull (parse DefaultZotConfigJSON).

Lemma default_zot_decodes z :
  Unmarshal dec_zot DefaultZotConfigJSON z = Some (mkZotConfig "0.0.0.0" "8585" "info" "./zot").
Proof.
  unfold Unmarshal. replace (parse DefaultZotConfigJSON) with (Some default_zot_json) by (vm_compute; reflexivity).
  reflexivity.
Qed.

Lemma default_zot_complete : zot_complete DefaultZotConfigJSON.
Proof.
  split; [done|]. split; [vm_compute; done|].
  eexists. split; [apply default_zot_decodes|]. done.
Qed.

Lemma same_url c :
  on_app (fun a => set_ac_LocalRegistryCredentials
    (set_rc_URL (local_url c) (ac_LocalRegistryCredentials a)) a) c = c.
Proof.
  apply on_app_id. unfold local_url. destruct (cf_AppConfig c) as [???????? [] ???????]. done.
Qed.

Lemma stage_zot c w c' : validateAndEnforceZotConfig c false = (w, inr c') ->
  exists raw u, zot_complete raw /\ u <> "" /\
    c' = set_cf_ZotConfigRaw raw (on_app (fun a =>
           set_ac_LocalRegistryCredentials (set_rc_URL u (ac_LocalRegistryCredentials a)) a) c).
Proof.
  unfold validateAndEnforceZotConfig. intros E.
  set (nd := String.eqb (cf_ZotConfigRaw c) "" || _) in E.
  set (r1 := if nd then DefaultZotConfigJSON else cf_ZotConfigRaw c).
  assert (forall w1 : list string, (if nd then (set_cf_ZotConfigRaw DefaultZotConfigJSON c, w1) else (c, [])) =
    (set_cf_ZotConfigRaw r1 c, if nd then w1 else [])) as E1.
  { intros w1. unfold r1. destruct nd; [done|]. by destruct c. }
  rewrite E1 in E. cbn [cf_ZotConfigRaw set_cf_ZotConfigRaw] in E.
  destruct (Unmarshal dec_zot r1 no_zot) as [z|] eqn:Ez; [|done].
  destruct (String.eqb (zc_Address z) "" || String.eqb (zc_Port z) "") eqn:Ei.
  - rewrite default_zot_decodes in E. exists DefaultZotConfigJSON.
    destruct (String.eqb (local_url _) "") eqn:El; simplify_eq/=.
    + eexists (GetRegistryURL _). split; [apply default_zot_complete|].
      split; [apply registry_url_not_empty|]. by destruct c.
    + exists (local_url c). split; [apply default_zot_complete|]. split; [by apply eqb_ne in El|].
      by rewrite same_url.
  - assert (zot_complete r1) as Hr.
    { apply orb_false_elim in Ei as [Ea%eqb_ne Ep%eqb_ne].
      unfold r1, nd in *. destruct (String.eqb (cf_ZotConfigRaw c) "" || _) eqn:En.
      - apply default_zot_complete.
      - apply orb_false_elim in En as [En1%eqb_ne En2%eqb_ne]. split_and!; eauto. }
    exists r1. destruct (String.eqb (local_url _) "") eqn:El; simplify_eq/=.
    + exists (GetRegistryURL z). split; [done|]. split; [apply registry_url_not_empty|]. by destruct c.
    + exists (local_url c). split; [done|]. split; [by apply eqb_ne in El|].
      by rewrite same_url.
Qed.

Lemma stage_schedule get set name expr c c' w :
  (forall a, set (get a) a = a) -> ParseStandard expr = true ->
  enforce_schedule get set name expr c = (c', w) ->
  exists e, c' = on_app (set e) c /\ ParseStandard e = true.
Proof.
  intros Hgs He. unfold enforce_schedule, isValidCronExpression.
  destruct (ParseStandard (get _)) eqn:E; intros ?; simplify_eq; [|eauto].
  exists (get (cf_AppConfig c')). by rewrite on_app_id.
Qed.

Lemma stage_fallback c c' w : validateRegistryFallbackConfig c = (c', w) ->
  exists f, c' = on_app (set_ac_RegistryFallback f) c /\ (fb_Enabled f = true -> slice (fb_Registries f) <> []).
Proof.
  unfold validateRegistryFallbackConfig. intros E.
  assert (on_app (set_ac_RegistryFallback (ac_RegistryFallback (cf_AppConfig c))) c = c) as Hid.
  { apply on_app_id. by destruct (cf_AppConfig c). }
  destruct (fb_Enabled _) eqn:Ee; cbn in E.
  - destruct (slice (fb_Registries _)) eqn:Es; simplify_eq/=.
    + eexists. split; [reflexivity|done].
    + eexists. split; [symmetry; exact Hid|]. by rewrite Es.
  - simplify_eq. eexists. split; [symmetry; exact Hid|]. by rewrite Ee.
Qed.

(** *** The audit block *)

Lemma rotation_complete f f' w : enforceAuditRotation f = (f', w) ->
  sf_Path f' = sf_Path f /\ exists size backups age,
    sf_MaxSizeMB f' = Some size /\ sf_MaxBackups f' = Some backups /\ sf_MaxAgeDays f' = Some age /\
    (0 < size /\ 0 <= backups /\ 0 <= age)%Z.
Proof.
  unfold enforceAuditRotation, DefaultAuditMaxSizeMB, DefaultAuditMaxBackups, DefaultAuditMaxAgeDays. intros E.
  repeat match type of E with
  | context [match ?v with None => _ | Some _ => _ end] => destruct v
  | context [(?x <=? ?y)%Z] => destruct (Z.leb_spec x y)
  | context [(?x <? ?y)%Z] => destruct (Z.ltb_spec x y)
  end; simplify_eq/=; (split; [done|]); eexists _, _, _; split_and!; (reflexivity || lia).
Qed.

Lemma file_target_complete s s' w : enforceFileTarget s = (s', w) -> sy_Target s = "file" -> sy_Tag s <> "" ->
  syslog_complete s' /\ sy_Enabled s' = sy_Enabled s /\ sy_Target s' = "file".
Proof.
  unfold enforceFileTarget. intros E Ht Hg.
  set (path := if String.eqb (sf_Path (sy_File s)) "" then DefaultAuditFilePath else sf_Path (sy_File s)).
  assert (path <> "") as Hp.
  { unfold path. destruct (String.eqb _ _) eqn:Ep; [done|by apply eqb_ne]. }
  destruct (enforceAuditRotation (set_sf_Path path (sy_File s))) as [f w2] eqn:Er.
  assert (s' = set_sy_File f s) as ->.
  { unfold path in Er. destruct (String.eqb (sf_Path (sy_File s)) ""); rewrite Er in E; by simplify_eq. }
  apply rotation_complete in Er as [Hf Hn]. split; [|done].
  split; cbn; rewrite ?Ht; [set_solver|done|done|done|]. intros _. rewrite Hf. by split.
Qed.

Lemma syslog_completed s s' w : enforceSyslogConfig s = (s', w) ->
  sy_Enabled s' = sy_Enabled s /\ syslog_complete s' /\
  (sy_Target s' = "network" -> sy_Address s' = "" -> no_address ∈ w).
Proof.
  intros E. unfold enforceSyslogConfig in E.
  set (s1 := if String.eqb (sy_Target s) "" then _ else s) in E.
  assert (sy_Enabled s1 = sy_Enabled s) as He1 by (unfold s1; by destruct (String.eqb _ _)). clearbody s1.
  set (s2 := if String.eqb (sy_Tag s1) "" then _ else s1) in E.
  assert (sy_Tag s2 <> "" /\ sy_Enabled s2 = sy_Enabled s) as (Hg & He2).
  { unfold s2. destruct (String.eqb (sy_Tag s1) "") eqn:Et; [done|]. by apply eqb_ne in Et. }
  clearbody s2. clear s1 He1.
  destruct (String.eqb_spec (sy_Target s2) "daemon") as [Ed|_].
  { unfold enforceDaemonTarget in E.
    destruct (String.eqb (sy_SocketPath s2) "") eqn:Ep; simplify_eq; (split; [done|]); split; try (cbn; rewrite Ed; done);
      split; cbn; rewrite ?Ed; try done; try set_solver. intros _. by apply eqb_ne. }
  destruct (String.eqb_spec (sy_Target s2) "network") as [En|_].
  { unfold validateNetworkTarget in E.
    destruct (String.eqb (sy_Network s2) "") eqn:Ep; simplify_eq; (split; [done|]); split.
    1, 3: split; cbn; rewrite ?En; try done; try set_solver; intros _; by apply eqb_ne.
    all: intros _ Ha; cbn in *; rewrite Ha; cbn; unfold no_address; set_solver. }
  destruct (String.eqb_spec (sy_Target s2) "file") as [Ef|_].
  { apply file_target_complete in E as (Hc & He & Ht); [|done..]. by rewrite He, Ht. }
  unfold enforceInvalidTarget in E.
  destruct (enforceFileTarget (set_sy_Target _ s2)) as [s3 w3] eqn:E3. simplify_eq.
  apply file_target_complete in E3 as (Hc & He & Ht); [|done..]. by rewrite He, Ht.
Qed.

Lemma complete_stays s : syslog_complete s -> exists w, enforceSyslogConfig s = (s, w).
Proof.
  intros [Ht Hg Hd Hn Hf]. unfold enforceSyslogConfig.
  assert (sy_Target s <> "") as Hne by (intros E; rewrite E in Ht; set_solver).
  rewrite (ne_eqb _ _ Hne). cbv zeta. rewrite (ne_eqb _ _ Hg).
  assert (sy_Target s = "daemon" \/ sy_Target s = "network" \/ sy_Target s = "file") as [E|[E|E]] by set_solver;
    rewrite E; cbn; rewrite ?E; cbn.
  - unfold enforceDaemonTarget. rewrite (ne_eqb _ _ (Hd E)). eauto.
  - unfold validateNetworkTarget. rewrite (ne_eqb _ _ (Hn E)). eauto.
  - destruct (Hf E) as (Hp & size & backups & age & Hs & Hb & Hy & Hz1 & Hz2 & Hz3).
    unfold enforceFileTarget. rewrite (ne_eqb _ _ Hp). unfold enforceAuditRotation, set_sf_Path. cbn.
    rewrite Hs, Hb, Hy. replace (size <=? 0)%Z with false by lia. replace (backups <? 0)%Z with false by lia.
    replace (age <? 0)%Z with false by lia. eexists. f_equal. destruct s as [??????[]]; cbn in *; by subst.
Qed.

Lemma stage_audit c c' w : validateAndEnforceAuditConfig c = (c', w) ->
  exists a, c' = on_app (set_ac_Audit a) c /\ audit_settled a /\ audit_warned a w.
Proof.
  unfold validateAndEnforceAuditConfig, audit_settled, audit_warned. intros E.
  assert (forall c, on_app (set_ac_Audit (ac_Audit (cf_AppConfig c))) c = c) as Hid.
  { intros d. apply on_app_id. by destruct (cf_AppConfig d). }
  destruct (au_Enabled (ac_Audit (cf_AppConfig c))) eqn:Ea; cbn [negb] in E.
  - destruct (EnabledOrDefault (au_Syslog _)) eqn:Es.
    + destruct (enforceSyslogConfig _) as [s ws] eqn:Ess. simplify_eq.
      apply syslog_completed in Ess as (He & Hc & Ha).
      eexists. split; [reflexivity|]. cbn. split; [done|]. intros _. unfold EnabledOrDefault in *. rewrite He, Es.
      split_and!; [intros _ Ht Hn; apply elem_of_app; left; auto| |done].
      intros Ho Hn. unfold validateOtelConfig, no_endpoint. rewrite Ho, Hn. cbn. set_solver.
    + simplify_eq. eexists. split; [reflexivity|]. cbn. rewrite Es. split; [done|]. intros _. split_and!; [done|..].
      * intros Ho Hn. unfold validateOtelConfig, no_endpoint. rewrite Ho, Hn. cbn. set_solver.
      * intros _ Ho. unfold no_transport. rewrite Ho. cbn. set_solver.
  - simplify_eq. exists (ac_Audit (cf_AppConfig c')). split; [by rewrite Hid|]. by rewrite Ea.
Qed.

(** *** All stages *)

Lemma stage_cron c c' w : cron_accepts_defaults -> validateAndEnforceCronSchedules c = (c', w) ->
  exists e1 e2 e3, c' = on_app (set_ac_HeartbeatInterval e3)
      (on_app (set_ac_RegisterSatelliteInterval e2) (on_app (set_ac_StateReplicationInterval e1) c)) /\
    ParseStandard e1 = true /\ ParseStandard e2 = true /\ ParseStandard e3 = true.
Proof.
  intros (Hd1 & Hd2 & Hd3). unfold validateAndEnforceCronSchedules. intros E.
  destruct (enforce_schedule _ _ _ _ c) as [c1 w1] eqn:E1.
  destruct (enforce_schedule _ _ _ _ c1) as [c2 w2] eqn:E2.
  destruct (enforce_schedule _ _ _ _ c2) as [c3 w3] eqn:E3. simplify_eq.
  apply stage_schedule in E1 as (e1 & -> & He1); [|by intros []|done].
  apply stage_schedule in E2 as (e2 & -> & He2); [|by intros []|done].
  apply stage_schedule in E3 as (e3 & -> & He3); [|by intros []|done].
  by exists e1, e2, e3.
Qed.

#[local] Arguments validateTLSConfig : simpl never.

Lemma validated_settled c gc w c' : cron_accepts_defaults ->
  ValidateAndEnforceDefaults c gc = (w, inr c') ->
  settled gc c' /\ audit_warned (ac_Audit (cf_AppConfig c')) w.
Proof.
  intros Hcron. unfold ValidateAndEnforceDefaults. intros E.
  set (c0 := default no_config c) in E. clearbody c0.
  destruct (if negb (String.eqb gc "") then _ else _) as [c1 w1] eqn:E1.
  assert (exists u, c1 = on_app (set_ac_GroundControlURL u) c0 /\ (gc <> "" -> u = gc)) as (u & -> & Hu).
  { destruct (String.eqb gc "") eqn:Eg; simplify_eq/=; [|eauto].
    exists (ac_GroundControlURL (cf_AppConfig c1)). split; [|by apply String.eqb_eq in Eg].
    rewrite on_app_id; [done|]. by destruct (cf_AppConfig c1). }
  clear E1. destruct (ParseRequestURI _) as [?|p] eqn:Ep; [done|]. cbn in Ep.
  destruct (validateAndEnforceLogLevel _) as [c2 w2] eqn:E2.
  apply stage_level in E2 as (l & -> & Hl).
  match type of E with context [if negb (String.eqb env_USE_UNSECURE "") then ?a else ?b] =>
    set (c3 := if negb (String.eqb env_USE_UNSECURE "") then a else b) in E end.
  assert (exists b, c3 = on_app (set_ac_UseUnsecure b) (on_app (set_ac_LogLevel l)
      (on_app (set_ac_GroundControlURL u) c0)) /\
    (env_USE_UNSECURE <> "" -> b = String.eqb (ToLower env_USE_UNSECURE) "true" ||
      String.eqb env_USE_UNSECURE "1")) as (b & Hc3 & Hb).
  { unfold c3. destruct (String.eqb env_USE_UNSECURE "") eqn:Ee; cbn [negb]; [|eauto].
    eexists (ac_UseUnsecure (cf_AppConfig c0)). split; [|intros Hne; apply String.eqb_eq in Ee; by destruct Hne].
    symmetry. apply on_app_id. by destruct c0 as [? [] ?]. }
  rewrite Hc3 in E. clear c3 Hc3. cbn [cf_AppConfig on_app set_cf_AppConfig] in E.
  destruct (ac_BringOwnRegistry _) eqn:Eb.
  - destruct (validateBringOwnRegistry _) as [w3 [?|c4]] eqn:E4; [done|].
    apply stage_own in E4 as (-> & Hne & Hp).
    cbn [validateAndEnforceZotConfig] in E.
    destruct (validateAndEnforceCronSchedules _) as [c5 w5] eqn:E5.
    apply (stage_cron _ _ _ Hcron) in E5 as (e1 & e2 & e3 & -> & He1 & He2 & He3).
    destruct (validateTLSConfig _) as [w6 [?|[]]] eqn:E6; [done|].
    destruct (validateRegistryFallbackConfig _) as [c7 w7] eqn:E7.
    apply stage_fallback in E7 as (f & -> & Hf).
    destruct (validateAndEnforceAuditConfig _) as [c8 w8] eqn:E8.
    apply stage_audit in E8 as (a & -> & Ha & Hw). simplify_eq.
    split; [|eapply audit_warned_in, Hw; intros x Hx; rewrite !elem_of_app; tauto].
    split; cbn in *; try done; try (by eauto). { split; [by eexists|done]. }
    { by rewrite Eb. }
    { exact (f_equal snd E6). }
  - destruct (validateAndEnforceZotConfig _ _) as [w4 [?|c4]] eqn:E4; [done|].
    apply stage_zot in E4 as (raw & lu & Hz & Hlu & ->).
    destruct (validateAndEnforceCronSchedules _) as [c5 w5] eqn:E5.
    apply (stage_cron _ _ _ Hcron) in E5 as (e1 & e2 & e3 & -> & He1 & He2 & He3).
    destruct (validateTLSConfig _) as [w6 [?|[]]] eqn:E6; [done|].
    destruct (validateRegistryFallbackConfig _) as [c7 w7] eqn:E7.
    apply stage_fallback in E7 as (f & -> & Hf).
    destruct (validateAndEnforceAuditConfig _) as [c8 w8] eqn:E8.
    apply stage_audit in E8 as (a & -> & Ha & Hw). simplify_eq.
    split; [|eapply audit_warned_in, Hw; intros x Hx; rewrite !elem_of_app; tauto].
    split; cbn in *; try done; try (by eauto). { split; [by eexists|done]. }
    { by rewrite Eb. }
    { exact (f_equal snd E6). }
Qed.

(** *** A settled configuration is left alone *)

Lemma settled_level c : good_level (ac_LogLevel (cf_AppConfig c)) ->
  exists w, validateAndEnforceLogLevel c = (c, w).
Proof.
  intros [Hn Hl]. unfold validateAndEnforceLogLevel. rewrite (ne_eqb _ _ Hn).
  rewrite bool_decide_eq_true_2 by done. eauto.
Qed.

Lemma settled_own c : local_url c <> "" -> parses (local_url c) -> cf_ZotConfigRaw c = "" ->
  exists w, validateBringOwnRegistry c = (w, inr c).
Proof.
  intros Hn [p Hp] Hz. unfold validateBringOwnRegistry, local_url in *.
  rewrite (ne_eqb _ _ Hn), Hp, Hz. cbn. eauto.
Qed.

Lemma settled_zot c : zot_complete (cf_ZotConfigRaw c) -> local_url c <> "" ->
  exists w, validateAndEnforceZotConfig c false = (w, inr c).
Proof.
  intros (Hn & Ht & z & Hz & Ha & Hp) Hu. unfold validateAndEnforceZotConfig.
  rewrite (ne_eqb _ _ Hn), (ne_eqb _ _ Ht). cbn [orb]. rewrite Hz.
  rewrite (ne_eqb _ _ Ha), (ne_eqb _ _ Hp). cbn [orb]. rewrite (ne_eqb _ _ Hu). eauto.
Qed.

Lemma settled_cron c :
  ParseStandard (ac_StateReplicationInterval (cf_AppConfig c)) = true ->
  ParseStandard (ac_RegisterSatelliteInterval (cf_AppConfig c)) = true ->
  ParseStandard (ac_HeartbeatInterval (cf_AppConfig c)) = true ->
  exists w, validateAndEnforceCronSchedules c = (c, w).
Proof.
  intros Hc1 Hc2 Hc3. unfold validateAndEnforceCronSchedules, enforce_schedule, isValidCronExpression.
  rewrite Hc1, Hc2, Hc3. eauto.
Qed.

Lemma settled_fallback c :
  (fb_Enabled (ac_RegistryFallback (cf_AppConfig c)) = true ->
   slice (fb_Registries (ac_RegistryFallback (cf_AppConfig c))) <> []) ->
  exists w, validateRegistryFallbackConfig c = (c, w).
Proof.
  intros Hf. unfold validateRegistryFallbackConfig. destruct (fb_Enabled _); [|cbn; eauto].
  cbn [negb]. destruct (slice (fb_Registries _)) eqn:Es; [by destruct Hf|]. eauto.
Qed.

Lemma settled_audit c : audit_settled (ac_Audit (cf_AppConfig c)) ->
  exists w, validateAndEnforceAuditConfig c = (c, w).
Proof.
  intros Ha. unfold validateAndEnforceAuditConfig, audit_settled in *.
  destruct (au_Enabled _); [|cbn; eauto]. cbn [negb].
  assert (forall w, exists w', (on_app (set_ac_Audit (set_au_Syslog (au_Syslog (ac_Audit (cf_AppConfig c)))
    (ac_Audit (cf_AppConfig c)))) c, w) = (c, w' : list string)) as Hid.
  { intros w. exists w. f_equal. apply on_app_id. destruct (cf_AppConfig c) as [??????????????? []]. done. }
  destruct (EnabledOrDefault _) eqn:Es; [|apply Hid].
  destruct (complete_stays _ (Ha eq_refl eq_refl)) as [w Hw]. rewrite Hw. apply Hid.
Qed.

Lemma settled_validates c gc : settled gc c ->
  exists w, ValidateAndEnforceDefaults (Some c) gc = (w, inr c).
Proof.
  intros Hs. unfold ValidateAndEnforceDefaults. change (default no_config (Some c)) with c.
  cbv zeta.
  assert (exists w, (if negb (String.eqb gc "") then (on_app (set_ac_GroundControlURL gc) c,
     if negb (String.eqb (ac_GroundControlURL (cf_AppConfig c)) "") &&
        negb (String.eqb (ac_GroundControlURL (cf_AppConfig c)) gc)
     then ["ground_control_url from env/CLI (" +:+ gc +:+ ") takes precedence over config file (" +:+
           ac_GroundControlURL (cf_AppConfig c) +:+ ")"] else []) else (c, [])) = (c, w)) as [w0 Hg].
  { destruct (String.eqb gc "") eqn:Eg; cbn [negb]; [eauto|]. apply eqb_ne in Eg.
    eexists. f_equal. apply on_app_id. destruct (set_url _ _ Hs) as [_ Hu]. specialize (Hu Eg).
    destruct (cf_AppConfig c); cbn in *. by subst. }
  rewrite Hg. clear Hg. destruct (set_url _ _ Hs) as [[p Hp] _]. rewrite Hp.
  destruct (settled_level c (set_level _ _ Hs)) as [w1 ->].
  match goal with |- context [if negb (String.eqb env_USE_UNSECURE "") then ?a else ?b] =>
    replace (if negb (String.eqb env_USE_UNSECURE "") then a else b) with c end.
  2: { destruct (String.eqb env_USE_UNSECURE "") eqn:Ee; [done|]. apply eqb_ne in Ee.
       symmetry. apply on_app_id. pose proof (set_unsecure _ _ Hs Ee) as Hu.
       destruct (cf_AppConfig c); cbn in *. by subst. }
  destruct (ac_BringOwnRegistry _) eqn:Eb.
  - destruct (set_own _ _ Hs Eb) as [Hp' Hz].
    destruct (settled_own c (set_registry _ _ Hs) Hp' Hz) as [w2 ->].
    cbn [validateAndEnforceZotConfig].
    destruct (settled_cron c (set_replication _ _ Hs) (set_registration _ _ Hs) (set_heartbeat _ _ Hs))
      as [w4 ->].
    pose proof (set_tls _ _ Hs) as Ht. destruct (validateTLSConfig _) as [w5 r]. cbn in Ht. rewrite Ht.
    destruct (settled_fallback c (set_fallback _ _ Hs)) as [w6 ->].
    destruct (settled_audit c (set_audit _ _ Hs)) as [w7 ->]. eauto.
  - destruct (settled_zot c (set_zot _ _ Hs Eb) (set_registry _ _ Hs)) as [w3 ->].
    destruct (settled_cron c (set_replication _ _ Hs) (set_registration _ _ Hs) (set_heartbeat _ _ Hs))
      as [w4 ->].
    pose proof (set_tls _ _ Hs) as Ht. destruct (validateTLSConfig _) as [w5 r]. cbn in Ht. rewrite Ht.
    destruct (settled_fallback c (set_fallback _ _ Hs)) as [w6 ->].
    destruct (settled_audit c (set_audit _ _ Hs)) as [w7 ->]. eauto.
Qed.


End Settled.

(** *** A concrete environment *)

#[local] Instance demo_sat_env : SatEnv := {|
  env_USE_UNSECURE := "";
  file_missing _ := false;
  ParseStandard s := Go.has_prefix "@every " s || String.eqb s "@hourly" |}.

Definition demo_authority (s : string) : string :=
  let rest := default s (Go.after "://" s) in default rest (fst <$> Go.cut "/" rest).

#[local] Instance demo_net_url : NetUrl := {|
  url := string;
  Parse s := inr s;
  ParseRequestURI s := if Go.has_prefix "http://" s then inr s else inl "invalid URI for request";
  url_scheme _ := "http"; url_host s := s; url_path s := s;
  with_origin _ _ s := s;
  ResolveReference u s := inr (if Go.contains s "://" then s else u +:+ s); idna_hostname := demo_authority;
  url_string s := s |}.

#[local] Instance demo_go_quote : GoQuote := fun s => s.

Definition sample_config : Config :=
  mkConfig no_state
    (set_ac_Audit (mkAuditConfig true (set_sy_Target "pipe" no_syslog) (mkOtelAudit false ""))
      (set_ac_RegistryFallback (mkRegistryFallbackConfig true None None)
        (set_ac_HeartbeatInterval "@hourly" (set_ac_LogLevel "loud" no_app)))) "".

