(* ===== verification/Free.v ===== *)
(** * Programs over a set of operations

    A Go function with effects is a tree of operations, with its control flow
    (early returns included) in the continuations.  Ground Control's handlers
    and the satellite's processes use it with their own operations. *)

From stdpp Require Import relations.
From S2P Require Import Prelude.

(** A program over the operations [E]: a result, or an operation and what is
    done with its answer *)
Inductive free (E : Type -> Type) (A : Type) : Type :=
| Ret (a : A)
| Op {R : Type} (o : E R) (k : R -> free E A).
Arguments Ret {E A}. Arguments Op {E A R}.

Section Programs.
Context {E : Type -> Type}.

Fixpoint bind {A B} (m : free E A) (f : A -> free E B) : free E B :=
  match m with
  | Ret a => f a
  | Op o k => Op o (fun r => bind (k r) f)
  end.

Definition perform {R} (o : E R) : free E R := Op o Ret.

(** [x, err := m; if err != nil { h; return }; k] *)
Definition try {A B} (m : free E (result A)) (h : goerr -> free E B) (k : A -> free E B) : free E B :=
  bind m (fun r => match r with inl e => h e | inr a => k a end).

(** Helpers that return an error use the same notation with these handlers. *)
Definition throw {A} (e : goerr) : free E (result A) := Ret (inl e).
Definition ok {A} (a : A) : free E (result A) := Ret (inr a).
Definition wrap {A} (msg : string) (e : goerr) : free E (result A) := Ret (inl (WrapErr msg e)).

(** [for _, a := range l { s, err = f(a, s); if err != nil { return err } }] *)
Fixpoint for_each {A S} (f : A -> S -> free E (result S)) (l : list A) (s : S) : free E (result S) :=
  match l with
  | [] => ok s
  | a :: l' => try (f a s) throw (fun s' => for_each f l' s')
  end.

End Programs.

(** A program over some of the operations of a larger set *)
Fixpoint embed {E F : Type -> Type} (f : forall R, E R -> F R) {A} (p : free E A) : free F A :=
  match p with
  | Ret a => Ret a
  | Op o k => Op (f _ o) (fun r => embed f (k r))
  end.

Declare Scope prog_scope.
Delimit Scope prog_scope with prog.
Open Scope prog_scope.

Notation "'let*' x ':=' m 'in' k" := (bind m (fun x => k))
  (at level 10, x pattern, m at level 100, k at level 200) : prog_scope.
Notation "m ';;;' k" := (bind m (fun _ => k))
  (at level 199, k at level 200, right associativity) : prog_scope.
Notation "'let?' x ':=' m 'catch' h 'in' k" := (try m h (fun x => k))
  (at level 10, x pattern, m at level 100, h at level 100, k at level 200) : prog_scope.

(** The name of the program, to unfold it *)
Ltac program_head t := lazymatch t with ?f _ => program_head f | _ => t end.

(* ------------------------------------------------------------------ *)
(** ** Programs that run beside others

    Goroutines are programs over the same operations, interleaved one
    operation at a time.  [wp rely guar p Q w]: started in [w], whatever the
    others do as long as each of their steps is in [rely], every operation of
    [p] is in [guar], and when [p] ends its result and the world satisfy [Q].
    [parallel]: threads whose guarantees are in the others' relies can be
    proved one at a time. *)

Section Rely.
Context {E : Type -> Type} {W : Type} (exec : forall R, E R -> W -> W * R).

(** Alone *)
Fixpoint frun {A} (p : free E A) (w : W) : W * A :=
  match p with
  | Ret a => (w, a)
  | Op o k => let '(w', r) := exec _ o w in frun (k r) w'
  end.

Lemma frun_bind {A B} (m : free E A) (f : A -> free E B) w :
  frun (bind m f) w = let '(w', a) := frun m w in frun (f a) w'.
Proof.
  revert w. induction m as [a|R o k IH]; intros w; [done|]. cbn [bind frun].
  destruct (exec R o w) as [w' r]. apply IH.
Qed.

Section Wp.
Context (rely guar : W -> W -> Prop) `{!PreOrder rely}.

Fixpoint wp {A} (p : free E A) (Q : A -> W -> Prop) (w : W) : Prop :=
  match p with
  | Ret a => forall w', rely w w' -> Q a w'
  | Op o k => forall w', rely w w' ->
      guar w' (exec _ o w').1 /\ wp (k (exec _ o w').2) Q (exec _ o w').1
  end.

Lemma wp_rely {A} (p : free E A) Q w w' : rely w w' -> wp p Q w -> wp p Q w'.
Proof.
  intros Hr. destruct p as [a|R o k]; cbn [wp]; intros H v Hv; apply H; by transitivity w'.
Qed.

Lemma wp_mono {A} (p : free E A) (Q Q' : A -> W -> Prop) w :
  (forall a w', Q a w' -> Q' a w') -> wp p Q w -> wp p Q' w.
Proof.
  intros HQ. revert w. induction p as [a|R o k IH]; intros w H w' Hw; [by apply HQ, H|].
  destruct (H w' Hw) as [Hg Hk]. split; [done|]. by apply IH.
Qed.

Lemma wp_bind {A B} (m : free E A) (f : A -> free E B) Q w :
  wp m (fun a w' => wp (f a) Q w') w -> wp (bind m f) Q w.
Proof.
  revert w. induction m as [a|R o k IH]; intros w H; cbn [bind].
  - by apply (H w).
  - intros w' Hw. destruct (H w' Hw) as [Hg Hk]. split; [done|]. by apply IH.
Qed.

Lemma wp_try {A B} (m : free E (result A)) (h : goerr -> free E B) (k : A -> free E B) Q w :
  wp m (fun r w' => match r with inl e => wp (h e) Q w' | inr a => wp (k a) Q w' end) w ->
  wp (try m h k) Q w.
Proof. intros H. apply wp_bind. eapply wp_mono, H. by intros [e|a]. Qed.

Lemma wp_ret {A} (a : A) (Q : A -> W -> Prop) w : (forall w', rely w w' -> Q a w') -> wp (Ret a) Q w.
Proof. done. Qed.

Lemma wp_op {R} (o : E R) (Q : R -> W -> Prop) w :
  (forall w', rely w w' -> guar w' (exec _ o w').1 /\
     forall w'', rely (exec _ o w').1 w'' -> Q (exec _ o w').2 w'') ->
  wp (perform o) Q w.
Proof. intros H w' Hw. apply H, Hw. Qed.

(** A loop keeps an invariant; it may stop early with an error. *)
Lemma wp_for_each {A S} (f : A -> S -> free E (result S)) l (s : S)
    (Inv : list A -> S -> W -> Prop) (Q : result S -> W -> Prop) w :
  (forall a l' s' w', Inv (a :: l') s' w' ->
     wp (f a s') (fun r w'' => match r with inr s'' => Inv l' s'' w'' | inl e => wp (throw e) Q w'' end) w') ->
  (forall s' w', Inv [] s' w' -> wp (ok s') Q w') ->
  Inv l s w -> wp (for_each f l s) Q w.
Proof.
  intros Hstep Hend. revert s w. induction l as [|a l IH]; intros s w Hi; [by apply Hend|].
  cbn [for_each]. apply wp_try. eapply wp_mono, Hstep, Hi.
  intros [e|s'] w'; [done|]. apply IH.
Qed.

Lemma wp_run {A} (p : free E A) Q w : wp p Q w -> Q (frun p w).2 (frun p w).1.
Proof.
  revert w. induction p as [a|R o k IH]; intros w H; [by apply H|]. cbn [frun].
  destruct (H w) as [_ Hk]; [done|]. specialize (IH _ _ Hk). by destruct (exec R o w).
Qed.

End Wp.

(** More interference allowed, more guaranteed *)
Lemma wp_weaken (rely rely' guar guar' : W -> W -> Prop) {A} (p : free E A) Q w :
  (forall v v', rely' v v' -> rely v v') -> (forall v v', guar v v' -> guar' v v') ->
  wp rely guar p Q w -> wp rely' guar' p Q w.
Proof.
  intros Hr Hg. revert w. induction p as [a|R o k IH]; intros w H w' Hw; [by apply H, Hr|].
  destruct (H w' (Hr _ _ Hw)) as [H1 H2]. split; [by apply Hg|by apply IH].
Qed.

(** *** Programs each of whose operations is in a relation *)
Fixpoint within (step : W -> W -> Prop) {A} (p : free E A) : Prop :=
  match p with
  | Ret _ => True
  | Op o k => (forall w, step w (exec _ o w).1) /\ forall r, within step (k r)
  end.

Section Within.
Context (step : W -> W -> Prop).

Lemma within_bind {A B} (m : free E A) (f : A -> free E B) :
  within step m -> (forall a, within step (f a)) -> within step (bind m f).
Proof.
  induction m as [a|R o k IH]; intros Hm Hf; cbn [bind]; [done|].
  destruct Hm as [Ho Hk]. split; [done|]. intros r. by apply IH.
Qed.

Lemma within_for_each {A S} (f : A -> S -> free E (result S)) l s :
  (forall a s, within step (f a s)) -> within step (for_each f l s).
Proof.
  intros Hf. revert s. induction l as [|a l IH]; intros s; [done|]. cbn [for_each].
  apply within_bind; [done|]. intros [e|s']; [done|]. apply IH.
Qed.

Lemma within_run `{!PreOrder step} {A} (p : free E A) w : within step p -> step w (frun p w).1.
Proof.
  revert w. induction p as [a|R o k IH]; intros w; [done|]. intros [Ho Hk]. cbn [frun].
  specialize (Ho w). destruct (exec R o w) as [w' r]. cbn in Ho. etransitivity; [exact Ho|]. by apply IH.
Qed.

Lemma wp_within (rely guar : W -> W -> Prop) `{!PreOrder rely} {A} (p : free E A) Q w :
  (forall v v', step v v' -> rely v v' /\ guar v v') ->
  within step p -> (forall a w', rely w w' -> Q a w') -> wp rely guar p Q w.
Proof.
  intros Hs. revert w. induction p as [a|R o k IH]; intros w Hp HQ w' Hw; [by apply HQ|].
  destruct Hp as [Ho Hk]. split; [apply Hs, Ho|]. apply IH; [done|].
  intros a w2 Hw2. apply HQ. transitivity w'; [done|]. transitivity (exec R o w').1; [apply Hs, Ho|done].
Qed.

End Within.

Lemma within_mono (step step' : W -> W -> Prop) {A} (p : free E A) :
  (forall w w', step w w' -> step' w w') -> within step p -> within step' p.
Proof.
  intros Hs. induction p as [a|R o k IH]; [done|]. intros [Ho Hk]. split; [auto|]. intros r. by apply IH.
Qed.

(* ------------------------------------------------------------------ *)
(** ** Threads *)

Context {A : Type}.

Inductive pstep : list (free E A) * W -> list (free E A) * W -> Prop :=
| pstep_op i R (o : E R) k ts w :
    ts !! i = Some (Op o k) ->
    pstep (ts, w) (<[i := k (exec _ o w).2]> ts, (exec _ o w).1).

Definition finished (ts : list (free E A)) : Prop := forall p, p ∈ ts -> exists a, p = Ret a.

Section Parallel.
Context (rely guar : nat -> W -> W -> Prop) (Q : nat -> A -> W -> Prop).
Context `{!forall i, PreOrder (rely i)}.
Context (compatible : forall i j w w', i <> j -> guar i w w' -> rely j w w').

Definition proved (st : list (free E A) * W) : Prop :=
  forall i p, st.1 !! i = Some p -> wp (rely i) (guar i) p (Q i) st.2.

Lemma parallel_step st st' : proved st -> pstep st st' -> proved st'.
Proof.
  intros Hp Hs. destruct Hs as [i R o k ts w Hi]. intros j p Hj. cbn [fst snd] in *.
  pose proof (Hp i _ Hi w ltac:(reflexivity)) as [Hg Hk]. cbn [fst snd] in Hg, Hk.
  destruct (decide (i = j)) as [<-|Hne].
  - rewrite list_lookup_insert_eq in Hj by (by eapply lookup_lt_Some). by injection Hj as <-.
  - rewrite list_lookup_insert_ne in Hj by done.
    eapply wp_rely; [typeclasses eauto|by eapply compatible|]. by apply (Hp j).
Qed.

Lemma parallel st st' : proved st -> rtc pstep st st' -> proved st'.
Proof. intros Hp. induction 1 as [st|x y z Hxy _ IH]; [done|]. by eapply IH, parallel_step. Qed.

(** Every thread that ended established its postcondition, and still has it. *)
Lemma parallel_result st ts' w' i a :
  proved st -> rtc pstep st (ts', w') -> ts' !! i = Some (Ret a) -> Q i a w'.
Proof. intros Hp Hr Hi. by apply (parallel st (ts', w') Hp Hr i (Ret a) Hi w'). Qed.

End Parallel.

(** A schedule that is given *)
Fixpoint play (schedule : list nat) (ts : list (free E A)) (w : W) : list (free E A) * W :=
  match schedule with
  | [] => (ts, w)
  | i :: schedule' =>
      match ts !! i with
      | Some (Op o k) => play schedule' (<[i := k (exec _ o w).2]> ts) (exec _ o w).1
      | _ => play schedule' ts w
      end
  end.

Lemma play_steps schedule ts w : rtc pstep (ts, w) (play schedule ts w).
Proof.
  revert ts w. induction schedule as [|i schedule IH]; intros ts w; [done|]. cbn [play].
  destruct (ts !! i) as [[a|R o k]|] eqn:Hi; [done| |done]. eapply rtc_l; [by apply pstep_op|]. apply IH.
Qed.

(** What every operation of every thread keeps, every schedule keeps. *)
Lemma within_schedule (step : W -> W -> Prop) `{!PreOrder step} st st' :
  Forall (within step) st.1 -> rtc pstep st st' -> step st.2 st'.2.
Proof.
  intros Hts. induction 1 as [st|x y z Hxy _ IH]; [done|].
  destruct Hxy as [i R o k ts w Hi]. cbn in Hts.
  destruct (Forall_lookup_1 _ _ _ _ Hts Hi) as [Ho Hk].
  transitivity (exec R o w).1; [apply Ho|]. apply IH. cbn. apply Forall_insert; [exact Hts|apply Hk].
Qed.

(** No schedule goes on for ever. *)
Inductive smaller : free E A -> free E A -> Prop :=
| smaller_next R (o : E R) k r : smaller (k r) (Op o k).

Lemma smaller_wf p : Acc smaller p.
Proof.
  induction p as [a|R o k IH]; constructor; intros q Hq.
  - remember (Ret a) as x. by destruct Hq.
  - refine (match Hq in smaller q x return x = Op o k -> Acc smaller q with
            | smaller_next R' o' k' r => fun Hx => _ end eq_refl).
    set (children := fun x : free E A => match x with Op o k => fun q => exists r, q = k r | Ret _ => fun _ => False end).
    assert (children (Op o' k') (k' r)) as Hc by (by exists r).
    rewrite Hx in Hc. destruct Hc as [r' ->]. apply IH.
Qed.

(** [lstep ts' ts]: one thread of [ts] went on. *)
Inductive lstep : list (free E A) -> list (free E A) -> Prop :=
| lstep_here p' p ts : smaller p' p -> lstep (p' :: ts) (p :: ts)
| lstep_there p ts' ts : lstep ts' ts -> lstep (p :: ts') (p :: ts).

Lemma lstep_wf ts : Acc lstep ts.
Proof.
  induction ts as [|p ts IH]; [constructor; intros ? Hs; by inversion Hs|].
  revert ts IH. induction (smaller_wf p) as [p _ IHp]. intros ts Hts.
  induction Hts as [ts Hts IHts]. constructor. intros ts' Hs.
  inversion Hs; subst; [apply IHp; [done|by constructor]|by apply IHts].
Qed.

Lemma insert_lstep i R (o : E R) k r ts :
  ts !! i = Some (Op o k) -> lstep (<[i := k r]> ts) ts.
Proof.
  revert ts. induction i as [|i IH]; intros [|p ts] Hi; try done; cbn in *.
  - injection Hi as ->. by constructor.
  - constructor. by apply IH.
Qed.

Lemma pstep_terminates st : Acc (fun st' st => pstep st st') st.
Proof.
  destruct st as [ts w]. revert w. induction (lstep_wf ts) as [ts _ IH]. intros w.
  constructor. intros [ts' w'] Hs. inversion Hs as [i R o k ts1 w1 Hi]; subst. apply IH.
  by apply insert_lstep with (o := o).
Qed.

(** A thread that has not ended can always go on. *)
Lemma pstep_progress ts w :
  finished ts \/ exists st', pstep (ts, w) st'.
Proof.
  induction ts as [|p ts IH]; [left; intros q Hq; by apply elem_of_nil in Hq|].
  destruct p as [a|R o k].
  - destruct IH as [Hf|[[ts' w'] Hs]].
    + left. intros q Hq. apply elem_of_cons in Hq as [->|Hq]; eauto.
    + right. inversion Hs as [i R o k ts1 w1 Hi]; subst. eexists.
      by apply (pstep_op (S i) R o k (Ret a :: ts) w).
  - right. eexists. by apply (pstep_op 0 R o k).
Qed.

(** So every schedule that is carried on ends, with every thread finished. *)
Lemma schedules_end st : exists st', rtc pstep st st' /\ finished st'.1.
Proof.
  induction (pstep_terminates st) as [[ts w] _ IH].
  destruct (pstep_progress ts w) as [Hf|[st' Hs]]; [by exists (ts, w)|].
  destruct (IH st' Hs) as (st2 & Hr & Hf). exists st2. split; [by eapply rtc_l|done].
Qed.

End Rely.

(** An embedded program runs on its part of the world. *)
Section Embed.
Context {E F : Type -> Type} {W V : Type} (execE : forall R, E R -> W -> W * R) (execF : forall R, F R -> V -> V * R).
Context (f : forall R, E R -> F R) (part : V -> W) (put : W -> V -> V).
Context (part_put : forall w v, part (put w v) = w) (put_put : forall w w' v, put w (put w' v) = put w v).
Context (put_part : forall v, put (part v) v = v).
Context (exec_embed : forall R (o : E R) v,
  execF R (f R o) v = (put (execE R o (part v)).1 v, (execE R o (part v)).2)).

Lemma frun_embed {A} (p : free E A) v :
  frun execF (embed f p) v = (put (frun execE p (part v)).1 v, (frun execE p (part v)).2).
Proof.
  revert v. induction p as [a|R o k IH]; intros v; cbn [embed frun fst snd]; [by rewrite put_part|].
  rewrite exec_embed. rewrite IH, part_put. destruct (execE R o (part v)) as [w r]. cbn [fst snd]. by rewrite put_put.
Qed.

End Embed.
