(* ===== verification/Float64.v ===== *)
(** * float64

    IEEE 754 binary64 arithmetic as the standard library computes it
    (SpecFloat), for the few places the program uses floats, and
    time.Duration.Hours. *)

From Stdlib Require Import SpecFloat.
From S2P Require Import Prelude.

#[local] Open Scope Z_scope.

Definition float64 : Type := spec_float.

Definition float_zero : float64 := S754_zero false.
Definition float_add : float64 -> float64 -> float64 := SFadd 53 1024.
Definition float_div : float64 -> float64 -> float64 := SFdiv 53 1024.
Definition float_of_int (z : Z) : float64 := binary_normalize 53 1024 z 0 false.

(** int(f): truncation; a value out of range is left to the platform. *)
Definition int_of_float (f : float64) : option Z :=
  match f with
  | S754_zero _ => Some 0
  | S754_finite s m e =>
      let n := if 0 <=? e then Zpos m * 2 ^ e else Zpos m / 2 ^ (- e) in
      let n := if s then - n else n in
      if Go.in_int64 n then Some n else None
  | _ => None
  end.

(** time.Duration.Hours *)
Definition hours (d : Z) : float64 :=
  let hour := Z.quot d 3600000000000 in
  let nsec := Z.rem d 3600000000000 in
  float_add (float_of_int hour) (float_div (float_of_int nsec) (float_of_int 3600000000000)).

(** time.Time.Sub saturates. *)
Definition time_Sub (t u : Z) : Z := Z.max Go.int64_min (Z.min Go.int64_max (t - u)).

Example hours_of_day : int_of_float (float_div (hours (3 * 86400000000000 - 1)) (float_of_int 24)) = Some 2.
Proof. vm_compute. reflexivity. Qed.
