(* ===== verification/CryptoLib.v ===== *)
(** * Cryptographic primitives and base64

    The key derivation argon2.IDKey of golang.org/x/crypto, SHA-256 and
    AES-256-GCM of the standard library's crypto packages are parameters;
    encoding/base64 is modelled, with its round trips. *)

From S2P Require Import Prelude.
From Stdlib Require Import Ascii.

#[local] Open Scope string_scope.

(** argon2.IDKey(password, salt, time, memory, threads, keyLen) *)
Class Argon2 := argon2_IDKey :
  list ascii -> list ascii -> Z -> Z -> Z -> Z -> list ascii.

(** sha256.Sum256 *)
Class Sha256 := sha256_Sum : list ascii -> list ascii.

(** AES-256-GCM under a 32-byte key and a 12-byte nonce: Seal returns the
    ciphertext with its tag, Open the plaintext if the tag is right. *)
Class AesGcm := {
  gcm_Seal : list ascii -> list ascii -> list ascii -> list ascii;
  gcm_Open : list ascii -> list ascii -> list ascii -> option (list ascii) }.

Fixpoint bytes (s : string) : list ascii :=
  match s with "" => [] | String a s' => a :: bytes s' end.

(* ------------------------------------------------------------------ *)
(** ** encoding/base64 *)

Module Base64.

Definition alphabet (c62 c63 : ascii) (n : nat) : ascii :=
  if (n <? 26)%nat then ascii_of_nat (65 + n)
  else if (n <? 52)%nat then ascii_of_nat (71 + n)
  else if (n <? 62)%nat then ascii_of_nat (n - 4)
  else if (n =? 62)%nat then c62 else c63.

Definition std : nat -> ascii := alphabet "+" "/".
Definition url : nat -> ascii := alphabet "-" "_".

Section Encode.
Context (alpha : nat -> ascii) (pad : string).

(** Three bytes to four characters; [pad] is "=" or nothing (Raw). *)
Fixpoint encode (bs : list ascii) : string :=
  match bs with
  | [] => ""
  | [a] =>
      let a := nat_of_ascii a in
      String (alpha (a / 4)) (String (alpha (a mod 4 * 16)) (pad +:+ pad))%nat
  | [a; b] =>
      let a := nat_of_ascii a in let b := nat_of_ascii b in
      String (alpha (a / 4)) (String (alpha (a mod 4 * 16 + b / 16))
        (String (alpha (b mod 16 * 4)) pad))%nat
  | a :: b :: c :: r =>
      let a := nat_of_ascii a in let b := nat_of_ascii b in let c := nat_of_ascii c in
      String (alpha (a / 4)) (String (alpha (a mod 4 * 16 + b / 16))
        (String (alpha (b mod 16 * 4 + c / 64)) (String (alpha (c mod 64)) (encode r))))%nat
  end.
End Encode.

(** The reverse alphabet of StdEncoding *)
Definition value (a : ascii) : option nat :=
  let n := nat_of_ascii a in
  if Go.is_upper_ascii a then Some (n - 65)%nat
  else if Go.is_lower_ascii a then Some (n - 71)%nat
  else if Go.is_digit_ascii a then Some (n + 4)%nat
  else if Ascii.eqb a "+" then Some 62%nat
  else if Ascii.eqb a "/" then Some 63%nat
  else None.

Definition is_newline (a : ascii) : bool :=
  let n := nat_of_ascii a in (n =? 10)%nat || (n =? 13)%nat.

Definition quad1 (a b : nat) : ascii := ascii_of_nat (a * 4 + b / 16).
Definition quad2 (b c : nat) : ascii := ascii_of_nat (b mod 16 * 16 + c / 4).
Definition quad3 (c d : nat) : ascii := ascii_of_nat (c mod 4 * 64 + d).

(** [padded]: StdEncoding, otherwise RawStdEncoding.  Bits beyond the last
    byte are not looked at (the encodings are not Strict). *)
Fixpoint decode_quanta (padded : bool) (s : list ascii) : option (list ascii) :=
  match s with
  | [] => Some []
  | [_] => None
  | [w; x] =>
      if padded then None
      else match value w, value x with
           | Some a, Some b => Some [quad1 a b]
           | _, _ => None
           end
  | [w; x; y] =>
      if padded then None
      else match value w, value x, value y with
           | Some a, Some b, Some c => Some [quad1 a b; quad2 b c]
           | _, _, _ => None
           end
  | w :: x :: y :: z :: r =>
      match value w, value x with
      | Some a, Some b =>
          if padded && Ascii.eqb y "=" then
            match r with [] => if Ascii.eqb z "=" then Some [quad1 a b] else None | _ => None end
          else match value y with
          | None => None
          | Some c =>
              if padded && Ascii.eqb z "=" then
                match r with [] => Some [quad1 a b; quad2 b c] | _ => None end
              else match value z, decode_quanta padded r with
              | Some d, Some rest => Some (quad1 a b :: quad2 b c :: quad3 c d :: rest)
              | _, _ => None
              end
          end
      | _, _ => None
      end
  end.

Definition decode (padded : bool) (s : string) : option (list ascii) :=
  decode_quanta padded (List.filter (fun a => negb (is_newline a)) (bytes s)).

End Base64.

(* ------------------------------------------------------------------ *)
(** ** Base64 round trip *)

Section Base64Facts.
Import Base64.

Lemma value_std n : (n < 64)%nat -> value (std n) = Some n.
Proof.
  intros Hn. assert (forallb (fun n => bool_decide (value (std n) = Some n)) (seq 0 64) = true) as H
    by (vm_compute; reflexivity).
  rewrite List.forallb_forall in H. specialize (H n).
  rewrite bool_decide_eq_true in H. apply H, List.in_seq. lia.
Qed.

(** No character of the alphabet is a newline, the padding or a "$". *)
Definition plain_char (a : ascii) : bool :=
  negb (is_newline a) && negb (Ascii.eqb a "=") && negb (Ascii.eqb a "$").

Lemma std_plain n : (n < 64)%nat -> plain_char (std n) = true.
Proof.
  intros Hn. assert (forallb (fun n => plain_char (std n)) (seq 0 64) = true) as H
    by (vm_compute; reflexivity).
  rewrite List.forallb_forall in H. apply H, List.in_seq. lia.
Qed.

Lemma byte_bound a : (nat_of_ascii a < 256)%nat.
Proof. apply nat_ascii_bounded. Qed.

Lemma quad1_ok a x : (x < 16)%nat ->
  quad1 (nat_of_ascii a / 4) (nat_of_ascii a mod 4 * 16 + x) = a.
Proof.
  intros Hx. unfold quad1. transitivity (ascii_of_nat (nat_of_ascii a)); [|apply ascii_nat_embedding].
  f_equal. pose proof (byte_bound a). div_lia.
Qed.

Lemma quad2_ok m b x : (x < 4)%nat ->
  quad2 (m mod 4 * 16 + nat_of_ascii b / 16) (nat_of_ascii b mod 16 * 4 + x) = b.
Proof.
  intros Hx. unfold quad2. transitivity (ascii_of_nat (nat_of_ascii b)); [|apply ascii_nat_embedding].
  f_equal. pose proof (byte_bound b). div_lia.
Qed.

Lemma quad3_ok m c :
  quad3 (m mod 16 * 4 + nat_of_ascii c / 64) (nat_of_ascii c mod 64) = c.
Proof.
  unfold quad3. transitivity (ascii_of_nat (nat_of_ascii c)); [|apply ascii_nat_embedding].
  f_equal. pose proof (byte_bound c). div_lia.
Qed.

(** The sextets the encoder looks up are below 64. *)
Lemma sextets a b c :
  (nat_of_ascii a / 4 < 64 /\ nat_of_ascii a mod 4 * 16 < 64 /\
   nat_of_ascii a mod 4 * 16 + nat_of_ascii b / 16 < 64 /\ nat_of_ascii b mod 16 * 4 < 64 /\
   nat_of_ascii b mod 16 * 4 + nat_of_ascii c / 64 < 64 /\ nat_of_ascii c mod 64 < 64 /\
   nat_of_ascii b / 16 < 16 /\ nat_of_ascii c / 64 < 4)%nat.
Proof.
  pose proof (byte_bound a); pose proof (byte_bound b); pose proof (byte_bound c).
  div_lia.
Qed.

(** Induction by three bytes *)
Lemma triple_ind (P : list ascii -> Prop) :
  P [] -> (forall a, P [a]) -> (forall a b, P [a; b]) ->
  (forall a b c r, P r -> P (a :: b :: c :: r)) -> forall l, P l.
Proof.
  intros H0 H1 H2 H3. fix IH 1. intros [|a [|b [|c r]]].
  - exact H0.
  - exact (H1 a).
  - exact (H2 a b).
  - exact (H3 a b c r (IH r)).
Qed.

Lemma encode_plain bs :
  Forall (fun a => plain_char a = true) (bytes (encode std "" bs)).
Proof.
  induction bs as [|a|a b|a b c r IH] using triple_ind; cbn [encode]; [constructor|..].
  - pose proof (sextets a a a). cbn [bytes].
    repeat constructor; apply std_plain; tauto.
  - pose proof (sextets a b a). cbn [bytes].
    repeat constructor; apply std_plain; tauto.
  - pose proof (sextets a b c). cbn [bytes].
    repeat (constructor; [apply std_plain; tauto|]). exact IH.
Qed.

Lemma plain_split a : plain_char a = true ->
  is_newline a = false /\ Ascii.eqb a "=" = false /\ Ascii.eqb a "$" = false.
Proof.
  unfold plain_char. rewrite !andb_true_iff, !negb_true_iff. tauto.
Qed.

Lemma filter_plain l :
  Forall (fun a => plain_char a = true) l -> List.filter (fun a => negb (is_newline a)) l = l.
Proof.
  induction 1 as [|a l Ha _ IH]; simpl; [done|].
  destruct (plain_split a Ha) as (-> & _ & _). simpl. by rewrite IH.
Qed.

Lemma decode_quanta_encode bs : decode_quanta false (bytes (encode std "" bs)) = Some bs.
Proof.
  induction bs as [|a|a b|a b c r IH] using triple_ind; cbn [encode]; [done|..].
  - destruct (sextets a a a) as (? & ? & _). cbn [bytes String.append decode_quanta].
    rewrite !value_std by done. repeat f_equal.
    pose proof (quad1_ok a 0 ltac:(lia)) as Hq. by rewrite Nat.add_0_r in Hq.
  - destruct (sextets a b a) as (? & ? & ? & ? & ? & ? & ? & ?). cbn [bytes String.append decode_quanta].
    rewrite !value_std by done. rewrite quad1_ok by done.
    pose proof (quad2_ok (nat_of_ascii a) b 0 ltac:(lia)) as Hq. rewrite Nat.add_0_r in Hq.
    by rewrite Hq.
  - destruct (sextets a b c) as (? & ? & ? & ? & ? & ? & ? & ?).
    cbn [bytes decode_quanta andb]. rewrite !value_std by done.
    rewrite IH, quad1_ok, quad2_ok, quad3_ok by done. done.
Qed.

(** Decoding an encoded byte string gives it back. *)
Lemma decode_encode bs : decode false (encode std "" bs) = Some bs.
Proof. unfold decode. rewrite filter_plain by apply encode_plain. apply decode_quanta_encode. Qed.

(** The padded encoding (StdEncoding) *)
Lemma std_not_pad n : (n < 64)%nat -> Ascii.eqb (std n) "=" = false.
Proof. intros Hn. by destruct (plain_split _ (std_plain n Hn)) as (_ & ? & _). Qed.

Lemma decode_quanta_padded bs : decode_quanta true (bytes (encode std "=" bs)) = Some bs.
Proof.
  induction bs as [|a|a b|a b c r IH] using triple_ind; cbn [encode]; [done|..].
  - destruct (sextets a a a) as (? & ? & _). cbn [bytes String.append decode_quanta].
    rewrite !value_std by done. cbn [andb]. repeat f_equal.
    pose proof (quad1_ok a 0 ltac:(lia)) as Hq. by rewrite Nat.add_0_r in Hq.
  - destruct (sextets a b a) as (? & ? & ? & ? & ? & ? & ? & ?). cbn [bytes String.append decode_quanta].
    rewrite !value_std by done. rewrite std_not_pad by done. cbn [andb].
    rewrite quad1_ok by done.
    pose proof (quad2_ok (nat_of_ascii a) b 0 ltac:(lia)) as Hq. rewrite Nat.add_0_r in Hq.
    by rewrite Hq.
  - destruct (sextets a b c) as (? & ? & ? & ? & ? & ? & ? & ?).
    cbn [bytes decode_quanta]. rewrite !value_std, !std_not_pad by done. cbn [andb].
    rewrite IH, quad1_ok, quad2_ok, quad3_ok by done. done.
Qed.

Lemma encode_no_newline bs :
  Forall (fun a => is_newline a = false) (bytes (encode std "=" bs)).
Proof.
  assert (forall n, (n < 64)%nat -> is_newline (std n) = false) as Hs
    by (intros n Hn; by destruct (plain_split _ (std_plain n Hn))).
  induction bs as [|a|a b|a b c r IH] using triple_ind; cbn [encode]; [constructor|..].
  - pose proof (sextets a a a). cbn [bytes String.append]. repeat constructor; apply Hs; tauto.
  - pose proof (sextets a b a). cbn [bytes String.append]. repeat constructor; apply Hs; tauto.
  - pose proof (sextets a b c). cbn [bytes]. repeat (constructor; [apply Hs; tauto|]). exact IH.
Qed.

Lemma decode_padded bs : decode true (encode std "=" bs) = Some bs.
Proof.
  unfold decode. transitivity (decode_quanta true (bytes (encode std "=" bs))); [f_equal|apply decode_quanta_padded].
  induction (encode_no_newline bs) as [|a l Ha _ IH]; simpl; [done|]. by rewrite Ha, IH.
Qed.

End Base64Facts.
