(* ===== verification/AuditTrail.v ===== *)
(** * The audit log

    internal/logger/{audit,syslog,otel}.go (internal/groundcontrol/logger has
    the same code for Ground Control): events, the record every transport
    serialises, the two transports and the logger that fans records out to
    them and can be reconfigured while it is used.

    The logger's fields are shared: a snapshot or a swap under its mutex is
    one operation ([GetLogger], [SwapLogger]), and so is every operation on a
    sink (a connection, a rotated file).  Any of these can fail. *)

From stdpp Require Import gmap.
From Stdlib Require Import Ascii.
From S2P Require Import Prelude Free Utf8 GoLib Json.

#[local] Open Scope string_scope.
#[local] Open Scope list_scope.

(* ------------------------------------------------------------------ *)
(** ** Timestamps in UTC *)

Module Time.

#[local] Open Scope Z_scope.

Definition second : Z := 1000000000.
Definition day : Z := 86400 * second.

(** Year, month and day of the proleptic Gregorian calendar, from the number
    of days since 1970-01-01 *)
Definition civil (days : Z) : Z * Z * Z :=
  let z := days + 719468 in
  let era := z / 146097 in
  let doe := z - era * 146097 in
  let yoe := (doe - doe / 1460 + doe / 36524 - doe / 146096) / 365 in
  let doy := doe - (365 * yoe + yoe / 4 - yoe / 100) in
  let mp := (5 * doy + 2) / 153 in
  let m := if mp <? 10 then mp + 3 else mp - 9 in
  (yoe + era * 400 + (if m <=? 2 then 1 else 0), m, doy - (153 * mp + 2) / 5 + 1).

(** A number with leading zeros *)
Fixpoint pad (width : nat) (n : Z) : string :=
  match width with
  | O => ""
  | S width' => pad width' (n / 10) +:+ String (ascii_of_nat (48 + Z.to_nat (n mod 10))) ""
  end.

Definition date_time (t : Z) : string :=
  let '(y, m, d) := civil (t / day) in
  let s := (t mod day) / second in
  pad 4 y +:+ "-" +:+ pad 2 m +:+ "-" +:+ pad 2 d +:+ "T" +:+
  pad 2 (s / 3600) +:+ ":" +:+ pad 2 (s / 60 mod 60) +:+ ":" +:+ pad 2 (s mod 60).

Fixpoint trim_zeros (fuel : nat) (n : Z) : string :=
  match fuel with
  | O => ""
  | S fuel' => if n mod 10 =? 0 then trim_zeros fuel' (n / 10) else pad fuel n
  end.

(** time.RFC3339Nano *)
Definition rfc3339nano (t : Z) : string :=
  let frac := t mod second in
  date_time t +:+ (if frac =? 0 then "" else "." +:+ trim_zeros 9 frac) +:+ "Z".

(** rfc5424Time *)
Definition rfc5424 (t : Z) : string := date_time t +:+ "." +:+ pad 6 ((t mod second) / 1000) +:+ "Z".

Example rfc3339nano_example : rfc3339nano 1709210096120000000 = "2024-02-29T12:34:56.12Z".
Proof. reflexivity. Qed.

Example rfc5424_example : rfc5424 951782399000001999 = "2000-02-28T23:59:59.000001Z".
Proof. reflexivity. Qed.

End Time.

(* ------------------------------------------------------------------ *)
(** ** Events and records *)

Record AuditEvent := mkAuditEvent {
  ev_Operation : string; ev_ResourceType : string; ev_Outcome : string; ev_Severity : string;
  ev_Actor : string; ev_ActorType : string; ev_SourceIP : string; ev_UserAgent : string;
  ev_RequestID : string; ev_SatelliteID : string; ev_Resource : string; ev_Reason : string;
  ev_Details : gmap string json }.

Definition eventType (e : AuditEvent) : string :=
  ev_ResourceType e +:+ "." +:+ ev_Operation e +:+ "." +:+ ev_Outcome e.

Definition severity (e : AuditEvent) : string :=
  if negb (String.eqb (ev_Severity e) "") then ev_Severity e
  else if String.eqb (ev_Outcome e) "failure" then "warning"
  else "info".

Definition fieldUnknown : string := "unknown".

Definition or_unknown (s : string) : string := if String.eqb s "" then fieldUnknown else s.

Definition withRequiredDefaults (e : AuditEvent) : AuditEvent :=
  mkAuditEvent (or_unknown (ev_Operation e)) (or_unknown (ev_ResourceType e)) (or_unknown (ev_Outcome e))
    (ev_Severity e) (ev_Actor e) (ev_ActorType e) (ev_SourceIP e) (ev_UserAgent e) (ev_RequestID e)
    (ev_SatelliteID e) (ev_Resource e) (ev_Reason e) (ev_Details e).

Definition set_severity (s : string) (e : AuditEvent) : AuditEvent :=
  mkAuditEvent (ev_Operation e) (ev_ResourceType e) (ev_Outcome e) s (ev_Actor e) (ev_ActorType e)
    (ev_SourceIP e) (ev_UserAgent e) (ev_RequestID e) (ev_SatelliteID e) (ev_Resource e) (ev_Reason e)
    (ev_Details e).

Record Record_ := mkRecord {
  rc_EventID : string; rc_Timestamp : Z; rc_Component : string; rc_EventType : string;
  rc_Event : AuditEvent }.

(** The logger's part of Log: one record per event *)
Definition record_of (component id : string) (now : Z) (e : AuditEvent) : Record_ :=
  let e := withRequiredDefaults e in
  let e := set_severity (severity e) e in
  mkRecord id now component (eventType e) e.

(** The canonical wire shape; a map's keys are printed in order. *)
Definition enc_record (r : Record_) : json :=
  let e := rc_Event r in
  JObj ([("event_id", JStr (rc_EventID r)); ("timestamp", JStr (Time.rfc3339nano (rc_Timestamp r)));
         ("component", JStr (rc_Component r)); ("event_type", JStr (rc_EventType r));
         ("operation", JStr (ev_Operation e)); ("resource_type", JStr (ev_ResourceType e));
         ("outcome", JStr (ev_Outcome e)); ("severity", JStr (ev_Severity e))] ++
        omit_string "actor" (ev_Actor e) ++ omit_string "actor_type" (ev_ActorType e) ++
        omit_string "source_ip" (ev_SourceIP e) ++ omit_string "user_agent" (ev_UserAgent e) ++
        omit_string "request_id" (ev_RequestID e) ++ omit_string "satellite_id" (ev_SatelliteID e) ++
        omit_string "resource" (ev_Resource e) ++ omit_string "reason" (ev_Reason e) ++
        (if decide (ev_Details e = ∅) then [] else [("details", enc_map (ev_Details e))])).

(* ------------------------------------------------------------------ *)
(** ** The syslog frame *)

Definition severityCode (s : string) : Z :=
  if String.eqb s "critical" then 2
  else if String.eqb s "error" then 3
  else if String.eqb s "warning" then 4
  else if String.eqb s "info" then 6
  else 6.

Definition facilityLocal0 : Z := 16.
Definition nilValue : string := "-".
Definition defaultSyslogTag : string := "harbor-audit".
Definition defaultSyslogSocket : string := "/dev/log".

Definition line_end : string := String (ascii_of_nat 10) "".

Record syslogTransport := mkSyslogTransport {
  st_sink : nat; st_hostname : string; st_appName : string; st_procID : string; st_facility : Z }.

(** <PRI>VERSION TIMESTAMP HOSTNAME APP-NAME PROCID MSGID STRUCTURED-DATA MSG *)
Definition syslog_frame (t : syslogTransport) (r : Record_) : string :=
  let pri := (st_facility t * 8 + severityCode (ev_Severity (rc_Event r)))%Z in
  "<" +:+ Go.itoa pri +:+ ">1 " +:+ Time.rfc5424 (rc_Timestamp r) +:+ " " +:+ st_hostname t +:+ " " +:+
  st_appName t +:+ " " +:+ st_procID t +:+ " " +:+ nilValue +:+ " " +:+ nilValue +:+ " " +:+
  Marshal (enc_record r) +:+ line_end.

(* ------------------------------------------------------------------ *)
(** ** The OTLP payload *)

Definition otelSeverityNumber (s : string) : Z :=
  if String.eqb s "critical" then 21
  else if String.eqb s "error" then 17
  else if String.eqb s "warning" then 13
  else if String.eqb s "info" then 9
  else 9.

Definition detailsJSON (d : gmap string json) : string :=
  if decide (d = ∅) then "" else Marshal (enc_map d).

Definition appendOTelAttr (key value : string) : list (string * string) :=
  if String.eqb value "" then [] else [(key, value)].

Definition otelAttributes (r : Record_) : list (string * string) :=
  let e := rc_Event r in
  appendOTelAttr "event.name" (rc_EventType r) ++
  appendOTelAttr "log.record.uid" (rc_EventID r) ++
  appendOTelAttr "user.name" (ev_Actor e) ++
  appendOTelAttr "client.address" (ev_SourceIP e) ++
  appendOTelAttr "user_agent.original" (ev_UserAgent e) ++
  appendOTelAttr "error.type" (ev_Reason e) ++
  appendOTelAttr "harbor.audit.operation" (ev_Operation e) ++
  appendOTelAttr "harbor.audit.resource_type" (ev_ResourceType e) ++
  appendOTelAttr "harbor.audit.outcome" (ev_Outcome e) ++
  appendOTelAttr "harbor.audit.actor_type" (ev_ActorType e) ++
  appendOTelAttr "harbor.audit.resource" (ev_Resource e) ++
  appendOTelAttr "harbor.audit.request_id" (ev_RequestID e) ++
  appendOTelAttr "harbor.audit.satellite_id" (ev_SatelliteID e) ++
  appendOTelAttr "harbor.audit.details" (detailsJSON (ev_Details e)).

Definition otlp_value (s : string) : json := JObj [("stringValue", JStr s)].
Definition otlp_attribute (kv : string * string) : json :=
  JObj [("key", JStr kv.1); ("value", otlp_value kv.2)].

Definition otlp_log_record (r : Record_) : json :=
  let ts := Go.itoa (rc_Timestamp r) in
  let s := ev_Severity (rc_Event r) in
  JObj [("timeUnixNano", JStr ts); ("observedTimeUnixNano", JStr ts);
        ("severityNumber", jint (otelSeverityNumber s)); ("severityText", JStr s);
        ("body", otlp_value (Marshal (enc_record r)));
        ("attributes", JArr (otlp_attribute <$> otelAttributes r))].

Definition otelScopeName : string := "harbor-satellite/audit".

Definition otlpPayloadFor (r : Record_) : string :=
  Marshal (JObj [("resourceLogs", JArr [JObj [
    ("resource", JObj [("attributes", JArr [otlp_attribute ("service.name", rc_Component r)])]);
    ("scopeLogs", JArr [JObj [
      ("scope", JObj [("name", JStr otelScopeName)]);
      ("logRecords", JArr [otlp_log_record r])]])]])]).

(* ------------------------------------------------------------------ *)
(** ** Operations *)

Record SyslogFileConfig := mkSyslogFileConfig {
  sf_Path : string; sf_MaxSizeMB : Z; sf_MaxBackups : Z; sf_MaxAgeDays : Z; sf_Compress : bool }.

Record SyslogConfig := mkSyslogConfig {
  sy_Enabled : bool; sy_Target : string; sy_Tag : string; sy_SocketPath : string;
  sy_Network : string; sy_Address : string; sy_File : SyslogFileConfig }.

Record OTelConfig := mkOTelConfig { ot_Enabled : bool; ot_Endpoint : string }.

Record AuditConfig := mkAuditConfig { au_Enabled : bool; au_Syslog : SyslogConfig; au_OTel : OTelConfig }.

(** newOTelTransport's client: its idle connections are what Close closes. *)
Record otelTransport := mkOtelTransport { tt_endpoint : string }.

Inductive Transport :=
| Syslog (t : syslogTransport)
| OTel (t : otelTransport).

(** A sink is a connection, an open file or a rotator. *)
Inductive aop : Type -> Type :=
| Hostname : aop (result string)
| Getpid : aop Z
| Dial (network address : string) : aop (result nat)
| MkdirAll (dir : string) : aop (result unit)
| OpenAppend (path : string) : aop (result nat)
| Rotator (f : SyslogFileConfig) : aop nat
| WriteString (sink : nat) (text : string) : aop (result unit)
| CloseSink (sink : nat) : aop (result unit)
| HttpPost (endpoint body : string) : aop (result (Z * option string)) (* the status, and an error reading the body *)
| CloseIdle (t : otelTransport) : aop unit
| NewUUID : aop string
| NowUTC : aop Z
| NewLogger (component : string) : aop unit                    (* &AuditLogger{component: component} *)
| GetLogger : aop (list Transport * bool * string)
| SwapLogger (ts : list Transport) : aop (list Transport)     (* the old ones *)
| Breadcrumb (e : goerr) : aop unit.

Abbreviation audit := (free aop).

(** url.URL's Port and Hostname, and a path that is set *)
Class NetUrlPort `{NetUrl} := {
  url_port : url -> string;
  url_hostname : url -> string;
  with_path : string -> url -> url;
  JoinHostPort : string -> string -> string }.

Section Audit.
Context `{NetUrlPort}.

(* ------------------------------------------------------------------ *)
(** ** syslog.go *)

Fixpoint dial_first (networks : list string) (path : string) (lastErr : goerr) : audit (result nat) :=
  match networks with
  | [] => wrap ("dial syslog daemon at " +:+ path) lastErr
  | network :: networks' =>
      let? conn := perform (Dial network path) catch (fun err => dial_first networks' path err) in
      ok conn
  end.

Definition dialDaemon (path : string) : audit (result nat) :=
  let path := if String.eqb path "" then defaultSyslogSocket else path in
  dial_first ["unixgram"; "unix"] path (PlainErr "").

Definition ensureWritable (path : string) : audit (result unit) :=
  let? _ := perform (MkdirAll (path_Dir path)) catch wrap ("create audit log directory " +:+ path_Dir path) in
  let? f := perform (OpenAppend path) catch wrap ("open audit log file " +:+ path) in
  perform (CloseSink f).

Definition openSink (cfg : SyslogConfig) : audit (result nat) :=
  if String.eqb (sy_Target cfg) "network" then
    let? conn := perform (Dial (sy_Network cfg) (sy_Address cfg))
      catch wrap ("dial syslog endpoint " +:+ sy_Network cfg +:+ "/" +:+ sy_Address cfg) in
    ok conn
  else if String.eqb (sy_Target cfg) "file" then
    let? _ := ensureWritable (sf_Path (sy_File cfg)) catch wrap "syslog file destination not writable" in
    let* rotator := perform (Rotator (sy_File cfg)) in
    ok rotator
  else if String.eqb (sy_Target cfg) "daemon" then dialDaemon (sy_SocketPath cfg)
  else throw (PlainErr ("unknown syslog target " +:+ sy_Target cfg)).

Definition newSyslogTransport (cfg : SyslogConfig) : audit (result Transport) :=
  let tag := if String.eqb (sy_Tag cfg) "" then defaultSyslogTag else sy_Tag cfg in
  let* h := perform Hostname in
  let host := match h with inl _ => nilValue | inr h => if String.eqb h "" then nilValue else h end in
  let* pid := perform Getpid in
  let? sink := openSink cfg catch throw in
  ok (Syslog (mkSyslogTransport sink host tag (Go.itoa pid) facilityLocal0)).

(* ------------------------------------------------------------------ *)
(** ** otel.go *)

Definition otlpLogsPath : string := "/v1/logs".

Definition probeOTelEndpoint (u : url) : audit (result unit) :=
  let host :=
    if String.eqb (url_port u) ""
    then JoinHostPort (url_hostname u) (if String.eqb (url_scheme u) "https" then "443" else "80")
    else url_host u in
  let? conn := perform (Dial "tcp" host) catch wrap ("otel endpoint not reachable: " +:+ url_host u) in
  perform (CloseSink conn).

Definition newOTelTransport (cfg : OTelConfig) : audit (result Transport) :=
  match Parse (ot_Endpoint cfg) with
  | inl m => wrap ("parse otel endpoint " +:+ ot_Endpoint cfg) (PlainErr m)
  | inr u =>
      if negb (String.eqb (url_scheme u) "http") && negb (String.eqb (url_scheme u) "https")
      then throw (PlainErr ("otel endpoint " +:+ ot_Endpoint cfg +:+ " must be an http(s) URL"))
      else
        let u := if String.eqb (url_path u) "" || String.eqb (url_path u) "/" then with_path otlpLogsPath u else u in
        let? _ := probeOTelEndpoint u catch throw in
        ok (OTel (mkOtelTransport (url_string u)))
  end.

(* ------------------------------------------------------------------ *)
(** ** Transports *)

Definition Emit (t : Transport) (r : Record_) : audit (result unit) :=
  match t with
  | Syslog t => let? _ := perform (WriteString (st_sink t) (syslog_frame t r)) catch wrap "write syslog message" in ok tt
  | OTel t =>
      let? (status, unread) := perform (HttpPost (tt_endpoint t) (otlpPayloadFor r)) catch wrap "export otlp logs" in
      match unread with
      | Some m => throw (WrapErr "read otlp response body" (PlainErr m))
      | None =>
          if ((status <? 200) || (300 <=? status))%Z
          then throw (PlainErr ("otlp endpoint returned status " +:+ Go.itoa status))
          else ok tt
      end
  end.

Definition Close (t : Transport) : audit unit :=
  match t with
  | Syslog t => perform (CloseSink (st_sink t)) ;;; Ret tt
  | OTel t => perform (CloseIdle t)
  end.

Fixpoint closeAll (ts : list Transport) : audit unit :=
  match ts with [] => Ret tt | t :: ts' => Close t ;;; closeAll ts' end.

(* ------------------------------------------------------------------ *)
(** ** AuditLogger *)

Definition buildTransports (cfg : AuditConfig) : audit (result (list Transport)) :=
  if negb (au_Enabled cfg) then ok []
  else
    let? syslog :=
      (if sy_Enabled (au_Syslog cfg)
       then (let? st := newSyslogTransport (au_Syslog cfg) catch throw in ok [st])
       else ok [])
      catch throw in
    let? newTransports :=
      (if ot_Enabled (au_OTel cfg)
       then (let? ot := newOTelTransport (au_OTel cfg) catch (fun err => closeAll syslog ;;; throw err) in
             ok (syslog ++ [ot]))
       else ok syslog)
      catch throw in
    match newTransports with
    | [] => throw (PlainErr "audit logging is enabled but no transport is configured: enable at least one of syslog or otel")
    | _ => ok newTransports
    end.

(** The swap and whether the logger is enabled are one critical section. *)
Definition Reconfigure (cfg : AuditConfig) : audit (result unit) :=
  let? newTransports := buildTransports cfg catch throw in
  let* old := perform (SwapLogger newTransports) in
  closeAll old ;;;
  ok tt.

Definition NewAuditLogger (cfg : AuditConfig) (component : string) : audit (result unit) :=
  perform (NewLogger component) ;;;
  Reconfigure cfg.

Fixpoint emit_all (ts : list Transport) (r : Record_) : audit unit :=
  match ts with
  | [] => Ret tt
  | t :: ts' =>
      let? _ := Emit t r catch (fun err => perform (Breadcrumb err) ;;; emit_all ts' r) in
      emit_all ts' r
  end.

Definition Log (e : AuditEvent) : audit unit :=
  let* (transports, enabled, component) := perform GetLogger in
  if negb enabled then Ret tt
  else
    let* id := perform NewUUID in
    let* now := perform NowUTC in
    emit_all transports (record_of component id now e).

Definition Enabled : audit bool :=
  let* (_, enabled, _) := perform GetLogger in Ret enabled.

End Audit.

(* ------------------------------------------------------------------ *)
(** ** The logger and its sinks *)

(** What a sink was opened for *)
Inductive Destination :=
| Connection (network address : string)
| OpenedFile (path : string)
| RotatedFile (f : SyslogFileConfig).

(** [aw_open] are the sinks that are open; a rotator opens its file again
    when it is written to after its Close, a connection does not. *)
Record AWorld := mkAWorld {
  aw_transports : list Transport; aw_enabled : bool; aw_component : string;
  aw_open : list nat; aw_rotators : list nat; aw_next : nat;
  aw_out : list (nat * string); aw_posts : list (string * string); aw_crumbs : list goerr;
  aw_tick : nat;
  aw_fault : nat -> option string;               (* an operation on a sink fails *)
  aw_status : nat -> Z * option string;          (* what the collector answers *)
  aw_uuid : nat -> string; aw_clock : nat -> Z;
  aw_host : result string; aw_pid : Z;
  aw_dest : nat -> option Destination }.

Definition a_tick (w : AWorld) : AWorld :=
  mkAWorld (aw_transports w) (aw_enabled w) (aw_component w) (aw_open w) (aw_rotators w) (aw_next w) (aw_out w)
    (aw_posts w) (aw_crumbs w) (S (aw_tick w)) (aw_fault w) (aw_status w) (aw_uuid w) (aw_clock w) (aw_host w) (aw_pid w) (aw_dest w).
Definition a_logger (ts : list Transport) (w : AWorld) : AWorld :=
  mkAWorld ts (0 <? length ts)%nat (aw_component w) (aw_open w) (aw_rotators w) (aw_next w) (aw_out w)
    (aw_posts w) (aw_crumbs w) (aw_tick w) (aw_fault w) (aw_status w) (aw_uuid w) (aw_clock w) (aw_host w) (aw_pid w) (aw_dest w).
Definition a_open (l : list nat) (w : AWorld) : AWorld :=
  mkAWorld (aw_transports w) (aw_enabled w) (aw_component w) l (aw_rotators w) (aw_next w) (aw_out w)
    (aw_posts w) (aw_crumbs w) (aw_tick w) (aw_fault w) (aw_status w) (aw_uuid w) (aw_clock w) (aw_host w) (aw_pid w) (aw_dest w).
Definition a_new (d : Destination) (w : AWorld) : AWorld :=
  mkAWorld (aw_transports w) (aw_enabled w) (aw_component w) (aw_next w :: aw_open w)
    (match d with RotatedFile _ => aw_next w :: aw_rotators w | _ => aw_rotators w end) (S (aw_next w)) (aw_out w)
    (aw_posts w) (aw_crumbs w) (aw_tick w) (aw_fault w) (aw_status w) (aw_uuid w) (aw_clock w) (aw_host w) (aw_pid w)
    (fun s => if (s =? aw_next w)%nat then Some d else aw_dest w s).
Definition a_out (o : list (nat * string)) (w : AWorld) : AWorld :=
  mkAWorld (aw_transports w) (aw_enabled w) (aw_component w) (aw_open w) (aw_rotators w) (aw_next w) o
    (aw_posts w) (aw_crumbs w) (aw_tick w) (aw_fault w) (aw_status w) (aw_uuid w) (aw_clock w) (aw_host w) (aw_pid w) (aw_dest w).
Definition a_posts (o : list (string * string)) (w : AWorld) : AWorld :=
  mkAWorld (aw_transports w) (aw_enabled w) (aw_component w) (aw_open w) (aw_rotators w) (aw_next w) (aw_out w)
    o (aw_crumbs w) (aw_tick w) (aw_fault w) (aw_status w) (aw_uuid w) (aw_clock w) (aw_host w) (aw_pid w) (aw_dest w).
Definition a_crumbs (o : list goerr) (w : AWorld) : AWorld :=
  mkAWorld (aw_transports w) (aw_enabled w) (aw_component w) (aw_open w) (aw_rotators w) (aw_next w) (aw_out w)
    (aw_posts w) o (aw_tick w) (aw_fault w) (aw_status w) (aw_uuid w) (aw_clock w) (aw_host w) (aw_pid w) (aw_dest w).

Definition without (s : nat) (l : list nat) : list nat := List.filter (fun x => negb (x =? s)%nat) l.

Definition exec_audit R (o : aop R) (w : AWorld) : AWorld * R :=
  let failing := aw_fault w (aw_tick w) in
  match o in aop R return AWorld * R with
  | Hostname => (a_tick w, aw_host w)
  | Getpid => (a_tick w, aw_pid w)
  | Dial network address =>
      match failing with
      | Some m => (a_tick w, inl (PlainErr m))
      | None => (a_tick (a_new (Connection network address) w), inr (aw_next w))
      end
  | OpenAppend path =>
      match failing with
      | Some m => (a_tick w, inl (PlainErr m))
      | None => (a_tick (a_new (OpenedFile path) w), inr (aw_next w))
      end
  | MkdirAll _ => (a_tick w, match failing with Some m => inl (PlainErr m) | None => inr tt end)
  | Rotator f => (a_tick (a_new (RotatedFile f) w), aw_next w)
  | WriteString s text =>
      match failing with
      | Some m => (a_tick w, inl (PlainErr m))
      | None =>
          if bool_decide (s ∈ aw_open w) then (a_tick (a_out (aw_out w ++ [(s, text)]) w), inr tt)
          else if bool_decide (s ∈ aw_rotators w)
          then (a_tick (a_open (s :: aw_open w) (a_out (aw_out w ++ [(s, text)]) w)), inr tt)
          else (a_tick w, inl (PlainErr "use of closed network connection"))
      end
  | CloseSink s =>
      (a_tick (a_open (without s (aw_open w)) w),
       match failing with Some m => inl (PlainErr m) | None => inr tt end)
  | HttpPost endpoint body =>
      match failing with
      | Some m => (a_tick w, inl (PlainErr m))
      | None => (a_tick (a_posts (aw_posts w ++ [(endpoint, body)]) w), inr (aw_status w (aw_tick w)))
      end
  | CloseIdle _ => (a_tick w, tt)
  | NewUUID => (a_tick w, aw_uuid w (aw_tick w))
  | NowUTC => (a_tick w, aw_clock w (aw_tick w))
  | NewLogger component =>
      (a_tick (mkAWorld [] false component (aw_open w) (aw_rotators w) (aw_next w) (aw_out w) (aw_posts w)
         (aw_crumbs w) (aw_tick w) (aw_fault w) (aw_status w) (aw_uuid w) (aw_clock w) (aw_host w) (aw_pid w) (aw_dest w)), tt)
  | GetLogger => (a_tick w, (aw_transports w, aw_enabled w, aw_component w))
  | SwapLogger ts => (a_tick (a_logger ts w), aw_transports w)
  | Breadcrumb e => (a_tick (a_crumbs (aw_crumbs w ++ [e]) w), tt)
  end.

Abbreviation arun := (frun exec_audit).
