(* ===== verification/AuditFacts.v ===== *)
(** * What the audit log guarantees

    A syslog frame is one line whatever the event holds; an event reaches
    every transport or leaves a breadcrumb; reconfiguring swaps everything or
    nothing and leaks no sink; and the race between the two. *)

From stdpp Require Import gmap relations sorting.
From Stdlib Require Import Ascii.
From S2P Require Import Prelude Free Utf8 GoLib Json AuditTrail.

#[local] Open Scope string_scope.
#[local] Open Scope list_scope.

(* ------------------------------------------------------------------ *)
(** ** One line *)

Definition printable (a : ascii) : bool := (32 <=? Utf8.byte a)%Z.

(** No control character, in particular no line break *)
Definition one_line (s : string) : Prop := Go.forallb_bytes printable s = true.

Lemma one_line_app s t : one_line s -> one_line t -> one_line (s +:+ t).
Proof.
  unfold one_line. induction s as [|a s IH]; [done|]. rewrite Utf8.app_cons. cbn.
  intros [-> Hs]%andb_prop Ht. by apply IH.
Qed.

Lemma one_line_concat {A} (f : A -> string) l : (forall x, x ∈ l -> one_line (f x)) -> one_line (concat_map f l).
Proof.
  induction l as [|x l IH]; intros Hf; [done|]. cbn. apply one_line_app; [apply Hf; by left|].
  apply IH. intros y Hy. apply Hf. by right.
Qed.

Lemma one_line_plain s : Go.forallb_bytes plain s = true -> one_line s.
Proof.
  unfold one_line. induction s as [|a s IH]; [done|]. cbn. intros [Ha Hs]%andb_prop. rewrite IH by done.
  unfold plain in Ha. apply andb_prop in Ha as [_ Ha%Nat.leb_le].
  rewrite andb_true_r. unfold printable, Utf8.byte. lia.
Qed.

Lemma hex_digit_printable n : (n < 16)%nat -> printable (Go.hex_digit n) = true.
Proof. intros Hn. do 16 (destruct n as [|n]; [reflexivity|]). lia. Qed.

Lemma one_line_hex r : (0 <= r)%Z -> one_line (hex_escape r).
Proof.
  intros Hr. rewrite hex_escape_eq. unfold one_line. cbn [Go.forallb_bytes].
  rewrite !hex_digit_printable by div_lia. reflexivity.
Qed.

Lemma one_line_rune x : Utf8.scanned x -> one_line (quote_rune x).
Proof.
  intros Hx. pose proof Hx as [Hs _]. destruct (quote_rune_form x Hx) as [E|H1 H2 H3|c H1 H2 H3 H4|H1 H2].
  - reflexivity.
  - by apply one_line_plain, plain_encode.
  - destruct c as [[] [] [] [] [] [] [] []]; first [reflexivity|discriminate H3].
  - apply one_line_hex. lia.
Qed.

Lemma one_line_quote s : one_line (quote_raw s).
Proof.
  apply one_line_concat. intros x Hx. apply one_line_rune.
  pose proof (Utf8.scan_scanned s) as Hs. rewrite Forall_forall in Hs. by apply Hs.
Qed.

(** Numbers are printed as they are. *)
Fixpoint clean (v : json) : Prop :=
  match v with
  | JNum x => one_line x
  | JArr l => foldr (fun v P => clean v /\ P) True l
  | JObj l => foldr (fun kv P => clean kv.2 /\ P) True l
  | _ => True
  end.

Definition tokens_clean (ts : list token) : Prop := Forall (fun t => one_line (token_text t)) ts.

Lemma one_line_string s : one_line (token_text (TStr (quote_raw s))).
Proof.
  cbn [token_text]. change (one_line (String dquote "" +:+ (quote_raw s +:+ String dquote ""))).
  apply one_line_app; [reflexivity|]. apply one_line_app; [apply one_line_quote|reflexivity].
Qed.

Lemma tokens_are_clean v : clean v -> tokens_clean (tokens v).
Proof.
  induction v as [|b|x|s|l IH|l IH] using json_nested_ind; intros Hc; cbn [tokens].
  - by repeat constructor.
  - destruct b; by repeat constructor.
  - by repeat constructor.
  - constructor; [apply one_line_string|constructor].
  - constructor; [reflexivity|]. cbn in Hc. induction IH as [|v l Hv _ IHl]; cbn in *.
    + by repeat constructor.
    + destruct Hc as [Hc1 Hc2]. apply Forall_app. split; [by apply Hv|].
      destruct l; [by repeat constructor|]. constructor; [reflexivity|]. by apply IHl.
  - constructor; [reflexivity|]. cbn in Hc. induction IH as [|[k v] l Hv _ IHl]; cbn in *.
    + by repeat constructor.
    + destruct Hc as [Hc1 Hc2]. constructor; [apply one_line_string|]. constructor; [reflexivity|].
      apply Forall_app. split; [by apply Hv|].
      destruct l; [by repeat constructor|]. constructor; [reflexivity|]. by apply IHl.
Qed.

Lemma one_line_Marshal v : clean v -> one_line (Marshal v).
Proof.
  intros Hc. apply one_line_concat. intros t Ht. pose proof (tokens_are_clean v Hc) as Hts.
  unfold tokens_clean in Hts. rewrite Forall_forall in Hts. by apply Hts.
Qed.

Lemma one_line_digit z : one_line (String (ascii_of_nat (48 + Z.to_nat (z mod 10))) "").
Proof.
  unfold one_line. cbn [Go.forallb_bytes]. rewrite andb_true_r. unfold printable, Utf8.byte.
  rewrite nat_ascii_embedding by div_lia. apply Z.leb_le. lia.
Qed.

Lemma one_line_pad width n : one_line (Time.pad width n).
Proof.
  revert n. induction width as [|width IH]; intros n; [done|]. cbn [Time.pad].
  apply one_line_app; [apply IH|apply one_line_digit].
Qed.

Lemma one_line_date t : one_line (Time.date_time t).
Proof.
  unfold Time.date_time. destruct (Time.civil _) as [[y m] d].
  repeat (apply one_line_app; [apply one_line_pad || reflexivity|]). apply one_line_pad.
Qed.

Lemma clean_omit name s : clean (JObj (omit_string name s)).
Proof. unfold omit_string. by destruct (String.eqb s ""). Qed.

Lemma clean_app l l' : clean (JObj l) -> clean (JObj l') -> clean (JObj (l ++ l')).
Proof. induction l as [|kv l IH]; cbn; [done|]. intros [H1 H2] H3. split; [done|]. by apply IH. Qed.

Lemma clean_map m : map_Forall (fun _ => clean) m -> clean (enc_map m).
Proof.
  intros Hm. unfold enc_map.
  assert (Forall (fun kv => clean kv.2) (merge_sort key_le (map_to_list m))) as Hf.
  { rewrite merge_sort_Permutation. apply Forall_forall. intros [k v] Hkv%elem_of_map_to_list. by apply (Hm k). }
  induction Hf as [|kv l H1 _ IH]; [done|]. by split.
Qed.

Lemma clean_record r : map_Forall (fun _ => clean) (ev_Details (rc_Event r)) -> clean (enc_record r).
Proof.
  intros Hd. unfold enc_record. apply clean_app; [done|].
  repeat (apply clean_app; [apply clean_omit|]).
  destruct (decide _); [done|]. split; [by apply clean_map|done].
Qed.

(** Whatever an event holds (the actor's name, the user agent and the request
    id come from the request), its syslog frame is one line: the priority of
    the local0 facility, and as the message the record's JSON, with the one
    line break at the end. *)
Theorem syslog_frame_one_line t r :
  st_facility t = facilityLocal0 ->
  one_line (st_hostname t) -> one_line (st_appName t) -> one_line (st_procID t) ->
  map_Forall (fun _ => clean) (ev_Details (rc_Event r)) ->
  exists pri header, syslog_frame t r = ("<" +:+ Go.itoa pri +:+ ">1 " +:+ header +:+ Marshal (enc_record r)) +:+ line_end /\
    (130 <= pri <= 134)%Z /\
    one_line ("<" +:+ Go.itoa pri +:+ ">1 " +:+ header +:+ Marshal (enc_record r)).
Proof.
  intros Hf Hh Ha Hp Hd. unfold syslog_frame. rewrite Hf.
  set (pri := (facilityLocal0 * 8 + severityCode _)%Z).
  assert (one_line (Go.itoa pri) /\ (130 <= pri <= 134)%Z) as [Hi Hr].
  { unfold pri, severityCode. repeat case_match; vm_compute; done. }
  exists pri, (Time.rfc5424 (rc_Timestamp r) +:+ " " +:+ st_hostname t +:+ " " +:+ st_appName t +:+ " " +:+
               st_procID t +:+ " " +:+ nilValue +:+ " " +:+ nilValue +:+ " ").
  split; [by rewrite !append_assoc|]. split; [done|].
  pose proof (one_line_Marshal _ (clean_record r Hd)) as Hm. 
  assert (one_line (Time.rfc5424 (rc_Timestamp r))) as Ht.
  { unfold Time.rfc5424. apply one_line_app; [apply one_line_date|]. apply one_line_app; [reflexivity|].
    apply one_line_app; [apply one_line_pad|reflexivity]. }
  clearbody pri. rewrite !append_assoc. generalize dependent (Marshal (enc_record r)).
  generalize dependent (Time.rfc5424 (rc_Timestamp r)). intros time Ht msg Hm.
  repeat (apply one_line_app; [assumption || reflexivity|]). exact Hm.
Qed.

(* ------------------------------------------------------------------ *)
(** ** Reconfiguring *)

Definition sinks_of (t : Transport) : list nat := match t with Syslog t => [st_sink t] | OTel _ => [] end.
Definition sinks (ts : list Transport) : list nat := List.flat_map sinks_of ts.

(** Sinks are numbered in the order they are opened. *)
Definition bounded (w : AWorld) : Prop :=
  Forall (fun s => s < aw_next w)%nat (aw_open w) /\ Forall (fun s => s < aw_next w)%nat (sinks (aw_transports w)).

(** From [w] to [w'] the sinks [l] were opened, and nothing else happened. *)
Record opened (w : AWorld) (l : list nat) (w' : AWorld) : Prop := {
  op_transports : aw_transports w' = aw_transports w;
  op_enabled : aw_enabled w' = aw_enabled w;
  op_next : (aw_next w <= aw_next w')%nat;
  op_new : Forall (fun s => aw_next w <= s < aw_next w')%nat l;
  op_nodup : NoDup l;
  op_open s : s ∈ aw_open w' <-> s ∈ l \/ s ∈ aw_open w }.

Lemma elem_of_without s x l : x ∈ without s l <-> x ∈ l /\ x <> s.
Proof.
  unfold without. rewrite !list_elem_of_In, List.filter_In. split; intros [H1 H2]; (split; [done|]).
  - by apply negb_true_iff, Nat.eqb_neq in H2.
  - by apply negb_true_iff, Nat.eqb_neq.
Qed.

Lemma opened_refl w : opened w [] w.
Proof. split; [done..|constructor|constructor|]. set_solver. Qed.

(** [quiet o]: an operation that opens and closes nothing *)
Definition quiet {R} (o : aop R) : Prop :=
  match o with
  | Dial _ _ | OpenAppend _ | Rotator _ | CloseSink _ | WriteString _ _ | NewLogger _ | SwapLogger _ => False
  | _ => True
  end.

Lemma opened_quiet w l w1 R (o : aop R) : opened w l w1 -> quiet o -> opened w l (exec_audit R o w1).1.
Proof. intros [H1 H2 H3 H4 Hn H5] Hq. destruct o; try done; cbn; repeat case_match; by split. Qed.

Definition got {A} (l : list nat) (f : A -> list nat) (r : result A) : list nat :=
  match r with inl _ => l | inr a => f a ++ l end.

Lemma opened_new w l w1 d : opened w l w1 -> opened w (aw_next w1 :: l) (a_tick (a_new d w1)).
Proof.
  intros [H1 H2 H3 H4 Hn H5]. split; cbn; [done..|lia| | |].
  - constructor; [lia|]. eapply Forall_impl; [exact H4|]. cbn. lia.
  - constructor; [|done]. intros Hin. rewrite Forall_forall in H4. specialize (H4 _ Hin). lia.
  - intros s. specialize (H5 s). set_solver.
Qed.

Lemma opened_dial w l w1 network address : opened w l w1 ->
  let x := exec_audit _ (Dial network address) w1 in opened w (got l (fun s => [s]) x.2) x.1.
Proof. intros Ho. cbn. destruct (aw_fault w1 _); cbn; [by apply (opened_quiet w l w1 _ Getpid)|by apply opened_new]. Qed.

Lemma opened_append w l w1 path : opened w l w1 ->
  let x := exec_audit _ (OpenAppend path) w1 in opened w (got l (fun s => [s]) x.2) x.1.
Proof. intros Ho. cbn. destruct (aw_fault w1 _); cbn; [by apply (opened_quiet w l w1 _ Getpid)|by apply opened_new]. Qed.

Lemma opened_close w l w1 s : bounded w -> opened w (s :: l) w1 ->
  opened w l (exec_audit _ (CloseSink s) w1).1.
Proof.
  intros [Hb _] [H1 H2 H3 H4 Hn H5]. inversion H4 as [|? ? H6 H7]; subst.
  inversion Hn as [|? ? Hs Hn']; subst. split; cbn; [done..|].
  intros x. rewrite elem_of_without, H5. rewrite Forall_forall in Hb. specialize (Hb x).
  split; [|intros Hx; split; [|intros ->; destruct Hx as [|Hx%Hb]; [done|lia]]]; set_solver.
Qed.

(** A program that leaves open, of what it opened, the sinks of its result *)
Definition after {A} (l : list nat) (f : A -> list nat) (p : audit (result A)) (w w1 : AWorld) : Prop :=
  opened w (got l f (arun p w1).2) (arun p w1).1.
Definition yields {A} (f : A -> list nat) (p : audit (result A)) : Prop :=
  forall w l w1, bounded w -> opened w l w1 -> after l f p w w1.

Definition none {A} (a : A) : list nat := [].

Lemma yields_throw {A} (f : A -> list nat) e : yields f (throw e).
Proof. by intros w l w1 _ Ho. Qed.

Lemma yields_ok {A} (f : A -> list nat) a : f a = [] -> yields f (ok a).
Proof. intros Ha w l w1 _ Ho. unfold after. cbn. by rewrite Ha. Qed.

Lemma after_try {A B} (f : A -> list nat) (g : B -> list nat) (m : audit (result A)) (h : goerr -> audit (result B)) k w l l' w1 :
  after l f m w w1 ->
  (forall e w2, opened w l w2 -> after l' g (h e) w w2) ->
  (forall a w2, opened w (f a ++ l) w2 -> after l' g (k a) w w2) ->
  after l' g (try m h k) w w1.
Proof.
  unfold after, try. intros Hm Hh Hk. rewrite frun_bind. destruct (arun m w1) as [w2 [e|a]]; cbn in *; auto.
Qed.

Lemma after_bind {A B} (g : B -> list nat) (m : audit A) (k : A -> audit (result B)) w l w1 :
  opened w l (arun m w1).1 -> (forall a w2, opened w l w2 -> after l g (k a) w w2) ->
  after l g (bind m k) w w1.
Proof. unfold after. intros Hm Hk. rewrite frun_bind. destruct (arun m w1) as [w2 a]; cbn in *; auto. Qed.

Lemma yields_dial network address : yields (fun s => [s]) (perform (Dial network address)).
Proof. intros w l w1 _ Ho. apply (opened_dial _ _ _ network address) in Ho. unfold after. cbn in *. by destruct (aw_fault w1 _). Qed.

Lemma yields_append path : yields (fun s => [s]) (perform (OpenAppend path)).
Proof. intros w l w1 _ Ho. apply (opened_append _ _ _ path) in Ho. unfold after. cbn in *. by destruct (aw_fault w1 _). Qed.

(** What was opened last is closed again, whether that fails or not. *)
Lemma after_close w l w1 s : bounded w -> opened w (s :: l) w1 -> after l none (perform (CloseSink s)) w w1.
Proof.
  intros Hb Ho. pose proof (opened_close w l w1 s Hb Ho) as H. unfold after. cbn in *. by destruct (aw_fault w1 _).
Qed.

Section Build.
Context `{NetUrlPort}.

Lemma yields_daemon path : yields (fun s => [s]) (dialDaemon path).
Proof.
  unfold dialDaemon. generalize (PlainErr "") as e. generalize ["unixgram"; "unix"] as networks.
  set (p := if String.eqb path "" then _ else _). clearbody p.
  induction networks as [|n networks IH]; intros e; cbn [dial_first]; [apply yields_throw|].
  intros w l w1 Hb Ho. eapply after_try; [by apply yields_dial| |]; [intros; by apply IH|].
  intros s w2 Hs. exact Hs.
Qed.

Lemma yields_writable path : yields none (ensureWritable path).
Proof.
  intros w l w1 Hb Ho. unfold ensureWritable.
  eapply (after_try none).
  - pose proof (opened_quiet _ _ _ _ (MkdirAll (path_Dir path)) Ho I) as H1. unfold after. cbn in *.
    by destruct (aw_fault w1 _).
  - intros e w2 H2. by apply yields_throw.
  - intros [] w2 H2. eapply after_try; [by apply yields_append|intros; by apply yields_throw|].
    intros s w3 H3. by apply after_close.
Qed.

Lemma yields_sink cfg : yields (fun s => [s]) (openSink cfg).
Proof.
  intros w l w1 Hb Ho. unfold openSink.
  destruct (String.eqb _ _); [|destruct (String.eqb _ _); [|destruct (String.eqb _ _)]].
  - eapply after_try; [by apply yields_dial|intros; by apply yields_throw|]. intros s w2 H2. exact H2.
  - eapply after_try; [by apply yields_writable|intros; by apply yields_throw|]. intros [] w2 H2.
    unfold after. rewrite frun_bind. cbn. by apply opened_new.
  - by apply yields_daemon.
  - by apply yields_throw.
Qed.

Lemma yields_syslog cfg : yields sinks_of (newSyslogTransport cfg).
Proof.
  intros w l w1 Hb Ho. unfold newSyslogTransport.
  apply after_bind; [by apply (opened_quiet _ _ _ _ Hostname)|]. intros h w2 H2.
  apply after_bind; [by apply (opened_quiet _ _ _ _ Getpid)|]. intros pid w3 H3.
  eapply after_try; [by apply yields_sink|intros; by apply yields_throw|]. intros s w4 H4. exact H4.
Qed.

Lemma yields_otel cfg : yields sinks_of (newOTelTransport cfg).
Proof.
  intros w l w1 Hb Ho. unfold newOTelTransport. destruct (Parse _) as [m|u]; [by apply yields_throw|].
  destruct (_ && _); [by apply yields_throw|].
  eapply (after_try none); [|intros; by apply yields_throw|by intros [] w2 H2].
  unfold probeOTelEndpoint.
  eapply after_try; [by apply yields_dial|intros; by apply yields_throw|]. intros s w2 H2. by apply after_close.
Qed.

(** Closing transports whose sinks were opened last *)
Lemma close_opened ts w l w1 : bounded w -> opened w (sinks ts ++ l) w1 -> opened w l (arun (closeAll ts) w1).1.
Proof.
  intros Hb. revert w1. induction ts as [|t ts IH]; intros w1 Ho; [done|]. cbn [closeAll].
  rewrite frun_bind. destruct t as [t|t]; cbn [Close sinks List.flat_map sinks_of app] in *.
  - pose proof (opened_close _ _ _ _ Hb Ho) as H1. specialize (IH _ H1). cbn in *. by destruct (aw_fault w1 (aw_tick w1)).
  - apply IH. by apply (opened_quiet _ _ _ _ (CloseIdle t)).
Qed.

Lemma opened_perm w l l' w1 : l ≡ₚ l' -> opened w l w1 -> opened w l' w1.
Proof.
  intros Hl [H1 H2 H3 H4 Hn H5]. split; [done..|by rewrite <- Hl|by rewrite <- Hl|].
  intros s. rewrite H5. by rewrite Hl.
Qed.

Lemma sinks_app ts ts' : sinks (ts ++ ts') = sinks ts ++ sinks ts'.
Proof. apply List.flat_map_app. Qed.

Lemma yields_transports cfg : yields sinks (buildTransports cfg).
Proof.
  intros w l w1 Hb Ho. unfold buildTransports. destruct (negb _); [by apply yields_ok|].
  eapply (after_try sinks).
  - destruct (sy_Enabled _); [|by apply yields_ok].
    eapply after_try; [by apply yields_syslog|intros; by apply yields_throw|]. intros t w2 H2.
    unfold after. cbn. by rewrite app_nil_r.
  - intros e w2 H2. by apply yields_throw.
  - intros ts w2 H2. eapply (after_try sinks sinks _ _ _ w _ l).
    + destruct (ot_Enabled _); [|exact H2].
      eapply after_try; [by apply yields_otel|intros e w3 H3|intros t w3 H3].
      * unfold after. rewrite frun_bind. pose proof (close_opened _ _ _ _ Hb H3) as H4.
        by destruct (arun (closeAll ts) w3).
      * unfold after. cbn. eapply opened_perm, H3. rewrite sinks_app. cbn. rewrite app_nil_r.
        by rewrite app_assoc, (Permutation_app_comm (sinks_of t)).
    + intros e w3 H3. by apply yields_throw.
    + intros [|t ts'] w3 H3; [by apply yields_throw|exact H3].
Qed.

(** Closing sinks that were there before *)
Lemma close_all_open ts w : let w' := (arun (closeAll ts) w).1 in
  aw_transports w' = aw_transports w /\ aw_enabled w' = aw_enabled w /\
  forall s, s ∈ aw_open w' <-> s ∈ aw_open w /\ s ∉ sinks ts.
Proof.
  revert w. induction ts as [|t ts IH]; intros w; cbn zeta.
  - split_and!; [done..|]. intros s. cbn. set_solver.
  - cbn [closeAll]. rewrite frun_bind. destruct t as [t|t]; cbn [Close].
    + change (arun (perform (CloseSink (st_sink t)) ;;; Ret tt) w) with
        ((exec_audit _ (CloseSink (st_sink t)) w).1, tt). cbn [fst snd].
      destruct (IH (exec_audit _ (CloseSink (st_sink t)) w).1) as (H1 & H2 & H3).
      split_and!; [exact H1|exact H2|]. intros s. rewrite H3. cbn. rewrite elem_of_without. set_solver.
    + destruct (IH (a_tick w)) as (H1 & H2 & H3). split_and!; [exact H1|exact H2|]. intros s. apply H3.
Qed.

Lemma transports_enabled cfg w ts : (arun (buildTransports cfg) w).2 = inr ts ->
  (0 <? length ts)%nat = au_Enabled cfg.
Proof.
  unfold buildTransports. destruct (au_Enabled cfg); cbn [negb]; [|by intros [= <-]].
  unfold try. rewrite !frun_bind. destruct (arun _ w) as [w1 [e|l]]; [done|].
  rewrite frun_bind. destruct (arun _ w1) as [w2 [e|[|t l']]]; [done..|]. by intros [= <-].
Qed.

(** C35. Reconfiguring the audit logger, whatever fails: with an error the logger
    keeps its transports and every sink that was opened on the way is closed
    again; otherwise the new transports take over, the logger is enabled
    exactly when the configuration enables it, the old transports' sinks are
    closed and the new ones' are open. *)
Theorem reconfigure_outcome cfg w :
  bounded w ->
  let '(w', r) := arun (Reconfigure cfg) w in
  match r with
  | inl _ =>
      aw_transports w' = aw_transports w /\ aw_enabled w' = aw_enabled w /\
      forall s, s ∈ aw_open w' <-> s ∈ aw_open w
  | inr _ =>
      aw_enabled w' = au_Enabled cfg /\ (aw_transports w' = [] <-> au_Enabled cfg = false) /\
      forall s, s ∈ aw_open w' <->
        s ∈ sinks (aw_transports w') \/ s ∈ aw_open w /\ s ∉ sinks (aw_transports w)
  end.
Proof.
  intros Hb. pose proof (yields_transports cfg w [] w Hb (opened_refl w)) as Hbuild.
  pose proof (transports_enabled cfg w) as Hen.
  unfold after in Hbuild. unfold Reconfigure, try. rewrite frun_bind.
  destruct (arun (buildTransports cfg) w) as [w1 [e|ts]]; cbn [fst snd got] in Hbuild.
  - cbn [throw frun]. split_and!; [apply Hbuild..|]. intros s. rewrite (op_open _ _ _ Hbuild). set_solver.
  - specialize (Hen ts eq_refl). cbn [bind perform frun exec_audit]. rewrite frun_bind.
    destruct (close_all_open (aw_transports w1) (a_tick (a_logger ts w1))) as (H1 & H2 & H3).
    destruct (arun (closeAll (aw_transports w1)) _) as [w2 []]. cbn [fst ok frun] in *.
    rewrite H1, H2. cbn. split; [done|]. split; [rewrite <- Hen; by destruct ts|].
    intros s. rewrite H3, (op_transports _ _ _ Hbuild). cbn. rewrite (op_open _ _ _ Hbuild), app_nil_r.
    pose proof (op_new _ _ _ Hbuild) as Hnew. rewrite app_nil_r, Forall_forall in Hnew.
    destruct Hb as [_ Hb]. rewrite Forall_forall in Hb. split; [tauto|].
    intros [Hs|[Hs Hs']]; [|tauto]. split; [tauto|]. intros Hold. specialize (Hnew s Hs). specialize (Hb s Hold). lia.
Qed.

End Build.

(* ------------------------------------------------------------------ *)
(** ** Logging *)

Section Log.
#[local] Arguments syslog_frame : simpl never.
#[local] Arguments otlpPayloadFor : simpl never.
Context `{NetUrlPort}.

Definition delivered (t : Transport) (r : Record_) (w : AWorld) : Prop :=
  match t with
  | Syslog t => (st_sink t, syslog_frame t r) ∈ aw_out w
  | OTel t => (tt_endpoint t, otlpPayloadFor r) ∈ aw_posts w
  end.

(** What was written or posted stays. *)
Definition grows (w w' : AWorld) : Prop :=
  (forall x, x ∈ aw_out w -> x ∈ aw_out w') /\ (forall x, x ∈ aw_posts w -> x ∈ aw_posts w').

Lemma delivered_grows t r w w' : grows w w' -> delivered t r w -> delivered t r w'.
Proof. intros [Ho Hp]. destruct t; cbn; auto. Qed.

Lemma emit_outcome t r w : let '(w', x) := arun (Emit t r) w in
  grows w w' /\ aw_crumbs w' = aw_crumbs w /\ (x = inr tt -> delivered t r w').
Proof.
  destruct t as [t|t]; unfold Emit, try; rewrite frun_bind; cbn.
  - destruct (aw_fault w (aw_tick w)); cbn; [by split_and!|].
    destruct (bool_decide (st_sink t ∈ aw_open w)); cbn; [|destruct (bool_decide (st_sink t ∈ aw_rotators w)); cbn; [|by split_and!]].
    all: split_and!; [split; [intros x Hx; apply elem_of_app; by left|done]|done|intros _; apply elem_of_app; right; by left].
  - destruct (aw_fault w (aw_tick w)); cbn; [by split_and!|].
    destruct (aw_status w (aw_tick w)) as [status [m|]]; cbn; [|destruct (_ || _)]; cbn.
    all: split_and!; [split; [done|intros x Hx; apply elem_of_app; by left]|done|intros _; apply elem_of_app; right; by left].
Qed.

Lemma emit_all_outcome ts r w : let w' := (arun (emit_all ts r) w).1 in
  grows w w' /\
  exists verdicts errs, length verdicts = length ts /\
    (forall i t, ts !! i = Some t -> verdicts !! i = Some true -> delivered t r w') /\
    aw_crumbs w' = aw_crumbs w ++ errs /\ length errs = length (List.filter negb verdicts).
Proof.
  revert w. induction ts as [|t ts IH]; intros w; cbn zeta.
  - split; [by split|]. exists [], []. cbn. split_and!; [done|intros ??[=]|by rewrite app_nil_r|done].
  - cbn [emit_all]. unfold try. rewrite frun_bind. pose proof (emit_outcome t r w) as He.
    destruct (arun (Emit t r) w) as [w1 [e|[]]]; destruct He as (Hg & Hc & Hd).
    + cbn [bind perform frun exec_audit].
      destruct (IH (a_tick (a_crumbs (aw_crumbs w1 ++ [e]) w1))) as ([G1 G2] & vs & es & Hl & Hv & Hcr & Hn).
      split; [split; intros x Hx; [apply G1|apply G2]; by apply Hg|].
      exists (false :: vs), (e :: es). cbn [length]. split_and!; [by rewrite Hl| | |cbn; by rewrite Hn].
      * intros [|i] t' Ht Hi; [done|]. by apply (Hv i).
      * rewrite Hcr. cbn. by rewrite Hc, <- app_assoc.
    + destruct (IH w1) as (G & vs & es & Hl & Hv & Hcr & Hn).
      split; [split; intros x Hx; apply G; by apply Hg|].
      exists (true :: vs), es. cbn [length]. split_and!; [by rewrite Hl| |by rewrite Hcr, Hc|done].
      intros [|i] t' Ht Hi; [|by apply (Hv i)]. injection Ht as <-. apply (delivered_grows _ _ _ _ G), Hd. done.
Qed.

(** Nothing that was written is lost, and the logger stays as it is. *)
Definition keeps (w w' : AWorld) : Prop :=
  grows w w' /\ aw_transports w' = aw_transports w /\ aw_enabled w' = aw_enabled w /\
  aw_component w' = aw_component w.

#[export] Instance keeps_preorder : PreOrder keeps.
Proof.
  split; [by intros w; split_and!; try split|].
  intros u v w ([O1 P1] & ? & ? & ?) ([O2 P2] & ? & ? & ?). split_and!; [split; auto|congruence..].
Qed.

Abbreviation tame := (within exec_audit keeps).

Lemma tame_op {R} (o : aop R) :
  match o with NewLogger _ | SwapLogger _ => False | _ => True end -> tame (perform o).
Proof.
  intros Ho. split; [|done]. intros w. destruct o; try done; cbn; repeat case_match; cbn;
    (split_and!; [split; intros x Hx; cbn; try (apply elem_of_app; left); exact Hx|done..]).
Qed.

Lemma tame_bind {A B} (m : audit A) (f : A -> audit B) : tame m -> (forall a, tame (f a)) -> tame (bind m f).
Proof. apply within_bind. Qed.

Lemma tame_run {A} (p : audit A) w : tame p -> keeps w (arun p w).1.
Proof. apply within_run. typeclasses eauto. Qed.

Ltac tame_step :=
  match goal with
  | |- forall _, _ => intros ?
  | |- within _ _ (Ret _) => exact I
  | |- within _ _ (perform _) => apply tame_op; exact I
  | |- within _ _ (try _ _ _) => apply tame_bind
  | |- within _ _ (bind _ _) => apply tame_bind
  | |- within _ _ (match ?x with _ => _ end) => destruct x
  | |- within _ _ (let _ := _ in _) => cbv zeta
  | |- within _ _ ?m => let h := program_head m in unfold h
  end.

Lemma tame_emit_all ts r : tame (emit_all ts r).
Proof. induction ts as [|t ts IH]; [done|]. cbn [emit_all]. repeat first [exact IH | tame_step]. Qed.

Lemma tame_close_all ts : tame (closeAll ts).
Proof. induction ts as [|t ts IH]; [done|]. cbn [closeAll]. repeat first [exact IH | tame_step]. Qed.

Lemma tame_log e : tame (Log e).
Proof. repeat first [apply tame_emit_all | tame_step]. Qed.

Lemma tame_dial networks path e : tame (dial_first networks path e).
Proof. revert e. induction networks as [|n l IH]; intros e; [done|]. cbn [dial_first]. repeat first [apply IH | tame_step]. Qed.

Lemma tame_build cfg : tame (buildTransports cfg).
Proof. repeat first [apply tame_dial | apply tame_close_all | tame_step]. Qed.

(** Reconfiguring writes nothing. *)
Lemma reconfigure_grows cfg w : grows w (arun (Reconfigure cfg) w).1 /\
  aw_component (arun (Reconfigure cfg) w).1 = aw_component w.
Proof.
  unfold Reconfigure, try. rewrite frun_bind. destruct (tame_run _ w (tame_build cfg)) as (G & _ & _ & C).
  destruct (arun (buildTransports cfg) w) as [w1 [e|ts]]; cbn [fst snd] in *; [done|].
  cbn [bind perform frun exec_audit]. rewrite frun_bind.
  destruct (tame_run _ (a_tick (a_logger ts w1)) (tame_close_all (aw_transports w1))) as ([G1 G2] & _ & _ & C').
  destruct (arun (closeAll _) _) as [w2 []]. cbn in *. split; [|by rewrite C', C].
  split; intros x Hx; [apply G1|apply G2]; by apply G.
Qed.

(** What the logger runs with afterwards *)
Lemma reconfigure_swaps cfg w : let '(w', r) := arun (Reconfigure cfg) w in
  match r with
  | inl _ => aw_transports w' = aw_transports w /\ aw_enabled w' = aw_enabled w
  | inr _ => aw_enabled w' = au_Enabled cfg /\ (aw_transports w' = [] <-> au_Enabled cfg = false)
  end.
Proof.
  unfold Reconfigure, try. rewrite frun_bind. destruct (tame_run _ w (tame_build cfg)) as (_ & T & E & _).
  pose proof (transports_enabled cfg w) as Hen.
  destruct (arun (buildTransports cfg) w) as [w1 [e|ts]]; cbn [fst snd] in *; [done|]. specialize (Hen ts eq_refl).
  cbn [bind perform frun exec_audit]. rewrite frun_bind.
  destruct (close_all_open (aw_transports w1) (a_tick (a_logger ts w1))) as (H1 & H2 & _).
  destruct (arun (closeAll _) _) as [w2 []]. cbn in *. rewrite H1, H2. split; [done|]. rewrite <- Hen. by destruct ts.
Qed.

(** *** Where the records go *)

(** What a configuration asks of syslog *)
Inductive SyslogTarget :=
| ToDaemon (socket : string)
| ToNetwork (network address : string)
| ToFile (f : SyslogFileConfig)
| UnknownTarget.

Definition reaches (t : SyslogTarget) (d : Destination) : Prop :=
  match t, d with
  | ToDaemon socket, Connection network address =>
      (network = "unixgram" \/ network = "unix") /\ address = if String.eqb socket "" then "/dev/log" else socket
  | ToNetwork network address, Connection network' address' => network' = network /\ address' = address
  | ToFile f, RotatedFile f' => f' = f
  | _, _ => False
  end.

Definition syslog_runs (t : SyslogTarget) (tag : string) (ts : list Transport) (w : AWorld) : Prop :=
  exists sink host pid d, ts = [Syslog (mkSyslogTransport sink host tag pid facilityLocal0)] /\
    (sink < aw_next w)%nat /\ aw_dest w sink = Some d /\ reaches t d.

(** The address is an http(s) URL; without a path it is that of the logs. *)
Definition otel_runs (endpoint : string) (ts : list Transport) : Prop :=
  exists u, Parse endpoint = inr u /\ (url_scheme u = "http" \/ url_scheme u = "https") /\
    ts = [OTel (mkOtelTransport (url_string
      (if String.eqb (url_path u) "" || String.eqb (url_path u) "/" then with_path "/v1/logs" u else u)))].

(** The logger runs with these transports and no others: syslog to a target
    under a tag, OTLP to an endpoint; an enabled logger has one. *)
Definition logger_runs (enabled : bool) (syslog : option (SyslogTarget * string)) (otel : option string)
    (w : AWorld) : Prop :=
  aw_enabled w = enabled /\ (enabled = true -> syslog <> None \/ otel <> None) /\
  exists ts ts', aw_transports w = ts ++ ts' /\
    match syslog with Some (t, tag) => syslog_runs t tag ts w | None => ts = [] end /\
    match otel with Some endpoint => otel_runs endpoint ts' | None => ts' = [] end.

Definition target_of (s : SyslogConfig) : SyslogTarget :=
  if String.eqb (sy_Target s) "network" then ToNetwork (sy_Network s) (sy_Address s)
  else if String.eqb (sy_Target s) "file" then ToFile (sy_File s)
  else if String.eqb (sy_Target s) "daemon" then ToDaemon (sy_SocketPath s) else UnknownTarget.

Definition wanted_syslog (cfg : AuditConfig) : option (SyslogTarget * string) :=
  if au_Enabled cfg && sy_Enabled (au_Syslog cfg)
  then Some (target_of (au_Syslog cfg),
             if String.eqb (sy_Tag (au_Syslog cfg)) "" then "harbor-audit" else sy_Tag (au_Syslog cfg))
  else None.
Definition wanted_otel (cfg : AuditConfig) : option string :=
  if au_Enabled cfg && ot_Enabled (au_OTel cfg) then Some (ot_Endpoint (au_OTel cfg)) else None.

Definition runs_with (cfg : AuditConfig) : AWorld -> Prop :=
  logger_runs (au_Enabled cfg) (wanted_syslog cfg) (wanted_otel cfg).

(** Sinks are numbered as they are opened, and stay what they are. *)
Definition dest_grows (w w' : AWorld) : Prop :=
  (aw_next w <= aw_next w')%nat /\ forall s, (s < aw_next w)%nat -> aw_dest w' s = aw_dest w s.

#[export] Instance dest_grows_preorder : PreOrder dest_grows.
Proof.
  split; [by intros w; split|]. intros u v w [H1 H2] [H3 H4]. split; [lia|].
  intros s Hs. rewrite H4 by lia. by apply H2.
Qed.

Lemma dest_run {A} (p : audit A) w : dest_grows w (arun p w).1.
Proof.
  apply within_run; [typeclasses eauto|]. induction p as [a|R o k IH]; [done|]. split; [|exact IH].
  intros v. unfold dest_grows. destruct o; cbn; repeat case_match; cbn; split; try lia; try done;
    intros s Hs; destruct (Nat.eqb_spec s (aw_next v)); lia || done.
Qed.

Lemma logger_runs_stays enabled sy ot w w' : dest_grows w w' ->
  aw_transports w' = aw_transports w -> aw_enabled w' = aw_enabled w ->
  logger_runs enabled sy ot w -> logger_runs enabled sy ot w'.
Proof.
  intros [Hn Hd] HT HE (He & Hs & ts & ts' & Ht & Hsy & Hot). split; [by rewrite HE|]. split; [done|].
  exists ts, ts'. rewrite HT. split_and!; [done| |done]. destruct sy as [[t tag]|]; [|done].
  destruct Hsy as (s & h & p & d & -> & Hl & Hx & Hr). exists s, h, p, d.
  split_and!; [done|lia|by rewrite Hd|done].
Qed.

(** [m] returned without an error *)
Lemma arun_try_ok {A B} (m : audit (result A)) (h : goerr -> audit (result B)) k w w' b :
  (forall e v v', arun (h e) v <> (v', inr b)) -> arun (try m h k) w = (w', inr b) ->
  exists v a, arun m w = (v, inr a) /\ arun (k a) v = (w', inr b).
Proof.
  intros Hh. unfold try. rewrite frun_bind. destruct (arun m w) as [v [e|a]]; [|by eauto].
  by intros E%Hh.
Qed.

Lemma dial_runs networks path e w w' s :
  (forall n, n ∈ networks -> n = "unixgram" \/ n = "unix") ->
  arun (dial_first networks path e) w = (w', inr s) ->
  (s < aw_next w')%nat /\ exists n, (n = "unixgram" \/ n = "unix") /\ aw_dest w' s = Some (Connection n path).
Proof.
  revert e w. induction networks as [|n l IH]; intros e w Hn; [done|]. cbn [dial_first]. unfold try. rewrite frun_bind.
  cbn. destruct (aw_fault w (aw_tick w)) as [m|]; cbn.
  - apply IH. intros n' Hn'. apply Hn. by right.
  - intros [= <- <-]. cbn. rewrite Nat.eqb_refl. split; [lia|]. exists n. split; [apply Hn; by left|done].
Qed.

Lemma sink_runs cfg w w' s : arun (openSink cfg) w = (w', inr s) ->
  (s < aw_next w')%nat /\ exists d, aw_dest w' s = Some d /\ reaches (target_of cfg) d.
Proof.
  unfold openSink, target_of. destruct (String.eqb (sy_Target cfg) "network");
    [|destruct (String.eqb (sy_Target cfg) "file"); [|destruct (String.eqb (sy_Target cfg) "daemon"); [|done]]].
  - unfold try. rewrite frun_bind. cbn. destruct (aw_fault w _); [done|]. intros [= <- <-]. cbn.
    rewrite Nat.eqb_refl. split; [lia|]. by eexists.
  - intros (v & [] & _ & E)%arun_try_ok; [|done]. cbn in E. injection E as <- <-. cbn.
    rewrite Nat.eqb_refl. split; [lia|]. by eexists.
  - intros (Hs & n & Hn & Hd)%dial_runs; [split; [done|]; eexists; split; [exact Hd|done]|].
    intros n Hn. set_solver.
Qed.

Lemma syslog_transport_runs cfg w w' t : arun (newSyslogTransport cfg) w = (w', inr t) ->
  syslog_runs (target_of cfg) (if String.eqb (sy_Tag cfg) "" then "harbor-audit" else sy_Tag cfg) [t] w'.
Proof.
  unfold newSyslogTransport. rewrite !frun_bind. cbn [perform frun exec_audit]. cbn.
  intros (v & s & E & E')%arun_try_ok; [|done]. injection E' as <- <-.
  apply sink_runs in E as (Hs & d & Hd & Hr). by eexists _, _, _, _.
Qed.

Lemma otel_transport_runs cfg w w' t : arun (newOTelTransport cfg) w = (w', inr t) ->
  otel_runs (ot_Endpoint cfg) [t].
Proof.
  unfold newOTelTransport. destruct (Parse _) as [m|u] eqn:Ep; [done|].
  destruct (negb (String.eqb (url_scheme u) "http") && _) eqn:Es; [done|].
  intros (v & [] & _ & E)%arun_try_ok; [|done]. injection E as _ <-. exists u. split; [done|]. split; [|done].
  apply andb_false_iff in Es as [E%negb_false_iff%String.eqb_eq|E%negb_false_iff%String.eqb_eq]; auto.
Qed.

Definition syslog_part (cfg : AuditConfig) (ts : list Transport) (w : AWorld) : Prop :=
  match wanted_syslog cfg with Some (t, tag) => syslog_runs t tag ts w | None => ts = [] end.
Definition otel_part (cfg : AuditConfig) (ts : list Transport) : Prop :=
  match wanted_otel cfg with Some endpoint => otel_runs endpoint ts | None => ts = [] end.

Lemma build_runs cfg w v ts : arun (buildTransports cfg) w = (v, inr ts) ->
  (au_Enabled cfg = true -> ts <> []) /\
  exists t1 t2, ts = t1 ++ t2 /\ syslog_part cfg t1 v /\ otel_part cfg t2.
Proof.
  unfold buildTransports, syslog_part, otel_part, wanted_syslog, wanted_otel.
  destruct (au_Enabled cfg); cbn [negb andb]; [|intros [= _ <-]; split; [done|by exists [], []]].
  intros (v1 & t1 & E1 & E)%arun_try_ok; [|done]. apply arun_try_ok in E as (v2 & ts2 & E2 & E); [|done].
  assert (ts2 = ts /\ ts <> [] /\ v2 = v) as (-> & Hn & ->) by (destruct ts2; [done|by injection E as <- <-]).
  split; [done|]. clear E.
  assert (if sy_Enabled (au_Syslog cfg) then
      syslog_runs (target_of (au_Syslog cfg))
        (if String.eqb (sy_Tag (au_Syslog cfg)) "" then "harbor-audit" else sy_Tag (au_Syslog cfg)) t1 v1
    else t1 = []) as Hs.
  { destruct (sy_Enabled _); [|by injection E1 as _ <-].
    apply arun_try_ok in E1 as (u & t & Et & [= <- <-]); [|done]. by eapply syslog_transport_runs. }
  assert (exists t2, ts = t1 ++ t2 /\ dest_grows v1 v /\
    if ot_Enabled (au_OTel cfg) then otel_runs (ot_Endpoint (au_OTel cfg)) t2 else t2 = []) as (t2 & -> & Hd & Ho).
  { destruct (ot_Enabled _); [|injection E2 as <- <-; exists []; by rewrite app_nil_r].
    apply arun_try_ok in E2 as (u & t & Et & [= <- <-]).
    - exists [t]. split; [done|]. split; [|by eapply otel_transport_runs].
      pose proof (dest_run (newOTelTransport (au_OTel cfg)) v1) as Hd. by rewrite Et in Hd.
    - intros e u u'. rewrite frun_bind. by destruct (arun (closeAll t1) u). }
  exists t1, t2. split; [done|]. split; [|by destruct (ot_Enabled _)]. destruct (sy_Enabled _); [|done].
  destruct Hs as (s & h & p & d & -> & Hl & Hx & Hr), Hd as [Hg1 Hg2]. exists s, h, p, d.
  split_and!; [done|lia|by rewrite Hg2|done].
Qed.

(** Where a logger that was reconfigured sends its records *)
Lemma reconfigure_runs cfg w : let '(w', r) := arun (Reconfigure cfg) w in
  match r with
  | inr _ => runs_with cfg w'
  | inl _ => forall enabled sy ot, logger_runs enabled sy ot w -> logger_runs enabled sy ot w'
  end.
Proof.
  pose proof (reconfigure_swaps cfg w) as Hs. pose proof (dest_run (Reconfigure cfg) w) as Hd.
  destruct (arun (Reconfigure cfg) w) as [w' [e|[]]] eqn:E; cbn [fst] in *.
  { intros enabled sy ot. by apply logger_runs_stays; destruct Hs. }
  unfold Reconfigure in E. apply arun_try_ok in E as (v & ts & Eb & E); [|done].
  apply build_runs in Eb as (Hn & t1 & t2 & -> & H1 & H2).
  cbn [bind perform frun exec_audit] in E. rewrite frun_bind in E.
  set (v1 := a_tick (a_logger (t1 ++ t2) v)) in E.
  destruct (close_all_open (aw_transports v) v1) as (T & N & _).
  pose proof (dest_run (closeAll (aw_transports v)) v1) as [G1 G2].
  destruct (arun (closeAll (aw_transports v)) v1) as [v2 []]. injection E as ->. cbn in *.
  unfold runs_with, logger_runs. split; [apply Hs|]. split.
  - intros He. specialize (Hn He). unfold syslog_part, otel_part, wanted_syslog, wanted_otel in *. rewrite He in *.
    cbn [andb] in *. destruct (sy_Enabled _); [by left|]. destruct (ot_Enabled _); [by right|]. by subst.
  - exists t1, t2. rewrite T. split_and!; [done| |exact H2]. unfold syslog_part in H1. destruct (wanted_syslog cfg) as [[t tag]|]; [|done]. destruct H1 as (s & h & p & d & -> & Hl & Hx & Hr).
    exists s, h, p, d. split_and!; [done|lia|by rewrite G2|done].
Qed.

(** A new logger runs with its configuration, or is not made. *)
Lemma new_logger_runs cfg component w :
  let '(w', r) := arun (NewAuditLogger cfg component) w in r = inr tt -> runs_with cfg w'.
Proof.
  unfold NewAuditLogger. cbn [bind perform frun exec_audit]. set (w1 := a_tick _).
  pose proof (reconfigure_runs cfg w1) as Hr. by destruct (arun (Reconfigure cfg) w1) as [w2 [e|[]]].
Qed.

(** What is known of an event: it was delivered by every transport but those
    that left an error behind. *)
Definition recorded (e : AuditEvent) (ts : list Transport) (w w' : AWorld) : Prop :=
  exists id now verdicts errs, length verdicts = length ts /\
    (forall i t, ts !! i = Some t -> verdicts !! i = Some true ->
       delivered t (record_of (aw_component w) id now e) w') /\
    aw_crumbs w' = aw_crumbs w ++ errs /\ length errs = length (List.filter negb verdicts).

Lemma log_run e w : let w' := (arun (Log e) w).1 in
  if aw_enabled w then recorded e (aw_transports w) w w'
  else aw_out w' = aw_out w /\ aw_posts w' = aw_posts w /\ aw_crumbs w' = aw_crumbs w.
Proof.
  unfold Log. cbn [bind perform frun exec_audit]. destruct (aw_enabled w); cbn [negb]; [|done].
  cbn [bind perform frun exec_audit].
  match goal with |- context [arun (emit_all _ ?r) ?w1] => pose proof (emit_all_outcome (aw_transports w) r w1) as [_ Ho] end.
  destruct Ho as (vs & es & Hl & Hv & Hc & Hn).
  eexists _, _, vs, es. split_and!; [done|exact Hv|exact Hc|done].
Qed.

End Log.

(* ------------------------------------------------------------------ *)
(** ** Logging while reconfiguring *)

#[local] Instance tiny_url : NetUrl := {|
  url := string; Parse s := inr s; ParseRequestURI s := inr s; url_scheme _ := "http"; url_host s := s;
  url_path _ := ""; with_origin _ _ s := s; ResolveReference _ s := inr s; idna_hostname s := s; url_string s := s |}.
#[local] Instance tiny_port : NetUrlPort := {|
  url_port _ := "1"; url_hostname s := s; with_path _ s := s; JoinHostPort h p := h |}.

Definition remote_syslog (address : string) : AuditConfig :=
  mkAuditConfig true (mkSyslogConfig true "network" "" "" "tcp" address (mkSyslogFileConfig "" 0 0 0 false))
    (mkOTelConfig false "").
Definition demo_audit : AWorld :=
  mkAWorld [Syslog (mkSyslogTransport 0 "edge" "harbor-audit" "7" facilityLocal0)] true "satellite" [0%nat] [] 1 [] [] [] 0
    (fun _ => None) (fun _ => (200%Z, None)) (fun _ => "id") (fun _ => 0%Z) (inr "edge") 7
    (fun _ => Some (Connection "tcp" "siem-1:514")).
Definition login_failed : AuditEvent :=
  mkAuditEvent "login" "session" "failure" "" "mallory" "user" "10.0.0.1" "" "" "" "" "bad_password" ∅.

Definition log_beside_reconfigure : list (audit unit) :=
  [Log login_failed; (Reconfigure (remote_syslog "siem-2:514") ;;; Ret tt)].

(** The logger is enabled throughout, nothing fails, and the event is lost:
    its snapshot of the transports is of the ones that the reconfiguration
    closes before the event is written to them. *)
Theorem event_lost_when_reconfigured :
  exists ts w, rtc (pstep exec_audit) (log_beside_reconfigure, demo_audit) (ts, w) /\ finished ts /\
    aw_enabled w = true /\ aw_out w = [] /\
    aw_crumbs w = [WrapErr "write syslog message" (PlainErr "use of closed network connection")].
Proof.
  destruct (play exec_audit ([0; 0; 0; 1; 1; 1; 1; 1; 0; 0])%nat log_beside_reconfigure demo_audit) as [ts w] eqn:E.
  exists ts, w. pose proof (play_steps exec_audit ([0; 0; 0; 1; 1; 1; 1; 1; 0; 0])%nat log_beside_reconfigure demo_audit) as Hs.
  rewrite E in Hs. split; [done|]. vm_compute in E. injection E as <- <-.
  split_and!; [|reflexivity..]. intros p Hp. repeat (apply elem_of_cons in Hp as [->|Hp]; [by eexists|]).
  by apply elem_of_nil in Hp.
Qed.

Lemma demo_audit_bounded : bounded demo_audit.
Proof. split; repeat constructor. Qed.

Lemma reconfigure_outcome_witness :
  bounded demo_audit /\
  let '(w', r) := arun (Reconfigure (remote_syslog "siem-2:514")) demo_audit in
  r = inr tt /\ aw_enabled w' = true /\ forall s, s ∈ aw_open w' <-> s = 1%nat.
Proof.
  split; [exact demo_audit_bounded|].
  pose proof (reconfigure_outcome (remote_syslog "siem-2:514") demo_audit demo_audit_bounded) as H.
  vm_compute in H. destruct H as (_ & _ & H). vm_compute.
  split; [reflexivity|]. split; [reflexivity|]. intros s. split.
  - intros Hs. apply H in Hs as [Hs|[Hs Hn]].
    + by apply list_elem_of_singleton in Hs.
    + by destruct Hn.
  - intros ->. by left.
Defined.

(** A user agent with a line break and a made-up second frame in it *)
Definition forged : AuditEvent :=
  mkAuditEvent "login" "session" "failure" "" "mallory" "user" "10.0.0.1"
    ("curl" +:+ line_end +:+ "<134>1 - - harbor-audit - - - {}") "" "" "" "bad_password" {["tries" := JNum "3"]}.

Lemma syslog_frame_one_line_witness :
  exists pri header,
    let t := mkSyslogTransport 0 "edge" "harbor-audit" "7" facilityLocal0 in
    let r := record_of "satellite" "id" 0 forged in
    let line := "<" +:+ Go.itoa pri +:+ ">1 " +:+ header +:+ Marshal (enc_record r) in
    syslog_frame t r = line +:+ line_end /\ (130 <= pri <= 134)%Z /\ one_line line.
Proof.
  apply (syslog_frame_one_line (mkSyslogTransport 0 "edge" "harbor-audit" "7" facilityLocal0)
           (record_of "satellite" "id" 0 forged)); try reflexivity.
  apply map_Forall_singleton. reflexivity.
Defined.
