(* ===== verification/Db.v ===== *)
(** * The Ground Control database

    The tables of internal/groundcontrol/sql/schema, as the Go structs of
    internal/groundcontrol/database/models.go, and the SQL statements of
    internal/groundcontrol/database/*.sql.go.  Each statement is a function
    [Db -> Db * result R] named after its Go method (Module [Sql]); the type
    [query] lists them, so that a handler can be given a database handle, and
    [exec_query] runs one.

    A table is a list of rows in insertion order with the next value of its
    SERIAL column.  Times are nanoseconds.  UNIQUE, FOREIGN KEY, CHECK and
    ON DELETE CASCADE are modelled; column widths (VARCHAR(n), the 32-bit
    range of SERIAL) are not.  The cast text::INTERVAL and the JSONB type belong
    to PostgreSQL and are the parameters [pg_interval] and [pg_jsonb]. *)

From S2P Require Import Prelude.

#[local] Open Scope Z_scope.

(* ------------------------------------------------------------------ *)
(** ** Rows *)

Record Satellite := mkSatellite {
  sat_id : Z; sat_name : string; sat_created_at : Z; sat_updated_at : Z;
  sat_last_seen : option Z; sat_heartbeat_interval : option string }.

Record Group := mkGroup {
  grp_id : Z; grp_name : string; grp_registry_url : string;
  grp_projects : list string; grp_created_at : Z; grp_updated_at : Z }.

Record RobotAccount := mkRobotAccount {
  rob_id : Z; rob_name : string; rob_secret_hash : string; rob_robot_id : string;
  rob_satellite_id : Z; rob_expiry : option Z; rob_created_at : Z; rob_updated_at : Z }.

Record SatelliteToken := mkSatelliteToken {
  tok_id : Z; tok_satellite_id : Z; tok_token : string;
  tok_created_at : Z; tok_updated_at : Z; tok_expires_at : Z }.

(** [json.RawMessage] in a JSONB column: the text PostgreSQL gives back. *)
Record Config := mkConfig {
  cfg_id : Z; cfg_name : string; cfg_registry_url : string; cfg_config : string;
  cfg_created_at : Z; cfg_updated_at : Z }.

Record SatelliteGroup := mkSatelliteGroup { sg_satellite_id : Z; sg_group_id : Z }.
Record SatelliteConfig := mkSatelliteConfig { sc_satellite_id : Z; sc_config_id : Z }.

Record SatelliteStatus := mkSatelliteStatus {
  st_id : Z; st_satellite_id : Z; st_activity : string;
  st_latest_state_digest : option string; st_latest_config_digest : option string;
  st_cpu_percent : option string; st_memory_used_bytes : option Z;
  st_storage_used_bytes : option Z; st_last_sync_duration_ms : option Z;
  st_image_count : option Z; st_reported_at : Z; st_created_at : Z;
  st_artifact_ids : list Z }.

Record Artifact := mkArtifact {
  art_id : Z; art_reference : string; art_size_bytes : Z; art_created_at : Z }.

Record User := mkUser {
  usr_id : Z; usr_username : string; usr_password_hash : string; usr_role : string;
  usr_created_at : Z; usr_updated_at : Z }.

Record Session := mkSession {
  ses_id : Z; ses_user_id : Z; ses_token : string; ses_expires_at : Z; ses_created_at : Z }.

Record LoginAttempt := mkLoginAttempt {
  la_id : Z; la_username : string; la_failed_count : Z;
  la_locked_until : option Z; la_last_attempt : Z }.

(* ------------------------------------------------------------------ *)
(** ** Tables *)

Record table (R : Type) := mkTable { rows : list R; next_id : Z }.
Arguments mkTable {R}. Arguments rows {R}. Arguments next_id {R}.

Section Table.
Context {R : Type}.
Implicit Types (t : table R) (p : R -> bool).

Definition t_empty : table R := mkTable [] 1.
Definition t_find p t : option R := List.find p (rows t).
Definition t_select p t : list R := List.filter p (rows t).
Definition t_exists p t : bool := existsb p (rows t).
Definition t_insert (mk : Z -> R) t : table R :=
  mkTable (rows t ++ [mk (next_id t)]) (next_id t + 1).
Definition t_update p (f : R -> R) t : table R :=
  mkTable ((fun r => if p r then f r else r) <$> rows t) (next_id t).
Definition t_delete p t : table R :=
  mkTable (List.filter (fun r => negb (p r)) (rows t)) (next_id t).
End Table.

Record Db := mkDb {
  satellites : table Satellite;
  groups : table Group;
  satellite_groups : list SatelliteGroup;
  robot_accounts : table RobotAccount;
  satellite_token : table SatelliteToken;
  configs : table Config;
  satellite_configs : list SatelliteConfig;
  satellite_status : table SatelliteStatus;
  artifacts : table Artifact;
  users : table User;
  sessions : table Session;
  login_attempts : table LoginAttempt }.

Definition empty_db : Db :=
  mkDb t_empty t_empty [] t_empty t_empty t_empty [] t_empty t_empty t_empty t_empty t_empty.

(** Functional updates, one per table. *)
Definition on_satellites f d := mkDb (f (satellites d)) (groups d) (satellite_groups d)
  (robot_accounts d) (satellite_token d) (configs d) (satellite_configs d)
  (satellite_status d) (artifacts d) (users d) (sessions d) (login_attempts d).
Definition on_groups f d := mkDb (satellites d) (f (groups d)) (satellite_groups d)
  (robot_accounts d) (satellite_token d) (configs d) (satellite_configs d)
  (satellite_status d) (artifacts d) (users d) (sessions d) (login_attempts d).
Definition on_satellite_groups f d := mkDb (satellites d) (groups d) (f (satellite_groups d))
  (robot_accounts d) (satellite_token d) (configs d) (satellite_configs d)
  (satellite_status d) (artifacts d) (users d) (sessions d) (login_attempts d).
Definition on_robot_accounts f d := mkDb (satellites d) (groups d) (satellite_groups d)
  (f (robot_accounts d)) (satellite_token d) (configs d) (satellite_configs d)
  (satellite_status d) (artifacts d) (users d) (sessions d) (login_attempts d).
Definition on_satellite_token f d := mkDb (satellites d) (groups d) (satellite_groups d)
  (robot_accounts d) (f (satellite_token d)) (configs d) (satellite_configs d)
  (satellite_status d) (artifacts d) (users d) (sessions d) (login_attempts d).
Definition on_configs f d := mkDb (satellites d) (groups d) (satellite_groups d)
  (robot_accounts d) (satellite_token d) (f (configs d)) (satellite_configs d)
  (satellite_status d) (artifacts d) (users d) (sessions d) (login_attempts d).
Definition on_satellite_configs f d := mkDb (satellites d) (groups d) (satellite_groups d)
  (robot_accounts d) (satellite_token d) (configs d) (f (satellite_configs d))
  (satellite_status d) (artifacts d) (users d) (sessions d) (login_attempts d).
Definition on_satellite_status f d := mkDb (satellites d) (groups d) (satellite_groups d)
  (robot_accounts d) (satellite_token d) (configs d) (satellite_configs d)
  (f (satellite_status d)) (artifacts d) (users d) (sessions d) (login_attempts d).
Definition on_artifacts f d := mkDb (satellites d) (groups d) (satellite_groups d)
  (robot_accounts d) (satellite_token d) (configs d) (satellite_configs d)
  (satellite_status d) (f (artifacts d)) (users d) (sessions d) (login_attempts d).
Definition on_users f d := mkDb (satellites d) (groups d) (satellite_groups d)
  (robot_accounts d) (satellite_token d) (configs d) (satellite_configs d)
  (satellite_status d) (artifacts d) (f (users d)) (sessions d) (login_attempts d).
Definition on_sessions f d := mkDb (satellites d) (groups d) (satellite_groups d)
  (robot_accounts d) (satellite_token d) (configs d) (satellite_configs d)
  (satellite_status d) (artifacts d) (users d) (f (sessions d)) (login_attempts d).
Definition on_login_attempts f d := mkDb (satellites d) (groups d) (satellite_groups d)
  (robot_accounts d) (satellite_token d) (configs d) (satellite_configs d)
  (satellite_status d) (artifacts d) (users d) (sessions d) (f (login_attempts d)).

(** Results of a statement: an error leaves the database as it was. *)
Definition sql_ok {A} (d : Db) (a : A) : Db * result A := (d, inr a).
Definition sql_err {A} (d : Db) (e : goerr) : Db * result A := (d, inl e).

(** A [:one] SELECT: [sql.ErrNoRows] when no row matches. *)
Definition sql_one {A} (d : Db) (o : option A) : Db * result A :=
  match o with Some a => sql_ok d a | None => sql_err d NoRows end.

(** The row an INSERT ... RETURNING gives back. *)
Definition sql_last {A} (d : Db) (l : list A) : Db * result A := sql_one d (last l).

(** PostgreSQL's text-to-interval cast and its JSONB type (the text it gives
    back for the text it is given); [None] when they raise. *)
Class PgTypes := { pg_interval : string -> option Z; pg_jsonb : string -> option string }.

Definition second : Z := 1000000000.
Definition minute : Z := 60 * second.
Definition hour : Z := 60 * minute.
Definition day : Z := 24 * hour.

(* ------------------------------------------------------------------ *)
(** ** The statements *)

Module Sql.

(** *** satellites.sql.go *)

Definition CreateSatellite (now : Z) (name : string) (d : Db) : Db * result Satellite :=
  if t_exists (fun s => String.eqb (sat_name s) name) (satellites d)
  then sql_err d (PqErr Err.unique_violation)
  else
    let d' := on_satellites (t_insert (fun id => mkSatellite id name now now None None)) d in
    sql_last d' (rows (satellites d')).

Definition ListSatellites (d : Db) : Db * result (list Satellite) := sql_ok d (rows (satellites d)).

Definition GetSatellite (id : Z) (d : Db) : Db * result Satellite :=
  sql_one d (t_find (fun s => sat_id s =? id) (satellites d)).

Definition GetSatelliteByName (name : string) (d : Db) : Db * result Satellite :=
  sql_one d (t_find (fun s => String.eqb (sat_name s) name) (satellites d)).

Definition GetSatelliteID (name : string) (d : Db) : Db * result Z :=
  sql_one d (sat_id <$> t_find (fun s => String.eqb (sat_name s) name) (satellites d)).

(** ON DELETE CASCADE of a set of satellites: their group links, robot
    accounts, tokens, config link and status rows go with them. *)
Definition cascade_satellites (gone : Z -> bool) (d : Db) : Db :=
  on_satellite_groups (List.filter (fun r => negb (gone (sg_satellite_id r))))
  (on_robot_accounts (t_delete (fun r => gone (rob_satellite_id r)))
  (on_satellite_token (t_delete (fun r => gone (tok_satellite_id r)))
  (on_satellite_configs (List.filter (fun r => negb (gone (sc_satellite_id r))))
  (on_satellite_status (t_delete (fun r => gone (st_satellite_id r))) d)))).

Definition delete_satellites (p : Satellite -> bool) (d : Db) : Db :=
  let gone id := existsb (fun s => p s && (sat_id s =? id)) (rows (satellites d)) in
  on_satellites (t_delete p) (cascade_satellites gone d).

Definition DeleteSatellite (id : Z) (d : Db) : Db * result unit :=
  sql_ok (delete_satellites (fun s => sat_id s =? id) d) tt.

Definition DeleteSatelliteByName (name : string) (d : Db) : Db * result unit :=
  sql_ok (delete_satellites (fun s => String.eqb (sat_name s) name) d) tt.

(** The join satellites / satellite_groups / groups on a group name *)
Definition GetSatellitesByGroupName (gname : string) (d : Db) : Db * result (list Satellite) :=
  sql_ok d
    (List.flat_map (fun s =>
       List.flat_map (fun sg =>
         if sg_satellite_id sg =? sat_id s
         then (fun _ => s) <$> List.filter (fun g =>
                (grp_id g =? sg_group_id sg) && String.eqb (grp_name g) gname) (rows (groups d))
         else []) (satellite_groups d)) (rows (satellites d))).

(** *** groups.sql.go *)

Definition CreateGroup (now : Z) (name registry_url : string) (projects : list string)
    (d : Db) : Db * result Group :=
  let same g := String.eqb (grp_name g) name in
  let d' :=
    if t_exists same (groups d)
    then on_groups (t_update same (fun g =>
           mkGroup (grp_id g) (grp_name g) registry_url projects (grp_created_at g) now)) d
    else on_groups (t_insert (fun id => mkGroup id name registry_url projects now now)) d in
  sql_one d' (t_find same (groups d')).

Definition ListGroups (d : Db) : Db * result (list Group) := sql_ok d (rows (groups d)).

Definition GetGroupByID (id : Z) (d : Db) : Db * result Group :=
  sql_one d (t_find (fun g => grp_id g =? id) (groups d)).

Definition GetGroupByName (name : string) (d : Db) : Db * result Group :=
  sql_one d (t_find (fun g => String.eqb (grp_name g) name) (groups d)).

Definition DeleteGroup (id : Z) (d : Db) : Db * result unit :=
  sql_ok (on_groups (t_delete (fun g => grp_id g =? id))
    (on_satellite_groups (List.filter (fun r => negb (sg_group_id r =? id))) d)) tt.

Definition GetProjectsOfGroup (name : string) (d : Db) : Db * result (list (list string)) :=
  sql_ok d (grp_projects <$> t_select (fun g => String.eqb (grp_name g) name) (groups d)).

Definition CheckGroupExists (name : string) (d : Db) : Db * result bool :=
  sql_ok d (t_exists (fun g => String.eqb (grp_name g) name) (groups d)).

(** *** satellite_groups.sql.go *)

Definition same_link (sid gid : Z) (r : SatelliteGroup) : bool :=
  (sg_satellite_id r =? sid) && (sg_group_id r =? gid).

Definition AddSatelliteToGroup (sid gid : Z) (d : Db) : Db * result unit :=
  if existsb (same_link sid gid) (satellite_groups d) then sql_ok d tt
  else if t_exists (fun s => sat_id s =? sid) (satellites d) &&
          t_exists (fun g => grp_id g =? gid) (groups d)
  then sql_ok (on_satellite_groups (fun l => l ++ [mkSatelliteGroup sid gid]) d) tt
  else sql_err d (PqErr Err.foreign_key_violation).

Definition GroupSatelliteList (gid : Z) (d : Db) : Db * result (list SatelliteGroup) :=
  sql_ok d (List.filter (fun r => sg_group_id r =? gid) (satellite_groups d)).

Definition SatelliteGroupList (sid : Z) (d : Db) : Db * result (list SatelliteGroup) :=
  sql_ok d (List.filter (fun r => sg_satellite_id r =? sid) (satellite_groups d)).

Definition RemoveSatelliteFromGroup (sid gid : Z) (d : Db) : Db * result unit :=
  sql_ok (on_satellite_groups (List.filter (fun r => negb (same_link sid gid r))) d) tt.

Definition CheckSatelliteInGroup (sid gid : Z) (d : Db) : Db * result bool :=
  sql_ok d (existsb (same_link sid gid) (satellite_groups d)).

(** *** robot_accounts.sql.go *)

(** An upsert on robot_id: on a conflict the stored satellite_id stays as it
    is, and the given one is not looked at.  robot_name is UNIQUE as well.  The
    unique indexes of a row are checked when it is written, its foreign keys at
    the end of the statement. *)
Definition AddRobotAccount (now : Z) (name secret_hash robot_id : string) (sid : Z)
    (expiry : option Z) (d : Db) : Db * result RobotAccount :=
  let same r := String.eqb (rob_robot_id r) robot_id in
  if t_exists (fun r => String.eqb (rob_name r) name && negb (same r)) (robot_accounts d)
  then sql_err d (PqErr Err.unique_violation)
  else if t_exists same (robot_accounts d) then
    let d' := on_robot_accounts (t_update same (fun r =>
      mkRobotAccount (rob_id r) name secret_hash (rob_robot_id r)
        (rob_satellite_id r) expiry (rob_created_at r) now)) d in
    sql_one d' (t_find same (robot_accounts d'))
  else if negb (t_exists (fun s => sat_id s =? sid) (satellites d))
  then sql_err d (PqErr Err.foreign_key_violation)
  else
    let d' := on_robot_accounts (t_insert (fun id =>
      mkRobotAccount id name secret_hash robot_id sid expiry now now)) d in
    sql_one d' (t_find same (robot_accounts d')).

Definition GetRobotAccount (id : Z) (d : Db) : Db * result RobotAccount :=
  sql_one d (t_find (fun r => rob_id r =? id) (robot_accounts d)).

Definition GetRobotAccBySatelliteID (sid : Z) (d : Db) : Db * result RobotAccount :=
  sql_one d (t_find (fun r => rob_satellite_id r =? sid) (robot_accounts d)).

Definition GetRobotAccByRobotName (name : string) (d : Db) : Db * result RobotAccount :=
  sql_one d (t_find (fun r => String.eqb (rob_name r) name) (robot_accounts d)).

Definition ListRobotAccounts (d : Db) : Db * result (list RobotAccount) :=
  sql_ok d (rows (robot_accounts d)).

Definition DeleteRobotAccount (id : Z) (d : Db) : Db * result unit :=
  sql_ok (on_robot_accounts (t_delete (fun r => rob_id r =? id)) d) tt.

Definition UpdateRobotAccount (now id : Z) (name secret_hash robot_id : string)
    (expiry : option Z) (d : Db) : Db * result unit :=
  if negb (t_exists (fun r => rob_id r =? id) (robot_accounts d)) then sql_ok d tt
  else if t_exists (fun r => negb (rob_id r =? id) &&
       (String.eqb (rob_name r) name || String.eqb (rob_robot_id r) robot_id)) (robot_accounts d)
  then sql_err d (PqErr Err.unique_violation)
  else sql_ok (on_robot_accounts (t_update (fun r => rob_id r =? id) (fun r =>
         mkRobotAccount (rob_id r) name secret_hash robot_id (rob_satellite_id r) expiry
           (rob_created_at r) now)) d) tt.

(** *** satellite_token.sql.go *)

Definition AddToken (now sid : Z) (token : string) (expires_at : Z) (d : Db) : Db * result string :=
  if t_exists (fun r => String.eqb (tok_token r) token) (satellite_token d)
  then sql_err d (PqErr Err.unique_violation)
  else if negb (t_exists (fun s => sat_id s =? sid) (satellites d))
  then sql_err d (PqErr Err.foreign_key_violation)
  else sql_ok (on_satellite_token (t_insert (fun id =>
         mkSatelliteToken id sid token now now expires_at)) d) token.

Definition GetSatelliteIDByToken (token : string) (d : Db) : Db * result Z :=
  sql_one d (tok_satellite_id <$>
    t_find (fun r => String.eqb (tok_token r) token) (satellite_token d)).

Definition GetTokenByValue (token : string) (d : Db) : Db * result SatelliteToken :=
  sql_one d (t_find (fun r => String.eqb (tok_token r) token) (satellite_token d)).

Definition GetToken (id : Z) (d : Db) : Db * result SatelliteToken :=
  sql_one d (t_find (fun r => tok_id r =? id) (satellite_token d)).

Definition ListToken (d : Db) : Db * result (list SatelliteToken) :=
  sql_ok d (rows (satellite_token d)).

Definition DeleteToken (token : string) (d : Db) : Db * result unit :=
  sql_ok (on_satellite_token (t_delete (fun r => String.eqb (tok_token r) token)) d) tt.

Definition DeleteExpiredTokens (now : Z) (d : Db) : Db * result unit :=
  sql_ok (on_satellite_token (t_delete (fun r => tok_expires_at r <? now)) d) tt.

(** *** configs.sql.go *)

Definition CreateConfig `{PgTypes} (now : Z) (name registry_url config : string) (d : Db)
    : Db * result Config :=
  match pg_jsonb config with
  | None => sql_err d (PqErr Err.invalid_text_representation)
  | Some stored =>
      if t_exists (fun c => String.eqb (cfg_name c) name) (configs d)
      then sql_err d (PqErr Err.unique_violation)
      else
        let d' := on_configs (t_insert (fun id => mkConfig id name registry_url stored now now)) d in
        sql_last d' (rows (configs d'))
  end.

Definition UpdateConfig `{PgTypes} (now : Z) (name registry_url config : string) (d : Db)
    : Db * result Config :=
  match pg_jsonb config with
  | None => sql_err d (PqErr Err.invalid_text_representation)
  | Some stored =>
      let same c := String.eqb (cfg_name c) name in
      let d' := on_configs (t_update same (fun c =>
        mkConfig (cfg_id c) (cfg_name c) registry_url stored (cfg_created_at c) now)) d in
      sql_one d' (t_find same (configs d'))
  end.

Definition ListConfigs (d : Db) : Db * result (list Config) := sql_ok d (rows (configs d)).

Definition GetConfigByID (id : Z) (d : Db) : Db * result Config :=
  sql_one d (t_find (fun c => cfg_id c =? id) (configs d)).

Definition GetConfigByName (name : string) (d : Db) : Db * result Config :=
  sql_one d (t_find (fun c => String.eqb (cfg_name c) name) (configs d)).

Definition GetRawConfigByID (id : Z) (d : Db) : Db * result string :=
  sql_one d (cfg_config <$> t_find (fun c => cfg_id c =? id) (configs d)).

Definition GetRawConfigByName (name : string) (d : Db) : Db * result string :=
  sql_one d (cfg_config <$> t_find (fun c => String.eqb (cfg_name c) name) (configs d)).

(** ON DELETE CASCADE on satellite_configs.config_id *)
Definition DeleteConfig (id : Z) (d : Db) : Db * result unit :=
  sql_ok (on_configs (t_delete (fun c => cfg_id c =? id))
    (on_satellite_configs (List.filter (fun r => negb (sc_config_id r =? id))) d)) tt.

(** *** satellite_configs.sql.go *)

(** An upsert on satellite_id *)
Definition SetSatelliteConfig (sid cid : Z) (d : Db) : Db * result unit :=
  if negb (t_exists (fun s => sat_id s =? sid) (satellites d) &&
           t_exists (fun c => cfg_id c =? cid) (configs d))
  then sql_err d (PqErr Err.foreign_key_violation)
  else if existsb (fun r => sc_satellite_id r =? sid) (satellite_configs d)
  then sql_ok (on_satellite_configs (fun l => (fun r =>
         if sc_satellite_id r =? sid then mkSatelliteConfig sid cid else r) <$> l) d) tt
  else sql_ok (on_satellite_configs (fun l => l ++ [mkSatelliteConfig sid cid]) d) tt.

Definition ConfigSatelliteList (cid : Z) (d : Db) : Db * result (list SatelliteConfig) :=
  sql_ok d (List.filter (fun r => sc_config_id r =? cid) (satellite_configs d)).

Definition GetSatelliteConfig (sid : Z) (d : Db) : Db * result SatelliteConfig :=
  sql_one d (List.find (fun r => sc_satellite_id r =? sid) (satellite_configs d)).

Definition RemoveSatelliteFromConfig (sid cid : Z) (d : Db) : Db * result unit :=
  sql_ok (on_satellite_configs (List.filter (fun r =>
    negb ((sc_satellite_id r =? sid) && (sc_config_id r =? cid)))) d) tt.

(** *** satellite_status.sql.go *)

Record InsertSatelliteStatusParams := mkInsertSatelliteStatusParams {
  isp_satellite_id : Z; isp_activity : string;
  isp_latest_state_digest : option string; isp_latest_config_digest : option string;
  isp_cpu_percent : option string; isp_memory_used_bytes : option Z;
  isp_storage_used_bytes : option Z; isp_last_sync_duration_ms : option Z;
  isp_image_count : option Z; isp_reported_at : Z; isp_artifact_ids : list Z }.

Definition InsertSatelliteStatus (now : Z) (p : InsertSatelliteStatusParams) (d : Db)
    : Db * result SatelliteStatus :=
  if negb (t_exists (fun s => sat_id s =? isp_satellite_id p) (satellites d))
  then sql_err d (PqErr Err.foreign_key_violation)
  else
    let d' := on_satellite_status (t_insert (fun id =>
      mkSatelliteStatus id (isp_satellite_id p) (isp_activity p)
        (isp_latest_state_digest p) (isp_latest_config_digest p) (isp_cpu_percent p)
        (isp_memory_used_bytes p) (isp_storage_used_bytes p) (isp_last_sync_duration_ms p)
        (isp_image_count p) (isp_reported_at p) now (isp_artifact_ids p))) d in
    sql_last d' (rows (satellite_status d')).

Definition UpdateSatelliteLastSeen (now id : Z) (interval : option string) (d : Db)
    : Db * result unit :=
  sql_ok (on_satellites (t_update (fun s => sat_id s =? id) (fun s =>
    mkSatellite (sat_id s) (sat_name s) (sat_created_at s) (sat_updated_at s)
      (Some now) interval)) d) tt.

(** ORDER BY created_at DESC LIMIT 1; among equal times the later row. *)
Definition latest_status (l : list SatelliteStatus) : option SatelliteStatus :=
  foldl (fun best r =>
    match best with
    | Some b => if st_created_at b <=? st_created_at r then Some r else best
    | None => Some r
    end) None l.

Definition status_of (sid : Z) (d : Db) : list SatelliteStatus :=
  t_select (fun r => st_satellite_id r =? sid) (satellite_status d).

Definition GetLatestSatelliteStatus (sid : Z) (d : Db) : Db * result SatelliteStatus :=
  sql_one d (latest_status (status_of sid d)).

(** The CASE of the active/stale queries: three heartbeats for an interval of
    the form "@every ...", otherwise (NULL included) 15 minutes.  [None] when
    the cast to INTERVAL raises. *)
Definition liveness_window `{PgTypes} (hb : option string) : option Z :=
  match hb with
  | Some s =>
      if Go.has_prefix "@every " s
      then Z.mul 3 <$> pg_interval (Go.drop_bytes 7 s)
      else Some (15 * minute)
  | None => Some (15 * minute)
  end.

(** The WHERE clauses, [None] when evaluating one raises *)
Definition is_active `{PgTypes} (now : Z) (s : Satellite) : option bool :=
  match sat_last_seen s with
  | None => Some false
  | Some seen => (fun w => now - w <? seen) <$> liveness_window (sat_heartbeat_interval s)
  end.

Definition is_stale `{PgTypes} (now : Z) (s : Satellite) : option bool :=
  match sat_last_seen s, sat_heartbeat_interval s with
  | Some seen, Some hb => (fun w => seen <? now - w) <$> liveness_window (Some hb)
  | _, _ => Some false
  end.

Fixpoint sql_where {A} (p : A -> option bool) (l : list A) : option (list A) :=
  match l with
  | [] => Some []
  | x :: l' =>
      match p x, sql_where p l' with
      | Some b, Some r => Some (if b then x :: r else r)
      | _, _ => None
      end
  end.

Definition sql_where_query {A B} (p : A -> option bool) (f : A -> B) (l : list A) (d : Db)
    : Db * result (list B) :=
  match sql_where p l with
  | Some r => sql_ok d (f <$> r)
  | None => sql_err d (PqErr Err.invalid_text_representation)
  end.

Definition GetStaleSatellites `{PgTypes} (now : Z) (d : Db)
    : Db * result (list (Satellite * Z)) :=
  sql_where_query (is_stale now)
    (fun s => (s, (now - default 0 (sat_last_seen s) + second / 2) / second)) (rows (satellites d)) d.

Definition GetActiveSatellites `{PgTypes} (now : Z) (d : Db)
    : Db * result (list (Satellite * string * option Z)) :=
  sql_where_query (is_active now)
    (fun s =>
       let st := latest_status (status_of (sat_id s) d) in
       (s, default ""%string (st_activity <$> st),
        match st with Some r => Some (st_reported_at r) | None => sat_last_seen s end))
    (rows (satellites d)) d.

Definition DeleteOldSatelliteStatus (now days : Z) (d : Db) : Db * result unit :=
  sql_ok (on_satellite_status (t_delete (fun r => st_created_at r <? now - day * days)) d) tt.

Fixpoint insert_by_reference (a : Artifact) (l : list Artifact) : list Artifact :=
  match l with
  | [] => [a]
  | b :: l' => if String.leb (art_reference a) (art_reference b) then a :: l
               else b :: insert_by_reference a l'
  end.
Definition sort_by_reference (l : list Artifact) : list Artifact :=
  foldr insert_by_reference [] l.

Definition GetLatestArtifacts (sid : Z) (d : Db) : Db * result (list Artifact) :=
  let ids := default [] (st_artifact_ids <$> latest_status (status_of sid d)) in
  sql_ok d (sort_by_reference (t_select (fun a => existsb (Z.eqb (art_id a)) ids) (artifacts d))).

Fixpoint insert_newest_first (r : SatelliteStatus) (l : list SatelliteStatus) : list SatelliteStatus :=
  match l with
  | [] => [r]
  | b :: l' => if st_created_at r <? st_created_at b then b :: insert_newest_first r l'
               else r :: l
  end.

Definition GetSatelliteStatusHistory (sid limit : Z) (d : Db) : Db * result (list SatelliteStatus) :=
  sql_ok d (take (Z.to_nat limit)
    (foldl (fun acc r => insert_newest_first r acc) [] (status_of sid d))).

(** *** artifacts.sql.go *)

(** INSERT ... SELECT unnest(refs), unnest(sizes) ON CONFLICT DO NOTHING; when
    the arrays differ in length the shorter is padded with NULL, which the NOT
    NULL columns refuse. *)
Definition insert_artifact (now : Z) (t : table Artifact) (rs : string * Z) : table Artifact :=
  if t_exists (fun a => String.eqb (art_reference a) rs.1) t then t
  else t_insert (fun id => mkArtifact id rs.1 rs.2 now) t.

Definition BatchInsertArtifacts (now : Z) (refs : list string) (sizes : list Z) (d : Db)
    : Db * result unit :=
  if negb (length refs =? length sizes)%nat then sql_err d (PqErr Err.not_null_violation)
  else sql_ok (on_artifacts (fun t => foldl (insert_artifact now) t (zip refs sizes)) d) tt.

Definition GetArtifactIDsByReferences (refs : list string) (d : Db) : Db * result (list Artifact) :=
  sql_ok d (t_select (fun a => existsb (String.eqb (art_reference a)) refs) (artifacts d)).

Definition DeleteOrphanedArtifacts (now days : Z) (d : Db) : Db * result unit :=
  let referenced id := existsb (fun r => existsb (Z.eqb id) (st_artifact_ids r))
                         (rows (satellite_status d)) in
  sql_ok (on_artifacts (t_delete (fun a =>
    negb (referenced (art_id a)) && (art_created_at a <? now - day * days))) d) tt.

(** *** users.sql.go *)

Definition valid_role (role : string) : bool :=
  String.eqb role "system_admin" || String.eqb role "admin".

Definition CreateUser (now : Z) (username hash role : string) (d : Db) : Db * result User :=
  if negb (valid_role role) then sql_err d (PqErr Err.check_violation)
  else if t_exists (fun u => String.eqb (usr_username u) username) (users d)
  then sql_err d (PqErr Err.unique_violation)
  else
    let d' := on_users (t_insert (fun id => mkUser id username hash role now now)) d in
    sql_last d' (rows (users d')).

Definition GetUserByUsername (username : string) (d : Db) : Db * result User :=
  sql_one d (t_find (fun u => String.eqb (usr_username u) username) (users d)).

Definition GetUserByID (id : Z) (d : Db) : Db * result User :=
  sql_one d (t_find (fun u => usr_id u =? id) (users d)).

Fixpoint insert_user_newest_first (r : User) (l : list User) : list User :=
  match l with
  | [] => [r]
  | b :: l' => if usr_created_at r <? usr_created_at b then b :: insert_user_newest_first r l'
               else r :: l
  end.

Definition ListUsers (d : Db) : Db * result (list User) :=
  sql_ok d (foldl (fun acc r => insert_user_newest_first r acc) []
    (t_select (fun u => negb (String.eqb (usr_role u) "system_admin")) (users d))).

(** ON DELETE CASCADE on sessions.user_id *)
Definition DeleteUser (username : string) (d : Db) : Db * result unit :=
  let p u := String.eqb (usr_username u) username && negb (String.eqb (usr_role u) "system_admin") in
  let gone id := existsb (fun u => p u && (usr_id u =? id)) (rows (users d)) in
  sql_ok (on_users (t_delete p) (on_sessions (t_delete (fun r => gone (ses_user_id r))) d)) tt.

Definition UpdateUserPassword (now : Z) (username hash : string) (d : Db) : Db * result unit :=
  sql_ok (on_users (t_update (fun u => String.eqb (usr_username u) username) (fun u =>
    mkUser (usr_id u) (usr_username u) hash (usr_role u) (usr_created_at u) now)) d) tt.

Definition SystemAdminExists (d : Db) : Db * result bool :=
  sql_ok d (t_exists (fun u => String.eqb (usr_role u) "system_admin") (users d)).

(** *** sessions.sql.go *)

Definition CreateSession (now uid : Z) (token : string) (expires_at : Z) (d : Db)
    : Db * result Session :=
  if t_exists (fun r => String.eqb (ses_token r) token) (sessions d)
  then sql_err d (PqErr Err.unique_violation)
  else if negb (t_exists (fun u => usr_id u =? uid) (users d))
  then sql_err d (PqErr Err.foreign_key_violation)
  else
    let d' := on_sessions (t_insert (fun id => mkSession id uid token expires_at now)) d in
    sql_last d' (rows (sessions d')).

(** The join sessions / users on an unexpired token *)
Definition GetSessionByToken (now : Z) (token : string) (d : Db) : Db * result (Session * User) :=
  sql_one d
    (head (List.flat_map (fun r =>
       if String.eqb (ses_token r) token && (now <? ses_expires_at r)
       then (fun u => (r, u)) <$> t_select (fun u => usr_id u =? ses_user_id r) (users d)
       else []) (rows (sessions d)))).

Definition DeleteSession (token : string) (d : Db) : Db * result unit :=
  sql_ok (on_sessions (t_delete (fun r => String.eqb (ses_token r) token)) d) tt.

Definition DeleteUserSessions (uid : Z) (d : Db) : Db * result unit :=
  sql_ok (on_sessions (t_delete (fun r => ses_user_id r =? uid)) d) tt.

Definition DeleteExpiredSessions (now : Z) (d : Db) : Db * result unit :=
  sql_ok (on_sessions (t_delete (fun r => ses_expires_at r <=? now)) d) tt.

(** *** login_attempts.sql.go *)

Definition GetLoginAttempts (username : string) (d : Db) : Db * result LoginAttempt :=
  sql_one d (t_find (fun a => String.eqb (la_username a) username) (login_attempts d)).

Definition UpsertLoginAttempt (now : Z) (username : string) (d : Db) : Db * result LoginAttempt :=
  let same a := String.eqb (la_username a) username in
  let d' :=
    if t_exists same (login_attempts d)
    then on_login_attempts (t_update same (fun a =>
           mkLoginAttempt (la_id a) (la_username a) (la_failed_count a + 1) (la_locked_until a) now)) d
    else on_login_attempts (t_insert (fun id => mkLoginAttempt id username 1 None now)) d in
  sql_one d' (t_find same (login_attempts d')).

Definition ResetLoginAttempts (now : Z) (username : string) (d : Db) : Db * result unit :=
  sql_ok (on_login_attempts (t_update (fun a => String.eqb (la_username a) username) (fun a =>
    mkLoginAttempt (la_id a) (la_username a) 0 None now)) d) tt.

Definition LockAccount (now : Z) (username : string) (until : option Z) (d : Db) : Db * result unit :=
  sql_ok (on_login_attempts (t_update (fun a => String.eqb (la_username a) username) (fun a =>
    mkLoginAttempt (la_id a) (la_username a) (la_failed_count a) until now)) d) tt.

End Sql.

(* ------------------------------------------------------------------ *)
(** ** Statements as data *)

(** One constructor per method of [*database.Queries]; the type index is the
    type of the method's first result. *)
Inductive query : Type -> Type :=
| QCreateSatellite (name : string) : query Satellite
| QListSatellites : query (list Satellite)
| QGetSatellite (id : Z) : query Satellite
| QGetSatelliteByName (name : string) : query Satellite
| QGetSatelliteID (name : string) : query Z
| QDeleteSatellite (id : Z) : query unit
| QDeleteSatelliteByName (name : string) : query unit
| QGetSatellitesByGroupName (name : string) : query (list Satellite)
| QCreateGroup (name registry_url : string) (projects : list string) : query Group
| QListGroups : query (list Group)
| QGetGroupByID (id : Z) : query Group
| QGetGroupByName (name : string) : query Group
| QDeleteGroup (id : Z) : query unit
| QGetProjectsOfGroup (name : string) : query (list (list string))
| QCheckGroupExists (name : string) : query bool
| QAddSatelliteToGroup (sid gid : Z) : query unit
| QGroupSatelliteList (gid : Z) : query (list SatelliteGroup)
| QSatelliteGroupList (sid : Z) : query (list SatelliteGroup)
| QRemoveSatelliteFromGroup (sid gid : Z) : query unit
| QCheckSatelliteInGroup (sid gid : Z) : query bool
| QAddRobotAccount (name hash robot_id : string) (sid : Z) (expiry : option Z) : query RobotAccount
| QGetRobotAccount (id : Z) : query RobotAccount
| QGetRobotAccBySatelliteID (sid : Z) : query RobotAccount
| QGetRobotAccByRobotName (name : string) : query RobotAccount
| QListRobotAccounts : query (list RobotAccount)
| QDeleteRobotAccount (id : Z) : query unit
| QUpdateRobotAccount (id : Z) (name hash robot_id : string) (expiry : option Z) : query unit
| QAddToken (sid : Z) (token : string) (expires_at : Z) : query string
| QGetSatelliteIDByToken (token : string) : query Z
| QGetTokenByValue (token : string) : query SatelliteToken
| QGetToken (id : Z) : query SatelliteToken
| QListToken : query (list SatelliteToken)
| QDeleteToken (token : string) : query unit
| QDeleteExpiredTokens : query unit
| QCreateConfig (name registry_url config : string) : query Config
| QUpdateConfig (name registry_url config : string) : query Config
| QListConfigs : query (list Config)
| QGetConfigByID (id : Z) : query Config
| QGetConfigByName (name : string) : query Config
| QGetRawConfigByID (id : Z) : query string
| QGetRawConfigByName (name : string) : query string
| QDeleteConfig (id : Z) : query unit
| QSetSatelliteConfig (sid cid : Z) : query unit
| QConfigSatelliteList (cid : Z) : query (list SatelliteConfig)
| QSatelliteConfig (sid : Z) : query SatelliteConfig
| QRemoveSatelliteFromConfig (sid cid : Z) : query unit
| QInsertSatelliteStatus (p : Sql.InsertSatelliteStatusParams) : query SatelliteStatus
| QUpdateSatelliteLastSeen (id : Z) (interval : option string) : query unit
| QGetLatestSatelliteStatus (sid : Z) : query SatelliteStatus
| QGetSatelliteStatusHistory (sid limit : Z) : query (list SatelliteStatus)
| QGetStaleSatellites : query (list (Satellite * Z))
| QGetActiveSatellites : query (list (Satellite * string * option Z))
| QDeleteOldSatelliteStatus (days : Z) : query unit
| QGetLatestArtifacts (sid : Z) : query (list Artifact)
| QBatchInsertArtifacts (refs : list string) (sizes : list Z) : query unit
| QGetArtifactIDsByReferences (refs : list string) : query (list Artifact)
| QDeleteOrphanedArtifacts (days : Z) : query unit
| QCreateUser (username hash role : string) : query User
| QGetUserByUsername (username : string) : query User
| QGetUserByID (id : Z) : query User
| QListUsers : query (list User)
| QDeleteUser (username : string) : query unit
| QUpdateUserPassword (username hash : string) : query unit
| QSystemAdminExists : query bool
| QCreateSession (uid : Z) (token : string) (expires_at : Z) : query Session
| QGetSessionByToken (token : string) : query (Session * User)
| QDeleteSession (token : string) : query unit
| QDeleteUserSessions (uid : Z) : query unit
| QDeleteExpiredSessions : query unit
| QGetLoginAttempts (username : string) : query LoginAttempt
| QUpsertLoginAttempt (username : string) : query LoginAttempt
| QResetLoginAttempts (username : string) : query unit
| QLockAccount (username : string) (until : option Z) : query unit.

Definition exec_query `{PgTypes} {R} (now : Z) (q : query R) (d : Db) : Db * result R :=
  match q in query R return Db * result R with
  | QCreateSatellite name => Sql.CreateSatellite now name d
  | QListSatellites => Sql.ListSatellites d
  | QGetSatellite id => Sql.GetSatellite id d
  | QGetSatelliteByName name => Sql.GetSatelliteByName name d
  | QGetSatelliteID name => Sql.GetSatelliteID name d
  | QDeleteSatellite id => Sql.DeleteSatellite id d
  | QDeleteSatelliteByName name => Sql.DeleteSatelliteByName name d
  | QGetSatellitesByGroupName name => Sql.GetSatellitesByGroupName name d
  | QCreateGroup name registry_url projects => Sql.CreateGroup now name registry_url projects d
  | QListGroups => Sql.ListGroups d
  | QGetGroupByID id => Sql.GetGroupByID id d
  | QGetGroupByName name => Sql.GetGroupByName name d
  | QDeleteGroup id => Sql.DeleteGroup id d
  | QGetProjectsOfGroup name => Sql.GetProjectsOfGroup name d
  | QCheckGroupExists name => Sql.CheckGroupExists name d
  | QAddSatelliteToGroup sid gid => Sql.AddSatelliteToGroup sid gid d
  | QGroupSatelliteList gid => Sql.GroupSatelliteList gid d
  | QSatelliteGroupList sid => Sql.SatelliteGroupList sid d
  | QRemoveSatelliteFromGroup sid gid => Sql.RemoveSatelliteFromGroup sid gid d
  | QCheckSatelliteInGroup sid gid => Sql.CheckSatelliteInGroup sid gid d
  | QAddRobotAccount name hash robot_id sid expiry => Sql.AddRobotAccount now name hash robot_id sid expiry d
  | QGetRobotAccount id => Sql.GetRobotAccount id d
  | QGetRobotAccBySatelliteID sid => Sql.GetRobotAccBySatelliteID sid d
  | QGetRobotAccByRobotName name => Sql.GetRobotAccByRobotName name d
  | QListRobotAccounts => Sql.ListRobotAccounts d
  | QDeleteRobotAccount id => Sql.DeleteRobotAccount id d
  | QUpdateRobotAccount id name hash robot_id expiry => Sql.UpdateRobotAccount now id name hash robot_id expiry d
  | QAddToken sid token expires_at => Sql.AddToken now sid token expires_at d
  | QGetSatelliteIDByToken token => Sql.GetSatelliteIDByToken token d
  | QGetTokenByValue token => Sql.GetTokenByValue token d
  | QGetToken id => Sql.GetToken id d
  | QListToken => Sql.ListToken d
  | QDeleteToken token => Sql.DeleteToken token d
  | QDeleteExpiredTokens => Sql.DeleteExpiredTokens now d
  | QCreateConfig name registry_url config => Sql.CreateConfig now name registry_url config d
  | QUpdateConfig name registry_url config => Sql.UpdateConfig now name registry_url config d
  | QListConfigs => Sql.ListConfigs d
  | QGetConfigByID id => Sql.GetConfigByID id d
  | QGetConfigByName name => Sql.GetConfigByName name d
  | QGetRawConfigByID id => Sql.GetRawConfigByID id d
  | QGetRawConfigByName name => Sql.GetRawConfigByName name d
  | QDeleteConfig id => Sql.DeleteConfig id d
  | QSetSatelliteConfig sid cid => Sql.SetSatelliteConfig sid cid d
  | QConfigSatelliteList cid => Sql.ConfigSatelliteList cid d
  | QSatelliteConfig sid => Sql.GetSatelliteConfig sid d
  | QRemoveSatelliteFromConfig sid cid => Sql.RemoveSatelliteFromConfig sid cid d
  | QInsertSatelliteStatus p => Sql.InsertSatelliteStatus now p d
  | QUpdateSatelliteLastSeen id interval => Sql.UpdateSatelliteLastSeen now id interval d
  | QGetLatestSatelliteStatus sid => Sql.GetLatestSatelliteStatus sid d
  | QGetSatelliteStatusHistory sid limit => Sql.GetSatelliteStatusHistory sid limit d
  | QGetStaleSatellites => Sql.GetStaleSatellites now d
  | QGetActiveSatellites => Sql.GetActiveSatellites now d
  | QDeleteOldSatelliteStatus days => Sql.DeleteOldSatelliteStatus now days d
  | QGetLatestArtifacts sid => Sql.GetLatestArtifacts sid d
  | QBatchInsertArtifacts refs sizes => Sql.BatchInsertArtifacts now refs sizes d
  | QGetArtifactIDsByReferences refs => Sql.GetArtifactIDsByReferences refs d
  | QDeleteOrphanedArtifacts days => Sql.DeleteOrphanedArtifacts now days d
  | QCreateUser username hash role => Sql.CreateUser now username hash role d
  | QGetUserByUsername username => Sql.GetUserByUsername username d
  | QGetUserByID id => Sql.GetUserByID id d
  | QListUsers => Sql.ListUsers d
  | QDeleteUser username => Sql.DeleteUser username d
  | QUpdateUserPassword username hash => Sql.UpdateUserPassword now username hash d
  | QSystemAdminExists => Sql.SystemAdminExists d
  | QCreateSession uid token expires_at => Sql.CreateSession now uid token expires_at d
  | QGetSessionByToken token => Sql.GetSessionByToken now token d
  | QDeleteSession token => Sql.DeleteSession token d
  | QDeleteUserSessions uid => Sql.DeleteUserSessions uid d
  | QDeleteExpiredSessions => Sql.DeleteExpiredSessions now d
  | QGetLoginAttempts username => Sql.GetLoginAttempts username d
  | QUpsertLoginAttempt username => Sql.UpsertLoginAttempt now username d
  | QResetLoginAttempts username => Sql.ResetLoginAttempts now username d
  | QLockAccount username until => Sql.LockAccount now username until d
  end.

(** The statements that only read *)
Definition is_read {R} (q : query R) : bool :=
  match q with
  | QListSatellites | QGetSatellite _ | QGetSatelliteByName _ | QGetSatelliteID _
  | QGetSatellitesByGroupName _ | QListGroups | QGetGroupByID _ | QGetGroupByName _
  | QGetProjectsOfGroup _ | QCheckGroupExists _ | QGroupSatelliteList _ | QSatelliteGroupList _
  | QCheckSatelliteInGroup _ _ | QGetRobotAccount _ | QGetRobotAccBySatelliteID _
  | QGetRobotAccByRobotName _ | QListRobotAccounts | QGetSatelliteIDByToken _ | QGetTokenByValue _
  | QGetToken _ | QListToken | QListConfigs | QGetConfigByID _ | QGetConfigByName _
  | QGetRawConfigByID _ | QGetRawConfigByName _ | QConfigSatelliteList _ | QSatelliteConfig _
  | QGetLatestSatelliteStatus _ | QGetSatelliteStatusHistory _ _ | QGetStaleSatellites
  | QGetActiveSatellites | QGetLatestArtifacts _ | QGetArtifactIDsByReferences _
  | QGetUserByUsername _ | QGetUserByID _ | QListUsers | QSystemAdminExists | QGetSessionByToken _
  | QGetLoginAttempts _ => true
  | _ => false
  end.
