(* ===== verification/DbFacts.v ===== *)
(** * Integrity of the Ground Control database

    The schema's integrity constraints as an invariant [wf] of [Db], and the
    proof that every statement preserves it; statements that only read leave
    the database alone; what the constraints give the handlers (a key selects
    one row, a foreign key resolves). *)

From S2P Require Import Prelude Db.

#[local] Open Scope Z_scope.

(* ------------------------------------------------------------------ *)
(** ** Constraints *)

Section Constraints.
Context {R : Type}.
Implicit Types (t : table R).

(** PRIMARY KEY on a SERIAL column: ids are unique and below the sequence. *)
Definition keyed (id : R -> Z) t : Prop :=
  NoDup (id <$> rows t) /\ Forall (fun r => id r < next_id t) (rows t).

(** UNIQUE *)
Definition unique {K} (f : R -> K) t : Prop := NoDup (f <$> rows t).

(** REFERENCES: every value of the column is one of [ids]. *)
Definition refs (fk : R -> Z) (l : list R) (ids : list Z) : Prop :=
  Forall (fun r => fk r ∈ ids) l.

Lemma keyed_insert id mk t : (forall i, id (mk i) = i) -> keyed id t -> keyed id (t_insert mk t).
Proof.
  intros Hmk [Hn Hb]. unfold t_insert, keyed; simpl. split.
  - rewrite fmap_app; simpl. apply NoDup_snoc; [done|]. rewrite Hmk.
    intros (r & E & Hr)%list_elem_of_fmap. rewrite Forall_forall in Hb.
    specialize (Hb r Hr). lia.
  - apply Forall_app. split.
    + eapply Forall_impl; [done|]. simpl. intros. lia.
    + repeat constructor. rewrite Hmk. lia.
Qed.

Lemma keyed_update id p g t : (forall r, id (g r) = id r) -> keyed id t -> keyed id (t_update p g t).
Proof.
  intros Hg [Hn Hb]. unfold t_update, keyed; simpl. split.
  - by rewrite fmap_if_same.
  - apply Forall_fmap. eapply Forall_impl; [done|]. intros r Hr. simpl.
    destruct (p r); [by rewrite Hg|done].
Qed.

Lemma keyed_delete id p t : keyed id t -> keyed id (t_delete p t).
Proof. intros [Hn Hb]. split; simpl; eauto with tables. Qed.

Lemma t_exists_spec p t : t_exists p t = true <-> exists r, r ∈ rows t /\ p r = true.
Proof.
  unfold t_exists. rewrite List.existsb_exists.
  split; intros (r & H & ?); exists r; (split; [by apply list_elem_of_In|done]).
Qed.

Lemma t_exists_false p t r : t_exists p t = false -> r ∈ rows t -> p r = false.
Proof.
  intros H Hr. destruct (p r) eqn:E; [|done].
  assert (t_exists p t = true) as Ht by (apply t_exists_spec; eauto). congruence.
Qed.

Lemma unique_insert (f : R -> string) mk k t :
  t_exists (fun r => String.eqb (f r) k) t = false ->
  (forall i, f (mk i) = k) -> unique f t -> unique f (t_insert mk t).
Proof.
  intros He Hmk Hn. unfold t_insert, unique; simpl. rewrite fmap_app; simpl.
  apply NoDup_snoc; [done|]. rewrite Hmk. intros (r & E & Hr)%list_elem_of_fmap.
  pose proof (t_exists_false _ _ _ He Hr) as Hf. simpl in Hf.
  apply String.eqb_neq in Hf. congruence.
Qed.

Lemma unique_update {K} (f : R -> K) p g t :
  (forall r, f (g r) = f r) -> unique f t -> unique f (t_update p g t).
Proof. intros Hg Hn. unfold t_update, unique; simpl. by rewrite fmap_if_same. Qed.

Lemma unique_delete {K} (f : R -> K) p t : unique f t -> unique f (t_delete p t).
Proof. unfold unique, t_delete; simpl. eauto with tables. Qed.

Lemma refs_snoc (fk : R -> Z) (l : list R) r ids : fk r ∈ ids -> refs fk l ids -> refs fk (l ++ [r]) ids.
Proof. intros Hr Hl. apply Forall_app. by repeat constructor. Qed.

Lemma refs_map (fk : R -> Z) (p : R -> bool) (g : R -> R) (l : list R) ids :
  (forall r, fk (g r) = fk r) -> refs fk l ids ->
  refs fk ((fun r => if p r then g r else r) <$> l) ids.
Proof.
  intros Hg Hl. apply Forall_fmap. eapply Forall_impl; [done|]. intros r Hr. simpl.
  destruct (p r); [by rewrite Hg|done].
Qed.

Lemma refs_filter (fk : R -> Z) (p : R -> bool) l ids : refs fk l ids -> refs fk (List.filter p l) ids.
Proof. unfold refs. eauto with tables. Qed.

Lemma refs_more (fk : R -> Z) l (ids ids' : list Z) : ids ⊆ ids' -> refs fk l ids -> refs fk l ids'.
Proof. intros Hs Hl. eapply Forall_impl; [done|]. simpl. auto. Qed.

(** Deleting the referenced rows [gone] with their referencing rows *)
Lemma refs_cascade (fk : R -> Z) (gone : Z -> bool) l (ids ids' : list Z) :
  (forall i, i ∈ ids -> gone i = false -> i ∈ ids') -> refs fk l ids ->
  refs fk (List.filter (fun r => negb (gone (fk r))) l) ids'.
Proof.
  unfold refs. rewrite !Forall_forall. intros Hk Hl r [Hr Hg]%elem_of_List_filter.
  apply Hk; [by apply Hl|]. by destruct (gone (fk r)).
Qed.
End Constraints.

#[export] Hint Resolve keyed_insert keyed_update keyed_delete unique_update unique_delete
  refs_map refs_filter : tables.

(* ------------------------------------------------------------------ *)
(** ** Looking rows up *)

Lemma find_snoc {A} (p : A -> bool) (l : list A) x :
  (forall y, y ∈ l -> p y = false) -> p x = true -> List.find p (l ++ [x]) = Some x.
Proof.
  intros Hl Hx. induction l as [|a l IH]; simpl; [by rewrite Hx|].
  rewrite Hl by apply list_elem_of_here. apply IH. intros y Hy. apply Hl. by apply list_elem_of_further.
Qed.

Lemma t_find_insert {R} (p : R -> bool) mk (t : table R) :
  t_exists p t = false -> p (mk (next_id t)) = true ->
  t_find p (t_insert mk t) = Some (mk (next_id t)).
Proof. intros Hp Hx. apply find_snoc; [|done]. intros y. by apply t_exists_false. Qed.

Lemma t_find_update {R} (p q : R -> bool) g (t : table R) :
  (forall r, p (g r) = p r) ->
  t_find p (t_update q g t) = (fun r => if q r then g r else r) <$> t_find p t.
Proof.
  intros Hg. unfold t_find, t_update; simpl. induction (rows t) as [|r l IH]; simpl; [done|].
  assert (p (if q r then g r else r) = p r) as -> by (by destruct (q r)).
  by destruct (p r).
Qed.

Lemma t_find_none {R} (p : R -> bool) (t : table R) : t_find p t = None <-> t_exists p t = false.
Proof.
  unfold t_find, t_exists. induction (rows t) as [|r l IH]; simpl; [done|]. by destruct (p r).
Qed.

(** A SERIAL value that was never handed out is referenced by no row. *)
Lemma refs_fresh {R S} (fk : R -> Z) (l : list R) (id : S -> Z) (t : table S) r :
  keyed id t -> refs fk l (id <$> rows t) -> r ∈ l -> (fk r =? next_id t) = false.
Proof.
  intros [_ Hb] Hr Hin. unfold refs in Hr. rewrite Forall_forall in Hr.
  specialize (Hr r Hin). apply list_elem_of_fmap in Hr as (x & -> & Hx).
  rewrite Forall_forall in Hb. specialize (Hb x Hx). simpl in Hb. lia.
Qed.

(* ------------------------------------------------------------------ *)
(** ** The invariant *)

Definition sat_ids d : list Z := sat_id <$> rows (satellites d).
Definition grp_ids d : list Z := grp_id <$> rows (groups d).
Definition cfg_ids d : list Z := cfg_id <$> rows (configs d).
Definition usr_ids d : list Z := usr_id <$> rows (users d).

Record wf_satellites (t : table Satellite) : Prop := {
  wf_sat_id : keyed sat_id t;
  wf_sat_name : unique sat_name t }.

Record wf_groups (t : table Group) : Prop := {
  wf_grp_id : keyed grp_id t;
  wf_grp_name : unique grp_name t }.

Record wf_links (l : list SatelliteGroup) (sats grps : list Z) : Prop := {
  wf_sg_key : NoDup l;
  wf_sg_sat : refs sg_satellite_id l sats;
  wf_sg_grp : refs sg_group_id l grps }.

Record wf_robots (t : table RobotAccount) (sats : list Z) : Prop := {
  wf_rob_id : keyed rob_id t;
  wf_rob_name : unique rob_name t;
  wf_rob_robot_id : unique rob_robot_id t;
  wf_rob_sat : refs rob_satellite_id (rows t) sats }.

Record wf_tokens (t : table SatelliteToken) (sats : list Z) : Prop := {
  wf_tok_id : keyed tok_id t;
  wf_tok_token : unique tok_token t;
  wf_tok_sat : refs tok_satellite_id (rows t) sats }.

Record wf_configs (t : table Config) : Prop := {
  wf_cfg_id : keyed cfg_id t;
  wf_cfg_name : unique cfg_name t }.

Record wf_config_links (l : list SatelliteConfig) (sats cfgs : list Z) : Prop := {
  wf_sc_key : NoDup (sc_satellite_id <$> l);
  wf_sc_sat : refs sc_satellite_id l sats;
  wf_sc_cfg : refs sc_config_id l cfgs }.

Record wf_status (t : table SatelliteStatus) (sats : list Z) : Prop := {
  wf_st_id : keyed st_id t;
  wf_st_sat : refs st_satellite_id (rows t) sats }.

Record wf_artifacts (t : table Artifact) : Prop := {
  wf_art_id : keyed art_id t;
  wf_art_reference : unique art_reference t }.

Record wf_users (t : table User) : Prop := {
  wf_usr_id : keyed usr_id t;
  wf_usr_username : unique usr_username t;
  wf_usr_role : Forall (fun u => Sql.valid_role (usr_role u) = true) (rows t) }.

Record wf_sessions (t : table Session) (usrs : list Z) : Prop := {
  wf_ses_id : keyed ses_id t;
  wf_ses_token : unique ses_token t;
  wf_ses_user : refs ses_user_id (rows t) usrs }.

Record wf_login (t : table LoginAttempt) : Prop := {
  wf_la_id : keyed la_id t;
  wf_la_username : unique la_username t }.

Record wf (d : Db) : Prop := mk_wf {
  wf_1 : wf_satellites (satellites d);
  wf_2 : wf_groups (groups d);
  wf_3 : wf_links (satellite_groups d) (sat_ids d) (grp_ids d);
  wf_4 : wf_robots (robot_accounts d) (sat_ids d);
  wf_5 : wf_tokens (satellite_token d) (sat_ids d);
  wf_6 : wf_configs (configs d);
  wf_7 : wf_config_links (satellite_configs d) (sat_ids d) (cfg_ids d);
  wf_8 : wf_status (satellite_status d) (sat_ids d);
  wf_9 : wf_artifacts (artifacts d);
  wf_10 : wf_users (users d);
  wf_11 : wf_sessions (sessions d) (usr_ids d);
  wf_12 : wf_login (login_attempts d) }.

Lemma wf_empty : wf empty_db.
Proof. repeat split; repeat constructor. Qed.

(** The referencing tables survive a change of the referenced ids *)
Lemma wf_sats_grow d f :
  wf_satellites (f (satellites d)) -> sat_ids d ⊆ (sat_id <$> rows (f (satellites d))) ->
  wf d -> wf (on_satellites f d).
Proof.
  intros Hf Hs [H1 H2 [] [] [] H6 [] [] H9 H10 H11 H12].
  constructor; simpl; auto; constructor; eauto using refs_more.
Qed.

Lemma wf_grps_grow d f :
  wf_groups (f (groups d)) -> grp_ids d ⊆ (grp_id <$> rows (f (groups d))) ->
  wf d -> wf (on_groups f d).
Proof.
  intros Hf Hs [H1 H2 [] H4 H5 H6 H7 H8 H9 H10 H11 H12].
  constructor; simpl; auto; constructor; eauto using refs_more.
Qed.

Lemma wf_cfgs_grow d f :
  wf_configs (f (configs d)) -> cfg_ids d ⊆ (cfg_id <$> rows (f (configs d))) ->
  wf d -> wf (on_configs f d).
Proof.
  intros Hf Hs [H1 H2 H3 H4 H5 H6 [] H8 H9 H10 H11 H12].
  constructor; simpl; auto; constructor; eauto using refs_more.
Qed.

Lemma wf_usrs_grow d f :
  wf_users (f (users d)) -> usr_ids d ⊆ (usr_id <$> rows (f (users d))) ->
  wf d -> wf (on_users f d).
Proof.
  intros Hf Hs [H1 H2 H3 H4 H5 H6 H7 H8 H9 H10 [] H12].
  constructor; simpl; auto; constructor; eauto using refs_more.
Qed.

Lemma ids_insert {R} (id : R -> Z) mk (t : table R) :
  (id <$> rows t) ⊆ (id <$> rows (t_insert mk t)).
Proof. simpl. rewrite fmap_app. intros i Hi. apply elem_of_app. by left. Qed.

Lemma ids_update {R} (id : R -> Z) p g (t : table R) :
  (forall r, id (g r) = id r) -> (id <$> rows t) ⊆ (id <$> rows (t_update p g t)).
Proof. intros Hg. simpl. by rewrite fmap_if_same. Qed.

#[export] Hint Resolve ids_insert ids_update : tables.

(** Changing one table that nothing references *)
Ltac wf_one := intros Hf []; constructor; simpl; assumption.

Lemma wf_on_links d f :
  wf_links (f (satellite_groups d)) (sat_ids d) (grp_ids d) -> wf d -> wf (on_satellite_groups f d).
Proof. wf_one. Qed.
Lemma wf_on_robots d f :
  wf_robots (f (robot_accounts d)) (sat_ids d) -> wf d -> wf (on_robot_accounts f d).
Proof. wf_one. Qed.
Lemma wf_on_tokens d f :
  wf_tokens (f (satellite_token d)) (sat_ids d) -> wf d -> wf (on_satellite_token f d).
Proof. wf_one. Qed.
Lemma wf_on_config_links d f :
  wf_config_links (f (satellite_configs d)) (sat_ids d) (cfg_ids d) -> wf d ->
  wf (on_satellite_configs f d).
Proof. wf_one. Qed.
Lemma wf_on_status d f :
  wf_status (f (satellite_status d)) (sat_ids d) -> wf d -> wf (on_satellite_status f d).
Proof. wf_one. Qed.
Lemma wf_on_artifacts d f : wf_artifacts (f (artifacts d)) -> wf d -> wf (on_artifacts f d).
Proof. wf_one. Qed.
Lemma wf_on_sessions d f :
  wf_sessions (f (sessions d)) (usr_ids d) -> wf d -> wf (on_sessions f d).
Proof. wf_one. Qed.
Lemma wf_on_login d f : wf_login (f (login_attempts d)) -> wf d -> wf (on_login_attempts f d).
Proof. wf_one. Qed.

(** Reading *)

Lemma exec_read `{PgTypes} {R} (q : query R) now d :
  is_read q = true -> (exec_query now q d).1 = d.
Proof.
  assert (forall A (o : option A), (sql_one d o).1 = d) as H1 by (intros ? []; done).
  destruct q; intros E; try discriminate E; simpl; try reflexivity; try apply H1;
    unfold Sql.GetStaleSatellites, Sql.GetActiveSatellites, Sql.sql_where_query;
    case_match; reflexivity.
Qed.

(** A [:one] statement succeeds exactly with the row found. *)
Lemma sql_one_ok {A} d d' (o : option A) a : sql_one d o = (d', inr a) -> d' = d /\ o = Some a.
Proof. destruct o; simpl; unfold sql_ok, sql_err; by intros; simplify_eq. Qed.

(* ------------------------------------------------------------------ *)
(** ** Preservation *)

Lemma t_find_exists {R} p (t : table R) : t_exists p t = true -> is_Some (t_find p t).
Proof. intros (r & Hr & Hp)%t_exists_spec. by eapply find_is_Some. Qed.

Lemma wf_sql_one {A} d (o : option A) : wf d -> wf (sql_one d o).1.
Proof. by destruct o. Qed.

Section Preservation.
Context `{PgTypes}.
Variable now : Z.
Implicit Types d : Db.

(** Row-local updates and deletions of a single table *)
Ltac wf_fields Hd := destruct (Hd) as [[] [] [] [] [] [] [] [] [] [] [] []].
Ltac wf_table := constructor; simpl; eauto with tables.

Lemma wf_CreateSatellite n d : wf d -> wf (Sql.CreateSatellite now n d).1.
Proof.
  intros Hd. unfold Sql.CreateSatellite. destruct (t_exists _ _) eqn:E; [done|].
  apply wf_sql_one, wf_sats_grow; eauto with tables.
  wf_fields Hd. constructor; [eauto with tables|by eapply unique_insert].
Qed.

Lemma wf_delete_satellites p d : wf d -> wf (Sql.delete_satellites p d).
Proof.
  intros Hd. unfold Sql.delete_satellites.
  set (gone := fun id => existsb _ _).
  assert (forall i, i ∈ sat_ids d -> gone i = false ->
            i ∈ sat_id <$> List.filter (fun s => negb (p s)) (rows (satellites d))) as Hkeep.
  { intros i (s & -> & Hs)%list_elem_of_fmap Hg. apply list_elem_of_fmap_2, elem_of_List_filter.
    split; [done|]. destruct (p s) eqn:Hp; [|done].
    enough (gone (sat_id s) = true) by congruence.
    apply List.existsb_exists. exists s. rewrite Hp, Z.eqb_refl.
    split; [by apply list_elem_of_In|done]. }
  wf_fields Hd. constructor; constructor; simpl; eauto with tables; eauto using refs_cascade.
  - by apply NoDup_ListNoDup, List.NoDup_filter, NoDup_ListNoDup.
Qed.

Lemma wf_CreateGroup n u ps d : wf d -> wf (Sql.CreateGroup now n u ps d).1.
Proof.
  intros Hd. unfold Sql.CreateGroup. destruct (t_exists _ _) eqn:E; apply wf_sql_one, wf_grps_grow;
    eauto with tables; wf_fields Hd; constructor; eauto with tables; by eapply unique_insert.
Qed.

Lemma refs_removed (fk : SatelliteGroup -> Z) id (l : list SatelliteGroup) (ids ids' : list Z) :
  (forall i, i ∈ ids -> (i =? id) = false -> i ∈ ids') -> refs fk l ids ->
  refs fk (List.filter (fun r => negb (fk r =? id)) l) ids'.
Proof. intros. by apply (refs_cascade fk (fun i => i =? id) l ids). Qed.

Lemma kept_ids {R} (f : R -> Z) id (t : table R) i :
  i ∈ (f <$> rows t) -> (i =? id) = false -> i ∈ (f <$> rows (t_delete (fun r => f r =? id) t)).
Proof.
  intros (r & -> & Hr)%list_elem_of_fmap Hn. simpl.
  apply list_elem_of_fmap_2, elem_of_List_filter. by rewrite Hn.
Qed.

Hint Resolve NoDup_List_filter kept_ids : tables.

Lemma wf_DeleteGroup id d : wf d -> wf (Sql.DeleteGroup id d).1.
Proof.
  intros Hd. wf_fields Hd. constructor; simpl; try assumption; constructor; simpl; eauto with tables.
  apply (refs_cascade sg_group_id (fun i => i =? id) _ (grp_ids d)); [|done].
  intros i. apply kept_ids.
Qed.

Lemma wf_AddSatelliteToGroup sid gid d : wf d -> wf (Sql.AddSatelliteToGroup sid gid d).1.
Proof.
  intros Hd. unfold Sql.AddSatelliteToGroup. destruct (existsb _ _) eqn:E; [done|].
  destruct (_ && _) eqn:F; [|done]. apply andb_prop in F as [Fs Fg].
  apply t_exists_spec in Fs as (s & Hs & Es%Z.eqb_eq), Fg as (g & Hg & Eg%Z.eqb_eq).
  apply wf_on_links; [|done]. wf_fields Hd. constructor; simpl.
  - apply NoDup_snoc; [done|]. intros Hin.
    enough (existsb (Sql.same_link sid gid) (satellite_groups d) = true) by congruence.
    apply List.existsb_exists. exists (mkSatelliteGroup sid gid).
    split; [by apply list_elem_of_In|]. unfold Sql.same_link; simpl. by rewrite !Z.eqb_refl.
  - apply refs_snoc; [|done]. simpl. rewrite <- Es. by apply list_elem_of_fmap_2.
  - apply refs_snoc; [|done]. simpl. rewrite <- Eg. by apply list_elem_of_fmap_2.
Qed.

Lemma wf_RemoveSatelliteFromGroup sid gid d : wf d -> wf (Sql.RemoveSatelliteFromGroup sid gid d).1.
Proof. intros Hd. apply wf_on_links; [|done]. wf_fields Hd. wf_table. Qed.

(** An update that gives the one selected row the unused key [k] *)
Lemma unique_set {R} (f : R -> string) p (g : R -> R) k (t : table R) :
  (forall r, f (g r) = k) ->
  (forall r, r ∈ rows t -> p r = false -> f r <> k) ->
  (forall r r', r ∈ rows t -> r' ∈ rows t -> p r = true -> p r' = true -> r = r') ->
  unique f t -> unique f (t_update p g t).
Proof.
  unfold unique, t_update; simpl. intros Hg Hno Hone.
  induction (rows t) as [|a l IH]; simpl; [done|]. intros [Ha Hl]%NoDup_cons.
  assert (NoDup (f <$> ((fun r => if p r then g r else r) <$> l))) as Hl'.
  { apply IH; [| |done]; intros; [apply Hno|apply Hone]; try done; by right. }
  apply NoDup_cons. split; [|done].
  rewrite <- list_fmap_compose. intros (r & E & Hr)%list_elem_of_fmap. simpl in E.
  destruct (p a) eqn:Pa, (p r) eqn:Pr; rewrite ?Hg in E.
  - apply Ha. rewrite (Hone a r); [by apply list_elem_of_fmap_2|by left|by right|done|done].
  - apply (Hno r); [by right|done|done].
  - apply (Hno a); [by left|done|done].
  - apply Ha. rewrite E. by apply list_elem_of_fmap_2.
Qed.

Lemma eqb_key_inj {R} (f : R -> string) k (t : table R) r r' :
  unique f t -> r ∈ rows t -> r' ∈ rows t ->
  String.eqb (f r) k = true -> String.eqb (f r') k = true -> r = r'.
Proof.
  intros Hu Hr Hr' E%String.eqb_eq E'%String.eqb_eq.
  eapply NoDup_fmap_inj; [apply Hu|done|done|congruence].
Qed.

Lemma idb_key_inj {R} (f : R -> Z) k (t : table R) r r' :
  keyed f t -> r ∈ rows t -> r' ∈ rows t -> (f r =? k) = true -> (f r' =? k) = true -> r = r'.
Proof.
  intros [Hu _] Hr Hr' E%Z.eqb_eq E'%Z.eqb_eq.
  eapply NoDup_fmap_inj; [apply Hu|done|done|congruence].
Qed.

Lemma exists_id {R} (f : R -> Z) k (t : table R) :
  t_exists (fun r => f r =? k) t = true -> k ∈ f <$> rows t.
Proof. intros (r & Hr & <-%Z.eqb_eq)%t_exists_spec. by apply list_elem_of_fmap_2. Qed.

Lemma wf_AddRobotAccount n h rid sid e d : wf d -> wf (Sql.AddRobotAccount now n h rid sid e d).1.
Proof.
  intros Hd. unfold Sql.AddRobotAccount.
  destruct (t_exists (fun r => String.eqb (rob_name r) n && _) _) eqn:En; [done|].
  wf_fields Hd.
  assert (forall r, r ∈ rows (robot_accounts d) -> String.eqb (rob_robot_id r) rid = false ->
            rob_name r <> n) as Hno.
  { intros r Hr Hf E. pose proof (t_exists_false _ _ _ En Hr) as Hx. simpl in Hx.
    rewrite Hf in Hx. subst. by rewrite String.eqb_refl in Hx. }
  destruct (t_exists (fun r => String.eqb (rob_robot_id r) rid) (robot_accounts d)) eqn:Er;
    [|destruct (t_exists _ (satellites d)) eqn:Es; [|done]];
    apply wf_sql_one, wf_on_robots; try done; constructor;
    eauto with tables.
  - apply (unique_set _ _ _ n); [done|exact Hno| |done].
    intros r r' Hr Hr'. by apply (eqb_key_inj rob_robot_id rid (robot_accounts d)).
  - by apply refs_map.
  - unfold t_insert, unique; simpl. rewrite fmap_app. apply NoDup_snoc; [done|]. simpl.
    intros (r & E & Hr)%list_elem_of_fmap. apply (Hno r); [done| |done].
    exact (t_exists_false _ _ _ Er Hr).
  - by eapply unique_insert.
  - apply refs_snoc; [|done]. simpl. by apply exists_id.
Qed.

Lemma wf_DeleteRobotAccount id d : wf d -> wf (Sql.DeleteRobotAccount id d).1.
Proof. intros Hd. apply wf_on_robots; [|done]. wf_fields Hd. wf_table. Qed.

Lemma wf_UpdateRobotAccount id n h rid e d :
  wf d -> wf (Sql.UpdateRobotAccount now id n h rid e d).1.
Proof.
  intros Hd. unfold Sql.UpdateRobotAccount. destruct (negb _); [done|].
  destruct (t_exists (fun r => negb _ && _) _) eqn:En; [done|].
  apply wf_on_robots; [|done]. wf_fields Hd.
  assert (forall r, r ∈ rows (robot_accounts d) -> (rob_id r =? id) = false ->
            rob_name r <> n /\ rob_robot_id r <> rid) as Hno.
  { intros r Hr Hf. pose proof (t_exists_false _ _ _ En Hr) as Hx. simpl in Hx.
    rewrite Hf in Hx. simpl in Hx. apply orb_false_elim in Hx as [?%String.eqb_neq ?%String.eqb_neq].
    done. }
  constructor; eauto with tables.
  - apply (unique_set _ _ _ n); [done|intros r Hr Hf; by apply Hno| |done].
    intros r r' Hr Hr'. by apply (idb_key_inj rob_id id (robot_accounts d)).
  - apply (unique_set _ _ _ rid); [done|intros r Hr Hf; by apply Hno| |done].
    intros r r' Hr Hr'. by apply (idb_key_inj rob_id id (robot_accounts d)).
  - by apply refs_map.
Qed.

Lemma wf_AddToken sid tk e d : wf d -> wf (Sql.AddToken now sid tk e d).1.
Proof.
  intros Hd. unfold Sql.AddToken. destruct (t_exists _ (satellite_token d)) eqn:Et; [done|].
  destruct (t_exists _ (satellites d)) eqn:Es; [|done]. simpl.
  apply wf_on_tokens; [|done]. wf_fields Hd. constructor; eauto with tables.
  - by eapply unique_insert.
  - apply refs_snoc; [|done]. by apply exists_id.
Qed.

Lemma wf_delete_tokens p d : wf d -> wf (on_satellite_token (t_delete p) d).
Proof. intros Hd. apply wf_on_tokens; [|done]. wf_fields Hd. wf_table. Qed.

Lemma wf_CreateConfig n u c d : wf d -> wf (Sql.CreateConfig now n u c d).1.
Proof.
  intros Hd. unfold Sql.CreateConfig. destruct (pg_jsonb c) as [stored|]; [|done].
  destruct (t_exists _ _) eqn:E; [done|].
  apply wf_sql_one, wf_cfgs_grow; eauto with tables.
  wf_fields Hd. constructor; [eauto with tables|by eapply unique_insert].
Qed.

Lemma wf_UpdateConfig n u c d : wf d -> wf (Sql.UpdateConfig now n u c d).1.
Proof.
  intros Hd. unfold Sql.UpdateConfig. destruct (pg_jsonb c) as [stored|]; [|done]. apply wf_sql_one, wf_cfgs_grow; eauto with tables.
  wf_fields Hd. constructor; eauto with tables.
Qed.

Lemma wf_DeleteConfig id d : wf d -> wf (Sql.DeleteConfig id d).1.
Proof.
  intros Hd. wf_fields Hd. constructor; simpl; try assumption; constructor; simpl; eauto with tables.
  apply (refs_cascade sc_config_id (fun i => i =? id) _ (cfg_ids d)); [|done].
  intros i. apply kept_ids.
Qed.

Lemma wf_SetSatelliteConfig sid cid d : wf d -> wf (Sql.SetSatelliteConfig sid cid d).1.
Proof.
  intros Hd. unfold Sql.SetSatelliteConfig. destruct (_ && _) eqn:F; [|done]. simpl.
  apply andb_prop in F as [Fs%exists_id Fc%exists_id].
  destruct (existsb _ _) eqn:E; (apply wf_on_config_links; [|done]); wf_fields Hd; constructor; simpl.
  - rewrite <- list_fmap_compose. erewrite list_fmap_ext; [done|]. intros i r _. simpl.
    destruct (Z.eqb_spec (sc_satellite_id r) sid); by simplify_eq.
  - apply Forall_fmap, (Forall_impl _ _ _ wf_sc_sat0). intros r Hr. simpl. by case_match.
  - apply Forall_fmap, (Forall_impl _ _ _ wf_sc_cfg0). intros r Hr. simpl. by case_match.
  - rewrite fmap_app. apply NoDup_snoc; [done|]. simpl.
    intros (r & Er & Hr)%list_elem_of_fmap. subst sid.
    enough (existsb (fun r0 => sc_satellite_id r0 =? sc_satellite_id r) (satellite_configs d) = true)
      by congruence.
    apply List.existsb_exists. exists r. split; [by apply list_elem_of_In|apply Z.eqb_refl].
  - by apply refs_snoc.
  - by apply refs_snoc.
Qed.

Lemma wf_RemoveSatelliteFromConfig sid cid d : wf d -> wf (Sql.RemoveSatelliteFromConfig sid cid d).1.
Proof. intros Hd. apply wf_on_config_links; [|done]. wf_fields Hd. wf_table. Qed.

Lemma wf_InsertSatelliteStatus p d : wf d -> wf (Sql.InsertSatelliteStatus now p d).1.
Proof.
  intros Hd. unfold Sql.InsertSatelliteStatus.
  destruct (t_exists _ (satellites d)) eqn:Es; [|done]. simpl.
  apply wf_sql_one, wf_on_status; [|done]. wf_fields Hd. constructor; eauto with tables.
  apply refs_snoc; [|done]. by apply exists_id.
Qed.

Lemma wf_UpdateSatelliteLastSeen id i d : wf d -> wf (Sql.UpdateSatelliteLastSeen now id i d).1.
Proof.
  intros Hd. apply wf_sats_grow; eauto with tables. wf_fields Hd. constructor; eauto with tables.
Qed.

Lemma wf_delete_status p d : wf d -> wf (on_satellite_status (t_delete p) d).
Proof. intros Hd. apply wf_on_status; [|done]. wf_fields Hd. wf_table. Qed.

Lemma wf_insert_artifacts l t : wf_artifacts t -> wf_artifacts (foldl (Sql.insert_artifact now) t l).
Proof.
  revert t. induction l as [|[r z] l IH]; intros t [Hi Hr]; [done|]. simpl. apply IH.
  unfold Sql.insert_artifact. destruct (t_exists _ _) eqn:E; [done|].
  constructor; [eauto with tables|by eapply unique_insert].
Qed.

Lemma wf_BatchInsertArtifacts rs zs d : wf d -> wf (Sql.BatchInsertArtifacts now rs zs d).1.
Proof.
  intros Hd. unfold Sql.BatchInsertArtifacts. destruct (negb _); [done|].
  apply wf_on_artifacts; [|done]. apply wf_insert_artifacts, Hd.
Qed.

Lemma wf_delete_artifacts p d : wf d -> wf (on_artifacts (t_delete p) d).
Proof. intros Hd. apply wf_on_artifacts; [|done]. wf_fields Hd. wf_table. Qed.

Lemma wf_CreateUser u h r d : wf d -> wf (Sql.CreateUser now u h r d).1.
Proof.
  intros Hd. unfold Sql.CreateUser. destruct (Sql.valid_role r) eqn:Er; [|done]. simpl.
  destruct (t_exists _ _) eqn:E; [done|].
  apply wf_sql_one, wf_usrs_grow; eauto with tables.
  wf_fields Hd. constructor; [eauto with tables|by eapply unique_insert|].
  apply Forall_app. by repeat constructor.
Qed.

Lemma wf_DeleteUser u d : wf d -> wf (Sql.DeleteUser u d).1.
Proof.
  intros Hd. unfold Sql.DeleteUser. cbv zeta.
  set (p := fun x => _ && _).
  pose (gone := fun id : Z => existsb (fun x => p x && (usr_id x =? id)) (rows (users d))).
  assert (forall i, i ∈ usr_ids d -> gone i = false ->
            i ∈ usr_id <$> List.filter (fun s => negb (p s)) (rows (users d))) as Hkeep.
  { intros i (s & -> & Hs)%list_elem_of_fmap Hg. apply list_elem_of_fmap_2, elem_of_List_filter.
    split; [done|]. destruct (p s) eqn:Hp; [|done].
    enough (gone (usr_id s) = true) by congruence.
    apply List.existsb_exists. exists s. rewrite Hp, Z.eqb_refl.
    split; [by apply list_elem_of_In|done]. }
  wf_fields Hd. constructor; simpl; try assumption; constructor; simpl; eauto with tables.
  by apply (refs_cascade ses_user_id gone _ (usr_ids d)).
Qed.

Lemma wf_UpdateUserPassword u h d : wf d -> wf (Sql.UpdateUserPassword now u h d).1.
Proof.
  intros Hd. apply wf_usrs_grow; eauto with tables. wf_fields Hd. constructor; eauto with tables.
  apply Forall_fmap, (Forall_impl _ _ _ wf_usr_role0). intros r Hr. simpl. by case_match.
Qed.

Lemma wf_CreateSession uid tk e d : wf d -> wf (Sql.CreateSession now uid tk e d).1.
Proof.
  intros Hd. unfold Sql.CreateSession. destruct (t_exists _ (sessions d)) eqn:Et; [done|].
  destruct (t_exists _ (users d)) eqn:Es; [|done]. simpl.
  apply wf_sql_one, wf_on_sessions; [|done]. wf_fields Hd. constructor; eauto with tables.
  - by eapply unique_insert.
  - apply refs_snoc; [|done]. by apply exists_id.
Qed.

Lemma wf_delete_sessions p d : wf d -> wf (on_sessions (t_delete p) d).
Proof. intros Hd. apply wf_on_sessions; [|done]. wf_fields Hd. wf_table. Qed.

Lemma wf_UpsertLoginAttempt u d : wf d -> wf (Sql.UpsertLoginAttempt now u d).1.
Proof.
  intros Hd. unfold Sql.UpsertLoginAttempt. destruct (t_exists _ _) eqn:E;
    apply wf_sql_one, wf_on_login; try done; wf_fields Hd; constructor; eauto with tables.
  by eapply unique_insert.
Qed.

Lemma wf_update_login p g d :
  (forall a, la_id (g a) = la_id a) -> (forall a, la_username (g a) = la_username a) ->
  wf d -> wf (on_login_attempts (t_update p g) d).
Proof. intros ?? Hd. apply wf_on_login; [|done]. wf_fields Hd. constructor; eauto with tables. Qed.

Create HintDb wfdb.
Hint Resolve wf_CreateSatellite wf_delete_satellites wf_CreateGroup wf_DeleteGroup
  wf_AddSatelliteToGroup wf_RemoveSatelliteFromGroup wf_AddRobotAccount wf_DeleteRobotAccount
  wf_UpdateRobotAccount wf_AddToken wf_delete_tokens wf_CreateConfig wf_UpdateConfig
  wf_DeleteConfig wf_SetSatelliteConfig wf_RemoveSatelliteFromConfig wf_InsertSatelliteStatus
  wf_UpdateSatelliteLastSeen wf_delete_status wf_BatchInsertArtifacts wf_delete_artifacts
  wf_CreateUser wf_DeleteUser wf_UpdateUserPassword wf_CreateSession wf_delete_sessions
  wf_UpsertLoginAttempt wf_update_login : wfdb.

(** Every statement of the program keeps the schema's constraints. *)
Lemma exec_query_wf {R} (q : query R) d : wf d -> wf (exec_query now q d).1.
Proof.
  intros Hd. destruct (is_read q) eqn:E; [by rewrite exec_read|].
  destruct q; try discriminate E; cbn [exec_query];
    solve [auto with wfdb | simpl; auto with wfdb].
Qed.
End Preservation.

(* ------------------------------------------------------------------ *)
(** ** What the constraints give *)

(** C38. Every SQL statement of Ground Control, run on a database that satisfies
    the schema's PRIMARY KEY, UNIQUE, FOREIGN KEY and CHECK constraints,
    leaves a database that satisfies them, whether it succeeds or fails. *)
Theorem statements_keep_integrity `{PgTypes} {R} (q : query R) (now : Z) (d : Db) :
  wf d -> wf (exec_query now q d).1.
Proof. apply exec_query_wf. Qed.

Definition no_interval : PgTypes := {| pg_interval _ := None; pg_jsonb := Some |}.

Lemma statements_keep_integrity_witness :
  wf (exec_query (H := no_interval) 0 (QCreateSatellite "edge-01") empty_db).1.
Proof. apply (statements_keep_integrity (H := no_interval)). exact wf_empty. Defined.
