(* ===== verification/Duration.v ===== *)
(** * Durations

    [time.ParseDuration] of Go's standard library, digit by digit with its
    uint64 overflow checks and its float64 arithmetic on fractions (through
    the Standard Library's SpecFloat), and normalizeHeartbeatInterval of
    internal/groundcontrol/server/helpers.go, which is built on it. *)

From S2P Require Import Prelude Db.
From Stdlib Require Import Ascii SpecFloat DecimalString DecimalPos.

#[local] Open Scope Z_scope.
#[local] Open Scope string_scope.

(* ------------------------------------------------------------------ *)
(** ** time.ParseDuration *)

Module time.

Definition two63 : Z := 2 ^ 63.

Definition digit_value (a : ascii) : Z := Z.of_nat (nat_of_ascii a) - 48.

(** leadingInt: the value and the rest; [None] on overflow *)
Fixpoint leadingInt (x : Z) (s : string) : option (Z * string) :=
  match s with
  | String a s' =>
      if Go.is_digit_ascii a then
        if (two63 / 10 <? x)%Z then None
        else let x := (x * 10 + digit_value a)%Z in
             if (two63 <? x)%Z then None else leadingInt x s'
      else Some (x, s)
  | "" => Some (x, "")
  end.

(** leadingFraction: digits beyond the precision are read and dropped.  The
    float64 [scale] is a power of ten up to 10^19, kept as an integer. *)
Fixpoint leadingFraction (x scale : Z) (overflow : bool) (s : string) : Z * Z * string :=
  match s with
  | String a s' =>
      if Go.is_digit_ascii a then
        if overflow then leadingFraction x scale true s'
        else if ((two63 - 1) / 10 <? x)%Z then leadingFraction x scale true s'
        else let y := (x * 10 + digit_value a)%Z in
             if (two63 <? y)%Z then leadingFraction x scale true s'
             else leadingFraction y (scale * 10)%Z false s'
      else (x, scale, s)
  | "" => (x, scale, "")
  end.

(** float64: IEEE binary64, rounding to nearest even *)
Definition f64_of_Z (z : Z) : spec_float := binary_normalize 53 1024 z 0 false.
Definition f64_div (a b : spec_float) : spec_float := SFdiv 53 1024 a b.
Definition f64_mul (a b : spec_float) : spec_float := SFmul 53 1024 a b.

(** uint64(_) of a non-negative float64: truncation *)
Definition f64_trunc (f : spec_float) : Z :=
  match f with
  | S754_finite false m e => Z.shiftl (Zpos m) e
  | _ => 0
  end.

(** uint64(float64(f) * (float64(unit) / scale)) *)
Definition fraction_value (f unit scale : Z) : Z :=
  f64_trunc (f64_mul (f64_of_Z f) (f64_div (f64_of_Z unit) (f64_of_Z scale))).

Definition micro_sign : string := String (ascii_of_nat 194) (String (ascii_of_nat 181) "s").
Definition greek_mu : string := String (ascii_of_nat 206) (String (ascii_of_nat 188) "s").

Definition unitMap (u : string) : option Z :=
  if String.eqb u "ns" then Some 1
  else if String.eqb u "us" || String.eqb u micro_sign || String.eqb u greek_mu then Some 1000
  else if String.eqb u "ms" then Some 1000000
  else if String.eqb u "s" then Some second
  else if String.eqb u "m" then Some minute
  else if String.eqb u "h" then Some hour
  else None.

(** The bytes up to the next '.' or digit *)
Fixpoint take_unit (s : string) : string * string :=
  match s with
  | String a s' =>
      if Ascii.eqb a "." || Go.is_digit_ascii a then ("", s)
      else let '(u, r) := take_unit s' in (String a u, r)
  | "" => ("", "")
  end.

(** One iteration of the loop: number, fraction, unit *)
Definition component (s : string) : option (Z * string) :=
  match s with
  | "" => None
  | String c _ =>
      if negb (Ascii.eqb c "." || Go.is_digit_ascii c) then None
      else match leadingInt 0 s with
      | None => None
      | Some (v, s1) =>
          let pre := negb (String.length s =? String.length s1)%nat in
          let '(f, scale, post, s2) :=
            match s1 with
            | String "." s1' =>
                let '(f, scale, s2) := leadingFraction 0 1 false s1' in
                (f, scale, negb (String.length s1' =? String.length s2)%nat, s2)
            | _ => (0%Z, 1%Z, false, s1)
            end in
          if negb pre && negb post then None
          else let '(u, s3) := take_unit s2 in
          if String.eqb u "" then None
          else match unitMap u with
          | None => None
          | Some unit =>
              if (two63 / unit <? v)%Z then None
              else let v := (v * unit)%Z in
              if (0 <? f)%Z then
                let v := (v + fraction_value f unit scale)%Z in
                if (two63 <? v)%Z then None else Some (v, s3)
              else Some (v, s3)
          end
      end
  end.

(** The loop; every iteration consumes at least one byte, so the length of
    the text is enough fuel. *)
Fixpoint components (fuel : nat) (d : Z) (s : string) : option Z :=
  match s with
  | "" => Some d
  | _ =>
      match fuel with
      | O => None
      | S fuel' =>
          match component s with
          | None => None
          | Some (v, s') =>
              let d := ((d + v) mod 2 ^ 64)%Z in      (* uint64 *)
              if (two63 <? d)%Z then None else components fuel' d s'
          end
      end
  end.

(** Nanoseconds; [None] for an error *)
Definition ParseDuration (s : string) : option Z :=
  let '(neg, s) :=
    match s with
    | String "-" s' => (true, s')
    | String "+" s' => (false, s')
    | _ => (false, s)
    end in
  if String.eqb s "0" then Some 0%Z
  else if String.eqb s "" then None
  else match components (String.length s) 0 s with
  | None => None
  | Some d =>
      if neg : bool then Some (- d)%Z
      else if (two63 - 1 <? d)%Z then None else Some d
  end.

End time.

(* ------------------------------------------------------------------ *)
(** ** helpers.go: normalizeHeartbeatInterval *)

(** fmt's %02d for a non-negative number *)
Definition two_digits (z : Z) : string := if (z <? 10)%Z then "0" +:+ Go.itoa z else Go.itoa z.

(** "%02dh%02dm%02ds".  The code goes through the float64 values
    duration.Hours(), Minutes() and Seconds(); for a whole number of seconds
    they are within 2^-20 below an exact quotient at worst, so their integer
    parts are the integer quotients. *)
Definition format_interval (duration : Z) : string :=
  let hours := (duration / hour)%Z in
  let minutes := (duration / minute mod 60)%Z in
  let seconds := (duration / second mod 60)%Z in
  "@every " +:+ two_digits hours +:+ "h" +:+ two_digits minutes +:+ "m" +:+ two_digits seconds +:+ "s".

Definition normalizeHeartbeatInterval (interval : string) : result string :=
  if String.eqb interval "" then inr ""
  else if negb (Go.has_prefix "@every " interval)
  then inl (PlainErr "invalid heartbeat interval format")
  else match time.ParseDuration (Go.trim_prefix "@every " interval) with
  | None => inl (PlainErr "invalid heartbeat interval duration")
  | Some duration =>
      if (duration <=? 0)%Z then inl (PlainErr "heartbeat interval must be positive")
      else if (duration <? second)%Z
      then inl (PlainErr "heartbeat interval must be at least 1 second")
      else if negb (duration mod second =? 0)%Z
      then inl (PlainErr "heartbeat interval must be a whole number of seconds")
      else inr (format_interval duration)
  end.

Example normalize_1 : normalizeHeartbeatInterval "@every 90s" = inr "@every 00h01m30s".
Proof. reflexivity. Qed.
Example normalize_2 : normalizeHeartbeatInterval "@every 1.5h" = inr "@every 01h30m00s".
Proof. reflexivity. Qed.
Example normalize_3 : normalizeHeartbeatInterval "@every 1500ms" =
  inl (PlainErr "heartbeat interval must be a whole number of seconds").
Proof. reflexivity. Qed.

(* ------------------------------------------------------------------ *)
(** ** Reading back a formatted interval *)

Section Digits.
Import time.

Definition no_digit (s : string) : Prop :=
  match s with String a _ => Go.is_digit_ascii a = false | "" => True end.

Lemma of_uint_acc_ge d p : (Zpos p <= Zpos (Pos.of_uint_acc d p))%Z.
Proof.
  revert p. induction d as [|d IH|d IH|d IH|d IH|d IH|d IH|d IH|d IH|d IH|d IH]; intros p;
    cbn [Pos.of_uint_acc]; [lia|..]; (etransitivity; [|apply IH]); lia.
Qed.

Lemma leadingInt_stop x s : no_digit s -> leadingInt x s = Some (x, s).
Proof. destruct s as [|a s]; [done|]. simpl. by intros ->. Qed.

(** One digit: no overflow as long as the final value fits. *)
Lemma leadingInt_digit x a s v :
  Go.is_digit_ascii a = true -> (x * 10 + digit_value a <= v)%Z -> (v <= two63)%Z ->
  leadingInt x (String a s) = leadingInt (x * 10 + digit_value a) s.
Proof.
  intros Ha Hx Hv. cbn [leadingInt]. rewrite Ha.
  assert (0 <= digit_value a)%Z.
  { unfold digit_value, Go.is_digit_ascii, Go.between in *. apply andb_prop in Ha as [H1 H2].
    apply Nat.leb_le in H1. lia. }
  destruct (Z.ltb_spec (two63 / 10) x) as [Hl|_].
  { unfold two63 in *. div_lia. }
  destruct (Z.ltb_spec two63 (x * 10 + digit_value a)); [lia|done].
Qed.

Lemma leadingInt_uint_acc d p rest :
  no_digit rest -> (Zpos (Pos.of_uint_acc d p) <= two63)%Z ->
  leadingInt (Zpos p) (NilEmpty.string_of_uint d +:+ rest) =
  Some (Zpos (Pos.of_uint_acc d p), rest).
Proof.
  intros Hrest. revert p. induction d as [|d IH|d IH|d IH|d IH|d IH|d IH|d IH|d IH|d IH|d IH];
    intros p Hp; cbn [Pos.of_uint_acc NilEmpty.string_of_uint] in *; [by apply leadingInt_stop|..];
    match goal with |- leadingInt _ (String ?a ?s +:+ rest) = Some (Zpos (Pos.of_uint_acc d ?q), _) =>
      change (String a s +:+ rest) with (String a (s +:+ rest));
      rewrite (leadingInt_digit _ a _ (Zpos (Pos.of_uint_acc d q)));
        [ | done | etransitivity; [|apply of_uint_acc_ge] | done ];
        (let v := eval vm_compute in (digit_value a) in change (digit_value a) with v);
        [ replace (Zpos p * 10 + _)%Z with (Zpos q) by lia; by apply IH | lia ]
    end.
Qed.

Lemma leadingInt_uint d rest :
  no_digit rest -> (Z.of_N (Pos.of_uint d) <= two63)%Z ->
  leadingInt 0 (NilEmpty.string_of_uint d +:+ rest) = Some (Z.of_N (Pos.of_uint d), rest).
Proof.
  intros Hrest. induction d as [|d IH|d _|d _|d _|d _|d _|d _|d _|d _|d _];
    cbn [Pos.of_uint NilEmpty.string_of_uint]; intros Hd; [by apply leadingInt_stop|..];
    match goal with |- leadingInt _ (String ?a ?s +:+ rest) = _ =>
      change (String a s +:+ rest) with (String a (s +:+ rest)) end.
  - by apply IH.
  - by apply leadingInt_uint_acc.
  - by apply leadingInt_uint_acc.
  - by apply leadingInt_uint_acc.
  - by apply leadingInt_uint_acc.
  - by apply leadingInt_uint_acc.
  - by apply leadingInt_uint_acc.
  - by apply leadingInt_uint_acc.
  - by apply leadingInt_uint_acc.
  - by apply leadingInt_uint_acc.
Qed.

Lemma itoa_uint z : (0 <= z)%Z ->
  exists d, Go.itoa z = NilEmpty.string_of_uint d /\ Z.of_N (Pos.of_uint d) = z /\ d <> Decimal.Nil.
Proof.
  intros Hz. destruct z as [|p|p]; [| |lia].
  - by exists (Decimal.D0 Decimal.Nil).
  - exists (Pos.to_uint p). unfold Go.itoa. cbn [Z.to_int NilZero.string_of_int].
    pose proof (Unsigned.to_uint_nonnil p) as Hn. rewrite Unsigned.of_to.
    split_and!; [|done|done]. unfold NilZero.string_of_uint. by destruct (Pos.to_uint p).
Qed.

Lemma leadingInt_two_digits z rest :
  (0 <= z <= two63)%Z -> no_digit rest ->
  leadingInt 0 (two_digits z +:+ rest) = Some (z, rest).
Proof.
  intros Hz Hrest. destruct (itoa_uint z) as (d & E & Hd & _); [lia|].
  assert (leadingInt 0 (Go.itoa z +:+ rest) = Some (z, rest)) as Hi.
  { rewrite E, leadingInt_uint by (rewrite ?Hd; done || lia). by rewrite Hd. }
  unfold two_digits. destruct (z <? 10)%Z; [|done]. exact Hi.
Qed.

(** The first character is a digit. *)
Lemma two_digits_head z : (0 <= z)%Z ->
  exists a s, two_digits z = String a s /\ Go.is_digit_ascii a = true.
Proof.
  intros Hz. unfold two_digits. destruct (itoa_uint z Hz) as (d & -> & _ & Hd).
  destruct (z <? 10)%Z; [by exists "0"%char, (NilEmpty.string_of_uint d)|].
  destruct d; [done|..]; by eexists _, _.
Qed.

(** A number and a one-letter unit, followed by the next number or the end *)
Lemma component_two_digits z u unit rest :
  (0 <= z <= two63)%Z -> Go.is_digit_ascii u = false -> Ascii.eqb u "." = false ->
  unitMap (String u "") = Some unit -> (z <= two63 / unit)%Z ->
  (rest = "" \/ exists a s, rest = String a s /\ Go.is_digit_ascii a = true) ->
  component (two_digits z +:+ String u rest) = Some (z * unit, rest)%Z.
Proof.
  intros Hz Hu Hdot Hunit Hle Hrest.
  pose proof (leadingInt_two_digits z (String u rest) Hz Hu) as Hl.
  destruct (two_digits_head z) as (a & s & E & Ha); [lia|]. rewrite E in *.
  change (String a s +:+ String u rest) with (String a (s +:+ String u rest)) in *.
  unfold component. rewrite Ha, orb_true_r, Hl. cbn [negb].
  assert (negb (String.length (String a (s +:+ String u rest)) =? String.length (String u rest))%nat
          = true) as ->.
  { apply negb_true_iff, Nat.eqb_neq. cbn [String.length].
    enough (String.length (s +:+ String u rest) = String.length s + S (String.length rest))%nat by lia.
    clear. induction s as [|b s IH]; [done|].
    change (String b s +:+ String u rest) with (String b (s +:+ String u rest)).
    cbn [String.length]. by rewrite IH. }
  assert (forall (x y : Z * Z * bool * string),
    match String u rest with
    | String "." s1' => x
    | _ => y
    end = y) as Hm.
  { intros x y. destruct u as [[] [] [] [] [] [] [] []]; try reflexivity. discriminate Hdot. }
  assert (take_unit (String u rest) = (String u "", rest)) as Htake.
  { cbn [take_unit]. rewrite Hdot, Hu. cbn [orb].
    destruct Hrest as [->|(b & t & -> & Hb)]; [done|]. cbn [take_unit]. by rewrite Hb, orb_true_r. }
  destruct u as [[] [] [] [] [] [] [] []]; try discriminate Hdot;
    cbn [negb andb]; rewrite Htake; cbn [String.eqb]; rewrite Hunit;
    (destruct (Z.ltb_spec (two63 / unit) z); [lia|]); done.
Qed.

Lemma components_step fuel d s v s' :
  component s = Some (v, s') -> (0 <= d + v <= two63)%Z ->
  components (S fuel) d s = components fuel (d + v) s'.
Proof.
  intros Hc Hd. destruct s as [|a s]; [done|]. cbn [components]. rewrite Hc.
  rewrite Z.mod_small by (unfold two63 in *; lia).
  destruct (Z.ltb_spec two63 (d + v)); [lia|done].
Qed.

Lemma parse_hms h m s :
  (0 <= h)%Z -> (0 <= m < 60)%Z -> (0 <= s < 60)%Z ->
  (h * hour + m * minute + s * second <= Go.int64_max)%Z ->
  ParseDuration (two_digits h +:+ "h" +:+ two_digits m +:+ "m" +:+ two_digits s +:+ "s") =
  Some (h * hour + m * minute + s * second)%Z.
Proof.
  intros Hh Hm Hs Hmax. unfold Go.int64_max, hour, minute, second in *.
  destruct (two_digits_head h Hh) as (a & t & Ea & Ha).
  destruct (two_digits_head m) as (b & u & Eb & Hb); [lia|].
  destruct (two_digits_head s) as (c & v & Ec & Hc); [lia|].
  set (rest2 := two_digits s +:+ String "s" "").
  set (rest1 := two_digits m +:+ String "m" rest2).
  match goal with |- _ = ?r => change (ParseDuration (two_digits h +:+ String "h" rest1) = r) end.
  assert (component (two_digits h +:+ String "h" rest1) = Some (h * 3600000000000, rest1)%Z) as C1.
  { apply component_two_digits; try done; unfold two63; [lia|div_lia|].
    right. exists b, (u +:+ String "m" rest2). unfold rest1. by rewrite Eb. }
  assert (component rest1 = Some (m * 60000000000, rest2)%Z) as C2.
  { apply component_two_digits; try done; unfold two63; [lia|div_lia|].
    right. exists c, (v +:+ String "s" ""). unfold rest2. by rewrite Ec. }
  assert (component rest2 = Some (s * 1000000000, "")%Z) as C3.
  { apply component_two_digits; try done; unfold two63; [lia|div_lia|by left]. }
  set (text := two_digits h +:+ String "h" rest1) in *.
  assert (exists n, String.length text = S (S (S n))) as [n Hn].
  { exists (String.length text - 3)%nat. unfold text, rest1, rest2.
    repeat (rewrite length_append; cbn [String.length]). lia. }
  assert (components (String.length text) 0 text =
          Some (h * 3600000000000 + m * 60000000000 + s * 1000000000)%Z) as Hc3.
  { rewrite Hn, (components_step _ _ _ _ _ C1) by (unfold two63; lia).
    rewrite (components_step _ _ _ _ _ C2) by (unfold two63; lia).
    rewrite (components_step _ _ _ _ _ C3) by (unfold two63; lia).
    destruct n; cbn [components]; f_equal; lia. }
  assert (exists r, text = String a r) as [r Er].
  { exists (t +:+ String "h" rest1). unfold text. by rewrite Ea. }
  assert (text <> "0") as Hne0.
  { intros E. rewrite E in Hn. discriminate Hn. }
  clearbody text. clear C1 C2 C3. subst text. unfold ParseDuration.
  destruct a as [[] [] [] [] [] [] [] []]; try discriminate Ha;
    cbv beta iota zeta;   (rewrite (proj2 (String.eqb_neq _ "0")) by exact Hne0);
    (rewrite (proj2 (String.eqb_neq _ "")) by done); rewrite Hc3;
    (destruct (Z.ltb_spec (two63 - 1) (h * 3600000000000 + m * 60000000000 + s * 1000000000));
      [unfold two63 in *; lia|]);
    f_equal; lia.
Qed.

(** A positive whole number of seconds survives formatting and parsing. *)
Lemma parse_format_interval d :
  (0 < d <= Go.int64_max)%Z -> (d mod second = 0)%Z ->
  ParseDuration (Go.trim_prefix "@every " (format_interval d)) = Some d.
Proof.
  intros Hd Hs. unfold format_interval.
  rewrite trim_prefix_app. unfold hour, minute, second in *.
  rewrite parse_hms; unfold hour, minute, second; [f_equal|..]; unfold Go.int64_max in *; div_lia.
Qed.

Lemma components_nonneg fuel d s d' :
  (0 <= d)%Z -> components fuel d s = Some d' -> (0 <= d')%Z.
Proof.
  revert d s. induction fuel as [|fuel IH]; intros d s Hd H;
    (destruct s as [|a s]; [simpl in H; congruence|]); cbn [components] in H; [done|].
  destruct (component _) as [[v s']|]; [|done].
  destruct (two63 <? (d + v) mod 2 ^ 64)%Z; [done|]. eapply IH; [|done].
  apply Z.mod_pos_bound. lia.
Qed.

Lemma ParseDuration_max s d : ParseDuration s = Some d -> (d <= Go.int64_max)%Z.
Proof.
  unfold ParseDuration. intros H.
  destruct (match s with String "-" s' => _ | String "+" s' => _ | _ => _ end) as [neg s1].
  destruct (String.eqb s1 "0"); [simplify_eq; by vm_compute|].
  destruct (String.eqb s1 ""); [done|].
  destruct (components _ 0 s1) as [d'|] eqn:E; [|done].
  destruct neg; simplify_eq.
  - pose proof (components_nonneg _ 0 s1 d' ltac:(lia) E). unfold Go.int64_max. lia.
  - destruct (Z.ltb_spec (two63 - 1) d'); simplify_eq. unfold two63, Go.int64_max in *. lia.
Qed.

End Digits.



(** A heartbeat interval that the server accepts is stored in one
    canonical form: empty input stays empty; otherwise the stored text is
    @every HHhMMmSSs for a positive whole number of seconds, it denotes the
    same duration as the reported text, and normalising it again changes
    nothing (so repeated reports do not make the column drift). *)
Theorem heartbeat_interval_canonical s s' :
  normalizeHeartbeatInterval s = inr s' ->
  normalizeHeartbeatInterval s' = inr s' /\
  (s = "" /\ s' = "" \/
   exists d, (second <= d <= Go.int64_max)%Z /\ (d mod second = 0)%Z /\
     s' = format_interval d /\
     time.ParseDuration (Go.trim_prefix "@every " s) = Some d /\
     time.ParseDuration (Go.trim_prefix "@every " s') = Some d).
Proof.
  unfold normalizeHeartbeatInterval at 1. destruct (String.eqb_spec s "") as [->|Hne].
  { intros [= <-]. split; [done|by left]. }
  destruct (Go.has_prefix "@every " s); [|done]. simpl negb. cbv iota.
  destruct (time.ParseDuration _) as [d|] eqn:E; [|done].
  destruct (Z.leb_spec d 0); [done|]. destruct (Z.ltb_spec d second); [done|].
  destruct (Z.eqb_spec (d mod second) 0) as [Hmod|]; [|done]. intros [= <-].
  assert (d <= Go.int64_max)%Z as Hmax by (by eapply ParseDuration_max).
  pose proof (parse_format_interval d ltac:(lia) Hmod) as Hp.
  split; [|right; exists d; split_and!; done || lia].
  unfold normalizeHeartbeatInterval. rewrite Hp.
  change (String.eqb (format_interval d) "") with false.
  change (Go.has_prefix "@every " (format_interval d)) with
    (Go.has_prefix "@every " ("@every " +:+ Go.drop_bytes 7 (format_interval d))).
  rewrite has_prefix_app. cbv iota. simpl negb. cbv iota.
  destruct (Z.leb_spec d 0); [lia|]. destruct (Z.ltb_spec d second); [lia|].
  by rewrite Hmod.
Qed.

Lemma heartbeat_interval_canonical_witness :
  normalizeHeartbeatInterval "@every 00h01m30s" = inr "@every 00h01m30s".
Proof. apply (heartbeat_interval_canonical "@every 90s" "@every 00h01m30s"). reflexivity. Defined.
