(* ===== verification/Redact.v ===== *)
(** * What the audit log shows of a configuration

    internal/groundcontrol/server/config_handlers.go: redaction of secrets
    (redactConfigValue, redactConfigForAudit) and the list of changed paths
    (diffConfigValues, diffConfigMaps, diffConfigForAudit), over JSON decoded
    into Go's [any].  Go iterates over a map in an unspecified order: the order
    is the parameter [RangeOrder]. *)

From Stdlib Require Import Ascii SpecFloat.
From stdpp Require Import gmap.
From S2P Require Import Prelude Utf8 GoLib Json Duration.

#[local] Open Scope string_scope.

(* ------------------------------------------------------------------ *)
(** ** json.Unmarshal into an [any] *)

(** map[string]any, []any, string, float64, bool, nil *)
#[warnings="-register-all"]
Inductive any :=
| ANil
| ABool (b : bool)
| ANum (f : spec_float)
| AStr (s : string)
| AArr (l : list any)
| AObj (m : gmap string any).

(** The digits before the exponent: their value and how many follow the dot *)
Fixpoint mantissa (m frac : Z) (dot : bool) (s : string) : Z * Z * string :=
  match s with
  | String a s' =>
      if Go.is_digit_ascii a
      then mantissa (m * 10 + time.digit_value a) (if dot then frac + 1 else frac) dot s'
      else if Ascii.eqb a "." then mantissa m frac true s' else (m, frac, s)
  | "" => (m, frac, "")
  end%Z.

Definition exponent (s : string) : Z :=
  match s with
  | String _ (String "-" e) => - default 0 (Go.parse_uint e)
  | String _ (String "+" e) => default 0 (Go.parse_uint e)
  | String _ e => default 0 (Go.parse_uint e)
  | "" => 0
  end%Z.

(** m * 10^e rounded to nearest even; beyond 10^400 and below 10^-400 the
    result is known without the power. *)
Definition decimal (m e : Z) : spec_float :=
  (if m =? 0 then S754_zero false
   else if 400 <? e then S754_infinity false
   else if 0 <=? e then time.f64_of_Z (m * 10 ^ e)
   else if Z.log2 m <? 3 * (- e) - 1400 then S754_zero false
   else SFdiv 53 1024 (S754_finite false (Z.to_pos m) 0) (S754_finite false (Z.to_pos (10 ^ (- e))) 0))%Z.

(** strconv.ParseFloat(lit, 64) on a JSON number; [None] is ErrRange. *)
Definition ParseFloat (lit : string) : option spec_float :=
  let '(neg, s) := match lit with String "-" s => (true, s) | _ => (false, lit) end in
  let '(m, frac, rest) := mantissa 0 0 false s in
  match decimal m (exponent rest - frac) with
  | S754_infinity _ => None
  | f => Some (if neg then SFopp f else f)
  end.

(** A later member with the same name wins. *)
Fixpoint decode (v : json) : option any :=
  match v with
  | JNull => Some ANil
  | JBool b => Some (ABool b)
  | JNum x => ANum <$> ParseFloat x
  | JStr s => Some (AStr s)
  | JArr l =>
      (fix go l acc :=
         match l with
         | [] => Some (AArr (rev acc))
         | v :: l' => match decode v with Some a => go l' (a :: acc) | None => None end
         end) l []
  | JObj l =>
      (fix go l acc :=
         match l with
         | [] => Some (AObj acc)
         | (k, v) :: l' => match decode v with Some a => go l' (<[k := a]> acc) | None => None end
         end) l ∅
  end.

Definition Unmarshal (raw : string) : option any :=
  match parse raw with Some v => decode v | None => None end.

(** [reflect.DeepEqual]; no float64 here is a NaN. *)
Fixpoint DeepEqual (a b : any) {struct a} : bool :=
  match a, b with
  | ANil, ANil => true
  | ABool x, ABool y => Bool.eqb x y
  | ANum x, ANum y => SFeqb x y
  | AStr x, AStr y => String.eqb x y
  | AArr l, AArr l' =>
      (fix go l l' := match l, l' with
       | [], [] => true
       | x :: l, y :: l' => DeepEqual x y && go l l'
       | _, _ => false
       end) l l'
  | AObj m, AObj m' =>
      (size m =? size m')%nat &&
      map_fold (fun k v acc => acc && match m' !! k with Some v' => DeepEqual v v' | None => false end)
        true m
  | _, _ => false
  end.

Definition is_nil (a : any) : bool := match a with ANil => true | _ => false end.

(* ------------------------------------------------------------------ *)
(** ** Redaction *)

Definition auditRedacted : string := "[REDACTED]".

Definition sensitive_fragments : list string :=
  ["password"; "passwd"; "secret"; "token"; "credential"; "apikey"; "api_key"; "access_key";
   "private_key"].

Definition isSensitiveConfigKey (key : string) : bool :=
  let k := ToLower key in existsb (Go.contains k) sensitive_fragments.

#[global] Arguments isSensitiveConfigKey : simpl never.

Fixpoint redactConfigValue (v : any) : any :=
  match v with
  | AObj t =>
      AObj (map_imap (fun k val =>
        Some (if isSensitiveConfigKey k then AStr auditRedacted else redactConfigValue val)) t)
  | AArr t => AArr (redactConfigValue <$> t)
  | _ => v
  end.

Definition redactConfigForAudit (raw : string) : any :=
  if String.eqb raw "" then ANil
  else match Unmarshal raw with
       | None => AStr "[unparseable config]"
       | Some decoded => redactConfigValue decoded
       end.

(* ------------------------------------------------------------------ *)
(** ** Changes *)

Definition childPath (prefix key : string) : string :=
  if String.eqb prefix "" then key else prefix +:+ "." +:+ key.

Definition lastKey (path : string) : string := Go.after_last "." path.

Definition redactedLeaf (key : string) (v : any) : any :=
  if isSensitiveConfigKey key then AStr auditRedacted else redactConfigValue v.

(** {"from": _, "to": _}, either side may be missing *)
Record change := mkChange { ch_from : option any; ch_to : option any }.

Section Diff.
Context `{RangeOrder}.

(** The assignments to [out], in order.  diffConfigMaps is the case of two
    objects: first the old object's keys, then the keys only the new one has. *)
Fixpoint diffConfigValues (prefix : string) (oldV newV : any) {struct oldV} : list (string * change) :=
  match oldV, newV with
  | AObj oldMap, AObj newMap =>
      let changed :=
        map_imap (fun k ov =>
          let path := childPath prefix k in
          Some (match newMap !! k with
                | Some nv => diffConfigValues path ov nv
                | None => if is_nil ov then [] else [(path, mkChange (Some (redactedLeaf k ov)) None)]
                end)) oldMap in
      let added :=
        map_imap (fun k nv =>
          Some (match oldMap !! k with
                | Some _ => []
                | None => if is_nil nv then []
                          else [(childPath prefix k, mkChange None (Some (redactedLeaf k nv)))]
                end)) newMap in
      mjoin (range false prefix changed).*2 ++ mjoin (range true prefix added).*2
  | _, _ =>
      if DeepEqual oldV newV then []
      else let k := lastKey prefix in
           [(prefix, mkChange (Some (redactedLeaf k oldV)) (Some (redactedLeaf k newV)))]
  end.

Definition diffConfigForAudit (oldRaw newRaw : string) : option (gmap string change) :=
  let oldV := default ANil (Unmarshal oldRaw) in
  let newV := default ANil (Unmarshal newRaw) in
  let out := foldl (fun out e => <[e.1 := e.2]> out) ∅ (diffConfigValues "" oldV newV) in
  if (size out =? 0)%nat then None else Some out.

End Diff.

(* ------------------------------------------------------------------ *)
(** ** Induction on decoded values *)

Fixpoint asize (v : any) : nat :=
  match v with
  | AArr l => S (foldr (fun v n => asize v + n)%nat 0 l)
  | AObj m => S (map_fold (fun _ v n => asize v + n)%nat 0 m)
  | _ => 1
  end.

Lemma asize_arr l x : x ∈ l -> (asize x < asize (AArr l))%nat.
Proof.
  cbn. induction 1 as [l|x y l _ IH]; cbn; lia.
Qed.

Lemma asize_obj (m : gmap string any) k x : m !! k = Some x -> (asize x < asize (AObj m))%nat.
Proof. intros E. cbn. rewrite (map_fold_delete_L _ _ k x m); [lia| |done]. intros; lia. Qed.

Lemma any_nested_ind (P : any -> Prop) :
  P ANil -> (forall b, P (ABool b)) -> (forall f, P (ANum f)) -> (forall s, P (AStr s)) ->
  (forall l, (forall x, x ∈ l -> P x) -> P (AArr l)) ->
  (forall m, (forall k x, m !! k = Some x -> P x) -> P (AObj m)) ->
  forall v, P v.
Proof.
  intros H1 H2 H3 H4 H5 H6 v. remember (asize v) as n eqn:En. revert v En.
  induction n as [n IH] using lt_wf_ind. intros [| | | |l|m] ->; auto.
  - apply H5. intros x Hx%asize_arr. by eapply IH.
  - apply H6. intros k x Hx%asize_obj. by eapply IH.
Qed.

(* ------------------------------------------------------------------ *)
(** ** What redaction hides *)

(** Equal up to what is stored under sensitive keys *)
#[warnings="-register-all"]
Inductive hidden : any -> any -> Prop :=
| HidNil : hidden ANil ANil
| HidBool b : hidden (ABool b) (ABool b)
| HidNum f : hidden (ANum f) (ANum f)
| HidStr s : hidden (AStr s) (AStr s)
| HidArr l l' : Forall2 hidden l l' -> hidden (AArr l) (AArr l')
| HidObj (m m' : gmap string any) :
    dom m = dom m' ->
    (forall k x y, m !! k = Some x -> m' !! k = Some y -> isSensitiveConfigKey k = false -> hidden x y) ->
    hidden (AObj m) (AObj m').

Lemma redact_lookup (m : gmap string any) k :
  map_imap (fun k val =>
    Some (if isSensitiveConfigKey k then AStr auditRedacted else redactConfigValue val)) m !! k =
  (fun val => if isSensitiveConfigKey k then AStr auditRedacted else redactConfigValue val) <$> (m !! k).
Proof. rewrite map_lookup_imap. by destruct (m !! k). Qed.

Lemma redact_hidden v : forall v', redactConfigValue v = redactConfigValue v' -> hidden v v'.
Proof.
  induction v as [|b|f|s|l IH|m IH] using any_nested_ind; intros [| | | |l'|m'] E;
    try discriminate E; try (injection E as ->; constructor); try constructor.
  - cbn in E. injection E as E. revert l' E.
    induction l as [|x l IHl]; intros [|x' l'] E; try discriminate E; constructor.
    + cbn in E. apply IH; [set_solver|]. congruence.
    + apply IHl; [set_solver|]. cbn in E. congruence.
  - cbn in E. injection E as E. apply set_eq. intros k. rewrite !elem_of_dom.
    pose proof (f_equal (fun m => m !! k) E) as Ek. cbv beta in Ek. rewrite !redact_lookup in Ek.
    destruct (m !! k), (m' !! k); try discriminate Ek; by split; intros [? ?].
  - intros k x y Hx Hy Hs. cbn in E. injection E as E. apply (IH k x Hx).
    pose proof (f_equal (fun m => m !! k) E) as Ek. cbv beta in Ek. rewrite !redact_lookup in Ek.
    rewrite Hx, Hy, Hs in Ek. cbn in Ek. congruence.
Qed.

Lemma hidden_redact v : forall v', hidden v v' -> redactConfigValue v = redactConfigValue v'.
Proof.
  induction v as [|b|f|s|l IH|m IH] using any_nested_ind; intros v' Hv; inv Hv; try done; cbn.
  - f_equal. match goal with H : Forall2 _ _ _ |- _ => rename H into HF end.
    induction HF as [|x y l l' Hxy HF IHF]; [done|]. cbn. f_equal; [apply IH; [set_solver|done]|].
    apply IHF. set_solver.
  - f_equal. apply map_eq. intros k. rewrite !redact_lookup.
    match goal with H : dom _ = dom _ |- _ => rename H into Hd end.
    destruct (m !! k) as [x|] eqn:Ex, (m' !! k) as [y|] eqn:Ey; cbn; try done.
    + destruct (isSensitiveConfigKey k) eqn:Es; [done|]. f_equal. eauto.
    + assert (k ∈ dom m') as Hk by (rewrite <- Hd; by apply elem_of_dom_2 in Ex).
      apply elem_of_dom in Hk as [? ?]. congruence.
    + assert (k ∈ dom m) as Hk by (rewrite Hd; by apply elem_of_dom_2 in Ey).
      apply elem_of_dom in Hk as [? ?]. congruence.
Qed.

(** A string stands somewhere in a value / somewhere not under a sensitive key *)
Inductive occurs (s : string) : any -> Prop :=
| OccLeaf : occurs s (AStr s)
| OccArr l x : x ∈ l -> occurs s x -> occurs s (AArr l)
| OccObj (m : gmap string any) k x : m !! k = Some x -> occurs s x -> occurs s (AObj m).

Inductive visible (s : string) : any -> Prop :=
| VisLeaf : visible s (AStr s)
| VisArr l x : x ∈ l -> visible s x -> visible s (AArr l)
| VisObj (m : gmap string any) k x :
    m !! k = Some x -> isSensitiveConfigKey k = false -> visible s x -> visible s (AObj m).

Lemma redact_occurs s v : occurs s (redactConfigValue v) -> s = auditRedacted \/ visible s v.
Proof.
  induction v as [|b|f|t|l IH|m IH] using any_nested_ind; cbn; intros Ho; inv Ho.
  - right. constructor.
  - match goal with H : _ ∈ _ <$> _ |- _ => apply list_elem_of_fmap in H as (y & -> & Hy) end.
    destruct (IH y Hy) as [?|?]; [done|by left|right]. by econstructor.
  - match goal with H : _ !! _ = Some _ |- _ => rewrite redact_lookup in H end.
    destruct (m !! k) as [y|] eqn:Ey; [|done]. cbn in *. simplify_eq.
    destruct (isSensitiveConfigKey k) eqn:Es.
    + match goal with H : occurs _ (AStr _) |- _ => inv H end. by left.
    + destruct (IH k y Ey) as [?|?]; [done|by left|right]. by econstructor.
Qed.

Definition is_obj (v : any) : bool := match v with AObj _ => true | _ => false end.

(* ------------------------------------------------------------------ *)
(** ** What the list of changes shows *)

Section DiffFacts.
Context `{RangeOrder}.

Lemma elem_of_range {A} b p (m : gmap string (list A)) e :
  e ∈ mjoin (range b p m).*2 <-> exists k l, m !! k = Some l /\ e ∈ l.
Proof.
  rewrite (range_perm _ b p m), list_elem_of_join. split.
  - intros (l & He & ([k l'] & -> & Hk)%list_elem_of_fmap).
    exists k, l'. by rewrite elem_of_map_to_list in Hk.
  - intros (k & l & Hk & He). exists l. split; [done|]. apply list_elem_of_fmap.
    exists (k, l). by rewrite elem_of_map_to_list.
Qed.

Lemma diff_objects p (m m' : gmap string any) e :
  e ∈ diffConfigValues p (AObj m) (AObj m') <->
  (exists k ov, m !! k = Some ov /\
     match m' !! k with
     | Some nv => e ∈ diffConfigValues (childPath p k) ov nv
     | None => is_nil ov = false /\ e = (childPath p k, mkChange (Some (redactedLeaf k ov)) None)
     end) \/
  (exists k nv, m' !! k = Some nv /\ m !! k = None /\ is_nil nv = false /\
     e = (childPath p k, mkChange None (Some (redactedLeaf k nv)))).
Proof.
  cbn [diffConfigValues]. rewrite elem_of_app, !elem_of_range.
  setoid_rewrite map_lookup_imap. split; (intros [Ho|Ha]; [left|right]).
  - destruct Ho as (k & l & E & He). destruct (m !! k) as [ov|] eqn:Ek; [|done].
    exists k, ov. split; [done|]. cbn in E. simplify_eq. destruct (m' !! k); [done|].
    by destruct (is_nil ov); [set_solver|apply list_elem_of_singleton in He].
  - destruct Ha as (k & l & E & He). destruct (m' !! k) as [nv|] eqn:Ek; [|done].
    exists k, nv. split; [done|]. cbn in E. simplify_eq. destruct (m !! k); [set_solver|].
    by destruct (is_nil nv); [set_solver|apply list_elem_of_singleton in He].
  - destruct Ho as (k & ov & Ek & He). exists k. rewrite Ek. cbn. eexists. split; [done|].
    destruct (m' !! k); [done|]. destruct He as [-> ->]. set_solver.
  - destruct Ha as (k & nv & Ek & Em & En & ->). exists k. rewrite Ek. cbn. eexists. split; [done|].
    rewrite Em, En. set_solver.
Qed.

Lemma diff_leaf p a b : is_obj a = false \/ is_obj b = false ->
  diffConfigValues p a b =
  if DeepEqual a b then []
  else [(p, mkChange (Some (redactedLeaf (lastKey p) a)) (Some (redactedLeaf (lastKey p) b)))].
Proof. destruct a, b; try done. by intros [?|?]. Qed.

(** The comparison the reports are about: objects member by member, where a
    member that is null counts as absent; everything else as a whole. *)
Inductive unchanged : any -> any -> Prop :=
| UncLeaf a b : is_obj a = false \/ is_obj b = false -> DeepEqual a b = true -> unchanged a b
| UncObj (m m' : gmap string any) :
    (forall k x y, m !! k = Some x -> m' !! k = Some y -> unchanged x y) ->
    (forall k x, m !! k = Some x -> m' !! k = None -> x = ANil) ->
    (forall k y, m' !! k = Some y -> m !! k = None -> y = ANil) ->
    unchanged (AObj m) (AObj m').

Lemma is_nil_true v : is_nil v = true <-> v = ANil.
Proof. by destruct v. Qed.

Lemma not_nil_true v : v <> ANil <-> is_nil v = false.
Proof. rewrite <- is_nil_true. by destruct (is_nil v). Qed.

Lemma empty_no_elem {A} (l : list A) : l = [] <-> forall e, e ∉ l.
Proof.
  split; [intros ->; set_solver|]. destruct l as [|x l]; [done|]. intros Hl.
  destruct (Hl x). set_solver.
Qed.

Lemma diff_empty_unchanged a : forall p b, diffConfigValues p a b = [] -> unchanged a b.
Proof.
  induction a as [|b|f|s|l IH|m IH] using any_nested_ind; intros p c E;
    try (rewrite diff_leaf in E by (by left); destruct (DeepEqual _ c) eqn:Ed; [|done];
         apply UncLeaf; [by left|done]).
  destruct (is_obj c) eqn:Ec.
  2: { rewrite diff_leaf in E by (by right). destruct (DeepEqual _ c) eqn:Ed; [|done].
       apply UncLeaf; [by right|done]. }
  destruct c as [| | | | |m']; try done. rewrite empty_no_elem in E.
  setoid_rewrite diff_objects in E. apply UncObj.
  - intros k x y Hx Hy. apply (IH k x Hx (childPath p k)), empty_no_elem. intros e He.
    destruct (E e). left. exists k, x. by rewrite Hy.
  - intros k x Hx Hy. destruct (decide (is_nil x = true)) as [?%is_nil_true|Hn]; [done|].
    destruct (E (childPath p k, mkChange (Some (redactedLeaf k x)) None)). left. exists k, x.
    rewrite Hy. apply not_true_is_false in Hn. done.
  - intros k y Hy Hx. destruct (decide (is_nil y = true)) as [?%is_nil_true|Hn]; [done|].
    destruct (E (childPath p k, mkChange None (Some (redactedLeaf k y)))). right. exists k, y.
    apply not_true_is_false in Hn. done.
Qed.

Lemma unchanged_diff_empty a : forall p b, unchanged a b -> diffConfigValues p a b = [].
Proof.
  induction a as [|b|f|s|l IH|m IH] using any_nested_ind; intros p c Hu; inv Hu;
    try (rewrite diff_leaf by done; case_match; [done|congruence]).
  apply empty_no_elem. intros e He. apply diff_objects in He as [He|He].
  - destruct He as (k & ov & Hk & He). destruct (m' !! k) as [nv|] eqn:Ek.
    + rewrite (IH k ov Hk _ nv) in He by eauto. set_solver.
    + destruct He as [Hn _]. by rewrite (H2 k ov Hk Ek) in Hn.
  - destruct He as (k & nv & Hk & Em & Hn & _). by rewrite (H3 k nv Hk Em) in Hn.
Qed.

(** *** The changes there are, and how they may be shown *)

(** [changed p a b q s from to]: below the path [p], the value at [q] changed
    between [a] and [b]; it is judged by the segment [s].  A member that is
    null counts as absent. *)
Inductive changed (p : string) : any -> any -> string -> string -> option any -> option any -> Prop :=
| ch_value a b : is_obj a = false \/ is_obj b = false -> DeepEqual a b = false ->
    changed p a b p (lastKey p) (Some a) (Some b)
| ch_member (m m' : gmap string any) k x y q s from to : m !! k = Some x -> m' !! k = Some y ->
    changed (childPath p k) x y q s from to -> changed p (AObj m) (AObj m') q s from to
| ch_removed (m m' : gmap string any) k x : m !! k = Some x -> m' !! k = None -> x <> ANil ->
    changed p (AObj m) (AObj m') (childPath p k) k (Some x) None
| ch_added (m m' : gmap string any) k y : m !! k = None -> m' !! k = Some y -> y <> ANil ->
    changed p (AObj m) (AObj m') (childPath p k) k None (Some y).

(** [v'] is [v] with the placeholder for every value under a sensitive key. *)
#[warnings="-register-all"]
Inductive masked : any -> any -> Prop :=
| MaskLeaf v : is_obj v = false -> (forall l, v <> AArr l) -> masked v v
| MaskArr l l' : Forall2 masked l l' -> masked (AArr l) (AArr l')
| MaskObj (m m' : gmap string any) :
    dom m = dom m' ->
    (forall k x y, m !! k = Some x -> m' !! k = Some y -> isSensitiveConfigKey k = true -> y = AStr "[REDACTED]") ->
    (forall k x y, m !! k = Some x -> m' !! k = Some y -> isSensitiveConfigKey k = false -> masked x y) ->
    masked (AObj m) (AObj m').

(** One side of a change that is judged by [s] *)
Definition shown (s : string) (v v' : option any) : Prop :=
  match v, v' with
  | None, None => True
  | Some v, Some v' => if isSensitiveConfigKey s then v' = AStr "[REDACTED]" else masked v v'
  | _, _ => False
  end.

(** [out] lists all changes from [a] to [b] and nothing else. *)
Definition lists_changes (a b : any) (out : gmap string change) : Prop :=
  (forall q s from to, changed "" a b q s from to -> is_Some (out !! q)) /\
  forall q c, out !! q = Some c -> exists s from to,
    changed "" a b q s from to /\ shown s from (ch_from c) /\ shown s to (ch_to c).

Lemma redacted_masked v : masked v (redactConfigValue v).
Proof.
  induction v as [|b|f|s|l IH|m IH] using any_nested_ind; try (by apply MaskLeaf).
  - cbn. apply MaskArr. induction l as [|x l IHl]; constructor; [apply IH; set_solver|apply IHl; set_solver].
  - cbn. apply MaskObj.
    + apply set_eq. intros k. rewrite !elem_of_dom, redact_lookup. by destruct (m !! k).
    + intros k x y Hx Hy Hs. rewrite redact_lookup, Hx in Hy. cbn in Hy. rewrite Hs in Hy. by injection Hy.
    + intros k x y Hx Hy Hs. rewrite redact_lookup, Hx in Hy. cbn in Hy. rewrite Hs in Hy. injection Hy as <-. eauto.
Qed.

Lemma leaf_shown s v : shown s v (redactedLeaf s <$> v).
Proof.
  destruct v as [v|]; [|done]. unfold redactedLeaf. cbn.
  destruct (isSensitiveConfigKey s); [done|apply redacted_masked].
Qed.

Lemma diff_changed a : forall p b e, e ∈ diffConfigValues p a b <-> exists s from to,
  changed p a b e.1 s from to /\ e.2 = mkChange (redactedLeaf s <$> from) (redactedLeaf s <$> to).
Proof.
  assert (forall p a b e, is_obj a = false \/ is_obj b = false -> e ∈ diffConfigValues p a b <-> exists s from to,
    changed p a b e.1 s from to /\ e.2 = mkChange (redactedLeaf s <$> from) (redactedLeaf s <$> to)) as Hleaf.
  { intros p x b [q c] Ho. rewrite diff_leaf by done. cbn. split.
    - destruct (DeepEqual x b) eqn:Ed; [set_solver|]. intros [= -> ->]%list_elem_of_singleton.
      eexists _, _, _. split; [by apply ch_value|done].
    - intros (s & f & t & Hc & ->). inversion Hc; subst; try (by destruct Ho).
      match goal with H : DeepEqual _ _ = false |- _ => rewrite H end. set_solver. }
  induction a as [|b|f|s|l IH|m IH] using any_nested_ind; intros p b' e;
    try (apply Hleaf; by left).
  destruct (is_obj b') eqn:Eb; [|apply Hleaf; by right]. destruct b' as [| | | | |m']; try done. clear Eb.
  destruct e as [q c]. rewrite diff_objects. cbn [fst snd]. split.
  - intros [(k & x & Hx & He)|(k & y & Hy & Hx & Hn & [= -> ->])].
    + destruct (m' !! k) as [y|] eqn:Hy.
      * apply (IH k x Hx) in He as (s & f & t & Hc & Hs). exists s, f, t. split; [by eapply ch_member|done].
      * destruct He as [Hn [= -> ->]]. exists k, (Some x), None. split; [|done].
        apply ch_removed; [done..|by apply not_nil_true].
    + exists k, None, (Some y). split; [|done]. apply ch_added; [done..|by apply not_nil_true].
  - intros (s & f & t & Hc & ->). inversion Hc as [x y Ho|m1 m2 k x y q' s' f' t' Hx Hy Hc'|m1 m2 k x Hx Hy Hn|m1 m2 k y Hx Hy Hn];
      subst; [by destruct Ho| | |].
    + left. exists k, x. split; [done|]. rewrite Hy. apply (IH k x Hx). by exists s, f, t.
    + left. exists s, x. split; [done|]. rewrite Hy. split; [by apply not_nil_true|done].
    + right. exists s, y. split_and!; [done..|by apply not_nil_true|done].
Qed.

Definition assign (out : gmap string change) (e : string * change) : gmap string change :=
  <[e.1 := e.2]> out.

Lemma assign_lookup l : forall out p ch, foldl assign out l !! p = Some ch ->
  out !! p = Some ch \/ (p, ch) ∈ l.
Proof.
  induction l as [|[q c] l IH]; intros out p ch E; [by left|]. cbn in E.
  apply IH in E as [E|E]; [|right; set_solver]. unfold assign in E. cbn in E.
  destruct (decide (q = p)) as [->|Hq].
  - rewrite lookup_insert_eq in E. simplify_eq. right. set_solver.
  - rewrite lookup_insert_ne in E by done. by left.
Qed.

Lemma assign_dom l : forall out p, is_Some (out !! p) -> is_Some (foldl assign out l !! p).
Proof.
  induction l as [|[q c] l IH]; intros out p E; [done|]. cbn. apply IH. unfold assign. cbn.
  rewrite lookup_insert_is_Some. destruct (decide (q = p)); auto.
Qed.

Lemma assign_empty l : foldl assign ∅ l = ∅ <-> l = [].
Proof.
  split; [|by intros ->]. destruct l as [|[q c] l]; [done|].
  change (foldl assign (assign ∅ (q, c)) l = ∅ -> (q, c) :: l = []). intros E.
  destruct (assign_dom l (assign ∅ (q, c)) q) as [x Hx].
  { unfold assign. cbn. rewrite lookup_insert_eq. eauto. }
  by rewrite E in Hx.
Qed.

Definition decoded (raw : string) : any := default ANil (Unmarshal raw).

Lemma diffConfigForAudit_eq o n :
  diffConfigForAudit o n =
  match diffConfigValues "" (decoded o) (decoded n) with
  | [] => None
  | l => Some (foldl assign ∅ l)
  end.
Proof.
  unfold diffConfigForAudit, decoded. fold assign. set (l := diffConfigValues _ _ _).
  change (foldl _ ∅ l) with (foldl assign ∅ l).
  destruct (Nat.eqb_spec (size (foldl assign ∅ l)) 0) as [E|E].
  - apply map_size_empty_inv, assign_empty in E. by rewrite E.
  - by destruct l.
Qed.

(* ------------------------------------------------------------------ *)
(** ** Secrets in the list of changes *)

(** Objects whose keys have no dot, with no object under a sensitive key *)
#[warnings="-register-all"]
Inductive flat : any -> Prop :=
| FlatLeaf a : is_obj a = false -> flat a
| FlatObj (m : gmap string any) :
    (forall k x, m !! k = Some x -> Go.contains k "." = false) ->
    (forall k x, m !! k = Some x -> isSensitiveConfigKey k = true -> is_obj x = false) ->
    (forall k x, m !! k = Some x -> flat x) ->
    flat (AObj m).

Lemma contains_middle p k : Go.contains (p +:+ String "." k) "." = true.
Proof.
  induction p as [|a p IH]; [by destruct k|]. rewrite Utf8.app_cons. cbn [Go.contains].
  by rewrite IH, orb_true_r.
Qed.

Lemma after_last_none k : Go.contains k "." = false -> Go.after_last "." k = k.
Proof.
  destruct k as [|a k]; [done|]. cbn [Go.contains Go.after_last].
  intros [Ha Hk]%orb_false_elim. rewrite Hk. cbn in Ha. rewrite andb_true_r in Ha.
  destruct (Ascii.eqb_spec a "."); [by subst|done].
Qed.

Lemma lastKey_child p k : Go.contains k "." = false -> lastKey (childPath p k) = k.
Proof.
  intros Hk. unfold lastKey, childPath. destruct (String.eqb p ""); [by apply after_last_none|].
  change ("." +:+ k) with (String "." k).
  induction p as [|a p IH].
  - rewrite Utf8.app_nil. cbn [Go.after_last]. by rewrite Hk.
  - rewrite Utf8.app_cons. cbn [Go.after_last]. by rewrite contains_middle.
Qed.

Definition shows (s : string) (side : option any) : Prop := exists v, side = Some v /\ occurs s v.

Definition seen (s key : string) (v : any) : Prop :=
  s = auditRedacted \/ (isSensitiveConfigKey key = false /\ visible s v).

Lemma leaf_seen s k v : occurs s (redactedLeaf k v) -> seen s k v.
Proof.
  unfold redactedLeaf, seen. destruct (isSensitiveConfigKey k).
  - intros Ho. inv Ho. by left.
  - intros [?|?]%redact_occurs; auto.
Qed.

Lemma seen_member s k (m : gmap string any) x : m !! k = Some x -> seen s k x ->
  s = auditRedacted \/ visible s (AObj m).
Proof. intros Hk [?|[Hs Hv]]; [by left|right]. by econstructor. Qed.

Lemma diff_seen a : forall p b e, flat a -> flat b ->
  (isSensitiveConfigKey (lastKey p) = true -> is_obj a = false \/ is_obj b = false) ->
  e ∈ diffConfigValues p a b ->
  (forall s, shows s (ch_from e.2) -> seen s (lastKey p) a) /\
  (forall s, shows s (ch_to e.2) -> seen s (lastKey p) b).
Proof.
  induction a as [|b|f|s|l IH|m IH] using any_nested_ind; intros p c e Ha Hc Hp He;
    destruct (decide (is_obj c = true)) as [Hco|Hco];
    try (rewrite diff_leaf in He by (try (by left); right; by apply not_true_is_false);
         case_match; [set_solver|]; apply list_elem_of_singleton in He as ->; cbn;
         split; intros t (v & [= <-] & Ho); by apply leaf_seen).
  destruct c as [| | | | |m']; try done.
  assert (isSensitiveConfigKey (lastKey p) = false) as Hroot.
  { apply not_true_is_false. by intros [?|?]%Hp. }
  inv Ha; inv Hc; try done. unfold seen in *. rewrite Hroot.
  assert (forall k x, m !! k = Some x -> lastKey (childPath p k) = k) as Hlk.
  { intros k x Hk. by eapply lastKey_child, H1. }
  assert (forall s k (m : gmap string any) x, m !! k = Some x ->
    s = auditRedacted \/ (isSensitiveConfigKey k = false /\ visible s x) ->
    s = auditRedacted \/ (false = false /\ visible s (AObj m))) as Hup.
  { intros s k m0 x Hk Hs. destruct (seen_member s k m0 x Hk Hs); auto. }
  apply diff_objects in He as [He|He].
  - destruct He as (k & ov & Hk & He). destruct (m' !! k) as [nv|] eqn:Ek.
    + destruct (IH k ov Hk (childPath p k) nv e) as [Hf Ht]; eauto.
      { rewrite (Hlk _ _ Hk). eauto. }
      rewrite (Hlk _ _ Hk) in Hf, Ht. split; intros s Hs; eauto.
    + destruct He as [_ ->]. cbn. split; [|by intros s (? & ? & _)].
      intros s (v & [= <-] & Ho%leaf_seen). eauto.
  - destruct He as (k & nv & Hk & _ & _ & ->). cbn. split; [by intros s (? & ? & _)|].
    intros s (v & [= <-] & Ho%leaf_seen). eauto.
Qed.

End DiffFacts.

Lemma diff_unchanged `{RangeOrder} oldRaw newRaw :
  diffConfigForAudit oldRaw newRaw = None <-> unchanged (decoded oldRaw) (decoded newRaw).
Proof.
  rewrite diffConfigForAudit_eq. destruct (diffConfigValues _ _ _) as [|e l] eqn:E.
  - split; [|done]. intros _. by eapply diff_empty_unchanged.
  - split; [done|]. intros Hu. by rewrite (unchanged_diff_empty _ "" _ Hu) in E.
Qed.

Lemma assign_in l : forall out q c, (q, c) ∈ l -> is_Some (foldl assign out l !! q).
Proof.
  induction l as [|e l IH]; intros out q c; [set_solver|]. intros [<-|Hl]%elem_of_cons; [|by eapply IH].
  cbn. apply assign_dom. unfold assign. cbn. rewrite lookup_insert_eq. by eexists.
Qed.

(** The list of changes is what changed, redacted by the last segment. *)
Lemma diff_lists_changes `{RangeOrder} oldRaw newRaw out :
  diffConfigForAudit oldRaw newRaw = Some out -> lists_changes (decoded oldRaw) (decoded newRaw) out.
Proof.
  rewrite diffConfigForAudit_eq. set (l := diffConfigValues _ _ _). intros E.
  assert (out = foldl assign ∅ l) as -> by (clearbody l; destruct l; by simplify_eq). clear E. split.
  - intros q s f t Hc. eapply assign_in, diff_changed. by eexists s, f, t.
  - intros q c [E|Hin]%assign_lookup; [by rewrite lookup_empty in E|].
    apply diff_changed in Hin as (s & f & t & Hc & E). cbn in E. subst c. exists s, f, t.
    split; [done|]. split; apply leaf_shown.
Qed.

(* ------------------------------------------------------------------ *)
(** ** Properties *)

(** redactConfigForAudit hides exactly the values under sensitive keys:
    two decodable configurations look the same in the audit log if and only if
    they are equal outside the sensitive keys, at every depth and inside
    arrays.  A configuration that does not decode shows nothing of itself. *)
Theorem redaction_hides_exactly raw raw' v v' :
  Unmarshal raw = Some v -> Unmarshal raw' = Some v' ->
  (redactConfigForAudit raw = redactConfigForAudit raw' <-> hidden v v') /\
  (forall s, occurs s (redactConfigForAudit raw) -> s = auditRedacted \/ visible s v) /\
  (forall bad, Unmarshal bad = None ->
     redactConfigForAudit bad = ANil \/ redactConfigForAudit bad = AStr "[unparseable config]").
Proof.
  assert (forall raw v, Unmarshal raw = Some v -> redactConfigForAudit raw = redactConfigValue v) as E.
  { intros r w Hr. unfold redactConfigForAudit. rewrite Hr.
    destruct (String.eqb_spec r "") as [->|]; [done|done]. }
  intros Hv Hv'. rewrite (E _ _ Hv), (E _ _ Hv'). split_and!.
  - split; [apply redact_hidden|apply hidden_redact].
  - intros s. apply redact_occurs.
  - intros bad Hb. unfold redactConfigForAudit. rewrite Hb. destruct (String.eqb bad ""); auto.
Qed.

(** diffConfigForAudit reports a change exactly when there is one: it
    returns nil if and only if the two configurations agree member by member,
    where a null member counts as an absent one.  In particular a rotated
    secret is reported, whatever the order Go iterates in. *)
Theorem diff_reports_every_change `{RangeOrder} oldRaw newRaw :
  diffConfigForAudit oldRaw newRaw = None <-> unchanged (decoded oldRaw) (decoded newRaw).
Proof. apply diff_unchanged. Qed.

(** For configurations whose keys have no dot and whose sensitive keys
    hold no objects, a string the list of changes shows is the placeholder or
    stands in that configuration outside every sensitive key. *)
Theorem diff_shows_no_secret `{RangeOrder} oldRaw newRaw out path ch s :
  flat (decoded oldRaw) -> flat (decoded newRaw) ->
  diffConfigForAudit oldRaw newRaw = Some out -> out !! path = Some ch ->
  (shows s (ch_from ch) -> s = auditRedacted \/ visible s (decoded oldRaw)) /\
  (shows s (ch_to ch) -> s = auditRedacted \/ visible s (decoded newRaw)).
Proof.
  intros Ho Hn E Hp. rewrite diffConfigForAudit_eq in E.
  assert ((path, ch) ∈ diffConfigValues "" (decoded oldRaw) (decoded newRaw)) as He.
  { destruct (diffConfigValues _ _ _) as [|e l]; simplify_eq.
    apply assign_lookup in Hp as [Hp|Hp]; [by rewrite lookup_empty in Hp|done]. }
  destruct (diff_seen _ "" _ _ Ho Hn ltac:(done) He) as [Hf Ht]. cbn in Hf, Ht.
  unfold seen in *. split; intros Hs; [destruct (Hf s Hs)|destruct (Ht s Hs)]; naive_solver.
Qed.

(** *** Both conditions are needed *)

Lemma assign_const l p c : (forall e, e ∈ l -> e = (p, c)) -> forall out,
  out !! p = Some c \/ l <> [] -> foldl assign out l !! p = Some c.
Proof.
  induction l as [|e l IH]; intros Hl out Hout; [by destruct Hout|].
  cbn. apply IH; [set_solver|]. left. rewrite (Hl e) by set_solver. apply lookup_insert_eq.
Qed.

Definition nested_secret (value : string) : string :=
  "{" +:+ String dquote "registry_credentials" +:+ String dquote ": {" +:+ String dquote "value" +:+
  String dquote ": " +:+ String dquote value +:+ String dquote "}}".

Lemma decoded_nested :
  decoded (nested_secret "s3cret-1") =
    AObj {[ "registry_credentials" := AObj {[ "value" := AStr "s3cret-1" ]} ]} /\
  decoded (nested_secret "s3cret-2") =
    AObj {[ "registry_credentials" := AObj {[ "value" := AStr "s3cret-2" ]} ]}.
Proof. split; vm_compute; reflexivity. Qed.

Lemma diff_singletons `{RangeOrder} p k k' a b :
  a <> b -> k' <> "" -> isSensitiveConfigKey (lastKey (childPath (childPath p k) k')) = false ->
  forall e, e ∈ diffConfigValues p (AObj {[ k := AObj {[ k' := AStr a ]} ]})
                                  (AObj {[ k := AObj {[ k' := AStr b ]} ]}) <->
  e = (childPath (childPath p k) k', mkChange (Some (AStr a)) (Some (AStr b))).
Proof.
  intros Hab _ Hs e. rewrite diff_objects. setoid_rewrite lookup_singleton_Some.
  assert (forall q, e ∈ diffConfigValues q (AObj {[ k' := AStr a ]}) (AObj {[ k' := AStr b ]}) <->
    e ∈ diffConfigValues (childPath q k') (AStr a) (AStr b)) as Hin.
  { intros q. rewrite diff_objects. setoid_rewrite lookup_singleton_Some. split.
    - intros [(? & ? & [<- <-] & He)|(? & ? & [<- <-] & He & _)].
      + by rewrite lookup_singleton_eq in He.
      + by rewrite lookup_singleton_eq in He.
    - intros He. left. exists k', (AStr a). by rewrite lookup_singleton_eq. }
  assert (e ∈ diffConfigValues (childPath (childPath p k) k') (AStr a) (AStr b) <->
    e = (childPath (childPath p k) k', mkChange (Some (AStr a)) (Some (AStr b)))) as Hleaf.
  { rewrite diff_leaf by (by left). cbn [DeepEqual].
    rewrite (proj2 (String.eqb_neq a b) Hab). unfold redactedLeaf. rewrite Hs.
    by rewrite list_elem_of_singleton. }
  rewrite <- Hleaf, <- Hin. split.
  - intros [(? & ? & [<- <-] & He)|(? & ? & [<- <-] & He & _)];
      by rewrite lookup_singleton_eq in He.
  - intros He. left. eexists k, _. by rewrite lookup_singleton_eq.
Qed.

(** A secret stored in an object under a sensitive key is redacted when
    the configuration is logged as a whole, but a rotation of it is logged in
    clear, old and new value, in the list of changes: only the last segment of
    the path is looked at. *)
Theorem diff_leaks_nested_secret `{RangeOrder} :
  redactConfigForAudit (nested_secret "s3cret-1") =
    AObj {[ "registry_credentials" := AStr auditRedacted ]} /\
  exists out, diffConfigForAudit (nested_secret "s3cret-1") (nested_secret "s3cret-2") = Some out /\
    out !! "registry_credentials.value" =
      Some (mkChange (Some (AStr "s3cret-1")) (Some (AStr "s3cret-2"))).
Proof.
  split; [vm_compute; reflexivity|]. rewrite diffConfigForAudit_eq.
  destruct decoded_nested as [-> ->].
  pose proof (diff_singletons "" "registry_credentials" "value" "s3cret-1" "s3cret-2"
    ltac:(done) ltac:(done) ltac:(by vm_compute)) as Hd.
  destruct (diffConfigValues _ _ _) as [|e l] eqn:E.
  { edestruct (not_elem_of_nil (A := string * change)). by apply Hd. }
  eexists. split; [done|]. apply assign_const; [|by right]. intros e' He'. by apply Hd.
Qed.

(** *** Witnesses *)

Definition quoted (s : string) : string := String dquote (s +:+ String dquote "").

Definition with_token (t : string) : string :=
  "{" +:+ quoted "auth" +:+ ":{" +:+ quoted "Token" +:+ ":" +:+ quoted t +:+ "}," +:+
  quoted "n" +:+ ":[1.5]}".

Lemma redaction_hides_exactly_witness :
  redactConfigForAudit (with_token "a") = redactConfigForAudit (with_token "b") <->
  hidden (decoded (with_token "a")) (decoded (with_token "b")).
Proof.
  apply (redaction_hides_exactly (with_token "a") (with_token "b")); vm_compute; reflexivity.
Defined.

Definition leveled (level : string) : string :=
  "{" +:+ quoted "log_level" +:+ ":" +:+ quoted level +:+ "}".

Lemma flat_leveled level :
  decoded (leveled level) = AObj {[ "log_level" := AStr level ]} -> flat (decoded (leveled level)).
Proof.
  intros ->. apply FlatObj; intros k x [<- <-]%lookup_singleton_Some; try done. by apply FlatLeaf.
Qed.

Lemma diff_shows_no_secret_witness :
  flat (decoded (leveled "info")) /\
  exists out ch, @diffConfigForAudit key_order (leveled "info") (leveled "warn") = Some out /\
    out !! "log_level" = Some ch /\
    (shows "warn" (ch_to ch) -> "warn" = auditRedacted \/ visible "warn" (decoded (leveled "warn"))).
Proof.
  split; [apply flat_leveled; vm_compute; reflexivity|].
  eexists _, (mkChange (Some (AStr "info")) (Some (AStr "warn"))).
  split; [vm_compute; reflexivity|]. split; [vm_compute; reflexivity|].
  eapply (@diff_shows_no_secret key_order (leveled "info") (leveled "warn") _ "log_level").
  - apply flat_leveled; vm_compute; reflexivity.
  - apply flat_leveled; vm_compute; reflexivity.
  - vm_compute; reflexivity.
  - vm_compute; reflexivity.
Defined.
