(* ===== verification/Limiter.v ===== *)
(** * The rate limiter's state

    internal/groundcontrol/middleware/ratelimit.go: a sliding window of
    accepted requests per client address, with a background task that prunes
    it.  One limiter is shared by all requests; every operation runs under its
    mutex and is one step. *)

From S2P Require Import Prelude.
From stdpp Require Import gmap strings.

Record RateLimiter := mkRateLimiter {
  rl_requests : gmap string (list Z);
  rl_maxRequests : Z;
  rl_windowPeriod : Z }.

Definition NewRateLimiter (maxRequests windowPeriod : Z) : RateLimiter :=
  mkRateLimiter ∅ maxRequests windowPeriod.

Definition set_requests (m : gmap string (list Z)) (rl : RateLimiter) : RateLimiter :=
  mkRateLimiter m (rl_maxRequests rl) (rl_windowPeriod rl).

(** The timestamps after the cutoff *)
Definition recent (cutoff : Z) (l : list Z) : list Z := List.filter (fun t => cutoff <? t)%Z l.

Definition timestamps (rl : RateLimiter) (ip : string) : list Z := default [] (rl_requests rl !! ip).

Definition Allow (now : Z) (ip : string) (rl : RateLimiter) : RateLimiter * bool :=
  let cutoff := (now - rl_windowPeriod rl)%Z in
  let valid := recent cutoff (timestamps rl ip) in
  if (rl_maxRequests rl <=? Z.of_nat (length valid))%Z
  then (set_requests (<[ip := valid]> (rl_requests rl)) rl, false)
  else (set_requests (<[ip := (valid ++ [now])%list]> (rl_requests rl)) rl, true).

(** One tick of the cleanup goroutine *)
Definition cleanup (now : Z) (rl : RateLimiter) : RateLimiter :=
  let cutoff := (now - rl_windowPeriod rl)%Z in
  set_requests (omap (fun l => match recent cutoff l with [] => None | valid => Some valid end)
                  (rl_requests rl)) rl.
