(* ===== verification/Prog.v ===== *)
(** * Handlers as programs

    Ground Control's HTTP handlers talk to PostgreSQL, to the Harbor API, to
    the OCI registry, to SPIRE, to the clock, to crypto/rand, to the audit log
    and to the ResponseWriter.  A handler is a [prog]: a tree of such
    operations ([op]), with Go's control flow (early returns included) in the
    continuations.  [run] executes a program on a [World]; the services that
    are not part of this repository are the parameter [Services].

    Every fallible operation consults the oracle [w_fail]: at any point the
    database connection may break.  A property proved for every world is
    therefore proved for every pattern of failures.

    A transaction keeps its own view, becomes unusable after the first
    statement that PostgreSQL rejects, and is finished by Commit (even a failed
    one) or Rollback; both then return [sql.ErrTxDone]. *)

From stdpp Require Import gmap.
From S2P Require Import Redact Free Prelude Limiter Db DbFacts.
From Stdlib Require Import Ascii.

(* ------------------------------------------------------------------ *)
(** ** Requests to services outside this repository *)

Record RobotPermission := mkRobotPermission {
  perm_kind : string; perm_namespace : string; perm_access : list (string * string) }.

Record RobotCreate := mkRobotCreate {
  rcr_description : string; rcr_disable : bool; rcr_duration : Z; rcr_level : string;
  rcr_name : string; rcr_permissions : list RobotPermission }.

Record RobotCreated := mkRobotCreated {
  rcd_id : Z; rcd_name : string; rcd_secret : string; rcd_expires_at : Z }.

Record Robot := mkRobot {
  hr_id : Z; hr_name : string; hr_permissions : list RobotPermission; hr_expires_at : Z }.

(** The JSON documents pushed as OCI artifacts, kept as the Go value that
    json.Marshal is given (file artifacts.json of the image). *)
Record GroupArtifact := mkGroupArtifact {
  ga_repository : string; ga_tag : list string; ga_type : string; ga_digest : string;
  ga_deleted : bool }.

Inductive document :=
| DocSatelliteState (states : list string) (config : string)
| DocGroupState (group registry : string) (artifacts : list GroupArtifact)
| DocConfig (data : string).

(** crane.WithAuth and crane.Insecure *)
Record CraneOptions := mkCraneOptions {
  co_username : string; co_password : string; co_insecure : bool }.

Record AgentInfo := mkAgentInfo {
  ag_spiffe_id : string; ag_attestation_type : string; ag_selectors : list string;
  ag_expires_at : option Z }.

Inductive svc : Type -> Type :=
(* Harbor API v2 *)
| HeadProject (name : string) : svc (option bool)
    (* [None]: the *project.HeadProjectNotFound error; [Some b]: IsSuccess() *)
| CreateProject (name : string) (public : bool) (storage_limit : Z) : svc bool
| ListRobot (q : string) : svc (list Robot)
| CreateRobot (r : RobotCreate) : svc RobotCreated
| DeleteRobot (id : Z) : svc unit
| RefreshSec (id : Z) (secret : string) : svc (option string)
    (* [None]: the response carries no payload *)
| GetRobotByID (id : Z) : svc Robot
| UpdateRobot (id : Z) (r : Robot) : svc unit
| ListReplicationPolicies (q : string) : svc (list string)
(* OCI registry, through crane *)
| CraneImage (file : string) (doc : document) : svc (string * document)
| CranePush (img : string * document) (dest : string) (o : CraneOptions) : svc unit
| CraneTag (dest tag : string) (o : CraneOptions) : svc unit
(* plain HTTP *)
| HttpDelete (url user password : string) : svc Z
(* SPIRE server *)
| CreateJoinToken (agent : string) (ttl : Z) : svc string
| ListAgents (attestation : string) : svc (list AgentInfo)
| CreateWorkloadEntry (parent id : string) (selectors : list string) : svc string
| DeleteWorkloadEntry (id : string) : svc unit.

(** The services: a state of their own and an arbitrary reaction to each
    request (success, failure with some text, whatever they answer). *)
Class Services := {
  svc_state : Type;
  svc_exec : forall {R}, svc R -> svc_state -> svc_state * (string + R) }.

(* ------------------------------------------------------------------ *)
(** ** Replies and audit events *)

Inductive payload :=
| PNone
| PAppError (msg : string) (code : Z)
| PMap (kv : list (string * string))
| PRegister (token : string)
| PLogin (token : string) (expires_at : Z)
| PStateConfig (state_url url username password : string)
| PSatellite (s : Satellite)
| PSatellites (l : list Satellite)
| PStale (l : list (Satellite * Z))
| PActive (l : list (Satellite * string * option Z))
| PStatus (s : SatelliteStatus)
| PArtifacts (l : list Artifact)
| PGroup (g : Group)
| PGroups (l : list Group)
| PConfig (c : Config)
| PConfigs (l : list Config)
| PUser (id : Z) (username role : string) (created_at : Z)
| PUsers (l : list (Z * string * string * Z))
| PSpireStatus (enabled : bool) (trust_domain provider : string) (connected : bool)
| PAgents (l : list AgentInfo)
| PSpiffeRegistered (satellite region spiffe_id parent_agent_id join_token : string)
    (expires_at : option Z) (server_address : string) (server_port : Z) (trust_domain : string).

Record reply := mkReply { rp_status : Z; rp_body : payload }.

Inductive detail :=
| DStr (s : string)
| DStrs (l : option (list string))
| DTime (t : Z)
| DAny (v : any)
| DChanged (changed : gmap string change).

Record AuditEvent := mkAuditEvent {
  ae_operation : string; ae_resource_type : string; ae_outcome : string;
  ae_actor : string; ae_actor_type : string; ae_satellite_id : string;
  ae_resource : string; ae_reason : string; ae_details : list (string * detail);
  ae_source_ip : string; ae_user_agent : string; ae_request_id : string }.

(* ------------------------------------------------------------------ *)
(** ** Operations and programs *)

(** [Pool]: s.dbQueries, one statement per implicit transaction.
    [InTx]: q = s.dbQueries.WithTx(tx). *)
Inductive conn := Pool | InTx.

Inductive op : Type -> Type :=
| ODb {R} (c : conn) (q : query R) : op (result R)
| OBegin : op (result unit)
| OCommit : op (result unit)
| ORollback : op (result unit)
| OPing : op (result unit)
| OTryLock (id : Z) : op (result bool)
| OUnlock (id : Z) : op (result unit)
| OSvc {R} (s : svc R) : op (result R)
| ONow : op Z
| OAllow (ip : string) : op bool      (* rateLimiter.Allow *)
| ORand (n : nat) : op (result (list ascii))
| OAudit (e : AuditEvent) : op unit
| OReply (r : reply) : op unit.

Abbreviation prog := (free op).

Definition db {R} (c : conn) (q : query R) : prog (result R) := perform (ODb c q).
Definition call {R} (s : svc R) : prog (result R) := perform (OSvc s).
Definition time_now : prog Z := perform ONow.
Definition audit_log (e : AuditEvent) : prog unit := perform (OAudit e).
Definition write (status : Z) (body : payload) : prog unit := perform (OReply (mkReply status body)).

(* ------------------------------------------------------------------ *)
(** ** Worlds *)

Record Tx := mkTx { tx_view : Db; tx_aborted : bool; tx_started : Z }.

Inductive event :=
| EvSvc {R} (s : svc R) (r : result R)
| EvCommit.

Section World.
Context `{Services, PgTypes}.

Record World := mkWorld {
  w_db : Db;                         (* the committed database *)
  w_tx : option Tx;                  (* the request's open transaction *)
  w_lock : bool;                     (* the advisory lock is held by another session *)
  w_limiter : RateLimiter;           (* shared by all requests *)
  w_svc : svc_state;
  w_replies : list reply;            (* what was written to the ResponseWriter, in order *)
  w_audit : list AuditEvent;
  w_events : list event;             (* service calls and commits, in order *)
  w_tick : nat;                      (* operations performed so far *)
  w_clock : nat -> Z;
  w_fail : nat -> bool;
  w_rand : nat -> string + (nat -> ascii) }.   (* crypto/rand: an error, or a stream of bytes *)

Definition tick (w : World) : World :=
  mkWorld (w_db w) (w_tx w) (w_lock w) (w_limiter w) (w_svc w) (w_replies w) (w_audit w) (w_events w)
    (S (w_tick w)) (w_clock w) (w_fail w) (w_rand w).
Definition set_db (d : Db) (w : World) : World :=
  mkWorld d (w_tx w) (w_lock w) (w_limiter w) (w_svc w) (w_replies w) (w_audit w) (w_events w)
    (w_tick w) (w_clock w) (w_fail w) (w_rand w).
Definition set_tx (t : option Tx) (w : World) : World :=
  mkWorld (w_db w) t (w_lock w) (w_limiter w) (w_svc w) (w_replies w) (w_audit w) (w_events w)
    (w_tick w) (w_clock w) (w_fail w) (w_rand w).
Definition set_svc (s : svc_state) (w : World) : World :=
  mkWorld (w_db w) (w_tx w) (w_lock w) (w_limiter w) s (w_replies w) (w_audit w) (w_events w)
    (w_tick w) (w_clock w) (w_fail w) (w_rand w).
Definition set_limiter (rl : RateLimiter) (w : World) : World :=
  mkWorld (w_db w) (w_tx w) (w_lock w) rl (w_svc w) (w_replies w) (w_audit w) (w_events w)
    (w_tick w) (w_clock w) (w_fail w) (w_rand w).
Definition add_reply (r : reply) (w : World) : World :=
  mkWorld (w_db w) (w_tx w) (w_lock w) (w_limiter w) (w_svc w) (w_replies w ++ [r]) (w_audit w) (w_events w)
    (w_tick w) (w_clock w) (w_fail w) (w_rand w).
Definition add_audit (e : AuditEvent) (w : World) : World :=
  mkWorld (w_db w) (w_tx w) (w_lock w) (w_limiter w) (w_svc w) (w_replies w) (w_audit w ++ [e]) (w_events w)
    (w_tick w) (w_clock w) (w_fail w) (w_rand w).
Definition add_event (e : event) (w : World) : World :=
  mkWorld (w_db w) (w_tx w) (w_lock w) (w_limiter w) (w_svc w) (w_replies w) (w_audit w) (w_events w ++ [e])
    (w_tick w) (w_clock w) (w_fail w) (w_rand w).

Definition now_of (w : World) : Z := w_clock w (w_tick w).
Definition faulty (w : World) : bool := w_fail w (w_tick w).

Definition bad_conn : goerr := PlainErr "driver: bad connection".
Definition tx_done : goerr := PlainErr "sql: transaction has already been committed or rolled back".

(** A statement PostgreSQL rejects aborts the transaction; "no rows" is an
    error of database/sql only. *)
Definition aborts {R} (r : result R) : bool :=
  match r with inl NoRows => false | inl _ => true | inr _ => false end.

(** An error of code outside the repository: a text, never an AppError *)
Definition foreign {A} (x : string + A) : result A :=
  match x with inl m => inl (PlainErr m) | inr a => inr a end.

Definition exec_db {R} (c : conn) (q : query R) (w : World) : World * result R :=
  match c with
  | Pool =>
      if faulty w then (tick w, inl bad_conn)
      else let '(d, r) := exec_query (now_of w) q (w_db w) in (tick (set_db d w), r)
  | InTx =>
      match w_tx w with
      | None => (tick w, inl tx_done)
      | Some tx =>
          if tx_aborted tx then (tick w, inl (PqErr Err.in_failed_sql_transaction))
          else if faulty w
          then (tick (set_tx (Some (mkTx (tx_view tx) true (tx_started tx))) w), inl bad_conn)
          else let '(d, r) := exec_query (tx_started tx) q (tx_view tx) in
               (tick (set_tx (Some (mkTx d (aborts r) (tx_started tx))) w), r)
      end
  end.

Definition exec_begin (w : World) : World * result unit :=
  if faulty w then (tick w, inl bad_conn)
  else (tick (set_tx (Some (mkTx (w_db w) false (now_of w))) w), inr tt).

Definition exec_commit (w : World) : World * result unit :=
  match w_tx w with
  | None => (tick w, inl tx_done)
  | Some tx =>
      if tx_aborted tx || faulty w then (tick (set_tx None w), inl bad_conn)
      else (tick (add_event EvCommit (set_tx None (set_db (tx_view tx) w))), inr tt)
  end.

Definition exec_rollback (w : World) : World * result unit :=
  match w_tx w with
  | None => (tick w, inl tx_done)
  | Some _ => (tick (set_tx None w), if faulty w then inl bad_conn else inr tt)
  end.

Definition exec_op {R} (o : op R) (w : World) : World * R :=
  match o in op R return World * R with
  | ODb c q => exec_db c q w
  | OBegin => exec_begin w
  | OCommit => exec_commit w
  | ORollback => exec_rollback w
  | OPing => (tick w, if faulty w then inl bad_conn else inr tt)
  | OTryLock _ => (tick w, if faulty w then inl bad_conn else inr (negb (w_lock w)))
  | OUnlock _ => (tick w, if faulty w then inl bad_conn else inr tt)
  | OSvc s =>
      let '(st, x) := svc_exec s (w_svc w) in
      let r := foreign x in
      (tick (add_event (EvSvc s r) (set_svc st w)), r)
  | ONow => (tick w, now_of w)
  | OAllow ip =>
      (tick (set_limiter (Allow (now_of w) ip (w_limiter w)).1 w),
       (Allow (now_of w) ip (w_limiter w)).2)
  | ORand n =>
      (tick w, foreign (match w_rand w (w_tick w) with
                        | inl m => inl m
                        | inr stream => inr (stream <$> seq 0 n)
                        end))
  | OAudit e => (tick (add_audit e w), tt)
  | OReply r => (tick (add_reply r w), tt)
  end.

Fixpoint run {A} (p : prog A) (w : World) : World * A :=
  match p with
  | Ret a => (w, a)
  | Op o k => let '(w', r) := exec_op o w in run (k r) w'
  end.

(** net/http: the first WriteHeader decides; none at all means 200. *)
Definition http_status (w : World) : Z :=
  match w_replies w with [] => 200 | r :: _ => rp_status r end.

(** The world a request starts in: nothing written yet, no transaction. *)
Definition fresh (w : World) : Prop := w_replies w = [] /\ w_tx w = None /\ w_events w = [].

Definition init_world (d : Db) (s : svc_state) (clock : Z) (fails : nat -> bool)
    (rnd : nat -> string + (nat -> ascii)) : World :=
  mkWorld d None false (NewRateLimiter 10 60000000000) s [] [] [] 0 (fun _ => clock) fails rnd.

End World.

Arguments World {_}.
