(* ===== verification/Logic.v ===== *)
(** * A program logic for handlers

    Hoare triples over [run], invariants of whole programs through the set of
    operations they perform, and the shape every transactional handler has:
    nothing is committed and nothing is written to the client until the
    handler either refuses the request (an error status, database unchanged)
    or commits and reports success. *)

From S2P Require Import Free Prelude Db DbFacts Prog.

Section Logic.
Context `{Services, PgTypes}.

Lemma run_bind {A B} (m : prog A) (f : A -> prog B) w :
  run (bind m f) w = let '(w', a) := run m w in run (f a) w'.
Proof.
  revert w. induction m as [a|R o k IH]; intros w; simpl; [done|].
  destruct (exec_op o w) as [w' r]. apply IH.
Qed.

Lemma run_try {A B} (m : prog (result A)) (h : goerr -> prog B) k w :
  run (try m h k) w =
  let '(w', r) := run m w in match r with inl e => run (h e) w' | inr a => run (k a) w' end.
Proof. unfold try. rewrite run_bind. destruct (run m w) as [w' []]; done. Qed.

(* ------------------------------------------------------------------ *)
(** ** Triples *)

Definition hoare {A} (P : World -> Prop) (m : prog A) (Q : A -> World -> Prop) : Prop :=
  forall w, P w -> Q (run m w).2 (run m w).1.

Lemma hoare_ret {A} (P : World -> Prop) (a : A) (Q : A -> World -> Prop) :
  (forall w, P w -> Q a w) -> hoare P (Ret a) Q.
Proof. intros HP w Hw. by apply HP. Qed.

Lemma hoare_bind {A B} P (m : prog A) (f : A -> prog B) Q R :
  hoare P m Q -> (forall a, hoare (Q a) (f a) R) -> hoare P (bind m f) R.
Proof.
  intros Hm Hf w Hw. rewrite run_bind. specialize (Hm w Hw).
  destruct (run m w) as [w' a]. by apply Hf.
Qed.

Lemma hoare_try {A B} P (m : prog (result A)) h (k : A -> prog B) Q R :
  hoare P m Q -> (forall e, hoare (Q (inl e)) (h e) R) -> (forall a, hoare (Q (inr a)) (k a) R) ->
  hoare P (try m h k) R.
Proof. intros Hm Hh Hk. eapply hoare_bind; [done|]. by intros []. Qed.

Lemma hoare_conseq {A} (P P' : World -> Prop) (m : prog A) (Q Q' : A -> World -> Prop) :
  hoare P' m Q' -> (forall w, P w -> P' w) -> (forall a w, Q' a w -> Q a w) -> hoare P m Q.
Proof. intros Hm HP HQ w Hw. apply HQ, Hm, HP, Hw. Qed.

Lemma hoare_op {R} P (o : op R) (Q : R -> World -> Prop) :
  (forall w, P w -> Q (exec_op o w).2 (exec_op o w).1) -> hoare P (perform o) Q.
Proof. intros Ho w Hw. unfold perform; simpl. specialize (Ho w Hw). by destruct (exec_op o w). Qed.

Lemma hoare_and {A} P (m : prog A) Q Q' :
  hoare P m Q -> hoare P m Q' -> hoare P m (fun a w => Q a w /\ Q' a w).
Proof. intros H1 H2 w Hw. split; auto. Qed.

(* ------------------------------------------------------------------ *)
(** ** Operations that only read *)

(** Operations that leave the committed database alone *)
Definition read_only (R : Type) (o : op R) : bool :=
  match o with
  | ODb Pool q => is_read q
  | OCommit => false
  | _ => true
  end.

Lemma exec_db_read {R} (q : query R) w :
  is_read q = true -> w_db (exec_db Pool q w).1 = w_db w.
Proof.
  intros Hq. simpl. destruct (faulty w); [done|].
  pose proof (exec_read q (now_of w) (w_db w) Hq) as Hr.
  destruct (exec_query (now_of w) q (w_db w)). by simpl in *.
Qed.

Lemma exec_read_only {R} (o : op R) w :
  read_only R o = true -> w_db (exec_op o w).1 = w_db w.
Proof.
  destruct o as [R c q| | | | | | |R s| | | | |]; intros Ho; try discriminate Ho; simpl; try done.
  - destruct c; [by apply exec_db_read|].
    simpl. repeat case_match; simplify_eq; done.
  - unfold exec_begin. by case_match.
  - unfold exec_rollback. by case_match.
  - by destruct (svc_exec s (w_svc w)).
Qed.

(* ------------------------------------------------------------------ *)
(** ** Integrity of the database under any program *)

Definition wf_world (w : World) : Prop :=
  wf (w_db w) /\ match w_tx w with Some tx => wf (tx_view tx) | None => True end.

Lemma exec_db_wf {R} c (q : query R) w : wf_world w -> wf_world (exec_db c q w).1.
Proof.
  intros [Hd Ht]. destruct c; simpl.
  - destruct (faulty w); [done|].
    pose proof (exec_query_wf (now_of w) q _ Hd) as Hq.
    destruct (exec_query (now_of w) q (w_db w)). by split.
  - destruct (w_tx w) as [tx|] eqn:E; [|unfold wf_world; simpl; by rewrite E].
    destruct (tx_aborted tx); [unfold wf_world; simpl; by rewrite E|].
    destruct (faulty w); [done|].
    pose proof (exec_query_wf (tx_started tx) q _ Ht) as Hq.
    destruct (exec_query (tx_started tx) q (tx_view tx)). by split.
Qed.

Lemma exec_op_wf {R} (o : op R) w : wf_world w -> wf_world (exec_op o w).1.
Proof.
  destruct o as [R c q| | | | | | |R s| | | | |]; intros Hw; simpl; try done.
  - by apply exec_db_wf.
  - unfold exec_begin. case_match; [done|]. destruct Hw as [Hd _]. by split.
  - unfold exec_commit. destruct Hw as [Hd Ht]. unfold wf_world in *.
    destruct (w_tx w) eqn:E; [|simpl; by rewrite E]. case_match; by split.
  - unfold exec_rollback. destruct Hw as [Hd Ht]. unfold wf_world in *.
    destruct (w_tx w) eqn:E; simpl; [done|by rewrite E].
  - by destruct (svc_exec s (w_svc w)).
Qed.

Lemma run_wf {A} (p : prog A) w : wf_world w -> wf_world (run p w).1.
Proof.
  revert w. induction p as [a|R o k IH]; intros w Hw; simpl; [done|].
  pose proof (exec_op_wf o w Hw). destruct (exec_op o w) as [w' r]. by apply IH.
Qed.

(* ------------------------------------------------------------------ *)
(** ** Errors and the status a client sees *)

Definition err_status (e : goerr) : Z :=
  match Err.as_app e with Some (_, c) => c | None => 500 end.

Definition success (c : Z) : bool := ((200 <=? c) && (c <? 300))%Z.

Definition good_err {A} (r : result A) : Prop :=
  match r with inl e => success (err_status e) = false | inr _ => True end.

(** Database, transaction and service errors are never AppErrors. *)
Definition plain_err {A} (r : result A) : Prop :=
  match r with inl e => err_status e = 500%Z | inr _ => True end.

Definition op_post {R} (o : op R) : R -> Prop :=
  match o in op R return R -> Prop with
  | ODb _ _ => plain_err
  | OBegin | OCommit | ORollback | OPing => plain_err
  | OTryLock _ => plain_err
  | OUnlock _ => plain_err
  | OSvc _ => plain_err
  | ORand _ => plain_err
  | ONow | OAllow _ => fun _ => True
  | OAudit _ | OReply _ => fun _ => True
  end.

Lemma sql_one_plain {A} d (o : option A) : plain_err (sql_one d o).2.
Proof. by destruct o. Qed.

Lemma exec_query_plain {R} now (q : query R) d : plain_err (exec_query now q d).2.
Proof.
  destruct q; simpl; try exact I; try apply sql_one_plain;
    unfold Sql.CreateSatellite, Sql.AddSatelliteToGroup, Sql.AddRobotAccount,
      Sql.UpdateRobotAccount, Sql.AddToken, Sql.CreateConfig, Sql.UpdateConfig, Sql.SetSatelliteConfig,
      Sql.InsertSatelliteStatus, Sql.GetStaleSatellites, Sql.GetActiveSatellites,
      Sql.sql_where_query, Sql.BatchInsertArtifacts, Sql.CreateUser, Sql.CreateSession;
    repeat case_match; try done; apply sql_one_plain.
Qed.

Lemma exec_db_plain {R} c (q : query R) w : plain_err (exec_db c q w).2.
Proof.
  destruct c; simpl.
  - destruct (faulty w); [done|]. pose proof (exec_query_plain (now_of w) q (w_db w)).
    by destruct (exec_query (now_of w) q (w_db w)).
  - destruct (w_tx w) as [tx|]; [|done]. destruct (tx_aborted tx); [done|].
    destruct (faulty w); [done|]. pose proof (exec_query_plain (tx_started tx) q (tx_view tx)).
    by destruct (exec_query (tx_started tx) q (tx_view tx)).
Qed.

Lemma exec_op_post {R} (o : op R) w : op_post o (exec_op o w).2.
Proof.
  destruct o as [R c q| | | | | | |R s| | |n| |]; simpl; try exact I.
  - apply exec_db_plain.
  - unfold exec_begin. by case_match.
  - unfold exec_commit. repeat case_match; done.
  - unfold exec_rollback. repeat case_match; done.
  - by case_match.
  - by case_match.
  - by case_match.
  - destruct (svc_exec s (w_svc w)) as [st []]; done.
  - by destruct (w_rand w (w_tick w)).
Qed.

(* ------------------------------------------------------------------ *)
(** ** Specifications read off the program text

    [spec al Q p]: [p] performs only operations in [al], and whatever the
    operations answer (within [op_post]) its result satisfies [Q]. *)

Fixpoint spec {A} (al : forall R, op R -> bool) (Q : A -> Prop) (p : prog A) : Prop :=
  match p with
  | Ret a => Q a
  | Op o k => al _ o = true /\ forall r, op_post o r -> spec al Q (k r)
  end.

Lemma spec_bind {A B} al (Q : A -> Prop) (R : B -> Prop) (m : prog A) f :
  spec al Q m -> (forall a, Q a -> spec al R (f a)) -> spec al R (bind m f).
Proof.
  intros Hm Hf. induction m as [a|T o k IH]; simpl in *; [auto|].
  destruct Hm as [Ho Hk]. auto.
Qed.

Lemma spec_try {A B} al (R : B -> Prop) (m : prog (result A)) h k :
  spec al good_err m ->
  (forall e, success (err_status e) = false -> spec al R (h e)) ->
  (forall a, spec al R (k a)) -> spec al R (try m h k).
Proof. intros Hm Hh Hk. eapply spec_bind; [done|]. intros []; simpl; auto. Qed.

Lemma spec_weaken {A} al (Q Q' : A -> Prop) (m : prog A) :
  (forall a, Q a -> Q' a) -> spec al Q m -> spec al Q' m.
Proof. intros HQ. induction m as [a|T o k IH]; simpl; [auto|]. intros [Ho Hk]. auto. Qed.

Lemma spec_run {A} al (Q : A -> Prop) (I : World -> Prop) (p : prog A) :
  (forall R (o : op R) w, al R o = true -> I w -> I (exec_op o w).1) ->
  spec al Q p -> hoare I p (fun a w => I w /\ Q a).
Proof.
  intros Hop. induction p as [a|R o k IH]; intros Hs w Hw; simpl in *; [done|].
  destruct Hs as [Ho Hk]. pose proof (exec_op_post o w) as Hp.
  specialize (Hop R o w Ho Hw). destruct (exec_op o w) as [w' r]. by apply IH; [apply Hk|].
Qed.

Lemma spec_mono {A} (al al' : forall R, op R -> bool) (Q : A -> Prop) (m : prog A) :
  (forall R (o : op R), al R o = true -> al' R o = true) -> spec al Q m -> spec al' Q m.
Proof. intros Hal. induction m as [a|T o k IH]; simpl; [auto|]. intros [Ho Hk]. auto. Qed.

(** A program that never writes to the committed database *)
Definition harmless {A} (m : prog A) : Prop := spec read_only (fun _ => True) m.

Lemma run_harmless {A} (m : prog A) w : harmless m -> w_db (run m w).1 = w_db w.
Proof.
  intros Hm.
  assert (forall R (o : op R) w', read_only R o = true -> w_db w' = w_db w ->
            w_db (exec_op o w').1 = w_db w) as Hop.
  { intros R o w' Ho Hw. by rewrite exec_read_only. }
  by destruct (spec_run read_only _ (fun w' => w_db w' = w_db w) m Hop Hm w eq_refl).
Qed.

(** Operations that neither touch the committed database nor answer the client *)
Definition silent (R : Type) (o : op R) : bool :=
  match o with OReply _ => false | _ => read_only R o end.

Definition is_commit (e : event) : bool := match e with EvCommit => true | _ => false end.
Definition committed (w : World) : bool := existsb is_commit (w_events w).

(** Nothing has happened yet that anyone could see. *)
Definition quiet (d0 : Db) (w : World) : Prop :=
  w_db w = d0 /\ w_replies w = [] /\ committed w = false.

(** The request was refused: an error status, nothing committed. *)
Definition refused (d0 : Db) (w : World) : Prop :=
  w_db w = d0 /\ committed w = false /\
  exists r rs, w_replies w = r :: rs /\ success (rp_status r) = false.

(** The request was carried out: committed and answered, once. *)
Definition fulfilled (w : World) : Prop :=
  committed w = true /\ exists r, w_replies w = [r] /\ success (rp_status r) = true.

Lemma committed_app w e : existsb is_commit (w_events w ++ [e]) = committed w || is_commit e.
Proof. unfold committed. rewrite List.existsb_app. simpl. by rewrite orb_false_r. Qed.

Lemma exec_read_only_committed {R} (o : op R) w :
  read_only R o = true -> committed (exec_op o w).1 = committed w.
Proof.
  destruct o as [R c q| | | | | | |R s| | | | |]; intros Ho; try discriminate Ho; simpl; try done.
  - unfold exec_db. repeat case_match; simplify_eq; done.
  - unfold exec_begin. by case_match.
  - unfold exec_rollback. by case_match.
  - destruct (svc_exec s (w_svc w)). unfold committed at 1; simpl.
    rewrite committed_app. by rewrite orb_false_r.
Qed.

Lemma exec_op_replies {R} (o : op R) w :
  exists l, w_replies (exec_op o w).1 = w_replies w ++ l /\ (silent R o = true -> l = []).
Proof.
  destruct o as [R c q| | | | | | |R s| | | |e|r]; simpl; [..|by exists [r]];
    (exists []; rewrite app_nil_r; split; [|done]).
  - unfold exec_db. repeat case_match; simplify_eq; done.
  - unfold exec_begin. by case_match.
  - unfold exec_commit. repeat case_match; done.
  - unfold exec_rollback. by case_match.
  - done.
  - done.
  - done.
  - by destruct (svc_exec s (w_svc w)).
  - done.
  - done.
  - done.
  - done.
Qed.

Lemma silent_read_only {R} (o : op R) : silent R o = true -> read_only R o = true.
Proof. by destruct o. Qed.

Lemma exec_silent_quiet d0 {R} (o : op R) w :
  silent R o = true -> quiet d0 w -> quiet d0 (exec_op o w).1.
Proof.
  intros Ho (Hd & Hr & Hc). pose proof (silent_read_only o Ho) as Hro.
  unfold quiet. rewrite (exec_read_only o w Hro), (exec_read_only_committed o w Hro).
  destruct (exec_op_replies o w) as (l & -> & Hl). by rewrite Hr, Hl.
Qed.

Lemma exec_read_only_refused d0 {R} (o : op R) w :
  read_only R o = true -> refused d0 w -> refused d0 (exec_op o w).1.
Proof.
  intros Ho (Hd & Hc & r & rs & Hr & Hs).
  unfold refused. rewrite (exec_read_only o w Ho), (exec_read_only_committed o w Ho).
  destruct (exec_op_replies o w) as (l & -> & _). rewrite Hr. split_and!; [done..|].
  by exists r, (rs ++ l).
Qed.

Definition helper {A} (m : prog (result A)) : Prop := spec silent good_err m.
Definition quiet_prog {A} (m : prog A) : Prop := spec silent (fun _ => True) m.

Lemma plain_good {A} (r : result A) : plain_err r -> good_err r.
Proof. destruct r as [e|a]; simpl; [by intros ->|done]. Qed.

Lemma helper_perform {A} (o : op (result A)) :
  silent _ o = true -> (forall r, op_post o r -> plain_err r) -> helper (perform o).
Proof. intros Hs Hp. split; [done|]. intros r Hr. by apply plain_good, Hp. Qed.

Lemma helper_begin : helper (perform OBegin).
Proof. by apply helper_perform. Qed.
Lemma helper_tx {R} (q : query R) : helper (db InTx q).
Proof. by apply helper_perform. Qed.
Lemma helper_read {R} (q : query R) : is_read q = true -> helper (db Pool q).
Proof. intros. by apply helper_perform. Qed.
Lemma helper_call {R} (s : svc R) : helper (call s).
Proof. by apply helper_perform. Qed.
Lemma helper_rand n : helper (perform (ORand n)).
Proof. by apply helper_perform. Qed.
Lemma helper_ok {A} (a : A) : helper (ok a).
Proof. done. Qed.
Lemma helper_throw {A} e : success (err_status e) = false -> helper (throw e : prog (result A)).
Proof. done. Qed.
Lemma helper_wrap {A} m e : success (err_status e) = false -> helper (wrap m e : prog (result A)).
Proof. done. Qed.
Lemma helper_try {A B} (m : prog (result A)) h (k : A -> prog (result B)) :
  helper m -> (forall e, success (err_status e) = false -> helper (h e)) ->
  (forall a, helper (k a)) -> helper (try m h k).
Proof. apply spec_try. Qed.
Lemma helper_bind {A B} (m : prog A) (k : A -> prog (result B)) :
  quiet_prog m -> (forall a, helper (k a)) -> helper (bind m k).
Proof. intros Hm Hk. eapply spec_bind; [exact Hm|]. intros a _. apply Hk. Qed.

Lemma helper_for_each {A S} (f : A -> S -> prog (result S)) l s :
  (forall a s', helper (f a s')) -> helper (for_each f l s).
Proof.
  intros Hf. revert s. induction l as [|a l IH]; intros s; simpl; [done|].
  apply helper_try; [apply Hf|by intros e He|apply IH].
Qed.

Lemma quiet_now : quiet_prog time_now.
Proof. by split. Qed.
Lemma quiet_audit e : quiet_prog (audit_log e).
Proof. by split. Qed.
Lemma quiet_ret {A} (a : A) : quiet_prog (Ret a).
Proof. done. Qed.
Lemma quiet_perform {R} (o : op R) : silent R o = true -> quiet_prog (perform o).
Proof. by split. Qed.
Lemma quiet_bind {A B} (m : prog A) (k : A -> prog B) :
  quiet_prog m -> (forall a, quiet_prog (k a)) -> quiet_prog (bind m k).
Proof. intros Hm Hk. eapply spec_bind; [exact Hm|]. intros a _. apply Hk. Qed.
Lemma quiet_helper {A} (m : prog (result A)) : helper m -> quiet_prog m.
Proof. by apply spec_weaken. Qed.
Lemma quiet_try {A B} (m : prog (result A)) h (k : A -> prog B) :
  quiet_prog m -> (forall e, quiet_prog (h e)) -> (forall a, quiet_prog (k a)) ->
  quiet_prog (try m h k).
Proof. intros. apply quiet_bind; [done|]. by intros []. Qed.

Lemma helper_run {A} (m : prog (result A)) d0 :
  helper m -> hoare (quiet d0) m (fun r w => quiet d0 w /\ good_err r).
Proof. apply spec_run. intros. by apply exec_silent_quiet. Qed.

Lemma harmless_quiet {A} (m : prog A) : quiet_prog m -> harmless m.
Proof. apply spec_mono. intros R o. apply silent_read_only. Qed.
Lemma harmless_bind {A B} (m : prog A) (k : A -> prog B) :
  harmless m -> (forall a, harmless (k a)) -> harmless (bind m k).
Proof. intros Hm Hk. eapply spec_bind; [exact Hm|]. intros a _. apply Hk. Qed.
Lemma harmless_try {A B} (m : prog (result A)) h (k : A -> prog B) :
  harmless m -> (forall e, harmless (h e)) -> (forall a, harmless (k a)) -> harmless (try m h k).
Proof. intros. apply harmless_bind; [done|]. by intros []. Qed.
Lemma harmless_write st b : harmless (write st b).
Proof. by split. Qed.

Lemma refused_run {A} (m : prog A) d0 :
  harmless m -> hoare (refused d0) m (fun _ => refused d0).
Proof.
  intros Hm w Hw.
  assert (forall R (o : op R) w', read_only R o = true -> refused d0 w' ->
            refused d0 (exec_op o w').1) as Hop by (intros; by apply exec_read_only_refused).
  by destruct (spec_run read_only _ (refused d0) m Hop Hm w Hw).
Qed.

(* ------------------------------------------------------------------ *)
(** ** Handlers that settle

    [settles_as F c m]: started in silence, [m] ends refused or in [F]; [c a]
    says which, when the program's result tells (the [committed] flag of the
    handlers).  [F] is [fulfilled], except for the handler that goes on
    working after its commit: that one ends [answered]. *)

Definition settled_as (F : World -> Prop) {A} (c : A -> option bool) (d0 : Db) (a : A) (w : World) : Prop :=
  match c a with
  | Some true => F w
  | Some false => refused d0 w
  | None => F w \/ refused d0 w
  end.

Definition settles_as (F : World -> Prop) {A} (c : A -> option bool) (m : prog A) : Prop :=
  forall d0, hoare (quiet d0) m (settled_as F c d0).

Notation settles := (settles_as fulfilled).

(** Committed, and one reply, of any status *)
Definition answered (w : World) : Prop :=
  committed w = true /\ exists r, w_replies w = [r].

Definition flag (out : bool * Z) : option bool := Some out.1.
Definition either (_ : unit) : option bool := None.

Lemma settle_try F {A B} c (m : prog (result A)) h (k : A -> prog B) :
  helper m -> (forall e, success (err_status e) = false -> settles_as F c (h e)) ->
  (forall a, settles_as F c (k a)) -> settles_as F c (try m h k).
Proof.
  intros Hm Hh Hk d0. eapply hoare_try; [by apply helper_run| |].
  - intros e w [Hq He]. by apply Hh.
  - intros a w [Hq _]. by apply Hk.
Qed.

Lemma settle_bind F {A B} c (m : prog A) (k : A -> prog B) :
  quiet_prog m -> (forall a, settles_as F c (k a)) -> settles_as F c (bind m k).
Proof.
  intros Hm Hk d0. eapply hoare_bind; [eapply spec_run, Hm; intros; by apply exec_silent_quiet|].
  intros a w [Hq _]. by apply Hk.
Qed.

Lemma settle_write_ret F {A} c (a : A) st b :
  success st = false -> c a <> Some true -> settles_as F c (write st b ;;; Ret a).
Proof.
  intros Hs Hc d0 w (Hd & Hr & Hn). simpl.
  assert (refused d0 (tick (add_reply (mkReply st b) w))) as Hf.
  { split_and!; [done..|]. exists (mkReply st b), []. simpl. by rewrite Hr. }
  unfold settled_as. destruct (c a) as [[]|]; auto. done.
Qed.

Lemma settle_write F st b : success st = false -> settles_as F either (write st b).
Proof. intros Hs d0 w Hq. right. by apply (settle_write_ret F (fun _ => Some false) tt st b Hs). Qed.

(** After the commit: audit events and one success reply *)
Definition open (w : World) : Prop := committed w = true /\ w_replies w = [].

Definition closes_as (F : World -> Prop) {A} (c : A -> option bool) (m : prog A) : Prop :=
  hoare open m (fun a w => F w /\ c a <> Some false).

Notation closes := (closes_as fulfilled).

Lemma close_audit F {A} c e (m : prog A) : closes_as F c m -> closes_as F c (audit_log e ;;; m).
Proof. intros Hm w Hw. by apply Hm. Qed.

Lemma close_write_ret {A} c st b (a : A) :
  success st = true -> c a <> Some false -> closes c (write st b ;;; Ret a).
Proof. intros Hs Hc w [Hk Hr]. simpl. split; [|done]. split; [done|]. exists (mkReply st b). simpl. by rewrite Hr. Qed.

(** Work after the commit may still fail; it is answered either way. *)
Lemma answer_write_ret {A} c st b (a : A) :
  c a <> Some false -> closes_as answered c (write st b ;;; Ret a).
Proof. intros Hc w [Hk Hr]. simpl. split; [|done]. split; [done|]. exists (mkReply st b). simpl. by rewrite Hr. Qed.

Lemma exec_silent_open {R} (o : op R) w : silent R o = true -> open w -> open (exec_op o w).1.
Proof.
  intros Ho [Hc Hr]. unfold open. rewrite (exec_read_only_committed o w) by (by apply silent_read_only).
  destruct (exec_op_replies o w) as (l & -> & Hl). by rewrite Hr, Hl.
Qed.

Lemma answer_try {A B} c (m : prog (result A)) h (k : A -> prog B) :
  helper m -> (forall e, success (err_status e) = false -> closes_as answered c (h e)) ->
  (forall a, closes_as answered c (k a)) -> closes_as answered c (try m h k).
Proof.
  intros Hm Hh Hk. eapply hoare_try.
  - eapply spec_run, Hm. intros. by apply exec_silent_open.
  - intros e w [Hq He]. by apply Hh.
  - intros a w [Hq _]. by apply Hk.
Qed.

Lemma close_write st b : success st = true -> closes either (write st b).
Proof. intros Hs. by apply (close_write_ret either st b tt). Qed.

Lemma settle_commit F {A} c h (k : unit -> prog A) :
  (forall e, success (err_status e) = false -> settles_as F c (h e)) ->
  closes_as F c (k tt) -> settles_as F c (try (perform OCommit) h k).
Proof.
  intros Hh Hk d0 w (Hd & Hr & Hn). rewrite run_try. simpl. unfold exec_commit.
  assert (forall w' e, quiet d0 w' -> err_status e = 500%Z ->
            settled_as F c d0 (run (h e) w').2 (run (h e) w').1) as Hbad.
  { intros w' e Hq He. apply Hh; [by rewrite He|done]. }
  destruct (w_tx w) as [tx|]; [|by apply Hbad].
  destruct (tx_aborted tx || faulty w); [by apply Hbad|].
  destruct (Hk (tick (add_event EvCommit (set_tx None (set_db (tx_view tx) w))))) as [Hf Hc].
  { simpl. split; [|done]. unfold committed. simpl. rewrite committed_app. apply orb_true_r. }
  unfold settled_as. destruct (c _) as [[]|]; auto. done.
Qed.

(** The pattern [tx, err := s.db.BeginTx(...); defer func() { if !committed
    { cleanup; tx.Rollback() } }(); body].  The body returns the [committed]
    flag and the Harbor robot id the deferred function may have to delete. *)
Definition deferred (cleanup : Z -> prog unit) (on_rollback_error : prog unit)
    (out : bool * Z) : prog unit :=
  if out.1 then Ret tt
  else cleanup out.2 ;;;
       let? _ := perform ORollback catch (fun _ => on_rollback_error) in Ret tt.

Definition transactional (on_begin_error : goerr -> prog unit) (cleanup : Z -> prog unit)
    (on_rollback_error : prog unit) (body : prog (bool * Z)) : prog unit :=
  let? _ := perform OBegin catch on_begin_error in
  let* out := body in
  deferred cleanup on_rollback_error out.

Lemma settle_transactional F hb cl rb body :
  (forall e, success (err_status e) = false -> settles_as F either (hb e)) ->
  (forall id, harmless (cl id)) -> harmless rb ->
  settles_as F flag body -> settles_as F either (transactional hb cl rb body).
Proof.
  intros Hb Hcl Hrb Hbody. apply settle_try; [|done|intros _ d0].
  { exact helper_begin. }
  eapply hoare_bind; [apply Hbody|]. intros [[] id]; simpl.
  { apply hoare_ret. intros w Hw. by left. }
  eapply (hoare_conseq _ (refused d0)); [apply refused_run| |].
  - apply harmless_bind; [apply Hcl|]. intros _. by apply harmless_try.
  - intros w Hw. exact Hw.
  - intros a w Hw. by right.
Qed.

Lemma settles_outcome F {A} c (m : prog A) w :
  settles_as F c m -> quiet (w_db w) w -> F (run m w).1 \/ refused (w_db w) (run m w).1.
Proof.
  intros Hm Hq. specialize (Hm (w_db w) w Hq). unfold settled_as in Hm. destruct (c _) as [[]|]; auto.
Qed.

End Logic.

(** Proof search over the text of a program: [helpers] holds the helper
    functions already shown well behaved, [handlers] the handler fragments. *)
Create HintDb helpers.
Create HintDb handlers.
#[export] Hint Resolve helper_begin helper_tx helper_call helper_rand helper_ok helper_throw
  helper_wrap quiet_now quiet_audit quiet_ret : helpers.
#[export] Hint Extern 1 (helper (db Pool _)) => (apply helper_read; reflexivity) : helpers.
#[export] Hint Extern 2 (quiet_prog (perform _)) => (apply quiet_perform; reflexivity) : helpers.
#[export] Hint Extern 3 (quiet_prog _) => (apply quiet_helper; solve [auto with helpers nocore]) : helpers.

Ltac helper_step :=
  match goal with
  | |- helper (match ?x with _ => _ end) => destruct x
  | |- quiet_prog (match ?x with _ => _ end) => destruct x
  | |- helper _ => solve [auto with helpers]
  | |- quiet_prog _ => solve [auto with helpers]
  | |- helper (for_each _ _ _) => apply helper_for_each
  | |- helper (try _ _ _) => apply helper_try
  | |- helper (bind _ _) => apply helper_bind
  | |- quiet_prog (try _ _ _) => apply quiet_try
  | |- quiet_prog (bind _ _) => apply quiet_bind
  | |- forall _, _ => intros ?
  | |- success _ = _ => first [assumption | reflexivity]
  end.
Ltac helper_tac := repeat helper_step.

Ltac harmless_step :=
  match goal with
  | |- harmless (match ?x with _ => _ end) => destruct x
  | |- harmless (Ret _) => exact I
  | |- harmless (write _ _) => apply harmless_write
  | |- harmless _ => solve [auto with handlers]
  | |- harmless _ => solve [apply harmless_quiet; auto with helpers]
  | |- harmless (try _ _ _) => apply harmless_try
  | |- harmless (bind _ _) => apply harmless_bind
  | _ => helper_step
  end.
Ltac harmless_tac := repeat harmless_step.

(** The usual reading of the two judgements *)
Notation settles := (settles_as fulfilled).
Notation closes := (closes_as fulfilled).

Ltac settle_step :=
  match goal with
  | |- settles_as _ _ (match ?x with _ => _ end) => destruct x
  | |- settles_as _ _ (try (perform OCommit) _ _) => apply settle_commit
  | |- settles_as _ _ _ => solve [auto with handlers]
  | |- settles_as _ _ (try _ _ _) => apply settle_try
  | |- settles_as _ _ (bind (write _ _) _) => apply settle_write_ret
  | |- settles_as _ _ (write _ _) => apply settle_write
  | |- settles_as _ _ (bind _ _) => apply settle_bind
  | |- closes_as _ _ (bind (audit_log _) _) => apply close_audit
  | |- closes_as fulfilled _ (bind (write _ _) _) => apply close_write_ret
  | |- closes_as answered _ (bind (write _ _) _) => apply answer_write_ret
  | |- closes_as answered _ (try _ _ _) => apply answer_try
  | |- closes_as _ _ (write _ _) => apply close_write
  | |- closes_as _ _ (match ?x with _ => _ end) => destruct x
  | |- _ <> _ => discriminate
  | _ => harmless_step
  end.
Ltac settle_tac := repeat settle_step.
