(* ===== verification/Runs.v ===== *)
(** * Reading a run backwards

    When a handler answers success, every step before it succeeded.  The
    lemmas here invert a run step by step ([run_try_inv], [inv_ok]) and follow
    the view of its transaction ([at_tx]), so that what is committed can be
    compared with the abstract operation on the database. *)

From S2P Require Import Free Prelude Db DbFacts Prog Logic.
From Stdlib Require Import Ascii.

Section Runs.
Context `{Services, PgTypes}.

Lemma run_try_inv {A B} (m : prog (result A)) (h : goerr -> prog B) k w w' b :
  run (try m h k) w = (w', b) ->
  (exists w1 a, run m w = (w1, inr a) /\ run (k a) w1 = (w', b)) \/
  (exists w1 e, run m w = (w1, inl e) /\ run (h e) w1 = (w', b)).
Proof. rewrite run_try. destruct (run m w) as [w1 [e|a]]; [right|left]; eauto. Qed.

Lemma run_bind_inv {A B} (m : prog A) (k : A -> prog B) w w' b :
  run (bind m k) w = (w', b) -> exists w1 a, run m w = (w1, a) /\ run (k a) w1 = (w', b).
Proof. rewrite run_bind. destruct (run m w) as [w1 a]; eauto. Qed.

Lemma run_ret_inv {A} (a b : A) (w w' : World) : run (Ret a) w = (w', b) -> w = w' /\ a = b.
Proof. intros E; by simplify_eq/=. Qed.

Lemma run_result {A B} (m : prog A) (b : B) w : (run (bind m (fun _ => Ret b)) w).2 = b.
Proof. rewrite run_bind. by destruct (run m w). Qed.

Lemma run_result_inv {A B} (m : prog A) (b c : B) w w' :
  run (bind m (fun _ => Ret b)) w = (w', c) -> b = c.
Proof. intros E. pose proof (run_result m b w) as Hr. rewrite E in Hr. by simpl in Hr. Qed.

(* ------------------------------------------------------------------ *)
(** ** Events are never forgotten *)

Lemma exec_op_events {R} (o : op R) w :
  exists l, w_events (exec_op o w).1 = w_events w ++ l.
Proof.
  destruct o as [R c q| | | | | | |R s| | | | |]; simpl;
    try (exists []; by rewrite app_nil_r).
  - exists []. rewrite app_nil_r. unfold exec_db. repeat case_match; simplify_eq; done.
  - exists []. rewrite app_nil_r. unfold exec_begin. by case_match.
  - unfold exec_commit. destruct (w_tx w); [|exists []; by rewrite app_nil_r].
    destruct (_ || _); [exists []; by rewrite app_nil_r|by exists [EvCommit]].
  - exists []. rewrite app_nil_r. unfold exec_rollback. by case_match.
  - destruct (svc_exec s (w_svc w)). by eexists.
Qed.

Lemma run_events {A} (m : prog A) w : exists l, w_events (run m w).1 = w_events w ++ l.
Proof.
  revert w. induction m as [a|R o k IH]; intros w; simpl; [exists []; by rewrite app_nil_r|].
  destruct (exec_op_events o w) as [l Hl]. destruct (exec_op o w) as [w1 r]. simpl in Hl.
  destruct (IH r w1) as [l' Hl']. exists (l ++ l'). by rewrite Hl', Hl, app_assoc.
Qed.

Lemma run_events_mono {A} (m : prog A) w w' a e :
  run m w = (w', a) -> e ∈ w_events w -> e ∈ w_events w'.
Proof.
  intros E He. destruct (run_events m w) as [l Hl]. rewrite E in Hl. simpl in Hl.
  rewrite Hl. apply elem_of_app. by left.
Qed.

Lemma run_committed_mono {A} (m : prog A) w w' a :
  run m w = (w', a) -> committed w = true -> committed w' = true.
Proof.
  intros E. destruct (run_events m w) as [l Hl]. rewrite E in Hl. simpl in Hl.
  unfold committed. rewrite Hl, List.existsb_app. by intros ->.
Qed.

(** Events of interest: a program whose operations all avoid them adds none. *)
Section Tracking.
Context {K : Type} (track : event -> option K) (al : forall R, op R -> bool).
Context (Hcommit : track EvCommit = None).
Context (Hal : forall R (s : svc R) (r : result R), al _ (OSvc s) = true -> track (EvSvc s r) = None).

Definition tracked (w : World) : list K := omap track (w_events w).

Lemma exec_untracked {R} (o : op R) w : al R o = true -> tracked (exec_op o w).1 = tracked w.
Proof.
  unfold tracked. destruct o as [R c q| | | | | | |R s| | | | |]; intros Ho; simpl; try done.
  - unfold exec_db. repeat case_match; simplify_eq; done.
  - unfold exec_begin. by case_match.
  - unfold exec_commit. destruct (w_tx w); [|done]. destruct (_ || _); [done|]. simpl.
    rewrite omap_app. simpl. by rewrite Hcommit, app_nil_r.
  - unfold exec_rollback. by case_match.
  - destruct (svc_exec s (w_svc w)) as [st x]. simpl. rewrite omap_app. simpl.
    by rewrite Hal, app_nil_r.
Qed.

Lemma run_untracked {A} (Q : A -> Prop) (m : prog A) w w' a :
  spec al Q m -> run m w = (w', a) -> tracked w' = tracked w /\ Q a.
Proof.
  intros Hm E.
  assert (forall R (o : op R) v, al R o = true -> tracked v = tracked w ->
            tracked (exec_op o v).1 = tracked w) as Hop.
  { intros R o v Ho Hv. by rewrite exec_untracked. }
  destruct (spec_run al Q (fun v => tracked v = tracked w) m Hop Hm w eq_refl) as [K1 K2].
  by rewrite E in K1, K2.
Qed.

Lemma tracked_mono {A} (m : prog A) w w' a k : run m w = (w', a) -> k ∈ tracked w -> k ∈ tracked w'.
Proof.
  intros E Hk. destruct (run_events m w) as [l Hl]. rewrite E in Hl. simpl in Hl.
  unfold tracked. rewrite Hl, omap_app. apply elem_of_app. by left.
Qed.
End Tracking.

Lemma spec_try_any {A B} al (Q : B -> Prop) (m : prog (result A)) h (k : A -> prog B) :
  spec al (fun _ => True) m -> (forall e, spec al Q (h e)) -> (forall a, spec al Q (k a)) ->
  spec al Q (try m h k).
Proof. intros Hm Hh Hk. eapply spec_bind; [exact Hm|]. intros [] _; auto. Qed.
Lemma spec_bind_any {A B} al (Q : B -> Prop) (m : prog A) (k : A -> prog B) :
  spec al (fun _ => True) m -> (forall a, spec al Q (k a)) -> spec al Q (bind m k).
Proof. intros Hm Hk. eapply spec_bind; [exact Hm|]. auto. Qed.
Lemma spec_for_each {A S} al (f : A -> S -> prog (result S)) l s :
  (forall a s', spec al (fun _ => True) (f a s')) -> spec al (fun _ => True) (for_each f l s).
Proof.
  intros Hf. revert s. induction l as [|a l IH]; intros s; simpl; [done|].
  apply spec_try_any; [apply Hf|done|apply IH].
Qed.

(** Nobody turns the clock or decides the failures. *)
Lemma run_env {A} (m : prog A) w w' a :
  run m w = (w', a) -> w_clock w' = w_clock w /\ w_fail w' = w_fail w.
Proof.
  revert w. induction m as [b|R o k IH]; intros w E; simpl in E; [by simplify_eq|].
  destruct (exec_op o w) as [w1 r] eqn:Eo. destruct (IH _ _ E) as [-> ->].
  assert (w1 = (exec_op o w).1) as -> by (by rewrite Eo).
  clear. destruct o as [R c q| | | | | | |R s| | | | |]; simpl; try done.
  - unfold exec_db. repeat case_match; simplify_eq; done.
  - unfold exec_begin. by case_match.
  - unfold exec_commit. repeat case_match; done.
  - unfold exec_rollback. by case_match.
  - by destruct (svc_exec s (w_svc w)).
Qed.

Lemma run_clock {A} (m : prog A) w w' a : run m w = (w', a) -> w_clock w' = w_clock w.
Proof. intros E. by destruct (run_env m w w' a E). Qed.

(* ------------------------------------------------------------------ *)
(** ** Inside the transaction *)

(** The committed database is [d0]; the transaction started at [t] and sees [d]. *)
Definition at_tx (d0 : Db) (t : Z) (d : Db) (w : World) : Prop :=
  w_db w = d0 /\ w_tx w = Some (mkTx d false t).

Lemma step_tx {R} (q : query R) d0 t d w w1 a :
  at_tx d0 t d w -> run (db InTx q) w = (w1, inr a) ->
  exists d', exec_query t q d = (d', inr a) /\ at_tx d0 t d' w1 /\ w_events w1 = w_events w.
Proof.
  intros [Hd Ht] E. unfold db, perform in E. cbn [run exec_op exec_db] in E. rewrite Ht in E.
  cbn [tx_aborted tx_view tx_started] in E. destruct (faulty w); [done|].
  destruct (exec_query t q d) as [d' r]. simplify_eq. by exists d'.
Qed.

(** A successful read leaves the view as it is. *)
Lemma step_tx_read {R} (q : query R) d0 t d w w1 a :
  is_read q = true -> at_tx d0 t d w -> run (db InTx q) w = (w1, inr a) ->
  exec_query t q d = (d, inr a) /\ at_tx d0 t d w1 /\ w_events w1 = w_events w.
Proof.
  intros Hq Hat E. destruct (step_tx q d0 t d w w1 a Hat E) as (d' & Hx & Hat' & He).
  pose proof (exec_read q t d Hq) as Hr. rewrite Hx in Hr. simpl in Hr. by subst.
Qed.

Lemma step_pool_read {R} (q : query R) w w1 a :
  is_read q = true -> run (db Pool q) w = (w1, inr a) ->
  exec_query (now_of w) q (w_db w) = (w_db w, inr a) /\
  w_db w1 = w_db w /\ w_tx w1 = w_tx w /\ w_events w1 = w_events w /\ w_replies w1 = w_replies w.
Proof.
  intros Hq E. unfold db, perform in E. cbn [run exec_op exec_db] in E.
  destruct (faulty w); [done|]. pose proof (exec_read q (now_of w) (w_db w) Hq) as Hr.
  destruct (exec_query (now_of w) q (w_db w)) as [d r]. simpl in Hr. by simplify_eq.
Qed.

(** What a statement outside a transaction leaves alone *)
Definition same_session (w w1 : World) : Prop :=
  w_tx w1 = w_tx w /\ w_replies w1 = w_replies w /\ w_events w1 = w_events w /\
  w_clock w1 = w_clock w /\ w_fail w1 = w_fail w /\ w_tick w1 = S (w_tick w).

(** A statement outside a transaction either fails with the connection,
    changing nothing, or is executed. *)
Lemma step_pool {R} (q : query R) w w1 r :
  run (db Pool q) w = (w1, r) ->
  same_session w w1 /\
  (faulty w = true /\ r = inl bad_conn /\ w_db w1 = w_db w \/
   faulty w = false /\ exec_query (now_of w) q (w_db w) = (w_db w1, r)).
Proof.
  unfold db, perform. cbn [run exec_op exec_db]. destruct (faulty w) eqn:Ef.
  - intros E. simplify_eq. split; [by split_and!|]. by left.
  - destruct (exec_query (now_of w) q (w_db w)) as [d x] eqn:Eq. intros E. simplify_eq.
    split; [by split_and!|]. by right.
Qed.

Lemma step_now w w1 n : run time_now w = (w1, n) -> n = now_of w /\ w1 = tick w.
Proof. unfold time_now, perform. cbn [run exec_op]. intros E. by simplify_eq. Qed.

Lemma step_write st b w w1 u :
  run (write st b) w = (w1, u) ->
  w_db w1 = w_db w /\ w_replies w1 = (w_replies w ++ [mkReply st b])%list /\ w_clock w1 = w_clock w /\
  committed w1 = committed w.
Proof. unfold write, perform. cbn [run exec_op]. intros E. by simplify_eq. Qed.

Lemma step_write_events st b w w1 u : run (write st b) w = (w1, u) -> w_events w1 = w_events w.
Proof. unfold write, perform. cbn [run exec_op]. intros E. by simplify_eq. Qed.

Lemma sql_one_inv {A} d d' (o : option A) a : sql_one d o = (d', inr a) -> o = Some a /\ d' = d.
Proof. destruct o; unfold sql_one, sql_ok, sql_err; intros E; by simplify_eq. Qed.

(** Operations that do not involve the database *)
Definition outside (R : Type) (o : op R) : bool :=
  match o with
  | OSvc _ | ONow | OAllow _ | ORand _ | OAudit _ | OPing => true
  | _ => false
  end.

Definition away {A} (m : prog A) : Prop := spec outside (fun _ => True) m.

Lemma exec_outside {R} (o : op R) w :
  outside R o = true ->
  w_db (exec_op o w).1 = w_db w /\ w_tx (exec_op o w).1 = w_tx w /\
  w_replies (exec_op o w).1 = w_replies w /\ committed (exec_op o w).1 = committed w.
Proof.
  destruct o as [R c q| | | | | | |R s| | | | |]; intros Ho; try discriminate Ho; simpl; try done.
  destruct (svc_exec s (w_svc w)). simpl. split_and!; try done.
  unfold committed at 1; simpl. by rewrite committed_app, orb_false_r.
Qed.

Lemma run_away {A} (m : prog A) w w1 a :
  away m -> run m w = (w1, a) ->
  w_db w1 = w_db w /\ w_tx w1 = w_tx w /\ w_replies w1 = w_replies w /\ committed w1 = committed w.
Proof.
  intros Hm E.
  set (I := fun w' : World => w_db w' = w_db w /\ w_tx w' = w_tx w /\ w_replies w' = w_replies w /\
              committed w' = committed w).
  assert (forall R (o : op R) w', outside R o = true -> I w' -> I (exec_op o w').1) as Hop.
  { intros R o w' Ho (H1 & H2 & H3 & H4). destruct (exec_outside o w' Ho) as (K1 & K2 & K3 & K4).
    unfold I. by rewrite K1, K2, K3, K4. }
  destruct (spec_run outside _ I m Hop Hm w) as [HI _]; [done|]. by rewrite E in HI.
Qed.

Lemma away_bind {A B} (m : prog A) (k : A -> prog B) :
  away m -> (forall a, away (k a)) -> away (bind m k).
Proof. intros Hm Hk. eapply spec_bind; [exact Hm|]. intros a _. apply Hk. Qed.
Lemma away_try {A B} (m : prog (result A)) h (k : A -> prog B) :
  away m -> (forall e, away (h e)) -> (forall a, away (k a)) -> away (try m h k).
Proof. intros. apply away_bind; [done|]. by intros []. Qed.
Lemma away_for_each {A S} (f : A -> S -> prog (result S)) l s :
  (forall a s', away (f a s')) -> away (for_each f l s).
Proof.
  intros Hf. revert s. induction l as [|a l IH]; intros s; simpl; [done|].
  apply away_try; [apply Hf|done|apply IH].
Qed.

Lemma step_away {A} (m : prog A) d0 t d w w1 a :
  away m -> at_tx d0 t d w -> run m w = (w1, a) -> at_tx d0 t d w1.
Proof.
  intros Hm [Hd Ht] E. destruct (run_away m w w1 a Hm E) as (H1 & H2 & _). split; congruence.
Qed.

(** A service call that returned *)
Lemma step_call {R} (s : svc R) w w1 (r : result R) :
  run (call s) w = (w1, r) -> EvSvc s r ∈ w_events w1.
Proof.
  unfold call, perform. cbn [run exec_op]. destruct (svc_exec s (w_svc w)) as [st x].
  intros E. simplify_eq. simpl. apply elem_of_app. right. by apply list_elem_of_singleton.
Qed.

Lemma step_commit d0 t d w w1 :
  at_tx d0 t d w -> run (perform OCommit) w = (w1, inr tt) ->
  w_db w1 = d /\ committed w1 = true /\ w_replies w1 = w_replies w.
Proof.
  intros [Hd Ht] E. unfold perform in E. cbn [run exec_op] in E. unfold exec_commit in E.
  rewrite Ht in E. cbn [tx_aborted orb] in E. destruct (faulty w); [done|]. simplify_eq.
  simpl. split_and!; [done| |done]. unfold committed; simpl. by rewrite committed_app, orb_true_r.
Qed.

Lemma run_harmless_db {A} (m : prog A) w w' a : harmless m -> run m w = (w', a) -> w_db w' = w_db w.
Proof. intros Hm E. pose proof (run_harmless m w Hm) as Hw. by rewrite E in Hw. Qed.

Lemma run_harmless_committed {A} (m : prog A) w w' a :
  harmless m -> run m w = (w', a) -> committed w' = committed w.
Proof.
  intros Hm E.
  assert (forall R (o : op R) v, read_only R o = true -> committed v = committed w ->
            committed (exec_op o v).1 = committed w) as Hop.
  { intros R o v Ho Hv. by rewrite exec_read_only_committed. }
  destruct (spec_run read_only _ (fun v => committed v = committed w) m Hop Hm w eq_refl) as [HI _].
  by rewrite E in HI.
Qed.

(** A transactional handler that committed ran its body to the end. *)
Lemma transactional_committed F hb cl rb body w w' :
  (forall e, harmless (hb e)) -> (forall id, harmless (cl id)) -> harmless rb ->
  settles_as F flag body -> quiet (w_db w) w ->
  run (transactional hb cl rb body) w = (w', tt) -> committed w' = true ->
  exists w1 id, at_tx (w_db w) (now_of w) (w_db w) w1 /\ w_clock w1 = w_clock w /\
    run body w1 = (w', (true, id)).
Proof.
  intros Hhb Hcl Hrb Hbody Hq E Hc. unfold transactional in E.
  destruct Hq as (_ & Hr & Hn).
  apply run_try_inv in E as [(w1 & [] & Eb & E)|(w1 & e & Eb & E)].
  2: { unfold perform in Eb. cbn [run exec_op] in Eb. unfold exec_begin in Eb.
       destruct (faulty w); [|done]. simplify_eq.
       apply run_harmless_committed in E; [|apply Hhb]. unfold committed in *. simpl in E. congruence. }
  unfold perform in Eb. cbn [run exec_op] in Eb. unfold exec_begin in Eb.
  destruct (faulty w); [done|]. injection Eb as <-.
  apply run_bind_inv in E as (w2 & [ok id] & Ebody & E). unfold deferred in E. simpl in E.
  exists (tick (set_tx (Some (mkTx (w_db w) false (now_of w))) w)), id.
  split; [by split|]. split; [done|]. destruct ok.
  { by apply run_ret_inv in E as [<- _]. }
  exfalso.
  assert (quiet (w_db w) (tick (set_tx (Some (mkTx (w_db w) false (now_of w))) w))) as Hq1
    by (split_and!; [done|exact Hr|exact Hn]).
  specialize (Hbody _ _ Hq1). rewrite Ebody in Hbody. destruct Hbody as (_ & Hnc & _).
  assert (harmless (cl id ;;; let? _ := perform ORollback catch (fun _ => rb) in Ret tt)) as Hh.
  { apply harmless_bind; [apply Hcl|]. intros _. apply harmless_try; [by split|done|done]. }
  apply run_harmless_committed in E; [|exact Hh]. simpl in *. congruence.
Qed.

(** Refused with the database unchanged, or carried out by its body. *)
Lemma transactional_outcome_as F hb cl rb body w :
  (forall v, F v -> committed v = true) ->
  (forall e, harmless (hb e)) -> (forall e, success (err_status e) = false -> settles_as F either (hb e)) ->
  (forall id, harmless (cl id)) -> harmless rb -> settles_as F flag body -> quiet (w_db w) w ->
  let w' := (run (transactional hb cl rb body) w).1 in
  refused (w_db w) w' \/
  F w' /\ exists w1 id, at_tx (w_db w) (now_of w) (w_db w) w1 /\ w_clock w1 = w_clock w /\
    run body w1 = (w', (true, id)).
Proof.
  intros HF Hh Hs Hcl Hrb Hbody Hq w'.
  destruct (settles_outcome F either (transactional hb cl rb body) w) as [Hok|Hno];
    [by apply settle_transactional|done| |by left].
  right. split; [done|]. apply HF in Hok.
  destruct (run (transactional hb cl rb body) w) as [w2 []] eqn:E.
  by apply (transactional_committed F hb cl rb body w w2).
Qed.

Lemma transactional_outcome hb cl rb body w :
  (forall e, harmless (hb e)) -> (forall e, success (err_status e) = false -> settles either (hb e)) ->
  (forall id, harmless (cl id)) -> harmless rb -> settles flag body -> quiet (w_db w) w ->
  let w' := (run (transactional hb cl rb body) w).1 in
  refused (w_db w) w' \/
  fulfilled w' /\ exists w1 id, at_tx (w_db w) (now_of w) (w_db w) w1 /\ w_clock w1 = w_clock w /\
    run body w1 = (w', (true, id)).
Proof. apply transactional_outcome_as. by intros v [Hc _]. Qed.

(** Reads before the transaction keep the request fresh. *)
Lemma fresh_read_inv {R B} (q : query R) h (k : R -> prog B) w w' b :
  is_read q = true -> fresh w -> run (try (db Pool q) h k) w = (w', b) ->
  exists w1, fresh w1 /\ w_db w1 = w_db w /\
    ((exists a, exec_query (now_of w) q (w_db w) = (w_db w, inr a) /\ run (k a) w1 = (w', b)) \/
     (exists e, run (h e) w1 = (w', b))).
Proof.
  intros Hq (Hr & Ht & He) E. rewrite run_try in E.
  unfold db, perform in E. cbn [run exec_op exec_db] in E.
  destruct (faulty w).
  { exists (tick w). split; [by split_and!|]. split; [done|]. right. by eexists. }
  pose proof (exec_read q (now_of w) (w_db w) Hq) as Hx.
  destruct (exec_query (now_of w) q (w_db w)) as [d r]. simpl in Hx. subst d.
  exists (tick (set_db (w_db w) w)). split; [by split_and!|]. split; [done|].
  destruct r as [e|a]; [right|left]; eauto.
Qed.

Lemma fresh_quiet w : fresh w -> quiet (w_db w) w.
Proof. intros (Hr & _ & He). unfold quiet, committed. by rewrite Hr, He. Qed.

Lemma quiet_write d0 st b w w' :
  quiet d0 w -> success st = false -> run (write st b) w = (w', tt) -> refused d0 w'.
Proof.
  intros Hq Hs E. pose proof (settle_write_ret fulfilled (fun _ => Some false) tt st b Hs
    ltac:(done) _ _ Hq) as Hset.
  change (run (write st b ;;; Ret tt) w) with (run (write st b) w) in Hset. by rewrite E in Hset.
Qed.

End Runs.

Ltac head_of t := lazymatch t with ?f _ => head_of f | _ => t end.

(** Unfolds a program down to its operations and checks each. *)
Ltac spec_step :=
  lazymatch goal with
  | |- forall _, _ => intros ?
  | |- spec _ _ (match ?x with _ => _ end) => destruct x
  | |- spec _ _ (Ret _) => first [exact I | reflexivity]
  | |- spec _ _ (perform _) => split; [reflexivity|done]
  | |- spec _ _ (try _ _ _) => apply spec_try_any
  | |- spec _ _ (bind _ _) => apply spec_bind_any
  | |- spec _ _ (for_each _ _ _) => apply spec_for_each
  | |- spec _ _ ?m => let h := head_of m in unfold h
  end.
Ltac spec_tac := repeat spec_step.

Ltac away_step :=
  lazymatch goal with
  | |- forall _, _ => intros ?
  | |- away (match ?x with _ => _ end) => destruct x
  | |- away (Ret _) => exact I
  | |- away (perform _) => split; [reflexivity|done]
  | |- away (try _ _ _) => apply away_try
  | |- away (bind _ _) => apply away_bind
  | |- away (for_each _ _ _) => apply away_for_each
  | |- away ?m => let h := head_of m in unfold h
  end.
(** Unfolds a helper down to its service calls. *)
Ltac away_tac := repeat away_step.

(** [inv_ok H]: [H : run m w = (w', v)] for a program text [m] that ended with
    [v]; walks over the steps, discarding the error branches that cannot end
    with [v]. *)
Ltac dead_branch H :=
  exfalso; cbv beta zeta in H;
  first
    [ apply run_result_inv in H; discriminate H
    | lazymatch type of H with run ?m _ = _ => let h := head_of m in unfold h in H end;
      first [apply run_result_inv in H | apply run_ret_inv in H as [_ H]]; discriminate H ].

Ltac inv_step H w1 a E :=
  lazymatch type of H with
  | run (try _ _ _) _ = _ =>
      apply run_try_inv in H as [(w1 & a & E & H)|(? & ? & _ & H)]; [|try dead_branch H]
  | run (bind _ _) _ = _ => apply run_bind_inv in H as (w1 & a & E & H)
  end.

(** The transaction's view across a step [E] that leaves the database alone *)
Ltac keep_tx Hat E := 
  let Hm := fresh in
  lazymatch type of E with
  | run ?m _ = _ => assert (away m) as Hm by away_tac; apply (fun H => step_away m _ _ _ _ _ _ Hm H E) in Hat; clear Hm
  end.
