(* ===== verification/Env.v ===== *)
(** * Ground Control's environment

    internal/env/ground-control.go and internal/env/utils.go: the settings the
    handlers read from the global [env.GC], and their validation.  Parsing of
    the environment itself is the caarls0/env package's; [GroundControl] holds
    what it leaves in [env.GC]. *)

From S2P Require Import Free Prelude Db Prog Logic.
From Stdlib Require Import Ascii.

#[local] Open Scope string_scope.

Record Harbor := mkHarbor {
  URL : string; Username : string; Password : string;
  SkipHealthCheck : bool; RobotDurationDays : string }.

Record PasswordPolicyEnv := mkPasswordPolicyEnv {
  MinLength : Z; MaxLength : Z; RequireUppercase : bool; RequireLowercase : bool;
  RequireNumber : bool; RequireSpecial : bool }.

Class GroundControl := {
  GC_Harbor : Harbor;
  GC_AdminPassword : string;
  GC_PasswordPolicy : PasswordPolicyEnv }.

(** [Harbor.RobotDurationDaysValue] *)
Definition RobotDurationDaysValue (h : Harbor) : Z :=
  match Go.parse_int (RobotDurationDays h) with
  | Some days => if (days <=? 0)%Z then 30 else days
  | None => 30
  end%Z.

(** [Harbor.Validate] *)
Definition Validate (h : Harbor) : result unit :=
  if String.eqb (URL h) "" then inl (PlainErr "HARBOR_URL environment variable is not set")
  else if String.eqb (Username h) "" then inl (PlainErr "HARBOR_USERNAME environment variable is not set")
  else if String.eqb (Password h) "" then inl (PlainErr "HARBOR_PASSWORD environment variable is not set")
  else inr tt.

(** The result of a pure function, as a step of a program *)
Definition lift {A} (r : result A) : prog (result A) := Ret r.

Lemma RobotDurationDaysValue_positive h : (0 < RobotDurationDaysValue h)%Z.
Proof.
  unfold RobotDurationDaysValue. destruct (Go.parse_int _) as [d|]; [|lia].
  destruct (Z.leb_spec d 0); lia.
Qed.

Lemma RobotDurationDaysValue_parsed h days :
  RobotDurationDays h = Go.itoa days -> Go.in_int64 days = true -> (0 < days)%Z ->
  RobotDurationDaysValue h = days.
Proof.
  intros E Hr Hd. unfold RobotDurationDaysValue. rewrite E, parse_int_itoa by done.
  destruct (Z.leb_spec days 0); lia.
Qed.

Lemma Validate_plain h : plain_err (Validate h).
Proof. unfold Validate. by repeat case_match. Qed.

Lemma helper_lift {A} (r : result A) : plain_err r -> helper (lift r).
Proof. apply plain_good. Qed.

#[export] Hint Resolve Validate_plain helper_lift : helpers.
