(* ===== verification/Harbor.v ===== *)
(** * Harbor and registry operations

    internal/groundcontrol/harbor and internal/groundcontrol/utils/helper.go:
    robot accounts and their permissions, the satellite project, replication
    rules, and the OCI artifacts that carry group, configuration and satellite
    states.  The Harbor API client and crane are services of [Prog]. *)

From S2P Require Import Free Prelude Db Prog Logic Env.
From Stdlib Require Import Ascii.

#[local] Open Scope string_scope.

(* ------------------------------------------------------------------ *)
(** ** Package harbor *)

Module harbor.
Section harbor.
Context `{GroundControl}.

Definition GetProject (name : string) : prog (result bool) :=
  let? proj := call (HeadProject name)
    catch wrap ("error: project head request failed for project " +:+ name) in
  ok (match proj with Some b => b | None => false end).

Definition CreateSatelliteProject : prog (result bool) :=
  let? proj := call (CreateProject "satellite" true (-1))
    catch wrap "error: project create request failed for project satellite" in
  ok proj.

Definition ListReplication (q : string) : prog (result (list string)) :=
  let? l := call (ListReplicationPolicies q) catch wrap "error: listing replication policies" in
  ok l.

Definition IsRobotPresent (name : string) : prog (result bool) :=
  let? l := call (ListRobot ("name=" +:+ name)) catch wrap "error: listing robot account" in
  ok (match l with [] => false | _ => true end).

Definition ListRobots (q : string) : prog (result (list Robot)) :=
  let? l := call (ListRobot q) catch wrap "error: listing robot account" in
  ok l.

Definition DeleteRobotAccount (id : Z) : prog (result unit) :=
  let? _ := call (DeleteRobot id) catch wrap "error: deleting robot account" in
  ok tt.

Definition RefreshRobotAccount (secret : string) (id : Z) : prog (result (option string)) :=
  let? r := call (RefreshSec id secret) catch wrap "error: updating robot account" in
  ok r.

Definition UpdateRobotAccount (r : Robot) : prog (result unit) :=
  let? _ := call (UpdateRobot (hr_id r) r) catch wrap "error: updating robot account" in
  ok tt.

Definition GetRobotAccount (id : Z) : prog (result Robot) :=
  let? r := call (GetRobotByID id) catch wrap "error: getting robot account" in
  ok r.

Definition CreateRobotAccount (r : RobotCreate) : prog (result RobotCreated) :=
  let? c := call (CreateRobot r) catch wrap "error: create robot account in adapter" in
  ok c.

Definition GetRobotDetails (r : RobotCreated) : Z * string * string * Z :=
  (rcd_id r, rcd_name r, rcd_secret r, rcd_expires_at r).

Definition robotAccess : list (string * string) :=
  [("read", "artifact"); ("read", "repository"); ("pull", "repository")].

Definition GenRobotPerms (projects : list string) : list RobotPermission :=
  (fun project => mkRobotPermission "project" project robotAccess) <$> projects.

Definition robotDurationDays : Z := RobotDurationDaysValue GC_Harbor.

Definition RobotAccountTemplate (name : string) (projects : list string) : RobotCreate :=
  mkRobotCreate "managed by ground-control should not edit" false robotDurationDays "system"
    name (GenRobotPerms projects).

End harbor.
End harbor.

(* ------------------------------------------------------------------ *)
(** ** Package utils *)

(** [url.QueryEscape] *)
Definition unreserved (a : ascii) : bool :=
  Go.is_upper_ascii a || Go.is_lower_ascii a || Go.is_digit_ascii a ||
  existsb (Ascii.eqb a) ["-"; "_"; "."; "~"]%char.

Definition upper_hex (n : nat) : ascii :=
  if (n <? 10)%nat then ascii_of_nat (48 + n) else ascii_of_nat (55 + n).

Fixpoint query_escape (s : string) : string :=
  match s with
  | "" => ""
  | String a s' =>
      if unreserved a then String a (query_escape s')
      else if Ascii.eqb a " " then String "+" (query_escape s')
      else String "%" (String (upper_hex (nat_of_ascii a / 16))
             (String (upper_hex (nat_of_ascii a mod 16)) (query_escape s')))
  end.

Module utils.
Section utils.
Context `{GroundControl}.

(** The first segment of the repository: [strings.Split(repository, "/")\[0\]] *)
Definition project_of (repository : string) : string :=
  match Go.split_on "/" repository with p :: _ => p | [] => "" end.

(** The loop of GetProjectNames: [seen] is the map, [projects] the slice. *)
Definition GetProjectNames (artifacts : list GroupArtifact) : list string :=
  foldl (fun projects a =>
    if ga_deleted a then projects
    else let p := project_of (ga_repository a) in
         if existsb (String.eqb p) projects then projects else (projects ++ [p])%list) [] artifacts.

Definition CreateRobotAccForSatellite (projects : list string) (name : string)
    : prog (result RobotCreated) :=
  let? r := harbor.CreateRobotAccount (harbor.RobotAccountTemplate name projects)
    catch wrap "error creating robot account" in
  ok r.

(** The permissions are replaced by those of [projects] and "satellite". *)
Definition UpdateRobotProjects (projects : list string) (id : string) : prog (result unit) :=
  match Go.parse_int id with
  | None => throw (PlainErr "error invalid ID")
  | Some robotID =>
      let? robot := harbor.GetRobotAccount robotID catch wrap "error getting robot account" in
      let projects := (projects ++ ["satellite"])%list in
      let? _ := harbor.UpdateRobotAccount
                  (mkRobot (hr_id robot) (hr_name robot) (harbor.GenRobotPerms projects)
                     (hr_expires_at robot))
        catch wrap "error updating robot account" in
      ok tt
  end.

Definition AssembleGroupState (groupName : string) : string :=
  URL GC_Harbor +:+ "/satellite/group-state/" +:+ groupName +:+ "/state:latest".

Definition AssembleSatelliteState (satelliteName : string) : string :=
  URL GC_Harbor +:+ "/satellite/satellite-state/" +:+ satelliteName +:+ "/state:latest".

Definition AssembleConfigState (configName : string) : string :=
  URL GC_Harbor +:+ "/satellite/config-state/" +:+ configName +:+ "/state:latest".

Definition stripProtocol (url : string) : string :=
  match Go.after "://" url with Some rest => rest | None => url end.

Definition getStateArtifactDestination (registry repository : string) : string :=
  registry +:+ "/" +:+ repository +:+ "/state".

Definition unix (t : Z) : Z := (t / second)%Z.

Definition pushImage (img : string * document) (dest : string) (o : CraneOptions)
    : prog (result unit) :=
  let? _ := call (CranePush img dest o) catch wrap "failed to push image" in
  ok tt.

Definition tagImage (dest : string) (o : CraneOptions) : prog (result unit) :=
  let* now := time_now in
  for_each (fun tag _ =>
    let? _ := call (CraneTag dest tag o) catch wrap ("failed to tag image with " +:+ tag) in
    ok tt) [Go.itoa (unix now); "latest"] tt.

Definition crane_options (cfg : Harbor) (url : string) : CraneOptions :=
  mkCraneOptions (Username cfg) (Password cfg) (Go.has_prefix "http://" url).

(** The state artifact of a group.  [registry] is overwritten with HARBOR_URL. *)
Definition CreateStateArtifact (group : string) (artifacts : list GroupArtifact)
    : prog (result unit) :=
  let cfg := GC_Harbor in
  let? _ := lift (Validate cfg) catch throw in
  let registry := URL cfg in
  let? img := call (CraneImage "artifacts.json" (DocGroupState group registry artifacts))
    catch wrap "failed to create image" in
  let repo := "satellite/group-state/" +:+ group in
  let options := crane_options cfg registry in
  let destinationRepo := stripProtocol (getStateArtifactDestination registry repo) in
  let? _ := call (CranePush img destinationRepo options) catch wrap "failed to push image" in
  tagImage destinationRepo options.

Definition CreateAndPushConfigStateArtifact (configData configName : string)
    : prog (result unit) :=
  let? img := call (CraneImage "artifacts.json" (DocConfig configData))
    catch wrap "failed to create image" in
  let? _ := lift (Validate GC_Harbor) catch throw in
  let cfg := GC_Harbor in
  let options := crane_options cfg (URL cfg) in
  let destinationRepo := stripProtocol (AssembleConfigState configName) in
  let? _ := call (CranePush img destinationRepo options) catch wrap "failed to push image" in
  tagImage destinationRepo options.

(** Nothing is pushed for an empty list of states. *)
Definition CreateOrUpdateSatStateArtifact (satelliteName : string) (states : list string)
    (config : string) : prog (result unit) :=
  if String.eqb satelliteName "" then
    throw (PlainErr "the satellite name must be atleast one character long")
  else match states with
  | [] => ok tt
  | _ =>
      let? _ := lift (Validate GC_Harbor) catch throw in
      let? img := call (CraneImage "artifacts.json"
                          (DocSatelliteState states (AssembleConfigState config)))
        catch wrap "failed to create image" in
      let cfg := GC_Harbor in
      let options := crane_options cfg (URL cfg) in
      let destinationRepo := stripProtocol (AssembleSatelliteState satelliteName) in
      let? _ := pushImage img destinationRepo options catch throw in
      tagImage destinationRepo options
  end.

Definition DeleteArtifact (deleteURL : string) : prog (result unit) :=
  let? _ := lift (Validate GC_Harbor) catch throw in
  let cfg := GC_Harbor in
  let? code := call (HttpDelete deleteURL (Username cfg) (Password cfg))
    catch wrap "failed to send request" in
  if negb (code =? 200)%Z && negb (code =? 202)%Z && negb (code =? 204)%Z
  then throw (PlainErr ("failed to delete repository, received status: " +:+ Go.itoa code))
  else ok tt.

Definition ConstructHarborDeleteURL (repo repoType : string) : string :=
  let repositoryName := repoType +:+ "-state/" +:+ repo +:+ "/state" in
  URL GC_Harbor +:+ "/api/v2.0/projects/satellite/repositories/"
    +:+ query_escape (query_escape repositoryName).

(** The pattern ^\[a-z0-9\]\[a-z0-9._-\]*$ and a length of 1 to 255 bytes *)
Definition name_start (a : ascii) : bool := Go.is_lower_ascii a || Go.is_digit_ascii a.
Definition name_char (a : ascii) : bool :=
  name_start a || Ascii.eqb a "." || Ascii.eqb a "_" || Ascii.eqb a "-".

Definition IsValidName (name : string) : bool :=
  if (String.length name <? 1)%nat || (255 <? String.length name)%nat then false
  else match name with
       | String a s => name_start a && Go.forallb_bytes name_char s
       | "" => false
       end.

End utils.
End utils.

(* ------------------------------------------------------------------ *)
(** ** Effects: every operation of this file is a quiet helper *)

Section HelperFacts.
Context `{GroundControl}.

Lemma helper_GetProject n : helper (harbor.GetProject n).
Proof. unfold harbor.GetProject. helper_tac. Qed.
Lemma helper_CreateSatelliteProject : helper harbor.CreateSatelliteProject.
Proof. unfold harbor.CreateSatelliteProject. helper_tac. Qed.
Lemma helper_ListReplication q : helper (harbor.ListReplication q).
Proof. unfold harbor.ListReplication. helper_tac. Qed.
Lemma helper_IsRobotPresent n : helper (harbor.IsRobotPresent n).
Proof. unfold harbor.IsRobotPresent. helper_tac. Qed.
Lemma helper_DeleteRobotAccount id : helper (harbor.DeleteRobotAccount id).
Proof. unfold harbor.DeleteRobotAccount. helper_tac. Qed.
Lemma helper_RefreshRobotAccount s id : helper (harbor.RefreshRobotAccount s id).
Proof. unfold harbor.RefreshRobotAccount. helper_tac. Qed.
Lemma helper_UpdateRobotAccount r : helper (harbor.UpdateRobotAccount r).
Proof. unfold harbor.UpdateRobotAccount. helper_tac. Qed.
Lemma helper_GetRobotAccount id : helper (harbor.GetRobotAccount id).
Proof. unfold harbor.GetRobotAccount. helper_tac. Qed.
Lemma helper_CreateRobotAccount r : helper (harbor.CreateRobotAccount r).
Proof. unfold harbor.CreateRobotAccount. helper_tac. Qed.
#[local] Hint Resolve helper_GetRobotAccount helper_UpdateRobotAccount helper_CreateRobotAccount : helpers.

Lemma helper_CreateRobotAccForSatellite l n : helper (utils.CreateRobotAccForSatellite l n).
Proof. unfold utils.CreateRobotAccForSatellite. helper_tac. Qed.
Lemma helper_UpdateRobotProjects l id : helper (utils.UpdateRobotProjects l id).
Proof. unfold utils.UpdateRobotProjects. helper_tac. Qed.
Lemma helper_pushImage i d o : helper (utils.pushImage i d o).
Proof. unfold utils.pushImage. helper_tac. Qed.
Lemma helper_tagImage d o : helper (utils.tagImage d o).
Proof. unfold utils.tagImage. helper_tac. Qed.
#[local] Hint Resolve helper_pushImage helper_tagImage : helpers.

Lemma helper_CreateStateArtifact g l : helper (utils.CreateStateArtifact g l).
Proof. unfold utils.CreateStateArtifact. helper_tac. Qed.
Lemma helper_CreateAndPushConfigStateArtifact d n :
  helper (utils.CreateAndPushConfigStateArtifact d n).
Proof. unfold utils.CreateAndPushConfigStateArtifact. helper_tac. Qed.
Lemma helper_CreateOrUpdateSatStateArtifact n l c :
  helper (utils.CreateOrUpdateSatStateArtifact n l c).
Proof. unfold utils.CreateOrUpdateSatStateArtifact. helper_tac. Qed.
Lemma helper_DeleteArtifact u : helper (utils.DeleteArtifact u).
Proof. unfold utils.DeleteArtifact. helper_tac. Qed.
End HelperFacts.

#[export] Hint Resolve helper_GetProject helper_CreateSatelliteProject helper_ListReplication
  helper_IsRobotPresent helper_DeleteRobotAccount helper_RefreshRobotAccount
  helper_UpdateRobotAccount helper_GetRobotAccount helper_CreateRobotAccount
  helper_CreateRobotAccForSatellite helper_UpdateRobotProjects helper_pushImage helper_tagImage
  helper_CreateStateArtifact helper_CreateAndPushConfigStateArtifact
  helper_CreateOrUpdateSatStateArtifact helper_DeleteArtifact : helpers.
