(* ===== verification/Crypto.v ===== *)
(** * Secrets

    internal/crypto/argon2.go and internal/groundcontrol/auth/password.go: the
    encoding of argon2id hashes, their verification, and session tokens.
    The [%d] verb of fmt.Sscanf is the standard library's and is modelled. *)

From S2P Require Import Free Prelude CryptoLib Db Prog Logic.
From Stdlib Require Import Ascii.

#[local] Open Scope string_scope.

(* ------------------------------------------------------------------ *)
(** ** fmt.Sscanf with the verb [%d] *)

Module Sscanf.

(** SkipSpace: a newline is an error. *)
Fixpoint skip_space (s : string) : option string :=
  match s with
  | String a s' =>
      if (nat_of_ascii a =? 10)%nat then None
      else if Go.is_space a then skip_space s' else Some s
  | "" => Some ""
  end.

Fixpoint digits (s : string) : string * string :=
  match s with
  | String a s' =>
      if Go.is_digit_ascii a then let '(d, r) := digits s' in (String a d, r) else ("", s)
  | "" => ("", "")
  end.

(** %d into an unsigned integer of [bits] bits *)
Definition scan_uint (bits : Z) (s : string) : option (Z * string) :=
  match skip_space s with
  | None => None
  | Some s' =>
      let '(d, r) := digits s' in
      match Go.parse_uint d with
      | Some n => if (n <? 2 ^ bits)%Z then Some (n, r) else None
      | None => None
      end
  end.

(** %d into an int *)
Definition scan_int (s : string) : option (Z * string) :=
  match skip_space s with
  | None => None
  | Some s' =>
      let '(neg, s'') :=
        match s' with
        | String "-" t => (true, t)
        | String "+" t => (false, t)
        | _ => (false, s')
        end in
      let '(d, r) := digits s'' in
      match Go.parse_uint d with
      | Some n =>
          let z := if neg : bool then (- n)%Z else n in
          if Go.in_int64 z then Some (z, r) else None
      | None => None
      end
  end.

(** A literal of the format *)
Definition expect (lit s : string) : option string :=
  if Go.has_prefix lit s then Some (Go.drop_bytes (String.length lit) s) else None.

(** Sscanf(s, "v=%d", &version) *)
Definition version (s : string) : option Z :=
  match expect "v=" s with
  | Some r => fst <$> scan_int r
  | None => None
  end.

(** Sscanf(s, "m=%d,t=%d,p=%d", &memory, &time, &parallelism) *)
Definition params (s : string) : option (Z * Z * Z) :=
  match expect "m=" s with
  | None => None
  | Some r =>
      match scan_uint 32 r with
      | None => None
      | Some (m, r) =>
          match expect ",t=" r with
          | None => None
          | Some r =>
              match scan_uint 32 r with
              | None => None
              | Some (t, r) =>
                  match expect ",p=" r with
                  | None => None
                  | Some r =>
                      match scan_uint 8 r with
                      | None => None
                      | Some (p, _) => Some (m, t, p)
                      end
                  end
              end
          end
      end
  end.

End Sscanf.

(* ------------------------------------------------------------------ *)
(** ** Package crypto *)

Section Crypto.
Context `{Argon2}.

Definition ArgonTime : Z := 2.
Definition ArgonMemory : Z := 19456.
Definition ArgonParallelism : Z := 1.
Definition ArgonSaltSize : nat := 16.
Definition ArgonKeySize : Z := 32.
Definition argon2_Version : Z := 19.

Definition TimingMitigationHash : string :=
  "$argon2id$v=19$m=19456,t=2,p=1$sTRCxaCWJQNOIu7hh9KX4w$GrsMm3WlnXrlX+zxlaEzQFx2Z0oFggcZgVjYe95jl5A".

Definition encode_hash (salt hash : list ascii) : string :=
  "$argon2id$v=" +:+ Go.itoa argon2_Version +:+ "$m=" +:+ Go.itoa ArgonMemory +:+ ",t="
    +:+ Go.itoa ArgonTime +:+ ",p=" +:+ Go.itoa ArgonParallelism
    +:+ "$" +:+ Base64.encode Base64.std "" salt
    +:+ "$" +:+ Base64.encode Base64.std "" hash.

(** The body of HashSecret once the salt is drawn *)
Definition hash_with_salt (secret : string) (salt : list ascii) : string :=
  encode_hash salt
    (argon2_IDKey (bytes secret) salt ArgonTime ArgonMemory ArgonParallelism ArgonKeySize).

Definition HashSecret (secret : string) : prog (result string) :=
  let? salt := perform (ORand ArgonSaltSize) catch wrap "generate salt" in
  ok (hash_with_salt secret salt).

Definition splitHash (hash : string) : list string := Go.split_on "$" hash.

(** The stored key and the key derived from [secret] with the stored
    parameters; [None] when the stored text is not such a hash. *)
Definition parse_hash (storedHash : string) : option (Z * Z * Z * list ascii * list ascii) :=
  match splitHash storedHash with
  | [_; _; v; p; salt64; hash64] =>
      match Sscanf.version v with
      | None => None
      | Some version =>
          if negb (version =? argon2_Version)%Z then None
          else match Sscanf.params p with
          | None => None
          | Some (memory, time, parallelism) =>
              match Base64.decode false salt64 with
              | None => None
              | Some salt =>
                  match Base64.decode false hash64 with
                  | None => None
                  | Some key => Some (memory, time, parallelism, salt, key)
                  end
              end
          end
      end
  | _ => None
  end.

Definition VerifySecret (secret storedHash : string) : bool :=
  match parse_hash storedHash with
  | None => false
  | Some (memory, time, parallelism, salt, storedHashBytes) =>
      let keyLen := (Z.of_nat (length storedHashBytes) mod 2 ^ 32)%Z in
      let hash := argon2_IDKey (bytes secret) salt time memory parallelism keyLen in
      bool_decide (storedHashBytes = hash)
  end.

(* ------------------------------------------------------------------ *)
(** ** Package auth: passwords and session tokens *)

Definition HashPassword (password : string) : prog (result string) := HashSecret password.

Definition VerifyPassword (password encodedHash : string) : bool :=
  VerifySecret password encodedHash.

Definition GenerateSessionToken : prog (result string) :=
  let? b := perform (ORand 64) catch wrap "failed to generate session token" in
  ok (Base64.encode Base64.url "=" b).

End Crypto.

(* ------------------------------------------------------------------ *)
(** ** Splitting an encoded hash *)

Section HashFacts.
Context `{Argon2}.

Lemma split_on_plain s :
  Forall (fun a => plain_char a = true) (bytes s) -> Go.split_on "$" s = [s].
Proof.
  induction s as [|a s IH]; intros Hs; [done|]. inversion Hs as [|? ? Ha Hr]; subst.
  cbn [Go.split_on]. destruct (plain_split a Ha) as (_ & _ & ->). by rewrite IH.
Qed.

Lemma split_on_plain_app s t :
  Forall (fun a => plain_char a = true) (bytes s) ->
  Go.split_on "$" (s +:+ "$" +:+ t) = s :: Go.split_on "$" t.
Proof.
  induction s as [|a s IH]; intros Hs; [done|]. inversion Hs as [|? ? Ha Hr]; subst.
  change (String a s +:+ "$" +:+ t) with (String a (s +:+ "$" +:+ t)).
  cbn [Go.split_on]. destruct (plain_split a Ha) as (_ & _ & ->).
  by rewrite IH.
Qed.

(** What VerifySecret reads from a hash HashSecret wrote *)
Lemma parse_encode_hash salt key :
  parse_hash (encode_hash salt key) = Some (ArgonMemory, ArgonTime, ArgonParallelism, salt, key).
Proof.
  unfold parse_hash, splitHash, encode_hash.
  change (Go.split_on "$" _) with
    ("" :: "argon2id" :: "v=19" :: "m=19456,t=2,p=1" ::
      Go.split_on "$" (Base64.encode Base64.std "" salt +:+ "$" +:+ Base64.encode Base64.std "" key)).
  rewrite split_on_plain_app, split_on_plain by apply encode_plain.
  change (Sscanf.version "v=19") with (Some 19%Z).
  change (Sscanf.params "m=19456,t=2,p=1") with (Some (ArgonMemory, ArgonTime, ArgonParallelism)).
  cbv iota beta. rewrite !decode_encode. done.
Qed.

Lemma verify_encode_hash secret salt key :
  VerifySecret secret (encode_hash salt key) =
  bool_decide (key = argon2_IDKey (bytes secret) salt ArgonTime ArgonMemory ArgonParallelism
                       (Z.of_nat (length key) mod 2 ^ 32)%Z).
Proof. unfold VerifySecret. by rewrite parse_encode_hash. Qed.

End HashFacts.

(** HashSecret and VerifySecret agree: a secret verifies against a stored
    hash exactly when argon2id derives the same 32 bytes from it and the
    stored salt, whatever bytes the salt and the key consist of.  The
    hypothesis is the contract of argon2.IDKey: it returns keyLen bytes. *)
Theorem verify_hashed_secret `{Argon2} secret secret' salt :
  (forall p s t m l, length (argon2_IDKey p s t m l ArgonKeySize) = 32%nat) ->
  VerifySecret secret' (hash_with_salt secret salt) = true <->
  argon2_IDKey (bytes secret') salt ArgonTime ArgonMemory ArgonParallelism ArgonKeySize =
  argon2_IDKey (bytes secret) salt ArgonTime ArgonMemory ArgonParallelism ArgonKeySize.
Proof.
  intros Hlen. unfold hash_with_salt. rewrite verify_encode_hash, Hlen, bool_decide_eq_true.
  split; intros E; symmetry; exact E.
Qed.

(** A key derivation for the witnesses: it repeats salt and password. *)
Definition toy_argon2 : Argon2 := fun p s _ _ _ n =>
  let l := (s ++ p)%list in
  (take (Z.to_nat n) l ++ repeat zero (Z.to_nat n - length l))%list.

Lemma toy_length p s t m l : length (toy_argon2 p s t m l ArgonKeySize) = 32%nat.
Proof. unfold toy_argon2. change (Z.to_nat ArgonKeySize) with 32%nat.
  rewrite length_app, repeat_length, length_take. lia. Qed.

Lemma verify_hashed_secret_witness :
  VerifySecret (H := toy_argon2) "hunter2" (hash_with_salt (H := toy_argon2) "hunter2" []) = true.
Proof.
  apply (verify_hashed_secret (H := toy_argon2) "hunter2" "hunter2" []); [exact toy_length|reflexivity].
Defined.
