(* ===== verification/Spiffe.v ===== *)
(** * SPIFFE identities

    internal/groundcontrol/spiffe: authorizer.go (who may connect, and the
    satellite and region an identity names) and extractPath of
    server_client.go.  A spiffeid.ID of go-spiffe is its trust domain and its
    path; parsing a certificate's URI into one is the library's and is the
    argument [FromURI]. *)

From S2P Require Import Free Prelude Prog.
From Stdlib Require Import Ascii.

#[local] Open Scope string_scope.

Record SpiffeID := mkSpiffeID { sid_trust_domain : string; sid_path : string }.

(** [id.String()] *)
Definition SpiffeID_String (id : SpiffeID) : string :=
  "spiffe://" +:+ sid_trust_domain id +:+ sid_path id.

(** SatelliteAuthorizer.Authorize: [true] when it returns nil *)
Definition SatelliteAuthorizer_Authorize (trustDomain : string) (actual : SpiffeID) : bool :=
  if negb (String.eqb (sid_trust_domain actual) trustDomain) then false
  else if negb (String.eqb (sid_path actual) "/satellite") &&
          negb (Go.has_prefix "/satellite/" (sid_path actual))
  then false else true.

(** ExtractRegionFromSPIFFEID *)
Definition ExtractRegionFromSPIFFEID (id : SpiffeID) : option string :=
  let path := sid_path id in
  if negb (Go.has_prefix "/satellite/region/" path) then None
  else let parts := Go.split_on "/" path in
       if (length parts <? 4)%nat then None else parts !! 3%nat.

(** RegionAuthorizer.Authorize *)
Definition RegionAuthorizer_Authorize (trustDomain : string) (allowedRegions : list string)
    (actual : SpiffeID) : bool :=
  if negb (String.eqb (sid_trust_domain actual) trustDomain) then false
  else match ExtractRegionFromSPIFFEID actual with
  | None => false
  | Some region => existsb (String.eqb region) allowedRegions
  end.

(** ExtractSatelliteNameFromSPIFFEID *)
Definition ExtractSatelliteNameFromSPIFFEID (id : SpiffeID) : option string :=
  let path := sid_path id in
  if String.eqb path "/satellite" then Some "default"
  else if negb (Go.has_prefix "/satellite/" path) then None
  else
    let parts := Go.split_on "/" path in
    if (length parts =? 3)%nat then parts !! 2%nat
    else if (5 <=? length parts)%nat && bool_decide (parts !! 2%nat = Some "region")
    then parts !! 4%nat
    else last parts.

(** BuildSatelliteSPIFFEID and BuildGroundControlSPIFFEID, before the checks of
    spiffeid.FromPath *)
Definition BuildSatelliteSPIFFEID (trustDomain region name : string) : SpiffeID :=
  mkSpiffeID trustDomain ("/satellite/region/" +:+ region +:+ "/" +:+ name).
Definition BuildGroundControlSPIFFEID (trustDomain : string) : SpiffeID :=
  mkSpiffeID trustDomain "/gc/main".

(** ExtractSPIFFEIDFromCert: the first URI whose scheme is spiffe *)
Fixpoint ExtractSPIFFEIDFromCert (FromURI : string -> option SpiffeID)
    (uris : list (string * string)) : option SpiffeID :=
  match uris with
  | [] => None
  | (scheme, uri) :: rest =>
      if String.eqb scheme "spiffe" then FromURI uri
      else ExtractSPIFFEIDFromCert FromURI rest
  end.

(** ExtractSPIFFEIDFromRequest: r.TLS and its peer certificates, each the list
    of its URIs *)
Definition ExtractSPIFFEIDFromRequest (FromURI : string -> option SpiffeID)
    (tls : option (list (list (string * string)))) : option SpiffeID :=
  match tls with
  | None => None
  | Some [] => None
  | Some (cert :: _) => ExtractSPIFFEIDFromCert FromURI cert
  end.

(** server_client.go: extractPath *)
Definition extractPath (spiffeID trustDomain : string) : string :=
  let prefix := "spiffe://" +:+ trustDomain in
  if Go.has_prefix prefix spiffeID then Go.trim_prefix prefix spiffeID
  else if Go.has_prefix "/" spiffeID then spiffeID
  else "/" +:+ spiffeID.

(** The selectors of CreateWorkloadEntry: type and value, or an error *)
Fixpoint parse_selectors (selectors : list string) : option (list (string * string)) :=
  match selectors with
  | [] => Some []
  | sel :: rest =>
      match Go.cut ":" sel with
      | None => None
      | Some tv => match parse_selectors rest with Some l => Some (tv :: l) | None => None end
      end
  end.

(* ------------------------------------------------------------------ *)
(** ** Identities and names *)

Section Names.

Definition no_slash (s : string) : Prop := Go.contains s "/" = false.

Lemma no_slash_cons a s : no_slash (String a s) <-> Ascii.eqb a "/" = false /\ no_slash s.
Proof.
  unfold no_slash. cbn [Go.contains Go.has_prefix].
  rewrite andb_true_r, Ascii.eqb_sym, orb_false_iff. done.
Qed.

Lemma split_no_slash s : no_slash s -> Go.split_on "/" s = [s].
Proof.
  induction s as [|a s IH]; [done|]. rewrite no_slash_cons. intros [Ha Hs].
  cbn [Go.split_on]. by rewrite Ha, IH.
Qed.

Lemma split_slash_app s t :
  no_slash s -> Go.split_on "/" (s +:+ "/" +:+ t) = s :: Go.split_on "/" t.
Proof.
  induction s as [|a s IH]; [done|]. rewrite no_slash_cons. intros [Ha Hs].
  change (String a s +:+ "/" +:+ t) with (String a (s +:+ "/" +:+ t)).
  cbn [Go.split_on]. by rewrite Ha, IH.
Qed.

Lemma split_built region name :
  no_slash region -> no_slash name ->
  Go.split_on "/" ("/satellite/region/" +:+ region +:+ "/" +:+ name) =
  [""; "satellite"; "region"; region; name].
Proof.
  intros Hr Hn.
  change (Go.split_on "/" _) with
    ("" :: "satellite" :: "region" :: Go.split_on "/" (region +:+ "/" +:+ name)).
  by rewrite split_slash_app, split_no_slash.
Qed.

(** The SPIFFE identity built for a satellite is accepted by the
    authorizer of its trust domain, and Ground Control reads the satellite's
    name and region back from it, for every region and name without a "/". *)
Theorem built_identity_names_satellite td region name :
  no_slash region -> no_slash name ->
  let id := BuildSatelliteSPIFFEID td region name in
  SatelliteAuthorizer_Authorize td id = true /\
  ExtractSatelliteNameFromSPIFFEID id = Some name /\
  ExtractRegionFromSPIFFEID id = Some region.
Proof.
  intros Hr Hn id.
  unfold SatelliteAuthorizer_Authorize, ExtractSatelliteNameFromSPIFFEID, ExtractRegionFromSPIFFEID.
  cbn [id BuildSatelliteSPIFFEID sid_path sid_trust_domain].
  rewrite String.eqb_refl, !split_built by done.
  change ("/satellite/region/" +:+ region +:+ "/" +:+ name) with
    ("/satellite/" +:+ "region/" +:+ region +:+ "/" +:+ name) at 1 2 3.
  rewrite has_prefix_app. rewrite has_prefix_app. by simpl.
Qed.
End Names.

Lemma built_identity_names_satellite_witness :
  ExtractSatelliteNameFromSPIFFEID (BuildSatelliteSPIFFEID "example.org" "eu" "edge-01") = Some "edge-01".
Proof. apply (built_identity_names_satellite "example.org" "eu" "edge-01"); reflexivity. Defined.

(** An identity of four path segments names its region as the satellite. *)
Example region_only_identity :
  ExtractSatelliteNameFromSPIFFEID (mkSpiffeID "example.org" "/satellite/region/eu") = Some "eu".
Proof. reflexivity. Qed.
