(* ===== verification/Server.v ===== *)
(** * The server's common code

    internal/groundcontrol/server: handleResponse.go, helpers.go and the
    request-scoped parts of middleware.go (request id, client address, audit
    event, Authorization header), which every handler uses. *)

From S2P Require Import Free Prelude Db Prog Logic Runs Env Harbor CryptoLib Crypto Duration Spiffe.
From Stdlib Require Import Ascii.

#[local] Open Scope string_scope.

(** The message lib/pq gives a *pq.Error, from its SQLSTATE: PostgreSQL's text. *)
Class PqText := pq_text : string -> string.

(** [err.Error()] *)
Fixpoint error_text `{PqText} (e : goerr) : string :=
  match e with
  | AppErr m _ => m
  | NoRows => "sql: no rows in result set"
  | PqErr c => pq_text c
  | NotExist => "file does not exist"
  | Canceled => "context canceled"
  | PlainErr m => m
  | WrapErr m e' => m +:+ ": " +:+ error_text e'
  end.

(* ------------------------------------------------------------------ *)
(** ** Requests and the server *)

Record AuthUser := mkAuthUser { au_id : Z; au_username : string; au_role : string }.

(** A request: its remote address, its headers (Header.Get) and the values the
    middlewares put in its context. *)
Record Request := mkRequest {
  rq_remote : string;
  rq_header : string -> string;
  rq_request_id : option string;
  rq_user : option AuthUser;
  rq_spiffe_id : option SpiffeID;
  rq_satellite_name : option string }.

Definition with_user (u : AuthUser) (r : Request) : Request :=
  mkRequest (rq_remote r) (rq_header r) (rq_request_id r) (Some u) (rq_spiffe_id r)
    (rq_satellite_name r).
Definition with_request_id (id : string) (r : Request) : Request :=
  mkRequest (rq_remote r) (rq_header r) (Some id) (rq_user r) (rq_spiffe_id r)
    (rq_satellite_name r).

(** spiffe.ContextWithSatelliteName *)
Definition ContextWithSatelliteName (n : string) (r : Request) : Request :=
  mkRequest (rq_remote r) (rq_header r) (rq_request_id r) (rq_user r) (rq_spiffe_id r) (Some n).

Record PasswordPolicy := mkPasswordPolicy {
  pp_min : Z; pp_max : Z; pp_upper : bool; pp_lower : bool; pp_number : bool; pp_special : bool }.

(** The fields of *Server the handlers read *)
Class Server := {
  s_spiffeProvider : option string;       (* its trust domain, when not nil *)
  s_spireClient : bool;                   (* not nil *)
  s_embeddedSpire : bool;
  s_spireTrustDomain : string;
  s_spireServerAddress : string;
  s_spireServerPort : Z;
  s_sessionDuration : Z;
  s_lockoutDuration : Z;
  s_passwordPolicy : PasswordPolicy;
  s_trustForwardedHeaders : bool }.

(* ------------------------------------------------------------------ *)
(** ** handleResponse.go *)

Definition WriteJSONResponse (status : Z) (body : payload) : prog unit := write status body.

Definition WriteJSONError (message : string) (status : Z) : prog unit :=
  write status (PAppError message status).

Definition HandleAppError (e : goerr) : prog unit :=
  match Err.as_app e with
  | Some (m, c) => WriteJSONResponse c (PAppError m c)
  | None => WriteJSONResponse 500 (PAppError "Internal Server Error" 500)
  end.

(* ------------------------------------------------------------------ *)
(** ** middleware.go: request id, client address, audit *)

Definition allowed_id_char (a : ascii) : bool :=
  Go.is_lower_ascii a || Go.is_upper_ascii a || Go.is_digit_ascii a ||
  Ascii.eqb a "." || Ascii.eqb a "_" || Ascii.eqb a "-".

Definition maxRequestIDLen : nat := 128.

(** Every rune is allowed: the allowed ones are ASCII, and a byte of a
    multi-byte rune is not. *)
Definition validRequestID (s : string) : bool :=
  if (String.length s =? 0)%nat || (maxRequestIDLen <? String.length s)%nat then false
  else Go.forallb_bytes allowed_id_char s.

(** RequestIDMiddleware; [uuid] is what uuid.NewString returns. *)
Definition RequestIDMiddleware (uuid : string) (r : Request) : Request :=
  let rid := Go.trim_space (rq_header r "X-Request-ID") in
  let rid := if validRequestID rid then rid else uuid in
  with_request_id rid r.

Definition requestIDFromContext (r : Request) : string :=
  match rq_request_id r with Some id => id | None => "" end.

(** The text before the last byte [c], and after it *)
Fixpoint cut_last (c : ascii) (s : string) : option (string * string) :=
  match s with
  | "" => None
  | String a s' =>
      match cut_last c s' with
      | Some (x, y) => Some (String a x, y)
      | None => if Ascii.eqb a c then Some ("", s') else None
      end
  end.

(** [net.SplitHostPort]: the host; [None] for an error *)
Definition SplitHostPort (hostport : string) : option string :=
  match cut_last ":" hostport with
  | None => None
  | Some (before, port) =>
      match hostport with
      | String "[" rest =>
          match Go.cut "]" rest with
          | None => None
          | Some (host, tail) =>
              (* the bracket closes right before the last colon *)
              if String.eqb tail (":" +:+ port) then
                if Go.contains host "[" || Go.contains port "]" || Go.contains port "["
                then None else Some host
              else None
          end
      | _ =>
          if Go.contains before ":" || Go.contains hostport "[" || Go.contains hostport "]"
          then None else Some before
      end
  end.

Section Server.
Context `{Server, GroundControl, PqText}.

Definition clientIP (r : Request) : string :=
  let remote :=
    match SplitHostPort (rq_remote r) with Some host => host | None => rq_remote r end in
  if s_trustForwardedHeaders then
    let xff := rq_header r "X-Forwarded-For" in
    if negb (String.eqb xff "") then
      match Go.cut "," xff with
      | Some (first, _) => if String.eqb first "" then Go.trim_space xff else Go.trim_space first
      | None => Go.trim_space xff
      end
    else let xri := Go.trim_space (rq_header r "X-Real-IP") in
         if negb (String.eqb xri "") then xri else remote
  else remote.

Definition auditEvent (r : Request) (e : AuditEvent) : prog unit :=
  audit_log (mkAuditEvent (ae_operation e) (ae_resource_type e) (ae_outcome e) (ae_actor e)
    (ae_actor_type e) (ae_satellite_id e) (ae_resource e) (ae_reason e) (ae_details e)
    (clientIP r) (rq_header r "User-Agent") (requestIDFromContext r)).

Definition actorFromContext (r : Request) : string :=
  match rq_user r with Some u => au_username u | None => "unknown" end.

(** Authorization: <scheme> <rest>, as SplitN(_, " ", 2) and EqualFold read it *)
Definition authorization (scheme : string) (r : Request) : option string :=
  match Go.cut " " (rq_header r "Authorization") with
  | Some (s, rest) => if Go.equal_fold s scheme then Some rest else None
  | None => None
  end.

Definition extractBearerToken (r : Request) : string :=
  match authorization "Bearer" r with Some t => t | None => "" end.

Definition extractToken (r : Request) : string := extractBearerToken r.

Fixpoint of_bytes (l : list ascii) : string :=
  match l with [] => "" | a :: l' => String a (of_bytes l') end.

Definition extractBasicAuth (r : Request) : option (string * string) :=
  match authorization "Basic" r with
  | None => None
  | Some enc =>
      match Base64.decode true enc with
      | None => None
      | Some decoded => Go.cut ":" (of_bytes decoded)
      end
  end.

(* ------------------------------------------------------------------ *)
(** ** helpers.go *)

Definition fail (message : string) (code : Z) : goerr := AppErr message code.

Definition invalidNameMessage (kind : string) : string :=
  "Invalid " +:+ kind +:+ " name: must be 1-255 chars, start with letter/number, and contain only lowercase letters, numbers, and ._-".

Definition isConfigInUse (q : conn) (config : Config) : prog (result bool) :=
  let? satellites := db q (QConfigSatelliteList (cfg_id config)) catch throw in
  ok (match satellites with [] => false | _ => true end).

Definition setSatelliteConfig (q : conn) (satelliteName configName : string)
    : prog (result Satellite) :=
  let? sat := db q (QGetSatelliteByName satelliteName)
    catch (fun _ => throw (fail "Error: Satellite Not Found" 400)) in
  let? configObject := db q (QGetConfigByName configName)
    catch (fun _ => throw (fail "Error: Config Not Found" 400)) in
  let? _ := db q (QSetSatelliteConfig (sat_id sat) (cfg_id configObject))
    catch (fun _ => throw (fail "Error: Failed to Set Satellite config" 500)) in
  ok sat.

(** A pointer to a slice: [None] is nil. *)
Definition deref {A} (l : option (list A)) : list A :=
  match l with Some l => l | None => [] end.

Definition addSatelliteToGroups (q : conn) (groups : option (list string)) (satelliteID : Z)
    : prog (result (list string)) :=
  for_each (fun groupName groupStates =>
    let* replications := harbor.ListReplication ("name=" +:+ groupName) in
    match replications with
    | inl _ =>
        throw (fail ("Error: Group Name: " +:+ groupName +:+
          ", does not exist in replication, Please give a Valid Group Name") 400)
    | inr _ =>
        let? group := db q (QGetGroupByName groupName)
          catch (fun _ => throw (fail ("Error: Invalid Group Name: " +:+ groupName) 400)) in
        let? _ := db q (QAddSatelliteToGroup satelliteID (grp_id group)) catch throw in
        ok (groupStates ++ [utils.AssembleGroupState groupName])%list
    end) (deref groups) [].

Definition ensureSatelliteProjectExists : prog (result unit) :=
  let? satExist := harbor.GetProject "satellite"
    catch (fun e => throw (fail ("Error: Checking satellite project: " +:+ error_text e) 502)) in
  if satExist : bool then ok tt
  else let? _ := harbor.CreateSatelliteProject
         catch (fun e => throw (fail ("Error: creating satellite project: " +:+ error_text e) 502)) in
       ok tt.

Definition hashRobotCredentials `{Argon2} (secret : string) : prog (result string) :=
  HashSecret secret.

Definition storeRobotAccountInDB (q : conn) (robotName secretHash robotID : string)
    (satelliteID : Z) (expiry : option Z) : prog (result unit) :=
  let? _ := db q (QAddRobotAccount robotName secretHash robotID satelliteID expiry)
    catch (fun _ => throw (fail "Error: failed to store robot account" 500)) in
  ok tt.

Definition assignPermissionsToRobot (q : conn) (groups : option (list string)) (robotID : Z)
    : prog (result unit) :=
  for_each (fun groupName _ =>
    let? projects := db q (QGetProjectsOfGroup groupName)
      catch (fun _ => throw (fail "Error: failed to fetch projects for group" 500)) in
    match projects with
    | [] => throw (fail "Error: no projects found for group" 500)
    | project :: _ =>
        let? _ := utils.UpdateRobotProjects project (Go.itoa robotID)
          catch (fun _ => throw (fail "Error: failed to update robot account permissions" 500)) in
        ok tt
    end) (deref groups) tt.

Definition getGroupStates (q : conn) (groups : list SatelliteGroup) : prog (result (list string)) :=
  for_each (fun group states =>
    let? grp := db q (QGetGroupByID (sg_group_id group))
      catch (fun _ => throw (fail "Error: Get Group By ID Failed" 500)) in
    ok (states ++ [utils.AssembleGroupState (grp_name grp)])%list) groups [].

(** encoding/json decodes the body; [None] is a decoding error. *)
Definition DecodeRequestBody {A} (body : option A) : result A :=
  match body with Some v => inr v | None => inl (fail "Invalid request body" 400) end.

Definition GenerateRandomToken (charLength : nat) : prog (result string) :=
  let? token := perform (ORand (charLength / 2)) catch throw in
  ok (Go.hex_encode token).

Definition maskToken (token : string) : string :=
  if (String.length token <? 8)%nat then "***"
  else Go.take_bytes 4 token +:+ "..." +:+ Go.drop_bytes (String.length token - 4) token.

Definition GetAuthToken (r : Request) : result string :=
  let authHeader := rq_header r "Authorization" in
  if String.eqb authHeader "" then inl (fail "Authorization header missing" 401)
  else match Go.split_on " " authHeader with
  | [p; token] =>
      if String.eqb (Go.to_lower p) "bearer" then inr token
      else inl (fail "Invalid Authorization header format" 401)
  | _ => inl (fail "Invalid Authorization header format" 401)
  end.

Definition fetchSatelliteConfig (q : conn) (satelliteID : Z) : prog (result Config) :=
  let? satelliteConfig := db q (QSatelliteConfig satelliteID)
    catch (fun _ => throw (fail "Error: Failed to fetch satellite config" 500)) in
  let? configObject := db q (QGetConfigByID (sc_config_id satelliteConfig))
    catch (fun _ => throw (fail "Error: Failed to fetch satellite config" 500)) in
  ok configObject.

Definition toNullString (s : string) : option string :=
  if String.eqb s "" then None else Some s.
Definition toNullInt64 (n : Z) : option Z := Some n.
Definition toNullInt32 (n : Z) : option Z := Some n.

End Server.

(* ------------------------------------------------------------------ *)
(** ** How these fragments behave in a handler *)

Section ServerFacts.
Context `{Server, GroundControl, PqText, Services, PgTypes}.

Lemma HandleAppError_write e :
  exists m, HandleAppError e = write (err_status e) (PAppError m (err_status e)).
Proof.
  unfold HandleAppError, err_status. destruct (Err.as_app e) as [[m c]|]; eauto.
Qed.

Lemma settle_HandleAppError_ret F {A} c (a : A) e :
  success (err_status e) = false -> c a <> Some true ->
  settles_as F c (HandleAppError e ;;; Ret a).
Proof. intros. destruct (HandleAppError_write e) as [m ->]. by apply settle_write_ret. Qed.

Lemma settle_HandleAppError F e :
  success (err_status e) = false -> settles_as F either (HandleAppError e).
Proof. intros. destruct (HandleAppError_write e) as [m ->]. by apply settle_write. Qed.

Lemma settle_WriteJSONError m c : success c = false -> settles either (WriteJSONError m c).
Proof. apply settle_write. Qed.

Lemma quiet_HandleAppError d0 e w w' :
  quiet d0 w -> success (err_status e) = false -> run (HandleAppError e) w = (w', tt) ->
  refused d0 w'.
Proof. intros Hf Hs. destruct (HandleAppError_write e) as [m ->]. by apply quiet_write. Qed.

Lemma answer_HandleAppError_ret {A} c (a : A) e :
  c a <> Some false -> closes_as answered c (HandleAppError e ;;; Ret a).
Proof. intros. destruct (HandleAppError_write e) as [m ->]. by apply answer_write_ret. Qed.

Lemma close_auditEvent F {A} c r e (m : prog A) : closes_as F c m -> closes_as F c (auditEvent r e ;;; m).
Proof. apply close_audit. Qed.

Lemma harmless_HandleAppError e : harmless (HandleAppError e).
Proof. destruct (HandleAppError_write e) as [m ->]. apply harmless_write. Qed.
Lemma harmless_WriteJSONError m c : harmless (WriteJSONError m c).
Proof. apply harmless_write. Qed.
Lemma harmless_WriteJSONResponse c b : harmless (WriteJSONResponse c b).
Proof. apply harmless_write. Qed.
Lemma harmless_auditEvent r e : harmless (auditEvent r e).
Proof. apply harmless_quiet, quiet_audit. Qed.

Lemma quiet_auditEvent r e : quiet_prog (auditEvent r e).
Proof. apply quiet_audit. Qed.

Lemma helper_lift_body {A} (b : option A) : helper (lift (DecodeRequestBody b)).
Proof. by destruct b. Qed.

Lemma helper_isConfigInUse_tx c : helper (isConfigInUse InTx c).
Proof. unfold isConfigInUse. helper_tac. Qed.
Lemma helper_isConfigInUse_pool c : helper (isConfigInUse Pool c).
Proof. unfold isConfigInUse. helper_tac. Qed.
Lemma helper_setSatelliteConfig s n : helper (setSatelliteConfig InTx s n).
Proof. unfold setSatelliteConfig. helper_tac. Qed.
Lemma helper_addSatelliteToGroups g id : helper (addSatelliteToGroups InTx g id).
Proof. unfold addSatelliteToGroups. helper_tac. Qed.
Lemma helper_ensureSatelliteProjectExists : helper ensureSatelliteProjectExists.
Proof. unfold ensureSatelliteProjectExists. helper_tac. Qed.
Lemma helper_HashSecret `{Argon2} s : helper (HashSecret s).
Proof. unfold HashSecret. helper_tac. Qed.
Lemma helper_hashRobotCredentials `{Argon2} s : helper (hashRobotCredentials s).
Proof. apply helper_HashSecret. Qed.
Lemma helper_HashPassword `{Argon2} s : helper (HashPassword s).
Proof. apply helper_HashSecret. Qed.
Lemma helper_storeRobotAccountInDB n h i s e : helper (storeRobotAccountInDB InTx n h i s e).
Proof. unfold storeRobotAccountInDB. helper_tac. Qed.
Lemma helper_assignPermissionsToRobot g id : helper (assignPermissionsToRobot InTx g id).
Proof. unfold assignPermissionsToRobot. helper_tac. Qed.
Lemma helper_getGroupStates c l : helper (getGroupStates c l).
Proof. unfold getGroupStates. destruct c; helper_tac. Qed.
Lemma helper_GenerateRandomToken n : helper (GenerateRandomToken n).
Proof. unfold GenerateRandomToken. helper_tac. Qed.
Lemma helper_GenerateSessionToken : helper GenerateSessionToken.
Proof. unfold GenerateSessionToken. helper_tac. Qed.
Lemma helper_fetchSatelliteConfig c id : helper (fetchSatelliteConfig c id).
Proof. unfold fetchSatelliteConfig. destruct c; helper_tac. Qed.

End ServerFacts.

#[export] Hint Resolve quiet_auditEvent helper_lift_body helper_isConfigInUse_tx
  helper_isConfigInUse_pool helper_setSatelliteConfig helper_addSatelliteToGroups
  helper_ensureSatelliteProjectExists helper_hashRobotCredentials helper_HashPassword
  helper_HashSecret helper_storeRobotAccountInDB helper_assignPermissionsToRobot
  helper_getGroupStates helper_GenerateRandomToken helper_GenerateSessionToken
  helper_fetchSatelliteConfig : helpers.

#[export] Hint Resolve harmless_HandleAppError harmless_WriteJSONError
  harmless_WriteJSONResponse harmless_auditEvent : handlers.

Ltac handler_step :=
  match goal with
  | |- settles_as _ _ (bind (HandleAppError _) _) => apply settle_HandleAppError_ret
  | |- settles_as _ _ (HandleAppError _) => apply settle_HandleAppError
  | |- settles_as _ _ (WriteJSONError _ _) => apply settle_WriteJSONError
  | |- settles_as _ _ (WriteJSONResponse _ _) => apply settle_write
  | |- settles_as _ _ (transactional _ _ _ _) => apply settle_transactional
  | |- closes_as _ _ (bind (auditEvent _ _) _) => apply close_auditEvent
  | |- closes_as fulfilled _ (bind (WriteJSONResponse _ _) _) => apply close_write_ret
  | |- closes_as fulfilled _ (WriteJSONResponse _ _) => apply close_write
  | |- closes_as answered _ (bind (WriteJSONResponse _ _) _) => apply answer_write_ret
  | |- closes_as answered _ (bind (HandleAppError _) _) => apply answer_HandleAppError_ret
  | _ => settle_step
  end.
Ltac handler_tac := repeat handler_step.

(** The request was refused by [HandleAppError] before anything happened. *)
Ltac refused_by Hf E :=
  eapply (quiet_HandleAppError _ _ _ _ (fresh_quiet _ Hf)); [|exact E]; done.
