(* ===== verification/Demo.v ===== *)
(** * A concrete environment

    Instances of the parameters of the development (Harbor, the registry,
    SPIRE, PostgreSQL's texts, argon2, the settings), for evaluating handlers
    on concrete databases.  Nothing general depends on them. *)

From S2P Require Import Free Prelude Db Prog Logic Env Harbor CryptoLib Crypto Duration Spiffe Server.
From Stdlib Require Import Ascii.

#[local] Open Scope string_scope.

Module Demo.

(** Harbor answers every request; its state counts the robots it created. *)
Definition demo_exec {R} (s : svc R) (n : Z) : Z * (string + R) :=
  match s in svc R return Z * (string + R) with
  | HeadProject _ => (n, inr (Some true))
  | CreateProject _ _ _ => (n, inr true)
  | ListRobot _ => (n, inr [])
  | CreateRobot r => ((n + 1)%Z, inr (mkRobotCreated n ("robot$" +:+ rcr_name r) "s3cret" 0))
  | DeleteRobot _ => (n, inr tt)
  | RefreshSec _ _ => (n, inr (Some "fresh"))
  | GetRobotByID id => (n, inr (mkRobot id "robot$edge" [] 0))
  | UpdateRobot _ _ => (n, inr tt)
  | ListReplicationPolicies _ => (n, inr ["rule"])
  | CraneImage f d => (n, inr (f, d))
  | CranePush _ _ _ => (n, inr tt)
  | CraneTag _ _ _ => (n, inr tt)
  | HttpDelete _ _ _ => (n, inr 200%Z)
  | CreateJoinToken _ _ => (n, inr "join")
  | ListAgents _ => (n, inr [])
  | CreateWorkloadEntry _ _ _ => (n, inr "entry")
  | DeleteWorkloadEntry _ => (n, inr tt)
  end.

#[export] Instance demo_services : Services := {
  svc_state := Z; svc_exec := @demo_exec }.

#[export] Instance demo_types : PgTypes := {| pg_interval _ := None; pg_jsonb := Some |}.
#[export] Instance demo_text : PqText := fun c => "pq: " +:+ c.
#[export] Instance demo_argon2 : Argon2 := toy_argon2.

#[export] Instance demo_gc : GroundControl := {
  GC_Harbor := mkHarbor "https://harbor.example" "admin" "pw" false "30";
  GC_AdminPassword := "Adm1nistrator";
  GC_PasswordPolicy := mkPasswordPolicyEnv 8 128 true true true false }.

Definition demo_policy : PasswordPolicy := mkPasswordPolicy 8 128 true true true false.

#[export] Instance demo_server : Server := {
  s_spiffeProvider := None; s_spireClient := false; s_embeddedSpire := false;
  s_spireTrustDomain := ""; s_spireServerAddress := ""; s_spireServerPort := 0%Z;
  s_sessionDuration := (24 * hour)%Z; s_lockoutDuration := (5 * minute)%Z;
  s_passwordPolicy := demo_policy; s_trustForwardedHeaders := false }.

Definition demo_request : Request :=
  mkRequest "192.0.2.7:4711" (fun _ => "") (Some "req-1") (Some (mkAuthUser 1 "alice" "admin")) None None.

(** A database with one satellite in one group, its robot account, its
    configuration and an unused token. *)
Definition demo_db : Db :=
  mkDb
    (mkTable [mkSatellite 1 "edge-01" 0 0 None None] 2)
    (mkTable [mkGroup 1 "group1" "https://harbor.example" ["library"] 0 0] 2)
    [mkSatelliteGroup 1 1]
    (mkTable [mkRobotAccount 1 "robot$edge-01" "hash" "41" 1 None 0 0] 2)
    (mkTable [mkSatelliteToken 1 1 "0123456789abcdef0123456789abcdef" 0 0 (24 * hour)%Z] 2)
    (mkTable [mkConfig 1 "default" "https://harbor.example" "{}" 0 0] 2)
    [mkSatelliteConfig 1 1]
    t_empty t_empty
    (mkTable [mkUser 1 "alice" "hash" "admin" 0 0] 2)
    t_empty t_empty.

(** A world with no failures, at time 1 s *)
Definition demo_world (d : Db) : World :=
  init_world d (42%Z : svc_state) second (fun _ => false) (fun _ => inr (fun i => ascii_of_nat i)).

Lemma demo_world_db d : w_db (demo_world d) = d.
Proof. reflexivity. Qed.

Lemma demo_fresh d : fresh (demo_world d).
Proof. done. Qed.

Lemma demo_wf : wf_world (demo_world demo_db).
Proof.
  split; [|exact I].
  repeat split; simpl; repeat constructor; try (set_solver); try lia; try reflexivity;
    by apply list_elem_of_singleton.
Qed.

End Demo.
