(* ===== verification/Satellites.v ===== *)
(** * Satellite handlers

    internal/groundcontrol/server/satellite_handlers.go: registration by
    token and by SPIFFE, Zero-Touch Registration, the status report (sync),
    deletion, group membership and the listings. *)

From S2P Require Import Free Prelude Db Prog Logic Env Harbor CryptoLib Crypto Duration Spiffe Server.
From Stdlib Require Import Ascii.

#[local] Open Scope string_scope.

Record RegisterSatelliteParams := mkRegisterSatelliteParams {
  rsp_Name : string; rsp_Groups : option (list string); rsp_ConfigName : string }.

Record SatelliteGroupParams := mkSatelliteGroupParams {
  sgp_Satellite : string; sgp_Group : string }.

(** A finite float64, (-1)^neg * man * 2^exp *)
Record F64 := mkF64 { f_neg : bool; f_man : N; f_exp : Z }.

Record CachedImage := mkCachedImage { ci_Reference : string; ci_SizeBytes : Z }.

Record SatelliteStatusParams := mkSatelliteStatusParams {
  ssp_Name : string; ssp_Activity : string; ssp_StateReportInterval : string;
  ssp_LatestStateDigest : string; ssp_LatestConfigDigest : string;
  ssp_MemoryUsedBytes : Z; ssp_StorageUsedBytes : Z;              (* uint64 *)
  ssp_CPUPercent : F64; ssp_RequestCreatedTime : Z; ssp_LastSyncDurationMs : Z;
  ssp_ImageCount : Z; ssp_CachedImages : list CachedImage }.

(** fmt's %.2f: the exact value, rounded to nearest even at two decimals *)
Definition round_half_even (num den : Z) : Z :=
  let q := (num / den)%Z in
  let r := (num mod den)%Z in
  match (2 * r ?= den)%Z with
  | Lt => q
  | Gt => (q + 1)%Z
  | Eq => if Z.even q then q else (q + 1)%Z
  end.

Definition format_2f (f : F64) : string :=
  let cents :=
    if (0 <=? f_exp f)%Z then (Z.of_N (f_man f) * 2 ^ f_exp f * 100)%Z
    else round_half_even (Z.of_N (f_man f) * 100) (2 ^ (- f_exp f)) in
  (if f_neg f then "-" else "") +:+ Go.itoa (cents / 100) +:+ "." +:+ two_digits (cents mod 100).

(** [spiffe.GetSatelliteName] and [spiffe.GetSPIFFEID] of the context *)
Definition GetSatelliteName (r : Request) : option string := rq_satellite_name r.
Definition GetSPIFFEID (r : Request) : option SpiffeID := rq_spiffe_id r.

(** [sql.NullTime] from a Unix time in seconds *)
Definition expiry_of (unix_seconds : Z) : option Z :=
  if (0 <? unix_seconds)%Z then Some (unix_seconds * second)%Z else None.

Definition placeholder_secret : string := "spiffe-auto-registered-placeholder-secret".

Definition audit_event (operation resource_type outcome actor actor_type satellite_id resource reason : string)
    (details : list (string * detail)) : AuditEvent :=
  mkAuditEvent operation resource_type outcome actor actor_type satellite_id resource reason details
    "" "" "".

Section Satellites.
Context `{Server, GroundControl, PqText, Argon2}.

(* ------------------------------------------------------------------ *)
(** ** Robot accounts and configurations of satellites *)

(** The Go function returns (robot, harborRobotID, secret, err); the id is
    meaningful with an error too, for the caller's cleanup. *)
Definition ensureSatelliteRobotAccount (q : conn) (satellite : Satellite)
    : prog (Z * result (RobotAccount * string)) :=
  let store (harborRobotID : Z) (robotName robotSecret : string) (expiry : option Z) :=
    let? secretHash := hashRobotCredentials robotSecret
      catch (fun e => Ret (0%Z, inl (WrapErr "hash robot credentials" e))) in
    let? robot := db q (QAddRobotAccount robotName secretHash (Go.itoa harborRobotID)
                          (sat_id satellite) expiry)
      catch (fun e => Ret (harborRobotID, inl (WrapErr "store robot account" e))) in
    Ret (harborRobotID, inr (robot, robotSecret)) in
  if negb (SkipHealthCheck GC_Harbor) then
    let? _ := ensureSatelliteProjectExists
      catch (fun e => Ret (0%Z, inl (WrapErr "ensure satellite project" e))) in
    let? rbt := utils.CreateRobotAccForSatellite ["satellite"] (sat_name satellite)
      catch (fun e => Ret (0%Z, inl (WrapErr "create robot account" e))) in
    store (rcd_id rbt) (rcd_name rbt) (rcd_secret rbt) (expiry_of (rcd_expires_at rbt))
  else store 0%Z ("robot$satellite-" +:+ sat_name satellite) placeholder_secret None.

Definition refreshRobotSecret (q : conn) (robot : RobotAccount) : prog (result string) :=
  if SkipHealthCheck GC_Harbor then ok placeholder_secret
  else match Go.parse_int (rob_robot_id robot) with
  | None => throw (PlainErr "parse robot ID")
  | Some harborRobotID =>
      let? resp := harbor.RefreshRobotAccount "" harborRobotID
        catch wrap "refresh robot secret in Harbor" in
      match resp with
      | None => throw (PlainErr ("harbor returned nil payload for robot " +:+ rob_name robot))
      | Some newSecret =>
          if String.eqb newSecret ""
          then throw (PlainErr ("harbor returned empty secret for robot " +:+ rob_name robot))
          else
            let? newHash := hashRobotCredentials newSecret catch wrap "hash refreshed secret" in
            let? robotDetails := harbor.GetRobotAccount harborRobotID
              catch wrap "fetch updated robot details" in
            let? _ := db q (QUpdateRobotAccount (rob_id robot) (rob_name robot) newHash
                              (rob_robot_id robot) (expiry_of (hr_expires_at robotDetails)))
              catch wrap "update robot hash in DB" in
            ok newSecret
      end
  end.

Definition quote : string := String (ascii_of_nat 34) "".
Definition nl : string := String (ascii_of_nat 10) "".

(** defaultConfigJSON: the text of the literal; ' stands for a double quote
    and / for a line break, [json_text] puts them back. *)
Fixpoint json_text (s : string) : string :=
  match s with
  | "" => ""
  | String a s' =>
      (if Ascii.eqb a "'" then quote else if Ascii.eqb a "|" then nl else String a "") +:+ json_text s'
  end.

Definition defaultConfigJSON : string := json_text
  ("{|  'app_config': {|    'log_level': 'info',|    'state_replication_interval': '@every 00h00m30s',|"
  +:+ "    'register_satellite_interval': '@every 00h00m05s',|    'heartbeat_interval': '@every 00h00m30s',|"
  +:+ "    'local_registry': {|      'url': 'http://127.0.0.1:8585'|    }|  },|  'zot_config': {|"
  +:+ "    'distSpecVersion': '1.1.0',|    'storage': { 'rootDirectory': './zot' },|"
  +:+ "    'http': { 'address': '0.0.0.0', 'port': '8585' },|    'log': { 'level': 'info' }|  }|}").

Definition ensureSatelliteConfig (q : conn) (satellite : Satellite) : prog (result unit) :=
  let* existing := fetchSatelliteConfig q (sat_id satellite) in
  match existing with
  | inr _ => ok tt
  | inl _ =>
      let link (defaultConfig : Config) :=
        let? _ := db q (QSetSatelliteConfig (sat_id satellite) (cfg_id defaultConfig))
          catch wrap "link satellite to config" in
        ok tt in
      let* found := db q (QGetConfigByName "default") in
      match found with
      | inr defaultConfig => link defaultConfig
      | inl _ =>
          let? defaultConfig := db q (QCreateConfig "default" (URL GC_Harbor) defaultConfigJSON)
            catch wrap "create default config" in
          utils.CreateAndPushConfigStateArtifact defaultConfigJSON "default" ;;;
          link defaultConfig
      end
  end.

(** The deferred cleanup of a Harbor robot account *)
Definition cleanupRobot (robotID : Z) : prog unit :=
  if (robotID =? 0)%Z then Ret tt
  else harbor.DeleteRobotAccount robotID ;;; Ret tt.

(* ------------------------------------------------------------------ *)
(** ** Registration with a single-use token *)

Definition rollback_failed : prog unit :=
  HandleAppError (fail "Error: Failed to rollback transaction" 500).

(** What follows the creation of the robot account in Harbor *)
Definition register_tail (r : Request) (req : RegisterSatelliteParams) (satellite : Satellite)
    (groupStates : list string) (rbt : RobotCreated) : prog (bool * Z) :=
  let robotID := rcd_id rbt in
  let refuse e := HandleAppError e ;;; Ret (false, robotID) in
  let? secretHash := hashRobotCredentials (rcd_secret rbt)
    catch (fun _ => refuse (fail "Error: failed to hash robot credentials" 500)) in
  let? _ := storeRobotAccountInDB InTx (rcd_name rbt) secretHash (Go.itoa (rcd_id rbt))
              (sat_id satellite) (expiry_of (rcd_expires_at rbt)) catch refuse in
  let? _ := assignPermissionsToRobot InTx (rsp_Groups req) (rcd_id rbt) catch refuse in
  let? config := db InTx (QGetConfigByName (rsp_ConfigName req)) catch refuse in
  let? _ := db InTx (QSetSatelliteConfig (sat_id satellite) (cfg_id config)) catch refuse in
  let? _ := utils.CreateOrUpdateSatStateArtifact (rsp_Name req) groupStates (rsp_ConfigName req)
    catch refuse in
  let? token := GenerateRandomToken 32 catch refuse in
  let* now := time_now in
  let? tk := db InTx (QAddToken (sat_id satellite) token (now + 24 * hour)%Z) catch refuse in
  let? _ := perform OCommit
    catch (fun _ => refuse (fail "Error: Could not commit transaction" 500)) in
  auditEvent r (audit_event "register" "satellite" "success" (actorFromContext r) "user"
    (sat_name satellite) "" ""
    [("config_name", DStr (rsp_ConfigName req)); ("groups", DStrs (rsp_Groups req));
     ("flow", DStr "token")]) ;;;
  WriteJSONResponse 200 (PRegister tk) ;;;
  Ret (true, robotID).

(** The body of the transaction *)
Definition register_body (r : Request) (req : RegisterSatelliteParams) : prog (bool * Z) :=
  let refuse e := HandleAppError e ;;; Ret (false, 0%Z) in
  let? satellite := db InTx (QCreateSatellite (rsp_Name req))
    catch (fun _ => refuse (fail "Error: failed to create satellite" 400)) in
  let? groupStates := addSatelliteToGroups InTx (rsp_Groups req) (sat_id satellite) catch refuse in
  let? _ := ensureSatelliteProjectExists catch refuse in
  let? rbt := utils.CreateRobotAccForSatellite ["satellite"] (sat_name satellite)
    catch (fun _ => refuse (fail "Error: failed to create robot account" 400)) in
  register_tail r req satellite groupStates rbt.

Definition registerSatelliteHandler (r : Request) (body : option RegisterSatelliteParams) : prog unit :=
  match s_spiffeProvider, s_spireClient with
  | None, false =>
      let? req := lift (DecodeRequestBody body) catch HandleAppError in
      if negb (utils.IsValidName (rsp_Name req))
      then HandleAppError (fail (invalidNameMessage "satellite") 400)
      else if negb (utils.IsValidName (rsp_ConfigName req))
      then HandleAppError (fail "invalid or empty config_name" 400)
      else
        let? roboPresent := harbor.IsRobotPresent (rsp_Name req)
          catch (fun e => HandleAppError (fail ("Error querying for robot account: " +:+ error_text e) 400)) in
        if roboPresent : bool
        then HandleAppError (fail "Error: Robot Account name already present. Try with different name" 400)
        else transactional HandleAppError cleanupRobot rollback_failed (register_body r req)
  | _, _ =>
      HandleAppError (fail "satellite registration via this endpoint is disabled when SPIFFE is enabled. Use POST /api/satellites/register instead" 400)
  end.

(* ------------------------------------------------------------------ *)
(** ** Zero-Touch Registration with a token *)

(** After the token is accepted and the robot secret refreshed: the state
    artifact, then the token is consumed and the credentials handed out. *)
Definition ztr_finish (r : Request) (token : string) (satelliteID : Z) (robot : RobotAccount)
    (freshSecret : string) : prog unit :=
  let? groups := db Pool (QSatelliteGroupList satelliteID)
    catch (fun _ => HandleAppError (fail "Error: Satellite Groups List Failed" 500)) in
  let? states := getGroupStates Pool groups
    catch (fun _ => HandleAppError (fail "Error: Get Group By ID Failed" 500)) in
  let? satellite := db Pool (QGetSatellite satelliteID)
    catch (fun _ => HandleAppError (fail "satellite not found" 404)) in
  let? configObject := fetchSatelliteConfig Pool satelliteID catch HandleAppError in
  let? _ := utils.CreateOrUpdateSatStateArtifact (sat_name satellite) states (cfg_name configObject)
    catch HandleAppError in
  let result := PStateConfig (utils.AssembleSatelliteState (sat_name satellite))
                  (URL GC_Harbor) (rob_name robot) freshSecret in
  let? _ := db Pool (QDeleteToken token)
    catch (fun _ => HandleAppError (fail "Error: Error deleting token" 500)) in
  auditEvent r (audit_event "register" "satellite" "success" (sat_name satellite) "satellite"
    (sat_name satellite) "" "" [("flow", DStr "ztr")]) ;;;
  WriteJSONResponse 200 result.

Definition ztrHandler (r : Request) (token : string) : prog unit :=
  let masked := maskToken token in
  let? tokenInfo := db Pool (QGetTokenByValue token)
    catch (fun _ =>
      auditEvent r (audit_event "auth" "satellite" "failure" "" "anonymous" "" "" "invalid_token"
        [("masked_token", DStr masked)]) ;;;
      HandleAppError (fail "Error: Invalid Token" 400)) in
  let* now := time_now in
  if (tok_expires_at tokenInfo <? now)%Z then
    auditEvent r (audit_event "auth" "satellite" "failure" "" "anonymous" "" "" "token_expired"
      [("masked_token", DStr masked); ("expired_at", DTime (tok_expires_at tokenInfo))]) ;;;
    HandleAppError (fail "Error: Token Expired" 401)
  else
    let satelliteID := tok_satellite_id tokenInfo in
    let? robot := db Pool (QGetRobotAccBySatelliteID satelliteID)
      catch (fun _ => HandleAppError (fail "Error: Robot Account Not Found for Satellite" 500)) in
    let? freshSecret := refreshRobotSecret Pool robot
      catch (fun _ => HandleAppError (fail "Error: failed to refresh robot secret" 500)) in
    ztr_finish r token satelliteID robot freshSecret.

(* ------------------------------------------------------------------ *)
(** ** Zero-Touch Registration with SPIFFE *)

(** Returns the satellite or the error; the transaction's outcome is decided
    by [committed] as in the handlers. *)
Definition auto_register_body (name : string) : prog (bool * Z * result Satellite) :=
  let? satellite := db InTx (QCreateSatellite name)
    catch (fun e => Ret (false, 0%Z, inl (WrapErr "create satellite" e))) in
  let* rb := ensureSatelliteRobotAccount InTx satellite in
  let '(harborRobotID, res) := rb in
  match res with
  | inl e => Ret (false, harborRobotID, inl e)
  | inr _ =>
      let? _ := ensureSatelliteConfig InTx satellite
        catch (fun e => Ret (false, harborRobotID, inl e)) in
      let? _ := perform OCommit
        catch (fun e => Ret (false, harborRobotID, inl (WrapErr "commit transaction" e))) in
      Ret (true, harborRobotID, inr satellite)
  end.

Definition autoRegisterSatellite (name : string) : prog (result Satellite) :=
  let? _ := perform OBegin catch wrap "begin transaction" in
  let* out := auto_register_body name in
  let '(committed, harborRobotID, res) := out in
  deferred cleanupRobot (Ret tt) (committed, harborRobotID) ;;;
  Ret res.

(** The satellite's name from the certificate, or the reply that refuses it *)
Definition spiffe_identity (r : Request) : prog (option string) :=
  match GetSatelliteName r with
  | Some name => Ret (Some name)
  | None =>
      match GetSPIFFEID r with
      | None =>
          auditEvent r (audit_event "auth" "satellite" "failure" "" "anonymous" "" ""
            "missing_spiffe_identity" [("flow", DStr "spiffe_ztr")]) ;;;
          HandleAppError (fail "Error: SPIFFE authentication required" 401) ;;;
          Ret None
      | Some spiffeID =>
          match ExtractSatelliteNameFromSPIFFEID spiffeID with
          | Some name => Ret (Some name)
          | None =>
              auditEvent r (audit_event "auth" "satellite" "failure" (SpiffeID_String spiffeID) "anonymous" "" ""
                "invalid_spiffe_id" [("flow", DStr "spiffe_ztr")]) ;;;
              HandleAppError (fail "Error: Invalid SPIFFE ID format for satellite" 400) ;;;
              Ret None
          end
      end
  end.

(** A robot account and a fresh secret for the satellite, or the refusal *)
Definition spiffe_robot (satellite : Satellite) : prog (option (RobotAccount * string)) :=
  let refuse msg := HandleAppError (fail msg 500) ;;; Ret None in
  let* existing := db Pool (QGetRobotAccBySatelliteID (sat_id satellite)) in
  match existing with
  | inl _ =>
      let* rb := ensureSatelliteRobotAccount Pool satellite in
      let '(harborRobotID, res) := rb in
      match res with
      | inl _ => refuse "Error: failed to create robot account"
      | inr (robot, initialSecret) =>
          let? _ := ensureSatelliteConfig Pool satellite
            catch (fun _ => cleanupRobot harborRobotID ;;; refuse "Error: failed to ensure satellite config") in
          Ret (Some (robot, initialSecret))
      end
  | inr robot =>
      let? freshSecret := refreshRobotSecret Pool robot
        catch (fun _ => refuse "Error: failed to refresh robot secret") in
      Ret (Some (robot, freshSecret))
  end.

Definition spiffe_finish (r : Request) (satellite : Satellite) (robot : RobotAccount)
    (freshSecret : string) : prog unit :=
  let? groups := db Pool (QSatelliteGroupList (sat_id satellite))
    catch (fun _ => HandleAppError (fail "Error: Satellite Groups List Failed" 500)) in
  let? states := getGroupStates Pool groups
    catch (fun _ => HandleAppError (fail "Error: Get Group By ID Failed" 500)) in
  let? satelliteState :=
    (if negb (SkipHealthCheck GC_Harbor) then
       let? configObject := fetchSatelliteConfig Pool (sat_id satellite) catch throw in
       let? _ := utils.CreateOrUpdateSatStateArtifact (sat_name satellite) states
                   (cfg_name configObject) catch throw in
       ok (utils.AssembleSatelliteState (sat_name satellite))
     else ok ("placeholder://spiffe-testing/" +:+ sat_name satellite))
    catch HandleAppError in
  let harborURL :=
    if String.eqb (URL GC_Harbor) "" then "http://placeholder-registry:5000" else URL GC_Harbor in
  auditEvent r (audit_event "register" "satellite" "success" (sat_name satellite) "satellite"
    (sat_name satellite) "" "" [("flow", DStr "spiffe_ztr")]) ;;;
  WriteJSONResponse 200 (PStateConfig satelliteState harborURL (rob_name robot) freshSecret).

Definition spiffeZtrHandler (r : Request) : prog unit :=
  let* identity := spiffe_identity r in
  match identity with
  | None => Ret tt
  | Some satelliteName =>
      let* found := db Pool (QGetSatelliteByName satelliteName) in
      let? satellite :=
        (match found with
         | inr s => ok s
         | inl _ => autoRegisterSatellite satelliteName
         end)
        catch (fun _ => HandleAppError (fail "Error: failed to auto-register satellite" 500)) in
      let* robot := spiffe_robot satellite in
      match robot with
      | None => Ret tt
      | Some (robot, freshSecret) => spiffe_finish r satellite robot freshSecret
      end
  end.

(* ------------------------------------------------------------------ *)
(** ** Status report *)

(** The artifact ids of the reported images; both statements run outside a
    transaction. *)
Definition sync_artifacts (images : list CachedImage) : prog (result (list Z)) :=
  match images with
  | [] => ok []
  | _ =>
      let refs := ci_Reference <$> images in
      let sizes := ci_SizeBytes <$> images in
      let? _ := db Pool (QBatchInsertArtifacts refs sizes)
        catch (fun _ => throw (fail "failed to save artifacts" 500)) in
      let? artifacts := db Pool (QGetArtifactIDsByReferences refs)
        catch (fun _ => throw (fail "failed to resolve artifact IDs" 500)) in
      ok (art_id <$> artifacts)
  end.

Definition status_params (satelliteID : Z) (req : SatelliteStatusParams) (artifactIDs : list Z)
    : Sql.InsertSatelliteStatusParams :=
  Sql.mkInsertSatelliteStatusParams satelliteID (ssp_Activity req)
    (toNullString (ssp_LatestStateDigest req)) (toNullString (ssp_LatestConfigDigest req))
    (toNullString (format_2f (ssp_CPUPercent req)))
    (toNullInt64 (Go.to_int64 (ssp_MemoryUsedBytes req)))
    (toNullInt64 (Go.to_int64 (ssp_StorageUsedBytes req)))
    (toNullInt64 (ssp_LastSyncDurationMs req))
    (toNullInt32 (Go.to_int32 (ssp_ImageCount req)))
    (ssp_RequestCreatedTime req) artifactIDs.

Definition syncHandler (r : Request) (body : option SatelliteStatusParams) : prog unit :=
  let? req := lift (DecodeRequestBody body) catch HandleAppError in
  let satelliteName :=
    match GetSatelliteName r with Some name => name | None => ssp_Name req end in
  let? sat := db Pool (QGetSatelliteByName satelliteName)
    catch (fun _ => HandleAppError (fail "unknown satellite entity" 403)) in
  let? normalizedInterval := lift (normalizeHeartbeatInterval (ssp_StateReportInterval req))
    catch (fun _ => HandleAppError (fail "invalid heartbeat interval format" 400)) in
  let? artifactIDs := sync_artifacts (ssp_CachedImages req) catch HandleAppError in
  let? _ := db Pool (QInsertSatelliteStatus (status_params (sat_id sat) req artifactIDs))
    catch (fun _ => HandleAppError (fail "failed to save status" 500)) in
  let? _ := db Pool (QUpdateSatelliteLastSeen (sat_id sat) (toNullString normalizedInterval))
    catch (fun _ => HandleAppError (fail "failed to update last_seen" 500)) in
  write 200 PNone.

(* ------------------------------------------------------------------ *)
(** ** Listings *)

Definition listSatelliteHandler : prog unit :=
  let? result := db Pool QListSatellites
    catch (fun _ => HandleAppError (fail "Error: Failed to List Satellites" 500)) in
  WriteJSONResponse 200 (PSatellites result).

Definition getSatelliteStatusHandler (satelliteName : string) : prog unit :=
  let? sat := db Pool (QGetSatelliteByName satelliteName)
    catch (fun _ => HandleAppError (fail "satellite not found" 404)) in
  let? status := db Pool (QGetLatestSatelliteStatus (sat_id sat))
    catch (fun _ => HandleAppError (fail "no status available" 404)) in
  WriteJSONResponse 200 (PStatus status).

Definition getActiveSatellitesHandler : prog unit :=
  let? satellites := db Pool QGetActiveSatellites
    catch (fun _ => HandleAppError (fail "failed to get active satellites" 500)) in
  WriteJSONResponse 200 (PActive satellites).

Definition getStaleSatellitesHandler : prog unit :=
  let? satellites := db Pool QGetStaleSatellites
    catch (fun _ => HandleAppError (fail "failed to get stale satellites" 500)) in
  WriteJSONResponse 200 (PStale satellites).

Definition GetSatelliteByName_handler (satellite : string) : prog unit :=
  let? result := db Pool (QGetSatelliteByName satellite)
    catch (fun _ => HandleAppError (fail "Error: Failed to Get Satellite" 500)) in
  WriteJSONResponse 200 (PSatellite result).

Definition getCachedImagesHandler (satelliteName : string) : prog unit :=
  let? sat := db Pool (QGetSatelliteByName satelliteName)
    catch (fun _ => HandleAppError (fail "satellite not found" 404)) in
  let? artifacts := db Pool (QGetLatestArtifacts (sat_id sat))
    catch (fun _ => HandleAppError (fail "failed to get cached images" 500)) in
  WriteJSONResponse 200 (PArtifacts artifacts).

(* ------------------------------------------------------------------ *)
(** ** Deletion *)

Definition refuse (e : goerr) : prog (bool * Z) := HandleAppError e ;;; Ret (false, 0%Z).

Definition delete_body (r : Request) (satellite : string) : prog (bool * Z) :=
  let? sat := db InTx (QGetSatelliteByName satellite)
    catch (fun _ => refuse (fail "Error: Satellite Not Found" 400)) in
  let? robotAcc := db InTx (QGetRobotAccBySatelliteID (sat_id sat))
    catch (fun _ => refuse (fail "Error: Failed to Delete Satellite" 500)) in
  match Go.parse_int (rob_robot_id robotAcc) with
  | None => refuse (fail "Error: Failed to Delete Satellite" 500)
  | Some robotID =>
      let? _ := db InTx (QDeleteSatelliteByName satellite)
        catch (fun _ => refuse (fail "Error: Failed to Delete Satellite" 500)) in
      let? _ := harbor.DeleteRobotAccount robotID
        catch (fun _ => refuse (fail "Error: Failed to Delete Satellite" 500)) in
      let? _ := utils.DeleteArtifact (utils.ConstructHarborDeleteURL (sat_name sat) "satellite")
        catch refuse in
      let? _ := perform OCommit
        catch (fun _ => refuse (fail "Error: Could not commit transaction" 500)) in
      auditEvent r (audit_event "deregister" "satellite" "success" (actorFromContext r) "user"
        satellite "" "" []) ;;;
      WriteJSONResponse 200 (PMap []) ;;;
      Ret (true, 0%Z)
  end.

Definition no_cleanup (_ : Z) : prog unit := Ret tt.

Definition begin_failed (_ : goerr) : prog unit :=
  HandleAppError (fail "Error: Failed to start database transaction" 500).

Definition DeleteSatelliteByName (r : Request) (satellite : string) : prog unit :=
  transactional begin_failed no_cleanup rollback_failed (delete_body r satellite).

(* ------------------------------------------------------------------ *)
(** ** Group membership *)

(** The projects and the state artifacts of a satellite's groups *)
Definition collect_groups (q : conn) (msg : string) (groupList : list SatelliteGroup)
    : prog (result (list string * list string)) :=
  for_each (fun group acc =>
    let? grp := db q (QGetGroupByID (sg_group_id group)) catch (fun _ => throw (fail msg 500)) in
    ok (acc.1 ++ grp_projects grp, acc.2 ++ [utils.AssembleGroupState (grp_name grp)])%list)
    groupList ([], []).

Definition add_to_group_body (sat : Satellite) (grp : Group) : prog (bool * Z) :=
  let? _ := db InTx (QAddSatelliteToGroup (sat_id sat) (grp_id grp))
    catch (fun _ => refuse (fail "Error: Failed to add satellite to group" 500)) in
  let? groupList := db InTx (QSatelliteGroupList (sat_id sat))
    catch (fun _ => refuse (fail "Error: Failed to get updated satellite group list" 500)) in
  let? collected := collect_groups Pool "Error: Failed to get group details" groupList catch refuse in
  let? configObject := fetchSatelliteConfig Pool (sat_id sat) catch refuse in
  let? robotAcc := db Pool (QGetRobotAccBySatelliteID (sat_id sat))
    catch (fun _ => refuse (fail "Error: Failed to get robot account for satellite" 500)) in
  let? _ := utils.UpdateRobotProjects collected.1 (rob_robot_id robotAcc)
    catch (fun _ => refuse (fail "Error: Failed to update robot account permissions" 500)) in
  let? _ := utils.CreateOrUpdateSatStateArtifact (sat_name sat) collected.2 (cfg_name configObject)
    catch refuse in
  let? _ := perform OCommit
    catch (fun _ => refuse (fail "Error: Could not commit transaction" 500)) in
  WriteJSONResponse 200 (PMap [("message", "Satellite successfully added to group")]) ;;;
  Ret (true, 0%Z).

Definition addSatelliteToGroup (body : option SatelliteGroupParams) : prog unit :=
  let? req := lift (DecodeRequestBody body) catch HandleAppError in
  if negb (utils.IsValidName (sgp_Satellite req))
  then HandleAppError (fail (invalidNameMessage "satellite") 400)
  else
    let? sat := db Pool (QGetSatelliteByName (sgp_Satellite req))
      catch (fun _ => HandleAppError (fail "Error: Satellite Not Found" 400)) in
    let? grp := db Pool (QGetGroupByName (sgp_Group req))
      catch (fun _ => HandleAppError (fail "Error: Group Not Found" 400)) in
    let? alreadyInGroup := db Pool (QCheckSatelliteInGroup (sat_id sat) (grp_id grp))
      catch (fun _ => HandleAppError (fail "Error: Failed to check satellite in group" 500)) in
    if alreadyInGroup : bool
    then WriteJSONResponse 200 (PMap [("message", "Satellite is already in the group")])
    else transactional begin_failed no_cleanup rollback_failed (add_to_group_body sat grp).

Definition remove_from_group_body (groupName satelliteName : string) : prog (bool * Z) :=
  let? sat := db InTx (QGetSatelliteByName satelliteName)
    catch (fun _ => refuse (fail "Error: Satellite Not Found" 400)) in
  let? grp := db InTx (QGetGroupByName groupName)
    catch (fun _ => refuse (fail "Error: Group Not Found" 400)) in
  let? _ := db InTx (QRemoveSatelliteFromGroup (sat_id sat) (grp_id grp))
    catch (fun _ => refuse (fail "Error: Failed to Remove Satellite from Group" 500)) in
  let? robotAcc := db InTx (QGetRobotAccBySatelliteID (sat_id sat))
    catch (fun _ => refuse (fail "Error: Failed to Add permission to robot account" 500)) in
  let? groupList := db InTx (QSatelliteGroupList (sat_id sat))
    catch (fun _ => refuse (fail "Error: Failed to refresh satellite group list" 500)) in
  let? collected := collect_groups InTx "Error: Failed to to refresh satellite group list" groupList
    catch refuse in
  let? _ := utils.UpdateRobotProjects collected.1 (rob_robot_id robotAcc)
    catch (fun _ => refuse (fail "Error: Failed to update robot account permissions" 500)) in
  let? configObject := fetchSatelliteConfig InTx (sat_id sat) catch refuse in
  let? _ := utils.CreateOrUpdateSatStateArtifact (sat_name sat) collected.2 (cfg_name configObject)
    catch refuse in
  let? _ := perform OCommit
    catch (fun _ => refuse (fail "Error: Could not commit transaction" 500)) in
  WriteJSONResponse 200 (PMap []) ;;;
  Ret (true, 0%Z).

Definition removeSatelliteFromGroup (groupName satelliteName : string) : prog unit :=
  transactional begin_failed no_cleanup rollback_failed
    (remove_from_group_body groupName satelliteName).

End Satellites.
