(* ===== verification/Auth.v ===== *)
(** * Users' authentication

    internal/groundcontrol/auth/policy.go (password policy),
    internal/groundcontrol/server/auth_handlers.go (login with account
    lockout, logout) and the authentication middlewares of middleware.go:
    users (session or Basic), roles, satellites (SPIFFE or robot account). *)

From S2P Require Import Free Prelude Utf8 Db DbFacts Prog Logic Runs Env Harbor CryptoLib Crypto Duration Spiffe.
From S2P Require Import Server Demo Satellites.
From Stdlib Require Import Ascii.

#[local] Open Scope string_scope.

(* ------------------------------------------------------------------ *)
(** ** The password policy *)

(** The tables of package unicode *)
Class UnicodeTables := {
  IsUpper : Z -> bool; IsLower : Z -> bool; IsDigit : Z -> bool; IsLetter : Z -> bool }.

Definition DefaultPolicy : PasswordPolicy := mkPasswordPolicy 8 128 true true true false.

Definition LoadPolicyFromConfig (cfg : PasswordPolicyEnv) : PasswordPolicy :=
  let min := if (0 <? MinLength cfg)%Z then MinLength cfg else pp_min DefaultPolicy in
  let max := if (0 <? MaxLength cfg)%Z then MaxLength cfg else pp_max DefaultPolicy in
  let max := if (max <? min)%Z then min else max in
  mkPasswordPolicy min max (RequireUppercase cfg) (RequireLowercase cfg) (RequireNumber cfg)
    (RequireSpecial cfg).

Definition LoadPolicyFromEnv `{GroundControl} : PasswordPolicy :=
  LoadPolicyFromConfig GC_PasswordPolicy.

Section Policy.
Context `{UnicodeTables}.

Definition containsUppercase (s : string) : bool := existsb IsUpper (runes s).
Definition containsLowercase (s : string) : bool := existsb IsLower (runes s).
Definition containsNumber (s : string) : bool := existsb IsDigit (runes s).
Definition containsSpecial (s : string) : bool :=
  existsb (fun r => negb (IsLetter r) && negb (IsDigit r)) (runes s).

(** [PasswordPolicy.Validate]; lengths count bytes. *)
Definition Validate (p : PasswordPolicy) (password : string) : result unit :=
  let len := Z.of_nat (String.length password) in
  let check (b : bool) (msg : string) := if b then [msg] else [] in
  let violations :=
    (check (len <? pp_min p)%Z ("at least " +:+ Go.itoa (pp_min p) +:+ " characters") ++
     check (pp_max p <? len)%Z ("at most " +:+ Go.itoa (pp_max p) +:+ " characters") ++
     check (pp_upper p && negb (containsUppercase password)) "one uppercase letter" ++
     check (pp_lower p && negb (containsLowercase password)) "one lowercase letter" ++
     check (pp_number p && negb (containsNumber password)) "one number" ++
     check (pp_special p && negb (containsSpecial password)) "one special character")%list in
  match violations with
  | [] => inr tt
  | _ => inl (PlainErr ("password must contain: " +:+ Go.join ", " violations))
  end.

(** What a policy asks of a password *)
Definition conforms (p : PasswordPolicy) (s : string) : Prop :=
  (pp_min p <= Z.of_nat (String.length s) <= pp_max p)%Z /\
  (pp_upper p = true -> exists r, r ∈ runes s /\ IsUpper r = true) /\
  (pp_lower p = true -> exists r, r ∈ runes s /\ IsLower r = true) /\
  (pp_number p = true -> exists r, r ∈ runes s /\ IsDigit r = true) /\
  (pp_special p = true -> exists r, r ∈ runes s /\ IsLetter r = false /\ IsDigit r = false).

Lemma existsb_elem {A} (f : A -> bool) l : existsb f l = true <-> exists x, x ∈ l /\ f x = true.
Proof. rewrite List.existsb_exists. by setoid_rewrite list_elem_of_In. Qed.

Lemma required (b : bool) (f : Z -> bool) s :
  (b && negb (existsb f (runes s)) = false) <-> (b = true -> exists r, r ∈ runes s /\ f r = true).
Proof.
  rewrite <- existsb_elem. destruct b; simpl; [|split; [done|done]].
  rewrite negb_false_iff. split; [done|]. auto.
Qed.

(** The policy accepts exactly the passwords that conform to it, and a
    policy loaded from the environment always has room between its bounds,
    whatever lengths were configured. *)
Theorem policy_accepts_exactly cfg s :
  let p := LoadPolicyFromConfig cfg in
  (Validate p s = inr tt <-> conforms p s) /\ (1 <= pp_min p <= pp_max p)%Z.
Proof.
  intros p. split.
  - clearbody p. unfold Validate, conforms, containsSpecial, containsNumber, containsLowercase, containsUppercase.
    assert (forall b f, (b && negb (existsb f (runes s)) = false) <->
      (b = true -> exists r, r ∈ runes s /\ f r = true)) as Hreq by (intros; apply required).
    assert ((pp_special p = true -> exists r, r ∈ runes s /\ IsLetter r = false /\ IsDigit r = false) <->
      (pp_special p = true -> exists r, r ∈ runes s /\ negb (IsLetter r) && negb (IsDigit r) = true)) as ->.
    { setoid_rewrite andb_true_iff. setoid_rewrite negb_true_iff. done. }
    rewrite <- !Hreq.
    destruct (Z.ltb_spec (Z.of_nat (String.length s)) (pp_min p));
      [by (simpl; split; [done|intros ([? ?] & _); lia])|].
    destruct (Z.ltb_spec (pp_max p) (Z.of_nat (String.length s)));
      [by (simpl; split; [done|intros ([? ?] & _); lia])|].
    destruct (pp_upper p && _), (pp_lower p && _), (pp_number p && _), (pp_special p && _); simpl;
      (split; [try done; intros _; split_and!; done || lia|by intros (?&?&?&?&?)]).
  - subst p. unfold LoadPolicyFromConfig. cbn [pp_min pp_max DefaultPolicy].
    repeat match goal with |- context [Z.ltb ?a ?b] => destruct (Z.ltb_spec a b) end; lia.
Qed.
End Policy.

(* ------------------------------------------------------------------ *)
(** ** Login and logout *)

Definition maxFailedAttempts : Z := 5.

Record loginRequest := mkLoginRequest { lr_username : string; lr_password : string }.

Section Auth.
Context `{Server, GroundControl, PqText, Argon2}.

Definition recordFailedAttempt (username : string) : prog unit :=
  let? attempts := db Pool (QUpsertLoginAttempt username) catch (fun _ => Ret tt) in
  if (maxFailedAttempts <=? la_failed_count attempts)%Z then
    let* now := time_now in
    let? _ := db Pool (QLockAccount username (Some (now + s_lockoutDuration)%Z))
      catch (fun _ => Ret tt) in
    Ret tt
  else Ret tt.

Definition login_failed (r : Request) (username reason : string) : prog unit :=
  auditEvent r (audit_event "login" "session" "failure" username "user" "" "" reason []) ;;;
  WriteJSONError "Invalid credentials" 401.

(** After the lockout check *)
Definition login_credentials (r : Request) (req : loginRequest) : prog unit :=
  let username := lr_username req in
  let? user := db Pool (QGetUserByUsername username)
    catch (fun _ => recordFailedAttempt username ;;; login_failed r username "unknown_user") in
  if negb (VerifyPassword (lr_password req) (usr_password_hash user))
  then recordFailedAttempt username ;;; login_failed r username "bad_password"
  else
    db Pool (QResetLoginAttempts username) ;;;
    let? token := GenerateSessionToken
      catch (fun _ => WriteJSONError "Internal server error" 500) in
    let* now := time_now in
    let expiresAt := (now + s_sessionDuration)%Z in
    let? _ := db Pool (QCreateSession (usr_id user) token expiresAt)
      catch (fun _ => WriteJSONError "Internal server error" 500) in
    auditEvent r (audit_event "login" "session" "success" username "user" "" "" "" []) ;;;
    WriteJSONResponse 200 (PLogin token expiresAt).

Definition loginHandler (r : Request) (body : option loginRequest) : prog unit :=
  match body with
  | None => WriteJSONError "Invalid request body" 400
  | Some req =>
      if String.eqb (lr_username req) "" || String.eqb (lr_password req) ""
      then login_failed r (lr_username req) "missing_credentials"
      else
        let* attempts := db Pool (QGetLoginAttempts (lr_username req)) in
        match attempts with
        | inl e =>
            if negb (Err.is_no_rows e) then WriteJSONError "Internal server error" 500
            else login_credentials r req
        | inr a =>
            match la_locked_until a with
            | Some t =>
                let* now := time_now in
                if (now <? t)%Z then login_failed r (lr_username req) "account_locked"
                else login_credentials r req
            | None => login_credentials r req
            end
        end
  end.

Definition logoutHandler (r : Request) : prog unit :=
  let token := extractToken r in
  if String.eqb token "" then WriteJSONError "Unauthorized" 401
  else
    let? _ := db Pool (QDeleteSession token)
      catch (fun _ => WriteJSONError "Internal server error" 500) in
    write 204 PNone.

(* ------------------------------------------------------------------ *)
(** ** Authentication of users *)

Definition auth_user (u : User) : AuthUser := mkAuthUser (usr_id u) (usr_username u) (usr_role u).

Definition bearer_user (r : Request) : prog (option AuthUser) :=
  let token := extractBearerToken r in
  if String.eqb token "" then Ret None
  else
    let? session := db Pool (QGetSessionByToken token) catch (fun _ => Ret None) in
    Ret (Some (mkAuthUser (ses_user_id session.1) (usr_username session.2) (usr_role session.2))).

Definition basic_user (r : Request) : prog (option AuthUser) :=
  match extractBasicAuth r with
  | None => Ret None
  | Some (username, password) =>
      let? dbUser := db Pool (QGetUserByUsername username) catch (fun _ => Ret None) in
      Ret (if VerifyPassword password (usr_password_hash dbUser) then Some (auth_user dbUser) else None)
  end.

Definition AuthMiddleware (next : Request -> prog unit) (r : Request) : prog unit :=
  let* bearer := bearer_user r in
  let* user := (match bearer with Some u => Ret (Some u) | None => basic_user r end) in
  match user with
  | None => WriteJSONError "Unauthorized" 401
  | Some u => next (with_user u r)
  end.

Definition GetUserFromContext (r : Request) : option AuthUser := rq_user r.

Definition RequireRole (role : string) (next : Request -> prog unit) (r : Request) : prog unit :=
  match GetUserFromContext r with
  | None => WriteJSONError "Unauthorized" 401
  | Some user =>
      if negb (String.eqb (au_role user) role) then WriteJSONError "Forbidden" 403
      else next r
  end.

(* ------------------------------------------------------------------ *)
(** ** Authentication of satellites *)

Definition errRobotInvalidSecret : goerr := PlainErr "invalid secret".
Definition errRobotExpired : goerr := PlainErr "expired".

Definition validateSPIFFEAuth (spiffeName : string) : prog (result string) :=
  let? sat := db Pool (QGetSatelliteByName spiffeName) catch throw in
  ok (sat_name sat).

(** [errors.Is(err, errRobotExpired)] compares identities: the flag says
    whether the error is that very value. *)
Definition validateRobotAuth (username password : string) : prog (bool * result string) :=
  let? robot := db Pool (QGetRobotAccByRobotName username)
    catch (fun e =>
      let _ := VerifySecret password TimingMitigationHash in Ret (false, inl e)) in
  if negb (VerifySecret password (rob_secret_hash robot))
  then Ret (false, inl errRobotInvalidSecret)
  else
    let* expired := (match rob_expiry robot with
                     | Some t => let* now := time_now in Ret (t <? now)%Z
                     | None => Ret false
                     end) in
    if expired : bool then Ret (true, inl errRobotExpired)
    else
      let? sat := db Pool (QGetSatellite (rob_satellite_id robot))
        catch (fun e => Ret (false, inl e)) in
      Ret (false, inr (sat_name sat)).

Definition failAuth (r : Request) (actor actorType reason errMsg : string) : prog unit :=
  auditEvent r (audit_event "auth" "satellite" "failure" actor actorType "" "" reason []) ;;;
  WriteJSONError errMsg 401.

Definition SatelliteAuthMiddleware (next : Request -> prog unit) (r : Request) : prog unit :=
  match GetSatelliteName r with
  | Some spiffeName =>
      let? satName := validateSPIFFEAuth spiffeName
        catch (fun _ => failAuth r spiffeName "satellite" "invalid_credentials" "Unauthorized") in
      next (ContextWithSatelliteName satName r)
  | None =>
      match extractBasicAuth r with
      | Some (username, password) =>
          let* out := validateRobotAuth username password in
          match out with
          | (true, inl _) => failAuth r username "robot" "token_expired" "Unauthorized"
          | (false, inl _) => failAuth r username "robot" "invalid_credentials" "Invalid credentials"
          | (_, inr satName) => next (ContextWithSatelliteName satName r)
          end
      | None => failAuth r "" "anonymous" "missing_credentials" "Unauthorized"
      end
  end.

End Auth.
