(* ===== verification/AuthFacts.v ===== *)
(** * Properties of login and of the authentication middlewares *)

From S2P Require Import Free Prelude Utf8 Db DbFacts Prog Logic Runs Env Harbor CryptoLib Crypto Duration Spiffe.
From S2P Require Import Server Demo Satellites Auth.
From Stdlib Require Import Ascii.

#[local] Open Scope string_scope.

Section Login.
Context `{Server, GroundControl, PqText, Argon2, Services, PgTypes}.

(** The databases differ in the failed-login counters at most. *)
Definition same_but_attempts (d d' : Db) : Prop := exists f, d' = on_login_attempts f d.

Lemma same_but_attempts_refl d : same_but_attempts d d.
Proof. exists id. by destruct d. Qed.

Lemma same_but_attempts_trans d1 d2 d3 :
  same_but_attempts d1 d2 -> same_but_attempts d2 d3 -> same_but_attempts d1 d3.
Proof. intros [f ->] [g ->]. by exists (fun t => g (f t)). Qed.

Lemma upsert_same_but now u d : same_but_attempts d (Sql.UpsertLoginAttempt now u d).1.
Proof.
  unfold Sql.UpsertLoginAttempt. destruct (t_find _ _); simpl; destruct (t_exists _ _); by eexists.
Qed.

(** Statements on the counters *)
Definition attempts_only {R} (q : query R) : bool :=
  match q with
  | QUpsertLoginAttempt _ | QResetLoginAttempts _ | QLockAccount _ _ => true
  | _ => is_read q
  end.

Lemma step_attempts {R} (q : query R) w w1 r :
  attempts_only q = true -> run (db Pool q) w = (w1, r) ->
  same_session w w1 /\ same_but_attempts (w_db w) (w_db w1).
Proof.
  intros Hq E. apply step_pool in E as [Hs [(_ & _ & ->)|[_ E]]]; split; try done.
  { apply same_but_attempts_refl. }
  assert (w_db w1 = (exec_query (now_of w) q (w_db w)).1) as -> by (by rewrite E).
  destruct (is_read q) eqn:Er.
  { rewrite exec_read by done. apply same_but_attempts_refl. }
  destruct q; try discriminate Hq; try discriminate Er; cbn [exec_query].
  - apply upsert_same_but.
  - by eexists.
  - by eexists.
Qed.

(** The request goes on, nothing but counters changed, nothing answered. *)
Definition going (w v : World) : Prop :=
  same_but_attempts (w_db w) (w_db v) /\ w_replies v = [] /\ w_clock v = w_clock w.

Lemma going_attempts {R} (q : query R) w v v1 r :
  attempts_only q = true -> going w v -> run (db Pool q) v = (v1, r) -> going w v1.
Proof.
  intros Hq (Hd & Hr & Hc) E. apply step_attempts in E as [(_ & Hr1 & _ & Hc1 & _) Hd1]; [|done].
  split_and!; [by eapply same_but_attempts_trans|congruence..].
Qed.

Lemma going_away {A} (m : prog A) w v v1 a :
  away m -> going w v -> run m v = (v1, a) -> going w v1.
Proof.
  intros Hm (Hd & Hr & Hc) E. pose proof (run_clock _ _ _ _ E).
  apply (run_away m) in E as (Hd1 & _ & Hr1 & _); [|done]. unfold going.
  rewrite Hd1, Hr1. by split_and!; [|done|congruence].
Qed.

(** Turned down: an error, and no change but to the counters *)
Definition login_refused (w w' : World) : Prop :=
  same_but_attempts (w_db w) (w_db w') /\
  exists m st, w_replies w' = [mkReply st (PAppError m st)] /\ st ∈ [400; 401; 500]%Z.

Lemma refuse_login m st w v w' :
  going w v -> st ∈ [400; 401; 500]%Z -> run (WriteJSONError m st) v = (w', tt) -> login_refused w w'.
Proof.
  intros (Hd & Hr & _) Hst E. apply step_write in E as (Hd1 & Hr1 & _).
  split; [by rewrite Hd1|]. exists m, st. by rewrite Hr1, Hr.
Qed.

Lemma refuse_login_failed r u reason w v w' :
  going w v -> run (login_failed r u reason) v = (w', tt) -> login_refused w w'.
Proof.
  intros Hg E. unfold login_failed in E. apply run_bind_inv in E as (w1 & [] & E1 & E).
  apply (going_away _ w v) in E1; [|by split|done].
  eapply refuse_login; [exact E1| |exact E]. by repeat constructor.
Qed.

Lemma going_recordFailedAttempt u w v v1 x :
  going w v -> run (recordFailedAttempt u) v = (v1, x) -> going w v1.
Proof.
  intros Hg E. unfold recordFailedAttempt in E.
  apply run_try_inv in E as [(w1 & a & E1 & E)|(w1 & e & E1 & E)];
    (apply (going_attempts _ w v) in E1; [|done..]).
  2: { by apply run_ret_inv in E as [<- _]. }
  destruct (_ <=? _)%Z; [|by apply run_ret_inv in E as [<- _]].
  apply run_bind_inv in E as (w2 & n & E2 & E). apply step_now in E2 as [-> ->].
  assert (going w (tick w1)) as Hg1 by exact E1.
  apply run_try_inv in E as [(w3 & a' & E3 & E)|(w3 & e & E3 & E)];
    (apply (going_attempts _ w) in E3; [|done..]); by apply run_ret_inv in E as [<- _].
Qed.

(** The session a login opened *)
Definition logged_in (w : World) (req : loginRequest) (w' : World) : Prop :=
  exists u token n d t s,
    t_find (fun x => String.eqb (usr_username x) (lr_username req)) (users (w_db w)) = Some u /\
    VerifyPassword (lr_password req) (usr_password_hash u) = true /\
    same_but_attempts (w_db w) d /\
    Sql.CreateSession t (usr_id u) token (w_clock w n + s_sessionDuration)%Z d = (w_db w', inr s) /\
    w_replies w' = [mkReply 200 (PLogin token (w_clock w n + s_sessionDuration)%Z)].

Lemma login_credentials_inv r req w v w' :
  going w v -> run (login_credentials r req) v = (w', tt) ->
  login_refused w w' \/ logged_in w req w'.
Proof.
  intros Hg E. unfold login_credentials in E.
  apply run_try_inv in E as [(w1 & u & E1 & E)|(w1 & e & E1 & E)].
  2: { left. apply (going_attempts _ w v) in E1; [|done..].
       apply run_bind_inv in E as (w2 & [] & E2 & E).
       apply (going_recordFailedAttempt _ w) in E2; [|done]. by eapply refuse_login_failed. }
  apply step_pool in E1 as Q1. destruct Q1 as [_ [(_ & Q1 & _)|[_ Q1]]]; [done|].
  apply (going_attempts _ w v) in E1; [|done..]. apply sql_one_inv in Q1 as [Q1 _].
  assert (users (w_db v) = users (w_db w)) as Hu by (destruct Hg as ([f ->] & _); done).
  rewrite Hu in Q1. destruct (VerifyPassword _ _) eqn:Ev; cbn [negb] in E.
  2: { left. apply run_bind_inv in E as (w2 & [] & E2 & E).
       apply (going_recordFailedAttempt _ w) in E2; [|done]. by eapply refuse_login_failed. }
  apply run_bind_inv in E as (w2 & res & E2 & E). apply (going_attempts _ w) in E2; [|done..].
  apply run_try_inv in E as [(w3 & token & E3 & E)|(w3 & e & E3 & E)];
    (apply (going_away _ w) in E3; [|by away_tac|done]).
  2: { left. eapply refuse_login; [exact E3| |exact E]. by repeat constructor. }
  apply run_bind_inv in E as (w4 & n & E4 & E). apply step_now in E4 as [-> ->].
  change (now_of w3) with (w_clock w3 (w_tick w3)) in E.
  destruct E3 as (Hd3 & Hr3 & Hc3). rewrite Hc3 in E.
  apply run_try_inv in E as [(w5 & s & E5 & E)|(w5 & e & E5 & E)];
    apply step_pool in E5 as [(_ & Hr5 & _ & _) Q5].
  2: { left. destruct Q5 as [(_ & _ & Hd5)|[_ Q5]].
       - apply step_write in E as (Hd' & Hr' & _). split; [by rewrite Hd', Hd5|].
         exists "Internal server error", 500%Z. rewrite Hr', Hr5. simpl. rewrite Hr3.
         split; [done|by repeat constructor].
       - apply step_write in E as (Hd' & Hr' & _).
         assert (w_db w5 = w_db w3) as Hd5.
         { unfold exec_query, Sql.CreateSession, sql_last, sql_one in Q5.
           destruct (t_exists (fun r => String.eqb (ses_token r) _) _); [by injection Q5|].
           destruct (negb _); [by injection Q5|].
           simpl in Q5. rewrite last_snoc in Q5. discriminate Q5. }
         split; [by rewrite Hd', Hd5|]. exists "Internal server error", 500%Z. rewrite Hr', Hr5.
         simpl. rewrite Hr3. split; [done|by repeat constructor]. }
  right. destruct Q5 as [(_ & Q5 & _)|[_ Q5]]; [done|].
  apply run_bind_inv in E as (w6 & [] & E6 & E).
  apply (run_away (auditEvent _ _)) in E6 as (Hd6 & _ & Hr6 & _); [|by split].
  apply step_write in E as (Hd' & Hr' & _).
  exists u, token, (w_tick w3), (w_db w3), (now_of (tick w3)), s. rewrite Hd', Hd6, Hr', Hr6, Hr5.
  simpl. rewrite Hr3. by split_and!.
Qed.

(** No lock is in force at [t]. *)
Definition unlocked (d : Db) (u : string) (t : Z) : Prop :=
  forall a until, t_find (fun x => String.eqb (la_username x) u) (login_attempts d) = Some a ->
    la_locked_until a = Some until -> (until <= t)%Z.

(** C25. Login, under every pattern of failures: either it is refused with 400,
    401 or 500 and nothing changed but failed-login counters, or the account
    was not locked when the server looked, the user exists, the password
    verifies against the stored hash, and the only other change is one new
    session of that user that expires after the configured duration, whose
    token is the one handed out. *)
Theorem login_outcome r body w :
  fresh w ->
  let w' := (run (loginHandler r body) w).1 in
  login_refused w w' \/
  exists req n, body = Some req /\ logged_in w req w' /\
    unlocked (w_db w) (lr_username req) (w_clock w n).
Proof.
  intros (Hr & _ & _) w'. destruct (run (loginHandler r body) w) as [v []] eqn:E. simpl in w'. subst w'.
  assert (going w w) as Hg by (by split_and!; [apply same_but_attempts_refl| |]).
  unfold loginHandler in E. destruct body as [req|].
  2: { left. eapply refuse_login; [exact Hg| |exact E]. by repeat constructor. }
  destruct (_ || _); [left; by eapply refuse_login_failed|].
  apply run_bind_inv in E as (w1 & res & E1 & E).
  apply step_pool in E1 as Q1. destruct Q1 as [_ Q1].
  apply (going_attempts _ w) in E1; [|done..].
  assert (forall n, unlocked (w_db w) (lr_username req) (w_clock w n) ->
    run (login_credentials r req) w1 = (v, tt) ->
    login_refused w v \/ exists req0 n, Some req = Some req0 /\ logged_in w req0 v /\
      unlocked (w_db w) (lr_username req0) (w_clock w n)) as Hcred.
  { intros n Hn Ec. apply (login_credentials_inv r req w) in Ec as [?|?]; [by left|right|done].
    by exists req, n. }
  destruct res as [e|a].
  - destruct (Err.is_no_rows e) eqn:Ee; cbn [negb] in E.
    2: { left. eapply refuse_login; [exact E1| |exact E]. by repeat constructor. }
    destruct Q1 as [(_ & [= ->] & _)|[_ Q1]]; [done|].
    apply (Hcred 0%nat); [|done]. intros b until Hb. unfold exec_query, Sql.GetLoginAttempts in Q1.
    by rewrite Hb in Q1.
  - destruct Q1 as [(_ & Q1 & _)|[_ Q1]]; [done|]. apply sql_one_inv in Q1 as [Q1 _].
    destruct (la_locked_until a) as [t|] eqn:El.
    2: { apply (Hcred 0%nat); [|done]. intros b until Hb. rewrite Q1 in Hb. injection Hb as <-.
         by rewrite El. }
    apply run_bind_inv in E as (w2 & n & E2 & E). apply step_now in E2 as [-> ->].
    assert (going w (tick w1)) as Hg1 by exact E1.
    destruct (Z.ltb_spec (now_of w1) t) as [Hlt|Hge]; [left; by eapply refuse_login_failed|].
    apply (login_credentials_inv r req w) in E as [?|?]; [by left| |done].
    right. exists req, (w_tick w1). split_and!; [done..|]. intros b until Hb Hu.
    rewrite Q1 in Hb. injection Hb as <-. rewrite El in Hu. injection Hu as <-.
    unfold now_of in Hge. by rewrite (proj2 (proj2 E1)) in Hge.
Qed.

(* ------------------------------------------------------------------ *)
(** ** Lockout *)

(** The account is locked until [until]. *)
Definition locked_until (d : Db) (u : string) (until : Z) : Prop :=
  exists a, t_find (fun x => String.eqb (la_username x) u) (login_attempts d) = Some a /\
    la_locked_until a = Some until.

Lemma locked_login r req w until :
  fresh w -> locked_until (w_db w) (lr_username req) until -> (forall n, (w_clock w n < until)%Z) ->
  lr_username req <> "" -> lr_password req <> "" ->
  let w' := (run (loginHandler r (Some req)) w).1 in
  w_db w' = w_db w /\ (http_status w' = 401%Z \/ http_status w' = 500%Z).
Proof.
  intros (Hr & _) (a & Ha & Hl) Hc Hu Hp w'.
  destruct (run (loginHandler r (Some req)) w) as [v []] eqn:E. simpl in w'. subst w'.
  unfold loginHandler in E. apply String.eqb_neq in Hu, Hp. rewrite Hu, Hp in E. cbn [orb] in E.
  apply run_bind_inv in E as (w1 & res & E1 & E).
  apply step_pool in E1 as [(_ & Hr1 & _ & Hc1 & _) [(_ & -> & Hd1)|[_ Q1]]].
  { apply step_write in E as (Hd & Hr' & _). split; [congruence|]. right.
    unfold http_status. by rewrite Hr', Hr1, Hr. }
  unfold exec_query, Sql.GetLoginAttempts in Q1. rewrite Ha in Q1. injection Q1 as Hd1 <-.
  rewrite Hl in E. apply run_bind_inv in E as (w2 & n & E2 & E). apply step_now in E2 as [-> ->].
  assert ((now_of w1 <? until)%Z = true) as Hlt.
  { apply Z.ltb_lt. unfold now_of. rewrite Hc1. apply Hc. }
  rewrite Hlt in E. unfold login_failed in E. apply run_bind_inv in E as (w3 & [] & E3 & E).
  apply (run_away (auditEvent _ _)) in E3 as (Hd3 & _ & Hr3 & _); [|by split].
  apply step_write in E as (Hd & Hr' & _). split; [by rewrite Hd, Hd3|]. left.
  unfold http_status. rewrite Hr', Hr3. simpl. by rewrite Hr1, Hr.
Qed.

(** While an account is locked, no credentials get in, the right ones
    included: every login is answered 401 (500 when the database is
    unreachable) and the database does not change, so that attempts made
    during a lock do not prolong it. *)
Theorem locked_account_refused r req w until :
  fresh w -> locked_until (w_db w) (lr_username req) until -> (forall n, (w_clock w n < until)%Z) ->
  lr_username req <> "" -> lr_password req <> "" ->
  let w' := (run (loginHandler r (Some req)) w).1 in
  w_db w' = w_db w /\ (http_status w' = 401%Z \/ http_status w' = 500%Z).
Proof. apply locked_login. Qed.

(** The next request, from whoever: the same database, clock and services *)
Definition next_request (w : World) : World :=
  mkWorld (w_db w) None (w_lock w) (w_limiter w) (w_svc w) [] [] [] (w_tick w) (w_clock w) (w_fail w) (w_rand w).

Definition login_once (r : Request) (w : World) (req : loginRequest) : World :=
  (run (loginHandler r (Some req)) (next_request w)).1.

(** [c] failures counted, no lock *)
Definition strikes (d : Db) (u : string) (c : Z) : Prop :=
  match t_find (fun x => String.eqb (la_username x) u) (login_attempts d) with
  | None => c = 0%Z
  | Some a => la_failed_count a = c /\ la_locked_until a = None
  end.

Definition reliable (w : World) : Prop := forall n, w_fail w n = false.

(** One more failure: counted, and from the fifth on the account is locked. *)
Definition struck (w : World) (u : string) (c : Z) (w' : World) : Prop :=
  if (c + 1 <? maxFailedAttempts)%Z then strikes (w_db w') u (c + 1)
  else exists n, locked_until (w_db w') u (w_clock w n + s_lockoutDuration)%Z.

Lemma upsert_strikes now u c d d' a :
  strikes d u c -> Sql.UpsertLoginAttempt now u d = (d', inr a) ->
  strikes d' u (c + 1) /\ la_failed_count a = (c + 1)%Z /\ users d' = users d.
Proof.
  unfold strikes, Sql.UpsertLoginAttempt. intros Hs E.
  destruct (t_exists (fun a => String.eqb (la_username a) u) (login_attempts d)) eqn:Ee; simpl in E.
  - rewrite t_find_update in E by done.
    destruct (t_find (fun a => String.eqb (la_username a) u) (login_attempts d)) as [b|] eqn:Ef.
    2: { apply t_find_none in Ef. congruence. }
    pose proof Ef as Hb. apply find_Some_elem in Hb as [_ Hb]. simpl in E. rewrite Hb in E.
    unfold sql_ok in E. injection E as <- <-. simpl. rewrite t_find_update, Ef by done. simpl.
    rewrite Hb. simpl. destruct Hs as [<- Hl]. by rewrite Hl.
  - rewrite t_find_insert in E by (try done; simpl; apply String.eqb_refl).
    unfold sql_one, sql_ok in E. injection E as <- <-. simpl.
    rewrite t_find_insert by (try done; simpl; apply String.eqb_refl).
    apply t_find_none in Ee. rewrite Ee in Hs. by subst.
Qed.

Lemma lock_locks now u until d c :
  strikes d u c -> c <> 0%Z ->
  locked_until (Sql.LockAccount now u (Some until) d).1 u until /\
  users (Sql.LockAccount now u (Some until) d).1 = users d.
Proof.
  unfold strikes, locked_until. intros Hs Hc. split; [|done]. simpl. rewrite t_find_update by done.
  destruct (t_find (fun x => String.eqb (la_username x) u) (login_attempts d)) as [a|] eqn:Ef; [|done].
  apply find_Some_elem in Ef as [_ Hb]. simpl. rewrite Hb. by eexists.
Qed.

Lemma reliable_pool {R} (q : query R) w w1 r :
  reliable w -> run (db Pool q) w = (w1, r) ->
  same_session w w1 /\ reliable w1 /\ exec_query (now_of w) q (w_db w) = (w_db w1, r).
Proof.
  intros Hrel E. apply step_pool in E as [Hs [(Hf & _)|[_ Q]]].
  { unfold faulty in Hf. by rewrite Hrel in Hf. }
  split_and!; [done| |done]. intros n. destruct Hs as (_ & _ & _ & _ & -> & _). apply Hrel.
Qed.

Lemma record_strikes u c w w' x :
  reliable w -> strikes (w_db w) u c -> (0 <= c)%Z ->
  run (recordFailedAttempt u) w = (w', x) ->
  struck w u c w' /\ users (w_db w') = users (w_db w) /\ w_replies w' = w_replies w.
Proof.
  intros Hrel Hs Hc E. unfold recordFailedAttempt in E.
  apply run_try_inv in E as [(w1 & a & E1 & E)|(w1 & e & E1 & E)];
    apply reliable_pool in E1 as (S1 & Hrel1 & Q1); try done.
  2: { exfalso. unfold exec_query, Sql.UpsertLoginAttempt in Q1.
       destruct (t_exists _ _) eqn:Ee; simpl in Q1.
       - rewrite t_find_update in Q1 by done. apply t_exists_spec in Ee as (b & Hb & Hbu).
         destruct (t_find _ (login_attempts (w_db w))) eqn:Ef; [discriminate Q1|].
         apply t_find_none in Ef. rewrite <- not_true_iff_false in Ef. apply Ef, t_exists_spec. eauto.
       - rewrite t_find_insert in Q1 by (try done; simpl; apply String.eqb_refl). discriminate Q1. }
  destruct (upsert_strikes _ _ _ _ _ _ Hs Q1) as (Hs1 & Ha & Hu1). rewrite Ha in E.
  destruct S1 as (_ & Hr1 & _ & Hc1 & _). unfold struck.
  destruct (Z.ltb_spec (c + 1) maxFailedAttempts) as [Hlt|Hge].
  { destruct (Z.leb_spec maxFailedAttempts (c + 1)); [lia|].
    apply run_ret_inv in E as [<- _]. by split_and!. }
  destruct (Z.leb_spec maxFailedAttempts (c + 1)); [|lia].
  apply run_bind_inv in E as (w2 & n & E2 & E). apply step_now in E2 as [-> ->].
  assert (reliable (tick w1)) as Hrel2 by exact Hrel1.
  destruct (lock_locks (now_of (tick w1)) u (w_clock w1 (w_tick w1) + s_lockoutDuration)%Z
              (w_db w1) (c + 1) Hs1) as [Hl Hu]; [lia|].
  apply run_try_inv in E as [(w3 & y & E3 & E)|(w3 & e & E3 & E)];
    apply reliable_pool in E3 as (S3 & Hrel3 & Q3); try done; apply run_ret_inv in E as [<- _].
  cbn [exec_query] in Q3. change (w_db (tick w1)) with (w_db w1) in Q3. unfold now_of at 2 in Q3.
  rewrite Q3 in Hl, Hu. simpl in Hl, Hu. destruct S3 as (_ & Hr3 & _). rewrite Hr3. simpl.
  split_and!; [|congruence|congruence]. exists (w_tick w1). by rewrite <- Hc1.
Qed.

(** The credentials do not match. *)
Definition wrong (d : Db) (req : loginRequest) : Prop :=
  lr_username req <> "" /\ lr_password req <> "" /\
  forall u, t_find (fun x => String.eqb (usr_username x) (lr_username req)) (users d) = Some u ->
    VerifyPassword (lr_password req) (usr_password_hash u) = false.

Lemma login_failed_inv r u reason w w' :
  run (login_failed r u reason) w = (w', tt) ->
  w_db w' = w_db w /\ w_replies w' = (w_replies w ++ [mkReply 401 (PAppError "Invalid credentials" 401)])%list.
Proof.
  intros E. unfold login_failed in E. apply run_bind_inv in E as (w1 & [] & E1 & E).
  apply (run_away (auditEvent _ _)) in E1 as (Hd1 & _ & Hr1 & _); [|by split].
  apply step_write in E as (Hd & Hr & _). by rewrite Hd, Hr, Hd1, Hr1.
Qed.

Lemma wrong_credentials r req c w w' :
  reliable w -> wrong (w_db w) req -> strikes (w_db w) (lr_username req) c -> (0 <= c)%Z ->
  run (login_credentials r req) w = (w', tt) ->
  struck w (lr_username req) c w' /\ users (w_db w') = users (w_db w) /\
  w_replies w' = (w_replies w ++ [mkReply 401 (PAppError "Invalid credentials" 401)])%list.
Proof.
  intros Hrel (Hu & Hp & Hw) Hs Hc E. unfold login_credentials in E.
  assert (forall reason v, reliable v -> w_db v = w_db w -> w_clock v = w_clock w ->
    w_replies v = w_replies w ->
    run (recordFailedAttempt (lr_username req) ;;; login_failed r (lr_username req) reason) v = (w', tt) ->
    struck w (lr_username req) c w' /\ users (w_db w') = users (w_db w) /\
    w_replies w' = (w_replies w ++ [mkReply 401 (PAppError "Invalid credentials" 401)])%list) as Hfail.
  { intros reason v Hrv Hd Hcv Hr Ev. apply run_bind_inv in Ev as (v1 & [] & E1 & Ev).
    apply (record_strikes _ c) in E1 as (Hst & Hus & Hrep); [|done|by rewrite Hd|done].
    apply login_failed_inv in Ev as [Hd' Hr']. rewrite Hd', Hr', Hus, Hrep, Hd, Hr.
    split_and!; [|done..]. unfold struck in *. by rewrite Hd', <- Hcv. }
  apply run_try_inv in E as [(w1 & u & E1 & E)|(w1 & e & E1 & E)];
    apply reliable_pool in E1 as ((_ & Hr1 & _ & Hc1 & _) & Hrel1 & Q1); try done.
  - apply sql_one_inv in Q1 as [Q1 Hd1]. rewrite (Hw _ Q1) in E. exact (Hfail _ _ Hrel1 Hd1 Hc1 Hr1 E).
  - cbn [exec_query] in Q1. unfold Sql.GetUserByUsername, sql_one in Q1.
    destruct (t_find _ _); [discriminate Q1|]. injection Q1 as Hd1 _. exact (Hfail _ _ Hrel1 (eq_sym Hd1) Hc1 Hr1 E).
Qed.

Lemma wrong_login r req c w :
  reliable w -> wrong (w_db w) req -> strikes (w_db w) (lr_username req) c -> (0 <= c)%Z ->
  let w' := login_once r w req in
  struck w (lr_username req) c w' /\ users (w_db w') = users (w_db w) /\
  http_status w' = 401%Z /\ reliable w' /\ w_clock w' = w_clock w.
Proof.
  intros Hrel Hw Hs Hc w'. unfold w', login_once.
  destruct (run (loginHandler r (Some req)) (next_request w)) as [v []] eqn:E. simpl.
  destruct (run_env _ _ _ _ E) as [Hck Hfl]. unfold reliable at 1. rewrite Hck, Hfl.
  pose proof Hw as (Hu & Hp & _). apply String.eqb_neq in Hu, Hp.
  unfold loginHandler in E. rewrite Hu, Hp in E. cbn [orb] in E.
  apply run_bind_inv in E as (w1 & res & E1 & E).
  apply reliable_pool in E1 as ((_ & Hr1 & _ & Hc1 & _) & Hrel1 & Q1); [|done].
  assert (exists e, w_db w1 = w_db w /\ (res = inl NoRows /\ e = None \/ exists a, res = inr a /\ la_locked_until a = None /\ e = Some a))
    as (ea & Hd1 & Hres).
  { cbn [exec_query] in Q1. unfold Sql.GetLoginAttempts, sql_one in Q1. unfold strikes in Hs.
    simpl in Q1. destruct (t_find _ (login_attempts (w_db w))) as [a|];
      unfold sql_ok, sql_err in Q1; injection Q1 as Hd <-; [exists (Some a)|exists None].
    - split; [done|]. right. exists a. by destruct Hs.
    - split; [done|]. by left. }
  assert (run (login_credentials r req) w1 = (v, tt)) as Ec.
  { by destruct Hres as [[-> _]|(a & -> & Hl & _)]; [|rewrite Hl in E]. }
  apply (wrong_credentials r req c) in Ec as (Hst & Hus & Hrep); try done; [|by rewrite Hd1..].
  rewrite Hd1 in Hus. unfold http_status. rewrite Hrep, Hr1. split_and!; try done.
  unfold struck in *. rewrite Hc1 in Hst. exact Hst.
Qed.

(** Several logins in a row *)
Definition logins (r : Request) (reqs : list loginRequest) (w : World) : World :=
  foldl (login_once r) w reqs.

Lemma wrong_logins r reqs u c w :
  reliable w -> Forall (fun q => lr_username q = u /\ wrong (w_db w) q) reqs ->
  strikes (w_db w) u c -> (0 <= c)%Z -> (c + Z.of_nat (length reqs) = maxFailedAttempts)%Z ->
  reqs <> [] ->
  exists n, locked_until (w_db (logins r reqs w)) u (w_clock w n + s_lockoutDuration)%Z /\
    w_clock (logins r reqs w) = w_clock w.
Proof.
  revert c w. induction reqs as [|q reqs IH]; intros c w Hrel Hall Hs Hc Hlen Hne; [done|].
  apply Forall_cons in Hall as [[<- Hq] Hall]. cbn [logins foldl].
  destruct (wrong_login r q c w Hrel Hq Hs Hc) as (Hst & Hus & _ & Hrel1 & Hck).
  unfold struck in Hst. destruct reqs as [|q2 reqs'].
  - simpl in Hlen. destruct (Z.ltb_spec (c + 1) maxFailedAttempts); [lia|].
    destruct Hst as [n Hn]. by exists n.
  - simpl in Hlen. destruct (Z.ltb_spec (c + 1) maxFailedAttempts); [|lia].
    destruct (IH (c + 1)%Z (login_once r w q)) as (n & Hn & Hck2); try done; [|lia|simpl; lia|].
    + refine (Forall_impl _ _ _ Hall _). intros x [Hx Hwx]. split; [done|].
      destruct Hwx as (? & ? & Hv). split_and!; [done..|]. intros y. rewrite Hus. apply Hv.
    + exists n. rewrite <- Hck. by split.
Qed.

(** C26. Lockout: after five logins in a row with wrong credentials for an
    account without recorded failures, the account is locked for the lockout
    duration counted from the server's clock during the last of them. *)
Theorem five_failures_lock r u reqs w :
  reliable w -> strikes (w_db w) u 0 -> length reqs = 5%nat ->
  Forall (fun q => lr_username q = u /\ wrong (w_db w) q) reqs ->
  exists n, locked_until (w_db (logins r reqs w)) u (w_clock w n + s_lockoutDuration)%Z.
Proof.
  intros Hrel Hs Hlen Hall.
  destruct (wrong_logins r reqs u 0 w) as (n & Hn & _); try done.
  - by rewrite Hlen.
  - by destruct reqs.
  - by exists n.
Qed.

End Login.

Section Middlewares.
Context `{Server, GroundControl, PqText, Argon2, Services, PgTypes}.

(** Reads keep a request fresh. *)
Definition untouched (w v : World) : Prop := fresh v /\ w_db v = w_db w /\ w_clock v = w_clock w /\ w_fail v = w_fail w.

Lemma untouched_refl w : fresh w -> untouched w w.
Proof. intros Hf. by repeat split; try apply Hf. Qed.

Lemma untouched_read {R} (q : query R) w v v1 r :
  is_read q = true -> untouched w v -> run (db Pool q) v = (v1, r) ->
  untouched w v1 /\ (r = inl bad_conn /\ faulty v = true \/ exec_query (now_of v) q (w_db w) = (w_db w, r)).
Proof.
  intros Hq ((Hr & Ht & He) & Hd & Hc & Hf) E.
  apply step_pool in E as [(Ht1 & Hr1 & He1 & Hc1 & Hf1 & _) HQ].
  assert (w_db v1 = w_db v) as Hd1.
  { destruct HQ as [(_ & _ & ?)|[_ HQ]]; [done|].
    pose proof (exec_read q (now_of v) (w_db v) Hq) as Hx. by rewrite HQ in Hx. }
  split.
  - unfold untouched, fresh. split_and!; congruence.
  - destruct HQ as [(? & -> & _)|[_ HQ]]; [by left|right]. by rewrite Hd1, Hd in HQ.
Qed.

Lemma untouched_now w v v1 n :
  untouched w v -> run time_now v = (v1, n) -> untouched w v1 /\ exists i, n = w_clock w i.
Proof.
  intros Hu E. apply step_now in E as [-> ->]. destruct Hu as (Hf & Hd & Hc & Hfl).
  split; [by split_and!|]. exists (w_tick v). unfold now_of. by rewrite Hc.
Qed.

(** Turned away: one error reply, nothing else *)
Definition turned_away (st : Z) (w w' : World) : Prop :=
  w_db w' = w_db w /\ exists m, w_replies w' = [mkReply st (PAppError m st)].

(** Turned away before anything was asked of the services *)
Definition dropped (st : Z) (w w' : World) : Prop := turned_away st w w' /\ w_events w' = [].

Lemma dropped_write m st w v w' :
  untouched w v -> run (WriteJSONError m st) v = (w', tt) -> dropped st w w'.
Proof.
  intros ((Hr & _ & He) & Hd & _) E. pose proof (step_write_events _ _ _ _ _ E) as He'.
  apply step_write in E as (Hd' & Hr' & _).
  split; [split; [congruence|]; exists m; by rewrite Hr', Hr|congruence].
Qed.

Lemma turned_away_write m st w v w' :
  untouched w v -> run (WriteJSONError m st) v = (w', tt) -> turned_away st w w'.
Proof. intros Hu E. by eapply dropped_write. Qed.

Lemma dropped_failAuth r a ty reason m w v w' :
  untouched w v -> run (failAuth r a ty reason m) v = (w', tt) -> dropped 401 w w'.
Proof.
  intros Hu E. unfold failAuth in E. apply run_bind_inv in E as (w1 & [] & E1 & E).
  eapply dropped_write; [|exact E]. unfold auditEvent, audit_log, perform in E1. cbn [run exec_op] in E1.
  by simplify_eq.
Qed.

(* ------------------------------------------------------------------ *)
(** ** Users *)

(** The request carries an unexpired session of [u], or [u]'s password. *)
Definition authenticated (w : World) (r : Request) (u : AuthUser) : Prop :=
  (exists s usr n, s ∈ rows (sessions (w_db w)) /\ usr ∈ rows (users (w_db w)) /\
     ses_token s = extractBearerToken r /\ extractBearerToken r <> "" /\
     (w_clock w n < ses_expires_at s)%Z /\ usr_id usr = ses_user_id s /\ u = auth_user usr) \/
  (exists name password usr, extractBasicAuth r = Some (name, password) /\
     t_find (fun x => String.eqb (usr_username x) name) (users (w_db w)) = Some usr /\
     VerifyPassword password (usr_password_hash usr) = true /\ u = auth_user usr).

Lemma session_lookup now token d s u :
  Sql.GetSessionByToken now token d = (d, inr (s, u)) ->
  s ∈ rows (sessions d) /\ u ∈ rows (users d) /\ ses_token s = token /\
  (now < ses_expires_at s)%Z /\ usr_id u = ses_user_id s.
Proof.
  intros E. unfold Sql.GetSessionByToken in E. apply sql_one_inv in E as [E _].
  assert ((s, u) ∈ List.flat_map (fun r =>
       if String.eqb (ses_token r) token && (now <? ses_expires_at r)%Z
       then (fun u => (r, u)) <$> t_select (fun u => usr_id u =? ses_user_id r)%Z (users d)
       else []) (rows (sessions d))) as Hin.
  { destruct (List.flat_map _ _); [discriminate E|]. injection E as ->. left. }
  apply list_elem_of_In, List.in_flat_map in Hin as (r & Hr & Hin).
  destruct (String.eqb_spec (ses_token r) token) as [Ht|]; [|done].
  destruct (Z.ltb_spec now (ses_expires_at r)); [|done]. simpl in Hin.
  apply list_elem_of_In, list_elem_of_fmap in Hin as (u' & [= -> ->] & Hu).
  unfold t_select in Hu. apply elem_of_List_filter in Hu as [Hu Hid].
  apply Z.eqb_eq in Hid. split_and!; [by apply list_elem_of_In|done..].
Qed.

Lemma bearer_user_inv r w v v1 o :
  untouched w v -> run (bearer_user r) v = (v1, o) ->
  untouched w v1 /\ forall u, o = Some u -> authenticated w r u.
Proof.
  intros Hu E. unfold bearer_user in E.
  destruct (String.eqb_spec (extractBearerToken r) "") as [|Hne].
  { apply run_ret_inv in E as [<- <-]. by split. }
  apply run_try_inv in E as [(w1 & [s usr] & E1 & E)|(w1 & e & E1 & E)];
    apply (untouched_read _ w) in E1 as [Hu1 HQ]; try done; apply run_ret_inv in E as [<- <-];
    (split; [done|intros u Hx; try discriminate Hx]).
  injection Hx as <-. destruct HQ as [[? _]|HQ]; [done|]. cbn [exec_query] in HQ.
  apply session_lookup in HQ as (? & ? & Ht & Hex & Hid). left.
  exists s, usr, (w_tick v). unfold auth_user. rewrite <- Hid.
  split_and!; try done. unfold now_of in Hex. by destruct Hu as (_ & _ & <- & _).
Qed.

Lemma basic_user_inv r w v v1 o :
  untouched w v -> run (basic_user r) v = (v1, o) ->
  untouched w v1 /\ forall u, o = Some u -> authenticated w r u.
Proof.
  intros Hu E. unfold basic_user in E. destruct (extractBasicAuth r) as [[name pw]|] eqn:Eb.
  2: { apply run_ret_inv in E as [<- <-]. by split. }
  apply run_try_inv in E as [(w1 & usr & E1 & E)|(w1 & e & E1 & E)];
    apply (untouched_read _ w) in E1 as [Hu1 HQ]; try done; apply run_ret_inv in E as [<- <-];
    (split; [done|intros u Hx; try discriminate Hx]).
  destruct (VerifyPassword pw (usr_password_hash usr)) eqn:Ev; [|discriminate Hx].
  injection Hx as <-. destruct HQ as [[? _]|HQ]; [done|]. apply sql_one_inv in HQ as [HQ _].
  right. by exists name, pw, usr.
Qed.

Lemma auth_middleware_cases next r w v w' :
  untouched w v -> run (AuthMiddleware next r) v = (w', tt) ->
  dropped 401 w w' \/
  exists u v1, authenticated w r u /\ untouched w v1 /\ run (next (with_user u r)) v1 = (w', tt).
Proof.
  intros Hu E. unfold AuthMiddleware in E. apply run_bind_inv in E as (w1 & b & E1 & E).
  apply (bearer_user_inv r w) in E1 as [Hu1 Hb]; [|done].
  apply run_bind_inv in E as (w2 & o & E2 & E).
  assert (untouched w w2 /\ forall u, o = Some u -> authenticated w r u) as [Hu2 Ho].
  { destruct b as [u|]; [|by eapply basic_user_inv]. apply run_ret_inv in E2 as [<- <-]. by split. }
  destruct o as [u|]; [right|left; by eapply dropped_write].
  exists u, w2. split_and!; [by apply Ho|done|exact E].
Qed.

(** AuthMiddleware: a request is either answered 401 with nothing changed,
    or handed to the next handler, on the same database, as a user whose
    unexpired session or whose password it carries. *)
Theorem auth_middleware_outcome next r w :
  fresh w ->
  let w' := (run (AuthMiddleware next r) w).1 in
  turned_away 401 w w' \/
  exists u v, authenticated w r u /\ untouched w v /\ run (next (with_user u r)) v = (w', tt).
Proof.
  intros Hf w'. destruct (run (AuthMiddleware next r) w) as [x []] eqn:E. simpl in w'. subst w'.
  destruct (auth_middleware_cases next r w w x (untouched_refl w Hf) E) as [[? _]|?]; [by left|by right].
Qed.

(** The lockout of an account only guards the login endpoint: with the
    password in a Basic Authorization header, every API endpoint lets the user
    in, whatever the counters of failed logins say. *)
Theorem basic_auth_ignores_lockout next r w name password u :
  fresh w -> reliable w -> extractBasicAuth r = Some (name, password) ->
  t_find (fun x => String.eqb (usr_username x) name) (users (w_db w)) = Some u ->
  VerifyPassword password (usr_password_hash u) = true ->
  forall attempts, let locked := on_login_attempts (fun _ => attempts) (w_db w) in
  exists v, untouched (set_db locked w) v /\
    run (AuthMiddleware next r) (set_db locked w) = run (next (with_user (auth_user u) r)) v.
Proof.
  intros Hf Hrel Hb Hu Hv attempts locked.
  assert (extractBearerToken r = "") as Hno.
  { unfold extractBearerToken, extractBasicAuth, authorization in *.
    destruct (Go.cut " " _) as [[s rest]|]; [|done].
    destruct (Go.equal_fold s "Basic") eqn:Eb; [|done]. destruct (Go.equal_fold s "Bearer") eqn:Ee; [|done].
    unfold Go.equal_fold in *. apply String.eqb_eq in Eb, Ee. rewrite Eb in Ee. discriminate Ee. }
  exists (tick (set_db locked w)). split; [by destruct Hf as (? & ? & ?)|].
  unfold AuthMiddleware. rewrite run_bind. unfold bearer_user. rewrite Hno. cbn [String.eqb run].
  rewrite run_bind. unfold basic_user. rewrite Hb, run_try. unfold db, perform.
  cbn [run exec_op exec_db]. unfold faulty, set_db at 1. cbn [w_fail w_tick]. rewrite Hrel.
  cbn [exec_query]. unfold Sql.GetUserByUsername. cbn [set_db w_db].
  change (users locked) with (users (w_db w)). rewrite Hu. cbn [sql_one sql_ok run]. by rewrite Hv.
Qed.

Lemma require_role_cases role next r w v w' :
  untouched w v -> run (RequireRole role next r) v = (w', tt) ->
  match rq_user r with
  | None => dropped 401 w w'
  | Some u => if String.eqb (au_role u) role then run (next r) v = (w', tt) else dropped 403 w w'
  end.
Proof.
  intros Hu E. unfold RequireRole, GetUserFromContext in E.
  destruct (rq_user r) as [u|]; [|by eapply dropped_write].
  destruct (String.eqb (au_role u) role); [exact E|eapply dropped_write; [exact Hu|exact E]].
Qed.

(** RequireRole lets only users of that role through; the others get 401
    or 403 and nothing changes. *)
Theorem require_role_outcome role next r w :
  fresh w ->
  let w' := (run (RequireRole role next r) w).1 in
  match rq_user r with
  | None => turned_away 401 w w'
  | Some u => if String.eqb (au_role u) role then run (next r) w = (w', tt) else turned_away 403 w w'
  end.
Proof.
  intros Hf w'. destruct (run (RequireRole role next r) w) as [x []] eqn:E. simpl in w'. subst w'.
  pose proof (require_role_cases role next r w w x (untouched_refl w Hf) E) as Hx.
  destruct (rq_user r) as [u|]; [|by destruct Hx]. destruct (String.eqb (au_role u) role); [done|by destruct Hx].
Qed.

(* ------------------------------------------------------------------ *)
(** ** Satellites *)

(** The certificate names the satellite [n], or the request carries the secret
    of an unexpired robot account of the satellite named [n]. *)
Definition satellite_authenticated (w : World) (r : Request) (n : string) : Prop :=
  GetSatelliteName r = Some n /\ t_exists (fun s => String.eqb (sat_name s) n) (satellites (w_db w)) = true \/
  GetSatelliteName r = None /\ exists user secret rob sat i,
    extractBasicAuth r = Some (user, secret) /\
    t_find (fun x => String.eqb (rob_name x) user) (robot_accounts (w_db w)) = Some rob /\
    VerifySecret secret (rob_secret_hash rob) = true /\
    (forall t, rob_expiry rob = Some t -> (w_clock w i <= t)%Z) /\
    t_find (fun s => (sat_id s =? rob_satellite_id rob)%Z) (satellites (w_db w)) = Some sat /\
    n = sat_name sat.

Lemma validateRobotAuth_inv user secret r w v v1 out :
  GetSatelliteName r = None -> extractBasicAuth r = Some (user, secret) ->
  untouched w v -> run (validateRobotAuth user secret) v = (v1, out) ->
  untouched w v1 /\ forall n, out.2 = inr n -> satellite_authenticated w r n.
Proof.
  intros Hn Hb Hu E. unfold validateRobotAuth in E.
  apply run_try_inv in E as [(w1 & rob & E1 & E)|(w1 & e & E1 & E)];
    apply (untouched_read _ w) in E1 as [Hu1 HQ]; try done.
  2: { apply run_ret_inv in E as [<- <-]. by split. }
  destruct HQ as [[? _]|HQ]; [done|]. apply sql_one_inv in HQ as [HQ _].
  destruct (VerifySecret secret (rob_secret_hash rob)) eqn:Ev; cbn [negb] in E.
  2: { apply run_ret_inv in E as [<- <-]. by split. }
  apply run_bind_inv in E as (w2 & ex & E2 & E).
  assert (untouched w w2 /\ exists i, ex = false -> forall t, rob_expiry rob = Some t -> (w_clock w i <= t)%Z)
    as (Hu2 & i & Hex).
  { destruct (rob_expiry rob) as [t|].
    - apply run_bind_inv in E2 as (w3 & n & E3 & E2). apply (untouched_now w) in E3 as [Hu3 [i ->]]; [|done].
      apply run_ret_inv in E2 as [<- <-]. split; [done|]. exists i. intros Hlt t' [= <-].
      by apply Z.ltb_ge in Hlt.
    - apply run_ret_inv in E2 as [<- <-]. split; [done|]. by exists 0%nat. }
  destruct ex; [by apply run_ret_inv in E as [<- <-]|].
  apply run_try_inv in E as [(w3 & sat & E3 & E)|(w3 & e & E3 & E)];
    apply (untouched_read _ w) in E3 as [Hu3 HQ3]; try done; apply run_ret_inv in E as [<- <-];
    (split; [done|]); [|done].
  destruct HQ3 as [[? _]|HQ3]; [done|]. apply sql_one_inv in HQ3 as [HQ3 _].
  intros n [= <-]. right. split; [done|]. exists user, secret, rob, sat, i. split_and!; auto.
Qed.

Lemma satellite_auth_cases next r w v w' :
  untouched w v -> run (SatelliteAuthMiddleware next r) v = (w', tt) ->
  dropped 401 w w' \/
  exists n v1, satellite_authenticated w r n /\ untouched w v1 /\
    run (next (ContextWithSatelliteName n r)) v1 = (w', tt).
Proof.
  intros Hu E. unfold SatelliteAuthMiddleware in E.
  destruct (GetSatelliteName r) as [sn|] eqn:En.
  - apply run_try_inv in E as [(w1 & n & E1 & E)|(w1 & e & E1 & E)]; unfold validateSPIFFEAuth in E1.
    + inv_step E1 w2 sat E2. apply (untouched_read _ w) in E2 as [Hu2 HQ]; [|done..].
      apply run_ret_inv in E1 as [<- [= <-]]. destruct HQ as [[? _]|HQ]; [done|].
      apply sql_one_inv in HQ as [HQ _]. right. exists (sat_name sat), w2. split_and!; try done.
      pose proof HQ as [Hin Hs]%find_Some_elem. apply String.eqb_eq in Hs. left.
      rewrite Hs. split; [done|]. apply t_exists_spec. exists sat. by rewrite String.eqb_eq.
    + apply run_try_inv in E1 as [(w2 & sat & E2 & E1)|(w2 & e2 & E2 & E1)];
        apply (untouched_read _ w) in E2 as [Hu2 _]; try done; apply run_ret_inv in E1 as [<- E1].
      left. eapply dropped_failAuth; [exact Hu2|exact E].
  - destruct (extractBasicAuth r) as [[user secret]|] eqn:Eb.
    2: { left. by eapply dropped_failAuth. }
    apply run_bind_inv in E as (w1 & [ex res] & E1 & E).
    apply (validateRobotAuth_inv user secret r w) in E1 as [Hu1 Hn]; [|done..].
    destruct res as [e|n]; [destruct ex; left; (eapply dropped_failAuth; [exact Hu1|exact E])|].
    right. exists n, w1. split_and!; [by apply Hn|done|]. by destruct ex.
Qed.

(** C24. SatelliteAuthMiddleware: a request is either answered 401 with nothing
    changed, or handed on, on the same database, under the name of a known
    satellite: the one of its certificate, or the one that owns the unexpired
    robot account whose secret it carries. *)
Theorem satellite_auth_outcome next r w :
  fresh w ->
  let w' := (run (SatelliteAuthMiddleware next r) w).1 in
  turned_away 401 w w' \/
  exists n v, satellite_authenticated w r n /\ untouched w v /\
    run (next (ContextWithSatelliteName n r)) v = (w', tt).
Proof.
  intros Hf w'. destruct (run (SatelliteAuthMiddleware next r) w) as [x []] eqn:E. simpl in w'. subst w'.
  destruct (satellite_auth_cases next r w w x (untouched_refl w Hf) E) as [[? _]|?]; [by left|by right].
Qed.

End Middlewares.

Section LoginWitnesses.
Import Demo.

Definition demo_login : loginRequest := mkLoginRequest "alice" "guess".

Definition locked_db : Db :=
  on_login_attempts (fun _ => mkTable [mkLoginAttempt 1 "alice" 5 (Some (60 * second)%Z) 0] 2) demo_db.

Lemma login_outcome_witness :
  let w' := (run (loginHandler demo_request (Some demo_login)) (demo_world demo_db)).1 in
  login_refused (demo_world demo_db) w' \/
  exists req n, Some demo_login = Some req /\ logged_in (demo_world demo_db) req w' /\
    unlocked demo_db (lr_username req) (w_clock (demo_world demo_db) n).
Proof. apply (login_outcome demo_request (Some demo_login) (demo_world demo_db)), demo_fresh. Defined.

Lemma locked_account_refused_witness :
  let w' := (run (loginHandler demo_request (Some demo_login)) (demo_world locked_db)).1 in
  w_db w' = locked_db /\ (http_status w' = 401%Z \/ http_status w' = 500%Z).
Proof.
  apply (locked_account_refused demo_request demo_login (demo_world locked_db) (60 * second)%Z);
    [apply demo_fresh|by eexists|by intros n|done|done].
Defined.

Lemma five_failures_lock_witness :
  exists n, locked_until (w_db (logins demo_request (repeat demo_login 5) (demo_world demo_db))) "alice"
    (w_clock (demo_world demo_db) n + s_lockoutDuration)%Z.
Proof.
  apply five_failures_lock; [done|reflexivity|reflexivity|].
  repeat constructor; try done; intros u Hu; simpl in Hu; injection Hu as <-; reflexivity.
Defined.

Definition basic_request : Request :=
  mkRequest "192.0.2.7:4711"
    (fun h => if String.eqb h "Authorization" then "Basic YWxpY2U6c2VjcmV0" else "")
    None None None None.

Definition basic_db : Db :=
  on_users (fun _ => mkTable [mkUser 1 "alice" (hash_with_salt "secret" []) "admin" 0 0] 2) demo_db.

Lemma auth_middleware_outcome_witness :
  let next (_ : Request) := write 200 PNone in
  let w' := (run (AuthMiddleware next basic_request) (demo_world basic_db)).1 in
  turned_away 401 (demo_world basic_db) w' \/
  exists u v, authenticated (demo_world basic_db) basic_request u /\ untouched (demo_world basic_db) v /\
    run (next (with_user u basic_request)) v = (w', tt).
Proof. apply (auth_middleware_outcome (fun _ => write 200 PNone)), demo_fresh. Defined.

Lemma basic_auth_ignores_lockout_witness :
  let locked := on_login_attempts (fun _ => login_attempts locked_db) basic_db in
  exists v, untouched (set_db locked (demo_world basic_db)) v /\
    run (AuthMiddleware (fun _ => write 200 PNone) basic_request) (set_db locked (demo_world basic_db)) =
    run (write 200 PNone) v.
Proof.
  apply (basic_auth_ignores_lockout (fun _ => write 200 PNone) basic_request (demo_world basic_db) "alice" "secret"
    (mkUser 1 "alice" (hash_with_salt "secret" []) "admin" 0 0));
    [apply demo_fresh|done|vm_compute; reflexivity|reflexivity|vm_compute; reflexivity].
Defined.

Lemma require_role_outcome_witness :
  turned_away 403 (demo_world demo_db)
    (run (RequireRole "system_admin" (fun _ => write 200 PNone) demo_request) (demo_world demo_db)).1.
Proof.
  exact (require_role_outcome "system_admin" (fun _ => write 200 PNone) demo_request
    (demo_world demo_db) (demo_fresh demo_db)).
Defined.

Lemma satellite_auth_outcome_witness :
  let next (_ : Request) := write 200 PNone in
  let w' := (run (SatelliteAuthMiddleware next basic_request) (demo_world basic_db)).1 in
  turned_away 401 (demo_world basic_db) w' \/
  exists n v, satellite_authenticated (demo_world basic_db) basic_request n /\
    untouched (demo_world basic_db) v /\
    run (next (ContextWithSatelliteName n basic_request)) v = (w', tt).
Proof. apply (satellite_auth_outcome (fun _ => write 200 PNone)), demo_fresh. Defined.

End LoginWitnesses.
