(* ===== verification/Users.v ===== *)
(** * User management

    internal/groundcontrol/server/user_handlers.go and bootstrap.go: creating,
    listing and deleting users, changing passwords, and the system
    administrator created at startup. *)

From S2P Require Import Free Prelude Utf8 Db DbFacts Prog Logic Runs Env Harbor CryptoLib Crypto Duration Spiffe.
From S2P Require Import Server Demo Satellites Auth AuthFacts.
From Stdlib Require Import Ascii.

#[local] Open Scope string_scope.

Definition roleAdmin : string := "admin".
Definition roleSystemAdmin : string := "system_admin".
Definition systemAdminUsername : string := "admin".

Record createUserRequest := mkCreateUserRequest { cu_username : string; cu_password : string }.
Record changePasswordRequest := mkChangePasswordRequest { cp_current : string; cp_new : string }.

Definition userResponse (u : User) : payload :=
  PUser (usr_id u) (usr_username u) (usr_role u) (usr_created_at u).

Section Users.
Context `{Server, GroundControl, PqText, Argon2, UnicodeTables}.

Definition internal_error (_ : goerr) : prog unit := WriteJSONError "Internal server error" 500.

Definition createUserHandler (r : Request) (body : option createUserRequest) : prog unit :=
  match body with
  | None => WriteJSONError "Invalid request body" 400
  | Some req =>
      if String.eqb (cu_username req) "" then WriteJSONError "Username is required" 400
      else if String.eqb (cu_username req) "admin" then WriteJSONError "Username 'admin' is reserved" 400
      else
        let? _ := lift (Auth.Validate s_passwordPolicy (cu_password req))
          catch (fun e => WriteJSONError (error_text e) 400) in
        let? hash := HashPassword (cu_password req) catch internal_error in
        let? user := db Pool (QCreateUser (cu_username req) hash roleAdmin)
          catch (fun e =>
            match Err.as_pq e with
            | Some code => if String.eqb code Err.unique_violation
                           then WriteJSONError "User already exists" 409 else internal_error e
            | None => internal_error e
            end) in
        auditEvent r (audit_event "create" "user" "success" (actorFromContext r) "user" "" (usr_username user)
          "" [("role", DStr (usr_role user))]) ;;;
        WriteJSONResponse 201 (userResponse user)
  end.

Definition listUsersHandler : prog unit :=
  let? users := db Pool QListUsers catch internal_error in
  WriteJSONResponse 200 (PUsers ((fun u => (usr_id u, usr_username u, usr_role u, usr_created_at u)) <$> users)).

Definition not_found_or_internal (e : goerr) : prog unit :=
  if Err.is_no_rows e then WriteJSONError "User not found" 404 else internal_error e.

Definition getUserHandler (username : string) : prog unit :=
  let? user := db Pool (QGetUserByUsername username) catch not_found_or_internal in
  if String.eqb (usr_role user) roleSystemAdmin then WriteJSONError "User not found" 404
  else WriteJSONResponse 200 (userResponse user).

Definition deleteUserHandler (r : Request) (username : string) : prog unit :=
  match GetUserFromContext r with
  | None => WriteJSONError "Unauthorized" 401
  | Some currentUser =>
      if String.eqb username (au_username currentUser) then WriteJSONError "Cannot delete yourself" 400
      else if String.eqb username "admin" then WriteJSONError "Cannot delete system admin" 400
      else
        let? user := db Pool (QGetUserByUsername username) catch not_found_or_internal in
        let? _ := db Pool (QDeleteUserSessions (usr_id user)) catch internal_error in
        let? _ := db Pool (QDeleteUser username) catch internal_error in
        auditEvent r (audit_event "delete" "user" "success" (au_username currentUser) "user" "" username "" []) ;;;
        write 204 PNone
  end.

(** The common end of both password changes *)
Definition store_password (r : Request) (user : User) (username password actor flow : string) : prog unit :=
  let? hash := HashPassword password catch internal_error in
  let? _ := db Pool (QUpdateUserPassword username hash) catch internal_error in
  let? _ := db Pool (QDeleteUserSessions (usr_id user)) catch internal_error in
  auditEvent r (audit_event "password_change" "user" "success" actor "user" "" username ""
    [("flow", DStr flow)]) ;;;
  write 204 PNone.

Definition changeOwnPasswordHandler (r : Request) (body : option changePasswordRequest) : prog unit :=
  match GetUserFromContext r with
  | None => WriteJSONError "Unauthorized" 401
  | Some currentUser =>
      match body with
      | None => WriteJSONError "Invalid request body" 400
      | Some req =>
          let? _ := lift (Auth.Validate s_passwordPolicy (cp_new req))
            catch (fun e => WriteJSONError (error_text e) 400) in
          let? user := db Pool (QGetUserByUsername (au_username currentUser)) catch internal_error in
          if negb (VerifyPassword (cp_current req) (usr_password_hash user))
          then WriteJSONError "Current password is incorrect" 401
          else store_password r user (au_username currentUser) (cp_new req) (au_username currentUser)
                 "self_service"
      end
  end.

Definition changeUserPasswordHandler (r : Request) (username : string) (body : option string) : prog unit :=
  match body with
  | None => WriteJSONError "Invalid request body" 400
  | Some new_password =>
      let? _ := lift (Auth.Validate s_passwordPolicy new_password)
        catch (fun e => WriteJSONError (error_text e) 400) in
      let? user := db Pool (QGetUserByUsername username) catch not_found_or_internal in
      store_password r user username new_password (actorFromContext r) "admin_reset"
  end.

(** bootstrap.go *)
Definition BootstrapSystemAdmin : prog (result unit) :=
  let? exists_ := db Pool QSystemAdminExists catch wrap "failed to check system admin existence" in
  if exists_ : bool then ok tt
  else if String.eqb GC_AdminPassword ""
  then throw (PlainErr "ADMIN_PASSWORD environment variable is required for initial setup")
  else
    let? _ := lift (Auth.Validate s_passwordPolicy GC_AdminPassword) catch wrap "ADMIN_PASSWORD invalid" in
    let? hash := HashPassword GC_AdminPassword catch wrap "failed to hash admin password" in
    let? _ := db Pool (QCreateUser systemAdminUsername hash roleSystemAdmin)
      catch (fun err =>
        let* again := db Pool QSystemAdminExists in
        match again with
        | inr true => ok tt
        | _ => wrap "failed to create system admin" err
        end) in
    ok tt.

End Users.

Section Facts.
Context `{Server, GroundControl, PqText, Argon2, UnicodeTables, Services, PgTypes}.

(** A hash this server would accept for the password *)
Definition hash_of (password hash : string) : Prop := exists salt, hash = hash_with_salt password salt.

Lemma untouched_hash p w v v1 r :
  untouched w v -> run (HashPassword p) v = (v1, r) ->
  untouched w v1 /\ forall h, r = inr h -> hash_of p h.
Proof.
  unfold HashPassword, HashSecret. intros ((Hr & Ht & He) & Hd & Hc & Hf) E.
  assert (forall x, run (perform (ORand ArgonSaltSize)) v = (v1, x) -> untouched w v1) as Hu.
  { intros x Ex. unfold perform in Ex. cbn [run exec_op] in Ex. simplify_eq. by repeat split. }
  apply run_try_inv in E as [(w1 & salt & E1 & E)|(w1 & e & E1 & E)];
    apply run_ret_inv in E as [-> <-]; (split; [by eapply Hu|]); [|done].
  intros h [= <-]. by exists salt.
Qed.

Lemma create_user_error now n h r d d' e : Sql.CreateUser now n h r d = (d', inl e) -> d' = d.
Proof.
  unfold Sql.CreateUser, sql_last, sql_one. destruct (negb _); [by intros [= <-]|].
  destruct (t_exists _ _); [by intros [= <-]|]. simpl. rewrite last_snoc. discriminate.
Qed.

Lemma turned_away_any m st w v w' :
  w_replies v = [] -> w_db v = w_db w -> run (WriteJSONError m st) v = (w', tt) -> turned_away st w w'.
Proof.
  intros Hr Hd E. apply step_write in E as (Hd' & Hr' & _). split; [congruence|].
  exists m. by rewrite Hr', Hr.
Qed.

Lemma audited_write r e st b w w' :
  run (auditEvent r e ;;; write st b) w = (w', tt) ->
  w_db w' = w_db w /\ w_replies w' = (w_replies w ++ [mkReply st b])%list.
Proof.
  intros E. apply run_bind_inv in E as (w1 & [] & E1 & E).
  apply (run_away (auditEvent _ _)) in E1 as (Hd1 & _ & Hr1 & _); [|by split].
  apply step_write in E as (Hd & Hr & _). by rewrite Hd, Hr, Hd1, Hr1.
Qed.

(** Refused with one of these statuses, nothing changed *)
Definition turned_away_by (sts : list Z) (w w' : World) : Prop := exists st, st ∈ sts /\ turned_away st w w'.

Ltac away_with Hu E := eexists; split; [|eapply turned_away_write; [exact Hu|exact E]]; by repeat constructor.

(** Creating a user: either refused with nothing changed, or a user that
    did not exist, whose name is neither empty nor reserved, is added with the
    role admin, whatever the request says, and a hash of a password that
    conforms to the policy. *)
Theorem create_user_outcome r body w :
  fresh w ->
  let w' := (run (createUserHandler r body) w).1 in
  turned_away_by [400; 409; 500]%Z w w' \/
  exists req hash t u, body = Some req /\ cu_username req <> "" /\ cu_username req <> "admin" /\
    Auth.Validate s_passwordPolicy (cu_password req) = inr tt /\ hash_of (cu_password req) hash /\
    t_exists (fun x => String.eqb (usr_username x) (cu_username req)) (users (w_db w)) = false /\
    Sql.CreateUser t (cu_username req) hash "admin" (w_db w) = (w_db w', inr u) /\
    w_replies w' = [mkReply 201 (userResponse u)].
Proof.
  intros Hf w'. destruct (run (createUserHandler r body) w) as [x []] eqn:E. simpl in w'. subst w'.
  pose proof (untouched_refl w Hf) as Hu. unfold createUserHandler in E.
  destruct body as [req|]; [|left; away_with Hu E].
  destruct (String.eqb_spec (cu_username req) ""); [left; away_with Hu E|].
  destruct (String.eqb_spec (cu_username req) "admin"); [left; away_with Hu E|].
  apply run_try_inv in E as [(w1 & [] & E1 & E)|(w1 & e & E1 & E)]; apply run_ret_inv in E1 as [<- E1].
  2: { left. away_with Hu E. }
  apply run_try_inv in E as [(w2 & hash & E2 & E)|(w2 & e & E2 & E)];
    apply (untouched_hash _ w) in E2 as [Hu2 Hh]; try exact Hu; [|left; away_with Hu2 E].
  apply run_try_inv in E as [(w3 & u & E3 & E)|(w3 & e & E3 & E)];
    apply step_pool in E3 as [(_ & Hr3 & _) Q3]; destruct Hu2 as ((Hr2 & _) & Hd2 & _).
  - destruct Q3 as [(_ & Q3 & _)|[_ Q3]]; [done|]. right. cbn [exec_query] in Q3.
    apply audited_write in E as [Hd Hr]. exists req, hash, (now_of w2), u.
    rewrite Hd, Hr, Hr3, Hr2, <- Hd2. split_and!; try done; [by apply Hh|].
    unfold Sql.CreateUser in Q3. destruct (negb _); [done|].
    destruct (t_exists _ _); [done|by auto].
  - left. assert (w_db w3 = w_db w) as Hd3.
    { rewrite <- Hd2. destruct Q3 as [(_ & _ & ?)|[_ Q3]]; [done|]. by eapply create_user_error. }
    rewrite Hr2 in Hr3. assert (forall m st, st ∈ [400; 409; 500]%Z ->
      run (WriteJSONError m st) w3 = (x, tt) -> turned_away_by [400; 409; 500]%Z w x) as Hout.
    { intros m st Hst Ex. exists st. split; [done|]. by eapply turned_away_any. }
    unfold internal_error in E.
    destruct (Err.as_pq e) as [c|]; [destruct (String.eqb c Err.unique_violation)|];
      (eapply Hout; [|exact E]); by repeat constructor.
Qed.

(* ------------------------------------------------------------------ *)
(** ** Deleting a user *)

(** Deleting a user: refused with nothing changed; or, with a failure of
    the database in between, only the user's sessions are gone and the answer
    is 500; or the user, who is neither the caller nor named admin, is deleted
    with all sessions. *)
Theorem delete_user_outcome r username w :
  fresh w ->
  let w' := (run (deleteUserHandler r username) w).1 in
  turned_away_by [400; 401; 404; 500]%Z w w' \/
  exists me u, rq_user r = Some me /\ username <> au_username me /\ username <> "admin" /\
    t_find (fun x => String.eqb (usr_username x) username) (users (w_db w)) = Some u /\
    let d1 := (Sql.DeleteUserSessions (usr_id u) (w_db w)).1 in
    (w_db w' = d1 /\ (exists m, w_replies w' = [mkReply 500 (PAppError m 500)]) \/
     w_db w' = (Sql.DeleteUser username d1).1 /\ w_replies w' = [mkReply 204 PNone]).
Proof.
  intros Hf w'. destruct (run (deleteUserHandler r username) w) as [x []] eqn:E. simpl in w'. subst w'.
  pose proof (untouched_refl w Hf) as Hu. unfold deleteUserHandler, GetUserFromContext in E.
  destruct (rq_user r) as [me|]; [|left; away_with Hu E].
  destruct (String.eqb_spec username (au_username me)); [left; away_with Hu E|].
  destruct (String.eqb_spec username "admin"); [left; away_with Hu E|].
  apply run_try_inv in E as [(w1 & u & E1 & E)|(w1 & e & E1 & E)];
    apply (untouched_read _ w) in E1 as [Hu1 HQ]; try done.
  2: { left. unfold not_found_or_internal, internal_error in E.
       destruct (Err.is_no_rows e); away_with Hu1 E. }
  destruct HQ as [[? _]|HQ]; [done|]. apply sql_one_inv in HQ as [HQ _].
  destruct Hu1 as ((Hr1 & _) & Hd1 & _). rewrite <- Hd1.
  apply run_try_inv in E as [(w2 & [] & E2 & E)|(w2 & e & E2 & E)];
    apply step_pool in E2 as [(_ & Hr2 & _) Q2]; rewrite Hr1 in Hr2.
  2: { left. exists 500%Z. split; [by repeat constructor|]. eapply turned_away_any; [exact Hr2| |exact E].
       destruct Q2 as [(_ & _ & ?)|[_ Q2]]; [congruence|discriminate Q2]. }
  destruct Q2 as [(_ & Q2 & _)|[_ Q2]]; [done|]. cbn [exec_query] in Q2. injection Q2 as Hd2.
  right. exists me, u. rewrite Hd1. split_and!; try done. rewrite <- Hd1.
  apply run_try_inv in E as [(w3 & [] & E3 & E)|(w3 & e & E3 & E)];
    apply step_pool in E3 as [(_ & Hr3 & _) Q3]; rewrite Hr2 in Hr3.
  - destruct Q3 as [(_ & Q3 & _)|[_ Q3]]; [done|]. cbn [exec_query] in Q3. right.
    apply audited_write in E as [Hd Hr]. rewrite Hd, Hr, Hr3. split; [|done]. simpl.
    rewrite <- Hd2 in Q3. by injection Q3.
  - left. apply step_write in E as (Hd & Hr & _). rewrite Hd, Hr, Hr3.
    destruct Q3 as [(_ & _ & ->)|[_ Q3]]; [|discriminate Q3]. split; [by rewrite <- Hd2|by eexists].
Qed.

(* ------------------------------------------------------------------ *)
(** ** Changing a password *)

(** The new hash is stored under the name, and all sessions of the user are
    gone; or only the former, when the database failed in between. *)
Definition password_stored (w : World) (u : User) (name password : string) (w' : World) : Prop :=
  exists hash t, hash_of password hash /\
    let d1 := (Sql.UpdateUserPassword t name hash (w_db w)).1 in
    (w_db w' = d1 /\ (exists m, w_replies w' = [mkReply 500 (PAppError m 500)]) \/
     w_db w' = (Sql.DeleteUserSessions (usr_id u) d1).1 /\ w_replies w' = [mkReply 204 PNone]).

Lemma store_password_inv r u name password actor flow w v w' :
  untouched w v -> run (store_password r u name password actor flow) v = (w', tt) ->
  turned_away 500 w w' \/ password_stored w u name password w'.
Proof.
  intros Hu E. unfold store_password, internal_error in E.
  apply run_try_inv in E as [(w1 & hash & E1 & E)|(w1 & e & E1 & E)];
    apply (untouched_hash _ w) in E1 as [Hu1 Hh]; try done; [|left; by eapply turned_away_write].
  destruct Hu1 as ((Hr1 & _) & Hd1 & _).
  apply run_try_inv in E as [(w2 & [] & E2 & E)|(w2 & e & E2 & E)];
    apply step_pool in E2 as [(_ & Hr2 & _) Q2]; rewrite Hr1 in Hr2.
  2: { left. eapply turned_away_any; [exact Hr2| |exact E].
       destruct Q2 as [(_ & _ & ?)|[_ Q2]]; [congruence|discriminate Q2]. }
  destruct Q2 as [(_ & Q2 & _)|[_ Q2]]; [done|]. cbn [exec_query] in Q2. injection Q2 as Hd2.
  right. exists hash, (now_of w1). split; [by apply Hh|]. rewrite <- Hd1. simpl. rewrite Hd2.
  apply run_try_inv in E as [(w3 & [] & E3 & E)|(w3 & e & E3 & E)];
    apply step_pool in E3 as [(_ & Hr3 & _) Q3]; rewrite Hr2 in Hr3.
  - destruct Q3 as [(_ & Q3 & _)|[_ Q3]]; [done|]. cbn [exec_query] in Q3. right.
    apply audited_write in E as [Hd Hr]. rewrite Hd, Hr, Hr3. split; [|done]. by injection Q3.
  - left. apply step_write in E as (Hd & Hr & _). rewrite Hd, Hr, Hr3.
    destruct Q3 as [(_ & _ & ->)|[_ Q3]]; [|discriminate Q3]. split; [done|by eexists].
Qed.

(** Changing one's own password: refused with nothing changed, or the
    current password was verified, the new one conforms to the policy and its
    hash is stored; answered 204, all sessions of the user are gone. *)
Theorem change_own_password_outcome r body w :
  fresh w ->
  let w' := (run (changeOwnPasswordHandler r body) w).1 in
  turned_away_by [400; 401; 500]%Z w w' \/
  exists me req u, rq_user r = Some me /\ body = Some req /\
    t_find (fun x => String.eqb (usr_username x) (au_username me)) (users (w_db w)) = Some u /\
    VerifyPassword (cp_current req) (usr_password_hash u) = true /\
    Auth.Validate s_passwordPolicy (cp_new req) = inr tt /\
    password_stored w u (au_username me) (cp_new req) w'.
Proof.
  intros Hf w'. destruct (run (changeOwnPasswordHandler r body) w) as [x []] eqn:E. simpl in w'. subst w'.
  pose proof (untouched_refl w Hf) as Hu. unfold changeOwnPasswordHandler, GetUserFromContext in E.
  destruct (rq_user r) as [me|]; [|left; away_with Hu E].
  destruct body as [req|]; [|left; away_with Hu E].
  apply run_try_inv in E as [(w1 & [] & E1 & E)|(w1 & e & E1 & E)]; apply run_ret_inv in E1 as [<- E1].
  2: { left. away_with Hu E. }
  apply run_try_inv in E as [(w2 & u & E2 & E)|(w2 & e & E2 & E)];
    apply (untouched_read _ w) in E2 as [Hu2 HQ]; try done.
  2: { left. away_with Hu2 E. }
  destruct HQ as [[? _]|HQ]; [done|]. apply sql_one_inv in HQ as [HQ _].
  destruct (VerifyPassword _ _) eqn:Ev; cbn [negb] in E; [|left; away_with Hu2 E].
  eapply store_password_inv in E as [Ha|Hs]; [| |exact Hu2].
  - left. exists 500%Z. split; [by repeat constructor|done].
  - right. by exists me, req, u.
Qed.

(** Resetting another user's password: refused with nothing changed, or
    the user exists, the new password conforms to the policy and its hash is
    stored; answered 204, all sessions of the user are gone. *)
Theorem change_user_password_outcome r username body w :
  fresh w ->
  let w' := (run (changeUserPasswordHandler r username body) w).1 in
  turned_away_by [400; 404; 500]%Z w w' \/
  exists password u, body = Some password /\
    t_find (fun x => String.eqb (usr_username x) username) (users (w_db w)) = Some u /\
    Auth.Validate s_passwordPolicy password = inr tt /\ password_stored w u username password w'.
Proof.
  intros Hf w'. destruct (run (changeUserPasswordHandler r username body) w) as [x []] eqn:E.
  simpl in w'. subst w'.
  pose proof (untouched_refl w Hf) as Hu. unfold changeUserPasswordHandler in E.
  destruct body as [password|]; [|left; away_with Hu E].
  apply run_try_inv in E as [(w1 & [] & E1 & E)|(w1 & e & E1 & E)]; apply run_ret_inv in E1 as [<- E1].
  2: { left. away_with Hu E. }
  apply run_try_inv in E as [(w2 & u & E2 & E)|(w2 & e & E2 & E)];
    apply (untouched_read _ w) in E2 as [Hu2 HQ]; try done.
  2: { left. unfold not_found_or_internal, internal_error in E.
       destruct (Err.is_no_rows e); away_with Hu2 E. }
  destruct HQ as [[? _]|HQ]; [done|]. apply sql_one_inv in HQ as [HQ _].
  eapply store_password_inv in E as [Ha|Hs]; [| |exact Hu2].
  - left. exists 500%Z. split; [by repeat constructor|done].
  - right. by exists password, u.
Qed.

(** After an answered password change nothing of the old credentials is
    left: no session of the user authenticates any more, and the stored hash
    verifies a password exactly when argon2id derives the same key from it as
    from the new one. *)
Theorem password_change_ends_sessions u name password w w' :
  (forall p s t m l, length (argon2_IDKey p s t m l ArgonKeySize) = 32%nat) ->
  t_find (fun x => String.eqb (usr_username x) name) (users (w_db w)) = Some u ->
  password_stored w u name password w' -> http_status w' = 204%Z ->
  (forall now token s x, Sql.GetSessionByToken now token (w_db w') = (w_db w', inr (s, x)) ->
     usr_id x <> usr_id u) /\
  exists u' salt, t_find (fun x => String.eqb (usr_username x) name) (users (w_db w')) = Some u' /\
    usr_id u' = usr_id u /\ usr_role u' = usr_role u /\
    forall p, VerifyPassword p (usr_password_hash u') = true <->
      argon2_IDKey (bytes p) salt ArgonTime ArgonMemory ArgonParallelism ArgonKeySize =
      argon2_IDKey (bytes password) salt ArgonTime ArgonMemory ArgonParallelism ArgonKeySize.
Proof.
  intros Hlen Hu (hash & t & (salt & ->) & [(_ & [m Hr])|[Hd Hr]]) Hst.
  { unfold http_status in Hst. by rewrite Hr in Hst. }
  split.
  - intros now token s x E. apply session_lookup in E as (Hs & _ & _ & _ & Hid). rewrite Hd in Hs.
    simpl in Hs. apply elem_of_List_filter in Hs as [_ Hs]. rewrite Hid.
    by destruct (Z.eqb_spec (ses_user_id s) (usr_id u)).
  - rewrite Hd. simpl. rewrite t_find_update by done. rewrite Hu. simpl.
    apply find_Some_elem in Hu as [_ Hn]. rewrite Hn. eexists _, salt. split; [reflexivity|].
    simpl. split_and!; [done..|]. intros p. unfold VerifyPassword, hash_with_salt.
    rewrite verify_encode_hash, Hlen, bool_decide_eq_true. split; intros E; symmetry; exact E.
Qed.

(* ------------------------------------------------------------------ *)
(** ** Bootstrap *)

Lemma bootstrap_read w v v1 r :
  run (db Pool QSystemAdminExists) v = (v1, r) -> w_db v = w_db w ->
  w_db v1 = w_db w /\
  forall b, r = inr b -> b = t_exists (fun u => String.eqb (usr_role u) "system_admin") (users (w_db w)).
Proof.
  intros E Hd. apply step_pool in E as [_ [(_ & -> & ->)|[_ Q]]]; [done|].
  cbn [exec_query] in Q. unfold Sql.SystemAdminExists, sql_ok in Q. injection Q as <- <-.
  split; [done|]. intros b [= <-]. by rewrite Hd.
Qed.

Lemma bootstrap_cases w :
  let w' := (run BootstrapSystemAdmin w).1 in
  let admin d := t_exists (fun u => String.eqb (usr_role u) "system_admin") (users d) in
  match (run BootstrapSystemAdmin w).2 with
  | inl _ => w_db w' = w_db w
  | inr _ => admin (w_db w') = true /\
      (w_db w' = w_db w \/
       admin (w_db w) = false /\ exists hash t u, hash_of GC_AdminPassword hash /\
         GC_AdminPassword <> "" /\ Auth.Validate s_passwordPolicy GC_AdminPassword = inr tt /\
         Sql.CreateUser t "admin" hash "system_admin" (w_db w) = (w_db w', inr u))
  end.
Proof.
  destruct (run BootstrapSystemAdmin w) as [x res] eqn:E. cbn [fst snd]. unfold BootstrapSystemAdmin in E.
  apply run_try_inv in E as [(w1 & b & E1 & E)|(w1 & e & E1 & E)];
    apply (bootstrap_read w) in E1 as [Hd1 Hb]; try done.
  2: { apply run_ret_inv in E as [<- <-]. done. }
  rewrite (Hb b eq_refl) in E. destruct (t_exists _ (users (w_db w))) eqn:Ex.
  { apply run_ret_inv in E as [<- <-]. rewrite Hd1. by split; [|left]. }
  destruct (String.eqb_spec GC_AdminPassword ""); [by apply run_ret_inv in E as [<- <-]|].
  apply run_try_inv in E as [(w2 & [] & E2 & E)|(w2 & e & E2 & E)]; apply run_ret_inv in E2 as [<- Hv].
  2: { apply run_ret_inv in E as [<- <-]. done. }
  apply run_try_inv in E as [(w3 & hash & E3 & E)|(w3 & e & E3 & E)].
  2: { apply run_ret_inv in E as [<- <-]. unfold HashPassword, HashSecret in E3.
       apply run_try_inv in E3 as [(w4 & s & E4 & E3)|(w4 & s & E4 & E3)];
         apply run_ret_inv in E3 as [<- _]; unfold perform in E4; cbn [run exec_op] in E4; by simplify_eq. }
  assert (hash_of GC_AdminPassword hash /\ w_db w3 = w_db w) as [Hh Hd3].
  { unfold HashPassword, HashSecret in E3. inv_step E3 w4 s E4. unfold perform in E4.
    cbn [run exec_op] in E4. apply run_ret_inv in E3 as [<- [= <-]]. split; [by exists s|]. by simplify_eq. }
  apply run_try_inv in E as [(w4 & u & E4 & E)|(w4 & e & E4 & E)]; apply step_pool in E4 as [_ Q4].
  - apply run_ret_inv in E as [<- <-]. destruct Q4 as [(_ & Q4 & _)|[_ Q4]]; [done|].
    cbn [exec_query] in Q4. rewrite Hd3 in Q4. split.
    + unfold Sql.CreateUser in Q4. change (negb (Sql.valid_role roleSystemAdmin)) with false in Q4; cbv iota in Q4.
      destruct (t_exists (fun u => String.eqb (usr_username u) systemAdminUsername) _); [done|].
      apply sql_one_inv in Q4 as [_ ->]. apply t_exists_spec. simpl. eexists. split;
        [apply elem_of_app; right; by apply list_elem_of_singleton|done].
    + right. split; [done|]. by exists hash, (now_of w3), u.
  - assert (w_db w4 = w_db w) as Hd4.
    { rewrite <- Hd3. destruct Q4 as [(_ & _ & ?)|[_ Q4]]; [done|]. by eapply create_user_error. }
    apply run_bind_inv in E as (w5 & again & E5 & E). apply (bootstrap_read w) in E5 as [Hd5 Hag]; [|done].
    destruct again as [e5|[]]; apply run_ret_inv in E as [<- <-]; try done.
    specialize (Hag true eq_refl). congruence.
Qed.

(** Bootstrap: when it succeeds there is a system administrator, either
    one that existed, with the database unchanged, or the new user admin,
    created when there was none, with a hash of the configured password, which
    is not empty and conforms to the policy; when it fails nothing changed. *)
Theorem bootstrap_outcome w :
  let w' := (run BootstrapSystemAdmin w).1 in
  let admin d := t_exists (fun u => String.eqb (usr_role u) "system_admin") (users d) in
  match (run BootstrapSystemAdmin w).2 with
  | inl _ => w_db w' = w_db w
  | inr _ => admin (w_db w') = true /\
      (w_db w' = w_db w \/
       admin (w_db w) = false /\ exists hash t u, hash_of GC_AdminPassword hash /\
         GC_AdminPassword <> "" /\ Auth.Validate s_passwordPolicy GC_AdminPassword = inr tt /\
         Sql.CreateUser t "admin" hash "system_admin" (w_db w) = (w_db w', inr u))
  end.
Proof. apply bootstrap_cases. Qed.

End Facts.

Section UserWitnesses.
Import Demo.

#[local] Instance ascii_tables : UnicodeTables := {
  IsUpper r := ((65 <=? r) && (r <=? 90))%Z; IsLower r := ((97 <=? r) && (r <=? 122))%Z;
  IsDigit r := ((48 <=? r) && (r <=? 57))%Z;
  IsLetter r := ((65 <=? r) && (r <=? 90) || (97 <=? r) && (r <=? 122))%Z }.

Definition demo_user : createUserRequest := mkCreateUserRequest "bob" "Passw0rd".

Lemma create_user_outcome_witness :
  let w' := (run (createUserHandler demo_request (Some demo_user)) (demo_world demo_db)).1 in
  exists t u hash, Sql.CreateUser t "bob" hash "admin" demo_db = (w_db w', inr u) /\
    w_replies w' = [mkReply 201 (userResponse u)].
Proof.
  destruct (create_user_outcome demo_request (Some demo_user) (demo_world demo_db) (demo_fresh _))
    as [(st & Hst & _ & m & Hm)|(req & hash & t & u & [= <-] & _ & _ & _ & _ & _ & Hc & Hr)].
  - exfalso. vm_compute in Hm. injection Hm as <- _. repeat (apply elem_of_cons in Hst as [Hst|Hst]; [discriminate Hst|]).
    by apply elem_of_nil in Hst.
  - by exists t, u, hash.
Defined.

Lemma delete_user_outcome_witness :
  let root := with_user (mkAuthUser 7 "admin" "system_admin") demo_request in
  (run (deleteUserHandler root "alice") (demo_world demo_db)).1.(w_replies) = [mkReply 204 PNone].
Proof.
  destruct (delete_user_outcome (with_user (mkAuthUser 7 "admin" "system_admin") demo_request) "alice"
    (demo_world demo_db) (demo_fresh _)) as [(st & _ & Hd & m & Hm)|(me & u & _ & _ & _ & _ & [(_ & [m Hm])|[_ Hr]])].
  - exfalso. vm_compute in Hm. discriminate Hm.
  - exfalso. vm_compute in Hm. discriminate Hm.
  - exact Hr.
Defined.

Definition alice : User := mkUser 1 "alice" (hash_with_salt "secret" []) "admin" 0 0.

Lemma change_own_password_outcome_witness :
  let w' := (run (changeOwnPasswordHandler demo_request (Some (mkChangePasswordRequest "secret" "N3wSecret")))
              (demo_world basic_db)).1 in
  exists u, password_stored (demo_world basic_db) u "alice" "N3wSecret" w'.
Proof.
  destruct (change_own_password_outcome demo_request (Some (mkChangePasswordRequest "secret" "N3wSecret"))
    (demo_world basic_db) (demo_fresh _)) as [(st & _ & _ & m & Hm)|(me & req & u & [= <-] & [= <-] & _ & _ & _ & Hs)].
  - exfalso. vm_compute in Hm. discriminate Hm.
  - exists u. exact Hs.
Defined.

Lemma change_user_password_outcome_witness :
  let w' := (run (changeUserPasswordHandler demo_request "alice" (Some "N3wSecret")) (demo_world basic_db)).1 in
  exists u, password_stored (demo_world basic_db) u "alice" "N3wSecret" w'.
Proof.
  destruct (change_user_password_outcome demo_request "alice" (Some "N3wSecret")
    (demo_world basic_db) (demo_fresh _)) as [(st & _ & _ & m & Hm)|(pw & u & [= <-] & _ & _ & Hs)].
  - exfalso. vm_compute in Hm. discriminate Hm.
  - exists u. exact Hs.
Defined.

Lemma password_change_ends_sessions_witness :
  let w' := (run (changeUserPasswordHandler demo_request "alice" (Some "N3wSecret")) (demo_world basic_db)).1 in
  exists u' salt, t_find (fun x => String.eqb (usr_username x) "alice") (users (w_db w')) = Some u' /\
    usr_id u' = 1%Z /\ usr_password_hash u' = hash_with_salt "N3wSecret" salt.
Proof.
  set (w' := (run (changeUserPasswordHandler demo_request "alice" (Some "N3wSecret")) (demo_world basic_db)).1).
  assert (password_stored (demo_world basic_db) alice "alice" "N3wSecret" w') as Hs.
  { exists (hash_with_salt "N3wSecret" (ascii_of_nat <$> seq 0 16)), second. split; [by eexists|].
    right. split; vm_compute; reflexivity. }
  destruct (password_change_ends_sessions alice "alice" "N3wSecret" (demo_world basic_db) w'
    toy_length eq_refl Hs ltac:(vm_compute; reflexivity)) as (_ & u' & salt & Hf & Hid & _).
  exists u', (ascii_of_nat <$> seq 0 16). split_and!; [exact Hf|exact Hid|].
  vm_compute in Hf. injection Hf as <-. vm_compute. reflexivity.
Defined.

End UserWitnesses.
