(* ===== verification/SatelliteFacts.v ===== *)
(** * Properties of the satellite handlers *)

From S2P Require Import Free Prelude Db DbFacts Prog Logic Runs Env Harbor CryptoLib Crypto Duration Spiffe.
From S2P Require Import Server Demo Satellites.
From Stdlib Require Import Ascii.

#[local] Open Scope string_scope.

Section Effects.
Context `{Server, GroundControl, PqText, Argon2, Services, PgTypes}.

Lemma harmless_cleanupRobot id : harmless (cleanupRobot id).
Proof. unfold cleanupRobot. harmless_tac. Qed.
Lemma harmless_no_cleanup id : harmless (no_cleanup id).
Proof. done. Qed.
Lemma harmless_rollback_failed : harmless rollback_failed.
Proof. apply harmless_HandleAppError. Qed.
#[local] Hint Resolve harmless_cleanupRobot harmless_no_cleanup harmless_rollback_failed : handlers.

Lemma quiet_ensureSatelliteRobotAccount s : quiet_prog (ensureSatelliteRobotAccount InTx s).
Proof. unfold ensureSatelliteRobotAccount. helper_tac. Qed.
Lemma helper_ensureSatelliteConfig s : helper (ensureSatelliteConfig InTx s).
Proof. unfold ensureSatelliteConfig. helper_tac. Qed.
Lemma helper_collect_groups q m l : helper (collect_groups q m l).
Proof. unfold collect_groups. destruct q; helper_tac. Qed.
#[local] Hint Resolve quiet_ensureSatelliteRobotAccount helper_ensureSatelliteConfig
  helper_collect_groups : helpers.

Lemma settle_refuse F e : success (err_status e) = false -> settles_as F flag (refuse e).
Proof. intros. by apply settle_HandleAppError_ret. Qed.
#[local] Hint Resolve settle_refuse : handlers.

Lemma settles_register_body r req : settles flag (register_body r req).
Proof. unfold register_body, register_tail. handler_tac. Qed.
Lemma settles_delete_body r s : settles flag (delete_body r s).
Proof. unfold delete_body. handler_tac. Qed.
Lemma settles_add_body s g : settles flag (add_to_group_body s g).
Proof. unfold add_to_group_body. handler_tac. Qed.
Lemma settles_remove_body s g : settles flag (remove_from_group_body s g).
Proof. unfold remove_from_group_body. handler_tac. Qed.

(* ------------------------------------------------------------------ *)
(** ** Deleting a satellite *)

Lemma delete_body_inv r name d t w w' id :
  at_tx d t d w -> run (delete_body r name) w = (w', (true, id)) ->
  exists sat rob robotID,
    t_find (fun s => String.eqb (sat_name s) name) (satellites d) = Some sat /\
    t_find (fun x => (rob_satellite_id x =? sat_id sat)%Z) (robot_accounts d) = Some rob /\
    Go.parse_int (rob_robot_id rob) = Some robotID /\
    EvSvc (DeleteRobot robotID) (inr tt) ∈ w_events w' /\
    w_db w' = Sql.delete_satellites (fun s => String.eqb (sat_name s) name) d.
Proof.
  intros Hat E. unfold delete_body in E.
  inv_step E w1 sat E1. apply (step_tx_read _ d t d) in E1 as (Q1 & Hat1 & _); [|done..].
  inv_step E w2 rob E2. apply (step_tx_read _ d t d) in E2 as (Q2 & Hat2 & _); [|done..].
  apply sql_one_inv in Q1 as [Q1 _]. apply sql_one_inv in Q2 as [Q2 _].
  destruct (Go.parse_int (rob_robot_id rob)) as [robotID|] eqn:Ep; [|dead_branch E].
  inv_step E w3 u3 E3. apply (step_tx _ d t d) in E3 as (d' & Q3 & Hat3 & _); [|done].
  inv_step E w4 u4 E4. keep_tx Hat3 E4.
  unfold harbor.DeleteRobotAccount in E4. inv_step E4 w5 u5 E5. apply step_call in E5.
  apply (run_events_mono _ _ _ _ _ E4) in E5.
  inv_step E w6 u6 E6. keep_tx Hat3 E6.
  apply (run_events_mono _ _ _ _ _ E6) in E5.
  inv_step E w7 u7 E7. destruct u7.
  apply (run_events_mono _ _ _ _ _ E7) in E5.
  pose proof (step_commit d t d' _ _ Hat3 E7) as (Hdb & _).
  pose proof (run_events_mono _ _ _ _ _ E E5) as Hev.
  apply run_harmless_db in E; [|harmless_tac].
  destruct u5. exists sat, rob, robotID. split_and!; try done.
  rewrite E, Hdb. unfold exec_query, Sql.DeleteSatelliteByName, sql_ok in Q3. congruence.
Qed.

Lemma harmless_begin_failed e : harmless (begin_failed e).
Proof. apply harmless_HandleAppError. Qed.
Lemma settle_begin_failed F e : success (err_status e) = false -> settles_as F either (begin_failed e).
Proof. intros _. by apply settle_HandleAppError. Qed.
#[local] Hint Resolve harmless_begin_failed settle_begin_failed : handlers.

(** C9. DELETE /api/satellites/{satellite}, under every pattern of failures of
    the database, of Harbor and of the registry: either the request is refused
    with an error status and the database is exactly as before, or it is
    answered once with success, the satellite's robot account was deleted in
    Harbor, and the committed database is the previous one without the
    satellite and everything that depends on it. *)
Theorem delete_satellite_outcome r name w :
  fresh w ->
  let w' := (run (DeleteSatelliteByName r name) w).1 in
  refused (w_db w) w' \/
  fulfilled w' /\ exists sat rob robotID,
    t_find (fun s => String.eqb (sat_name s) name) (satellites (w_db w)) = Some sat /\
    t_find (fun x => (rob_satellite_id x =? sat_id sat)%Z) (robot_accounts (w_db w)) = Some rob /\
    Go.parse_int (rob_robot_id rob) = Some robotID /\
    EvSvc (DeleteRobot robotID) (inr tt) ∈ w_events w' /\
    w_db w' = Sql.delete_satellites (fun s => String.eqb (sat_name s) name) (w_db w).
Proof.
  intros Hf w'. unfold w', DeleteSatelliteByName.
  destruct (transactional_outcome begin_failed no_cleanup rollback_failed (delete_body r name) w)
    as [Hno|(Hok & w1 & id & Hat & _ & E)]; auto using fresh_quiet with handlers.
  { apply settles_delete_body. }
  right. split; [done|]. eapply delete_body_inv; [exact Hat|exact E].
Qed.

(* ------------------------------------------------------------------ *)
(** ** Group membership *)

(** The groups of a satellite, in the order of its links *)
Definition member_groups (d : Db) (links : list SatelliteGroup) : list Group :=
  omap (fun l => t_find (fun g => (grp_id g =? sg_group_id l)%Z) (groups d)) links.
Definition links_of (d : Db) (sid : Z) : list SatelliteGroup :=
  List.filter (fun l => (sg_satellite_id l =? sid)%Z) (satellite_groups d).

(** The permissions and the states a satellite should have *)
Definition expected_permissions (d : Db) (sid : Z) : list RobotPermission :=
  harbor.GenRobotPerms
    (concat (grp_projects <$> member_groups d (links_of d sid)) ++ ["satellite"])%list.
Definition expected_states (d : Db) (sid : Z) : list string :=
  (fun g => utils.AssembleGroupState (grp_name g)) <$> member_groups d (links_of d sid).

Lemma for_each_nil {A S} (f : A -> S -> prog (result S)) s : for_each f [] s = ok s.
Proof. done. Qed.

Lemma collect_tx_inv msg links d0 t d w w' ps sts acc :
  at_tx d0 t d w ->
  run (for_each (fun group a =>
    let? grp := db InTx (QGetGroupByID (sg_group_id group)) catch (fun _ => throw (fail msg 500)) in
    ok (a.1 ++ grp_projects grp, a.2 ++ [utils.AssembleGroupState (grp_name grp)])%list) links acc) w
  = (w', inr (ps, sts)) ->
  at_tx d0 t d w' /\ w_events w' = w_events w /\
  ps = (acc.1 ++ concat (grp_projects <$> member_groups d links))%list /\
  sts = (acc.2 ++ ((fun g => utils.AssembleGroupState (grp_name g)) <$> member_groups d links))%list.
Proof.
  revert w acc. induction links as [|l links IH]; intros w acc Hat E.
  { apply run_ret_inv in E as [<- E]. simplify_eq/=. by rewrite !app_nil_r. }
  cbn [for_each] in E. inv_step E w1 acc1 E1.
  inv_step E1 w2 grp E2. apply (step_tx_read _ d0 t d) in E2 as (Q & Hat2 & He2); [|done..].
  apply run_ret_inv in E1 as [<- E1]. simplify_eq.
  apply sql_one_inv in Q as [Q _].
  destruct (IH _ _ Hat2 E) as (Hat' & He & -> & ->).
  unfold member_groups. simpl. rewrite Q. simpl. rewrite <- !app_assoc. split_and!; try done. congruence.
Qed.

Lemma collect_pool_inv msg links w w' ps sts acc :
  run (for_each (fun group a =>
    let? grp := db Pool (QGetGroupByID (sg_group_id group)) catch (fun _ => throw (fail msg 500)) in
    ok (a.1 ++ grp_projects grp, a.2 ++ [utils.AssembleGroupState (grp_name grp)])%list) links acc) w
  = (w', inr (ps, sts)) ->
  w_db w' = w_db w /\ w_tx w' = w_tx w /\
  ps = (acc.1 ++ concat (grp_projects <$> member_groups (w_db w) links))%list /\
  sts = (acc.2 ++ ((fun g => utils.AssembleGroupState (grp_name g)) <$> member_groups (w_db w) links))%list.
Proof.
  revert w acc. induction links as [|l links IH]; intros w acc E.
  { apply run_ret_inv in E as [<- E]. simplify_eq/=. by rewrite !app_nil_r. }
  cbn [for_each] in E. inv_step E w1 acc1 E1.
  inv_step E1 w2 grp E2. apply step_pool_read in E2 as (Q & Hd & Ht & _ & _); [|done].
  apply run_ret_inv in E1 as [<- E1]. simplify_eq.
  apply sql_one_inv in Q as [Q _].
  destruct (IH _ _ E) as (Hd' & Ht' & -> & ->). rewrite Hd.
  unfold member_groups. simpl. rewrite Q. simpl. rewrite <- !app_assoc. split_and!; try done; congruence.
Qed.

(** A successful UpdateRobotProjects gave the robot exactly these permissions. *)
Lemma UpdateRobotProjects_inv ps id w w' :
  run (utils.UpdateRobotProjects ps id) w = (w', inr tt) ->
  exists robotID rob, Go.parse_int id = Some robotID /\
    EvSvc (GetRobotByID robotID) (inr rob) ∈ w_events w' /\
    EvSvc (UpdateRobot (hr_id rob) (mkRobot (hr_id rob) (hr_name rob)
      (harbor.GenRobotPerms (ps ++ ["satellite"])%list) (hr_expires_at rob))) (inr tt) ∈ w_events w'.
Proof.
  unfold utils.UpdateRobotProjects. intros E.
  destruct (Go.parse_int id) as [robotID|] eqn:Ep; [|by apply run_ret_inv in E as [_ E]].
  inv_step E w1 rob E1. unfold harbor.GetRobotAccount in E1. inv_step E1 w2 rob2 E2.
  apply run_ret_inv in E1 as [<- E1]. simplify_eq. apply step_call in E2.
  apply (run_events_mono _ _ _ _ _ E) in E2. exists robotID, rob. split; [done|]. split; [exact E2|].
  inv_step E w3 u E3. unfold harbor.UpdateRobotAccount in E3. inv_step E3 w4 u4 E4.
  apply run_ret_inv in E3 as [<- _]. apply run_ret_inv in E as [<- _].
  destruct u4. by apply step_call in E4.
Qed.

(** A successful state update with at least one state pushed an image of it. *)
Lemma CreateOrUpdateSatStateArtifact_inv n sts cfg w w' :
  run (utils.CreateOrUpdateSatStateArtifact n sts cfg) w = (w', inr tt) -> sts <> [] ->
  exists img,
    EvSvc (CraneImage "artifacts.json" (DocSatelliteState sts (utils.AssembleConfigState cfg)))
      (inr img) ∈ w_events w' /\
    EvSvc (CranePush img (utils.stripProtocol (utils.AssembleSatelliteState n))
      (utils.crane_options GC_Harbor (URL GC_Harbor))) (inr tt) ∈ w_events w'.
Proof.
  unfold utils.CreateOrUpdateSatStateArtifact. intros E Hs.
  destruct (String.eqb n ""); [by apply run_ret_inv in E as [_ E]|].
  destruct sts as [|s sts]; [done|].
  inv_step E w1 u1 E1. inv_step E w2 img E2. apply step_call in E2.
  apply (run_events_mono _ _ _ _ _ E) in E2. exists img. split; [exact E2|].
  inv_step E w3 u3 E3. unfold utils.pushImage in E3. inv_step E3 w4 u4 E4. destruct u4.
  apply step_call in E4. apply (run_events_mono _ _ _ _ _ E3) in E4.
  by apply (run_events_mono _ _ _ _ _ E) in E4.
Qed.

(** Harbor and the registry were told the groups the satellite has in [d]:
    the robot account's permissions are exactly those of its groups, and its
    state artifact, when it has a group at all, lists exactly their states. *)
Definition synchronised (d : Db) (sat : Satellite) (es : list event) : Prop :=
  exists rob robotID hr,
    t_find (fun x => (rob_satellite_id x =? sat_id sat)%Z) (robot_accounts d) = Some rob /\
    Go.parse_int (rob_robot_id rob) = Some robotID /\
    EvSvc (GetRobotByID robotID) (inr hr) ∈ es /\
    EvSvc (UpdateRobot (hr_id hr) (mkRobot (hr_id hr) (hr_name hr)
      (expected_permissions d (sat_id sat)) (hr_expires_at hr))) (inr tt) ∈ es /\
    (expected_states d (sat_id sat) <> [] ->
     exists img cfg,
       EvSvc (CraneImage "artifacts.json"
         (DocSatelliteState (expected_states d (sat_id sat)) (utils.AssembleConfigState cfg)))
         (inr img) ∈ es /\
       EvSvc (CranePush img (utils.stripProtocol (utils.AssembleSatelliteState (sat_name sat)))
         (utils.crane_options GC_Harbor (URL GC_Harbor))) (inr tt) ∈ es).

Lemma fetch_tx_inv d0 t d id w w' c :
  at_tx d0 t d w -> run (fetchSatelliteConfig InTx id) w = (w', inr c) -> at_tx d0 t d w'.
Proof.
  intros Hat E. unfold fetchSatelliteConfig in E.
  inv_step E w1 sc E1. apply (step_tx_read _ d0 t d) in E1 as (_ & Hat1 & _); [|done..].
  inv_step E w2 co E2. apply (step_tx_read _ d0 t d) in E2 as (_ & Hat2 & _); [|done..].
  by apply run_ret_inv in E as [<- _].
Qed.

Lemma fetch_pool_inv id w w' c :
  run (fetchSatelliteConfig Pool id) w = (w', inr c) -> w_db w' = w_db w /\ w_tx w' = w_tx w.
Proof.
  intros E. unfold fetchSatelliteConfig in E.
  inv_step E w1 sc E1. apply step_pool_read in E1 as (_ & ? & ? & _); [|done].
  inv_step E w2 co E2. apply step_pool_read in E2 as (_ & ? & ? & _); [|done].
  apply run_ret_inv in E as [<- _]. split; congruence.
Qed.

Lemma synchronised_mono d sat es es' :
  (forall e, e ∈ es -> e ∈ es') -> synchronised d sat es -> synchronised d sat es'.
Proof.
  intros Hes (rob & robotID & hr & ? & ? & ? & ? & Himg). exists rob, robotID, hr.
  split_and!; auto. intros Hs. destruct (Himg Hs) as (img & cfg & ? & ?). exists img, cfg. auto.
Qed.

(** Permissions and state of [d], handed out one after the other *)
Lemma synchronised_intro (sat : Satellite) rob d w w1 w2 w3 cfg u1 u2 es :
  t_find (fun x => (rob_satellite_id x =? sat_id sat)%Z) (robot_accounts d) = Some rob ->
  run (utils.UpdateRobotProjects (concat (grp_projects <$> member_groups d (links_of d (sat_id sat))))
         (rob_robot_id rob)) w = (w1, inr u1) ->
  (forall e, e ∈ w_events w1 -> e ∈ w_events w2) ->
  run (utils.CreateOrUpdateSatStateArtifact (sat_name sat) (expected_states d (sat_id sat)) cfg) w2
    = (w3, inr u2) ->
  (forall e, e ∈ w_events w3 -> e ∈ es) ->
  synchronised d sat es.
Proof.
  intros Hrob E1 K12 E2 K3. destruct u1, u2.
  apply UpdateRobotProjects_inv in E1 as (robotID & hr & Hp & Hg & Hu).
  apply K12, (run_events_mono _ _ _ _ _ E2), K3 in Hg.
  apply K12, (run_events_mono _ _ _ _ _ E2), K3 in Hu.
  exists rob, robotID, hr. split_and!; try done. intros Hs.
  apply CreateOrUpdateSatStateArtifact_inv in E2 as (img & Hi & Hpush); [|done].
  exists img, cfg. split; by apply K3.
Qed.

(** The common end of both handlers: permissions, state, commit, reply *)
Lemma sync_tail_inv (sat : Satellite) rob d0 t d w w1 w2 w3 w4 cfg msg id u1 u2 :
  t_find (fun x => (rob_satellite_id x =? sat_id sat)%Z) (robot_accounts d) = Some rob ->
  run (utils.UpdateRobotProjects (concat (grp_projects <$> member_groups d (links_of d (sat_id sat))))
         (rob_robot_id rob)) w = (w1, inr u1) ->
  (forall e, e ∈ w_events w1 -> e ∈ w_events w2) ->
  at_tx d0 t d w2 ->
  run (utils.CreateOrUpdateSatStateArtifact (sat_name sat) (expected_states d (sat_id sat)) cfg) w2
    = (w3, inr u2) ->
  run (let? _ := perform OCommit
         catch (fun _ => refuse (fail "Error: Could not commit transaction" 500)) in
       WriteJSONResponse 200 (PMap msg) ;;; Ret (true, 0%Z)) w3 = (w4, (true, id)) ->
  w_db w4 = d /\ synchronised d sat (w_events w4).
Proof.
  intros Hrob E1 H12 Hat E2 E. split.
  - keep_tx Hat E2. inv_step E w5 u5 E5. destruct u5.
    destruct (step_commit _ _ _ _ _ Hat E5) as (Hd & _).
    apply run_harmless_db in E; [congruence|harmless_tac].
  - eapply synchronised_intro; [done|exact E1|done|exact E2|].
    intros e. apply (run_events_mono _ _ _ _ _ E).
Qed.

Lemma remove_body_inv gname sname d t w w' id :
  at_tx d t d w -> run (remove_from_group_body gname sname) w = (w', (true, id)) ->
  exists sat grp,
    t_find (fun s => String.eqb (sat_name s) sname) (satellites d) = Some sat /\
    t_find (fun g => String.eqb (grp_name g) gname) (groups d) = Some grp /\
    w_db w' = (Sql.RemoveSatelliteFromGroup (sat_id sat) (grp_id grp) d).1 /\
    synchronised (w_db w') sat (w_events w').
Proof.
  intros Hat E. unfold remove_from_group_body in E.
  inv_step E w1 sat E1. apply (step_tx_read _ d t d) in E1 as (Q1 & Hat1 & _); [|done..].
  inv_step E w2 grp E2. apply (step_tx_read _ d t d) in E2 as (Q2 & Hat2 & _); [|done..].
  apply sql_one_inv in Q1 as [Q1 _]. apply sql_one_inv in Q2 as [Q2 _].
  inv_step E w3 u3 E3. apply (step_tx _ d t d) in E3 as (d' & Q3 & Hat3 & _); [|done].
  inv_step E w4 rob E4. apply (step_tx_read _ d t d') in E4 as (Q4 & Hat4 & _); [|done..].
  apply sql_one_inv in Q4 as [Q4 _].
  inv_step E w5 links E5. apply (step_tx_read _ d t d') in E5 as (Q5 & Hat5 & _); [|done..].
  assert (links = links_of d' (sat_id sat)) as -> by (unfold exec_query, Sql.SatelliteGroupList, sql_ok in Q5; injection Q5 as <-; reflexivity).
  inv_step E w6 col E6. destruct col as [ps sts].
  apply (collect_tx_inv _ _ d t d') in E6 as (Hat6 & _ & Hps & Hsts); [|done]. simpl in Hps, Hsts.
  inv_step E w7 u7 E7. keep_tx Hat6 E7.
  inv_step E w8 cfg E8. pose proof (fetch_tx_inv _ _ _ _ _ _ _ Hat6 E8) as Hat8.
  inv_step E w9 u9 E9. simpl in E7, E9. subst ps sts.
  destruct (sync_tail_inv sat rob d t d' w6 w7 w8 w9 w' (cfg_name cfg) [] id u7 u9)
    as [Hd Hs]; try done.
  { intros e. apply (run_events_mono _ _ _ _ _ E8). }
  exists sat, grp. rewrite Hd. split_and!; try done.
  unfold exec_query, Sql.RemoveSatelliteFromGroup, sql_ok in Q3. simpl. congruence.
Qed.

Lemma add_body_inv sat grp d t w w' id :
  at_tx d t d w -> run (add_to_group_body sat grp) w = (w', (true, id)) ->
  exec_query t (QAddSatelliteToGroup (sat_id sat) (grp_id grp)) d = (w_db w', inr tt) /\
  synchronised (w_db w') sat (w_events w').
Proof.
  intros Hat E. unfold add_to_group_body in E.
  inv_step E w1 u1 E1. apply (step_tx _ d t d) in E1 as (d' & Q1 & Hat1 & _); [|done].
  assert (groups d' = groups d /\ robot_accounts d' = robot_accounts d) as [Hg Hr].
  { unfold exec_query, Sql.AddSatelliteToGroup, sql_ok, sql_err in Q1.
    repeat case_match; by simplify_eq. }
  inv_step E w2 links E2. apply (step_tx_read _ d t d') in E2 as (Q2 & Hat2 & _); [|done..].
  assert (links = links_of d' (sat_id sat)) as -> by (unfold exec_query, Sql.SatelliteGroupList, sql_ok in Q2; injection Q2 as <-; reflexivity).
  inv_step E w3 col E3. destruct col as [ps sts].
  apply collect_pool_inv in E3 as (Hd3 & Ht3 & Hps & Hsts). simpl in Hps, Hsts.
  assert (at_tx d t d' w3) as Hat3 by (destruct Hat2; split; congruence).
  assert (member_groups (w_db w2) = member_groups d') as Hm.
  { destruct Hat2 as [-> _]. unfold member_groups. by rewrite Hg. }
  inv_step E w4 cfg E4. apply fetch_pool_inv in E4 as [Hd4 Ht4].
  inv_step E w5 rob E5. apply step_pool_read in E5 as (Q5 & Hd5 & Ht5 & _); [|done].
  apply sql_one_inv in Q5 as [Q5 _]. rewrite Hd4, (proj1 Hat3), <- Hr in Q5.
  inv_step E w6 u6 E6. assert (at_tx d t d' w5) as Hat5 by (destruct Hat3; split; congruence).
  keep_tx Hat5 E6. inv_step E w7 u7 E7. simpl in E6, E7. rewrite Hm in Hps, Hsts. subst ps sts.
  destruct (sync_tail_inv sat rob d t d' w5 w6 w6 w7 w' (cfg_name cfg)
    [("message", "Satellite successfully added to group")] id u6 u7) as [Hd Hs]; try done.
  rewrite Hd. destruct u1. by split.
Qed.

Lemma remove_from_group_cases gname sname w :
  fresh w ->
  let w' := (run (removeSatelliteFromGroup gname sname) w).1 in
  refused (w_db w) w' \/
  fulfilled w' /\ exists sat grp,
    t_find (fun s => String.eqb (sat_name s) sname) (satellites (w_db w)) = Some sat /\
    t_find (fun g => String.eqb (grp_name g) gname) (groups (w_db w)) = Some grp /\
    w_db w' = (Sql.RemoveSatelliteFromGroup (sat_id sat) (grp_id grp) (w_db w)).1 /\
    synchronised (w_db w') sat (w_events w').
Proof.
  intros Hf w'. unfold w', removeSatelliteFromGroup.
  destruct (transactional_outcome begin_failed no_cleanup rollback_failed
    (remove_from_group_body gname sname) w)
    as [Hno|(Hok & w1 & id & Hat & _ & E)]; auto using fresh_quiet with handlers.
  { apply settles_remove_body. }
  right. split; [done|]. eapply remove_body_inv; [exact Hat|exact E].
Qed.

(** C11. Removing a satellite from a group either is refused, with the database
    as before, or commits exactly the removal of that link, after Harbor was
    given the permissions of the remaining groups for the satellite's robot
    and, when a group remains, after a state artifact listing exactly the
    remaining groups was pushed. *)
Theorem remove_from_group_outcome gname sname w :
  fresh w ->
  let w' := (run (removeSatelliteFromGroup gname sname) w).1 in
  refused (w_db w) w' \/
  fulfilled w' /\ exists sat grp,
    t_find (fun s => String.eqb (sat_name s) sname) (satellites (w_db w)) = Some sat /\
    t_find (fun g => String.eqb (grp_name g) gname) (groups (w_db w)) = Some grp /\
    w_db w' = (Sql.RemoveSatelliteFromGroup (sat_id sat) (grp_id grp) (w_db w)).1 /\
    synchronised (w_db w') sat (w_events w').
Proof. apply remove_from_group_cases. Qed.

(** C10. Adding a satellite to a group ends in one of three ways: refused with
    the database as before; answered with success and the database as before
    because the satellite already was in the group; or answered with success,
    and then the committed database is the previous one with exactly that link
    added, Harbor was given the permissions of all the satellite's groups, and
    a state artifact listing exactly those groups was pushed. *)
Theorem add_to_group_outcome (body : option SatelliteGroupParams) w :
  fresh w ->
  let w' := (run (addSatelliteToGroup body) w).1 in
  refused (w_db w) w' \/
  exists req sat grp, body = Some req /\
    t_find (fun s => String.eqb (sat_name s) (sgp_Satellite req)) (satellites (w_db w)) = Some sat /\
    t_find (fun g => String.eqb (grp_name g) (sgp_Group req)) (groups (w_db w)) = Some grp /\
    ((existsb (Sql.same_link (sat_id sat) (grp_id grp)) (satellite_groups (w_db w)) = true /\
      w_db w' = w_db w /\ exists b, w_replies w' = [mkReply 200 b]) \/
     (existsb (Sql.same_link (sat_id sat) (grp_id grp)) (satellite_groups (w_db w)) = false /\
      fulfilled w' /\
      w_db w' = on_satellite_groups (fun l => l ++ [mkSatelliteGroup (sat_id sat) (grp_id grp)])%list (w_db w) /\
      synchronised (w_db w') sat (w_events w'))).
Proof.
  intros Hf w'. destruct (run (addSatelliteToGroup body) w) as [v []] eqn:E. simpl in w'. subst w'.
  unfold addSatelliteToGroup in E. destruct body as [req|]; cbn [DecodeRequestBody lift try bind] in E.
  2: { left. refused_by Hf E. }
  destruct (utils.IsValidName (sgp_Satellite req)); cbn [negb] in E.
  2: { left. refused_by Hf E. }
  apply fresh_read_inv in E as (w1 & Hf1 & Hd1 & [(sat & Q1 & E)|[e E]]); try done.
  2: { left. rewrite <- Hd1. refused_by Hf1 E. }
  apply fresh_read_inv in E as (w2 & Hf2 & Hd2 & [(grp & Q2 & E)|[e E]]); try done.
  2: { left. rewrite <- Hd1, <- Hd2. refused_by Hf2 E. }
  apply fresh_read_inv in E as (w3 & Hf3 & Hd3 & [(already & Q3 & E)|[e E]]); try done.
  2: { left. rewrite <- Hd1, <- Hd2, <- Hd3. refused_by Hf3 E. }
  assert (w_db w3 = w_db w) as Hd by congruence. rewrite Hd2, Hd1 in Q3. rewrite Hd1 in Q2.
  apply sql_one_inv in Q1 as [Q1 _]. apply sql_one_inv in Q2 as [Q2 _].
  unfold exec_query, Sql.CheckSatelliteInGroup, sql_ok in Q3. injection Q3 as <-.
  destruct (existsb _ _) eqn:Ea.
  - right. exists req, sat, grp. split_and!; try done. left. split; [done|].
    destruct Hf3 as (Hr3 & _). simpl in E. simplify_eq/=. split; [done|]. rewrite Hr3. by eexists.
  - pose proof (transactional_outcome begin_failed no_cleanup rollback_failed
      (add_to_group_body sat grp) w3) as Ht.
    rewrite E in Ht. destruct Ht as [Hno|(Hok & w4 & id & Hat & _ & Eb)];
      auto using settles_add_body, fresh_quiet with handlers.
    { left. by rewrite <- Hd. }
    right. exists req, sat, grp. split_and!; try done. right.
    apply (add_body_inv sat grp _ _ _ _ _ Hat) in Eb as [Qa Hs].
    split_and!; try done. rewrite Hd in Qa. unfold exec_query, Sql.AddSatelliteToGroup in Qa.
    rewrite Ea in Qa. unfold sql_ok, sql_err in Qa. by case_match; simplify_eq.
Qed.

End Effects.

#[export] Hint Resolve harmless_cleanupRobot harmless_no_cleanup harmless_rollback_failed
  harmless_begin_failed settle_begin_failed settle_refuse : handlers.
#[export] Hint Resolve quiet_ensureSatelliteRobotAccount helper_ensureSatelliteConfig
  helper_collect_groups : helpers.

Section SatelliteWitnesses.
Import Demo.

Lemma delete_satellite_outcome_witness :
  let w' := (run (DeleteSatelliteByName demo_request "edge-01") (demo_world demo_db)).1 in
  refused demo_db w' \/
  fulfilled w' /\ exists sat rob robotID,
    t_find (fun s => String.eqb (sat_name s) "edge-01") (satellites demo_db) = Some sat /\
    t_find (fun x => (rob_satellite_id x =? sat_id sat)%Z) (robot_accounts demo_db) = Some rob /\
    Go.parse_int (rob_robot_id rob) = Some robotID /\
    EvSvc (DeleteRobot robotID) (inr tt) ∈ w_events w' /\
    w_db w' = Sql.delete_satellites (fun s => String.eqb (sat_name s) "edge-01") demo_db.
Proof. apply (delete_satellite_outcome demo_request "edge-01" (demo_world demo_db)), demo_fresh. Defined.

Lemma remove_from_group_outcome_witness :
  let w' := (run (removeSatelliteFromGroup "group1" "edge-01") (demo_world demo_db)).1 in
  refused demo_db w' \/
  fulfilled w' /\ exists sat grp,
    t_find (fun s => String.eqb (sat_name s) "edge-01") (satellites demo_db) = Some sat /\
    t_find (fun g => String.eqb (grp_name g) "group1") (groups demo_db) = Some grp /\
    w_db w' = (Sql.RemoveSatelliteFromGroup (sat_id sat) (grp_id grp) demo_db).1 /\
    synchronised (w_db w') sat (w_events w').
Proof. apply (remove_from_group_outcome "group1" "edge-01" (demo_world demo_db)), demo_fresh. Defined.

Lemma add_to_group_outcome_witness :
  let body := Some (mkSatelliteGroupParams "edge-01" "group1") in
  let w' := (run (addSatelliteToGroup body) (demo_world demo_db)).1 in
  refused demo_db w' \/
  exists req sat grp, body = Some req /\
    t_find (fun s => String.eqb (sat_name s) (sgp_Satellite req)) (satellites demo_db) = Some sat /\
    t_find (fun g => String.eqb (grp_name g) (sgp_Group req)) (groups demo_db) = Some grp /\
    ((existsb (Sql.same_link (sat_id sat) (grp_id grp)) (satellite_groups demo_db) = true /\
      w_db w' = demo_db /\ exists b, w_replies w' = [mkReply 200 b]) \/
     (existsb (Sql.same_link (sat_id sat) (grp_id grp)) (satellite_groups demo_db) = false /\
      fulfilled w' /\
      w_db w' = on_satellite_groups (fun l => l ++ [mkSatelliteGroup (sat_id sat) (grp_id grp)])%list demo_db /\
      synchronised (w_db w') sat (w_events w'))).
Proof. apply add_to_group_outcome, demo_fresh. Defined.

End SatelliteWitnesses.
