(* ===== verification/Groups.v ===== *)
(** * Group handlers

    internal/groundcontrol/server/group_handlers.go: creating and updating a
    group from the replication's state artifact (sync), deleting one, and the
    listings. *)

From S2P Require Import Free Prelude Db DbFacts Prog Logic Runs Env Harbor CryptoLib Crypto Duration Spiffe.
From S2P Require Import Server Demo Satellites SatelliteFacts.
From Stdlib Require Import Ascii.

#[local] Open Scope string_scope.

(** models.StateArtifact *)
Record StateArtifact := mkStateArtifact {
  sta_Group : string; sta_Registry : string; sta_Artifacts : list GroupArtifact }.

Section Groups.
Context `{Server, GroundControl, PqText, Argon2}.

(** The loop over the satellites of the group *)
Definition sync_group_robots (projects : list string) (members : list SatelliteGroup)
    : prog (result unit) :=
  for_each (fun satellite _ =>
    let? robotAcc := db InTx (QGetRobotAccBySatelliteID (sg_satellite_id satellite)) catch throw in
    let? _ := utils.UpdateRobotProjects projects (rob_robot_id robotAcc) catch throw in
    ok tt) members tt.

Definition groups_sync_body (req : StateArtifact) : prog (bool * Z) :=
  let projects := utils.GetProjectNames (sta_Artifacts req) in
  let? result := db InTx (QCreateGroup (sta_Group req) (URL GC_Harbor) projects) catch refuse in
  let? members := db InTx (QGroupSatelliteList (grp_id result)) catch refuse in
  let? _ := sync_group_robots projects members catch refuse in
  let? satExist := harbor.GetProject "satellite"
    catch (fun e => refuse (fail ("Error: Checking satellite project: " +:+ error_text e) 502)) in
  let? _ := (if negb satExist
             then let? _ := harbor.CreateSatelliteProject catch throw in ok tt
             else ok tt)
    catch (fun e => refuse (fail ("Error: creating satellite project: " +:+ error_text e) 502)) in
  let? _ := utils.CreateStateArtifact (sta_Group req) (sta_Artifacts req) catch refuse in
  let? _ := perform OCommit
    catch (fun _ => refuse (fail "Error: Could not commit transaction" 500)) in
  WriteJSONResponse 200 (PGroup result) ;;;
  Ret (true, 0%Z).

Definition groupsSyncHandler (body : option StateArtifact) : prog unit :=
  let? req := lift (DecodeRequestBody body) catch HandleAppError in
  transactional HandleAppError no_cleanup rollback_failed (groups_sync_body req).

Definition getGroupHandler (group : string) : prog unit :=
  let? result := db Pool (QGetGroupByName group)
    catch (fun _ => WriteJSONError "Group not found" 404) in
  WriteJSONResponse 200 (PGroup result).

(** One satellite of the group to delete: unlinked, then its robot account
    and its state are given the groups it has left. *)
Definition unlink_satellite (groupID : Z) (satellite : SatelliteGroup) : prog (result unit) :=
  let state_failed : goerr -> prog (result unit) :=
    fun _ => throw (fail "Error: Failed to update satellite state" 500) in
  let permissions_failed : goerr -> prog (result unit) :=
    fun _ => throw (fail "Error: Failed to update satellite permissions" 500) in
  let? _ := db InTx (QRemoveSatelliteFromGroup (sg_satellite_id satellite) groupID)
    catch (fun _ => throw (fail "Error: Failed to remove group from satellite" 500)) in
  let? robotAcc := db InTx (QGetRobotAccBySatelliteID (sg_satellite_id satellite))
    catch permissions_failed in
  let? groupList := db InTx (QSatelliteGroupList (sg_satellite_id satellite)) catch state_failed in
  let? collected := collect_groups InTx "Error: Failed to update satellite state" groupList
    catch throw in
  let? _ := utils.UpdateRobotProjects collected.1 (rob_robot_id robotAcc)
    catch permissions_failed in
  let? sat := db InTx (QGetSatellite (sg_satellite_id satellite)) catch state_failed in
  let? configObject := fetchSatelliteConfig InTx (sat_id sat) catch throw in
  let? _ := utils.CreateOrUpdateSatStateArtifact (sat_name sat) collected.2 (cfg_name configObject)
    catch state_failed in
  ok tt.

(** The state artifact of the group is deleted after the commit: a failure
    there is reported, with the deletion of the group already committed. *)
Definition delete_group_body (groupName : string) : prog (bool * Z) :=
  let? group := db InTx (QGetGroupByName groupName)
    catch (fun _ => refuse (fail "Error: Group Not Found" 404)) in
  let? members := db InTx (QGroupSatelliteList (grp_id group))
    catch (fun _ => refuse (fail "Error: Failed to list satellites for group" 500)) in
  let? _ := for_each (fun satellite _ => unlink_satellite (grp_id group) satellite) members tt
    catch refuse in
  let? _ := db InTx (QDeleteGroup (grp_id group))
    catch (fun _ => refuse (fail "Error: Failed to delete group" 500)) in
  let? _ := perform OCommit
    catch (fun _ => refuse (fail "Error: Could not commit transaction" 500)) in
  let? _ := utils.DeleteArtifact (utils.ConstructHarborDeleteURL groupName "group")
    catch (fun _ => HandleAppError (fail "Error: Failed to delete group state" 500) ;;;
                    Ret (true, 0%Z)) in
  WriteJSONResponse 200 (PMap []) ;;;
  Ret (true, 0%Z).

(** A failed rollback is only logged here. *)
Definition deleteGroupHandler (groupName : string) : prog unit :=
  transactional begin_failed no_cleanup (Ret tt) (delete_group_body groupName).

Definition listGroupHandler : prog unit :=
  let? result := db Pool QListGroups catch HandleAppError in
  WriteJSONResponse 200 (PGroups result).

Definition groupSatelliteHandler (groupName : string) : prog unit :=
  let? exists_ := db Pool (QCheckGroupExists groupName)
    catch (fun _ => HandleAppError (fail "error: failed to get group" 500)) in
  if negb exists_ then HandleAppError (fail "error: group not found" 404)
  else
    let? satellites := db Pool (QGetSatellitesByGroupName groupName)
      catch (fun _ => HandleAppError (fail "error: failed to get satellites for group" 500)) in
    WriteJSONResponse 200 (PSatellites satellites).

End Groups.

Section Facts.
Context `{Server, GroundControl, PqText, Argon2, Services, PgTypes}.

Lemma helper_sync_group_robots ps l : helper (sync_group_robots ps l).
Proof. unfold sync_group_robots. helper_tac. Qed.
Lemma helper_unlink_satellite gid l : helper (unlink_satellite gid l).
Proof. unfold unlink_satellite. helper_tac. Qed.
#[local] Hint Resolve helper_sync_group_robots helper_unlink_satellite : helpers.

Lemma settles_groups_sync_body req : settles flag (groups_sync_body req).
Proof. unfold groups_sync_body. handler_tac. Qed.
Lemma settles_delete_group_body n : settles_as answered flag (delete_group_body n).
Proof. unfold delete_group_body. handler_tac. Qed.

(* ------------------------------------------------------------------ *)
(** ** Deleting a group *)

(** One satellite unlinked: the view after it, and what Harbor was told *)
Lemma unlink_satellite_inv gid l d0 t d w w' u :
  at_tx d0 t d w -> run (unlink_satellite gid l) w = (w', inr u) ->
  let d' := (Sql.RemoveSatelliteFromGroup (sg_satellite_id l) gid d).1 in
  at_tx d0 t d' w' /\
  exists sat, t_find (fun s => (sat_id s =? sg_satellite_id l)%Z) (satellites d) = Some sat /\
    sat_id sat = sg_satellite_id l /\ synchronised d' sat (w_events w').
Proof.
  intros Hat E d'. unfold unlink_satellite in E.
  inv_step E w1 u1 E1. apply (step_tx _ d0 t d) in E1 as (d1 & Q1 & Hat1 & _); [|done].
  assert (d1 = d') as -> by (unfold exec_query, Sql.RemoveSatelliteFromGroup, sql_ok in Q1; by injection Q1).
  inv_step E w2 rob E2. apply (step_tx_read _ d0 t d') in E2 as (Q2 & Hat2 & _); [|done..].
  apply sql_one_inv in Q2 as [Q2 _].
  inv_step E w3 links E3. apply (step_tx_read _ d0 t d') in E3 as (Q3 & Hat3 & _); [|done..].
  assert (links = links_of d' (sg_satellite_id l)) as ->
    by (unfold exec_query, Sql.SatelliteGroupList, sql_ok in Q3; by injection Q3 as <-).
  inv_step E w4 col E4. destruct col as [ps sts].
  apply (collect_tx_inv _ _ d0 t d') in E4 as (Hat4 & _ & Hps & Hsts); [|done]. simpl in Hps, Hsts.
  inv_step E w5 u5 E5. keep_tx Hat4 E5.
  inv_step E w6 sat E6. apply (step_tx_read _ d0 t d') in E6 as (Q6 & Hat6 & He6); [|done..].
  apply sql_one_inv in Q6 as [Q6 _].
  inv_step E w7 cfg E7. pose proof (fetch_tx_inv _ _ _ _ _ _ _ Hat6 E7) as Hat7.
  inv_step E w8 u8 E8. keep_tx Hat7 E8. apply run_ret_inv in E as [<- _].
  assert (sat_id sat = sg_satellite_id l) as Hid
    by (apply find_Some_elem in Q6 as [_ Hs]; by apply Z.eqb_eq in Hs).
  split; [done|]. exists sat. split_and!; [exact Q6|done|]. simpl in E5, E8. subst ps sts.
  rewrite <- Hid in *. eapply synchronised_intro; [exact Q2|exact E5| |exact E8|done].
  intros e He. rewrite <- He6 in He. apply (run_events_mono _ _ _ _ _ E7). done.
Qed.

Lemma filter_and {A} (p q r : A -> bool) l :
  (forall x, x ∈ l -> p x && q x = r x) -> List.filter p (List.filter q l) = List.filter r l.
Proof.
  induction l as [|x l IH]; intros Hx; simpl; [done|].
  rewrite <- (Hx x) by left. assert (forall y, y ∈ l -> p y && q y = r y) by (intros; apply Hx; by right).
  destruct (q x); simpl; rewrite ?andb_true_r, ?andb_false_r; [|auto]. destruct (p x); rewrite IH; auto.
Qed.

(** Deleting the group removes every link to it, unlinked before or not. *)
Lemma DeleteGroup_unlinked sid gid d :
  (Sql.DeleteGroup gid (Sql.RemoveSatelliteFromGroup sid gid d).1).1 = (Sql.DeleteGroup gid d).1.
Proof.
  unfold Sql.DeleteGroup, Sql.RemoveSatelliteFromGroup, sql_ok. simpl.
  unfold on_groups, on_satellite_groups. simpl. f_equal. apply filter_and. intros l _.
  unfold Sql.same_link. destruct (sg_group_id l =? gid)%Z; simpl; [done|].
  by rewrite andb_false_r.
Qed.

Lemma links_of_deleted sid gid d :
  links_of (Sql.DeleteGroup gid d).1 sid = links_of (Sql.RemoveSatelliteFromGroup sid gid d).1 sid.
Proof.
  unfold links_of. simpl. erewrite !filter_and; [done|intros l _; reflexivity|].
  intros l _. unfold Sql.same_link. destruct (sg_satellite_id l =? sid)%Z; simpl; [|done].
  by destruct (sg_group_id l =? gid)%Z.
Qed.

Lemma member_groups_deleted gid d links :
  Forall (fun l => sg_group_id l <> gid) links ->
  member_groups (Sql.DeleteGroup gid d).1 links = member_groups d links.
Proof.
  intros Hl. unfold member_groups. apply list_omap_ext, Forall_Forall2_diag.
  refine (Forall_impl _ _ _ Hl _). clear Hl. intros l Hl. simpl.
  unfold t_find, t_delete. simpl. induction (rows (groups d)) as [|g gs IHg]; simpl; [done|].
  destruct (Z.eqb_spec (grp_id g) gid); simpl; rewrite IHg; [|done].
  destruct (Z.eqb_spec (grp_id g) (sg_group_id l)); [lia|done].
Qed.

(** What a satellite unlinked before the deletion was given is still right
    after it. *)
Lemma synchronised_deleted sat gid d es :
  synchronised (Sql.RemoveSatelliteFromGroup (sat_id sat) gid d).1 sat es ->
  synchronised (Sql.DeleteGroup gid d).1 sat es.
Proof.
  assert (member_groups (Sql.DeleteGroup gid d).1 (links_of (Sql.DeleteGroup gid d).1 (sat_id sat)) =
          member_groups (Sql.RemoveSatelliteFromGroup (sat_id sat) gid d).1
            (links_of (Sql.RemoveSatelliteFromGroup (sat_id sat) gid d).1 (sat_id sat))) as Hm.
  { rewrite links_of_deleted, member_groups_deleted; [done|]. apply Forall_forall. intros l Hl.
    apply elem_of_List_filter in Hl as [Hl Hs]. simpl in Hl. apply elem_of_List_filter in Hl as [_ Hl].
    unfold Sql.same_link in Hl. rewrite Hs in Hl. by destruct (Z.eqb_spec (sg_group_id l) gid). }
  unfold synchronised, expected_permissions, expected_states. by rewrite Hm.
Qed.

Lemma unlink_all_inv gid members d0 t d w w' u :
  at_tx d0 t d w ->
  run (for_each (fun satellite _ => unlink_satellite gid satellite) members tt) w = (w', inr u) ->
  exists d', at_tx d0 t d' w' /\ (Sql.DeleteGroup gid d').1 = (Sql.DeleteGroup gid d).1 /\
    forall l, l ∈ members -> exists sat,
      t_find (fun s => (sat_id s =? sg_satellite_id l)%Z) (satellites d) = Some sat /\
      synchronised (Sql.DeleteGroup gid d).1 sat (w_events w').
Proof.
  revert d w. induction members as [|l members IH]; intros d w Hat E.
  { apply run_ret_inv in E as [<- _]. exists d. split_and!; [done..|]. intros l Hl. set_solver. }
  cbn [for_each] in E. inv_step E w1 u1 E1. destruct u1.
  apply (unlink_satellite_inv _ _ _ _ _ _ _ _ Hat) in E1 as (Hat1 & sat & Hs & Hid & Hsync).
  destruct (IH _ _ Hat1 E) as (d' & Hat' & Hd & Hall). rewrite DeleteGroup_unlinked in Hd, Hall.
  exists d'. split_and!; [done..|]. intros l' Hl. apply elem_of_cons in Hl as [->|Hl]; [|by apply Hall].
  exists sat. split; [done|]. rewrite <- Hid in Hsync.
  apply synchronised_deleted in Hsync. revert Hsync. apply synchronised_mono.
  intros e. apply (run_events_mono _ _ _ _ _ E).
Qed.

Lemma delete_group_body_inv n d t w w' id :
  at_tx d t d w -> run (delete_group_body n) w = (w', (true, id)) ->
  exists grp, t_find (fun g => String.eqb (grp_name g) n) (groups d) = Some grp /\
    w_db w' = (Sql.DeleteGroup (grp_id grp) d).1 /\
    forall l, l ∈ satellite_groups d -> sg_group_id l = grp_id grp ->
      exists sat, t_find (fun s => (sat_id s =? sg_satellite_id l)%Z) (satellites d) = Some sat /\
        synchronised (w_db w') sat (w_events w').
Proof.
  intros Hat E. unfold delete_group_body in E.
  inv_step E w1 grp E1. apply (step_tx_read _ d t d) in E1 as (Q1 & Hat1 & _); [|done..].
  apply sql_one_inv in Q1 as [Q1 _].
  inv_step E w2 members E2. apply (step_tx_read _ d t d) in E2 as (Q2 & Hat2 & _); [|done..].
  assert (members = List.filter (fun r => (sg_group_id r =? grp_id grp)%Z) (satellite_groups d)) as ->
    by (unfold exec_query, Sql.GroupSatelliteList, sql_ok in Q2; by injection Q2 as <-).
  inv_step E w3 u3 E3. apply (unlink_all_inv _ _ d t d) in E3 as (d' & Hat3 & Hd & Hall); [|done].
  inv_step E w4 u4 E4. apply (step_tx _ d t d') in E4 as (d4 & Q4 & Hat4 & He4); [|done].
  assert (d4 = (Sql.DeleteGroup (grp_id grp) d).1) as ->
    by (rewrite <- Hd; unfold exec_query, Sql.DeleteGroup, sql_ok in Q4; by injection Q4).
  inv_step E w5 u5 E5. destruct u5.
  pose proof (step_commit _ _ _ _ _ Hat4 E5) as (Hdb & _).
  assert (forall e, e ∈ w_events w3 -> e ∈ w_events w') as Hev.
  { intros e He. rewrite <- He4 in He. by eapply run_events_mono, run_events_mono. }
  apply run_harmless_db in E; [|harmless_tac].
  exists grp. rewrite E, Hdb. split_and!; [done..|]. intros l Hl Hg.
  destruct (Hall l) as (sat & Hs & Hsync).
  { apply elem_of_List_filter. by rewrite Z.eqb_eq. }
  exists sat. split; [done|]. revert Hsync. by apply synchronised_mono.
Qed.

(** C13. Deleting a group either is refused, with the database as before, or
    commits exactly the removal of the group and of all its links, after every
    satellite of the group was given the permissions and, when it is left in
    some group, the state artifact of exactly its remaining groups; the request
    is answered once, with an error status when only the deletion of the
    group's own state artifact failed. *)
Theorem delete_group_outcome n w :
  fresh w ->
  let w' := (run (deleteGroupHandler n) w).1 in
  refused (w_db w) w' \/
  answered w' /\ exists grp,
    t_find (fun g => String.eqb (grp_name g) n) (groups (w_db w)) = Some grp /\
    w_db w' = (Sql.DeleteGroup (grp_id grp) (w_db w)).1 /\
    forall l, l ∈ satellite_groups (w_db w) -> sg_group_id l = grp_id grp ->
      exists sat, t_find (fun s => (sat_id s =? sg_satellite_id l)%Z) (satellites (w_db w)) = Some sat /\
        synchronised (w_db w') sat (w_events w').
Proof.
  intros Hf w'. unfold w', deleteGroupHandler.
  destruct (transactional_outcome_as answered begin_failed no_cleanup (Ret tt) (delete_group_body n) w)
    as [Hno|(Hok & w1 & id & Hat & _ & E)]; auto using fresh_quiet with handlers.
  { by intros v [Hc _]. }
  { done. }
  { apply settles_delete_group_body. }
  right. split; [done|]. eapply delete_group_body_inv; [exact Hat|exact E].
Qed.

(* ------------------------------------------------------------------ *)
(** ** Syncing a group *)

Lemma sync_group_robots_inv ps members d0 t d w w' u :
  at_tx d0 t d w -> run (sync_group_robots ps members) w = (w', inr u) ->
  at_tx d0 t d w' /\
  forall l, l ∈ members -> exists rob robotID hr,
    t_find (fun x => (rob_satellite_id x =? sg_satellite_id l)%Z) (robot_accounts d) = Some rob /\
    Go.parse_int (rob_robot_id rob) = Some robotID /\
    EvSvc (GetRobotByID robotID) (inr hr) ∈ w_events w' /\
    EvSvc (UpdateRobot (hr_id hr) (mkRobot (hr_id hr) (hr_name hr)
      (harbor.GenRobotPerms (ps ++ ["satellite"])%list) (hr_expires_at hr))) (inr tt) ∈ w_events w'.
Proof.
  unfold sync_group_robots. revert w. induction members as [|l members IH]; intros w Hat E.
  { apply run_ret_inv in E as [<- _]. split; [done|]. intros l Hl. set_solver. }
  cbn [for_each] in E. inv_step E w1 u1 E1. destruct u1.
  inv_step E1 w2 rob E2. apply (step_tx_read _ d0 t d) in E2 as (Q2 & Hat2 & _); [|done..].
  apply sql_one_inv in Q2 as [Q2 _].
  inv_step E1 w3 u3 E3. keep_tx Hat2 E3. apply run_ret_inv in E1 as [<- _].
  destruct u3. apply UpdateRobotProjects_inv in E3 as (robotID & hr & Hp & Hg & Hu).
  destruct (IH _ Hat2 E) as [Hat' Hall]. split; [done|].
  intros l' Hl. apply elem_of_cons in Hl as [->|Hl]; [|by apply Hall].
  exists rob, robotID, hr. split_and!; [done..| |]; by apply (run_events_mono _ _ _ _ _ E).
Qed.

(** A successful CreateStateArtifact pushed an image of exactly these artifacts. *)
Lemma CreateStateArtifact_inv g l w w' :
  run (utils.CreateStateArtifact g l) w = (w', inr tt) ->
  exists img,
    EvSvc (CraneImage "artifacts.json" (DocGroupState g (URL GC_Harbor) l)) (inr img) ∈ w_events w' /\
    EvSvc (CranePush img (utils.stripProtocol
             (utils.getStateArtifactDestination (URL GC_Harbor) ("satellite/group-state/" +:+ g)))
           (utils.crane_options GC_Harbor (URL GC_Harbor))) (inr tt) ∈ w_events w'.
Proof.
  unfold utils.CreateStateArtifact. intros E.
  inv_step E w1 u1 E1. inv_step E w2 img E2. apply step_call in E2.
  apply (run_events_mono _ _ _ _ _ E) in E2. exists img. split; [exact E2|].
  inv_step E w3 u3 E3. destruct u3. apply step_call in E3.
  by apply (run_events_mono _ _ _ _ _ E) in E3.
Qed.

Lemma groups_sync_body_inv req d t w w' id :
  at_tx d t d w -> run (groups_sync_body req) w = (w', (true, id)) ->
  let ps := utils.GetProjectNames (sta_Artifacts req) in
  exists grp, Sql.CreateGroup t (sta_Group req) (URL GC_Harbor) ps d = (w_db w', inr grp) /\
    last (w_replies w') = Some (mkReply 200 (PGroup grp)) /\
    (exists img, EvSvc (CraneImage "artifacts.json"
        (DocGroupState (sta_Group req) (URL GC_Harbor) (sta_Artifacts req))) (inr img) ∈ w_events w' /\
      EvSvc (CranePush img (utils.stripProtocol (utils.getStateArtifactDestination (URL GC_Harbor)
          ("satellite/group-state/" +:+ sta_Group req)))
        (utils.crane_options GC_Harbor (URL GC_Harbor))) (inr tt) ∈ w_events w') /\
    forall l, l ∈ satellite_groups d -> sg_group_id l = grp_id grp ->
      exists rob robotID hr,
        t_find (fun x => (rob_satellite_id x =? sg_satellite_id l)%Z) (robot_accounts d) = Some rob /\
        Go.parse_int (rob_robot_id rob) = Some robotID /\
        EvSvc (GetRobotByID robotID) (inr hr) ∈ w_events w' /\
        EvSvc (UpdateRobot (hr_id hr) (mkRobot (hr_id hr) (hr_name hr)
          (harbor.GenRobotPerms (ps ++ ["satellite"])%list) (hr_expires_at hr))) (inr tt) ∈ w_events w'.
Proof.
  intros Hat E ps. unfold groups_sync_body in E.
  inv_step E w1 grp E1. apply (step_tx _ d t d) in E1 as (d' & Q1 & Hat1 & _); [|done].
  assert (satellite_groups d' = satellite_groups d /\ robot_accounts d' = robot_accounts d) as [Hl Hr].
  { unfold exec_query, Sql.CreateGroup in Q1. apply sql_one_inv in Q1 as [_ ->].
    by destruct (t_exists _ _). }
  inv_step E w2 members E2. apply (step_tx_read _ d t d') in E2 as (Q2 & Hat2 & _); [|done..].
  assert (members = List.filter (fun r => (sg_group_id r =? grp_id grp)%Z) (satellite_groups d)) as ->
    by (rewrite <- Hl; unfold exec_query, Sql.GroupSatelliteList, sql_ok in Q2; by injection Q2 as <-).
  inv_step E w3 u3 E3. apply (sync_group_robots_inv _ _ d t d') in E3 as (Hat3 & Hall); [|done].
  inv_step E w4 sat E4. keep_tx Hat3 E4.
  inv_step E w5 u5 E5. keep_tx Hat3 E5.
  inv_step E w6 u6 E6. keep_tx Hat3 E6. destruct u6.
  pose proof (CreateStateArtifact_inv _ _ _ _ E6) as (img & Hi & Hp).
  inv_step E w7 u7 E7. destruct u7. pose proof (step_commit _ _ _ _ _ Hat3 E7) as (Hdb & _ & Hrep).
  apply (run_events_mono _ _ _ _ _ E7), (run_events_mono _ _ _ _ _ E) in Hi, Hp.
  assert (last (w_replies w') = Some (mkReply 200 (PGroup grp))) as Hlast
    by (simpl in E; simplify_eq/=; apply last_snoc).
  assert (forall e, e ∈ w_events w3 -> e ∈ w_events w') as Hev.
  { intros e He. apply (run_events_mono _ _ _ _ _ E), (run_events_mono _ _ _ _ _ E7),
      (run_events_mono _ _ _ _ _ E6), (run_events_mono _ _ _ _ _ E5), (run_events_mono _ _ _ _ _ E4), He. }
  apply run_harmless_db in E; [|harmless_tac].
  exists grp. rewrite E, Hdb. split_and!; [exact Q1|done|by exists img|].
  intros l Hl' Hg. destruct (Hall l) as (rob & robotID & hr & Hf & Hpi & Hge & Hu).
  { apply elem_of_List_filter. by rewrite Z.eqb_eq. }
  rewrite Hr in Hf. exists rob, robotID, hr. split_and!; auto.
Qed.

(** C12. Syncing a group from Harbor either is refused, with the database as
    before, or commits exactly the creation of the group, or the update of the
    group of that name, with the distinct projects of its live artifacts, and
    answers with it; the group's state artifact with exactly the given
    artifacts was pushed, and every satellite of the group was given exactly
    the projects of this group (and the satellite project) as permissions. *)
Theorem groups_sync_outcome body w :
  fresh w ->
  let w' := (run (groupsSyncHandler body) w).1 in
  refused (w_db w) w' \/
  exists req grp, body = Some req /\
    let ps := utils.GetProjectNames (sta_Artifacts req) in
    Sql.CreateGroup (now_of w) (sta_Group req) (URL GC_Harbor) ps (w_db w) = (w_db w', inr grp) /\
    committed w' = true /\ w_replies w' = [mkReply 200 (PGroup grp)] /\
    (exists img, EvSvc (CraneImage "artifacts.json"
        (DocGroupState (sta_Group req) (URL GC_Harbor) (sta_Artifacts req))) (inr img) ∈ w_events w' /\
      EvSvc (CranePush img (utils.stripProtocol (utils.getStateArtifactDestination (URL GC_Harbor)
          ("satellite/group-state/" +:+ sta_Group req)))
        (utils.crane_options GC_Harbor (URL GC_Harbor))) (inr tt) ∈ w_events w') /\
    forall l, l ∈ satellite_groups (w_db w) -> sg_group_id l = grp_id grp ->
      exists rob robotID hr,
        t_find (fun x => (rob_satellite_id x =? sg_satellite_id l)%Z) (robot_accounts (w_db w)) = Some rob /\
        Go.parse_int (rob_robot_id rob) = Some robotID /\
        EvSvc (GetRobotByID robotID) (inr hr) ∈ w_events w' /\
        EvSvc (UpdateRobot (hr_id hr) (mkRobot (hr_id hr) (hr_name hr)
          (harbor.GenRobotPerms (ps ++ ["satellite"])%list) (hr_expires_at hr))) (inr tt) ∈ w_events w'.
Proof.
  intros Hf w'. unfold w', groupsSyncHandler. destruct body as [req|].
  2: { left. destruct (run _ w) as [v []] eqn:E. refused_by Hf E. }
  change (run _ w) with
    (run (transactional HandleAppError no_cleanup rollback_failed (groups_sync_body req)) w).
  destruct (transactional_outcome HandleAppError no_cleanup rollback_failed (groups_sync_body req) w)
    as [Hno|(Hok & w1 & id & Hat & _ & E)];
    auto using fresh_quiet, settles_groups_sync_body with handlers.
  { intros e He. by apply settle_HandleAppError. }
  right. destruct Hok as [Hc [r [Hr _]]].
  apply (groups_sync_body_inv req _ _ _ _ _ Hat) in E as (grp & Hd & Hlast & Himg & Hall).
  rewrite Hr in Hlast. simpl in Hlast. injection Hlast as ->.
  exists req, grp. by split_and!.
Qed.

(* ------------------------------------------------------------------ *)
(** ** The projects of a state artifact *)

Lemma project_names_fold l acc :
  NoDup acc ->
  let r := foldl (fun projects a =>
    if ga_deleted a then projects
    else let p := utils.project_of (ga_repository a) in
         if existsb (String.eqb p) projects then projects else (projects ++ [p])%list) acc l in
  NoDup r /\ forall p, p ∈ r <->
    p ∈ acc \/ exists a, a ∈ l /\ ga_deleted a = false /\ p = utils.project_of (ga_repository a).
Proof.
  revert acc. induction l as [|a l IH]; intros acc Hn; simpl.
  { split; [done|]. intros p. split; [by left|]. intros [Hp|(a & Ha & _)]; [done|set_solver]. }
  set (p0 := utils.project_of (ga_repository a)).
  destruct (ga_deleted a) eqn:Ed.
  { destruct (IH acc Hn) as [Hn' Hp]. split; [done|]. intros p. rewrite Hp.
    split; (intros [?|(b & Hb & Hd & ?)]; [by left|right; exists b]); [set_solver|].
    apply elem_of_cons in Hb as [->|Hb]; [congruence|done]. }
  assert (p0 = utils.project_of (ga_repository a)) as Hp0 by done. clearbody p0.
  destruct (existsb (String.eqb p0) acc) eqn:Ee.
  - destruct (IH acc Hn) as [Hn' Hp]. split; [done|]. intros p. rewrite Hp.
    split; (intros [?|(b & Hb & Hd & ->)]; [by left|]).
    + right. exists b. set_solver.
    + apply elem_of_cons in Hb as [->|Hb]; [left|right; by exists b]. rewrite <- Hp0.
      apply List.existsb_exists in Ee as (q & Hq & ->%String.eqb_eq). by apply list_elem_of_In.
  - assert (NoDup (acc ++ [p0])) as Hn1.
    { apply NoDup_snoc; [done|]. intros Hin. apply Bool.not_true_iff_false in Ee. apply Ee.
      apply List.existsb_exists. exists p0. split; [by apply list_elem_of_In|apply String.eqb_refl]. }
    destruct (IH _ Hn1) as [Hn' Hp]. split; [done|]. intros p.
    rewrite Hp, elem_of_app, list_elem_of_singleton. split.
    + intros [[?|Hpp]|(b & Hb & Hd & ->)]; [by left|right; exists a; set_solver|right; exists b; set_solver].
    + intros [?|(b & Hb & Hd & ->)]; [by left; left|].
      apply elem_of_cons in Hb as [->|Hb]; [left; right; congruence|right; by exists b].
Qed.

(** The projects of a state artifact are the first path segments of the
    repositories of its artifacts that are not marked deleted, each once. *)
Theorem project_names_of_artifacts l :
  NoDup (utils.GetProjectNames l) /\
  forall p, p ∈ utils.GetProjectNames l <->
    exists a, a ∈ l /\ ga_deleted a = false /\ p = utils.project_of (ga_repository a).
Proof.
  destruct (project_names_fold l [] (NoDup_nil_2)) as [Hn Hp]. split; [done|].
  intros p. etransitivity; [apply Hp|]. split; [|by right]. by intros [H'%elem_of_nil|H'].
Qed.

End Facts.

#[export] Hint Resolve helper_sync_group_robots helper_unlink_satellite : helpers.

Section GroupWitnesses.
Import Demo.

Lemma delete_group_outcome_witness :
  let w' := (run (deleteGroupHandler "group1") (demo_world demo_db)).1 in
  refused demo_db w' \/
  answered w' /\ exists grp,
    t_find (fun g => String.eqb (grp_name g) "group1") (groups demo_db) = Some grp /\
    w_db w' = (Sql.DeleteGroup (grp_id grp) demo_db).1 /\
    forall l, l ∈ satellite_groups demo_db -> sg_group_id l = grp_id grp ->
      exists sat, t_find (fun s => (sat_id s =? sg_satellite_id l)%Z) (satellites demo_db) = Some sat /\
        synchronised (w_db w') sat (w_events w').
Proof. exact (delete_group_outcome "group1" (demo_world demo_db) (demo_fresh _)). Defined.

Definition demo_artifact : StateArtifact :=
  mkStateArtifact "group1" "" [mkGroupArtifact "library/alpine" ["latest"] "image" "sha256:0" false].

Lemma groups_sync_outcome_witness :
  let w' := (run (groupsSyncHandler (Some demo_artifact)) (demo_world demo_db)).1 in
  committed w' = true /\
  exists grp, w_replies w' = [mkReply 200 (PGroup grp)] /\
    Sql.CreateGroup second "group1" "https://harbor.example" ["library"] demo_db = (w_db w', inr grp).
Proof.
  destruct (groups_sync_outcome (Some demo_artifact) (demo_world demo_db) (demo_fresh _))
    as [(_ & Hc & _)|(req & grp & [= <-] & Hd & Hc & Hr & _)]; [exfalso; vm_compute in Hc; discriminate|].
  split; [exact Hc|]. exists grp. by split.
Defined.

End GroupWitnesses.
