(* ===== verification/RateLimit.v ===== *)
(** * The rate limiter's decisions

    Executions of the limiter (Limiter): the sequence of its steps, each with
    the clock it read, the requests it accepts, and the bound they respect. *)

From S2P Require Import Prelude Limiter.
From stdpp Require Import gmap strings.

#[local] Open Scope string_scope.

(* ------------------------------------------------------------------ *)
(** ** Executions *)

Inductive step := StepAllow (now : Z) (ip : string) | StepCleanup (now : Z).

Definition step_time (s : step) : Z := match s with StepAllow t _ | StepCleanup t => t end.

(** The accepted requests of an execution, newest last *)
Fixpoint execute (rl : RateLimiter) (l : list step) : list (string * Z) :=
  match l with
  | [] => []
  | StepAllow now ip :: l' =>
      let '(rl', ok) := Allow now ip rl in
      if ok then (ip, now) :: execute rl' l' else execute rl' l'
  | StepCleanup now :: l' => execute (cleanup now rl) l'
  end.

(** The specification keeps the whole history and counts. *)
Definition in_window (ip : string) (low high : Z) (h : list (string * Z)) : list (string * Z) :=
  List.filter (fun p => String.eqb p.1 ip && (low <? p.2) && (p.2 <=? high))%Z h.

Fixpoint spec_execute (max window : Z) (h : list (string * Z)) (l : list step) : list (string * Z) :=
  match l with
  | [] => []
  | StepAllow now ip :: l' =>
      if (max <=? Z.of_nat (length (in_window ip (now - window) now h)))%Z
      then spec_execute max window h l'
      else (ip, now) :: spec_execute max window (h ++ [(ip, now)]) l'
  | StepCleanup _ :: l' => spec_execute max window h l'
  end.

(** The clock does not go back. *)
Fixpoint monotone (t0 : Z) (l : list step) : Prop :=
  match l with
  | [] => True
  | s :: l' => (t0 <= step_time s)%Z /\ monotone (step_time s) l'
  end.

(* ------------------------------------------------------------------ *)
(** ** Refinement *)

Definition of_ip (ip : string) (h : list (string * Z)) : list Z :=
  snd <$> List.filter (fun p => String.eqb p.1 ip) h.

(** Beyond any cutoff that can still matter, the limiter remembers exactly
    the accepted requests of each address. *)
Definition remembers (rl : RateLimiter) (h : list (string * Z)) (t0 : Z) : Prop :=
  Forall (fun p => p.2 <= t0)%Z h /\
  forall ip c, (t0 - rl_windowPeriod rl <= c)%Z -> recent c (timestamps rl ip) = recent c (of_ip ip h).

Lemma recent_recent c c' l : (c <= c')%Z -> recent c' (recent c l) = recent c' l.
Proof.
  intros Hc. unfold recent. induction l as [|t l IH]; simpl; [done|].
  destruct (Z.ltb_spec c t); simpl; [by rewrite IH|]. rewrite IH.
  destruct (Z.ltb_spec c' t); [lia|done].
Qed.

Lemma recent_app c l l' : recent c (l ++ l') = (recent c l ++ recent c l')%list.
Proof. apply List.filter_app. Qed.

Lemma of_ip_app ip h h' : of_ip ip (h ++ h') = (of_ip ip h ++ of_ip ip h')%list.
Proof. unfold of_ip. by rewrite List.filter_app, fmap_app. Qed.

Lemma in_window_length ip low high h :
  Forall (fun p => p.2 <= high)%Z h ->
  length (in_window ip low high h) = length (recent low (of_ip ip h)).
Proof.
  unfold in_window, recent, of_ip. induction 1 as [|[i t] h Ht _ IH]; simpl in *; [done|].
  destruct (String.eqb i ip); simpl; [|done].
  destruct (Z.leb_spec t high); [|lia]. destruct (Z.ltb_spec low t); simpl; by rewrite IH.
Qed.

Lemma remembers_later rl h t0 t1 : (t0 <= t1)%Z -> remembers rl h t0 -> remembers rl h t1.
Proof.
  intros Ht [Hh Hr]. split; [|intros; apply Hr; lia].
  revert Hh. rewrite !Forall_forall. intros Hh p Hp. specialize (Hh p Hp). simpl in *. lia.
Qed.

Lemma timestamps_insert rl ip l ip' :
  timestamps (set_requests (<[ip := l]> (rl_requests rl)) rl) ip' =
  if String.eqb ip ip' then l else timestamps rl ip'.
Proof.
  unfold timestamps. simpl. destruct (String.eqb_spec ip ip') as [->|Hne].
  - by rewrite lookup_insert_eq.
  - by rewrite lookup_insert_ne.
Qed.

Lemma remembers_pruned rl h now ip :
  remembers rl h now ->
  remembers (set_requests (<[ip := recent (now - rl_windowPeriod rl) (timestamps rl ip)]> (rl_requests rl)) rl) h now.
Proof.
  intros [Hh Hr]. split; [done|]. intros ip' c Hc. rewrite timestamps_insert. simpl in Hc.
  destruct (String.eqb_spec ip ip') as [->|]; [|by apply Hr]. rewrite recent_recent by lia. by apply Hr.
Qed.

Lemma remembers_accepted rl h now ip :
  remembers rl h now ->
  remembers (set_requests (<[ip := (recent (now - rl_windowPeriod rl) (timestamps rl ip) ++ [now])%list]>
    (rl_requests rl)) rl) (h ++ [(ip, now)]) now.
Proof.
  intros [Hh Hr]. split; [apply Forall_app; by repeat constructor|].
  intros ip' c Hc. rewrite timestamps_insert, of_ip_app. simpl in Hc. rewrite (recent_app c (of_ip ip' h)).
  unfold of_ip at 2; simpl. destruct (String.eqb_spec ip ip') as [->|].
  - rewrite recent_app, recent_recent by lia. by rewrite Hr.
  - simpl. rewrite app_nil_r. by apply Hr.
Qed.

Lemma remembers_cleanup rl h now : remembers rl h now -> remembers (cleanup now rl) h now.
Proof.
  intros [Hh Hr]. split; [done|]. intros ip c Hc. rewrite <- Hr by done.
  unfold timestamps, cleanup. simpl in *. rewrite lookup_omap.
  destruct (rl_requests rl !! ip) as [l|]; simpl; [|done].
  rewrite <- (recent_recent (now - rl_windowPeriod rl) c l) by lia.
  by destruct (recent (now - rl_windowPeriod rl) l).
Qed.

Lemma execute_refines l rl h t0 :
  remembers rl h t0 -> monotone t0 l ->
  execute rl l = spec_execute (rl_maxRequests rl) (rl_windowPeriod rl) h l.
Proof.
  revert rl h t0. induction l as [|[now ip|now] l IH]; intros rl h t0 Hr Hm; simpl in *; [done|..];
    destruct Hm as [Ht Hm]; apply (remembers_later _ _ _ now) in Hr; try done.
  - rewrite in_window_length by apply Hr. rewrite <- (proj2 Hr ip) by lia.
    unfold Allow. destruct (_ <=? _)%Z.
    + by erewrite IH; [|apply remembers_pruned|].
    + f_equal. by erewrite IH; [|apply remembers_accepted|].
  - by erewrite IH; [|apply remembers_cleanup|].
Qed.

(** The rate limiter decides every request as a limiter that remembers
    everything would: a request is accepted exactly when fewer than the
    maximum of this address's accepted requests lie in the window that ends
    now.  Neither the pruning of other requests nor the cleanup task, at
    whatever moments it runs, changes a decision. *)
Theorem limiter_refines_history max window t0 l :
  monotone t0 l -> execute (NewRateLimiter max window) l = spec_execute max window [] l.
Proof. intros Hm. by apply (execute_refines l (NewRateLimiter max window) [] t0). Qed.

(* ------------------------------------------------------------------ *)
(** ** The bound *)

Lemma in_window_app ip low high h h' :
  in_window ip low high (h ++ h') = (in_window ip low high h ++ in_window ip low high h')%list.
Proof. apply List.filter_app. Qed.

Lemma in_window_mono ip low high now h :
  Forall (fun p => p.2 <= now)%Z h -> (now <= high)%Z ->
  (length (in_window ip (high - low) high h) <= length (in_window ip (now - low) now h))%nat.
Proof.
  intros Hh Hn. rewrite !in_window_length by
    (first [done | revert Hh; rewrite !Forall_forall; intros Hh p Hp; specialize (Hh p Hp); simpl in *; lia]).
  rewrite <- (recent_recent (now - low) (high - low)) by lia. apply List.filter_length_le.
Qed.

Lemma spec_bound l max window h t0 ip high :
  (0 <= max)%Z -> Forall (fun p => p.2 <= t0)%Z h -> monotone t0 l ->
  (Z.of_nat (length (in_window ip (high - window) high h)) <= max)%Z ->
  (Z.of_nat (length (in_window ip (high - window) high (h ++ spec_execute max window h l))) <= max)%Z.
Proof.
  intros Hmax. revert h t0. induction l as [|[now i|now] l IH]; intros h t0 Hh Hm Hb; simpl in *;
    [by rewrite app_nil_r|..]; destruct Hm as [Ht Hm];
    assert (Forall (fun p => p.2 <= now)%Z h) as Hh'
      by (revert Hh; rewrite !Forall_forall; intros Hh p Hp; specialize (Hh p Hp); simpl in *; lia).
  2: { by apply (IH h now). }
  destruct (Z.leb_spec max (Z.of_nat (length (in_window i (now - window) now h)))); [by apply (IH h now)|].
  rewrite (cons_middle (i, now) h), app_assoc. apply (IH _ now); [apply Forall_app; by repeat constructor|done|].
  rewrite in_window_app, length_app. unfold in_window at 2. simpl.
  destruct (String.eqb_spec i ip) as [->|]; simpl; [|lia].
  destruct (Z.ltb_spec (high - window) now); simpl; [|lia].
  destruct (Z.leb_spec now high); simpl; [|lia].
  pose proof (in_window_mono ip window high now h Hh' ltac:(lia)). lia.
Qed.

(** C39. However requests and cleanups interleave, no address ever gets more
    than the maximum of requests accepted within any window. *)
Theorem limiter_bound max window t0 l ip high :
  (0 <= max)%Z -> monotone t0 l ->
  (Z.of_nat (length (in_window ip (high - window) high (execute (NewRateLimiter max window) l))) <= max)%Z.
Proof.
  intros Hmax Hm. rewrite (execute_refines l _ [] t0) by done.
  by apply (spec_bound l max window [] t0).
Qed.

Definition demo_steps : list step :=
  [StepAllow 1 "a"; StepCleanup 30; StepAllow 40 "a"; StepAllow 41 "b"; StepAllow 50 "a"; StepAllow 70 "a"]%Z.

Lemma limiter_refines_history_witness :
  execute (NewRateLimiter 2 60) demo_steps = [("a", 1); ("a", 40); ("b", 41); ("a", 70)]%Z.
Proof. rewrite (limiter_refines_history 2 60 0) by (simpl; lia). reflexivity. Defined.

Lemma limiter_bound_witness :
  (Z.of_nat (length (in_window "a" (70 - 60) 70 (execute (NewRateLimiter 2 60) demo_steps))) <= 2)%Z.
Proof. apply (limiter_bound 2 60 0); simpl; lia. Defined.
