(* ===== verification/Registration.v ===== *)
(** * Registering a satellite

    What POST /api/satellites commits, and the Harbor robot account it never
    leaves behind. *)

From S2P Require Import Free Prelude Db DbFacts Prog Logic Runs Env Harbor CryptoLib Crypto Duration Spiffe.
From S2P Require Import Server Demo Satellites SatelliteFacts.
From Stdlib Require Import Ascii.

#[local] Open Scope string_scope.

(* ------------------------------------------------------------------ *)
(** ** The abstract operation *)

(** The statement [q] succeeds and gives the database and its result. *)
Definition stmt {A B} (x : Db * result A) (k : Db -> A -> option B) : option B :=
  match x with (d, inr a) => k d a | (_, inl _) => None end.

Fixpoint link_groups (sid : Z) (names : list string) (d : Db) : option Db :=
  match names with
  | [] => Some d
  | n :: rest =>
      stmt (Sql.GetGroupByName n d) (fun d g =>
      stmt (Sql.AddSatelliteToGroup sid (grp_id g) d) (fun d _ => link_groups sid rest d))
  end.

(** A registration as one change of the database: the satellite, its group
    links, the robot account with the hash of its secret, the configuration
    link and the token. *)
Definition register_db (t : Z) (req : RegisterSatelliteParams) (rbt : RobotCreated)
    (hash token : string) (expires : Z) (d : Db) : option Db :=
  stmt (Sql.CreateSatellite t (rsp_Name req) d) (fun d sat =>
  match link_groups (sat_id sat) (deref (rsp_Groups req)) d with
  | None => None
  | Some d =>
      stmt (Sql.AddRobotAccount t (rcd_name rbt) hash (Go.itoa (rcd_id rbt)) (sat_id sat)
              (expiry_of (rcd_expires_at rbt)) d) (fun d _ =>
      stmt (Sql.GetConfigByName (rsp_ConfigName req) d) (fun d config =>
      stmt (Sql.SetSatelliteConfig (sat_id sat) (cfg_id config) d) (fun d _ =>
      stmt (Sql.AddToken t (sat_id sat) token expires d) (fun d _ => Some d))))
  end).

Section Registration.
Context `{Server, GroundControl, PqText, Argon2, Services, PgTypes}.

Lemma add_groups_inv names sid d0 t d w w' sts acc :
  at_tx d0 t d w ->
  run (for_each (fun groupName groupStates =>
    let* replications := harbor.ListReplication ("name=" +:+ groupName) in
    match replications with
    | inl _ =>
        throw (fail ("Error: Group Name: " +:+ groupName +:+
          ", does not exist in replication, Please give a Valid Group Name") 400)
    | inr _ =>
        let? group := db InTx (QGetGroupByName groupName)
          catch (fun _ => throw (fail ("Error: Invalid Group Name: " +:+ groupName) 400)) in
        let? _ := db InTx (QAddSatelliteToGroup sid (grp_id group)) catch throw in
        ok (groupStates ++ [utils.AssembleGroupState groupName])%list
    end) names acc) w = (w', inr sts) ->
  exists d', link_groups sid names d = Some d' /\ at_tx d0 t d' w'.
Proof.
  revert d w acc. induction names as [|n names IH]; intros d w acc Hat E.
  { apply run_ret_inv in E as [<- _]. by exists d. }
  cbn [for_each] in E. inv_step E w1 acc1 E1. inv_step E1 w2 reps E2. keep_tx Hat E2.
  destruct reps as [?|?]; [dead_branch E1|].
  inv_step E1 w3 grp E3. apply (step_tx_read _ d0 t d) in E3 as (Q3 & Hat3 & _); [|done..].
  inv_step E1 w4 u4 E4. apply (step_tx _ d0 t d) in E4 as (d4 & Q4 & Hat4 & _); [|done].
  apply run_ret_inv in E1 as [<- _].
  destruct (IH _ _ _ Hat4 E) as (d' & Hl & Hat'). exists d'. split; [|done].
  cbn [link_groups]. unfold exec_query in Q3, Q4. rewrite Q3. cbn [stmt]. by rewrite Q4.
Qed.

Lemma assign_inv names robotID d0 t d w w' u :
  at_tx d0 t d w ->
  run (for_each (fun groupName _ =>
    let? projects := db InTx (QGetProjectsOfGroup groupName)
      catch (fun _ => throw (fail "Error: failed to fetch projects for group" 500)) in
    match projects with
    | [] => throw (fail "Error: no projects found for group" 500)
    | project :: _ =>
        let? _ := utils.UpdateRobotProjects project (Go.itoa robotID)
          catch (fun _ => throw (fail "Error: failed to update robot account permissions" 500)) in
        ok tt
    end) names tt) w = (w', inr u) ->
  at_tx d0 t d w'.
Proof.
  revert w. induction names as [|n names IH]; intros w Hat E.
  { by apply run_ret_inv in E as [<- _]. }
  cbn [for_each] in E. inv_step E w1 acc1 E1. destruct acc1.
  inv_step E1 w2 ps E2. apply (step_tx_read _ d0 t d) in E2 as (_ & Hat2 & _); [|done..].
  destruct ps as [|p ps]; [dead_branch E1|].
  inv_step E1 w3 u3 E3. keep_tx Hat2 E3. apply run_ret_inv in E1 as [<- _]. by eapply IH.
Qed.

Lemma HashSecret_inv secret w w' h :
  run (HashSecret secret) w = (w', inr h) ->
  exists salt, length salt = ArgonSaltSize /\ h = hash_with_salt secret salt.
Proof.
  intros E. unfold HashSecret in E. inv_step E w1 salt E1.
  apply run_ret_inv in E as [_ E]. injection E as <-. exists salt. split; [|done].
  unfold perform in E1. cbn [run exec_op] in E1. destruct (w_rand w (w_tick w)); simplify_eq/=. done.
Qed.

Lemma GenerateRandomToken_inv n w w' tok :
  run (GenerateRandomToken n) w = (w', inr tok) -> String.length tok = (2 * (n / 2))%nat.
Proof.
  intros E. unfold GenerateRandomToken in E. inv_step E w1 bs E1.
  apply run_ret_inv in E as [_ E]. injection E as <-. rewrite hex_encode_length. f_equal.
  unfold perform in E1. cbn [run exec_op] in E1. destruct (w_rand w (w_tick w)); simplify_eq/=.
  by rewrite length_fmap, length_seq.
Qed.

(** The statements after the robot account exists, on the database *)
Definition tail_db (t : Z) (req : RegisterSatelliteParams) (sat : Satellite) (rbt : RobotCreated)
    (hash token : string) (expires : Z) (d : Db) : option Db :=
  stmt (Sql.AddRobotAccount t (rcd_name rbt) hash (Go.itoa (rcd_id rbt)) (sat_id sat)
          (expiry_of (rcd_expires_at rbt)) d) (fun d _ =>
  stmt (Sql.GetConfigByName (rsp_ConfigName req) d) (fun d config =>
  stmt (Sql.SetSatelliteConfig (sat_id sat) (cfg_id config) d) (fun d _ =>
  stmt (Sql.AddToken t (sat_id sat) token expires d) (fun d _ => Some d)))).

(** What a registration hands out, besides the database change *)
Definition issued (w : World) (rbt : RobotCreated) (hash token : string) (expires : Z) (w' : World) : Prop :=
  (exists salt, length salt = ArgonSaltSize /\ hash = hash_with_salt (rcd_secret rbt) salt) /\
  String.length token = 32%nat /\
  (exists n, expires = (w_clock w n + 24 * hour)%Z) /\
  exists l, w_replies w' = (l ++ [mkReply 200 (PRegister token)])%list.

(** The end of a handler: an audit event, one reply, the flag *)
Lemma answer_inv {A} r e st b (a : A) w w' a' :
  run (auditEvent r e ;;; WriteJSONResponse st b ;;; Ret a) w = (w', a') ->
  w_db w' = w_db w /\ w_replies w' = (w_replies w ++ [mkReply st b])%list.
Proof.
  unfold auditEvent, audit_log, WriteJSONResponse, write, perform.
  cbn [bind run exec_op]. intros E. injection E as <- _. done.
Qed.

Lemma answer_last r e st b w w' :
  run (auditEvent r e ;;; WriteJSONResponse st b) w = (w', tt) ->
  w_db w' = w_db w /\ w_replies w' = (w_replies w ++ [mkReply st b])%list.
Proof.
  unfold auditEvent, audit_log, WriteJSONResponse, write, perform.
  cbn [bind run exec_op]. intros E. injection E as <-. done.
Qed.

Lemma register_tail_inv r req sat states rbt d0 t d w w' id :
  at_tx d0 t d w -> run (register_tail r req sat states rbt) w = (w', (true, id)) ->
  exists hash token expires, tail_db t req sat rbt hash token expires d = Some (w_db w') /\
    issued w rbt hash token expires w'.
Proof.
  intros Hat E. unfold register_tail in E.
  inv_step E w1 hash E1. keep_tx Hat E1. pose proof (run_clock _ _ _ _ E1) as C1.
  apply HashSecret_inv in E1 as Hh.
  inv_step E w2 u2 E2. pose proof (run_clock _ _ _ _ E2) as C2.
  unfold storeRobotAccountInDB in E2. inv_step E2 w2' rob E2'.
  apply run_ret_inv in E2 as [<- _].
  apply (step_tx _ d0 t d) in E2' as (d2 & Q2 & Hat2 & _); [|done].
  inv_step E w3 u3 E3. pose proof (run_clock _ _ _ _ E3) as C3.
  pose proof (assign_inv _ _ _ _ _ _ _ _ Hat2 E3) as Hat3.
  inv_step E w4 cfg E4. pose proof (run_clock _ _ _ _ E4) as C4.
  apply (step_tx_read _ d0 t d2) in E4 as (Q4 & Hat4 & _); [|done..].
  inv_step E w5 u5 E5. pose proof (run_clock _ _ _ _ E5) as C5.
  apply (step_tx _ d0 t d2) in E5 as (d5 & Q5 & Hat5 & _); [|done].
  inv_step E w6 u6 E6. keep_tx Hat5 E6. pose proof (run_clock _ _ _ _ E6) as C6.
  inv_step E w7 token E7. keep_tx Hat5 E7. pose proof (run_clock _ _ _ _ E7) as C7.
  apply GenerateRandomToken_inv in E7 as Hlen.
  inv_step E w8 now E8. keep_tx Hat5 E8.
  assert (now = w_clock w7 (w_tick w7)) as Hnow by (cbn in E8; by injection E8).
  inv_step E w9 tk E9. apply (step_tx _ d0 t d5) in E9 as (d9 & Q9 & Hat9 & _); [|done].
  inv_step E w10 u10 E10. destruct u10. destruct (step_commit _ _ _ _ _ Hat9 E10) as (Hd & _ & _).
  apply answer_inv in E as [Hd' Hr].
  assert (tk = token) as ->.
  { unfold exec_query, Sql.AddToken, sql_ok, sql_err in Q9. repeat case_match; by simplify_eq. }
  exists hash, token, (now + 24 * hour)%Z. split.
  - unfold tail_db. unfold exec_query in Q2, Q4, Q5, Q9.
    rewrite Q2. cbn [stmt]. rewrite Q4. cbn [stmt]. rewrite Q5. cbn [stmt]. rewrite Q9. cbn [stmt].
    congruence.
  - split; [exact Hh|]. split; [exact Hlen|]. split; [|by eexists].
    exists (w_tick w7). congruence.
Qed.

Lemma register_body_inv r req d t w w' id :
  at_tx d t d w -> run (register_body r req) w = (w', (true, id)) ->
  exists rbt hash token expires,
    EvSvc (CreateRobot (harbor.RobotAccountTemplate (rsp_Name req) ["satellite"])) (inr rbt)
      ∈ w_events w' /\
    register_db t req rbt hash token expires d = Some (w_db w') /\
    issued w rbt hash token expires w'.
Proof.
  intros Hat E. unfold register_body in E.
  inv_step E w1 sat E1. pose proof (run_clock _ _ _ _ E1) as C1.
  apply (step_tx _ d t d) in E1 as (d1 & Q1 & Hat1 & _); [|done].
  inv_step E w2 sts E2. pose proof (run_clock _ _ _ _ E2) as C2.
  destruct (add_groups_inv _ _ _ _ _ _ _ _ _ Hat1 E2) as (d2 & Hl & Hat2).
  inv_step E w3 u3 E3. keep_tx Hat2 E3. pose proof (run_clock _ _ _ _ E3) as C3.
  inv_step E w4 rbt E4. keep_tx Hat2 E4. pose proof (run_clock _ _ _ _ E4) as C4.
  unfold utils.CreateRobotAccForSatellite in E4. inv_step E4 w5 rb E5.
  apply run_ret_inv in E4 as [<- E4]. injection E4 as ->.
  unfold harbor.CreateRobotAccount in E5. inv_step E5 w6 rb E6.
  apply run_ret_inv in E5 as [<- E5]. injection E5 as ->. apply step_call in E6.
  apply (run_events_mono _ _ _ _ _ E) in E6.
  assert (sat_name sat = rsp_Name req) as Hname.
  { unfold exec_query, Sql.CreateSatellite in Q1. case_match; [done|].
    apply sql_one_inv in Q1 as [Q1 _]. simpl in Q1. rewrite last_snoc in Q1. by injection Q1 as <-. }
  destruct (register_tail_inv _ _ _ _ _ _ _ _ _ _ _ Hat2 E) as (hash & token & expires & Ht & Hi).
  exists rbt, hash, token, expires. rewrite <- Hname. split; [exact E6|]. split.
  - unfold register_db. unfold exec_query in Q1. rewrite Q1. cbn [stmt]. rewrite Hl. exact Ht.
  - destruct Hi as (H5 & H6 & [n H7] & H8). split; [done|]. split; [done|]. split; [|done].
    exists n. congruence.
Qed.

(** The requests that reach the transaction *)
Definition admissible (body : option RegisterSatelliteParams) (req : RegisterSatelliteParams) : Prop :=
  body = Some req /\ s_spiffeProvider = None /\ s_spireClient = false /\
  utils.IsValidName (rsp_Name req) = true /\ utils.IsValidName (rsp_ConfigName req) = true.

Lemma quiet_helper_run {A} (m : prog (result A)) d0 w w1 r :
  helper m -> quiet d0 w -> run m w = (w1, r) -> quiet d0 w1.
Proof.
  intros Hm Hq E. pose proof (helper_run m d0 Hm w Hq) as [Hq1 _]. by rewrite E in Hq1.
Qed.

(** The handler refuses, or it runs its transaction after the robot name was
    found free. *)
Lemma register_prefix_inv r body w w' :
  fresh w -> run (registerSatelliteHandler r body) w = (w', tt) ->
  refused (w_db w) w' \/
  exists req w1, admissible body req /\ quiet (w_db w) w1 /\ w_db w1 = w_db w /\
    w_clock w1 = w_clock w /\
    run (transactional HandleAppError cleanupRobot rollback_failed (register_body r req)) w1 = (w', tt).
Proof.
  intros Hf E. unfold registerSatelliteHandler in E.
  destruct s_spiffeProvider eqn:Ep, s_spireClient eqn:Ec; try (left; refused_by Hf E).
  destruct body as [req|]; cbn [DecodeRequestBody lift try bind] in E; [|left; refused_by Hf E].
  destruct (utils.IsValidName (rsp_Name req)) eqn:En; cbn [negb] in E; [|left; refused_by Hf E].
  destruct (utils.IsValidName (rsp_ConfigName req)) eqn:Eg; cbn [negb] in E; [|left; refused_by Hf E].
  apply run_try_inv in E as [(w1 & present & E1 & E)|(w1 & e & E1 & E)].
  - assert (quiet (w_db w) w1) as Hq by (eapply quiet_helper_run; [|by apply fresh_quiet|exact E1]; helper_tac).
    destruct present; [left; by eapply quiet_HandleAppError; [exact Hq| |exact E]|].
    right. exists req, w1. split_and!; try done.
    + by destruct Hq.
    + by apply run_clock in E1.
  - assert (quiet (w_db w) w1) as Hq by (eapply quiet_helper_run; [|by apply fresh_quiet|exact E1]; helper_tac).
    left. by eapply quiet_HandleAppError; [exact Hq| |exact E].
Qed.

(** C1. Registering a satellite, under every pattern of failures: either the
    request is refused with an error status and the database is exactly as
    before, or it is answered once with a 32-digit token and the committed
    database is the previous one after one registration: the new satellite,
    its group links, its robot account with an argon2id hash of the secret
    Harbor gave to the robot, its configuration and the token, valid for 24
    hours of the server's clock. *)
Theorem register_satellite_outcome r body w :
  fresh w ->
  let w' := (run (registerSatelliteHandler r body) w).1 in
  refused (w_db w) w' \/
  exists t req rbt hash salt token n,
    admissible body req /\
    EvSvc (CreateRobot (harbor.RobotAccountTemplate (rsp_Name req) ["satellite"])) (inr rbt)
      ∈ w_events w' /\
    length salt = ArgonSaltSize /\ hash = hash_with_salt (rcd_secret rbt) salt /\
    String.length token = 32%nat /\
    register_db t req rbt hash token (w_clock w n + 24 * hour)%Z (w_db w) = Some (w_db w') /\
    w_replies w' = [mkReply 200 (PRegister token)].
Proof.
  intros Hf w'. destruct (run (registerSatelliteHandler r body) w) as [v []] eqn:E.
  simpl in w'; subst w'.
  destruct (register_prefix_inv r body w v Hf E) as [Hno|(req & w1 & Ha & Hq & Hd & Hc & E1)]; [by left|].
  rewrite <- Hd in Hq.
  pose proof (transactional_outcome HandleAppError cleanupRobot rollback_failed (register_body r req) w1
    harmless_HandleAppError (settle_HandleAppError fulfilled) harmless_cleanupRobot harmless_rollback_failed
    (settles_register_body r req) Hq) as Ho.
  rewrite E1 in Ho. rewrite <- Hd.
  destruct Ho as [Hno|(Hok & w2 & id & Hat & Hc2 & Eb)]; [by left|right]. simpl in Eb.
  destruct (register_body_inv _ _ _ _ _ _ _ Hat Eb) as (rbt & hash & token & expires & He & Hdb & Hi).
  destruct Hi as ((salt & Hs & Hh) & Hl & (n & ->) & (l & Hr)).
  exists (now_of w1), req, rbt, hash, salt, token, n. rewrite Hc2, Hc in Hdb.
  split_and!; try done. destruct Hok as (_ & r1 & Hr1 & _). simpl in Hr1.
  rewrite Hr1 in Hr. destruct l as [|x [|y l]]; simplify_eq/=; done.
Qed.

End Registration.

(* ------------------------------------------------------------------ *)
(** ** No robot account is left behind *)

(** The robot account an event created in Harbor; the one it tried to delete *)
Definition created_of (e : event) : option Z :=
  match e with
  | EvSvc s r =>
      match s in svc R return result R -> option Z with
      | CreateRobot _ => fun r => match r with inr c => Some (rcd_id c) | inl _ => None end
      | _ => fun _ => None
      end r
  | EvCommit => None
  end.

Definition deleted_of (e : event) : option Z :=
  match e with
  | EvSvc s _ => match s with DeleteRobot id => Some id | _ => None end
  | EvCommit => None
  end.

Section Orphans.
Context `{Server, GroundControl, PqText, Argon2, Services, PgTypes}.

Definition created (w : World) : list Z := omap created_of (w_events w).
Definition deleted (w : World) : list Z := omap deleted_of (w_events w).

Definition sober (R : Type) (o : op R) : bool :=
  match o with OSvc (CreateRobot _) => false | _ => true end.

Lemma run_sober {A} (Q : A -> Prop) (m : prog A) w w' a :
  spec sober Q m -> run m w = (w', a) -> created w' = created w /\ Q a.
Proof.
  apply run_untracked; [done|]. intros R s r Ho. by destruct s.
Qed.
End Orphans.

Section NoOrphans.
Context `{Server, GroundControl, PqText, Argon2, Services, PgTypes}.

Lemma create_robot_inv l n w w' r :
  run (utils.CreateRobotAccForSatellite l n) w = (w', r) ->
  created w' = (created w ++ match r with inr rbt => [rcd_id rbt] | inl _ => [] end)%list.
Proof.
  unfold utils.CreateRobotAccForSatellite, harbor.CreateRobotAccount, call, perform.
  intros E. cbn [try bind run exec_op] in E. destruct (svc_exec _ _) as [st x]. unfold created.
  destruct x as [e|rbt]; cbn in E; injection E as <- <-; cbn [w_events tick add_event set_svc];
    rewrite omap_app; done.
Qed.

(** The robot accounts a refused body created are the one it reports. *)
Lemma register_body_created r req w w' out :
  created w = [] -> run (register_body r req) w = (w', out) ->
  forall id, id ∈ created w' -> id = out.2.
Proof.
  intros H0' E. unfold register_body in E.
  assert (forall e v, created v = [] -> run (HandleAppError e ;;; Ret (false, 0%Z)) v = (w', out) ->
            forall id, id ∈ created w' -> id = out.2) as Hbad.
  { intros e v Hv Ev id. eapply (run_sober (fun _ => True)) in Ev as [-> _]; [|spec_tac].
    rewrite Hv. by intros ?%not_elem_of_nil. }
  apply run_try_inv in E as [(w1 & sat & E1 & E)|(w1 & e & E1 & E)];
    (eapply (run_sober (fun _ => True)) in E1 as [E1 _]; [|spec_tac]);
    [|by eapply Hbad; [|exact E]; congruence].
  apply run_try_inv in E as [(w2 & sts & E2 & E)|(w2 & e & E2 & E)];
    (eapply (run_sober (fun _ => True)) in E2 as [E2 _]; [|spec_tac]);
    [|by eapply Hbad; [|exact E]; congruence].
  apply run_try_inv in E as [(w3 & u & E3 & E)|(w3 & e & E3 & E)];
    (eapply (run_sober (fun _ => True)) in E3 as [E3 _]; [|spec_tac]);
    [|by eapply Hbad; [|exact E]; congruence].
  apply run_try_inv in E as [(w4 & rbt & E4 & E)|(w4 & e & E4 & E)];
    apply create_robot_inv in E4; rewrite E3, E2, E1, H0' in E4; simpl in E4;
    [|by eapply Hbad; [|exact E]].
  eapply (run_sober (fun o : bool * Z => o.2 = rcd_id rbt)) in E as [Hc ->]; [|spec_tac].
  rewrite Hc, E4. by intros id ->%list_elem_of_singleton.
Qed.

Lemma cleanupRobot_deletes id w w' u :
  run (cleanupRobot id) w = (w', u) -> id = 0%Z \/ id ∈ deleted w'.
Proof.
  unfold cleanupRobot. destruct (Z.eqb_spec id 0); [by left|]. intros E. right.
  unfold harbor.DeleteRobotAccount, call, perform in E.
  cbn [try bind run exec_op] in E. destruct (svc_exec _ _) as [st x]. unfold deleted.
  destruct x as [e|rbt]; cbn in E; injection E as <- _; cbn [w_events tick add_event set_svc];
    rewrite omap_app; apply elem_of_app; right; by apply list_elem_of_singleton.
Qed.

Lemma deleted_mono {A} (m : prog A) w w' a id :
  run m w = (w', a) -> id ∈ deleted w -> id ∈ deleted w'.
Proof. apply tracked_mono. Qed.

Lemma transaction_created r req w v id :
  quiet (w_db w) w -> created w = [] ->
  run (transactional HandleAppError cleanupRobot rollback_failed (register_body r req)) w = (v, tt) ->
  id ∈ created v -> committed v = true \/ id = 0%Z \/ id ∈ deleted v.
Proof.
  intros Hq Hw E Hid. unfold transactional in E.
  apply run_try_inv in E as [(w1 & u & E1 & E)|(w1 & e & E1 & E)].
  2: { eapply (run_sober (fun _ => True)) in E1 as [E1 _]; [|spec_tac].
       eapply (run_sober (fun _ => True)) in E as [E _]; [|spec_tac].
       rewrite E, E1, Hw in Hid. by apply not_elem_of_nil in Hid. }
  assert (quiet (w_db w) w1) as Hq1 by (eapply quiet_helper_run; [exact helper_begin|exact Hq|exact E1]).
  eapply (run_sober (fun _ => True)) in E1 as [E1 _]; [|spec_tac].
  apply run_bind_inv in E as (w2 & out & Eb & E).
  pose proof (settles_register_body r req _ _ Hq1) as Hset. rewrite Eb in Hset.
  pose proof (register_body_created r req w1 w2 out ltac:(congruence) Eb) as Hone.
  unfold deferred in E. destruct out as [[] rid]; simpl in *.
  - apply run_ret_inv in E as [<- _]. left. by destruct Hset.
  - right. apply run_bind_inv in E as (w3 & u3 & Ec & E). apply cleanupRobot_deletes in Ec as Hdel.
    eapply (run_sober (fun _ => True)) in Ec as [Ec _]; [|spec_tac].
    pose proof (deleted_mono _ _ _ _ id E) as Hmono.
    eapply (run_sober (fun _ => True)) in E as [E _]; [|spec_tac].
    rewrite E, Ec in Hid. apply Hone in Hid. subst id. destruct Hdel; auto.
Qed.

(** C6. A registration leaves no robot account behind in Harbor: whatever
    fails, every robot account created by the request belongs to a request
    that committed, or its deletion was requested (a robot id of 0 is what the
    code takes for "no robot"). *)
Theorem register_leaves_no_robot r body w :
  fresh w -> let w' := (run (registerSatelliteHandler r body) w).1 in
  forall id, id ∈ created w' -> committed w' = true \/ id = 0%Z \/ id ∈ deleted w'.
Proof.
  intros Hf w'. destruct (run (registerSatelliteHandler r body) w) as [v []] eqn:E.
  simpl in w'; subst w'. intros id Hid.
  assert (created w = []) as Hw by (destruct Hf as (_ & _ & He); unfold created; by rewrite He).
  assert (forall m x, spec sober (fun _ => True) m -> created x = [] -> run m x = (v, tt) ->
            committed v = true \/ id = 0%Z \/ id ∈ deleted v) as Hbad.
  { intros m x Hm Hx Ev. eapply (run_sober (fun _ => True)) in Ev as [Ev _]; [|exact Hm].
    rewrite Ev, Hx in Hid. by apply not_elem_of_nil in Hid. }
  unfold registerSatelliteHandler in E.
  destruct s_spiffeProvider, s_spireClient; try solve [eapply Hbad; [|exact Hw|exact E]; spec_tac].
  destruct body as [req|]; cbn [DecodeRequestBody lift try bind] in E;
    [|eapply Hbad; [|exact Hw|exact E]; spec_tac].
  destruct (utils.IsValidName (rsp_Name req)); cbn [negb] in E;
    [|eapply Hbad; [|exact Hw|exact E]; spec_tac].
  destruct (utils.IsValidName (rsp_ConfigName req)); cbn [negb] in E;
    [|eapply Hbad; [|exact Hw|exact E]; spec_tac].
  apply run_try_inv in E as [(w1 & present & E1 & E)|(w1 & e & E1 & E)];
    (assert (quiet (w_db w) w1) as Hq by (eapply quiet_helper_run; [|by apply fresh_quiet|exact E1]; helper_tac));
    (eapply (run_sober (fun _ => True)) in E1 as [E1 _]; [|spec_tac]); rewrite Hw in E1;
    [|eapply Hbad; [|exact E1|exact E]; spec_tac].
  destruct present; [eapply Hbad; [|exact E1|exact E]; spec_tac|].
  assert (w_db w1 = w_db w) as Hd by (by destruct Hq). rewrite <- Hd in Hq.
  by eapply transaction_created; [exact Hq|exact E1|exact E|].
Qed.
End NoOrphans.

(* ------------------------------------------------------------------ *)
(** ** What a registration makes possible *)

Lemma stmt_inv {A B} (x : Db * result A) (k : Db -> A -> option B) b :
  stmt x k = Some b -> exists d a, x = (d, inr a) /\ k d a = Some b.
Proof. destruct x as [d [e|a]]; [done|]. by exists d, a. Qed.

(** What linking groups does: the links are there, the other tables as before. *)
Lemma link_groups_spec sid names d d' :
  link_groups sid names d = Some d' ->
  satellites d' = satellites d /\ groups d' = groups d /\ robot_accounts d' = robot_accounts d /\
  satellite_token d' = satellite_token d /\ configs d' = configs d /\
  satellite_configs d' = satellite_configs d /\
  (forall l, l ∈ satellite_groups d -> l ∈ satellite_groups d') /\
  forall n, n ∈ names -> exists g,
    t_find (fun g => String.eqb (grp_name g) n) (groups d) = Some g /\
    mkSatelliteGroup sid (grp_id g) ∈ satellite_groups d'.
Proof.
  revert d. induction names as [|n names IH]; intros d E; cbn [link_groups] in E.
  { injection E as ->. split_and!; try done. by intros n ?%not_elem_of_nil. }
  apply stmt_inv in E as (d1 & g & Q1 & E). apply sql_one_inv in Q1 as [Q1 ->].
  apply stmt_inv in E as (d2 & u & Q2 & E). unfold Sql.AddSatelliteToGroup, sql_ok, sql_err in Q2.
  destruct (IH _ E) as (H1 & H2 & H3 & H4 & H5 & H6 & H7 & H8). clear IH E.
  assert (mkSatelliteGroup sid (grp_id g) ∈ satellite_groups d2 /\
          (forall l, l ∈ satellite_groups d -> l ∈ satellite_groups d2) /\
          satellites d2 = satellites d /\ groups d2 = groups d /\ robot_accounts d2 = robot_accounts d /\
          satellite_token d2 = satellite_token d /\ configs d2 = configs d /\
          satellite_configs d2 = satellite_configs d)
    as (K0 & K1 & K2 & K3 & K4 & K5 & K6 & K7).
  { destruct (existsb (Sql.same_link sid (grp_id g)) (satellite_groups d)) eqn:Ex.
    - injection Q2 as <- _. split_and!; try done.
      apply List.existsb_exists in Ex as ([a b] & Hin & Hs).
      unfold Sql.same_link in Hs. simpl in Hs.
      apply andb_prop in Hs as [->%Z.eqb_eq ->%Z.eqb_eq]. by apply list_elem_of_In.
    - destruct (_ && _); [|done]. injection Q2 as <- _. simpl. split_and!; try done.
      + apply elem_of_app. right. by apply list_elem_of_singleton.
      + intros l Hl. apply elem_of_app. by left. }
  split_and!; try congruence; [by auto|].
  intros m [->|Hm]%elem_of_cons; [by exists g; auto|].
  destruct (H8 m Hm) as (g' & Hg' & Hl'). exists g'. by rewrite <- K3.
Qed.

(** A registration is complete: afterwards the satellite is found under
    its name, the token handed out is found and names that satellite with the
    announced expiry, the satellite's robot account is the one just created in
    Harbor with the hash of its secret, its configuration is the requested
    one, and it is linked to every requested group.  The robot id must not be
    in the table already (AddRobotAccount updates such a row instead). *)
Theorem registration_complete t req rbt hash token expires d d' :
  wf d -> Go.in_int64 (rcd_id rbt) = true ->
  t_exists (fun x => String.eqb (rob_robot_id x) (Go.itoa (rcd_id rbt))) (robot_accounts d) = false ->
  register_db t req rbt hash token expires d = Some d' ->
  exists sat tok rob link cfg,
    t_find (fun s => String.eqb (sat_name s) (rsp_Name req)) (satellites d') = Some sat /\
    t_find (fun x => String.eqb (tok_token x) token) (satellite_token d') = Some tok /\
    tok_satellite_id tok = sat_id sat /\ tok_expires_at tok = expires /\
    t_find (fun x => (rob_satellite_id x =? sat_id sat)%Z) (robot_accounts d') = Some rob /\
    rob_name rob = rcd_name rbt /\ rob_secret_hash rob = hash /\
    Go.parse_int (rob_robot_id rob) = Some (rcd_id rbt) /\
    List.find (fun x => (sc_satellite_id x =? sat_id sat)%Z) (satellite_configs d') = Some link /\
    t_find (fun c => String.eqb (cfg_name c) (rsp_ConfigName req)) (configs d') = Some cfg /\
    sc_config_id link = cfg_id cfg /\
    forall n, n ∈ deref (rsp_Groups req) -> exists g,
      t_find (fun g => String.eqb (grp_name g) n) (groups d') = Some g /\
      mkSatelliteGroup (sat_id sat) (grp_id g) ∈ satellite_groups d'.
Proof.
  intros Hwf Hint Hrob E. unfold register_db in E.
  apply stmt_inv in E as (d1 & sat & Q1 & E). unfold Sql.CreateSatellite in Q1.
  destruct (t_exists _ (satellites d)) eqn:Ename; [done|]. apply sql_one_inv in Q1 as [Q1 ->].
  simpl in Q1. rewrite last_snoc in Q1. injection Q1 as <-. simpl sat_id in E.
  destruct (link_groups _ _ _) as [d2|] eqn:El; [|done].
  destruct (link_groups_spec _ _ _ _ El) as (L1 & L2 & L3 & L4 & L5 & L6 & _ & L8). simpl in *.
  apply stmt_inv in E as (d3 & rob & Q3 & E). unfold Sql.AddRobotAccount in Q3.
  rewrite L3 in Q3. rewrite Hrob in Q3.
  destruct (t_exists _ _) in Q3; [done|]. destruct (negb _) in Q3; [done|].
  apply sql_one_inv in Q3 as [_ ->].
  apply stmt_inv in E as (d4 & cfg & Q4 & E). apply sql_one_inv in Q4 as [Q4 ->]. simpl in Q4.
  apply stmt_inv in E as (d5 & u5 & Q5 & E). unfold Sql.SetSatelliteConfig in Q5.
  destruct (negb _) in Q5; [done|]. simpl in Q5. rewrite L6 in Q5.
  destruct Hwf as [[Hk _] _ _ [_ _ _ Hr] _ _ [_ Hc _] _ _ _ _ _].
  assert (existsb (fun x => (sc_satellite_id x =? next_id (satellites d))%Z) (satellite_configs d) = false)
    as Hno.
  { apply not_true_is_false. intros (x & Hin & Hx)%List.existsb_exists.
    apply list_elem_of_In in Hin. by rewrite (refs_fresh _ _ _ _ _ Hk Hc Hin) in Hx. }
  rewrite Hno in Q5. injection Q5 as <- _.
  apply stmt_inv in E as (d6 & tk & Q6 & E). injection E as <-. unfold Sql.AddToken in Q6.
  destruct (t_exists _ _) eqn:Et in Q6; [done|]. destruct (negb _) in Q6; [done|]. injection Q6 as <- _.
  simpl in *. rewrite L1, L2, L3, L5, L6.
  do 5 eexists. split_and!.
  - by apply t_find_insert; [|apply String.eqb_refl].
  - apply t_find_insert; [done|apply String.eqb_refl].
  - done.
  - done.
  - apply find_snoc; [|apply Z.eqb_refl]. intros y Hy. by apply (refs_fresh _ _ _ _ _ Hk Hr).
  - done.
  - done.
  - by apply parse_int_itoa.
  - apply find_snoc; [|apply Z.eqb_refl]. intros y Hy. by apply (refs_fresh _ _ _ _ _ Hk Hc).
  - rewrite <- L5. exact Q4.
  - done.
  - exact L8.
Qed.

Section RegistrationWitnesses.
Import Demo.

Definition demo_registration : RegisterSatelliteParams :=
  mkRegisterSatelliteParams "edge-02" (Some ["group1"]) "default".

Lemma register_satellite_outcome_witness :
  let w' := (run (registerSatelliteHandler demo_request (Some demo_registration)) (demo_world demo_db)).1 in
  refused demo_db w' \/
  exists t req rbt hash salt token n,
    admissible (Some demo_registration) req /\
    EvSvc (CreateRobot (harbor.RobotAccountTemplate (rsp_Name req) ["satellite"])) (inr rbt)
      ∈ w_events w' /\
    length salt = ArgonSaltSize /\ hash = hash_with_salt (rcd_secret rbt) salt /\
    String.length token = 32%nat /\
    register_db t req rbt hash token (w_clock (demo_world demo_db) n + 24 * hour)%Z demo_db = Some (w_db w') /\
    w_replies w' = [mkReply 200 (PRegister token)].
Proof. apply register_satellite_outcome, demo_fresh. Defined.

Lemma register_leaves_no_robot_witness :
  let w' := (run (registerSatelliteHandler demo_request (Some demo_registration)) (demo_world demo_db)).1 in
  committed w' = true \/ 42%Z = 0%Z \/ 42%Z ∈ deleted w'.
Proof.
  apply (register_leaves_no_robot demo_request (Some demo_registration) (demo_world demo_db)).
  - apply demo_fresh.
  - vm_compute. constructor.
Defined.

Definition demo_robot : RobotCreated := mkRobotCreated 42 "robot$edge-02" "s3cret" 0.

Definition demo_registered : Db :=
  match register_db second demo_registration demo_robot "hash" "token" (24 * hour)%Z demo_db with
  | Some d => d
  | None => empty_db
  end.

Lemma registration_complete_witness :
  exists sat tok, t_find (fun s => String.eqb (sat_name s) "edge-02") (satellites demo_registered) = Some sat /\
    t_find (fun x => String.eqb (tok_token x) "token") (satellite_token demo_registered) = Some tok /\
    tok_satellite_id tok = sat_id sat.
Proof.
  destruct (registration_complete second demo_registration demo_robot "hash" "token" (24 * hour)%Z
    demo_db demo_registered (proj1 demo_wf) eq_refl eq_refl ltac:(vm_compute; reflexivity))
    as (sat & tok & _ & _ & _ & ? & ? & ? & _).
  exists sat, tok. auto.
Defined.

End RegistrationWitnesses.
