(* ===== verification/Spire.v ===== *)
(** * SPIRE handlers

    internal/groundcontrol/server/spire_handlers.go: registration of a
    satellite with SPIFFE, the status of the SPIRE integration and the list of
    agents.  The SPIRE server is reached through the methods of ServerClient. *)

From S2P Require Import Free Prelude GoLib Db DbFacts Prog Logic Runs Env Harbor CryptoLib Crypto Duration Spiffe.
From S2P Require Import Server Demo Satellites SatelliteFacts Registration.
From Stdlib Require Import Ascii.

#[local] Open Scope string_scope.

Record RegisterSatelliteRequest := mkRegisterSatelliteRequest {
  rsr_SatelliteName : string; rsr_Region : string; rsr_Selectors : list string;
  rsr_AttestationMethod : string; rsr_TTLSeconds : Z; rsr_ParentAgentID : string }.

Section Spire.
Context `{Server, GroundControl, PqText, Argon2, GoQuote}.

Definition spireStatusHandler : prog unit :=
  let enabled := match s_spiffeProvider with Some _ => true | None => s_spireClient end in
  WriteJSONResponse 200
    (match s_spiffeProvider with
     | Some td => PSpireStatus enabled td "sidecar" true
     | None =>
         if s_embeddedSpire then PSpireStatus enabled s_spireTrustDomain "embedded" s_spireClient
         else if s_spireClient then PSpireStatus enabled s_spireTrustDomain "external" true
         else PSpireStatus enabled "" "" false
     end).

Definition listSpireAgentsHandler (attestation_type : string) : prog unit :=
  if negb s_spireClient then HandleAppError (fail "SPIRE server not configured" 503)
  else
    let? agents := call (ListAgents attestation_type)
      catch (fun _ => HandleAppError (fail "Failed to list agents" 500)) in
    WriteJSONResponse 200 (PAgents agents).

(** The first selector without a colon *)
Definition bad_selector (l : list string) : option string :=
  List.find (fun sel => negb (Go.contains sel ":")) l.

(** The checks of the request, in order: the error of the first that fails *)
Definition spiffe_request_error (req : RegisterSatelliteRequest) : option goerr :=
  if String.eqb (rsr_SatelliteName req) "" then Some (fail "satellite_name is required" 400)
  else match rsr_Selectors req with
  | [] => Some (fail "selectors is required" 400)
  | _ =>
      match bad_selector (rsr_Selectors req) with
      | Some sel => Some (fail ("invalid selector format " +:+ go_quote sel +:+ ": must contain ':'") 400)
      | None =>
          if negb (existsb (String.eqb (rsr_AttestationMethod req)) ["join_token"; "x509pop"; "sshpop"])
          then Some (fail "attestation_method must be one of: join_token, x509pop, sshpop" 400)
          else if String.eqb (rsr_AttestationMethod req) "sshpop" &&
                  String.eqb (rsr_ParentAgentID req) ""
          then Some (fail "parent_agent_id is required for sshpop attestation" 400)
          else None
      end
  end.

Definition default_region (req : RegisterSatelliteRequest) : string :=
  if String.eqb (rsr_Region req) "" then "default" else rsr_Region req.

Definition clamp_ttl (ttl : Z) : Z :=
  let ttl := if (ttl <=? 0)%Z then 600%Z else ttl in
  if (86400 <? ttl)%Z then 86400%Z else ttl.

(** The agent with the expected selector; "" when there is none.  The loops
    stop at the first agent whose SPIFFE id is then not empty. *)
Fixpoint find_agent (expected : string) (agents : list AgentInfo) : string :=
  match agents with
  | [] => ""
  | a :: rest =>
      if existsb (String.eqb expected) (ag_selectors a) && negb (String.eqb (ag_spiffe_id a) "")
      then ag_spiffe_id a else find_agent expected rest
  end.

(** The parent agent, with the join token and its expiry when one is made *)
Definition spiffe_agent (req : RegisterSatelliteRequest)
    : prog (result (string * string * option Z)) :=
  if String.eqb (rsr_AttestationMethod req) "join_token" then
    let agent := "spiffe://" +:+ s_spireTrustDomain +:+ "/agent/" +:+ rsr_SatelliteName req in
    let ttl := (clamp_ttl (rsr_TTLSeconds req) * second)%Z in
    let? token := call (CreateJoinToken agent ttl)
      catch (fun _ => throw (fail "Failed to create join token" 500)) in
    let* now := time_now in
    ok (agent, token, Some (now + ttl)%Z)
  else if String.eqb (rsr_AttestationMethod req) "x509pop" then
    if negb (String.eqb (rsr_ParentAgentID req) "") then ok (rsr_ParentAgentID req, "", None)
    else
      let? agents := call (ListAgents "x509pop")
        catch (fun _ => throw (fail "Failed to list agents" 500)) in
      let expected := "x509pop:subject:cn:" +:+ rsr_SatelliteName req in
      let agent := find_agent expected agents in
      if String.eqb agent ""
      then throw (fail ("no x509pop agent found with selector " +:+ go_quote expected) 404)
      else ok (agent, "", None)
  else ok (rsr_ParentAgentID req, "", None).

Definition workload_id (req : RegisterSatelliteRequest) : string :=
  "spiffe://" +:+ s_spireTrustDomain +:+ "/satellite/region/" +:+ default_region req +:+ "/"
    +:+ rsr_SatelliteName req.

Definition spiffe_registered (req : RegisterSatelliteRequest) (agent : string * string * option Z)
    : prog unit :=
  let '(agentID, joinToken, expiresAt) := agent in
  WriteJSONResponse 200
    (PSpiffeRegistered (rsr_SatelliteName req) (default_region req) (workload_id req) agentID
       joinToken expiresAt s_spireServerAddress s_spireServerPort s_spireTrustDomain).

(** The cleanup of an uncommitted registration *)
Definition cleanup_entry (entryID : string) (harborRobotID : Z) : prog unit :=
  call (DeleteWorkloadEntry entryID) ;;; cleanupRobot harborRobotID.

Definition spiffe_register_body (req : RegisterSatelliteRequest) (agent : string * string * option Z)
    : prog (bool * Z) :=
  let? satellite := db InTx (QCreateSatellite (rsr_SatelliteName req))
    catch (fun _ => refuse (fail "Failed to create satellite record" 500)) in
  let* rb := ensureSatelliteRobotAccount InTx satellite in
  let '(harborRobotID, res) := rb in
  match res with
  | inl err =>
      HandleAppError (fail ("Failed to create robot account: " +:+ error_text err) 500) ;;;
      Ret (false, harborRobotID)
  | inr _ =>
      let? _ := ensureSatelliteConfig InTx satellite
        catch (fun err =>
          HandleAppError (fail ("Failed to ensure satellite config: " +:+ error_text err) 500) ;;;
          Ret (false, harborRobotID)) in
      let? _ := perform OCommit
        catch (fun _ =>
          HandleAppError (fail "Failed to commit satellite creation" 500) ;;;
          Ret (false, harborRobotID)) in
      spiffe_registered req agent ;;;
      Ret (true, harborRobotID)
  end.

Definition registerSatelliteWithSPIFFEHandler (body : option RegisterSatelliteRequest) : prog unit :=
  match body with
  | None => HandleAppError (fail "Invalid request body" 400)
  | Some req =>
      match spiffe_request_error req with
      | Some e => HandleAppError e
      | None =>
          if negb s_spireClient then HandleAppError (fail "SPIRE server not configured" 503)
          else
            let? agent := spiffe_agent req catch HandleAppError in
            let? entryID := call (CreateWorkloadEntry agent.1.1 (workload_id req) (rsr_Selectors req))
              catch (fun _ => HandleAppError (fail "Failed to create workload entry" 500)) in
            let* found := db Pool (QGetSatelliteByName (rsr_SatelliteName req)) in
            match found with
            | inr _ => spiffe_registered req agent
            | inl _ =>
                transactional
                  (fun _ => call (DeleteWorkloadEntry entryID) ;;;
                            HandleAppError (fail "Failed to begin transaction" 500))
                  (cleanup_entry entryID) (Ret tt) (spiffe_register_body req agent)
            end
      end
  end.

End Spire.

(* ------------------------------------------------------------------ *)
(** ** The cleanup contract *)

Definition entry_of (e : event) : option string :=
  match e with
  | EvSvc s r =>
      match s in svc R return result R -> option string with
      | CreateWorkloadEntry _ _ _ => fun r => match r with inr id => Some id | inl _ => None end
      | _ => fun _ => None
      end r
  | EvCommit => None
  end.

Definition entry_deleted_of (e : event) : option string :=
  match e with
  | EvSvc s _ => match s with DeleteWorkloadEntry id => Some id | _ => None end
  | EvCommit => None
  end.

Definition no_entry (R : Type) (o : op R) : bool :=
  match o with OSvc (CreateWorkloadEntry _ _ _) => false | _ => true end.

Section Contract.
Context `{Server, GroundControl, PqText, Argon2, GoQuote, Services, PgTypes}.

(** The workload entries the request created; those it asked SPIRE to delete *)
Definition entries (w : World) : list string := omap entry_of (w_events w).
Definition entries_deleted (w : World) : list string := omap entry_deleted_of (w_events w).

Lemma run_no_entry {A} (m : prog A) w w' a :
  spec no_entry (fun _ => True) m -> run m w = (w', a) -> entries w' = entries w.
Proof.
  intros Hm E. eapply (run_untracked entry_of no_entry) in E as [E _]; [exact E|done| |exact Hm].
  intros R s r Ho. by destruct s.
Qed.

Lemma create_entry_inv p i s w w' r :
  run (call (CreateWorkloadEntry p i s)) w = (w', r) ->
  entries w' = (entries w ++ match r with inr id => [id] | inl _ => [] end)%list.
Proof.
  unfold call, perform. cbn [run exec_op]. destruct (svc_exec _ _) as [st x]. intros E.
  injection E as <- <-. unfold entries. cbn [w_events tick add_event]. rewrite omap_app.
  by destruct x.
Qed.

Lemma delete_entry_inv id w w' r :
  run (call (DeleteWorkloadEntry id)) w = (w', r) -> id ∈ entries_deleted w'.
Proof.
  intros E. apply step_call in E. unfold entries_deleted.
  apply list_elem_of_omap. exists (EvSvc (DeleteWorkloadEntry id) r). by split.
Qed.

Lemma settles_spiffe_register_body req agent : settles flag (spiffe_register_body req agent).
Proof. unfold spiffe_register_body, spiffe_registered. destruct agent as [[] ?]. handler_tac. Qed.

Lemma success_200 w st b : w_replies w = [mkReply st b] -> http_status w = st.
Proof. unfold http_status. by intros ->. Qed.

(** What the transaction leaves behind: success and a committed satellite, or
    a deletion of the workload entry. *)
Lemma spiffe_transaction_entry req agent entry w w' :
  quiet (w_db w) w ->
  run (transactional
         (fun _ => call (DeleteWorkloadEntry entry) ;;;
                   HandleAppError (fail "Failed to begin transaction" 500))
         (cleanup_entry entry) (Ret tt) (spiffe_register_body req agent)) w = (w', tt) ->
  entries w' = entries w /\ (fulfilled w' \/ entry ∈ entries_deleted w' /\ refused (w_db w) w').
Proof.
  intros Hq E. split.
  { eapply run_no_entry in E; [exact E|]. destruct agent as [[] ?].
    unfold transactional, spiffe_registered. spec_tac. }
  assert (settles either (transactional
         (fun _ => call (DeleteWorkloadEntry entry) ;;;
                   HandleAppError (fail "Failed to begin transaction" 500))
         (cleanup_entry entry) (Ret tt) (spiffe_register_body req agent))) as Hset.
  { apply settle_transactional; [..|apply settles_spiffe_register_body].
    - intros e He. handler_tac.
    - intros id. unfold cleanup_entry. harmless_tac.
    - done. }
  pose proof (settles_outcome fulfilled either _ w Hset Hq) as Ho. rewrite E in Ho. simpl in Ho.
  destruct Ho as [Hok|Hno]; [by left|right]. split; [|exact Hno]. unfold transactional in E.
  apply run_try_inv in E as [(w1 & u & E1 & E)|(w1 & e & E1 & E)].
  2: { apply run_bind_inv in E as (w2 & r & E2 & E). apply delete_entry_inv in E2.
       revert E2. apply (tracked_mono entry_deleted_of _ _ _ _ _ E). }
  assert (quiet (w_db w) w1) as Hq1 by (eapply quiet_helper_run; [exact helper_begin|exact Hq|exact E1]).
  apply run_bind_inv in E as (w2 & [ok id] & Eb & E).
  pose proof (settles_spiffe_register_body req agent _ _ Hq1) as Hb. rewrite Eb in Hb.
  unfold deferred in E. cbn [fst snd] in E. destruct ok; simpl in Hb.
  - apply run_ret_inv in E as [<- _]. destruct Hb as [Hc _]. destruct Hno as (_ & Hnc & _). simpl in Hnc. congruence.
  - unfold cleanup_entry in E. apply run_bind_inv in E as (w3 & u3 & E3 & E).
    apply run_bind_inv in E3 as (w4 & r & E4 & E3). apply delete_entry_inv in E4.
    revert E4. intros E4. apply (tracked_mono entry_deleted_of _ _ _ _ _ E3) in E4.
    by apply (tracked_mono entry_deleted_of _ _ _ _ _ E) in E4.
Qed.

(** Registration with SPIFFE leaves no workload entry behind: whatever
    fails, every entry the request created in SPIRE belongs to a request that
    was answered with success, or its deletion was requested; and a request
    answered otherwise leaves the database as it was. *)
Theorem spiffe_register_contract body w :
  fresh w ->
  let w' := (run (registerSatelliteWithSPIFFEHandler body) w).1 in
  (forall id, id ∈ entries w' -> success (http_status w') = true \/ id ∈ entries_deleted w') /\
  (success (http_status w') = true \/ w_db w' = w_db w).
Proof.
  intros Hf w'. destruct (run (registerSatelliteWithSPIFFEHandler body) w) as [v []] eqn:E.
  simpl in w'; subst w'.
  assert (entries w = []) as Hw by (destruct Hf as (_ & _ & He); unfold entries; by rewrite He).
  assert (forall m x, spec no_entry (fun _ => True) m -> harmless m -> entries x = [] ->
            w_db x = w_db w -> run m x = (v, tt) ->
            (forall id, id ∈ entries v -> success (http_status v) = true \/ id ∈ entries_deleted v) /\
            (success (http_status v) = true \/ w_db v = w_db w)) as Hout.
  { intros m x Hm Hh Hx Hd Ev. apply run_harmless_db in Ev as Hdb; [|exact Hh].
    apply run_no_entry in Ev; [|exact Hm]. split; [|right; congruence].
    rewrite Ev, Hx. by intros id ?%not_elem_of_nil. }
  unfold registerSatelliteWithSPIFFEHandler in E. destruct body as [req|].
  2: { eapply Hout; [| |exact Hw|done|exact E]; [spec_tac|harmless_tac]. }
  destruct (spiffe_request_error req) as [e|].
  { eapply Hout; [| |exact Hw|done|exact E]; [spec_tac|harmless_tac]. }
  destruct s_spireClient; cbn [negb] in E.
  2: { eapply Hout; [| |exact Hw|done|exact E]; [spec_tac|harmless_tac]. }
  assert (helper (spiffe_agent req)) as Hqa by (unfold spiffe_agent; helper_tac).
  apply run_try_inv in E as [(w1 & agent & E1 & E)|(w1 & e & E1 & E)];
    apply run_no_entry in E1 as Hw1; try (unfold spiffe_agent; spec_tac);
    (assert (quiet (w_db w) w1) as Hq1 by
       (eapply quiet_helper_run; [exact Hqa|by apply fresh_quiet|exact E1]));
    rewrite Hw in Hw1.
  2: { eapply Hout; [| |exact Hw1|by destruct Hq1|exact E]; [spec_tac|harmless_tac]. }
  apply run_try_inv in E as [(w2 & entry & E2 & E)|(w2 & e & E2 & E)];
    apply create_entry_inv in E2 as Hw2; rewrite Hw1 in Hw2; simpl in Hw2;
    (assert (quiet (w_db w) w2) as Hq2 by
       (eapply quiet_helper_run; [apply helper_call|exact Hq1|exact E2])).
  2: { eapply Hout; [| |exact Hw2|by destruct Hq2|exact E]; [spec_tac|harmless_tac]. }
  apply run_bind_inv in E as (w3 & found & E3 & E).
  apply run_no_entry in E3 as Hw3; [|spec_tac].
  assert (quiet (w_db w) w3) as Hq3 by
    (eapply quiet_helper_run; [|exact Hq2|exact E3]; by apply helper_read).
  rewrite Hw2 in Hw3. destruct Hq3 as (Hd3 & Hr3 & Hc3).
  destruct found as [e|sat].
  - apply spiffe_transaction_entry in E as [He [Hok|[Hdel Hno]]];
      [..|unfold quiet; by split_and!].
    + destruct Hok as (_ & r & Hr & Hs). unfold http_status. rewrite Hr. by split; [intros; left|left].
    + rewrite He, Hw3. split; [intros id ->%list_elem_of_singleton; by right|].
      right. rewrite <- Hd3. by destruct Hno.
  - unfold spiffe_registered in E. destruct agent as [[a j] ex]. apply step_write in E as (_ & Hr & _).
    rewrite Hr3 in Hr. unfold http_status. rewrite Hr. by split; [intros; left|left].
Qed.

End Contract.

Section SpireWitnesses.
Import Demo.

#[local] Instance demo_quote : GoQuote := fun s => s.

#[local] Instance spire_server : Server := {
  s_spiffeProvider := None; s_spireClient := true; s_embeddedSpire := false;
  s_spireTrustDomain := "example.org"; s_spireServerAddress := "spire"; s_spireServerPort := 8081%Z;
  s_sessionDuration := hour; s_lockoutDuration := minute;
  s_passwordPolicy := demo_policy; s_trustForwardedHeaders := false }.

Definition demo_spiffe (name : string) : RegisterSatelliteRequest :=
  mkRegisterSatelliteRequest name "" ["unix:uid:0"] "join_token" 0 "".

Lemma spiffe_register_contract_witness :
  let w' := (run (registerSatelliteWithSPIFFEHandler (Some (demo_spiffe "edge-02"))) (demo_world demo_db)).1 in
  success (http_status w') = true \/ "entry" ∈ entries_deleted w'.
Proof.
  apply (proj1 (spiffe_register_contract (Some (demo_spiffe "edge-02")) (demo_world demo_db) (demo_fresh _))).
  vm_compute. constructor.
Defined.

(** A world in which the hashing of the robot's secret fails *)
Definition no_entropy (d : Db) : World :=
  init_world d (42%Z : svc_state) second (fun _ => false) (fun _ => inl "entropy").

(** The cleanup contract of the handler's comment covers the robot account
    "if created", but a robot account whose secret cannot be hashed stays in
    Harbor: the request is refused, the workload entry is deleted and the
    robot account is not. *)
Theorem spiffe_register_orphans_robot :
  let w' := (run (registerSatelliteWithSPIFFEHandler (Some (demo_spiffe "edge-02"))) (no_entropy demo_db)).1 in
  http_status w' = 500%Z /\ w_db w' = demo_db /\ entries_deleted w' = ["entry"] /\
  created w' = [42%Z] /\ deleted w' = [].
Proof. vm_compute. by split_and!. Qed.

(** The name of the satellite to register is not validated: with a slash in
    it, the identity SPIRE is asked to issue is one that Ground Control takes
    for another satellite. *)
Theorem spiffe_register_impersonates :
  let w' := (run (registerSatelliteWithSPIFFEHandler (Some (demo_spiffe "edge-01/x"))) (demo_world demo_db)).1 in
  http_status w' = 200%Z /\
  EvSvc (CreateWorkloadEntry "spiffe://example.org/agent/edge-01/x"
           "spiffe://example.org/satellite/region/default/edge-01/x" ["unix:uid:0"]) (inr "entry") ∈ w_events w' /\
  ExtractSatelliteNameFromSPIFFEID (mkSpiffeID "example.org" "/satellite/region/default/edge-01/x") =
    Some "edge-01".
Proof.
  split_and!; [vm_compute; reflexivity| |reflexivity]. vm_compute. repeat (first [left | right]).
Qed.

End SpireWitnesses.
