(* ===== verification/Ztr.v ===== *)
(** * Zero-Touch Registration: single use of the token

    ztrHandler reads the token, refreshes the robot secret and deletes the
    token in separate statements outside a transaction.  One request at a time
    uses a token at most once; two interleaved requests can both use it. *)

From stdpp Require Import relations.
From Stdlib Require Import Ascii.
From S2P Require Import Prelude Free CryptoLib Db DbFacts Duration Prog Logic Runs Env Harbor Crypto Spiffe Server Demo Satellites SatelliteFacts Registration.

#[local] Open Scope string_scope.

Section Ztr.
Context `{Server, GroundControl, PqText, Argon2, Services, PgTypes}.

(* ------------------------------------------------------------------ *)
(** ** Steps that keep the tokens *)

Definition keeps_tokens {R} (q : query R) : bool :=
  match q with QUpdateRobotAccount _ _ _ _ _ => true | _ => is_read q end.

Definition calm (R : Type) (o : op R) : bool :=
  match o with
  | ODb Pool q => keeps_tokens q
  | OSvc _ | ONow | OAllow _ | ORand _ | OAudit _ => true
  | _ => false
  end.

Lemma exec_keeps_tokens {R} (q : query R) now d :
  keeps_tokens q = true -> satellite_token (exec_query now q d).1 = satellite_token d.
Proof.
  intros Hq. destruct (is_read q) eqn:E; [by rewrite exec_read|].
  destruct q; try discriminate Hq; try discriminate E.
  cbn [exec_query]. unfold Sql.UpdateRobotAccount. repeat case_match; done.
Qed.

(** What a calm step leaves alone *)
Definition same_tokens (w w' : World) : Prop :=
  satellite_token (w_db w') = satellite_token (w_db w) /\ w_replies w' = w_replies w /\
  w_clock w' = w_clock w.

Lemma exec_calm {R} (o : op R) w : calm R o = true -> same_tokens w (exec_op o w).1.
Proof.
  unfold same_tokens. destruct o as [R c q| | | | | | |R s| | | | |]; intros Ho; try discriminate Ho; simpl; try done.
  - destruct c; [|discriminate Ho]. simpl. destruct (faulty w); [done|].
    pose proof (exec_keeps_tokens q (now_of w) (w_db w) Ho) as Hq.
    by destruct (exec_query (now_of w) q (w_db w)).
  - by destruct (svc_exec s (w_svc w)).
Qed.

Lemma run_calm {A} (Q : A -> Prop) (m : prog A) w w' a :
  spec calm Q m -> run m w = (w', a) -> same_tokens w w' /\ Q a.
Proof.
  intros Hm E.
  assert (forall R (o : op R) v, calm R o = true -> same_tokens w v -> same_tokens w (exec_op o v).1)
    as Hop.
  { intros R o v Ho (K1 & K2 & K3). destruct (exec_calm o v Ho) as (L1 & L2 & L3).
    unfold same_tokens. by rewrite L1, L2, L3. }
  destruct (spec_run calm Q (same_tokens w) m Hop Hm w) as [K1 K2]; [by split_and!|].
  by rewrite E in K1, K2.
Qed.

Lemma same_tokens_trans u v w : same_tokens u v -> same_tokens v w -> same_tokens u w.
Proof. intros (A1 & A2 & A3) (B1 & B2 & B3). unfold same_tokens. by rewrite B1, B2, B3. Qed.

(** Helpers of the handler, with the class of their errors *)
Definition gentle {A} (m : prog (result A)) : Prop := spec calm good_err m.

Lemma run_gentle {A} (m : prog (result A)) w w' r :
  gentle m -> run m w = (w', r) -> same_tokens w w' /\ good_err r.
Proof. apply run_calm. Qed.

Lemma gentle_perform {A} (o : op (result A)) :
  calm _ o = true -> (forall r, op_post o r -> plain_err r) -> gentle (perform o).
Proof. intros Hs Hp. split; [done|]. intros r Hr. by apply plain_good, Hp. Qed.
Lemma gentle_try {A B} (m : prog (result A)) h (k : A -> prog (result B)) :
  gentle m -> (forall e, success (err_status e) = false -> gentle (h e)) ->
  (forall a, gentle (k a)) -> gentle (try m h k).
Proof. apply spec_try. Qed.
Lemma gentle_for_each {A S} (f : A -> S -> prog (result S)) l s :
  (forall a s', gentle (f a s')) -> gentle (for_each f l s).
Proof.
  intros Hf. revert s. induction l as [|a l IH]; intros s; simpl; [done|].
  apply gentle_try; [apply Hf|by intros e He|apply IH].
Qed.
Lemma gentle_now {B} (k : Z -> prog (result B)) : (forall a, gentle (k a)) -> gentle (bind time_now k).
Proof. intros Hk. split; [done|]. intros r _. apply Hk. Qed.
Lemma gentle_lift {A} (r : result A) : good_err r -> gentle (lift r).
Proof. done. Qed.

End Ztr.

Ltac gentle_step :=
  lazymatch goal with
  | |- forall _, _ => intros ?
  | |- success _ = false => first [assumption | reflexivity]
  | |- gentle (match ?x with _ => _ end) => destruct x
  | |- gentle (Ret _) => first [exact I | assumption | reflexivity]
  | |- gentle (perform _) => apply gentle_perform; [reflexivity|done]
  | |- gentle (lift (Validate _)) => apply gentle_lift, plain_good, Validate_plain
  | |- gentle (bind time_now _) => apply gentle_now
  | |- gentle (try _ _ _) => apply gentle_try
  | |- gentle (for_each _ _ _) => apply gentle_for_each
  | |- gentle ?m => let h := head_of m in unfold h
  end.
Ltac gentle_tac := repeat gentle_step.

(** A calm step [E : run m w = _] of a program of type result *)
Ltac calm_step w1 a E H Hc :=
  apply run_try_inv in H as [(w1 & a & E & H)|(w1 & a & E & H)];
  (eapply run_gentle in E as Hc; [|gentle_tac]).

Section ZtrOutcome.
Context `{Server, GroundControl, PqText, Argon2, Services, PgTypes}.

(** The request was turned down and the token is still there. *)
Definition turned_down (w w' : World) : Prop :=
  satellite_token (w_db w') = satellite_token (w_db w) /\
  exists st m, w_replies w' = [mkReply st (PAppError m st)] /\ success st = false.

Lemma turn_down e w v w' :
  w_replies w = [] -> same_tokens w v -> success (err_status e) = false ->
  run (HandleAppError e) v = (w', tt) -> turned_down w w'.
Proof.
  intros Hw (H1' & H2' & _) Hs E. destruct (HandleAppError_write e) as [m Em]. rewrite Em in E.
  unfold write, perform in E. cbn in E. injection E as <-. split; [done|].
  exists (err_status e), m. split; [|done]. simpl. by rewrite H2', Hw.
Qed.

(** The token was consumed and the satellite got its credentials. *)
Definition handed_out (w : World) (token user secret : string) (w' : World) : Prop :=
  satellite_token (w_db w') =
    t_delete (fun r => String.eqb (tok_token r) token) (satellite_token (w_db w)) /\
  exists url, w_replies w' = [mkReply 200 (PStateConfig url (URL GC_Harbor) user secret)].

Lemma ztr_finish_outcome r token sid rob secret w v w' :
  w_replies w = [] -> same_tokens w v ->
  run (ztr_finish r token sid rob secret) v = (w', tt) ->
  turned_down w w' \/ handed_out w token (rob_name rob) secret w'.
Proof.
  intros Hw Hv E. unfold ztr_finish in E.
  calm_step w1 grps E1 E K1; destruct K1 as [K1 _]; pose proof (same_tokens_trans _ _ _ Hv K1) as S1;
    [|left; by eapply turn_down; [exact Hw|exact S1| |exact E]].
  calm_step w2 states E2 E K2; destruct K2 as [K2 _]; pose proof (same_tokens_trans _ _ _ S1 K2) as S2;
    [|left; by eapply turn_down; [exact Hw|exact S2| |exact E]].
  calm_step w3 sat E3 E K3; destruct K3 as [K3 _]; pose proof (same_tokens_trans _ _ _ S2 K3) as S3;
    [|left; by eapply turn_down; [exact Hw|exact S3| |exact E]].
  calm_step w4 cfg E4 E K4; destruct K4 as [K4 G4]; pose proof (same_tokens_trans _ _ _ S3 K4) as S4;
    [|left; by eapply turn_down; [exact Hw|exact S4|exact G4|exact E]].
  calm_step w5 u E5 E K5; destruct K5 as [K5 G5]; pose proof (same_tokens_trans _ _ _ S4 K5) as S5;
    [|left; by eapply turn_down; [exact Hw|exact S5|exact G5|exact E]].
  rewrite run_try in E. unfold db, perform in E. cbn [run exec_op exec_db] in E.
  destruct (faulty w5).
  { left. eapply turn_down; [exact Hw| | |exact E]; [|done]. by eapply same_tokens_trans. }
  right. cbn [exec_query Sql.DeleteToken sql_ok] in E.
  apply answer_last in E as [Hd Hr]. destruct S5 as (T1 & T2 & _). unfold handed_out.
  rewrite Hd, Hr. cbn [tick set_db w_db w_replies on_satellite_token satellite_token].
  rewrite T1, T2, Hw. split; [done|]. by eexists.
Qed.

(** Where the secret comes from: Harbor's answer to the refresh, or the
    placeholder of the mode without Harbor. *)
Definition fresh_secret (rob : RobotAccount) (secret : string) (es : list event) : Prop :=
  SkipHealthCheck GC_Harbor = true /\ secret = placeholder_secret \/
  exists id, Go.parse_int (rob_robot_id rob) = Some id /\ secret <> "" /\
    EvSvc (RefreshSec id "") (inr (Some secret)) ∈ es.

Lemma refreshRobotSecret_inv q rob w w' secret :
  run (refreshRobotSecret q rob) w = (w', inr secret) -> fresh_secret rob secret (w_events w').
Proof.
  unfold refreshRobotSecret. intros E. destruct (SkipHealthCheck GC_Harbor) eqn:Es.
  { apply run_ret_inv in E as [_ E]. injection E as <-. by left. }
  right. destruct (Go.parse_int (rob_robot_id rob)) as [id|]; [|dead_branch E].
  inv_step E w1 resp E1. unfold harbor.RefreshRobotAccount in E1. inv_step E1 w2 resp2 E2.
  apply run_ret_inv in E1 as [<- E1]. injection E1 as ->.
  destruct resp as [s|]; [|dead_branch E]. destruct (String.eqb_spec s ""); [dead_branch E|].
  apply step_call in E2. apply (run_events_mono _ _ _ _ _ E) in E2.
  inv_step E w3 h3 E3. inv_step E w4 d4 E4. inv_step E w5 u5 E5.
  apply run_ret_inv in E as [<- E]. injection E as ->. by exists id.
Qed.

Lemma ztr_dichotomy r token w :
  fresh w ->
  let w' := (run (ztrHandler r token) w).1 in
  turned_down w w' \/
  exists tok rob n secret,
    t_find (fun x => String.eqb (tok_token x) token) (satellite_token (w_db w)) = Some tok /\
    (w_clock w n <= tok_expires_at tok)%Z /\
    rob_satellite_id rob = tok_satellite_id tok /\ rob ∈ rows (robot_accounts (w_db w)) /\
    fresh_secret rob secret (w_events w') /\
    handed_out w token (rob_name rob) secret w'.
Proof.
  intros Hf w'. destruct (run (ztrHandler r token) w) as [v []] eqn:E. simpl in w'; subst w'.
  assert (w_replies w = []) as Hw by (by destruct Hf).
  unfold ztrHandler in E.
  calm_step w1 tok E1 E K1; destruct K1 as [S1 _].
  2: { left. apply run_bind_inv in E as (w2 & u & E2 & E).
       apply (run_calm (fun _ => True)) in E2 as [S2 _]; [|by split].
       eapply turn_down; [exact Hw| | |exact E]; [by eapply same_tokens_trans|done]. }
  apply step_pool_read in E1 as (Q1 & Hd1 & _); [|done]. apply sql_one_inv in Q1 as [Q1 _].
  apply run_bind_inv in E as (w2 & now & E2 & E).
  assert (now = w_clock w1 (w_tick w1) /\ w2 = tick w1) as [-> ->] by (cbn in E2; by injection E2).
  destruct (Z.ltb_spec (tok_expires_at tok) (w_clock w1 (w_tick w1))) as [Hexp|Hexp].
  { left. apply run_bind_inv in E as (w2 & u & E3 & E).
    apply (run_calm (fun _ => True)) in E3 as [S2 _]; [|by split].
    eapply turn_down; [exact Hw| | |exact E]; [by eapply same_tokens_trans|done]. }
  calm_step w3 rob E3 E K3; destruct K3 as [S3 _];
    [|left; by eapply turn_down; [exact Hw|exact (same_tokens_trans _ _ _ S1 S3)| |exact E]].
  apply step_pool_read in E3 as (Q3 & Hd3 & _); [|done]. apply sql_one_inv in Q3 as [Q3 _].
  calm_step w4 secret E4 E K4; destruct K4 as [S4 _];
    pose proof (same_tokens_trans _ _ _ (same_tokens_trans _ _ _ S1 S3) S4) as S;
    [|left; by eapply turn_down; [exact Hw|exact S| |exact E]].
  apply refreshRobotSecret_inv in E4 as Hsec.
  destruct (ztr_finish_outcome _ _ _ _ _ w w4 v Hw S E) as [Hno|Hok]; [by left|right].
  change (w_db (tick w1)) with (w_db w1) in Q3. rewrite Hd1 in Q3.
  destruct S1 as (_ & _ & C1). rewrite C1 in Hexp.
  exists tok, rob, (w_tick w1), secret. apply find_Some_elem in Q3 as [Hin Hsat].
  split_and!; try done; [by apply Z.eqb_eq in Hsat|].
  destruct Hsec as [Hs|(id & Hp & Hne & Hev)]; [by left|right].
  exists id. split_and!; try done. by apply (run_events_mono _ _ _ _ _ E).
Qed.

(** C7. Zero-Touch Registration, under every pattern of failures: either the
    request is turned down with an error and the token is still in the
    database, or the token was known and not expired when the server looked,
    the token is gone, and the satellite got the name of its robot account
    and the secret Harbor generated for it in this very request. *)
Theorem ztr_outcome r token w :
  fresh w ->
  let w' := (run (ztrHandler r token) w).1 in
  turned_down w w' \/
  exists tok rob n secret,
    t_find (fun x => String.eqb (tok_token x) token) (satellite_token (w_db w)) = Some tok /\
    (w_clock w n <= tok_expires_at tok)%Z /\
    rob_satellite_id rob = tok_satellite_id tok /\ rob ∈ rows (robot_accounts (w_db w)) /\
    fresh_secret rob secret (w_events w') /\
    handed_out w token (rob_name rob) secret w'.
Proof. apply ztr_dichotomy. Qed.

Lemma find_none_delete {R} (p : R -> bool) (t : table R) : t_find p (t_delete p t) = None.
Proof.
  unfold t_find, t_delete; simpl. induction (rows t) as [|a l IH]; simpl; [done|].
  destruct (p a) eqn:E; simpl; [done|]. by rewrite E.
Qed.

Lemma ztr_finish_only r token w :
  fresh w -> http_status (run (ztrHandler r token) w).1 = 200%Z ->
  satellite_token (w_db (run (ztrHandler r token) w).1) =
  t_delete (fun x => String.eqb (tok_token x) token) (satellite_token (w_db w)).
Proof.
  intros Hf Hok. destruct (ztr_dichotomy r token w Hf) as [(_ & st & m & Hr & Hs)|Hh].
  - unfold http_status in Hok. rewrite Hr in Hok. simpl in Hok. by subst st.
  - by destruct Hh as (? & ? & ? & ? & _ & _ & _ & _ & _ & ? & _).
Qed.

(** The statement inserts this very token. *)
Definition adds_token {R} (token : string) (q : query R) : bool :=
  match q with QAddToken _ tk _ => String.eqb tk token | _ => false end.

(** The database after any statements, of any requests and in any order, none
    of which inserts [token] *)
Inductive worked (token : string) : Db -> Db -> Prop :=
| worked_nothing d : worked token d d
| worked_statement {R} (q : query R) now d d' :
    adds_token token q = false -> worked token (exec_query now q d).1 d' -> worked token d d'.

Definition token_gone (token : string) (d : Db) : Prop :=
  forall tok, tok ∈ rows (satellite_token d) -> tok_token tok <> token.

Lemma gone_delete token p d : token_gone token d -> token_gone token (on_satellite_token (t_delete p) d).
Proof. intros Hg tok [Ht _]%elem_of_List_filter. by apply Hg. Qed.

Lemma gone_same token d d' : satellite_token d' = satellite_token d -> token_gone token d -> token_gone token d'.
Proof. unfold token_gone. by intros ->. Qed.

Lemma gone_delete_satellites token p d : token_gone token d -> token_gone token (Sql.delete_satellites p d).
Proof. intros Hg. unfold Sql.delete_satellites. apply (gone_delete token _ _ Hg). Qed.

Lemma sql_one_db {A} d (o : option A) : (sql_one d o).1 = d.
Proof. by destruct o. Qed.

Lemma exec_keeps_gone {R} token (q : query R) now d :
  adds_token token q = false -> token_gone token d -> token_gone token (exec_query now q d).1.
Proof.
  intros Hq Hg. destruct (is_read q) eqn:E; [by rewrite exec_read|].
  destruct q; try discriminate E; cbn [exec_query];
    try (by apply gone_delete_satellites); try (by apply (gone_delete token));
    try (apply (gone_same token d); [|exact Hg];
         unfold Sql.CreateSatellite, Sql.CreateGroup, Sql.AddSatelliteToGroup, Sql.AddRobotAccount,
           Sql.UpdateRobotAccount, Sql.CreateConfig, Sql.UpdateConfig, Sql.SetSatelliteConfig,
           Sql.InsertSatelliteStatus, Sql.BatchInsertArtifacts, Sql.CreateUser, Sql.CreateSession,
           Sql.UpsertLoginAttempt, sql_last;
         repeat case_match; rewrite ?sql_one_db; reflexivity).
  cbn in Hq. apply String.eqb_neq in Hq. unfold Sql.AddToken.
  do 2 (case_match; [done|]). intros tok [Ht|Ht]%elem_of_app; [by apply Hg|].
  by apply list_elem_of_singleton in Ht as ->.
Qed.

Lemma worked_gone token d d' : worked token d d' -> token_gone token d -> token_gone token d'.
Proof. induction 1 as [|? ? ? ? ? Hq _ IH]; [done|]. intros Hg. by apply IH, exec_keeps_gone. Qed.

Lemma t_find_gone token d :
  t_find (fun x => String.eqb (tok_token x) token) (satellite_token d) = None <-> token_gone token d.
Proof.
  unfold t_find, token_gone. induction (rows (satellite_token d)) as [|x l IH]; cbn.
  - split; [intros _ ? []%elem_of_nil|done].
  - destruct (String.eqb_spec (tok_token x) token) as [E|E].
    + split; [done|]. intros Hg. destruct (Hg x); [by left|done].
    + rewrite IH. split; [intros Hl y [->|Hy]%elem_of_cons; auto|intros Hl y Hy; apply Hl; by right].
Qed.

(** C8. The token is single-use for requests served one after the other: once
    a request was answered with success, every later request with the same
    token, whoever sends it and whatever statements other requests executed
    meanwhile, is refused with status 400, unless one of them inserted that
    very token again. *)
Theorem ztr_sequential_single_use r token w r2 w2 :
  fresh w -> http_status (run (ztrHandler r token) w).1 = 200%Z ->
  worked token (w_db (run (ztrHandler r token) w).1) (w_db w2) -> fresh w2 ->
  http_status (run (ztrHandler r2 token) w2).1 = 400%Z.
Proof.
  intros Hf Hok Hw Hf2.
  pose proof (ztr_finish_only r token w Hf Hok) as Hgone.
  assert (t_find (fun x => String.eqb (tok_token x) token) (satellite_token (w_db w2)) = None) as Hnone.
  { apply t_find_gone, (worked_gone _ _ _ Hw), t_find_gone. rewrite Hgone. apply find_none_delete. }
  destruct Hf2 as (Hr & _). unfold ztrHandler. rewrite run_try.
  unfold db, perform. cbn [run exec_op exec_db]. unfold http_status.
  destruct (faulty w2); [by (cbn; rewrite Hr)|].
  cbn [exec_query]. unfold Sql.GetTokenByValue. rewrite Hnone. cbn. by rewrite Hr.
Qed.
End ZtrOutcome.

Section Witnesses.
Import Demo.
Lemma ztr_outcome_witness :
  let w' := (run (ztrHandler demo_request "0123456789abcdef0123456789abcdef") (demo_world demo_db)).1 in
  turned_down (demo_world demo_db) w' \/
  exists tok rob n secret,
    t_find (fun x => String.eqb (tok_token x) "0123456789abcdef0123456789abcdef")
      (satellite_token demo_db) = Some tok /\
    (w_clock (demo_world demo_db) n <= tok_expires_at tok)%Z /\
    rob_satellite_id rob = tok_satellite_id tok /\ rob ∈ rows (robot_accounts demo_db) /\
    fresh_secret rob secret (w_events w') /\
    handed_out (demo_world demo_db) "0123456789abcdef0123456789abcdef" (rob_name rob) secret w'.
Proof. apply ztr_outcome. apply demo_fresh. Defined.


(** Between the two requests another satellite is registered, with its own
    token, and expired tokens are cleaned up. *)
Definition meanwhile (d : Db) : Db :=
  (exec_query 2 QDeleteExpiredTokens
    (exec_query 1 (QAddToken 2 "fedcba9876543210fedcba9876543210" 100)
      (exec_query 0 (QCreateSatellite "edge-02") d).1).1).1.

Lemma ztr_sequential_single_use_witness :
  http_status (run (ztrHandler demo_request "0123456789abcdef0123456789abcdef")
    (demo_world (meanwhile (w_db (run (ztrHandler demo_request "0123456789abcdef0123456789abcdef")
                                    (demo_world demo_db)).1)))).1 = 400%Z.
Proof.
  apply (ztr_sequential_single_use demo_request _ (demo_world demo_db));
    [apply demo_fresh|vm_compute; reflexivity| |apply demo_fresh].
  rewrite demo_world_db.
  apply (worked_statement _ (QCreateSatellite "edge-02") 0); [reflexivity|].
  apply (worked_statement _ (QAddToken 2 "fedcba9876543210fedcba9876543210" 100) 1); [reflexivity|].
  apply (worked_statement _ QDeleteExpiredTokens 2); [reflexivity|]. apply worked_nothing.
Defined.
End Witnesses.

(* ------------------------------------------------------------------ *)
(** ** Requests served concurrently

    net/http serves every request in its own goroutine.  Requests share the
    database and the services; each has its ResponseWriter and its
    transaction.  [istep] lets any request perform its next operation. *)

Section Interleave.
Context `{Services, PgTypes}.

Record Client := mkClient { cl_prog : prog unit; cl_tx : option Tx; cl_replies : list reply }.

Definition client (p : prog unit) : Client := mkClient p None [].

(** The world as request [c] sees it; what it leaves shared *)
Definition enter (c : Client) (w : World) : World :=
  mkWorld (w_db w) (cl_tx c) (w_lock w) (w_limiter w) (w_svc w) (cl_replies c) (w_audit w) (w_events w)
    (w_tick w) (w_clock w) (w_fail w) (w_rand w).
Definition leave (w : World) : World :=
  mkWorld (w_db w) None (w_lock w) (w_limiter w) (w_svc w) [] (w_audit w) (w_events w)
    (w_tick w) (w_clock w) (w_fail w) (w_rand w).

Definition step_client (c : Client) (w : World) : option (Client * World) :=
  match cl_prog c with
  | Ret _ => None
  | Op o k =>
      let '(w', r) := exec_op o (enter c w) in
      Some (mkClient (k r) (w_tx w') (w_replies w'), leave w')
  end.

Inductive istep : list Client * World -> list Client * World -> Prop :=
| istep_client i c c' cs w w' :
    cs !! i = Some c -> step_client c w = Some (c', w') ->
    istep (cs, w) (<[i := c']> cs, w').

(** A schedule: who performs the next operation; finished requests pass. *)
Fixpoint schedule (s : list nat) (st : list Client * World) : list Client * World :=
  match s with
  | [] => st
  | i :: s' =>
      schedule s'
        match st.1 !! i with
        | None => st
        | Some c =>
            match step_client c st.2 with
            | None => st
            | Some (c', w') => (<[i := c']> st.1, w')
            end
        end
  end.

Lemma schedule_reachable s st : rtc istep st (schedule s st).
Proof.
  revert st. induction s as [|i s IH]; intros st; simpl; [constructor|].
  destruct st as [cs w]. simpl. destruct (cs !! i) as [c|] eqn:Ec; [|apply IH].
  destruct (step_client c w) as [[c' w']|] eqn:Es; [|apply IH].
  eapply rtc_l; [by eapply istep_client|apply IH].
Qed.

(** Whatever the interleaving, the schema's constraints hold: each request's
    view and the shared database stay well formed. *)
Definition wf_clients (st : list Client * World) : Prop :=
  wf (w_db st.2) /\
  Forall (fun c => match cl_tx c with Some tx => wf (tx_view tx) | None => True end) st.1.

Lemma step_client_wf c w c' w' :
  wf (w_db w) -> match cl_tx c with Some tx => wf (tx_view tx) | None => True end ->
  step_client c w = Some (c', w') ->
  wf (w_db w') /\ match cl_tx c' with Some tx => wf (tx_view tx) | None => True end.
Proof.
  intros Hd Ht E. unfold step_client in E. destruct (cl_prog c) as [|R o k]; [done|].
  pose proof (exec_op_wf o (enter c w)) as Hwf.
  destruct (exec_op o (enter c w)) as [w1 r]. simplify_eq. apply Hwf. by split.
Qed.

(** The integrity constraints of the schema hold in every state that any
    number of concurrent requests, running any handlers, can reach. *)
Theorem concurrent_integrity cs w st :
  wf (w_db w) -> rtc istep (client <$> cs, w) st -> wf (w_db st.2).
Proof.
  intros Hd Hr.
  assert (wf_clients (client <$> cs, w)) as Hi.
  { split; [done|]. apply Forall_fmap, Forall_true. done. }
  enough (wf_clients st) as [Hw _] by done.
  induction Hr as [st|x y z Hxy _ IH]; [done|]. apply IH.
  destruct Hxy as [i c c' cs' v v' Hc Hs]. destruct Hi as [Hv Hcs]. simpl in *.
  destruct (step_client_wf c v c' v' Hv (Forall_lookup_1 _ _ _ _ Hcs Hc) Hs) as [Hv' Hc'].
  split; [done|]. by apply Forall_insert.
Qed.

End Interleave.

Section Race.
Import Demo.

Definition demo_token : string := "0123456789abcdef0123456789abcdef".

Definition race : list Client * World :=
  schedule (concat (repeat [0%nat; 1%nat] 30))
    (client <$> [ztrHandler demo_request demo_token; ztrHandler demo_request demo_token],
     demo_world demo_db).

(** Single use does not extend to concurrent requests: two requests with
    the same token, interleaved, can both be answered with success and
    credentials, because the token is read and deleted in separate statements
    outside a transaction. *)
Theorem ztr_token_race :
  exists st, rtc istep (client <$> [ztrHandler demo_request demo_token; ztrHandler demo_request demo_token],
                        demo_world demo_db) st /\
    Forall (fun c => exists url user secret,
      cl_replies c = [mkReply 200 (PStateConfig url (URL GC_Harbor) user secret)]) st.1.
Proof.
  exists race. split; [apply schedule_reachable|].
  assert (cl_replies <$> race.1 =
    [[mkReply 200 (PStateConfig "https://harbor.example/satellite/satellite-state/edge-01/state:latest"
        "https://harbor.example" "robot$edge-01" "fresh")];
     [mkReply 200 (PStateConfig "https://harbor.example/satellite/satellite-state/edge-01/state:latest"
        "https://harbor.example" "robot$edge-01" "fresh")]]) as E by (vm_compute; reflexivity).
  destruct (race.1) as [|c1 [|c2 [|c3 l]]]; try discriminate E. injection E as E1 E2.
  repeat constructor; rewrite ?E1, ?E2; by do 3 eexists.
Qed.

Lemma concurrent_integrity_witness :
  wf (w_db (schedule [0%nat] (client <$> [ztrHandler demo_request demo_token], demo_world demo_db)).2).
Proof.
  apply (concurrent_integrity [ztrHandler demo_request demo_token] (demo_world demo_db)).
  - exact (proj1 demo_wf).
  - apply schedule_reachable.
Defined.

End Race.
