(* ===== verification/Status.v ===== *)
(** * Status reports, liveness and cleanup

    internal/groundcontrol/server/cleanup.go and handlers.go, and the
    properties of the status report (syncHandler of satellite_handlers.go):
    what a report stores, when a satellite counts as active or stale, and what
    the cleanup job keeps. *)

From stdpp Require Import relations.
From S2P Require Import Free Prelude Utf8 Db DbFacts Prog Logic Runs Env Harbor CryptoLib Crypto Duration Spiffe.
From S2P Require Import Limiter Server Demo Satellites Auth AuthFacts SatelliteFacts Registration Ztr.
From Stdlib Require Import Ascii.

#[local] Open Scope string_scope.

(* ------------------------------------------------------------------ *)
(** ** handlers.go *)

Definition Ping : prog unit := write 200 PNone.

Definition healthHandler : prog unit :=
  let? _ := perform OPing
    catch (fun _ => WriteJSONResponse 503 (PMap [("status", "unhealthy")])) in
  WriteJSONResponse 200 (PMap [("status", "healthy")]).

(* ------------------------------------------------------------------ *)
(** ** cleanup.go *)

Definition cleanupLockID : Z := 12345.
Definition defaultRetentionDays : Z := 7.
Definition defaultCleanupInterval : Z := (24 * hour)%Z.

Record CleanupConfig := mkCleanupConfig { cc_RetentionDays : Z; cc_CleanupInterval : Z }.

Definition NewCleanupConfig : CleanupConfig := mkCleanupConfig defaultRetentionDays defaultCleanupInterval.

(** The defaults StartCleanupJob fills in *)
Definition cleanup_defaults (cfg : CleanupConfig) : CleanupConfig :=
  mkCleanupConfig
    (if (cc_RetentionDays cfg <=? 0)%Z then defaultRetentionDays else cc_RetentionDays cfg)
    (if (cc_CleanupInterval cfg <=? 0)%Z then defaultCleanupInterval else cc_CleanupInterval cfg).

Definition tryAcquireAdvisoryLock (lockID : Z) : prog (result bool) :=
  let? acquired := perform (OTryLock lockID) catch throw in
  ok acquired.

Definition releaseAdvisoryLock (lockID : Z) : prog unit :=
  let? _ := perform (OUnlock lockID) catch (fun _ => Ret tt) in Ret tt.

Definition runCleanupWithLock (days : Z) : prog unit :=
  let? acquired := tryAcquireAdvisoryLock cleanupLockID catch (fun _ => Ret tt) in
  if negb acquired then Ret tt
  else
    (let? _ := db Pool (QDeleteOldSatelliteStatus days) catch (fun _ => Ret tt) in
     let? _ := db Pool (QDeleteOrphanedArtifacts days) catch (fun _ => Ret tt) in
     Ret tt) ;;;
    releaseAdvisoryLock cleanupLockID.

Section Cleanup.
Context `{Services, PgTypes}.

(** What the cleanup may remove from [d] to get [d']: with [young] deciding
    what is inside the retention period. *)
Definition cleaned (young : Z -> Prop) (d d' : Db) : Prop :=
  (forall s, s ∈ rows (satellite_status d') -> s ∈ rows (satellite_status d)) /\
  (forall s, s ∈ rows (satellite_status d) -> young (st_created_at s) -> s ∈ rows (satellite_status d')) /\
  (forall a, a ∈ rows (artifacts d) ->
     young (art_created_at a) \/
     (exists s, s ∈ rows (satellite_status d') /\ art_id a ∈ st_artifact_ids s) ->
     a ∈ rows (artifacts d')) /\
  satellites d' = satellites d /\ groups d' = groups d /\ satellite_groups d' = satellite_groups d /\
  robot_accounts d' = robot_accounts d /\ satellite_token d' = satellite_token d /\
  configs d' = configs d /\ satellite_configs d' = satellite_configs d /\
  users d' = users d /\ sessions d' = sessions d /\ login_attempts d' = login_attempts d.

Lemma cleaned_refl young d : cleaned young d d.
Proof. unfold cleaned. split_and!; auto. Qed.

Lemma cleaned_status now days young d :
  (forall t, young t -> (now - day * days <= t)%Z) ->
  cleaned young d (Sql.DeleteOldSatelliteStatus now days d).1.
Proof.
  intros Hy. unfold cleaned. simpl. split_and!; try done.
  - intros s [Hs _]%elem_of_List_filter. done.
  - intros s Hs Hsy. apply elem_of_List_filter. split; [done|]. apply Hy in Hsy.
    apply negb_true_iff, Z.ltb_ge. exact Hsy.
Qed.

Lemma cleaned_orphans now days young d d' :
  (forall t, young t -> (now - day * days <= t)%Z) -> cleaned young d d' ->
  cleaned young d (Sql.DeleteOrphanedArtifacts now days d').1.
Proof.
  intros Hy (A1 & A2 & A3 & B). unfold cleaned. simpl. split_and!; try apply B; auto.
  intros a Ha Hkeep. apply elem_of_List_filter. split; [by apply A3|].
  apply negb_true_iff, andb_false_iff. destruct Hkeep as [Hya|(s & Hs & Hid)].
  - right. apply Hy in Hya. apply Z.ltb_ge. exact Hya.
  - left. apply negb_false_iff, List.existsb_exists. exists s. split; [by apply list_elem_of_In|].
    apply List.existsb_exists. exists (art_id a). split; [by apply list_elem_of_In|apply Z.eqb_refl].
Qed.

(** A cleanup run, whatever fails in it, removes nothing it should keep:
    every status report inside the retention period stays, every artifact that
    is inside it or is listed by a remaining report stays, and no other table
    changes; without the advisory lock nothing changes at all. *)
Theorem cleanup_keeps days w :
  let young t := forall n, (w_clock w n - day * days <= t)%Z in
  cleaned young (w_db w) (w_db (run (runCleanupWithLock days) w).1) /\
  (w_lock w = true -> w_db (run (runCleanupWithLock days) w).1 = w_db w).
Proof.
  intros young. destruct (run (runCleanupWithLock days) w) as [v []] eqn:E. simpl.
  unfold runCleanupWithLock, tryAcquireAdvisoryLock in E.
  apply run_try_inv in E as [(w1 & acq & E1 & E)|(w1 & e & E1 & E)].
  2: { apply run_ret_inv in E as [<- _].
       apply run_try_inv in E1 as [(w2 & b & E2 & E1)|(w2 & b & E2 & E1)]; apply run_ret_inv in E1 as [<- _];
         unfold perform in E2; cbn [run exec_op] in E2; simplify_eq; (split; [apply cleaned_refl|done]). }
  apply run_try_inv in E1 as [(w2 & b & E2 & E1)|(w2 & b & E2 & E1)]; apply run_ret_inv in E1 as [<- E1];
    [|done]. injection E1 as ->.
  unfold perform in E2. cbn [run exec_op] in E2. destruct (faulty w); [done|]. simplify_eq.
  destruct (w_lock w); cbn [negb] in E.
  { apply run_ret_inv in E as [<- _]. split; [apply cleaned_refl|done]. }
  split; [|done]. apply run_bind_inv in E as (w3 & u3 & E3 & E).
  assert (w_db v = w_db w3) as ->.
  { unfold releaseAdvisoryLock in E.
    apply run_try_inv in E as [(w4 & u4 & E4 & E)|(w4 & u4 & E4 & E)]; apply run_ret_inv in E as [<- _];
      unfold perform in E4; cbn [run exec_op] in E4; by simplify_eq. }
  apply run_try_inv in E3 as [(w4 & u4 & E4 & E3)|(w4 & e4 & E4 & E3)];
    apply step_pool in E4 as [(_ & _ & _ & Hc4 & _) Q4].
  2: { apply run_ret_inv in E3 as [<- _]. destruct Q4 as [(_ & _ & ->)|[_ Q4]]; [apply cleaned_refl|done]. }
  destruct Q4 as [(_ & Q4 & _)|[_ Q4]]; [done|]. cbn [exec_query] in Q4. injection Q4 as Hd4 _.
  assert (cleaned young (w_db w) (w_db w4)) as Hcl.
  { rewrite <- Hd4. apply (cleaned_status (now_of (tick w)) days). intros t Ht. apply Ht. }
  apply run_try_inv in E3 as [(w5 & u5 & E5 & E3)|(w5 & e5 & E5 & E3)];
    apply step_pool in E5 as [_ Q5]; apply run_ret_inv in E3 as [<- _].
  - destruct Q5 as [(_ & Q5 & _)|[_ Q5]]; [done|]. cbn [exec_query] in Q5. injection Q5 as <- _.
    apply cleaned_orphans; [|done]. intros t Ht. unfold now_of. rewrite Hc4. apply Ht.
  - by destruct Q5 as [(_ & _ & ->)|[_ Q5]].
Qed.

(* ------------------------------------------------------------------ *)
(** ** Active and stale *)

(** No satellite is listed as active and as stale at the same moment; a
    satellite that reported with an interval the server understands is active
    for exactly three intervals after its report, and stale from the moment
    they have passed. *)
Theorem liveness_windows now s seen hb period :
  sat_last_seen s = Some seen -> sat_heartbeat_interval s = Some ("@every " +:+ hb) ->
  pg_interval hb = Some period ->
  (Sql.is_active now s = Some true <-> (now < seen + 3 * period)%Z) /\
  (Sql.is_stale now s = Some true <-> (seen + 3 * period < now)%Z).
Proof.
  intros Hs Hh Hp. unfold Sql.is_active, Sql.is_stale, Sql.liveness_window. rewrite Hs, Hh.
  rewrite has_prefix_app.
  change (Go.drop_bytes 7 ("@every " +:+ hb)) with (Go.drop_bytes (String.length "@every ") ("@every " +:+ hb)).
  rewrite drop_bytes_app, Hp. cbn [fmap option_fmap option_map].
  split; (split; [intros [= E]; lia|intros; f_equal; lia]).
Qed.

(** A satellite that was seen but sent no interval is never listed as
    stale, however long it stays silent, although the list of active
    satellites drops it after a quarter of an hour. *)
Theorem silent_without_interval_in_no_list now s seen :
  sat_last_seen s = Some seen -> sat_heartbeat_interval s = None -> (seen + 15 * minute <= now)%Z ->
  Sql.is_active now s = Some false /\ Sql.is_stale now s = Some false.
Proof.
  intros Hs Hh Hn. unfold Sql.is_active, Sql.is_stale, Sql.liveness_window. rewrite Hs, Hh. simpl.
  split; [|done]. f_equal. apply Z.ltb_ge. lia.
Qed.

End Cleanup.

(* ------------------------------------------------------------------ *)
(** ** Status reports *)

Section Sync.
Context `{Server, GroundControl, PqText, Services, PgTypes}.

Lemma insert_artifacts_spec now l t :
  (forall a, a ∈ rows t -> a ∈ rows (foldl (Sql.insert_artifact now) t l)) /\
  (forall r z, (r, z) ∈ l -> exists a, a ∈ rows (foldl (Sql.insert_artifact now) t l) /\ art_reference a = r).
Proof.
  revert t. induction l as [|[r0 z0] l IH]; intros t; simpl.
  { split; [done|]. by intros r z ?%not_elem_of_nil. }
  destruct (IH (Sql.insert_artifact now t (r0, z0))) as [I1 I2].
  assert ((forall a, a ∈ rows t -> a ∈ rows (Sql.insert_artifact now t (r0, z0))) /\
          exists a, a ∈ rows (Sql.insert_artifact now t (r0, z0)) /\ art_reference a = r0) as [J1 (a0 & Ha0 & Hr0)].
  { unfold Sql.insert_artifact. simpl.
    destruct (t_exists (fun a => String.eqb (art_reference a) r0) t) eqn:Ex.
    - split; [done|]. apply t_exists_spec in Ex as (a & Ha & Hr). exists a. by apply String.eqb_eq in Hr.
    - simpl. split; [intros a Ha; apply elem_of_app; by left|].
      eexists. split; [apply elem_of_app; right; by apply list_elem_of_singleton|done]. }
  split; [auto|]. intros r z [[= -> ->]|Hin]%elem_of_cons; [by exists a0; auto|by apply (I2 r z)].
Qed.

(** The artifacts resolved: every reported image has one of the ids. *)
Lemma sync_artifacts_inv images v v1 r :
  run (sync_artifacts images) v = (v1, r) ->
  satellites (w_db v1) = satellites (w_db v) /\ satellite_status (w_db v1) = satellite_status (w_db v) /\
  w_replies v1 = w_replies v /\ w_clock v1 = w_clock v /\
  match r with
  | inl e => exists m, e = fail m 500
  | inr ids => forall im, im ∈ images -> exists a, a ∈ rows (artifacts (w_db v1)) /\
      art_reference a = ci_Reference im /\ art_id a ∈ ids
  end.
Proof.
  unfold sync_artifacts. destruct images as [|im0 images'].
  { intros E. apply run_ret_inv in E as [<- <-]. split_and!; try done. by intros im ?%not_elem_of_nil. }
  set (images := im0 :: images'). intros E.
  apply run_try_inv in E as [(w1 & u & E1 & E)|(w1 & e & E1 & E)];
    apply step_pool in E1 as [(_ & Hr1 & _ & Hc1 & _) Q1];
    cbn [exec_query] in Q1; unfold Sql.BatchInsertArtifacts in Q1; rewrite !length_fmap, Nat.eqb_refl in Q1;
    cbn [negb] in Q1.
  2: { apply run_ret_inv in E as [<- <-]. destruct Q1 as [(_ & _ & ->)|[_ Q1]]; [|done].
       split_and!; try done. by eexists. }
  destruct Q1 as [(_ & Q1 & _)|[_ Q1]]; [done|]. unfold sql_ok in Q1. injection Q1 as Hd1 _.
  apply run_try_inv in E as [(w2 & arts & E2 & E)|(w2 & e & E2 & E)];
    apply step_pool in E2 as [(_ & Hr2 & _ & Hc2 & _) Q2]; apply run_ret_inv in E as [<- <-];
    cbn [exec_query] in Q2; unfold Sql.GetArtifactIDsByReferences, sql_ok in Q2.
  2: { destruct Q2 as [(_ & _ & ->)|[_ Q2]]; [|done]. rewrite <- Hd1. simpl.
       split_and!; try congruence. by eexists. }
  destruct Q2 as [(_ & Q2 & _)|[_ Q2]]; [done|]. injection Q2 as Hd2 <-.
  rewrite <- Hd2, <- Hd1. simpl satellites. simpl satellite_status. split_and!; try congruence.
  intros im Him. assert ((ci_Reference im, ci_SizeBytes im) ∈
    zip (ci_Reference <$> images) (ci_SizeBytes <$> images)) as Hz.
  { clear -Him. induction images as [|i l IH]; [by apply not_elem_of_nil in Him|].
    simpl. apply elem_of_cons in Him as [->|Him]; [left|right; auto]. }
  destruct (insert_artifacts_spec (now_of v) (zip (ci_Reference <$> images) (ci_SizeBytes <$> images))
    (artifacts (w_db v))) as [_ Hall].
  destruct (Hall _ _ Hz) as (a & Ha & Href). exists a. split_and!; [exact Ha|done|].
  apply list_elem_of_fmap. exists a. split; [done|]. unfold t_select. apply elem_of_List_filter.
  split; [exact Ha|].
  assert (existsb (String.eqb (art_reference a)) (ci_Reference <$> images) = true) as Hex; [|exact Hex].
  apply List.existsb_exists. exists (ci_Reference im).
  rewrite Href, String.eqb_refl. split; [|done]. apply list_elem_of_In, list_elem_of_fmap. by exists im.
Qed.

Definition reporter (r : Request) (req : SatelliteStatusParams) : string :=
  match GetSatelliteName r with Some name => name | None => ssp_Name req end.

(** The report is stored, the satellite seen, and every reported image is an
    artifact the report lists. *)
Definition reported (w : World) (r : Request) (req : SatelliteStatusParams) (w' : World) : Prop :=
  exists sat interval st n,
    t_find (fun s => String.eqb (sat_name s) (reporter r req)) (satellites (w_db w)) = Some sat /\
    normalizeHeartbeatInterval (ssp_StateReportInterval req) = inr interval /\
    rows (satellite_status (w_db w')) = (rows (satellite_status (w_db w)) ++ [st])%list /\
    st_satellite_id st = sat_id sat /\ st_activity st = ssp_Activity req /\
    st_latest_state_digest st = toNullString (ssp_LatestStateDigest req) /\
    (forall im, im ∈ ssp_CachedImages req -> exists a, a ∈ rows (artifacts (w_db w')) /\
       art_reference a = ci_Reference im /\ art_id a ∈ st_artifact_ids st) /\
    mkSatellite (sat_id sat) (sat_name sat) (sat_created_at sat) (sat_updated_at sat)
      (Some (w_clock w n)) (toNullString interval) ∈ rows (satellites (w_db w')) /\
    w_replies w' = [mkReply 200 PNone].

Definition report_refused (w w' : World) : Prop :=
  satellites (w_db w') = satellites (w_db w) /\
  exists m st, w_replies w' = [mkReply st (PAppError m st)] /\ st ∈ [400; 403; 500]%Z.

Lemma refuse_report w v v' m st :
  satellites (w_db v) = satellites (w_db w) -> w_replies v = [] -> st ∈ [400; 403; 500]%Z ->
  run (HandleAppError (fail m st)) v = (v', tt) -> report_refused w v'.
Proof.
  intros Hs Hr Hst E. unfold HandleAppError, fail in E. simpl Err.as_app in E. cbv iota in E.
  apply step_write in E as (Hd & Hr' & _). split; [by rewrite Hd|]. exists m, st. by rewrite Hr', Hr.
Qed.

(** A status report, under every pattern of failures: refused with 400,
    403 or 500, no satellite changed; or answered 200, and then it comes from
    a known satellite (the one of the certificate, when there is one), is
    stored once as the newest report with all its images resolved to
    artifacts, and the satellite's last-seen time and normalised interval are
    those of this request. *)
Theorem sync_outcome r body w :
  fresh w ->
  let w' := (run (syncHandler r body) w).1 in
  report_refused w w' \/ exists req, body = Some req /\ reported w r req w'.
Proof.
  intros Hf w'. destruct (run (syncHandler r body) w) as [x []] eqn:E. simpl in w'. subst w'.
  pose proof Hf as (Hr & _). unfold syncHandler in E.
  destruct body as [req|]; cbn [DecodeRequestBody lift try bind] in E.
  2: { left. eapply refuse_report; [done|exact Hr| |exact E]. by repeat constructor. }
  apply run_try_inv in E as [(w1 & sat & E1 & E)|(w1 & e & E1 & E)];
    apply (untouched_read _ w) in E1 as [(Hf1 & Hd1 & Hc1 & _) Q1]; try done; try by apply untouched_refl.
  2: { left. eapply refuse_report; [by rewrite Hd1|apply Hf1| |exact E]. by repeat constructor. }
  destruct Q1 as [[? _]|Q1]; [done|].
  apply sql_one_inv in Q1 as [Q1 _]. destruct Hf1 as (Hr1 & _).
  destruct (normalizeHeartbeatInterval (ssp_StateReportInterval req)) as [e|interval] eqn:Ei.
  { left. eapply refuse_report; [by rewrite Hd1|exact Hr1| |exact E]. by repeat constructor. }
  cbn [lift try bind] in E.
  apply run_try_inv in E as [(w2 & ids & E2 & E)|(w2 & e & E2 & E)];
    apply sync_artifacts_inv in E2 as (Hs2 & Hst2 & Hr2 & Hc2 & Hids); rewrite Hr1 in Hr2; rewrite Hd1 in Hs2, Hst2.
  2: { left. destruct Hids as [m ->]. eapply refuse_report; [exact Hs2|exact Hr2| |exact E]. by repeat constructor. }
  apply run_try_inv in E as [(w3 & st & E3 & E)|(w3 & e & E3 & E)];
    apply step_pool in E3 as [(_ & Hr3 & _ & Hc3 & _) Q3]; rewrite Hr2 in Hr3.
  2: { left. eapply refuse_report; [|exact Hr3| |exact E]; [|by repeat constructor].
       rewrite <- Hs2. destruct Q3 as [(_ & _ & ->)|[_ Q3]]; [done|].
       cbn [exec_query] in Q3. unfold Sql.InsertSatelliteStatus in Q3.
       destruct (negb _); [by injection Q3 as <-|]. unfold sql_last, sql_one in Q3. simpl in Q3.
       rewrite last_snoc in Q3. discriminate Q3. }
  destruct Q3 as [(_ & Q3 & _)|[_ Q3]]; [done|]. cbn [exec_query] in Q3. unfold Sql.InsertSatelliteStatus in Q3.
  destruct (negb _); [done|]. apply sql_one_inv in Q3 as [Q3 Hd3]. simpl in Q3. rewrite last_snoc in Q3.
  apply run_try_inv in E as [(w4 & u & E4 & E)|(w4 & e & E4 & E)];
    apply step_pool in E4 as [(_ & Hr4 & _ & Hc4 & _) Q4]; rewrite Hr3 in Hr4;
    cbn [exec_query] in Q4; unfold Sql.UpdateSatelliteLastSeen, sql_ok in Q4.
  2: { left. eapply refuse_report; [|exact Hr4| |exact E]; [|by repeat constructor].
       destruct Q4 as [(_ & _ & ->)|[_ Q4]]; [|done]. by rewrite Hd3. }
  destruct Q4 as [(_ & Q4 & _)|[_ Q4]]; [done|]. injection Q4 as Hd4 _.
  right. exists req. split; [done|].
  apply step_write in E as (Hdx & Hrx & _). rewrite Hr4 in Hrx. unfold reported. rewrite Hdx, Hrx, <- Hd4, Hd3.
  injection Q3 as Q3. simpl. rewrite <- Hst2.
  exists sat, interval, st, (w_tick w3). rewrite <- Q3. simpl. split_and!; try done.
  rewrite Hs2. apply list_elem_of_fmap. exists sat. rewrite Z.eqb_refl. split.
  - unfold now_of. by rewrite Hc3, Hc2, Hc1.
  - by apply find_Some_elem in Q1 as [? _].
Qed.

End Sync.

Section StatusWitnesses.
Import Demo.

Definition half : F64 := mkF64 false 1 (-1).

Definition demo_report (images : list CachedImage) : SatelliteStatusParams :=
  mkSatelliteStatusParams "edge-01" "idle" "@every 30s" "sha256:1" "" 1024 2048 half second 5
    (Z.of_nat (length images)) images.

Lemma sync_outcome_witness :
  reported (demo_world demo_db) demo_request (demo_report [mkCachedImage "library/alpine:3" 10])
    (run (syncHandler demo_request (Some (demo_report [mkCachedImage "library/alpine:3" 10])))
       (demo_world demo_db)).1.
Proof.
  destruct (sync_outcome demo_request (Some (demo_report [mkCachedImage "library/alpine:3" 10]))
    (demo_world demo_db) (demo_fresh _)) as [(_ & m & st & Hr & _)|(req & [= <-] & Hrep)].
  - exfalso. vm_compute in Hr. discriminate Hr.
  - exact Hrep.
Defined.

(** Another instance holds the advisory lock. *)
Definition busy_world : World :=
  mkWorld demo_db None true (NewRateLimiter 10 minute) (42%Z : svc_state) [] [] [] 0 (fun _ => second) (fun _ => false)
    (fun _ => inl "").

Lemma cleanup_keeps_witness : w_db (run (runCleanupWithLock 7) busy_world).1 = demo_db.
Proof. apply (cleanup_keeps 7 busy_world). reflexivity. Defined.

#[local] Instance thirty : PgTypes :=
  {| pg_interval s := if String.eqb s "30s" then Some (30 * second)%Z else None; pg_jsonb := Some |}.

Lemma liveness_windows_witness :
  Sql.is_active (100 * second) (mkSatellite 1 "edge" 0 0 (Some (20 * second)%Z) (Some "@every 30s")) = Some true.
Proof.
  apply (liveness_windows (100 * second) (mkSatellite 1 "edge" 0 0 (Some (20 * second)%Z) (Some "@every 30s"))
    (20 * second) "30s" (30 * second)); reflexivity.
Defined.

Lemma silent_without_interval_in_no_list_witness :
  Sql.is_active (day) (mkSatellite 1 "edge" 0 0 (Some 0%Z) None) = Some false /\
  Sql.is_stale (day) (mkSatellite 1 "edge" 0 0 (Some 0%Z) None) = Some false.
Proof. apply (silent_without_interval_in_no_list _ _ 0%Z); [reflexivity|reflexivity|by vm_compute]. Defined.

(* ------------------------------------------------------------------ *)
(** ** A report and a cleanup at the same time *)

(** An artifact from an earlier week, listed by no report any more *)
Definition old_artifact_db : Db :=
  on_artifacts (fun _ => mkTable [mkArtifact 1 "library/alpine:3" 10 0] 2) demo_db.

Definition next_month : World :=
  init_world old_artifact_db (42%Z : svc_state) (30 * day)%Z (fun _ => false) (fun _ => inr (fun i => ascii_of_nat i)).

Definition report_and_cleanup : list (prog unit) :=
  [syncHandler demo_request (Some (demo_report [mkCachedImage "library/alpine:3" 10]));
   runCleanupWithLock defaultRetentionDays].

(** The report has resolved its artifacts (3 operations), then the cleanup
    runs (5 operations), then the report is stored. *)
Definition sync_cleanup : list Client * World :=
  schedule ([0; 0; 0; 1; 1; 1; 1; 1; 0; 0; 0]%nat) (client <$> report_and_cleanup, next_month).

(** A report and a cleanup that interleave can leave a report that lists
    artifacts that are gone: the report finds an old artifact no other report
    lists, the cleanup deletes it as an orphan, and the report is stored with
    its id and answered with success. *)
Theorem report_lists_deleted_artifact :
  exists st c, rtc istep (client <$> report_and_cleanup, next_month) st /\
    st.1 !! 0%nat = Some c /\ cl_replies c = [mkReply 200 PNone] /\
    exists report id, report ∈ rows (satellite_status (w_db st.2)) /\ id ∈ st_artifact_ids report /\
      t_exists (fun a => (art_id a =? id)%Z) (artifacts (w_db st.2)) = false.
Proof.
  exists sync_cleanup.
  assert (cl_replies <$> (sync_cleanup.1 !! 0%nat) = Some [mkReply 200 PNone]) as Hc by (vm_compute; reflexivity).
  destruct (sync_cleanup.1 !! 0%nat) as [c|] eqn:Ec; [|discriminate Hc]. injection Hc as Hc.
  exists c. split_and!; [apply schedule_reachable|done|exact Hc|].
  assert (st_artifact_ids <$> rows (satellite_status (w_db sync_cleanup.2)) = [[1%Z]]) as Hids
    by (vm_compute; reflexivity).
  assert (t_exists (fun a => (art_id a =? 1)%Z) (artifacts (w_db sync_cleanup.2)) = false) as Hgone
    by (vm_compute; reflexivity).
  destruct (rows (satellite_status (w_db sync_cleanup.2))) as [|report l]; [discriminate Hids|].
  injection Hids as Hids _. exists report, 1%Z. rewrite Hids. split_and!; [constructor|constructor|exact Hgone].
Qed.

End StatusWitnesses.
