(* ===== verification/Configs.v ===== *)
(** * Configuration handlers

    internal/groundcontrol/server/config_handlers.go: creating, patching,
    reading and deleting the named configurations, and linking a satellite to
    one.  A configuration is stored as JSONB, pushed to the registry as a state
    artifact, and recorded in the audit log with its secrets redacted. *)

From stdpp Require Import relations gmap.
From S2P Require Import Utf8 GoLib Json SatConfig Redact.
From S2P Require Import Free Prelude Db DbFacts Prog Logic Runs Env Harbor CryptoLib Crypto Duration Spiffe.
From S2P Require Import Server Demo Satellites SatelliteFacts Registration Ztr.
From Stdlib Require Import Ascii.

#[local] Open Scope string_scope.

(** models.ConfigObject *)
Record ConfigObject := mkConfigObject {
  cob_ConfigName : string; cob_Registry : string; cob_Config : SatConfig.Config }.

Record SatelliteConfigParams := mkSatelliteConfigParams {
  scp_Satellite : string; scp_ConfigName : string }.

(** github.com/evanphx/json-patch: [None] for an error, which only says why *)
Class JsonPatch := MergePatch : string -> string -> option string.

Definition patched `{JsonPatch} (doc patch : string) : result string :=
  match MergePatch doc patch with Some text => inr text | None => inl (PlainErr "bad patch") end.

Section Handlers.
Context `{Server, GroundControl, PqText, RangeOrder, JsonPatch}.

Definition config_event (r : Request) (operation name : string) (details : list (string * detail))
    : AuditEvent :=
  audit_event operation "config" "success" (actorFromContext r) "user" "" name "" details.

Definition invalid_config_name : goerr := fail "invalid or empty config_name" 400.

Definition create_config_body (r : Request) (req : ConfigObject) : prog (bool * Z) :=
  let? configJson := lift (MarshalConfig (cob_Config req)) catch refuse in
  let? _ := ensureSatelliteProjectExists catch refuse in
  let? _ := db InTx (QCreateConfig (cob_ConfigName req) (URL GC_Harbor) configJson)
    catch (fun e =>
      refuse (if bool_decide (Err.as_pq e = Some Err.unique_violation)
              then fail "error: config already exists" 409 else e)) in
  let? _ := utils.CreateAndPushConfigStateArtifact configJson (cob_ConfigName req) catch refuse in
  let? _ := perform OCommit
    catch (fun _ => refuse (fail "Error: Failed to commit transaction" 500)) in
  auditEvent r (config_event r "create" (cob_ConfigName req)
    [("to", DAny (redactConfigForAudit configJson))]) ;;;
  write 201 PNone ;;;
  Ret (true, 0%Z).

Definition config_begin_failed (_ : goerr) : prog unit :=
  HandleAppError (fail "error: failed to start database transaction" 500).

Definition createConfigHandler (r : Request) (body : option ConfigObject) : prog unit :=
  let? req := lift (DecodeRequestBody body) catch HandleAppError in
  if negb (utils.IsValidName (cob_ConfigName req)) then HandleAppError invalid_config_name
  else transactional config_begin_failed no_cleanup rollback_failed (create_config_body r req).

Definition update_config_body (r : Request) (configName : string) (req : SatConfig.Config)
    : prog (bool * Z) :=
  let? existing := db InTx (QGetConfigByName configName)
    catch (fun e =>
      refuse (if Err.is_no_rows e then fail "error: config not found" 404
              else fail "error: failed to get config" 500)) in
  let? configJson := lift (MarshalConfig req) catch refuse in
  let? patchedJson := lift (patched (cfg_config existing) configJson)
    catch (fun _ => refuse (fail "error: unable to apply patch" 400)) in
  let? _ := ensureSatelliteProjectExists catch refuse in
  let? result := db InTx (QUpdateConfig configName (URL GC_Harbor) patchedJson) catch refuse in
  let? _ := utils.CreateAndPushConfigStateArtifact patchedJson configName catch refuse in
  let? _ := perform OCommit
    catch (fun _ => refuse (fail "Error: Failed to commit transaction" 500)) in
  auditEvent r (config_event r "update" configName
    (match diffConfigForAudit (cfg_config existing) patchedJson with
     | Some changed => [("changed", DChanged changed)]
     | None => []
     end)) ;;;
  WriteJSONResponse 200 (PConfig result) ;;;
  Ret (true, 0%Z).

Definition updateConfigHandler (r : Request) (configName : string) (body : option SatConfig.Config)
    : prog unit :=
  let? req := lift (DecodeRequestBody body) catch HandleAppError in
  if negb (utils.IsValidName configName) then HandleAppError invalid_config_name
  else transactional config_begin_failed no_cleanup rollback_failed (update_config_body r configName req).

Definition listConfigsHandler : prog unit :=
  let? result := db Pool QListConfigs catch HandleAppError in
  WriteJSONResponse 200 (PConfigs result).

Definition getConfigHandler (configName : string) : prog unit :=
  let? result := db Pool (QGetConfigByName configName)
    catch (fun e => HandleAppError (fail ("Config not found: " +:+ error_text e) 404)) in
  WriteJSONResponse 200 (PConfig result).

Definition set_config_body (req : SatelliteConfigParams) : prog (bool * Z) :=
  let failed := fail "Error: Failed to Add satellite to config" 500 in
  let? sat := setSatelliteConfig InTx (scp_Satellite req) (scp_ConfigName req) catch refuse in
  let? groupList := db InTx (QSatelliteGroupList (sat_id sat)) catch (fun _ => refuse failed) in
  let? groupStates := for_each (fun group states =>
      let? grp := db InTx (QGetGroupByID (sg_group_id group)) catch (fun _ => throw failed) in
      ok (states ++ [utils.AssembleGroupState (grp_name grp)])%list) groupList []
    catch refuse in
  let? _ := utils.CreateOrUpdateSatStateArtifact (sat_name sat) groupStates (scp_ConfigName req)
    catch refuse in
  let? _ := perform OCommit
    catch (fun _ => refuse (fail "Error: Failed to commit transaction" 500)) in
  WriteJSONResponse 200 (PMap []) ;;;
  Ret (true, 0%Z).

Definition setSatelliteConfigHandler (body : option SatelliteConfigParams) : prog unit :=
  let? req := lift (DecodeRequestBody body) catch HandleAppError in
  transactional HandleAppError no_cleanup rollback_failed (set_config_body req).

(** Not a transaction: the check, the registry and the row one after the other *)
Definition deleteConfigHandler (r : Request) (configName : string) : prog unit :=
  let? configObject := db Pool (QGetConfigByName configName)
    catch (fun _ => HandleAppError (fail "Error: Failed to get Config" 500)) in
  let? in_use := isConfigInUse Pool configObject catch HandleAppError in
  if in_use : bool then HandleAppError (fail "Cannot delete config that is in use" 400)
  else
    let? _ := utils.DeleteArtifact (utils.ConstructHarborDeleteURL configName "config")
      catch (fun _ => HandleAppError (fail "Error: Could not delete config state artifact" 500)) in
    let? _ := db Pool (QDeleteConfig (cfg_id configObject)) catch HandleAppError in
    auditEvent r (config_event r "delete" configName
      [("from", DAny (redactConfigForAudit (cfg_config configObject)))]) ;;;
    WriteJSONResponse 200 (PMap []).

End Handlers.

(* ------------------------------------------------------------------ *)
(** ** Effects *)

Section Facts.
Context `{Server, GroundControl, PqText, RangeOrder, JsonPatch, Services, PgTypes}.

Lemma settle_config_begin_failed F e :
  success (err_status e) = false -> settles_as F either (config_begin_failed e).
Proof. intros _. by apply settle_HandleAppError. Qed.
Lemma harmless_config_begin_failed e : harmless (config_begin_failed e).
Proof. apply harmless_HandleAppError. Qed.
#[local] Hint Resolve settle_config_begin_failed harmless_config_begin_failed : handlers.

(** An error chosen between two *)
Lemma settle_refuse_if F (b : bool) e1 e2 :
  success (err_status e1) = false -> success (err_status e2) = false ->
  settles_as F flag (refuse (if b then e1 else e2)).
Proof. intros. destruct b; by apply settle_refuse. Qed.
#[local] Hint Resolve settle_refuse_if : handlers.

Lemma helper_MarshalConfig c : helper (lift (MarshalConfig c)).
Proof. unfold MarshalConfig. by destruct (config_tokens c). Qed.
#[local] Hint Resolve helper_MarshalConfig : helpers.

Lemma settles_create_config_body r req : settles flag (create_config_body r req).
Proof. unfold create_config_body. handler_tac. Qed.
Lemma helper_patched doc patch : helper (lift (patched doc patch)).
Proof. unfold patched. by destruct (MergePatch doc patch). Qed.
#[local] Hint Resolve helper_patched : helpers.

Lemma settles_update_config_body r n req : settles flag (update_config_body r n req).
Proof. unfold update_config_body. handler_tac. Qed.
Lemma settles_set_config_body req : settles flag (set_config_body req).
Proof. unfold set_config_body. handler_tac. Qed.

(** The artifact a configuration is published as *)
Definition published (configJson configName : string) (es : list event) : Prop :=
  exists img,
    EvSvc (CraneImage "artifacts.json" (DocConfig configJson)) (inr img) ∈ es /\
    EvSvc (CranePush img (utils.stripProtocol (utils.AssembleConfigState configName))
      (utils.crane_options GC_Harbor (URL GC_Harbor))) (inr tt) ∈ es.

Lemma publish_inv c n w w' u :
  run (utils.CreateAndPushConfigStateArtifact c n) w = (w', inr u) -> published c n (w_events w').
Proof.
  unfold utils.CreateAndPushConfigStateArtifact. intros E.
  inv_step E w1 img E1. apply step_call in E1.
  apply (run_events_mono _ _ _ _ _ E) in E1. exists img. split; [exact E1|].
  inv_step E w2 u2 E2. inv_step E w3 u3 E3. destruct u3. apply step_call in E3.
  by apply (run_events_mono _ _ _ _ _ E) in E3.
Qed.

Lemma published_mono c n {A} (m : prog A) w w' a :
  run m w = (w', a) -> published c n (w_events w) -> published c n (w_events w').
Proof.
  intros E (img & Hi & Hp). exists img.
  split; [exact (run_events_mono _ _ _ _ _ E Hi)|exact (run_events_mono _ _ _ _ _ E Hp)].
Qed.

Lemma lift_inv {A} (r : result A) w w' a : run (lift r) w = (w', inr a) -> w' = w /\ r = inr a.
Proof. intros E. by apply run_ret_inv in E as [<- ->]. Qed.

(** The end of a successful write: commit, audit event, reply *)
Lemma commit_tail_inv d0 t d r e st b w w1 w2 u out :
  at_tx d0 t d w -> run (perform OCommit) w = (w1, inr u) ->
  run (auditEvent r e ;;; write st b ;;; Ret (true, 0%Z)) w1 = (w2, out) ->
  w_db w2 = d /\ w_events w2 = (w_events w1) /\
  exists e', last (w_audit w2) = Some e' /\ ae_details e' = ae_details e /\
    ae_resource e' = ae_resource e /\ ae_operation e' = ae_operation e /\ ae_actor e' = ae_actor e.
Proof.
  intros Hat Ec E. destruct u. destruct (step_commit _ _ _ _ _ Hat Ec) as (Hd & _).
  simpl in E. simplify_eq/=. split_and!; [done..|]. eexists. by rewrite last_snoc.
Qed.

Lemma create_config_body_inv r req d t w w' id :
  at_tx d t d w -> run (create_config_body r req) w = (w', (true, id)) ->
  exists configJson c,
    MarshalConfig (cob_Config req) = inr configJson /\
    Sql.CreateConfig t (cob_ConfigName req) (URL GC_Harbor) configJson d = (w_db w', inr c) /\
    published configJson (cob_ConfigName req) (w_events w') /\
    exists e, last (w_audit w') = Some e /\
      ae_details e = [("to", DAny (redactConfigForAudit configJson))].
Proof.
  intros Hat E. unfold create_config_body in E.
  inv_step E w1 configJson E1. apply lift_inv in E1 as [-> Hj].
  inv_step E w2 u2 E2. keep_tx Hat E2.
  inv_step E w3 c E3. apply (step_tx _ d t d) in E3 as (d' & Q & Hat3 & _); [|done].
  inv_step E w4 u4 E4. pose proof (publish_inv _ _ _ _ _ E4) as Hp. keep_tx Hat3 E4.
  inv_step E w5 u5 E5. apply (published_mono _ _ _ _ _ _ E5) in Hp.
  eapply commit_tail_inv in E as (Hd & He & e & Hl & Hdet & _); [|exact Hat3|exact E5].
  exists configJson, c. rewrite Hd, He. split_and!; try done. by exists e.
Qed.

Lemma update_config_body_inv r n req d t w w' id :
  at_tx d t d w -> run (update_config_body r n req) w = (w', (true, id)) ->
  exists existing configJson patchedJson c,
    t_find (fun c => String.eqb (cfg_name c) n) (configs d) = Some existing /\
    MarshalConfig req = inr configJson /\
    MergePatch (cfg_config existing) configJson = Some patchedJson /\
    Sql.UpdateConfig t n (URL GC_Harbor) patchedJson d = (w_db w', inr c) /\
    published patchedJson n (w_events w') /\
    exists e, last (w_audit w') = Some e /\
      ae_details e = match diffConfigForAudit (cfg_config existing) patchedJson with
                     | Some changed => [("changed", DChanged changed)]
                     | None => []
                     end.
Proof.
  intros Hat E. unfold update_config_body in E.
  inv_step E w1 existing E1. apply (step_tx_read _ d t d) in E1 as (Q1 & Hat1 & _); [|done..].
  apply sql_one_inv in Q1 as [Q1 _].
  inv_step E w2 configJson E2. apply lift_inv in E2 as [-> Hj].
  inv_step E w3 patchedJson E3. apply lift_inv in E3 as [-> Hp3].
  inv_step E w4 u4 E4. keep_tx Hat1 E4.
  inv_step E w5 c E5. apply (step_tx _ d t d) in E5 as (d' & Q & Hat5 & _); [|done].
  inv_step E w6 u6 E6. pose proof (publish_inv _ _ _ _ _ E6) as Hp. keep_tx Hat5 E6.
  inv_step E w7 u7 E7. apply (published_mono _ _ _ _ _ _ E7) in Hp.
  eapply commit_tail_inv in E as (Hd & He & e & Hl & Hdet & _); [|exact Hat5|exact E7].
  exists existing, configJson, patchedJson, c. rewrite Hd, He. split_and!; try done.
  - unfold patched in Hp3. by destruct (MergePatch _ _); simplify_eq.
  - by exists e.
Qed.

Lemma states_tx_inv msg links d0 t d w w' sts acc :
  at_tx d0 t d w ->
  run (for_each (fun group states =>
    let? grp := db InTx (QGetGroupByID (sg_group_id group)) catch (fun _ => throw msg) in
    ok (states ++ [utils.AssembleGroupState (grp_name grp)])%list) links acc) w = (w', inr sts) ->
  at_tx d0 t d w' /\
  sts = (acc ++ ((fun g => utils.AssembleGroupState (grp_name g)) <$> member_groups d links))%list.
Proof.
  revert w acc. induction links as [|l links IH]; intros w acc Hat E.
  { apply run_ret_inv in E as [<- E]. simplify_eq/=. by rewrite app_nil_r. }
  cbn [for_each] in E. inv_step E w1 acc1 E1.
  inv_step E1 w2 grp E2. apply (step_tx_read _ d0 t d) in E2 as (Q & Hat2 & _); [|done..].
  apply run_ret_inv in E1 as [<- E1]. simplify_eq. apply sql_one_inv in Q as [Q _].
  destruct (IH _ _ Hat2 E) as (Hat' & ->).
  unfold member_groups. simpl. rewrite Q. simpl. by rewrite <- app_assoc.
Qed.

Lemma set_config_body_inv req d t w w' id :
  at_tx d t d w -> run (set_config_body req) w = (w', (true, id)) ->
  exists sat c,
    t_find (fun s => String.eqb (sat_name s) (scp_Satellite req)) (satellites d) = Some sat /\
    t_find (fun c => String.eqb (cfg_name c) (scp_ConfigName req)) (configs d) = Some c /\
    exec_query t (QSetSatelliteConfig (sat_id sat) (cfg_id c)) d = (w_db w', inr tt) /\
    (expected_states d (sat_id sat) <> [] -> exists img,
       EvSvc (CraneImage "artifacts.json" (DocSatelliteState (expected_states d (sat_id sat))
         (utils.AssembleConfigState (scp_ConfigName req)))) (inr img) ∈ w_events w' /\
       EvSvc (CranePush img (utils.stripProtocol (utils.AssembleSatelliteState (sat_name sat)))
         (utils.crane_options GC_Harbor (URL GC_Harbor))) (inr tt) ∈ w_events w').
Proof.
  intros Hat E. unfold set_config_body in E.
  inv_step E w1 sat E1. unfold setSatelliteConfig in E1.
  inv_step E1 w2 sat2 E2. apply (step_tx_read _ d t d) in E2 as (Q2 & Hat2 & _); [|done..].
  inv_step E1 w3 c E3. apply (step_tx_read _ d t d) in E3 as (Q3 & Hat3 & _); [|done..].
  inv_step E1 w4 u4 E4. destruct u4. apply (step_tx _ d t d) in E4 as (d' & Q4 & Hat4 & _); [|done].
  apply run_ret_inv in E1 as [<- E1]. simplify_eq.
  apply sql_one_inv in Q2 as [Q2 _]. apply sql_one_inv in Q3 as [Q3 _].
  assert (groups d' = groups d /\ satellite_groups d' = satellite_groups d) as [Hg Hl].
  { unfold exec_query, Sql.SetSatelliteConfig, sql_ok, sql_err in Q4.
    repeat case_match; by simplify_eq. }
  inv_step E w5 links E5. apply (step_tx_read _ d t d') in E5 as (Q5 & Hat5 & _); [|done..].
  assert (links = links_of d' (sat_id sat)) as ->
    by (unfold exec_query, Sql.SatelliteGroupList, sql_ok in Q5; by injection Q5 as <-).
  inv_step E w6 sts E6. apply (states_tx_inv _ _ d t d') in E6 as (Hat6 & Hs); [|done]. simpl in Hs.
  inv_step E w7 u7 E7. destruct u7. pose proof E7 as E7'. keep_tx Hat6 E7.
  inv_step E w8 u8 E8. destruct u8. destruct (step_commit _ _ _ _ _ Hat6 E8) as (Hd & _).
  pose proof E as Ew. apply run_harmless_db in E; [|harmless_tac].
  exists sat, c. rewrite E, Hd. split_and!; try done.
  assert (sts = expected_states d (sat_id sat)) as ->.
  { rewrite Hs. unfold expected_states, links_of, member_groups. by rewrite Hg, Hl. }
  intros Hne. apply CreateOrUpdateSatStateArtifact_inv in E7' as (img & Hi & Hp); [|done].
  exists img. split; apply (run_events_mono _ _ _ _ _ Ew), (run_events_mono _ _ _ _ _ E8); done.
Qed.

(* ------------------------------------------------------------------ *)
(** ** Properties *)

(** Creating a configuration: refused, with the database as before; or the
    request carries a valid name that no configuration had, the row with the
    JSONB form of the marshalled configuration is the only change, the very
    text stored was pushed as the configuration's artifact, the answer is one
    201, and the audit log records nothing but the redacted configuration. *)
Theorem create_config_outcome r body w :
  fresh w ->
  let w' := (run (createConfigHandler r body) w).1 in
  refused (w_db w) w' \/
  fulfilled w' /\ exists req configJson stored e, body = Some req /\
    utils.IsValidName (cob_ConfigName req) = true /\
    MarshalConfig (cob_Config req) = inr configJson /\ pg_jsonb configJson = Some stored /\
    t_exists (fun c => String.eqb (cfg_name c) (cob_ConfigName req)) (configs (w_db w)) = false /\
    w_db w' = on_configs (t_insert (fun id => mkConfig id (cob_ConfigName req) (URL GC_Harbor) stored
                (now_of w) (now_of w))) (w_db w) /\
    published configJson (cob_ConfigName req) (w_events w') /\
    last (w_audit w') = Some e /\ ae_details e = [("to", DAny (redactConfigForAudit configJson))].
Proof.
  intros Hf w'. destruct (run (createConfigHandler r body) w) as [v []] eqn:E. simpl in w'. subst w'.
  unfold createConfigHandler in E. destruct body as [req|]; cbn [DecodeRequestBody lift try bind] in E.
  2: { left. refused_by Hf E. }
  destruct (utils.IsValidName (cob_ConfigName req)) eqn:En; cbn [negb] in E.
  2: { left. refused_by Hf E. }
  pose proof (transactional_outcome config_begin_failed no_cleanup rollback_failed
    (create_config_body r req) w) as Ht. rewrite E in Ht.
  destruct Ht as [Hno|(Hok & w1 & id & Hat & _ & Eb)];
    auto using fresh_quiet, settles_create_config_body with handlers.
  right. split; [done|].
  apply (create_config_body_inv _ _ (w_db w) (now_of w)) in Eb as (j & c & Hj & Hc & Hp & e & Hl & He); [|done].
  unfold Sql.CreateConfig in Hc. destruct (pg_jsonb j) as [stored|] eqn:Es; [|done].
  destruct (t_exists _ _) eqn:Ex; [done|]. apply sql_one_inv in Hc as [_ Hd].
  exists req, j, stored, e. by split_and!.
Qed.


(** Giving a satellite a configuration: refused, with the database as
    before; or the satellite and the configuration exist, the satellite's link
    to it is the only change, and when the satellite has groups its state
    artifact, listing exactly their states and this configuration, was pushed. *)
Theorem set_satellite_config_outcome body w :
  fresh w ->
  let w' := (run (setSatelliteConfigHandler body) w).1 in
  refused (w_db w) w' \/
  fulfilled w' /\ exists req sat c, body = Some req /\
    t_find (fun s => String.eqb (sat_name s) (scp_Satellite req)) (satellites (w_db w)) = Some sat /\
    t_find (fun c => String.eqb (cfg_name c) (scp_ConfigName req)) (configs (w_db w)) = Some c /\
    exec_query (now_of w) (QSetSatelliteConfig (sat_id sat) (cfg_id c)) (w_db w) = (w_db w', inr tt) /\
    (expected_states (w_db w) (sat_id sat) <> [] -> exists img,
       EvSvc (CraneImage "artifacts.json" (DocSatelliteState (expected_states (w_db w) (sat_id sat))
         (utils.AssembleConfigState (scp_ConfigName req)))) (inr img) ∈ w_events w' /\
       EvSvc (CranePush img (utils.stripProtocol (utils.AssembleSatelliteState (sat_name sat)))
         (utils.crane_options GC_Harbor (URL GC_Harbor))) (inr tt) ∈ w_events w').
Proof.
  intros Hf w'. destruct (run (setSatelliteConfigHandler body) w) as [v []] eqn:E. simpl in w'. subst w'.
  unfold setSatelliteConfigHandler in E. destruct body as [req|]; cbn [DecodeRequestBody lift try bind] in E.
  2: { left. refused_by Hf E. }
  pose proof (transactional_outcome HandleAppError no_cleanup rollback_failed (set_config_body req) w) as Ht.
  rewrite E in Ht.
  destruct Ht as [Hno|(Hok & w1 & id & Hat & _ & Eb)];
    auto using fresh_quiet, settles_set_config_body, settle_HandleAppError with handlers.
  right. split; [done|].
  apply (set_config_body_inv _ (w_db w) (now_of w)) in Eb as (sat & c & Hs & Hc & Hq & Himg); [|done].
  by exists req, sat, c.
Qed.

(** Deleting a configuration runs on the pool. *)
Lemma helper_quiet {A} (m : prog (result A)) d0 w w1 r :
  helper m -> quiet d0 w -> run m w = (w1, r) -> quiet d0 w1 /\ good_err r.
Proof. intros Hm Hw E. pose proof (helper_run m d0 Hm w Hw) as H'. by rewrite E in H'. Qed.

Lemma quiet_read_inv {R} (q : query R) d0 w w1 a :
  is_read q = true -> quiet d0 w -> run (db Pool q) w = (w1, inr a) ->
  exec_query (now_of w) q d0 = (d0, inr a).
Proof. intros Hq (<- & _) E. by apply step_pool_read in E as (Q & _ & _); [|done]. Qed.

Lemma DeleteArtifact_inv url w w' u :
  run (utils.DeleteArtifact url) w = (w', inr u) ->
  exists code, EvSvc (HttpDelete url (Username GC_Harbor) (Password GC_Harbor)) (inr code) ∈ w_events w' /\
    (code = 200 \/ code = 202 \/ code = 204)%Z.
Proof.
  unfold utils.DeleteArtifact. intros E. inv_step E w1 u1 E1. inv_step E w2 code E2.
  apply step_call in E2. destruct (_ && _)%bool eqn:Ec; [by apply run_ret_inv in E as [_ E]|].
  apply run_ret_inv in E as [<- _]. exists code. split; [done|].
  destruct (Z.eqb_spec code 200), (Z.eqb_spec code 202), (Z.eqb_spec code 204); auto. done.
Qed.

Lemma in_use_inv c w w' b d0 :
  quiet d0 w -> run (isConfigInUse Pool c) w = (w', inr b) ->
  b = negb (bool_decide (List.filter (fun l => (sc_config_id l =? cfg_id c)%Z) (satellite_configs d0) = [])).
Proof.
  intros Hq E. unfold isConfigInUse in E. inv_step E w1 l E1.
  pose proof (quiet_read_inv (QConfigSatelliteList (cfg_id c)) d0 _ _ _ eq_refl Hq E1) as Q.
  unfold exec_query, Sql.ConfigSatelliteList, sql_ok in Q. injection Q as Q.
  apply run_ret_inv in E as [_ E]. injection E as <-. rewrite Q. by destruct l.
Qed.

Lemma filter_none {A} (f : A -> bool) l : List.filter (fun x => negb (f x)) l = l <-> List.filter f l = [].
Proof.
  induction l as [|x l IH]; [done|]. cbn. destruct (f x); cbn; [|].
  - split; [|done]. intros E. exfalso. apply (f_equal length) in E. cbn in E.
    pose proof (List.filter_length_le (fun x => negb (f x)) l). lia.
  - rewrite <- IH. split; [by intros [=]|by intros ->].
Qed.

Lemma on_satellite_configs_id f d :
  f (satellite_configs d) = satellite_configs d -> on_satellite_configs f d = d.
Proof. intros E. unfold on_satellite_configs. rewrite E. by destruct d. Qed.

Lemma delete_row_inv c d0 w w1 r :
  quiet d0 w -> run (db Pool (QDeleteConfig (cfg_id c))) w = (w1, r) ->
  w_replies w1 = [] /\ committed w1 = false /\
  (r = inl bad_conn /\ w_db w1 = d0 \/ r = inr tt /\ w_db w1 = (Sql.DeleteConfig (cfg_id c) d0).1).
Proof.
  intros (<- & Hr & Hc) E. apply step_pool in E as [(_ & Hr1 & He1 & _) Q].
  unfold committed in *. rewrite Hr1, He1. split_and!; [done..|].
  destruct Q as [(_ & -> & ?)|[_ Q]]; [by left|right].
  unfold exec_query, Sql.DeleteConfig, sql_ok in *. injection Q as <- <-. done.
Qed.

(** Deleting a configuration, with no other request in between: either an
    error status and the database as before, or one 200, the configuration
    existed, no satellite uses it, Harbor was asked to delete its artifact, and
    exactly its row is gone. *)
Theorem delete_config_outcome r configName w :
  fresh w ->
  let w' := (run (deleteConfigHandler r configName) w).1 in
  refused (w_db w) w' \/
  w_replies w' = [mkReply 200 (PMap [])] /\ exists c,
    t_find (fun c => String.eqb (cfg_name c) configName) (configs (w_db w)) = Some c /\
    List.filter (fun l => (sc_config_id l =? cfg_id c)%Z) (satellite_configs (w_db w)) = [] /\
    w_db w' = on_configs (t_delete (fun x => (cfg_id x =? cfg_id c)%Z)) (w_db w) /\
    exists code, EvSvc (HttpDelete (utils.ConstructHarborDeleteURL configName "config")
      (Username GC_Harbor) (Password GC_Harbor)) (inr code) ∈ w_events w' /\
      (code = 200 \/ code = 202 \/ code = 204)%Z.
Proof.
  intros Hf w'. destruct (run (deleteConfigHandler r configName) w) as [v []] eqn:E. simpl in w'. subst w'.
  pose proof (fresh_quiet w Hf) as Hq. unfold deleteConfigHandler in E.
  apply run_try_inv in E as [(w1 & c & E1 & E)|(w1 & e & E1 & E)];
    pose proof (helper_quiet _ _ _ _ _ (helper_read (QGetConfigByName configName) eq_refl) Hq E1) as [Hq1 Hg1].
  2: { left. by eapply quiet_HandleAppError; [exact Hq1| |exact E]. }
  apply (quiet_read_inv _ (w_db w)) in E1 as Q1; [|done..]. apply sql_one_inv in Q1 as [Q1 _].
  apply run_try_inv in E as [(w2 & u & E2 & E)|(w2 & e & E2 & E)];
    pose proof (helper_quiet _ _ _ _ _ (helper_isConfigInUse_pool c) Hq1 E2) as [Hq2 Hg2].
  2: { left. by eapply quiet_HandleAppError; [exact Hq2| |exact E]. }
  apply (in_use_inv _ _ _ _ (w_db w)) in E2 as ->; [|done].
  destruct (bool_decide _) eqn:Eu; cbn [negb] in E.
  2: { left. by eapply quiet_HandleAppError; [exact Hq2| |exact E]. }
  apply bool_decide_eq_true in Eu.
  apply run_try_inv in E as [(w3 & u & E3 & E)|(w3 & e & E3 & E)];
    pose proof (helper_quiet _ _ _ _ _ (helper_DeleteArtifact _) Hq2 E3) as [Hq3 Hg3].
  2: { left. by eapply quiet_HandleAppError; [exact Hq3| |exact E]. }
  apply DeleteArtifact_inv in E3 as (code & Hev & Hcode).
  apply run_try_inv in E as [(w4 & u4 & E4 & E)|(w4 & e & E4 & E)];
    pose proof (run_events_mono _ _ _ _ _ E4 Hev) as Hev4;
    apply (delete_row_inv c (w_db w)) in E4 as (Hr4 & Hc4 & [[Er Hd4]|[Er Hd4]]); try done; simplify_eq.
  - right. simpl in E. simplify_eq/=. rewrite Hr4. split; [done|]. exists c. split_and!; try done.
    + rewrite Hd4. unfold Sql.DeleteConfig, sql_ok. simpl. f_equal. by apply on_satellite_configs_id, filter_none.
    + by exists code.
  - left. eapply quiet_HandleAppError; [by split_and!| |exact E]. done.
Qed.

End Facts.

(* ------------------------------------------------------------------ *)
(** ** Concurrent requests, flags, and concrete runs *)

Section Runs.
Import Demo.

(** A patch that replaces the whole document, for evaluation only *)
#[local] Instance demo_patch : JsonPatch := fun doc patch => Some patch.
#[local] Instance demo_order : RangeOrder := key_order.

Definition two_configs : Db :=
  on_configs (t_insert (fun id => mkConfig id "edge" "https://harbor.example" "{}" 0 0)) demo_db.

Definition delete_race : list Client * World :=
  schedule (repeat 0%nat 2 ++ repeat 1%nat 20 ++ repeat 0%nat 20)%list
    (client <$> [deleteConfigHandler demo_request "edge";
                 setSatelliteConfigHandler (Some (mkSatelliteConfigParams "edge-01" "edge"))],
     demo_world two_configs).

(** The check that no satellite uses a configuration does not hold up
    against a concurrent request: a satellite given the configuration between
    the check and the deletion loses its configuration altogether (the row
    cascades), although both requests are answered with success. *)
Theorem delete_config_race :
  exists st, rtc istep (client <$> [deleteConfigHandler demo_request "edge";
      setSatelliteConfigHandler (Some (mkSatelliteConfigParams "edge-01" "edge"))],
      demo_world two_configs) st /\
    cl_replies <$> st.1 = [[mkReply 200 (PMap [])]; [mkReply 200 (PMap [])]] /\
    (exec_query 0 (QSatelliteConfig 1) two_configs).2 = inr (mkSatelliteConfig 1 1) /\
    (exec_query 0 (QSatelliteConfig 1) (w_db st.2)).2 = inl NoRows.
Proof.
  exists delete_race. split; [apply schedule_reachable|]. split_and!; vm_compute; reflexivity.
Qed.

Definition off_patch : string :=
  "{" +:+ quoted "app_config" +:+ ": {" +:+ quoted "use_unsecure" +:+ ": false, " +:+
  quoted "bring_own_registry" +:+ ": false, " +:+ quoted "encrypt_config" +:+ ": false, " +:+
  quoted "log_level" +:+ ": " +:+ quoted "" +:+ "}}".

(** A patch cannot turn a flag off or clear a text: the request is decoded
    into the Go struct and marshalled again with omitempty before it is merged,
    so a body that says false is handled exactly as the empty body. *)
Theorem patch_cannot_turn_off r name w :
  UnmarshalConfig off_patch no_config <> None /\
  run (updateConfigHandler r name (UnmarshalConfig off_patch no_config)) w =
  run (updateConfigHandler r name (UnmarshalConfig "{}" no_config)) w.
Proof.
  assert (UnmarshalConfig off_patch no_config = Some no_config) as -> by (vm_compute; reflexivity).
  assert (UnmarshalConfig "{}" no_config = Some no_config) as -> by (vm_compute; reflexivity). done.
Qed.

(** *** Witnesses *)

Definition new_config : option ConfigObject := Some (mkConfigObject "edge" "" sample_config).

Lemma create_config_outcome_witness :
  http_status (run (createConfigHandler demo_request new_config) (demo_world demo_db)).1 = 201%Z /\
  (refused demo_db (run (createConfigHandler demo_request new_config) (demo_world demo_db)).1 \/
   fulfilled (run (createConfigHandler demo_request new_config) (demo_world demo_db)).1).
Proof.
  split; [vm_compute; reflexivity|].
  destruct (create_config_outcome demo_request new_config (demo_world demo_db) (demo_fresh _))
    as [Hno|[Hok _]]; [by left|by right].
Defined.


Definition use_edge : option SatelliteConfigParams := Some (mkSatelliteConfigParams "edge-01" "edge").

Lemma set_satellite_config_outcome_witness :
  http_status (run (setSatelliteConfigHandler use_edge) (demo_world two_configs)).1 = 200%Z /\
  (refused two_configs (run (setSatelliteConfigHandler use_edge) (demo_world two_configs)).1 \/
   fulfilled (run (setSatelliteConfigHandler use_edge) (demo_world two_configs)).1).
Proof.
  split; [vm_compute; reflexivity|].
  destruct (set_satellite_config_outcome use_edge (demo_world two_configs) (demo_fresh _))
    as [Hno|[Hok _]]; [by left|by right].
Defined.

Lemma delete_config_outcome_witness :
  http_status (run (deleteConfigHandler demo_request "edge") (demo_world two_configs)).1 = 200%Z /\
  (refused two_configs (run (deleteConfigHandler demo_request "edge") (demo_world two_configs)).1 \/
   w_replies (run (deleteConfigHandler demo_request "edge") (demo_world two_configs)).1 = [mkReply 200 (PMap [])]).
Proof.
  split; [vm_compute; reflexivity|].
  destruct (delete_config_outcome demo_request "edge" (demo_world two_configs) (demo_fresh _))
    as [Hno|[Hok _]]; [by left|by right].
Defined.

End Runs.
