(* ===== verification/Routes.v ===== *)
(** * The server's routes

    internal/groundcontrol/server/routes.go with the middlewares it installs:
    RateLimitMiddleware of middleware/ratelimit.go and the SPIFFE middlewares
    of spiffe/middleware.go.  [ServeHTTP] is Ground Control as a client sees
    it: a request goes through the router and the middlewares to its handler.

    gorilla/mux chooses the route and is a parameter ([Mux]); of it the
    development assumes that it only chooses a route whose method and template
    the request matches ([MuxSound]).  A path that is not clean it answers
    with 301 and the clean one, before any route or middleware.  What encoding/json makes of a body is
    the handler's argument elsewhere; here it is [decode].  The header
    X-Request-ID of the response is left out, as are the Location and the
    texts of the router's own answers 301, 404 and 405. *)

From S2P Require Import Free Prelude Utf8 Limiter Db DbFacts Prog Logic Runs Env Harbor CryptoLib Crypto Duration Spiffe.
From S2P Require Import GoLib Server Satellites Auth Users Groups Spire Status SatConfig Configs.
From Stdlib Require Import Ascii.

#[local] Open Scope string_scope.

(* ------------------------------------------------------------------ *)
(** ** Requests as they arrive *)

(** [ht_tls]: the peer's certificates, each the URIs it names (scheme, text),
    when the connection uses TLS *)
Record HttpRequest := mkHttpRequest {
  ht_method : string; ht_path : string; ht_query : string -> string;
  ht_header : string -> string; ht_body : string; ht_remote : string;
  ht_tls : option (list (list (string * string))) }.

(** r.Context() holds nothing yet *)
Definition request_of (q : HttpRequest) : Request :=
  mkRequest (ht_remote q) (ht_header q) None None None None.

(** json.NewDecoder(r.Body).Decode into a fresh variable of type [A] *)
Class Decoder (A : Type) := decode : string -> option A.

(** spiffeid.FromURI *)
Class SpiffeUris := FromURI : string -> option SpiffeID.

Definition with_spiffe (id : SpiffeID) (name : option string) (r : Request) : Request :=
  mkRequest (rq_remote r) (rq_header r) (rq_request_id r) (rq_user r) (Some id)
    (match name with Some n => Some n | None => rq_satellite_name r end).

(* ------------------------------------------------------------------ *)
(** ** Middlewares *)

Definition middleware := HttpRequest -> (Request -> prog unit) -> Request -> prog unit.

Definition getClientIP (r : Request) : string :=
  match SplitHostPort (rq_remote r) with Some ip => ip | None => rq_remote r end.

Definition RateLimitMiddleware : middleware := fun _ next r =>
  let* allowed := perform (OAllow (getClientIP r)) in
  if allowed : bool then next r else write 429 (PMap [("error", "Too Many Requests")]).

Section Spiffe.
Context `{SpiffeUris}.

(** spiffe.AuthMiddleware; the region it also puts in the context is never
    read. *)
Definition spiffe_AuthMiddleware : middleware := fun q next r =>
  match ExtractSPIFFEIDFromRequest FromURI (ht_tls q) with
  | None => next r
  | Some id => next (with_spiffe id (ExtractSatelliteNameFromSPIFFEID id) r)
  end.

Definition RequireSPIFFEAuth : middleware := fun q next r =>
  match ExtractSPIFFEIDFromRequest FromURI (ht_tls q) with
  | None => write 401 (PMap [("error", "SPIFFE authentication required")])
  | Some id => next (with_spiffe id (ExtractSatelliteNameFromSPIFFEID id) r)
  end.
End Spiffe.

(* ------------------------------------------------------------------ *)
(** ** Routes *)

(** mux.Vars(r)[key] *)
Abbreviation Vars := (list (string * string)).
Definition var (vars : Vars) (key : string) : string :=
  match List.find (fun p => String.eqb p.1 key) vars with Some p => p.2 | None => "" end.

Record Route := mkRoute {
  rt_template : string;
  rt_method : string;
  rt_middlewares : list middleware;              (* outermost first *)
  rt_handler : HttpRequest -> Vars -> Request -> prog unit }.

(** router.HandleFunc(template, handler).Methods(method) *)
Definition HandleFunc (template : string) (handler : HttpRequest -> Vars -> Request -> prog unit)
    (method : string) : list Route := [mkRoute template method [] handler].

(** router.Use(mw), for the routes of this router and its subrouters *)
Definition Use (mw : middleware) (rs : list Route) : list Route :=
  (fun rt => mkRoute (rt_template rt) (rt_method rt) (mw :: rt_middlewares rt) (rt_handler rt)) <$> rs.

(** router.PathPrefix(prefix).Subrouter() *)
Definition Subrouter (prefix : string) (rs : list Route) : list Route :=
  (fun rt => mkRoute (prefix +:+ rt_template rt) (rt_method rt) (rt_middlewares rt) (rt_handler rt)) <$> rs.

(** The handler inside the middlewares *)
Definition chain (mws : list middleware) (q : HttpRequest) (h : Request -> prog unit) : Request -> prog unit :=
  foldr (fun mw next => mw q next) h mws.

Record changeUserPasswordRequest := mkChangeUserPasswordRequest { cup_NewPassword : string }.

(** What a template matches: a variable stands for one non-empty segment of
    the path. *)
Definition variable (segment : string) : option string :=
  match segment with
  | String "{" rest => if Go.has_suffix "}" rest then Some (Go.trim_suffix "}" rest) else None
  | _ => None
  end.

Fixpoint match_segments (template path : list string) : option Vars :=
  match template, path with
  | [], [] => Some []
  | t :: template', p :: path' =>
      match variable t with
      | Some name =>
          if String.eqb p "" then None
          else match match_segments template' path' with Some l => Some ((name, p) :: l) | None => None end
      | None => if String.eqb t p then match_segments template' path' else None
      end
  | _, _ => None
  end.

Definition match_template (template path : string) : option Vars :=
  match_segments (Go.split_on "/" template) (Go.split_on "/" path).

Inductive route_match :=
| MovedPermanently                              (* to the cleaned path *)
| NotFound
| MethodNotAllowed
| Matched (n : nat) (vars : Vars).

(** The router: from the templates and methods of the routes, in the order of
    their registration, and the method and path of a request *)
Class Mux := mux_match : list (string * string) -> string -> string -> route_match.

Class MuxSound `{Mux} := mux_sound table method path n vars :
  mux_match table method path = Matched n vars ->
  exists template, table !! n = Some (template, method) /\ match_template template path = Some vars.

Section Routes.
Context `{Server, GroundControl, PqText, Argon2, UnicodeTables, RangeOrder, JsonPatch, GoQuote, SpiffeUris}.
Context `{Decoder loginRequest, Decoder createUserRequest, Decoder changePasswordRequest, Decoder changeUserPasswordRequest}.
Context `{Decoder StateArtifact, Decoder ConfigObject, Decoder SatConfig.Config, Decoder SatelliteConfigParams}.
Context `{Decoder RegisterSatelliteParams, Decoder SatelliteGroupParams, Decoder SatelliteStatusParams}.
Context `{Decoder RegisterSatelliteRequest}.

(** router.HandleFunc(template, s.RequireRole(roleSystemAdmin, handler)).Methods(method) *)
Definition AdminFunc (template : string) (handler : HttpRequest -> Vars -> Request -> prog unit)
    (method : string) : list Route :=
  [mkRoute template method [fun _ => RequireRole roleSystemAdmin] handler].

Definition public_routes : list Route :=
  HandleFunc "/ping" (fun _ _ _ => Ping) "GET" ++
  HandleFunc "/health" (fun _ _ _ => healthHandler) "GET".

Definition login_routes : list Route :=
  Subrouter "/login" (Use RateLimitMiddleware
    (HandleFunc "" (fun q _ r => loginHandler r (decode (ht_body q))) "POST")).

Definition user_routes : list Route :=
  HandleFunc "/users" (fun _ _ _ => listUsersHandler) "GET" ++
  HandleFunc "/users/password" (fun q _ r => changeOwnPasswordHandler r (decode (ht_body q))) "PATCH" ++
  HandleFunc "/users/{username}" (fun _ v _ => getUserHandler (var v "username")) "GET" ++
  AdminFunc "/users" (fun q _ r => createUserHandler r (decode (ht_body q))) "POST" ++
  AdminFunc "/users/{username}" (fun _ v r => deleteUserHandler r (var v "username")) "DELETE" ++
  AdminFunc "/users/{username}/password"
    (fun q v r => changeUserPasswordHandler r (var v "username") (cup_NewPassword <$> decode (ht_body q))) "PATCH".

Definition group_routes : list Route :=
  HandleFunc "/groups" (fun _ _ _ => listGroupHandler) "GET" ++
  HandleFunc "/groups/sync" (fun q _ _ => groupsSyncHandler (decode (ht_body q))) "POST" ++
  HandleFunc "/groups/{group}" (fun _ v _ => getGroupHandler (var v "group")) "GET" ++
  HandleFunc "/groups/{group}/satellites" (fun _ v _ => groupSatelliteHandler (var v "group")) "GET" ++
  HandleFunc "/groups/satellite" (fun q _ _ => addSatelliteToGroup (decode (ht_body q))) "POST" ++
  HandleFunc "/groups/satellite"
    (fun _ v _ => removeSatelliteFromGroup (var v "group") (var v "satellite")) "DELETE" ++
  AdminFunc "/groups/{group}" (fun _ v _ => deleteGroupHandler (var v "group")) "DELETE".

Definition config_routes : list Route :=
  HandleFunc "/configs" (fun _ _ _ => listConfigsHandler) "GET" ++
  HandleFunc "/configs" (fun q _ r => createConfigHandler r (decode (ht_body q))) "POST" ++
  HandleFunc "/configs/{config}"
    (fun q v r => updateConfigHandler r (var v "config") (decode (ht_body q))) "PATCH" ++
  HandleFunc "/configs/{config}" (fun _ v _ => getConfigHandler (var v "config")) "GET" ++
  HandleFunc "/configs/{config}" (fun _ v r => deleteConfigHandler r (var v "config")) "DELETE" ++
  HandleFunc "/configs/satellite" (fun q _ _ => setSatelliteConfigHandler (decode (ht_body q))) "POST".

Definition satellite_routes : list Route :=
  HandleFunc "/satellites" (fun _ _ _ => listSatelliteHandler) "GET" ++
  HandleFunc "/satellites" (fun q _ r => registerSatelliteHandler r (decode (ht_body q))) "POST" ++
  HandleFunc "/satellites/active" (fun _ _ _ => getActiveSatellitesHandler) "GET" ++
  HandleFunc "/satellites/stale" (fun _ _ _ => getStaleSatellitesHandler) "GET" ++
  HandleFunc "/satellites/{satellite}" (fun _ v _ => GetSatelliteByName_handler (var v "satellite")) "GET" ++
  HandleFunc "/satellites/{satellite}" (fun _ v r => DeleteSatelliteByName r (var v "satellite")) "DELETE" ++
  HandleFunc "/satellites/{satellite}/status"
    (fun _ v _ => getSatelliteStatusHandler (var v "satellite")) "GET" ++
  HandleFunc "/satellites/{satellite}/images"
    (fun _ v _ => getCachedImagesHandler (var v "satellite")) "GET".

Definition spire_routes : list Route :=
  AdminFunc "/spire/status" (fun _ _ _ => spireStatusHandler) "GET" ++
  AdminFunc "/spire/agents" (fun q _ _ => listSpireAgentsHandler (ht_query q "attestation_type")) "GET" ++
  AdminFunc "/satellites/register"
    (fun q _ _ => registerSatelliteWithSPIFFEHandler (decode (ht_body q))) "POST".

Definition api_routes : list Route :=
  Subrouter "/api" (Use (fun _ => AuthMiddleware)
    (HandleFunc "/logout" (fun _ _ r => logoutHandler r) "POST" ++
     user_routes ++ group_routes ++ config_routes ++ satellite_routes ++ spire_routes)).

(** The satellites' own routes *)
Definition device_routes : list Route :=
  Subrouter "/satellites"
    (Subrouter "/ztr" (Use RateLimitMiddleware
       (HandleFunc "/{token}" (fun _ v r => ztrHandler r (var v "token")) "GET")) ++
     Subrouter "/spiffe-ztr" (Use RequireSPIFFEAuth (Use RateLimitMiddleware
       (HandleFunc "" (fun _ _ r => spiffeZtrHandler r) "GET"))) ++
     Subrouter "/sync" (Use RateLimitMiddleware (Use spiffe_AuthMiddleware
       (Use (fun _ => SatelliteAuthMiddleware)
         (HandleFunc "" (fun q _ r => syncHandler r (decode (ht_body q))) "POST"))))).

Definition request_id_middleware (uuid : string) : middleware :=
  fun _ next r => next (RequestIDMiddleware uuid r).

Definition RegisterRoutes (uuid : string) : list Route :=
  Use (request_id_middleware uuid) (public_routes ++ login_routes ++ api_routes ++ device_routes).

Definition table (rs : list Route) : list (string * string) :=
  (fun rt => (rt_template rt, rt_method rt)) <$> rs.

(** [uuid] is what uuid.NewString returns for this request. *)
Definition ServeHTTP `{Mux} (uuid : string) (q : HttpRequest) : prog unit :=
  let routes := RegisterRoutes uuid in
  match mux_match (table routes) (ht_method q) (ht_path q) with
  | MovedPermanently => write 301 PNone
  | NotFound => write 404 PNone
  | MethodNotAllowed => write 405 PNone
  | Matched n vars =>
      match routes !! n with
      | None => write 404 PNone
      | Some rt => chain (rt_middlewares rt) q (rt_handler rt q vars) (request_of q)
      end
  end.

End Routes.
