(* ===== verification/RoutesFacts.v ===== *)
(** * Who is served by which route

    The access policy of the server's routes, and the proof that the router
    and its middlewares enforce it, whatever the request, the database and the
    failures. *)

From S2P Require Import Free Prelude Utf8 Limiter Db DbFacts Prog Logic Runs Env Harbor CryptoLib Crypto Duration Spiffe.
From S2P Require Import GoLib Server Demo Satellites Auth AuthFacts Users SatelliteFacts Groups Spire Status SatConfig Configs Routes.
From Stdlib Require Import Ascii.

#[local] Open Scope string_scope.

(* ------------------------------------------------------------------ *)
(** ** The policy *)

Inductive Access := Public | Login | AnyUser | Administrator | TokenHolder | SpiffeHolder | KnownSatellite.

#[export] Instance Access_eq_dec : EqDecision Access.
Proof. solve_decision. Defined.

Definition admin_only : list (string * string) :=
  [("/api/users", "POST"); ("/api/users/{username}", "DELETE");
   ("/api/users/{username}/password", "PATCH"); ("/api/groups/{group}", "DELETE");
   ("/api/spire/status", "GET"); ("/api/spire/agents", "GET"); ("/api/satellites/register", "POST")].

(** What a route asks of a request; a route the policy does not know would
    need an administrator. *)
Definition access (template method : string) : Access :=
  if decide ((template, method) ∈ [("/ping", "GET"); ("/health", "GET")]) then Public
  else if decide ((template, method) = ("/login", "POST")) then Login
  else if decide ((template, method) = ("/satellites/ztr/{token}", "GET")) then TokenHolder
  else if decide ((template, method) = ("/satellites/spiffe-ztr", "GET")) then SpiffeHolder
  else if decide ((template, method) = ("/satellites/sync", "POST")) then KnownSatellite
  else if decide ((template, method) ∈ admin_only) then Administrator
  else if Go.has_prefix "/api/" template then AnyUser
  else Administrator.

Section Policy.
Context `{Server, GroundControl, PqText, Argon2, Services, PgTypes, SpiffeUris}.

(** The rate limiter has room for this address now. *)
Definition admitted (w : World) (q : HttpRequest) : Prop :=
  (Allow (now_of w) (getClientIP (request_of q)) (w_limiter w)).2 = true.

Definition certified (q : HttpRequest) : option SpiffeID := ExtractSPIFFEIDFromRequest FromURI (ht_tls q).

(** The request with what its certificate says *)
Definition certified_request (q : HttpRequest) : Request :=
  match certified q with
  | Some id => with_spiffe id (ExtractSatelliteNameFromSPIFFEID id) (request_of q)
  | None => request_of q
  end.

(** [q] may be served; [r] is what the handler is told about the client. *)
Definition entitled (w : World) (q : HttpRequest) (a : Access) (r : Request) : Prop :=
  match a with
  | Public => True
  | Login | TokenHolder => admitted w q
  | AnyUser => exists u, rq_user r = Some u /\ authenticated w (request_of q) u
  | Administrator =>
      exists u, rq_user r = Some u /\ authenticated w (request_of q) u /\ au_role u = roleSystemAdmin
  | SpiffeHolder =>
      admitted w q /\ exists id, certified q = Some id /\ rq_spiffe_id r = Some id /\
        rq_satellite_name r = ExtractSatelliteNameFromSPIFFEID id
  | KnownSatellite =>
      admitted w q /\ exists n, rq_satellite_name r = Some n /\
        satellite_authenticated w (certified_request q) n
  end.

(** Refused before any handler: one answer, nothing else *)
Definition dismissed (w w' : World) : Prop :=
  w_db w' = w_db w /\ w_events w' = [] /\
  exists st b, w_replies w' = [mkReply st b] /\ st ∈ [301; 401; 403; 404; 405; 429]%Z.

Definition served (w w' : World) (q : HttpRequest) (a : Access) (h : Request -> prog unit) : Prop :=
  dismissed w w' \/ exists r v, entitled w q a r /\ untouched w v /\ run (h r) v = (w', tt).

Lemma dismissed_write st b w v w' :
  untouched w v -> st ∈ [301; 401; 403; 404; 405; 429]%Z -> run (write st b) v = (w', tt) -> dismissed w w'.
Proof.
  intros ((Hr & _ & He) & Hd & _) Hs E. pose proof (step_write_events _ _ _ _ _ E) as He'.
  apply step_write in E as (Hd' & Hr' & _). split_and!; [congruence..|].
  exists st, b. by rewrite Hr', Hr.
Qed.

Lemma dropped_dismissed st w w' :
  st ∈ [301; 401; 403; 404; 405; 429]%Z -> dropped st w w' -> dismissed w w'.
Proof. intros Hs [(Hd & m & Hr) He]. split_and!; eauto. Qed.

Lemma rate_limited next q r w w' :
  fresh w -> rq_remote r = ht_remote q -> run (RateLimitMiddleware q next r) w = (w', tt) ->
  dismissed w w' \/ admitted w q /\ exists v, untouched w v /\ run (next r) v = (w', tt).
Proof.
  intros Hf Hr E. unfold RateLimitMiddleware, perform in E. cbn [bind run exec_op] in E.
  unfold getClientIP in E. rewrite Hr in E.
  assert (untouched w (tick (set_limiter (Allow (now_of w) (getClientIP (request_of q)) (w_limiter w)).1 w)))
    as Hu by (destruct Hf as (? & ? & ?); by split_and!).
  unfold admitted. destruct (Allow (now_of w) _ (w_limiter w)) as [rl [|]] eqn:Ea; cbn [fst snd] in *.
  - right. split; [done|]. eauto.
  - left. eapply dismissed_write; [exact Hu| |exact E]. set_solver.
Qed.

(** The middlewares that enforce each part of the policy *)
Definition guards (a : Access) : list middleware :=
  match a with
  | Public => []
  | Login | TokenHolder => [RateLimitMiddleware]
  | AnyUser => [fun _ => AuthMiddleware]
  | Administrator => [fun _ => AuthMiddleware; fun _ => RequireRole roleSystemAdmin]
  | SpiffeHolder => [RequireSPIFFEAuth; RateLimitMiddleware]
  | KnownSatellite => [RateLimitMiddleware; spiffe_AuthMiddleware; fun _ => SatelliteAuthMiddleware]
  end.

Definition plain_request (q : HttpRequest) (r : Request) : Prop :=
  exists id, r = with_request_id id (request_of q).

Lemma dismiss (st : Z) w w' (P : Prop) :
  st ∈ [301; 401; 403; 404; 405; 429]%Z -> dropped st w w' -> dismissed w w' \/ P.
Proof. intros Hs Hd. left. by eapply dropped_dismissed. Qed.

Lemma authenticated_plain w q r u :
  plain_request q r -> authenticated w r u -> authenticated w (request_of q) u.
Proof. by intros [id ->]. Qed.

(** Each list of guards serves whoever the policy entitles. *)
Lemma guards_enforce a q h r w w' :
  fresh w -> plain_request q r -> run (chain (guards a) q h r) w = (w', tt) -> served w w' q a h.
Proof.
  intros Hf Hp E. pose proof (untouched_refl w Hf) as Hu. unfold served.
  assert (rq_remote r = ht_remote q) as Hq by (by destruct Hp as [id ->]).
  destruct a; cbn [guards chain foldr] in E.
  - right. by exists r, w.
  - apply (rate_limited _ q) in E as [?|(Ha & v & Hv & E)]; [by left| |done..]. right. by exists r, v.
  - apply (auth_middleware_cases _ r w) in E as [E|(u & v & Ha & Hv & E)]; [|..|done].
    + eapply dismiss; [|exact E]. set_solver.
    + right. exists (with_user u r), v. split_and!; [|done..]. exists u. split; [done|].
      by eapply authenticated_plain.
  - apply (auth_middleware_cases _ r w) in E as [E|(u & v & Ha & Hv & E)]; [|..|done].
    + eapply dismiss; [|exact E]. set_solver.
    + apply (require_role_cases _ _ _ w) in E; [|done]. cbn [rq_user with_user] in E.
      destruct (String.eqb_spec (au_role u) roleSystemAdmin) as [Hr|].
      * right. exists (with_user u r), v. split_and!; [|done..]. exists u. split_and!; [done| |done].
        by eapply authenticated_plain.
      * eapply dismiss; [|exact E]. set_solver.
  - apply (rate_limited _ q) in E as [?|(Ha & v & Hv & E)]; [by left| |done..]. right. by exists r, v.
  - unfold RequireSPIFFEAuth in E. fold (certified q) in E. destruct (certified q) as [id|] eqn:Ec.
    + apply (rate_limited _ q) in E as [?|(Ha & v & Hv & E)]; [by left| |done..].
      right. eexists _, v. split_and!; [|done|exact E]. split; [done|]. exists id. split_and!; [done..|].
      simpl. destruct (ExtractSatelliteNameFromSPIFFEID id); [done|]. by destruct Hp as [x ->].
    + left. eapply dismissed_write; [exact Hu| |exact E]. set_solver.
  - apply (rate_limited _ q) in E as [?|(Ha & v & Hv & E)]; [by left| |done..].
    assert (exists r', GetSatelliteName r' = GetSatelliteName (certified_request q) /\ rq_header r' = ht_header q /\
      run (SatelliteAuthMiddleware h r') v = (w', tt)) as (r' & Hn & Hh & Er).
    { unfold spiffe_AuthMiddleware in E. unfold certified_request. fold (certified q) in E.
      destruct Hp as [x ->]. destruct (certified q) as [id|]; eexists; (split_and!; [..|exact E]); done. }
    apply (satellite_auth_cases _ r' w) in Er as [Er|(n & v1 & Hs & Hv1 & Er)]; [|..|done].
    + eapply dismiss; [|exact Er]. set_solver.
    + right. eexists _, v1. split_and!; [|done|exact Er]. split; [done|]. exists n. split; [done|].
      assert (rq_header (certified_request q) = rq_header r') as Hx
        by (rewrite Hh; unfold certified_request; by destruct (certified q)).
      unfold satellite_authenticated, extractBasicAuth, authorization in *. by rewrite <- Hn, Hx.
Qed.

End Policy.

(* ------------------------------------------------------------------ *)
(** ** The routes keep to the policy *)

Section Routing.
Context `{Server, GroundControl, PqText, Argon2, UnicodeTables, RangeOrder, JsonPatch, GoQuote, SpiffeUris}.
Context `{Decoder loginRequest, Decoder createUserRequest, Decoder changePasswordRequest}.
Context `{Decoder changeUserPasswordRequest}.
Context `{Decoder StateArtifact, Decoder ConfigObject, Decoder SatConfig.Config, Decoder SatelliteConfigParams}.
Context `{Decoder RegisterSatelliteParams, Decoder SatelliteGroupParams, Decoder SatelliteStatusParams}.
Context `{Decoder RegisterSatelliteRequest, Services, PgTypes}.

Definition guarded (uuid : string) (rt : Route) : Prop :=
  rt_middlewares rt = request_id_middleware uuid :: guards (access (rt_template rt) (rt_method rt)).

(** Every route has exactly the guards its access needs. *)
Lemma routes_guarded uuid : Forall (guarded uuid) (RegisterRoutes uuid).
Proof. repeat (apply Forall_cons_2; [reflexivity|]). apply Forall_nil_2. Qed.

Lemma serve_cases `{Mux, !MuxSound} uuid q w :
  fresh w ->
  let w' := (run (ServeHTTP uuid q) w).1 in
  dismissed w w' \/
  exists n vars rt r v,
    RegisterRoutes uuid !! n = Some rt /\ rt_method rt = ht_method q /\
    match_template (rt_template rt) (ht_path q) = Some vars /\
    entitled w q (access (rt_template rt) (rt_method rt)) r /\
    untouched w v /\ run (rt_handler rt q vars r) v = (w', tt).
Proof.
  intros Hf w'. destruct (run (ServeHTTP uuid q) w) as [x []] eqn:E. simpl in w'. subst w'.
  pose proof (untouched_refl w Hf) as Hu. unfold ServeHTTP in E. cbv zeta in E.
  destruct (mux_match _ _ _) as [| | |n vars] eqn:Em.
  1-3: left; eapply dismissed_write; [exact Hu| |exact E]; set_solver.
  apply mux_sound in Em as (tm & Ht & Hm). unfold table in Ht. rewrite list_lookup_fmap in Ht.
  destruct (RegisterRoutes uuid !! n) as [rt|] eqn:Er; [|discriminate Ht]. injection Ht as <- <-.
  pose proof (Forall_lookup_1 _ _ _ _ (routes_guarded uuid) Er) as Hg. unfold guarded in Hg. rewrite Hg in E.
  apply (guards_enforce _ q) in E as [?|(r & v & He & Hv & E)]; [by left| |done|by eexists].
  right. by exists n, vars, rt, r, v.
Qed.

(** C2. Ground Control's access control, for every request, database and pattern
    of failures: either the request is dismissed with 401, 403, 404, 405 or
    429, or with the router's 301 to a clean path, the database as it was and
    no service called, or it matched a route
    and its handler ran, on the database as it was, for a client the policy
    entitles to that route: a user with a valid session or password under
    /api, who is a system administrator where the policy says so; a satellite
    known by its certificate or by the secret of its robot account for the
    status report; and within the rate limit of its address for the login and
    for the satellites' routes. *)
Theorem only_entitled_requests_are_served `{Mux, !MuxSound} uuid q w :
  fresh w ->
  let w' := (run (ServeHTTP uuid q) w).1 in
  dismissed w w' \/
  exists n vars rt r v,
    RegisterRoutes uuid !! n = Some rt /\ rt_method rt = ht_method q /\
    match_template (rt_template rt) (ht_path q) = Some vars /\
    entitled w q (access (rt_template rt) (rt_method rt)) r /\
    untouched w v /\ run (rt_handler rt q vars r) v = (w', tt).
Proof. apply serve_cases. Qed.

(** Only routes under /api match a path under /api. *)
Definition stays_in_api (rt : Route) : Prop :=
  forall rest vars, match_segments (Go.split_on "/" (rt_template rt)) ("" :: "api" :: rest) = Some vars ->
    access (rt_template rt) (rt_method rt) = AnyUser \/
    access (rt_template rt) (rt_method rt) = Administrator.

Lemma routes_stay_in_api uuid : Forall stays_in_api (RegisterRoutes uuid).
Proof.
  repeat (apply Forall_cons_2;
    [intros rest vars E; first [left; reflexivity|right; reflexivity|discriminate E]|]).
  apply Forall_nil_2.
Qed.

Lemma api_segments p : Go.has_prefix "/api/" p = true -> exists rest, Go.split_on "/" p = "" :: "api" :: rest.
Proof. intros [r ->]%has_prefix_spec. by eexists. Qed.

(** Nothing under /api answers a stranger: whatever the method and the path,
    a request that carries neither a valid session nor a valid password
    reaches no handler. *)
Theorem api_refuses_strangers `{Mux, !MuxSound} uuid q w :
  fresh w -> Go.has_prefix "/api/" (ht_path q) = true ->
  (forall u, ~ authenticated w (request_of q) u) ->
  dismissed w (run (ServeHTTP uuid q) w).1.
Proof.
  intros Hf Hp Hno. destruct (serve_cases uuid q w Hf) as [?|(n & vars & rt & r & v & Er & _ & Hm & He & _)]; [done|].
  exfalso. pose proof (Forall_lookup_1 _ _ _ _ (routes_stay_in_api uuid) Er) as Hs.
  unfold match_template in Hm. apply api_segments in Hp as [rest Hr]. rewrite Hr in Hm.
  destruct (Hs rest vars Hm) as [Ha|Ha]; rewrite Ha in He; destruct He as (u & _ & Hu & _) || destruct He as (u & _ & Hu);
    by apply (Hno u).
Qed.

(** The route DELETE /api/groups/satellite names neither the group nor the
    satellite, and its handler reads both from the path: it never removes
    anything. *)
Theorem unlink_route_is_dead uuid q rt vars r w :
  fresh w -> rt ∈ RegisterRoutes uuid ->
  rt_template rt = "/api/groups/satellite" -> rt_method rt = "DELETE" ->
  match_template (rt_template rt) (ht_path q) = Some vars ->
  t_find (fun s => String.eqb (sat_name s) "") (satellites (w_db w)) = None ->
  refused (w_db w) (run (rt_handler rt q vars r) w).1.
Proof.
  intros Hf Hin Ht Hm Hv Hno.
  assert (vars = []) as ->.
  { rewrite Ht in Hv. unfold match_template in Hv. cbn -[Go.split_on] in Hv.
    change (Go.split_on "/" "/api/groups/satellite") with [""; "api"; "groups"; "satellite"] in Hv.
    cbn [match_segments variable] in Hv. by repeat case_match; simplify_eq. }
  assert (rt_handler rt q [] r = removeSatelliteFromGroup "" "") as ->.
  { clear -Hin Ht Hm. apply list_elem_of_In in Hin.
    repeat (destruct Hin as [<-|Hin]; [first [discriminate Ht|discriminate Hm|reflexivity]|]). destruct Hin. }
  destruct (remove_from_group_cases "" "" w Hf) as [?|(_ & sat & grp & Hs & _)]; [done|]. congruence.
Qed.

End Routing.

(* ------------------------------------------------------------------ *)
(** ** A concrete router *)

Module DemoRouter.
Import Demo.

(** The first registered route that matches *)
Fixpoint first_match_from (i : nat) (table : list (string * string)) (method path : string)
    (other_method : bool) : route_match :=
  match table with
  | [] => if other_method then MethodNotAllowed else NotFound
  | (template, m) :: rest =>
      match match_template template path with
      | Some vars =>
          if String.eqb m method then Matched i vars
          else first_match_from (S i) rest method path true
      | None => first_match_from (S i) rest method path other_method
      end
  end.

(** No empty segment but the first and the last, no "." and no ".." *)
Definition clean_path (path : string) : bool :=
  match Go.split_on "/" path with
  | "" :: segments =>
      forallb (fun s => negb (existsb (String.eqb s) [""; "."; ".."])) (removelast segments) &&
      negb (existsb (String.eqb (List.last segments "")) ["."; ".."])
  | _ => false
  end.

#[export] Instance first_match : Mux := fun table method path =>
  if clean_path path then first_match_from 0 table method path false else MovedPermanently.

Lemma first_match_from_sound i table method path b n vars :
  first_match_from i table method path b = Matched n vars ->
  exists k template, n = (i + k)%nat /\ table !! k = Some (template, method) /\
    match_template template path = Some vars.
Proof.
  revert i b. induction table as [|[t m] rest IH]; intros i b E; simpl in E; [by destruct b|].
  assert (forall b', first_match_from (S i) rest method path b' = Matched n vars ->
    exists k template, n = (i + k)%nat /\ ((t, m) :: rest) !! k = Some (template, method) /\
      match_template template path = Some vars) as Hrest.
  { intros b' (k & tm & -> & ? & ?)%IH. exists (S k), tm. split_and!; [lia|done..]. }
  destruct (match_template t path) as [v|] eqn:Em; [|by eapply Hrest].
  destruct (String.eqb_spec m method) as [->|]; [|by eapply Hrest].
  injection E as <- <-. exists 0%nat, t. split_and!; [lia|done..].
Qed.

#[export] Instance first_match_sound : MuxSound.
Proof.
  intros table method path n vars. unfold mux_match, first_match. destruct (clean_path path); [|done].
  intros (k & t & -> & ? & ?)%first_match_from_sound. by exists t.
Qed.

#[export] Instance no_body A : Decoder A := fun _ => None.
#[export] Instance demo_uris : SpiffeUris := fun _ => None.
#[export] Instance demo_unicode : UnicodeTables :=
  {| IsUpper _ := false; IsLower _ := true; IsDigit _ := false; IsLetter _ := true |}.
#[export] Instance demo_order : RangeOrder := key_order.
#[export] Instance demo_patch : JsonPatch := fun _ _ => None.
#[export] Instance demo_quote : GoQuote := fun s => s.

Definition routed (method path : string) : route_match :=
  mux_match (table (RegisterRoutes "id")) method path.

(** No route is hidden by another: each is the one its template matches, with
    any names for its variables. *)
Definition fill (template : string) : string :=
  Go.join "/" ((fun s => match variable s with Some _ => "n" | None => s end) <$> Go.split_on "/" template).

Example every_route_is_reachable :
  let routes := table (RegisterRoutes "id") in
  (fun e => match routed e.2 (fill e.1) with Matched n _ => Some n | _ => None end) <$> routes =
  Some <$> seq 0 (length routes).
Proof. vm_compute. reflexivity. Qed.

(** Names that are valid for a satellite, a group or a user, and that a more
    specific route takes: the satellite "active" cannot be read, nor the
    group "satellite" deleted. *)
Example hidden_names :
  routed "GET" "/api/satellites/active" = Matched 25 [] /\
  routed "DELETE" "/api/groups/satellite" = Matched 15 [] /\
  routed "DELETE" "/api/groups/edge" = Matched 16 [("group", "edge")] /\
  utils.IsValidName "active" = true /\ utils.IsValidName "satellite" = true.
Proof. vm_compute. repeat split. Qed.

Example unclean_paths :
  routed "GET" "//ping" = MovedPermanently /\ routed "GET" "/api/../ping" = MovedPermanently /\
  routed "GET" "/ping" = Matched 0 [] /\ routed "GET" "/ping/" = NotFound.
Proof. vm_compute. repeat split. Qed.

(** GET /api/users with the credentials of [basic_request] *)
Definition demo_query (method path authorization : string) : HttpRequest :=
  mkHttpRequest method path (fun _ => "")
    (fun h => if String.eqb h "Authorization" then authorization else "") "" "192.0.2.7:4711" None.

Definition signed_in : HttpRequest := demo_query "GET" "/api/users" "Basic YWxpY2U6c2VjcmV0".

(** The administrator's route refuses alice, who is none. *)
Example alice_is_no_administrator :
  http_status (run (ServeHTTP "id" (demo_query "DELETE" "/api/users/bob" "Basic YWxpY2U6c2VjcmV0"))
    (demo_world basic_db)).1 = 403%Z /\
  http_status (run (ServeHTTP "id" signed_in) (demo_world basic_db)).1 = 200%Z /\
  http_status (run (ServeHTTP "id" (demo_query "GET" "/api/users" "")) (demo_world basic_db)).1 = 401%Z.
Proof. vm_compute. repeat split. Qed.

Lemma only_entitled_requests_are_served_witness :
  let w' := (run (ServeHTTP "id" signed_in) (demo_world basic_db)).1 in
  dismissed (demo_world basic_db) w' \/
  exists n vars rt r v,
    RegisterRoutes "id" !! n = Some rt /\ rt_method rt = "GET" /\
    match_template (rt_template rt) "/api/users" = Some vars /\
    entitled (demo_world basic_db) signed_in (access (rt_template rt) (rt_method rt)) r /\
    untouched (demo_world basic_db) v /\ run (rt_handler rt signed_in vars r) v = (w', tt).
Proof. apply (only_entitled_requests_are_served "id" signed_in (demo_world basic_db)), demo_fresh. Defined.

Lemma api_refuses_strangers_witness :
  let q := demo_query "DELETE" "/api/satellites/edge-01" "" in
  dismissed (demo_world basic_db) (run (ServeHTTP "id" q) (demo_world basic_db)).1.
Proof.
  apply (api_refuses_strangers "id" (demo_query "DELETE" "/api/satellites/edge-01" "") (demo_world basic_db)).
  - apply demo_fresh.
  - reflexivity.
  - intros u [(s & usr & n & _ & _ & _ & Hne & _)|(name & pw & usr & Hb & _)]; [by apply Hne|discriminate Hb].
Defined.

Lemma unlink_route_is_dead_witness :
  exists rt, rt ∈ RegisterRoutes "id" /\ rt_template rt = "/api/groups/satellite" /\
    refused demo_db (run (rt_handler rt (demo_query "DELETE" "/api/groups/satellite" "") [] demo_request)
      (demo_world demo_db)).1.
Proof.
  destruct (RegisterRoutes "id" !! 15%nat) as [rt|] eqn:E; [|discriminate E].
  assert (rt ∈ RegisterRoutes "id") as Hin by (eapply list_elem_of_lookup_2; exact E).
  assert (rt_template rt = "/api/groups/satellite" /\ rt_method rt = "DELETE") as [Ht Hm]
    by (injection E as <-; by split).
  exists rt. split; [exact Hin|]. split; [exact Ht|].
  apply (unlink_route_is_dead "id" (demo_query "DELETE" "/api/groups/satellite" "") rt [] demo_request
    (demo_world demo_db)); [apply demo_fresh|exact Hin|exact Ht|exact Hm|rewrite Ht; reflexivity|reflexivity].
Defined.

End DemoRouter.
