(* ===== verification/SatState.v ===== *)
(** * The satellite's desired state

    internal/satellite/state: the state artifacts as they are decoded
    (state.go, artifact.go), the entities the satellite keeps per group
    (state_process.go, replicator.go) and the pure functions between them:
    which groups to follow, which images to delete and to replicate. *)

From stdpp Require Import gmap.
From Stdlib Require Import Ascii.
From S2P Require Import Prelude Utf8 GoLib Json.

#[local] Open Scope string_scope.
#[local] Open Scope list_scope.

(* ------------------------------------------------------------------ *)
(** ** Data; a nil slice is [None] *)

Record Artifact := mkArtifact {
  ar_Repository : string; ar_Tags : option (list string); ar_Labels : option (list string);
  ar_Type : string; ar_Digest : string; ar_Deleted : bool; ar_Name : string }.

Record State := mkState { st_Registry : string; st_Artifacts : option (list Artifact) }.

Record SatelliteState := mkSatelliteState { ss_States : option (list string); ss_Config : string }.

Record Entity := mkEntity { en_Name : string; en_Repository : string; en_Tag : string; en_Digest : string }.

Record StateMap := mkStateMap {
  sm_url : string; sm_State : option State; sm_Entities : option (list Entity) }.

Definition no_artifact : Artifact := mkArtifact "" None None "" "" false "".
Definition no_document : State := mkState "" None.
Definition no_satellite_state : SatelliteState := mkSatelliteState None "".
Definition no_entity : Entity := mkEntity "" "" "" "".

#[export] Instance Entity_eq_dec : EqDecision Entity.
Proof. solve_decision. Defined.
#[export] Instance Artifact_eq_dec : EqDecision Artifact.
Proof. solve_decision. Defined.

(** *** Decoding *)

Definition dec_texts : decoder (option (list string)) := dec_slice "" dec_string.

Definition dec_artifact : decoder Artifact := dec_struct [
  ("repository", set_field ar_Repository (fun v a =>
     mkArtifact v (ar_Tags a) (ar_Labels a) (ar_Type a) (ar_Digest a) (ar_Deleted a) (ar_Name a)) dec_string);
  ("tag", set_field ar_Tags (fun v a =>
     mkArtifact (ar_Repository a) v (ar_Labels a) (ar_Type a) (ar_Digest a) (ar_Deleted a) (ar_Name a)) dec_texts);
  ("labels", set_field ar_Labels (fun v a =>
     mkArtifact (ar_Repository a) (ar_Tags a) v (ar_Type a) (ar_Digest a) (ar_Deleted a) (ar_Name a)) dec_texts);
  ("type", set_field ar_Type (fun v a =>
     mkArtifact (ar_Repository a) (ar_Tags a) (ar_Labels a) v (ar_Digest a) (ar_Deleted a) (ar_Name a)) dec_string);
  ("digest", set_field ar_Digest (fun v a =>
     mkArtifact (ar_Repository a) (ar_Tags a) (ar_Labels a) (ar_Type a) v (ar_Deleted a) (ar_Name a)) dec_string);
  ("deleted", set_field ar_Deleted (fun v a =>
     mkArtifact (ar_Repository a) (ar_Tags a) (ar_Labels a) (ar_Type a) (ar_Digest a) v (ar_Name a)) dec_bool);
  ("name", set_field ar_Name (fun v a =>
     mkArtifact (ar_Repository a) (ar_Tags a) (ar_Labels a) (ar_Type a) (ar_Digest a) (ar_Deleted a) v) dec_string)].

Definition dec_document : decoder State := dec_struct [
  ("registry", set_field st_Registry (fun v s => mkState v (st_Artifacts s)) dec_string);
  ("artifacts", set_field st_Artifacts (fun v s => mkState (st_Registry s) v) (dec_slice no_artifact dec_artifact))].

Definition dec_satellite_state : decoder SatelliteState := dec_struct [
  ("states", set_field ss_States (fun v s => mkSatelliteState v (ss_Config s)) dec_texts);
  ("config", set_field ss_Config (fun v s => mkSatelliteState (ss_States s) v) dec_string)].

(* ------------------------------------------------------------------ *)
(** ** utils.go *)

Definition GetRepositoryAndImageNameFromArtifact (repository : string) : option (string * string) :=
  match Go.split_on "/" repository with
  | repo :: ((_ :: _) as rest) => Some (repo, Go.join "/" rest)
  | _ => None
  end.

Definition FormatRegistryURL (url : string) : string :=
  Go.trim_prefix "http://" (Go.trim_prefix "https://" url).

Definition IsValidURL `{NetUrl} (input : string) : bool :=
  match Parse input with inr u => negb (String.eqb (url_scheme u) "") | inl _ => false end.

(* ------------------------------------------------------------------ *)
(** ** state.go *)

Definition GetRegistryURL (s : State) : string :=
  Go.trim_suffix "/" (Go.trim_prefix "http://" (Go.trim_prefix "https://" (st_Registry s))).

Definition slice {A} (l : option (list A)) : list A := default [] l.
(** A slice built with append from nil *)
Definition appended {A} (l : list A) : option (list A) := match l with [] => None | _ => Some l end.

Definition GetArtifacts (s : State) : list Artifact := slice (st_Artifacts s).

Definition GetArtifactByRepository (s : State) (repo : string) : option Artifact :=
  List.find (fun a => String.eqb (ar_Repository a) repo) (GetArtifacts s).

Definition GetArtifactByNameAndTag (s : State) (name tag : string) : option Artifact :=
  List.find (fun a => String.eqb (ar_Name a) name && existsb (String.eqb tag) (slice (ar_Tags a))) (GetArtifacts s).

(** make([]Artifact, n) is never nil. *)
Definition SetArtifacts (artifacts : list Artifact) (s : State) : State :=
  mkState (st_Registry s) (Some artifacts).

(* ------------------------------------------------------------------ *)
(** ** state_process.go: from documents to entities *)

Definition RemoveNullTagArtifacts (s : State) : State :=
  SetArtifacts (List.filter (fun a => match ar_Tags a with Some (_ :: _) => true | _ => false end) (GetArtifacts s)) s.

Definition process_artifact (a : Artifact) : option Artifact :=
  '(repo, image) ← GetRepositoryAndImageNameFromArtifact (ar_Repository a);
  Some (mkArtifact repo (ar_Tags a) (ar_Labels a) (ar_Type a) (ar_Digest a) (ar_Deleted a) image).

(** The artifacts are changed in place; [None] is the error. *)
Definition ProcessState (s : State) : option State :=
  match st_Artifacts s with
  | None => Some s
  | Some l => (fun l' => mkState (st_Registry s) (Some l')) <$> mapM process_artifact l
  end.

Definition entities_of_artifact (a : Artifact) : list Entity :=
  (fun tag => mkEntity (ar_Name a) (ar_Repository a) tag (ar_Digest a)) <$> slice (ar_Tags a).

Definition FetchEntitiesFromState (s : State) : option (list Entity) :=
  appended (concat (entities_of_artifact <$> GetArtifacts s)).

(* ------------------------------------------------------------------ *)
(** ** Which groups to follow *)

Definition contains (l : list string) (item : string) : bool := existsb (String.eqb item) l.

Definition NewStateMap (urls : list string) : list StateMap := (fun u => mkStateMap u None None) <$> urls.

(** The new map and whether it differs *)
Definition updateStateMap (stateMap : list StateMap) (states : list string) : list StateMap * bool :=
  let newStates := List.filter (fun s => negb (existsb (fun sm => String.eqb (sm_url sm) s) stateMap)) states in
  let kept := List.filter (fun sm => contains states (sm_url sm)) stateMap in
  let removed := (length stateMap - length kept)%nat in
  (kept ++ NewStateMap newStates, (0 <? length newStates)%nat || (0 <? removed)%nat).

(* ------------------------------------------------------------------ *)
(** ** What changed in a group *)

Definition entity_key (e : Entity) : string := (en_Name e +:+ "|" +:+ en_Tag e)%string.

Section Changes.
Context `{RangeOrder}.

(** The loop over the new entities: what is left of the lookup map, what to
    delete and what to replicate *)
Fixpoint compare (news : list Entity) (oldMap : gmap string Entity)
    : gmap string Entity * list Entity * list Entity :=
  match news with
  | [] => (oldMap, [], [])
  | e :: news' =>
      let key := entity_key e in
      let '(rest, del, rep) := compare news' (delete key oldMap) in
      match oldMap !! key with
      | None => (rest, del, e :: rep)
      | Some old =>
          if String.eqb (en_Digest e) (en_Digest old) then (rest, del, rep)
          else (rest, old :: del, e :: rep)
      end
  end.

(** A later entity with the same key replaces an earlier one. *)
Definition lookup_map (olds : list Entity) : gmap string Entity :=
  foldl (fun m e => <[entity_key e := e]> m) ∅ olds.

(** To delete, to replicate, and the state without the untagged artifacts *)
Definition GetChanges (newState : State) (oldEntities : option (list Entity))
    : list Entity * list Entity * State :=
  let newState := RemoveNullTagArtifacts newState in
  let newEntities := slice (FetchEntitiesFromState newState) in
  match oldEntities with
  | None => ([], newEntities, newState)
  | Some olds =>
      let '(rest, del, rep) := compare newEntities (lookup_map olds) in
      (del ++ (range false "" rest).*2, rep, newState)
  end.

End Changes.

(* ------------------------------------------------------------------ *)
(** ** Harbor registry override *)

Section Override.
Context `{NetUrl}.

(** config.ReplaceURLHost; [None] is an error. *)
Definition ReplaceURLHost (raw override : string) : option string :=
  match Parse override, Parse raw with
  | inr o, inr u => Some (url_string (with_origin (url_scheme o) (url_host o) u))
  | _, _ => None
  end.

Definition applyHarborOverrideToSatelliteState (s : SatelliteState) (override : string)
    : option SatelliteState :=
  states ← match ss_States s with
           | None => Some None
           | Some l => Some <$> mapM (fun u => ReplaceURLHost u override) l
           end;
  config ← (if String.eqb (ss_Config s) "" then Some "" else ReplaceURLHost (ss_Config s) override);
  Some (mkSatelliteState states config).

End Override.
