(* ===== verification/StateFacts.v ===== *)
(** * Properties of the desired-state functions

    Which groups are followed after an update, and that the changes computed
    for a group, applied to what it had, give exactly what it should have. *)

From stdpp Require Import gmap.
From Stdlib Require Import Ascii.
From S2P Require Import Prelude Utf8 GoLib Json SatState.

#[local] Open Scope string_scope.
#[local] Open Scope list_scope.

(* ------------------------------------------------------------------ *)
(** ** Groups *)

Lemma contains_spec l x : contains l x = true <-> x ∈ l.
Proof.
  unfold contains. rewrite List.existsb_exists. setoid_rewrite <- list_elem_of_In.
  split; [|by exists x; rewrite String.eqb_refl].
  intros (y & Hy & E). apply String.eqb_eq in E. by subst.
Qed.

Lemma followed_spec stateMap s :
  existsb (fun sm => String.eqb (sm_url sm) s) stateMap = true <-> s ∈ (sm_url <$> stateMap).
Proof.
  rewrite List.existsb_exists, list_elem_of_fmap. setoid_rewrite <- list_elem_of_In.
  split; intros (sm & H1 & H2).
  - apply String.eqb_eq in H1 || apply String.eqb_eq in H2. exists sm. by split.
  - exists sm. subst. by rewrite String.eqb_refl.
Qed.

Lemma kept_all {A} (f : A -> bool) l :
  (length l - length (List.filter f l) = 0)%nat <-> Forall (fun x => f x = true) l.
Proof.
  induction l as [|x l IH]; cbn [List.filter length]; [done|].
  pose proof (List.filter_length_le f l). rewrite Forall_cons. destruct (f x); cbn [length].
  - rewrite <- IH. split; [intros; split; [done|lia]|intros [_ ?]; lia].
  - split; [lia|by intros [? _]].
Qed.

Lemma filter_all {A} (f : A -> bool) l : Forall (fun x => f x = true) l -> List.filter f l = l.
Proof. induction 1 as [|x l Hx _ IH]; cbn; [done|]. by rewrite Hx, IH. Qed.

(** After an update exactly the groups of the satellite's state are
    followed; a group that stays keeps its entities and the relative order is
    kept, a new one starts with none; the returned flag says whether a group
    was added or dropped. *)
Theorem update_state_map_correct stateMap states stateMap' changed :
  updateStateMap stateMap states = (stateMap', changed) ->
  (forall u, u ∈ (sm_url <$> stateMap') <-> u ∈ states) /\
  (exists kept added, stateMap' = kept ++ added /\ kept `sublist_of` stateMap /\
     (forall sm, sm ∈ stateMap -> sm_url sm ∈ states -> sm ∈ kept) /\
     forall sm, sm ∈ added -> sm_Entities sm = None /\ sm_State sm = None /\
       sm_url sm ∉ (sm_url <$> stateMap)) /\
  (changed = false <-> stateMap' = stateMap /\ forall u, u ∈ states -> u ∈ (sm_url <$> stateMap)).
Proof.
  unfold updateStateMap. intros [= <- <-].
  set (new := List.filter (fun s => negb (existsb (fun sm => String.eqb (sm_url sm) s) stateMap)) states).
  set (kept := List.filter (fun sm => contains states (sm_url sm)) stateMap).
  assert (forall s, s ∈ new <-> s ∈ states /\ s ∉ (sm_url <$> stateMap)) as Hnew.
  { intros s. unfold new. rewrite list_elem_of_In, List.filter_In, <- list_elem_of_In.
    rewrite negb_true_iff, <- not_true_iff_false, followed_spec. done. }
  assert (forall sm, sm ∈ kept <-> sm ∈ stateMap /\ sm_url sm ∈ states) as Hkept.
  { intros sm. unfold kept. by rewrite list_elem_of_In, List.filter_In, <- list_elem_of_In, contains_spec. }
  split_and!.
  - intros u. rewrite fmap_app, elem_of_app, !list_elem_of_fmap. split.
    + intros [(sm & -> & Hs)|(sm & -> & Hs)]; [by apply Hkept in Hs as [_ ?]|].
      apply list_elem_of_fmap in Hs as (s & -> & Hs). by apply Hnew in Hs as [? _].
    + intros Hu. destruct (decide (u ∈ (sm_url <$> stateMap))) as [Hin|Hin].
      * left. apply list_elem_of_fmap in Hin as (sm & -> & Hs). exists sm. split; [done|]. by apply Hkept.
      * right. exists (mkStateMap u None None). split; [done|]. apply list_elem_of_fmap.
        exists u. split; [done|]. by apply Hnew.
  - exists kept, (NewStateMap new). split_and!; [done|apply List_filter_sublist| |].
    + intros sm Hs Hu. by apply Hkept.
    + intros sm Hs. apply list_elem_of_fmap in Hs as (s & -> & Hs). cbn. by apply Hnew in Hs as [_ ?].
  - rewrite orb_false_iff, !Nat.ltb_ge, !Nat.le_0_r.
    assert ((length new = 0)%nat <-> forall u, u ∈ states -> u ∈ (sm_url <$> stateMap)) as Hn.
    { rewrite length_zero_iff_nil. split.
      - intros E u Hu. destruct (decide (u ∈ (sm_url <$> stateMap))) as [|Hx]; [done|].
        assert (u ∈ new) as Hc by (by apply Hnew). rewrite E in Hc. by apply elem_of_nil in Hc.
      - intros Hall. destruct new as [|s l]; [done|].
        destruct (proj1 (Hnew s) ltac:(left)) as [H1 H2]. by destruct H2; apply Hall. }
    pose proof (kept_all (fun sm => contains states (sm_url sm)) stateMap) as Hk0. fold kept in Hk0.
    rewrite Hn, Hk0. split.
    + intros [Ha Hk]. split; [|done]. apply Hn, length_zero_iff_nil in Ha. rewrite Ha.
      cbn. rewrite app_nil_r. by apply filter_all.
    + intros [E Ha]. split; [done|]. apply Forall_forall. intros sm Hs. apply contains_spec.
      rewrite <- E in Hs. apply elem_of_app in Hs as [Hs|Hs]; [by apply Hkept in Hs as [_ Hs]|].
      apply list_elem_of_fmap in Hs as (s & -> & Hs). cbn. by apply Hnew in Hs as [Hs _].
Qed.

(* ------------------------------------------------------------------ *)
(** ** Changes of a group *)

Section Changes.
Context `{RangeOrder}.

Definition keys (l : list Entity) : list string := entity_key <$> l.

Lemma lookup_map_app l1 l2 k :
  lookup_map (l1 ++ l2) !! k = match lookup_map l2 !! k with Some e => Some e | None => lookup_map l1 !! k end.
Proof.
  unfold lookup_map. rewrite foldl_app. generalize (foldl (fun m e => <[entity_key e := e]> m) (∅ : gmap string Entity) l1) as m.
  induction l2 as [|e l2 IH] using rev_ind; intros m; [done|].
  rewrite !foldl_snoc. destruct (decide (entity_key e = k)) as [<-|Hne].
  - by rewrite !lookup_insert_eq.
  - rewrite !lookup_insert_ne by done. apply IH.
Qed.

Lemma lookup_map_elem l k e : lookup_map l !! k = Some e -> e ∈ l /\ entity_key e = k.
Proof.
  induction l as [|x l IH] using rev_ind; [done|]. rewrite lookup_map_app.
  unfold lookup_map at 1. cbn. destruct (decide (entity_key x = k)) as [<-|Hne].
  - rewrite lookup_insert_eq. intros [= ->]. set_solver.
  - rewrite lookup_insert_ne, lookup_empty by done. intros E. apply IH in E. set_solver.
Qed.

Lemma lookup_map_none l k : lookup_map l !! k = None -> k ∉ keys l.
Proof.
  induction l as [|x l IH] using rev_ind; [intros _ Hk; by apply elem_of_nil in Hk|].
  rewrite lookup_map_app. unfold lookup_map at 1, keys. cbn. rewrite fmap_app, elem_of_app.
  destruct (decide (entity_key x = k)) as [<-|Hne]; [by rewrite lookup_insert_eq|].
  rewrite lookup_insert_ne, lookup_empty by done. intros E [Hk|Hk]; [by apply IH in E|].
  apply list_elem_of_singleton in Hk. by subst.
Qed.

(** With distinct keys the lookup map is the list. *)
Lemma lookup_map_spec l e : NoDup (keys l) -> lookup_map l !! entity_key e = Some e <-> e ∈ l.
Proof.
  intros Hn. split; [by intros [? _]%lookup_map_elem|]. intros He.
  destruct (lookup_map l !! entity_key e) as [e'|] eqn:E.
  - apply lookup_map_elem in E as [He' Ek]. f_equal. by eapply NoDup_fmap_inj.
  - apply lookup_map_none in E. destruct E. by apply list_elem_of_fmap_2.
Qed.

(** What [compare] leaves, deletes and replicates *)
Lemma compare_rest news m rest del rep k :
  compare news m = (rest, del, rep) ->
  rest !! k = if decide (k ∈ keys news) then None else m !! k.
Proof.
  revert m rest del rep. induction news as [|e news IH]; intros m rest del rep E; cbn in E.
  { simplify_eq. by rewrite decide_False by (by intros ?%elem_of_nil). }
  destruct (compare news (delete (entity_key e) m)) as [[rest' del'] rep'] eqn:E'.
  assert (rest = rest') as -> by (repeat case_match; by simplify_eq).
  rewrite (IH _ _ _ _ E'). unfold keys. rewrite fmap_cons.
  destruct (decide (k = entity_key e)) as [->|Hne].
  - rewrite lookup_delete_eq. repeat case_decide; set_solver.
  - rewrite lookup_delete_ne by done. repeat case_decide; set_solver.
Qed.

Lemma compare_changed news m rest del rep :
  NoDup (keys news) -> compare news m = (rest, del, rep) ->
  (forall o, o ∈ del <-> exists e, e ∈ news /\ m !! entity_key e = Some o /\ en_Digest e <> en_Digest o) /\
  (forall e, e ∈ rep <-> e ∈ news /\ forall o, m !! entity_key e = Some o -> en_Digest e <> en_Digest o).
Proof.
  revert m rest del rep. induction news as [|e news IH]; intros m rest del rep Hn E; cbn in E.
  { simplify_eq. split; intros x; (split; [by intros ?%elem_of_nil|]).
    - intros (? & ?%elem_of_nil & _). done.
    - by intros [?%elem_of_nil _]. }
  apply NoDup_cons in Hn as [Hfresh Hn].
  destruct (compare news (delete (entity_key e) m)) as [[rest' del'] rep'] eqn:E'.
  destruct (IH _ _ _ _ Hn E') as [IHd IHr].
  assert (forall x, x ∈ news -> delete (entity_key e) m !! entity_key x = m !! entity_key x) as Hm.
  { intros x Hx. apply lookup_delete_ne. intros Ek. apply Hfresh. fold (keys news). rewrite Ek.
    by apply list_elem_of_fmap_2. }
  assert (forall o, (exists x, x ∈ news /\ delete (entity_key e) m !! entity_key x = Some o /\ en_Digest x <> en_Digest o) <->
                    exists x, x ∈ news /\ m !! entity_key x = Some o /\ en_Digest x <> en_Digest o) as Hd.
  { intros o. split; intros (x & Hx & Hr); exists x; (split; [done|]); [rewrite <- (Hm x Hx)|rewrite (Hm x Hx)]; done. }
  setoid_rewrite Hd in IHd. clear Hd.
  assert (forall x, x ∈ rep' <-> x ∈ news /\ forall o, m !! entity_key x = Some o -> en_Digest x <> en_Digest o) as IHr'.
  { intros x. rewrite IHr. split; intros [Hx Ho]; (split; [done|]); intros o; [rewrite <- (Hm x Hx)|rewrite (Hm x Hx)]; apply Ho. }
  clear IHr. destruct (m !! entity_key e) as [o|] eqn:Eo.
  - destruct (String.eqb_spec (en_Digest e) (en_Digest o)) as [Ed|Ed]; simplify_eq; split; intros x.
    + rewrite IHd. split; [set_solver|]. intros (y & [->|Hy]%elem_of_cons & Hy2); [naive_solver|by exists y].
    + rewrite IHr', elem_of_cons. split; [by intros [? ?]; auto|]. intros [[->|Hx] Ho]; [|done].
      by destruct (Ho o).
    + rewrite elem_of_cons, IHd. split.
      * intros [->|(y & Hy & Hy2)]; [exists e; by split_and!; [left|..]|]. exists y. split; [by right|done].
      * intros (y & [->|Hy]%elem_of_cons & Hy2); [naive_solver|]. right. by exists y.
    + rewrite !elem_of_cons, IHr'. split; [|naive_solver].
      intros [->|[Hx Ho]]; (split; [by auto|]); [|done]. intros o' Ho'. congruence.
  - simplify_eq. split; intros x.
    + rewrite IHd. split; [set_solver|]. intros (y & [->|Hy]%elem_of_cons & Hy2); [naive_solver|by exists y].
    + rewrite !elem_of_cons, IHr'. split; [|naive_solver].
      intros [->|[Hx Ho]]; (split; [by auto|]); [|done]. intros o' Ho'. congruence.
Qed.

Lemma compare_del_NoDup news m rest del rep :
  compare news m = (rest, del, rep) -> (forall k o, m !! k = Some o -> entity_key o = k) ->
  NoDup del /\ forall o, o ∈ del -> entity_key o ∈ keys news.
Proof.
  revert m rest del rep. induction news as [|e news IH]; intros m rest del rep E Hm; cbn in E.
  { simplify_eq. split; [constructor|]. by intros o ?%elem_of_nil. }
  destruct (compare news (delete (entity_key e) m)) as [[rest' del'] rep'] eqn:E'.
  assert (forall k o, delete (entity_key e) m !! k = Some o -> entity_key o = k) as Hm'.
  { intros k o Hk. apply lookup_delete_Some in Hk as [_ Hk]. by apply Hm. }
  destruct (IH _ _ _ _ E' Hm') as [Hn Hk]. 
  assert (forall o, o ∈ del' -> entity_key o <> entity_key e) as Hne.
  { clear -E' Hm'. revert E' Hm'. generalize (delete (entity_key e) m) (lookup_delete_eq m (entity_key e)).
    generalize (entity_key e) as k. clear. intros k m Hk E Hm o Ho Ek.
    enough (exists k', m !! k' = Some o) as [k' Hk'] by (apply Hm in Hk' as Hk2; subst; congruence).
    clear Hk Ek k Hm. revert m rest' del' rep' E Ho. induction news as [|e news IH]; intros m rest del rep E Ho; cbn in E.
    { simplify_eq. by apply elem_of_nil in Ho. }
    destruct (compare news (delete (entity_key e) m)) as [[rest' del'] rep'] eqn:E'.
    assert (o ∈ del' \/ m !! entity_key e = Some o) as [Hd|]; [|..|by eexists].
    { repeat case_match; simplify_eq; try (by left); apply elem_of_cons in Ho as [->|]; auto. }
    destruct (IH _ _ _ _ E' Hd) as [k Hk]. apply lookup_delete_Some in Hk as [_ Hk]. by eexists. }
  assert (del = del' \/ exists o, m !! entity_key e = Some o /\ del = o :: del') as [->|(o & Ho & ->)].
  { repeat case_match; simplify_eq; eauto. }
  - split; [done|]. intros o Ho. right. by apply Hk.
  - split.
    + apply NoDup_cons. split; [|done]. intros Hin. apply Hne in Hin. by apply Hm in Ho.
    + intros o' [->|Ho']%elem_of_cons; [apply Hm in Ho as ->; by left|right; by apply Hk].
Qed.

Lemma elem_of_rest (m : gmap string Entity) o :
  (forall k o', m !! k = Some o' -> entity_key o' = k) ->
  o ∈ (range false "" m).*2 <-> m !! entity_key o = Some o.
Proof.
  intros Hm. rewrite list_elem_of_fmap. split.
  - intros ([k o'] & -> & Hr). cbn. rewrite (range_perm _ _ _ m) in Hr.
    apply elem_of_map_to_list in Hr. by rewrite (Hm _ _ Hr).
  - intros Ho. exists (entity_key o, o). split; [done|]. rewrite (range_perm _ _ _ m).
    by apply elem_of_map_to_list.
Qed.

Lemma NoDup_rest (m : gmap string Entity) :
  (forall k o, m !! k = Some o -> entity_key o = k) -> NoDup (range false "" m).*2.
Proof.
  intros Hm. apply (NoDup_fmap_1 entity_key). rewrite (range_perm _ _ _ m).
  replace (entity_key <$> (map_to_list m).*2) with (map_to_list m).*1; [apply NoDup_fst_map_to_list|].
  rewrite <- list_fmap_compose. apply list_fmap_ext. intros i [k o] Hi. cbn. symmetry.
  apply Hm, elem_of_map_to_list. by eapply list_elem_of_lookup_2.
Qed.

(** The difference of two lists of entities with distinct keys *)
Lemma GetChanges_diff newState olds del rep newState' :
  GetChanges newState (Some olds) = (del, rep, newState') ->
  let news := slice (FetchEntitiesFromState newState') in
  NoDup (keys olds) -> NoDup (keys news) ->
  newState' = RemoveNullTagArtifacts newState /\ NoDup del /\
  (forall o, o ∈ del <-> o ∈ olds /\ forall n, n ∈ news -> entity_key n = entity_key o -> en_Digest n <> en_Digest o) /\
  (forall n, n ∈ rep <-> n ∈ news /\ forall o, o ∈ olds -> entity_key o = entity_key n -> en_Digest n <> en_Digest o).
Proof.
  unfold GetChanges. set (news := slice (FetchEntitiesFromState (RemoveNullTagArtifacts newState))).
  destruct (compare news (lookup_map olds)) as [[rest d] r] eqn:E. intros [= <- <- <-].
  fold news. cbn zeta. intros Ho Hn. split; [done|].
  assert (forall k o, lookup_map olds !! k = Some o -> entity_key o = k) as Hk
    by (intros k o Hko; by apply lookup_map_elem in Hko as [_ ?]).
  assert (forall k o, rest !! k = Some o -> entity_key o = k) as Hkr.
  { intros k o Hko. rewrite (compare_rest _ _ _ _ _ k E) in Hko. case_decide; [done|]. by apply Hk. }
  destruct (compare_changed _ _ _ _ _ Hn E) as [Hd Hr].
  destruct (compare_del_NoDup _ _ _ _ _ E Hk) as [Hnd Hdk].
  assert (forall o, o ∈ (range false "" rest).*2 <-> o ∈ olds /\ entity_key o ∉ keys news) as Hrest.
  { intros o. rewrite elem_of_rest by done. rewrite (compare_rest _ _ _ _ _ (entity_key o) E).
    case_decide as Hin; [naive_solver|]. rewrite lookup_map_spec by done. naive_solver. }
  split_and!.
  - apply NoDup_app. split_and!; [done| |by apply NoDup_rest].
    intros o Hin Hr2. apply Hrest in Hr2 as [_ Hx]. by apply Hx, Hdk.
  - intros o. rewrite elem_of_app, Hd, Hrest. split.
    + intros [(e & He & Hm & Hne)|[Hin Hx]].
      * apply lookup_map_elem in Hm as [Hin Ek]. split; [done|]. intros n Hnn En.
        assert (n = e) as -> by (eapply NoDup_fmap_inj; [exact Hn|done..|congruence]). done.
      * split; [done|]. intros n Hnn En. destruct Hx. rewrite <- En. by apply list_elem_of_fmap_2.
    + intros [Hin Hx]. destruct (decide (entity_key o ∈ keys news)) as [Hk2|Hk2]; [left|right; done].
      apply list_elem_of_fmap in Hk2 as (e & Ek & He). exists e. split_and!; [done| |by apply Hx].
      rewrite <- Ek. by apply lookup_map_spec.
  - intros n. rewrite Hr. split; intros [Hin Hx]; (split; [done|]); intros o Hoo.
    + intros Ek. apply Hx. rewrite <- Ek. by apply lookup_map_spec.
    + apply lookup_map_elem in Hoo as [Hoo Ek]. by apply Hx.
Qed.

(** *** Images: what a registry holds an entity under *)
Definition image_of (e : Entity) : string * string * string := (en_Repository e, en_Name e, en_Tag e).

(** The key tells images apart. *)
Definition coherent (l : list Entity) : Prop :=
  forall e e', e ∈ l -> e' ∈ l -> entity_key e = entity_key e' -> image_of e = image_of e'.

Lemma changes_difference newState olds del rep newState' :
  GetChanges newState (Some olds) = (del, rep, newState') ->
  let news := slice (FetchEntitiesFromState newState') in
  NoDup (keys olds) -> NoDup (keys news) -> coherent (olds ++ news) ->
  NoDup del /\
  (forall i, (i ∈ (image_of <$> olds) /\ i ∉ (image_of <$> del)) \/ i ∈ (image_of <$> rep) <->
             i ∈ (image_of <$> news)) /\
  (forall o n, o ∈ olds -> n ∈ news -> image_of o = image_of n -> en_Digest o = en_Digest n ->
     o ∉ del /\ n ∉ rep) /\
  (forall n, n ∈ news -> n ∉ rep -> exists o, o ∈ olds /\ o ∉ del /\ image_of o = image_of n /\ en_Digest o = en_Digest n).
Proof.
  intros E news Ho Hn Hc. destruct (GetChanges_diff _ _ _ _ _ E Ho Hn) as (_ & Hnd & Hd & Hr).
  fold news in Hd, Hr.
  assert (forall o n, o ∈ olds -> n ∈ news -> entity_key o = entity_key n -> image_of o = image_of n) as Hcn
    by (intros o n Ho' Hn'; apply Hc; set_solver).
  assert (forall e e', image_of e = image_of e' -> entity_key e = entity_key e') as Hik
    by (intros e e' [= _ E1 E2]; unfold entity_key; by rewrite E1, E2).
  assert (forall n, n ∈ news -> n ∉ rep -> exists o, o ∈ olds /\ o ∉ del /\ image_of o = image_of n /\ en_Digest o = en_Digest n) as Hkeep.
  { intros n Hnn Hnr.
    destruct (List.find (fun o => String.eqb (entity_key o) (entity_key n)) olds) as [o|] eqn:Ef.
    - apply find_Some_elem in Ef as [Hoo Ek]. apply String.eqb_eq in Ek.
      destruct (decide (en_Digest n = en_Digest o)) as [Ed|Ed].
      + exists o. split_and!; [done| |by apply Hcn|done]. intros Hin. apply Hd in Hin as [_ Hx].
        by destruct (Hx n Hnn).
      + destruct Hnr. apply Hr. split; [done|]. intros o' Ho' Ek'.
        assert (o' = o) as -> by (eapply NoDup_fmap_inj; [exact Ho|done..|congruence]). done.
    - destruct Hnr. apply Hr. split; [done|]. intros o Hoo Ek.
      pose proof (find_None_elem _ _ _ Ef Hoo) as Hf. cbn in Hf. by apply String.eqb_neq in Hf. }
  split_and!; [done| | |done].
  - intros i. rewrite !list_elem_of_fmap. split.
    + intros [[(o & -> & Hoo) Hnd']|(n & -> & Hnr)].
      * assert (exists n, n ∈ news /\ entity_key n = entity_key o /\ en_Digest n = en_Digest o) as (n & Hnn & Ek & _).
        { destruct (decide (Exists (fun n => entity_key n = entity_key o /\ en_Digest n = en_Digest o) news)) as [Hx|Hx].
          - apply Exists_exists in Hx as (n & ? & ? & ?). by exists n.
          - destruct Hnd'. exists o. split; [done|]. apply Hd. split; [done|]. intros n Hnn Ek Ed.
            apply Hx, Exists_exists. by exists n. }
        exists n. split; [|done]. by apply Hcn.
      * exists n. split; [done|]. by apply Hr in Hnr as [? _].
    + intros (n & -> & Hnn). destruct (decide (n ∈ rep)) as [Hin|Hin]; [right; by exists n|].
      destruct (Hkeep n Hnn Hin) as (o & Hoo & Hod & Ei & _). left. split; [by exists o|].
      intros (o' & Ei' & Ho'). apply Hd in Ho' as Ho''. destruct Ho'' as [Hoo' _].
      assert (o' = o) as -> by (eapply NoDup_fmap_inj; [exact Ho|done..|apply Hik; congruence]). done.
  - intros o n Hoo Hnn Ei Ed. apply Hik in Ei. split.
    + intros Hin. apply Hd in Hin as [_ Hx]. by apply (Hx n Hnn).
    + intros Hin. apply Hr in Hin as [_ Hx]. by apply (Hx o Hoo).
Qed.

(** C19. The changes computed for a group are its difference: when names and
    tags tell the images of the group apart, deleting the entities to delete
    from what the group had and adding those to replicate gives exactly the
    images of the new state; no entity is deleted twice; an image that stays
    with the same digest is neither deleted nor replicated; and whatever is
    not replicated was there with the digest the new state asks for. *)
Theorem changes_are_the_difference newState olds del rep newState' :
  GetChanges newState (Some olds) = (del, rep, newState') ->
  let news := slice (FetchEntitiesFromState newState') in
  NoDup (keys olds) -> NoDup (keys news) -> coherent (olds ++ news) ->
  NoDup del /\
  (forall i, (i ∈ (image_of <$> olds) /\ i ∉ (image_of <$> del)) \/ i ∈ (image_of <$> rep) <->
             i ∈ (image_of <$> news)) /\
  (forall o n, o ∈ olds -> n ∈ news -> image_of o = image_of n -> en_Digest o = en_Digest n ->
     o ∉ del /\ n ∉ rep) /\
  (forall n, n ∈ news -> n ∉ rep -> exists o, o ∈ olds /\ o ∉ del /\ image_of o = image_of n /\ en_Digest o = en_Digest n).
Proof. exact (changes_difference newState olds del rep newState'). Qed.

(** The images, also when nothing is recorded *)
Lemma changes_images newState old del rep newState' :
  GetChanges newState old = (del, rep, newState') ->
  let olds := slice old in let news := slice (FetchEntitiesFromState newState') in
  NoDup (keys olds) -> NoDup (keys news) -> coherent (olds ++ news) ->
  (forall e, e ∈ del -> e ∈ olds) /\
  (forall i, (i ∈ (image_of <$> olds) /\ i ∉ (image_of <$> del)) \/ i ∈ (image_of <$> rep) <->
             i ∈ (image_of <$> news)).
Proof.
  destruct old as [olds|]; intros E olds' news Ho Hn Hc.
  - destruct (GetChanges_diff _ _ _ _ _ E Ho Hn) as (_ & _ & Hd & _).
    split; [intros e He; by apply Hd|]. apply (changes_difference _ _ _ _ _ E Ho Hn Hc).
  - unfold GetChanges in E. simplify_eq. split; [by intros e ?%elem_of_nil|].
    intros i. cbn. split; [intros [[?%elem_of_nil _]|Hi]; done|auto].
Qed.

(** Without that condition the difference is wrong: an image that moves to
    another project of the registry under the same name and tag, with the same
    digest, is taken for unchanged and never replicated from there. *)
Theorem project_move_missed :
  let old := [mkEntity "app" "team-a" "v1" "sha256:1"] in
  let new := mkState "harbor.example" (Some [mkArtifact "team-b" (Some ["v1"]) None "" "sha256:1" false "app"]) in
  GetChanges new (Some old) = ([], [], new) /\
  (image_of <$> slice (FetchEntitiesFromState new)) = [("team-b", "app", "v1")] /\
  ~ coherent (old ++ slice (FetchEntitiesFromState new)).
Proof.
  cbn zeta. split_and!; [|done|].
  - unfold GetChanges. cbn -[range]. f_equal. f_equal.
    apply Permutation_nil. rewrite (range_perm _ _ _ _). done.
  - intros Hc. specialize (Hc (mkEntity "app" "team-a" "v1" "sha256:1") (mkEntity "app" "team-b" "v1" "sha256:1")).
    by discriminate Hc; [left|right; left|].
Qed.

End Changes.

Section Witnesses.
#[local] Instance demo_range : RangeOrder := key_order.

Definition demo_old : list Entity :=
  [mkEntity "app" "team" "v1" "sha256:1"; mkEntity "db" "team" "v1" "sha256:2"; mkEntity "web" "team" "v1" "sha256:3"].
Definition demo_new : State :=
  mkState "harbor.example" (Some [
    mkArtifact "team" (Some ["v1"; "v2"]) None "" "sha256:1" false "app";
    mkArtifact "team" (Some ["v1"]) None "" "sha256:4" false "db";
    mkArtifact "team" None None "" "sha256:5" false "tmp"]).

Lemma changes_are_the_difference_witness :
  exists del rep st, GetChanges demo_new (Some demo_old) = (del, rep, st) /\
    (en_Name <$> del) = ["db"; "web"] /\ (image_of <$> rep) = [("team", "app", "v2"); ("team", "db", "v1")] /\
    NoDup del.
Proof.
  eexists _, _, _. split; [vm_compute; reflexivity|]. split; [done|]. split; [done|].
  eapply (changes_are_the_difference demo_new demo_old); [vm_compute; reflexivity|..].
  - apply (bool_decide_unpack _). vm_compute. done.
  - apply (bool_decide_unpack _). vm_compute. done.
  - intros e e' He He'. repeat (apply elem_of_cons in He as [->|He]; [|]); try by apply elem_of_nil in He.
    all: repeat (apply elem_of_cons in He' as [->|He']; [vm_compute; (reflexivity || discriminate)|]); by apply elem_of_nil in He'.
Defined.

Lemma update_state_map_correct_witness :
  exists m, updateStateMap [mkStateMap "a" None (Some demo_old); mkStateMap "b" None None] ["c"; "a"] = (m, true) /\
    (forall u, u ∈ (sm_url <$> m) <-> u ∈ ["c"; "a"]).
Proof.
  eexists. split; [vm_compute; reflexivity|].
  eapply (update_state_map_correct [mkStateMap "a" None (Some demo_old); mkStateMap "b" None None] ["c"; "a"]).
  vm_compute. reflexivity.
Defined.

End Witnesses.
