(* ===== verification/SatWorld.v ===== *)
(** * The satellite and what is around it

    The operations the satellite's goroutines perform: on files, on the
    network (registries through go-containerregistry, Ground Control and the
    local registry through net/http, the SPIRE agent), on the context, on the
    audit log, on the ConfigManager and on the processes' fields.  The network
    is the parameter [Registries]: an arbitrary state with an arbitrary
    reaction to each request.  What is relied on of the registries is
    [LocalRegistry].

    A block under a mutex is one operation ([Locked]): the other goroutines
    that take the mutex cannot run inside it, and what it touches is not
    touched outside it.  Every file operation may fail ([sw_fault]). *)

From stdpp Require Import gmap.
From Stdlib Require Import Ascii SpecFloat.
From S2P Require Import Prelude Free Utf8 GoLib Json SatConfig AuditTrail SatState.

#[local] Open Scope string_scope.

(* ------------------------------------------------------------------ *)
(** ** Registries *)

(** The options of crane and remote: credentials, an insecure name, the
    transport that forces plain HTTP *)
Record RegOptions := mkRegOptions {
  ro_username : string; ro_password : string; ro_insecure : bool; ro_http : bool }.

(** What the program looks at of an x509.Certificate *)
Inductive PublicKey := EcdsaKey (k : string) | RsaKey (k : string) | Ed25519Key (k : string) | OtherKey (k : string).

Record X509Cert := mkX509Cert {
  xc_NotBefore : Z; xc_NotAfter : Z; xc_PublicKey : PublicKey; xc_Subject : string; xc_Issuer : string;
  xc_DNSNames : list string }.

(** tls.Certificate: a PEM pair from files, or a chain with a hardware signer *)
Inductive Certificate :=
| PEMPair (cert key : string)
| SignedChain (blocks : list string) (signer : PublicKey) (leaf : X509Cert).

(** tls.Config of a client; a CA pool is the text it was loaded from. *)
Record TLSClient := mkTLSClient {
  tc_ServerName : string; tc_InsecureSkipVerify : bool; tc_Certificate : option Certificate;
  tc_RootCAs : option string }.

(** http.Client: with its own transport, as the SPIFFE client makes it for the
    expected server, or the zero value with a timeout *)
Inductive HttpClient :=
| TLSHttpClient (tls : option TLSClient)
| SpiffeHttpClient (socket : string) (expectedServerID : option string)
| DefaultHttpClient.

Record HttpRequest := mkHttpRequest {
  rq_Method : string; rq_URL : string; rq_ContentType : string; rq_BasicAuth : option (string * string);
  rq_Body : string }.

(** Of the headers, the one the client acts on *)
Record HttpResponse := mkHttpResponse {
  rs_StatusCode : Z; rs_Status : string; rs_Location : string; rs_Body : string }.

(** An image is a lazy handle: its manifest and layers are fetched on use. *)
Inductive regop (image : Type) : Type -> Type :=
| CranePull (url : string) (o : RegOptions) : regop image image
| CraneExport (img : image) : regop image (list (string * string) * option string)
    (* the files of the tar archive, and an error after which it cannot be read *)
| CraneDigest (url : string) (o : RegOptions) : regop image string
| CraneDelete (url : string) (o : RegOptions) : regop image unit
| RemoteGet (ref : string) (o : RegOptions) : regop image image
| DescImage (desc : image) : regop image image
| OCIDigest (img : image) : regop image string
    (* of mutate.MediaType(img, OCIManifestSchema1) *)
| OCILayers (img : image) : regop image (list (option string))
| RemoteHead (ref : string) (o : RegOptions) : regop image string
| RemoteImage (ref : string) (o : RegOptions) : regop image image
| ImageLayers (img : image) : regop image (list (option string))
| RemoteWrite (ref : string) (img : image) (o : RegOptions) : regop image unit
| TarballWrite (ref : string) (img : image) : regop image string
| CraneManifest (ref : string) (insecure : bool) : regop image string
| HttpDo (c : HttpClient) (r : HttpRequest) : regop image HttpResponse   (* one round trip *)
| NewX509Source (socket : string) : regop image unit
| GetX509SVID (socket : string) : regop image string.       (* its SPIFFE ID *)
Arguments CranePull {image}. Arguments CraneExport {image}. Arguments CraneDigest {image}.
Arguments CraneDelete {image}. Arguments RemoteGet {image}. Arguments DescImage {image}.
Arguments OCIDigest {image}. Arguments OCILayers {image}. Arguments RemoteHead {image}.
Arguments RemoteImage {image}. Arguments ImageLayers {image}. Arguments RemoteWrite {image}.
Arguments TarballWrite {image}. Arguments CraneManifest {image}. Arguments HttpDo {image}.
Arguments NewX509Source {image}. Arguments GetX509SVID {image}.

Class Registries := {
  reg_state : Type;
  image : Type;
  ParseReference : bool -> string -> option string;   (* name.Insecure; the reference's full name *)
  reg_exec : forall R, regop image R -> reg_state -> reg_state * (string + R) }.

(* ------------------------------------------------------------------ *)
(** ** The ConfigManager and the replication process *)

Record ConfigManager := mkConfigManager {
  cm_config : Config; cm_Token : string; cm_DefaultGroundControlURL : string; cm_JsonLog : bool;
  cm_configPath : string; cm_prevConfigPath : string; cm_encryptEnabled : bool }.

Record DirectDeliverer := mkDirectDeliverer {
  dl_imageDir : string; dl_useUnsecure : bool; dl_srcUsername : string; dl_srcPassword : string;
  dl_srcRegistry : string }.

Record Process := mkProcess {
  fp_isRunning : bool; fp_stateMap : list StateMap; fp_currentConfigDigest : string;
  fp_stateFilePath : string; fp_directDeliverer : option DirectDeliverer }.

Definition set_cm_config (c : Config) (m : ConfigManager) : ConfigManager :=
  mkConfigManager c (cm_Token m) (cm_DefaultGroundControlURL m) (cm_JsonLog m) (cm_configPath m)
    (cm_prevConfigPath m) (cm_encryptEnabled m).

Definition set_running (b : bool) (p : Process) : Process :=
  mkProcess b (fp_stateMap p) (fp_currentConfigDigest p) (fp_stateFilePath p) (fp_directDeliverer p).
Definition set_stateMap (l : list StateMap) (p : Process) : Process :=
  mkProcess (fp_isRunning p) l (fp_currentConfigDigest p) (fp_stateFilePath p) (fp_directDeliverer p).
Definition set_digest (d : string) (p : Process) : Process :=
  mkProcess (fp_isRunning p) (fp_stateMap p) d (fp_stateFilePath p) (fp_directDeliverer p).
Definition set_deliverer (d : option DirectDeliverer) (p : Process) : Process :=
  mkProcess (fp_isRunning p) (fp_stateMap p) (fp_currentConfigDigest p) (fp_stateFilePath p) d.

(** internal/spiffe.Client *)
Record SpiffeClient := mkSpiffeClient {
  sc_socketPath : string; sc_expectedServerID : option string; sc_connected : bool; sc_closed : bool }.

(** ZtrProcess and SpiffeZtrProcess; [zt_Done]: the channel is closed. *)
Record ZtrProcess := mkZtrProcess { zt_isRunning : bool; zt_Done : bool; zt_spiffe : option SpiffeClient }.

Record CRIConfigResult := mkCRIConfigResult {
  cri_CRI : string; cri_Success : bool; cri_BackupPath : string; cri_Error : string }.

Record StatusReportingProcess := mkStatusReportingProcess {
  sp_isRunning : bool; sp_pendingCRI : list CRIConfigResult; sp_criReported : bool;
  sp_spiffe : option SpiffeClient }.

(** The fields of the other processes *)
Record Locals := mkLocals { lo_ztr : ZtrProcess; lo_report : StatusReportingProcess }.

(* ------------------------------------------------------------------ *)
(** ** Operations *)

(** The host at a moment: what gopsutil measures, its directories and
    binaries, and how a command ends *)
Record HostSample := mkHostSample {
  hs_cpu : list spec_float; hs_memory : option Z; hs_disk : string -> option Z;
  hs_isdir : string -> bool; hs_lookpath : string -> bool; hs_run : list string -> result unit }.

(** net.Interface: the flags looked at and HardwareAddr.String() *)
Record NetInterface := mkNetInterface { ni_loopback : bool; ni_up : bool; ni_addr : string }.

(** What a block under a mutex may do *)
Inductive base : Type -> Type :=
| ReadFile (path : string) : base (result string)
| WriteFile (path data : string) : base (result unit)          (* os.WriteFile: truncates, then writes *)
| CreateTemp (dir pattern : string) : base (result string)     (* the new file's path *)
| FileWrite (path data : string) : base (result unit)          (* on an open file *)
| FileSync (path : string) : base (result unit)
| FileClose (path : string) : base (result unit)
| Create (path : string) : base (result unit)                   (* os.Create: open and truncated *)
| MkdirAll (path : string) : base (result unit)
| IsDir (path : string) : base bool
| LookPath (binary : string) : base bool
| RunCommand (args : list string) : base (result unit)
| Rename (from to : string) : base (result unit)
| Remove (path : string) : base (result unit)
| ReadDir (path : string) : base (result (list string))       (* the entries' names *)
| NetInterfaces : base (result (list NetInterface))
| Stat (path : string) : base (result unit)
| TimeNow : base Z
| CpuPercent : base (list spec_float)                           (* over half a second; empty after an error *)
| MemoryUsed : base (option Z)                                  (* bytes; [None] after an error *)
| DiskUsed (path : string) : base (option Z)
| AuditLog (e : AuditEvent) : base unit
| GetLocals : base Locals
| SetLocals (f : Locals -> Locals) : base unit
| Random (n : nat) : base (result (list ascii))
| GetCm : base ConfigManager
| SetCm (f : ConfigManager -> ConfigManager) : base unit
| GetProc : base Process
| SetProc (f : Process -> Process) : base unit.

Section World.
Context `{Registries}.

Inductive sop : Type -> Type :=
| Locked {A} (body : free base A) : sop A
| Registry {R} (o : regop image R) : sop (result R)
| CtxErr : sop (option goerr).                                 (* ctx.Err() *)

Abbreviation act := (free sop).

Record SWorld := mkSWorld {
  sw_files : gmap string string;
  sw_open : list string;                        (* files open for writing *)
  sw_reg : reg_state;
  sw_cm : ConfigManager;
  sw_proc : Process;
  sw_locals : Locals;
  sw_audit : list AuditEvent;
  sw_tick : nat;
  sw_fault : nat -> option (string * nat);      (* a file operation fails, after so many bytes *)
  sw_temp : nat -> string;                      (* the random part of a temporary name *)
  sw_rand : nat -> string + (nat -> ascii);
  sw_dirs : nat -> string -> result (list string);
  sw_nets : nat -> result (list NetInterface);
  sw_clock : nat -> Z;
  sw_host : nat -> HostSample;
  sw_cancelled : nat -> bool }.

Definition s_tick (w : SWorld) : SWorld :=
  mkSWorld (sw_files w) (sw_open w) (sw_reg w) (sw_cm w) (sw_proc w) (sw_locals w) (sw_audit w) (S (sw_tick w))
    (sw_fault w) (sw_temp w) (sw_rand w) (sw_dirs w) (sw_nets w) (sw_clock w) (sw_host w) (sw_cancelled w).
Definition s_files (f : gmap string string) (w : SWorld) : SWorld :=
  mkSWorld f (sw_open w) (sw_reg w) (sw_cm w) (sw_proc w) (sw_locals w) (sw_audit w) (sw_tick w)
    (sw_fault w) (sw_temp w) (sw_rand w) (sw_dirs w) (sw_nets w) (sw_clock w) (sw_host w) (sw_cancelled w).
Definition s_open (l : list string) (w : SWorld) : SWorld :=
  mkSWorld (sw_files w) l (sw_reg w) (sw_cm w) (sw_proc w) (sw_locals w) (sw_audit w) (sw_tick w)
    (sw_fault w) (sw_temp w) (sw_rand w) (sw_dirs w) (sw_nets w) (sw_clock w) (sw_host w) (sw_cancelled w).
Definition s_reg (r : reg_state) (w : SWorld) : SWorld :=
  mkSWorld (sw_files w) (sw_open w) r (sw_cm w) (sw_proc w) (sw_locals w) (sw_audit w) (sw_tick w)
    (sw_fault w) (sw_temp w) (sw_rand w) (sw_dirs w) (sw_nets w) (sw_clock w) (sw_host w) (sw_cancelled w).
Definition s_cm (c : ConfigManager) (w : SWorld) : SWorld :=
  mkSWorld (sw_files w) (sw_open w) (sw_reg w) c (sw_proc w) (sw_locals w) (sw_audit w) (sw_tick w)
    (sw_fault w) (sw_temp w) (sw_rand w) (sw_dirs w) (sw_nets w) (sw_clock w) (sw_host w) (sw_cancelled w).
Definition s_proc (p : Process) (w : SWorld) : SWorld :=
  mkSWorld (sw_files w) (sw_open w) (sw_reg w) (sw_cm w) p (sw_locals w) (sw_audit w) (sw_tick w)
    (sw_fault w) (sw_temp w) (sw_rand w) (sw_dirs w) (sw_nets w) (sw_clock w) (sw_host w) (sw_cancelled w).
Definition s_locals (l : Locals) (w : SWorld) : SWorld :=
  mkSWorld (sw_files w) (sw_open w) (sw_reg w) (sw_cm w) (sw_proc w) l (sw_audit w) (sw_tick w)
    (sw_fault w) (sw_temp w) (sw_rand w) (sw_dirs w) (sw_nets w) (sw_clock w) (sw_host w) (sw_cancelled w).
Definition s_audit (l : list AuditEvent) (w : SWorld) : SWorld :=
  mkSWorld (sw_files w) (sw_open w) (sw_reg w) (sw_cm w) (sw_proc w) (sw_locals w) l (sw_tick w)
    (sw_fault w) (sw_temp w) (sw_rand w) (sw_dirs w) (sw_nets w) (sw_clock w) (sw_host w) (sw_cancelled w).

Definition fault (w : SWorld) : option (string * nat) := sw_fault w (sw_tick w).

Definition join_path (dir name : string) : string :=
  if Go.has_suffix "/" dir then dir +:+ name else dir +:+ "/" +:+ name.

(** The last "*" of the pattern is replaced by the random part. *)
Definition temp_name (pattern rnd : string) : string :=
  match Go.cut "*" pattern with Some (a, b) => a +:+ rnd +:+ b | None => pattern +:+ rnd end.

Definition bad_file {A} (m : string) : result A := inl (PlainErr m).

Definition exec_base {R} (o : base R) (w : SWorld) : SWorld * R :=
  let fs := sw_files w in
  match o in base R return SWorld * R with
  | ReadFile path =>
      (s_tick w, match fault w with
                 | Some (m, _) => bad_file m
                 | None => match fs !! path with Some d => inr d | None => inl NotExist end
                 end)
  | WriteFile path data =>
      match fault w with
      | Some (m, n) => (s_tick (s_files (<[path := Go.take_bytes n data]> fs) w), bad_file m)
      | None => (s_tick (s_files (<[path := data]> fs) w), inr tt)
      end
  | CreateTemp dir pattern =>
      let path := join_path dir (temp_name pattern (sw_temp w (sw_tick w))) in
      match fault w, fs !! path with
      | Some (m, _), _ => (s_tick w, bad_file m)
      | None, Some _ => (s_tick w, bad_file "file exists")
      | None, None => (s_tick (s_open (path :: sw_open w) (s_files (<[path := ""]> fs) w)), inr path)
      end
  | Create path =>
      match fault w with
      | Some (m, _) => (s_tick w, bad_file m)
      | None => (s_tick (s_open (path :: sw_open w) (s_files (<[path := ""]> fs) w)), inr tt)
      end
  | MkdirAll path => (s_tick w, match fault w with Some (m, _) => bad_file m | None => inr tt end)
  | IsDir path => (s_tick w, hs_isdir (sw_host w (sw_tick w)) path)
  | LookPath binary => (s_tick w, hs_lookpath (sw_host w (sw_tick w)) binary)
  | RunCommand args => (s_tick w, hs_run (sw_host w (sw_tick w)) args)
  | FileWrite path data =>
      if bool_decide (path ∈ sw_open w) then
        let old := default "" (fs !! path) in
        match fault w with
        | Some (m, n) => (s_tick (s_files (<[path := old +:+ Go.take_bytes n data]> fs) w), bad_file m)
        | None => (s_tick (s_files (<[path := old +:+ data]> fs) w), inr tt)
        end
      else (s_tick w, bad_file "file already closed")
  | FileSync path =>
      (s_tick w, if bool_decide (path ∈ sw_open w)
                 then match fault w with Some (m, _) => bad_file m | None => inr tt end
                 else bad_file "file already closed")
  | FileClose path =>
      if bool_decide (path ∈ sw_open w)
      then (s_tick (s_open (List.filter (fun p => negb (String.eqb p path)) (sw_open w)) w),
            match fault w with Some (m, _) => bad_file m | None => inr tt end)
      else (s_tick w, bad_file "file already closed")
  | Rename from to =>
      match fault w, fs !! from with
      | Some (m, _), _ => (s_tick w, bad_file m)
      | None, None => (s_tick w, inl NotExist)
      | None, Some d => (s_tick (s_files (<[to := d]> (delete from fs)) w), inr tt)
      end
  | Remove path =>
      match fault w, fs !! path with
      | Some (m, _), _ => (s_tick w, bad_file m)
      | None, None => (s_tick w, inl NotExist)
      | None, Some _ => (s_tick (s_files (delete path fs) w), inr tt)
      end
  | ReadDir path => (s_tick w, sw_dirs w (sw_tick w) path)
  | NetInterfaces => (s_tick w, sw_nets w (sw_tick w))
  | Stat path =>
      (s_tick w, match fault w with
                 | Some (m, _) => bad_file m
                 | None => match fs !! path with Some _ => inr tt | None => inl NotExist end
                 end)
  | TimeNow => (s_tick w, sw_clock w (sw_tick w))
  | CpuPercent => (s_tick w, hs_cpu (sw_host w (sw_tick w)))
  | MemoryUsed => (s_tick w, hs_memory (sw_host w (sw_tick w)))
  | DiskUsed path => (s_tick w, hs_disk (sw_host w (sw_tick w)) path)
  | AuditLog e => (s_tick (s_audit (sw_audit w ++ [e]) w), tt)
  | GetLocals => (s_tick w, sw_locals w)
  | SetLocals f => (s_tick (s_locals (f (sw_locals w)) w), tt)
  | Random n =>
      (s_tick w, match sw_rand w (sw_tick w) with
                 | inl m => bad_file m
                 | inr stream => inr (stream <$> seq 0 n)
                 end)
  | GetCm => (s_tick w, sw_cm w)
  | SetCm f => (s_tick (s_cm (f (sw_cm w)) w), tt)
  | GetProc => (s_tick w, sw_proc w)
  | SetProc f => (s_tick (s_proc (f (sw_proc w)) w), tt)
  end.

(** [stops p P w]: wherever the machine stops while [p] runs from [w], also in
    the middle of writing a file, the world satisfies [P]. *)
Definition mid {R} (o : base R) (P : SWorld -> Prop) (w : SWorld) : Prop :=
  match o with
  | WriteFile path data => forall n, P (s_files (<[path := Go.take_bytes n data]> (sw_files w)) w)
  | FileWrite path data =>
      forall n, P (s_files (<[path := default "" (sw_files w !! path) +:+ Go.take_bytes n data]> (sw_files w)) w)
  | _ => True
  end.

Fixpoint stops {A} (p : free base A) (P : SWorld -> Prop) (w : SWorld) : Prop :=
  P w /\
  match p with
  | Ret _ => True
  | Op o k => mid o P w /\ stops (k (exec_base o w).2) P (exec_base o w).1
  end.

(** *** Power failures

    [sw_files] is what the running programs see.  What the disk holds after a
    power failure can differ: a file that was written and not synced since can
    have any contents, and, as the program never syncs a directory, a name can
    still stand for what it stood for before it was created, replaced or
    removed. *)
Record Cache := mkCache {
  ca_unsynced : string -> Prop;
  ca_before : string -> option string -> Prop }.

(** [path] may hold [d] after a power failure. *)
Definition leaves (w : SWorld) (c : Cache) (path : string) (d : option string) : Prop :=
  d = sw_files w !! path \/ ca_unsynced c path \/ ca_before c path d.

Definition was_there (w : SWorld) (path : string) (c : Cache) : Cache :=
  mkCache (ca_unsynced c) (fun q d => ca_before c q d \/ q = path /\ d = sw_files w !! path).
Definition dirty (path : string) (c : Cache) : Cache :=
  mkCache (fun q => ca_unsynced c q \/ q = path) (ca_before c).
Definition synced (path : string) (c : Cache) : Cache :=
  mkCache (fun q => ca_unsynced c q /\ q <> path) (ca_before c).
Definition moved (from to : string) (c : Cache) : Cache :=
  mkCache (fun q => ca_unsynced c q \/ q = to /\ ca_unsynced c from) (ca_before c).

Definition cached {R} (o : base R) (w : SWorld) (c : Cache) : Cache :=
  match o with
  | WriteFile path _ | FileWrite path _ | Create path => dirty path (was_there w path c)
  | CreateTemp dir pattern =>
      let path := join_path dir (temp_name pattern (sw_temp w (sw_tick w))) in dirty path (was_there w path c)
  | FileSync path =>
      if bool_decide (path ∈ sw_open w) then match fault w with Some _ => c | None => synced path c end else c
  | Rename from to => moved from to (was_there w from (was_there w to c))
  | Remove path => was_there w path c
  | _ => c
  end.

Fixpoint cache_after {A} (p : free base A) (w : SWorld) (c : Cache) : Cache :=
  match p with
  | Ret _ => c
  | Op o k => cache_after (k (exec_base o w).2) (exec_base o w).1 (cached o w c)
  end.

(** [stops] with the cache beside the files *)
Fixpoint power {A} (p : free base A) (P : SWorld -> Cache -> Prop) (w : SWorld) (c : Cache) : Prop :=
  P w c /\
  match p with
  | Ret _ => True
  | Op o k => mid o (fun v => P v (cached o w c)) w /\
              power (k (exec_base o w).2) P (exec_base o w).1 (cached o w c)
  end.

Definition exec_sop {R} (o : sop R) (w : SWorld) : SWorld * R :=
  match o in sop R return SWorld * R with
  | Locked body => frun (@exec_base) body w
  | Registry o =>
      let '(st, x) := reg_exec _ o (sw_reg w) in
      (s_tick (s_reg st w), match x with inl m => inl (PlainErr m) | inr r => inr r end)
  | CtxErr => (s_tick w, if sw_cancelled w (sw_tick w) then Some Canceled else None)
  end.

Definition srun {A} (p : act A) (w : SWorld) : SWorld * A := frun (@exec_sop) p w.

Definition locked {A} (body : free base A) : act A := perform (Locked body).
Definition registry {R} (o : regop image R) : act (result R) := perform (Registry o).
Definition ctx_err : act (option goerr) := perform CtxErr.

End World.

Abbreviation act := (free sop).

(** What is relied on of a registry that holds images under the references in
    [local]: only writes and deletions change what a reference holds, and
    only what the one they name holds; a successful write leaves the digest of
    the image, a successful deletion nothing; and HEAD tells the digest held. *)
Class LocalRegistry `{Registries} (local : string -> Prop) := {
  held : reg_state -> string -> option string;
  oci_digest : image -> string;
  held_other {R} (o : regop image R) st r :
    local r -> match o with RemoteWrite _ _ _ | CraneDelete _ _ => False | _ => True end ->
    held (reg_exec R o st).1 r = held st r;
  held_write r ref img o st : local r -> r <> ref ->
    held (reg_exec _ (RemoteWrite ref img o) st).1 r = held st r;
  held_written ref img o st : local ref ->
    (reg_exec _ (RemoteWrite ref img o) st).2 = inr tt ->
    held (reg_exec _ (RemoteWrite ref img o) st).1 ref = Some (oci_digest img);
  held_delete r url o st : local r -> ParseReference (ro_insecure o) url <> Some r ->
    held (reg_exec _ (CraneDelete url o) st).1 r = held st r;
  held_deleted ref url o st : local ref -> ParseReference (ro_insecure o) url = Some ref ->
    (reg_exec _ (CraneDelete url o) st).2 = inr tt ->
    held (reg_exec _ (CraneDelete url o) st).1 ref = None;
  held_digest img st d : (reg_exec _ (OCIDigest img) st).2 = inr d -> d = oci_digest img;
  held_head ref o st d : local ref ->
    (reg_exec _ (RemoteHead ref o) st).2 = inr d -> held st ref = Some d }.
