(* ===== verification/SatRun.v ===== *)
(** * Runs of the satellite's programs, one at a time

    What a program leaves alone, and rules to run one operation after the
    other: the sequential counterpart of [wp]. *)

From stdpp Require Import gmap relations.
From Stdlib Require Import Ascii.
From S2P Require Import Prelude Free Utf8 GoLib Json SatConfig AuditTrail SatState SatWorld.

#[local] Open Scope string_scope.
#[local] Open Scope list_scope.

Section Run.
Context `{Registries}.

Abbreviation brun := (frun (@exec_base _)).

(** Everything but the number of operations so far *)
Definition core (w : SWorld) :=
  (sw_files w, sw_open w, sw_reg w, sw_cm w, sw_proc w, sw_locals w, sw_audit w).

Definition quiet (w w' : SWorld) : Prop := core w' = core w.

#[export] Instance quiet_preorder : PreOrder quiet.
Proof. split; [by intros w|]. unfold quiet. intros u v w Huv Hvw. by rewrite Hvw. Qed.

Lemma quiet_tick w : quiet w (s_tick w).
Proof. done. Qed.

(** The fields a quiet step keeps *)
Lemma quiet_fields w w' : quiet w w' ->
  sw_files w' = sw_files w /\ sw_reg w' = sw_reg w /\ sw_cm w' = sw_cm w /\ sw_proc w' = sw_proc w /\
  sw_locals w' = sw_locals w /\ sw_audit w' = sw_audit w.
Proof. unfold quiet, core. intros E. by injection E. Qed.

Lemma quiet_tick_files f w w' : quiet w w' -> quiet (s_files f w) (s_tick (s_files f w')).
Proof. unfold quiet, core. intros E. injection E as ??????. cbn. congruence. Qed.

(** Operations that only look *)
Definition looks {R} (o : base R) : bool :=
  match o with
  | ReadFile _ | Stat _ | ReadDir _ | NetInterfaces | TimeNow | MkdirAll _ | IsDir _ | LookPath _ | RunCommand _ | CpuPercent | MemoryUsed | DiskUsed _ | GetLocals | GetCm | GetProc | Random _ => true
  | _ => false
  end.

Definition calm {A} (p : free base A) : Prop := within (@exec_base _) quiet p.
Definition calms {A} (p : act A) : Prop := within (@exec_sop _) quiet p.

Lemma calm_op {R} (o : base R) : looks o = true -> calm (perform o).
Proof. intros Ho. split; [|done]. intros w. destruct o; try discriminate Ho; apply quiet_tick. Qed.

Lemma calm_bind {A B} (m : free base A) (f : A -> free base B) :
  calm m -> (forall a, calm (f a)) -> calm (bind m f).
Proof. apply within_bind. Qed.

Lemma calm_try {A B} (m : free base (result A)) (h : goerr -> free base B) (k : A -> free base B) :
  calm m -> (forall e, calm (h e)) -> (forall a, calm (k a)) -> calm (try m h k).
Proof. intros Hm Hh Hk. apply (calm_bind m); [done|]. intros [e|a]; [apply Hh|apply Hk]. Qed.

Lemma calm_run {A} (p : free base A) w : calm p -> quiet w (brun p w).1.
Proof. apply within_run. typeclasses eauto. Qed.

Lemma calms_locked {A} (p : free base A) : calm p -> calms (locked p).
Proof. intros Hp. split; [|done]. intros w. by apply calm_run. Qed.

Lemma calms_run {A} (p : act A) w : calms p -> quiet w (srun p w).1.
Proof. apply within_run. typeclasses eauto. Qed.

(* ------------------------------------------------------------------ *)
(** ** Wherever the machine stops *)

Lemma stops_bind {A B} (m : free base A) (f : A -> free base B) P w :
  stops m P w -> stops (f (brun m w).2) P (brun m w).1 -> stops (bind m f) P w.
Proof.
  revert w. induction m as [a|R o k IH]; intros w Hm Hf; [done|].
  destruct Hm as (Hw & Hmid & Hm). cbn [bind stops]. split; [done|]. split; [done|].
  cbn [frun] in Hf. destruct (exec_base o w) as [w1 r] eqn:E. by apply IH.
Qed.

Lemma stops_mono {A} (p : free base A) (P Q : SWorld -> Prop) w :
  (forall v, P v -> Q v) -> stops p P w -> stops p Q w.
Proof.
  intros HPQ. revert w. induction p as [a|R o k IH]; intros w [Hw Hs]; (split; [by apply HPQ|]); [done|].
  destruct Hs as [Hm Hs]. split; [|by apply IH]. destruct o; cbn in *; auto.
Qed.

Lemma stops_holds {A} (p : free base A) P w : stops p P w -> P (brun p w).1.
Proof.
  revert w. induction p as [a|R o k IH]; intros w [Hw Hs]; [done|].
  destruct Hs as [_ Hs]. cbn [frun]. destruct (exec_base o w) as [w1 r] eqn:E. by apply IH.
Qed.

(** [touches o q]: the operation may change what the file [q] holds. *)
Definition touches {R} (o : base R) (q : string) : Prop :=
  match o with
  | WriteFile path _ | FileWrite path _ | Create path | Remove path => q = path
  | CreateTemp _ _ => True
  | Rename from to => q = from \/ q = to
  | _ => False
  end.

(** No operation of the program touches the file. *)
Fixpoint avoids {A} (p : free base A) (q : string) : Prop :=
  match p with
  | Ret _ => True
  | Op o k => ~ touches o q /\ forall r, avoids (k r) q
  end.

Lemma avoids_bind {A B} (m : free base A) (f : A -> free base B) q :
  avoids m q -> (forall a, avoids (f a) q) -> avoids (bind m f) q.
Proof. intros Hm Hf. induction m as [a|R o k IH]; [apply Hf|]. destruct Hm as [Ho Hk]. split; [done|]. auto. Qed.

Lemma avoids_try {A B} (m : free base (result A)) (h : goerr -> free base B) (k : A -> free base B) q :
  avoids m q -> (forall e, avoids (h e) q) -> (forall a, avoids (k a) q) -> avoids (try m h k) q.
Proof. intros Hm Hh Hk. apply avoids_bind; [done|]. intros [e|a]; auto. Qed.

Lemma untouched {R} (o : base R) q w : ~ touches o q ->
  sw_files (exec_base o w).1 !! q = sw_files w !! q /\
  mid o (fun v => sw_files v !! q = sw_files w !! q) w.
Proof.
  intros Ho. split.
  - destruct o; cbn in Ho |- *; try done; repeat case_match; cbn;
      rewrite ?lookup_insert_ne, ?lookup_delete_ne by (intros ->; tauto); done.
  - destruct o; cbn in Ho |- *; try done; intros n; by rewrite lookup_insert_ne by congruence.
Qed.

Lemma avoids_stops {A} (p : free base A) q w : avoids p q ->
  stops p (fun v => sw_files v !! q = sw_files w !! q) w.
Proof.
  revert w. induction p as [a|R o k IH]; intros w; [done|]. intros [Ho Hk].
  destruct (untouched o q w Ho) as [E Hm]. split; [done|]. split; [done|].
  rewrite <- E. by apply IH.
Qed.

(* ------------------------------------------------------------------ *)
(** ** One operation after the other *)

Lemma brun_try {A B} (m : free base (result A)) (h : goerr -> free base B) (k : A -> free base B) w :
  brun (try m h k) w =
  match (brun m w).2 with inl e => brun (h e) (brun m w).1 | inr a => brun (k a) (brun m w).1 end.
Proof. unfold try. rewrite frun_bind. by destruct (brun m w) as [w1 [e|a]]. Qed.

Section Rules.
Context {B : Type} (P : SWorld * B -> Prop).

Lemma post_bind {A} (m : act A) (k : A -> act B) w :
  (forall w1 a, srun m w = (w1, a) -> P (srun (k a) w1)) -> P (srun (bind m k) w).
Proof.
  intros Hk. unfold srun. rewrite frun_bind. destruct (frun (@exec_sop _) m w) as [w1 a] eqn:E.
  by apply Hk.
Qed.

Lemma run_calm_bind {A} (m : act A) (k : A -> act B) w : calms m ->
  (forall w1 a, quiet w w1 -> P (srun (k a) w1)) -> P (srun (bind m k) w).
Proof.
  intros Hm Hk. apply post_bind. intros w1 a E. apply Hk. pose proof (calms_run m w Hm) as Hq. by rewrite E in Hq.
Qed.

Lemma run_calm_try {A} (m : act (result A)) h (k : A -> act B) w : calms m ->
  (forall w1 e, quiet w w1 -> P (srun (h e) w1)) -> (forall w1 a, quiet w w1 -> P (srun (k a) w1)) ->
  P (srun (try m h k) w).
Proof. intros Hm Hh Hk. apply run_calm_bind; [done|]. intros w1 [e|a]; auto. Qed.

Lemma run_pure_try {A} (r : result A) h (k : A -> act B) w :
  (forall e, r = inl e -> P (srun (h e) w)) -> (forall a, r = inr a -> P (srun (k a) w)) ->
  P (srun (try (Ret r) h k) w).
Proof. intros Hh Hk. destruct r as [e|a]; [by apply Hh|by apply Hk]. Qed.

Lemma run_registry_try {R} (o : regop image R) h (k : R -> act B) w :
  (forall st m, reg_exec R o (sw_reg w) = (st, inl m) -> P (srun (h (PlainErr m)) (s_tick (s_reg st w)))) ->
  (forall st r, reg_exec R o (sw_reg w) = (st, inr r) -> P (srun (k r) (s_tick (s_reg st w)))) ->
  P (srun (try (registry o) h k) w).
Proof.
  intros Hh Hk. unfold srun, try, registry, perform. cbn [bind frun exec_sop].
  destruct (reg_exec R o (sw_reg w)) as [st [m|r]]; [by apply Hh|by apply Hk].
Qed.

(** What happens under a mutex happens at once. *)
Lemma run_locked {A} (m : free base A) (k : A -> act B) w :
  P (srun (k (brun m w).2) (brun m w).1) -> P (srun (bind (locked m) k) w).
Proof. unfold srun, locked, perform. cbn [bind frun exec_sop]. by destruct (brun m w). Qed.

Lemma run_locked_try {A} (m : free base (result A)) h (k : A -> act B) w :
  P (srun match (brun m w).2 with inl e => h e | inr a => k a end (brun m w).1) ->
  P (srun (try (locked m) h k) w).
Proof.
  intros Hp. apply (run_locked m (fun r => match r with inl e => h e | inr a => k a end)).
  by destruct (brun m w).2.
Qed.

End Rules.
End Run.

(** Programs that leave a file alone: what is left are inequalities of paths. *)
Ltac avoid_step :=
  match goal with
  | |- forall _, _ => intros ?
  | |- avoids (Ret _) _ => exact I
  | |- avoids (throw _) _ => exact I
  | |- avoids (ok _) _ => exact I
  | |- avoids (wrap _ _) _ => exact I
  | |- avoids (perform _) _ => split; [cbn [touches]|intros ?; exact I]
  | |- avoids (try _ _ _) _ => apply avoids_try
  | |- avoids (bind _ _) _ => apply avoids_bind
  | |- avoids (match ?x with _ => _ end) _ => destruct x
  | |- avoids (let '(_, _) := ?x in _) _ => destruct x
  | |- avoids (let _ := _ in _) _ => cbv zeta
  | |- ~ _ => first [exact (fun H => H) | congruence]
  | |- avoids ?m _ => let h := program_head m in unfold h
  end.

(** Programs that only look *)
Ltac calm_step :=
  match goal with
  | |- forall _, _ => intros ?
  | |- calms (locked _) => apply calms_locked
  | |- calm (Ret _) => exact I
  | |- calms (Ret _) => exact I
  | |- calm (perform _) => apply calm_op; reflexivity
  | |- calm (try _ _ _) => apply calm_try
  | |- calm (bind _ _) => apply calm_bind
  | |- calm (match ?x with _ => _ end) => destruct x
  | |- calm (let '(_, _) := ?x in _) => destruct x
  | |- calm ?m => let h := program_head m in unfold h
  end.
