(* ===== verification/SatDemo.v ===== *)
(** * A concrete registry

    The registries of the witnesses: images are texts, a reference holds an
    image or nothing, and every request is answered as a registry would.  The
    references of [source] are another registry's, which does not change, and
    [answer] is what servers answer to HTTP requests. *)

From stdpp Require Import gmap.
From Stdlib Require Import Ascii.
From S2P Require Import Prelude Free GoLib SatConfig AuditTrail SatState SatWorld.

#[local] Open Scope string_scope.

Abbreviation images := (gmap string string).

Section Demo.
Context (source : images) (answer : HttpClient -> HttpRequest -> string + HttpResponse).

Definition held_or (st : images) (url : string) : images * (string + string) :=
  (st, match source !! url with
       | Some i => inr i
       | None => match st !! url with Some i => inr i | None => inl "MANIFEST_UNKNOWN" end
       end).

Definition demo_exec R (o : regop string R) (st : images) : images * (string + R) :=
  match o in regop _ R return images * (string + R) with
  | CranePull url _ => held_or st url
  | CraneExport img => (st, inr ([("artifacts.json", img)], None))
  | CraneDigest url _ => held_or st url
  | CraneDelete url _ =>
      match st !! url with
      | Some _ => if String.eqb url "" then (st, inl "could not parse reference") else (delete url st, inr tt)
      | None => (st, inl "MANIFEST_UNKNOWN")
      end
  | RemoteGet ref _ => held_or st ref
  | DescImage d => (st, inr d)
  | OCIDigest img => (st, inr img)
  | OCILayers img => (st, inr [Some img])
  | RemoteHead ref _ => held_or st ref
  | RemoteImage ref _ => held_or st ref
  | ImageLayers img => (st, inr [Some img])
  | RemoteWrite ref img _ => (<[ref := img]> st, inr tt)
  | TarballWrite _ img => (st, inr img)
  | CraneManifest ref _ => held_or st ref
  | HttpDo c r => (st, answer c r)
  | NewX509Source _ => (st, inl "no such file or directory")
  | GetX509SVID _ => (st, inl "no such file or directory")
  end.

Definition demo_registries_with : Registries := {|
  reg_state := images;
  image := string;
  ParseReference _ s := if String.eqb s "" then None else Some s;
  reg_exec := demo_exec |}.

#[program] Definition demo_local_with local (Hl : forall ref, local ref -> source !! ref = None)
    : @LocalRegistry demo_registries_with local := {|
  held (st : images) r := st !! r;
  oci_digest (img : string) := img |}.
Next Obligation. intros local Hl R o st r _ Ho. destruct o; cbn; done. Qed.
Next Obligation. intros. cbn. by rewrite lookup_insert_ne. Qed.
Next Obligation. intros. cbn. by rewrite lookup_insert_eq. Qed.
Next Obligation.
  intros local Hl r url o st _ Hp. cbn in *. destruct (st !! url); [|done].
  destruct (String.eqb url ""); [done|]. cbn. rewrite lookup_delete_ne; congruence.
Qed.
Next Obligation.
  intros local Hl ref url o st _ Hp. cbn in *. destruct (String.eqb url ""); [done|]. simplify_eq.
  destruct (st !! ref); cbn; [|done]. by rewrite lookup_delete_eq.
Qed.
Next Obligation. intros. cbn in *. congruence. Qed.
Next Obligation.
  intros local Hl ref o st d Hr. cbn. rewrite (Hl ref Hr). set (x := _ !! ref).
  replace (st !! ref) with x by done. destruct x; intros Hd; by simplify_eq.
Qed.

Lemma demo_delete_absent url o st ref :
  @ParseReference demo_registries_with (ro_insecure o) url = Some ref -> st !! ref = None ->
  exists m, (demo_exec _ (CraneDelete url o) st).2 = inl m.
Proof. cbn. destruct (String.eqb url ""); [done|]. intros [= ->] ->. by eexists. Qed.

Lemma demo_delete_failed url o st m :
  (demo_exec _ (CraneDelete url o) st).2 = inl m -> (demo_exec _ (CraneDelete url o) st).1 = st.
Proof. cbn. destruct (st !! url); [|done]. by destruct (String.eqb url ""). Qed.

End Demo.

Definition no_server (c : HttpClient) (r : HttpRequest) : string + HttpResponse := inl "connection refused".
Definition demo_registries_of (source : images) : Registries := demo_registries_with source no_server.
Definition demo_local_of (source : images) local (Hl : forall ref, local ref -> source !! ref = None)
    : @LocalRegistry (demo_registries_of source) local := demo_local_with source no_server local Hl.

Definition demo_locals : Locals :=
  mkLocals (mkZtrProcess false false None) (mkStatusReportingProcess false [] false None).

#[export] Instance demo_registries : Registries := demo_registries_of ∅.
#[export, program] Instance demo_local local : LocalRegistry local := demo_local_of ∅ local _.
Next Obligation. done. Qed.

Section World.
Context `{Registries}.

Definition demo_world_of (cm : ConfigManager) (p : Process) (files : gmap string string) (reg : reg_state) : SWorld :=
  mkSWorld files [] reg cm p demo_locals [] 0 (fun _ => None) (fun n => "1") (fun _ => inr (fun _ => "0"%char))
    (fun _ _ => inr []) (fun _ => inr [mkNetInterface false true "02:42:ac:11:00:02"]) (fun _ => 0%Z)
    (fun _ => mkHostSample [] (Some 0%Z) (fun _ => None) (fun _ => false) (fun _ => false) (fun _ => inr tt)) (fun _ => false).

End World.

Definition demo_world (files : gmap string string) (reg : images) : SWorld :=
  demo_world_of (mkConfigManager no_config "" "" false "/cfg/config.json" "/cfg/prev_config.json" false)
    (mkProcess false [] "" "/cfg/state.json" None) files reg.
