(* ===== verification/Tls.v ===== *)
(** * Certificates for TLS

    internal/satellite/tls/config.go.  A tls.Config has MinVersion TLS 1.2
    throughout, so the version is left out.  What crypto/tls, crypto/x509 and
    encoding/pem make of a text is the parameter [X509]. *)

From stdpp Require Import gmap.
From Stdlib Require Import Ascii.
From S2P Require Import Prelude Free Float64 Utf8 GoLib Json CryptoLib SatConfig AuditTrail SatState SatWorld.

#[local] Open Scope string_scope.
#[local] Open Scope list_scope.

Class X509 := {
  X509KeyPair : string -> string -> option string;              (* the error of a PEM certificate and key *)
  AppendCertsFromPEM : string -> bool;
  pem_Decode : string -> option (string * string * string);     (* the first block's type and bytes, the rest *)
  ParseCertificate : string -> string + X509Cert;
  pem_rest s ty b rest : pem_Decode s = Some (ty, b, rest) -> (String.length rest < String.length s)%nat }.

Record Config := mkTlsConfig {
  tl_CertFile : string; tl_KeyFile : string; tl_CAFile : string; tl_ServerName : string;
  tl_SkipVerify : bool; tl_Signer : option PublicKey }.

Definition DefaultConfig : Config := mkTlsConfig "" "" "" "" false None.

Definition ErrCertNotFound : goerr := PlainErr "certificate file not found".
Definition ErrKeyNotFound : goerr := PlainErr "key file not found".
Definition ErrCertExpired : goerr := PlainErr "certificate expired".
Definition ErrCertNotYetValid : goerr := PlainErr "certificate not yet valid".
Definition ErrCANotFound : goerr := PlainErr "CA certificate not found".
Definition ErrCAInvalid : goerr := PlainErr "CA certificate invalid".
Definition ErrNoCertificates : goerr := PlainErr "no certificates in file".

Section Tls.
Context `{X509}.

(** The CERTIFICATE blocks of a text; every block shortens it. *)
Fixpoint certificate_blocks (fuel : nat) (data : string) : list string :=
  match fuel with
  | O => []
  | S fuel' =>
      match pem_Decode data with
      | None => []
      | Some (ty, b, rest) =>
          if String.eqb ty "CERTIFICATE" then b :: certificate_blocks fuel' rest else certificate_blocks fuel' rest
      end
  end.

Definition blocks_of (data : string) : list string := certificate_blocks (S (String.length data)) data.

Definition signerMatchesCert (signer certPub : PublicKey) : result unit :=
  let mismatch kind := inl (PlainErr (kind +:+ " signer public key does not match certificate public key")) in
  match signer, certPub with
  | EcdsaKey s, EcdsaKey c => if String.eqb s c then inr tt else mismatch "ECDSA"
  | RsaKey s, RsaKey c => if String.eqb s c then inr tt else mismatch "RSA"
  | Ed25519Key s, Ed25519Key c => if String.eqb s c then inr tt else mismatch "Ed25519"
  | EcdsaKey _, _ => inl (PlainErr "signer is ECDSA but cert public key is not")
  | RsaKey _, _ => inl (PlainErr "signer is RSA but cert public key is not")
  | Ed25519Key _, _ => inl (PlainErr "signer is Ed25519 but cert public key is not")
  | OtherKey _, _ => inl (PlainErr "unsupported signer public key type")
  end.

(** The hardware-backed path *)
Definition load_with_signer (certFile : string) (signer : PublicKey) : free base (result Certificate) :=
  let? data := perform (ReadFile (path_Clean certFile)) catch throw in
  match blocks_of data with
  | [] => throw ErrNoCertificates
  | b :: bs =>
      match ParseCertificate b with
      | inl m => throw (WrapErr "certificate invalid: parse leaf" (PlainErr m))
      | inr leaf =>
          let* now := perform TimeNow in
          if (now <? xc_NotBefore leaf)%Z then throw ErrCertNotYetValid
          else if (xc_NotAfter leaf <? now)%Z then throw ErrCertExpired
          else match signerMatchesCert signer (xc_PublicKey leaf) with
               | inl e => throw (WrapErr "certificate and key do not match" e)
               | inr _ => ok (SignedChain (b :: bs) signer leaf)
               end
      end
  end.

(** os.Stat: only a missing file counts. *)
Definition missing (path : string) : free base bool :=
  let* r := perform (Stat path) in
  Ret match r with inl e => Err.is_not_exist e | inr _ => false end.

Definition LoadX509KeyPair (certFile keyFile : string) : free base (result Certificate) :=
  let? cert := perform (ReadFile certFile) catch throw in
  let? key := perform (ReadFile keyFile) catch throw in
  match X509KeyPair cert key with
  | Some m => throw (PlainErr m)
  | None => ok (PEMPair cert key)
  end.

Definition LoadCertificate (certFile keyFile : string) (signer : option PublicKey) : free base (result Certificate) :=
  let* no_cert := missing certFile in
  if no_cert then throw ErrCertNotFound
  else
    match signer with
    | Some signer => load_with_signer certFile signer
    | None =>
        let* no_key := missing keyFile in
        if no_key then throw ErrKeyNotFound
        else let? cert := LoadX509KeyPair certFile keyFile catch wrap "certificate invalid" in ok cert
    end.

Definition LoadCAPool (caFile : string) : free base (result string) :=
  let* no_ca := missing caFile in
  if no_ca then throw ErrCANotFound
  else
    let? caData := perform (ReadFile (path_Clean caFile)) catch wrap "read CA file" in
    if negb (AppendCertsFromPEM caData) then throw ErrCAInvalid else ok caData.

Definition has_key (cfg : Config) : bool :=
  negb (String.eqb (tl_KeyFile cfg) "") || match tl_Signer cfg with Some _ => true | None => false end.

Definition LoadClientTLSConfig (cfg : Config) : free base (result TLSClient) :=
  let? cert :=
    (if negb (String.eqb (tl_CertFile cfg) "") && has_key cfg
     then (let? c := LoadCertificate (tl_CertFile cfg) (tl_KeyFile cfg) (tl_Signer cfg) catch throw in ok (Some c))
     else ok None)
    catch throw in
  let? ca :=
    (if negb (String.eqb (tl_CAFile cfg) "")
     then (let? p := LoadCAPool (tl_CAFile cfg) catch throw in ok (Some p))
     else ok None)
    catch throw in
  ok (mkTLSClient (tl_ServerName cfg) (tl_SkipVerify cfg) cert ca).

(** A server's tls.Config: client certificates are required and verified
    exactly when there is a pool to verify them against. *)
Record TLSServer := mkTLSServer { ts_Certificate : Certificate; ts_ClientCAs : option string; ts_RequireClientCert : bool }.

Definition LoadServerTLSConfig (cfg : Config) : free base (result TLSServer) :=
  if String.eqb (tl_CertFile cfg) "" || negb (has_key cfg) then throw ErrCertNotFound
  else
    let? cert := LoadCertificate (tl_CertFile cfg) (tl_KeyFile cfg) (tl_Signer cfg) catch throw in
    if negb (String.eqb (tl_CAFile cfg) "")
    then (let? p := LoadCAPool (tl_CAFile cfg) catch throw in ok (mkTLSServer cert (Some p) true))
    else ok (mkTLSServer cert None false).

Fixpoint parse_blocks (bs : list string) : result (list X509Cert) :=
  match bs with
  | [] => inr []
  | b :: bs' =>
      match ParseCertificate b with
      | inl m => inl (WrapErr "certificate invalid" (PlainErr m))
      | inr c => match parse_blocks bs' with inl e => inl e | inr cs => inr (c :: cs) end
      end
  end.

Definition ParseCertificates (pemData : string) : result (list X509Cert) :=
  if String.eqb pemData "" then inr [] else parse_blocks (blocks_of pemData).

Definition ValidateCertificate (certFile : string) : free base (result unit) :=
  let* r := perform (ReadFile (path_Clean certFile)) in
  match r with
  | inl e => if Err.is_not_exist e then throw ErrCertNotFound else throw e
  | inr data =>
      match ParseCertificates data with
      | inl e => throw e
      | inr [] => throw ErrNoCertificates
      | inr (cert :: _) =>
          let* now := perform TimeNow in
          if (now <? xc_NotBefore cert)%Z then throw ErrCertNotYetValid
          else if (xc_NotAfter cert <? now)%Z then throw ErrCertExpired
          else ok tt
      end
  end.

(** [None]: a number of days the conversion to int does not define *)
Definition daysToExpiry (notAfter now : Z) : option Z :=
  int_of_float (float_div (hours (time_Sub notAfter now)) (float_of_int 24)).

Record CertificateInfo := mkCertificateInfo {
  ci_Subject : string; ci_Issuer : string; ci_NotBefore : Z; ci_NotAfter : Z; ci_IsExpired : bool;
  ci_DaysToExpiry : option Z; ci_DNSNames : list string }.

Definition GetCertificateInfo (certFile : string) : free base (result CertificateInfo) :=
  let? data := perform (ReadFile (path_Clean certFile)) catch throw in
  match ParseCertificates data with
  | inl e => throw e
  | inr [] => throw ErrNoCertificates
  | inr (cert :: _) =>
      let* now := perform TimeNow in
      ok (mkCertificateInfo (xc_Subject cert) (xc_Issuer cert) (xc_NotBefore cert) (xc_NotAfter cert)
            (xc_NotAfter cert <? now)%Z (daysToExpiry (xc_NotAfter cert) now) (xc_DNSNames cert))
  end.

End Tls.
