(* ===== verification/CertWatcher.v ===== *)
(** * Ground Control's certificate watcher

    internal/groundcontrol/middleware/certwatcher.go.

    The watcher is a goroutine over two files that other processes write at
    any moment: [step] performs one operation of the goroutine (a Stat, a
    read, the store under the mutex), an error of such an operation, or a
    change of the files.  tls.LoadX509KeyPair reads the certificate and then
    the key; whether they belong together is [X509KeyPair] of [X509]. *)

From stdpp Require Import relations.
From S2P Require Import Prelude Free Tls.

#[local] Open Scope string_scope.
#[local] Open Scope Z_scope.

Record File := mkFile { f_data : string; f_mtime : Z }.

(** Where the goroutine is: before the operation the constructor names.  The
    loads carry the modification times already captured and what was read. *)
Inductive position :=
| Waiting                                       (* select in Start *)
| ChangedCert | ChangedKey (certMod : Z) | ChangedCompare (certMod keyMod : Z)   (* hasChanged *)
| LoadStatCert | LoadStatKey (certMod : Z)                                       (* loadCertificate *)
| LoadReadCert (certMod keyMod : Z) | LoadReadKey (certMod keyMod : Z) (cert : string)
| LoadStore (certMod keyMod : Z) (cert key : string)
| Gone.

(** [cw_cert] is nil until NewCertWatcher loaded the first certificate. *)
Record CertWatcher := mkCertWatcher {
  cw_cert : option (string * string); cw_lastModTime : Z;
  cw_position : position; cw_tick : bool; cw_stopped : bool }.

Record State := mkState {
  st_watcher : CertWatcher; st_cert : option File; st_key : option File; st_clock : Z }.

Definition goto (p : position) (s : State) : State :=
  let w := st_watcher s in
  mkState (mkCertWatcher (cw_cert w) (cw_lastModTime w) p (cw_tick w) (cw_stopped w))
    (st_cert s) (st_key s) (st_clock s).
Definition set_tick (b : bool) (s : State) : State :=
  let w := st_watcher s in
  mkState (mkCertWatcher (cw_cert w) (cw_lastModTime w) (cw_position w) b (cw_stopped w))
    (st_cert s) (st_key s) (st_clock s).
Definition Stop (s : State) : State :=
  let w := st_watcher s in
  mkState (mkCertWatcher (cw_cert w) (cw_lastModTime w) (cw_position w) (cw_tick w) true)
    (st_cert s) (st_key s) (st_clock s).
Definition set_files (cert key : option File) (now : Z) (s : State) : State :=
  mkState (st_watcher s) cert key now.

(** NewCertWatcher is about to load the first certificate. *)
Definition NewCertWatcher (cert key : option File) (now : Z) : State :=
  mkState (mkCertWatcher None 0 LoadStatCert false false) cert key now.

(** GetCertificate and GetClientCertificate: one read under the mutex *)
Definition GetCertificate (s : State) : option (string * string) := cw_cert (st_watcher s).

(** loadCertificate returned an error: NewCertWatcher has no certificate yet
    and returns it, Start logs it and waits for the next tick.  hasChanged
    answers false. *)
Definition failed (s : State) : State :=
  match cw_position (st_watcher s) with
  | LoadStatCert | LoadStatKey _ | LoadReadCert _ _ | LoadReadKey _ _ _ =>
      goto (match cw_cert (st_watcher s) with None => Gone | Some _ => Waiting end) s
  | _ => goto Waiting s
  end.

Definition file_operation (p : position) : bool :=
  match p with
  | ChangedCert | ChangedKey _ | LoadStatCert | LoadStatKey _ | LoadReadCert _ _ | LoadReadKey _ _ _ => true
  | _ => false
  end.

Section Watcher.
Context `{X509}.

Definition stat (f : option File) (k : Z -> position) (s : State) : State :=
  match f with Some f => goto (k (f_mtime f)) s | None => failed s end.

(** The goroutine's next operation *)
Definition next (s : State) : State :=
  let w := st_watcher s in
  match cw_position w with
  | Waiting | Gone => s
  | ChangedCert => stat (st_cert s) ChangedKey s
  | ChangedKey certMod => stat (st_key s) (ChangedCompare certMod) s
  | ChangedCompare certMod keyMod =>
      goto (if (cw_lastModTime w <? certMod) || (cw_lastModTime w <? keyMod)
            then LoadStatCert else Waiting) s
  | LoadStatCert => stat (st_cert s) LoadStatKey s
  | LoadStatKey certMod => stat (st_key s) (LoadReadCert certMod) s
  | LoadReadCert certMod keyMod =>
      match st_cert s with
      | Some f => goto (LoadReadKey certMod keyMod (f_data f)) s
      | None => failed s
      end
  | LoadReadKey certMod keyMod cert =>
      match st_key s with
      | Some f =>
          match X509KeyPair cert (f_data f) with
          | None => goto (LoadStore certMod keyMod cert (f_data f)) s
          | Some _ => failed s
          end
      | None => failed s
      end
  | LoadStore certMod keyMod cert key =>
      let latestMod := if certMod <? keyMod then keyMod else certMod in
      mkState (mkCertWatcher (Some (cert, key)) latestMod Waiting (cw_tick w) (cw_stopped w))
        (st_cert s) (st_key s) (st_clock s)
  end.

(** [stamp now mtime]: the modification times a change of a file at [now] can
    give it.  Writing a file stamps it with the current time; other tools set
    an older one. *)
Inductive step (stamp : Z -> Z -> Prop) : State -> State -> Prop :=
| step_next s : step stamp s (next s)
| step_error s : file_operation (cw_position (st_watcher s)) = true -> step stamp s (failed s)
| step_ticker s : step stamp s (set_tick true s)
| step_take_tick s :
    cw_position (st_watcher s) = Waiting -> cw_tick (st_watcher s) = true ->
    step stamp s (goto ChangedCert (set_tick false s))
| step_stop s : cw_stopped (st_watcher s) = false -> step stamp s (Stop s)
| step_leave s :
    cw_position (st_watcher s) = Waiting -> cw_stopped (st_watcher s) = true -> step stamp s (goto Gone s)
| step_write_cert s now mtime data :
    st_clock s < now -> stamp now mtime ->
    step stamp s (set_files (Some (mkFile data mtime)) (st_key s) now s)
| step_write_key s now mtime data :
    st_clock s < now -> stamp now mtime ->
    step stamp s (set_files (st_cert s) (Some (mkFile data mtime)) now s)
| step_remove s cert key :
    cert ∈ [st_cert s; None] -> key ∈ [st_key s; None] ->
    step stamp s (set_files cert key (st_clock s) s).

Definition reachable (stamp : Z -> Z -> Prop) (s : State) : Prop :=
  exists cert key now, (forall f, cert = Some f \/ key = Some f -> f_mtime f <= now) /\
    rtc (step stamp) (NewCertWatcher cert key now) s.

End Watcher.

(* ------------------------------------------------------------------ *)
(** ** What is served is what is on disk *)

Section Facts.
Context `{X509}.

(** A file not modified after [last] still holds [data]. *)
Definition current (file : option File) (last : Z) (data : string) : Prop :=
  forall f, file = Some f -> f_mtime f <= last -> f_data f = data.

Definition not_after (file : option File) (now : Z) : Prop := forall f, file = Some f -> f_mtime f <= now.

Definition loading (s : State) : Prop :=
  match cw_position (st_watcher s) with
  | LoadStatKey m => m <= st_clock s
  | LoadReadCert m k => m <= st_clock s /\ k <= st_clock s
  | LoadReadKey m k c => m <= st_clock s /\ k <= st_clock s /\ current (st_cert s) (Z.max m k) c
  | LoadStore m k c d =>
      m <= st_clock s /\ k <= st_clock s /\ current (st_cert s) (Z.max m k) c /\
      current (st_key s) (Z.max m k) d /\ X509KeyPair c d = None
  | _ => True
  end.

Definition serving (s : State) : Prop :=
  forall c d, GetCertificate s = Some (c, d) ->
    X509KeyPair c d = None /\ cw_lastModTime (st_watcher s) <= st_clock s /\
    current (st_cert s) (cw_lastModTime (st_watcher s)) c /\
    current (st_key s) (cw_lastModTime (st_watcher s)) d.

Definition good (s : State) : Prop :=
  not_after (st_cert s) (st_clock s) /\ not_after (st_key s) (st_clock s) /\ serving s /\ loading s.

Lemma goto_good p s : good s -> loading (goto p s) -> good (goto p s).
Proof. by intros (? & ? & ? & _) ?. Qed.

Lemma failed_good s : good s -> good (failed s).
Proof.
  intros Hs. unfold failed. repeat case_match; apply goto_good; done.
Qed.

Lemma stat_good f k s :
  good s -> (forall m, (forall x, f = Some x -> f_mtime x = m) -> f <> None -> loading (goto (k m) s)) ->
  good (stat f k s).
Proof.
  intros Hs Hk. unfold stat. destruct f as [x|]; [|by apply failed_good].
  apply goto_good; [done|]. apply Hk; [by intros ? [= ->]|done].
Qed.

Lemma current_same f last : current (Some f) last (f_data f).
Proof. by intros ? [= ->]. Qed.

Lemma next_good s : good s -> good (next s).
Proof.
  intros Hg. pose proof Hg as (Hc & Hk & Hs & Hl). unfold next.
  destruct (cw_position (st_watcher s)) as [| |m|m k| |m|m k|m k c|m k c d|] eqn:Ep; try done.
  - by apply stat_good.
  - by apply stat_good.
  - case_match; by apply goto_good.
  - apply stat_good; [done|]. intros m Hm Hf. unfold loading; simpl.
    destruct (st_cert s) as [f|]; [|done]. rewrite <- (Hm f) by done. by apply Hc.
  - apply stat_good; [done|]. intros k Hx Hf. unfold loading in *; simpl. rewrite Ep in Hl.
    destruct (st_key s) as [f|]; [|done]. split; [done|]. rewrite <- (Hx f) by done. by apply Hk.
  - destruct (st_cert s) as [f|] eqn:Ec; [|by apply failed_good]. apply goto_good; [done|].
    unfold loading in *; simpl. rewrite Ep in Hl. split_and!; [apply Hl..|]. rewrite Ec. apply current_same.
  - destruct (st_key s) as [f|] eqn:Ek; [|by apply failed_good].
    destruct (X509KeyPair c (f_data f)) eqn:Ex; [by apply failed_good|]. apply goto_good; [done|].
    unfold loading in *; simpl. rewrite Ep in Hl. split_and!; try apply Hl; [|done]. rewrite Ek. apply current_same.
  - unfold loading in Hl. rewrite Ep in Hl. destruct Hl as (Hm & Hk' & Hcc & Hcd & Hx).
    assert ((if m <? k then k else m) = Z.max m k) as Hmax by (destruct (Z.ltb_spec m k); lia).
    split_and!; [done..| |done]. intros c' d' [= <- <-]. simpl. rewrite Hmax. split_and!; [done|lia|done..].
Qed.

(** Changing a file only makes it newer than everything captured. *)
Lemma current_stamped (f : File) last data now : last < now -> f_mtime f = now -> current (Some f) last data.
Proof. intros Hl Hm f' [= <-] Hf. lia. Qed.

Lemma set_files_good s cert key now :
  good s -> st_clock s <= now -> not_after cert now -> not_after key now ->
  (forall last data, last <= st_clock s -> current (st_cert s) last data -> current cert last data) ->
  (forall last data, last <= st_clock s -> current (st_key s) last data -> current key last data) ->
  good (set_files cert key now s).
Proof.
  intros (_ & _ & Hs & Hl) Hn Hc Hk Hcc Hkk. split_and!; [done..| |].
  - intros c d E. destruct (Hs c d E) as (? & ? & ? & ?). simpl. split_and!; [done|lia|by apply Hcc|by apply Hkk].
  - unfold loading in *. simpl. destruct (cw_position (st_watcher s)) as [| |m|m k| |m|m k|m k c|m k c d|];
      try done; [lia|lia|..].
    + destruct Hl as (? & ? & ?). split_and!; [lia..|]. apply Hcc; [lia|done].
    + destruct Hl as (? & ? & ? & ? & ?). split_and!; [lia..| | |done]; [apply Hcc|apply Hkk]; lia || done.
Qed.

Lemma step_good s s' : good s -> step eq s s' -> good s'.
Proof.
  intros Hg Hst. destruct Hst as [s|s Hf|s|s Hp Ht|s Hp|s Hp Ht|s now m data Hn <-|s now m data Hn <-|s cert key Hc Hk].
  - by apply next_good.
  - by apply failed_good.
  - done.
  - apply goto_good; done.
  - done.
  - by apply goto_good.
  - pose proof Hg as (Hc & Hk & _). apply set_files_good; try done; [lia|by intros f [= <-]| |].
    + intros f Hf. specialize (Hk f Hf). lia.
    + intros last d Hl _. apply (current_stamped _ _ _ now); [lia|done].
  - pose proof Hg as (Hc & Hk & _). apply set_files_good; try done; [lia| |by intros f [= <-]|].
    + intros f Hf. specialize (Hc f Hf). lia.
    + intros last d Hl _. apply (current_stamped _ _ _ now); [lia|done].
  - pose proof Hg as (Hcc & Hkk & _).
    assert (cert = st_cert s \/ cert = None) as [-> | ->] by set_solver;
      assert (key = st_key s \/ key = None) as [-> | ->] by set_solver;
      (apply set_files_good; done || lia).
Qed.

Lemma reachable_good s : reachable eq s -> good s.
Proof.
  intros (cert & key & now & Hn & Hr).
  assert (good (NewCertWatcher cert key now)) as Hg.
  { split_and!; [intros f E; apply Hn; by left|intros f E; apply Hn; by right|by intros c d [=]|done]. }
  induction Hr as [|x y z Hxy _ IH]; [done|]. by apply IH, (step_good x).
Qed.
End Facts.

Section Guarantees.
Context `{X509}.

(** What is served is always a certificate with its own key, and is what the
    files hold unless one of them was modified after the last load: a change
    made while a load is under way is not missed. *)
Theorem no_change_is_missed s c d :
  reachable eq s -> GetCertificate s = Some (c, d) ->
  X509KeyPair c d = None /\
  forall fc fk, st_cert s = Some fc -> st_key s = Some fk ->
    f_mtime fc <= cw_lastModTime (st_watcher s) -> f_mtime fk <= cw_lastModTime (st_watcher s) ->
    c = f_data fc /\ d = f_data fk.
Proof.
  intros (_ & _ & Hs & _)%reachable_good Hg. destruct (Hs c d Hg) as (Hx & _ & Hc & Hk).
  split; [done|]. intros fc fk Ec Ek Hmc Hmk. split; symmetry; [by apply Hc|by apply Hk].
Qed.

(** One tick of the ticker, with no other change meanwhile: the nine
    operations of hasChanged and loadCertificate *)
Definition tick (s : State) : State := Nat.iter 9 next (goto ChangedCert (set_tick false s)).

Lemma unchanged_current s fc fk p :
  good s -> GetCertificate s = Some p -> st_cert s = Some fc -> st_key s = Some fk ->
  (cw_lastModTime (st_watcher s) <? f_mtime fc) || (cw_lastModTime (st_watcher s) <? f_mtime fk) = false ->
  p = (f_data fc, f_data fk).
Proof.
  intros (_ & _ & Hs & _) Hg Hc Hk Hm. destruct p as [c d]. destruct (Hs c d Hg) as (_ & _ & Hcc & Hck).
  apply orb_false_iff in Hm as [Hm1 Hm2]. apply Z.ltb_ge in Hm1, Hm2.
  f_equal; symmetry; [by apply Hcc|by apply Hck].
Qed.

(** C22. Renewed certificates take effect: once a started watcher waits and the
    files hold a certificate and its key, one undisturbed tick later that
    pair is served and the watcher waits again, whatever happened before,
    torn reads and failed loads included. *)
Theorem tick_serves_the_files s fc fk :
  reachable eq s -> cw_position (st_watcher s) = Waiting -> GetCertificate s <> None ->
  st_cert s = Some fc -> st_key s = Some fk -> X509KeyPair (f_data fc) (f_data fk) = None ->
  GetCertificate (tick s) = Some (f_data fc, f_data fk) /\ cw_position (st_watcher (tick s)) = Waiting.
Proof.
  intros Hr%reachable_good Hp Hg Hc Hk Hx.
  destruct (GetCertificate s) as [p|] eqn:Eg; [clear Hg|done]. pose proof (unchanged_current s fc fk p Hr Eg Hc Hk) as Hu.
  destruct s as [[cert last pos t stopped] fc' fk' now]. unfold GetCertificate in *. simpl in *. subst.
  unfold tick. cbn [Nat.iter nat_rect]. unfold goto, set_tick. cbn [st_watcher st_cert st_key st_clock].
  cbn [next stat cw_position cw_lastModTime cw_cert cw_tick cw_stopped st_watcher st_cert st_key st_clock goto].
  destruct ((last <? f_mtime fc) || (last <? f_mtime fk)) eqn:Em.
  - cbn [next stat cw_position cw_lastModTime cw_cert cw_tick cw_stopped st_watcher st_cert st_key st_clock goto].
    by rewrite Hx.
  - by rewrite (Hu eq_refl).
Qed.

Lemma kept_failed s : GetCertificate s <> None -> GetCertificate (failed s) <> None.
Proof. unfold failed, GetCertificate. by destruct (cw_position _). Qed.

Lemma kept_stat f k s : GetCertificate s <> None -> GetCertificate (stat f k s) <> None.
Proof. destruct f; [done|]. apply kept_failed. Qed.

Lemma kept_next s : GetCertificate s <> None -> GetCertificate (next s) <> None.
Proof.
  intros Hg. unfold next. destruct (cw_position _); auto using kept_stat.
  - by destruct (st_cert s); [|apply kept_failed].
  - destruct (st_key s); [|by apply kept_failed]. by destruct (X509KeyPair _ _); [apply kept_failed|].
Qed.

(** Once there is a certificate there always is one. *)
Theorem never_without_certificate s s' :
  reachable eq s -> GetCertificate s <> None -> rtc (step eq) s s' -> GetCertificate s' <> None.
Proof.
  intros _ Hg Hr. induction Hr as [|x y z Hxy _ IH]; [done|]. apply IH. clear IH.
  destruct Hxy; try done; [by apply kept_next|by apply kept_failed].
Qed.

End Guarantees.

(* ------------------------------------------------------------------ *)
(** ** The limits of modification times *)

Module Demo.

#[export] Instance pairs : X509.
Proof.
  refine {| X509KeyPair c k := if String.eqb c k then None else Some "private key does not match public key";
            AppendCertsFromPEM _ := true; pem_Decode _ := None; ParseCertificate _ := inl "" |}.
  discriminate.
Defined.

Definition started : State :=
  Nat.iter 6 next (NewCertWatcher (Some (mkFile "old" 5)) (Some (mkFile "old" 5)) 10).

(** The certificate is renewed, and a tick comes before the key is. *)
Definition halfway : State := tick (set_files (Some (mkFile "new" 20)) (st_key started) 20 started).
Definition renewed : State := tick (set_files (st_cert halfway) (Some (mkFile "new" 30)) 30 halfway).

Example torn_renewal :
  GetCertificate started = Some ("old", "old") /\ GetCertificate halfway = Some ("old", "old") /\
  GetCertificate renewed = Some ("new", "new").
Proof. vm_compute. repeat split. Qed.

(** Files that replace the old ones with an older modification time, as a copy
    that preserves times makes them, are never loaded. *)
Definition replaced : State := set_files (Some (mkFile "new" 4)) (Some (mkFile "new" 4)) 20 started.

Example older_files_are_missed :
  X509KeyPair "new" "new" = None /\ GetCertificate (tick replaced) = Some ("old", "old") /\
  tick replaced = replaced.
Proof. vm_compute. repeat split. Qed.

Lemma started_reachable : reachable eq started.
Proof.
  exists (Some (mkFile "old" 5)), (Some (mkFile "old" 5)), 10.
  split; [intros f [[= <-]|[= <-]]; simpl; lia|].
  unfold started. cbn [Nat.iter nat_rect].
  do 6 (eapply rtc_r; [|apply step_next]). apply rtc_refl.
Qed.

Lemma no_change_is_missed_witness : X509KeyPair "old" "old" = None.
Proof. exact (proj1 (no_change_is_missed started "old" "old" started_reachable eq_refl)). Defined.

Lemma tick_serves_the_files_witness :
  let s1 := set_files (Some (mkFile "new" 20)) (st_key started) 20 started in
  let s := set_files (st_cert s1) (Some (mkFile "new" 30)) 30 s1 in
  GetCertificate (tick s) = Some ("new", "new") /\ cw_position (st_watcher (tick s)) = Waiting.
Proof.
  apply (tick_serves_the_files _ (mkFile "new" 20) (mkFile "new" 30)); [|reflexivity|discriminate|reflexivity..].
  destruct started_reachable as (cert & key & now & Hn & Hr). exists cert, key, now. split; [done|].
  eapply rtc_r; [eapply rtc_r; [exact Hr|]|].
  - apply (step_write_cert eq started 20 20 "new"); [reflexivity|done].
  - apply step_write_key; [reflexivity|done].
Defined.

Lemma never_without_certificate_witness : GetCertificate (tick started) <> None.
Proof.
  apply (never_without_certificate started (tick started)); [apply started_reachable|done|].
  unfold tick. cbn [Nat.iter nat_rect].
  do 9 (eapply rtc_r; [|apply step_next]).
  eapply rtc_l; [apply (step_ticker eq)|]. apply rtc_once.
  apply (step_take_tick eq (set_tick true started)); reflexivity.
Defined.

End Demo.
