(* ===== verification/ServerTls.v ===== *)
(** * Ground Control's TLS connections

    buildServerTLSConfigWithWatcher of internal/groundcontrol/server/server.go
    and buildSPIFFETLSConfig of server_spiffe.go: which client certificates a
    connection needs and how they are checked.

    The configuration the SPIFFE provider starts from is go-spiffe's
    MTLSServerConfig and a parameter ([SpiffeTls]); what is relied on is that
    its verification only accepts the certificate of an identity the
    authorizer accepts ([SpiffeTlsSound]).  A certificate is the URIs it
    names, beside what its signature is checked with. *)

From S2P Require Import Free Prelude Limiter Db DbFacts Prog Logic Runs Env Harbor CryptoLib Crypto Duration Spiffe.
From S2P Require Import GoLib Server Satellites Auth AuthFacts Routes RoutesFacts Free Float64 Utf8 Json.
From S2P Require Import SatConfig AuditTrail SatState SatWorld Tls.

#[local] Open Scope string_scope.

(* ------------------------------------------------------------------ *)
(** ** Certificates from files *)

Inductive ClientAuthType :=
| NoClientCert | RequestClientCert | RequireAnyClientCert | VerifyClientCertIfGiven | RequireAndVerifyClientCert.

#[export] Instance ClientAuthType_eq_dec : EqDecision ClientAuthType.
Proof. solve_decision. Defined.

(** The certificate itself is CertWatcher's GetCertificate. *)
Record FileTls := mkFileTls { ft_ClientCAs : option string; ft_ClientAuth : ClientAuthType }.

Definition buildServerTLSConfigWithWatcher `{X509} (CAFile : string) : free base (result FileTls) :=
  if negb (String.eqb CAFile "") then
    let? caData := perform (ReadFile CAFile) catch wrap "read CA file" in
    if negb (AppendCertsFromPEM caData) then throw (PlainErr "invalid CA certificate")
    else ok (mkFileTls (Some caData) RequireAndVerifyClientCert)
  else ok (mkFileTls None NoClientCert).

(* ------------------------------------------------------------------ *)
(** ** SPIFFE *)

(** What a connection asks of the client: the certificates it is sent, and the
    VerifyPeerCertificate callback over them, [Some] an error *)
Record PeerCheck (Cert : Type) := mkPeerCheck {
  pk_ClientAuth : ClientAuthType;
  pk_VerifyPeerCertificate : option (list Cert -> option string) }.
Arguments mkPeerCheck {Cert}. Arguments pk_ClientAuth {Cert}. Arguments pk_VerifyPeerCertificate {Cert}.

(** [tc_GetConfigForClient]: the configuration for one connection, nil to use
    this one *)
Record TlsConfig (Cert Hello : Type) := mkTlsConfig {
  tc_check : PeerCheck Cert;
  tc_GetConfigForClient : option (Hello -> string + option (PeerCheck Cert)) }.
Arguments mkTlsConfig {Cert Hello}. Arguments tc_check {Cert Hello}.
Arguments tc_GetConfigForClient {Cert Hello}.

Class SpiffeTls := {
  Cert : Type;
  Hello : Type;
  cert_URIs : Cert -> list (string * string);
  (* provider.GetTLSConfig, from the authorizer *)
  GetTLSConfig : (SpiffeID -> bool) -> string + TlsConfig Cert Hello }.

Section Spiffe.
Context `{SpiffeTls}.

(** Without certificates there is nothing to verify. *)
Definition if_presented (verify : list Cert -> option string) (rawCerts : list Cert) : option string :=
  match rawCerts with [] => None | _ => verify rawCerts end.

Definition requested (c : PeerCheck Cert) : PeerCheck Cert :=
  mkPeerCheck RequestClientCert (if_presented <$> pk_VerifyPeerCertificate c).

Definition buildSPIFFETLSConfig (trustDomain : string) : result (TlsConfig Cert Hello) :=
  match GetTLSConfig (SatelliteAuthorizer_Authorize trustDomain) with
  | inl m => inl (WrapErr "build SPIFFE TLS config" (PlainErr m))
  | inr cfg =>
      inr (mkTlsConfig (requested (tc_check cfg))
             ((fun orig hello =>
                 match orig hello with
                 | inl m => inl m
                 | inr None => inr None
                 | inr (Some c) => inr (Some (requested c))
                 end) <$> tc_GetConfigForClient cfg))
  end.

(** The configuration crypto/tls uses for a connection *)
Definition effective (cfg : TlsConfig Cert Hello) (hello : Hello) : string + PeerCheck Cert :=
  match tc_GetConfigForClient cfg with
  | None => inr (tc_check cfg)
  | Some f => match f hello with
              | inl m => inl m
              | inr (Some c) => inr c
              | inr None => inr (tc_check cfg)
              end
  end.

(** Whether a handshake with these client certificates can succeed; crypto/tls
    calls the callback whatever they are, and verifies nothing else for
    RequestClientCert and RequireAnyClientCert. *)
Definition handshake (cfg : TlsConfig Cert Hello) (hello : Hello) (certs : list Cert) : bool :=
  match effective cfg hello with
  | inl _ => false
  | inr c =>
      match pk_ClientAuth c, certs with
      | RequireAnyClientCert, [] | RequireAndVerifyClientCert, [] => false
      | _, _ => match pk_VerifyPeerCertificate c with
                | None => true
                | Some verify => match verify certs with None => true | Some _ => false end
                end
      end
  end.

(** go-spiffe's MTLSServerConfig verifies every certificate it is shown. *)
Class SpiffeTlsSound `{SpiffeUris} := mtls_sound authorize cfg hello :
  GetTLSConfig authorize = inr cfg ->
  forall c, effective cfg hello = inr c -> exists verify, pk_VerifyPeerCertificate c = Some verify /\
    forall cert rest, verify (cert :: rest) = None ->
      exists id, ExtractSPIFFEIDFromCert FromURI (cert_URIs cert) = Some id /\ authorize id = true.

(** r.TLS of the requests on a connection *)
Definition tls_of (certs : list Cert) : option (list (list (string * string))) := Some (cert_URIs <$> certs).

Lemma effective_requested cfg hello trustDomain cfg' :
  GetTLSConfig (SatelliteAuthorizer_Authorize trustDomain) = inr cfg ->
  buildSPIFFETLSConfig trustDomain = inr cfg' ->
  effective cfg' hello = match effective cfg hello with inl m => inl m | inr c => inr (requested c) end.
Proof.
  intros E Eb. unfold buildSPIFFETLSConfig in Eb. rewrite E in Eb. injection Eb as <-.
  unfold effective. simpl. destruct (tc_GetConfigForClient cfg) as [f|]; simpl; [|done].
  by destruct (f hello) as [m|[c|]].
Qed.

(** With SPIFFE every connection may come without a client certificate, and
    the requests of one that has a certificate are those of a satellite of
    the server's trust domain: whatever the handshake lets through, the
    identity the middlewares read from it is authorised. *)
Theorem connections_are_satellites `{SpiffeUris, !SpiffeTlsSound} trustDomain cfg hello certs :
  buildSPIFFETLSConfig trustDomain = inr cfg ->
  handshake cfg hello certs = true ->
  (certs = [] /\ ExtractSPIFFEIDFromRequest FromURI (tls_of certs) = None) \/
  exists id, ExtractSPIFFEIDFromRequest FromURI (tls_of certs) = Some id /\
    sid_trust_domain id = trustDomain /\
    (sid_path id = "/satellite" \/ Go.has_prefix "/satellite/" (sid_path id) = true).
Proof.
  intros Eb Eh. destruct (GetTLSConfig (SatelliteAuthorizer_Authorize trustDomain)) as [m|orig] eqn:Eo.
  { unfold buildSPIFFETLSConfig in Eb. by rewrite Eo in Eb. }
  destruct certs as [|cert rest]; [by left|right].
  unfold handshake in Eh. rewrite (effective_requested orig hello _ _ Eo Eb) in Eh.
  destruct (effective orig hello) as [m|c] eqn:Ee; [discriminate Eh|].
  destruct (mtls_sound _ _ _ Eo c Ee) as (verify & Ev & Hv). simpl in Eh. rewrite Ev in Eh. simpl in Eh.
  destruct (verify (cert :: rest)) eqn:Er; [discriminate Eh|].
  destruct (Hv cert rest Er) as (id & Hid & Ha). exists id. split; [exact Hid|].
  unfold SatelliteAuthorizer_Authorize in Ha.
  destruct (String.eqb_spec (sid_trust_domain id) trustDomain) as [Ht|]; [|discriminate Ha]. split; [done|].
  destruct (String.eqb_spec (sid_path id) "/satellite"); [by left|right].
  destruct (Go.has_prefix "/satellite/" (sid_path id)); [done|discriminate Ha].
Qed.

(** Public endpoints stay reachable without a certificate. *)
Theorem certificates_are_optional `{SpiffeUris, !SpiffeTlsSound} trustDomain cfg hello c :
  buildSPIFFETLSConfig trustDomain = inr cfg -> effective cfg hello = inr c ->
  handshake cfg hello [] = true.
Proof.
  intros Eb Ee. destruct (GetTLSConfig (SatelliteAuthorizer_Authorize trustDomain)) as [m|orig] eqn:Eo.
  { unfold buildSPIFFETLSConfig in Eb. by rewrite Eo in Eb. }
  unfold handshake. rewrite Ee. rewrite (effective_requested orig hello _ _ Eo Eb) in Ee.
  destruct (effective orig hello) as [m|c']; [discriminate Ee|]. injection Ee as <-. simpl.
  by destruct (pk_VerifyPeerCertificate c').
Qed.

End Spiffe.

(* ------------------------------------------------------------------ *)
(** ** A concrete provider *)

Module DemoTls.

(** Certificates are texts that name one URI; the provider trusts all of
    them, and parses the path out of "spiffe:<path>". *)
#[export] Instance demo_from_uri : SpiffeUris := fun uri => Some (mkSpiffeID "example.org" uri).

#[export] Instance demo_tls : SpiffeTls := {
  Cert := string; Hello := unit; cert_URIs c := [("spiffe", c)];
  GetTLSConfig authorize :=
    inr (mkTlsConfig (mkPeerCheck RequireAnyClientCert (Some (fun certs =>
           match certs with
           | [] => Some "no certificate"
           | c :: _ => if authorize (mkSpiffeID "example.org" c) then None else Some "not authorized"
           end))) None) }.

#[export] Instance demo_sound : SpiffeTlsSound.
Proof.
  intros authorize cfg hello [= <-] c [= <-]. eexists. split; [reflexivity|]. intros cert rest E.
  exists (mkSpiffeID "example.org" cert). split; [reflexivity|].
  simpl in E. by destruct (authorize (mkSpiffeID "example.org" cert)).
Qed.

Example handshakes :
  match buildSPIFFETLSConfig "example.org" with
  | inr cfg => handshake cfg tt [] = true /\ handshake cfg tt ["/satellite/edge-01"] = true /\
               handshake cfg tt ["/gc/main"] = false
  | inl _ => False
  end.
Proof. vm_compute. repeat split. Qed.

Lemma connections_are_satellites_witness :
  exists id, ExtractSPIFFEIDFromRequest FromURI (tls_of ["/satellite/edge-01"]) = Some id /\
    sid_trust_domain id = "example.org".
Proof.
  destruct (buildSPIFFETLSConfig "example.org") as [e|cfg] eqn:E; [discriminate E|].
  destruct (connections_are_satellites "example.org" cfg tt ["/satellite/edge-01"] E) as [[He _]|(id & Hi & Ht & _)].
  - injection E as <-. reflexivity.
  - discriminate He.
  - exists id. by split.
Defined.

Lemma certificates_are_optional_witness :
  exists cfg, buildSPIFFETLSConfig "example.org" = inr cfg /\ handshake cfg tt [] = true.
Proof.
  destruct (buildSPIFFETLSConfig "example.org") as [e|cfg] eqn:E; [discriminate E|].
  exists cfg. split; [reflexivity|].
  destruct (effective cfg tt) as [m|c] eqn:Ee; [injection E as <-; discriminate Ee|].
  exact (certificates_are_optional "example.org" cfg tt c E Ee).
Defined.

End DemoTls.
