(* ===== verification/HttpClient.v ===== *)
(** * The satellite's HTTP clients

    What the registration and the status report share: createHTTPClient of
    state/registration_process.go, the SPIFFE client of internal/spiffe, and
    of the standard library json.NewDecoder(...).Decode, strings.ReplaceAll
    and the texts of errors.  What a server answers is the parameter
    [Registries]; go-spiffe's spiffeid.FromString is [SpiffeIds]. *)

From stdpp Require Import gmap.
From Stdlib Require Import Ascii.
From S2P Require Import Prelude Free Utf8 GoLib Json CryptoLib SatConfig AuditTrail SatState SatWorld Tls.

#[local] Open Scope string_scope.
#[local] Open Scope list_scope.

(* ------------------------------------------------------------------ *)
(** ** The first value of a stream *)

(** The tokens before the first text that is none *)
Fixpoint lex_prefix (fuel : nat) (s : string) : list token :=
  match s with
  | "" => []
  | String a s' =>
      match fuel with
      | O => []
      | S fuel' =>
          if is_json_space a then lex_prefix fuel' s'
          else match lex_token s with
               | None => []
               | Some (t, r) => t :: lex_prefix fuel' r
               end
      end
  end.

(** A Decoder reads one value; what follows is not looked at. *)
Definition first_value (s : string) : option json :=
  let ts := lex_prefix (String.length s) s in fst <$> value (length ts) 0 ts.

Definition Decode {A} (dec : decoder A) (stream : string) (a : A) : option A :=
  match first_value stream with Some v => dec v a | None => None end.

(** json.NewEncoder(w).Encode *)
Definition Encode (v : json) : string := Marshal v +:+ String "010" "".

Section Stream.

Lemma lex_prefix_lex fuel s ts : lex fuel s = Some ts -> lex_prefix fuel s = ts.
Proof.
  revert s ts. induction fuel as [|fuel IH]; intros [|a s] ts; cbn [lex lex_prefix]; try (by intros [= <-]).
  destruct (is_json_space a); [apply IH|]. destruct (lex_token _) as [[t r]|]; [|done].
    destruct (lex fuel r) as [ts'|] eqn:E; [|done]. intros [= <-]. by rewrite (IH _ _ E).
Qed.

Lemma lexes_then ts r : separated ts -> lexes r [] -> ends_number r = true -> lexes (compact ts +:+ r) ts.
Proof.
  intros Hs Hr Hn. induction ts as [|t ts IH]; [done|]. destruct Hs as (Hg & Ht & Hs).
  cbn [compact concat_map]. change (concat_map token_text ts) with (compact ts). rewrite append_assoc.
  apply lexes_token; [done| |by apply IH]. intros Hi. specialize (Ht Hi).
  destruct ts as [|u ts]; [done|]. by destruct u.
Qed.

(** What an Encoder wrote, a Decoder reads. *)
Lemma first_value_Encode v : wf v -> (depth v <= maxNestingDepth)%N -> first_value (Encode v) = Some v.
Proof.
  intros Hw Hd. unfold first_value, Encode.
  assert (lexes (Marshal v +:+ String "010" "") (tokens v)) as Hl.
  { apply lexes_then; [|by apply lexes_space; [|apply lexes_nil]|done].
    rewrite <- (app_nil_r (tokens v)). by apply separated_tokens. }
  rewrite (lex_prefix_lex _ _ _ (Hl _ (le_n _))).
  pose proof (value_tokens v Hw (length (tokens v)) 0%N [] ltac:(lia) ltac:(lia)) as E.
  rewrite app_nil_r in E. by rewrite E.
Qed.

End Stream.

(* ------------------------------------------------------------------ *)
(** ** strings.ReplaceAll and the texts of errors *)

(** For a text to replace that is not empty *)
Fixpoint replace_from (fuel : nat) (old new s : string) : string :=
  match fuel with
  | O => s
  | S fuel' =>
      match s with
      | "" => ""
      | String a s' =>
          if Go.has_prefix old s then new +:+ replace_from fuel' old new (Go.drop_bytes (String.length old) s)
          else String a (replace_from fuel' old new s')
      end
  end.

Definition ReplaceAll (s old new : string) : string := replace_from (String.length s) old new s.

(** No byte of [s] is in [t]. *)
Definition foreign (t s : string) : bool :=
  Go.forallb_bytes (fun a => negb (Go.existsb_bytes (Ascii.eqb a) t)) s.

Section Replacing.

Lemma drop_length n s : (String.length (Go.drop_bytes n s) <= String.length s)%nat.
Proof. revert s. induction n as [|n IH]; intros [|a s]; cbn; try lia. specialize (IH s). lia. Qed.

(** A prefix without a byte of [new] was there before. *)
Lemma prefix_before old new fuel s p :
  new <> "" -> foreign new p = true -> (String.length s <= fuel)%nat -> old <> "" ->
  Go.has_prefix p (replace_from fuel old new s) = true -> Go.has_prefix p s = true.
Proof.
  intros Hn Hf. revert s p Hf. induction fuel as [|fuel IH]; intros s p Hf Hl Ho; [done|].
  destruct s as [|a s]; [done|]. cbn [replace_from].
  destruct (Go.has_prefix old (String a s)).
  - destruct p as [|c p]; [done|]. destruct new as [|b new]; [done|]. rewrite Utf8.app_cons. cbn.
    destruct (Ascii.eqb_spec c b) as [->|]; [|done]. cbn in Hf. by rewrite Ascii.eqb_refl in Hf.
  - destruct p as [|c p]; [done|]. cbn. destruct (Ascii.eqb c a); [|done]. cbn [andb].
    apply IH; [|cbn in Hl; lia|done]. cbn in Hf. by apply andb_prop in Hf as [_ Hf].
Qed.

Lemma contains_app c old x s : Go.existsb_bytes (Ascii.eqb c) x = false ->
  Go.contains s (String c old) = false -> Go.contains (x +:+ s) (String c old) = false.
Proof.
  induction x as [|a x IH]; intros Hx Hs; [done|]. rewrite Utf8.app_cons. cbn in Hx |- *.
  apply orb_false_elim in Hx as [-> Hx]. by apply IH.
Qed.

(** What was replaced by a text that shares no byte with it is gone. *)
Lemma ReplaceAll_gone s old new :
  old <> "" -> new <> "" -> foreign new old = true -> Go.contains (ReplaceAll s old new) old = false.
Proof.
  intros Ho Hn Hf. unfold ReplaceAll. generalize (le_n (String.length s)).
  generalize (String.length s) at 2 3. intros fuel. revert s.
  induction fuel as [|fuel IH]; intros s Hl.
  - destruct s; [by destruct old|cbn in Hl; lia].
  - destruct s as [|a s]; [by destruct old|]. cbn [String.length] in Hl. cbn [replace_from].
    destruct (Go.has_prefix old (String a s)) eqn:Ep.
    + destruct old as [|c old]; [done|]. apply contains_app.
      * cbn in Hf. by apply andb_prop in Hf as [Hf%negb_true_iff _].
      * apply IH. cbn [Go.drop_bytes String.length]. pose proof (drop_length (String.length old) s). lia.
    + cbn [Go.contains]. rewrite IH by lia. rewrite orb_false_r.
      apply not_true_is_false. intros E.
      destruct old as [|c old]; [done|]. cbn in E, Ep. destruct (Ascii.eqb c a); [|done]. cbn [andb] in E, Ep.
      apply prefix_before in E; [congruence|done| |lia|done].
      cbn in Hf. by apply andb_prop in Hf as [_ Hf].
Qed.

End Replacing.

(** err.Error(); the path of a missing file is left out. *)
Fixpoint error_text (e : goerr) : string :=
  match e with
  | AppErr msg _ => msg
  | NoRows => "sql: no rows in result set"
  | PqErr code => "pq: " +:+ code
  | NotExist => "no such file or directory"
  | Canceled => "context canceled"
  | PlainErr msg => msg
  | WrapErr msg e => msg +:+ ": " +:+ error_text e
  end.

(* ------------------------------------------------------------------ *)
(** ** Requests *)

Class SpiffeIds := FromString : string -> string + string.

(** Operations that no mutex makes one *)
Fixpoint unlocked `{Registries} {A} (p : free base A) : act A :=
  match p with
  | Ret a => Ret a
  | Op o k => Op (Locked (perform o)) (fun r => unlocked (k r))
  end.

(** http.NewRequestWithContext with a valid method *)
Definition NewRequest `{NetUrl} (method target body : string) : result HttpRequest :=
  match Parse target with
  | inl m => inl (PlainErr m)
  | inr _ => inr (mkHttpRequest method target "" None body)
  end.

(** *** client.Do

    No client of the program sets CheckRedirect, so net/http follows redirects
    by its default policy. *)

(** A request of the chain: its address, whether bodies are still sent, and
    whether the credentials are withheld from here on *)
Record Hop `{NetUrl} := mkHop {
  ho_req : HttpRequest; ho_url : url; ho_includeBody : bool; ho_strip : bool }.
Arguments mkHop {_}.

Definition redirecting (status : Z) : bool := bool_decide (status ∈ [301; 302; 303; 307; 308]%Z).
Definition keeps_method (status : Z) : bool := (status =? 307)%Z || (status =? 308)%Z.

(** A response without a Location is returned as it is. *)
Definition is_final (resp : HttpResponse) : bool :=
  negb (redirecting (rs_StatusCode resp)) || String.eqb (rs_Location resp) "".

Definition isDomainOrSubdomain (sub parent : string) : bool :=
  if String.eqb sub parent then true
  else if Go.existsb_bytes (fun a => Ascii.eqb a ":" || Ascii.eqb a "%") sub then false
  else Go.has_suffix (String "." parent) sub.

(** May the Authorization header of a request to [iu] go to [u]? *)
Definition shares_host `{NetUrl} (iu u : url) : bool :=
  String.eqb (url_host iu) (url_host u) || isDomainOrSubdomain (idna_hostname u) (idna_hostname iu).

(** The next request after a redirecting answer to [h]; [ireq] was the first.
    All bodies of the program can be sent again. *)
Definition next_hop `{NetUrl} (ireq : HttpRequest) (iu : url) (h : Hop) (resp : HttpResponse) : result Hop :=
  match ResolveReference (ho_url h) (rs_Location resp) with
  | inl m => inl (WrapErr "failed to parse Location header" (PlainErr m))
  | inr u =>
      let method := rq_Method (ho_req h) in
      let keep := keeps_method (rs_StatusCode resp) in
      let body := ho_includeBody h && keep in
      let strip := ho_strip h || negb (shares_host iu u) in
      inr (mkHop (mkHttpRequest (if keep || String.eqb method "HEAD" then method else "GET") (url_string u)
                    (if body then rq_ContentType ireq else "") (if strip then None else rq_BasicAuth ireq)
                    (if body then rq_Body ireq else "")) u body strip)
  end.

Fixpoint follow `{Registries, NetUrl} (hops : nat) (client : HttpClient) (ireq : HttpRequest) (iu : url) (h : Hop)
    : act (result HttpResponse) :=
  let? resp := registry (HttpDo client (ho_req h)) catch throw in
  if is_final resp then ok resp
  else match next_hop ireq iu h resp, hops with
       | inl e, _ => throw e
       | inr _, O => throw (PlainErr "stopped after 10 redirects")
       | inr h', S hops' => follow hops' client ireq iu h'
       end.

Definition first_hop `{NetUrl} (req : HttpRequest) (u : url) : Hop := mkHop req u true false.

Definition Do `{Registries, NetUrl} (client : HttpClient) (req : HttpRequest) : act (result HttpResponse) :=
  match Parse (rq_URL req) with
  | inl m => throw (PlainErr m)
  | inr u => follow 9 client req u (first_hop req u)
  end.

(** What Do returns, as a relation on the state of the network: an answer that
    is final, or what the request it redirects to is answered. *)
Inductive exchange `{Registries, NetUrl} (client : HttpClient) (ireq : HttpRequest) (iu : url)
    : Hop -> reg_state -> HttpResponse -> Prop :=
| exchange_final h st st' resp :
    reg_exec _ (HttpDo client (ho_req h)) st = (st', inr resp) -> is_final resp = true ->
    exchange client ireq iu h st resp
| exchange_redirect h h' st st' hop resp :
    reg_exec _ (HttpDo client (ho_req h)) st = (st', inr hop) -> is_final hop = false ->
    next_hop ireq iu h hop = inr h' -> exchange client ireq iu h' st' resp ->
    exchange client ireq iu h st resp.

(** [req], or the redirect it was answered with, ... was answered with [resp]. *)
Definition answers `{Registries, NetUrl} (client : HttpClient) (req : HttpRequest) (st : reg_state)
    (resp : HttpResponse) : Prop :=
  exists u, Parse (rq_URL req) = inr u /\ exchange client req u (first_hop req u) st resp.

Lemma follow_exchange `{Registries, NetUrl} hops client ireq iu h w w' resp :
  srun (follow hops client ireq iu h) w = (w', inr resp) -> exchange client ireq iu h (sw_reg w) resp.
Proof.
  revert h w. induction hops as [|hops IH]; intros h w; cbn [follow]; unfold srun, registry, perform, try;
    cbn [bind frun exec_sop]; destruct (reg_exec _ _ _) as [st [m|hop]] eqn:Ex; cbn [frun throw]; try done;
    destruct (is_final hop) eqn:Ef; cbn [frun ok].
  1, 3: intros [= _ <-]; by eapply exchange_final.
  all: destruct (next_hop ireq iu h hop) as [e|h'] eqn:En; try done.
  intros E. eapply exchange_redirect; [done..|]. by apply (IH h' (s_tick (s_reg st w))).
Qed.

Lemma Do_answers `{Registries, NetUrl} client req w w' resp :
  srun (Do client req) w = (w', inr resp) -> answers client req (sw_reg w) resp.
Proof.
  unfold Do. destruct (Parse (rq_URL req)) as [m|u] eqn:Eu; [done|]. intros E%follow_exchange. by exists u.
Qed.

(** An answer of the server that was asked that is final *)
Lemma answers_direct `{Registries, NetUrl} client req st resp :
  (forall st' hop, reg_exec _ (HttpDo client req) st = (st', inr hop) -> is_final hop = true) ->
  answers client req st resp -> exists st', reg_exec _ (HttpDo client req) st = (st', inr resp).
Proof.
  intros Hf (u & _ & E). inversion E as [h st0 st' r Ex _|h h' st0 st' hop r Ex Ef]; subst; cbn in *; [by eexists|].
  by rewrite (Hf _ _ Ex) in Ef.
Qed.

(** registration_process.go *)
Definition createHTTPClient `{X509} (tlsCfg : TLSConfig) (useUnsecure : bool) : free base (result HttpClient) :=
  if useUnsecure then ok (TLSHttpClient (Some (mkTLSClient "" useUnsecure None None)))
  else if negb (String.eqb (tls_CertFile tlsCfg) "") || negb (String.eqb (tls_CAFile tlsCfg) "") then
    let? tlsConfig := LoadClientTLSConfig (mkTlsConfig (tls_CertFile tlsCfg) (tls_KeyFile tlsCfg)
                        (tls_CAFile tlsCfg) "" (tls_SkipVerify tlsCfg) None)
      catch wrap "load TLS config" in
    ok (TLSHttpClient (Some tlsConfig))
  else ok (TLSHttpClient None).

(* ------------------------------------------------------------------ *)
(** ** internal/spiffe/client.go *)

(** The client is a field of a process; only the process's own goroutine uses
    it, so Connect, which holds the client's mutex throughout, is given by its
    steps. *)
Module spiffe.

Definition NewClient `{SpiffeIds} (cfg : SPIFFEConfig) : result SpiffeClient :=
  if negb (sp_Enabled cfg) then inl (PlainErr "SPIFFE is not enabled")
  else if String.eqb (sp_ExpectedServerID cfg) ""
  then inr (mkSpiffeClient (sp_EndpointSocket cfg) None false false)
  else match FromString (sp_ExpectedServerID cfg) with
       | inl m => inl (WrapErr "invalid expected server ID" (PlainErr m))
       | inr serverID => inr (mkSpiffeClient (sp_EndpointSocket cfg) (Some serverID) false false)
       end.

Definition connected (c : SpiffeClient) : SpiffeClient :=
  mkSpiffeClient (sc_socketPath c) (sc_expectedServerID c) true (sc_closed c).
Definition closed (c : SpiffeClient) : SpiffeClient :=
  mkSpiffeClient (sc_socketPath c) (sc_expectedServerID c) (sc_connected c) true.

Section Client.
Context `{Registries}.
Context (get : Locals -> option SpiffeClient) (put : (SpiffeClient -> SpiffeClient) -> Locals -> Locals).

(** The methods are called on a client that is there; a nil one would panic. *)
Definition with_client {A} (f : SpiffeClient -> act (result A)) : act (result A) :=
  let* l := locked (perform GetLocals) in
  match get l with Some c => f c | None => throw (PlainErr "panic: nil pointer dereference") end.

Definition Connect : act (result unit) :=
  with_client (fun c =>
    if sc_closed c then throw (PlainErr "client is closed")
    else if sc_connected c then ok tt
    else
      let? _ := registry (NewX509Source (sc_socketPath c)) catch wrap "create X509Source" in
      locked (perform (SetLocals (put connected))) ;;;
      ok tt).

(** The SPIFFE ID of the current SVID *)
Definition GetSVID : act (result string) :=
  with_client (fun c =>
    if sc_closed c then throw (PlainErr "client is closed")
    else if negb (sc_connected c) then throw (PlainErr "client not connected")
    else registry (GetX509SVID (sc_socketPath c))).

Definition GetSPIFFEID : act (result string) := let? id := GetSVID catch throw in ok id.

(** The source and the authorizer of the mTLS configuration *)
Definition GetTLSConfig : act (result (string * option string)) :=
  with_client (fun c =>
    if sc_closed c then throw (PlainErr "client is closed")
    else if negb (sc_connected c) then throw (PlainErr "client not connected")
    else ok (sc_socketPath c, sc_expectedServerID c)).

Definition CreateHTTPClient : act (result HttpClient) :=
  let? (source, authorizer) := GetTLSConfig catch throw in
  ok (SpiffeHttpClient source authorizer).

Definition Close : act (result unit) :=
  with_client (fun c =>
    if sc_closed c then ok tt
    else locked (perform (SetLocals (put closed))) ;;; ok tt).

End Client.
End spiffe.
