(* ===== verification/ParsecWire.v ===== *)
(** * The PARSEC wire protocol

    parsec-client-go/interface/requests: the 36-byte header with its
    validity checks, the framing of a request and the reading of a response.
    The protobuf messages inside are in [ParsecClient].  An index past the end
    of a buffer would panic: [None]. *)

From stdpp Require Import list.
From Stdlib Require Import Ascii.
From S2P Require Import Prelude.

#[local] Open Scope string_scope.
#[local] Open Scope list_scope.
#[local] Open Scope Z_scope.

(* ------------------------------------------------------------------ *)
(** ** encoding/binary, little endian *)

Fixpoint le (n : nat) (z : Z) : list ascii :=
  match n with
  | O => []
  | S n' => ascii_of_nat (Z.to_nat (z mod 256)) :: le n' (z / 256)
  end.

Fixpoint le_value (bs : list ascii) : Z :=
  match bs with [] => 0 | a :: bs' => Z.of_nat (nat_of_ascii a) + 256 * le_value bs' end.

Lemma le_length n z : length (le n z) = n.
Proof. revert z. induction n as [|n IH]; intros z; cbn; [done|]. by rewrite IH. Qed.

Lemma le_value_le n z : 0 <= z < 256 ^ Z.of_nat n -> le_value (le n z) = z.
Proof.
  revert z. induction n as [|n IH]; intros z Hz; [cbn in *; lia|]. cbn [le le_value].
  rewrite Nat2Z.inj_succ, Z.pow_succ_r in Hz by lia.
  pose proof (Z.mod_pos_bound z 256 ltac:(lia)) as Hm.
  rewrite nat_ascii_embedding by lia. rewrite Z2Nat.id by lia. rewrite IH.
  - pose proof (Z.div_mod z 256 ltac:(lia)). lia.
  - split; [apply Z.div_pos; lia|]. apply Z.div_lt_upper_bound; lia.
Qed.

Lemma byte_lt a : (nat_of_ascii a < 256)%nat.
Proof. apply nat_ascii_bounded. Qed.

Lemma le_value_bound bs : 0 <= le_value bs < 256 ^ Z.of_nat (length bs).
Proof.
  induction bs as [|a bs IH]; [done|]. cbn [le_value length].
  rewrite Nat2Z.inj_succ, Z.pow_succ_r by lia. pose proof (byte_lt a). lia.
Qed.

Lemma le_le_value bs : le (length bs) (le_value bs) = bs.
Proof.
  induction bs as [|a bs IH]; [done|]. cbn [length le le_value]. pose proof (byte_lt a) as Ha.
  replace ((Z.of_nat (nat_of_ascii a) + 256 * le_value bs) mod 256) with (Z.of_nat (nat_of_ascii a)).
  - replace ((Z.of_nat (nat_of_ascii a) + 256 * le_value bs) / 256) with (le_value bs).
    + by rewrite Nat2Z.id, ascii_nat_embedding, IH.
    + rewrite (Z.mul_comm 256), Z.div_add by lia. rewrite Z.div_small by lia. lia.
  - rewrite (Z.mul_comm 256), Z.mod_add by lia. by rewrite Z.mod_small by lia.
Qed.

(* ------------------------------------------------------------------ *)
(** ** Codes *)

(** requests.ProviderID *)
Definition ProviderCore : Z := 0.
Definition ProviderCryptoAuthLib : Z := 5.
Definition ProviderID_IsValid (p : Z) : bool := (ProviderCore <=? p) && (p <=? ProviderCryptoAuthLib).

(** requests.OpCode *)
Definition OpPing : Z := 1.
Definition OpPsaGenerateKey : Z := 2.
Definition OpPsaDestroyKey : Z := 3.
Definition OpPsaSignHash : Z := 4.
Definition OpPsaVerifyHash : Z := 5.
Definition OpPsaImportKey : Z := 6.
Definition OpPsaExportPublicKey : Z := 7.
Definition OpListProviders : Z := 8.
Definition OpListOpcodes : Z := 9.
Definition OpPsaAsymmetricEncrypt : Z := 10.
Definition OpPsaAsymmetricDecrypt : Z := 11.
Definition OpPsaExportKey : Z := 12.
Definition OpPsaGenerateRandom : Z := 13.
Definition OpListAuthenticators : Z := 14.
Definition OpPsaHashCompute : Z := 15.
Definition OpPsaAeadEncrypt : Z := 17.
Definition OpPsaAeadDecrypt : Z := 18.
Definition OpPsaRawKeyAgreement : Z := 19.
Definition OpPsaCipherEncrypt : Z := 20.
Definition OpPsaCipherDecrypt : Z := 21.
Definition OpPsaMacCompute : Z := 22.
Definition OpPsaMacVerify : Z := 23.
Definition OpPsaSignMessage : Z := 24.
Definition OpPsaVerifyMessage : Z := 25.
Definition OpListKeys : Z := 26.
Definition OpListClients : Z := 27.
Definition OpDeleteClient : Z := 28.
Definition OpCode_IsValid (o : Z) : bool := (OpPing <=? o) && (o <=? OpDeleteClient).

(** auth.AuthenticationType *)
Definition AuthNoAuth : Z := 0.
Definition AuthDirect : Z := 1.
Definition AuthUnixPeerCredentials : Z := 3.
Definition AuthJwtSvid : Z := 4.
Definition AuthenticationType_IsValid (a : Z) : bool := a <=? AuthJwtSvid.

Definition NewAuthenticationTypeFromU32 (t : Z) : result Z :=
  if AuthJwtSvid <? t then inl (PlainErr "cannot convert value to AuthenticationType") else inr t.

(** requests.StatusCode and the texts of its errors *)
Definition StatusSuccess : Z := 0.
Definition StatusAdminOperation : Z := 21.
Definition StatusPsaErrorGenericError : Z := 1132.
Definition StatusPsaErrorDoesNotExist : Z := 1140.
Definition StatusPsaErrorInvalidSignature : Z := 1149.
Definition StatusPsaErrorDataCorrupt : Z := 1152.

Definition StatusCode_IsValid (code : Z) : bool :=
  ((StatusSuccess <=? code) && (code <=? StatusAdminOperation)) ||
  ((StatusPsaErrorGenericError <=? code) && (code <=? StatusPsaErrorDataCorrupt)).

Definition status_texts : list (Z * string) :=
  [(1, "wrong provider id"); (2, "content type not supported"); (3, "accept type not supported");
   (4, "requested version is not supported by the backend"); (5, "provider not registered");
   (6, "provider does not exist"); (7, "deserializing body failed"); (8, "serializing body failed");
   (9, "opcode does not exist"); (10, "response too large"); (11, "authentication error");
   (12, "authentication does not exist"); (13, "authentication not registered");
   (14, "internal error in the Key Info Manager"); (15, "generic input/output error");
   (16, "invalid value for this data type"); (17, "constant fields in header are invalid");
   (18, "the UUID vector needs to only contain 16 bytes");
   (19, "request did not provide a required authentication");
   (20, "request length specified in the header is above defined limit");
   (21, "the operation requires admin privilege");
   (1132, "generic error"); (1133, "not permitted"); (1134, "not supported"); (1135, "invalid argument");
   (1136, "invalid handle"); (1137, "bad state"); (1138, "buffer too small"); (1139, "already exists");
   (1140, "does not exist"); (1141, "insufficient memory"); (1142, "insufficient storage");
   (1143, "insufficient data"); (1145, "communications failure"); (1146, "storage failure");
   (1147, "hardware failure"); (1148, "insufficient entropy"); (1149, "invalid signature");
   (1150, "invalid padding"); (1151, "tampering detected"); (1152, "stored data has been corrupted")].

(** [None]: no error *)
Definition ToErr (code : Z) : option goerr :=
  if code =? StatusSuccess then None
  else Some (PlainErr (match List.find (fun t => t.1 =? code) status_texts with
                       | Some t => t.2
                       | None => "unknown error code"
                       end)).

(* ------------------------------------------------------------------ *)
(** ** The header *)

Record wireHeader := mkWireHeader {
  h_magicNumber : Z; h_hdrSize : Z; h_versionMajor : Z; h_versionMinor : Z; h_flags : Z;
  h_provider : Z; h_session : Z; h_contentType : Z; h_acceptType : Z; h_authType : Z;
  h_bodyLen : Z; h_authLen : Z; h_opCode : Z; h_Status : Z; h_reserved1 : Z; h_reserved2 : Z }.

Definition magicNumber : Z := 0x5EC0A710.
Definition requestHeaderSize : Z := 30.
Definition wireHeaderSizeValue : Z := 30.
Definition WireHeaderSize : Z := wireHeaderSizeValue + 6.

Definition isSupportedWireHeaderVersion (maj min : Z) : bool := (maj =? 1) && (min =? 0).

Definition invalid {A} (what : string) : result A := inl (PlainErr ("invalid " +:+ what)).

Definition checkForRequest (r : wireHeader) : result unit :=
  if negb (isSupportedWireHeaderVersion (h_versionMajor r) (h_versionMinor r)) then invalid "version"
  else if negb (h_flags r =? 0) then invalid "flags"
  else if negb (h_contentType r =? 0) then invalid "content type"
  else if negb (h_acceptType r =? 0) then invalid "accept type"
  else if negb (AuthenticationType_IsValid (h_authType r)) then invalid "auth type"
  else inr tt.

(** binary.Write of the struct: its fields in order *)
Definition header_bytes (r : wireHeader) : list ascii :=
  le 4 (h_magicNumber r) ++ le 2 (h_hdrSize r) ++ le 1 (h_versionMajor r) ++ le 1 (h_versionMinor r) ++
  le 2 (h_flags r) ++ le 1 (h_provider r) ++ le 8 (h_session r) ++ le 1 (h_contentType r) ++
  le 1 (h_acceptType r) ++ le 1 (h_authType r) ++ le 4 (h_bodyLen r) ++ le 2 (h_authLen r) ++
  le 4 (h_opCode r) ++ le 2 (h_Status r) ++ le 1 (h_reserved1 r) ++ le 1 (h_reserved2 r).

Definition stamped (r : wireHeader) : wireHeader :=
  mkWireHeader magicNumber requestHeaderSize (h_versionMajor r) (h_versionMinor r) (h_flags r)
    (h_provider r) (h_session r) (h_contentType r) (h_acceptType r) (h_authType r)
    (h_bodyLen r) (h_authLen r) (h_opCode r) (h_Status r) (h_reserved1 r) (h_reserved2 r).

Definition pack (r : wireHeader) : result (list ascii) :=
  match checkForRequest r with
  | inl e => inl e
  | inr _ => inr (header_bytes (stamped r))
  end.

(** An integer of [n] bytes from buf.Next(n) *)
Definition next {A} (n : nat) (k : Z -> list ascii -> option A) (buf : list ascii) : option A :=
  if (length buf <? n)%nat then None else k (le_value (take n buf)) (drop n buf).

Definition parseWireHeaderFromBuf (buf : list ascii) : option (result wireHeader) :=
  next 4 (fun magic => if negb (magic =? magicNumber) then fun _ => Some (invalid "magic number") else
  next 2 (fun size => if negb (size =? wireHeaderSizeValue) then fun _ => Some (invalid "header size") else
  next 1 (fun major => next 1 (fun minor =>
    if negb (isSupportedWireHeaderVersion major minor) then fun _ => Some (inl (PlainErr "unsupported version number")) else
  next 2 (fun flags => if negb (flags =? 0) then fun _ => Some (inl (PlainErr "unsupported flags value")) else
  next 1 (fun provider => if negb (ProviderID_IsValid provider) then fun _ => Some (invalid "provider") else
  next 8 (fun session =>
  next 1 (fun content => if negb (content =? 0) then fun _ => Some (invalid "content type") else
  next 1 (fun accept =>
  next 1 (fun auth => if negb (AuthenticationType_IsValid auth) then fun _ => Some (invalid "auth type") else
  next 4 (fun bodyLen => next 2 (fun authLen =>
  next 4 (fun op => if negb (OpCode_IsValid op) then fun _ => Some (invalid "opcode") else
  next 2 (fun status => if negb (StatusCode_IsValid status) then fun _ => Some (invalid "response status code") else
  next 1 (fun r1 => next 1 (fun r2 =>
    if negb (r1 =? 0) || negb (r2 =? 0) then fun _ => Some (inl (PlainErr "reserved bytes must be zero")) else
    fun _ => Some (inr (mkWireHeader magic size major minor flags provider session content accept auth
                          bodyLen authLen op status r1 r2))
  )))))))))))))))) buf.

(* ------------------------------------------------------------------ *)
(** ** Requests *)

(** auth.RequestAuthToken *)
Record RequestAuthToken := mkRequestAuthToken { tok_type : Z; tok_buf : list ascii }.

Record Request := mkRequest { rq_Header : wireHeader; rq_Body : list ascii; rq_Auth : RequestAuthToken }.

(** The lengths are converted to uint32 and uint16. *)
Definition NewRequest (op : Z) (bodyBuf : list ascii) (authtok : RequestAuthToken) (provider : Z) : result Request :=
  if 65535 <? Z.of_nat (length (tok_buf authtok)) then inl (PlainErr "auth token length exceeds wire-protocol max")
  else inr (mkRequest
    (mkWireHeader 0 0 1 0 0 provider 0 0 0 (tok_type authtok)
       (Z.of_nat (length bodyBuf) mod 2 ^ 32) (Z.of_nat (length (tok_buf authtok)) mod 2 ^ 16)
       op StatusSuccess 0 0)
    bodyBuf authtok).

Definition Pack (r : Request) : result (list ascii) :=
  match checkForRequest (rq_Header r) with
  | inl e => inl e
  | inr _ =>
      match pack (rq_Header r) with
      | inl e => inl e
      | inr b => inr (b ++ rq_Body r ++ tok_buf (rq_Auth r))
      end
  end.

(* ------------------------------------------------------------------ *)
(** ** Responses *)

(** bytes.Buffer.Read of at most [n] bytes: what was read and what is left *)
Definition Read (n : Z) (buf : list ascii) : result (list ascii * list ascii) :=
  if (length buf =? 0)%nat && (0 <? n) then inl (PlainErr "EOF")
  else inr (take (Z.to_nat n) buf, drop (Z.to_nat n) buf).

(** [unmarshal]: proto.Unmarshal into the message of the operation *)
Definition ParseResponse {R} (unmarshal : list ascii -> result R) (expectedOpCode : Z) (buf : list ascii)
  : option (result R) :=
  match Read WireHeaderSize buf with
  | inl e => Some (inl (WrapErr "failed to read header" e))
  | inr (hdrBuf, rest) =>
      if negb (Z.of_nat (length hdrBuf) =? WireHeaderSize) then Some (inl (PlainErr "header underflow error"))
      else
        match parseWireHeaderFromBuf hdrBuf with
        | None => None
        | Some (inl e) => Some (inl (WrapErr "failed to parse header" e))
        | Some (inr h) =>
            if negb (h_opCode h =? expectedOpCode) then Some (inl (PlainErr "was expecting response with another op code"))
            else
              match Read (h_bodyLen h) rest with
              | inl e => Some (inl (WrapErr "failed to read body" e))
              | inr (bodyBuf, _) =>
                  if negb (Z.of_nat (length bodyBuf) =? h_bodyLen h) then Some (inl (PlainErr "body underflow error"))
                  else
                    match unmarshal bodyBuf with
                    | inl e => Some (inl e)
                    | inr m => Some (match ToErr (h_Status h) with Some e => inl e | None => inr m end)
                    end
              end
        end
  end.

(* ------------------------------------------------------------------ *)
(** ** The codec *)

Section Codec.
#[local] Arguments le : simpl never.
#[local] Arguments next : simpl never.

Lemma next_le {A} n z (k : Z -> list ascii -> option A) rest :
  0 <= z < 256 ^ Z.of_nat n -> next n k (le n z ++ rest) = k z rest.
Proof.
  intros Hz. unfold next. rewrite length_app, le_length, take_app_length', drop_app_length' by (symmetry; apply le_length).
  rewrite le_value_le by done. destruct (_ <? _)%nat eqn:E; [|done]. apply Nat.ltb_lt in E. lia.
Qed.

Lemma next_some {A} n (k : Z -> list ascii -> option A) buf r : next n k buf = Some r ->
  exists z rest, buf = le n z ++ rest /\ 0 <= z < 256 ^ Z.of_nat n /\ k z rest = Some r.
Proof.
  unfold next. destruct (_ <? _)%nat eqn:E; [done|]. apply Nat.ltb_ge in E. intros Hk.
  exists (le_value (take n buf)), (drop n buf). pose proof (le_value_bound (take n buf)) as Hb.
  pose proof (le_le_value (take n buf)) as Hl. rewrite length_take, Nat.min_l in Hb, Hl by done.
  by rewrite Hl, take_drop.
Qed.

(** No reading goes past the end while enough bytes are left. *)
Lemma next_total {A} n (k : Z -> list ascii -> option A) buf :
  (n <= length buf)%nat -> (forall z rest, length rest = (length buf - n)%nat -> k z rest <> None) ->
  next n k buf <> None.
Proof.
  intros Hl Hk. unfold next. destruct (_ <? _)%nat eqn:E; [apply Nat.ltb_lt in E; lia|].
  apply Hk. by rewrite length_drop.
Qed.

(** A header a response may have *)
Definition response_header (h : wireHeader) : Prop :=
  h_magicNumber h = magicNumber /\ h_hdrSize h = wireHeaderSizeValue /\
  isSupportedWireHeaderVersion (h_versionMajor h) (h_versionMinor h) = true /\
  h_flags h = 0 /\ (0 <= h_provider h /\ ProviderID_IsValid (h_provider h) = true) /\
  (0 <= h_session h < 2 ^ 64) /\ h_contentType h = 0 /\ (0 <= h_acceptType h < 2 ^ 8) /\
  (0 <= h_authType h /\ AuthenticationType_IsValid (h_authType h) = true) /\
  (0 <= h_bodyLen h < 2 ^ 32) /\ (0 <= h_authLen h < 2 ^ 16) /\
  OpCode_IsValid (h_opCode h) = true /\ StatusCode_IsValid (h_Status h) = true /\
  h_reserved1 h = 0 /\ h_reserved2 h = 0.

Lemma header_length h : length (header_bytes h) = 36%nat.
Proof. unfold header_bytes. by rewrite !length_app, !le_length. Qed.

Lemma provider_range p : ProviderID_IsValid p = true -> 0 <= p < 6.
Proof. unfold ProviderID_IsValid, ProviderCore, ProviderCryptoAuthLib. lia. Qed.
Lemma opcode_range o : OpCode_IsValid o = true -> 1 <= o < 29.
Proof. unfold OpCode_IsValid, OpPing, OpDeleteClient. lia. Qed.
Lemma status_range s : StatusCode_IsValid s = true -> 0 <= s < 1153.
Proof.
  unfold StatusCode_IsValid, StatusSuccess, StatusAdminOperation, StatusPsaErrorGenericError,
    StatusPsaErrorDataCorrupt. lia.
Qed.
Lemma version_range a b : isSupportedWireHeaderVersion a b = true -> a = 1 /\ b = 0.
Proof. unfold isSupportedWireHeaderVersion. lia. Qed.

Lemma parse_header_bytes h : response_header h -> parseWireHeaderFromBuf (header_bytes h) = Some (inr h).
Proof.
  destruct h as [magic size maj min fl prov sess ct acc au bl al op st r1 r2]. unfold response_header. cbn.
  intros (-> & -> & Hv & -> & [Hp0 Hp] & Hs & -> & Hacc & [Ha0 Ha] & Hbl & Hal & Ho & Hst & -> & ->).
  destruct (version_range _ _ Hv) as [-> ->]. pose proof (provider_range _ Hp).
  pose proof (opcode_range _ Ho). pose proof (status_range _ Hst).
  assert (au <= 4) by (unfold AuthenticationType_IsValid, AuthJwtSvid in Ha; lia).
  unfold parseWireHeaderFromBuf, header_bytes. cbn [h_magicNumber h_hdrSize h_versionMajor h_versionMinor h_flags
    h_provider h_session h_contentType h_acceptType h_authType h_bodyLen h_authLen h_opCode h_Status h_reserved1 h_reserved2].
  do 15 (rewrite next_le by (unfold magicNumber, wireHeaderSizeValue; cbn; lia);
          cbn [negb]; rewrite ?Z.eqb_refl, ?Hv, ?Hp, ?Ha, ?Ho, ?Hst; cbn [negb]).
  rewrite <- (app_nil_r (le 1 0)) at 1. by rewrite next_le by (cbn; lia).
Qed.

Lemma parse_header_total bs : length bs = 36%nat -> parseWireHeaderFromBuf bs <> None.
Proof.
  intros Hl. unfold parseWireHeaderFromBuf.
  do 16 (apply next_total; [rewrite Hl; lia|]; intros ?? Hr; rewrite Hl in Hr; cbn in Hr; clear Hl; rename Hr into Hl;
         try (destruct (negb _); [done|])).
  by destruct (_ || _).
Qed.

(** Whatever is accepted is the encoding of an acceptable header. *)
Lemma parse_header_inv bs h : length bs = 36%nat -> parseWireHeaderFromBuf bs = Some (inr h) ->
  response_header h /\ bs = header_bytes h.
Proof.
  intros Hl. unfold parseWireHeaderFromBuf. intros Hp.
  do 16 (apply next_some in Hp as (?&?&->&?&Hp);
         try match type of Hp with (if negb ?b then _ else _) _ = _ => destruct b eqn:?; cbn [negb] in Hp; [|done] end).
  destruct (negb _ || negb _) eqn:Hr in Hp; [done|]. injection Hp as <-.
  rewrite !length_app, !le_length in Hl.
  match type of Hl with context [length ?r] => is_var r; rename r into rest end.
  assert (rest = []) as -> by (apply nil_length_inv; lia).
  unfold response_header, header_bytes. cbn. cbn in *. split; [|by rewrite app_nil_r].
  split_and!; try lia; try done.
Qed.

(* ------------------------------------------------------------------ *)
(** ** Framing *)

(** How the protocol has a request read: the header, then the body and the
    authentication of the lengths it gives *)
Definition read_request (bs : list ascii) : option (wireHeader * list ascii * list ascii) :=
  match parseWireHeaderFromBuf (take 36 bs) with
  | Some (inr h) =>
      let body := drop 36 bs in
      let n := Z.to_nat (h_bodyLen h) in
      let m := Z.to_nat (h_authLen h) in
      if (length body =? n + m)%nat then Some (h, take n body, drop n body) else None
  | _ => None
  end.

Lemma new_request_packs op body tok provider :
  0 <= tok_type tok <= 4 -> Z.of_nat (length (tok_buf tok)) < 65536 -> Z.of_nat (length body) < 2 ^ 32 ->
  exists h, (match NewRequest op body tok provider with inl e => inl e | inr r => Pack r end)
              = inr (header_bytes h ++ body ++ tok_buf tok) /\
    h = mkWireHeader magicNumber requestHeaderSize 1 0 0 provider 0 0 0 (tok_type tok)
          (Z.of_nat (length body)) (Z.of_nat (length (tok_buf tok))) op 0 0 0.
Proof.
  intros Ht Hl Hb. eexists. split; [|done]. unfold NewRequest.
  destruct (65535 <? _) eqn:E; [lia|]. unfold Pack, pack, checkForRequest, stamped. cbn [rq_Header rq_Body rq_Auth
    h_magicNumber h_hdrSize h_versionMajor h_versionMinor h_flags h_provider h_session h_contentType h_acceptType
    h_authType h_bodyLen h_authLen h_opCode h_Status h_reserved1 h_reserved2].
  assert (AuthenticationType_IsValid (tok_type tok) = true) as -> by (unfold AuthenticationType_IsValid, AuthJwtSvid; lia).
  cbn [negb Z.eqb isSupportedWireHeaderVersion Pos.eqb andb]. by rewrite !Z.mod_small by lia.
Qed.

Lemma read_request_bytes h body tok : response_header h ->
  Z.of_nat (length body) = h_bodyLen h -> Z.of_nat (length tok) = h_authLen h ->
  read_request (header_bytes h ++ body ++ tok) = Some (h, body, tok).
Proof.
  intros Hh Hb Ht. unfold read_request.
  rewrite take_app_length', drop_app_length' by (symmetry; apply header_length). rewrite (parse_header_bytes h Hh).
  by rewrite <- Hb, <- Ht, !Nat2Z.id, length_app, Nat.eqb_refl, take_app_length, drop_app_length.
Qed.

(** A request's header is one a response may have. *)
Lemma request_header_ok provider ty bl al op : ProviderID_IsValid provider = true -> OpCode_IsValid op = true ->
  0 <= ty <= 4 -> 0 <= bl < 2 ^ 32 -> 0 <= al < 2 ^ 16 ->
  response_header (mkWireHeader magicNumber requestHeaderSize 1 0 0 provider 0 0 0 ty bl al op 0 0 0).
Proof.
  intros Hp Ho Ht Hb Ha. pose proof (provider_range _ Hp). unfold response_header. cbn. split_and!; try done; try lia.
  unfold AuthenticationType_IsValid, AuthJwtSvid. lia.
Qed.

(** What is sent is read as the operation, the provider, the body and the
    authentication it was built from. *)
Lemma request_is_read op body tok provider bs :
  OpCode_IsValid op = true -> ProviderID_IsValid provider = true -> 0 <= tok_type tok <= 4 ->
  Z.of_nat (length body) < 2 ^ 32 ->
  (match NewRequest op body tok provider with inl e => inl e | inr r => Pack r end) = inr bs ->
  exists h, read_request bs = Some (h, body, tok_buf tok) /\
    h_opCode h = op /\ h_provider h = provider /\ h_authType h = tok_type tok.
Proof.
  intros Ho Hp Ht Hb Hbs.
  assert (Z.of_nat (length (tok_buf tok)) < 65536) as Hl.
  { unfold NewRequest in Hbs. destruct (65535 <? _) eqn:E; [done|]. lia. }
  destruct (new_request_packs op body tok provider Ht Hl Hb) as (h & Hh & Eh).
  rewrite Hh in Hbs. apply (inj inr) in Hbs as <-. exists h. subst h.
  rewrite read_request_bytes; [done|apply request_header_ok; done || lia|done..].
Qed.

Lemma to_err_success code : ToErr code = None <-> code = StatusSuccess.
Proof.
  unfold ToErr. split.
  - destruct (_ =? _) eqn:E; [lia|done].
  - intros ->. done.
Qed.

Lemma read_split n buf a b : Read n buf = inr (a, b) -> a ++ b = buf /\ (Z.of_nat (length a) <= Z.max n 0).
Proof.
  unfold Read. destruct (_ && _); [done|]. intros [= <- <-]. rewrite take_drop, length_take. split; [done|lia].
Qed.

Lemma read_app n a b : length a = Z.to_nat n -> Read n (a ++ b) = inr (a, b).
Proof.
  intros Hl. unfold Read. destruct (_ && _) eqn:E.
  - apply andb_true_iff in E as [E%Nat.eqb_eq ?%Z.ltb_lt]. rewrite length_app in E. lia.
  - by rewrite take_app_length', drop_app_length'.
Qed.

Section Response.
Context {R : Type} (unmarshal : list ascii -> result R).

Lemma parse_response_total op buf : ParseResponse unmarshal op buf <> None.
Proof.
  unfold ParseResponse. destruct (Read _ buf) as [e|[hd rest]] eqn:Er; [done|].
  destruct (negb _) eqn:El; [done|]. pose proof (parse_header_total hd) as Ht.
  destruct (parseWireHeaderFromBuf hd) as [[e|h]|].
  - done.
  - destruct (negb (_ =? op)); [done|]. destruct (Read (h_bodyLen h) rest) as [e|[body r]]; [done|].
    destruct (negb (_ =? h_bodyLen h)); [done|]. by destruct (unmarshal body).
  - exfalso. apply Ht; [|done]. unfold WireHeaderSize, wireHeaderSizeValue in El. lia.
Qed.

(** A response is accepted exactly when it is a well-formed success of the
    operation asked for. *)
Lemma parse_response_ok op buf m : ParseResponse unmarshal op buf = Some (inr m) <->
  exists h body rest, buf = header_bytes h ++ body ++ rest /\ response_header h /\ h_opCode h = op /\
    Z.of_nat (length body) = h_bodyLen h /\ h_Status h = StatusSuccess /\ unmarshal body = inr m.
Proof.
  split.
  - unfold ParseResponse. destruct (Read _ buf) as [e|[hd rest]] eqn:Er; [done|].
    apply read_split in Er as [<- _]. destruct (negb _) eqn:El; [done|].
    destruct (parseWireHeaderFromBuf hd) as [[e|h]|] eqn:Eh; [done| |done].
    apply parse_header_inv in Eh as [Hh ->]; [|unfold WireHeaderSize, wireHeaderSizeValue in El; lia].
    destruct (negb (h_opCode h =? op)) eqn:Eo; [done|].
    destruct (Read (h_bodyLen h) rest) as [e|[body r]] eqn:Eb; [done|]. apply read_split in Eb as [<- _].
    destruct (negb (_ =? h_bodyLen h)) eqn:En; [done|]. destruct (unmarshal body) as [e|m'] eqn:Eu; [done|].
    destruct (ToErr _) eqn:Es; [done|]. intros [= ->]. apply to_err_success in Es.
    exists h, body, r. split_and!; try done; lia.
  - intros (h & body & rest & -> & Hh & <- & Hl & Hs & Hu). unfold ParseResponse.
    rewrite read_app by apply header_length. rewrite header_length. cbn [negb Z.of_nat].
    change (negb (_ =? WireHeaderSize)) with false. cbv iota.
    rewrite (parse_header_bytes h Hh), Z.eqb_refl. cbn [negb]. rewrite read_app by lia.
    rewrite Hl, Z.eqb_refl. cbn [negb]. rewrite Hu. by apply to_err_success in Hs as ->.
Qed.

(** A well-formed failure is the error its status stands for. *)
Lemma parse_response_failure op h body rest m : response_header h -> h_opCode h = op ->
  Z.of_nat (length body) = h_bodyLen h -> h_Status h <> StatusSuccess -> unmarshal body = inr m ->
  exists e, ToErr (h_Status h) = Some e /\
    ParseResponse unmarshal op (header_bytes h ++ body ++ rest) = Some (inl e).
Proof.
  intros Hh <- Hl Hs Hu. destruct (ToErr (h_Status h)) as [e|] eqn:Ee; [|by apply to_err_success in Ee].
  exists e. split; [done|]. unfold ParseResponse. rewrite read_app by apply header_length. rewrite header_length.
  change (negb (_ =? WireHeaderSize)) with false. cbv iota.
  rewrite (parse_header_bytes h Hh), Z.eqb_refl. cbn [negb]. rewrite read_app by lia.
  rewrite Hl, Z.eqb_refl. cbn [negb]. by rewrite Hu, Ee.
Qed.

End Response.

(** C32. Whatever a service sends, the client never reads out of bounds: it
    accepts exactly a complete success of the operation asked for, gives the
    error of its status for a complete failure, and an error for the rest. *)
Theorem responses_are_checked {R} (unmarshal : list ascii -> result R) op buf :
  (exists r, ParseResponse unmarshal op buf = Some r /\
     forall m, r = inr m <-> exists h body rest, buf = header_bytes h ++ body ++ rest /\ response_header h /\
       h_opCode h = op /\ Z.of_nat (length body) = h_bodyLen h /\ h_Status h = StatusSuccess /\ unmarshal body = inr m) /\
  forall h body rest m, buf = header_bytes h ++ body ++ rest -> response_header h -> h_opCode h = op ->
    Z.of_nat (length body) = h_bodyLen h -> h_Status h <> StatusSuccess -> unmarshal body = inr m ->
    ParseResponse unmarshal op buf = Some (inl (default (PlainErr "unknown error code") (ToErr (h_Status h)))).
Proof.
  split.
  - destruct (ParseResponse unmarshal op buf) as [r|] eqn:E; [|by apply parse_response_total in E]. exists r.
    split; [done|]. intros m. rewrite <- parse_response_ok, E. split; [by intros ->|by intros [= ->]].
  - intros h body rest m -> Hh Ho Hl Hs Hu. by destruct (parse_response_failure unmarshal op h body rest m Hh Ho Hl Hs Hu) as (e & -> & ->).
Qed.

End Codec.
