(* ===== verification/ParsecAlgorithms.v ===== *)
(** * PARSEC algorithms and key types

    parsec-client-go/parsec/algorithm, keytype.go and keyinfo.go: the
    algorithms and key attributes of the client and the messages they are
    turned into and read from.  A pointer or interface that may be nil is an
    option; the messages are those of the generated package psaalgorithm, with
    a constructor for a oneof that is not set. *)

From S2P Require Import Prelude.

#[local] Open Scope string_scope.
#[local] Open Scope Z_scope.

(** Conversions between the client's uint32 and the messages' int32 enums *)
Definition int32 : Z -> Z := Go.to_int32.
Definition uint32 (z : Z) : Z := z mod 2 ^ 32.

Lemma uint32_int32 z : 0 <= z < 2 ^ 32 -> uint32 (int32 z) = z.
Proof.
  intros Hz. unfold uint32, int32, Go.to_int32, Go.wrap_int. rewrite (Z.mod_small z) by lia.
  destruct (_ <? _) eqn:E; [by apply Z.mod_small|].
  replace (z - 2 ^ 32) with (z + (-1) * 2 ^ 32) by lia. rewrite Z.mod_add by lia. by apply Z.mod_small.
Qed.

(* ------------------------------------------------------------------ *)
(** ** Messages *)

Inductive wSignHash := W_Any | W_Specific (hash : Z) | W_NoSignHash.

Inductive wAsymmetricSignature :=
| W_RsaPkcs1V15Sign (HashAlg : option wSignHash)
| W_RsaPkcs1V15SignRaw
| W_RsaPss (HashAlg : option wSignHash)
| W_Ecdsa (HashAlg : option wSignHash)
| W_EcdsaAny
| W_DeterministicEcdsa (HashAlg : option wSignHash)
| W_NoSignature.

Inductive wAsymmetricEncryption := W_RsaPkcs1V15Crypt | W_RsaOaep (HashAlg : Z) | W_NoEncryption.

Inductive wAead :=
| W_AeadWithDefaultLengthTag (alg : Z)
| W_AeadWithShortenedTag (AeadAlg TagLength : Z)
| W_NoAead.

Inductive wFullLength := W_Hmac (HashAlg : Z) | W_CbcMac | W_Cmac | W_NoFullLength.
Inductive wMac :=
| W_FullLength (mac : option wFullLength)
| W_Truncated (MacAlg : option wFullLength) (MacLength : Z)
| W_NoMac.

Inductive wKeyDerivation := W_Hkdf (HashAlg : Z) | W_Tls12Prf (HashAlg : Z) | W_Tls12PskToMs (HashAlg : Z) | W_NoDerivation.
Inductive wKeyAgreement :=
| W_Raw (raw : Z)
| W_WithKeyDerivation (KaAlg : Z) (KdfAlg : option wKeyDerivation)
| W_NoAgreement.

(** psaalgorithm.Algorithm *)
Inductive wAlgorithm :=
| W_Hash (hash : Z)
| W_Mac (mac : wMac)
| W_Cipher (cipher : Z)
| W_Aead (aead : wAead)
| W_AsymmetricSignature (sig : wAsymmetricSignature)
| W_AsymmetricEncryption (enc : wAsymmetricEncryption)
| W_KeyAgreement (ka : wKeyAgreement)
| W_KeyDerivation (kd : wKeyDerivation)
| W_None.

(* ------------------------------------------------------------------ *)
(** ** Algorithms of the client *)

(** HashAlgorithmType is a uint32, the other enums int32 (AEAD: uint32). *)
Definition HashAlgorithmTypeNONE : Z := 0.
Definition HashAlgorithmTypeSHA256 : Z := 7.
Definition CipherModeCIPHERNONE : Z := 0.

Inductive SignHash := SignHashAny | SignHashSpecific (HashAlg : Z).

Inductive AsymmetricSignatureAlgorithm :=
| RsaPkcs1V15Sign (hash : SignHash)
| RsaPkcs1V15SignRaw
| RsaPss (hash : SignHash)
| Ecdsa (hash : SignHash)
| EcdsaAny
| DeterministicEcdsa (hash : SignHash).

Inductive AsymmetricEncryptionAlgorithm := RsaPkcs1V15Crypt | RsaOaep (HashAlg : Z).
Inductive AeadAlgorithm := AeadDefaultLengthTag (AeadAlg : Z) | AeadShortenedTag (AeadAlg TagLength : Z).
Inductive MacFullLength := HMAC (HashAlg : Z) | CBCMAC | CMAC.
Inductive MacAlgorithm := FullLength (m : MacFullLength) | Truncated (m : MacFullLength) (MacLength : Z).
Inductive KeyDerivation := Hkdf (HashAlg : Z) | TLS12Prf (HashAlg : Z) | TLS12PskToMs (HashAlg : Z).
Inductive KeyAgreement :=
| KeyAgreementRaw (RawAlg : Z)
| KeyAgreementWithKeyDerivation (KaAlg : Z) (DerivationAlg : option KeyDerivation).

Inductive algorithmVariant :=
| HashAlgorithm (HashAlg : Z)
| AMac (m : MacAlgorithm)
| ACipher (Mode : Z)
| AAead (a : AeadAlgorithm)
| AAsymmetricSignature (s : AsymmetricSignatureAlgorithm)
| AAsymmetricEncryption (e : AsymmetricEncryptionAlgorithm)
| AKeyAgreement (k : KeyAgreement)
| AKeyDerivation (k : KeyDerivation).

(** Its variant may be nil. *)
Definition Algorithm : Type := option algorithmVariant.

Definition GetAsymmetricSignature (a : Algorithm) : option AsymmetricSignatureAlgorithm :=
  match a with Some (AAsymmetricSignature s) => Some s | _ => None end.

(** The factories *)
Definition NewRsaPkcs1V15Sign (h : Z) : Algorithm := Some (AAsymmetricSignature (RsaPkcs1V15Sign (SignHashSpecific h))).
Definition NewRsaPkcs1V15SignAny : Algorithm := Some (AAsymmetricSignature (RsaPkcs1V15Sign SignHashAny)).
Definition NewRsaPkcs1V15SignRaw : Algorithm := Some (AAsymmetricSignature RsaPkcs1V15SignRaw).
Definition NewRsaPss (h : Z) : Algorithm := Some (AAsymmetricSignature (RsaPss (SignHashSpecific h))).
Definition NewRsaPssAny : Algorithm := Some (AAsymmetricSignature (RsaPss SignHashAny)).
Definition NewEcdsa (h : Z) : Algorithm := Some (AAsymmetricSignature (Ecdsa (SignHashSpecific h))).
Definition NewEcdsaAny : Algorithm := Some (AAsymmetricSignature EcdsaAny).
Definition NewDeterministicEcdsa (h : Z) : Algorithm := Some (AAsymmetricSignature (DeterministicEcdsa (SignHashSpecific h))).
Definition NewDeterministicEcdsaAny : Algorithm := Some (AAsymmetricSignature (DeterministicEcdsa SignHashAny)).
Definition NewRsaPkcs1V15Crypt : Algorithm := Some (AAsymmetricEncryption RsaPkcs1V15Crypt).
Definition NewRsaOaep (h : Z) : Algorithm := Some (AAsymmetricEncryption (RsaOaep h)).
Definition NewAead (x : Z) : Algorithm := Some (AAead (AeadDefaultLengthTag x)).
Definition NewAeadShortenedTag (x n : Z) : Algorithm := Some (AAead (AeadShortenedTag x n)).
Definition NewHMAC (h : Z) : Algorithm := Some (AMac (FullLength (HMAC h))).
Definition NewHMACTruncated (h n : Z) : Algorithm := Some (AMac (Truncated (HMAC h) n)).
Definition NewCBCMAC : Algorithm := Some (AMac (FullLength CBCMAC)).
Definition NewCBCMACTruncated (n : Z) : Algorithm := Some (AMac (Truncated CBCMAC n)).
Definition NewCMAC : Algorithm := Some (AMac (FullLength CMAC)).
Definition NewCMACTruncated (n : Z) : Algorithm := Some (AMac (Truncated CMAC n)).
Definition NewCipher (mode : Z) : Algorithm := Some (ACipher mode).
Definition NewHashAlgorithm (h : Z) : Algorithm := Some (HashAlgorithm h).
Definition NewHkdf (h : Z) : Algorithm := Some (AKeyDerivation (Hkdf h)).
Definition NewTLS12PRF (h : Z) : Algorithm := Some (AKeyDerivation (TLS12Prf h)).
Definition NewTLS12PSKToMs (h : Z) : Algorithm := Some (AKeyDerivation (TLS12PskToMs h)).
Definition KeyAgreementFFDH : Z := 1.
Definition KeyAgreementECDH : Z := 2.
Definition RawFFDH : Algorithm := Some (AKeyAgreement (KeyAgreementRaw KeyAgreementFFDH)).
Definition RawECDH : Algorithm := Some (AKeyAgreement (KeyAgreementRaw KeyAgreementECDH)).
Definition FFDH (kd : option KeyDerivation) : Algorithm := Some (AKeyAgreement (KeyAgreementWithKeyDerivation KeyAgreementFFDH kd)).
Definition ECDH (kd : option KeyDerivation) : Algorithm := Some (AKeyAgreement (KeyAgreementWithKeyDerivation KeyAgreementECDH kd)).

(* ------------------------------------------------------------------ *)
(** ** To the messages *)

Definition signhash_toWire (h : SignHash) : wSignHash :=
  match h with SignHashAny => W_Any | SignHashSpecific a => W_Specific (int32 a) end.

Definition asymmetricSignature_toWire (s : AsymmetricSignatureAlgorithm) : wAlgorithm :=
  W_AsymmetricSignature (match s with
    | RsaPkcs1V15Sign h => W_RsaPkcs1V15Sign (Some (signhash_toWire h))
    | RsaPkcs1V15SignRaw => W_RsaPkcs1V15SignRaw
    | RsaPss h => W_RsaPss (Some (signhash_toWire h))
    | Ecdsa h => W_Ecdsa (Some (signhash_toWire h))
    | EcdsaAny => W_EcdsaAny
    | DeterministicEcdsa h => W_DeterministicEcdsa (Some (signhash_toWire h))
    end).

Definition asymmetricEncryption_toWire (e : AsymmetricEncryptionAlgorithm) : wAlgorithm :=
  W_AsymmetricEncryption (match e with RsaPkcs1V15Crypt => W_RsaPkcs1V15Crypt | RsaOaep h => W_RsaOaep (int32 h) end).

Definition aead_toWire (a : AeadAlgorithm) : wAlgorithm :=
  W_Aead (match a with
    | AeadDefaultLengthTag x => W_AeadWithDefaultLengthTag (int32 x)
    | AeadShortenedTag x n => W_AeadWithShortenedTag (int32 x) n
    end).

Definition macFullLength_toWire (m : MacFullLength) : wFullLength :=
  match m with HMAC h => W_Hmac (int32 h) | CBCMAC => W_CbcMac | CMAC => W_Cmac end.

Definition mac_toWire (m : MacAlgorithm) : wAlgorithm :=
  W_Mac (match m with
    | FullLength f => W_FullLength (Some (macFullLength_toWire f))
    | Truncated f n => W_Truncated (Some (macFullLength_toWire f)) n
    end).

Definition keyDerivation_toWireSpecific (k : KeyDerivation) : wKeyDerivation :=
  match k with
  | Hkdf h => W_Hkdf (int32 h) | TLS12Prf h => W_Tls12Prf (int32 h) | TLS12PskToMs h => W_Tls12PskToMs (int32 h)
  end.

Definition keyAgreement_toWire (k : KeyAgreement) : wAlgorithm :=
  W_KeyAgreement (match k with
    | KeyAgreementRaw a => W_Raw a
    | KeyAgreementWithKeyDerivation a d => W_WithKeyDerivation a (keyDerivation_toWireSpecific <$> d)
    end).

(** [None]: a nil interface *)
Definition ToWireInterface (a : Algorithm) : option wAlgorithm :=
  match a with
  | None => None
  | Some v => Some (match v with
      | HashAlgorithm h => W_Hash (int32 h)
      | AMac m => mac_toWire m
      | ACipher m => W_Cipher m
      | AAead x => aead_toWire x
      | AAsymmetricSignature s => asymmetricSignature_toWire s
      | AAsymmetricEncryption e => asymmetricEncryption_toWire e
      | AKeyAgreement k => keyAgreement_toWire k
      | AKeyDerivation k => W_KeyDerivation (keyDerivation_toWireSpecific k)
      end)
  end.

(* ------------------------------------------------------------------ *)
(** ** From the messages

    A nil message that is looked into would panic: [None]. *)

Definition unexpected {A} (what : string) : option (result A) := Some (inl (PlainErr ("unexpected " +:+ what))).

Definition newSignHashFromWire (a : option wSignHash) : option (result SignHash) :=
  match a with
  | None => None
  | Some W_Any => Some (inr SignHashAny)
  | Some (W_Specific h) => Some (inr (SignHashSpecific (uint32 h)))
  | Some W_NoSignHash => unexpected "AsymmetricSignatureSignHash variant type"
  end.

Definition map_ok {A B} (f : A -> B) (r : option (result A)) : option (result B) :=
  match r with None => None | Some (inl e) => Some (inl e) | Some (inr a) => Some (inr (f a)) end.

Definition newAsymmetricSignatureFromWire (a : wAsymmetricSignature) : option (result AsymmetricSignatureAlgorithm) :=
  match a with
  | W_RsaPkcs1V15Sign h => map_ok RsaPkcs1V15Sign (newSignHashFromWire h)
  | W_RsaPkcs1V15SignRaw => Some (inr RsaPkcs1V15SignRaw)
  | W_RsaPss h => map_ok RsaPss (newSignHashFromWire h)
  | W_Ecdsa h => map_ok Ecdsa (newSignHashFromWire h)
  | W_EcdsaAny => Some (inr EcdsaAny)
  | W_DeterministicEcdsa h => map_ok DeterministicEcdsa (newSignHashFromWire h)
  | W_NoSignature => unexpected "AsymmetricSignatureAlgorithm variant"
  end.

Definition newAsymmetricEncryptionFromWire (a : wAsymmetricEncryption) : option (result AsymmetricEncryptionAlgorithm) :=
  match a with
  | W_NoEncryption => Some (inl (PlainErr "nil argument passed"))
  | W_RsaPkcs1V15Crypt => Some (inr RsaPkcs1V15Crypt)
  | W_RsaOaep h => Some (inr (RsaOaep (uint32 h)))
  end.

Definition newAeadFromWire (a : wAead) : option (result AeadAlgorithm) :=
  match a with
  | W_AeadWithDefaultLengthTag x => Some (inr (AeadDefaultLengthTag (uint32 x)))
  | W_AeadWithShortenedTag x n => Some (inr (AeadShortenedTag (uint32 x) n))
  | W_NoAead => unexpected "type encountered decoding aead algorithm"
  end.

Definition newMacFullLengthFromWire (a : option wFullLength) : option (result MacFullLength) :=
  match a with
  | None => None
  | Some (W_Hmac h) => Some (inr (HMAC (uint32 h)))
  | Some W_CbcMac => Some (inr CBCMAC)
  | Some W_Cmac => Some (inr CMAC)
  | Some W_NoFullLength => unexpected "full length mac type"
  end.

Definition newMacFromWire (a : wMac) : option (result MacAlgorithm) :=
  match a with
  | W_FullLength m => map_ok FullLength (newMacFullLengthFromWire m)
  | W_Truncated m n => map_ok (fun f => Truncated f n) (newMacFullLengthFromWire m)
  | W_NoMac => unexpected "mac type"
  end.

Definition newKeyDerivationFromWire (a : option wKeyDerivation) : option (result KeyDerivation) :=
  match a with
  | None => None
  | Some (W_Hkdf h) => Some (inr (Hkdf (uint32 h)))
  | Some (W_Tls12Prf h) => Some (inr (TLS12Prf (uint32 h)))
  | Some (W_Tls12PskToMs h) => Some (inr (TLS12PskToMs (uint32 h)))
  | Some W_NoDerivation => unexpected "type encountered decoding key derivation algorithm"
  end.

Definition newKeyAgreementFromWire (a : wKeyAgreement) : option (result KeyAgreement) :=
  match a with
  | W_Raw x => Some (inr (KeyAgreementRaw x))
  | W_WithKeyDerivation x d => map_ok (fun k => KeyAgreementWithKeyDerivation x (Some k)) (newKeyDerivationFromWire d)
  | W_NoAgreement => unexpected "type when decoding key agreement algorithm"
  end.

Definition unknown_algorithm : option (result Algorithm) := Some (inl (PlainErr "unknown algorithm type")).

Definition NewAlgorithmFromWireInterface (op : option wAlgorithm) : option (result Algorithm) :=
  match op with
  | None => Some (inl (PlainErr "nil *psaalgorithm.Algorithm"))
  | Some (W_AsymmetricSignature a) => map_ok (Some ∘ AAsymmetricSignature) (newAsymmetricSignatureFromWire a)
  | Some (W_AsymmetricEncryption a) => map_ok (Some ∘ AAsymmetricEncryption) (newAsymmetricEncryptionFromWire a)
  | Some (W_Aead a) => map_ok (Some ∘ AAead) (newAeadFromWire a)
  | Some (W_Cipher a) => if a =? CipherModeCIPHERNONE then unknown_algorithm else Some (inr (Some (ACipher a)))
  | Some (W_Hash a) => if a =? 0 then unknown_algorithm else Some (inr (Some (HashAlgorithm (uint32 a))))
  | Some (W_KeyAgreement a) => map_ok (Some ∘ AKeyAgreement) (newKeyAgreementFromWire a)
  | Some (W_KeyDerivation a) => map_ok (Some ∘ AKeyDerivation) (newKeyDerivationFromWire (Some a))
  | Some (W_Mac a) => map_ok (Some ∘ AMac) (newMacFromWire a)
  | Some W_None => unknown_algorithm
  end.

(* ------------------------------------------------------------------ *)
(** ** Of the operations: convert_utils.go *)

Definition algAsymmetricSigToWire (a : AsymmetricSignatureAlgorithm) : result wAsymmetricSignature :=
  match asymmetricSignature_toWire a with
  | W_AsymmetricSignature s => inr s
  | _ => inl (PlainErr "expected *psaalgorithm.Algorithm_AsymmetricSignature, but got nil")
  end.

Definition algAsymmetricEncryptionAlgToWire (a : AsymmetricEncryptionAlgorithm) : result wAsymmetricEncryption :=
  match asymmetricEncryption_toWire a with
  | W_AsymmetricEncryption s => inr s
  | _ => inl (PlainErr "expected *psaalgorithm.Algorithm_AsymmetricEncryption, but got nil")
  end.

Definition algCipherAlgToWire (mode : Z) : result Z :=
  if mode =? CipherModeCIPHERNONE
  then inl (PlainErr "expected non-NONE psaalgorithm.Algorithm_Cipher, got CIPHER_NONE") else inr mode.

Definition algAeadAlgToWire (a : AeadAlgorithm) : result wAead :=
  match aead_toWire a with
  | W_Aead s => inr s
  | _ => inl (PlainErr "expected *psaalgorithm.Algorithm_Aead, but got nil")
  end.

Definition algMacAlgToWire (a : MacAlgorithm) : result wMac :=
  match mac_toWire a with
  | W_Mac s => inr s
  | _ => inl (PlainErr "expected *psaalgorithm.Algorithm_Mac, but got nil")
  end.

(** Of a KeyAgreementRaw *)
Definition algKeyAgreementRawAlgToWire (raw : Z) : result wKeyAgreement :=
  match keyAgreement_toWire (KeyAgreementRaw raw) with
  | W_KeyAgreement s => inr s
  | _ => inl (PlainErr "expected *psaalgorithm.Algorithm_KeyAgreement_Raw, but got nil")
  end.

(** opalg.GetRaw(): of another variant the default *)
Definition GetRaw (a : wKeyAgreement) : Z := match a with W_Raw x => x | _ => 0 end.

(* ------------------------------------------------------------------ *)
(** ** Key attributes *)

Definition KeyTypeSECPR1 : Z := 2.

Inductive KeyType :=
| RawData | Hmac | Derive | Aes | Des | Camellia | Arc4 | Chacha20 | RsaPublicKey | RsaKeyPair
| EccKeyPair (CurveFamily : Z) | EccPublicKey (CurveFamily : Z)
| DhKeyPair (GroupFamily : Z) | DhPublicKey (GroupFamily : Z).

(** psakeyattributes.KeyType *)
Inductive wKeyType :=
| W_RawData | W_HmacKey | W_Derive | W_Aes | W_Des | W_Camellia | W_Arc4 | W_Chacha20 | W_RsaPublicKey | W_RsaKeyPair
| W_EccKeyPair (CurveFamily : Z) | W_EccPublicKey (CurveFamily : Z)
| W_DhKeyPair (GroupFamily : Z) | W_DhPublicKey (GroupFamily : Z).

Definition keyType_toWire (k : KeyType) : wKeyType :=
  match k with
  | RawData => W_RawData | Hmac => W_HmacKey | Derive => W_Derive | Aes => W_Aes | Des => W_Des
  | Camellia => W_Camellia | Arc4 => W_Arc4 | Chacha20 => W_Chacha20
  | RsaPublicKey => W_RsaPublicKey | RsaKeyPair => W_RsaKeyPair
  | EccKeyPair c => W_EccKeyPair c | EccPublicKey c => W_EccPublicKey c
  | DhKeyPair g => W_DhKeyPair g | DhPublicKey g => W_DhPublicKey g
  end.

Record UsageFlags := mkUsageFlags {
  uf_Export : bool; uf_Copy : bool; uf_Cache : bool; uf_Encrypt : bool; uf_Decrypt : bool;
  uf_SignMessage : bool; uf_VerifyMessage : bool; uf_SignHash : bool; uf_VerifyHash : bool; uf_Derive : bool }.

Record KeyPolicy := mkKeyPolicy { kp_KeyUsageFlags : UsageFlags; kp_KeyAlgorithm : Algorithm }.

(** KeyType{variant: nil} is [None]. *)
Record KeyAttributes := mkKeyAttributes {
  ka_KeyType : option KeyType; ka_KeyBits : Z; ka_KeyPolicy : option KeyPolicy }.

(** psakeyattributes.KeyPolicy and KeyAttributes: the flags have the same fields. *)
Record wKeyPolicy := mkWKeyPolicy { wkp_KeyAlgorithm : wAlgorithm; wkp_KeyUsageFlags : UsageFlags }.
Record wKeyAttributes := mkWKeyAttributes {
  wka_KeyBits : Z; wka_KeyType : option wKeyType; wka_KeyPolicy : option wKeyPolicy }.

Definition keyPolicy_toWire (kp : KeyPolicy) : option wKeyPolicy :=
  match ToWireInterface (kp_KeyAlgorithm kp) with
  | None => None
  | Some ka => Some (mkWKeyPolicy ka (kp_KeyUsageFlags kp))
  end.

(** A policy is looked into: a nil one would panic. *)
Definition keyAttributes_toWire (ka : KeyAttributes) : option (result wKeyAttributes) :=
  match ka_KeyType ka with
  | None => Some (inl (PlainErr "nil keytype returned for wire interface"))
  | Some kt =>
      match ka_KeyPolicy ka with
      | None => None
      | Some kp => Some (inr (mkWKeyAttributes (ka_KeyBits ka) (Some (keyType_toWire kt)) (keyPolicy_toWire kp)))
      end
  end.

(** DefaultKeyAttribute().SigningKey() *)
Definition SigningKey : KeyAttributes :=
  mkKeyAttributes (Some RsaKeyPair) 2048
    (Some (mkKeyPolicy (mkUsageFlags false false false false false true true true true false)
       (Some (AAsymmetricSignature (RsaPkcs1V15Sign (SignHashSpecific HashAlgorithmTypeSHA256)))))).

(* ------------------------------------------------------------------ *)
(** ** Facts *)

(** The enums are uint32 values, none of them the default, and a key agreement
    names its derivation. *)
Definition u32 (z : Z) : Prop := 0 <= z < 2 ^ 32.
Definition signhash_usable (h : SignHash) : Prop := match h with SignHashAny => True | SignHashSpecific a => u32 a end.
Definition derivation_usable (k : KeyDerivation) : Prop :=
  match k with Hkdf h | TLS12Prf h | TLS12PskToMs h => u32 h end.
Definition full_usable (f : MacFullLength) : Prop := match f with HMAC h => u32 h | _ => True end.

Definition usable (v : algorithmVariant) : Prop :=
  match v with
  | HashAlgorithm h => u32 h /\ h <> HashAlgorithmTypeNONE
  | AMac (FullLength f) => full_usable f
  | AMac (Truncated f _) => full_usable f
  | ACipher m => m <> CipherModeCIPHERNONE
  | AAead (AeadDefaultLengthTag x) => u32 x
  | AAead (AeadShortenedTag x _) => u32 x
  | AAsymmetricSignature s =>
      match s with
      | RsaPkcs1V15Sign h | RsaPss h | Ecdsa h | DeterministicEcdsa h => signhash_usable h
      | _ => True
      end
  | AAsymmetricEncryption (RsaOaep h) => u32 h
  | AAsymmetricEncryption _ => True
  | AKeyAgreement (KeyAgreementRaw _) => True
  | AKeyAgreement (KeyAgreementWithKeyDerivation _ d) => match d with Some k => derivation_usable k | None => False end
  | AKeyDerivation k => derivation_usable k
  end.

Lemma signhash_read h : signhash_usable h -> newSignHashFromWire (Some (signhash_toWire h)) = Some (inr h).
Proof. destruct h; cbn; [done|]. intros H. by rewrite uint32_int32. Qed.

Lemma derivation_read k : derivation_usable k ->
  newKeyDerivationFromWire (Some (keyDerivation_toWireSpecific k)) = Some (inr k).
Proof. destruct k; cbn; intros H; by rewrite uint32_int32. Qed.

Lemma full_read f : full_usable f -> newMacFullLengthFromWire (Some (macFullLength_toWire f)) = Some (inr f).
Proof. destruct f; cbn; [|done..]. intros H. by rewrite uint32_int32. Qed.

Lemma int32_zero h : u32 h -> int32 h = 0 -> h = 0.
Proof. intros Hh H. rewrite <- (uint32_int32 h Hh), H. done. Qed.

#[local] Arguments newMacFullLengthFromWire : simpl never.
#[local] Arguments newKeyDerivationFromWire : simpl never.
#[local] Arguments newSignHashFromWire : simpl never.

(** Every usable algorithm is read back from its message. *)
Lemma algorithm_read v : usable v -> NewAlgorithmFromWireInterface (ToWireInterface (Some v)) = Some (inr (Some v)).
Proof.
  destruct v as [h|m|m|a|s|e|k|k]; cbn.
  - intros [Hu Hn]. destruct (int32 h =? 0) eqn:E; [|by rewrite uint32_int32].
    apply Z.eqb_eq in E. by apply int32_zero in E.
  - destruct m as [f|f n]; intros H; cbn; by rewrite full_read.
  - intros H. unfold CipherModeCIPHERNONE in *. by destruct (m =? 0) eqn:E; [apply Z.eqb_eq in E|].
  - destruct a; intros H; cbn; by rewrite uint32_int32.
  - destruct s; intros H; cbn; try done; by rewrite signhash_read.
  - destruct e; intros H; cbn; [done|]. by rewrite uint32_int32.
  - destruct k as [x|x [d|]]; intros H; cbn; [done| |done]. by rewrite derivation_read.
  - intros H. by rewrite derivation_read.
Qed.

(** What cannot be read back: the defaults (an error) and a key agreement
    without its derivation (a panic). *)
Lemma algorithm_not_read :
  NewAlgorithmFromWireInterface (ToWireInterface (Some (HashAlgorithm HashAlgorithmTypeNONE))) = unknown_algorithm /\
  NewAlgorithmFromWireInterface (ToWireInterface (Some (ACipher CipherModeCIPHERNONE))) = unknown_algorithm /\
  forall x, NewAlgorithmFromWireInterface (ToWireInterface (Some (AKeyAgreement (KeyAgreementWithKeyDerivation x None)))) = None.
Proof. done. Qed.
