(* ===== verification/ParsecClient.v ===== *)
(** * The PARSEC client

    parsec-client-go: connection/conn.go, auth, operations_client.go and of
    package parsec basicclient.go, client_config.go, authenticator.go and
    provider.go.  One operation is one connection: it is opened, a request is
    written, the response is read to its end and the connection is closed.

    protobuf's Marshal and Unmarshal are the parameter [Proto]; a message is
    named by its operation, and the type of [message] is that of its result. *)

From Stdlib Require Import Ascii.
From S2P Require Import Prelude Free GoLib CryptoLib ParsecWire ParsecAlgorithms.

#[local] Open Scope string_scope.
#[local] Open Scope list_scope.

(* ------------------------------------------------------------------ *)
(** ** Messages *)

(** listproviders.ProviderInfo, listauthenticators.AuthenticatorInfo,
    listkeys.KeyInfo *)
Record wProviderInfo := mkWProviderInfo {
  wp_Uuid : string; wp_Description : string; wp_Vendor : string;
  wp_VersionMaj : Z; wp_VersionMin : Z; wp_VersionRev : Z; wp_Id : Z }.
Record wAuthenticatorInfo := mkWAuthenticatorInfo {
  wa_Id : Z; wa_Description : string; wa_VersionMaj : Z; wa_VersionMin : Z; wa_VersionRev : Z }.
Record wKeyInfo := mkWKeyInfo { wk_ProviderId : Z; wk_Name : string; wk_Attributes : option wKeyAttributes }.

Notation data := (list ascii).

(** The Operation messages, each with the type of its Result's content *)
Inductive message : Type -> Type :=
| MPing : message (Z * Z)
| MListProviders : message (list wProviderInfo)
| MListOpcodes (ProviderId : Z) : message (list Z)
| MListClients : message (list string)
| MDeleteClient (Client : string) : message unit
| MListKeys : message (list wKeyInfo)
| MListAuthenticators : message (list wAuthenticatorInfo)
| MPsaGenerateKey (KeyName : string) (Attributes : wKeyAttributes) : message unit
| MPsaDestroyKey (KeyName : string) : message unit
| MPsaHashCompute (Input : data) (Alg : Z) : message data
| MPsaSignMessage (KeyName : string) (Message : data) (Alg : wAsymmetricSignature) : message data
| MPsaSignHash (KeyName : string) (Hash : data) (Alg : wAsymmetricSignature) : message data
| MPsaVerifyMessage (KeyName : string) (Message Signature : data) (Alg : wAsymmetricSignature) : message unit
| MPsaVerifyHash (KeyName : string) (Hash Signature : data) (Alg : wAsymmetricSignature) : message unit
| MPsaCipherEncrypt (KeyName : string) (Alg : Z) (Plaintext : data) : message data
| MPsaCipherDecrypt (KeyName : string) (Alg : Z) (Ciphertext : data) : message data
| MPsaAeadEncrypt (KeyName : string) (Alg : wAead) (Nonce AdditionalData Plaintext : data) : message data
| MPsaAeadDecrypt (KeyName : string) (Alg : wAead) (Nonce AdditionalData Ciphertext : data) : message data
| MPsaExportKey (KeyName : string) : message data
| MPsaImportKey (KeyName : string) (Attributes : wKeyAttributes) (Data : data) : message unit
| MPsaExportPublicKey (KeyName : string) : message data
| MPsaGenerateRandom (Size : Z) : message data
| MPsaMACCompute (KeyName : string) (Alg : wMac) (Input : data) : message data
| MPsaMACVerify (KeyName : string) (Alg : wMac) (Input Mac : data) : message unit
| MPsaRawKeyAgreement (Alg : Z) (PrivateKeyName : string) (PeerKey : data) : message data
| MPsaAsymmetricEncrypt (KeyName : string) (Alg : wAsymmetricEncryption) (Salt Plaintext : data) : message data
| MPsaAsymmetricDecrypt (KeyName : string) (Alg : wAsymmetricEncryption) (Salt Ciphertext : data) : message data.

(** google.golang.org/protobuf with the generated messages: Marshal of an
    Operation, Unmarshal into the Result that belongs to it *)
Class Proto := {
  proto_Marshal : forall R, message R -> result data;
  proto_Unmarshal : forall R, message R -> data -> result R }.
Arguments proto_Marshal {_ _}. Arguments proto_Unmarshal {_ _}.

(* ------------------------------------------------------------------ *)
(** ** Effects *)

Inductive parsec : Type -> Type :=
| Getenv : parsec string                      (* PARSEC_SERVICE_ENDPOINT *)
| Setenv (v : string) : parsec (result unit)
| GetRwc : parsec bool                        (* conn.rwc != nil *)
| SetRwc (b : bool) : parsec unit
| Dial (path : string) : parsec (result unit)
| RwcWrite (p : data) : parsec (result unit)
| RwcReadAll : parsec (result data)
| RwcClose : parsec (result unit)
| CurrentUid : parsec (result string).        (* user.Current().Uid *)

Section Client.
Context `{Proto, NetUrl}.

(* ------------------------------------------------------------------ *)
(** ** connection *)

Definition defaultUnixSocketAddress : string := "unix:/run/parsec/parsec.sock".

(** unixConnection: its path; whether its rwc is set is in the world. *)
Definition Open (path : string) : free parsec (result unit) :=
  let* rwc := perform GetRwc in
  if rwc : bool then throw (PlainErr "connection already open; call Close() before reopening")
  else let? _ := perform (Dial path) catch throw in perform (SetRwc true) ;;; ok tt.

(** Closing a closed connection is allowed. *)
Definition Close : free parsec (result unit) :=
  let* rwc := perform GetRwc in
  let? _ := (if rwc : bool then perform RwcClose else ok tt) catch throw in
  perform (SetRwc false) ;;; ok tt.

Definition Write (p : data) : free parsec (result unit) :=
  let* rwc := perform GetRwc in
  if rwc : bool then perform (RwcWrite p) else throw (PlainErr "writing closed connection").

(** rcvBuf.ReadFrom(c.conn) *)
Definition ReadFrom : free parsec (result data) :=
  let* rwc := perform GetRwc in
  if rwc : bool then perform RwcReadAll else throw (PlainErr "reading closed connection").

(** A new connection is not open. *)
Definition NewDefaultConnection : free parsec (result string) :=
  let* env := perform Getenv in
  let addressRawURL := if String.eqb env "" then defaultUnixSocketAddress else env in
  match Parse addressRawURL with
  | inl e => throw (PlainErr e)
  | inr sockURL =>
      if String.eqb (ToLower (url_scheme sockURL)) "unix"
      then perform (SetRwc false) ;;; ok (url_path sockURL)
      else throw (PlainErr ("unsupported url scheme " +:+ url_scheme sockURL))
  end.

(* ------------------------------------------------------------------ *)
(** ** auth *)

Inductive Authenticator := NoAuthAuthenticator | DirectAuthenticator (appName : string) | UnixPeerAuthenticator.

Definition GetType (a : Authenticator) : Z :=
  match a with
  | NoAuthAuthenticator => AuthNoAuth
  | DirectAuthenticator _ => AuthDirect
  | UnixPeerAuthenticator => AuthUnixPeerCredentials
  end.

Definition NewRequestAuth (a : Authenticator) : free parsec (result RequestAuthToken) :=
  match a with
  | NoAuthAuthenticator => ok (mkRequestAuthToken AuthNoAuth [])
  | DirectAuthenticator appName => ok (mkRequestAuthToken AuthDirect (bytes appName))
  | UnixPeerAuthenticator =>
      let? Uid := perform CurrentUid catch throw in
      match Go.parse_uint Uid with
      | Some uid =>
          if (uid <? 2 ^ 32)%Z then ok (mkRequestAuthToken AuthUnixPeerCredentials (le 4 uid))
          else throw (PlainErr "strconv.ParseUint: value out of range")
      | None => throw (PlainErr "strconv.ParseUint: invalid syntax")
      end
  end.

(* ------------------------------------------------------------------ *)
(** ** operations.Client *)

Section Operations.
Context (path : string) (provider : Z) (authenticator : Authenticator).

(** Between the opening and the deferred closing *)
Definition exchange {R} (op : Z) (m : message R) : free parsec (result R) :=
  let? bodyBuf := Ret (proto_Marshal m) catch throw in
  let? authtok := NewRequestAuth authenticator catch throw in
  let? r := Ret (NewRequest op bodyBuf authtok provider) catch throw in
  let? b := Ret (Pack r) catch throw in
  let? _ := Write b catch throw in
  let? rcvBuf := ReadFrom catch throw in
  match ParseResponse (proto_Unmarshal m) op rcvBuf with
  | Some r => Ret r
  | None => throw (PlainErr "panic: index out of range")
  end.

Definition operation {R} (op : Z) (m : message R) : free parsec (result R) :=
  let? _ := Open path catch throw in
  let* r := exchange op m in
  Close ;;; Ret r.

(** uint8(resp.WireProtocolVersionMaj), ... *)
Definition op_Ping : free parsec (result (Z * Z)) :=
  let? v := operation OpPing MPing catch throw in ok (v.1 mod 2 ^ 8, v.2 mod 2 ^ 8)%Z.
Definition op_ListProviders := operation OpListProviders MListProviders.
Definition op_ListOpcodes (providerID : Z) := operation OpListOpcodes (MListOpcodes providerID).
Definition op_ListClients := operation OpListClients MListClients.
Definition op_DeleteClient (client : string) := operation OpDeleteClient (MDeleteClient client).
Definition op_ListKeys := operation OpListKeys MListKeys.
Definition op_ListAuthenticators := operation OpListAuthenticators MListAuthenticators.
Definition op_PsaGenerateKey name attributes := operation OpPsaGenerateKey (MPsaGenerateKey name attributes).
Definition op_PsaDestroyKey name := operation OpPsaDestroyKey (MPsaDestroyKey name).
Definition op_PsaHashCompute msg alg := operation OpPsaHashCompute (MPsaHashCompute msg alg).
Definition op_PsaSignMessage key msg alg := operation OpPsaSignMessage (MPsaSignMessage key msg alg).
Definition op_PsaSignHash key hash alg := operation OpPsaSignHash (MPsaSignHash key hash alg).
Definition op_PsaVerifyMessage key msg sig alg := operation OpPsaVerifyMessage (MPsaVerifyMessage key msg sig alg).
Definition op_PsaVerifyHash key hash sig alg := operation OpPsaVerifyHash (MPsaVerifyHash key hash sig alg).
Definition op_PsaCipherEncrypt key alg plaintext := operation OpPsaCipherEncrypt (MPsaCipherEncrypt key alg plaintext).
Definition op_PsaCipherDecrypt key alg ciphertext := operation OpPsaCipherDecrypt (MPsaCipherDecrypt key alg ciphertext).
Definition op_PsaAeadDecrypt key alg nonce ad ciphertext :=
  operation OpPsaAeadDecrypt (MPsaAeadDecrypt key alg nonce ad ciphertext).
Definition op_PsaAeadEncrypt key alg nonce ad plaintext :=
  operation OpPsaAeadEncrypt (MPsaAeadEncrypt key alg nonce ad plaintext).
Definition op_PsaExportKey key := operation OpPsaExportKey (MPsaExportKey key).
Definition op_PsaImportKey key attributes d := operation OpPsaImportKey (MPsaImportKey key attributes d).
Definition op_PsaExportPublicKey key := operation OpPsaExportPublicKey (MPsaExportPublicKey key).
Definition op_PsaGenerateRandom size := operation OpPsaGenerateRandom (MPsaGenerateRandom size).
Definition op_PsaMACCompute key alg input := operation OpPsaMacCompute (MPsaMACCompute key alg input).
Definition op_PsaMACVerify key alg input mac := operation OpPsaMacVerify (MPsaMACVerify key alg input mac).
Definition op_PsaRawKeyAgreement alg privateKey peerKey :=
  operation OpPsaRawKeyAgreement (MPsaRawKeyAgreement alg privateKey peerKey).
Definition op_PsaAsymmetricDecrypt key alg salt ciphertext :=
  operation OpPsaAsymmetricDecrypt (MPsaAsymmetricDecrypt key alg salt ciphertext).
Definition op_PsaAsymmetricEncrypt key alg salt plaintext :=
  operation OpPsaAsymmetricEncrypt (MPsaAsymmetricEncrypt key alg salt plaintext).

End Operations.

(* ------------------------------------------------------------------ *)
(** ** parsec.BasicClient *)

Record ProviderInfo := mkProviderInfo {
  pi_UUID : string; pi_Description : string; pi_Vendor : string;
  pi_VersionMaj : Z; pi_VersionMin : Z; pi_VersionRev : Z; pi_ID : Z }.
Record AuthenticatorInfo := mkAuthenticatorInfo {
  ai_ID : Z; ai_Description : string; ai_VersionMaj : Z; ai_VersionMin : Z; ai_VersionRev : Z }.
(** Of the attributes only the size is filled in. *)
Record KeyInfo := mkKeyInfo { ki_ProviderID : Z; ki_Name : string; ki_KeyBits : Z }.

(** An identifier of 32 bits becomes a uint8. *)
Definition newProviderInfoFromOp (inf : wProviderInfo) : ProviderInfo :=
  mkProviderInfo (wp_Uuid inf) (wp_Description inf) (wp_Vendor inf)
    (wp_VersionMaj inf) (wp_VersionMin inf) (wp_VersionRev inf) (wp_Id inf mod 2 ^ 8).

Definition newAuthenticatorInfoFromOp (inf : wAuthenticatorInfo) : result AuthenticatorInfo :=
  match NewAuthenticationTypeFromU32 (wa_Id inf) with
  | inl e => inl e
  | inr authid => inr (mkAuthenticatorInfo authid (wa_Description inf) (wa_VersionMaj inf) (wa_VersionMin inf) (wa_VersionRev inf))
  end.

(** A key without attributes is a nil pointer that is looked into. *)
Definition newKeyInfoFromOp (k : wKeyInfo) : result KeyInfo :=
  match wk_Attributes k with
  | Some ka => inr (mkKeyInfo (wk_ProviderId k mod 2 ^ 8) (wk_Name k) (wka_KeyBits ka))
  | None => inl (PlainErr "panic: nil pointer dereference")
  end.

Fixpoint all_ok {A B} (f : A -> result B) (l : list A) : result (list B) :=
  match l with
  | [] => inr []
  | a :: l' => match f a with
               | inl e => inl e
               | inr b => match all_ok f l' with inl e => inl e | inr bs => inr (b :: bs) end
               end
  end.

Record BasicClient := mkBasicClient {
  bc_opclient : string; bc_auth : Authenticator; bc_implicitProvider : Z }.

Definition SetImplicitProvider (provider : Z) (c : BasicClient) : BasicClient :=
  mkBasicClient (bc_opclient c) (bc_auth c) provider.
Definition GetAuthenticatorType (c : BasicClient) : Z := GetType (bc_auth c).

(** parsec.ProviderID: every provider but the core one *)
Definition HasCrypto (p : Z) : bool := negb (p =? ProviderCore)%Z.

Section Methods.
Context (c : BasicClient).

(** To the core provider *)
Definition core {R} (f : string -> Z -> Authenticator -> R) : R := f (bc_opclient c) ProviderCore (bc_auth c).

(** To the implicit provider, if it does cryptography *)
Definition crypto {R} (f : string -> Z -> Authenticator -> free parsec (result R)) : free parsec (result R) :=
  if HasCrypto (bc_implicitProvider c) then f (bc_opclient c) (bc_implicitProvider c) (bc_auth c)
  else throw (PlainErr "provider does not support crypto operation").

(** With an algorithm or attributes that must have a message first *)
Definition crypto_with {A R} (alg : result A) (f : A -> string -> Z -> Authenticator -> free parsec (result R))
  : free parsec (result R) :=
  crypto (fun path p a => let? opalg := Ret alg catch throw in f opalg path p a).

Definition BasicClient_Close : free parsec (result unit) := Close.
Definition Ping : free parsec (result (Z * Z)) := core op_Ping.
Definition ListProviders : free parsec (result (list ProviderInfo)) :=
  let? nativeProv := core op_ListProviders catch throw in ok (newProviderInfoFromOp <$> nativeProv).
Definition ListOpcodes (providerID : Z) : free parsec (result (list Z)) :=
  core (fun path p a => op_ListOpcodes path p a providerID).
Definition ListClients : free parsec (result (list string)) := core op_ListClients.
Definition DeleteClient (client : string) : free parsec (result unit) :=
  core (fun path p a => op_DeleteClient path p a client).
Definition ListKeys : free parsec (result (list KeyInfo)) :=
  let? retkeys := core op_ListKeys catch throw in Ret (all_ok newKeyInfoFromOp retkeys).
Definition ListAuthenticators : free parsec (result (list AuthenticatorInfo)) :=
  let? retauths := core op_ListAuthenticators catch throw in Ret (all_ok newAuthenticatorInfoFromOp retauths).

(** A key policy that is not there would panic. *)
Definition attributes_or_panic (attributes : KeyAttributes) : result wKeyAttributes :=
  match keyAttributes_toWire attributes with
  | Some r => r
  | None => inl (PlainErr "panic: nil pointer dereference")
  end.

Definition PsaGenerateKey (name : string) (attributes : KeyAttributes) : free parsec (result unit) :=
  crypto_with (attributes_or_panic attributes) (fun ka path p a => op_PsaGenerateKey path p a name ka).
Definition PsaDestroyKey (name : string) : free parsec (result unit) :=
  crypto (fun path p a => op_PsaDestroyKey path p a name).
Definition PsaHashCompute (msg : data) (alg : Z) : free parsec (result data) :=
  crypto (fun path p a => op_PsaHashCompute path p a msg (int32 alg)).
Definition PsaSignMessage (signingKey : string) (msg : data) (alg : AsymmetricSignatureAlgorithm) : free parsec (result data) :=
  crypto_with (algAsymmetricSigToWire alg) (fun opalg path p a => op_PsaSignMessage path p a signingKey msg opalg).
Definition PsaSignHash (signingKey : string) (hash : data) (alg : AsymmetricSignatureAlgorithm) : free parsec (result data) :=
  crypto_with (algAsymmetricSigToWire alg) (fun opalg path p a => op_PsaSignHash path p a signingKey hash opalg).
Definition PsaVerifyMessage (verifyingKey : string) (msg signature : data) (alg : AsymmetricSignatureAlgorithm)
  : free parsec (result unit) :=
  crypto_with (algAsymmetricSigToWire alg) (fun opalg path p a => op_PsaVerifyMessage path p a verifyingKey msg signature opalg).
Definition PsaVerifyHash (verifyingKey : string) (hash signature : data) (alg : AsymmetricSignatureAlgorithm)
  : free parsec (result unit) :=
  crypto_with (algAsymmetricSigToWire alg) (fun opalg path p a => op_PsaVerifyHash path p a verifyingKey hash signature opalg).
Definition PsaCipherEncrypt (keyName : string) (mode : Z) (plaintext : data) : free parsec (result data) :=
  crypto_with (algCipherAlgToWire mode) (fun opalg path p a => op_PsaCipherEncrypt path p a keyName opalg plaintext).
Definition PsaCipherDecrypt (keyName : string) (mode : Z) (ciphertext : data) : free parsec (result data) :=
  crypto_with (algCipherAlgToWire mode) (fun opalg path p a => op_PsaCipherDecrypt path p a keyName opalg ciphertext).
Definition PsaAeadDecrypt (keyName : string) (alg : AeadAlgorithm) (nonce additionalData ciphertext : data) : free parsec (result data) :=
  crypto_with (algAeadAlgToWire alg) (fun opalg path p a => op_PsaAeadDecrypt path p a keyName opalg nonce additionalData ciphertext).
Definition PsaAeadEncrypt (keyName : string) (alg : AeadAlgorithm) (nonce additionalData plaintext : data) : free parsec (result data) :=
  crypto_with (algAeadAlgToWire alg) (fun opalg path p a => op_PsaAeadEncrypt path p a keyName opalg nonce additionalData plaintext).
Definition PsaExportKey (keyName : string) : free parsec (result data) :=
  crypto (fun path p a => op_PsaExportKey path p a keyName).
Definition PsaImportKey (keyName : string) (attributes : KeyAttributes) (d : data) : free parsec (result unit) :=
  crypto_with (attributes_or_panic attributes) (fun ka path p a => op_PsaImportKey path p a keyName ka d).
Definition PsaExportPublicKey (keyName : string) : free parsec (result data) :=
  crypto (fun path p a => op_PsaExportPublicKey path p a keyName).
Definition PsaGenerateRandom (size : Z) : free parsec (result data) :=
  crypto (fun path p a => op_PsaGenerateRandom path p a size).
Definition PsaMACCompute (keyName : string) (alg : MacAlgorithm) (input : data) : free parsec (result data) :=
  crypto_with (algMacAlgToWire alg) (fun opalg path p a => op_PsaMACCompute path p a keyName opalg input).
Definition PsaMACVerify (keyName : string) (alg : MacAlgorithm) (input mac : data) : free parsec (result unit) :=
  crypto_with (algMacAlgToWire alg) (fun opalg path p a => op_PsaMACVerify path p a keyName opalg input mac).
Definition PsaRawKeyAgreement (raw : Z) (privateKey : string) (peerKey : data) : free parsec (result data) :=
  crypto_with (algKeyAgreementRawAlgToWire raw)
    (fun opalg path p a => op_PsaRawKeyAgreement path p a (GetRaw opalg) privateKey peerKey).
Definition PsaAsymmetricDecrypt (keyName : string) (alg : AsymmetricEncryptionAlgorithm) (salt ciphertext : data) : free parsec (result data) :=
  crypto_with (algAsymmetricEncryptionAlgToWire alg)
    (fun opalg path p a => op_PsaAsymmetricDecrypt path p a keyName opalg salt ciphertext).
Definition PsaAsymmetricEncrypt (keyName : string) (alg : AsymmetricEncryptionAlgorithm) (salt plaintext : data) : free parsec (result data) :=
  crypto_with (algAsymmetricEncryptionAlgToWire alg)
    (fun opalg path p a => op_PsaAsymmetricEncrypt path p a keyName opalg salt plaintext).

End Methods.

(* ------------------------------------------------------------------ *)
(** ** Configuration *)

(** ClientConfig: the data of the direct authenticator, a connection (its
    path), a provider and an authenticator, all optional *)
Record ClientConfig := mkClientConfig {
  cc_direct : option string; cc_connection : option string;
  cc_defaultProvider : option Z; cc_authenticator : option Authenticator }.

Definition NewClientConfig : ClientConfig := mkClientConfig None None None None.
Definition DirectAuthConfigData (appName : string) : ClientConfig := mkClientConfig (Some appName) None None None.

(** The first listed, if any *)
Definition selectDefaultProvider (c : BasicClient) : free parsec (result BasicClient) :=
  let c := SetImplicitProvider ProviderCore c in
  let? availableProviders := ListProviders c catch throw in
  ok (match availableProviders with p :: _ => SetImplicitProvider (pi_ID p) c | [] => c end).

(** The first of the listed that can be used; otherwise that of the client *)
Fixpoint pick_authenticator (config : ClientConfig) (available : list AuthenticatorInfo) (old : Authenticator) : Authenticator :=
  match available with
  | [] => old
  | a :: available' =>
      if (ai_ID a =? AuthDirect)%Z
      then match cc_direct config with
           | Some appName => DirectAuthenticator appName
           | None => pick_authenticator config available' old
           end
      else if (ai_ID a =? AuthUnixPeerCredentials)%Z then UnixPeerAuthenticator
      else pick_authenticator config available' old
  end.

Definition selectDefaultAuthenticator (config : ClientConfig) (c : BasicClient) : free parsec (result BasicClient) :=
  let? availableAuthenticators := ListAuthenticators c catch throw in
  ok (mkBasicClient (bc_opclient c) (pick_authenticator config availableAuthenticators (bc_auth c)) (bc_implicitProvider c)).

Definition InitClient : free parsec (result string) := NewDefaultConnection.
Definition InitClientFromConnection (conn : string) : free parsec (result string) := ok conn.

Definition CreateNakedClient : free parsec (result BasicClient) :=
  let? opclient := InitClient catch throw in
  ok (mkBasicClient opclient NoAuthAuthenticator ProviderCore).

(** The configuration is nil, a name, a *ClientConfig or of another type. *)
Inductive config_arg := CNil | CName (appName : string) | CConfig (c : ClientConfig) | COther.

Definition CreateConfiguredClient (config : config_arg) : free parsec (result BasicClient) :=
  let? clientConfig := Ret (match config with
      | CNil => inr NewClientConfig
      | CName appName => inr (DirectAuthConfigData appName)
      | CConfig c => inr c
      | COther => inl (PlainErr "could not create configuration from type")
      end) catch throw in
  let? opclient := (match cc_connection clientConfig with
      | None => InitClient
      | Some conn => InitClientFromConnection conn
      end) catch throw in
  let bc := mkBasicClient opclient NoAuthAuthenticator ProviderCore in
  let? bc := (match cc_defaultProvider clientConfig with
      | Some p => ok (SetImplicitProvider p bc)
      | None => selectDefaultProvider bc
      end) catch throw in
  match cc_authenticator clientConfig with
  | Some a => ok (mkBasicClient (bc_opclient bc) a (bc_implicitProvider bc))
  | None => selectDefaultAuthenticator clientConfig bc
  end.

End Client.
