(* ===== verification/ParsecFacts.v ===== *)
(** * What the PARSEC client does

    The world of the client, and the service as a function from requests to
    responses.  [Implements]: the service speaks the wire protocol for an
    abstract interface [rpc], a call per operation.  Then every operation of
    the client is that call, once, and what fails is an error
    ([operations_are_calls]). *)

From Stdlib Require Import Ascii.
From S2P Require Import Prelude Free GoLib CryptoLib ParsecWire ParsecAlgorithms ParsecClient.

#[local] Open Scope string_scope.
#[local] Open Scope list_scope.

(** The state of the service and how it answers a request *)
Class Service (D : Type) := serve : D -> data -> D * data.

(** [pw_fails n]: the n-th access to the system fails; [pw_socket]: where the
    service listens. *)
Record PWorld {D : Type} := mkPWorld {
  pw_endpoint : string; pw_rwc : bool; pw_reply : data; pw_daemon : D; pw_socket : option string;
  pw_uid : string; pw_count : nat; pw_fails : nat -> bool }.
Arguments PWorld : clear implicits.

Section World.
Context {D : Type} `{Service D}.
Implicit Types w : PWorld D.

Definition with_env v w := mkPWorld D v (pw_rwc w) (pw_reply w) (pw_daemon w) (pw_socket w) (pw_uid w) (pw_count w) (pw_fails w).
Definition with_rwc b w := mkPWorld D (pw_endpoint w) b (pw_reply w) (pw_daemon w) (pw_socket w) (pw_uid w) (pw_count w) (pw_fails w).
Definition served d r w := mkPWorld D (pw_endpoint w) (pw_rwc w) r d (pw_socket w) (pw_uid w) (pw_count w) (pw_fails w).
Definition tick w := mkPWorld D (pw_endpoint w) (pw_rwc w) (pw_reply w) (pw_daemon w) (pw_socket w) (pw_uid w) (S (pw_count w)) (pw_fails w).

Definition io_error : goerr := PlainErr "input/output error".

Definition faulty {A} w (k : PWorld D -> PWorld D * result A) : PWorld D * result A :=
  if pw_fails w (pw_count w) then (tick w, inl io_error) else k (tick w).

Definition pexec R (o : parsec R) : PWorld D -> PWorld D * R :=
  match o in parsec R return PWorld D -> PWorld D * R with
  | Getenv => fun w => (w, pw_endpoint w)
  | Setenv v => fun w => faulty w (fun w => (with_env v w, inr tt))
  | GetRwc => fun w => (w, pw_rwc w)
  | SetRwc b => fun w => (with_rwc b w, tt)
  | Dial path => fun w => faulty w (fun w =>
      if decide (pw_socket w = Some path) then (w, inr tt) else (w, inl (PlainErr "connect: no such file or directory")))
  | RwcWrite p => fun w => faulty w (fun w => let '(d, r) := serve (pw_daemon w) p in (served d r w, inr tt))
  | RwcReadAll => fun w => faulty w (fun w => (w, inr (pw_reply w)))
  | RwcClose => fun w => faulty w (fun w => (w, inr tt))
  | CurrentUid => fun w => faulty w (fun w => (w, inr (pw_uid w)))
  end.

Definition prun {A} (p : free parsec A) (w : PWorld D) : PWorld D * A := frun pexec p w.

Lemma prun_bind {A B} (m : free parsec A) (f : A -> free parsec B) w :
  prun (bind m f) w = let '(w', a) := prun m w in prun (f a) w'.
Proof. apply frun_bind. Qed.

Lemma prun_try {A B} (m : free parsec (result A)) (h : goerr -> free parsec B) (k : A -> free parsec B) w :
  prun (try m h k) w = let '(w', r) := prun m w in match r with inl e => prun (h e) w' | inr a => prun (k a) w' end.
Proof. unfold try. rewrite prun_bind. destruct (prun m w) as [w' [e|a]]; done. Qed.

Lemma prun_op {R} (o : parsec R) w : prun (perform o) w = pexec R o w.
Proof. unfold prun, perform. cbn. by destruct (pexec R o w). Qed.

Lemma prun_ret {A} (a : A) w : prun (Ret a) w = (w, a).
Proof. done. Qed.

End World.
#[export] Hint Rewrite @prun_bind @prun_try @prun_op @prun_ret : prun.

(** The operation codes of the messages *)
Definition opcode {R} (m : message R) : Z :=
  match m with
  | MPing => OpPing
  | MListProviders => OpListProviders
  | MListOpcodes _ => OpListOpcodes
  | MListClients => OpListClients
  | MDeleteClient _ => OpDeleteClient
  | MListKeys => OpListKeys
  | MListAuthenticators => OpListAuthenticators
  | MPsaGenerateKey _ _ => OpPsaGenerateKey
  | MPsaDestroyKey _ => OpPsaDestroyKey
  | MPsaHashCompute _ _ => OpPsaHashCompute
  | MPsaSignMessage _ _ _ => OpPsaSignMessage
  | MPsaSignHash _ _ _ => OpPsaSignHash
  | MPsaVerifyMessage _ _ _ _ => OpPsaVerifyMessage
  | MPsaVerifyHash _ _ _ _ => OpPsaVerifyHash
  | MPsaCipherEncrypt _ _ _ => OpPsaCipherEncrypt
  | MPsaCipherDecrypt _ _ _ => OpPsaCipherDecrypt
  | MPsaAeadEncrypt _ _ _ _ _ => OpPsaAeadEncrypt
  | MPsaAeadDecrypt _ _ _ _ _ => OpPsaAeadDecrypt
  | MPsaExportKey _ => OpPsaExportKey
  | MPsaImportKey _ _ _ => OpPsaImportKey
  | MPsaExportPublicKey _ => OpPsaExportPublicKey
  | MPsaGenerateRandom _ => OpPsaGenerateRandom
  | MPsaMACCompute _ _ _ => OpPsaMacCompute
  | MPsaMACVerify _ _ _ _ => OpPsaMacVerify
  | MPsaRawKeyAgreement _ _ _ => OpPsaRawKeyAgreement
  | MPsaAsymmetricEncrypt _ _ _ _ => OpPsaAsymmetricEncrypt
  | MPsaAsymmetricDecrypt _ _ _ _ => OpPsaAsymmetricDecrypt
  end.

Lemma opcode_valid {R} (m : message R) : OpCode_IsValid (opcode m) = true.
Proof. by destruct m. Qed.

(** ** The service as calls

    [rpc d provider auth m]: the state after the call and its result or the
    status of its failure; [auth] is the kind and content of the
    authentication. *)
Class Calls (D : Type) := rpc : D -> Z -> RequestAuthToken -> forall R, message R -> D * (Z + R).

(** The wire protocol: a request of the client is answered by one response,
    which holds the result, or the status and an empty or default result.  A
    protobuf message has at most 2 GiB. *)
Class Implements (D : Type) `{Proto, Service D, Calls D} : Prop := {
  marshal_short : forall R (m : message R) body, proto_Marshal m = inr body -> (Z.of_nat (length body) <= 2 ^ 31)%Z;
  serve_ok : forall (d : D) R (m : message R) provider tok body h,
    proto_Marshal m = inr body -> ProviderID_IsValid provider = true ->
    (0 <= tok_type tok <= 4)%Z -> (Z.of_nat (length (tok_buf tok)) < 2 ^ 16)%Z ->
    h = mkWireHeader magicNumber requestHeaderSize 1 0 0 provider 0 0 0 (tok_type tok)
          (Z.of_nat (length body)) (Z.of_nat (length (tok_buf tok))) (opcode m) 0 0 0 ->
    exists h' body' d' r, rpc d provider tok R m = (d', r) /\
      serve d (header_bytes h ++ body ++ tok_buf tok) = (d', header_bytes h' ++ body') /\
      response_header h' /\ h_opCode h' = opcode m /\ Z.of_nat (length body') = h_bodyLen h' /\
      match r with
      | inr x => h_Status h' = StatusSuccess /\ proto_Unmarshal m body' = inr x
      | inl code => h_Status h' = code /\ code <> StatusSuccess /\ exists x, proto_Unmarshal m body' = inr x
      end }.

(** The error of a status, as the client reports it *)
Definition status_error (code : Z) : goerr := default io_error (ToErr code).

Section Refinement.
Context {D : Type} `{Implements D}.
Implicit Types w : PWorld D.

(** The user the client runs as *)
Definition authenticates w (a : Authenticator) (tok : RequestAuthToken) : Prop :=
  match a with
  | NoAuthAuthenticator => tok = mkRequestAuthToken AuthNoAuth []
  | DirectAuthenticator n => tok = mkRequestAuthToken AuthDirect (bytes n) /\ (Z.of_nat (length (bytes n)) < 65536)%Z
  | UnixPeerAuthenticator =>
      exists uid, Go.parse_uint (pw_uid w) = Some uid /\ (0 <= uid < 2 ^ 32)%Z /\
        tok = mkRequestAuthToken AuthUnixPeerCredentials (le 4 uid)
  end.

(** What an operation leaves of the world besides the service *)
Definition settled (w w' : PWorld D) : Prop :=
  pw_endpoint w' = pw_endpoint w /\ pw_rwc w' = false /\ pw_socket w' = pw_socket w /\ pw_uid w' = pw_uid w /\
  pw_fails w' = pw_fails w.


Definition reliable w : Prop := forall n, pw_fails w n = false.

Lemma faulty_reliable {A} w (k : PWorld D -> PWorld D * result A) : reliable w -> faulty w k = k (tick w).
Proof. intros Hr. unfold faulty. by rewrite Hr. Qed.

Ltac alone := autorewrite with prun; unfold ok, throw; cbn [pexec]; rewrite ?faulty_reliable by done.

Lemma prun_open w path : reliable w -> pw_rwc w = false -> pw_socket w = Some path ->
  prun (Open path) w = (with_rwc true (tick w), inr tt).
Proof.
  intros Hr Hw Hs. unfold Open. alone. rewrite Hw. alone. cbn [pw_socket tick].
  rewrite decide_True by done. by alone.
Qed.

Lemma prun_close w : reliable w -> pw_rwc w = true -> prun Close w = (with_rwc false (tick w), inr tt).
Proof. intros Hr Hw. unfold Close. alone. rewrite Hw. alone. by alone. Qed.

Lemma prun_write w p : reliable w -> pw_rwc w = true ->
  prun (Write p) w = let '(d, r) := serve (pw_daemon w) p in (served d r (tick w), inr tt).
Proof. intros Hr Hw. unfold Write. alone. rewrite Hw. alone. cbn [pw_daemon tick]. by destruct (serve _ _). Qed.

Lemma prun_read w : reliable w -> pw_rwc w = true -> prun ReadFrom w = (tick w, inr (pw_reply w)).
Proof. intros Hr Hw. unfold ReadFrom. alone. rewrite Hw. by alone. Qed.

Lemma prun_auth w a tok : reliable w -> authenticates w a tok ->
  exists w', prun (NewRequestAuth a) w = (w', inr tok) /\ (w' = w \/ w' = tick w) /\
    (0 <= tok_type tok <= 4)%Z /\ (Z.of_nat (length (tok_buf tok)) < 65536)%Z.
Proof.
  intros Hr Ha. destruct a as [|n|]; cbn in Ha |- *.
  - subst tok. exists w. cbn. split_and!; [done|by left|done..].
  - destruct Ha as [-> Hl]. exists w. split_and!; [done|by left|done..].
  - destruct Ha as (uid & Hu & Hb & ->). exists (tick w). alone. cbn [pw_uid tick]. rewrite Hu.
    destruct (uid <? 2 ^ 32)%Z eqn:E; [|lia]. split_and!; [done|by right|done|done|].
    done.
Qed.

(** While the system does not fail, an operation of the client is a call of
    the service: one request, one answer, the connection closed again. *)
Lemma operation_calls w path provider a tok {R} (m : message R) :
  reliable w -> pw_rwc w = false -> pw_socket w = Some path -> authenticates w a tok ->
  ProviderID_IsValid provider = true -> (exists body, proto_Marshal m = inr body) ->
  let '(d, r) := rpc (pw_daemon w) provider tok R m in
  exists w', prun (operation path provider a (opcode m) m) w
      = (w', match r with inr x => inr x | inl code => inl (status_error code) end) /\
    settled w w' /\ pw_daemon w' = d.
Proof.
  intros Hr Hw Hs Ha Hp [body Hm]. unfold operation. rewrite prun_try, prun_open by done. rewrite prun_bind.
  assert (Z.of_nat (length body) < 2 ^ 32)%Z as Hb by (pose proof (marshal_short R m body Hm); lia).
  set (w1 := with_rwc true (tick w)). unfold exchange. rewrite prun_try, prun_ret, Hm, prun_try.
  destruct (prun_auth w1 a tok) as (w2 & Ew2 & Hw2 & Ht & Hl); [done|by destruct a| ]. rewrite Ew2.
  assert (reliable w2 /\ pw_rwc w2 = true /\ pw_daemon w2 = pw_daemon w /\ settled w (with_rwc false w2)) as (Hr2 & Hw2' & Hd2 & Hs2).
  { by destruct Hw2 as [-> | ->]. }
  destruct (new_request_packs (opcode m) body tok provider Ht Hl Hb) as (h & Hpack & Eh).
  rewrite prun_try, prun_ret. destruct (NewRequest _ _ _ _) as [e|rq]; [done|].
  rewrite prun_try, prun_ret, Hpack, prun_try, prun_write by done. rewrite Hd2.
  destruct (serve_ok (pw_daemon w) R m provider tok body h Hm Hp Ht Hl Eh) as (h' & body' & d' & r & Er & Es & Hh & Ho & Hbl & Hres).
  rewrite Er, Es. rewrite prun_try, prun_read by done. cbn [pw_reply served tick].
  set (w3 := tick (served d' (header_bytes h' ++ body') (tick w2))).
  assert (ParseResponse (proto_Unmarshal m) (opcode m) (header_bytes h' ++ body')
    = Some (match r with inr x => inr x | inl code => inl (status_error code) end)) as ->.
  { rewrite <- (app_nil_r body'). destruct r as [code|x].
    - destruct Hres as (<- & Hne & x & Hx).
      destruct (parse_response_failure (proto_Unmarshal m) (opcode m) h' body' [] x) as (e & He & ->); try done.
      unfold status_error. by rewrite He.
    - destruct Hres as [Hst Hx]. apply parse_response_ok. exists h', body', []. done. }
  rewrite prun_ret, prun_bind, prun_close by done. rewrite prun_ret.
  exists (with_rwc false (tick w3)). split; [done|]. done.
Qed.


(** ** Whatever fails *)

(** Only the service changes, but for whether the connection is open. *)
Definition framed (w w' : PWorld D) : Prop :=
  pw_endpoint w' = pw_endpoint w /\ pw_socket w' = pw_socket w /\ pw_uid w' = pw_uid w /\ pw_fails w' = pw_fails w.

(** Nothing but the service's state is of interest, and that did not change. *)
Definition idle (w w' : PWorld D) : Prop := framed w w' /\ pw_daemon w' = pw_daemon w.

Lemma faulty_cases {A} w (k : PWorld D -> PWorld D * result A) (P : PWorld D * result A -> Prop) :
  P (tick w, inl io_error) -> P (k (tick w)) -> P (faulty w k).
Proof. unfold faulty. by destruct (pw_fails w _). Qed.

Lemma open_idle w path : idle w (prun (Open path) w).1.
Proof.
  unfold Open. autorewrite with prun. cbn [pexec]. destruct (pw_rwc w); [done|]. autorewrite with prun. cbn [pexec].
  unfold faulty. destruct (pw_fails w _); [done|]. by destruct (decide _).
Qed.

Lemma close_idle w : idle w (prun Close w).1.
Proof.
  unfold Close. autorewrite with prun. cbn [pexec].
  destruct (pw_rwc w); autorewrite with prun; cbn [pexec]; [|done].
  unfold faulty. by destruct (pw_fails w _).
Qed.

Lemma auth_idle w a : idle w (prun (NewRequestAuth a) w).1 /\
  forall tok, (prun (NewRequestAuth a) w).2 = inr tok ->
    authenticates w a tok \/ exists n, a = DirectAuthenticator n /\ tok = mkRequestAuthToken AuthDirect (bytes n).
Proof.
  destruct a as [|n|]; cbn [NewRequestAuth].
  - split; [done|]. intros tok [= <-]. by left.
  - split; [done|]. intros tok [= <-]. right. by exists n.
  - autorewrite with prun. cbn [pexec]. unfold faulty. destruct (pw_fails w _); [done|]. cbn [pw_uid tick].
    destruct (Go.parse_uint (pw_uid w)) as [uid|] eqn:Eu; [|done].
    destruct (uid <? 2 ^ 32)%Z eqn:El; [|done]. split; [done|]. cbn. intros tok [= <-]. left.
    exists uid. split_and!; [done| |lia|done]. unfold Go.parse_uint in Eu.
    destruct (DecimalString.NilZero.uint_of_string _); [|done]. injection Eu as <-. lia.
Qed.

Lemma write_cases w p : let '(w', r) := prun (Write p) w in
  (idle w w' /\ exists e, r = inl e) \/
  (r = inr tt /\ let '(d, rep) := serve (pw_daemon w) p in framed w w' /\ pw_daemon w' = d /\ pw_reply w' = rep).
Proof.
  unfold Write. autorewrite with prun. cbn [pexec]. destruct (pw_rwc w); [|left; split; [done|by eauto]].
  autorewrite with prun. cbn [pexec]. unfold faulty. destruct (pw_fails w _); [left; split; [done|by eauto]|].
  cbn [pw_daemon tick]. destruct (serve _ _) as [d r]. by right.
Qed.

Lemma read_cases w : let '(w', r) := prun ReadFrom w in
  idle w w' /\ (r = inr (pw_reply w) \/ exists e, r = inl e).
Proof.
  unfold ReadFrom. autorewrite with prun. cbn [pexec]. destruct (pw_rwc w); [|split; [done|right; by eauto]].
  autorewrite with prun. cbn [pexec]. unfold faulty.
  destruct (pw_fails w _); (split; [done|]); [right; by eauto|by left].
Qed.

Lemma authenticates_framed w w' a tok : framed w w' -> authenticates w' a tok -> authenticates w a tok.
Proof. intros (_ & _ & Hu & _). destruct a; cbn; by rewrite ?Hu. Qed.

Lemma framed_trans w1 w2 w3 : framed w1 w2 -> framed w2 w3 -> framed w1 w3.
Proof. unfold framed. intros. destruct_and!. split_and!; congruence. Qed.

(** The service was not called, or it was called once; a result is what it
    answered. *)
Definition called_once (w : PWorld D) provider a {R} (m : message R) (out : PWorld D * result R) : Prop :=
  framed w out.1 /\
  ((pw_daemon out.1 = pw_daemon w /\ exists e, out.2 = inl e) \/
   exists tok, authenticates w a tok /\
     pw_daemon out.1 = (rpc (pw_daemon w) provider tok R m).1 /\
     forall x, out.2 = inr x -> (rpc (pw_daemon w) provider tok R m).2 = inr x).

Lemma idle_error w w' provider a {R} (m : message R) e : idle w w' -> called_once w provider a m (w', inl e).
Proof. intros [Hf Hd]. split; [done|]. left. split; [done|]. by exists e. Qed.

(** A complete response, taken apart *)
Lemma response_result {R} (m : message R) h body (r : Z + R) x :
  response_header h -> h_opCode h = opcode m -> Z.of_nat (length body) = h_bodyLen h ->
  match r with
  | inr x => h_Status h = StatusSuccess /\ proto_Unmarshal m body = inr x
  | inl code => h_Status h = code /\ code <> StatusSuccess /\ exists x, proto_Unmarshal m body = inr x
  end ->
  ParseResponse (proto_Unmarshal m) (opcode m) (header_bytes h ++ body) = Some (inr x) -> r = inr x.
Proof.
  intros Hh Ho Hl Hr. rewrite <- (app_nil_r body). destruct r as [code|y].
  - destruct Hr as (<- & Hne & y & Hy).
    destruct (parse_response_failure (proto_Unmarshal m) (opcode m) h body [] y) as (e & _ & ->); done.
  - destruct Hr as [Hst Hy].
    assert (ParseResponse (proto_Unmarshal m) (opcode m) (header_bytes h ++ body ++ []) = Some (inr y)) as ->; [|congruence].
    apply parse_response_ok. by exists h, body, [].
Qed.

(** What may be sent as authentication *)
Lemma token_sent w a op body provider rq tok :
  (forall t, (prun (NewRequestAuth a) w).2 = inr t -> t = tok ->
    authenticates w a tok \/ exists n, a = DirectAuthenticator n /\ tok = mkRequestAuthToken AuthDirect (bytes n)) ->
  (prun (NewRequestAuth a) w).2 = inr tok -> NewRequest op body tok provider = inr rq ->
  authenticates w a tok /\ (0 <= tok_type tok <= 4)%Z /\ (Z.of_nat (length (tok_buf tok)) < 65536)%Z.
Proof.
  intros Htok Ht Hn. unfold NewRequest in Hn. destruct (65535 <? _)%Z eqn:El; [done|].
  destruct (Htok tok Ht eq_refl) as [Ha|(n & -> & ->)]; [|split_and!; [split; [done|]|done..|]; cbn in *; lia].
  split; [done|]. split; [|lia]. destruct a as [|n|]; cbn in Ha; [by subst|by destruct Ha as [-> _]|].
  by destruct Ha as (? & _ & _ & ->).
Qed.

Lemma exchange_outcome w provider a {R} (m : message R) : ProviderID_IsValid provider = true ->
  called_once w provider a m (prun (exchange provider a (opcode m) m) w).
Proof.
  intros Hp. unfold exchange. rewrite prun_try, prun_ret.
  destruct (proto_Marshal m) as [e|body] eqn:Hm; [by apply idle_error|].
  assert (Z.of_nat (length body) < 2 ^ 32)%Z as Hb by (pose proof (marshal_short R m body Hm); lia).
  rewrite prun_try. pose proof (auth_idle w a) as [Hi Htok].
  pose proof (token_sent w a (opcode m) body provider) as Hsent.
  destruct (prun (NewRequestAuth a) w) as [w1 [e|tok]]; cbn [fst snd] in *; [by apply idle_error|].
  rewrite prun_try, prun_ret. destruct (NewRequest _ _ _ _) as [e|rq] eqn:En; [by apply idle_error|].
  destruct (Hsent rq tok) as (Ha & Ht & Hl); [by intros ? [= ->] _; apply Htok|done|done|].
  destruct (new_request_packs (opcode m) body tok provider Ht Hl Hb) as (h & Hpack & Eh). rewrite En in Hpack.
  rewrite prun_try, prun_ret, Hpack, prun_try. pose proof (write_cases w1 (header_bytes h ++ body ++ tok_buf tok)) as Hw.
  destruct Hi as [Hf1 Hd1]. rewrite Hd1 in Hw.
  destruct (serve_ok (pw_daemon w) R m provider tok body h Hm Hp Ht Hl Eh) as (h' & body' & d' & res & Er & Es & Hh & Ho & Hbl & Hres).
  rewrite Es in Hw. destruct (prun (Write _) w1) as [w2 r2].
  destruct Hw as [[[Hf2 Hd2] [e ->]]|(-> & Hf2 & Hd2 & Hrep)].
  { apply idle_error. split; [by eapply framed_trans|congruence]. }
  rewrite prun_try. pose proof (read_cases w2) as Hrd. destruct (prun ReadFrom w2) as [w3 r3].
  destruct Hrd as [[Hf3 Hd3] Hrd].
  assert (framed w w3) as Hf by (by eapply framed_trans, framed_trans).
  destruct Hrd as [->|[e ->]].
  - rewrite Hrep. destruct (ParseResponse _ _ _) as [r|] eqn:Ep; [|by apply parse_response_total in Ep].
    split; [done|]. right. exists tok. rewrite Er. split; [done|]. split; [cbn; congruence|]. cbn. intros x ->.
    by eapply response_result.
  - split; [done|]. right. exists tok. rewrite Er. split; [done|]. split; [cbn; congruence|done].
Qed.

Lemma operation_outcome w path provider a {R} (m : message R) : ProviderID_IsValid provider = true ->
  called_once w provider a m (prun (operation path provider a (opcode m) m) w).
Proof.
  intros Hp. unfold operation. rewrite prun_try. pose proof (open_idle w path) as Hi.
  destruct (prun (Open path) w) as [w1 [e|[]]]; cbn [fst] in Hi; [by apply idle_error|].
  rewrite prun_bind. pose proof (exchange_outcome w1 provider a m Hp) as [Hf Hd].
  destruct (prun (exchange _ _ _ _) w1) as [w2 r]. cbn [fst snd] in *. rewrite prun_bind.
  pose proof (close_idle w2) as [Hf3 Hd3]. destruct (prun Close w2) as [w3 r3]. cbn [fst] in *.
  destruct Hi as [Hf1 Hd1]. rewrite prun_ret. rewrite Hd1 in Hd. split; [by eapply framed_trans, framed_trans|].
  cbn [fst snd]. destruct Hd as [[Hd He]|(tok & Ha & Hd & Hr)]; [left; split; [congruence|done]|].
  right. exists tok. split; [by eapply authenticates_framed|]. split; [congruence|done].
Qed.

(** A connection whose closing failed stays open: from then on every
    operation is refused, without a call. *)
Lemma failed_close_wedges w path provider a op {R} (m : message R) :
  (prun Close w).2 <> inr tt -> 
  let w1 := (prun Close w).1 in
  prun (operation path provider a op m) w1
    = (w1, inl (PlainErr "connection already open; call Close() before reopening")).
Proof.
  intros Hc. cbv zeta. assert (pw_rwc (prun Close w).1 = true) as Ho.
  { revert Hc. unfold Close. autorewrite with prun. cbn [pexec]. destruct (pw_rwc w) eqn:E; autorewrite with prun;
      cbn [pexec]; [|done]. unfold faulty. by destruct (pw_fails w _). }
  generalize dependent (prun Close w).1. intros w1 Ho. unfold operation. rewrite prun_try. unfold Open.
  autorewrite with prun. cbn [pexec]. by rewrite Ho.
Qed.

(** C31. The client implements the interface of calls: whatever fails, the service
    is called at most once and a result is what it answered; and when nothing
    fails and the message can be sent, the operation is the call, with the
    error of the status for a failure, and leaves the connection closed. *)
Theorem operations_are_calls w path provider a {R} (m : message R) : ProviderID_IsValid provider = true ->
  called_once w provider a m (prun (operation path provider a (opcode m) m) w) /\
  forall tok, reliable w -> pw_rwc w = false -> pw_socket w = Some path -> authenticates w a tok ->
    (exists body, proto_Marshal m = inr body) ->
    exists w', prun (operation path provider a (opcode m) m) w
        = (w', match (rpc (pw_daemon w) provider tok R m).2 with inr x => inr x | inl code => inl (status_error code) end) /\
      settled w w' /\ pw_daemon w' = (rpc (pw_daemon w) provider tok R m).1.
Proof.
  intros Hp. split; [by apply operation_outcome|]. intros tok Hr Hw Hs Ha Hm.
  pose proof (operation_calls w path provider a tok m Hr Hw Hs Ha Hp Hm) as Hc. by destruct (rpc _ _ _ _ _).
Qed.

End Refinement.
