(* ===== verification/GcStart.v ===== *)
(** * Starting Ground Control

    cmd/ground-control/main.go, internal/groundcontrol/harborhealth,
    internal/groundcontrol/migrator, NewServer of server/server.go, NewProvider
    of spiffe/provider.go and the audit, database and TLS settings of
    internal/env: from the settings to a server that listens.  log.Fatalf is
    an error of the whole program.  The audit logger and the bootstrap of the
    system administrator are the programs of AuditTrail and Users, embedded.
    Migrations (goose), the driver of PostgreSQL, go-spiffe and the embedded
    SPIRE server are operations that succeed or fail. *)

From S2P Require Import Free Prelude Utf8 Redact Db DbFacts Prog Logic Runs Env Harbor CryptoLib Crypto Duration.
From S2P Require Import GoLib Json Server Auth Users Tls HttpClient AuditTrail.

#[local] Open Scope string_scope.
#[local] Open Scope list_scope.

(* ------------------------------------------------------------------ *)
(** ** internal/env *)

Record Database := mkDatabase {
  db_Database : string; db_Password : string; db_Username : string; db_Port : string; db_Host : string }.

Record SPIFFE := mkSPIFFE {
  sf_Enabled : bool; sf_TrustDomain : string; sf_Provider : string; sf_EndpointSocket : string;
  sf_CertFile : string; sf_KeyFile : string; sf_BundleFile : string }.

Record SPIRE := mkSPIRE {
  sp_DataDir : string; sp_TrustDomain : string; sp_BindAddress : string; sp_ServerAddress : string;
  sp_ServerPort : Z; sp_ServerSocket : string }.

Record TLS := mkTLS { tls_CertFile : string; tls_KeyFile : string; tls_CAFile : string }.

Definition TLS_Enabled (t : TLS) : bool :=
  negb (String.eqb (tls_CertFile t) "") && negb (String.eqb (tls_KeyFile t) "").

Record Audit := mkAudit {
  aud_SyslogAddress : string; aud_OTelEndpoint : string; aud_SyslogFilePath : option string;
  aud_LogEnabled : bool; aud_SyslogEnabled : bool; aud_SyslogTarget : string; aud_SyslogTag : string;
  aud_SyslogSocketPath : string; aud_SyslogNetwork : string; aud_SyslogFileMaxSizeMB : Z;
  aud_SyslogFileMaxBackups : Z; aud_SyslogFileMaxAgeDays : Z; aud_SyslogFileCompress : bool }.

(** The settings of env.GC the handlers do not read *)
Record Settings := mkSettings {
  gc_Database : Database; gc_SPIFFE : SPIFFE; gc_SPIRE : SPIRE; gc_EmbeddedSPIRE : bool;
  gc_TLS : TLS; gc_Audit : Audit }.

Definition no_file : SyslogFileConfig := mkSyslogFileConfig "" 0 0 0 false.
Definition no_syslog : SyslogConfig := mkSyslogConfig false "" "" "" "" "" no_file.
Definition no_audit : AuditConfig := mkAuditConfig false no_syslog (mkOTelConfig false "").

Definition SyslogFileConfig_of (a : Audit) : result SyslogFileConfig :=
  match aud_SyslogFilePath a with
  | Some "" => inl (PlainErr "AUDIT_SYSLOG_TARGET=file but AUDIT_SYSLOG_FILE_PATH is empty")
  | path =>
      if (aud_SyslogFileMaxSizeMB a <? 1)%Z
      then inl (PlainErr ("AUDIT_SYSLOG_FILE_MAX_SIZE_MB must be >= 1, got " +:+ Go.itoa (aud_SyslogFileMaxSizeMB a)))
      else if (aud_SyslogFileMaxBackups a <? 0)%Z
      then inl (PlainErr ("AUDIT_SYSLOG_FILE_MAX_BACKUPS must be >= 0, got " +:+ Go.itoa (aud_SyslogFileMaxBackups a)))
      else if (aud_SyslogFileMaxAgeDays a <? 0)%Z
      then inl (PlainErr ("AUDIT_SYSLOG_FILE_MAX_AGE_DAYS must be >= 0, got " +:+ Go.itoa (aud_SyslogFileMaxAgeDays a)))
      else inr (mkSyslogFileConfig (default "./audit.log" path) (aud_SyslogFileMaxSizeMB a)
                  (aud_SyslogFileMaxBackups a) (aud_SyslogFileMaxAgeDays a) (aud_SyslogFileCompress a))
  end.

(** [go_quote] is fmt's %q. *)
Definition SyslogConfig_of `{GoQuote} (a : Audit) : result SyslogConfig :=
  if negb (aud_SyslogEnabled a) then inr no_syslog
  else
    let syslog := mkSyslogConfig true (aud_SyslogTarget a) (aud_SyslogTag a) (aud_SyslogSocketPath a)
                    (aud_SyslogNetwork a) (aud_SyslogAddress a) in
    if String.eqb (aud_SyslogTarget a) "file" then
      match SyslogFileConfig_of a with inl e => inl e | inr file => inr (syslog file) end
    else if String.eqb (aud_SyslogTarget a) "network" then
      if String.eqb (aud_SyslogAddress a) ""
      then inl (PlainErr "AUDIT_SYSLOG_TARGET=network but AUDIT_SYSLOG_ADDRESS is empty")
      else inr (syslog no_file)
    else if String.eqb (aud_SyslogTarget a) "daemon" then inr (syslog no_file)
    else inl (PlainErr ("AUDIT_SYSLOG_TARGET must be one of daemon|network|file, got " +:+
                go_quote (aud_SyslogTarget a))).

Definition OTelConfig_of (a : Audit) : OTelConfig :=
  mkOTelConfig (negb (String.eqb (aud_OTelEndpoint a) "")) (aud_OTelEndpoint a).

(** [Audit.Config] *)
Definition Config_of `{GoQuote} (a : Audit) : result AuditConfig :=
  if negb (aud_LogEnabled a) then inr no_audit
  else
    match SyslogConfig_of a with
    | inl e => inl e
    | inr syslog =>
        let otel := OTelConfig_of a in
        if negb (sy_Enabled syslog) && negb (ot_Enabled otel)
        then inl (PlainErr "AUDIT_LOG_ENABLED=true but no transport is enabled: set AUDIT_SYSLOG_ENABLED=true and/or AUDIT_OTEL_ENDPOINT")
        else inr (mkAuditConfig true syslog otel)
    end.

(** [Database.URL] *)
Definition Database_URL `{NetUrlPort} (d : Database) : string :=
  "postgres://" +:+ db_Username d +:+ ":" +:+ db_Password d +:+ "@" +:+ JoinHostPort (db_Host d) (db_Port d) +:+
  "/" +:+ db_Database d +:+ "?sslmode=disable".

(* ------------------------------------------------------------------ *)
(** ** harborhealth *)

Record Component := mkComponent { co_Name : string; co_Status : string; co_Error : string }.

Definition IsHealthy (c : Component) : bool := String.eqb (co_Status c) "healthy".

Definition SkipComponents : list string := ["portal"; "trivy"; "registryctl"; "jobservice"].

Fixpoint GetUnhealthyComponents (skip : list string) (components : list Component) : list string :=
  match components with
  | [] => []
  | c :: rest =>
      if existsb (String.eqb (co_Name c)) skip then GetUnhealthyComponents skip rest
      else if negb (IsHealthy c) then co_Name c :: co_Error c :: GetUnhealthyComponents skip rest
      else GetUnhealthyComponents skip rest
  end.

Record HealthResponse := mkHealthResponse { he_Components : option (list Component); he_Status : string }.

Definition dec_component : decoder Component := dec_struct [
  ("name", set_field co_Name (fun v c => mkComponent v (co_Status c) (co_Error c)) dec_string);
  ("status", set_field co_Status (fun v c => mkComponent (co_Name c) v (co_Error c)) dec_string);
  ("error", set_field co_Error (fun v c => mkComponent (co_Name c) (co_Status c) v) dec_string)].

Definition dec_health : decoder HealthResponse := dec_struct [
  ("components", set_field he_Components (fun v h => mkHealthResponse v (he_Status h))
     (dec_slice (mkComponent "" "" "") dec_component));
  ("status", set_field he_Status (fun v h => mkHealthResponse (he_Components h) v) dec_string)].

(* ------------------------------------------------------------------ *)
(** ** Operations *)

Inductive mode := SpiffeMTLS | FileTLS | PlainHTTP.

Inductive gop : Type -> Type :=
| HealthGet (url : string) : gop (result (Z * string * string))   (* code, status line, body *)
| SqlOpen (url : string) : gop (result unit)
| SqlClose : gop (result unit)
| PingContext : gop (result unit)
| Now : gop Z
| Sleep (d : Z) : gop unit
| StatMigrations (path : string) : gop (result unit)
| NewProvider_ (path : string) : gop (result unit)
| Up : gop (result unit)
| TrustDomainFromString (td : string) : gop (result unit)
| LoadSVID (cert key bundle : string) : gop (result unit)
| StartSpire (dataDir td bind : string) : gop (result unit)
| NewServerClient (socket td : string) : gop (result unit)
| SpiffeTLSConfig : gop (result unit)
| WatchCertificate (cert key : string) : gop (result unit)        (* NewCertWatcher *)
| ReadCA (path : string) : gop (result string)
| StartWatching (interval : Z) : gop unit
| StartCleanupJob : gop unit
| Listen (m : mode) : gop (result unit)
| AuditOp {R} (o : aop R) : gop R
| StoreOp {R} (o : op R) : gop R.

Abbreviation start := (free gop).

Definition second : Z := 1000000000.

Section Start.
Context `{NetUrl, !NetUrlPort, GoQuote, X509, GroundControl, Server, PqText, Argon2, UnicodeTables}.
Variable cfg : Settings.

Definition checkhealth (HarborURL : string) : start (result unit) :=
  match ParseRequestURI HarborURL with
  | inl m => wrap "invalid URL format" (PlainErr m)
  | inr parsed =>
      if negb (String.eqb (url_scheme parsed) "http") && negb (String.eqb (url_scheme parsed) "https")
      then throw (PlainErr ("unsupported URL scheme: " +:+ url_scheme parsed +:+ " (must be http or https)"))
      else
        let? (code, status, body) := perform (HealthGet (HarborURL +:+ "/api/v2.0/health"))
          catch wrap "failed to call API" in
        if negb (code =? 200)%Z then throw (PlainErr ("unexpected HTTP status: " +:+ status))
        else
          match Decode dec_health body (mkHealthResponse None "") with
          | None => throw (PlainErr "failed to parse response")
          | Some health =>
              match GetUnhealthyComponents SkipComponents (default [] (he_Components health)) with
              | [] => ok tt
              | l => throw (PlainErr ("unhealthy components: [" +:+ Go.join " " l +:+ "]"))
              end
          end
  end.

Definition CheckHealth : start (result unit) :=
  if SkipHealthCheck GC_Harbor then ok tt else checkhealth (URL GC_Harbor).

(** waitForPostgresReady; [None]: out of fuel *)
Fixpoint poll (fuel : nat) (deadline : Z) : start (option (result unit)) :=
  match fuel with
  | O => Ret None
  | S fuel' =>
      let* now := perform Now in
      if (deadline <? now)%Z then Ret (Some (inl (PlainErr "timed out waiting for PostgreSQL readiness")))
      else
        let* err := perform PingContext in
        match err with
        | inr _ => Ret (Some (inr tt))
        | inl _ => perform (Sleep (2 * second)) ;;; poll fuel' deadline
        end
  end.

(** Every round sleeps two seconds. *)
Definition poll_fuel (timeout : Z) : nat := S (S (Z.to_nat (timeout / (2 * second)))).

Definition waitForPostgresReady (timeout : Z) : start (option (result unit)) :=
  let* now := perform Now in poll (poll_fuel timeout) (now + timeout)%Z.

Definition runMigrations : start (result unit) :=
  let* st := perform (StatMigrations "/migrations") in
  let migrationsPath := match st with
    | inl e => if Err.is_not_exist e then "internal/groundcontrol/sql/schema" else "/migrations"
    | inr _ => "/migrations"
    end in
  let? _ := perform (NewProvider_ migrationsPath) catch wrap "failed to create goose provider" in
  let? _ := perform Up catch wrap "failed to run migrations" in
  ok tt.

Definition DoMigrations : start (result unit) :=
  let? _ := perform (SqlOpen (Database_URL (gc_Database cfg))) catch wrap "failed to open DB" in
  let* ready := waitForPostgresReady (60 * second) in
  let? _ := Ret (default (inl (PlainErr "")) ready) catch throw in
  let? _ := runMigrations catch throw in
  let? _ := perform SqlClose catch wrap "error closing DB" in
  ok tt.

(** spiffe.NewProvider *)
Definition NewProvider : start (result unit) :=
  let s := gc_SPIFFE cfg in
  if String.eqb (sf_Provider s) "sidecar" then
    let? _ := perform (TrustDomainFromString (sf_TrustDomain s)) catch wrap "invalid trust domain" in
    ok tt
  else if String.eqb (sf_Provider s) "static" then
    if String.eqb (sf_CertFile s) "" || String.eqb (sf_KeyFile s) "" || String.eqb (sf_BundleFile s) ""
    then throw (PlainErr "static provider requires SPIFFE_CERT_FILE, SPIFFE_KEY_FILE, and SPIFFE_BUNDLE_FILE")
    else
      let? _ := perform (TrustDomainFromString (sf_TrustDomain s)) catch wrap "invalid trust domain" in
      let? _ := perform (LoadSVID (sf_CertFile s) (sf_KeyFile s) (sf_BundleFile s)) catch wrap "load SVID" in
      ok tt
  else throw (PlainErr ("unknown provider type: " +:+ sf_Provider s)).

(** The SPIRE client: a failure to reach an external server is only logged. *)
Definition start_spire : start (result unit) :=
  if gc_EmbeddedSPIRE cfg then
    let? _ := perform (StartSpire (sp_DataDir (gc_SPIRE cfg)) (sp_TrustDomain (gc_SPIRE cfg))
                         (sp_BindAddress (gc_SPIRE cfg)))
      catch wrap "Failed to start embedded SPIRE server" in
    ok tt
  else if negb (String.eqb (sp_ServerSocket (gc_SPIRE cfg)) "") then
    perform (NewServerClient (sp_ServerSocket (gc_SPIRE cfg)) (sp_TrustDomain (gc_SPIRE cfg))) ;;;
    ok tt
  else ok tt.

Definition tls_of_server : start (result mode) :=
  if sf_Enabled (gc_SPIFFE cfg) then
    let? _ := perform SpiffeTLSConfig catch wrap "Failed to build SPIFFE TLS config" in
    ok SpiffeMTLS
  else if TLS_Enabled (gc_TLS cfg) then
    let? _ := perform (WatchCertificate (tls_CertFile (gc_TLS cfg)) (tls_KeyFile (gc_TLS cfg)))
      catch wrap "Failed to create certificate watcher" in
    let? _ :=
      (if negb (String.eqb (tls_CAFile (gc_TLS cfg)) "") then
         (let? caData := perform (ReadCA (tls_CAFile (gc_TLS cfg)))
            catch wrap "Failed to load TLS config: read CA file" in
          if negb (AppendCertsFromPEM caData)
          then throw (PlainErr "Failed to load TLS config: invalid CA certificate")
          else ok tt)
       else ok tt) catch throw in
    perform (StartWatching (30 * second)) ;;;
    ok FileTLS
  else ok PlainHTTP.

Definition NewServer : start (result mode) :=
  let? _ := perform (SqlOpen (Database_URL (gc_Database cfg))) catch wrap "Error in sql" in
  let? _ := (if sf_Enabled (gc_SPIFFE cfg) then NewProvider else ok tt)
    catch wrap "Failed to create SPIFFE provider" in
  let? _ := start_spire catch throw in
  let? auditCfg := Ret (Config_of (gc_Audit cfg)) catch wrap "Failed to load audit config" in
  let? _ := embed (@AuditOp) (NewAuditLogger auditCfg "ground-control")
    catch wrap "Failed to initialize audit logger" in
  let? _ := embed (@StoreOp) BootstrapSystemAdmin catch wrap "Failed to bootstrap system admin" in
  let? m := tls_of_server catch throw in
  ok m.

(** main, until the server listens; [inl]: log.Fatalf *)
Definition main : start (result mode) :=
  let? _ := CheckHealth catch wrap "health check failed" in
  let? _ := DoMigrations catch throw in
  let? m := NewServer catch throw in
  perform StartCleanupJob ;;;
  let? _ := perform (Listen m) catch wrap "cannot start server" in
  ok m.

End Start.
