(* ===== verification/GcStartFacts.v ===== *)
(** * Properties of Ground Control's start

    The settings of the audit log that are accepted, the end of the wait for
    PostgreSQL, and what holds when the server listens. *)

From S2P Require Import Free Prelude Utf8 Redact Limiter Db DbFacts Prog Logic Runs Env Harbor CryptoLib Crypto Duration.
From S2P Require Import GoLib Json Server Demo Auth Users Tls HttpClient AuditTrail AuditFacts GcStart.

#[local] Open Scope string_scope.
#[local] Open Scope list_scope.

(* ------------------------------------------------------------------ *)
(** ** The settings of the audit log *)

(** What the logger needs of a configuration *)
Definition usable (c : AuditConfig) : Prop :=
  (sy_Enabled (au_Syslog c) = true \/ ot_Enabled (au_OTel c) = true) /\
  (sy_Enabled (au_Syslog c) = true ->
     sy_Target (au_Syslog c) = "daemon" \/
     sy_Target (au_Syslog c) = "network" /\ sy_Address (au_Syslog c) <> "" \/
     sy_Target (au_Syslog c) = "file" /\ let f := sy_File (au_Syslog c) in
       sf_Path f <> "" /\ (1 <= sf_MaxSizeMB f)%Z /\ (0 <= sf_MaxBackups f)%Z /\ (0 <= sf_MaxAgeDays f)%Z) /\
  (ot_Enabled (au_OTel c) = true -> ot_Endpoint (au_OTel c) <> "").

Lemma file_config_usable a f : SyslogFileConfig_of a = inr f ->
  sf_Path f <> "" /\ (1 <= sf_MaxSizeMB f)%Z /\ (0 <= sf_MaxBackups f)%Z /\ (0 <= sf_MaxAgeDays f)%Z.
Proof.
  unfold SyslogFileConfig_of. intros E.
  destruct (aud_SyslogFilePath a) as [[|x s]|]; [discriminate E|..];
    repeat match type of E with context [Z.ltb ?x ?y] => destruct (Z.ltb_spec x y); [discriminate E|] end;
    injection E as <-; by split_and!.
Qed.

(** Audit.Config gives the disabled configuration exactly when the log is
    switched off, and otherwise an error or a configuration every part of
    which the audit logger can use. *)
Theorem audit_settings_usable `{GoQuote} a c :
  Config_of a = inr c -> au_Enabled c = aud_LogEnabled a /\ (au_Enabled c = true -> usable c).
Proof.
  unfold Config_of. destruct (aud_LogEnabled a); cbn [negb]; [|by intros [= <-]].
  destruct (SyslogConfig_of a) as [e|sy] eqn:Es; [done|]. destruct (negb _ && negb _) eqn:En; [done|].
  intros [= <-]. split; [done|]. intros _. unfold usable. cbn [au_Enabled au_Syslog au_OTel]. split_and!.
  - destruct (sy_Enabled sy), (ot_Enabled (OTelConfig_of a)); auto; discriminate En.
  - intros Hen. unfold SyslogConfig_of in Es. cbv zeta in Es.
    destruct (aud_SyslogEnabled a); cbn [negb] in Es; [|injection Es as <-; discriminate Hen].
    destruct (String.eqb_spec (aud_SyslogTarget a) "file") as [Ht|_].
    { destruct (SyslogFileConfig_of a) as [e|f] eqn:Ef; [done|]. injection Es as <-. cbn. right; right.
      split; [done|]. by eapply file_config_usable. }
    destruct (String.eqb_spec (aud_SyslogTarget a) "network") as [Ht|_].
    { destruct (String.eqb_spec (aud_SyslogAddress a) ""); [done|]. injection Es as <-. right; left. by split. }
    destruct (String.eqb_spec (aud_SyslogTarget a) "daemon") as [Ht|_]; [|done]. injection Es as <-. by left.
  - cbn. intros Ho E. by rewrite E in Ho.
Qed.

(* ------------------------------------------------------------------ *)
(** ** Runs *)

Section Runs.
Context `{NetUrl, !NetUrlPort, GoQuote, X509, GroundControl, Server, PqText, Argon2, UnicodeTables, Services, PgTypes}.

(** [gw_elapse]: how long each operation takes; a Sleep takes its duration
    besides. *)
Record GWorld := mkGWorld {
  gw_audit : AWorld; gw_store : World; gw_migrated : bool; gw_listening : option mode;
  gw_clock : Z; gw_tick : nat; gw_elapse : nat -> nat; gw_fault : nat -> option goerr;
  gw_health : nat -> Z * string * string; gw_text : nat -> string }.

Definition g_pass (d : Z) (w : GWorld) : GWorld :=
  mkGWorld (gw_audit w) (gw_store w) (gw_migrated w) (gw_listening w)
    (gw_clock w + d + Z.of_nat (gw_elapse w (gw_tick w)))%Z (S (gw_tick w)) (gw_elapse w) (gw_fault w)
    (gw_health w) (gw_text w).
Definition g_migrated (w : GWorld) : GWorld :=
  mkGWorld (gw_audit w) (gw_store w) true (gw_listening w) (gw_clock w) (gw_tick w) (gw_elapse w) (gw_fault w)
    (gw_health w) (gw_text w).
Definition g_listening (m : mode) (w : GWorld) : GWorld :=
  mkGWorld (gw_audit w) (gw_store w) (gw_migrated w) (Some m) (gw_clock w) (gw_tick w) (gw_elapse w) (gw_fault w)
    (gw_health w) (gw_text w).
Definition g_audit (a : AWorld) (w : GWorld) : GWorld :=
  mkGWorld a (gw_store w) (gw_migrated w) (gw_listening w) (gw_clock w) (gw_tick w) (gw_elapse w) (gw_fault w)
    (gw_health w) (gw_text w).
Definition g_store (d : World) (w : GWorld) : GWorld :=
  mkGWorld (gw_audit w) d (gw_migrated w) (gw_listening w) (gw_clock w) (gw_tick w) (gw_elapse w) (gw_fault w)
    (gw_health w) (gw_text w).

Definition fallible {A} (a : A) (w : GWorld) : result A :=
  match gw_fault w (gw_tick w) with Some e => inl e | None => inr a end.

Definition exec_gop R (o : gop R) (w : GWorld) : GWorld * R :=
  match o in gop R return GWorld * R with
  | HealthGet _ => (g_pass 0 w, fallible (gw_health w (gw_tick w)) w)
  | Now => (g_pass 0 w, gw_clock w)
  | Sleep d => (g_pass d w, tt)
  | Up => (g_pass 0 (match gw_fault w (gw_tick w) with Some _ => w | None => g_migrated w end), fallible tt w)
  | ReadCA _ => (g_pass 0 w, fallible (gw_text w (gw_tick w)) w)
  | SqlOpen _ | SqlClose | PingContext | StatMigrations _ | NewProvider_ _ | TrustDomainFromString _
  | LoadSVID _ _ _ | StartSpire _ _ _ | NewServerClient _ _ | SpiffeTLSConfig | WatchCertificate _ _ =>
      (g_pass 0 w, fallible tt w)
  | StartWatching _ | StartCleanupJob => (g_pass 0 w, tt)
  | Listen m => (g_pass 0 (match gw_fault w (gw_tick w) with Some _ => w | None => g_listening m w end), fallible tt w)
  | AuditOp o => let '(a, r) := exec_audit _ o (gw_audit w) in (g_audit a w, r)
  | StoreOp o => let '(d, r) := exec_op o (gw_store w) in (g_store d w, r)
  end.

Abbreviation grun := (frun exec_gop).

Lemma grun_audit {A} (p : audit A) w :
  grun (embed (@AuditOp) p) w = (g_audit (frun exec_audit p (gw_audit w)).1 w, (frun exec_audit p (gw_audit w)).2).
Proof.
  apply (frun_embed exec_audit exec_gop (@AuditOp) gw_audit g_audit); try done; [by intros []|].
  intros R o v. cbn. by destruct (exec_audit R o (gw_audit v)).
Qed.

Lemma grun_store {A} (p : prog A) w :
  grun (embed (@StoreOp) p) w = (g_store (run p (gw_store w)).1 w, (run p (gw_store w)).2).
Proof.
  revert w. induction p as [a|R o k IH]; intros w; [by destruct w|]. cbn [embed frun run exec_gop].
  destruct (exec_op o (gw_store w)) as [d r]. by rewrite IH.
Qed.

Lemma grun_audit_inv {A} (p : audit A) w w' r : grun (embed (@AuditOp) p) w = (w', r) ->
  w' = g_audit (frun exec_audit p (gw_audit w)).1 w /\ (frun exec_audit p (gw_audit w)).2 = r.
Proof. rewrite grun_audit. by intros [= <- <-]. Qed.

Lemma grun_store_inv {A} (p : prog A) w w' r : grun (embed (@StoreOp) p) w = (w', r) ->
  w' = g_store (run p (gw_store w)).1 w /\ (run p (gw_store w)).2 = r.
Proof. rewrite grun_store. by intros [= <- <-]. Qed.

Lemma grun_try {A B} (m : start (result A)) (h : goerr -> start B) (k : A -> start B) w w' r :
  grun (try m h k) w = (w', r) ->
  (exists a v, grun m w = (v, inr a) /\ grun (k a) v = (w', r)) \/
  (exists e v, grun m w = (v, inl e) /\ grun (h e) v = (w', r)).
Proof. unfold try. rewrite frun_bind. destruct (grun m w) as [v [e|a]]; eauto. Qed.

(** Neither the logger nor the database is touched, and the server does not
    listen yet. *)
Definition apart (w w' : GWorld) : Prop :=
  gw_audit w' = gw_audit w /\ gw_store w' = gw_store w /\ gw_listening w' = gw_listening w /\
  gw_health w' = gw_health w /\ (gw_migrated w = true -> gw_migrated w' = true).

#[local] Instance apart_preorder : PreOrder apart.
Proof.
  split; [by intros w|]. intros u v w (? & ? & ? & ? & ?) (? & ? & ? & ? & ?). split_and!; try congruence. auto.
Qed.

Abbreviation preparing := (within exec_gop apart).

Definition prepares {R} (o : gop R) : bool :=
  match o with Listen _ | AuditOp _ | StoreOp _ => false | _ => true end.

Lemma preparing_op {R} (o : gop R) : prepares o = true -> preparing (perform o).
Proof.
  intros Ho. split; [|done]. intros w. destruct o; try discriminate Ho; try done.
  cbn. by destruct (gw_fault w (gw_tick w)).
Qed.

Lemma preparing_poll fuel deadline : preparing (poll fuel deadline).
Proof.
  induction fuel as [|fuel IH]; [done|]. cbn [poll].
  apply within_bind; [by apply preparing_op|]. intros now. destruct (deadline <? now)%Z; [done|].
  apply within_bind; [by apply preparing_op|]. intros [e|[]]; [|done].
  apply within_bind; [by apply preparing_op|]. done.
Qed.

Ltac preparing_step :=
  match goal with
  | |- forall _, _ => intros ?
  | |- within _ _ (Ret _) => exact I
  | |- within _ _ (perform _) => by apply preparing_op
  | |- within _ _ (poll _ _) => apply preparing_poll
  | |- within _ _ (try _ _ _) => apply within_bind
  | |- within _ _ (bind _ _) => apply within_bind
  | |- within _ _ (match ?x with _ => _ end) => destruct x
  | |- within _ _ (let _ := _ in _) => cbv zeta
  | |- within _ _ ?m => let h := program_head m in unfold h
  end.
Ltac preparing_tac := repeat preparing_step.

Lemma preparing_health : preparing CheckHealth. Proof. preparing_tac. Qed.
Lemma preparing_migrations cfg : preparing (DoMigrations cfg). Proof. preparing_tac. Qed.
Lemma preparing_provider cfg : preparing (NewProvider cfg). Proof. preparing_tac. Qed.
Lemma preparing_spire cfg : preparing (start_spire cfg). Proof. preparing_tac. Qed.
Lemma preparing_tls cfg : preparing (tls_of_server cfg). Proof. preparing_tac. Qed.

Lemma prepared {A} (p : start A) w w' r : preparing p -> grun p w = (w', r) -> apart w w'.
Proof. intros Hp E. pose proof (within_run exec_gop apart p w Hp) as Hx. by rewrite E in Hx. Qed.

(* ------------------------------------------------------------------ *)
(** ** The wait for PostgreSQL *)

Lemma poll_ends fuel deadline w :
  (deadline < gw_clock w + 2 * second * Z.of_nat (Nat.pred fuel))%Z -> fuel <> 0%nat ->
  (grun (poll fuel deadline) w).2 <> None.
Proof.
  revert w. induction fuel as [|fuel IH]; intros w Hd Hn; [done|]. cbn [poll bind perform frun exec_gop].
  destruct (Z.ltb_spec deadline (gw_clock w)) as [|Hle]; [done|]. cbn [bind perform frun exec_gop]. unfold fallible.
  destruct (gw_fault _ _); [|done]. cbn [bind frun exec_gop]. apply IH; cbn [g_pass gw_clock gw_elapse gw_tick]; [|lia].
  destruct fuel as [|fuel]; cbn [Nat.pred] in *; [lia|]. unfold second in *. lia.
Qed.

(** The wait for PostgreSQL comes to an end, with a connection or with the
    time-out, however long the operations take: the fuel of [poll] is
    enough. *)
Theorem wait_ends timeout w : (0 <= timeout)%Z -> (grun (waitForPostgresReady timeout) w).2 <> None.
Proof.
  intros Ht. unfold waitForPostgresReady. cbn [bind perform frun exec_gop]. apply poll_ends; [|done].
  unfold poll_fuel. cbn [Nat.pred g_pass gw_clock]. rewrite Nat2Z.inj_succ, Z2Nat.id by (unfold second; apply Z.div_pos; lia).
  pose proof (Z.div_mod timeout (2 * second) ltac:(done)). pose proof (Z.mod_pos_bound timeout (2 * second) ltac:(done)).
  unfold second in *. lia.
Qed.

(* ------------------------------------------------------------------ *)
(** ** When the server listens *)

(** The answer of Harbor was 200 with a document in which every component that
    is not skipped is healthy. *)
Definition harbor_healthy (w : GWorld) : Prop :=
  SkipHealthCheck GC_Harbor = true \/
  exists n status body h, gw_health w n = (200%Z, status, body) /\
    Decode dec_health body (mkHealthResponse None "") = Some h /\
    forall c, c ∈ default [] (he_Components h) -> co_Name c ∈ SkipComponents \/ co_Status c = "healthy".

Lemma all_healthy skip l : GetUnhealthyComponents skip l = [] ->
  forall c, c ∈ l -> co_Name c ∈ skip \/ co_Status c = "healthy".
Proof.
  induction l as [|c l IH]; intros E x Hx; [by apply elem_of_nil in Hx|]. cbn in E.
  destruct (existsb (String.eqb (co_Name c)) skip) eqn:Es.
  - apply elem_of_cons in Hx as [->|Hx]; [left|by apply IH].
    apply existsb_exists in Es as (s & Hs & He). apply String.eqb_eq in He as <-. by apply list_elem_of_In.
  - unfold IsHealthy in E. destruct (String.eqb_spec (co_Status c) "healthy"); cbn [negb] in E; [|discriminate E].
    apply elem_of_cons in Hx as [->|Hx]; [by right|by apply IH].
Qed.

Lemma health_checked w w' : grun CheckHealth w = (w', inr tt) -> harbor_healthy w.
Proof.
  unfold CheckHealth, harbor_healthy. destruct (SkipHealthCheck GC_Harbor); [by left|]. intros E. right.
  unfold checkhealth in E. destruct (ParseRequestURI _) as [m|u]; [discriminate E|].
  destruct (_ && _); [discriminate E|].
  apply grun_try in E as [([[code status] body] & v & E1 & E)|(e & v & _ & E)]; [|discriminate E].
  cbn [perform frun exec_gop] in E1. injection E1 as <- E1. unfold fallible in E1.
  destruct (gw_fault w (gw_tick w)); [discriminate E1|]. injection E1 as E1.
  destruct (Z.eqb_spec code 200) as [->|]; cbn [negb] in E; [|discriminate E].
  destruct (Decode _ _ _) as [h|] eqn:Ed; [|discriminate E].
  destruct (GetUnhealthyComponents _ _) eqn:Eu; [|discriminate E].
  exists (gw_tick w), status, body, h. split_and!; [done..|]. by apply all_healthy.
Qed.

Lemma migrations_done cfg w w' : grun (DoMigrations cfg) w = (w', inr tt) -> gw_migrated w' = true.
Proof.
  unfold DoMigrations. intros E. apply grun_try in E as [([] & v1 & _ & E)|(e & v & _ & E)]; [|discriminate E].
  rewrite frun_bind in E. destruct (grun (waitForPostgresReady _) v1) as [v2 ready].
  apply grun_try in E as [([] & v3 & _ & E)|(e & v & _ & E)]; [|discriminate E].
  apply grun_try in E as [([] & v4 & E4 & E)|(e & v & _ & E)]; [|discriminate E].
  apply grun_try in E as [([] & v5 & E5 & E)|(e & v & _ & E)]; [|discriminate E]. injection E as <-.
  assert (gw_migrated v4 = true) as Hm; [|by apply (prepared (perform SqlClose)) in E5 as (_ & _ & _ & _ & Hx); [apply Hx|apply preparing_op]].
  unfold runMigrations in E4. rewrite frun_bind in E4. destruct (grun (perform (StatMigrations _)) v3) as [v6 st].
  apply grun_try in E4 as [([] & v7 & _ & E4)|(e & v & _ & E4)]; [|discriminate E4].
  apply grun_try in E4 as [([] & v8 & E8 & E4)|(e & v & _ & E4)]; [|discriminate E4]. injection E4 as <-.
  cbn [perform frun exec_gop] in E8. injection E8 as <- E8. unfold fallible in E8.
  by destruct (gw_fault v7 (gw_tick v7)).
Qed.

(** The mode of the listener that the settings ask for *)
Definition configured_mode (cfg : Settings) : mode :=
  if sf_Enabled (gc_SPIFFE cfg) then SpiffeMTLS else if TLS_Enabled (gc_TLS cfg) then FileTLS else PlainHTTP.

Lemma mode_of_server cfg w w' m : grun (tls_of_server cfg) w = (w', inr m) -> m = configured_mode cfg.
Proof.
  unfold tls_of_server, configured_mode. intros E. destruct (sf_Enabled _).
  { by apply grun_try in E as [([] & v & _ & [= _ <-])|(e & v & _ & E)]. }
  destruct (TLS_Enabled _); [|by injection E].
  apply grun_try in E as [([] & v & _ & E)|(e & v & _ & E)]; [|discriminate E].
  apply grun_try in E as [([] & v2 & _ & E)|(e & v2 & _ & E)]; [|discriminate E].
  cbn [bind perform frun exec_gop] in E. by injection E.
Qed.

Definition has_administrator (d : Db) : Prop :=
  t_exists (fun u => String.eqb (usr_role u) roleSystemAdmin) (users d) = true.

(** What the settings ask of syslog *)
Definition wanted_target (a : Audit) : SyslogTarget :=
  if bool_decide (aud_SyslogTarget a = "network") then ToNetwork (aud_SyslogNetwork a) (aud_SyslogAddress a)
  else if bool_decide (aud_SyslogTarget a = "file")
  then ToFile (mkSyslogFileConfig (default "./audit.log" (aud_SyslogFilePath a)) (aud_SyslogFileMaxSizeMB a)
         (aud_SyslogFileMaxBackups a) (aud_SyslogFileMaxAgeDays a) (aud_SyslogFileCompress a))
  else if bool_decide (aud_SyslogTarget a = "daemon") then ToDaemon (aud_SyslogSocketPath a)
  else UnknownTarget.

(** The audit logger runs as the settings say: on or off, with syslog to their
    target under their tag if it is enabled, with OTLP if an endpoint is set. *)
Definition audit_as_set (a : Audit) : AWorld -> Prop :=
  logger_runs (aud_LogEnabled a)
    (if aud_LogEnabled a && aud_SyslogEnabled a
     then Some (wanted_target a, if String.eqb (aud_SyslogTag a) "" then "harbor-audit" else aud_SyslogTag a)
     else None)
    (if aud_LogEnabled a && negb (String.eqb (aud_OTelEndpoint a) "") then Some (aud_OTelEndpoint a) else None).

Definition settled (cfg : Settings) (w : GWorld) : Prop :=
  audit_as_set (gc_Audit cfg) (gw_audit w) /\ has_administrator (w_db (gw_store w)).

Lemma syslog_as_set a sy : SyslogConfig_of a = inr sy -> sy_Enabled sy = aud_SyslogEnabled a /\
  (sy_Enabled sy = true -> target_of sy = wanted_target a /\ sy_Tag sy = aud_SyslogTag a).
Proof.
  unfold SyslogConfig_of, target_of, wanted_target. cbv zeta.
  destruct (aud_SyslogEnabled a); cbn [negb]; [|by intros [= <-]].
  destruct (String.eqb_spec (aud_SyslogTarget a) "file") as [Ht|_].
  { unfold SyslogFileConfig_of. rewrite Ht. intros E.
    destruct (aud_SyslogFilePath a) as [[|x s]|]; [discriminate E|..];
    repeat match type of E with context [Z.ltb ?x ?y] => destruct (Z.ltb_spec x y); [discriminate E|] end;
    injection E as <-; by rewrite ?Ht. }
  destruct (String.eqb_spec (aud_SyslogTarget a) "network") as [Ht|_].
  { rewrite Ht. destruct (String.eqb_spec (aud_SyslogAddress a) ""); [done|]. by intros [= <-]. }
  destruct (String.eqb_spec (aud_SyslogTarget a) "daemon") as [Ht|_]; [|done]. rewrite Ht. by intros [= <-].
Qed.

Lemma config_as_set a c w : Config_of a = inr c -> runs_with c w -> audit_as_set a w.
Proof.
  unfold Config_of, runs_with, audit_as_set, wanted_syslog, wanted_otel.
  destruct (aud_LogEnabled a); cbn [negb andb]; [|by intros [= <-]].
  destruct (SyslogConfig_of a) as [e|sy] eqn:Es; [done|]. destruct (negb _ && negb _); [done|].
  intros [= <-]. cbn. apply syslog_as_set in Es as [<- Hs]. destruct (sy_Enabled sy); [|done].
  by destruct (Hs eq_refl) as [-> ->].
Qed.

Lemma server_made cfg w w' r : grun (NewServer cfg) w = (w', r) ->
  gw_listening w' = gw_listening w /\ (gw_migrated w = true -> gw_migrated w' = true) /\
  match r with inl _ => True | inr m => m = configured_mode cfg /\ settled cfg w' end.
Proof.
  unfold NewServer. intros E.
  apply grun_try in E as [([] & v1 & E1 & E)|(e & v & E1 & E)];
    apply prepared in E1 as (A1 & S1 & L1 & _ & M1); try (by apply preparing_op); [|by injection E as <- <-; split_and!].
  apply grun_try in E as [([] & v2 & E2 & E)|(e & v & E2 & E)];
    apply prepared in E2 as (A2 & S2 & L2 & _ & M2); try (by destruct (sf_Enabled _); [apply preparing_provider|]);
    [|injection E as <- <-; split_and!; [congruence|auto|done]].
  apply grun_try in E as [([] & v3 & E3 & E)|(e & v & E3 & E)];
    apply prepared in E3 as (A3 & S3 & L3 & _ & M3); try apply preparing_spire;
    [|injection E as <- <-; split_and!; [congruence|auto|done]].
  apply grun_try in E as [(a & v4 & E4 & E)|(e & v & E4 & E)]; injection E4 as <- E4;
    [|injection E as <- <-; split_and!; [congruence|auto|done]].
  destruct (Config_of (gc_Audit cfg)) as [e|c] eqn:Ec; [discriminate E4|]. injection E4 as ->.
  apply grun_try in E as [([] & v5 & E5 & E)|(e & v & E5 & E)]; apply grun_audit_inv in E5 as [-> E5];
    [|injection E as <- <-; split_and!; [cbn; congruence|cbn; auto|done]].
  apply grun_try in E as [([] & v6 & E6 & E)|(e & v & E6 & E)]; apply grun_store_inv in E6 as [-> E6];
    [|injection E as <- <-; split_and!; [cbn; congruence|cbn; auto|done]].
  apply grun_try in E as [(m & v7 & E7 & E)|(e & v & E7 & E)];
    pose proof (prepared _ _ _ _ (preparing_tls cfg) E7) as (A7 & S7 & L7 & _ & M7); injection E as <- <-;
    (split; [cbn in L7; congruence|]; split; [cbn in M7; auto|]); [|done].
  split; [by eapply mode_of_server|]. unfold settled. rewrite A7, S7. cbn [g_store g_audit gw_audit gw_store]. split.
  - apply (config_as_set _ a); [done|]. pose proof (new_logger_runs a "ground-control" (gw_audit v3)) as Hn.
    destruct (frun exec_audit _ (gw_audit v3)) as [x y]. by apply Hn.
  - match type of E6 with (run _ ?s).2 = _ => pose proof (bootstrap_cases s) as Hb end.
    cbv zeta in Hb. rewrite E6 in Hb. by destruct Hb.
Qed.

(** C23. Ground Control listens only when Harbor was healthy (or the check is
    skipped by the settings), the migrations were applied, the audit logger
    runs as the settings say (off, or with their targets, addresses, tag and
    endpoint), there is a system administrator, and the connections are
    protected the way the settings say.  When it exits with an error it has
    never listened. *)
Theorem start_outcome cfg w :
  gw_listening w = None ->
  let '(w', r) := grun (main cfg) w in
  match r with
  | inl _ => gw_listening w' = None
  | inr m => gw_listening w' = Some m /\ m = configured_mode cfg /\ gw_migrated w' = true /\
      harbor_healthy w /\ settled cfg w'
  end.
Proof.
  intros Hl. destruct (grun (main cfg) w) as [w' r] eqn:E. unfold main in E.
  apply grun_try in E as [([] & v1 & E1 & E)|(e & v & E1 & E)];
    pose proof (prepared _ _ _ _ preparing_health E1) as (_ & _ & L1 & _); [|injection E as <- <-; congruence].
  apply health_checked in E1.
  apply grun_try in E as [([] & v2 & E2 & E)|(e & v & E2 & E)];
    pose proof (prepared _ _ _ _ (preparing_migrations cfg) E2) as (_ & _ & L2 & _); [|injection E as <- <-; congruence].
  apply migrations_done in E2.
  apply grun_try in E as [(m & v3 & E3 & E)|(e & v & E3 & E)]; apply server_made in E3 as (L3 & M3 & Hs);
    [|injection E as <- <-; congruence].
  cbn [bind perform frun exec_gop] in E. unfold try in E. cbn [bind perform frun exec_gop] in E.
  unfold fallible in E. destruct (gw_fault (g_pass 0 v3) _); injection E as <- <-; [cbn; congruence|].
  destruct Hs as [-> Hs]. split_and!; [done|done|by apply M3|done|exact Hs].
Qed.

End Runs.
(* ------------------------------------------------------------------ *)
(** ** A concrete start *)

Module DemoStart.
Import Demo.

#[export] Instance start_url : NetUrl := {|
  url := string; Parse s := inr s; ParseRequestURI s := if String.eqb s "" then inl "empty url" else inr s;
  url_scheme s := if Go.has_prefix "https:" s then "https" else "http"; url_host s := s; url_path _ := "";
  with_origin _ _ u := u; ResolveReference _ s := inr s; idna_hostname u := u; url_string u := u |}.
#[export] Instance start_port : NetUrlPort := {|
  url_port _ := ""; url_hostname u := u; with_path _ u := u; JoinHostPort h p := h +:+ ":" +:+ p |}.
#[export] Instance start_quote : GoQuote := fun s => s.
#[export] Instance start_x509 : X509.
Proof.
  refine {| X509KeyPair _ _ := None; AppendCertsFromPEM _ := true; pem_Decode _ := None; ParseCertificate _ := inl "" |}.
  discriminate.
Defined.
#[export] Instance start_unicode : UnicodeTables :=
  {| IsUpper r := (65 <=? r) && (r <=? 90); IsLower r := (97 <=? r) && (r <=? 122);
     IsDigit r := (48 <=? r) && (r <=? 57); IsLetter r := (65 <=? r) |}%Z.

Definition demo_settings : Settings :=
  mkSettings (mkDatabase "gc" "pw" "gc" "5432" "db") (mkSPIFFE false "" "" "" "" "" "")
    (mkSPIRE "" "" "" "" 0 "") false (mkTLS "" "" "")
    (mkAudit "" "" None true true "file" "" "" "" 100 7 30 true).

Definition no_sinks : AWorld :=
  mkAWorld [] false "" [] [] 0 [] [] [] 0 (fun _ => None) (fun _ => (200%Z, None)) (fun _ => "id") (fun _ => 0%Z)
    (inr "gc") 7 (fun _ => None).

Definition health (portal core : string) : string :=
  Marshal (JObj [("status", JStr "healthy"); ("components", JArr
    [JObj [("name", JStr "portal"); ("status", JStr portal)];
     JObj [("name", JStr "core"); ("status", JStr core)]])]).

Definition demo_start (h : string) : GWorld :=
  mkGWorld no_sinks (demo_world demo_db) false None 0 0 (fun _ => 1%nat) (fun _ => None)
    (fun _ => (200%Z, "200 OK", h)) (fun _ => "").

(** The server starts with an unhealthy portal, which is skipped, but not
    with an unhealthy core. *)
Example starts_without_portal :
  let r h := frun exec_gop (main demo_settings) (demo_start h) in
  (r (health "unhealthy" "healthy")).2 = inr PlainHTTP /\
  (r (health "unhealthy" "healthy")).1.(gw_listening) = Some PlainHTTP /\
  (r (health "healthy" "unhealthy")).2 =
    inl (WrapErr "health check failed" (PlainErr "unhealthy components: [core ]")).
Proof. vm_compute. repeat split. Qed.

Lemma audit_settings_usable_witness :
  exists c, Config_of (gc_Audit demo_settings) = inr c /\ usable c.
Proof.
  destruct (Config_of (gc_Audit demo_settings)) as [e|c] eqn:E; [discriminate E|].
  exists c. split; [reflexivity|]. destruct (audit_settings_usable (gc_Audit demo_settings) c E) as [Hen Hu].
  apply Hu. exact Hen.
Defined.

Lemma wait_ends_witness : (frun exec_gop (waitForPostgresReady (60 * GcStart.second)) (demo_start "")).2 <> None.
Proof. apply (wait_ends (60 * GcStart.second) (demo_start "")). unfold GcStart.second. lia. Defined.

Lemma start_outcome_witness :
  let '(w', r) := frun exec_gop (main demo_settings) (demo_start (health "unhealthy" "healthy")) in
  match r with
  | inl _ => gw_listening w' = None
  | inr m => gw_listening w' = Some m /\ m = configured_mode demo_settings /\ gw_migrated w' = true /\
      harbor_healthy (demo_start (health "unhealthy" "healthy")) /\ settled demo_settings w'
  end.
Proof.
  pose proof (start_outcome demo_settings (demo_start (health "unhealthy" "healthy")) eq_refl) as H. exact H.
Defined.

End DemoStart.
