(* ===== verification/ContainerRuntime.v ===== *)
(** * Configuring the container runtimes

    internal/satellite/container_runtime: which runtimes are there, and how
    each is pointed to the local registry, with a backup of its configuration.
    viper and BurntSushi/toml are the parameters [Viper] and [Toml].  The
    files are closed in deferred calls whose errors are ignored. *)

From stdpp Require Import gmap.
From Stdlib Require Import Ascii.
From S2P Require Import Prelude Duration Redact Free Utf8 GoLib Json SatConfig AuditTrail SatState SatWorld HttpClient.

#[local] Open Scope string_scope.
#[local] Open Scope list_scope.

Module runtime.

(* ------------------------------------------------------------------ *)
(** ** containerd_config.go, crio_config.go *)

Record Host := mkHost { ho_Capabilities : option (list string) }.
Record ContainerdHosts := mkContainerdHosts {
  ch_Server : string; ch_Host : option (gmap string Host); ch_Unknown : option (gmap string any) }.

Record Mirror := mkMirror { mi_Location : string; mi_Insecure : bool }.
Record Registry := mkRegistry { re_Location : string; re_Mirrors : list Mirror }.

(** BurntSushi/toml: into a map[string]any and into ContainerdHosts, and an
    Encoder, which may fail after part of its output *)
Class Toml := {
  toml_map : string -> option (gmap string any);
  toml_hosts : string -> option ContainerdHosts;
  toml_encode_map : gmap string any -> string * option string;
  toml_encode_hosts : ContainerdHosts -> string * option string }.

(** viper: a configuration read as JSON or TOML, and the keys that are used *)
Class Viper := {
  settings : Type;
  viper_read : string -> string -> option settings;           (* the type, the text *)
  viper_GetStringSlice : string -> settings -> list string;
  viper_set_strings : string -> list string -> settings -> settings;
  viper_registries : settings -> option (list Registry);      (* Unmarshal into RegistriesConf *)
  viper_set_registries : list Registry -> settings -> settings;
  viper_write : string -> settings -> string * option string }.   (* the output, and an error after it *)

(* ------------------------------------------------------------------ *)
(** ** detect.go *)

Definition CRIDocker : string := "docker".
Definition CRIContainerd : string := "containerd".
Definition CRICrio : string := "crio".
Definition CRIPodman : string := "podman".

Record DetectedCRI := mkDetectedCRI { de_Type : string; de_Reason : string }.
Record criCheck := mkCriCheck { cc_type : string; cc_socket : string; cc_binary : string }.

Definition criChecks : list criCheck :=
  [mkCriCheck CRIDocker "/var/run/docker.sock" "docker";
   mkCriCheck CRIContainerd "/run/containerd/containerd.sock" "containerd";
   mkCriCheck CRICrio "/var/run/crio/crio.sock" "crio";
   mkCriCheck CRIPodman "" "podman"].

Definition check_binary (check : criCheck) : free base (list DetectedCRI) :=
  let* found := perform (LookPath (cc_binary check)) in
  Ret (if found : bool then [mkDetectedCRI (cc_type check) ("found binary " +:+ cc_binary check)] else []).

Definition detect_one (check : criCheck) : free base (list DetectedCRI) :=
  if negb (String.eqb (cc_socket check) "") then
    let* r := perform (Stat (cc_socket check)) in
    match r with
    | inr _ => Ret [mkDetectedCRI (cc_type check) ("found socket " +:+ cc_socket check)]
    | inl _ => check_binary check
    end
  else check_binary check.

Fixpoint detectWithCheckers (checks : list criCheck) : free base (list DetectedCRI) :=
  match checks with
  | [] => Ret []
  | check :: checks' =>
      let* found := detect_one check in
      let* rest := detectWithCheckers checks' in
      Ret (found ++ rest)
  end.

Definition DetectInstalledCRIs : free base (list DetectedCRI) := detectWithCheckers criChecks.

(* ------------------------------------------------------------------ *)
(** ** detect-cri.go: what to configure *)

Record CRIConfig := mkCRIConfig { cf_CRI : string; cf_Registries : list string }.

Fixpoint parseMirrorFlags (mirrors : list string) : result (list CRIConfig) :=
  match mirrors with
  | [] => inr []
  | entry :: mirrors' =>
      match Go.cut ":" entry with
      | None => inl (PlainErr ("invalid mirror format: " +:+ entry))
      | Some (cri, registries) =>
          match parseMirrorFlags mirrors' with
          | inl e => inl e
          | inr l => inr (mkCRIConfig cri (Go.split_on "," registries) :: l)
          end
      end
  end.

Definition ResolveCRIConfigs (explicitMirrors : list string) (autoDetect : bool)
    (registries runtimes : list string) : free base (result (list CRIConfig)) :=
  match explicitMirrors with
  | _ :: _ => Ret (parseMirrorFlags explicitMirrors)
  | [] =>
      if negb autoDetect then ok []
      else
        let* criTypes := (match runtimes with
                          | _ :: _ => Ret runtimes
                          | [] => let* detected := DetectInstalledCRIs in Ret (de_Type <$> detected)
                          end) in
        ok ((fun cri => mkCRIConfig cri (if String.eqb cri CRIDocker then ["true"] else registries)) <$> criTypes)
  end.

(* ------------------------------------------------------------------ *)
(** ** crio.go: copyFile; backup.go *)

(** io.Copy and Sync between the two files; what is read is written in one
    piece. *)
Definition copyFile (src dst : string) : free base (result unit) :=
  let src := path_Clean src in
  let dst := path_Clean dst in
  let? _ := perform (Stat src) catch throw in
  let? _ := perform (Create dst) catch throw in
  let* r := (let? data := perform (ReadFile src) catch throw in
             let? _ := perform (FileWrite dst data) catch throw in
             perform (FileSync dst)) in
  perform (FileClose dst) ;;;
  Ret r.

(** time.Now().Format("20060102T150405"), in UTC here *)
Definition stamp (t : Z) : string :=
  let '(y, m, d) := Time.civil (t / Time.day) in
  let s := ((t mod Time.day) / Time.second)%Z in
  Time.pad 4 y +:+ Time.pad 2 m +:+ Time.pad 2 d +:+ "T" +:+
  Time.pad 2 (s / 3600) +:+ Time.pad 2 (s / 60 mod 60) +:+ Time.pad 2 (s mod 60).

Definition backupFile (path : string) : free base (result string) :=
  let* st := perform (Stat path) in
  match st with
  | inl e => if Err.is_not_exist e then ok "" else throw (WrapErr ("stat " +:+ path) e)
  | inr _ =>
      let* now := perform TimeNow in
      let backupPath := path +:+ ".bak." +:+ stamp now in
      let? _ := copyFile path backupPath catch wrap ("backup " +:+ path) in
      ok backupPath
  end.

Definition restoreBackup (backupPath originalPath : string) : free base (result unit) :=
  copyFile backupPath originalPath.

Definition validateJSON (data : string) : option goerr :=
  match parse data with Some _ => None | None => Some (PlainErr "invalid JSON content") end.

Definition validateTOML `{Toml} (data : string) : option goerr :=
  match toml_map data with
  | Some _ => None
  | None => Some (WrapErr "invalid TOML content" (PlainErr "toml"))
  end.

(** [if backupPath != "" { if restoreErr := restoreBackup(...) { return failed } }; return rolled] *)
Definition roll_back (backupPath path : string) (failed : goerr -> goerr) (rolled : goerr)
    : free base (string * option goerr) :=
  if negb (String.eqb backupPath "") then
    let* r := restoreBackup backupPath path in
    Ret (backupPath, Some (match r with inl restoreErr => failed restoreErr | inr _ => rolled end))
  else Ret (backupPath, Some rolled).

(** errors.Join: the texts on a line each *)
Definition Join (e e' : goerr) : goerr := PlainErr (error_text e +:+ String "010" (error_text e')).

(* ------------------------------------------------------------------ *)
(** ** docker.go *)

Definition dockerConfigPath : string := "/etc/docker/daemon.json".

(** strconv.ParseBool *)
Definition ParseBool (s : string) : option bool :=
  if bool_decide (s ∈ ["1"; "t"; "T"; "TRUE"; "true"; "True"]) then Some true
  else if bool_decide (s ∈ ["0"; "f"; "F"; "FALSE"; "false"; "False"]) then Some false
  else None.

Definition with_scheme (localRegistry : string) : string :=
  if negb (Go.has_prefix "http://" localRegistry) && negb (Go.has_prefix "https://" localRegistry)
  then "http://" +:+ localRegistry else localRegistry.

Definition ensureDockerConfigFileExists (path : string) : free base (result unit) :=
  let* st := perform (Stat path) in
  match st with
  | inl e => if Err.is_not_exist e then perform (WriteFile path "{}") else ok tt
  | inr _ => ok tt
  end.

Section Apply.
Context `{Toml, Viper}.

(** An encoder's output and its error *)
Definition encoded (write : free base (result unit)) (err : option string) : free base (result unit) :=
  let? _ := write catch throw in
  match err with Some m => throw (PlainErr m) | None => ok tt end.

(** viper's WriteConfig and WriteConfigAs *)
Definition viper_save (path type : string) (v : settings) : free base (result unit) :=
  let '(out, err) := viper_write type v in encoded (perform (WriteFile path out)) err.

(** A result of Go's (string, error) *)
Definition failed (backupPath : string) (e : goerr) : free base (string * option goerr) := Ret (backupPath, Some e).

Definition setDockerdConfig (mirrors : list string) (localRegistry : string) : free base (string * option goerr) :=
  match mirrors with
  | [] => Ret ("", None)
  | mirror :: _ =>
      match ParseBool mirror with
      | None => failed "" (PlainErr "docker mirror must be true/false")
      | Some false => Ret ("", None)
      | Some true =>
          let localRegistry := with_scheme localRegistry in
          let? backupPath := backupFile dockerConfigPath
            catch (fun e => failed "" (WrapErr "failed to backup docker config" e)) in
          let? _ := ensureDockerConfigFileExists dockerConfigPath
            catch (fun e => failed backupPath (WrapErr "failed to create default docker config" e)) in
          let? text := perform (ReadFile dockerConfigPath)
            catch (fun e => failed backupPath (WrapErr "failed to read docker config" e)) in
          match viper_read "json" text with
          | None => failed backupPath (WrapErr "failed to read docker config" (PlainErr "viper"))
          | Some v =>
              let currentMirrors := viper_GetStringSlice "registry-mirrors" v in
              let v := if bool_decide (localRegistry ∈ currentMirrors) then v
                       else viper_set_strings "registry-mirrors" (currentMirrors ++ [localRegistry]) v in
              let? _ := viper_save dockerConfigPath "json" v
                catch (fun e => failed backupPath (WrapErr "failed to write docker config" e)) in
              let? data := perform (ReadFile dockerConfigPath)
                catch (fun e => failed backupPath (WrapErr "failed to read back docker config" e)) in
              match validateJSON data with
              | Some e =>
                  roll_back backupPath dockerConfigPath
                    (fun e' => WrapErr "docker config validation failed and rollback failed" (Join e e'))
                    (WrapErr "docker config validation failed, rolled back" e)
              | None =>
                  let* restart := perform (RunCommand ["systemctl"; "restart"; "docker"]) in
                  match restart with
                  | inl e =>
                      roll_back backupPath dockerConfigPath
                        (fun e' => WrapErr "failed to restart Docker and rollback failed" (Join e e'))
                        (WrapErr "failed to restart Docker, rolled back config" e)
                  | inr _ => Ret (backupPath, None)
                  end
              end
          end
      end
  end.

(* ------------------------------------------------------------------ *)
(** ** crio.go *)

Definition tempRegistriesConfigPath : string := "/etc/containers/registries.toml".
Definition registriesConfigPath : string := "/etc/containers/registries.conf".

(** The first registry at the location, with the mirror added *)
Fixpoint add_mirror (upstream : string) (m : Mirror) (l : list Registry) : list Registry :=
  match l with
  | [] => [mkRegistry upstream [m]]
  | r :: l' =>
      if String.eqb (re_Location r) upstream then
        (if existsb (fun m' => String.eqb (mi_Location m') (mi_Location m)) (re_Mirrors r) then r
         else mkRegistry (re_Location r) (re_Mirrors r ++ [m])) :: l'
      else r :: add_mirror upstream m l'
  end.

Definition ensure_registries_conf : free base (result unit) :=
  let* st := perform (Stat registriesConfigPath) in
  match st with
  | inl e =>
      if Err.is_not_exist e then
        let? _ := perform (Create registriesConfigPath) catch throw in
        perform (FileClose registriesConfigPath) ;;; ok tt
      else ok tt
  | inr _ => ok tt
  end.

Definition setCrioConfig (upstreamRegistries : list string) (localMirror : string)
    : free base (string * option goerr) :=
  let? _ := ensure_registries_conf
    catch (fun e => failed "" (WrapErr "error creating registries.conf" e)) in
  let? bkPath := backupFile registriesConfigPath
    catch (fun e => failed "" (WrapErr "failed to backup registries.conf" e)) in
  let? _ := copyFile registriesConfigPath tempRegistriesConfigPath
    catch (fun e => failed bkPath (WrapErr "failed to copy registries.conf file to temporary .toml file" e)) in
  let? text := perform (ReadFile tempRegistriesConfigPath)
    catch (fun e => failed bkPath (WrapErr "failed to read registries.conf" e)) in
  match viper_read "toml" text with
  | None => failed bkPath (WrapErr "failed to read registries.conf" (PlainErr "viper"))
  | Some v =>
      match viper_registries v with
      | None => failed bkPath (WrapErr "failed to unmarshal registries.conf" (PlainErr "viper"))
      | Some regs =>
          let mirror := mkMirror localMirror (negb (Go.has_prefix "https://" localMirror)) in
          let regs := fold_left (fun l upstream => add_mirror upstream mirror l) upstreamRegistries regs in
          let? _ := viper_save tempRegistriesConfigPath "toml" (viper_set_registries regs v)
            catch (fun e => failed bkPath (WrapErr "failed to write registries.conf" e)) in
          let? data := perform (ReadFile tempRegistriesConfigPath)
            catch (fun e => failed bkPath (WrapErr "failed to read temp registries file" e)) in
          match validateTOML data with
          | Some e =>
              roll_back bkPath registriesConfigPath
                (fun e' => WrapErr "registries.conf validation failed and rollback failed" e')
                (WrapErr "registries.conf validation failed, rolled back" e)
          | None =>
              let? _ := copyFile tempRegistriesConfigPath registriesConfigPath
                catch (fun e => failed bkPath (WrapErr "failed to copy temporary .toml file to registries.conf" e)) in
              perform (Remove tempRegistriesConfigPath) ;;;
              Ret (bkPath, None)
          end
      end
  end.

(* ------------------------------------------------------------------ *)
(** ** containerd.go *)

Definition containerdCertsDir : string := "/etc/containerd/certs.d".
Definition containerdConfigPath : string := "/etc/containerd/config.toml".

Definition loadToml (path : string) : free base (result (gmap string any)) :=
  let* st := perform (Stat path) in
  match st with
  | inl _ => ok ∅
  | inr _ =>
      let? text := perform (ReadFile path) catch wrap ("failed to parse " +:+ path) in
      match toml_map text with
      | Some cfg => ok cfg
      | None => throw (WrapErr ("failed to parse " +:+ path) (PlainErr "toml"))
      end
  end.

(** The map under the key, or a new one that replaces what is there *)
Definition loadNestedMap (parent : gmap string any) (key : string) : gmap string any :=
  match parent !! key with Some (AObj m) => m | _ => ∅ end.

(** The nested maps are shared: what is set in the inner one is seen from the
    outer ones. *)
Fixpoint set_nested (keys : list string) (key : string) (v : any) (parent : gmap string any) : gmap string any :=
  match keys with
  | [] => <[key := v]> parent
  | k :: keys' => <[k := AObj (set_nested keys' key v (loadNestedMap parent k))]> parent
  end.

(** Create, Encode and, after a failure of the encoder, the roll back, all
    before the deferred Close *)
Definition encode_file (path bkPath : string) (out : string * option string)
    (create rolled restored : string) : free base (result unit) :=
  let? _ := perform (Create path) catch wrap create in
  let* r := encoded (perform (FileWrite path out.1)) out.2 in
  let* r := (match r with
             | inr _ => ok tt
             | inl e =>
                 if negb (String.eqb bkPath "") then
                   let? _ := restoreBackup bkPath path catch wrap restored in
                   throw (WrapErr rolled e)
                 else throw (WrapErr rolled e)
             end) in
  perform (FileClose path) ;;;
  Ret r.

Definition configureContainerd (certDir : string) : free base (string * option goerr) :=
  let? bkPath := backupFile containerdConfigPath
    catch (fun e => failed "" (WrapErr "failed to backup containerd config" e)) in
  let? cfg := loadToml containerdConfigPath catch (fun e => failed bkPath e) in
  let cfg := set_nested ["plugins"; "io.containerd.cri.v1.images"; "registry"] "config_path" (AStr certDir) cfg in
  let? _ := encode_file containerdConfigPath bkPath (toml_encode_map cfg)
      ("failed to open " +:+ containerdConfigPath +:+ " for writing")
      "failed to write containerd config, rolled back"
      "failed to write containerd config and rollback failed"
    catch (fun e => failed bkPath e) in
  Ret (bkPath, None).

Definition load_hosts (path : string) : free base (result ContainerdHosts) :=
  let* st := perform (Stat path) in
  match st with
  | inl _ => ok (mkContainerdHosts "" None None)
  | inr _ =>
      let? text := perform (ReadFile path) catch wrap ("failed to parse " +:+ path) in
      match toml_hosts text with
      | Some cfg => ok cfg
      | None => throw (WrapErr ("failed to parse " +:+ path) (PlainErr "toml"))
      end
  end.

Definition pull_resolve : Host := mkHost (Some ["pull"; "resolve"]).

Definition hosts_with (server localMirror : string) (cfg : ContainerdHosts) : ContainerdHosts :=
  mkContainerdHosts server (Some (<[localMirror := pull_resolve]> (default ∅ (ch_Host cfg)))) (ch_Unknown cfg).

Definition writeContainerdHostToml (registryURL localMirror : string) : free base (result unit) :=
  let dir := path_Clean (containerdCertsDir +:+ "/" +:+ registryURL) in
  let? _ := perform (MkdirAll dir) catch wrap ("failed to create directory " +:+ dir) in
  let server := if negb (Go.has_prefix "http://" registryURL) && negb (Go.has_prefix "https://" registryURL)
                then "https://" +:+ registryURL else registryURL in
  let path := path_Clean (dir +:+ "/hosts.toml") in
  let? bkPath := backupFile path catch wrap ("failed to backup " +:+ path) in
  let? cfg := load_hosts path catch throw in
  encode_file path bkPath (toml_encode_hosts (hosts_with server (with_scheme localMirror) cfg))
    ("failed to open " +:+ path +:+ " for writing")
    "failed to encode hosts.toml, rolled back"
    "failed to encode hosts.toml and rollback failed".

Fixpoint write_hosts (bkPath : string) (upstreamRegistries : list string) (localMirror : string)
    : free base (string * option goerr) :=
  match upstreamRegistries with
  | [] => Ret (bkPath, None)
  | registryURL :: rest =>
      let? _ := writeContainerdHostToml registryURL localMirror
        catch (fun e => failed bkPath (WrapErr ("failed to configure containerd for " +:+ registryURL) e)) in
      write_hosts bkPath rest localMirror
  end.

Definition setContainerdConfig (upstreamRegistries : list string) (localMirror : string)
    : free base (string * option goerr) :=
  let* r := configureContainerd containerdCertsDir in
  let '(backupPath, err) := r in
  match err with
  | Some e => failed backupPath (WrapErr "failed to configure registry plugin" e)
  | None => write_hosts backupPath upstreamRegistries localMirror
  end.

(* ------------------------------------------------------------------ *)
(** ** detect-cri.go: applying *)

Definition applyCRIConfig (cfg : CRIConfig) (localRegistry : string) : free base (string * option goerr) :=
  if String.eqb (cf_CRI cfg) CRIDocker then setDockerdConfig (cf_Registries cfg) localRegistry
  else if String.eqb (cf_CRI cfg) CRICrio || String.eqb (cf_CRI cfg) CRIPodman
  then setCrioConfig (cf_Registries cfg) localRegistry
  else if String.eqb (cf_CRI cfg) CRIContainerd then setContainerdConfig (cf_Registries cfg) localRegistry
  else failed "" (PlainErr ("unsupported CRI: " +:+ cf_CRI cfg)).

Fixpoint ApplyCRIConfigs (configs : list CRIConfig) (localRegistry : string) : free base (list CRIConfigResult) :=
  match configs with
  | [] => Ret []
  | cfg :: configs' =>
      let* r := applyCRIConfig cfg localRegistry in
      let '(backupPath, err) := r in
      let result := mkCRIConfigResult (cf_CRI cfg) (bool_decide (err = None)) backupPath
                      (match err with Some e => error_text e | None => "" end) in
      let* results := ApplyCRIConfigs configs' localRegistry in
      Ret (result :: results)
  end.

End Apply.

(* ------------------------------------------------------------------ *)
(** ** imagedir.go *)

Definition imageDirectories : list string :=
  ["/var/lib/rancher/k3s/agent/images"; "/var/lib/rancher/rke2/agent/images"].

Fixpoint first_directory (dirs : list string) : free base string :=
  match dirs with
  | [] => Ret ""
  | dir :: dirs' =>
      let* is_dir := perform (IsDir dir) in
      if is_dir : bool then Ret dir else first_directory dirs'
  end.

Definition DetectImageDir : free base string := first_directory imageDirectories.

End runtime.
