(* ===== verification/ContainerRuntimeFacts.v ===== *)
(** * Properties of the configuration of the container runtimes

    What a runtime's configuration held is in its place or in the backup,
    wherever the satellite stops; a rollback puts it back. *)

From stdpp Require Import gmap.
From Stdlib Require Import Ascii.
From S2P Require Import Prelude Duration Redact Free Utf8 GoLib Json SatConfig AuditTrail SatState SatWorld SatRun SatDemo HttpClient ContainerRuntime.

#[local] Open Scope string_scope.
#[local] Open Scope list_scope.

Import runtime.

#[local] Arguments stamp : simpl never.
#[local] Arguments copyFile : simpl never.

(* ------------------------------------------------------------------ *)
(** ** The names of backups *)

Lemma no_slash_pad k n : no_slash (Time.pad k n) = true.
Proof.
  revert n. induction k as [|k IH]; intros n; [done|]. cbn [Time.pad]. rewrite no_slash_app, IH.
  cbn. pose proof (Z.mod_pos_bound n 10). rewrite andb_true_r, negb_true_iff. apply Ascii.eqb_neq. intros E.
  apply (f_equal nat_of_ascii) in E. change (nat_of_ascii "/") with 47 in E. rewrite nat_ascii_embedding in E; lia.
Qed.

Lemma no_slash_stamp t : no_slash (stamp t) = true.
Proof. unfold stamp. destruct (Time.civil _) as [[y m] d]. by rewrite !no_slash_app, !no_slash_pad. Qed.

(** The configurations that are backed up *)
Definition runtime_files : list string := [dockerConfigPath; registriesConfigPath; containerdConfigPath].

Definition backup_of (path : string) (t : Z) : string := path +:+ ".bak." +:+ stamp t.

Lemma Clean_backup path t : path ∈ runtime_files -> path_Clean (backup_of path t) = backup_of path t.
Proof.
  intros Hp. unfold backup_of. pose proof (no_slash_stamp t) as Hs. set (x := stamp t) in *. clearbody x.
  assert (forall dir file, no_slash dir = true -> no_slash (file +:+ x) = true ->
    path_step true [] "" = [] ->
    path_Clean (String "/" ("etc" +:+ String "/" (dir +:+ String "/" (file +:+ x)))) =
    "/" +:+ Go.join "/" (rev (foldl (path_step true) [] [""; "etc"; dir; file +:+ x]))) as E.
  { intros dir file Hd Hf _. unfold path_Clean. cbn [Go.split_on].
    rewrite !split_element, split_plain by done. reflexivity. }
  unfold runtime_files in Hp. set_unfold in Hp. destruct Hp as [->|[->|[->|[]]]].
  - apply (E "docker" "daemon.json.bak."); [done| |done]. by rewrite no_slash_app, Hs.
  - apply (E "containers" "registries.conf.bak."); [done| |done]. by rewrite no_slash_app, Hs.
  - apply (E "containerd" "config.toml.bak."); [done| |done]. by rewrite no_slash_app, Hs.
Qed.

Lemma backup_other path t p : path ∈ runtime_files -> p ∈ tempRegistriesConfigPath :: runtime_files ->
  backup_of path t <> p.
Proof.
  intros Hp Hq. unfold backup_of, runtime_files in *. set_unfold in Hp. set_unfold in Hq.
  destruct Hp as [->|[->|[->|[]]]]; destruct Hq as [->|[->|[->|[->|[]]]]]; done.
Qed.

(* ------------------------------------------------------------------ *)
(** ** Copies *)

Section Facts.
Context `{Registries}.

Abbreviation brun := (frun (@exec_base _)).

Ltac next_fault :=
  match goal with |- context [fault ?v] => destruct (fault v) as [[? ?]|] eqn:? end; cbn -[fault bool_decide try].

Lemma copy_outcome src dst w t :
  path_Clean src = src -> path_Clean dst = dst -> src <> dst -> sw_files w !! src = Some t ->
  (brun (copyFile src dst) w).2 = inr tt -> sw_files (brun (copyFile src dst) w).1 !! dst = Some t.
Proof.
  intros Es Ed Hne Ht. unfold copyFile, try, perform. rewrite Es, Ed. cbn -[fault path_Clean].
  rewrite Ht. next_fault; [done|]. next_fault; [done|]. rewrite lookup_insert_ne, Ht by done.
  next_fault; [repeat case_match; cbn; done|].
  rewrite bool_decide_eq_true_2 by (by left). next_fault; [repeat case_match; cbn; done|].
  rewrite bool_decide_eq_true_2 by (by left). next_fault; [repeat case_match; cbn; done|].
  rewrite ?lookup_insert_eq, ?bool_decide_eq_true_2 by (by left). intros _. reflexivity.
Qed.

Lemma copy_avoids src dst q : q <> path_Clean dst -> avoids (copyFile src dst) q.
Proof. intros Hq. unfold copyFile. repeat avoid_step; done. Qed.

Lemma Clean_runtime path : path ∈ tempRegistriesConfigPath :: runtime_files -> path_Clean path = path.
Proof. unfold runtime_files. set_unfold. intros [->|[->|[->|[->|[]]]]]; reflexivity. Qed.

(** A backup: the file is left alone, and the name that is returned holds what
    it held. *)
Lemma backup_outcome path w t : path ∈ runtime_files -> sw_files w !! path = Some t ->
  let out := brun (backupFile path) w in
  stops (backupFile path) (fun v => sw_files v !! path = Some t) w /\
  (forall bk, out.2 = inr bk -> exists s, bk = backup_of path s /\ sw_files out.1 !! bk = Some t).
Proof.
  intros Hp Ht out.
  assert (path ∈ tempRegistriesConfigPath :: runtime_files) as Hp' by by right.
  split.
  - rewrite <- Ht. apply avoids_stops. unfold backupFile. repeat avoid_step.
    all: fold (backup_of path a); rewrite Clean_backup by done; intros E; exact (backup_other path a path Hp Hp' (eq_sym E)).
  - unfold out, backupFile, perform. cbn -[fault copyFile try]. rewrite Ht. next_fault; [done|].
    fold (backup_of path (sw_clock w (S (sw_tick w)))). set (now := sw_clock w _). intros bk.
    pose proof (copy_outcome path (backup_of path now) (s_tick (s_tick w)) t (Clean_runtime _ Hp')
      (Clean_backup _ _ Hp) (fun E => backup_other path now path Hp Hp' (eq_sym E)) Ht) as Hc.
    rewrite brun_try. destruct (brun (copyFile path (backup_of path now)) _) as [w1 [e|[]]]; cbn; [done|].
    intros [= <-]. exists now. split; [done|]. by apply Hc.
Qed.

(** What [path] held is there or in a backup. *)
Definition recoverable (path t : string) (w : SWorld) : Prop :=
  sw_files w !! path = Some t \/ exists s, sw_files w !! backup_of path s = Some t.

(** A backup, and then what leaves the backup alone *)
Lemma backed_up {A} path w t h (k : string -> free base A) :
  path ∈ runtime_files -> sw_files w !! path = Some t ->
  (forall e, avoids (h e) path) -> (forall bk s, bk = backup_of path s -> avoids (k bk) bk) ->
  stops (try (backupFile path) h k) (recoverable path t) w.
Proof.
  intros Hp Ht Hh Hk. destruct (backup_outcome path w t Hp Ht) as [Hs Hb]. apply stops_bind.
  - eapply stops_mono, Hs. by left.
  - pose proof (stops_holds _ _ _ Hs) as Hnow. destruct (brun (backupFile path) w) as [w1 [e|bk]]; cbn in *.
    + eapply stops_mono, avoids_stops, Hh. intros v Hv. left. by rewrite Hv.
    + destruct (Hb bk eq_refl) as (s & -> & Hbk). eapply stops_mono, avoids_stops, (Hk _ s eq_refl).
      intros v Hv. right. exists s. by rewrite Hv.
Qed.

Context `{Toml, Viper}.

Ltac idle := by repeat (left || split).

(** The paths that are left are not the backup's. *)
Ltac not_backup :=
  repeat avoid_step; rewrite ?Clean_runtime by (unfold runtime_files; set_solver);
  apply backup_other; unfold runtime_files; set_solver.

Lemma ensure_keeps w t : sw_files w !! registriesConfigPath = Some t ->
  stops ensure_registries_conf (fun v => sw_files v !! registriesConfigPath = Some t) w /\
  exists r, brun ensure_registries_conf w = (s_tick w, r).
Proof.
  intros Ht. unfold ensure_registries_conf, perform. cbn -[fault]. rewrite Ht. next_fault; (split; [done|by eexists]).
Qed.

(** C29. Whatever fails, and wherever the satellite stops while it configures a
    runtime, what the runtime's configuration held is still there or in a
    backup beside it: /etc/docker/daemon.json, registries.conf of CRI-O and
    Podman, and containerd's config.toml. *)
Theorem runtime_config_recoverable registries localRegistry certDir w t :
  (sw_files w !! dockerConfigPath = Some t ->
   stops (setDockerdConfig registries localRegistry) (recoverable dockerConfigPath t) w) /\
  (sw_files w !! registriesConfigPath = Some t ->
   stops (setCrioConfig registries localRegistry) (recoverable registriesConfigPath t) w) /\
  (sw_files w !! containerdConfigPath = Some t ->
   stops (configureContainerd certDir) (recoverable containerdConfigPath t) w).
Proof.
  split_and!; intros Ht.
  - unfold setDockerdConfig. destruct registries as [|m mirrors]; [idle|].
    destruct (ParseBool m) as [[]|]; [|idle..].
    apply backed_up; [unfold runtime_files; set_solver|done|repeat avoid_step|]. intros bk s ->. not_backup.
  - destruct (ensure_keeps w t Ht) as (Hs & r & E). apply stops_bind.
    + eapply stops_mono, Hs. by left.
    + rewrite E. cbn [fst snd]. destruct r as [e|u]; [idle|].
      apply backed_up; [unfold runtime_files; set_solver|done|repeat avoid_step|]. intros bk s ->. not_backup.
  - apply backed_up; [unfold runtime_files; set_solver|done|repeat avoid_step|]. intros bk s ->. not_backup.
Qed.

End Facts.

(* ------------------------------------------------------------------ *)
(** ** Two runtimes, one file *)

(** A viper that keeps the text as it is, and a TOML without errors *)
#[local] Instance line_viper : Viper := {|
  settings := string;
  viper_read _ text := Some text;
  viper_GetStringSlice _ _ := [];
  viper_set_strings _ l v := v +:+ Go.join "," l;
  viper_registries _ := Some [];
  viper_set_registries l v := v +:+ Go.join "," (re_Location <$> l);
  viper_write _ v := (v, None) |}.

#[local] Instance line_toml : Toml := {|
  toml_map _ := Some ∅;
  toml_hosts _ := Some (mkContainerdHosts "" None None);
  toml_encode_map _ := ("plugins", None);
  toml_encode_hosts c := (ch_Server c, None) |}.

#[local] Existing Instance demo_registries.

Definition crio_host : SWorld :=
  demo_world {[ registriesConfigPath := "unqualified-search-registries=quay.io;" ]} ∅.

Lemma runtime_config_recoverable_witness :
  sw_files crio_host !! registriesConfigPath = Some "unqualified-search-registries=quay.io;" /\
  stops (setCrioConfig ["docker.io"] "127.0.0.1:8585")
    (recoverable registriesConfigPath "unqualified-search-registries=quay.io;") crio_host.
Proof.
  assert (sw_files crio_host !! registriesConfigPath = Some "unqualified-search-registries=quay.io;") as Ht
    by reflexivity.
  split; [exact Ht|].
  exact (proj1 (proj2 (runtime_config_recoverable ["docker.io"] "127.0.0.1:8585" "" crio_host _)) Ht).
Defined.

(** CRI-O and Podman share registries.conf, and the names of backups are a
    second apart: when both are configured within a second, the second backup
    takes the place of the first, and what the file held is nowhere. *)
Example second_backup_replaces_first :
  let out := frun (@exec_base _)
    (ApplyCRIConfigs [mkCRIConfig CRICrio ["docker.io"]; mkCRIConfig CRIPodman ["docker.io"]] "127.0.0.1:8585")
    crio_host in
  (cri_Success <$> out.2) = [true; true] /\
  Forall (fun kv => kv.2 <> "unqualified-search-registries=quay.io;") (map_to_list (sw_files out.1)).
Proof. vm_compute. split; [reflexivity|]. repeat constructor; discriminate. Qed.
