(* ===== verification/Device.v ===== *)
(** * The device's identity

    internal/satellite/identity/device_linux.go: the fingerprint from which
    the key of an encrypted configuration is derived. *)

From stdpp Require Import gmap.
From Stdlib Require Import Ascii.
From S2P Require Import Prelude Free Utf8 GoLib CryptoLib SatConfig SatState SatWorld.

#[local] Open Scope string_scope.
#[local] Open Scope list_scope.

Record LinuxDeviceIdentity := mkLinuxDeviceIdentity {
  di_machineIDPath : string; di_bootIDPath : string; di_cpuInfoPath : string; di_blockDevPath : string }.

Definition NewLinuxDeviceIdentity : LinuxDeviceIdentity :=
  mkLinuxDeviceIdentity "/etc/machine-id" "/proc/sys/kernel/random/boot_id" "/proc/cpuinfo" "/sys/class/block".

Definition ErrFingerprintFailed : goerr := PlainErr "failed to generate fingerprint".
Definition ErrComponentUnavailable : goerr := PlainErr "identity component unavailable".

Section Device.
Context `{Sha256} (d : LinuxDeviceIdentity).

Definition GetMachineID : free base (result string) :=
  let? data := perform (ReadFile (di_machineIDPath d)) catch wrap "read machine-id" in
  ok (TrimSpace data).

Definition GetBootID : free base (result string) :=
  let? data := perform (ReadFile (di_bootIDPath d)) catch wrap "read boot_id" in
  ok (TrimSpace data).

(** The first interface that is up, not the loopback and has an address *)
Definition GetMACAddress : free base (result string) :=
  let? interfaces := perform NetInterfaces catch wrap "list interfaces" in
  match List.find (fun i => negb (ni_loopback i) && ni_up i && negb (String.eqb (ni_addr i) "")) interfaces with
  | Some i => ok (ni_addr i)
  | None => throw ErrComponentUnavailable
  end.

(** A line "Serial : x" or "model name : x" *)
Definition cpu_line (line : string) : option string :=
  if Go.has_prefix "Serial" line || Go.has_prefix "model name" line
  then (fun kv => TrimSpace kv.2) <$> Go.cut ":" line
  else None.

Definition GetCPUID : free base (result string) :=
  let? data := perform (ReadFile (di_cpuInfoPath d)) catch wrap "read cpuinfo" in
  match omap cpu_line (Go.split_on (ascii_of_nat 10) data) with
  | id :: _ => ok id
  | [] => throw ErrComponentUnavailable
  end.

(** Whole disks only *)
Definition skip_block_device (name : string) : bool :=
  (negb (Go.has_prefix "sd" name) && negb (Go.has_prefix "nvme" name) &&
   negb (Go.has_prefix "vd" name) && negb (Go.has_prefix "mmcblk" name)) ||
  (Go.contains name "p" && Go.has_prefix "nvme" name) ||
  ((3 <? String.length name)%nat &&
   match String.get 2 name with Some c => Go.is_digit_ascii c | None => false end &&
   Go.has_prefix "sd" name).

Fixpoint first_serial (names : list string) : free base (result string) :=
  match names with
  | [] => throw ErrComponentUnavailable
  | name :: names' =>
      if skip_block_device name then first_serial names'
      else
        let* r := perform (ReadFile (path_Clean (path_Join [di_blockDevPath d; name; "device"; "serial"]))) in
        match r with
        | inl _ => first_serial names'
        | inr data =>
            let serial := TrimSpace data in
            if String.eqb serial "" then first_serial names' else ok serial
        end
  end.

Definition GetDiskSerial : free base (result string) :=
  let? entries := perform (ReadDir (di_blockDevPath d)) catch wrap "read block devices" in
  first_serial entries.

Definition available (r : result string) : list string :=
  match r with inr s => if String.eqb s "" then [] else [s] | inl _ => [] end.

(** A component that cannot be read is left out. *)
Definition GetFingerprint : free base (result string) :=
  let* machineID := GetMachineID in
  let* mac := GetMACAddress in
  let* diskSerial := GetDiskSerial in
  match available machineID ++ available mac ++ available diskSerial with
  | [] => throw ErrFingerprintFailed
  | components => ok (Go.hex_encode (sha256_Sum (bytes (Go.join "|" components))))
  end.

End Device.
