(* ===== verification/Secure.v ===== *)
(** * Encrypted configuration files

    internal/crypto/aes_provider.go and internal/satellite/secure/config.go:
    the configuration is sealed with AES-256-GCM under a key derived from the
    device's fingerprint and a random salt. *)

From stdpp Require Import gmap.
From Stdlib Require Import Ascii.
From S2P Require Import Prelude Utf8 GoLib Json SatConfig Free CryptoLib SatState SatWorld SatDemo Device.

#[local] Open Scope string_scope.
#[local] Open Scope list_scope.

Definition text_of (bs : list ascii) : string := foldr String "" bs.

(* ------------------------------------------------------------------ *)
(** ** AESProvider *)

Definition aesKeySize : nat := 32.
Definition nonceSize : nat := 12.
Definition argon2Time : Z := 3.
Definition argon2Memory : Z := 64 * 1024.
Definition argon2Threads : Z := 4.

Definition ErrInvalidKey : goerr := PlainErr "invalid key".
Definition ErrInvalidInput : goerr := PlainErr "invalid input".
Definition ErrInvalidKeyLength : goerr := PlainErr "invalid key length".

Section Provider.
Context `{Argon2, Sha256, AesGcm}.

Definition ensureKeySize (key : list ascii) : list ascii :=
  if (length key =? aesKeySize)%nat then key else sha256_Sum key.

Definition Encrypt (plaintext key : list ascii) : free base (result (list ascii)) :=
  if (length key =? 0)%nat then throw ErrInvalidKey
  else
    let derivedKey := ensureKeySize key in
    let? nonce := perform (Random nonceSize) catch wrap "generate nonce" in
    ok (nonce ++ gcm_Seal derivedKey nonce plaintext).

Definition Decrypt (ciphertext key : list ascii) : result (list ascii) :=
  if (length key =? 0)%nat then inl ErrInvalidKey
  else if (length ciphertext <? nonceSize)%nat then inl (PlainErr "decryption failed")
  else
    let derivedKey := ensureKeySize key in
    match gcm_Open derivedKey (take nonceSize ciphertext) (drop nonceSize ciphertext) with
    | Some plaintext => inr plaintext
    | None => inl (PlainErr "decryption failed")
    end.

Definition DeriveKey (input salt : list ascii) (keyLen : Z) : result (list ascii) :=
  if (length input =? 0)%nat then inl ErrInvalidInput
  else if (keyLen <=? 0)%Z then inl ErrInvalidKeyLength
  else inr (argon2_IDKey input salt argon2Time argon2Memory argon2Threads keyLen).

Definition RandomBytes (n : nat) : free base (result (list ascii)) :=
  let? b := perform (Random n) catch wrap "generate random bytes" in ok b.

End Provider.

(* ------------------------------------------------------------------ *)
(** ** ConfigEncryptor *)

Definition saltSize : nat := 16.
Definition keySize : Z := 32.

Definition ErrConfigNotFound : goerr := PlainErr "config file not found".
Definition ErrConfigCorrupted : goerr := PlainErr "config file corrupted".
Definition ErrEncryptionFailed : goerr := PlainErr "encryption failed".
Definition ErrDecryptionFailed : goerr := PlainErr "decryption failed".
Definition ErrKeyDeriveFailed : goerr := PlainErr "key derivation failed".
Definition ErrInvalidConfig : goerr := PlainErr "invalid config".

Record EncryptedConfig := mkEncryptedConfig {
  ec_Version : Z; ec_Salt : option (list ascii); ec_Encrypted : option (list ascii) }.

Definition no_encrypted : EncryptedConfig := mkEncryptedConfig 0 None None.

(** A []byte is printed in base64 and read from base64 or from an array of
    numbers. *)
Definition enc_bytes (b : option (list ascii)) : json :=
  match b with Some bs => JStr (Base64.encode Base64.std "=" bs) | None => JNull end.

Definition dec_byte : decoder ascii := fun v old =>
  match v with
  | JNull => Some old
  | JNum x =>
      match Go.parse_uint x with
      | Some z => if (z <? 256)%Z then Some (ascii_of_nat (Z.to_nat z)) else None
      | None => None
      end
  | _ => None
  end.

Definition dec_bytes : decoder (option (list ascii)) := fun v old =>
  match v with
  | JStr s => Some <$> Base64.decode true s
  | _ => dec_slice zero dec_byte v old
  end.

Definition enc_encrypted (c : EncryptedConfig) : json :=
  JObj [("version", jint (ec_Version c)); ("salt", enc_bytes (ec_Salt c)); ("data", enc_bytes (ec_Encrypted c))].

Definition dec_encrypted : decoder EncryptedConfig := dec_struct [
  ("version", set_field ec_Version (fun v c => mkEncryptedConfig v (ec_Salt c) (ec_Encrypted c)) dec_int);
  ("salt", set_field ec_Salt (fun v c => mkEncryptedConfig (ec_Version c) v (ec_Encrypted c)) dec_bytes);
  ("data", set_field ec_Encrypted (fun v c => mkEncryptedConfig (ec_Version c) (ec_Salt c) v) dec_bytes)].

Section Encryptor.
Context `{Argon2, Sha256, AesGcm}.

Definition deriveKeyWithSalt (salt : list ascii) : free base (result (list ascii)) :=
  let? fingerprint := GetFingerprint NewLinuxDeviceIdentity catch (fun _ => throw ErrKeyDeriveFailed) in
  match DeriveKey (bytes fingerprint) salt keySize with
  | inl _ => throw ErrKeyDeriveFailed
  | inr key => ok key
  end.

Definition deriveKey : free base (result (list ascii * list ascii)) :=
  let? salt := RandomBytes saltSize catch (fun _ => throw ErrKeyDeriveFailed) in
  let? key := deriveKeyWithSalt salt catch throw in
  ok (key, salt).

Definition EncryptBytes (plaintext : list ascii) : free base (result string) :=
  let? (key, salt) := deriveKey catch throw in
  let? encrypted := Encrypt plaintext key catch (fun _ => throw ErrEncryptionFailed) in
  ok (Marshal (enc_encrypted (mkEncryptedConfig 1 (Some salt) (Some encrypted)))).

(** Every use in the program gives it a configuration. *)
Definition EncryptConfig (c : Config) : free base (result string) :=
  match MarshalConfig c with
  | inl _ => throw ErrInvalidConfig
  | inr plaintext => EncryptBytes (bytes plaintext)
  end.

Definition DecryptBytes (data : string) : free base (result (list ascii)) :=
  match Unmarshal dec_encrypted data no_encrypted with
  | None => throw ErrConfigCorrupted
  | Some encConfig =>
      let? key := deriveKeyWithSalt (default [] (ec_Salt encConfig)) catch throw in
      match Decrypt (default [] (ec_Encrypted encConfig)) key with
      | inl _ => throw ErrDecryptionFailed
      | inr plaintext => ok plaintext
      end
  end.

Definition DecryptConfig (data : string) (c : Config) : free base (result Config) :=
  let? plaintext := DecryptBytes data catch throw in
  match UnmarshalConfig (text_of plaintext) c with
  | None => throw ErrConfigCorrupted
  | Some c' => ok c'
  end.

Definition EncryptToFile (path : string) (c : Config) : free base (result unit) :=
  let? data := EncryptConfig c catch throw in
  perform (WriteFile path data).

Definition DecryptFromFile (path : string) (c : Config) : free base (result Config) :=
  let* r := perform (ReadFile (path_Clean path)) in
  match r with
  | inl e => if Err.is_not_exist e then throw ErrConfigNotFound else throw e
  | inr data => DecryptConfig data c
  end.

Definition ReEncrypt (data : string) : free base (result string) :=
  let? plaintext := DecryptBytes data catch throw in
  EncryptBytes plaintext.

Definition IsEncrypted (data : string) : bool :=
  match Unmarshal dec_encrypted data no_encrypted with
  | None => false
  | Some c => (0 <? ec_Version c)%Z && (0 <? length (default [] (ec_Encrypted c)))%nat
  end.

End Encryptor.

(* ------------------------------------------------------------------ *)
(** ** Properties of the encrypted configuration

    What was encrypted is decrypted on a device with the same fingerprint. *)

(** GCM opens what it sealed under the same key and nonce. *)
Class AesGcmOpens `{AesGcm} :=
  gcm_open_seal : forall key nonce p, gcm_Open key nonce (gcm_Seal key nonce p) = Some p.

Lemma text_of_bytes s : text_of (bytes s) = s.
Proof. induction s as [|a s IH]; [done|]. change (String a (text_of (bytes s)) = String a s). by rewrite IH. Qed.

(** ** Base64 inside JSON *)
Lemma ascii_valid s : Forall (fun a => (Utf8.byte a < 128)%Z) (bytes s) -> valid_utf8 s.
Proof.
  unfold valid_utf8. induction s as [|a s IH]; [done|].
  change (bytes (String a s)) with (a :: bytes s). intros [Ha Hs]%Forall_cons.
  rewrite coerce_ascii by done. by rewrite IH.
Qed.

Lemma std_ascii n : (n < 64)%nat -> (Utf8.byte (Base64.std n) < 128)%Z.
Proof.
  intros Hn. assert (forallb (fun n => Utf8.byte (Base64.std n) <? 128)%Z (seq 0 64) = true) as H
    by (vm_compute; reflexivity).
  rewrite List.forallb_forall in H. apply Z.ltb_lt, H, List.in_seq. lia.
Qed.

Lemma base64_valid bs : valid_utf8 (Base64.encode Base64.std "=" bs).
Proof.
  apply ascii_valid. induction bs as [|a|a b|a b c r IH] using triple_ind; cbn [Base64.encode bytes String.append];
    [done|..].
  - destruct (sextets a a a) as (? & ? & _). repeat constructor; by apply std_ascii.
  - destruct (sextets a b b) as (? & _ & ? & ? & _). repeat constructor; by apply std_ascii.
  - destruct (sextets a b c) as (? & _ & ? & _ & ? & ? & _). repeat (apply Forall_cons; split); try by apply std_ascii. exact IH.
Qed.

Lemma dec_enc_bytes bs : dec_bytes (enc_bytes (Some bs)) None = Some (Some bs).
Proof. cbn. by rewrite decode_padded. Qed.

Lemma encrypted_read_back salt data :
  Unmarshal dec_encrypted (Marshal (enc_encrypted (mkEncryptedConfig 1 (Some salt) (Some data)))) no_encrypted
  = Some (mkEncryptedConfig 1 (Some salt) (Some data)).
Proof.
  unfold Unmarshal. rewrite parse_Marshal.
  - unfold dec_encrypted, enc_encrypted, dec_struct. cbn [dec_members find_field]. unfold set_field.
    cbn -[enc_bytes dec_bytes].
    change (Go.in_int64 1) with true. cbn -[enc_bytes dec_bytes]. rewrite dec_enc_bytes.
    cbn -[enc_bytes dec_bytes]. by rewrite dec_enc_bytes.
  - cbn. split_and!; try done; apply base64_valid.
  - cbn. unfold maxNestingDepth. lia.
Qed.

Section Facts.
Context `{Registries, Argon2, Sha256, AesGcm, !AesGcmOpens}.

Abbreviation brun := (frun (@exec_base _)).
Abbreviation fingerprint := (GetFingerprint NewLinuxDeviceIdentity).

Lemma frun_try {A B} (m : free base (result A)) (h : goerr -> free base B) (k : A -> free base B) w :
  brun (try m h k) w =
  match (brun m w).2 with inl e => brun (h e) (brun m w).1 | inr a => brun (k a) (brun m w).1 end.
Proof.
  unfold try. rewrite frun_bind. destruct (brun m w) as [w1 [e|a]]; done.
Qed.

(** The key for a salt on the device with fingerprint [fp] *)
Definition key_for (fp : string) (salt : list ascii) : result (list ascii) :=
  match DeriveKey (bytes fp) salt keySize with inl _ => inl ErrKeyDeriveFailed | inr key => inr key end.

Lemma derive_key_inv salt w key :
  (brun (deriveKeyWithSalt salt) w).2 = inr key ->
  exists fp, (brun fingerprint w).2 = inr fp /\ key_for fp salt = inr key.
Proof.
  unfold deriveKeyWithSalt, key_for. rewrite frun_try. destruct (brun fingerprint w).2 as [e|fp]; [done|].
  intros E. exists fp. split; [done|]. by destruct (DeriveKey _ _ _) as [e|k]; cbn in *; simplify_eq.
Qed.

Lemma derive_key_on salt w fp :
  (brun fingerprint w).2 = inr fp -> (brun (deriveKeyWithSalt salt) w).2 = key_for fp salt.
Proof.
  intros E. unfold deriveKeyWithSalt, key_for. rewrite frun_try, E. by destruct (DeriveKey _ _ _).
Qed.

Lemma decrypt_sealed nonce p key : key <> [] -> length nonce = nonceSize ->
  Decrypt (nonce ++ gcm_Seal (ensureKeySize key) nonce p) key = inr p.
Proof.
  intros Hk Hn. unfold Decrypt. destruct key as [|a key]; [done|]. cbn [length Nat.eqb].
  rewrite length_app, Hn. destruct (Nat.ltb_spec (nonceSize + length (gcm_Seal (ensureKeySize (a :: key)) nonce p)) nonceSize); [lia|].
  rewrite <- Hn, take_app_length, drop_app_length. by rewrite gcm_open_seal.
Qed.

Lemma random_inv n w bs : (brun (perform (Random n)) w).2 = inr bs -> length bs = n.
Proof.
  cbn. destruct (sw_rand w (sw_tick w)) as [m|stream]; intros [= <-]. by rewrite length_fmap, length_seq.
Qed.

Lemma Encrypt_inv plaintext key w data :
  (brun (Encrypt plaintext key) w).2 = inr data ->
  exists nonce, length nonce = nonceSize /\ key <> [] /\ data = nonce ++ gcm_Seal (ensureKeySize key) nonce plaintext.
Proof.
  unfold Encrypt. destruct key as [|a key]; [done|]. cbn [length Nat.eqb].
  rewrite frun_try. destruct (brun (perform (Random nonceSize)) w).2 as [e|nonce] eqn:E; [done|].
  apply random_inv in E. intros [= <-]. by exists nonce.
Qed.

Lemma EncryptBytes_inv plaintext w data :
  (brun (EncryptBytes plaintext) w).2 = inr data ->
  exists fp salt key sealed, (brun fingerprint (s_tick w)).2 = inr fp /\ key_for fp salt = inr key /\
    data = Marshal (enc_encrypted (mkEncryptedConfig 1 (Some salt) (Some sealed))) /\
    Decrypt sealed key = inr plaintext /\ (nonceSize <= length sealed)%nat.
Proof.
  unfold EncryptBytes, deriveKey. rewrite !frun_try.
  destruct (brun (RandomBytes saltSize) w) as [w1 r] eqn:E1. cbn [fst snd].
  assert (w1 = s_tick w) as ->.
  { unfold RandomBytes, try, perform in E1. cbn in E1. by destruct (sw_rand w (sw_tick w)); injection E1. }
  destruct r as [e|salt]; [done|]. rewrite frun_try.
  destruct (brun (deriveKeyWithSalt salt) (s_tick w)) as [w2 [e|key]] eqn:E2; cbn [fst snd frun ok]; [done|].
  rewrite frun_try.
  destruct (brun (Encrypt plaintext key) w2).2 as [e|sealed] eqn:E3; [done|]. intros [= <-].
  apply (f_equal snd), derive_key_inv in E2 as (fp & Hfp & Hk).
  apply Encrypt_inv in E3 as (nonce & Hn & Hne & ->).
  exists fp, salt, key, (nonce ++ gcm_Seal (ensureKeySize key) nonce plaintext).
  split_and!; try done; [by apply decrypt_sealed|]. rewrite length_app. lia.
Qed.

(** C36. A configuration that was encrypted is recognised as encrypted, and on
    any machine whose fingerprint is the one it was encrypted under, whatever
    else changed, decryption gives back exactly the bytes that were encrypted. *)
Theorem encrypted_config_opens c w data :
  (brun (EncryptConfig c) w).2 = inr data ->
  IsEncrypted data = true /\
  exists plaintext fp, MarshalConfig c = inr plaintext /\ (brun fingerprint (s_tick w)).2 = inr fp /\
    forall w', (brun fingerprint w').2 = inr fp ->
      (brun (DecryptBytes data) w').2 = inr (bytes plaintext) /\
      (brun (DecryptConfig data no_config) w').2 =
        match UnmarshalConfig plaintext no_config with
        | Some c' => inr c'
        | None => inl ErrConfigCorrupted
        end.
Proof.
  unfold EncryptConfig. destruct (MarshalConfig c) as [e|plaintext]; [done|]. intros E.
  apply EncryptBytes_inv in E as (fp & salt & key & sealed & Hfp & Hk & -> & Hd & Hl). split.
  - unfold IsEncrypted. rewrite encrypted_read_back. cbn [ec_Version ec_Encrypted default].
    apply andb_true_intro. split; [done|]. apply Nat.ltb_lt. unfold nonceSize in Hl. cbn. lia.
  - exists plaintext, fp. split_and!; [done..|]. intros w' Hw.
    assert ((brun (DecryptBytes (Marshal (enc_encrypted (mkEncryptedConfig 1 (Some salt) (Some sealed))))) w').2
            = inr (bytes plaintext)) as Hb.
    { unfold DecryptBytes. rewrite encrypted_read_back, frun_try. simpl default.
      rewrite (derive_key_on salt w' fp Hw), Hk. by rewrite Hd. }
    split; [done|]. unfold DecryptConfig. rewrite frun_try, Hb, text_of_bytes.
    by destruct (UnmarshalConfig plaintext no_config).
Qed.

End Facts.

(** ** A concrete device *)
#[local] Instance demo_argon2 : Argon2 := fun pw salt _ _ _ _ => take 32 (pw ++ salt).
#[local] Instance demo_sha256 : Sha256 := fun bs => take 32 bs.
#[local] Instance demo_aes : AesGcm := {
  gcm_Seal key nonce p := p ++ key;
  gcm_Open key nonce c := Some (take (length c - length key) c) }.
#[local] Instance demo_aes_opens : AesGcmOpens.
Proof.
  intros key nonce p. cbn. f_equal. rewrite length_app.
  replace (length p + length key - length key)%nat with (length p) by lia. apply take_app_length.
Defined.

Lemma encrypted_config_opens_witness :
  let w := demo_world ∅ ∅ in
  exists data plaintext fp,
    (frun (@exec_base demo_registries) (EncryptConfig no_config) w).2 = inr data /\
    IsEncrypted data = true /\
    MarshalConfig no_config = inr plaintext /\
    (frun (@exec_base demo_registries) (GetFingerprint NewLinuxDeviceIdentity) (s_tick w)).2 = inr fp /\
    (frun (@exec_base demo_registries) (DecryptBytes data) (s_tick w)).2 = inr (bytes plaintext).
Proof.
  cbv zeta. destruct ((frun (@exec_base demo_registries) (EncryptConfig no_config) (demo_world ∅ ∅)).2)
    as [e|data] eqn:E; [vm_compute in E; discriminate|].
  destruct (encrypted_config_opens _ _ _ E) as (Hi & plaintext & fp & Hp & Hf & Ho).
  exists data, plaintext, fp. split; [reflexivity|]. split; [exact Hi|]. split; [exact Hp|].
  split; [exact Hf|]. apply (Ho _ Hf).
Defined.
