(* ===== verification/Parsec.v ===== *)
(** * The crypto providers

    crypto.Provider of internal/crypto: the software provider's signatures
    (aes_provider.go; its encryption is in [Secure]) and the provider of
    internal/satellite/parsec, whose signing key stays in a secure element:
    detect.go, provider.go and signer.go.

    The standard library's ECDSA and its parsing of public keys are
    parameters. *)

From Stdlib Require Import Ascii.
From S2P Require Import Prelude Free GoLib CryptoLib SatState SatWorld Secure ParsecWire ParsecAlgorithms ParsecClient.

#[local] Open Scope string_scope.
#[local] Open Scope list_scope.

(** crypto/ecdsa on P-256, and x509.ParsePKIXPublicKey: [None] is a key of
    another type.  GenerateKey and SignASN1 read random bytes. *)
Class EcdsaLib := {
  ecdsa_PrivateKey : Type;
  ecdsa_PublicKey : Type;
  ecdsa_public : ecdsa_PrivateKey -> ecdsa_PublicKey;
  ecdsa_GenerateKey : free base (result ecdsa_PrivateKey);
  ecdsa_SignASN1 : ecdsa_PrivateKey -> list ascii -> free base (result (list ascii));
  ecdsa_VerifyASN1 : ecdsa_PublicKey -> list ascii -> list ascii -> bool;
  ParsePKIXPublicKey : list ascii -> string + option ecdsa_PublicKey }.

(** crypto.PrivateKey and crypto.PublicKey are [any]. *)
Inductive any_key `{EcdsaLib} :=
| KeyRef (Name : string)
| EcdsaPrivate (k : ecdsa_PrivateKey)
| EcdsaPublic (k : ecdsa_PublicKey)
| OtherKey.

(** crypto.Provider over the effects [E] *)
Class CryptoProvider (E : Type -> Type) `{EcdsaLib} := {
  Sign : list ascii -> any_key -> free E (result (list ascii));
  Verify : list ascii -> list ascii -> any_key -> free E (result unit);
  GenerateKeyPair : free E (result (any_key * any_key));
  Hash : list ascii -> list ascii }.

(* ------------------------------------------------------------------ *)
(** ** AESProvider *)

Definition ErrSignatureMismatch : goerr := PlainErr "signature verification failed".

Section AESProvider.
Context `{Sha256, EcdsaLib}.

Definition aes_Sign (dat : list ascii) (key : any_key) : free base (result (list ascii)) :=
  match key with
  | EcdsaPrivate k => let? sig := ecdsa_SignASN1 k (sha256_Sum dat) catch wrap "sign data" in ok sig
  | _ => throw (PlainErr "expected *ecdsa.PrivateKey")
  end.

Definition aes_Verify (dat signature : list ascii) (key : any_key) : free base (result unit) :=
  match key with
  | EcdsaPublic k =>
      if ecdsa_VerifyASN1 k (sha256_Sum dat) signature then ok tt else throw ErrSignatureMismatch
  | _ => throw (PlainErr "expected *ecdsa.PublicKey")
  end.

Definition aes_GenerateKeyPair : free base (result (any_key * any_key)) :=
  let? privateKey := ecdsa_GenerateKey catch wrap "generate key pair" in
  ok (EcdsaPrivate privateKey, EcdsaPublic (ecdsa_public privateKey)).

Definition aes_Hash (dat : list ascii) : list ascii := sha256_Sum dat.

Definition AESProvider : CryptoProvider base :=
  {| Sign := aes_Sign; Verify := aes_Verify; GenerateKeyPair := aes_GenerateKeyPair; Hash := aes_Hash |}.

End AESProvider.

(* ------------------------------------------------------------------ *)
(** ** detect.go *)

Section Detect.
Context `{Proto, NetUrl}.

Definition set_endpoint (socketPath : string) : free parsec (result unit) :=
  if String.eqb socketPath "" then ok tt else perform (Setenv ("unix:" +:+ socketPath)).

Definition Detect (socketPath : string) : free parsec bool :=
  try (set_endpoint socketPath) (fun _ => Ret false) (fun _ =>
  try (CreateConfiguredClient (CConfig NewClientConfig)) (fun _ => Ret false) (fun c =>
  let* r := Ping c in
  BasicClient_Close ;;;
  Ret (match r with inl _ => false | inr _ => true end))).

Definition MustDetect (socketPath : string) : free parsec (result unit) :=
  let* found := Detect socketPath in
  if found : bool then ok tt
  else throw (PlainErr ("parsec daemon not reachable at " +:+ socketPath +:+ ": ensure the parsec service is running")).

End Detect.

(** Without the build tag: detect_stub.go *)
Definition ErrParsecNotAvailable : goerr :=
  PlainErr "PARSEC support not compiled in this build (rebuild with -tags parsec)".
Definition Detect_stub (socketPath : string) : bool := false.
Definition MustDetect_stub (socketPath : string) : result unit := inl ErrParsecNotAvailable.

(* ------------------------------------------------------------------ *)
(** ** provider.go *)

Definition identityKeyName : string := "satellite-identity-key".

(** The attributes of the identity key: ECDSA with SHA-256 on P-256, to sign
    and verify and not to be exported *)
Definition identityAttributes : KeyAttributes :=
  mkKeyAttributes (Some (EccKeyPair KeyTypeSECPR1)) 256
    (Some (mkKeyPolicy (mkUsageFlags false false false false false true true true true false)
                       (NewEcdsa HashAlgorithmTypeSHA256))).

(** NewAsymmetricSignature().Ecdsa(SHA256).GetAsymmetricSignature() *)
Definition ecdsa_sha256 : AsymmetricSignatureAlgorithm := Ecdsa (SignHashSpecific HashAlgorithmTypeSHA256).

Lemma sigAlg_is : GetAsymmetricSignature (NewEcdsa HashAlgorithmTypeSHA256) = Some ecdsa_sha256.
Proof. done. Qed.

Section KeyProvider.
Context `{Proto, NetUrl, Sha256, EcdsaLib}.

(** KeyProvider{client} *)
Section Methods.
Context (client : BasicClient).

Definition ensureIdentityKey : free parsec (result unit) :=
  let? keys := ListKeys client catch wrap "list parsec keys" in
  if existsb (fun k => String.eqb (ki_Name k) identityKeyName) keys then ok tt
  else
    let? _ := PsaGenerateKey client identityKeyName identityAttributes catch wrap "generate identity key in parsec" in
    ok tt.

(** A no-op until the client library has AEAD keys *)
Definition ensureConfigSealKey : free parsec (result unit) := ok tt.

Definition kp_Close : free parsec (result unit) := BasicClient_Close.

Definition kp_Sign (dat : list ascii) (key : any_key) : free parsec (result (list ascii)) :=
  match key with
  | KeyRef Name =>
      let? sig := PsaSignHash client Name (sha256_Sum dat) ecdsa_sha256 catch wrap ("parsec sign with key " +:+ Name) in
      ok sig
  | _ => throw (PlainErr "parsec provider requires KeyRef")
  end.

Definition kp_Verify (dat signature : list ascii) (key : any_key) : free parsec (result unit) :=
  match key with
  | KeyRef Name =>
      let? _ := PsaVerifyHash client Name (sha256_Sum dat) signature ecdsa_sha256 catch wrap "parsec verify" in
      ok tt
  | _ => throw (PlainErr "parsec provider requires KeyRef for Verify")
  end.

(** x509.ParsePKIXPublicKey as an [any] *)
Definition parse_public (pubDER : list ascii) : result any_key :=
  match ParsePKIXPublicKey pubDER with
  | inl e => inl (WrapErr "parse exported public key" (PlainErr e))
  | inr (Some k) => inr (EcdsaPublic k)
  | inr None => inr OtherKey
  end.

Definition kp_GenerateKeyPair : free parsec (result (any_key * any_key)) :=
  let? _ := ensureIdentityKey catch throw in
  let? pubDER := PsaExportPublicKey client identityKeyName catch wrap "export public key from parsec" in
  let? pub := Ret (parse_public pubDER) catch throw in
  ok (KeyRef identityKeyName, pub).

Definition kp_Hash (dat : list ascii) : list ascii := sha256_Sum dat.

(** uint64(n) of the int *)
Definition kp_RandomBytes (n : Z) : free parsec (result (list ascii)) :=
  let? b := PsaGenerateRandom client (n mod 2 ^ 64)%Z catch wrap "parsec generate random" in ok b.

Definition KeyProvider : CryptoProvider parsec :=
  {| Sign := kp_Sign; Verify := kp_Verify; GenerateKeyPair := kp_GenerateKeyPair; Hash := kp_Hash |}.

End Methods.

(** Encryption is the software provider's; the derivation has its own errors. *)
Definition kp_Encrypt `{AesGcm} (plaintext key : list ascii) : free base (result (list ascii)) := Secure.Encrypt plaintext key.
Definition kp_Decrypt `{AesGcm} (ciphertext key : list ascii) : result (list ascii) := Secure.Decrypt ciphertext key.
Definition kp_DeriveKey `{Argon2} (input salt : list ascii) (keyLen : Z) : result (list ascii) :=
  if (length input =? 0)%nat then inl (PlainErr "empty input")
  else if (keyLen <=? 0)%Z then inl (PlainErr ("invalid key length " +:+ Go.itoa keyLen))
  else inr (argon2_IDKey input salt 3 (64 * 1024) 4 (keyLen mod 2 ^ 32)%Z).

(** The provider's client *)
Definition NewKeyProvider (socketPath : string) : free parsec (result BasicClient) :=
  let? _ := set_endpoint socketPath catch wrap "set PARSEC_SERVICE_ENDPOINT" in
  let? client := CreateConfiguredClient (CConfig NewClientConfig)
    catch wrap ("connect to parsec daemon at " +:+ socketPath) in
  let? _ := ensureIdentityKey client catch throw in
  let? _ := ensureConfigSealKey catch throw in
  ok client.

(** Of main: with --parsec-enabled, or the start fails *)
Definition parsec_start (socketPath : string) : free parsec (result BasicClient) :=
  let? _ := MustDetect socketPath catch wrap "parsec startup check failed" in
  let? p := NewKeyProvider socketPath catch wrap "failed to init parsec provider" in
  ok p.

(* ------------------------------------------------------------------ *)
(** ** signer.go *)

Record Signer := mkSigner { sg_client : BasicClient; sg_keyName : string; sg_pub : any_key; sg_sigAlg : AsymmetricSignatureAlgorithm }.

Definition NewSigner (client : BasicClient) (keyName : string) : free parsec (result Signer) :=
  let? pubDER := PsaExportPublicKey client keyName catch wrap ("export public key " +:+ keyName +:+ " from parsec") in
  let? pub := Ret (parse_public pubDER) catch throw in
  ok (mkSigner client keyName pub ecdsa_sha256).

Definition kp_NewSigner (client : BasicClient) : free parsec (result Signer) := NewSigner client identityKeyName.

Definition Public (s : Signer) : any_key := sg_pub s.

(** crypto.Hash; the options may be nil. *)
Definition crypto_SHA256 : Z := 5.

Definition Signer_Sign (s : Signer) (digest : list ascii) (opts : option Z) : free parsec (result (list ascii)) :=
  if (match opts with Some h => negb (h =? 0)%Z && negb (h =? crypto_SHA256)%Z | None => false end)
  then throw (PlainErr "parsec signer is bound to ECDSA-P256/SHA-256")
  else if negb (length digest =? 32)%nat then throw (PlainErr "parsec signer expects a 32-byte SHA-256 digest")
  else
    let? sig := PsaSignHash (sg_client s) (sg_keyName s) digest (sg_sigAlg s)
      catch wrap ("parsec sign with key " +:+ sg_keyName s) in
    ok sig.

End KeyProvider.
