(* ===== verification/ParsecProviderFacts.v ===== *)
(** * What the crypto providers promise

    [SecureElement]: the documented behaviour of the PSA calls a provider
    makes.  Against it, and whatever input or output fails: a start of the
    PARSEC provider never replaces a key, and succeeds only when the identity
    key is there ([provider_start]); a signature verifies under the key it was
    made with ([hardware_signatures_verify]); the signer for TLS signs exactly
    the digest it is given or refuses ([signer_signs_digest]).  The pairs of
    the software provider verify, those of the PARSEC provider never
    ([software_pairs_verify], [hardware_pairs_never_verify]). *)

From stdpp Require Import countable.
From Stdlib Require Import Ascii.
From S2P Require Import Prelude GoLib Free CryptoLib SatState SatWorld SatDemo ParsecWire ParsecAlgorithms ParsecClient ParsecFacts Parsec.

#[local] Open Scope string_scope.
#[local] Open Scope list_scope.

(** Calls that create no key over another and remove none *)
Definition harmless {R} (m : message R) : bool :=
  match m with MDeleteClient _ | MPsaDestroyKey _ | MPsaImportKey _ _ _ => false | _ => true end.

(** Keys are held per application, which the authentication names, and
    provider.  [verifies k hash sig]: ECDSA *)
Class SecureElement (D : Type) `{Calls D} := {
  se_key : Type;
  se_keys : D -> RequestAuthToken -> Z -> string -> option se_key;
  se_verifies : se_key -> data -> data -> bool;
  se_providers d tok d' l : rpc d ProviderCore tok _ MListProviders = (d', inr l) ->
    Forall (fun p => 0 <= wp_Id p < 6)%Z l;
  se_listed d tok d' l name : rpc d ProviderCore tok _ MListKeys = (d', inr l) ->
    name ∈ wk_Name <$> l -> exists p k, se_keys d tok p name = Some k;
  se_keep d p tok R (m : message R) tok' p' name k : harmless m = true ->
    se_keys d tok' p' name = Some k -> se_keys (rpc d p tok R m).1 tok' p' name = Some k;
  se_generate d p tok name attributes d' : rpc d p tok _ (MPsaGenerateKey name attributes) = (d', inr tt) ->
    exists k, se_keys d' tok p name = Some k;
  se_sign d p tok name hash alg d' sig : rpc d p tok _ (MPsaSignHash name hash alg) = (d', inr sig) ->
    exists k, se_keys d tok p name = Some k /\ se_verifies k hash sig = true;
  se_verify d p tok name hash sig alg :
    (rpc d p tok _ (MPsaVerifyHash name hash sig alg)).2 = inr tt <->
    exists k, se_keys d tok p name = Some k /\ se_verifies k hash sig = true }.

Section Provider.
Context {D : Type} `{Implements D, !SecureElement D, NetUrl, Sha256, EcdsaLib}.
Implicit Types w : PWorld D.

(** No key was lost or replaced. *)
Definition kept w w' : Prop :=
  pw_uid w' = pw_uid w /\
  forall tok p n k, se_keys (pw_daemon w) tok p n = Some k -> se_keys (pw_daemon w') tok p n = Some k.

#[local] Instance kept_preorder : PreOrder kept.
Proof. split; [done|]. intros w1 w2 w3 [E1 K1] [E2 K2]. split; [congruence|]. eauto. Qed.

Lemma kept_idle w w' : pw_uid w' = pw_uid w -> pw_daemon w' = pw_daemon w -> kept w w'.
Proof. intros Hu Hd. split; [done|]. by rewrite Hd. Qed.

(** [keeping p]: the program keeps the keys, whatever fails. *)
Definition keeping {A} (p : free parsec A) : Prop := forall w, kept w (prun p w).1.

Lemma keeping_ret {A} (a : A) : keeping (Ret a).
Proof. by intros w. Qed.

Lemma keeping_bind {A B} (m : free parsec A) (f : A -> free parsec B) :
  keeping m -> (forall a, keeping (f a)) -> keeping (bind m f).
Proof.
  intros Hm Hf w. rewrite prun_bind. specialize (Hm w). destruct (prun m w) as [w1 a]. cbn in Hm.
  etrans; [exact Hm|apply Hf].
Qed.

Lemma keeping_try {A B} (m : free parsec (result A)) (h : goerr -> free parsec B) (k : A -> free parsec B) :
  keeping m -> (forall e, keeping (h e)) -> (forall a, keeping (k a)) -> keeping (try m h k).
Proof. intros Hm Hh Hk. apply keeping_bind; [done|]. by intros [e|a]. Qed.

Lemma keeping_operation path provider a {R} (m : message R) :
  harmless m = true -> ProviderID_IsValid provider = true -> keeping (operation path provider a (opcode m) m).
Proof.
  intros Hm Hp w. pose proof (operation_outcome w path provider a m Hp) as [(_ & _ & Hu & _) Hd].
  destruct Hd as [[Hd _]|(tok & _ & Hd & _)]; [by apply kept_idle|]. split; [done|].
  intros tok' p n k Hk. rewrite Hd. by apply se_keep.
Qed.

Lemma keeping_close : keeping Close.
Proof. intros w. pose proof (close_idle w) as [(_ & _ & Hu & _) Hd]. by apply kept_idle. Qed.

Lemma keeping_endpoint path : keeping (set_endpoint path).
Proof.
  unfold set_endpoint. destruct (String.eqb _ _); [apply keeping_ret|]. intros w. rewrite prun_op. cbn [pexec].
  unfold faulty. by destruct (pw_fails w _).
Qed.

Lemma keeping_connection : keeping NewDefaultConnection.
Proof.
  intros w. unfold NewDefaultConnection. rewrite prun_bind, prun_op. cbn [pexec].
  destruct (Parse _) as [e|u]; [done|]. by destruct (String.eqb _ _).
Qed.

(** ** Methods of the client *)

Definition sound_client (c : BasicClient) : Prop := ProviderID_IsValid (bc_implicitProvider c) = true.

(** A call of the provider answered with a result *)
Lemma operation_ok w w' path provider a {R} (m : message R) x : ProviderID_IsValid provider = true ->
  prun (operation path provider a (opcode m) m) w = (w', inr x) ->
  exists tok, authenticates w a tok /\ rpc (pw_daemon w) provider tok R m = (pw_daemon w', inr x).
Proof.
  intros Hp Hr. pose proof (operation_outcome w path provider a m Hp) as [_ Hd]. rewrite Hr in Hd. cbn in Hd.
  destruct Hd as [[_ [e He]]|(tok & Ha & Hd & Hx)]; [done|]. exists tok. split; [done|].
  specialize (Hx x eq_refl). destruct (rpc _ _ _ _ _) as [d r]. cbn in *. by subst.
Qed.

Lemma all_ok_inv {A B} (f : A -> result B) l l' : all_ok f l = inr l' -> Forall2 (fun a b => f a = inr b) l l'.
Proof.
  revert l'. induction l as [|a l IH]; intros l'; cbn; [intros [= <-]; constructor|].
  destruct (f a) as [e|b] eqn:Ef; [done|]. destruct (all_ok f l) as [e|bs]; [done|]. intros [= <-].
  constructor; [done|]. by apply IH.
Qed.

Lemma keeping_ListProviders c : keeping (ListProviders c).
Proof.
  unfold ListProviders, core, op_ListProviders. apply keeping_try; [by apply (keeping_operation _ _ _ MListProviders)| |]; intros; apply keeping_ret.
Qed.

Lemma keeping_ListKeys c : keeping (ListKeys c).
Proof.
  unfold ListKeys, core, op_ListKeys. apply keeping_try; [by apply (keeping_operation _ _ _ MListKeys)| |]; intros; apply keeping_ret.
Qed.

Lemma keeping_ListAuthenticators c : keeping (ListAuthenticators c).
Proof.
  unfold ListAuthenticators, core, op_ListAuthenticators.
  apply keeping_try; [by apply (keeping_operation _ _ _ MListAuthenticators)| |]; intros; apply keeping_ret.
Qed.

Lemma keeping_Ping c : keeping (Ping c).
Proof.
  unfold Ping, core, op_Ping. apply keeping_try; [by apply (keeping_operation _ _ _ MPing)| |]; intros; apply keeping_ret.
Qed.

Lemma list_keys_ok w w' c l : prun (ListKeys c) w = (w', inr l) ->
  exists tok, authenticates w (bc_auth c) tok /\
    forall n, n ∈ ki_Name <$> l -> exists p k, se_keys (pw_daemon w) tok p n = Some k.
Proof.
  unfold ListKeys, core, op_ListKeys. rewrite prun_try.
  destruct (prun (operation _ _ _ _ _) w) as [w1 [e|wl]] eqn:Eo; [done|]. rewrite prun_ret. intros [= -> Hl].
  apply (operation_ok _ _ _ _ _ MListKeys) in Eo as (tok & Ha & Hrpc); [|done]. exists tok. split; [done|].
  intros n Hn. eapply se_listed; [done|]. apply all_ok_inv in Hl. clear -Hl Hn.
  apply list_elem_of_fmap in Hn as (k & -> & Hk). apply list_elem_of_lookup_1 in Hk as [i Hi].
  destruct (Forall2_lookup_r _ _ _ _ _ Hl Hi) as (wk & Hwk%list_elem_of_lookup_2 & Hf).
  unfold newKeyInfoFromOp in Hf. destruct (wk_Attributes wk); [|done]. injection Hf as <-. cbn.
  by apply list_elem_of_fmap_2.
Qed.


Lemma keeping_generate c name attributes : sound_client c -> keeping (PsaGenerateKey c name attributes).
Proof.
  intros Hc. unfold PsaGenerateKey, crypto_with, crypto. destruct (HasCrypto _); [|apply keeping_ret].
  apply keeping_try; [apply keeping_ret|intros; apply keeping_ret|]. intros ka.
  by apply (keeping_operation _ _ _ (MPsaGenerateKey name ka)).
Qed.

Lemma generate_ok w w' c name attributes : sound_client c -> prun (PsaGenerateKey c name attributes) w = (w', inr tt) ->
  exists tok k, authenticates w (bc_auth c) tok /\
    se_keys (pw_daemon w') tok (bc_implicitProvider c) name = Some k.
Proof.
  intros Hc. unfold PsaGenerateKey, crypto_with, crypto. destruct (HasCrypto _); [|done].
  rewrite prun_try, prun_ret. destruct (attributes_or_panic attributes) as [e|ka]; [done|]. intros Ho.
  apply (operation_ok _ _ _ _ _ (MPsaGenerateKey name ka)) in Ho as (tok & Ha & Hr); [|done].
  apply se_generate in Hr as [k Hk]. by exists tok, k.
Qed.

(** ** The start *)

Lemma provider_in_range z : (0 <= z < 6)%Z -> ProviderID_IsValid (z mod 2 ^ 8) = true.
Proof. intros Hz. rewrite Z.mod_small by lia. unfold ProviderID_IsValid, ProviderCore, ProviderCryptoAuthLib. lia. Qed.

Lemma default_provider w c : let '(w', r) := prun (selectDefaultProvider c) w in
  kept w w' /\ forall c', r = inr c' -> sound_client c'.
Proof.
  unfold selectDefaultProvider. rewrite prun_try.
  pose proof (keeping_ListProviders (SetImplicitProvider ProviderCore c) w) as Hk. revert Hk.
  unfold ListProviders, core, op_ListProviders. rewrite prun_try.
  destruct (prun (operation _ _ _ _ _) w) as [w1 [e|wl]] eqn:Eo; intros Hk; cbn in Hk |- *; (split; [done|]); [done|].
  intros c' [= <-]. apply (operation_ok _ _ _ _ _ MListProviders) in Eo as (tok & Ha & Hrpc); [|done].
  apply se_providers in Hrpc. destruct Hrpc as [|p l Hp _]; [done|]. by apply provider_in_range.
Qed.

Lemma default_authenticator w config c : let '(w', r) := prun (selectDefaultAuthenticator config c) w in
  kept w w' /\ forall c', r = inr c' -> bc_implicitProvider c' = bc_implicitProvider c.
Proof.
  unfold selectDefaultAuthenticator. rewrite prun_try. pose proof (keeping_ListAuthenticators c w) as Hk.
  destruct (prun (ListAuthenticators c) w) as [w1 [e|l]]; cbn in *; (split; [done|]); [done|]. by intros c' [= <-].
Qed.

Lemma new_client w : let '(w', r) := prun (CreateConfiguredClient (CConfig NewClientConfig)) w in
  kept w w' /\ forall c, r = inr c -> sound_client c.
Proof.
  unfold CreateConfiguredClient. rewrite prun_try, prun_ret. cbn [cc_connection cc_defaultProvider cc_authenticator NewClientConfig].
  unfold InitClient. rewrite prun_try. pose proof (keeping_connection w) as Hk.
  destruct (prun NewDefaultConnection w) as [w1 [e|path]]; cbn [fst] in Hk; [by split|]. rewrite prun_try.
  pose proof (default_provider w1 (mkBasicClient path NoAuthAuthenticator ProviderCore)) as Hp.
  destruct (prun (selectDefaultProvider _) w1) as [w2 [e|c]]; destruct Hp as [Hk2 Hc]; [split; [by etrans|done]|].
  pose proof (default_authenticator w2 NewClientConfig c) as Ha.
  destruct (prun (selectDefaultAuthenticator _ _) w2) as [w3 r]. destruct Ha as [Hk3 Hc'].
  split; [by etrans; [|etrans]|]. intros c' ->. unfold sound_client. rewrite (Hc' c' eq_refl). by apply Hc.
Qed.

Lemma keeping_new_client : keeping (CreateConfiguredClient (CConfig NewClientConfig)).
Proof. intros w. pose proof (new_client w) as Hn. destruct (prun _ w). apply Hn. Qed.

Lemma identity_ensured w c : sound_client c -> let '(w', r) := prun (ensureIdentityKey c) w in
  kept w w' /\ (r = inr tt -> exists tok p k, authenticates w' (bc_auth c) tok /\
    se_keys (pw_daemon w') tok p identityKeyName = Some k).
Proof.
  intros Hc. unfold ensureIdentityKey. rewrite prun_try. pose proof (keeping_ListKeys c w) as Hk.
  destruct (prun (ListKeys c) w) as [w1 [e|l]] eqn:El; cbn [fst] in Hk; [by split|].
  assert (forall w2 tok, kept w w2 -> authenticates w (bc_auth c) tok -> authenticates w2 (bc_auth c) tok) as Hau.
  { intros w2 tok [Hu _]. destruct (bc_auth c); cbn; by rewrite ?Hu. }
  destruct (existsb _ l) eqn:Ee.
  - split; [done|]. intros _. apply existsb_exists in Ee as (k & Hin & Hn%String.eqb_eq).
    destruct (list_keys_ok _ _ _ _ El) as (tok & Ha & Hl).
    destruct (Hl identityKeyName) as (p & key & Hkey).
    { apply list_elem_of_fmap. exists k. split; [done|]. by apply list_elem_of_In. }
    exists tok, p, key. split; [by apply Hau|]. by apply Hk.
  - rewrite prun_try. pose proof (keeping_generate c identityKeyName identityAttributes Hc w1) as Hk2.
    destruct (prun (PsaGenerateKey _ _ _) w1) as [w2 [e|[]]] eqn:Eg; cbn [fst] in Hk2; (split; [by etrans|]); [done|].
    intros _. destruct (generate_ok _ _ _ _ _ Hc Eg) as (tok & k & Ha & Hg). exists tok, (bc_implicitProvider c), k.
    split; [|done]. destruct Hk2 as [Hu _]. destruct (bc_auth c); cbn in *; by rewrite ?Hu.
Qed.

Lemma keeping_detect socketPath : keeping (Detect socketPath).
Proof.
  unfold Detect. apply keeping_try; [apply keeping_endpoint|intros; apply keeping_ret|]. intros _.
  apply keeping_try; [apply keeping_new_client|intros; apply keeping_ret|]. intros c.
  apply keeping_bind; [apply keeping_Ping|]. intros r. apply keeping_bind; [apply keeping_close|]. intros _. apply keeping_ret.
Qed.

(** C30. Whatever fails, and wherever: a start with PARSEC neither replaces nor
    loses a key the secure element holds (so the identity is that of the first
    start), and when it succeeds the identity key is there for the user the
    satellite runs as. *)
Theorem provider_start w w' r socketPath : prun (parsec_start socketPath) w = (w', r) ->
  (forall tok p n k, se_keys (pw_daemon w) tok p n = Some k -> se_keys (pw_daemon w') tok p n = Some k) /\
  (forall c, r = inr c -> exists tok p k, authenticates w' (bc_auth c) tok /\
     se_keys (pw_daemon w') tok p identityKeyName = Some k).
Proof.
  intros Hrun.
  enough (let '(w', r) := prun (parsec_start socketPath) w in kept w w' /\
    forall c, r = inr c -> exists tok p k, authenticates w' (bc_auth c) tok /\
      se_keys (pw_daemon w') tok p identityKeyName = Some k) as He.
  { rewrite Hrun in He. destruct He as [[_ Hk] Hc]. by split. }
  clear Hrun w' r. unfold parsec_start, MustDetect. rewrite prun_try, prun_bind. pose proof (keeping_detect socketPath w) as Hk.
  destruct (prun (Detect socketPath) w) as [w1 []]; cbn [fst] in Hk; [|by split]. cbv iota. unfold ok at 1. rewrite prun_ret, prun_try.
  unfold NewKeyProvider. rewrite prun_try. pose proof (keeping_endpoint socketPath w1) as Hk1.
  destruct (prun (set_endpoint socketPath) w1) as [w2 [e|[]]]; cbn [fst] in Hk1; [split; [by etrans|done]|].
  rewrite prun_try. pose proof (new_client w2) as Hn.
  destruct (prun (CreateConfiguredClient _) w2) as [w3 [e|c]]; destruct Hn as [Hk3 Hc];
    [split; [by etrans; [|etrans]|done]|]. specialize (Hc c eq_refl).
  rewrite prun_try. pose proof (identity_ensured w3 c Hc) as Hi.
  destruct (prun (ensureIdentityKey c) w3) as [w4 [e|[]]]; destruct Hi as [Hk4 Hi].
  - split; [by etrans; [|etrans; [|etrans]]|done].
  - split; [by etrans; [|etrans; [|etrans]]|]. intros c' [= <-]. by apply Hi.
Qed.


(** ** Signatures *)

Lemma sign_hash_ok w w' c name hash alg sig : sound_client c -> prun (PsaSignHash c name hash alg) w = (w', inr sig) ->
  HasCrypto (bc_implicitProvider c) = true /\ kept w w' /\
  exists tok k, authenticates w (bc_auth c) tok /\
    se_keys (pw_daemon w) tok (bc_implicitProvider c) name = Some k /\ se_verifies k hash sig = true.
Proof.
  intros Hc. unfold PsaSignHash, crypto_with, crypto. destruct (HasCrypto _); [|done].
  rewrite prun_try, prun_ret. unfold algAsymmetricSigToWire, asymmetricSignature_toWire. intros Ho.
  split; [done|]. split.
  { match type of Ho with prun (op_PsaSignHash ?pa ?p ?a _ _ ?alg') _ = _ =>
      pose proof (keeping_operation pa p a (MPsaSignHash name hash alg') eq_refl Hc w) as Hk end.
    unfold op_PsaSignHash in Ho. cbn [opcode] in Hk. by rewrite Ho in Hk. }
  apply (operation_ok _ _ _ _ _ (MPsaSignHash name hash _)) in Ho as (tok & Ha & Hr); [|done].
  apply se_sign in Hr as (k & Hk & Hv). by exists tok, k.
Qed.

Lemma verify_hash_calls w c name hash sig alg tok : sound_client c -> HasCrypto (bc_implicitProvider c) = true ->
  reliable w -> pw_rwc w = false -> pw_socket w = Some (bc_opclient c) -> authenticates w (bc_auth c) tok ->
  (forall alg, exists body, proto_Marshal (MPsaVerifyHash name hash sig alg) = inr body) ->
  (exists k, se_keys (pw_daemon w) tok (bc_implicitProvider c) name = Some k /\ se_verifies k hash sig = true) ->
  (prun (PsaVerifyHash c name hash sig alg) w).2 = inr tt.
Proof.
  intros Hc Hh Hr Ho Hs Ha Hm Hk. unfold PsaVerifyHash, crypto_with, crypto. rewrite Hh, prun_try, prun_ret.
  unfold algAsymmetricSigToWire, asymmetricSignature_toWire.
  match goal with |- context [op_PsaVerifyHash _ _ _ _ _ _ ?alg'] =>
    pose proof (operation_calls w (bc_opclient c) _ _ tok (MPsaVerifyHash name hash sig alg') Hr Ho Hs Ha Hc (Hm alg')) as Hcall;
    apply (se_verify (pw_daemon w) (bc_implicitProvider c) tok name hash sig alg') in Hk end.
  destruct (rpc _ _ _ _ _) as [d r]. cbn [snd] in Hk. subst r. destruct Hcall as (w' & Hw & _).
  unfold op_PsaVerifyHash. cbn [opcode] in Hw. by rewrite Hw.
Qed.

(** What the provider signed verifies with the same key reference, however
    many calls that keep the keys are made in between. *)
Theorem hardware_signatures_verify w w1 w2 c name dat sig : sound_client c ->
  prun (kp_Sign c dat (KeyRef name)) w = (w1, inr sig) -> kept w1 w2 ->
  reliable w2 -> pw_rwc w2 = false -> pw_socket w2 = Some (bc_opclient c) ->
  (forall alg, exists body, proto_Marshal (MPsaVerifyHash name (sha256_Sum dat) sig alg) = inr body) ->
  (prun (kp_Verify c dat sig (KeyRef name)) w2).2 = inr tt.
Proof.
  intros Hc Hs Hkept Hr Ho Hso Hm. unfold kp_Sign in Hs. rewrite prun_try in Hs.
  destruct (prun (PsaSignHash _ _ _ _) w) as [w0 [e|sig']] eqn:Es; [done|]. cbn in Hs.
  injection Hs as -> ->. apply sign_hash_ok in Es as (Hh & Hk1 & tok & k & Ha & Hk & Hv); [|done].
  assert (kept w w2) as [Hu Hkeys] by (by etrans).
  assert (authenticates w2 (bc_auth c) tok) as Ha2 by (destruct (bc_auth c); cbn in *; by rewrite ?Hu).
  unfold kp_Verify. rewrite prun_try.
  pose proof (verify_hash_calls w2 c name (sha256_Sum dat) sig ecdsa_sha256 tok Hc Hh Hr Ho Hso Ha2 Hm) as Hver.
  destruct (prun (PsaVerifyHash _ _ _ _ _) w2) as [w3 r]. cbn [snd] in Hver. rewrite Hver; [done|].
  exists k. split; [by apply Hkeys|done].
Qed.

(** The signer for TLS: a digest it does not sign is refused without a call;
    otherwise what it returns verifies for exactly this digest under the key
    it stands for. *)
Theorem signer_signs_digest w s digest opts : sound_client (sg_client s) ->
  let '(w', r) := prun (Signer_Sign s digest opts) w in
  (length digest <> 32%nat \/ (exists h, opts = Some h /\ h <> 0 /\ h <> crypto_SHA256)%Z ->
     w' = w /\ exists e, r = inl e) /\
  forall sig, r = inr sig -> exists tok k, authenticates w (bc_auth (sg_client s)) tok /\
    se_keys (pw_daemon w') tok (bc_implicitProvider (sg_client s)) (sg_keyName s) = Some k /\
    se_verifies k digest sig = true.
Proof.
  intros Hc. unfold Signer_Sign. destruct (match opts with Some _ => _ | None => _ end) eqn:Eo; [cbn; split; [by eauto|done]|].
  destruct (negb (length digest =? 32)%nat) eqn:El; [cbn; split; [by eauto|done]|].
  rewrite prun_try. destruct (prun (PsaSignHash _ _ _ _) w) as [w' [e|sig]] eqn:Es; cbn; (split; [|]).
  2: done.
  3: { intros sig' [= <-]. apply sign_hash_ok in Es as (_ & [_ Hkeys] & tok & k & Ha & Hk & Hv); [|done].
       exists tok, k. split_and!; [done|by apply Hkeys|done]. }
  all: intros [Hl|(h & -> & Hh0 & Hh)]; [apply negb_false_iff, Nat.eqb_eq in El; done|].
  all: destruct (h =? 0)%Z eqn:E0; [lia|]; destruct (h =? crypto_SHA256)%Z eqn:E1; [lia|done].
Qed.

(** ** Key pairs *)

(** The public key PARSEC's provider hands out is not the reference its
    Verify asks for: whatever the service, no signature verifies with it. *)
Theorem hardware_pairs_never_verify c w0 w1 priv pub dat sig w2 : 
  prun (kp_GenerateKeyPair c) w0 = (w1, inr (priv, pub)) ->
  priv = KeyRef identityKeyName /\
  prun (kp_Verify c dat sig pub) w2 = (w2, inl (PlainErr "parsec provider requires KeyRef for Verify")).
Proof.
  unfold kp_GenerateKeyPair. rewrite prun_try. destruct (prun (ensureIdentityKey c) w0) as [v1 [e|[]]]; [done|].
  rewrite prun_try. destruct (prun (PsaExportPublicKey _ _) v1) as [v2 [e|der]]; [done|].
  rewrite prun_try, prun_ret. unfold parse_public.
  by destruct (ParsePKIXPublicKey der) as [e|[k|]]; [done|..]; intros [= <- <- <-].
Qed.

End Provider.

(** The contract of crypto.Provider: data signed with a generated private key
    verifies with its public key. *)
Definition pairs_verify `{EcdsaLib} {W : Type} {E : Type -> Type} (run : forall A, free E A -> W -> W * A) (P : CryptoProvider E) : Prop :=
  forall w0 w1 priv pub, run _ GenerateKeyPair w0 = (w1, inr (priv, pub)) ->
  forall w2 w3 dat sig, run _ (Sign dat priv) w2 = (w3, inr sig) ->
  forall w4, (run _ (Verify dat sig pub) w4).2 = inr tt.

(** The software provider keeps the contract, given that of ECDSA. *)
Section Software.
Context `{Sha256, EcdsaLib} {W : Type} (exec : forall R, base R -> W -> W * R).

Definition ecdsa_correct : Prop := forall k h w w' sig, frun exec (ecdsa_SignASN1 k h) w = (w', inr sig) ->
  ecdsa_VerifyASN1 (ecdsa_public k) h sig = true.

Theorem software_pairs_verify : ecdsa_correct -> pairs_verify (@frun base W exec) AESProvider.
Proof.
  intros Hec w0 w1 priv pub Hg w2 w3 dat sig Hs w4. cbn in *. unfold aes_GenerateKeyPair, try in Hg. rewrite frun_bind in Hg.
  destruct (frun exec ecdsa_GenerateKey w0) as [v0 [e|k]]; [done|]. injection Hg as <- <- <-.
  cbn in Hs. unfold try in Hs. rewrite frun_bind in Hs.
  destruct (frun exec (ecdsa_SignASN1 _ _) w2) as [v2 [e|sg]] eqn:Es; [done|]. injection Hs as <- <-.
  cbn. apply Hec in Es. by rewrite Es.
Qed.

End Software.

(* ------------------------------------------------------------------ *)
(** ** A small PARSEC service

    A service over the bytes of the wire protocol that keeps key names and
    "signs" by prefixing the name: it implements the calls the theorems of
    [ParsecFacts] and [ParsecProviderFacts] assume, which are applied to it. *)

Module Toy.

(** ** Encoding *)

Section Encoding.
Context `{Countable A}.

Definition enc (a : A) : data := let p := encode a in le (Pos.size_nat p) (Z.pos p).
Definition dec (bs : data) : option A := decode (Z.to_pos (le_value bs)).

Lemma size_bound p : (Z.pos p < 256 ^ Z.of_nat (Pos.size_nat p))%Z.
Proof.
  induction p as [p IH|p IH|]; cbn [Pos.size_nat]; [| |done]; rewrite Nat2Z.inj_succ, Z.pow_succ_r by lia; lia.
Qed.

Lemma dec_enc a : dec (enc a) = Some a.
Proof.
  unfold dec, enc. rewrite le_value_le; [apply countable.decode_encode|]. pose proof (size_bound (encode a)). lia.
Qed.
End Encoding.
#[local] Arguments enc : simpl never.
#[local] Arguments dec : simpl never.

(** Of a message: a key's name and two byte strings *)
Definition payload {R} (m : message R) : string * (data * data) :=
  match m with
  | MPsaGenerateKey n _ => (n, ([], []))
  | MPsaSignHash n h _ => (n, (h, []))
  | MPsaVerifyHash n h s _ => (n, (h, s))
  | MPsaExportPublicKey n => (n, ([], []))
  | _ => ("", ([], []))
  end.

Definition some_attributes : wKeyAttributes := mkWKeyAttributes 256 (Some (W_EccKeyPair 2)) None.

Definition result_of {R} (m : message R) (body : data) : R :=
  match m with
  | MPing => (1, 0)%Z
  | MListProviders => [mkWProviderInfo "" "TPM provider" "" 0 1 0 3; mkWProviderInfo "" "Core provider" "" 0 1 0 0]
  | MListAuthenticators => [mkWAuthenticatorInfo 3 "Unix peer credentials" 0 1 0]
  | MListKeys => (fun n => mkWKeyInfo 3 n (Some some_attributes)) <$> default [] (dec body)
  | MListOpcodes _ => [] | MListClients => []
  | MDeleteClient _ => tt | MPsaDestroyKey _ => tt | MPsaGenerateKey _ _ => tt | MPsaImportKey _ _ _ => tt
  | MPsaVerifyMessage _ _ _ _ => tt | MPsaVerifyHash _ _ _ _ => tt | MPsaMACVerify _ _ _ _ => tt
  | MPsaHashCompute _ _ => body | MPsaSignMessage _ _ _ => body | MPsaSignHash _ _ _ => body
  | MPsaCipherEncrypt _ _ _ => body | MPsaCipherDecrypt _ _ _ => body
  | MPsaAeadEncrypt _ _ _ _ _ => body | MPsaAeadDecrypt _ _ _ _ _ => body
  | MPsaExportKey _ => body | MPsaExportPublicKey _ => body | MPsaGenerateRandom _ => body
  | MPsaMACCompute _ _ _ => body | MPsaRawKeyAgreement _ _ _ => body
  | MPsaAsymmetricEncrypt _ _ _ _ => body | MPsaAsymmetricDecrypt _ _ _ _ => body
  end.

Definition short (bs : data) : bool := (Z.of_nat (length bs) <=? 2 ^ 31)%Z.

#[export] Instance toy_proto : Proto := {|
  proto_Marshal _ m := let b := enc (payload m) in if short b then inr b else inl (PlainErr "message too large");
  proto_Unmarshal _ m b := inr (result_of m b) |}.

(** ** The service *)

Definition D : Type := list string.

Definition sign (name : string) (hash : data) : data := bytes name ++ hash.

(** The status of a failure or the body of the result *)
Definition answer (d : D) (provider op : Z) (p : string * (data * data)) : D * (Z + data) :=
  let '(name, (hash, sig)) := p in
  let held := bool_decide (provider = 3%Z) && bool_decide (name ∈ d) in
  if (op =? OpListKeys)%Z then (d, inr (enc d))
  else if (op =? OpPsaGenerateKey)%Z then
    if bool_decide (provider = 3%Z) && negb held then (name :: d, inr []) else (d, inl 1139%Z)
  else if (op =? OpPsaSignHash)%Z then (d, if held then inr (sign name hash) else inl 1140%Z)
  else if (op =? OpPsaVerifyHash)%Z then
    (d, if held && bool_decide (sig = sign name hash) then inr [] else inl 1149%Z)
  else if (op =? OpPing)%Z || (op =? OpListProviders)%Z || (op =? OpListAuthenticators)%Z || (op =? OpPsaExportPublicKey)%Z
  then (d, inr [])
  else (d, inl 1134%Z).

(** A body too large for a response is refused. *)
Definition settle (r : D * (Z + data)) : D * (Z + data) :=
  match r with
  | (d, inr body) => if short body then (d, inr body) else (d, inl 10%Z)
  | _ => r
  end.

Definition response (provider op : Z) (r : Z + data) : data :=
  match r with
  | inl code => header_bytes (mkWireHeader magicNumber 30 1 0 0 provider 0 0 0 0 0 0 op code 0 0)
  | inr body => header_bytes (mkWireHeader magicNumber 30 1 0 0 provider 0 0 0 0 (Z.of_nat (length body)) 0 op 0 0 0) ++ body
  end.

#[export] Instance toy_service : Service D := fun d bs =>
  match read_request bs with
  | Some (h, body, _) =>
      let '(d', r) := settle (answer d (h_provider h) (h_opCode h) (default ("", ([], [])) (dec body))) in
      (d', response (h_provider h) (h_opCode h) r)
  | None => (d, [])
  end.

#[export] Instance toy_calls : Calls D := fun d provider _ R m =>
  let '(d', r) := settle (answer d provider (opcode m) (payload m)) in
  (d', match r with inl code => inl code | inr body => inr (result_of m body) end).

Lemma answer_status d p op pl d' code : settle (answer d p op pl) = (d', inl code) ->
  StatusCode_IsValid code = true /\ code <> StatusSuccess.
Proof.
  destruct pl as [n [h s]]. unfold answer, settle.
  repeat match goal with |- context [if ?b then _ else _] => destruct b end; intros [= <- <-]; done.
Qed.

Lemma answer_short d p op pl d' body : settle (answer d p op pl) = (d', inr body) -> (Z.of_nat (length body) < 2 ^ 32)%Z.
Proof.
  unfold settle. destruct (answer _ _ _ _) as [d1 [c|b]]; [done|]. destruct (short b) eqn:E; [|done].
  intros [= <- <-]. unfold short in E. lia.
Qed.

#[export] Instance toy_implements : Implements D.
Proof.
  split.
  - intros R m body. cbn. destruct (short _) eqn:E; [|done]. intros [= <-]. unfold short in E. lia.
  - intros d R m provider tok body h Hm Hp Ht Hl ->. cbn in Hm. destruct (short (enc _)) eqn:E; [|done].
    apply (inj inr) in Hm as <-. 
    pose proof (opcode_valid m) as Ho. pose proof (provider_range _ Hp) as Hpr. unfold short in E.
    unfold rpc, toy_calls, serve, toy_service.
    rewrite read_request_bytes; [|apply request_header_ok; done || lia|done..].
    cbn [h_provider h_opCode]. rewrite dec_enc. cbn [default].
    destruct (settle _) as [d' [code|body]] eqn:Ea.
    + destruct (answer_status _ _ _ _ _ _ Ea) as [Hc Hn]. eexists _, [], d', (inl code).
      split; [done|]. split; [by rewrite app_nil_r|]. split; [|by eauto 10].
      unfold response_header. cbn. split_and!; done || lia.
    + pose proof (answer_short _ _ _ _ _ _ Ea) as Hs. eexists _, body, d', (inr _). do 2 (split; [done|]).
      split; [|done]. unfold response_header. cbn. split_and!; done || lia.
Qed.


(** ** Its keys *)

Definition keys (d : D) (tok : RequestAuthToken) (p : Z) (name : string) : option string :=
  if bool_decide (p = 3%Z) && bool_decide (name ∈ d) then Some name else None.

Definition verifies (k : string) (hash sig : data) : bool := bool_decide (sig = sign k hash).

Lemma keys_some d tok p n k : keys d tok p n = Some k <-> p = 3%Z /\ n ∈ d /\ k = n.
Proof.
  unfold keys. destruct (bool_decide (p = 3%Z)) eqn:E1; destruct (bool_decide (n ∈ d)) eqn:E2; cbn;
    rewrite ?bool_decide_eq_true, ?bool_decide_eq_false in *; naive_solver.
Qed.

(** The service's names only grow. *)
Lemma answer_grows d p op pl n : n ∈ d -> n ∈ (settle (answer d p op pl)).1.
Proof.
  intros Hn. destruct pl as [m [h s]]. unfold answer, settle.
  repeat match goal with |- context [if ?b then _ else _] => destruct b end; cbn; try done;
    repeat case_match; cbn; simplify_eq; done || set_solver.
Qed.

#[export] Instance toy_element : SecureElement D.
Proof.
  refine {| se_key := string; se_keys := keys; se_verifies := verifies |}.
  - intros d tok d' l Hr. unfold rpc, toy_calls in Hr. cbn in Hr. injection Hr as <- <-. repeat constructor; cbn; lia.
  - intros d tok d' l name Hr Hin. unfold rpc, toy_calls in Hr. cbn in Hr. destruct (short (enc d)); [|done].
    injection Hr as <- <-. rewrite dec_enc in Hin. cbn in Hin. exists 3%Z, name. apply keys_some.
    rewrite <- list_fmap_compose in Hin. apply list_elem_of_fmap in Hin as (x & -> & Hx). done.
  - intros d p tok R m tok' p' name k _ (-> & Hn & ->)%keys_some. apply keys_some. split; [done|]. split; [|done].
    unfold rpc, toy_calls. pose proof (answer_grows d p (opcode m) (payload m) name Hn) as Hg.
    by destruct (settle _) as [d' r].
  - intros d p tok name attributes d' Hr. unfold rpc, toy_calls in Hr. cbn in Hr.
    destruct (bool_decide (p = 3%Z)) eqn:Ep; [|done]. cbn in Hr. destruct (bool_decide (name ∈ d)) eqn:Ed; [done|].
    cbn in Hr. injection Hr as <-. exists name. apply keys_some. apply bool_decide_eq_true in Ep. set_solver.
  - intros d p tok name hash alg d' sig Hr. unfold rpc, toy_calls in Hr. cbn in Hr.
    destruct (bool_decide (p = 3%Z)) eqn:Ep; [|done]. destruct (bool_decide (name ∈ d)) eqn:Ed; [|done]. cbn in Hr.
    destruct (short _); [|done]. injection Hr as <- <-. exists name. apply bool_decide_eq_true in Ep, Ed.
    split; [by apply keys_some|]. unfold verifies. by apply bool_decide_eq_true.
  - intros d p tok name hash sig alg. unfold rpc, toy_calls. cbn. split.
    + destruct (bool_decide (p = 3%Z)) eqn:Ep; [|done]. destruct (bool_decide (name ∈ d)) eqn:Ed; [|done]. cbn.
      destruct (bool_decide (sig = _)) eqn:Es; [|done]. intros _. exists name.
      apply bool_decide_eq_true in Ep, Ed. by split; [apply keys_some|].
    + intros (k & (-> & Hn & ->)%keys_some & Hv). unfold verifies in Hv. rewrite (bool_decide_true (name ∈ d)) by done. cbn.
      by rewrite Hv.
Qed.

End Toy.

(* ------------------------------------------------------------------ *)
(** ** The theorems at work *)

Module DemoParsec.
Import Toy.

#[local] Instance demo_url : NetUrl := {|
  url := string; Parse s := inr s; ParseRequestURI s := inr s;
  url_scheme s := if Go.has_prefix "unix:" s then "unix" else "http"; url_host _ := "";
  url_path s := Go.trim_prefix "unix:" s; with_origin _ _ u := u; ResolveReference _ s := inr s; idna_hostname u := u; url_string s := s |}.
#[local] Instance demo_sha : Sha256 := fun bs => take 32 (bs ++ replicate 32 "0"%char).
#[local] Instance demo_ecdsa : EcdsaLib := {|
  ecdsa_PrivateKey := list ascii; ecdsa_PublicKey := list ascii; ecdsa_public k := k;
  ecdsa_GenerateKey := perform (Random 4);
  ecdsa_SignASN1 k h := ok (k ++ h);
  ecdsa_VerifyASN1 k h sig := bool_decide (sig = k ++ h);
  ParsePKIXPublicKey bs := inr (Some bs) |}.

Definition socket : string := "/run/parsec/parsec.sock".

(** A service with the given keys; the fourth access fails or none does. *)
Definition world (names : D) (fails : nat -> bool) : PWorld D :=
  mkPWorld D "" false [] names (Some socket) "1000" 0 fails.
Definition never : nat -> bool := fun _ => false.

Definition run {A} (p : free parsec A) w : PWorld D * A := prun p w.

Definition started (names : D) (fails : nat -> bool) : D * option BasicClient :=
  let '(w, r) := run (parsec_start socket) (world names fails) in
  (pw_daemon w, match r with inr c => Some c | inl _ => None end).

Definition client : BasicClient := mkBasicClient socket UnixPeerAuthenticator 3.

(** The first start makes the key, the second finds it. *)
Example first_start : started [] never = ([identityKeyName], Some client).
Proof. vm_compute. reflexivity. Qed.

Example second_start : started [identityKeyName] never = ([identityKeyName], Some client).
Proof. vm_compute. reflexivity. Qed.

(** The answer that the key was made is lost: the start fails, the key stays. *)
Example lost_answer : started [] (fun n => (n =? 31)%nat) = ([identityKeyName], None).
Proof. vm_compute. reflexivity. Qed.

Lemma provider_start_witness :
  let w' := (run (parsec_start socket) (world ["other"] never)).1 in
  (forall tok p n k, se_keys (pw_daemon (world ["other"] never)) tok p n = Some k -> se_keys (pw_daemon w') tok p n = Some k) /\
  exists tok p k, authenticates w' UnixPeerAuthenticator tok /\ se_keys (pw_daemon w') tok p identityKeyName = Some k.
Proof.
  intros w'. destruct (provider_start (world ["other"] never) w' (inr client) socket) as [Hk Hc]; [vm_compute; reflexivity|].
  split; [exact Hk|]. exact (Hc client eq_refl).
Defined.

Definition ready : PWorld D := world [identityKeyName] never.
Definition text : data := bytes "satellite".
Definition signature : data := sign identityKeyName (sha256_Sum text).

Lemma responses_are_checked_witness :
  ParseResponse (fun b => inr b : result data) OpPing (response 0 OpPing (inl 1140%Z))
    = Some (inl (PlainErr "does not exist")).
Proof.
  apply (proj2 (responses_are_checked (fun b => inr b : result data) OpPing (response 0 OpPing (inl 1140%Z))))
    with (h := mkWireHeader magicNumber 30 1 0 0 0 0 0 0 0 0 0 OpPing 1140 0 0) (body := []) (rest := []) (m := []);
    [by rewrite !app_nil_r|unfold response_header; cbn; split_and!; done || lia|done..].
Defined.

Lemma operations_are_calls_witness : exists w',
  prun (operation socket 3 UnixPeerAuthenticator OpPsaSignHash (MPsaSignHash identityKeyName text W_EcdsaAny)) ready
    = (w', inr (sign identityKeyName text)) /\ settled ready w' /\ pw_daemon w' = [identityKeyName].
Proof.
  destruct (proj2 (operations_are_calls ready socket 3 UnixPeerAuthenticator
    (MPsaSignHash identityKeyName text W_EcdsaAny) eq_refl)
    (mkRequestAuthToken AuthUnixPeerCredentials (le 4 1000))) as (w' & Hw & Hs & Hd); [done..| | |].
  - exists 1000%Z. by split_and!.
  - eexists. vm_compute. reflexivity.
  - exists w'. split; [|split; [exact Hs|]].
    + etrans; [exact Hw|]. f_equal.
    + etrans; [exact Hd|]. vm_compute. reflexivity.
Defined.

Lemma hardware_signatures_verify_witness :
  (prun (kp_Verify client text signature (KeyRef identityKeyName)) (run (kp_Sign client text (KeyRef identityKeyName)) ready).1).2
    = inr tt.
Proof.
  apply (hardware_signatures_verify ready (run (kp_Sign client text (KeyRef identityKeyName)) ready).1 _ client identityKeyName text signature);
    [done|vm_compute; reflexivity|done|done|done|done|].
  intros alg. eexists. vm_compute. reflexivity.
Defined.

(** A digest is signed as it is; another length is refused. *)
Lemma signer_signs_digest_witness :
  let s := mkSigner client identityKeyName OtherKey ecdsa_sha256 in
  let digest := replicate 32 "d"%char in
  (exists tok k, authenticates ready UnixPeerAuthenticator tok /\
     se_keys (pw_daemon (prun (Signer_Sign s digest (Some crypto_SHA256)) ready).1) tok 3 identityKeyName = Some k /\
     se_verifies k digest (sign identityKeyName digest) = true) /\
  prun (Signer_Sign s text None) ready = (ready, inl (PlainErr "parsec signer expects a 32-byte SHA-256 digest")).
Proof.
  cbv zeta. split; [|done].
  pose proof (signer_signs_digest ready (mkSigner client identityKeyName OtherKey ecdsa_sha256) (replicate 32 "d"%char) (Some crypto_SHA256) eq_refl) as Hs.
  destruct (prun (Signer_Sign _ _ _) ready) as [w' r] eqn:E. apply (proj2 Hs).
  assert (r = (prun (Signer_Sign (mkSigner client identityKeyName OtherKey ecdsa_sha256) (replicate 32 "d"%char) (Some crypto_SHA256)) ready).2) as -> by (by rewrite E).
  vm_compute. reflexivity.
Defined.

(** ECDSA without its secrets: the key and the hash *)
Lemma software_pairs_verify_witness : pairs_verify (@frun base _ (@exec_base demo_registries)) AESProvider.
Proof.
  apply (software_pairs_verify (@exec_base demo_registries)). intros k h w w' sig [= <- <-]. cbn. by apply bool_decide_eq_true.
Defined.

Lemma hardware_pairs_never_verify_witness :
  run (kp_GenerateKeyPair client) ready = ((run (kp_GenerateKeyPair client) ready).1, inr (KeyRef identityKeyName, EcdsaPublic [])) /\
  prun (kp_Verify client text signature (EcdsaPublic [])) ready = (ready, inl (PlainErr "parsec provider requires KeyRef for Verify")).
Proof.
  split; [vm_compute; reflexivity|].
  apply (hardware_pairs_never_verify client ready (run (kp_GenerateKeyPair client) ready).1 (KeyRef identityKeyName)).
  vm_compute. reflexivity.
Defined.

End DemoParsec.
