(* ===== verification/Manager.v ===== *)
(** * The configuration manager

    pkg/config/manager.go, getters.go and modifiers.go.  Every operation takes
    the manager's mutex and is one step for the other goroutines.  GetConfig
    returns a pointer to the current configuration; it is modelled by its value
    at that moment. *)

From stdpp Require Import gmap relations.
From Stdlib Require Import Ascii.
From S2P Require Import Prelude Utf8 GoLib Json AuditTrail SatConfig Free CryptoLib SatState SatWorld SatRun Device Secure.

#[local] Open Scope string_scope.
#[local] Open Scope list_scope.

(* ------------------------------------------------------------------ *)
(** ** modifiers.go *)

Definition on_state (f : StateConfig -> StateConfig) (c : Config) : Config :=
  set_cf_StateConfig (f (cf_StateConfig c)) c.
Definition on_local (f : RegistryCredentials -> RegistryCredentials) : Config -> Config :=
  on_app (fun a => set_ac_LocalRegistryCredentials (f (ac_LocalRegistryCredentials a)) a).

Definition SetStateURL (url : string) : Config -> Config := on_state (set_stc_StateURL url).
Definition SetStateAuth (username password registryURL : string) : Config -> Config :=
  on_state (fun s => set_stc_RegistryCredentials
    (set_rc_Password password (set_rc_URL registryURL (set_rc_Username username (stc_RegistryCredentials s)))) s).
Definition SetStateConfig (sc : StateConfig) : Config -> Config := set_cf_StateConfig sc.
Definition SetGroundControlURL (url : string) : Config -> Config := on_app (set_ac_GroundControlURL url).
Definition SetLogLevel (level : string) : Config -> Config := on_app (set_ac_LogLevel level).
Definition SetUseUnsecure (use : bool) : Config -> Config := on_app (set_ac_UseUnsecure use).
Definition SetStateReplicationInterval (cronExpr : string) : Config -> Config :=
  on_app (set_ac_StateReplicationInterval cronExpr).
Definition SetRegisterSatelliteInterval (cronExpr : string) : Config -> Config :=
  on_app (set_ac_RegisterSatelliteInterval cronExpr).
Definition SetBringOwnRegistry (flag : bool) : Config -> Config := on_app (set_ac_BringOwnRegistry flag).
Definition SetLocalRegistryURL (url : string) : Config -> Config := on_local (set_rc_URL url).
Definition SetLocalRegistryUsername (username : string) : Config -> Config := on_local (set_rc_Username username).
Definition SetLocalRegistryPassword (password : string) : Config -> Config := on_local (set_rc_Password password).
Definition SetLocalRegistryCredentials (creds : RegistryCredentials) : Config -> Config :=
  on_app (set_ac_LocalRegistryCredentials creds).
Definition SetZotConfigRaw (raw : string) : Config -> Config := set_cf_ZotConfigRaw raw.
Definition SetSPIFFEConfig (cfg : SPIFFEConfig) : Config -> Config := on_app (set_ac_SPIFFE cfg).
Definition SetSPIFFEEnabled (enabled : bool) : Config -> Config :=
  on_app (fun a => set_ac_SPIFFE (set_sp_Enabled enabled (ac_SPIFFE a)) a).
Definition SetRegistryFallbackConfig (fb : RegistryFallbackConfig) : Config -> Config :=
  on_app (set_ac_RegistryFallback fb).
Definition SetHarborRegistryURL (url : string) : Config -> Config := on_app (set_ac_HarborRegistryURL url).
Definition SetDirectDelivery (dd : DirectDeliveryConfig) : Config -> Config := on_app (set_ac_DirectDelivery dd).

(** [None] is the error of ReplaceURLHost. *)
Definition ApplyHarborRegistryOverride `{NetUrl} (sc : StateConfig) (override : string) : option StateConfig :=
  let creds := stc_RegistryCredentials sc in
  auth ← (if String.eqb (rc_URL creds) "" then Some "" else ReplaceURLHost (rc_URL creds) override);
  state ← (if String.eqb (stc_StateURL sc) "" then Some "" else ReplaceURLHost (stc_StateURL sc) override);
  Some (mkStateConfig (set_rc_URL auth creds) state).

(* ------------------------------------------------------------------ *)
(** ** manager.go *)

Inductive ConfigChange :=
| LogLevelChanged (old new : string)
| IntervalsChanged (old new : string)
| ZotConfigChanged
| AuditConfigChanged (old new : AuditConfig).

Definition NewConfigManager (configPath prevConfigPath token defaultGroundControlURL : string)
    (jsonLog : bool) (config : Config) : ConfigManager :=
  mkConfigManager config token defaultGroundControlURL jsonLog configPath prevConfigPath
    (ac_EncryptConfig (cf_AppConfig config)).

Definition detectChanges (oldConfig newConfig : Config) : list ConfigChange :=
  let old := cf_AppConfig oldConfig in let new := cf_AppConfig newConfig in
  (if negb (String.eqb (ac_LogLevel old) (ac_LogLevel new))
   then [LogLevelChanged (ac_LogLevel old) (ac_LogLevel new)] else []) ++
  (if negb (String.eqb (ac_StateReplicationInterval old) (ac_StateReplicationInterval new))
   then [IntervalsChanged (ac_StateReplicationInterval old) (ac_StateReplicationInterval new)] else []) ++
  (if negb (String.eqb (cf_ZotConfigRaw oldConfig) (cf_ZotConfigRaw newConfig))
   then [ZotConfigChanged] else []) ++
  (if negb (Equal (ac_Audit old) (ac_Audit new))
   then [AuditConfigChanged (ac_Audit old) (ac_Audit new)] else []).

Section Manager.
Context `{Argon2, Sha256, AesGcm, SatEnv, NetUrl, GoQuote}.

Definition lift_base {A} (r : result A) : free base (result A) := Ret r.

Definition writeConfigUnlocked (config : Config) (path : string) : free base (result unit) :=
  let* cm := perform GetCm in
  let? data :=
    (if cm_encryptEnabled cm
     then try (EncryptConfig config) (wrap "encrypt config") ok
     else lift_base (MarshalIndentConfig config))
    catch throw in
  perform (WriteFile path data).

Definition WriteConfig : free base (result unit) :=
  let* cm := perform GetCm in
  writeConfigUnlocked (cm_config cm) (cm_configPath cm).

Definition WriteConfigToDisk (config : Config) : free base (result unit) :=
  let* cm := perform GetCm in
  writeConfigUnlocked config (cm_configPath cm).

Definition WritePrevConfigToDisk (config : Config) : free base (result unit) :=
  let* cm := perform GetCm in
  writeConfigUnlocked config (cm_prevConfigPath cm).

Definition With (mutators : list (Config -> Config)) : free base unit :=
  perform (SetCm (fun cm => set_cm_config (foldl (fun c mutate => mutate c) (cm_config cm) mutators) cm)).

(** A file without content is treated like a missing one. *)
Definition readAndReturnConfig (path : string) : free base (result Config) :=
  let? data := perform (ReadFile (path_Clean path)) catch throw in
  let trimmed := TrimSpace data in
  if String.eqb trimmed "" || String.eqb trimmed "{}" then throw NotExist
  else if IsEncrypted data then
    try (DecryptConfig data no_config) (wrap "decrypt config") ok
  else
    match UnmarshalConfig data no_config with
    | None => throw (PlainErr "json")
    | Some cfg => ok cfg
    end.

(** The changes or the error, with the warnings *)
Definition ReloadConfig : free base (list string * result (list ConfigChange)) :=
  let* cm := perform GetCm in
  let oldConfig := cm_config cm in
  let? newConfig := readAndReturnConfig (cm_configPath cm)
    catch (fun e => Ret ([], inl (WrapErr "failed to read config from disk" e))) in
  match ValidateAndEnforceDefaults (Some newConfig) (cm_DefaultGroundControlURL cm) with
  | (warnings, inl e) => Ret (warnings, inl (WrapErr "failed to validate reloaded config" e))
  | (warnings, inr validatedConfig) =>
      let changes := detectChanges oldConfig validatedConfig in
      perform (SetCm (set_cm_config validatedConfig)) ;;;
      Ret (warnings, inr changes)
  end.

Definition InitConfigManager (token groundControlURL configPath prevConfigPath : string)
    (jsonLogging useUnsecure : bool) : free base (list string * result ConfigManager) :=
  match ParseRequestURI groundControlURL with
  | inl m => Ret ([], inl (WrapErr "invalid URL provided for ground_control_url env var" (PlainErr m)))
  | inr _ =>
      let* read := readAndReturnConfig configPath in
      let found :=
        match read with
        | inr cfg => inr cfg
        | inl e => if Err.is_not_exist e then inr no_config else inl (WrapErr "failed to read config" e)
        end in
      match found with
      | inl e => Ret ([], inl e)
      | inr cfg =>
          let cfg := if useUnsecure then SetUseUnsecure true cfg else cfg in
          let '(warnings, validated) := ValidateAndEnforceDefaults (Some cfg) groundControlURL in
          Ret (warnings, match validated with
                         | inl e => inl (WrapErr "invalid config" e)
                         | inr cfg => inr (NewConfigManager configPath prevConfigPath token groundControlURL jsonLogging cfg)
                         end)
      end
  end.

(* ------------------------------------------------------------------ *)
(** ** getters.go *)

Definition get {A} (f : ConfigManager -> A) : free base A :=
  let* cm := perform GetCm in Ret (f cm).
Definition get_config {A} (f : Config -> A) : free base A := get (fun cm => f (cm_config cm)).
Definition get_app {A} (f : AppConfig -> A) : free base A := get_config (fun c => f (cf_AppConfig c)).
Definition get_source {A} (f : RegistryCredentials -> A) : free base A :=
  get_config (fun c => f (stc_RegistryCredentials (cf_StateConfig c))).
Definition get_local {A} (f : RegistryCredentials -> A) : free base A :=
  get_app (fun a => f (ac_LocalRegistryCredentials a)).

Definition IsZTRDone : free base bool := get_source (fun r => negb (String.eqb (rc_Username r) "")).
Definition GetLogLevel : free base string := get_app ac_LogLevel.
Definition IsJSONLog : free base bool := get cm_JsonLog.
Definition GetOwnRegistry : free base bool := get_app ac_BringOwnRegistry.
Definition UseUnsecure : free base bool := get_app ac_UseUnsecure.
Definition GetSourceRegistryPassword : free base string := get_source rc_Password.
Definition GetSourceRegistryUsername : free base string := get_source rc_Username.
Definition GetSourceRegistryURL : free base string := get_source rc_URL.
Definition GetSourceRegistryCredentials : free base RegistryCredentials := get_source id.
Definition GetStateURL : free base string := get_config (fun c => stc_StateURL (cf_StateConfig c)).
Definition GetRemoteRegistryUsername : free base string := get_local rc_Username.
Definition GetRemoteRegistryPassword : free base string := get_local rc_Password.
Definition GetLocalRegistryURL : free base string := get_local rc_URL.
Definition GetRemoteRegistryCredentials : free base RegistryCredentials := get_local id.
Definition GetRegistrationInterval : free base string := get_app ac_RegisterSatelliteInterval.
Definition GetStateReplicationInterval : free base string := get_app ac_StateReplicationInterval.
Definition GetHeartbeatInterval : free base string := get_app ac_HeartbeatInterval.
Definition GetMetricsConfig : free base MetricsConfig := get_app ac_Metrics.
Definition GetStateConfig : free base StateConfig := get_config cf_StateConfig.
Definition ResolveGroundControlURL : free base string :=
  get (fun cm =>
    let url := ac_GroundControlURL (cf_AppConfig (cm_config cm)) in
    if negb (String.eqb url "") then url else cm_DefaultGroundControlURL cm).
Definition GetToken : free base string := get cm_Token.
Definition GetRawZotConfig : free base string := get_config cf_ZotConfigRaw.
Definition GetConfig : free base Config := get_config id.
Definition GetTLSConfig : free base TLSConfig := get_app ac_TLS.
Definition ShouldEncryptConfig : free base bool := get_app ac_EncryptConfig.
Definition GetSPIFFEConfig : free base SPIFFEConfig := get_app ac_SPIFFE.
Definition IsSPIFFEEnabled : free base bool := get_app (fun a => sp_Enabled (ac_SPIFFE a)).
Definition GetRegistryFallbackConfig : free base RegistryFallbackConfig := get_app ac_RegistryFallback.
Definition GetAuditConfig : free base AuditConfig := get_app ac_Audit.
Definition GetHarborRegistryURL : free base string := get_app ac_HarborRegistryURL.
Definition GetDirectDeliveryConfig : free base DirectDeliveryConfig := get_app ac_DirectDelivery.

End Manager.

(* ------------------------------------------------------------------ *)
(** ** Properties of the configuration manager

    What writing, loading and reloading the configuration do, on every
    failure. *)

Section Facts.
Context `{Registries, Argon2, Sha256, AesGcm, SatEnv, NetUrl, GoQuote}.

Abbreviation brun := (frun (@exec_base _)).

Lemma calm_serial names : forall d, calm (first_serial d names).
Proof.
  induction names as [|name names IH]; intros d; cbn [first_serial]; [exact I|].
  destruct (skip_block_device name); [apply IH|]. apply calm_bind; [by apply calm_op|].
  intros [e|data]; [apply IH|]. destruct (String.eqb _ _); [apply IH|exact I].
Qed.

Lemma calm_fingerprint d : calm (GetFingerprint d).
Proof.
  unfold GetFingerprint, GetMachineID, GetMACAddress, GetDiskSerial, wrap, throw, ok.
  repeat first [apply calm_serial | calm_step].
Qed.

Lemma calm_encrypt c : calm (EncryptConfig c).
Proof.
  unfold EncryptConfig, EncryptBytes, deriveKey, deriveKeyWithSalt, Encrypt, RandomBytes, wrap, throw, ok.
  repeat first [apply calm_fingerprint | calm_step].
Qed.

(** The text a configuration is written as: JSON in clear, or sealed for this
    device *)
Definition config_text (cm : ConfigManager) (config : Config) (w : SWorld) (text : string) : Prop :=
  if cm_encryptEnabled cm then (brun (EncryptConfig config) (s_tick w)).2 = inr text
  else MarshalIndentConfig config = inr text.

(** What is left when the configuration was to be written: it was, or the
    file is as it was, or holds a prefix of the text. *)
Inductive written (config : Config) (path : string) (w w' : SWorld) : result unit -> Prop :=
| written_all text :
    config_text (sw_cm w) config w text ->
    quiet (s_files (<[path := text]> (sw_files w)) w) w' -> written config path w w' (inr tt)
| written_not e : quiet w w' -> written config path w w' (inl e)
| written_part e text n :
    config_text (sw_cm w) config w text ->
    quiet (s_files (<[path := Go.take_bytes n text]> (sw_files w)) w) w' -> written config path w w' (inl e).

Lemma write_unlocked config path w :
  let out := brun (writeConfigUnlocked config path) w in written config path w out.1 out.2.
Proof.
  unfold writeConfigUnlocked, config_text. rewrite frun_bind. cbn [frun perform exec_base].
  rewrite brun_try.
  set (m := if cm_encryptEnabled (sw_cm w) then _ else _).
  assert (calm m) as Hm.
  { subst m. unfold wrap, ok, lift_base. repeat first [apply calm_encrypt | calm_step]. }
  pose proof (calm_run m (s_tick w) Hm) as Hq.
  assert (forall text, (brun m (s_tick w)).2 = inr text -> config_text (sw_cm w) config w text) as Ht.
  { subst m. unfold config_text. intros text. destruct (cm_encryptEnabled (sw_cm w)); [|done].
    rewrite brun_try. destruct (brun (EncryptConfig config) (s_tick w)) as [w1 [e|x]]; done. }
  destruct (brun m (s_tick w)) as [w1 [e|text]]; cbn [fst snd] in *; [by apply written_not|].
  assert (sw_files w1 = sw_files w) as Hf by apply (quiet_fields _ _ Hq).
  cbn [frun perform exec_base]. rewrite Hf.
  destruct (fault w1) as [[m' n]|]; cbn [fst snd].
  - eapply written_part; [by apply Ht|]. by apply quiet_tick_files.
  - eapply written_all; [by apply Ht|]. by apply quiet_tick_files.
Qed.

End Facts.
