(* ===== verification/ZtrClient.v ===== *)
(** * Zero-touch registration on the satellite

    internal/satellite/state/registration_process.go and
    spiffe_registration.go.  A process registers with Ground Control and
    installs the credentials it is given in the configuration.  The channel
    Done is closed exactly once in a run of the satellite; closing it twice
    would panic, which is an error here. *)

From stdpp Require Import gmap.
From Stdlib Require Import Ascii.
From S2P Require Import Prelude Free Utf8 GoLib Json CryptoLib SatConfig AuditTrail SatState SatWorld Tls HttpClient Device Secure Manager.

#[local] Open Scope string_scope.
#[local] Open Scope list_scope.

Definition ZeroTouchRegistrationRoute : string := "satellites/ztr".
Definition SPIFFEZeroTouchRegistrationRoute : string := "satellites/spiffe-ztr".

Definition set_ztr (f : ZtrProcess -> ZtrProcess) (l : Locals) : Locals := mkLocals (f (lo_ztr l)) (lo_report l).
Definition set_ztr_running (b : bool) (z : ZtrProcess) : ZtrProcess := mkZtrProcess b (zt_Done z) (zt_spiffe z).
Definition set_ztr_Done (z : ZtrProcess) : ZtrProcess := mkZtrProcess (zt_isRunning z) true (zt_spiffe z).
Definition on_ztr_spiffe (f : SpiffeClient -> SpiffeClient) : Locals -> Locals :=
  set_ztr (fun z => mkZtrProcess (zt_isRunning z) (zt_Done z) (f <$> zt_spiffe z)).

Definition NewZtrProcess : ZtrProcess := mkZtrProcess false false None.

(** Something is missing from the credentials. *)
Definition incomplete (sc : StateConfig) : bool :=
  String.eqb (rc_Username (stc_RegistryCredentials sc)) "" ||
  String.eqb (rc_Password (stc_RegistryCredentials sc)) "" ||
  String.eqb (rc_URL (stc_RegistryCredentials sc)) "" || String.eqb (stc_StateURL sc) "".

(** [err == nil] cannot happen where it is called. *)
Definition sanitizeAuditReason (err : option goerr) (token : string) : string :=
  match err with
  | None => ""
  | Some e =>
      let s := error_text e in
      if negb (String.eqb token "") then ReplaceAll s token "[REDACTED]" else s
  end.

Section Registration.
Context `{Registries, X509, Argon2, Sha256, AesGcm, SatEnv, NetUrl, GoQuote, SpiffeIds}.

Definition start : act unit := locked (perform (SetLocals (set_ztr (set_ztr_running true)))).
Definition stop : act unit := locked (perform (SetLocals (set_ztr (set_ztr_running false)))).
Definition IsRunning : act bool := locked (let* l := perform GetLocals in Ret (zt_isRunning (lo_ztr l))).
Definition IsComplete : act bool := locked IsZTRDone.

(** close(z.Done) *)
Definition close_Done : act (result unit) :=
  locked (let* l := perform GetLocals in
          if zt_Done (lo_ztr l) then throw (PlainErr "panic: close of closed channel")
          else perform (SetLocals (set_ztr set_ztr_Done)) ;;; ok tt).

Definition audit (e : AuditEvent) : act unit := locked (perform (AuditLog e)).

Definition register_event (outcome reason : string) (details : gmap string json) : AuditEvent :=
  mkAuditEvent "register" "satellite" outcome "" "" "satellite" "" "" "" "" "" reason details.

(** The common end of the two requests *)
Definition read_registration (failed decode : string) (response : HttpResponse) : act (result StateConfig) :=
  if negb (rs_StatusCode response =? 200)%Z then throw (PlainErr (failed +:+ rs_Status response))
  else match Decode dec_state (rs_Body response) no_state with
       | None => throw (WrapErr decode (PlainErr "json"))
       | Some authResponse => ok authResponse
       end.

(* ------------------------------------------------------------------ *)
(** ** registration_process.go *)

Definition CanExecute : act (bool * string) :=
  let* token := locked GetToken in
  let* url := locked ResolveGroundControlURL in
  let checks := [(String.eqb token "", "token"); (String.eqb url "", "ground control URL")] in
  match List.flat_map (fun check : bool * string => if check.1 then [check.2] else []) checks with
  | [] => Ret (true, "Process register_satellite can execute all conditions fulfilled")
  | missing => Ret (false, "missing " +:+ Go.join ", " missing +:+
                           ", please include the required environment variables present in .env")
  end.

Definition registerSatellite (groundControlURL path token : string) (tlsCfg : TLSConfig) (useUnsecure : bool)
    : act (result StateConfig) :=
  let ztrURL := groundControlURL +:+ "/" +:+ path +:+ "/" +:+ token in
  let? client := unlocked (createHTTPClient tlsCfg useUnsecure) catch wrap "failed to create HTTP client" in
  let? req := Ret (NewRequest "GET" ztrURL "") catch wrap "failed to create request" in
  let? response := Do client req catch wrap "failed to send request" in
  read_registration "failed to register satellite: " "failed to decode response" response.

(** From the answer to the installed configuration; [flow] of the audit log *)
Definition install (gcURL : string) (stateConfig : StateConfig) : act (result unit) :=
  let flow := {["flow" := JStr "ztr"; "ground_control_url" := JStr gcURL]} in
  if incomplete stateConfig then
    audit (register_event "failure" "invalid_state_auth_config" flow) ;;;
    throw (PlainErr "failed to register satellite: invalid state auth config received")
  else
    let* override := locked GetHarborRegistryURL in
    match (if String.eqb override "" then Some stateConfig else ApplyHarborRegistryOverride stateConfig override) with
    | None => throw (PlainErr "parse URL")
    | Some stateConfig =>
        locked (With [SetStateConfig stateConfig]) ;;;
        let? _ := locked WriteConfig
          catch (fun _ => throw (PlainErr "failed to register satellite: could not update state auth config")) in
        audit (register_event "success" "" flow) ;;;
        close_Done
    end.

Definition execute_ztr : act (result unit) :=
  let* (canExecute, reason) := CanExecute in
  if negb canExecute then ok tt
  else
    let* gcURL := locked ResolveGroundControlURL in
    let* token := locked GetToken in
    let* tlsCfg := locked GetTLSConfig in
    let* useUnsecure := locked UseUnsecure in
    let? stateConfig := registerSatellite gcURL ZeroTouchRegistrationRoute token tlsCfg useUnsecure
      catch (fun e =>
        let* token := locked GetToken in
        audit (register_event "failure" "registration_failed"
          {["error" := JStr (sanitizeAuditReason (Some e) token); "flow" := JStr "ztr";
            "ground_control_url" := JStr gcURL]}) ;;;
        throw e) in
    install gcURL stateConfig.

(** [defer z.stop()] *)
Definition Execute : act (result unit) :=
  start ;;;
  let* r := execute_ztr in
  stop ;;;
  Ret r.

(* ------------------------------------------------------------------ *)
(** ** spiffe_registration.go *)

Definition ztr_client (l : Locals) : option SpiffeClient := zt_spiffe (lo_ztr l).

Definition NewSpiffeZtrProcess (spiffeCfg : SPIFFEConfig) : result ZtrProcess :=
  if negb (sp_Enabled spiffeCfg) then inl (PlainErr "SPIFFE is not enabled in config")
  else match spiffe.NewClient spiffeCfg with
       | inl e => inl (WrapErr "create SPIFFE client" e)
       | inr client => inr (mkZtrProcess false false (Some client))
       end.

Definition CanExecuteSpiffe : act (bool * string) :=
  let* url := locked ResolveGroundControlURL in
  if String.eqb url "" then Ret (false, "missing ground control URL")
  else
    let* enabled := locked IsSPIFFEEnabled in
    if negb enabled then Ret (false, "SPIFFE is not enabled")
    else Ret (true, "Process spiffe_register_satellite can execute all conditions fulfilled").

Definition registerWithSPIFFE : act (result StateConfig) :=
  let* gcURL := locked ResolveGroundControlURL in
  let ztrURL := gcURL +:+ "/" +:+ SPIFFEZeroTouchRegistrationRoute in
  let? httpClient := spiffe.CreateHTTPClient ztr_client catch wrap "create SPIFFE HTTP client" in
  let? req := Ret (NewRequest "GET" ztrURL "") catch wrap "create request" in
  let? resp := Do httpClient req catch wrap "send request" in
  read_registration "registration failed: " "decode response" resp.

Definition install_spiffe (stateConfig : StateConfig) : act (result unit) :=
  if incomplete stateConfig then throw (PlainErr "invalid state auth config received")
  else
    locked (With [SetStateConfig stateConfig]) ;;;
    let? _ := locked WriteConfig catch wrap "write config" in
    close_Done.

Definition execute_spiffe : act (result unit) :=
  let* (canExecute, reason) := CanExecuteSpiffe in
  if negb canExecute then ok tt
  else
    let? _ := spiffe.Connect ztr_client on_ztr_spiffe catch wrap "connect to SPIRE agent" in
    let? spiffeID := spiffe.GetSPIFFEID ztr_client catch wrap "get SPIFFE ID" in
    let? stateConfig := registerWithSPIFFE catch throw in
    install_spiffe stateConfig.

Definition ExecuteSpiffe : act (result unit) :=
  start ;;;
  let* r := execute_spiffe in
  stop ;;;
  Ret r.

Definition Close : act (result unit) :=
  let* l := locked (perform GetLocals) in
  match ztr_client l with
  | Some _ => spiffe.Close ztr_client on_ztr_spiffe
  | None => ok tt
  end.

End Registration.
