(* ===== verification/ZtrClientFacts.v ===== *)
(** * What a registration does to the satellite

    The outcomes of a run of the registration process, for every Ground
    Control, and what reaches the audit log. *)

From stdpp Require Import gmap relations.
From Stdlib Require Import Ascii.
From S2P Require Import Prelude Free Utf8 GoLib Json CryptoLib SatConfig AuditTrail SatState SatWorld SatRun SatDemo Tls HttpClient Device Secure Manager ZtrClient.

#[local] Open Scope string_scope.
#[local] Open Scope list_scope.

Section Facts.
Context `{Registries, X509, Argon2, Sha256, AesGcm, SatEnv, NetUrl, GoQuote, SpiffeIds}.

Lemma calm_client tls unsecure : calm (createHTTPClient tls unsecure).
Proof.
  unfold createHTTPClient, LoadClientTLSConfig, LoadCertificate, LoadCAPool, load_with_signer, LoadX509KeyPair,
    missing, wrap, throw, ok.
  repeat calm_step.
Qed.

Lemma calm_unlocked {A} (p : free base A) : calm p -> calms (unlocked p).
Proof.
  unfold calm, calms. induction p as [a|R o k IH]; [done|]. intros [Ho Hk]. split; [|intros r; by apply IH].
  intros w. specialize (Ho w). cbn. by destruct (exec_base o w).
Qed.

(* ------------------------------------------------------------------ *)
(** ** The outcomes of a registration *)

Definition gc_url (cm : ConfigManager) : string :=
  let url := ac_GroundControlURL (cf_AppConfig (cm_config cm)) in
  if negb (String.eqb url "") then url else cm_DefaultGroundControlURL cm.

Definition closed (w : SWorld) : bool := zt_Done (lo_ztr (sw_locals w)).

(** Ground Control, or where it redirected the request with the token to,
    answered with [sc]. *)
Definition answered (w : SWorld) (sc : StateConfig) : Prop :=
  exists client req response,
    NewRequest "GET" (gc_url (sw_cm w) +:+ "/satellites/ztr/" +:+ cm_Token (sw_cm w)) "" = inr req /\
    answers client req (sw_reg w) response /\
    rs_StatusCode response = 200%Z /\ Decode dec_state (rs_Body response) no_state = Some sc.

(** [sc] is complete, and [sc'] is what the override of the registry makes of it. *)
Definition accepted (w : SWorld) (sc sc' : StateConfig) : Prop :=
  incomplete sc = false /\
  let override := ac_HarborRegistryURL (cf_AppConfig (cm_config (sw_cm w))) in
  (if String.eqb override "" then Some sc else ApplyHarborRegistryOverride sc override) = Some sc'.

Definition with_state (sc : StateConfig) (cm : ConfigManager) : ConfigManager :=
  set_cm_config (SetStateConfig sc (cm_config cm)) cm.

(** What the process leaves alone in every case *)
Definition same_rest (w w' : SWorld) : Prop :=
  sw_proc w' = sw_proc w /\ lo_report (sw_locals w') = lo_report (sw_locals w).

(** The event of a failed registration *)
Definition failure_event (w : SWorld) (ev : AuditEvent) : Prop :=
  ev = register_event "failure" "invalid_state_auth_config"
         {["flow" := JStr "ztr"; "ground_control_url" := JStr (gc_url (sw_cm w))]} \/
  exists e, ev = register_event "failure" "registration_failed"
         {["error" := JStr (sanitizeAuditReason (Some e) (cm_Token (sw_cm w))); "flow" := JStr "ztr";
           "ground_control_url" := JStr (gc_url (sw_cm w))]}.

Inductive ztr_end (w w' : SWorld) : result unit -> Prop :=
| end_skipped :
    cm_Token (sw_cm w) = "" \/ gc_url (sw_cm w) = "" ->
    sw_cm w' = sw_cm w -> sw_files w' = sw_files w -> closed w' = closed w ->
    sw_reg w' = sw_reg w -> sw_audit w' = sw_audit w -> ztr_end w w' (inr tt)
| end_failed e evs :
    sw_cm w' = sw_cm w -> sw_files w' = sw_files w -> closed w' = closed w ->
    sw_audit w' = sw_audit w ++ evs -> (length evs <= 1)%nat -> Forall (failure_event w) evs ->
    ztr_end w w' (inl e)
| end_unwritten e sc sc' :
    answered w sc -> accepted w sc sc' -> sw_cm w' = with_state sc' (sw_cm w) ->
    sw_files w' = sw_files w \/
    (exists text n v, config_text (sw_cm w') (cm_config (sw_cm w')) v text /\
       sw_files w' = <[cm_configPath (sw_cm w) := Go.take_bytes n text]> (sw_files w)) ->
    closed w' = closed w -> sw_audit w' = sw_audit w -> ztr_end w w' (inl e)
| end_done sc sc' text v :
    answered w sc -> accepted w sc sc' -> sw_cm w' = with_state sc' (sw_cm w) ->
    config_text (sw_cm w') (cm_config (sw_cm w')) v text ->
    sw_files w' = <[cm_configPath (sw_cm w) := text]> (sw_files w) ->
    closed w' = true ->
    sw_audit w' = sw_audit w ++ [register_event "success" ""
      {["flow" := JStr "ztr"; "ground_control_url" := JStr (gc_url (sw_cm w))]}] ->
    ztr_end w w' (inr tt).

(** Nothing but requests happened between [w] and [v]. *)
Record since (w v : SWorld) : Prop := mkSince {
  si_cm : sw_cm v = sw_cm w; si_files : sw_files v = sw_files w; si_closed : closed v = closed w;
  si_audit : sw_audit v = sw_audit w; si_rest : same_rest w v }.

Lemma since_quiet w v v' : since w v -> quiet v v' -> since w v'.
Proof.
  intros [] (Hf & _ & Hc & Hp & Hl & Ha)%quiet_fields. unfold same_rest, closed in *.
  split; unfold same_rest, closed; rewrite ?Hf, ?Hc, ?Hp, ?Hl, ?Ha; done.
Qed.

Lemma since_reg w v st : since w v -> since w (s_tick (s_reg st v)).
Proof. by intros []. Qed.

Lemma since_do w v client req : since w v -> since w (srun (Do client req) v).1.
Proof.
  unfold Do. destruct (Parse _) as [m|u]; [done|]. generalize (first_hop req u). generalize 9%nat. intros hops.
  revert v. induction hops as [|hops IH]; intros v h Hs; cbn [follow]; unfold srun, registry, perform, try;
    cbn [bind frun exec_sop]; destruct (reg_exec _ _ _) as [st [m|resp]]; cbn [frun throw]; try (by apply since_reg);
    destruct (is_final resp), (next_hop req u h resp) as [e|h']; try (by apply since_reg).
  by apply IH, since_reg.
Qed.

Definition outcome (w : SWorld) (x : SWorld * result unit) : Prop := same_rest w x.1 /\ ztr_end w x.1 x.2.

Lemma failed w v e : since w v -> outcome w (v, inl e).
Proof.
  intros []. split; [done|]. eapply (end_failed w v e []); rewrite ?app_nil_r; auto.
Qed.

Lemma failed_audited w v ev e : since w v -> failure_event w ev ->
  outcome w (srun (audit ev ;;; throw e) v).
Proof.
  intros [] He. split; [done|]. apply (end_failed _ _ e [ev]); cbn; auto. by f_equal.
Qed.

Lemma calms_get {A} (f : ConfigManager -> A) : calms (locked (get f)).
Proof. by split. Qed.

Lemma install_end w v sc : since w v -> closed w = false -> answered w sc ->
  outcome w (srun (install (gc_url (sw_cm w)) sc) v).
Proof.
  intros Hs Hc Ha. unfold install. destruct (incomplete sc) eqn:Ei.
  { apply failed_audited; [done|by left]. }
  apply run_locked. cbn [frun GetHarborRegistryURL get_app get_config get perform exec_base bind fst snd].
  set (v1 := s_tick v). assert (since w v1) as Hs1 by (eapply since_quiet; [exact Hs|apply quiet_tick]).
  rewrite (si_cm _ _ Hs).
  destruct (if String.eqb _ _ then _ else _) as [sc'|] eqn:Eo; [|by apply failed].
  assert (accepted w sc sc') as Hacc by done.
  apply run_locked. cbn [frun With perform exec_base foldl fst snd].
  set (v2 := s_tick (s_cm _ v1)). apply run_locked_try.
  assert (sw_cm v2 = with_state sc' (sw_cm w)) as Hc2 by (unfold v2; cbn; by rewrite (si_cm _ _ Hs)).
  assert (sw_files v2 = sw_files w) as Hf2 by apply (si_files _ _ Hs).
  assert (closed v2 = false) as Hd2 by (rewrite <- Hc; apply (si_closed _ _ Hs)).
  assert (sw_audit v2 = sw_audit w) as Ha2 by apply (si_audit _ _ Hs).
  assert (same_rest w v2) as Hr2 by apply (si_rest _ _ Hs).
  clearbody v2. clear v1 Hs1 Eo Hs. unfold WriteConfig. rewrite frun_bind. cbn [frun perform exec_base].
  pose proof (write_unlocked (cm_config (sw_cm v2)) (cm_configPath (sw_cm v2)) (s_tick v2)) as Hw.
  destruct (frun (@exec_base _) (writeConfigUnlocked _ _) _) as [v3 r]. cbn [fst snd] in *.
  assert (forall f, quiet (s_files f (s_tick v2)) v3 ->
    sw_cm v3 = sw_cm v2 /\ sw_files v3 = f /\ same_rest w v3 /\ sw_audit v3 = sw_audit w /\ closed v3 = closed w)
    as Hkeep.
  { intros f (-> & _ & -> & Hp & Hl & ->)%quiet_fields. unfold same_rest, closed in *. rewrite Hp, Hl, Hc. destruct Hr2. by split_and!. }
  assert (cm_configPath (sw_cm v2) = cm_configPath (sw_cm w)) as Ep by by rewrite Hc2.
  rewrite Ep in *.
  destruct Hw as [text Ht Hq|e Hq|e text n Ht Hq].
  - apply Hkeep in Hq as (Hcm & Hf & Hr & Hau & Hcl). unfold audit. apply run_locked. cbn [frun perform exec_base fst snd].
    rewrite Hc in Hcl. unfold closed in Hcl.
    unfold close_Done, locked, srun, perform. cbn [frun bind exec_sop exec_base s_tick s_audit sw_locals].
    rewrite Hcl. cbn [frun bind fst snd]. split; [by destruct Hr|].
    apply (end_done _ _ sc sc' text (s_tick v2)); try done; cbn; [by rewrite Hcm|by rewrite Hcm|by rewrite Hf; cbn; rewrite Hf2|by rewrite Hau].
  - destruct (Hkeep (sw_files v2) Hq) as (Hcm & Hf & Hr & Hau & Hcl). unfold srun, throw. cbn [frun]. split; [done|]. cbn [fst snd].
    apply (end_unwritten _ _ _ sc sc'); rewrite ?Hcm; auto. left. by rewrite Hf.
  - apply Hkeep in Hq as (Hcm & Hf & Hr & Hau & Hcl). unfold srun, throw. cbn [frun]. split; [done|]. cbn [fst snd].
    apply (end_unwritten _ _ _ sc sc'); rewrite ?Hcm; auto. right.
    exists text, n, (s_tick v2). split; [done|by rewrite Hf; cbn; rewrite Hf2].
Qed.

Definition registered (w : SWorld) (x : SWorld * result StateConfig) : Prop :=
  since w x.1 /\ match x.2 with inl _ => True | inr sc => answered w sc end.

Lemma register_answer w v tls unsecure : since w v -> sw_reg v = sw_reg w ->
  registered w (srun (registerSatellite (gc_url (sw_cm w)) ZeroTouchRegistrationRoute (cm_Token (sw_cm w)) tls unsecure) v).
Proof.
  intros Hs Hr. unfold registerSatellite. apply run_calm_try; [apply calm_unlocked, calm_client|..].
  { intros v1 e Hq. split; [by eapply since_quiet|done]. }
  intros v1 client Hq. pose proof (since_quiet _ _ _ Hs Hq) as Hs1.
  apply run_pure_try; [by intros e _; split|]. intros req Ereq. unfold try at 1. apply (post_bind (registered w)).
  intros v2 a Edo. pose proof (since_do w v1 client req Hs1) as Hs2. rewrite Edo in Hs2. cbn [fst] in Hs2.
  destruct a as [m|response]; [by split|]. apply Do_answers in Edo. unfold read_registration.
  destruct (Z.eqb_spec (rs_StatusCode response) 200) as [E200|]; cbn [negb]; [|by split].
  destruct (Decode dec_state (rs_Body response) no_state) as [sc|] eqn:Ed; [|by split].
  split; [done|]. exists client, req, response.
  apply quiet_fields in Hq as (_ & Hreg & _). rewrite <- Hr, <- Hreg. by split_and!.
Qed.

Lemma can_execute v v1 b reason : srun CanExecute v = (v1, (b, reason)) ->
  v1 = s_tick (s_tick v) /\ (b = true \/ cm_Token (sw_cm v) = "" \/ gc_url (sw_cm v) = "").
Proof.
  unfold CanExecute, gc_url. change (srun _ v) with
    (srun (match flat_map (fun check : bool * string => if check.1 then [check.2] else [])
             [(String.eqb (cm_Token (sw_cm v)) "", "token"); (String.eqb (gc_url (sw_cm v)) "", "ground control URL")]
           with
           | [] => Ret (true, "Process register_satellite can execute all conditions fulfilled")
           | missing => Ret (false, "missing " +:+ Go.join ", " missing +:+
                           ", please include the required environment variables present in .env")
           end) (s_tick (s_tick v)) : SWorld * (bool * string)).
  fold (gc_url (sw_cm v)).
  destruct (String.eqb_spec (cm_Token (sw_cm v)) ""), (String.eqb_spec (gc_url (sw_cm v)) "");
    cbn; intros E; simplify_eq; auto.
Qed.

Lemma execute_end w v : since w v -> sw_reg v = sw_reg w -> closed w = false -> outcome w (srun execute_ztr v).
Proof.
  intros Hs Hr Hc. unfold execute_ztr. apply (post_bind (outcome w)). intros v1 [can reason] Ecan.
  apply can_execute in Ecan as [-> Hcan]. rewrite (si_cm _ _ Hs) in Hcan.
  assert (forall x, since w x -> since w (s_tick x)) as Htick.
  { intros x Hx. eapply since_quiet; [exact Hx|apply quiet_tick]. }
  pose proof (Htick _ (Htick _ Hs)) as Hs1. destruct can; cbn [negb].
  2: { destruct Hcan as [?|Hcan]; [done|]. split; [apply Hs|].
       by apply end_skipped; try apply Hs. }
  clear Hcan. repeat (apply run_locked; cbn [frun ResolveGroundControlURL GetToken GetTLSConfig UseUnsecure get_app get_config get perform exec_base bind fst snd]).
  pose proof (si_cm _ _ Hs) as Hcm. cbn [s_tick sw_cm]. rewrite Hcm.
  fold (gc_url (sw_cm w)). set (v6 := s_tick (s_tick (s_tick _))).
  assert (since w v6) as Hs6 by by repeat apply Htick. unfold try.
  apply (post_bind (outcome w)). intros v7 r E7.
  pose proof (register_answer w v6 (ac_TLS (cf_AppConfig (cm_config (sw_cm w))))
    (ac_UseUnsecure (cf_AppConfig (cm_config (sw_cm w)))) Hs6 Hr) as Hreg.
  change (frun (@exec_sop _)) with (@srun _) in E7. rewrite E7 in Hreg.
  destruct Hreg as [Hs7 Hans]. cbn [fst snd] in *. destruct r as [e|sc]; [|by apply install_end].
  apply run_locked. cbn [frun get perform exec_base bind fst snd]. rewrite (si_cm _ _ Hs7).
  apply failed_audited; [by apply Htick|]. right. by exists e.
Qed.

Lemma end_stop w v r : ztr_end w v r ->
  ztr_end w (s_tick (s_locals (set_ztr (set_ztr_running false) (sw_locals v)) v)) r.
Proof.
  intros []; [apply end_skipped|eapply end_failed|eapply end_unwritten|eapply end_done]; eauto.
Qed.

Lemma execute_outcome w : closed w = false ->
  let out := srun Execute w in
  zt_isRunning (lo_ztr (sw_locals out.1)) = false /\ same_rest w out.1 /\ ztr_end w out.1 out.2.
Proof.
  intros Hc. cbv zeta. unfold Execute, start, stop.
  set (P := fun x : SWorld * result unit =>
    zt_isRunning (lo_ztr (sw_locals x.1)) = false /\ same_rest w x.1 /\ ztr_end w x.1 x.2).
  change (P (srun (locked (perform (SetLocals (set_ztr (set_ztr_running true)))) ;;;
    let* r := execute_ztr in locked (perform (SetLocals (set_ztr (set_ztr_running false)))) ;;; Ret r) w)).
  apply run_locked. cbn [frun perform exec_base fst snd]. set (v := s_tick _).
  assert (since w v) as Hs by by split.
  apply (post_bind P). intros v1 r E. pose proof (execute_end w v Hs eq_refl Hc) as [Hr He].
  rewrite E in Hr, He. cbn [fst snd] in Hr, He. apply run_locked. split; [done|]. split; [exact Hr|].
  by apply end_stop.
Qed.

Lemma override_username sc override sc' :
  (if String.eqb override "" then Some sc else ApplyHarborRegistryOverride sc override) = Some sc' ->
  rc_Username (stc_RegistryCredentials sc') = rc_Username (stc_RegistryCredentials sc).
Proof.
  destruct (String.eqb override ""); [by intros [= ->]|]. unfold ApplyHarborRegistryOverride.
  destruct (if String.eqb (rc_URL _) "" then _ else _) as [a|]; [|done].
  destruct (if String.eqb (stc_StateURL _) "" then _ else _) as [s|]; [|done]. by intros [= <-].
Qed.

(** C16. One run of the registration process, whatever Ground Control answers and
    whatever fails: it is skipped without a token or an address; or it fails
    and leaves configuration, files and the channel Done as they were; or the
    credentials Ground Control sent, which are complete, are installed in the
    configuration and nothing else of it changes.  Done is closed exactly when
    the configuration file was written as well; when it was not, the process
    counts as complete all the same.  At the end the process is not running. *)
Theorem ztr_execute_outcome w : closed w = false ->
  let out := srun Execute w in
  zt_isRunning (lo_ztr (sw_locals out.1)) = false /\ same_rest w out.1 /\ ztr_end w out.1 out.2.
Proof. apply execute_outcome. Qed.

(** When the credentials were installed but the configuration file was not
    written, the run fails and Done stays open, but the process counts as
    complete: it is never run again. *)
Theorem unwritten_registration_counts w e : closed w = false ->
  let out := srun Execute w in
  out.2 = inl e -> sw_cm out.1 <> sw_cm w ->
  closed out.1 = false /\ (srun IsComplete out.1).2 = true.
Proof.
  intros Hc out He Hcm. destruct (execute_outcome w Hc) as (_ & _ & Hend). fold out in Hend. rewrite He in Hend.
  inversion Hend as [|e' evs Hcm' _ _ _ _ _|e' sc sc' _ [Hi Ho] Hw Hf Hcl Ha|]; subst; [done|].
  split; [congruence|].
  change ((srun IsComplete out.1).2) with
    (negb (String.eqb (rc_Username (stc_RegistryCredentials (cf_StateConfig (cm_config (sw_cm out.1))))) "")).
  rewrite Hw. cbn -[out].
  rewrite (override_username _ _ _ Ho). unfold incomplete in Hi.
  by destruct (String.eqb (rc_Username _) "").
Qed.

Lemma failure_hides w ev s : cm_Token (sw_cm w) <> "" -> foreign "[REDACTED]" (cm_Token (sw_cm w)) = true ->
  failure_event w ev -> ev_Details ev !! "error" = Some (JStr s) -> Go.contains s (cm_Token (sw_cm w)) = false.
Proof.
  intros Hne Hf [->|[e ->]]; cbn [register_event ev_Details]; rewrite ?lookup_insert_ne by done.
  - by rewrite lookup_singleton_ne.
  - rewrite lookup_insert_eq. intros [= <-]. unfold sanitizeAuditReason.
    rewrite (proj2 (String.eqb_neq _ _) Hne). by apply ReplaceAll_gone.
Qed.

(** Whatever text an error has, the token of the registration is not in the
    error the audit log gets, if it shares no byte with "[REDACTED]" (a
    token's hexadecimal digits do not); and at most one event is logged. *)
Theorem audit_hides_token w :
  closed w = false -> cm_Token (sw_cm w) <> "" -> foreign "[REDACTED]" (cm_Token (sw_cm w)) = true ->
  exists evs, sw_audit (srun Execute w).1 = sw_audit w ++ evs /\ (length evs <= 1)%nat /\
    forall ev s, ev ∈ evs -> ev_Details ev !! "error" = Some (JStr s) ->
      Go.contains s (cm_Token (sw_cm w)) = false.
Proof.
  intros Hc Hne Hf. destruct (execute_outcome w Hc) as (_ & _ & Hend).
  destruct Hend as [_ _ _ _ _ Ha|e evs _ _ _ Ha Hl Hall|e sc sc' _ _ _ _ _ Ha|sc sc' text v _ _ _ _ _ _ Ha];
    rewrite Ha.
  - exists []. rewrite app_nil_r. split_and!; [done|cbn; lia|]. by intros ev s ?%elem_of_nil.
  - exists evs. split_and!; [done..|]. intros ev s Hin. apply failure_hides; [done..|].
    by eapply Forall_forall.
  - exists []. rewrite app_nil_r. split_and!; [done|cbn; lia|]. by intros ev s ?%elem_of_nil.
  - eexists [_]. split_and!; [done|cbn; lia|]. intros ev s ->%list_elem_of_singleton. cbn.
    rewrite !lookup_insert_ne, lookup_singleton_ne by done. done.
Qed.

End Facts.

(* ------------------------------------------------------------------ *)
(** ** A concrete registration *)

Module NewSatellite.

#[export] Instance demo_argon2 : Argon2 := fun pw salt _ _ _ _ => take 32 (pw ++ salt).
#[export] Instance demo_sha256 : Sha256 := fun bs => take 32 bs.
#[export] Instance demo_aes : AesGcm := {
  gcm_Seal key nonce p := p ++ key;
  gcm_Open key nonce c := Some (take (length c - length key) c) }.
#[export] Existing Instance SatConfig.demo_sat_env.
#[export] Existing Instance SatConfig.demo_net_url.
#[export] Existing Instance SatConfig.demo_go_quote.
#[export, program] Instance no_x509 : X509 := {|
  X509KeyPair _ _ := Some "no PEM data"; AppendCertsFromPEM _ := false; pem_Decode _ := None;
  ParseCertificate _ := inl "malformed certificate" |}.
Next Obligation. done. Qed.
#[export] Instance any_id : SpiffeIds := fun s => inr s.

Definition demo_token : string := "0123456789abcdef0123456789abcdef".

(** A satellite before its registration; [faults] as in [sw_fault] *)
Definition new_satellite `{Registries} (faults : nat -> option (string * nat)) (reg : reg_state) : SWorld :=
  let w := demo_world_of (mkConfigManager no_config demo_token "http://gc" false "/cfg/config.json"
                            "/cfg/prev_config.json" false) (mkProcess false [] "" "/cfg/state.json" None) ∅ reg in
  mkSWorld (sw_files w) (sw_open w) (sw_reg w) (sw_cm w) (sw_proc w) (sw_locals w) (sw_audit w) (sw_tick w)
    faults (sw_temp w) (sw_rand w) (sw_dirs w) (sw_nets w) (sw_clock w) (sw_host w)
    (sw_cancelled w).

Definition demo_state : StateConfig :=
  mkStateConfig (mkRegistryCredentials "https://harbor.example" "robot$edge-01" "s3cret") "https://harbor.example/s".

(** Ground Control answers the one request with credentials. *)
Definition demo_answer (c : HttpClient) (r : HttpRequest) : string + HttpResponse :=
  if String.eqb (rq_URL r) ("http://gc/satellites/ztr/" +:+ demo_token)
  then inr (mkHttpResponse 200 "200 OK" "" (Encode (enc_state demo_state)))
  else inl ("Get " +:+ rq_URL r +:+ ": connection refused").

Definition answering : Registries := demo_registries_with ∅ demo_answer.
Definition refusing : Registries :=
  demo_registries_with ∅ (fun _ r => inl ("Get " +:+ rq_URL r +:+ ": connection refused")).

Lemma ztr_execute_outcome_witness :
  let w := @new_satellite answering (fun _ => None) ∅ in
  closed w = false /\ (@srun answering _ Execute w).2 = inr tt /\ closed (@srun answering _ Execute w).1 = true /\
  ztr_end w (@srun answering _ Execute w).1 (@srun answering _ Execute w).2.
Proof.
  cbv zeta. split; [reflexivity|]. split; [vm_compute; reflexivity|]. split; [vm_compute; reflexivity|].
  apply ztr_execute_outcome. reflexivity.
Defined.

(** The disk is full when the configuration is written. *)
Definition full_disk (n : nat) : option (string * nat) := Some ("no space left on device", 0%nat).

Lemma unwritten_registration_counts_witness :
  let w := @new_satellite answering full_disk ∅ in
  exists e, (@srun answering _ Execute w).2 = inl e /\
  closed (@srun answering _ Execute w).1 = false /\ (@srun answering _ IsComplete (@srun answering _ Execute w).1).2 = true.
Proof.
  cbv zeta. eexists. split; [vm_compute; reflexivity|].
  eapply (unwritten_registration_counts (@new_satellite answering full_disk ∅)); [reflexivity|vm_compute; reflexivity|].
  intros E. apply (f_equal (fun cm => rc_Username (stc_RegistryCredentials (cf_StateConfig (cm_config cm))))) in E.
  vm_compute in E. discriminate.
Defined.

Lemma audit_hides_token_witness :
  let w := @new_satellite refusing (fun _ => None) ∅ in
  sw_audit (@srun refusing _ Execute w).1 <> [] /\
  exists evs, sw_audit (@srun refusing _ Execute w).1 = [] ++ evs /\ (length evs <= 1)%nat /\
    forall ev s, ev ∈ evs -> ev_Details ev !! "error" = Some (JStr s) -> Go.contains s demo_token = false.
Proof.
  cbv zeta. split.
  { intros E. apply (f_equal (@length _)) in E. vm_compute in E. discriminate. }
  apply (audit_hides_token (@new_satellite refusing (fun _ => None) ∅)); [reflexivity|done|reflexivity].
Defined.

End NewSatellite.
