(* ===== verification/Replicator.v ===== *)
(** * Fetching states and replicating images

    internal/satellite/state/{replicator,fetcher,helpers}.go.  The transport
    with client certificates is left out: the only constructors the program
    uses give an empty TLSConfig, for which it is nil. *)

From stdpp Require Import gmap.
From Stdlib Require Import Ascii.
From S2P Require Import Prelude Free Utf8 GoLib Json SatConfig SatState SatWorld.

#[local] Open Scope string_scope.
#[local] Open Scope list_scope.

(* ------------------------------------------------------------------ *)
(** ** fetcher.go *)

Record URLStateFetcher := mkURLStateFetcher {
  uf_username : string; uf_password : string; uf_url : string; uf_insecure : bool; uf_useHTTP : bool }.

Definition NewURLStateFetcher (stateURL userName password : string) (insecure : bool) : URLStateFetcher :=
  if Go.has_prefix "http://" stateURL
  then mkURLStateFetcher userName password (Go.trim_prefix "http://" stateURL) insecure true
  else if Go.has_prefix "https://" stateURL
  then mkURLStateFetcher userName password (Go.trim_prefix "https://" stateURL) insecure false
  else mkURLStateFetcher userName password stateURL insecure insecure.

Definition buildCraneOptions (f : URLStateFetcher) : RegOptions :=
  if uf_useHTTP f then mkRegOptions (uf_username f) (uf_password f) true true
  else if uf_insecure f then mkRegOptions (uf_username f) (uf_password f) true false
  else mkRegOptions (uf_username f) (uf_password f) false false.

(** helpers.go *)
Definition getStateFetcherForInput `{NetUrl} (input username password : string) (useInsecure : bool)
    : result URLStateFetcher :=
  if negb (IsValidURL input) then inl (PlainErr ("invalid state url provided: " +:+ input))
  else inr (NewURLStateFetcher input username password useInsecure).

Section Fetcher.
Context `{Registries}.

Definition FetchDigest (f : URLStateFetcher) : act (result string) :=
  registry (CraneDigest (uf_url f) (buildCraneOptions f)).

Definition pullImage (f : URLStateFetcher) : act (result image) :=
  registry (CranePull (uf_url f) (buildCraneOptions f)).

(** The first artifacts.json of the archive, decoded by [unmarshal]; an
    archive that turns out damaged before it is found is an error. *)
Fixpoint find_artifacts {A} (unmarshal : string -> option A) (files : list (string * string))
    (damaged : option string) : result A :=
  match files with
  | [] => match damaged with
          | Some m => inl (WrapErr "failed to read the tar archive" (PlainErr m))
          | None => inl (PlainErr "artifacts.json not found in the state artifact")
          end
  | (name, data) :: files' =>
      if String.eqb name "artifacts.json" then
        match unmarshal data with
        | None => inl (WrapErr "unmarshal artifacts.json" (PlainErr "json"))
        | Some a => inr a
        end
      else find_artifacts unmarshal files' damaged
  end.

Definition extractArtifactJSON {A} (unmarshal : string -> option A) (img : image) : act (result A) :=
  let? (files, damaged) := registry (CraneExport img) catch wrap "failed to export the state artifact" in
  Ret (find_artifacts unmarshal files damaged).

(** fetchSatelliteState, fetchGroupState and fetchConfigState *)
Definition FetchStateArtifact {A} (unmarshal : string -> option A) (f : URLStateFetcher) : act (result A) :=
  let? img := pullImage f catch throw in
  extractArtifactJSON unmarshal img.

Definition fetchSatelliteState : URLStateFetcher -> act (result SatelliteState) :=
  FetchStateArtifact (fun text => Unmarshal dec_satellite_state text no_satellite_state).
Definition fetchGroupState : URLStateFetcher -> act (result State) :=
  FetchStateArtifact (fun text => Unmarshal dec_document text no_document).
Definition fetchConfigState : URLStateFetcher -> act (result Config) :=
  FetchStateArtifact (fun text => UnmarshalConfig text no_config).

End Fetcher.

(* ------------------------------------------------------------------ *)
(** ** replicator.go *)

Record BasicReplicator := mkBasicReplicator {
  br_useUnsecure : bool; br_sourceUsername : string; br_sourcePassword : string;
  br_sourceRegistry : string; br_remoteRegistryURL : string;
  br_remoteUsername : string; br_remotePassword : string }.

Definition NewBasicReplicator (sourceUsername sourcePassword sourceRegistry remoteURL remoteUsername
    remotePassword : string) (useUnsecure : bool) : BasicReplicator :=
  mkBasicReplicator useUnsecure sourceUsername sourcePassword sourceRegistry remoteURL remoteUsername remotePassword.

(** "%s/%s/%s:%s" *)
Definition image_ref (registry : string) (e : Entity) : string :=
  registry +:+ "/" +:+ en_Repository e +:+ "/" +:+ en_Name e +:+ ":" +:+ en_Tag e.

Section Replicator.
Context `{Registries} (r : BasicReplicator).

Definition pullOpts : RegOptions :=
  mkRegOptions (br_sourceUsername r) (br_sourcePassword r) (br_useUnsecure r) false.
Definition pushOpts : RegOptions :=
  mkRegOptions (br_remoteUsername r) (br_remotePassword r) (br_useUnsecure r) false.

(** The layers of the source whose digest cannot be read or is not one of the
    destination's *)
Definition missing_layers (dst src : list (option string)) : nat :=
  length (List.filter (fun d => match d with
                                | None => true
                                | Some d => negb (existsb (String.eqb d) (omap id dst))
                                end) src).

(** Only logged *)
Definition countMissingLayers (dst : string) (srcLayers : list (option string)) : act nat :=
  let? dstImg := registry (RemoteImage dst pushOpts) catch (fun _ => Ret (length srcLayers)) in
  let? dstLayers := registry (ImageLayers dstImg) catch (fun _ => Ret (length srcLayers)) in
  Ret (missing_layers dstLayers srcLayers).

Definition parse_ref (what ref : string) : result string :=
  match ParseReference (br_useUnsecure r) ref with
  | Some full => inr full
  | None => inl (WrapErr ("parse " +:+ what +:+ " ref " +:+ ref) (PlainErr "could not parse reference"))
  end.

Definition push_image (dst : string) (ociImage : image) : act (result unit) :=
  let? srcLayers := registry (OCILayers ociImage) catch wrap "get source layers" in
  countMissingLayers dst srcLayers ;;;
  registry (RemoteWrite dst ociImage pushOpts).

Definition replicate_entity (entity : Entity) : act (result unit) :=
  let* cancelled := ctx_err in
  match cancelled with
  | Some e => throw e
  | None =>
      let? src := Ret (parse_ref "source" (image_ref (br_sourceRegistry r) entity)) catch throw in
      let? dst := Ret (parse_ref "dest" (image_ref (br_remoteRegistryURL r) entity)) catch throw in
      let? desc := registry (RemoteGet src pullOpts) catch throw in
      let? img := registry (DescImage desc) catch throw in
      let? srcDigest := registry (OCIDigest img) catch wrap "compute source digest" in
      let* head := registry (RemoteHead dst pushOpts) in
      if match head with inr dstDigest => String.eqb dstDigest srcDigest | inl _ => false end
      then ok tt
      else push_image dst img
  end.

Definition Replicate (replicationEntities : list Entity) : act (result unit) :=
  for_each (fun entity _ => replicate_entity entity) replicationEntities tt.

Definition deleteOpts : RegOptions :=
  mkRegOptions (br_remoteUsername r) (br_remotePassword r) (br_useUnsecure r) false.

Definition delete_entity (entity : Entity) : act (result unit) :=
  let* cancelled := ctx_err in
  match cancelled with
  | Some e => throw e
  | None => registry (CraneDelete (image_ref (br_remoteRegistryURL r) entity) deleteOpts)
  end.

Definition DeleteReplicationEntity (replicationEntity : list Entity) : act (result unit) :=
  for_each (fun entity _ => delete_entity entity) replicationEntity tt.

End Replicator.
