(* ===== verification/DirectDelivery.v ===== *)
(** * Direct delivery of images to k3s and RKE2

    internal/satellite/state/direct_delivery.go: Docker-save tarballs in a
    directory that is watched, and a side file with the digests they were
    written for.  The deliverer's mutex covers the reading and writing of the
    side file only. *)

From stdpp Require Import gmap sorting.
From Stdlib Require Import Ascii.
From S2P Require Import Prelude Free Utf8 GoLib Json SatConfig SatState SatWorld Replicator.

#[local] Open Scope string_scope.
#[local] Open Scope list_scope.

Definition digestMapFile : string := ".satellite-digests.json".

Definition NewDirectDeliverer (imageDir srcUsername srcPassword srcRegistry : string) (useUnsecure : bool)
    : DirectDeliverer :=
  mkDirectDeliverer imageDir useUnsecure srcUsername srcPassword srcRegistry.

(** strings.NewReplacer("/", "_", ":", "_", " ", "_") *)
Fixpoint safe_Replace (s : string) : string :=
  match s with
  | "" => ""
  | String a s' =>
      String (if (Ascii.eqb a "/" || Ascii.eqb a ":" || Ascii.eqb a " ")%char then "_"%char else a) (safe_Replace s')
  end.

Definition tarballFilename (e : Entity) : string :=
  safe_Replace (en_Repository e) +:+ "--" +:+ safe_Replace (en_Name e) +:+ "--" +:+ safe_Replace (en_Tag e) +:+ ".tar".

(** ** The side file *)

(** A map: null is nil; a later key replaces an earlier one. *)
Fixpoint dec_entries (l : list (string * json)) (m : gmap string string) : option (gmap string string) :=
  match l with
  | [] => Some m
  | (k, v) :: l' => match dec_string v "" with Some s => dec_entries l' (<[k := s]> m) | None => None end
  end.

Definition dec_digests (v : json) : option (option (gmap string string)) :=
  match v with
  | JNull => Some None
  | JObj l => Some <$> dec_entries l ∅
  | _ => None
  end.

(** json.Marshal prints the keys in order. *)
Definition enc_digests (m : option (gmap string string)) : json :=
  match m with
  | None => JNull
  | Some m => enc_map (JStr <$> m)
  end.

Section Delivery.
Context `{Registries} (d : DirectDeliverer).

Definition digestMapPath : string := path_Join [dl_imageDir d; digestMapFile].

(** [None] is a nil map, which only the text "null" gives. *)
Definition loadDigestMap : free base (option (gmap string string)) :=
  let* r := perform (ReadFile digestMapPath) in
  Ret match r with
      | inl _ => Some ∅
      | inr data =>
          match parse data with
          | Some v => default (Some ∅) (dec_digests v)
          | None => Some ∅
          end
      end.

Definition saveDigestMap (m : option (gmap string string)) : free base (result unit) :=
  perform (WriteFile digestMapPath (Marshal (enc_digests m))).

(** One operation outside the mutex *)
Definition file_op {A} (o : base A) : act A := locked (perform o).

Definition discard (tmp msg : string) (e : goerr) : act (result unit) :=
  file_op (Remove tmp) ;;; wrap msg e.

Definition writeAtomically (dstPath ref : string) (img : image) : act (result unit) :=
  let? tmp := file_op (CreateTemp (dl_imageDir d) ".satellite-*.tar.tmp") catch wrap "create temp file" in
  let failed e := file_op (FileClose tmp) ;;; discard tmp "write docker-save tarball" e in
  let? data := registry (TarballWrite ref img) catch failed in
  let? _ := file_op (FileWrite tmp data) catch failed in
  let? _ := file_op (FileClose tmp) catch discard tmp "close temp file" in
  let? _ := file_op (Rename tmp dstPath) catch discard tmp "rename to final path" in
  ok tt.

(** One entity: what to record for it, if anything was written *)
Definition deliver_entity (currentDigests : gmap string string) (entity : Entity)
    (updates : list (string * string)) : act (result (list (string * string))) :=
  let* cancelled := ctx_err in
  match cancelled with
  | Some e => throw e
  | None =>
      let filename := tarballFilename entity in
      if bool_decide (currentDigests !! filename = Some (en_Digest entity)) then ok updates
      else
        match ParseReference (dl_useUnsecure d) (image_ref (dl_srcRegistry d) entity) with
        | None => ok updates
        | Some ref =>
            let opts := mkRegOptions (dl_srcUsername d) (dl_srcPassword d) (dl_useUnsecure d) false in
            let? img := registry (RemoteImage ref opts) catch (fun _ => ok updates) in
            let? _ := writeAtomically (path_Join [dl_imageDir d; filename]) ref img catch (fun _ => ok updates) in
            ok (updates ++ [(filename, en_Digest entity)])
        end
  end.

(** An assignment to an entry of a nil map panics. *)
Definition merge_updates (updates : list (string * string)) : free base (result unit) :=
  let* digests := loadDigestMap in
  match digests with
  | None => throw (PlainErr "panic: assignment to entry in nil map")
  | Some m => saveDigestMap (Some (foldl (fun m kv => <[kv.1 := kv.2]> m) m updates))
  end.

Definition Deliver (entities : list Entity) : act (result unit) :=
  match entities with
  | [] => ok tt
  | _ =>
      let* currentDigests := locked loadDigestMap in
      let? updates := for_each (deliver_entity (default ∅ currentDigests)) entities [] catch throw in
      match updates with [] => ok tt | _ => locked (merge_updates updates) end
  end.

Definition remove_entity (entity : Entity) (removed : list string) : act (result (list string)) :=
  let* cancelled := ctx_err in
  match cancelled with
  | Some e => throw e
  | None =>
      let filename := tarballFilename entity in
      let* r := file_op (Remove (path_Join [dl_imageDir d; filename])) in
      match r with
      | inl e => if Err.is_not_exist e then ok (removed ++ [filename]) else ok removed
      | inr _ => ok (removed ++ [filename])
      end
  end.

Definition forget (removed : list string) : free base (result unit) :=
  let* digests := loadDigestMap in
  saveDigestMap ((fun m => foldl (fun m k => delete k m) m removed) <$> digests).

Definition Delete (entities : list Entity) : act (result unit) :=
  match entities with
  | [] => ok tt
  | _ =>
      let? removed := for_each remove_entity entities [] catch throw in
      match removed with [] => ok tt | _ => locked (forget removed) end
  end.

End Delivery.
