(* ===== verification/SatPersist.v ===== *)
(** * The satellite's state file

    internal/satellite/state/state_persistence.go: the groups and the entities
    recorded for them, and the digest of the configuration last applied,
    survive a restart in a JSON file that is replaced by renaming. *)

From stdpp Require Import gmap.
From Stdlib Require Import Ascii.
From S2P Require Import Prelude Free Utf8 GoLib Json SatConfig SatState SatWorld.

#[local] Open Scope string_scope.
#[local] Open Scope list_scope.

Record PersistedGroupState := mkPersistedGroupState { pg_URL : string; pg_Entities : option (list Entity) }.

Record PersistedState := mkPersistedState {
  pe_ConfigDigest : string; pe_Groups : option (list PersistedGroupState) }.

Definition no_group : PersistedGroupState := mkPersistedGroupState "" None.
Definition no_persisted : PersistedState := mkPersistedState "" None.

Definition enc_entity (e : Entity) : json :=
  JObj (enc_string "name" (en_Name e) ++ enc_string "repository" (en_Repository e) ++
        enc_string "tag" (en_Tag e) ++ enc_string "digest" (en_Digest e)).

Definition enc_group (g : PersistedGroupState) : json :=
  JObj (enc_string "url" (pg_URL g) ++ [("entities", enc_slice enc_entity (pg_Entities g))]).

Definition enc_persisted (p : PersistedState) : json :=
  JObj (omit_string "config_digest" (pe_ConfigDigest p) ++ [("groups", enc_slice enc_group (pe_Groups p))]).

Definition dec_entity : decoder Entity := dec_struct [
  ("name", set_field en_Name (fun v e => mkEntity v (en_Repository e) (en_Tag e) (en_Digest e)) dec_string);
  ("repository", set_field en_Repository (fun v e => mkEntity (en_Name e) v (en_Tag e) (en_Digest e)) dec_string);
  ("tag", set_field en_Tag (fun v e => mkEntity (en_Name e) (en_Repository e) v (en_Digest e)) dec_string);
  ("digest", set_field en_Digest (fun v e => mkEntity (en_Name e) (en_Repository e) (en_Tag e) v) dec_string)].

Definition dec_group : decoder PersistedGroupState := dec_struct [
  ("url", set_field pg_URL (fun v g => mkPersistedGroupState v (pg_Entities g)) dec_string);
  ("entities", set_field pg_Entities (fun v g => mkPersistedGroupState (pg_URL g) v) (dec_slice no_entity dec_entity))].

Definition dec_persisted : decoder PersistedState := dec_struct [
  ("config_digest", set_field pe_ConfigDigest (fun v p => mkPersistedState v (pe_Groups p)) dec_string);
  ("groups", set_field pe_Groups (fun v p => mkPersistedState (pe_ConfigDigest p) v) (dec_slice no_group dec_group))].

(* ------------------------------------------------------------------ *)
(** ** Saving and loading *)

Definition persisted_of (stateMap : list StateMap) (configDigest : string) : PersistedState :=
  mkPersistedState configDigest
    (Some ((fun sm => mkPersistedGroupState (sm_url sm) (sm_Entities sm)) <$> stateMap)).

Definition state_text (stateMap : list StateMap) (configDigest : string) : string :=
  MarshalIndent (enc_persisted (persisted_of stateMap configDigest)).

(** Write, flush, close and rename *)
Definition replace_file (tmp path data : string) : free base (result unit) :=
  let? _ := perform (FileWrite tmp data) catch wrap "write temp file" in
  let? _ := perform (FileSync tmp) catch wrap "sync temp file" in
  let? _ := perform (FileClose tmp) catch wrap "close temp file" in
  let? _ := perform (Rename tmp path) catch wrap "rename temp to state file" in
  ok tt.

(** The deferred cleanup closes the file once more and removes it when there
    was an error or when that second close fails, which it does after a first. *)
Definition cleanup (tmp : string) (r : result unit) : free base (result unit) :=
  let* closed := perform (FileClose tmp) in
  match r, closed with
  | inr _, inr _ => Ret r
  | _, _ => perform (Remove tmp) ;;; Ret r
  end.

Definition SaveState (path : string) (stateMap : list StateMap) (configDigest : string)
    : free base (result unit) :=
  let data := state_text stateMap configDigest in
  let? tmp := perform (CreateTemp (path_Dir path) "state-*.json.tmp") catch wrap "create temp file" in
  let* r := replace_file tmp path data in
  cleanup tmp r.

(** [None]: there is no file. *)
Definition LoadState (path : string) : free base (result (option PersistedState)) :=
  let* r := perform (ReadFile path) in
  match r with
  | inl e => if Err.is_not_exist e then ok None else wrap "read state file" e
  | inr data =>
      match Unmarshal dec_persisted data no_persisted with
      | None => throw (PlainErr "unmarshal state file")
      | Some p => ok (Some p)
      end
  end.

(** What the process starts with *)
Definition restored (p : PersistedState) : list StateMap * string :=
  ((fun g => mkStateMap (pg_URL g) None (pg_Entities g)) <$> slice (pe_Groups p), pe_ConfigDigest p).

Definition NewFetchAndReplicateStateProcess (stateFilePath : string) : free base Process :=
  let start l d := mkProcess false l d stateFilePath None in
  if String.eqb stateFilePath "" then Ret (start [] "")
  else
    let* loaded := LoadState stateFilePath in
    Ret (match loaded with
         | inr (Some p) => let '(l, d) := restored p in start l d
         | _ => start [] ""
         end).
