(* ===== verification/StateProcess.v ===== *)
(** * The process that keeps the satellite in sync

    internal/satellite/state/state_process.go.  Execute runs a prefix, then a
    goroutine per group and one for the configuration ([threads]), whose
    results it collects in the order they arrive.  The goroutines read the
    process's fields without its mutex, one read per step. *)

From stdpp Require Import gmap relations.
From Stdlib Require Import Ascii.
From S2P Require Import Prelude Free Utf8 GoLib Json CryptoLib SatConfig SatState SatWorld Device Secure Manager Replicator DirectDelivery SatPersist.

#[local] Open Scope string_scope.
#[local] Open Scope list_scope.

Record StateFetcherResult := mkStateFetcherResult {
  sr_Index : nat; sr_URL : string; sr_Error : option goerr; sr_Cancelled : bool }.

Record ConfigFetcherResult := mkConfigFetcherResult {
  cr_ConfigDigest : string; cr_Error : option goerr; cr_Cancelled : bool }.

(* ------------------------------------------------------------------ *)
(** ** CanExecute *)

Definition missing_fields (satelliteStateURL remoteURL srcURL srcUsername srcPassword : string) : list string :=
  List.flat_map (fun check : string * string => if String.eqb check.1 "" then [check.2] else [])
    [(satelliteStateURL, "satelliteState is empty"); (remoteURL, "remote registry URL is empty");
     (srcUsername, "username is empty"); (srcURL, "source registry is empty");
     (srcPassword, "password is empty")].

Definition CanExecute (satelliteStateURL remoteURL srcURL srcUsername srcPassword : string) : bool * string :=
  match missing_fields satelliteStateURL remoteURL srcURL srcUsername srcPassword with
  | [] => (true, "Process replicate_state can execute: all conditions fulfilled")
  | missingFields => (false, "missing " +:+ Go.join ", " missingFields)
  end.

(* ------------------------------------------------------------------ *)
(** ** collectResults *)

(** What the select statement receives, in the order it does *)
Inductive event :=
| Done (e : goerr)
| StateResult (r : StateFetcherResult)
| ConfigResult (r : ConfigFetcherResult).

Definition failure (cancelled : bool) (e : option goerr) : list goerr :=
  if cancelled then [] else match e with Some e => [e] | None => [] end.

(** [None]: still waiting.  [Some []]: nil; otherwise the errors reported. *)
Fixpoint collectResults (expectedCount received : nat) (receivedConfig : bool) (allErrors : list goerr)
    (events : list event) : option (list goerr) :=
  let next received receivedConfig allErrors events :=
    if (received =? expectedCount)%nat && receivedConfig then Some allErrors
    else collectResults expectedCount received receivedConfig allErrors events in
  match events with
  | [] => None
  | Done e :: _ => Some [e]
  | StateResult r :: events' =>
      next (S received) receivedConfig (allErrors ++ failure (sr_Cancelled r) (sr_Error r)) events'
  | ConfigResult r :: events' =>
      next received true (allErrors ++ failure (cr_Cancelled r) (cr_Error r)) events'
  end.

(* ------------------------------------------------------------------ *)
(** ** The goroutines *)

Section Process.
Context `{Registries, Argon2, Sha256, AesGcm, SatEnv, NetUrl, GoQuote, RangeOrder}.

Definition get_proc {A} (f : Process -> A) : act A :=
  locked (let* p := perform GetProc in Ret (f p)).

(** The part of a critical section that saves the state; its error is only
    logged. *)
Definition persist : free base unit :=
  let* p := perform GetProc in
  if String.eqb (fp_stateFilePath p) "" then Ret tt
  else SaveState (fp_stateFilePath p) (fp_stateMap p) (fp_currentConfigDigest p) ;;; Ret tt.

Definition start : act unit := locked (perform (SetProc (set_running true))).
Definition stop : act unit := locked (perform (SetProc (set_running false))).
Definition IsRunning : act bool := get_proc fp_isRunning.

Definition PersistState : act (result unit) :=
  locked (let* p := perform GetProc in
          if String.eqb (fp_stateFilePath p) "" then ok tt
          else SaveState (fp_stateFilePath p) (fp_stateMap p) (fp_currentConfigDigest p)).

(** The override is used when it and the address parse. *)
Definition overridden (raw override : string) : string :=
  if String.eqb override "" then raw else default raw (ReplaceURLHost raw override).

Record Replication := mkReplication {
  rp_replicator : BasicReplicator; rp_sourceURL : string; rp_srcUsername : string;
  rp_srcPassword : string; rp_remoteURL : string; rp_useUnsecure : bool; rp_stateURL : string }.

Definition setupReplication : act Replication :=
  let* source := locked GetSourceRegistryURL in
  let* local := locked GetLocalRegistryURL in
  let* srcUsername := locked GetSourceRegistryUsername in
  let* srcPassword := locked GetSourceRegistryPassword in
  let* remoteUsername := locked GetRemoteRegistryUsername in
  let* remotePassword := locked GetRemoteRegistryPassword in
  let* useUnsecure := locked UseUnsecure in
  let* stateURL := locked GetStateURL in
  let* override := locked GetHarborRegistryURL in
  let* source' := (if String.eqb override "" then Ret source else locked GetSourceRegistryURL) in
  let sourceURL :=
    match (if String.eqb override "" then None else ReplaceURLHost source' override) with
    | Some replaced => FormatRegistryURL replaced
    | None => FormatRegistryURL source
    end in
  let stateURL := overridden stateURL override in
  let remoteURL := FormatRegistryURL local in
  let replicator := NewBasicReplicator srcUsername srcPassword sourceURL remoteURL remoteUsername remotePassword useUnsecure in
  let* dd := locked GetDirectDeliveryConfig in
  locked (perform (SetProc (set_deliverer
    (if dd_Enabled dd && negb (String.eqb (dd_ImageDir dd) "")
     then Some (NewDirectDeliverer (dd_ImageDir dd) srcUsername srcPassword sourceURL useUnsecure)
     else None)))) ;;;
  Ret (mkReplication replicator sourceURL srcUsername srcPassword remoteURL useUnsecure stateURL).

Definition fetchSatelliteRootState (satelliteStateURL srcUsername srcPassword : string) (useUnsecure : bool)
    : act (result SatelliteState) :=
  let? f := Ret (getStateFetcherForInput satelliteStateURL srcUsername srcPassword useUnsecure) catch throw in
  fetchSatelliteState f.

Definition FetchAndProcessState (f : URLStateFetcher) : act (result State) :=
  let? state := fetchGroupState f catch throw in
  match ProcessState state with
  | None => throw (PlainErr "invalid repository format")
  | Some s => ok s
  end.

Definition out_of_range : goerr := PlainErr "panic: index out of range".

Definition set_slot (index : nat) (newState : State) (p : Process) : Process :=
  set_stateMap (alter (fun sm => mkStateMap (sm_url sm) (Some newState) (FetchEntitiesFromState newState))
                  index (fp_stateMap p)) p.

(** Direct delivery: its errors are only logged. *)
Definition deliver_changes (deleteEntity replicateEntity : list Entity) : act unit :=
  let* deliverer := get_proc fp_directDeliverer in
  match deliverer with
  | None => Ret tt
  | Some d => Delete d deleteEntity ;;; Deliver d replicateEntity ;;; Ret tt
  end.

Definition apply_changes (replicator : BasicReplicator) (url : string)
    (deleteEntity replicateEntity : list Entity) : act (result unit) :=
  let? _ := DeleteReplicationEntity replicator deleteEntity catch wrap ("failed to delete entities for " +:+ url) in
  let? _ := Replicate replicator replicateEntity catch wrap ("failed to replicate entities for " +:+ url) in
  ok tt.

Definition group_url (url : string) : act string :=
  let* override := locked GetHarborRegistryURL in Ret (overridden url override).

(** The result of processGroupState is an error or nothing. *)
Definition process_group (index : nat) (url srcUsername srcPassword : string) (useUnsecure : bool)
    (replicator : BasicReplicator) : act (option goerr) :=
  let failed msg e := Ret (Some (WrapErr (msg +:+ url) e)) in
  let* groupURL := group_url url in
  let? f := Ret (getStateFetcherForInput groupURL srcUsername srcPassword useUnsecure)
    catch failed "failed to create state fetcher for " in
  let? newStateFetched := FetchAndProcessState f catch failed "failed to fetch state for " in
  let* slot := get_proc (fun p => fp_stateMap p !! index) in
  match slot with
  | None => Ret (Some out_of_range)
  | Some sm =>
      let '(deleteEntity, replicateEntity, newState) := GetChanges newStateFetched (sm_Entities sm) in
      let? _ := apply_changes replicator url deleteEntity replicateEntity catch (fun e => Ret (Some e)) in
      deliver_changes deleteEntity replicateEntity ;;;
      locked (perform (SetProc (set_slot index newState)) ;;; persist) ;;;
      Ret None
  end.

Definition processGroupState (index : nat) (srcUsername srcPassword : string) (useUnsecure : bool)
    (replicator : BasicReplicator) : act StateFetcherResult :=
  let* slot := get_proc (fun p => fp_stateMap p !! index) in
  match slot with
  | None => Ret (mkStateFetcherResult index "" (Some out_of_range) false)
  | Some sm =>
      let* error := process_group index (sm_url sm) srcUsername srcPassword useUnsecure replicator in
      Ret (mkStateFetcherResult index (sm_url sm) error false)
  end.

(** The remote configuration with what stays the satellite's own *)
Definition adopt (remote : Config) (sc : StateConfig) (harbor : string) : Config :=
  on_app (set_ac_HarborRegistryURL harbor) (set_cf_StateConfig sc remote).

Definition install_config (configDigest : string) (validated : Config) : act (result unit) :=
  let* current := locked GetConfig in
  let? _ := locked (WritePrevConfigToDisk current) catch wrap "failed to write previous config to disk" in
  let? _ := locked (WriteConfigToDisk validated) catch wrap "failed to write new config to disk" in
  locked (perform (SetProc (set_digest configDigest)) ;;; persist) ;;;
  ok tt.

Definition fetch_remote_config (configURL : string) (f : URLStateFetcher) : act (result Config) :=
  let? remoteConfig := fetchConfigState f catch wrap ("failed to fetch config artifact from " +:+ configURL) in
  let* sc := locked GetStateConfig in
  let* harbor := locked GetHarborRegistryURL in
  let* defaultURL := locked (get cm_DefaultGroundControlURL) in
  match (ValidateAndEnforceDefaults (Some (adopt remoteConfig sc harbor)) defaultURL).2 with
  | inl e => wrap ("failed to validate config from " +:+ configURL) e
  | inr validated => ok validated
  end.

Definition reconcile_config (configURL srcUsername srcPassword : string) (useUnsecure : bool)
    : act (result string) :=
  let* configURL := group_url configURL in
  let? f := Ret (getStateFetcherForInput configURL srcUsername srcPassword useUnsecure)
    catch wrap "failed to create config state fetcher" in
  let? configDigest := FetchDigest f catch wrap ("failed to fetch config digest from " +:+ configURL) in
  let* currentConfigDigest := get_proc fp_currentConfigDigest in
  if String.eqb configDigest currentConfigDigest then ok configDigest
  else
    let? validated := fetch_remote_config configURL f catch throw in
    let? _ := install_config configDigest validated catch throw in
    ok configDigest.

Definition reconcileRemoteConfig (configURL srcUsername srcPassword : string) (useUnsecure : bool)
    : act ConfigFetcherResult :=
  let* r := reconcile_config configURL srcUsername srcPassword useUnsecure in
  Ret match r with
      | inl e => mkConfigFetcherResult "" (Some e) false
      | inr digest => mkConfigFetcherResult digest None false
      end.

(* ------------------------------------------------------------------ *)
(** ** Execute *)

(** What is launched *)
Record Plan := mkPlan { pl_replication : Replication; pl_config : string; pl_groups : nat }.

(** Up to the launch of the goroutines; [inl] is what Execute returns at once. *)
Definition prepare : act (option goerr + Plan) :=
  let* cancelled := ctx_err in
  match cancelled with
  | Some e => Ret (inl (Some e))
  | None =>
      let* rp := setupReplication in
      let '(canExecute, _) := CanExecute (rp_stateURL rp) (rp_remoteURL rp) (rp_sourceURL rp)
                                (rp_srcUsername rp) (rp_srcPassword rp) in
      if negb canExecute then Ret (inl None)
      else
        let? satelliteState := fetchSatelliteRootState (rp_stateURL rp) (rp_srcUsername rp) (rp_srcPassword rp) (rp_useUnsecure rp)
          catch (fun e => Ret (inl (Some e))) in
        let* override := locked GetHarborRegistryURL in
        match (if String.eqb override "" then Some satelliteState
               else applyHarborOverrideToSatelliteState satelliteState override) with
        | None => Ret (inl (Some (PlainErr "override")))
        | Some satelliteState =>
            let states := SatState.slice (ss_States satelliteState) in
            let* changed := get_proc (fun p => (updateStateMap (fp_stateMap p) states).2) in
            locked (perform (SetProc (fun p => set_stateMap (updateStateMap (fp_stateMap p) states).1 p))) ;;;
            (if changed then locked persist else Ret tt) ;;;
            let* n := get_proc (fun p => length (fp_stateMap p)) in
            Ret (inr (mkPlan rp (ss_Config satelliteState) n))
        end
  end.

Definition threads (pl : Plan) : list (act event) :=
  let rp := pl_replication pl in
  ((fun i => let* r := processGroupState i (rp_srcUsername rp) (rp_srcPassword rp) (rp_useUnsecure rp) (rp_replicator rp) in
             Ret (StateResult r)) <$> seq 0 (pl_groups pl)) ++
  [let* r := reconcileRemoteConfig (pl_config pl) (rp_srcUsername rp) (rp_srcPassword rp) (rp_useUnsecure rp) in
   Ret (ConfigResult r)].

(** The results of finished goroutines, in the order they were received *)
Definition received (ts : list (act event)) (events : list event) : Prop :=
  exists order, NoDup order /\ Forall2 (fun i e => ts !! i = Some (Ret e)) order events.

(** A run of Execute from [w]: it returns at once, or the goroutines go on
    until enough results were collected or the context was found cancelled. *)
Inductive Execute (w : SWorld) : SWorld -> list goerr -> Prop :=
| Execute_returns w1 r :
    srun prepare (srun start w).1 = (w1, inl r) ->
    Execute w (srun stop w1).1 (option_list r)
| Execute_collects w1 pl ts w2 events cancelled errs :
    srun prepare (srun start w).1 = (w1, inr pl) ->
    rtc (pstep (@exec_sop _)) (threads pl, w1) (ts, w2) ->
    received ts events ->
    collectResults (pl_groups pl) 0 false [] (events ++ (Done <$> option_list cancelled)) = Some errs ->
    Execute w (srun stop w2).1 errs.

End Process.
