(* ===== verification/SyncFacts.v ===== *)
(** * What a sync of a group does, beside the other goroutines

    The group goroutines of one Execute run interleaved.  Each works on the
    references of its own group ([own]) and on its own slot of the state map;
    what it guarantees to the others and relies on from them is [guar] and
    [rely]. *)

From stdpp Require Import gmap relations.
From Stdlib Require Import Ascii.
From S2P Require Import Prelude Free Utf8 GoLib Json CryptoLib SatConfig SatState StateFacts SatWorld Device Secure Manager Replicator DirectDelivery SatPersist StateProcess.

#[local] Open Scope string_scope.
#[local] Open Scope list_scope.

(* ------------------------------------------------------------------ *)
(** ** Blocks that leave the process's fields and the manager alone *)

Section Quiet.
Context `{Registries}.

Abbreviation brun := (frun (@exec_base _)).

Definition keeps_proc {A} (m : free base A) : Prop :=
  forall w, (sw_proc (brun m w).1, sw_cm (brun m w).1) = (sw_proc w, sw_cm w).

Lemma base_reg {A} (m : free base A) w : sw_reg (brun m w).1 = sw_reg w.
Proof.
  revert w. induction m as [a|R o k IH]; intros w; [done|]. cbn [frun].
  destruct (exec_base o w) as [w' r] eqn:E. rewrite IH.
  apply (f_equal fst) in E. cbn in E. subst w'. destruct o; cbn; repeat case_match; done.
Qed.

Lemma keeps_ret {A} (a : A) : keeps_proc (Ret a).
Proof. done. Qed.

Lemma keeps_bind {A B} (m : free base A) (f : A -> free base B) :
  keeps_proc m -> (forall a, keeps_proc (f a)) -> keeps_proc (bind m f).
Proof.
  intros Hm Hf w. rewrite frun_bind. destruct (brun m w) as [w' a] eqn:E.
  rewrite Hf. rewrite <- (Hm w), E. done.
Qed.

Lemma keeps_try {A B} (m : free base (result A)) (h : goerr -> free base B) (k : A -> free base B) :
  keeps_proc m -> (forall e, keeps_proc (h e)) -> (forall a, keeps_proc (k a)) -> keeps_proc (try m h k).
Proof. intros. apply keeps_bind; [done|]. by intros [e|a]. Qed.

Lemma keeps_op {R} (o : base R) :
  match o with SetProc _ | SetCm _ => False | _ => True end -> keeps_proc (perform o).
Proof. intros Ho w. destruct o; cbn in *; repeat case_match; by simplify_eq. Qed.

End Quiet.

Create HintDb keeps.
#[export] Hint Resolve keeps_ret : keeps.
#[export] Hint Extern 1 (keeps_proc (perform _)) => apply keeps_op; exact I : keeps.

(** The block's operations one after the other *)
Ltac keeps := repeat first
  [ solve [auto with keeps]
  | apply keeps_try; [|intros ?|intros ?]
  | apply keeps_bind; [|intros ?]
  | match goal with |- keeps_proc (if ?b then _ else _) => destruct b end
  | match goal with |- keeps_proc (match ?x with _ => _ end) => destruct x end
  | match goal with |- keeps_proc ((match ?x with _ => _ end) _) => destruct x end ].

Section Blocks.
Context `{Registries, Argon2, Sha256, AesGcm}.

Lemma keeps_SaveState path l d : keeps_proc (SaveState path l d).
Proof. unfold SaveState, replace_file, cleanup, wrap, ok. keeps. Qed.
#[local] Hint Resolve keeps_SaveState : keeps.

Lemma keeps_persist : keeps_proc persist.
Proof. unfold persist. keeps. Qed.

Lemma keeps_get {A} (f : ConfigManager -> A) : keeps_proc (get f).
Proof. unfold get. keeps. Qed.

Lemma keeps_fingerprint d : keeps_proc (GetFingerprint d).
Proof.
  unfold GetFingerprint, GetMachineID, GetMACAddress, GetDiskSerial, wrap, throw, ok. keeps.
  match goal with |- keeps_proc (first_serial _ ?l) => induction l as [|n l IH] end; cbn [first_serial]; unfold throw, ok; keeps.
Qed.

Lemma keeps_write c path : keeps_proc (writeConfigUnlocked c path).
Proof.
  pose proof keeps_fingerprint. unfold writeConfigUnlocked, EncryptConfig, EncryptBytes, deriveKey, deriveKeyWithSalt, RandomBytes,
    Encrypt, lift_base, wrap, throw, ok.
  keeps.
Qed.

End Blocks.
#[export] Hint Resolve keeps_persist keeps_get keeps_write : keeps.

(* ------------------------------------------------------------------ *)
(** ** Interference *)

Section Sync.
Context `{Registries, Argon2, Sha256, AesGcm, SatEnv, NetUrl, GoQuote, RangeOrder}.
Context (local : string -> Prop) `{!LocalRegistry local}.

(** The references a goroutine works on, apart from those of the others *)
Context (own : nat -> string -> Prop).
Context (own_local : forall i r, own i r -> local r).
Context (own_disjoint : forall i j r, own i r -> own j r -> i = j).

Definition slot_of (w : SWorld) (i : nat) : option StateMap := fp_stateMap (sw_proc w) !! i.

(** The --harbor-registry-url override *)
Definition harbor (w : SWorld) : string := ac_HarborRegistryURL (cf_AppConfig (cm_config (sw_cm w))).

(** Nothing of [i]'s changed, nor the override. *)
Definition kept (i : nat) (w w' : SWorld) : Prop :=
  ((forall r, own i r -> held (sw_reg w') r = held (sw_reg w) r) /\ harbor w' = harbor w) /\
  slot_of w' i = slot_of w i.

Definition guar (i : nat) (w w' : SWorld) : Prop := forall j, j <> i -> kept j w w'.

#[local] Instance kept_preorder i : PreOrder (kept i).
Proof.
  split; [by split|]. intros w1 w2 w3 [[Ha Oa] Sa] [[Hb Ob] Sb]. split; [|congruence].
  split; [|congruence]. intros r Hr. by rewrite Hb, Ha.
Qed.

Abbreviation wpi i := (wp (@exec_sop _) (kept i) (guar i)).

Lemma wpi_bind i {A B} (m : act A) (f : A -> act B) Q w :
  wpi i m (fun a w' => wpi i (f a) Q w') w -> wpi i (bind m f) Q w.
Proof. apply wp_bind, _. Qed.

Lemma wpi_try i {A B} (m : act (result A)) (h : goerr -> act B) (k : A -> act B) Q w :
  wpi i m (fun r w' => match r with inl e => wpi i (h e) Q w' | inr a => wpi i (k a) Q w' end) w ->
  wpi i (try m h k) Q w.
Proof. apply wp_try, _. Qed.

Lemma wpi_op i {R} (o : sop R) (Q : R -> SWorld -> Prop) w :
  (forall w', kept i w w' -> guar i w' (exec_sop o w').1 /\
     forall w'', kept i (exec_sop o w').1 w'' -> Q (exec_sop o w').2 w'') ->
  wpi i (perform o) Q w.
Proof. apply wp_op. Qed.

(** *** Programs that change nothing anybody owns *)
Definition passive {A} (p : act A) : Prop :=
  within (@exec_sop _) (fun w w' => forall j, kept j w w') p.

Lemma passive_bind {A B} (m : act A) (f : A -> act B) :
  passive m -> (forall a, passive (f a)) -> passive (bind m f).
Proof. apply within_bind. Qed.

Lemma passive_for_each {A S} (f : A -> S -> act (result S)) l s :
  (forall a s, passive (f a s)) -> passive (for_each f l s).
Proof. apply within_for_each. Qed.

Lemma passive_locked {A} (m : free base A) : keeps_proc m -> passive (locked m).
Proof.
  intros Hm. split; [|done]. intros w j. cbn [exec_sop].
  specialize (Hm w) as [= Hp Hc]. unfold kept, slot_of, harbor. by rewrite base_reg, Hp, Hc.
Qed.

Lemma passive_ctx : passive ctx_err.
Proof. by split. Qed.

Lemma exec_registry {R} (o : regop image R) w :
  sw_reg (exec_sop (Registry o) w).1 = (reg_exec _ o (sw_reg w)).1 /\
  (sw_proc (exec_sop (Registry o) w).1 = sw_proc w /\ sw_cm (exec_sop (Registry o) w).1 = sw_cm w) /\
  (exec_sop (Registry o) w).2 =
    match (reg_exec _ o (sw_reg w)).2 with inl m => inl (PlainErr m) | inr r => inr r end.
Proof. cbn. by destruct (reg_exec _ o (sw_reg w)). Qed.

Lemma passive_registry {R} (o : regop image R) :
  match o with RemoteWrite _ _ _ | CraneDelete _ _ => False | _ => True end -> passive (registry o).
Proof.
  intros Ho. split; [|done]. intros w j. destruct (exec_registry o w) as (Hr & Hp & _).
  destruct Hp as [Hp Hc]. split; [|unfold slot_of; by rewrite Hp]. split; [|unfold harbor; by rewrite Hc].
  intros r Hj. rewrite Hr. apply held_other; eauto.
Qed.

Lemma wp_passive i {A} (p : act A) (Q : A -> SWorld -> Prop) w :
  passive p -> (forall a w', kept i w w' -> Q a w') -> wpi i p Q w.
Proof. apply wp_within; [apply _|]. intros v v' Hk. split; [apply Hk|]. intros j _. apply Hk. Qed.

(** A request that changes nothing, and what its answer tells *)
Lemma wp_request i {R} (o : regop image R) (Q : result R -> SWorld -> Prop) w :
  match o with RemoteWrite _ _ _ | CraneDelete _ _ => False | _ => True end ->
  (forall w1 w', kept i w w1 -> kept i w1 w' ->
     Q (match (reg_exec _ o (sw_reg w1)).2 with inl m => inl (PlainErr m) | inr r => inr r end) w') ->
  wpi i (registry o) Q w.
Proof.
  intros Ho HQ. apply wpi_op. intros w' Hw. destruct (passive_registry o Ho) as [Hk _].
  split; [intros j _; apply Hk|]. intros w2 Hw2. destruct (exec_registry o w') as (_ & _ & ->).
  apply HQ; [done|]. by transitivity (exec_sop (Registry o) w').1.
Qed.

Lemma wp_slot i (Q : option StateMap -> SWorld -> Prop) w :
  (forall w', kept i w w' -> Q (slot_of w i) w') ->
  wpi i (get_proc (fun p => fp_stateMap p !! i)) Q w.
Proof.
  intros HQ. apply wp_op. intros w' Hw. split; [by intros j _; split|]. intros w2 Hw2.
  change (Q (slot_of w' i) w2). destruct Hw as [Hh Hs]. rewrite Hs. apply HQ.
  transitivity w'; [by split|]. etransitivity; [|exact Hw2]. by split.
Qed.


(* ------------------------------------------------------------------ *)
(** ** The local registry after the two loops *)

Section Loops.
Context (r : BasicReplicator) (i : nat).

(** The reference of an entity at the local registry *)
Definition dst (e : Entity) : option string :=
  ParseReference (br_useUnsecure r) (image_ref (br_remoteRegistryURL r) e).
Definition refs (l : list Entity) (ref : string) : Prop := exists e, e ∈ l /\ dst e = Some ref.
Definition owned (l : list Entity) : Prop := forall ref, refs l ref -> own i ref.

(** The source registry answered [img] for the entity at some time. *)
Definition sourced (e : Entity) (img : image) : Prop :=
  exists src desc st st',
    ParseReference (br_useUnsecure r) (image_ref (br_sourceRegistry r) e) = Some src /\
    (reg_exec _ (RemoteGet src (pullOpts r)) st).2 = inr desc /\
    (reg_exec _ (DescImage desc) st').2 = inr img.

Definition replicated (l : list Entity) (ref digest : string) : Prop :=
  exists e img, e ∈ l /\ dst e = Some ref /\ sourced e img /\ digest = oci_digest img.

Definition others_as (w : SWorld) (touched : string -> Prop) (w' : SWorld) : Prop :=
  slot_of w' i = slot_of w i /\
  forall ref, own i ref -> ~ touched ref -> held (sw_reg w') ref = held (sw_reg w) ref.

(** [w] with the images of [l] deleted *)
Definition deleted (l : list Entity) (w w' : SWorld) : Prop :=
  others_as w (refs l) w' /\ forall ref, refs l ref -> held (sw_reg w') ref = None.

(** [w] with the images of [l] replicated *)
Definition mirrored (l : list Entity) (w w' : SWorld) : Prop :=
  others_as w (refs l) w' /\
  forall ref, refs l ref -> exists digest, held (sw_reg w') ref = Some digest /\ replicated l ref digest.

Lemma image_refs_snoc l e ref : refs (l ++ [e]) ref <-> refs l ref \/ dst e = Some ref.
Proof.
  unfold refs. split.
  - intros (x & Hx & Hd). apply elem_of_app in Hx as [Hx|Hx]; [left; eauto|right].
    by apply list_elem_of_singleton in Hx as ->.
  - intros [(x & Hx & Hd)|Hd]; [exists x|exists e]; split; try done; apply elem_of_app; [by left|right].
    by apply list_elem_of_singleton.
Qed.

Lemma owned_app l l' : owned (l ++ l') <-> owned l /\ owned l'.
Proof.
  unfold owned, refs. split.
  - intros Ho. split; intros ref (e & He & Hd); apply Ho; exists e; split; try done; apply elem_of_app; auto.
  - intros [Ha Hb] ref (e & He & Hd). apply elem_of_app in He as [He|He]; eauto.
Qed.

Lemma kept_others w touched w1 w2 : others_as w touched w1 -> kept i w1 w2 -> others_as w touched w2.
Proof.
  intros [Hs Ho] [[Hh _] Hk]. split; [congruence|]. intros ref Hr Ht. rewrite Hh by done. by apply Ho.
Qed.

Lemma others_mono w (t t' : string -> Prop) w' : (forall ref, t ref -> t' ref) -> others_as w t w' -> others_as w t' w'.
Proof. intros Ht [Hs Ho]. split; [done|]. intros ref Hr Hn. apply Ho; auto. Qed.

Lemma kept_deleted l w w1 w2 : owned l -> deleted l w w1 -> kept i w1 w2 -> deleted l w w2.
Proof.
  intros Hl [Ho Hd] Hk. split; [by eapply kept_others|]. intros ref Hr. destruct Hk as [[Hh _] _].
  rewrite Hh by auto. auto.
Qed.

Lemma kept_mirrored l w w1 w2 : owned l -> mirrored l w w1 -> kept i w1 w2 -> mirrored l w w2.
Proof.
  intros Hl [Ho Hd] Hk. split; [by eapply kept_others|]. intros ref Hr. destruct Hk as [[Hh _] _].
  rewrite Hh by auto. auto.
Qed.

Lemma delete_entity_spec l e w w' (Q : result unit -> SWorld -> Prop) :
  owned (l ++ [e]) -> deleted l w w' ->
  (forall w2, deleted (l ++ [e]) w w2 -> Q (inr tt) w2) ->
  (forall err w2, others_as w (refs (l ++ [e])) w2 -> Q (inl err) w2) ->
  wpi i (delete_entity r e) Q w'.
Proof.
  intros Hown Hd Hok Herr. apply owned_app in Hown as [Hl He].
  assert (forall w2, others_as w (refs l) w2 -> others_as w (refs (l ++ [e])) w2) as Hmore.
  { intros w2. apply others_mono. intros ref Hr. apply image_refs_snoc. by left. }
  unfold delete_entity. apply wpi_bind, wp_passive; [apply passive_ctx|]. intros c w1 Hw1.
  apply (kept_deleted _ _ _ _ Hl Hd) in Hw1.
  destruct c as [err|]; [apply wp_ret; intros w2 Hw2; apply Herr, Hmore; by eapply kept_others, Hw2; destruct Hw1|].
  apply wp_op. intros w2 Hw2. apply (kept_deleted _ _ _ _ Hl Hw1) in Hw2 as [Ho Hgone].
  destruct (exec_registry (CraneDelete (image_ref (br_remoteRegistryURL r) e) (deleteOpts r)) w2) as (Hr & Hp & ->).
  assert (forall ref, local ref -> dst e <> Some ref ->
    held (sw_reg (exec_sop (Registry (CraneDelete (image_ref (br_remoteRegistryURL r) e) (deleteOpts r))) w2).1) ref
    = held (sw_reg w2) ref) as Hother.
  { intros ref Hl' Hne. rewrite Hr. by apply held_delete. }
  split.
  - destruct Hp as [Hp Hcm]. intros j Hj. split; [|unfold slot_of; by rewrite Hp].
    split; [|unfold harbor; by rewrite Hcm]. intros ref Hr'. apply Hother; [eauto|].
    intros Hd'. apply Hj. symmetry. apply (own_disjoint i j ref); [|done]. apply He. exists e. split; [set_solver|done].
  - set (w3 := (exec_sop _ w2).1) in *.
    assert (others_as w (refs (l ++ [e])) w3) as Ho3.
    { destruct Ho as [Hs Ho]. destruct Hp as [Hp _]. split; [unfold slot_of in *; by rewrite Hp|]. intros ref Hown Hn.
      rewrite Hother; [apply Ho; [done|]|eauto|]; intros Hx; apply Hn, image_refs_snoc; auto. }
    intros w4 Hw4. pose proof (kept_others _ _ _ _ Ho3 Hw4) as Ho4.
    destruct (reg_exec unit _ (sw_reg w2)).2 as [m|[]] eqn:E; [by apply Herr|]. apply Hok.
    apply (kept_deleted _ _ w3); [by apply owned_app| |done]. split; [done|].
    intros ref [Hin|Hd']%image_refs_snoc; [|rewrite Hr; eapply held_deleted; [|exact Hd'|exact E]].
    + destruct (decide (dst e = Some ref)) as [Hd'|Hne]; [rewrite Hr; eapply held_deleted; [|exact Hd'|exact E]; eauto|].
      rewrite Hother by eauto. by apply Hgone.
    + apply (own_local i), He. exists e. split; [set_solver|done].
Qed.

(** A loop over entities: what it did so far, and what may be seen after an
    error *)
Lemma loop_spec (f : Entity -> act (result unit)) (P : list Entity -> SWorld -> Prop) (Err : SWorld -> Prop)
    l w (Q : result unit -> SWorld -> Prop) :
  (forall done e rest w' (Q' : result unit -> SWorld -> Prop), l = done ++ e :: rest -> P done w' ->
     (forall w2, P (done ++ [e]) w2 -> Q' (inr tt) w2) -> (forall err w2, Err w2 -> Q' (inl err) w2) ->
     wpi i (f e) Q' w') ->
  (forall w1 w2, P l w1 -> kept i w1 w2 -> P l w2) -> (forall w1 w2, Err w1 -> kept i w1 w2 -> Err w2) ->
  (forall w', P l w' -> Q (inr tt) w') -> (forall err w', Err w' -> Q (inl err) w') ->
  P [] w -> wpi i (for_each (fun e _ => f e) l tt) Q w.
Proof.
  intros Hstep HP HE Hok Herr Hnil.
  eapply (wp_for_each _ _ _ _ l tt (fun rest _ w' => exists done, l = done ++ rest /\ P done w')).
  - intros e rest [] w' (done & Hl & Hp). apply (Hstep done e rest); [done..| |].
    + intros w2 Hw2. exists (done ++ [e]). split; [by rewrite <- (assoc_L (++))|done].
    + intros err w2 Hw2. apply wp_ret. eauto.
  - intros [] w' (done & -> & Hp). apply wp_ret. rewrite app_nil_r in *. eauto.
  - by exists [].
Qed.

Lemma owned_front l done e rest : l = done ++ e :: rest -> owned l -> owned (done ++ [e]).
Proof.
  intros ->. rewrite (assoc_L (++) done [e] rest : done ++ e :: rest = _). by intros [? _]%owned_app.
Qed.

Lemma others_front l done e rest w w' : l = done ++ e :: rest ->
  others_as w (refs (done ++ [e])) w' -> others_as w (refs l) w'.
Proof.
  intros ->. apply others_mono. intros ref (x & Hx & Hd). exists x. split; [|done]. set_solver.
Qed.

Lemma DeleteReplicationEntity_spec l w (Q : result unit -> SWorld -> Prop) :
  owned l ->
  (forall w', deleted l w w' -> Q (inr tt) w') ->
  (forall err w', others_as w (refs l) w' -> Q (inl err) w') ->
  wpi i (DeleteReplicationEntity r l) Q w.
Proof.
  intros Hl Hok Herr.
  apply (loop_spec _ (fun done w' => deleted done w w') (fun w' => others_as w (refs l) w')); try done.
  - intros done e rest w' Q' Heq Hd Hok' Herr'.
    apply (delete_entity_spec done e w); [by eapply owned_front|done..|]. eauto using others_front.
  - intros w1 w2. by apply kept_deleted.
  - intros w1 w2. apply kept_others.
  - split; [by split|]. by intros ref (e & He%elem_of_nil & _).
Qed.

(** *** Replication *)
Lemma others_snoc l e w w' : others_as w (refs l) w' -> others_as w (refs (l ++ [e])) w'.
Proof. apply others_mono. intros ref Hr. apply image_refs_snoc. by left. Qed.

Lemma replicated_more l e ref d : replicated l ref d -> replicated (l ++ [e]) ref d.
Proof. intros (x & img & Hx & Hrest). exists x, img. split; [set_solver|done]. Qed.

(** Up to date already: the reference holds the image's digest. *)
Lemma mirrored_skip l e img ref w w' :
  mirrored l w w' -> dst e = Some ref -> sourced e img -> held (sw_reg w') ref = Some (oci_digest img) ->
  mirrored (l ++ [e]) w w'.
Proof.
  intros [Ho Hm] Hd Hs Hh. split; [by apply others_snoc|]. intros ref' [Hr|Hr]%image_refs_snoc.
  - destruct (Hm ref' Hr) as (d & Hd' & Hrep). exists d. split; [done|]. by apply replicated_more.
  - rewrite Hd in Hr. injection Hr as <-. exists (oci_digest img). split; [done|].
    exists e, img. split; [set_solver|done].
Qed.

Lemma write_spec l e img ref w w' (Q : result unit -> SWorld -> Prop) :
  owned (l ++ [e]) -> mirrored l w w' -> dst e = Some ref -> sourced e img ->
  (forall w2, mirrored (l ++ [e]) w w2 -> Q (inr tt) w2) ->
  (forall err w2, others_as w (refs (l ++ [e])) w2 -> Q (inl err) w2) ->
  wpi i (registry (RemoteWrite ref img (pushOpts r))) Q w'.
Proof.
  intros Hown Hm Hd Hsrc Hok Herr. apply wpi_op. intros w2 Hw2.
  pose proof Hown as [Hl He]%owned_app.
  assert (own i ref) as Hi by (apply He; exists e; split; [set_solver|done]).
  apply (kept_mirrored _ _ _ _ Hl Hm) in Hw2 as [Ho Hheld].
  destruct (exec_registry (RemoteWrite ref img (pushOpts r)) w2) as (Hr & Hp & ->).
  assert (forall ref', local ref' -> ref' <> ref ->
    held (sw_reg (exec_sop (Registry (RemoteWrite ref img (pushOpts r))) w2).1) ref' = held (sw_reg w2) ref') as Hother.
  { intros ref' Hl' Hne. rewrite Hr. by apply held_write. }
  split.
  - destruct Hp as [Hp Hcm]. intros j Hj. split; [|unfold slot_of; by rewrite Hp].
    split; [|unfold harbor; by rewrite Hcm]. intros ref' Hr'. apply Hother; [eauto|].
    intros ->. apply Hj. by apply (own_disjoint j i ref).
  - set (w3 := (exec_sop _ w2).1) in *.
    assert (others_as w (refs (l ++ [e])) w3) as Ho3.
    { destruct Ho as [Hs Ho]. destruct Hp as [Hp _]. split; [unfold slot_of in *; by rewrite Hp|]. intros ref' Hown' Hn.
      rewrite Hother; [apply Ho; [done|]|eauto|].
      - intros Hx. apply Hn, image_refs_snoc. by left.
      - intros ->. apply Hn, image_refs_snoc. by right. }
    intros w4 Hw4. pose proof (kept_others _ _ _ _ Ho3 Hw4) as Ho4.
    destruct (reg_exec unit _ (sw_reg w2)).2 as [m|[]] eqn:E; [by apply Herr|]. apply Hok.
    apply (kept_mirrored _ _ w3); [done| |done]. split; [done|]. intros ref' Hin.
    destruct (decide (ref' = ref)) as [->|Hne].
    + exists (oci_digest img). split; [rewrite Hr; by apply held_written; [eauto|]|].
      exists e, img. split; [set_solver|done].
    + apply image_refs_snoc in Hin as [Hin|Hin]; [|congruence].
      destruct (Hheld ref' Hin) as (d & Hd' & Hrep). exists d.
      split; [by rewrite Hother by eauto|by apply replicated_more].
Qed.

Lemma passive_count ref layers : passive (countMissingLayers r ref layers).
Proof.
  unfold countMissingLayers. apply passive_bind; [by apply passive_registry|]. intros [e|img]; [done|].
  apply passive_bind; [by apply passive_registry|]. by intros [e|l].
Qed.

Lemma replicate_entity_spec l e w w' (Q : result unit -> SWorld -> Prop) :
  owned (l ++ [e]) -> mirrored l w w' ->
  (forall w2, mirrored (l ++ [e]) w w2 -> Q (inr tt) w2) ->
  (forall err w2, others_as w (refs (l ++ [e])) w2 -> Q (inl err) w2) ->
  wpi i (replicate_entity r e) Q w'.
Proof.
  intros Hown Hm Hok Herr. pose proof Hown as [Hl He]%owned_app.
  assert (forall err w1, mirrored l w w1 -> wpi i (throw err) Q w1) as Hfail.
  { intros err w1 Hm1 w2 Hw2. apply Herr, others_snoc. by destruct (kept_mirrored _ _ _ _ Hl Hm1 Hw2). }
  unfold replicate_entity. apply wpi_bind, wp_passive; [apply passive_ctx|]. intros c w1 Hw1.
  apply (kept_mirrored _ _ _ _ Hl Hm) in Hw1. destruct c as [err|]; [by apply Hfail|].
  unfold parse_ref. destruct (ParseReference _ (image_ref (br_sourceRegistry r) e)) as [src|] eqn:Esrc;
    [|by apply Hfail].
  change (ParseReference _ (image_ref (br_remoteRegistryURL r) e)) with (dst e).
  destruct (dst e) as [ref|] eqn:Edst; [|by apply Hfail]. cbn [try bind].
  apply wpi_try, wp_request; [done|]. intros u1 w2 Hu1 Hw2.
  apply (kept_mirrored _ _ _ _ Hl Hw1) in Hu1. apply (kept_mirrored _ _ _ _ Hl Hu1) in Hw2.
  destruct (reg_exec _ (RemoteGet src (pullOpts r)) _).2 as [m|desc] eqn:Edesc; [by apply Hfail|].
  apply wpi_try, wp_request; [done|]. intros u2 w3 Hu2 Hw3.
  apply (kept_mirrored _ _ _ _ Hl Hw2) in Hu2. apply (kept_mirrored _ _ _ _ Hl Hu2) in Hw3.
  destruct (reg_exec _ (DescImage desc) _).2 as [m|img] eqn:Eimg; [by apply Hfail|].
  assert (sourced e img) as Hsrc by (exists src, desc, (sw_reg u1), (sw_reg u2); done).
  apply wpi_try, wp_request; [done|]. intros u3 w4 Hu3 Hw4.
  apply (kept_mirrored _ _ _ _ Hl Hw3) in Hu3. apply (kept_mirrored _ _ _ _ Hl Hu3) in Hw4.
  destruct (reg_exec _ (OCIDigest img) _).2 as [m|digest] eqn:Edig; [by apply Hfail|].
  apply held_digest in Edig as ->. apply wpi_bind, wp_request; [done|]. intros u4 w5 Hu4 Hw5.
  pose proof Hw5 as [[Hsame _] _].
  apply (kept_mirrored _ _ _ _ Hl Hw4) in Hu4. apply (kept_mirrored _ _ _ _ Hl Hu4) in Hw5.
  assert (own i ref) as Hi by (apply He; exists e; split; [set_solver|done]).
  assert (wpi i (push_image r ref img) Q w5) as Hpush.
  { unfold push_image. apply wpi_try, wp_request; [done|]. intros u5 w6 Hu5 Hw6.
    apply (kept_mirrored _ _ _ _ Hl Hw5) in Hu5. apply (kept_mirrored _ _ _ _ Hl Hu5) in Hw6.
    destruct (reg_exec _ (OCILayers img) _).2 as [m|layers]; [by apply Hfail|].
    apply wpi_bind, wp_passive; [apply passive_count|]. intros n w7 Hw7.
    apply (kept_mirrored _ _ _ _ Hl Hw6) in Hw7. by eapply write_spec. }
  destruct (reg_exec _ (RemoteHead ref (pushOpts r)) _).2 as [m|d] eqn:Ehead; [done|].
  destruct (String.eqb_spec d (oci_digest img)) as [->|]; [|done].
  apply held_head in Ehead; [|eauto]. rewrite <- Hsame in Ehead by done.
  intros w6 Hw6. apply Hok. apply (kept_mirrored _ _ w5); [done| |done]. by eapply mirrored_skip.
Qed.

Lemma Replicate_spec l w (Q : result unit -> SWorld -> Prop) :
  owned l ->
  (forall w', mirrored l w w' -> Q (inr tt) w') ->
  (forall err w', others_as w (refs l) w' -> Q (inl err) w') ->
  wpi i (Replicate r l) Q w.
Proof.
  intros Hl Hok Herr.
  apply (loop_spec _ (fun done w' => mirrored done w w') (fun w' => others_as w (refs l) w')); try done.
  - intros done e rest w' Q' Heq Hm Hok' Herr'.
    apply (replicate_entity_spec done e w); [by eapply owned_front|done..|]. eauto using others_front.
  - intros w1 w2. by apply kept_mirrored.
  - intros w1 w2. apply kept_others.
  - split; [by split|]. by intros ref (e & He%elem_of_nil & _).
Qed.

End Loops.

(* ------------------------------------------------------------------ *)
(** ** One group *)

(** A document the artifact at an address can hold *)
Definition published (url : string) (doc : State) : Prop :=
  exists o st img st' files damaged,
    (reg_exec _ (CranePull url o) st).2 = inr img /\
    (reg_exec _ (CraneExport img) st').2 = inr (files, damaged) /\
    find_artifacts (fun text => Unmarshal dec_document text no_document) files damaged = inr doc.

(** A state of the group at [url], whatever the credentials *)
Definition group_state (override url : string) (s : State) : Prop :=
  exists username password insecure f doc,
    getStateFetcherForInput (overridden url override) username password insecure = inr f /\
    published (uf_url f) doc /\ ProcessState doc = Some s.

Lemma fetch_spec i f (Q : result State -> SWorld -> Prop) w :
  (forall x w', kept i w w' ->
     (forall s, x = inr s -> exists doc, published (uf_url f) doc /\ ProcessState doc = Some s) -> Q x w') ->
  wpi i (FetchAndProcessState f) Q w.
Proof.
  intros HQ. unfold FetchAndProcessState.
  assert (forall e w', kept i w w' -> wpi i (throw e) Q w') as Hfail.
  { intros e w' Hw w2 Hw2. apply HQ; [by transitivity w'|done]. }
  apply wpi_try. unfold fetchGroupState, FetchStateArtifact, extractArtifactJSON.
  apply wpi_try, wp_request; [done|]. intros u1 w1 Hu1 Hw1.
  pose proof (transitivity Hu1 Hw1 : kept i w w1) as K1.
  destruct (reg_exec _ (CranePull _ _) _).2 as [m|img] eqn:Epull.
  { intros w2 Hw2. apply Hfail. by transitivity w1. }
  apply wpi_try, wp_request; [done|]. intros u2 w2 Hu2 Hw2.
  pose proof (transitivity (transitivity K1 Hu2) Hw2 : kept i w w2) as K2.
  destruct (reg_exec _ (CraneExport img) _).2 as [m|[files damaged]] eqn:Eexp.
  { intros w3 Hw3. apply Hfail. by transitivity w2. }
  intros w3 Hw3. pose proof (transitivity K2 Hw3 : kept i w w3) as K3.
  destruct (find_artifacts _ files damaged) as [e|doc] eqn:Efind; [by apply Hfail|].
  destruct (ProcessState doc) as [s|] eqn:Eproc; [|by apply Hfail].
  intros w4 Hw4. apply HQ; [by transitivity w3|]. intros s' [= <-]. exists doc. split; [|done].
  by eexists _, _, _, _, _, _.
Qed.

Lemma passive_group_url url : passive (group_url url).
Proof. unfold group_url. apply passive_bind; [apply passive_locked; keeps|done]. Qed.

Lemma group_url_spec i url (Q : string -> SWorld -> Prop) w :
  (forall w', kept i w w' -> Q (overridden url (harbor w)) w') -> wpi i (group_url url) Q w.
Proof.
  intros HQ. unfold group_url. apply wpi_bind, wpi_op. intros w1 Hw1.
  change (locked GetHarborRegistryURL) with (perform (Locked GetHarborRegistryURL)).
  assert (forall j, kept j w1 (exec_sop (Locked GetHarborRegistryURL) w1).1) as Hk.
  { intros j. destruct (passive_locked GetHarborRegistryURL) as [Hk _]; [keeps|apply Hk]. }
  split; [intros j _; apply Hk|]. intros w2 Hw2 w3 Hw3.
  change (exec_sop (Locked GetHarborRegistryURL) w1).2 with (harbor w1).
  destruct Hw1 as [[Hh Ho] Hs]. rewrite Ho. apply HQ. transitivity w1; [by split|].
  etransitivity; [apply Hk|]. by transitivity w2.
Qed.

Lemma passive_file {A} (o : base A) : match o with SetProc _ | SetCm _ => False | _ => True end -> passive (file_op o).
Proof. intros Ho. by apply passive_locked, keeps_op. Qed.

Lemma keeps_load d : keeps_proc (loadDigestMap d).
Proof. unfold loadDigestMap. keeps. Qed.

Lemma keeps_merge d u : keeps_proc (merge_updates d u).
Proof. pose proof (keeps_load d). unfold merge_updates, saveDigestMap, throw. keeps. Qed.

Lemma keeps_forget d u : keeps_proc (forget d u).
Proof. pose proof (keeps_load d). unfold forget, saveDigestMap. keeps. Qed.

(** Passive programs piece by piece *)
Ltac passive_tac := repeat first
  [ exact I
  | apply passive_ctx
  | apply passive_for_each; intros
  | apply passive_file; exact I
  | apply passive_registry; exact I
  | apply passive_locked; solve [auto with keeps]
  | apply passive_bind; [|intros]
  | match goal with
    | |- passive (if ?b then _ else _) => destruct b
    | |- passive (match ?x with _ => _ end) => destruct x
    end ].

Lemma passive_deliver del rep : passive (deliver_changes del rep).
Proof.
  pose proof keeps_load. pose proof keeps_merge. pose proof keeps_forget.
  unfold deliver_changes, Delete, Deliver, remove_entity, deliver_entity, writeAtomically, discard,
    get_proc, try, throw, ok, wrap.
  passive_tac. apply passive_locked. keeps.
Qed.

(** *** The changes made for a group *)
Definition synced (r : BasicReplicator) (i : nat) (del rep : list Entity) (w w' : SWorld) : Prop :=
  forall ref, own i ref ->
    (refs r rep ref -> exists digest, held (sw_reg w') ref = Some digest /\ replicated r rep ref digest) /\
    (~ refs r rep ref -> refs r del ref -> held (sw_reg w') ref = None) /\
    (~ refs r rep ref -> ~ refs r del ref -> held (sw_reg w') ref = held (sw_reg w) ref).

Lemma kept_synced r i del rep w w1 w2 : synced r i del rep w w1 -> kept i w1 w2 -> synced r i del rep w w2.
Proof. intros Hs [[Hh _] _] ref Hr. rewrite Hh by done. by apply Hs. Qed.

Lemma refs_app r l l' ref : refs r (l ++ l') ref <-> refs r l ref \/ refs r l' ref.
Proof.
  unfold refs. split.
  - intros (e & He & Hd). apply elem_of_app in He as [He|He]; eauto.
  - intros [(e & He & Hd)|(e & He & Hd)]; exists e; (split; [apply elem_of_app; auto|done]).
Qed.

Lemma apply_changes_spec r i url del rep w (Q : result unit -> SWorld -> Prop) :
  owned r i (del ++ rep) ->
  (forall w', slot_of w' i = slot_of w i -> synced r i del rep w w' -> Q (inr tt) w') ->
  (forall err w', others_as i w (refs r (del ++ rep)) w' -> Q (inl err) w') ->
  wpi i (apply_changes r url del rep) Q w.
Proof.
  intros [Hd Hr]%owned_app Hok Herr. unfold apply_changes.
  assert (forall w', others_as i w (refs r del) w' -> others_as i w (refs r (del ++ rep)) w') as Hdel.
  { intros w'. apply others_mono. intros ref Hin. apply refs_app. by left. }
  assert (forall err msg w', others_as i w (refs r (del ++ rep)) w' -> wpi i (wrap msg err : act (result unit)) Q w') as Hfail.
  { intros err msg w' Ho w2 Hw2. apply Herr. by eapply kept_others. }
  apply wpi_try, DeleteReplicationEntity_spec; [done| |intros err w' Ho; by apply Hfail, Hdel].
  intros w1 Hw1. apply wpi_try, Replicate_spec; [done| |].
  - intros w2 [[Hs2 Ho2] Hm2] w3 Hw3. destruct Hw1 as [[Hs1 Ho1] Hg1]. apply Hok.
    + destruct Hw3 as [_ Hs3]. congruence.
    + eapply kept_synced; [|exact Hw3]. intros ref Hown. split_and!.
      * apply Hm2.
      * intros Hn Hin. rewrite Ho2 by done. by apply Hg1.
      * intros Hn Hn'. rewrite Ho2 by done. by apply Ho1.
  - intros err w2 Ho2. apply Hfail. destruct Hw1 as [[Hs1 Ho1] Hg1]. destruct Ho2 as [Hs2 Ho2].
    split; [congruence|]. intros ref Hown Hn. rewrite refs_app in Hn. rewrite Ho2 by tauto. apply Ho1; tauto.
Qed.

Lemma record_spec i new w sm (Q : unit -> SWorld -> Prop) :
  slot_of w i = Some sm ->
  (forall w', slot_of w' i = Some (mkStateMap (sm_url sm) (Some new) (FetchEntitiesFromState new)) ->
     (forall ref, own i ref -> held (sw_reg w') ref = held (sw_reg w) ref) -> Q tt w') ->
  wpi i (locked (perform (SetProc (set_slot i new)) ;;; persist)) Q w.
Proof.
  intros Hs HQ. apply wpi_op. intros w1 Hw1. cbn [exec_sop].
  set (w2 := (frun (@exec_base _) (perform (SetProc (set_slot i new)) ;;; persist) w1).1).
  assert (sw_reg w2 = sw_reg w1) as Hreg by apply base_reg.
  assert (sw_proc w2 = set_slot i new (sw_proc w1) /\ sw_cm w2 = sw_cm w1) as [Hproc Hcm].
  { unfold w2. rewrite frun_bind. cbn -[persist].
    pose proof (keeps_persist (s_tick (s_proc (set_slot i new (sw_proc w1)) w1))) as Hk.
    split; [by apply (f_equal fst) in Hk|by apply (f_equal snd) in Hk]. }
  destruct Hw1 as [[Hh1 _] Hs1]. split.
  - intros j Hj. split; [unfold harbor; by rewrite Hreg, Hcm|]. unfold slot_of. rewrite Hproc. cbn.
    by rewrite list_lookup_alter_ne.
  - intros w3 [[Hh3 _] Hs3]. destruct (frun _ _ w1).2. apply HQ.
    + rewrite Hs3. unfold slot_of. rewrite Hproc. cbn. rewrite list_lookup_alter_eq.
      change (fp_stateMap (sw_proc w1) !! i) with (slot_of w1 i). by rewrite Hs1, Hs.
    + intros ref Hr. by rewrite Hh3, Hreg, Hh1.
Qed.

(** The references of what is recorded for the group and of what it can be
    asked to hold are its own. *)
Definition covered (override : string) (r : BasicReplicator) (i : nat) (sm : StateMap) : Prop :=
  forall s del rep new, group_state override (sm_url sm) s ->
    GetChanges s (sm_Entities sm) = (del, rep, new) -> owned r i (del ++ rep).

Definition group_synced (r : BasicReplicator) (i : nat) (sm : StateMap) (w w' : SWorld) : Prop :=
  exists s del rep new, group_state (harbor w) (sm_url sm) s /\ GetChanges s (sm_Entities sm) = (del, rep, new) /\
    slot_of w' i = Some (mkStateMap (sm_url sm) (Some new) (FetchEntitiesFromState new)) /\
    synced r i del rep w w'.

Lemma process_group_spec r i sm u p ins w (Q : option goerr -> SWorld -> Prop) :
  slot_of w i = Some sm -> covered (harbor w) r i sm ->
  (forall w', group_synced r i sm w w' -> Q None w') ->
  (forall err w', slot_of w' i = Some sm -> Q (Some err) w') ->
  wpi i (process_group i (sm_url sm) u p ins r) Q w.
Proof.
  intros Hs Hc Hok Herr. unfold process_group.
  assert (forall err w', kept i w w' -> wpi i (Ret (Some err) : act (option goerr)) Q w') as Hfail.
  { intros err w' [_ Hw] w2 [_ Hw2]. apply Herr. congruence. }
  apply wpi_bind, group_url_spec. intros w1 Hw1. cbn [bind try].
  destruct (getStateFetcherForInput (overridden (sm_url sm) (harbor w)) u p ins) as [e|f] eqn:Ef; [by apply Hfail|].
  apply wpi_try, fetch_spec. intros x w2 Hw2 Hx. pose proof (transitivity Hw1 Hw2 : kept i w w2) as K2.
  destruct x as [e|s]; [by apply Hfail|]. destruct (Hx s eq_refl) as (doc & Hpub & Hproc).
  assert (group_state (harbor w) (sm_url sm) s) as Hgs by (by exists u, p, ins, f, doc).
  apply wpi_bind, wp_slot. intros w3 Hw3. pose proof (transitivity K2 Hw3 : kept i w w3) as K3.
  destruct K2 as [_ S2]. rewrite S2, Hs.
  destruct (GetChanges s (sm_Entities sm)) as [[del rep] new] eqn:Eg.
  apply wpi_try, (apply_changes_spec r i _ del rep w3); [by eapply Hc| |].
  - intros w4 Hs4 Hsync. apply wpi_bind, wp_passive; [apply passive_deliver|]. intros _ w5 Hw5.
    destruct K3 as [[Hh3 _] S3].
    apply wpi_bind, (record_spec i new w5 sm); [destruct Hw5; congruence|].
    intros w6 Hs6 Hh6 w7 Hw7. apply Hok. exists s, del, rep, new. split_and!; try done.
    + destruct Hw7 as [_ S7]. congruence.
    + apply (kept_synced r i del rep w w6); [|done]. apply (kept_synced _ _ _ _ _ _ _ Hsync) in Hw5.
      intros ref Hown. rewrite Hh6 by done. rewrite <- Hh3 by done. by apply Hw5.
  - intros err w4 [Hs4 _] w5 [_ Hs5]. apply Herr. destruct K3 as [_ S3]. congruence.
Qed.

End Sync.
