(* ===== verification/SyncDemo.v ===== *)
(** * A satellite with two groups

    A concrete world for the witnesses on synchronisation: a Harbor that does
    not change, with the state of the satellite "edge", two groups of one
    image each and a configuration, and an empty local registry. *)

From stdpp Require Import gmap relations.
From Stdlib Require Import Ascii.
From S2P Require Import Prelude Free Utf8 GoLib Json CryptoLib SatConfig SatState SatWorld SatDemo Device Secure Manager Replicator DirectDelivery SatPersist StateProcess.

#[local] Open Scope string_scope.
#[local] Open Scope list_scope.

Definition group_text (repository tag digest : string) : string :=
  Marshal (JObj [("registry", JStr "harbor"); ("artifacts", JArr [JObj [
    ("repository", JStr repository); ("tag", JArr [JStr tag]); ("labels", JNull);
    ("digest", JStr digest); ("deleted", JBool false)]])]).

Definition harbor_images : images := list_to_map [
  ("harbor/root", Marshal (JObj [("states", JArr [JStr "http://harbor/g0"; JStr "http://harbor/g1"]);
                                 ("config", JStr "http://harbor/cfg")]));
  ("harbor/g0", group_text "library/alpine" "3.20" "sha256:aa");
  ("harbor/g1", group_text "team/app" "v1" "sha256:bb");
  ("harbor/cfg", Marshal (JObj []));
  ("harbor/library/alpine:3.20", "alpine");
  ("harbor/team/app:v1", "app")].

Definition edge_config : Config :=
  mkConfig (mkStateConfig (mkRegistryCredentials "http://harbor" "robot" "pw") "http://harbor/root")
    (set_ac_LocalRegistryCredentials (mkRegistryCredentials "http://local" "" "") no_app) "".

Definition edge_manager : ConfigManager :=
  mkConfigManager edge_config "" "http://gc" false "/cfg/config.json" "/cfg/prev_config.json" false.

#[export] Instance edge_registries : Registries := demo_registries_of harbor_images.

Definition edge_world (l : list StateMap) (reg : images) : SWorld :=
  demo_world_of edge_manager (mkProcess false l "" "/cfg/state.json" None) ∅ reg.

Definition at_local (ref : string) : Prop := harbor_images !! ref = None.
#[export] Instance edge_local : LocalRegistry at_local := demo_local_of harbor_images at_local (fun _ H => H).

#[export] Instance edge_argon2 : Argon2 := fun pw salt _ _ _ _ => take 32 (pw ++ salt).
#[export] Instance edge_sha256 : Sha256 := fun bs => take 32 bs.
#[export] Instance edge_aes : AesGcm := {
  gcm_Seal key nonce p := p ++ key;
  gcm_Open key nonce c := Some (take (length c - length key) c) }.
#[export] Existing Instance SatConfig.demo_sat_env.
#[export] Existing Instance SatConfig.demo_net_url.
#[export] Existing Instance SatConfig.demo_go_quote.
#[export] Existing Instance key_order.

(** The goroutines one after the other *)
Fixpoint run_each (ts : list (act event)) (w : SWorld) : list event * SWorld :=
  match ts with
  | [] => ([], w)
  | p :: ts' => let '(w1, e) := srun p w in let '(es, w2) := run_each ts' w1 in (e :: es, w2)
  end.

Lemma run_one (pre post : list (act event)) p w :
  rtc (pstep (@exec_sop _)) (pre ++ p :: post, w) (pre ++ Ret (srun p w).2 :: post, (srun p w).1).
Proof.
  revert w. induction p as [e|R o k IH]; intros w; [done|].
  eapply rtc_l; [apply (pstep_op _ (length pre) R o k); by apply list_lookup_middle|].
  rewrite insert_app_r_alt, Nat.sub_diag by done. cbn [list_insert insert].
  unfold srun. cbn [frun]. specialize (IH (exec_sop o w).2 (exec_sop o w).1).
  unfold srun in IH. by destruct (exec_sop o w).
Qed.

Lemma run_each_schedule pre ts w :
  rtc (pstep (@exec_sop _)) (pre ++ ts, w) (pre ++ (Ret <$> (run_each ts w).1), (run_each ts w).2).
Proof.
  revert pre w. induction ts as [|p ts IH]; intros pre w; [done|].
  etrans; [apply (run_one pre ts p w)|]. cbn [run_each].
  destruct (srun p w) as [w1 e]. specialize (IH (pre ++ [Ret e]) w1).
  rewrite <- !(assoc_L (++)) in IH. cbn [fst snd]. destruct (run_each ts w1). exact IH.
Qed.
