(* ===== verification/GroupSync.v ===== *)
(** * A whole synchronisation

    The goroutines of one Execute together: every group that reports success
    was brought to its state, whatever the order of their steps. *)

From stdpp Require Import gmap relations.
From Stdlib Require Import Ascii.
From S2P Require Import Prelude Free Utf8 GoLib Json CryptoLib SatConfig SatState StateFacts SatWorld SatDemo Device Secure Manager Replicator DirectDelivery SatPersist StateProcess SyncFacts SyncDemo.

#[local] Open Scope string_scope.
#[local] Open Scope list_scope.

(* ------------------------------------------------------------------ *)
(** ** Collecting the results *)

Definition is_config (e : event) : bool := match e with ConfigResult _ => true | _ => false end.
Definition is_done (e : event) : bool := match e with Done _ => true | _ => false end.
Definition event_errors (e : event) : list goerr :=
  match e with
  | Done e => [e]
  | StateResult r => failure (sr_Cancelled r) (sr_Error r)
  | ConfigResult r => failure (cr_Cancelled r) (cr_Error r)
  end.

Definition counts (e : event) : nat := match e with StateResult _ => 1 | _ => 0 end.

Definition clean (n k : nat) (errs : list goerr) (events : list event) : Prop :=
  exists taken rest, events = taken ++ rest /\ errs = [] /\
    Forall (fun e => is_done e = false /\ event_errors e = []) taken /\
    (sum_list (counts <$> taken) + k = n)%nat.

Lemma clean_next n e k c errs events :
  is_done e = false ->
  (if (counts e + k =? n)%nat && c then Some (errs ++ event_errors e)
   else collectResults n (counts e + k) c (errs ++ event_errors e) events) = Some [] ->
  (collectResults n (counts e + k) c (errs ++ event_errors e) events = Some [] ->
   clean n (counts e + k) (errs ++ event_errors e) events) ->
  clean n k errs (e :: events).
Proof.
  intros Hd E IH. destruct (_ && _) eqn:Eb.
  - injection E as [-> Ee]%List.app_eq_nil. apply andb_prop in Eb as [Eb%Nat.eqb_eq _].
    exists [e], events. split_and!; [done..|by repeat constructor|cbn; lia].
  - destruct (IH E) as (taken & rest & -> & [-> Ee]%List.app_eq_nil & Hf & Hn).
    exists (e :: taken), rest. split_and!; [done..|by constructor|cbn; lia].
Qed.

(** Nothing reported means that no context was cancelled and enough results
    arrived, none of them a failure. *)
Lemma collect_clean n events k c errs :
  collectResults n k c errs events = Some [] -> clean n k errs events.
Proof.
  revert k c errs. induction events as [|e events IH]; intros k c errs E; [done|].
  destruct e as [err|r|r]; cbn [collectResults] in E; [done|..].
  - apply (clean_next n (StateResult r) k c); [done|exact E|]. apply IH.
  - apply (clean_next n (ConfigResult r) k true); [done|exact E|]. apply IH.
Qed.

Definition configs (e : event) : nat := match e with ConfigResult _ => 1 | _ => 0 end.

(** With a result from everyone the collection ends. *)
Lemma collect_all n events k (c : bool) errs :
  Forall (fun e => is_done e = false) events -> events <> [] ->
  (sum_list (counts <$> events) + k = n)%nat ->
  (sum_list (configs <$> events) + (if c then 1 else 0) = 1)%nat ->
  is_Some (collectResults n k c errs events).
Proof.
  revert k c errs. induction events as [|e events IH]; intros k c errs Hd Hne Hn Hc; [done|].
  apply Forall_cons in Hd as [Hd Hds].
  assert (forall (c' : bool) errs', (sum_list (configs <$> events) + (if c' then 1 else 0) = 1)%nat ->
    is_Some (if (counts e + k =? n)%nat && c' then Some errs'
             else collectResults n (counts e + k) c' errs' events)) as Hnext.
  { intros c' errs' Hc'. destruct (_ && _) eqn:Eb; [done|].
    destruct events as [|e' events']; [|apply IH; [done..| |done]; cbn in *; lia].
    cbn in *. destruct c'; [|lia]. rewrite andb_true_r in Eb. apply Nat.eqb_neq in Eb. lia. }
  destruct e as [err|r|r]; cbn [collectResults]; [done|..]; apply Hnext; cbn in Hc; destruct c; lia.
Qed.

(* ------------------------------------------------------------------ *)
(** ** The goroutines of one Execute *)

Lemma exists_last_or {A} (l : list A) : l = [] \/ exists l' x, l = l' ++ [x].
Proof. induction l as [|x l' _] using rev_ind; [by left|right; eauto]. Qed.

Section Runs.
Context `{Registries, Argon2, Sha256, AesGcm, SatEnv, NetUrl, GoQuote, RangeOrder}.
Context (local : string -> Prop) `{!LocalRegistry local}.
Context (own : nat -> string -> Prop).
Context (own_local : forall i r, own i r -> local r).
Context (own_disjoint : forall i j r, own i r -> own j r -> i = j).

Abbreviation kept := (kept local own).
Abbreviation guar := (guar local own).
Abbreviation wpi i := (wp (@exec_sop _) (kept i) (guar i)).
Abbreviation passive := (passive local own).

#[local] Instance kept_pre i : PreOrder (kept i).
Proof. apply kept_preorder. Qed.

(** What the result of a goroutine says *)
Definition outcome (r : BasicReplicator) (w : SWorld) (i : nat) (e : event) (w' : SWorld) : Prop :=
  match e with
  | Done _ => False
  | StateResult x => sr_Index x = i /\ sr_Cancelled x = false /\
      forall sm, slot_of w i = Some sm ->
        match sr_Error x with
        | None => group_synced local own r i sm w w'
        | Some _ => slot_of w' i = Some sm
        end
  | ConfigResult x => cr_Cancelled x = false
  end.

Lemma processGroupState_spec r i u p ins w sm :
  slot_of w i = Some sm -> covered own (harbor w) r i sm ->
  wpi i (let* x := processGroupState i u p ins r in Ret (StateResult x))
    (fun e w' => counts e = 1%nat /\ outcome r w i e w') w.
Proof.
  intros Hs Hc. apply wpi_bind; [done..|]. unfold processGroupState. apply wpi_bind; [done..|].
  eapply wp_slot; [done..|]. intros w1 Hw1. rewrite Hs.
  apply wpi_bind; [done..|].
  destruct Hw1 as [[Hh1 Ho1] S1]. rewrite <- Ho1 in Hc.
  assert (slot_of w1 i = Some sm) as Hs1 by congruence.
  eapply process_group_spec; [done..| |].
  - intros w2 (s & del & rep & new & Hg & Hch & Hs2 & Hsync) w3 Hw3 w4 Hw4. split; [done|].
    split_and!; [done..|]. intros sm' [= <-]%(eq_trans (eq_sym Hs)). exists s, del, rep, new.
    rewrite <- Ho1. split_and!; [done..| |].
    + destruct Hw3, Hw4. congruence.
    + apply (kept_synced local own r i del rep w w2 w4); [|by transitivity w3]. intros ref Hown.
      rewrite <- Hh1 by done. by apply Hsync.
  - intros err w2 Hs2 w3 [_ Hw3] w4 [_ Hw4]. split; [done|].
    split_and!; [done..|]. intros sm' [= <-]%(eq_trans (eq_sym Hs)). cbn. congruence.
Qed.

(** *** The configuration's goroutine *)
Lemma passive_set_proc f : (forall p, fp_stateMap (f p) = fp_stateMap p) ->
  passive (locked (perform (SetProc f) ;;; persist)).
Proof.
  intros Hf. split; [|done]. intros w j. cbn [exec_sop].
  unfold kept, SyncFacts.kept, slot_of, harbor. rewrite base_reg, frun_bind. cbn -[persist].
  pose proof (keeps_persist (s_tick (s_proc (f (sw_proc w)) w))) as Hk.
  rewrite (f_equal fst Hk : sw_proc _ = _), (f_equal snd Hk : sw_cm _ = _). cbn. by rewrite Hf.
Qed.

Lemma passive_reconcile url u p ins : passive (reconcileRemoteConfig url u p ins).
Proof.
  unfold reconcileRemoteConfig, reconcile_config, fetch_remote_config, install_config, group_url,
    FetchDigest, fetchConfigState, FetchStateArtifact, pullImage, extractArtifactJSON, get_proc,
    WritePrevConfigToDisk, WriteConfigToDisk, try, throw, wrap, ok.
  repeat first
    [ exact I
    | apply passive_set_proc; done
    | apply passive_locked; solve [keeps]
    | apply passive_registry; [done|exact I]
    | apply passive_bind; [|intros]
    | match goal with
      | |- passive (if ?b then _ else _) => destruct b
      | |- passive (match ?x with _ => _ end) => destruct x
      end ].
Qed.

Lemma config_thread_spec i url u p ins w :
  wpi i (let* x := reconcileRemoteConfig url u p ins in Ret (ConfigResult x))
    (fun e _ => counts e = 0%nat /\ configs e = 1%nat) w.
Proof.
  apply wpi_bind; [done..|]. apply wp_passive; [apply passive_reconcile|].
  intros x w' _ w2 _. by split.
Qed.

(** *** All of them *)
Section Threads.
Context (pl : Plan) (w : SWorld).
Abbreviation repl := (rp_replicator (pl_replication pl)).
Abbreviation n := (pl_groups pl).
Context (n_slots : n = length (fp_stateMap (sw_proc w))).
Context (all_covered : forall i sm, slot_of w i = Some sm -> covered own (harbor w) repl i sm).

Definition thread_post (i : nat) (e : event) (w' : SWorld) : Prop :=
  if (i <? n)%nat then counts e = 1%nat /\ configs e = 0%nat /\ outcome repl w i e w'
  else counts e = 0%nat /\ configs e = 1%nat.

Lemma threads_proved : proved (@exec_sop _) kept guar thread_post (threads pl, w).
Proof.
  intros i p Hi. cbn [fst snd] in *. unfold threads in Hi. apply lookup_app_Some in Hi as [Hi|[Hge Hi]].
  - apply list_lookup_fmap_Some in Hi as (j & -> & [-> Hlt]%lookup_seq). cbn [plus] in *.
    destruct (lookup_lt_is_Some_2 (fp_stateMap (sw_proc w)) i) as [sm Hs]; [lia|].
    eapply wp_mono, processGroupState_spec; [|exact Hs|by apply all_covered].
    intros e w' [Hc Ho]. unfold thread_post. destruct (Nat.ltb_spec i n); [|lia].
    split_and!; [done| |done]. by destruct e.
  - rewrite length_fmap, length_seq in *. apply list_lookup_singleton_Some in Hi as [Hi <-].
    eapply wp_mono, config_thread_spec. intros e w' He. unfold thread_post.
    destruct (Nat.ltb_spec i n); [lia|done].
Qed.

Lemma thread_result ts w' i e :
  rtc (pstep (@exec_sop _)) (threads pl, w) (ts, w') -> ts !! i = Some (Ret e) -> thread_post i e w'.
Proof.
  intros Hr Hi. eapply (parallel_result _ kept guar thread_post); [|apply threads_proved|exact Hr|exact Hi].
  intros i' j w1 w2 Hne Hg. by apply Hg.
Qed.

(** When enough results were taken, every group's is among them. *)
Lemma all_taken order taken ts w' :
  rtc (pstep (@exec_sop _)) (threads pl, w) (ts, w') ->
  NoDup order -> Forall2 (fun i e => ts !! i = Some (Ret e)) order taken ->
  sum_list (counts <$> taken) = n ->
  forall i, (i < n)%nat -> exists e, e ∈ taken /\ ts !! i = Some (Ret e).
Proof.
  intros Hr Hnd Hf Hn i Hi.
  assert (length (List.filter (fun j => (j <? n)%nat) order) = n) as Hlen.
  { transitivity (sum_list (counts <$> taken)); [|exact Hn]. clear Hnd Hn. induction Hf as [|j e order taken Hj Hf IH]; [done|].
    cbn -[Nat.ltb counts]. apply (thread_result ts w' j e Hr) in Hj. unfold thread_post in Hj.
    destruct (j <? n)%nat; cbn -[Nat.ltb counts]; destruct Hj as [-> _]; by rewrite IH. }
  assert (i ∈ List.filter (fun j => (j <? n)%nat) order) as Hin.
  { assert (List.filter (fun j => (j <? n)%nat) order ≡ₚ seq 0 n) as ->.
    - apply submseteq_length_Permutation; [|by rewrite Hlen, length_seq].
      apply NoDup_submseteq; [by apply NoDup_List_filter|].
      intros j [_ Hj%Nat.ltb_lt]%elem_of_List_filter. apply elem_of_seq. lia.
    - apply elem_of_seq. lia. }
  apply elem_of_List_filter in Hin as [[k Hk]%list_elem_of_lookup _].
  destruct (Forall2_lookup_l _ _ _ _ _ Hf Hk) as (e & He & Hts). exists e. split; [|done].
  by eapply list_elem_of_lookup_2.
Qed.

End Threads.

(* ------------------------------------------------------------------ *)
(** ** Before the goroutines *)

Definition same_map (w w' : SWorld) : Prop := fp_stateMap (sw_proc w') = fp_stateMap (sw_proc w).
Definition same_images (w w' : SWorld) : Prop :=
  (forall i ref, own i ref -> held (sw_reg w') ref = held (sw_reg w) ref) /\ harbor w' = harbor w.

#[local] Instance same_map_pre : PreOrder same_map.
Proof. split; [done|]. unfold same_map. intros ? ? ?. congruence. Qed.
#[local] Instance same_images_pre : PreOrder same_images.
Proof.
  split; [done|]. intros w1 w2 w3 [Ha Oa] [Hb Ob]. split; [|congruence]. intros i ref Ho. by rewrite (Hb i), (Ha i).
Qed.

Lemma images_locked {A} (m : free base A) : keeps_proc m -> within (@exec_sop _) same_images (locked m).
Proof.
  intros Hm. split; [|done]. intros w. cbn [exec_sop]. split; [intros i ref _; by rewrite base_reg|].
  unfold harbor. by rewrite (f_equal snd (Hm w) : sw_cm _ = _).
Qed.

Lemma images_set f : within (@exec_sop _) same_images (locked (perform (SetProc f))).
Proof. by split. Qed.

Lemma images_registry {R} (o : regop image R) :
  match o with RemoteWrite _ _ _ | CraneDelete _ _ => False | _ => True end ->
  within (@exec_sop _) same_images (registry o).
Proof.
  intros Ho. split; [|done]. intros w. destruct (exec_registry o w) as (Hr & [_ Hc] & _).
  split; [|unfold harbor; by rewrite Hc]. intros i ref Hi. rewrite Hr. apply held_other; eauto.
Qed.

Lemma images_ctx : within (@exec_sop _) same_images ctx_err.
Proof. by split. Qed.

Lemma map_keeps {A} (m : free base A) : keeps_proc m -> within (@exec_sop _) same_map (locked m).
Proof. intros Hm. split; [|done]. intros w. unfold same_map. cbn [exec_sop].
  by rewrite (f_equal fst (Hm w) : sw_proc _ = _). Qed.

Lemma map_set f : (forall p, fp_stateMap (f p) = fp_stateMap p) ->
  within (@exec_sop _) same_map (locked (perform (SetProc f))).
Proof. intros Hf. split; [|done]. intros w. apply Hf. Qed.

Lemma map_registry {R} (o : regop image R) : within (@exec_sop _) same_map (registry o).
Proof.
  split; [|done]. intros w. destruct (exec_registry o w) as (_ & [Hp _] & _). unfold same_map. by rewrite Hp.
Qed.

Lemma map_ctx : within (@exec_sop _) same_map ctx_err.
Proof. by split. Qed.

Ltac within_tac := repeat first
  [ exact I
  | apply images_ctx | apply map_ctx | apply images_set | apply images_locked; solve [keeps]
  | apply images_registry; exact I
  | apply map_registry
  | apply map_set; done
  | apply map_keeps; solve [keeps]
  | apply within_bind; [|intros]
  | match goal with
    | |- within _ _ (if ?b then _ else _) => destruct b
    | |- within _ _ (match ?x with _ => _ end) => destruct x
    | |- within _ _ (let '(_, _) := ?x in _) => destruct x
    end ].

Lemma prepare_images : within (@exec_sop _) same_images prepare.
Proof.
  unfold prepare, setupReplication, fetchSatelliteRootState, fetchSatelliteState, FetchStateArtifact, pullImage,
    extractArtifactJSON, get_proc, try, throw, wrap. within_tac.
Qed.

Lemma setup_map : within (@exec_sop _) same_map setupReplication.
Proof. unfold setupReplication. within_tac. Qed.

Lemma root_map url u p ins : within (@exec_sop _) same_map (fetchSatelliteRootState url u p ins).
Proof.
  unfold fetchSatelliteRootState, fetchSatelliteState, FetchStateArtifact, pullImage, extractArtifactJSON,
    try, throw, wrap. within_tac.
Qed.

Lemma srun_bind {A B} (m : act A) (f : A -> act B) w :
  srun (bind m f) w = srun (f (srun m w).2) (srun m w).1.
Proof. unfold srun. rewrite frun_bind. by destruct (frun _ m w). Qed.

Lemma same_map_run {A} (m : act A) w : within (@exec_sop _) same_map m -> same_map w (srun m w).1.
Proof. apply within_run, _. Qed.

(** The groups followed are updated from the satellite's state; each gets a
    goroutine. *)
Lemma prepare_inv w w1 pl :
  srun prepare w = (w1, inr pl) ->
  same_images w w1 /\ pl_groups pl = length (fp_stateMap (sw_proc w1)) /\
  exists states, fp_stateMap (sw_proc w1) = (updateStateMap (fp_stateMap (sw_proc w)) states).1.
Proof.
  intros E. assert (same_images w w1) as Himg.
  { change w1 with (w1, inr pl : option goerr + Plan).1. rewrite <- E. apply (within_run _ _ _ _ prepare_images). }
  split; [done|]. unfold prepare in E. rewrite srun_bind in E.
  destruct (srun ctx_err w).2 as [e|]; [done|]. rewrite srun_bind in E.
  assert (same_map w (srun ctx_err w).1) as M0 by (apply same_map_run, map_ctx).
  set (v0 := (srun ctx_err w).1) in *.
  assert (same_map w (srun setupReplication v0).1) as M1
    by (transitivity v0; [done|apply same_map_run, setup_map]).
  set (v1 := (srun setupReplication v0).1) in *. destruct (srun setupReplication v0).2 as [].
  cbn zeta in E. destruct (CanExecute _ _ _ _ _) as [[] reason]; [|done]. cbn [negb] in E.
  unfold try in E. rewrite srun_bind in E.
  match type of E with srun _ (srun ?m _).1 = _ =>
    assert (same_map w (srun m v1).1) as M2 by (transitivity v1; [done|apply same_map_run, root_map]);
    set (v2 := (srun m v1).1) in *; destruct (srun m v1).2 as [e|ss]; [done|] end.
  rewrite srun_bind in E.
  match type of E with srun _ (srun ?m _).1 = _ =>
    assert (same_map w (srun m v2).1) as M3 by (transitivity v2; [done|apply same_map_run, map_keeps; keeps]);
    set (v3 := (srun m v2).1) in *; set (override := (srun m v2).2) in * end.
  destruct (if String.eqb override "" then _ else _) as [ss'|]; [|done].
  rewrite srun_bind in E.
  match type of E with srun _ (srun ?m _).1 = _ =>
    assert (same_map w (srun m v3).1) as M4 by (transitivity v3; [done|apply same_map_run, map_keeps; keeps]);
    set (v4 := (srun m v3).1) in *; set (changed := (srun m v3).2) in * end.
  rewrite !srun_bind in E.
  match type of E with srun _ (srun _ (srun ?m (srun ?s _).1).1).1 = _ =>
    set (v5 := (srun s v4).1) in *;
    assert (same_map v5 (srun m v5).1) as M5
      by (apply same_map_run; destruct changed; [apply map_keeps; keeps|done]);
    set (v6 := (srun m v5).1) in * end.
  injection E as <- <-. cbn [pl_groups]. split; [done|].
  exists (SatState.slice (ss_States ss')). transitivity (fp_stateMap (sw_proc v5)); [exact M5|].
  change (fp_stateMap (sw_proc v5)) with (updateStateMap (fp_stateMap (sw_proc v4)) (SatState.slice (ss_States ss'))).1.
  by rewrite M4.
Qed.

(* ------------------------------------------------------------------ *)
(** ** Execute *)

Lemma execute_synced w w' :
  (forall w1 pl, srun prepare (srun start w).1 = (w1, inr pl) -> forall i sm, slot_of w1 i = Some sm ->
     covered own (harbor w1) (rp_replicator (pl_replication pl)) i sm) ->
  Execute w w' [] ->
  (exists w1, srun prepare (srun start w).1 = (w1, inl None)) \/
  exists w1 pl states, srun prepare (srun start w).1 = (w1, inr pl) /\
    fp_stateMap (sw_proc w1) = (updateStateMap (fp_stateMap (sw_proc w)) states).1 /\
    forall i sm, slot_of w1 i = Some sm -> group_synced local own (rp_replicator (pl_replication pl)) i sm w w'.
Proof.
  intros Hcov Hex. remember [] as errs eqn:Herrs.
  destruct Hex as [w1 r Hp|w1 pl ts w2 events cancelled errs Hp Hr Hrec Hcol].
  - left. exists w1. by destruct r.
  - right. subst errs. specialize (Hcov w1 pl Hp).
    destruct (prepare_inv _ _ _ Hp) as ([Himg Hharbor] & Hn & states & Hmap).
    exists w1, pl, states. split_and!; [done..|]. intros i sm Hs.
    apply collect_clean in Hcol as (taken & rest & Hev & _ & Hclean & Hcount). rewrite Nat.add_0_r in Hcount.
    destruct Hrec as (order & Hnd & Hf).
    assert (exists order', NoDup order' /\ Forall2 (fun i e => ts !! i = Some (Ret e)) order' taken) as (order' & Hnd' & Hf').
    { assert (exists more, events = taken ++ more) as [more ->].
      { destruct cancelled as [e|]; cbn in Hev; [|rewrite app_nil_r in Hev; eauto].
        destruct (exists_last_or rest) as [->|(rest' & x & ->)].
        - rewrite app_nil_r in Hev. rewrite <- Hev, Forall_app in Hclean. destruct Hclean as [_ Hd].
          by apply Forall_cons in Hd as [[] _].
        - rewrite app_assoc in Hev. apply app_inj_2 in Hev as [-> _]; [eauto|done]. }
      apply Forall2_app_inv_r in Hf as (o1 & o2 & Hf1 & _ & ->). exists o1. split; [|done].
      by apply NoDup_app in Hnd as (? & _). }
    destruct (all_taken pl w1 Hn Hcov order' taken ts w2 Hr Hnd' Hf' Hcount i) as (e & He & Hti);
      [rewrite Hn; unfold slot_of in Hs; by apply lookup_lt_Some in Hs|].
    apply (thread_result pl w1 Hn Hcov ts w2 i e Hr) in Hti.
    assert (i < pl_groups pl)%nat as Hlt by (rewrite Hn; unfold slot_of in Hs; by apply lookup_lt_Some in Hs).
    unfold thread_post in Hti. destruct (Nat.ltb_spec i (pl_groups pl)); [|lia].
    destruct Hti as (Hc & _ & Ho). rewrite Forall_forall in Hclean. destruct (Hclean e He) as [_ Hnone].
    destruct e as [|x|]; [done| |done]. destruct Ho as (_ & Hnc & Ho). specialize (Ho sm Hs).
    cbn in Hnone. rewrite Hnc in Hnone. destruct (sr_Error x); [done|].
    destruct Ho as (s & del & rep & new & Hg & Hch & Hslot & Hsync).
    exists s, del, rep, new. rewrite Hharbor in Hg. split_and!; [done..|]. intros ref Hown.
    pose proof (Himg i ref Hown) as Hsame.
    change (held (sw_reg (srun start w).1) ref) with (held (sw_reg w) ref) in Hsame.
    rewrite <- Hsame. by apply Hsync.
Qed.

(** C3. Suppose that no two groups share a reference of the local registry, in
    any state their artifacts can hold ([own], [covered]; without that see
    [shared_image_lost]).  When an Execute reports no error, it had nothing to
    do for lack of settings, or it followed the satellite's state and every
    group followed was brought to a state its artifact held: whatever the interleaving of the
    goroutines, each image to replicate is at the local registry with the
    digest of an image the source registry answered, each image to delete is
    gone, nothing else of the group changed, and the group's new entities are
    recorded. *)
Theorem execute_syncs w w' :
  (forall w1 pl, srun prepare (srun start w).1 = (w1, inr pl) -> forall i sm, slot_of w1 i = Some sm ->
     covered own (harbor w1) (rp_replicator (pl_replication pl)) i sm) ->
  Execute w w' [] ->
  (exists w1, srun prepare (srun start w).1 = (w1, inl None)) \/
  exists w1 pl states, srun prepare (srun start w).1 = (w1, inr pl) /\
    fp_stateMap (sw_proc w1) = (updateStateMap (fp_stateMap (sw_proc w)) states).1 /\
    forall i sm, slot_of w1 i = Some sm -> group_synced local own (rp_replicator (pl_replication pl)) i sm w w'.
Proof. exact (execute_synced w w'). Qed.

(* ------------------------------------------------------------------ *)
(** ** The local registry mirrors the group *)

(** Of the group's references exactly those of the entities hold an image. *)
Definition mirrors (r : BasicReplicator) (i : nat) (entities : list Entity) (w : SWorld) : Prop :=
  forall ref, own i ref -> is_Some (held (sw_reg w) ref) <-> refs r entities ref.

(** The registry tells apart what the entities tell apart. *)
Definition refs_distinct (r : BasicReplicator) (l : list Entity) : Prop :=
  forall e e' ref, e ∈ l -> e' ∈ l -> dst r e = Some ref -> dst r e' = Some ref -> image_of e = image_of e'.

Lemma dst_image r e e' : image_of e = image_of e' -> dst r e = dst r e'.
Proof. unfold dst, image_ref, image_of. intros [= -> -> ->]. done. Qed.

Lemma refs_images r l ref : refs r l ref <-> exists e, dst r e = Some ref /\ image_of e ∈ (image_of <$> l).
Proof.
  unfold refs. split.
  - intros (e & He & Hd). exists e. split; [done|]. by apply list_elem_of_fmap_2.
  - intros (e & Hd & (e' & Ei & He')%list_elem_of_fmap). exists e'. split; [done|].
    by rewrite <- (dst_image r e e' Ei).
Qed.

(** C4. A successful sync of a group turns a local registry that holds, under
    the group's references, exactly the images recorded for it into one that
    holds exactly the images its new state lists, when the names and the
    references tell the images apart. *)
Theorem sync_mirrors r i sm w w' :
  group_synced local own r i sm w w' ->
  exists s new, group_state (harbor w) (sm_url sm) s /\
    slot_of w' i = Some (mkStateMap (sm_url sm) (Some new) (FetchEntitiesFromState new)) /\
    let olds := SatState.slice (sm_Entities sm) in
    let news := SatState.slice (FetchEntitiesFromState new) in
    (NoDup (keys olds) -> NoDup (keys news) -> coherent (olds ++ news) -> refs_distinct r (olds ++ news) ->
     mirrors r i olds w -> mirrors r i news w').
Proof.
  intros (s & del & rep & new & Hg & Hch & Hslot & Hsync). exists s, new. split_and!; [done..|].
  intros olds news Ho Hn Hc Hdist Hm ref Hown.
  destruct (changes_images _ _ _ _ _ Hch Ho Hn Hc) as [Hdel Himg]. fold olds news in Hdel, Himg.
  destruct (Hsync ref Hown) as (Hrep & Hgone & Hsame). specialize (Hm ref Hown).
  destruct (decide (Exists (fun e => dst r e = Some ref) rep)) as [Hin|Hout].
  - apply Exists_exists in Hin as (e & He & Hd). assert (refs r rep ref) as Hr by (by exists e).
    destruct (Hrep Hr) as (d & Hd' & _). rewrite Hd'. split; [|by intros _; eexists].
    intros _. apply refs_images. exists e. split; [done|]. apply Himg. right. by apply list_elem_of_fmap_2.
  - assert (~ refs r rep ref) as Hr by (intros (e & He & Hd); apply Hout, Exists_exists; eauto).
    destruct (decide (Exists (fun e => dst r e = Some ref) del)) as [Hin2|Hout2].
    + apply Exists_exists in Hin2 as (e & He & Hd). rewrite Hgone by (done || by exists e).
      split; [by intros [? ?]|]. intros (n & Hdn & Hi)%refs_images. exfalso.
      apply Himg in Hi as [[Hi Hnd]|Hi].
      * apply Hnd. apply list_elem_of_fmap in Hi as (o & Eo & Ho').
        assert (image_of o = image_of e) as Eoe.
        { apply (Hdist o e ref); [set_solver|set_solver| |done]. by rewrite <- (dst_image r n o). }
        rewrite Eo, Eoe. by apply list_elem_of_fmap_2.
      * apply Hr, refs_images. eauto.
    + assert (~ refs r del ref) as Hr2 by (intros (e & He & Hd); apply Hout2, Exists_exists; eauto).
      rewrite Hsame by done. rewrite Hm, !refs_images. split.
      * intros (e & Hd & Hi). exists e. split; [done|]. apply Himg. left. split; [done|].
        intros Hi2. apply Hr2, refs_images. eauto.
      * intros (e & Hd & Hi). exists e. split; [done|]. apply Himg in Hi as [[Hi _]|Hi]; [done|].
        destruct Hr. apply refs_images. eauto.
Qed.

End Runs.

(* ------------------------------------------------------------------ *)
(** ** Execute ends *)

Section Ends.
Context `{Registries, Argon2, Sha256, AesGcm, SatEnv, NetUrl, GoQuote, RangeOrder}.

Lemma wp_any {A} (p : act A) w : wp (@exec_sop _) (fun _ _ => True) (fun _ _ => True) p (fun _ _ => True) w.
Proof. revert w. induction p as [a|R o k IH]; intros w; [done|]. intros w' _. split; [done|apply IH]. Qed.

#[local] Instance any_pre {W} : PreOrder (fun _ _ : W => True).
Proof. by split. Qed.

(** What kind of result a goroutine sends *)
Definition sends (pl : Plan) (i : nat) (e : event) (w : SWorld) : Prop :=
  is_done e = false /\
  counts e = (if (i <? pl_groups pl)%nat then 1 else 0)%nat /\
  configs e = (if (i <? pl_groups pl)%nat then 0 else 1)%nat.

Lemma threads_send pl w :
  proved (@exec_sop _) (fun _ _ _ => True) (fun _ _ _ => True) (sends pl) (threads pl, w).
Proof.
  intros i p Hi. cbn [fst snd] in *. unfold threads in Hi. apply lookup_app_Some in Hi as [Hi|[Hge Hi]].
  - apply list_lookup_fmap_Some in Hi as (j & -> & [-> Hlt]%lookup_seq). cbn [plus] in *.
    apply (wp_bind _ _ _). eapply wp_mono, wp_any. intros x w1 _ w2 _. unfold sends.
    destruct (Nat.ltb_spec i (pl_groups pl)); [done|lia].
  - rewrite length_fmap, length_seq in *. apply list_lookup_singleton_Some in Hi as [Hi <-].
    apply (wp_bind _ _ _). eapply wp_mono, wp_any. intros x w1 _ w2 _. unfold sends.
    destruct (Nat.ltb_spec i (pl_groups pl)); [lia|done].
Qed.

Lemma sum_perm {A} (f : A -> nat) l l' : l ≡ₚ l' -> sum_list (f <$> l) = sum_list (f <$> l').
Proof. induction 1; cbn; lia. Qed.

Lemma sends_total pl events : length events = S (pl_groups pl) ->
  (forall i e, events !! i = Some e -> is_done e = false /\
     counts e = (if (i <? pl_groups pl)%nat then 1 else 0)%nat /\
     configs e = (if (i <? pl_groups pl)%nat then 0 else 1)%nat) ->
  sum_list (counts <$> events) = pl_groups pl /\ sum_list (configs <$> events) = 1%nat.
Proof.
  generalize (pl_groups pl). intros n. revert events.
  induction n as [|n IH]; intros [|e events] Hl Hs; [done| |done|]; cbn in Hl; injection Hl as Hl.
  - destruct events; [|done]. destruct (Hs 0%nat e eq_refl) as (_ & Hc & Hk). cbn in *. lia.
  - destruct (Hs 0%nat e eq_refl) as (_ & Hc & Hk). cbn in Hc, Hk.
    destruct (IH events Hl) as [IHc IHk]; [intros i e' Hi; apply (Hs (S i) e' Hi)|]. cbn. lia.
Qed.

Lemma pstep_length st st' : pstep (@exec_sop _) st st' -> length st'.1 = length (st.1 : list (act event)).
Proof. intros [i R o k ts w Hi]. cbn. by rewrite length_insert. Qed.

Lemma schedule_length st st' : rtc (pstep (@exec_sop _)) st st' -> length st'.1 = length (st.1 : list (act event)).
Proof. induction 1 as [|x y z Hxy _ IH]; [done|]. rewrite IH. by apply pstep_length. Qed.

(** C20. No schedule of the goroutines goes on for ever; and when none of them
    can go on, each has sent its result, and in whatever order the results are
    received, Execute returns. *)
Theorem execute_ends pl w ts w' :
  rtc (pstep (@exec_sop _)) (threads pl, w) (ts, w') ->
  Acc (fun st' st => pstep (@exec_sop _) st st') (ts, w') /\
  ((forall st, ~ pstep (@exec_sop _) (ts, w') st) ->
   exists events, ts = Ret <$> events /\
     forall received, received ≡ₚ events ->
       is_Some (collectResults (pl_groups pl) 0 false [] received)).
Proof.
  intros Hr. split; [apply pstep_terminates|]. intros Hstuck.
  assert (exists events, ts = Ret <$> events) as [events ->].
  { destruct (pstep_progress (@exec_sop _) ts w') as [Hf|[st Hs]]; [|by destruct (Hstuck st)].
    clear Hr Hstuck. induction ts as [|p ts IH]; [by exists []|].
    destruct IH as [events ->]; [intros q Hq; apply Hf; by right|].
    destruct (Hf p) as [e ->]; [by left|]. by exists (e :: events). }
  exists events. split; [done|]. intros received Hp.
  assert (forall i e, events !! i = Some e -> sends pl i e w') as Hsend.
  { intros i e Hi. apply (parallel_result _ _ _ (sends pl) (fun _ _ _ _ _ _ => I) _ _ _ _ _ (threads_send pl w) Hr).
    by rewrite list_lookup_fmap, Hi. }
  destruct (sends_total pl events) as [Hc Hk].
  { apply schedule_length in Hr. cbn in Hr. rewrite length_fmap in Hr. rewrite Hr. unfold threads.
    rewrite length_app, length_fmap, length_seq. cbn. lia. }
  { intros i e Hi. by apply Hsend. }
  apply collect_all.
  - rewrite Forall_forall. intros e He. rewrite Hp in He. apply list_elem_of_lookup in He as [i Hi].
    by destruct (Hsend i e Hi).
  - intros ->. apply Permutation_nil in Hp. by subst.
  - rewrite (sum_perm _ _ _ Hp). lia.
  - rewrite (sum_perm _ _ _ Hp). lia.
Qed.

End Ends.

(* ------------------------------------------------------------------ *)
(** ** The satellite "edge" *)

Definition edge_own (i : nat) (ref : string) : Prop :=
  (i = 0%nat /\ ref = "local/library/alpine:3.20") \/ (i = 1%nat /\ ref = "local/team/app:v1").

Lemma edge_own_local i ref : edge_own i ref -> at_local ref.
Proof. intros [[_ ->]|[_ ->]]; by vm_compute. Qed.

Lemma edge_own_disjoint i j ref : edge_own i ref -> edge_own j ref -> i = j.
Proof. intros [[-> ->]|[-> ->]] [[-> E]|[-> E]]; done. Qed.

Definition edge_start : SWorld := (srun start (edge_world [] ∅)).1.
Definition edge_ready : SWorld := (srun prepare edge_start).1.
Definition edge_plan : Plan :=
  mkPlan (mkReplication (mkBasicReplicator false "robot" "pw" "harbor" "local" "" "") "harbor" "robot" "pw" "local"
    false "http://harbor/root") "http://harbor/cfg" 2.
Definition edge_events : list event := (run_each (threads edge_plan) edge_ready).1.
Definition edge_done : SWorld := (run_each (threads edge_plan) edge_ready).2.

Lemma edge_prepared : srun prepare edge_start = (edge_ready, inr edge_plan).
Proof. vm_compute. reflexivity. Qed.

Lemma edge_published url text doc :
  harbor_images !! url = Some text -> published url doc ->
  Unmarshal dec_document text no_document = Some doc.
Proof.
  intros Ht (o & st & img & st' & files & damaged & Hp & He & Hf).
  change ((held_or harbor_images st url).2 = inr img) in Hp. unfold held_or in Hp. rewrite Ht in Hp.
  change (inr ([("artifacts.json", img)], None) = (inr (files, damaged) : string + _)) in He.
  injection He as <- <-. injection Hp as <-. cbn [find_artifacts] in Hf.
  change (String.eqb "artifacts.json" "artifacts.json") with true in Hf. cbn iota in Hf.
  by destruct (Unmarshal dec_document text no_document) as [d|]; simplify_eq.
Qed.

Lemma edge_group_state url path text s :
  url = "http://" +:+ path -> Go.trim_prefix "http://" url = path -> Go.has_prefix "http://" url = true ->
  harbor_images !! path = Some text -> group_state "" url s ->
  exists doc, Unmarshal dec_document text no_document = Some doc /\ ProcessState doc = Some s.
Proof.
  intros -> Htrim Hpre Ht (u & p & ins & f & doc & Hf & Hp & Hs). exists doc. split; [|done].
  unfold getStateFetcherForInput, overridden, NewURLStateFetcher in Hf. cbn [String.eqb IsValidURL] in Hf.
  cbn -[Go.has_prefix Go.trim_prefix] in Hf. rewrite Hpre in Hf. injection Hf as <-.
  apply (edge_published path text); [done|]. cbn [uf_url] in Hp. by rewrite Htrim in Hp.
Qed.

(** Without looking at the worlds *)
Lemma prepared_inv w1 x : srun prepare edge_start = (w1, x) -> edge_ready = w1 /\ inr edge_plan = x.
Proof. rewrite edge_prepared. apply pair_equal_spec. Qed.

Lemma edge_launches w1 : srun prepare edge_start = (w1, inl None) -> False.
Proof.
  intros [_ E]%prepared_inv.
  exact (eq_ind (inr edge_plan) (fun x : option goerr + Plan => match x with inr _ => True | inl _ => False end) I (inl None) E).
Qed.

Lemma edge_launched w1 pl : srun prepare edge_start = (w1, inr pl) -> edge_ready = w1 /\ edge_plan = pl.
Proof.
  intros [Hw E]%prepared_inv. split; [exact Hw|].
  exact (f_equal (fun x : option goerr + Plan => match x with inr p => p | inl _ => edge_plan end) E).
Qed.

Lemma edge_covered i sm :
  slot_of edge_ready i = Some sm ->
  covered edge_own (harbor edge_ready) (rp_replicator (pl_replication edge_plan)) i sm.
Proof.
  assert (fp_stateMap (sw_proc edge_ready) =
    [mkStateMap "http://harbor/g0" None None; mkStateMap "http://harbor/g1" None None]) as Hm
    by (vm_compute; reflexivity).
  assert (harbor edge_ready = "") as -> by (vm_compute; reflexivity).
  unfold slot_of. rewrite Hm. intros Hi s del rep new Hg Hch.
  destruct i as [|[|i]]; cbn in Hi; [| |done]; injection Hi as <-.
  - apply (edge_group_state _ "harbor/g0" (group_text "library/alpine" "3.20" "sha256:aa")) in Hg
      as (doc & Hd & Hs); [|reflexivity..].
    vm_compute in Hd. injection Hd as <-. vm_compute in Hs. injection Hs as <-. vm_compute in Hch.
    injection Hch as <- <- <-. intros ref (e & He & Hr). apply list_elem_of_singleton in He as ->.
    vm_compute in Hr. injection Hr as <-. left. split; reflexivity.
  - apply (edge_group_state _ "harbor/g1" (group_text "team/app" "v1" "sha256:bb")) in Hg
      as (doc & Hd & Hs); [|reflexivity..].
    vm_compute in Hd. injection Hd as <-. vm_compute in Hs. injection Hs as <-. vm_compute in Hch.
    injection Hch as <- <- <-. intros ref (e & He & Hr). apply list_elem_of_singleton in He as ->.
    vm_compute in Hr. injection Hr as <-. right. split; reflexivity.
Qed.

Lemma edge_schedule :
  rtc (pstep (@exec_sop _)) (threads edge_plan, edge_ready) (Ret <$> edge_events, edge_done).
Proof.
  pose proof (run_each_schedule [] (threads edge_plan) edge_ready) as Hr.
  rewrite !(app_nil_l (A := act event)) in Hr. exact Hr.
Qed.

Lemma edge_executed : Execute (edge_world [] ∅) (srun stop edge_done).1 [].
Proof.
  apply (Execute_collects _ edge_ready edge_plan (Ret <$> edge_events) edge_done edge_events None).
  - apply edge_prepared.
  - apply edge_schedule.
  - exists [0; 1; 2]%nat. split; [repeat constructor; set_solver|].
    assert (length edge_events = 3%nat) as Hl by (vm_compute; reflexivity).
    destruct edge_events as [|e0 [|e1 [|e2 [|]]]]; try done. repeat constructor.
  - vm_compute. reflexivity.
Qed.

Lemma execute_syncs_witness :
  Execute (edge_world [] ∅) (srun stop edge_done).1 [] /\
  exists pl, srun prepare edge_start = (edge_ready, inr pl) /\
    forall i sm, slot_of edge_ready i = Some sm ->
      group_synced at_local edge_own (rp_replicator (pl_replication pl)) i sm (edge_world [] ∅) (srun stop edge_done).1.
Proof.
  split; [exact edge_executed|].
  destruct (execute_syncs at_local edge_own edge_own_local edge_own_disjoint (edge_world [] ∅) (srun stop edge_done).1)
    as [[w1 E]|(w1 & pl & states & E & _ & Hs)].
  - intros w1 pl E i sm. change (srun start (edge_world [] ∅)).1 with edge_start in E.
    apply edge_launched in E as [<- <-]. apply edge_covered.
  - exact edge_executed.
  - change (srun start (edge_world [] ∅)).1 with edge_start in E. destruct (edge_launches w1 E).
  - exists pl. change (srun start (edge_world [] ∅)).1 with edge_start in E.
    apply edge_launched in E as [<- <-]. split; [exact edge_prepared|exact Hs].
Defined.

Lemma edge_synced :
  group_synced at_local edge_own (rp_replicator (pl_replication edge_plan)) 0
    (mkStateMap "http://harbor/g0" None None) (edge_world [] ∅) (srun stop edge_done).1.
Proof.
  destruct (execute_synced at_local edge_own edge_own_local edge_own_disjoint (edge_world [] ∅) (srun stop edge_done).1)
    as [[w1 E]|(w1 & pl & states & E & _ & Hs)].
  - intros w1 pl E i sm. change (srun start (edge_world [] ∅)).1 with edge_start in E.
    apply edge_launched in E as [<- <-]. apply edge_covered.
  - exact edge_executed.
  - change (srun start (edge_world [] ∅)).1 with edge_start in E. destruct (edge_launches w1 E).
  - change (srun start (edge_world [] ∅)).1 with edge_start in E.
    apply edge_launched in E as [<- <-]. apply Hs. vm_compute. reflexivity.
Qed.

Lemma sync_mirrors_witness :
  mirrors at_local edge_own (rp_replicator (pl_replication edge_plan)) 0 [] (edge_world [] ∅) /\
  exists news, news = [mkEntity "alpine" "library" "3.20" "sha256:aa"] /\
    mirrors at_local edge_own (rp_replicator (pl_replication edge_plan)) 0 news (srun stop edge_done).1.
Proof.
  assert (mirrors at_local edge_own (rp_replicator (pl_replication edge_plan)) 0 [] (edge_world [] ∅)) as Hm.
  { intros ref _. split; [intros [d Hd]; cbn in Hd; rewrite lookup_empty in Hd; discriminate|].
    intros (e & He%elem_of_nil & _). contradiction. }
  split; [exact Hm|].
  pose proof edge_synced as Hs.
  apply sync_mirrors in Hs as (s & new & _ & Hslot & Hmir); try exact edge_own_local; try exact edge_own_disjoint.
  assert (SatState.slice (FetchEntitiesFromState new) = [mkEntity "alpine" "library" "3.20" "sha256:aa"]) as Hn.
  { assert (sm_Entities <$> slot_of (srun stop edge_done).1 0 =
      Some (Some [mkEntity "alpine" "library" "3.20" "sha256:aa"])) as Hc by (vm_compute; reflexivity).
    rewrite Hslot in Hc. cbn in Hc. injection Hc as Hc. rewrite Hc. reflexivity. }
  cbv zeta in Hmir. rewrite Hn in Hmir. eexists. split; [reflexivity|]. apply Hmir; [..|exact Hm].
  - apply NoDup_nil_2.
  - apply NoDup_singleton.
  - intros e e' He He' _. cbn in He, He'. apply list_elem_of_singleton in He, He'. by subst.
  - intros e e' ref He He' _ _. cbn in He, He'. apply list_elem_of_singleton in He, He'. by subst.
Defined.

Lemma finished_stops `{Registries} (events : list event) w st :
  ~ pstep (@exec_sop _) (Ret <$> events, w) st.
Proof.
  intros Hs. inversion Hs as [i R o k ts v Hi]; subst. rewrite list_lookup_fmap in Hi.
  destruct (events !! i); discriminate.
Qed.

Lemma execute_ends_witness :
  rtc (pstep (@exec_sop _)) (threads edge_plan, edge_ready) (Ret <$> edge_events, edge_done) /\
  exists events, Ret <$> edge_events = (Ret <$> events : list (act event)) /\
    is_Some (collectResults 2 0 false [] events).
Proof.
  split; [exact edge_schedule|].
  destruct (execute_ends edge_plan edge_ready _ _ edge_schedule) as [_ He].
  destruct He as (events & E & Hc).
  - apply (finished_stops edge_events edge_done).
  - exists events. split; [exact E|]. apply Hc. reflexivity.
Defined.

(* ------------------------------------------------------------------ *)
(** ** Two groups with an image in common *)

Definition shared_app : Entity := mkEntity "app" "team" "v1" "sha256:bb".

(** Both groups had the image; the state of the first does not list it any
    more, the second's still does. *)
Definition sharing : SWorld :=
  edge_world [mkStateMap "http://harbor/g0" None (Some [shared_app]); mkStateMap "http://harbor/g1" None (Some [shared_app])]
    {["local/team/app:v1" := "app"]}.
Definition sharing_ready : SWorld := (srun prepare (srun start sharing).1).1.
Definition sharing_events : list event := (run_each (threads edge_plan) sharing_ready).1.
Definition sharing_done : SWorld := (run_each (threads edge_plan) sharing_ready).2.

Lemma sharing_executed : Execute sharing (srun stop sharing_done).1 [].
Proof.
  apply (Execute_collects _ sharing_ready edge_plan (Ret <$> sharing_events) sharing_done sharing_events None).
  - vm_compute. reflexivity.
  - pose proof (run_each_schedule [] (threads edge_plan) sharing_ready) as Hr.
    rewrite !(app_nil_l (A := act event)) in Hr. exact Hr.
  - exists [0; 1; 2]%nat. split; [repeat constructor; set_solver|].
    assert (length sharing_events = 3%nat) as Hl by (vm_compute; reflexivity).
    destruct sharing_events as [|e0 [|e1 [|e2 [|]]]]; try done. repeat constructor.
  - vm_compute. reflexivity.
Qed.

(** That the groups share no image is needed: an image that one group drops is
    deleted although another group still lists it, no error is reported, and
    the other group, for which nothing changed, does not get it back. *)
Theorem shared_image_lost :
  exists w', Execute sharing w' [] /\
    (slot_of w' 1 ≫= sm_Entities) = Some [shared_app] /\
    (exists s new, group_state "" "http://harbor/g1" s /\ GetChanges s (Some [shared_app]) = ([], [], new) /\
       SatState.slice (FetchEntitiesFromState new) = [shared_app]) /\
    held (sw_reg sharing) "local/team/app:v1" = Some "app" /\ held (sw_reg w') "local/team/app:v1" = None.
Proof.
  exists (srun stop sharing_done).1. split; [exact sharing_executed|].
  split; [vm_compute; reflexivity|]. split; [|split; vm_compute; reflexivity].
  assert (exists doc s, Unmarshal dec_document (group_text "team/app" "v1" "sha256:bb") no_document = Some doc /\
    ProcessState doc = Some s /\ GetChanges s (Some [shared_app]) = ([], [], s) /\
    SatState.slice (FetchEntitiesFromState s) = [shared_app]) as (doc & s & Hd & Hs & Hg & He)
    by (do 2 eexists; split_and!; vm_compute; reflexivity).
  exists s, s. split_and!; [|exact Hg|exact He].
  exists "robot", "pw", false, (mkURLStateFetcher "robot" "pw" "harbor/g1" false true), doc.
  split; [vm_compute; reflexivity|]. split; [|exact Hs].
  exists (mkRegOptions "" "" false false), ∅, (group_text "team/app" "v1" "sha256:bb"), ∅,
    [("artifacts.json", group_text "team/app" "v1" "sha256:bb")], None.
  split; [reflexivity|]. split; [reflexivity|].
  cbn [find_artifacts]. change (String.eqb "artifacts.json" "artifacts.json") with true. cbn iota. by rewrite Hd.
Qed.
