(* ===== verification/Stuck.v ===== *)
(** * A group that can never be synced again

    A sync deletes the replaced images first, then replicates, and records the
    new entities only when all of it succeeded.  A sync interrupted in between
    leaves entities recorded whose images are gone; deleting them again is an
    error, so from then on every sync of the group fails before it replicates
    anything. *)

From stdpp Require Import gmap relations.
From Stdlib Require Import Ascii.
From S2P Require Import Prelude Free Utf8 GoLib Json CryptoLib SatConfig SatState StateFacts SatWorld SatDemo Device Secure Manager Replicator DirectDelivery SatPersist StateProcess SyncFacts SyncDemo GroupSync.

#[local] Open Scope string_scope.
#[local] Open Scope list_scope.

(** A registry answers the deletion of a tag that does not exist with an error
    (404, MANIFEST_UNKNOWN); a deletion that fails changes nothing. *)
Class DeleteChecked `{LocalRegistry} := {
  delete_absent url o st ref : ParseReference (ro_insecure o) url = Some ref -> held st ref = None ->
    exists m, (reg_exec _ (CraneDelete url o) st).2 = inl m;
  delete_failed url o st m ref : local ref -> (reg_exec _ (CraneDelete url o) st).2 = inl m ->
    held (reg_exec _ (CraneDelete url o) st).1 ref = held st ref }.

Section Stuck.
Context `{Registries, Argon2, Sha256, AesGcm, SatEnv, NetUrl, GoQuote, RangeOrder}.
Context (local : string -> Prop) `{!LocalRegistry local, !DeleteChecked}.
Context (own : nat -> string -> Prop).
Context (own_local : forall i r, own i r -> local r).
Context (r : BasicReplicator) (i : nat) (sm : StateMap).

Abbreviation kept := (kept local own).
Abbreviation guar := (guar local own).
(** Beside others, with nothing guaranteed to them *)
Abbreviation wpf := (wp (@exec_sop _) (kept i) (fun _ _ => True)).

#[local] Instance kept_pre_stuck : PreOrder (kept i).
Proof. apply kept_preorder. Qed.

(** Whatever the group's artifact can hold asks for the deletion of an image
    that is gone. *)
Definition stuck (w : SWorld) : Prop :=
  slot_of w i = Some sm /\
  forall s del rep new, group_state (harbor w) (sm_url sm) s ->
    GetChanges s (sm_Entities sm) = (del, rep, new) ->
    exists e ref, e ∈ del /\ dst r e = Some ref /\ own i ref /\ held (sw_reg w) ref = None.

Lemma wpf_from {A} (p : act A) Q w : wp (@exec_sop _) (kept i) (guar i) p Q w -> wpf p Q w.
Proof. by apply wp_weaken. Qed.

Lemma wpf_bind {A B} (m : act A) (f : A -> act B) Q w :
  wpf m (fun a w' => wpf (f a) Q w') w -> wpf (bind m f) Q w.
Proof. apply wp_bind, _. Qed.

Lemma kept_absent ref w w' : own i ref -> held (sw_reg w) ref = None -> kept i w w' -> held (sw_reg w') ref = None.
Proof. intros Ho Hh [[Hk _] _]. by rewrite Hk. Qed.

(** No image was put in place, at most some were deleted, and nothing is
    recorded. *)
Definition no_better (w w' : SWorld) : Prop :=
  slot_of w' i = slot_of w i /\ harbor w' = harbor w /\
  forall ref, own i ref -> held (sw_reg w') ref = held (sw_reg w) ref \/ held (sw_reg w') ref = None.

#[local] Instance no_better_pre : PreOrder no_better.
Proof.
  split; [intros w; split_and!; auto|]. intros w1 w2 w3 (S1 & H1' & A1) (S2 & H2' & A2). split_and!; [congruence..|].
  intros ref Ho. destruct (A2 ref Ho) as [->|]; [|by right]. by apply A1.
Qed.

Lemma no_better_absent w w' ref :
  no_better w w' -> own i ref -> held (sw_reg w) ref = None -> held (sw_reg w') ref = None.
Proof. intros (_ & _ & A) Ho Hh. by destruct (A ref Ho) as [->|]. Qed.

Lemma kept_no_better w w' : kept i w w' -> no_better w w'.
Proof. intros [[Hk Ho] Hs]. split_and!; [done..|]. intros ref Hr. left. by apply Hk. Qed.

Lemma stuck_no_better w w' : stuck w -> no_better w w' -> stuck w'.
Proof.
  intros [Hs Hd] N. pose proof N as (S & O & _). split; [congruence|]. intros s del rep new Hg Hch. rewrite O in Hg.
  destruct (Hd s del rep new Hg Hch) as (e & ref & He & Hde & Ho & Hh). exists e, ref.
  split_and!; [done..|]. by apply (no_better_absent w).
Qed.

Lemma delete_entity_stops a w (Q : result unit -> SWorld -> Prop) :
  (forall err w', no_better w w' -> Q (inl err) w') ->
  (forall w', no_better w w' ->
     (forall ref, dst r a = Some ref -> own i ref -> held (sw_reg w) ref <> None) -> Q (inr tt) w') ->
  wpf (delete_entity r a) Q w.
Proof.
  intros Herr Hok. unfold delete_entity. apply wpf_bind, wpf_from.
  apply wp_passive; [apply passive_ctx|]. intros c w1 Hw1%kept_no_better.
  destruct c as [err|]; [intros w2 Hw2%kept_no_better; apply Herr; by transitivity w1|].
  apply wp_op. intros w2 Hw2%kept_no_better. split; [done|].
  pose proof (transitivity Hw1 Hw2 : no_better w w2) as N2.
  destruct (exec_registry (CraneDelete (image_ref (br_remoteRegistryURL r) a) (deleteOpts r)) w2) as (Hr & [Hp Hc] & ->).
  set (w3 := (exec_sop _ w2).1) in *.
  assert (no_better w2 w3) as N3.
  { split_and!; [unfold slot_of; by rewrite Hp|unfold harbor; by rewrite Hc|].
    intros ref Ho. rewrite Hr. destruct (decide (dst r a = Some ref)) as [Hd|Hd].
    - destruct (reg_exec _ (CraneDelete (image_ref (br_remoteRegistryURL r) a) (deleteOpts r)) (sw_reg w2)).2
        as [m|[]] eqn:E.
      + left. by apply (delete_failed _ _ _ m); eauto.
      + right. by apply held_deleted; eauto.
    - left. by apply held_delete; eauto. }
  intros w4 Hw4%kept_no_better. pose proof (transitivity (transitivity N2 N3) Hw4 : no_better w w4) as N4.
  destruct (reg_exec unit _ (sw_reg w2)).2 as [m|[]] eqn:E; [by apply Herr|]. apply Hok; [done|].
  intros ref Hd Ho Hh. apply (no_better_absent _ _ _ N2 Ho) in Hh.
  destruct (delete_absent (image_ref (br_remoteRegistryURL r) a) (deleteOpts r) (sw_reg w2) ref Hd Hh) as [m Hm].
  congruence.
Qed.

(** The loop stops at the image that is gone at the latest. *)
Lemma delete_stops l e ref w (Q : result unit -> SWorld -> Prop) :
  e ∈ l -> dst r e = Some ref -> own i ref -> held (sw_reg w) ref = None ->
  (forall err w', no_better w w' -> Q (inl err) w') ->
  wpf (DeleteReplicationEntity r l) Q w.
Proof.
  intros He Hd Ho Hh Herr.
  apply (wp_for_each _ _ _ _ l tt (fun rest _ w' => e ∈ rest /\ no_better w w')); [| |done].
  - intros a rest [] w' [Hin N]. apply delete_entity_stops.
    + intros err w2 N2 w3 Hw3%kept_no_better. apply Herr. transitivity w'; [done|]. by transitivity w2.
    + intros w2 N2 Hpresent. split; [|by transitivity w'].
      apply elem_of_cons in Hin as [->|Hin]; [|done].
      by destruct (Hpresent ref Hd Ho (no_better_absent _ _ _ N Ho Hh)).
  - by intros [] w' [?%elem_of_nil _].
Qed.

(** The sync ended before the replication: the group's state could not be had,
    or a deletion failed. *)
Definition given_up (x : option goerr) : Prop :=
  exists msg e, x = Some (WrapErr (msg +:+ sm_url sm) e) /\
    msg ∈ ["failed to create state fetcher for "; "failed to fetch state for "; "failed to delete entities for "].

Lemma process_group_stuck u p ins w :
  stuck w ->
  wpf (process_group i (sm_url sm) u p ins r) (fun x w' => given_up x /\ no_better w w') w.
Proof.
  intros Hst. unfold process_group.
  assert (forall msg e w', no_better w w' ->
    msg ∈ ["failed to create state fetcher for "; "failed to fetch state for "; "failed to delete entities for "] ->
    wpf (Ret (Some (WrapErr (msg +:+ sm_url sm) e)))
      (fun (x : option goerr) w' => given_up x /\ no_better w w') w') as Hfail.
  { intros msg e w' N Hm w2 Hw2%kept_no_better. split; [by exists msg, e|]. by transitivity w'. }
  apply wpf_bind, wpf_from, group_url_spec. intros w1 Hw1%kept_no_better. cbn [bind try].
  destruct (getStateFetcherForInput _ u p ins) as [e|f] eqn:Ef; [apply Hfail; [done|set_solver]|].
  apply wpf_bind, wpf_from. eapply fetch_spec; [done..|]. intros x w2 Hw2%kept_no_better Hx.
  pose proof (transitivity Hw1 Hw2 : no_better w w2) as N2.
  destruct x as [e|s]; [apply Hfail; [done|set_solver]|]. destruct (Hx s eq_refl) as (doc & Hpub & Hproc).
  assert (group_state (harbor w) (sm_url sm) s) as Hgs by (by exists u, p, ins, f, doc).
  apply wpf_bind, wpf_from, wp_slot. intros w3 Hw3%kept_no_better.
  pose proof (transitivity N2 Hw3 : no_better w w3) as N3.
  pose proof (stuck_no_better _ _ Hst N3) as [Hs3 Hd3]. destruct N2 as (S2 & _). rewrite S2.
  destruct Hst as [Hs Hd]. rewrite Hs.
  destruct (GetChanges s (sm_Entities sm)) as [[del rep] new] eqn:Eg.
  destruct (Hd s del rep new Hgs Eg) as (e & ref & He & Hde & Ho & Hh).
  apply wpf_bind. unfold apply_changes, try. apply wpf_bind.
  apply (delete_stops _ e ref); [done..|by apply (no_better_absent w)|].
  intros err w4 N4 w5 Hw5%kept_no_better. apply Hfail; [|set_solver].
  transitivity w3; [done|]. by transitivity w4.
Qed.

(** C21. As long as every state the group's artifact can hold asks for the
    deletion of a recorded image that is gone from the local registry, every
    sync of the group, beside whatever else runs that leaves the group's
    images alone, ends with an error before it replicates: it puts no image in
    place and records nothing, and the next sync finds the group as stuck as
    this one did. *)
Theorem partial_failure_is_permanent u p ins w :
  stuck w ->
  wpf (processGroupState i u p ins r)
    (fun x w' => given_up (sr_Error x) /\ no_better w w' /\ stuck w') w.
Proof.
  intros Hst. unfold processGroupState. apply wpf_bind, wpf_from, wp_slot. intros w1 Hw1%kept_no_better.
  pose proof (stuck_no_better _ _ Hst Hw1) as Hst1. destruct (Hst) as [Hs _]. rewrite Hs.
  apply wpf_bind. eapply wp_mono, process_group_stuck; [|done].
  intros x w2 [Hx N2] w3 Hw3%kept_no_better. split; [done|].
  assert (no_better w w3) as N by (transitivity w1; [done|by transitivity w2]).
  split; [done|]. by apply (stuck_no_better w).
Qed.

End Stuck.

(* ------------------------------------------------------------------ *)
(** ** A satellite whose image was deleted but not replaced *)

#[local] Instance edge_delete_checked : @DeleteChecked edge_registries at_local edge_local.
Proof.
  split.
  - intros url o st ref Hp Hh. exact (demo_delete_absent harbor_images no_server url o st ref Hp Hh).
  - intros url o st m ref _ Hd. pose proof (demo_delete_failed harbor_images no_server url o st m Hd) as E.
    exact (f_equal (fun s : images => s !! ref) E).
Defined.

(** The old alpine is recorded; it is not at the local registry any more. *)
Definition alpine_gone : StateMap :=
  mkStateMap "http://harbor/g0" None (Some [mkEntity "alpine" "library" "3.20" "sha256:old"]).
Definition edge_broken : SWorld := edge_world [alpine_gone] ∅.
Definition edge_replicator : BasicReplicator := mkBasicReplicator false "robot" "pw" "harbor" "local" "" "".
Definition edge_refs (i : nat) (ref : string) : Prop := i = 0%nat /\ ref = "local/library/alpine:3.20".

Lemma alpine_stuck w :
  slot_of w 0 = Some alpine_gone -> harbor w = "" -> held (sw_reg w) "local/library/alpine:3.20" = None ->
  stuck at_local edge_refs edge_replicator 0 alpine_gone w.
Proof.
  intros Hslot Ho Hh. split; [exact Hslot|]. intros s del rep new Hg Hch. rewrite Ho in Hg.
  apply (edge_group_state _ "harbor/g0" (group_text "library/alpine" "3.20" "sha256:aa")) in Hg
    as (doc & Hd & Hs); [|reflexivity..].
  vm_compute in Hd. injection Hd as <-. vm_compute in Hs. injection Hs as <-. vm_compute in Hch.
  injection Hch as <- <- <-.
  exists (mkEntity "alpine" "library" "3.20" "sha256:old"), "local/library/alpine:3.20".
  split; [apply list_elem_of_singleton; reflexivity|]. split; [reflexivity|].
  split; [split; reflexivity|]. exact Hh.
Qed.

Lemma edge_stuck : stuck at_local edge_refs edge_replicator 0 alpine_gone edge_broken.
Proof. apply alpine_stuck; reflexivity. Qed.

(** How it comes to that: the old alpine is there, and the satellite is asked
    to stop between the deletion and the replication. *)
Definition edge_interrupted (n : nat) : SWorld :=
  let w := edge_world [alpine_gone] {["local/library/alpine:3.20" := "old"]} in
  mkSWorld (sw_files w) (sw_open w) (sw_reg w) (sw_cm w) (sw_proc w) (sw_locals w) (sw_audit w) (sw_tick w)
    (sw_fault w) (sw_temp w) (sw_rand w) (sw_dirs w) (sw_nets w) (sw_clock w) (sw_host w) (fun k => (n <=? k)%nat).

Example interrupted_gets_stuck :
  let out := srun (processGroupState 0 "robot" "pw" false edge_replicator) (edge_interrupted 7) in
  sr_Error out.2 = Some (WrapErr "failed to replicate entities for http://harbor/g0" Canceled) /\
  stuck at_local edge_refs edge_replicator 0 alpine_gone out.1.
Proof.
  split; [vm_compute; reflexivity|]. apply alpine_stuck; vm_compute; reflexivity.
Qed.

Lemma partial_failure_is_permanent_witness :
  stuck at_local edge_refs edge_replicator 0 alpine_gone edge_broken /\
  let out := srun (processGroupState 0 "robot" "pw" false edge_replicator) edge_broken in
  given_up alpine_gone (sr_Error out.2) /\ no_better at_local edge_refs 0 edge_broken out.1 /\
  stuck at_local edge_refs edge_replicator 0 alpine_gone out.1.
Proof.
  split; [exact edge_stuck|].
  pose proof (partial_failure_is_permanent at_local edge_refs
    (fun i ref H => eq_ind_r at_local (eq_refl : at_local "local/library/alpine:3.20") (proj2 H))
    edge_replicator 0 alpine_gone "robot" "pw" false edge_broken edge_stuck) as Hw.
  apply wp_run in Hw; [exact Hw|]. apply kept_preorder.
Defined.
