(* ===== verification/PersistFacts.v ===== *)
(** * Properties of the state file

    A crash at any point of a save leaves the old file or the new one; what a
    completed save wrote is what a restart reads. *)

From stdpp Require Import gmap.
From Stdlib Require Import Ascii.
From S2P Require Import Prelude Free Utf8 GoLib Json SatConfig SatState SatWorld SatRun SatDemo SatPersist.

#[local] Open Scope string_scope.
#[local] Open Scope list_scope.

(* ------------------------------------------------------------------ *)
(** ** Well-formed documents *)

Lemma wf_list {A} (enc : A -> json) l : Forall (fun a => wf (enc a)) l -> wf (JArr (enc <$> l)).
Proof. induction 1; cbn; [done|]. by split. Qed.

Lemma depth_list {A} (enc : A -> json) l n :
  Forall (fun a => (depth (enc a) <= n)%N) l -> (depth (JArr (enc <$> l)) <= 1 + n)%N.
Proof. induction 1 as [|a l Ha _ IH]; cbn in *; lia. Qed.

Definition texts_valid (l : list string) : Prop := Forall valid_utf8 l.

Definition entity_texts (e : Entity) : list string := [en_Name e; en_Repository e; en_Tag e; en_Digest e].
Definition group_texts (g : PersistedGroupState) : list string :=
  pg_URL g :: concat (entity_texts <$> slice (pg_Entities g)).
Definition persisted_texts (p : PersistedState) : list string :=
  pe_ConfigDigest p :: concat (group_texts <$> slice (pe_Groups p)).

Lemma key_valid s : bool_decide (coerce s = s) = true -> valid_utf8 s.
Proof. apply bool_decide_eq_true. Qed.

Ltac keys_valid := repeat match goal with
  | |- _ /\ _ => split
  | |- True => exact I
  | |- valid_utf8 _ => first [assumption | apply key_valid; vm_compute; reflexivity]
  end.

Lemma wf_entity e : texts_valid (entity_texts e) -> wf (enc_entity e) /\ (depth (enc_entity e) <= 1)%N.
Proof.
  unfold texts_valid, entity_texts. rewrite !Forall_cons. intros (H1 & H2 & H3 & H4 & _).
  split; [|cbn; lia]. cbn. keys_valid.
Qed.

Lemma wf_entities l : Forall (fun e => texts_valid (entity_texts e)) (slice l) ->
  wf (enc_slice enc_entity l) /\ (depth (enc_slice enc_entity l) <= 2)%N.
Proof.
  destruct l as [l|]; [|cbn; intros; split; [done|lia]]. intros Hl. split.
  - apply wf_list. refine (Forall_impl _ _ _ Hl _). intros e He. by apply wf_entity.
  - apply (depth_list _ _ 1). refine (Forall_impl _ _ _ Hl _). intros e He. by apply wf_entity.
Qed.

Lemma concat_valid {A} (f : A -> list string) l :
  texts_valid (concat (f <$> l)) <-> Forall (fun a => texts_valid (f a)) l.
Proof.
  unfold texts_valid. induction l as [|a l IH]; cbn; [done|].
  by rewrite Forall_app, Forall_cons, IH.
Qed.

Lemma wf_group g : texts_valid (group_texts g) -> wf (enc_group g) /\ (depth (enc_group g) <= 3)%N.
Proof.
  unfold group_texts, texts_valid. rewrite Forall_cons. intros [Hu He].
  apply concat_valid, wf_entities in He as [Hw Hd].
  split; [cbn; keys_valid; exact Hw|]. cbn in *. lia.
Qed.

Lemma wf_persisted p : texts_valid (persisted_texts p) ->
  wf (enc_persisted p) /\ (depth (enc_persisted p) <= 5)%N.
Proof.
  unfold persisted_texts, texts_valid. rewrite Forall_cons. intros [Hc Hg].
  apply concat_valid in Hg.
  assert (wf (enc_slice enc_group (pe_Groups p)) /\ (depth (enc_slice enc_group (pe_Groups p)) <= 4)%N) as [Hw Hd].
  { destruct (pe_Groups p) as [l|]; [|cbn; split; [done|lia]]. split.
    - apply wf_list. refine (Forall_impl _ _ _ Hg _). intros g Hv. by apply wf_group.
    - apply (depth_list _ _ 3). refine (Forall_impl _ _ _ Hg _). intros g Hv. by apply wf_group. }
  unfold enc_persisted, omit_string. destruct (String.eqb _ _); cbn in *; (split; [keys_valid; exact Hw|lia]).
Qed.

(** *** Decoding what was encoded *)
Lemma dec_enc_entity : inverse no_entity dec_entity enc_entity.
Proof. by intros []. Qed.

Lemma dec_enc_group : inverse no_group dec_group enc_group.
Proof.
  intros [u l]. unfold dec_group, enc_group, dec_struct. cbn -[dec_slice enc_slice dec_group dec_entity enc_group enc_entity].
  unfold set_field. cbn -[dec_slice enc_slice dec_group dec_entity enc_group enc_entity]. by rewrite (dec_slice_encoded _ _ _ l dec_enc_entity).
Qed.

Lemma dec_enc_persisted : inverse no_persisted dec_persisted enc_persisted.
Proof.
  intros [c l]. unfold dec_persisted, enc_persisted, dec_struct, omit_string. cbn [pe_ConfigDigest pe_Groups].
  destruct (String.eqb_spec c "") as [->|]; cbn -[dec_slice enc_slice dec_group dec_entity enc_group enc_entity]; unfold set_field;
    cbn -[dec_slice enc_slice dec_group dec_entity enc_group enc_entity]; by rewrite (dec_slice_encoded _ _ _ l dec_enc_group).
Qed.

Lemma persisted_read_back p : texts_valid (persisted_texts p) ->
  Unmarshal dec_persisted (MarshalIndent (enc_persisted p)) no_persisted = Some p.
Proof.
  intros Hp. apply wf_persisted in Hp as [Hw Hd]. unfold Unmarshal.
  rewrite parse_MarshalIndent by (done || (unfold maxNestingDepth; lia)). apply dec_enc_persisted.
Qed.

(* ------------------------------------------------------------------ *)
(** ** Saving *)

Section Save.
Context `{Registries}.

Abbreviation brun := (frun (@exec_base _)).

(** Lookups in a file system after updates of other files *)
Ltac files := repeat first
  [ rewrite lookup_insert_eq | rewrite lookup_delete_eq
  | rewrite lookup_insert_ne by congruence | rewrite lookup_delete_ne by congruence ].

(** The next operation fails, or not; a branch in which nothing follows *)
Ltac next_fault :=
  match goal with |- context [fault ?v] => destruct (fault v) as [[? ?]|] eqn:? end; cbn -[fault].
Ltac settled_files := split_and!; try done; intros; files; auto.

Lemma power_mono {A} (p : free base A) P Q w c :
  (forall v c', P v c' -> Q v c') -> power p P w c -> power p Q w c.
Proof.
  intros HPQ. revert w c. induction p as [a|R o k IH]; intros w c; [by intros [? _]; split; auto|].
  intros (HP & Hm & Hk). split_and!; [auto| |by apply IH]. destruct o; cbn in *; auto.
Qed.

Lemma replace_file_outcome tmp path data w :
  tmp <> path -> sw_files w !! tmp = Some "" -> tmp ∈ sw_open w ->
  let out := brun (replace_file tmp path data) w in
  stops (replace_file tmp path data) (fun v =>
    sw_files v !! path = sw_files w !! path \/ sw_files v !! path = Some data) w /\
  (forall q, q <> tmp -> q <> path -> sw_files out.1 !! q = sw_files w !! q) /\
  match out.2 with
  | inr _ => sw_files out.1 !! path = Some data /\ sw_files out.1 !! tmp = None
  | inl _ => sw_files out.1 !! path = sw_files w !! path
  end /\
  (out.2 = inr tt -> tmp ∉ sw_open out.1).
Proof.
  intros Hne Ht Ho. unfold replace_file, try, perform. cbn [bind].
  cbn [stops frun mid exec_base]. rewrite (bool_decide_eq_true_2 _ Ho), Ht.
  do 4 (next_fault; [by settled_files|]; rewrite ?(bool_decide_eq_true_2 _ Ho)).
  rewrite lookup_insert_eq. cbn -[fault]. split_and!; try done; intros; files; auto.
  rewrite list_elem_of_In, List.filter_In, String.eqb_refl. by intros [_ ?].
Qed.

Lemma cleanup_outcome tmp r w :
  let out := brun (cleanup tmp r) w in
  out.2 = r /\ (forall q, q <> tmp -> sw_files out.1 !! q = sw_files w !! q) /\
  (sw_files w !! tmp = None -> sw_files out.1 !! tmp = None) /\
  stops (cleanup tmp r) (fun v => forall q, q <> tmp -> sw_files v !! q = sw_files w !! q) w.
Proof.
  unfold cleanup, perform. cbn [bind stops frun mid exec_base].
  destruct (bool_decide (tmp ∈ sw_open w)); [next_fault|]; destruct r as [e|u]; cbn -[fault];
    try (next_fault; [split_and!; try done; intros; by files|]);
    try (destruct (sw_files w !! tmp) eqn:Et; cbn -[fault]); split_and!; try done; intros; by files.
Qed.

(** *** The temporary name is not the file's *)
Lemma has_suffix_app suf s : Go.has_suffix suf (s +:+ suf) = true.
Proof.
  induction s as [|a s IH].
  - change ("" +:+ suf) with suf. destruct suf; cbn [Go.has_suffix]; by rewrite String.eqb_refl.
  - change (String a s +:+ suf) with (String a (s +:+ suf)). cbn [Go.has_suffix]. by rewrite IH, orb_true_r.
Qed.

Lemma temp_path_suffix dir rnd :
  Go.has_suffix ".tmp" (join_path dir (temp_name "state-*.json.tmp" rnd)) = true.
Proof.
  change (temp_name "state-*.json.tmp" rnd) with ("state-" +:+ rnd +:+ ".json.tmp").
  assert (exists x, join_path dir ("state-" +:+ rnd +:+ ".json.tmp") = x +:+ ".tmp") as [x ->];
    [|apply has_suffix_app].
  assert (forall y, y +:+ "state-" +:+ rnd +:+ ".json.tmp" = (y +:+ "state-" +:+ rnd +:+ ".json") +:+ ".tmp") as E
    by (intros y; by rewrite !append_assoc).
  unfold join_path. destruct (Go.has_suffix "/" dir); [|rewrite <- append_assoc]; rewrite E; by eexists.
Qed.

Lemma temp_path_other dir rnd path : Go.has_suffix ".tmp" path = false ->
  join_path dir (temp_name "state-*.json.tmp" rnd) <> path.
Proof. intros Hs <-. by rewrite temp_path_suffix in Hs. Qed.

Lemma save_stops path stateMap digest w :
  Go.has_suffix ".tmp" path = false ->
  let new := state_text stateMap digest in
  let out := brun (SaveState path stateMap digest) w in
  stops (SaveState path stateMap digest) (fun v =>
    sw_files v !! path = sw_files w !! path \/ sw_files v !! path = Some new) w /\
  match out.2 with
  | inr _ => sw_files out.1 = <[path := new]> (sw_files w)
  | inl _ => sw_files out.1 !! path = sw_files w !! path
  end /\
  exists tmp, sw_files w !! tmp = None /\
    forall q, q <> path -> q <> tmp -> sw_files out.1 !! q = sw_files w !! q.
Proof.
  intros Hs new. unfold SaveState. fold new.
  set (tmp := join_path (path_Dir path) (temp_name "state-*.json.tmp" (sw_temp w (sw_tick w)))).
  assert (tmp <> path) as Hne by by apply temp_path_other.
  set (body := fun tmp => let* r := replace_file tmp path new in cleanup tmp r).
  assert (forall w1, sw_files w1 = <[tmp := ""]> (sw_files w) -> tmp ∈ sw_open w1 ->
    sw_files w !! tmp = None ->
    let out := brun (body tmp) w1 in
    stops (body tmp) (fun v =>
      sw_files v !! path = sw_files w !! path \/ sw_files v !! path = Some new) w1 /\
    match out.2 with
    | inr _ => sw_files out.1 = <[path := new]> (sw_files w)
    | inl _ => sw_files out.1 !! path = sw_files w !! path
    end /\ forall q, q <> path -> q <> tmp -> sw_files out.1 !! q = sw_files w !! q) as Hbody.
  { intros w1 Hf Ho Hn. unfold body. cbn zeta.
    destruct (replace_file_outcome tmp path new w1) as (Hst & Hq & Hr & _); [done|by rewrite Hf; files|done|].
    rewrite frun_bind.
    assert (stops (replace_file tmp path new) (fun v =>
      sw_files v !! path = sw_files w !! path \/ sw_files v !! path = Some new) w1) as Hst1.
    { assert (sw_files w1 !! path = sw_files w !! path) as E by (rewrite Hf; by files). by rewrite E in Hst. }
    pose proof (stops_holds _ _ _ Hst1) as Hnow.
    destruct (brun (replace_file tmp path new) w1) as [w2 r] eqn:E2. cbn [fst snd] in *.
    destruct (cleanup_outcome tmp r w2) as (Hcr & Hcq & Hcn & Hcs).
    split_and!.
    - apply stops_bind; [done|]. rewrite E2. cbn [fst snd].
      eapply stops_mono, Hcs. intros v Hv. cbn in Hv. by rewrite (Hv path).
    - rewrite Hcr. destruct r as [e|u].
      + rewrite Hcq by done. rewrite Hr, Hf. by files.
      + destruct Hr as [Hp Ht]. apply map_eq. intros q.
        destruct (decide (q = path)) as [->|Hqp]; [rewrite Hcq by done; by files|].
        files. destruct (decide (q = tmp)) as [->|Hqt]; [by rewrite Hcn|].
        rewrite Hcq, Hq, Hf by done. by files.
    - intros q Hqp Hqt. rewrite Hcq, Hq, Hf by done. by files. }
  change (SaveState path stateMap digest) with
    (try (perform (CreateTemp (path_Dir path) "state-*.json.tmp")) (wrap "create temp file") body).
  unfold try, perform. cbn [bind stops frun mid exec_base]. fold tmp.
  assert (exists q, sw_files w !! q = None) as [q Hq].
  { exists (fresh (dom (sw_files w))). apply not_elem_of_dom, is_fresh. }
  destruct (fault w) as [[m n]|]; [|destruct (sw_files w !! tmp) eqn:Et];
    [cbn; split_and!; auto; by exists q..|].
  set (w1 := s_tick _). destruct (Hbody w1) as (Hst & Hr & Hq'); [done|left|done|].
  split_and!; auto. by exists tmp.
Qed.

(** C18. A crash at any point of SaveState, also in the middle of a write,
    leaves the state file as it was or complete; a save that reports success
    changed that file and no other; one that reports an error left it as it
    was; and besides it at most one file is touched, which did not exist. *)
Theorem save_state_atomic path stateMap digest w :
  Go.has_suffix ".tmp" path = false ->
  let new := state_text stateMap digest in
  let out := brun (SaveState path stateMap digest) w in
  stops (SaveState path stateMap digest) (fun v =>
    sw_files v !! path = sw_files w !! path \/ sw_files v !! path = Some new) w /\
  match out.2 with
  | inr _ => sw_files out.1 = <[path := new]> (sw_files w)
  | inl _ => sw_files out.1 !! path = sw_files w !! path
  end /\
  exists tmp, sw_files w !! tmp = None /\
    forall q, q <> path -> q <> tmp -> sw_files out.1 !! q = sw_files w !! q.
Proof. exact (save_stops path stateMap digest w). Qed.

(** *** Power failures while saving *)

(** Nothing is new at [path] since [w], unless it is [new]. *)
Definition old_or (w : SWorld) (c : Cache) (path new : string) (v : SWorld) (c' : Cache) : Prop :=
  forall d, leaves v c' path d -> leaves w c path d \/ d = Some new.

Lemma power_bind {A B} (m : free base A) (k : A -> free base B) P w c :
  power m P w c -> power (k (brun m w).2) P (brun m w).1 (cache_after m w c) -> power (bind m k) P w c.
Proof.
  revert w c. induction m as [a|R o f IH]; intros w c; cbn [bind power frun cache_after fst snd]; [done|].
  intros (HP & Hm & Hk) Hp. split_and!; [done..|]. apply IH; [done|].
  destruct (exec_base o w) as [v r]. exact Hp.
Qed.

(** What is done to other files *)
Lemma old_or_other {R} (o : base R) w c path new v c' : old_or w c path new v c' ->
  sw_files (exec_base o v).1 !! path = sw_files v !! path ->
  (ca_unsynced (cached o v c') path -> ca_unsynced c' path) ->
  (forall d, ca_before (cached o v c') path d -> ca_before c' path d \/ d = sw_files v !! path) ->
  old_or w c path new (exec_base o v).1 (cached o v c').
Proof.
  intros Hi Hf Hu Hb d [->|[Hd|Hd]]; apply Hi; [left; by rewrite Hf|right; left; auto|].
  destruct (Hb d Hd) as [Hx| ->]; [by right; right|by left].
Qed.

Lemma old_or_mid {R} (o : base R) w c path new v v' c' : old_or w c path new (exec_base o v).1 c' ->
  sw_files v' !! path = sw_files (exec_base o v).1 !! path -> old_or w c path new v' c'.
Proof. intros Hi Hf d [->|Hd]; apply Hi; [left; by rewrite Hf|by right]. Qed.

Ltac other_file :=
  first [ assumption | apply old_or_other; [assumption|cbn -[fault]; repeat case_match; cbn; by files|..];
          cbn -[fault]; repeat case_match; cbn; intros; tauto || (left; naive_solver) || naive_solver ].

Lemma cleanup_power tmp r w c path new v c' : tmp <> path ->
  old_or w c path new v c' -> power (cleanup tmp r) (old_or w c path new) v c'.
Proof.
  intros Hne Hi. unfold cleanup, perform. cbn [bind power mid].
  assert (old_or w c path new (exec_base (FileClose tmp) v).1 (cached (FileClose tmp) v c')) as Hc by other_file.
  split; [done|]. split; [done|].
  destruct (exec_base (FileClose tmp) v) as [v1 cl]. cbn [fst snd] in *.
  destruct r as [e|u], cl as [e'|u']; cbn [bind power mid]; (split; [done|]); try done; (split; [done|]);
    (split; [|done]); other_file.
Qed.

Lemma power_ends {A} (p : free base A) P w c : power p P w c -> P (brun p w).1 (cache_after p w c).
Proof.
  revert w c. induction p as [a|R o k IH]; intros w c; [by intros [? _]|]. intros (_ & _ & Hk).
  apply IH in Hk. cbn [frun cache_after]. by destruct (exec_base o w).
Qed.

Lemma power_step {A B} (o : base (result A)) m (k : A -> free base (result B)) P w c :
  P w c -> mid o (fun v => P v (cached o w c)) w -> P (exec_base o w).1 (cached o w c) ->
  (forall a, (exec_base o w).2 = inr a -> power (k a) P (exec_base o w).1 (cached o w c)) ->
  power (try (perform o) (wrap m) k) P w c.
Proof.
  intros H0 Hm H1 Hk. unfold try, perform. cbn [bind power]. split_and!; [done..|].
  destruct (exec_base o w).2 as [e|a]; [by split|by apply Hk].
Qed.

Lemma write_done tmp data a v : sw_files v !! tmp = Some "" -> tmp ∈ sw_open v ->
  (exec_base (FileWrite tmp data) v).2 = inr a ->
  sw_files (exec_base (FileWrite tmp data) v).1 !! tmp = Some data /\
  tmp ∈ sw_open (exec_base (FileWrite tmp data) v).1.
Proof.
  intros Ht Ho. cbn -[fault]. rewrite (bool_decide_eq_true_2 _ Ho), Ht.
  destruct (fault v) as [[m n]|]; cbn; [done|]. intros _. by files.
Qed.

Lemma sync_done tmp v c b : (exec_base (FileSync tmp) v).2 = inr b ->
  ~ ca_unsynced (cached (FileSync tmp) v c) tmp /\
  sw_files (exec_base (FileSync tmp) v).1 = sw_files v.
Proof.
  cbn -[fault]. destruct (bool_decide _); [|done]. destruct (fault v) as [[m n]|]; cbn; [done|]. intros _.
  split; [tauto|done].
Qed.

Lemma old_or_rename tmp w c path new v c' : tmp <> path -> old_or w c path new v c' ->
  ~ ca_unsynced c' tmp -> sw_files v !! tmp = Some new ->
  old_or w c path new (exec_base (Rename tmp path) v).1 (cached (Rename tmp path) v c').
Proof.
  intros Hne Hi Hs Ht d. unfold leaves. cbn -[fault]. rewrite Ht.
  intros [->|[Hu|Hb]].
  - destruct (fault v) as [[m n]|]; cbn; [apply Hi; by left|]. right. by files.
  - apply Hi. right. left. tauto.
  - apply Hi. destruct Hb as [[Hb|[_ ->]]|[? ->]]; [by right; right|by left|by left].
Qed.

Lemma replace_power tmp path new w c v c' : tmp <> path ->
  sw_files v !! tmp = Some "" -> tmp ∈ sw_open v -> old_or w c path new v c' ->
  power (replace_file tmp path new) (old_or w c path new) v c'.
Proof.
  intros Hne Ht Ho Hi. unfold replace_file.
  assert (old_or w c path new (exec_base (FileWrite tmp new) v).1 (cached (FileWrite tmp new) v c')) as H1 by other_file.
  apply power_step; [done|intros n; eapply old_or_mid; [exact H1|]; cbn -[fault]; repeat case_match; cbn; by files|done|].
  intros a [Hf1 Ho1]%write_done; [|done..].
  set (v1 := (exec_base (FileWrite tmp new) v).1) in *. set (c1 := cached (FileWrite tmp new) v c') in *. clearbody v1 c1.
  assert (old_or w c path new (exec_base (FileSync tmp) v1).1 (cached (FileSync tmp) v1 c1)) as H2 by other_file.
  apply power_step; [done..|]. intros b [Hs2 Hf2]%(sync_done _ _ c1).
  set (v2 := (exec_base (FileSync tmp) v1).1) in *. set (c2 := cached (FileSync tmp) v1 c1) in *. clearbody v2 c2.
  assert (old_or w c path new (exec_base (FileClose tmp) v2).1 (cached (FileClose tmp) v2 c2)) as H3 by other_file.
  apply power_step; [done..|]. intros u _. change (cached (FileClose tmp) v2 c2) with c2 in *.
  assert (sw_files (exec_base (FileClose tmp) v2).1 !! tmp = Some new) as Hf3
    by (rewrite <- Hf1, <- Hf2; cbn -[fault]; by repeat case_match).
  set (v3 := (exec_base (FileClose tmp) v2).1) in *. clearbody v3.
  apply power_step; [done..| |]; [by apply old_or_rename|]. intros x _. split; [by apply old_or_rename|done].
Qed.

Lemma save_power path stateMap digest w c :
  Go.has_suffix ".tmp" path = false ->
  power (SaveState path stateMap digest) (old_or w c path (state_text stateMap digest)) w c.
Proof.
  intros Hs. set (new := state_text stateMap digest). unfold SaveState. fold new.
  assert (old_or w c path new w c) as H0 by by intros d Hd; left.
  set (tmp := join_path (path_Dir path) (temp_name "state-*.json.tmp" (sw_temp w (sw_tick w)))).
  assert (tmp <> path) as Hne by by apply temp_path_other.
  set (o := CreateTemp (path_Dir path) "state-*.json.tmp").
  assert (old_or w c path new (exec_base o w).1 (cached o w c)) as H1.
  { apply (old_or_other o w c path new w c); [done| |intros [Hu|Hu]; [done|by destruct (Hne (eq_sym Hu))]
      |intros d [Hd|[Hd _]]; [by left|by destruct (Hne (eq_sym Hd))]].
    unfold o. cbn -[fault temp_name]. fold tmp. destruct (fault w) as [[m n]|]; [done|].
    destruct (sw_files w !! tmp); [done|]. cbn -[temp_name]. by files. }
  apply power_step; [done..|]. intros x Hx.
  assert (x = tmp /\ sw_files (exec_base o w).1 !! tmp = Some "" /\ tmp ∈ sw_open (exec_base o w).1) as (-> & Hf & Ho).
  { revert Hx. unfold o. cbn -[fault temp_name]. fold tmp. destruct (fault w) as [[m n]|]; [done|].
    destruct (sw_files w !! tmp); [done|]. cbn -[temp_name]. intros [= <-]. split_and!; [done|by files|left]. }
  pose proof (replace_power tmp path new w c _ _ Hne Hf Ho H1) as Hr.
  apply power_bind; [done|]. apply cleanup_power; [done|]. by apply power_ends.
Qed.

(** *** Restarting *)
Definition state_texts (stateMap : list StateMap) (digest : string) : list string :=
  persisted_texts (persisted_of stateMap digest).

(** What a restart leaves of the entries: the artifacts are fetched again *)
Definition remembered (stateMap : list StateMap) : list StateMap :=
  (fun sm => mkStateMap (sm_url sm) None (sm_Entities sm)) <$> stateMap.

Lemma new_process_reads path v : path <> "" -> fault v = None ->
  (brun (NewFetchAndReplicateStateProcess path) v).2 =
  match sw_files v !! path with
  | None => mkProcess false [] "" path None
  | Some data =>
      match Unmarshal dec_persisted data no_persisted with
      | Some p => mkProcess false (restored p).1 (restored p).2 path None
      | None => mkProcess false [] "" path None
      end
  end.
Proof.
  intros Hp Hf. unfold NewFetchAndReplicateStateProcess, LoadState, perform.
  destruct (String.eqb_spec path ""); [done|]. cbn -[Unmarshal]. rewrite Hf.
  destruct (sw_files v !! path) as [data|]; [|done]. cbn -[Unmarshal].
  by destruct (Unmarshal dec_persisted data no_persisted).
Qed.

Lemma restored_persisted stateMap digest :
  restored (persisted_of stateMap digest) = (remembered stateMap, digest).
Proof.
  unfold restored, persisted_of, remembered. f_equal. cbn.
  induction stateMap as [|sm l IH]; cbn; [done|]. by f_equal.
Qed.

Lemma new_process_of_state path stateMap digest v :
  path <> "" -> texts_valid (state_texts stateMap digest) -> fault v = None ->
  sw_files v !! path = Some (state_text stateMap digest) ->
  (brun (NewFetchAndReplicateStateProcess path) v).2 =
    mkProcess false (remembered stateMap) digest path None.
Proof.
  intros Hp Ht Hf Hv. rewrite new_process_reads, Hv by done.
  unfold state_text. rewrite persisted_read_back by done. by rewrite restored_persisted.
Qed.

(** [x] can be what the process starts with after the power failed in [w]. *)
Definition starts_with (path : string) (w : SWorld) (c : Cache) (x : Process) : Prop :=
  exists v, (forall q, leaves w c q (sw_files v !! q)) /\ fault v = None /\
    x = (brun (NewFetchAndReplicateStateProcess path) v).2.

Lemma starts_with_at path w c d v : leaves w c path d -> fault v = None -> sw_files v !! path = d ->
  starts_with path w c (brun (NewFetchAndReplicateStateProcess path) v).2.
Proof.
  intros Hl Hf Hd. destruct (decide (path = "")) as [->|Hp].
  { exists (s_files (sw_files w) v). split_and!; [|done|done]. intros q. by left. }
  exists (s_files (partial_alter (fun _ => d) path (sw_files w)) v). split_and!; [|done|].
  - intros q. cbn. destruct (decide (q = path)) as [->|Hq]; [by rewrite lookup_partial_alter_eq|].
    rewrite lookup_partial_alter_ne by done. by left.
  - rewrite !new_process_reads by done. cbn. by rewrite lookup_partial_alter_eq, Hd.
Qed.

(** C17. Wherever the power fails during a save, also in the middle of a write
    and with any part of what was not synced missing, the process that starts
    next has something it could have started with had the power failed before
    the save, or exactly the groups, entities and configuration digest that
    were being saved; after a save that reported success, a process that
    starts without a power failure has the latter. *)
Theorem restart_keeps_state path stateMap digest w c :
  path <> "" -> Go.has_suffix ".tmp" path = false -> texts_valid (state_texts stateMap digest) ->
  let saved := mkProcess false (remembered stateMap) digest path None in
  power (SaveState path stateMap digest) (fun v c' =>
    forall x, starts_with path v c' x -> starts_with path w c x \/ x = saved) w c /\
  let out := brun (SaveState path stateMap digest) w in
  out.2 = inr tt -> fault out.1 = None -> (brun (NewFetchAndReplicateStateProcess path) out.1).2 = saved.
Proof.
  intros Hp Hs Ht saved.
  destruct (save_stops path stateMap digest w Hs) as (_ & Hr & _). split.
  - eapply power_mono, save_power, Hs. intros v c' Hv x (u & Hu & Hf & ->).
    destruct (Hv _ (Hu path)) as [Hl|Hn]; [left; by eapply starts_with_at|right].
    by apply new_process_of_state.
  - intros out Ho Hf. fold out in Hr. rewrite Ho in Hr.
    apply new_process_of_state; [done..|]. rewrite Hr. by files.
Qed.

End Save.

Definition demo_groups : list StateMap :=
  [mkStateMap "registry.example/satellite/group-state/edge/state:latest" None
     (Some [mkEntity "alpine" "library" "3.20" "sha256:aa"])].

(** Nothing is waiting to be written to the disk. *)
Definition all_on_disk : Cache := mkCache (fun _ => False) (fun _ _ => False).

(** The directory is not synced after the rename: a power failure can undo a
    save that reported success. *)
Example saved_state_can_be_lost :
  let path := "/data/state.json" in
  let old := state_text [] "sha256:bb" in
  let w := demo_world {[path := old]} ∅ in
  let save := SaveState path demo_groups "sha256:cc" in
  (frun (@exec_base demo_registries) save w).2 = inr tt /\
  leaves (frun (@exec_base demo_registries) save w).1 (cache_after save w all_on_disk) path (Some old) /\
  @starts_with demo_registries path (frun (@exec_base demo_registries) save w).1 (cache_after save w all_on_disk)
    (mkProcess false [] "sha256:bb" path None).
Proof.
  intros path old w save. split; [vm_compute; reflexivity|].
  assert (leaves (frun (@exec_base demo_registries) save w).1 (cache_after save w all_on_disk) path (Some old)) as Hl
    by (right; right; vm_compute; tauto).
  split; [exact Hl|].
  pose proof (starts_with_at path _ _ (Some old) w Hl eq_refl eq_refl) as Hs.
  replace (mkProcess false [] "sha256:bb" path None)
    with (frun (@exec_base demo_registries) (NewFetchAndReplicateStateProcess path) w).2 by (vm_compute; reflexivity).
  exact Hs.
Qed.

Lemma restart_keeps_state_witness :
  let w := demo_world ∅ ∅ in
  let path := "/data/state.json" in
  let out := frun (@exec_base demo_registries) (SaveState path demo_groups "sha256:cc") w in
  out.2 = inr tt /\
  (frun (@exec_base demo_registries) (NewFetchAndReplicateStateProcess path) out.1).2 =
    mkProcess false demo_groups "sha256:cc" path None.
Proof.
  split; [vm_compute; reflexivity|].
  apply (restart_keeps_state "/data/state.json" demo_groups "sha256:cc" (demo_world ∅ ∅) all_on_disk);
    try reflexivity; [discriminate|].
  unfold texts_valid. repeat constructor; apply key_valid; vm_compute; reflexivity.
Defined.

Lemma save_state_atomic_witness :
  let out := frun (@exec_base demo_registries) (SaveState "/data/state.json" demo_groups "") (demo_world ∅ ∅) in
  out.2 = inr tt /\ sw_files out.1 = {["/data/state.json" := state_text demo_groups ""]}.
Proof.
  destruct (save_state_atomic "/data/state.json" demo_groups "" (demo_world ∅ ∅) eq_refl) as (_ & Hr & _).
  assert ((frun (@exec_base demo_registries) (SaveState "/data/state.json" demo_groups "") (demo_world ∅ ∅)).2 = inr tt) as E
    by (vm_compute; reflexivity).
  cbv zeta. rewrite E in Hr. split; [exact E|exact Hr].
Defined.
