(* ===== verification/Scheduler.v ===== *)
(** * The scheduler of the satellite's processes

    internal/satellite/scheduler.  A scheduler is a loop goroutine, the
    goroutines it launched and the counter of its WaitGroup.  [step] executes
    one transition: of the loop, of a launched goroutine, or of the world
    (the clock, the cancellation, the process at work).  The ticker's channel
    holds one tick.  launchProcess runs under the scheduler's mutex and is one
    transition; the process's own flag is only set once the goroutine it
    launched gets to Execute. *)

From stdpp Require Import relations.
From S2P Require Import Prelude Duration Utf8 GoLib Json SatConfig SatState SatWorld.

#[local] Open Scope string_scope.
#[local] Open Scope list_scope.

(* ------------------------------------------------------------------ *)
(** ** Intervals *)

Definition parseEveryExpr (expr : string) : result Z :=
  if String.eqb expr "" then inl (PlainErr "empty expression provided")
  else if negb (Go.has_prefix "@every " expr) then inl (PlainErr "unsupported format: must start with @every")
  else match time.ParseDuration (Go.trim_prefix "@every " expr) with
       | Some d => inr d
       | None => inl (PlainErr "time: invalid duration")
       end.

(* ------------------------------------------------------------------ *)
(** ** Processes *)

(** What a process promises the scheduler: Execute raises its flag first and
    lowers it last, and nothing in between or outside changes it. *)
Class Schedulable (P : Type) := {
  event : Type;
  IsRunning : P -> bool;
  IsComplete : P -> bool;
  start : P -> P;
  stop : P -> P;
  work : event -> P -> P;
  start_running p : IsRunning (start p) = true;
  stop_running p : IsRunning (stop p) = false;
  work_running e p : IsRunning (work e p) = IsRunning p }.

Inductive loop := Idle | Begun | Selecting | Leaving | Gone.
#[global] Instance loop_eq_dec : EqDecision loop.
Proof. solve_decision. Defined.

Inductive task := Launched | Executing | Returned | Ended.
#[global] Instance task_eq_dec : EqDecision task.
Proof. solve_decision. Defined.

Record Scheduler (P : Type) := mkScheduler {
  sc_process : P; sc_interval : Z; sc_loop : loop; sc_tick : bool; sc_tasks : list task;
  sc_wg : nat; sc_cancelled : bool }.
Arguments mkScheduler {P}. Arguments sc_process {P}. Arguments sc_interval {P}. Arguments sc_loop {P}.
Arguments sc_tick {P}. Arguments sc_tasks {P}. Arguments sc_wg {P}. Arguments sc_cancelled {P}.

Section Scheduler.
Context `{Schedulable P}.

Abbreviation Scheduler := (Scheduler P).

(** time.NewTicker panics on an interval that is not positive. *)
Definition NewSchedulerWithInterval (intervalExpr : string) (process : P) : result Scheduler :=
  match parseEveryExpr intervalExpr with
  | inl e => inl (WrapErr "failed to parse interval" e)
  | inr duration =>
      if (duration <=? 0)%Z then inl (PlainErr "panic: non-positive interval for NewTicker")
      else inr (mkScheduler process duration Idle false [] 0 false)
  end.

(** time.Ticker.Reset panics alike. *)
Definition ResetInterval (newInterval : Z) (s : Scheduler) : result Scheduler :=
  if (newInterval <=? 0)%Z then inl (PlainErr "panic: non-positive interval for Ticker.Reset")
  else inr (mkScheduler (sc_process s) newInterval (sc_loop s) false (sc_tasks s) (sc_wg s) (sc_cancelled s)).

Definition ResetIntervalFromExpr (intervalExpr : string) (s : Scheduler) : result Scheduler :=
  match parseEveryExpr intervalExpr with
  | inl e => inl (WrapErr "failed to parse interval" e)
  | inr duration => ResetInterval duration s
  end.

Definition GetInterval (s : Scheduler) : Z := sc_interval s.

Definition set_process (p : P) (s : Scheduler) : Scheduler :=
  mkScheduler p (sc_interval s) (sc_loop s) (sc_tick s) (sc_tasks s) (sc_wg s) (sc_cancelled s).
Definition set_loop (l : loop) (s : Scheduler) : Scheduler :=
  mkScheduler (sc_process s) (sc_interval s) l (sc_tick s) (sc_tasks s) (sc_wg s) (sc_cancelled s).
Definition set_tick (b : bool) (s : Scheduler) : Scheduler :=
  mkScheduler (sc_process s) (sc_interval s) (sc_loop s) b (sc_tasks s) (sc_wg s) (sc_cancelled s).
Definition set_tasks (l : list task) (s : Scheduler) : Scheduler :=
  mkScheduler (sc_process s) (sc_interval s) (sc_loop s) (sc_tick s) l (sc_wg s) (sc_cancelled s).
Definition set_wg (n : nat) (s : Scheduler) : Scheduler :=
  mkScheduler (sc_process s) (sc_interval s) (sc_loop s) (sc_tick s) (sc_tasks s) n (sc_cancelled s).
Definition set_cancelled (s : Scheduler) : Scheduler :=
  mkScheduler (sc_process s) (sc_interval s) (sc_loop s) (sc_tick s) (sc_tasks s) (sc_wg s) true.

Definition wg_add (s : Scheduler) : Scheduler := set_wg (S (sc_wg s)) s.
Definition wg_done (s : Scheduler) : Scheduler := set_wg (sc_wg s - 1) s.

Definition launchProcess (s : Scheduler) : Scheduler :=
  if negb (IsRunning (sc_process s)) then wg_add (set_tasks (sc_tasks s ++ [Launched]) s) else s.

(** Start launches the loop. *)
Definition Start (s : Scheduler) : Scheduler := wg_add (set_loop Begun s).

(** One step of the loop: the first launch, a branch of the select, or the
    deferred calls *)
Inductive branch := First | Done | Fired | Deferred.

Definition run (b : branch) (s : Scheduler) : option Scheduler :=
  match b, sc_loop s with
  | First, Begun => Some (set_loop Selecting (launchProcess s))
  | Done, Selecting => if sc_cancelled s then Some (set_loop Leaving s) else None
  | Fired, Selecting =>
      if negb (sc_tick s) then None
      else
        let s := set_tick false s in
        if IsComplete (sc_process s) then Some (set_loop Leaving s) else Some (launchProcess s)
  | Deferred, Leaving => Some (wg_done (set_loop Gone s))
  | _, _ => None
  end.

(** A launched goroutine: Execute, from its start to its deferred stop, and
    the deferred Done *)
Definition go (i : nat) (s : Scheduler) : option Scheduler :=
  let next t s := set_tasks (<[i := t]> (sc_tasks s)) s in
  match sc_tasks s !! i with
  | Some Launched => Some (next Executing (set_process (start (sc_process s)) s))
  | Some Executing => Some (next Returned (set_process (stop (sc_process s)) s))
  | Some Returned => Some (next Ended (wg_done s))
  | _ => None
  end.

Inductive label :=
| LStart | LRun (b : branch) | LGo (i : nat)
| LCancel | LTick | LWork (e : event) | LReset (newInterval : Z).

Definition step (l : label) (s : Scheduler) : option Scheduler :=
  match l with
  | LStart => if decide (sc_loop s = Idle) then Some (Start s) else None
  | LRun b => run b s
  | LGo i => go i s
  | LCancel => Some (set_cancelled s)
  | LTick => Some (set_tick true s)
  | LWork e => Some (set_process (work e (sc_process s)) s)
  | LReset d => match ResetInterval d s with inl _ => None | inr s' => Some s' end
  end.

Definition steps (s s' : Scheduler) : Prop := exists l, step l s = Some s'.

(** Stop returns nil when the WaitGroup's counter is 0. *)
Definition stop_returns (s : Scheduler) : bool := (sc_wg s =? 0)%nat.

(** A scheduler as it is created *)
Definition fresh (s : Scheduler) : Prop :=
  exists intervalExpr process, NewSchedulerWithInterval intervalExpr process = inr s.

End Scheduler.
