(* ===== verification/Report.v ===== *)
(** * Status reports

    internal/satellite/state/report.go, catalog.go and reporting_process.go:
    what the satellite tells Ground Control about itself at every heartbeat.
    Closing a response body does not fail here. *)

From stdpp Require Import gmap.
From Stdlib Require Import Ascii SpecFloat.
From S2P Require Import Prelude Duration Free Float64 Utf8 GoLib Json CryptoLib SatConfig AuditTrail SatState SatWorld Tls HttpClient Device Secure Manager Scheduler.

#[local] Open Scope string_scope.
#[local] Open Scope list_scope.

(** strconv's text of a float64, which JSON prints ([None]: NaN and the
    infinities, an error), and the sizes of the configuration and the layers
    in the text of a v1.Manifest of go-containerregistry. *)
Class ReportTexts := {
  float_text : spec_float -> option string;
  manifest_sizes : string -> option (Z * list Z) }.

(* ------------------------------------------------------------------ *)
(** ** report.go *)

Record CachedImage := mkCachedImage { ci_Reference : string; ci_SizeBytes : Z }.

Record StatusReportParams := mkStatusReportParams {
  sr_Name : string; sr_Activity : string; sr_StateReportInterval : string; sr_LatestStateDigest : string;
  sr_LatestConfigDigest : string; sr_MemoryUsedBytes : Z; sr_StorageUsedBytes : Z; sr_CPUPercent : spec_float;
  sr_RequestCreatedTime : Z; sr_LastSyncDurationMs : Z; sr_ImageCount : Z;
  sr_CachedImages : option (list CachedImage) }.

Definition no_report (name activity interval : string) (created : Z) : StatusReportParams :=
  mkStatusReportParams name activity interval "" "" 0 0 float_zero created 0 0 None.

Definition set_cpu (x : spec_float) (r : StatusReportParams) : StatusReportParams :=
  mkStatusReportParams (sr_Name r) (sr_Activity r) (sr_StateReportInterval r) (sr_LatestStateDigest r)
    (sr_LatestConfigDigest r) (sr_MemoryUsedBytes r) (sr_StorageUsedBytes r) x (sr_RequestCreatedTime r)
    (sr_LastSyncDurationMs r) (sr_ImageCount r) (sr_CachedImages r).
Definition set_memory (x : Z) (r : StatusReportParams) : StatusReportParams :=
  mkStatusReportParams (sr_Name r) (sr_Activity r) (sr_StateReportInterval r) (sr_LatestStateDigest r)
    (sr_LatestConfigDigest r) x (sr_StorageUsedBytes r) (sr_CPUPercent r) (sr_RequestCreatedTime r)
    (sr_LastSyncDurationMs r) (sr_ImageCount r) (sr_CachedImages r).
Definition set_storage (x : Z) (r : StatusReportParams) : StatusReportParams :=
  mkStatusReportParams (sr_Name r) (sr_Activity r) (sr_StateReportInterval r) (sr_LatestStateDigest r)
    (sr_LatestConfigDigest r) (sr_MemoryUsedBytes r) x (sr_CPUPercent r) (sr_RequestCreatedTime r)
    (sr_LastSyncDurationMs r) (sr_ImageCount r) (sr_CachedImages r).
Definition set_images (l : list CachedImage) (r : StatusReportParams) : StatusReportParams :=
  mkStatusReportParams (sr_Name r) (sr_Activity r) (sr_StateReportInterval r) (sr_LatestStateDigest r)
    (sr_LatestConfigDigest r) (sr_MemoryUsedBytes r) (sr_StorageUsedBytes r) (sr_CPUPercent r)
    (sr_RequestCreatedTime r) (sr_LastSyncDurationMs r) (Z.of_nat (length l)) (Some l).

(** json.Marshal *)
Definition enc_image (i : CachedImage) : json :=
  JObj [("reference", JStr (ci_Reference i)); ("size_bytes", jint (ci_SizeBytes i))].

Definition enc_report `{ReportTexts} (r : StatusReportParams) : option json :=
  cpu ← float_text (sr_CPUPercent r);
  Some (JObj ([("name", JStr (sr_Name r)); ("activity", JStr (sr_Activity r));
    ("state_report_interval", JStr (sr_StateReportInterval r));
    ("latest_state_digest", JStr (sr_LatestStateDigest r));
    ("latest_config_digest", JStr (sr_LatestConfigDigest r));
    ("memory_used_bytes", jint (sr_MemoryUsedBytes r)); ("storage_used_bytes", jint (sr_StorageUsedBytes r));
    ("cpu_percent", JNum cpu); ("request_created_time", JStr (Time.rfc3339nano (sr_RequestCreatedTime r)));
    ("last_sync_duration_ms", jint (sr_LastSyncDurationMs r)); ("image_count", jint (sr_ImageCount r))] ++
    omit_slice enc_image "cached_images" (sr_CachedImages r))).

(** strings.Trim(s, "/") *)
Fixpoint trim_slashes_left (s : string) : string :=
  match s with String a s' => if Ascii.eqb a "/" then trim_slashes_left s' else s | "" => "" end.

Fixpoint trim_slashes_right (s : string) : string :=
  match s with
  | "" => ""
  | String a s' =>
      let r := trim_slashes_right s' in
      if Ascii.eqb a "/" && String.eqb r "" then "" else String a r
  end.

Definition trim_slashes (s : string) : string := trim_slashes_right (trim_slashes_left s).

(** The part after the first "satellite-state" that has one after it *)
Fixpoint after_state (parts : list string) : option string :=
  match parts with
  | part :: ((name :: _) as parts') => if String.eqb part "satellite-state" then Some name else after_state parts'
  | _ => None
  end.

Definition extractSatelliteNameFromURL `{NetUrl} (stateURL : string) : result string :=
  match Parse stateURL with
  | inl m => inl (WrapErr "parse state URL" (PlainErr m))
  | inr parsed =>
      match after_state (Go.split_on "/" (trim_slashes (url_path parsed))) with
      | Some name => inr name
      | None => inl (PlainErr ("could not extract satellite name from URL path: " +:+ url_path parsed))
      end
  end.

(* ------------------------------------------------------------------ *)
(** ** catalog.go *)

Definition enc_digest `{Sha256} (raw : string) : string := "sha256:" +:+ Go.hex_encode (sha256_Sum (bytes raw)).

Definition index_types : list string :=
  ["application/vnd.oci.image.index.v1+json"; "application/vnd.docker.distribution.manifest.list.v2+json"].

(** int64 additions *)
Definition computeManifestSize `{ReportTexts} (raw : string) : result Z :=
  match Unmarshal (dec_struct [("mediaType", dec_string)]) raw "" with
  | None => inl (WrapErr "unmarshal manifest" (PlainErr "json"))
  | Some mediaType =>
      if bool_decide (mediaType ∈ index_types)
      then inl (PlainErr "multi-arch manifest index not supported for size computation")
      else match manifest_sizes raw with
           | None => inl (WrapErr "unmarshal manifest" (PlainErr "json"))
           | Some (config, layers) =>
               inr (foldl (fun total size => Go.to_int64 (total + size)%Z) (Go.to_int64 config) layers)
           end
  end.

Definition registryScheme (insecure : bool) : string := if insecure then "http" else "https".

Definition dec_catalog : decoder (option (list string)) :=
  dec_struct [("repositories", dec_slice "" dec_string)].
Definition dec_tags : decoder (option (list string)) := dec_struct [("tags", dec_slice "" dec_string)].

Section Report.
Context `{Registries, X509, Argon2, Sha256, AesGcm, SatEnv, NetUrl, GoQuote, SpiffeIds, ReportTexts}.

(** The common text of fetchCatalog and fetchTags *)
Definition fetch_list (what url : string) (dec : decoder (option (list string))) : act (result (list string)) :=
  let? req := Ret (NewRequest "GET" url "") catch wrap ("create " +:+ what +:+ " request") in
  let? resp := Do DefaultHttpClient req catch wrap (what +:+ " request") in
  if negb (rs_StatusCode resp =? 200)%Z then throw (PlainErr (what +:+ " request returned " +:+ rs_Status resp))
  else match Decode dec (rs_Body resp) None with
       | None => throw (WrapErr ("decode " +:+ what) (PlainErr "json"))
       | Some l => ok (default [] l)
       end.

Definition fetchCatalog (registryHost : string) (insecure : bool) : act (result (list string)) :=
  fetch_list "catalog" (registryScheme insecure +:+ "://" +:+ registryHost +:+ "/v2/_catalog") dec_catalog.

Definition fetchTags (registryHost repo : string) (insecure : bool) : act (result (list string)) :=
  fetch_list "tags" (registryScheme insecure +:+ "://" +:+ registryHost +:+ "/v2/" +:+ repo +:+ "/tags/list") dec_tags.

Definition collectImageInfo (ref : string) (insecure : bool) : act (result CachedImage) :=
  let? raw := registry (CraneManifest ref insecure) catch wrap ("get manifest for " +:+ ref) in
  match computeManifestSize raw with
  | inl e => throw (WrapErr ("compute size for " +:+ ref) e)
  | inr size => ok (mkCachedImage (ref +:+ "@" +:+ enc_digest raw) size)
  end.

(** An image that cannot be looked at is left out. *)
Fixpoint collect_tags (registryHost repo : string) (insecure : bool) (tags : list string)
    (images : list CachedImage) : act (list CachedImage) :=
  match tags with
  | [] => Ret images
  | tag :: tags' =>
      let* img := collectImageInfo (registryHost +:+ "/" +:+ repo +:+ ":" +:+ tag) insecure in
      collect_tags registryHost repo insecure tags' (match img with inr i => images ++ [i] | inl _ => images end)
  end.

Fixpoint collect_repos (registryHost : string) (insecure : bool) (repos : list string)
    (images : list CachedImage) : act (list CachedImage) :=
  match repos with
  | [] => Ret images
  | repo :: repos' =>
      let* tags := fetchTags registryHost repo insecure in
      let* images := match tags with
                     | inl _ => Ret images
                     | inr tags => collect_tags registryHost repo insecure tags images
                     end in
      collect_repos registryHost insecure repos' images
  end.

Definition collectCachedImages (registryHost : string) (insecure : bool) : act (result (list CachedImage)) :=
  let? repos := fetchCatalog registryHost insecure catch wrap "fetch catalog" in
  let* images := collect_repos registryHost insecure repos [] in
  ok images.

(* ------------------------------------------------------------------ *)
(** ** Metrics *)

(** One sample after the other; a failed one is left out, and a cancelled
    context ends the loop. *)
Fixpoint sample_cpu (samples : nat) (total : spec_float) (count : Z) : act (spec_float * Z) :=
  match samples with
  | O => Ret (total, count)
  | S samples' =>
      let* cancelled := ctx_err in
      match cancelled with
      | Some _ => Ret (total, count)
      | None =>
          let* percents := locked (perform CpuPercent) in
          match percents with
          | [] => sample_cpu samples' total count
          | percent :: _ => sample_cpu samples' (float_add total percent) (count + 1)%Z
          end
      end
  end.

Definition getAvgCPUUsage (sampleInterval totalDuration : Z) : act spec_float :=
  if (totalDuration <=? 0)%Z || (sampleInterval <=? 0)%Z then Ret float_zero
  else
    let samples := Z.max 1 (totalDuration / sampleInterval) in
    let* (total, count) := sample_cpu (Z.to_nat samples) float_zero 0 in
    if (count =? 0)%Z then Ret float_zero else Ret (float_div total (float_of_int count)).

Definition getMemoryUsedBytes : act Z := let* used := locked (perform MemoryUsed) in Ret (default 0%Z used).

Definition getStorageUsedBytes (path : string) : act Z :=
  let* used := locked (perform (DiskUsed path)) in Ret (default 0%Z used).

(** [if cond { req.F = get() }] *)
Definition measure {A} (cond : bool) (get : act A) (set : A -> StatusReportParams -> StatusReportParams)
    (req : StatusReportParams) : act StatusReportParams :=
  if cond then let* a := get in Ret (set a req) else Ret req.

Definition collectStatusReportParams (heartbeatInterval : Z) (req : StatusReportParams) (cfg : MetricsConfig)
    (registryURL : string) (insecure : bool) : act StatusReportParams :=
  let* req := measure (mc_CollectCPU cfg) (getAvgCPUUsage (500 * 1000000) heartbeatInterval) set_cpu req in
  let* req := measure (mc_CollectMemory cfg) getMemoryUsedBytes set_memory req in
  let* req := measure (mc_CollectStorage cfg) (getStorageUsedBytes "/") set_storage req in
  if negb (String.eqb registryURL "") then
    let* cached := collectCachedImages registryURL insecure in
    Ret match cached with inl _ => req | inr images => set_images images req end
  else Ret req.

(* ------------------------------------------------------------------ *)
(** ** reporting_process.go *)

Definition StatusReportRoute : string := "satellites/sync".

Definition set_report (f : StatusReportingProcess -> StatusReportingProcess) (l : Locals) : Locals :=
  mkLocals (lo_ztr l) (f (lo_report l)).
Definition set_report_running (b : bool) (p : StatusReportingProcess) : StatusReportingProcess :=
  mkStatusReportingProcess b (sp_pendingCRI p) (sp_criReported p) (sp_spiffe p).
Definition set_pending (results : list CRIConfigResult) (p : StatusReportingProcess) : StatusReportingProcess :=
  mkStatusReportingProcess (sp_isRunning p) results (sp_criReported p) (sp_spiffe p).
Definition set_reported (p : StatusReportingProcess) : StatusReportingProcess :=
  mkStatusReportingProcess (sp_isRunning p) [] true (sp_spiffe p).
Definition on_report_spiffe (f : SpiffeClient -> SpiffeClient) : Locals -> Locals :=
  set_report (fun p => mkStatusReportingProcess (sp_isRunning p) (sp_pendingCRI p) (sp_criReported p) (f <$> sp_spiffe p)).
Definition report_client (l : Locals) : option SpiffeClient := sp_spiffe (lo_report l).

Definition NewStatusReportingProcess (spiffeCfg : SPIFFEConfig) : StatusReportingProcess :=
  mkStatusReportingProcess false [] false
    (if sp_Enabled spiffeCfg
     then match spiffe.NewClient spiffeCfg with inr client => Some client | inl _ => None end
     else None).

Definition SetPendingCRIResults (results : list CRIConfigResult) : act unit :=
  locked (perform (SetLocals (set_report (set_pending results)))).

Definition start_report : act unit := locked (perform (SetLocals (set_report (set_report_running true)))).
Definition stop_report : act unit := locked (perform (SetLocals (set_report (set_report_running false)))).

Definition format_entry (r : CRIConfigResult) : string :=
  cri_CRI r +:+ "(" +:+ (if cri_Success r then "ok" else "err:" +:+ cri_Error r) +:+
  (if negb (String.eqb (cri_BackupPath r) "") then ", backup:" +:+ cri_BackupPath r else "") +:+ ")".

Definition formatCRIActivity (results : list CRIConfigResult) : string :=
  "cri_fallback_configured: " +:+ Go.join ", " (format_entry <$> results).

(** The client of the request: the SPIFFE client when the process has one *)
Definition report_http_client (l : Locals) : act (result HttpClient) :=
  match report_client l with
  | Some _ =>
      let? _ := spiffe.Connect report_client on_report_spiffe catch wrap "connect to SPIRE agent" in
      let? client := spiffe.CreateHTTPClient report_client catch wrap "create SPIFFE HTTP client" in
      ok client
  | None =>
      let* tlsCfg := locked GetTLSConfig in
      let* useUnsecure := locked UseUnsecure in
      let? client := unlocked (createHTTPClient tlsCfg useUnsecure) catch wrap "create HTTP client" in
      ok client
  end.

Definition SetBasicAuth (username password : string) (req : HttpRequest) : HttpRequest :=
  mkHttpRequest (rq_Method req) (rq_URL req) (rq_ContentType req) (Some (username, password)) (rq_Body req).
Definition set_ContentType (v : string) (req : HttpRequest) : HttpRequest :=
  mkHttpRequest (rq_Method req) (rq_URL req) v (rq_BasicAuth req) (rq_Body req).

(** Without SPIFFE the registry credentials authenticate the satellite; they
    are kept off an insecure connection unless use_unsecure is set. *)
Definition authenticate (l : Locals) (syncURL : string) (httpReq : HttpRequest) : act (result HttpRequest) :=
  match report_client l with
  | Some _ => ok httpReq
  | None =>
      let* useUnsecure := locked UseUnsecure in
      if negb useUnsecure && negb (Go.has_prefix "https://" syncURL)
      then throw (PlainErr "insecure connection: sync URL must use HTTPS when use_unsecure is false")
      else
        let* username := locked GetSourceRegistryUsername in
        let* password := locked GetSourceRegistryPassword in
        if negb (String.eqb username "") && negb (String.eqb password "")
        then ok (SetBasicAuth username password httpReq)
        else ok httpReq
  end.

Definition sendStatusReport (groundControlURL : string) (req : StatusReportParams) : act (result unit) :=
  match enc_report req with
  | None => throw (WrapErr "marshal status report" (PlainErr "json: unsupported value"))
  | Some body =>
      let syncURL := groundControlURL +:+ "/" +:+ StatusReportRoute in
      let* l := locked (perform GetLocals) in
      let? client := report_http_client l catch throw in
      let? httpReq := Ret (NewRequest "POST" syncURL (Marshal body)) catch wrap "create request" in
      let? httpReq := authenticate l syncURL (set_ContentType "application/json" httpReq) catch throw in
      let? resp := Do client httpReq catch wrap "send request" in
      if negb (rs_StatusCode resp =? 200)%Z
      then throw (PlainErr ("status report failed: " +:+ rs_Status resp))
      else ok tt
  end.

(** time.Now().UTC() *)
Definition now : act Z := locked (perform TimeNow).

Definition report_body : act (result unit) :=
  let* stateURL := locked GetStateURL in
  if String.eqb stateURL "" then ok tt
  else
    let? satelliteName := Ret (extractSatelliteNameFromURL stateURL) catch throw in
    let* heartbeatExpr := locked GetHeartbeatInterval in
    let heartbeatDuration :=
      match parseEveryExpr heartbeatExpr with inr d => d | inl _ => (30 * 1000000000)%Z end in
    let* metricsCfg := locked GetMetricsConfig in
    let* created := now in
    let* pending := locked (let* l := perform GetLocals in
                            Ret (if negb (sp_criReported (lo_report l)) then sp_pendingCRI (lo_report l) else [])) in
    let hasPendingCRI := match pending with [] => false | _ => true end in
    let activity := if hasPendingCRI then formatCRIActivity pending else "" in
    let* local := locked GetLocalRegistryURL in
    let* insecure := locked UseUnsecure in
    let* req := collectStatusReportParams heartbeatDuration (no_report satelliteName activity heartbeatExpr created)
                  metricsCfg (FormatRegistryURL local) insecure in
    let* groundControlURL := locked ResolveGroundControlURL in
    let? _ := sendStatusReport groundControlURL req catch throw in
    (if hasPendingCRI then locked (perform (SetLocals (set_report set_reported))) else Ret tt) ;;;
    ok tt.

Definition ExecuteReport : act (result unit) :=
  start_report ;;;
  let* r := report_body in
  stop_report ;;;
  Ret r.

End Report.
