(* ===== verification/ReportFacts.v ===== *)
(** * Properties of the status report

    Credentials and connections, results that are reported until they were
    received, and the satellite's name in the state's address. *)

From stdpp Require Import gmap relations.
From Stdlib Require Import Ascii SpecFloat.
From S2P Require Import Prelude Duration Free Float64 Utf8 GoLib Json CryptoLib SatConfig AuditTrail SatState SatWorld SatRun SatDemo Tls HttpClient Device Secure Manager ZtrClient ZtrClientFacts Scheduler Report.

#[local] Open Scope string_scope.
#[local] Open Scope list_scope.

(* ------------------------------------------------------------------ *)
(** ** What a program sends while others run *)

Section Sends.
Context `{Registries} (I : SWorld -> Prop).

(** [sends p c r]: while the other goroutines do whatever keeps [I], a run of
    [p] can come to send [r] with the client [c]. *)
Inductive sends {A} : act A -> HttpClient -> HttpRequest -> Prop :=
| sends_now c r k : sends (Op (Registry (HttpDo c r)) k) c r
| sends_later R (o : sop R) k w c r : I w -> sends (k (exec_sop o w).2) c r -> sends (Op o k) c r.

Context (Pr : HttpClient -> HttpRequest -> Prop).

Definition allowed {R} (o : sop R) : Prop :=
  match o with Registry o => match o with HttpDo c r => Pr c r | _ => True end | _ => True end.

(** Every request is [Pr], every operation keeps [I], and [Q] holds of the
    result, whatever the others do within [I]. *)
Fixpoint safe {A} (p : act A) (Q : A -> Prop) : Prop :=
  match p with
  | Ret a => Q a
  | Op o k => allowed o /\ forall w, I w -> I (exec_sop o w).1 /\ safe (k (exec_sop o w).2) Q
  end.

Lemma safe_sends {A} (p : act A) Q c r : safe p Q -> sends p c r -> Pr c r.
Proof.
  intros Hp Hs. induction Hs as [c r k|R o k w c r Hw Hs IH]; destruct Hp as [Ho Hk]; [done|]. by apply IH, Hk.
Qed.

Lemma safe_bind {A B} (m : act A) (k : A -> act B) (P : A -> Prop) (Q : B -> Prop) :
  safe m P -> (forall a, P a -> safe (k a) Q) -> safe (bind m k) Q.
Proof.
  intros Hm Hk. induction m as [a|R o f IH]; [by apply Hk|]. destruct Hm as [Ho Hf]. split; [done|].
  intros w Hw. destruct (Hf w Hw) as [Hi Hs]. split; [done|]. by apply IH.
Qed.

Lemma safe_try {A B} (m : act (result A)) h (k : A -> act B) (P : A -> Prop) (Q : B -> Prop) :
  safe m (fun r => match r with inl _ => True | inr a => P a end) -> (forall e, safe (h e) Q) ->
  (forall a, P a -> safe (k a) Q) -> safe (try m h k) Q.
Proof. intros Hm Hh Hk. eapply safe_bind; [exact Hm|]. intros [e|a] Ha; [apply Hh|by apply Hk]. Qed.

Lemma safe_locked {A} (m : free base A) (Q : A -> Prop) :
  (forall w, I w -> I (frun (@exec_base _) m w).1 /\ Q (frun (@exec_base _) m w).2) -> safe (locked m) Q.
Proof. intros Hm. split; [done|]. intros w Hw. by apply Hm. Qed.

Lemma safe_registry {R} (o : regop image R) (Q : result R -> Prop) :
  (forall w, I w -> forall st, I (s_tick (s_reg st w))) -> allowed (Registry o) -> (forall r, Q r) ->
  safe (registry o) Q.
Proof.
  intros Hi Ho Hq. split; [done|]. intros w Hw. cbn. destruct (reg_exec R o (sw_reg w)) as [st x].
  split; [by apply Hi|apply Hq].
Qed.

Lemma safe_unlocked {A} (p : free base A) (Q : A -> Prop) :
  (forall w w', quiet w w' -> I w -> I w') -> calm p -> (forall a, Q a) -> safe (unlocked p) Q.
Proof.
  intros Hq Hp HQ. induction p as [a|R o k IH]; [apply HQ|]. destruct Hp as [Ho Hk]. split; [done|].
  intros w Hw. specialize (Ho w). cbn. destruct (exec_base o w) as [w1 x]. split; [by eapply Hq|]. apply IH, Hk.
Qed.

End Sends.

Section Facts.
Context `{Registries, X509, Argon2, Sha256, AesGcm, SatEnv, NetUrl, GoQuote, SpiffeIds, ReportTexts}.

(* ------------------------------------------------------------------ *)
(** ** Credentials *)

Definition secure (w : SWorld) : Prop := ac_UseUnsecure (cf_AppConfig (cm_config (sw_cm w))) = false.

(** A request with credentials goes to an https address. *)
Definition over_https (c : HttpClient) (r : HttpRequest) : Prop :=
  rq_BasicAuth r <> None -> Go.has_prefix "https://" (rq_URL r) = true.

(** [r] is where an https server redirected a request with the same
    credentials, and on the host of that request or below. *)
Definition redirected_there (r : HttpRequest) : Prop :=
  exists first u0 u, rq_BasicAuth r = rq_BasicAuth first /\ Go.has_prefix "https://" (rq_URL first) = true /\
    Parse (rq_URL first) = inr u0 /\ rq_URL r = url_string u /\ shares_host u0 u = true.

Definition kept_close (c : HttpClient) (r : HttpRequest) : Prop :=
  rq_BasicAuth r <> None -> Go.has_prefix "https://" (rq_URL r) = true \/ redirected_there r.

Abbreviation safely := (safe secure kept_close).

Lemma secure_quiet w w' : quiet w w' -> secure w -> secure w'.
Proof. intros (_ & _ & Hc & _)%quiet_fields. unfold secure. by rewrite Hc. Qed.

Lemma safe_read {A} (f : ConfigManager -> A) (Q : A -> Prop) :
  (forall w, secure w -> Q (f (sw_cm w))) -> safely (locked (get f)) Q.
Proof. intros HQ. apply safe_locked. intros w Hw. split; [done|by apply HQ]. Qed.

Lemma safe_look {A} (m : free base A) (Q : A -> Prop) : calm m -> (forall a, Q a) -> safely (locked m) Q.
Proof. intros Hm HQ. apply safe_locked. intros w Hw. split; [|done]. by eapply secure_quiet, Hw; apply calm_run. Qed.

Lemma safe_locals f (Q : unit -> Prop) : Q tt -> safely (locked (perform (SetLocals f))) Q.
Proof. intros HQ. by apply safe_locked. Qed.

Lemma safe_reg {R} (o : regop image R) (Q : result R -> Prop) :
  allowed kept_close (Registry o) -> (forall r, Q r) -> safely (registry o) Q.
Proof. by apply safe_registry. Qed.

Lemma safe_ctx (Q : option goerr -> Prop) : (forall r, Q r) -> safely ctx_err Q.
Proof. intros HQ. split; [done|]. intros w Hw. split; [done|apply HQ]. Qed.

Lemma safe_ret {A} (a : A) (Q : A -> Prop) : Q a -> safely (Ret a) Q.
Proof. done. Qed.

Lemma safe_mono {A} (p : act A) (P Q : A -> Prop) : (forall a, P a -> Q a) -> safely p P -> safely p Q.
Proof.
  intros HPQ. induction p as [a|R o k IH]; [apply HPQ|]. intros [Ho Hk]. split; [done|].
  intros w Hw. destruct (Hk w Hw) as [Hi Hs]. split; [done|]. by apply IH.
Qed.

(** The credentials of a hop are those of the first request, and go to a host
    it shares. *)
Definition hop_close (ireq : HttpRequest) (iu : url) (h : Hop) : Prop :=
  rq_URL (ho_req h) = rq_URL ireq \/
  (rq_BasicAuth (ho_req h) <> None -> rq_BasicAuth (ho_req h) = rq_BasicAuth ireq /\
     rq_URL (ho_req h) = url_string (ho_url h) /\ shares_host iu (ho_url h) = true).

Lemma next_hop_close ireq iu h resp h' : next_hop ireq iu h resp = inr h' -> hop_close ireq iu h'.
Proof.
  unfold next_hop. destruct (ResolveReference _ _) as [m|u]; [done|]. intros [= <-]. right. cbn.
  destruct (ho_strip h); cbn [orb]; [done|]. by destruct (shares_host iu u).
Qed.

Lemma safe_follow hops client ireq iu : over_https client ireq -> Parse (rq_URL ireq) = inr iu ->
  forall h, hop_close ireq iu h -> (rq_BasicAuth (ho_req h) <> None -> rq_BasicAuth ireq <> None) ->
  safely (follow hops client ireq iu h) (fun _ => True).
Proof.
  intros Hs Hp. induction hops as [|hops IH]; intros h Hh Ha; cbn [follow].
  all: eapply (safe_try _ _ _ _ _ (fun _ => True)); [apply safe_reg; [|by intros []]|done|intros resp _].
  1, 3: intros Hb; specialize (Hs (Ha Hb)); destruct Hh as [->|Hh]; [by left|]; right;
    destruct (Hh Hb) as (Hc & Hu & Hh'); by exists ireq, iu, (ho_url h).
  all: destruct (is_final resp); [done|]; destruct (next_hop ireq iu h resp) as [e|h'] eqn:En; [done|]; try done.
  apply IH; [by eapply next_hop_close|]. apply next_hop_close in En as Hc.
  unfold next_hop in En. destruct (ResolveReference _ _); [done|]. injection En as <-. cbn.
  by destruct (ho_strip h || _).
Qed.

Lemma safe_do client req : over_https client req -> safely (Do client req) (fun _ => True).
Proof.
  intros Hs. unfold Do. destruct (Parse (rq_URL req)) as [m|u] eqn:Eu; [done|].
  apply safe_follow; [done..|by left|done].
Qed.

End Facts.

(** Programs that send no credentials *)
Ltac safe_step :=
  match goal with
  | |- forall _, _ => intros ?
  | |- True => exact I
  | |- safe _ _ (Ret _) _ => apply safe_ret
  | |- safe _ _ (throw _) _ => apply safe_ret
  | |- safe _ _ (ok _) _ => apply safe_ret
  | |- safe _ _ (wrap _ _) _ => apply safe_ret
  | |- safe _ _ (locked (perform (SetLocals _))) _ => apply safe_locals
  | |- safe _ _ (locked _) _ => apply safe_look; [repeat calm_step|]
  | |- safe _ _ (registry _) _ => apply safe_reg; [try exact I|]
  | |- safe _ _ ctx_err _ => apply safe_ctx
  | |- safe _ _ (try _ _ _) _ => eapply (safe_try _ _ _ _ _ (fun _ => True))
  | |- safe _ _ (bind _ _) _ => eapply (safe_bind _ _ _ _ (fun _ => True))
  | |- safe _ _ (match ?x with _ => _ end) _ => destruct x
  | |- match ?x with _ => _ end => destruct x
  end.

Section Credentials.
Context `{Registries, X509, Argon2, Sha256, AesGcm, SatEnv, NetUrl, GoQuote, SpiffeIds, ReportTexts}.

Abbreviation safely := (safe secure kept_close).
Abbreviation any := (fun _ => True).

Lemma NewRequest_plain method target body req :
  NewRequest method target body = inr req -> rq_BasicAuth req = None /\ rq_URL req = target.
Proof. unfold NewRequest. destruct (Parse target); [done|]. by intros [= <-]. Qed.

Lemma safe_new_request {B} method target body h (k : HttpRequest -> act B) Q :
  (forall e, safely (h e) Q) ->
  (forall req, rq_BasicAuth req = None -> rq_URL req = target -> safely (k req) Q) ->
  safely (try (Ret (NewRequest method target body)) h k) Q.
Proof.
  intros Hh Hk. eapply (safe_try _ _ _ _ _ (fun req => rq_BasicAuth req = None /\ rq_URL req = target)).
  - destruct (NewRequest _ _ _) eqn:E; [done|]. by eapply NewRequest_plain.
  - done.
  - intros req [Ha Hu]. by apply Hk.
Qed.

Lemma safe_fetch_list what url dec : safely (fetch_list what url dec) any.
Proof.
  unfold fetch_list. apply safe_new_request; [done|]. intros req Ha Hu.
  safe_step; [eapply safe_mono; [|by apply safe_do; intros ?]; by intros []|repeat safe_step..].
Qed.

Lemma safe_collect_tags host repo insecure tags : forall images,
  safely (collect_tags host repo insecure tags images) any.
Proof.
  induction tags as [|tag tags IH]; intros images; cbn [collect_tags]; [done|].
  safe_step; [unfold collectImageInfo; repeat safe_step|]. intros img _. apply IH.
Qed.

Lemma safe_collect_repos host insecure repos : forall images,
  safely (collect_repos host insecure repos images) any.
Proof.
  induction repos as [|repo repos IH]; intros images; cbn [collect_repos]; [done|].
  safe_step; [apply safe_fetch_list|]. intros tags _. safe_step; [|intros images' _; apply IH].
  destruct tags as [e|tags]; [done|apply safe_collect_tags].
Qed.

Lemma safe_sample_cpu samples : forall total count, safely (sample_cpu samples total count) any.
Proof.
  induction samples as [|n IH]; intros total count; cbn [sample_cpu]; [done|].
  safe_step; [repeat safe_step|]. intros [e|] _; [done|]. safe_step; [repeat safe_step|].
  intros [|x l] _; apply IH.
Qed.

Lemma safe_collect hb req cfg url insecure : safely (collectStatusReportParams hb req cfg url insecure) any.
Proof.
  unfold collectStatusReportParams, measure, getAvgCPUUsage, getMemoryUsedBytes, getStorageUsedBytes,
    collectCachedImages, fetchCatalog.
  repeat first [apply safe_sample_cpu | apply safe_collect_repos | (eapply safe_mono; [|apply safe_fetch_list]; by intros []) | safe_step].
Qed.

Lemma safe_with_client {A} get (f : SpiffeClient -> act (result A)) (Q : result A -> Prop) :
  (forall e, Q (inl e)) -> (forall c, safely (f c) Q) -> safely (spiffe.with_client get f) Q.
Proof.
  intros He Hf. unfold spiffe.with_client. safe_step; [repeat safe_step|]. intros l _.
  destruct (get l); [apply Hf|apply He].
Qed.

Lemma safe_client l : safely (report_http_client l) any.
Proof.
  unfold report_http_client, spiffe.Connect, spiffe.CreateHTTPClient, spiffe.GetTLSConfig.
  destruct (report_client l).
  - repeat first [apply safe_with_client | safe_step].
  - repeat first [apply safe_unlocked; [apply secure_quiet|apply calm_client|] | safe_step].
Qed.

Lemma safe_authenticate l url req : rq_BasicAuth req = None -> rq_URL req = url ->
  safely (authenticate l url req) (fun r => match r with inr req' => over_https DefaultHttpClient req' | inl _ => True end).
Proof.
  intros Ha Hu. unfold authenticate. destruct (report_client l) as [c|]; [by intros ?|].
  eapply safe_bind; [apply safe_read with (Q := eq false); intros w Hw; by rewrite Hw|].
  intros unsecure <-. cbn [negb andb]. destruct (Go.has_prefix "https://" url) eqn:Ep; cbn [negb]; [|done].
  safe_step; [repeat safe_step|]. intros user _. safe_step; [repeat safe_step|]. intros password _.
  destruct (_ && _); [|by intros ?]. intros _. cbn. by rewrite Hu.
Qed.

Lemma safe_send gc req : safely (sendStatusReport gc req) any.
Proof.
  unfold sendStatusReport. destruct (enc_report req) as [body|]; [|done].
  safe_step; [by repeat safe_step|]. intros l _. safe_step; [eapply safe_mono; [|apply safe_client]; by intros []|done|].
  intros client _. apply safe_new_request; [done|]. intros r Ha Hu.
  eapply safe_try; [by apply safe_authenticate|done|]. intros r' Hr.
  safe_step; [eapply safe_mono; [|by apply safe_do]; by intros []|done|]. intros resp _. by destruct (negb _).
Qed.

Lemma safe_report : safely ExecuteReport any.
Proof.
  unfold ExecuteReport, start_report, stop_report, report_body. safe_step; [by repeat safe_step|]. intros _ _.
  safe_step; [|intros r _; by repeat safe_step]. safe_step; [by repeat safe_step|]. intros url _.
  destruct (String.eqb url ""); [done|]. safe_step; [by destruct (extractSatelliteNameFromURL url)|done|].
  intros name _. do 3 (safe_step; [by repeat safe_step|intros ? _]).
  safe_step; [by repeat safe_step|]. intros pending _. do 2 (safe_step; [by repeat safe_step|intros ? _]).
  safe_step; [apply safe_collect|]. intros req _.
  safe_step; [by repeat safe_step|]. intros gc _.
  safe_step; [eapply safe_mono; [|apply safe_send]; by intros []|done|]. intros u _.
  safe_step; [|intros ? _; done]. destruct pending; by repeat safe_step.
Qed.

End Credentials.

(* ------------------------------------------------------------------ *)
(** ** Results are reported until they were received *)

Section Results.
Context `{Registries, X509, Argon2, Sha256, AesGcm, SatEnv, NetUrl, GoQuote, SpiffeIds, ReportTexts}.

(** What a report leaves alone until it was sent *)
Definition unreported (w w' : SWorld) : Prop :=
  sw_files w' = sw_files w /\ sw_cm w' = sw_cm w /\ sw_proc w' = sw_proc w /\ sw_audit w' = sw_audit w /\
  lo_ztr (sw_locals w') = lo_ztr (sw_locals w) /\
  sp_pendingCRI (lo_report (sw_locals w')) = sp_pendingCRI (lo_report (sw_locals w)) /\
  sp_criReported (lo_report (sw_locals w')) = sp_criReported (lo_report (sw_locals w)).

#[export] Instance unreported_preorder : PreOrder unreported.
Proof.
  split; [by intros w|]. intros u v w (?&?&?&?&?&?&?) (?&?&?&?&?&?&?). unfold unreported. split_and!; congruence.
Qed.

Abbreviation keeps := (within (@exec_sop _) unreported).

Lemma quiet_unreported w w' : quiet w w' -> unreported w w'.
Proof. intros (Hf & _ & Hc & Hp & Hl & Ha)%quiet_fields. unfold unreported. rewrite Hl. by split_and!. Qed.

Lemma keeps_look {A} (m : free base A) : calm m -> keeps (locked m).
Proof. intros Hm. split; [|done]. intros w. by apply quiet_unreported, calm_run. Qed.

Lemma keeps_registry {R} (o : regop image R) : keeps (registry o).
Proof. split; [|done]. intros w. cbn. by destruct (reg_exec R o (sw_reg w)). Qed.

Lemma keeps_ctx : keeps ctx_err.
Proof. by split. Qed.

Lemma keeps_follow hops client ireq iu : forall h, keeps (follow hops client ireq iu h).
Proof.
  induction hops as [|hops IH]; intros h; cbn [follow]; unfold try; (apply within_bind; [apply keeps_registry|]);
    intros [e|resp]; try done; destruct (is_final resp), (next_hop ireq iu h resp); try done.
Qed.

Lemma keeps_do client req : keeps (Do client req).
Proof. unfold Do. destruct (Parse _); [done|]. apply keeps_follow. Qed.

Lemma keeps_unlocked {A} (p : free base A) : calm p -> keeps (unlocked p).
Proof.
  intros Hp. eapply within_mono; [apply quiet_unreported|]. by apply calm_unlocked.
Qed.

Lemma keeps_locals f :
  (forall l, lo_ztr (f l) = lo_ztr l /\ sp_pendingCRI (lo_report (f l)) = sp_pendingCRI (lo_report l) /\
             sp_criReported (lo_report (f l)) = sp_criReported (lo_report l)) ->
  keeps (locked (perform (SetLocals f))).
Proof. intros Hf. split; [|done]. intros w. cbn. destruct (Hf (sw_locals w)) as (?&?&?). by split_and!. Qed.

End Results.

Ltac keeps_step :=
  match goal with
  | |- forall _, _ => intros ?
  | |- within _ _ (Ret _) => exact I
  | |- within _ _ (throw _) => exact I
  | |- within _ _ (ok _) => exact I
  | |- within _ _ (wrap _ _) => exact I
  | |- within _ _ (locked (perform (SetLocals _))) => apply keeps_locals; by intros
  | |- within _ _ (locked _) => apply keeps_look; repeat calm_step
  | |- within _ _ (registry _) => apply keeps_registry
  | |- within _ _ (Do _ _) => apply keeps_do
  | |- within _ _ ctx_err => apply keeps_ctx
  | |- within _ _ (unlocked _) => apply keeps_unlocked, calm_client
  | |- within _ _ (try _ _ _) => unfold try
  | |- within _ _ (bind _ _) => apply within_bind
  | |- within _ _ (match ?x with _ => _ end) => destruct x
  end.

Section Received.
Context `{Registries, X509, Argon2, Sha256, AesGcm, SatEnv, NetUrl, GoQuote, SpiffeIds, ReportTexts}.

Abbreviation keeps := (within (@exec_sop _) unreported).

Lemma keeps_tags host repo insecure tags : forall images, keeps (collect_tags host repo insecure tags images).
Proof.
  induction tags as [|tag tags IH]; intros images; cbn [collect_tags]; [done|]. unfold collectImageInfo.
  repeat first [apply IH | keeps_step].
Qed.

Lemma keeps_fetch what url dec : keeps (fetch_list what url dec).
Proof. unfold fetch_list. repeat keeps_step. Qed.

Lemma keeps_repos host insecure repos : forall images, keeps (collect_repos host insecure repos images).
Proof.
  induction repos as [|repo repos IH]; intros images; cbn [collect_repos]; [done|].
  repeat first [apply IH | apply keeps_tags | apply keeps_fetch | keeps_step].
Qed.

Lemma keeps_sample samples : forall total count, keeps (sample_cpu samples total count).
Proof.
  induction samples as [|n IH]; intros total count; cbn [sample_cpu]; [done|].
  repeat first [apply IH | keeps_step].
Qed.

Lemma keeps_collect hb req cfg url insecure : keeps (collectStatusReportParams hb req cfg url insecure).
Proof.
  unfold collectStatusReportParams, measure, getAvgCPUUsage, getMemoryUsedBytes, getStorageUsedBytes,
    collectCachedImages.
  repeat first [apply keeps_sample | apply keeps_repos | apply keeps_fetch | keeps_step].
Qed.

Lemma keeps_send gc req : keeps (sendStatusReport gc req).
Proof.
  unfold sendStatusReport, report_http_client, authenticate, spiffe.Connect, spiffe.CreateHTTPClient,
    spiffe.GetTLSConfig, spiffe.with_client.
  repeat keeps_step.
Qed.

Lemma srun_bind_inv {A B} (m : act A) (k : A -> act B) w w' b :
  srun (bind m k) w = (w', b) -> exists w1 a, srun m w = (w1, a) /\ srun (k a) w1 = (w', b).
Proof. unfold srun. rewrite frun_bind. destruct (frun _ m w) as [w1 a]. eauto. Qed.

(** [m] returned without an error *)
Lemma srun_try_ok {A B} (m : act (result A)) (h : goerr -> act (result B)) (k : A -> act (result B)) w w' b :
  (forall e v v', srun (h e) v <> (v', inr b)) ->
  srun (try m h k) w = (w', inr b) -> exists w1 a, srun m w = (w1, inr a) /\ srun (k a) w1 = (w', inr b).
Proof.
  intros Hh (w1 & [e|a] & Em & E)%srun_bind_inv; [by apply Hh in E|eauto].
Qed.

(** A report with [activity] was sent to Ground Control, which answered 200 to
    it or at the end of the redirects it answered with. *)
Definition received (gc activity : string) : Prop :=
  exists client httpReq st response report body,
    rq_URL httpReq = gc +:+ "/satellites/sync" /\ rq_Body httpReq = Marshal body /\
    enc_report report = Some body /\ sr_Activity report = activity /\
    answers client httpReq st response /\ rs_StatusCode response = 200%Z.

Lemma authenticate_keeps l url req w w' req' :
  srun (authenticate l url req) w = (w', inr req') -> rq_URL req' = rq_URL req /\ rq_Body req' = rq_Body req.
Proof.
  unfold authenticate. destruct (report_client l); [by intros [= <- <-]|].
  intros (w1 & unsecure & _ & E)%srun_bind_inv. destruct (_ && _); [done|].
  apply srun_bind_inv in E as (w2 & user & _ & E). apply srun_bind_inv in E as (w3 & password & _ & E).
  by destruct (_ && _); injection E as <- <-.
Qed.

Lemma send_received gc req w w' : srun (sendStatusReport gc req) w = (w', inr tt) -> received gc (sr_Activity req).
Proof.
  unfold sendStatusReport. destruct (enc_report req) as [body|] eqn:Eb; [|done].
  intros (w1 & l & _ & E)%srun_bind_inv. apply srun_try_ok in E as (w2 & client & _ & E); [|done].
  apply srun_try_ok in E as (w3 & r & Er & E); [|done]. injection Er as <- Er.
  apply srun_try_ok in E as (w4 & r' & Ea & E); [|done]. apply authenticate_keeps in Ea as [Hu Hb].
  apply srun_try_ok in E as (w5 & resp & Ed & E); [|done].
  destruct (Z.eqb_spec (rs_StatusCode resp) 200) as [E200|]; [|done].
  unfold NewRequest in Er. destruct (Parse _); [done|]. injection Er as <-.
  apply Do_answers in Ed. exists client, r', (sw_reg w4), resp, req, body. by split_and!.
Qed.

Lemma measure_activity {A} cond (get : act A) set req w w' req' :
  (forall a r, sr_Activity (set a r) = sr_Activity r) ->
  srun (measure cond get set req) w = (w', req') -> sr_Activity req' = sr_Activity req.
Proof.
  intros Hs. unfold measure. destruct cond; [|by intros [= _ <-]].
  intros (w1 & a & _ & E)%srun_bind_inv. injection E as _ <-. apply Hs.
Qed.

Lemma collect_activity hb req cfg url insecure w w' req' :
  srun (collectStatusReportParams hb req cfg url insecure) w = (w', req') -> sr_Activity req' = sr_Activity req.
Proof.
  unfold collectStatusReportParams. intros (w1 & r1 & E1 & E)%srun_bind_inv.
  apply srun_bind_inv in E as (w2 & r2 & E2 & E). apply srun_bind_inv in E as (w3 & r3 & E3 & E).
  apply measure_activity in E1, E2, E3; [|done..]. rewrite <- E1, <- E2, <- E3.
  destruct (negb _); [|by injection E as _ <-].
  apply srun_bind_inv in E as (w4 & [e|images] & _ & E); by injection E as _ <-.
Qed.

(** The results that are still to be reported *)
Definition unsent (w : SWorld) : list CRIConfigResult :=
  if sp_criReported (lo_report (sw_locals w)) then [] else sp_pendingCRI (lo_report (sw_locals w)).

Definition activity_of (results : list CRIConfigResult) : string :=
  match results with [] => "" | _ => formatCRIActivity results end.

(** The end of a run: an error leaves the results to be reported; otherwise
    there was no address yet, or the report was received and they are not
    reported again. *)
Definition reported (w w' : SWorld) (r : result unit) : Prop :=
  match r with
  | inl _ => unsent w' = unsent w
  | inr _ =>
      stc_StateURL (cf_StateConfig (cm_config (sw_cm w))) = "" /\ unsent w' = unsent w \/
      received (gc_url (sw_cm w)) (activity_of (unsent w)) /\ unsent w' = []
  end.

Lemma unsent_keeps w w' : unreported w w' -> unsent w' = unsent w.
Proof. intros (_&_&_&_&_& Hp & Hr). unfold unsent. by rewrite Hp, Hr. Qed.

Lemma keeps_run {A} (p : act A) w w' a : keeps p -> srun p w = (w', a) -> unreported w w'.
Proof.
  intros Hp E. pose proof (within_run (@exec_sop _) unreported p w Hp) as Hr. unfold srun in E. by rewrite E in Hr.
Qed.

Lemma send_end w v w' r pending gc req :
  unreported w v -> gc = gc_url (sw_cm w) -> pending = unsent w -> sr_Activity req = activity_of pending ->
  srun (let? _ := sendStatusReport gc req catch throw in
        (if match pending with [] => false | _ => true end
         then locked (perform (SetLocals (set_report set_reported))) else Ret tt) ;;; ok tt) v = (w', r) ->
  (sw_files w', sw_cm w', sw_proc w', sw_audit w', lo_ztr (sw_locals w')) =
  (sw_files w, sw_cm w, sw_proc w, sw_audit w, lo_ztr (sw_locals w)) /\ reported w w' r.
Proof.
  intros Hv -> -> Ha E. apply srun_bind_inv in E as (w1 & x & Es & E).
  pose proof (keeps_run _ _ _ _ (keeps_send _ _) Es) as Hk. pose proof (transitivity Hv Hk) as Hw1.
  assert (forall u, unreported w u ->
    (sw_files u, sw_cm u, sw_proc u, sw_audit u, lo_ztr (sw_locals u)) =
    (sw_files w, sw_cm w, sw_proc w, sw_audit w, lo_ztr (sw_locals w))) as Hsame.
  { intros u (-> & -> & -> & -> & -> & _). done. }
  destruct x as [e|[]].
  - injection E as <- <-. split; [by apply Hsame|]. by apply unsent_keeps.
  - apply send_received in Es. rewrite Ha in Es.
    destruct (unsent w) as [|c l] eqn:Eu; injection E as <- <-.
    + split; [by apply Hsame|]. right. split; [by rewrite Eu|]. by rewrite (unsent_keeps _ _ Hw1).
    + split; [by apply (Hsame w1)|]. right. split; [by rewrite Eu|done].
Qed.

Lemma report_end w v w' r : unreported w v -> srun report_body v = (w', r) ->
  (sw_files w', sw_cm w', sw_proc w', sw_audit w', lo_ztr (sw_locals w')) =
  (sw_files w, sw_cm w, sw_proc w, sw_audit w, lo_ztr (sw_locals w)) /\ reported w w' r.
Proof.
  intros Hv E. unfold report_body in E.
  assert (forall u, unreported w u ->
    (sw_files u, sw_cm u, sw_proc u, sw_audit u, lo_ztr (sw_locals u)) =
    (sw_files w, sw_cm w, sw_proc w, sw_audit w, lo_ztr (sw_locals w))) as Hsame.
  { intros u (-> & -> & -> & -> & -> & _). done. }
  assert (forall u, unreported w u -> unreported w (s_tick u)) as Htick.
  { intros u Hu. etransitivity; [exact Hu|]. apply quiet_unreported, quiet_tick. }
  apply srun_bind_inv in E as (v1 & url & E1 & E). injection E1 as <- Eu.
  assert (url = stc_StateURL (cf_StateConfig (cm_config (sw_cm w)))) as ->.
  { rewrite <- Eu. by destruct Hv as (_ & <- & _). } clear Eu.
  destruct (String.eqb_spec (stc_StateURL (cf_StateConfig (cm_config (sw_cm w)))) "") as [E0|].
  { injection E as <- <-. split; [by apply (Hsame v)|]. left. split; [done|]. by apply (unsent_keeps w v). }
  apply srun_bind_inv in E as (v2 & name & E1 & E). injection E1 as <- Ename.
  destruct name as [e|name]; [injection E as <- <-; split; [by apply (Hsame v)|by apply (unsent_keeps w v)]|].
  do 3 (apply srun_bind_inv in E as (? & ? & E1 & E); injection E1 as <- <-).
  apply srun_bind_inv in E as (? & pending & E1 & E). injection E1 as <- Ep.
  do 2 (apply srun_bind_inv in E as (? & ? & E1 & E); injection E1 as <- <-).
  apply srun_bind_inv in E as (v3 & req & E1 & E).
  match type of E1 with srun _ ?u = _ => assert (unreported w u) as Hu by by repeat apply Htick end.
  pose proof (transitivity Hu (keeps_run _ _ _ _ (keeps_collect _ _ _ _ _) E1)) as Hv3.
  apply collect_activity in E1. apply srun_bind_inv in E as (v4 & gc & E2 & E). injection E2 as <- Egc.
  assert (pending = unsent w) as ->.
  { rewrite <- Ep. unfold unsent. destruct Hv as (_&_&_&_&_& Hp & Hr). cbn. rewrite Hr, Hp.
    by destruct (sp_criReported (lo_report (sw_locals w))). }
  eapply send_end; [by apply Htick| |reflexivity| |exact E].
  - rewrite <- Egc. by destruct Hv3 as (_ & -> & _).
  - rewrite E1. by destruct (unsent w).
Qed.

(** C33. One heartbeat, whatever Ground Control answers and whatever fails: it
    changes nothing but the process's own fields; the results of configuring
    the container runtimes are kept for the next heartbeat unless the report
    that lists them was answered with 200, and then they are not sent
    again. *)
Theorem report_outcome w :
  let out := srun ExecuteReport w in
  sp_isRunning (lo_report (sw_locals out.1)) = false /\
  (sw_files out.1, sw_cm out.1, sw_proc out.1, sw_audit out.1, lo_ztr (sw_locals out.1)) =
  (sw_files w, sw_cm w, sw_proc w, sw_audit w, lo_ztr (sw_locals w)) /\
  reported w out.1 out.2.
Proof.
  cbv zeta. destruct (srun ExecuteReport w) as [w' r] eqn:E. unfold ExecuteReport in E.
  apply srun_bind_inv in E as (v & ? & E1 & E). injection E1 as <- _.
  apply srun_bind_inv in E as (v1 & r1 & E1 & E).
  eapply (report_end w) in E1 as [Hsame Hr]; [|by split_and!].
  apply srun_bind_inv in E as (v2 & ? & E2 & E). injection E2 as <- _. injection E as <- <-.
  split; [done|]. split; [exact Hsame|]. exact Hr.
Qed.


End Received.

(* ------------------------------------------------------------------ *)
(** ** The satellite's name *)

Lemma trim_right_end s a : Ascii.eqb a "/" = false -> trim_slashes_right (s +:+ String a "") = s +:+ String a "".
Proof.
  intros Ha. induction s as [|b s IH].
  - change ("" +:+ ?x) with x. cbn. by rewrite Ha.
  - rewrite Utf8.app_cons. cbn. rewrite IH.
    replace (String.eqb (s +:+ String a "") "") with false by by destruct s. by rewrite andb_false_r.
Qed.

(** The address Ground Control gives a satellite's state names the satellite:
    whatever valid name, the one read from the path is the same. *)
Theorem state_url_names_satellite `{NetUrl} stateURL u name :
  Parse stateURL = inr u -> url_path u = "/satellite/satellite-state/" +:+ name +:+ "/state:latest" ->
  no_slash name = true -> extractSatelliteNameFromURL stateURL = inr name.
Proof.
  intros Hp Hu Hn. unfold extractSatelliteNameFromURL. rewrite Hp, Hu.
  replace (trim_slashes ("/satellite/satellite-state/" +:+ name +:+ "/state:latest")) with
    ("satellite" +:+ String "/" ("satellite-state" +:+ String "/" (name +:+ String "/" "state:latest"))).
  - rewrite !split_element by done. by rewrite split_plain.
  - set (mid := "atellite/satellite-state/" +:+ name +:+ "/state:lates").
    replace ("/satellite/satellite-state/" +:+ name +:+ "/state:latest") with (String "/" (String "s" (mid +:+ "t")))
      by (unfold mid; rewrite !append_assoc; reflexivity).
    change (trim_slashes _) with (trim_slashes_right (String "s" mid +:+ "t")).
    rewrite trim_right_end by done. symmetry. transitivity (String "s" (mid +:+ "t")); [reflexivity|].
    unfold mid. rewrite !append_assoc. reflexivity.
Qed.

(* ------------------------------------------------------------------ *)
(** ** A heartbeat *)

Section Sent.
Context `{Registries} (I : SWorld -> Prop) (test : SWorld -> bool) (Htest : forall w, test w = true -> I w).

(** The requests of an undisturbed run, as long as [test] holds *)
Fixpoint sent {A} (p : act A) (w : SWorld) : list (HttpClient * HttpRequest) :=
  match p with
  | Ret _ => []
  | Op o k =>
      (match o with Registry o => match o with HttpDo c r => [(c, r)] | _ => [] end | _ => [] end) ++
      (if test w then sent (k (exec_sop o w).2) (exec_sop o w).1 else [])
  end.

Lemma sent_sends {A} (p : act A) w c r : (c, r) ∈ sent p w -> sends I p c r.
Proof.
  revert w. induction p as [a|R o k IH]; intros w; [by intros ?%elem_of_nil|].
  cbn [sent]. intros [Hin|Hin]%elem_of_app.
  - destruct o as [B b|R o|]; try by apply elem_of_nil in Hin. destruct o; try by apply elem_of_nil in Hin.
    apply list_elem_of_singleton in Hin as [= -> ->]. apply sends_now.
  - destruct (test w) eqn:E; [|by apply elem_of_nil in Hin].
    eapply (sends_later _ _ _ _ w); [by apply Htest|]. by eapply IH.
Qed.
End Sent.

Module Heartbeat.
Import NewSatellite.

#[local] Instance demo_texts : ReportTexts := {| float_text _ := Some "0"; manifest_sizes _ := None |}.

Definition gc_ok : Registries := demo_registries_with ∅ (fun _ r => inr (mkHttpResponse 200 "200 OK" "" "")).

(** Registered, with two results to report *)
Definition edge_with (R : Registries) (reg : @reg_state R) : @SWorld R :=
  let w := @new_satellite R (fun _ => None) reg in
  @s_locals R (set_report (set_pending [mkCRIConfigResult "docker" true "" ""]) (sw_locals w))
    (@s_cm R (set_cm_config (SetGroundControlURL "https://gc" (SetStateConfig
      (mkStateConfig (mkRegistryCredentials "https://harbor" "robot$edge" "pw")
         "/satellite/satellite-state/edge/state:latest") no_config)) (sw_cm w)) w).
Definition edge : @SWorld gc_ok := edge_with gc_ok ∅.

Definition is_secure (w : @SWorld gc_ok) : bool := negb (ac_UseUnsecure (cf_AppConfig (cm_config (@sw_cm gc_ok w)))).

Definition heartbeat : HttpClient * HttpRequest :=
  nth 0 (@sent gc_ok is_secure _ ExecuteReport edge) (DefaultHttpClient, mkHttpRequest "" "" "" None "").

Lemma is_secure_secure w : is_secure w = true -> secure w.
Proof. unfold is_secure, secure. by intros ?%negb_true_iff. Qed.

Lemma heartbeat_sent : heartbeat ∈ @sent gc_ok is_secure _ ExecuteReport edge.
Proof.
  unfold heartbeat. destruct (@sent gc_ok is_secure _ ExecuteReport edge) as [|x l] eqn:E; [|by left].
  apply (f_equal (@length _)) in E. vm_compute in E. discriminate.
Qed.

Lemma heartbeat_credentials : rq_BasicAuth heartbeat.2 = Some ("robot$edge", "pw").
Proof. vm_compute. reflexivity. Qed.


Definition gc_downgrades : Registries := demo_registries_with ∅ (fun _ r =>
  if String.eqb (rq_URL r) "https://gc/satellites/sync"
  then inr (mkHttpResponse 307 "307 Temporary Redirect" "http://gc/satellites/sync" "")
  else inr (mkHttpResponse 200 "200 OK" "" "")).

Definition is_secure_down (w : @SWorld gc_downgrades) : bool :=
  negb (ac_UseUnsecure (cf_AppConfig (cm_config (@sw_cm gc_downgrades w)))).

Definition downgraded : HttpClient * HttpRequest :=
  nth 1 (@sent gc_downgrades is_secure_down _ ExecuteReport (edge_with gc_downgrades ∅))
    (DefaultHttpClient, mkHttpRequest "" "" "" None "").

Lemma downgraded_sent : downgraded ∈ @sent gc_downgrades is_secure_down _ ExecuteReport (edge_with gc_downgrades ∅).
Proof.
  unfold downgraded. destruct (@sent gc_downgrades is_secure_down _ ExecuteReport _) as [|x [|y l]] eqn:E.
  1, 2: apply (f_equal (@length _)) in E; vm_compute in E; discriminate.
  right. left.
Qed.

(** A redirect from https to http on the same host is followed with the
    credentials: they are sent in clear although use_unsecure is not set. *)
Theorem credentials_follow_redirect :
  sends (@secure gc_downgrades) ExecuteReport downgraded.1 downgraded.2 /\
  rq_URL downgraded.2 = "http://gc/satellites/sync" /\ rq_BasicAuth downgraded.2 = Some ("robot$edge", "pw").
Proof.
  split; [|split; vm_compute; reflexivity].
  eapply (sent_sends _ is_secure_down); [intros w; unfold is_secure_down, secure; by intros ?%negb_true_iff|].
  rewrite <- surjective_pairing. exact downgraded_sent.
Qed.

(** A redirect that changes the method drops the report, and the 200 to what
    is then a GET without a body counts as its receipt. *)
Definition gc_moved : Registries := demo_registries_with ∅ (fun _ r =>
  if String.eqb (rq_Method r) "POST" then inr (mkHttpResponse 302 "302 Found" "https://gc/" "")
  else inr (mkHttpResponse 200 "200 OK" "" "")).

Example redirected_report_counts :
  let w := edge_with gc_moved ∅ in
  (@srun gc_moved _ ExecuteReport w).2 = inr tt /\
  unsent w <> [] /\ unsent (@srun gc_moved _ ExecuteReport w).1 = [] /\
  ((fun x => (rq_Method x.2, rq_Body x.2)) <$> @sent gc_moved (fun _ => true) _ ExecuteReport w)
    !! 1%nat = Some ("GET", "").
Proof. split_and!; [vm_compute; reflexivity|vm_compute; discriminate|vm_compute; reflexivity|vm_compute; reflexivity]. Qed.

Example heartbeat_reports : (@srun gc_ok _ ExecuteReport edge).2 = inr tt /\
  unsent (@srun gc_ok _ ExecuteReport edge).1 = [].
Proof. split; vm_compute; reflexivity. Qed.

Lemma state_url_names_satellite_witness :
  @extractSatelliteNameFromURL SatConfig.demo_net_url "/satellite/satellite-state/edge-01/state:latest" = inr "edge-01".
Proof. eapply (@state_url_names_satellite SatConfig.demo_net_url); [reflexivity|reflexivity|reflexivity]. Defined.

End Heartbeat.
