(* ===== verification/SchedulerFacts.v ===== *)
(** * What the scheduler guarantees

    Invariants of the reachable states of a scheduler, the end of a cancelled
    one, and the overlap of two executions of its process. *)

From stdpp Require Import gmap relations.
From Stdlib Require Import Ascii.
From S2P Require Import Prelude Free Duration Utf8 GoLib Json CryptoLib SatConfig SatState SatWorld Device Secure Manager Replicator DirectDelivery SatPersist StateProcess SyncFacts Scheduler.

#[local] Open Scope string_scope.
#[local] Open Scope list_scope.

(* ------------------------------------------------------------------ *)
(** ** Counting goroutines *)

Definition task_live (t : task) : nat := match t with Ended => 0 | _ => 1 end.
Definition loop_live (l : loop) : nat := match l with Begun | Selecting | Leaving => 1 | Idle | Gone => 0 end.
Definition live (ts : list task) : nat := sum_list (task_live <$> ts).

#[local] Arguments live : simpl never.

Lemma sum_list_insert {A} (f : A -> nat) (l : list A) i x y : l !! i = Some x ->
  (sum_list (f <$> <[i := y]> l) + f x = sum_list (f <$> l) + f y)%nat.
Proof.
  revert i. induction l as [|z l IH]; intros [|i] Hi; cbn in Hi; [done..| |].
  - injection Hi as ->. cbn. lia.
  - specialize (IH i Hi). change (<[S i:=y]> (z :: l)) with (z :: <[i:=y]> l).
    rewrite !fmap_cons. cbn [sum_list foldr]. lia.
Qed.

Lemma live_snoc ts t : live (ts ++ [t]) = (live ts + task_live t)%nat.
Proof. unfold live. rewrite fmap_app, sum_list_with_app. cbn. lia. Qed.

Lemma live_zero ts : live ts = 0%nat -> Forall (eq Ended) ts.
Proof.
  unfold live. induction ts as [|t ts IH]; cbn; [constructor|]. intros E.
  destruct t; cbn in E; try done. constructor; [done|]. by apply IH.
Qed.

Section Facts.
Context `{Schedulable P}.

Abbreviation Sched := (Scheduler P).

(** The WaitGroup counts the loop and every goroutine that has not ended. *)
Definition counted (s : Sched) : Prop :=
  sc_wg s = (loop_live (sc_loop s) + live (sc_tasks s))%nat /\
  (sc_loop s = Idle -> sc_tasks s = []).

Lemma launch_counted s : counted s -> sc_loop s <> Idle -> counted (launchProcess s).
Proof.
  intros [Hc Hi] Hl. unfold launchProcess. destruct (negb _); [|done]. split; cbn; [|done].
  rewrite live_snoc, Hc. cbn. lia.
Qed.

(** Selecting, after a first launch *)
Lemma run_counted b s s' : counted s -> run b s = Some s' -> counted s'.
Proof.
  intros [Hc Hi] E. destruct b; cbn in E; destruct (sc_loop s) eqn:El; try done.
  - injection E as <-. destruct (launch_counted s) as [H1 H2]; [by split; rewrite El|by rewrite El|].
    split; cbn; [|done]. rewrite H1. by unfold launchProcess; destruct (negb _); cbn; rewrite El.
  - destruct (sc_cancelled s); [|done]. injection E as <-. split; cbn; [exact Hc|done].
  - destruct (negb (sc_tick s)); [done|]. destruct (IsComplete _); injection E as <-; [by split|].
    apply launch_counted; [|cbn; by rewrite El]. split; cbn; rewrite El; [exact Hc|done].
  - injection E as <-. split; cbn; [|done]. rewrite Hc. cbn. lia.
Qed.

Lemma go_counted i s s' : counted s -> go i s = Some s' -> counted s'.
Proof.
  intros [Hc Hi] E. unfold go in E. destruct (sc_tasks s !! i) as [t|] eqn:Et; [|done].
  assert (sc_loop s <> Idle) as Hl by (intros El; by rewrite (Hi El) in Et).
  pose proof (fun t' => sum_list_insert task_live (sc_tasks s) i t t' Et) as Hsum.
  fold (live (sc_tasks s)) in Hsum.
  destruct t; [..|done]; injection E as <-; (split; cbn; [|done]); unfold live in *.
  - specialize (Hsum Executing). cbn in Hsum. lia.
  - specialize (Hsum Returned). cbn in Hsum. lia.
  - specialize (Hsum Ended). cbn in Hsum. lia.
Qed.

Lemma step_counted l s s' : counted s -> step l s = Some s' -> counted s'.
Proof.
  intros Hc E. destruct l; cbn in E.
  - destruct (decide _) as [Hi|]; [|done]. injection E as <-. destruct Hc as [Hc Ht]. split; cbn; [|done].
    rewrite Hc, Hi. cbn. lia.
  - by eapply run_counted.
  - by eapply go_counted.
  - by injection E as <-.
  - by injection E as <-.
  - by injection E as <-.
  - unfold ResetInterval in E. destruct (_ <=? _)%Z; [done|]. by injection E as <-.
Qed.

Lemma fresh_counted s : fresh s -> counted s.
Proof.
  intros (expr & p & E). unfold NewSchedulerWithInterval in E.
  destruct (parseEveryExpr expr); [done|]. destruct (_ <=? _)%Z; [done|]. by injection E as <-.
Qed.

Lemma reachable_counted s s' : fresh s -> rtc steps s s' -> counted s'.
Proof.
  intros Hf. apply fresh_counted in Hf as Hc. clear Hf. induction 1 as [s|x y z [l E] _ IH]; [done|].
  by apply IH, (step_counted l x).
Qed.

(** *** Once the loop is gone nothing is launched *)
Definition over (ts : list task) (s : Sched) : Prop :=
  sc_loop s = Gone /\ sc_tasks s = ts /\ Forall (eq Ended) ts.

Lemma over_step ts l s s' : over ts s -> step l s = Some s' -> over ts s'.
Proof.
  intros (Hl & Ht & He) E. destruct l as [|b|i| | |e|d]; cbn in E.
  - rewrite Hl in E. by destruct (decide _).
  - destruct b; cbn in E; by rewrite Hl in E.
  - unfold go in E. destruct (sc_tasks s !! i) as [t|] eqn:Et; [|done]. rewrite Ht in Et.
    by apply (Forall_lookup_1 _ _ _ _ He) in Et as <-.
  - by injection E as <-.
  - by injection E as <-.
  - by injection E as <-.
  - unfold ResetInterval in E. destruct (_ <=? _)%Z; [done|]. by injection E as <-.
Qed.

(** C27. When Stop returns nil on a scheduler that was started, its loop and every
    execution it launched have ended, and from then on, whatever happens, no
    execution is launched and none goes on. *)
Theorem stop_waits_for_all s s' :
  fresh s -> rtc steps s s' -> sc_loop s' <> Idle -> stop_returns s' = true ->
  sc_loop s' = Gone /\ Forall (eq Ended) (sc_tasks s') /\
  forall s'', rtc steps s' s'' -> sc_tasks s'' = sc_tasks s' /\ stop_returns s'' = true.
Proof.
  intros Hf Hr Hl Hs. apply Nat.eqb_eq in Hs. destruct (reachable_counted s s' Hf Hr) as [Hc _].
  assert (over (sc_tasks s') s') as Ho.
  { split_and!; [|done|apply live_zero; lia]. destruct (sc_loop s'); cbn in Hc; done || lia. }
  split_and!; [apply Ho..|]. intros s'' Hr'.
  assert (over (sc_tasks s') s'') as (Hg & Ht & He).
  { clear Hs Hc Hl Hr. revert Ho. generalize (sc_tasks s'). intros ts Ho.
    induction Hr' as [x|x y z [l E] _ IH]; [done|]. by apply IH, (over_step ts l x). }
  split; [done|]. assert (rtc steps s s'') as Hr2 by (by transitivity s'). apply Nat.eqb_eq.
  destruct (reachable_counted s s'' Hf Hr2) as [-> _]. rewrite Hg, Ht. clear Hc. revert He.
  unfold live. generalize (sc_tasks s'). clear. induction 1 as [|? ? <- _ IH]; [done|]. exact IH.
Qed.

(* ------------------------------------------------------------------ *)
(** ** A cancelled scheduler comes to its end *)

(** The transitions of the loop and of the launched goroutines *)
Definition own (l : label) : bool := match l with LRun _ | LGo _ => true | _ => false end.
Definition own_step (s s' : Sched) : Prop := exists l, own l = true /\ step l s = Some s'.

Definition task_weight (t : task) : nat :=
  match t with Launched => 3 | Executing => 2 | Returned => 1 | Ended => 0 end.
Definition loop_weight (l : loop) : nat :=
  match l with Begun => 6 | Selecting => 2 | Leaving => 1 | Idle | Gone => 0 end.
Definition weight (s : Sched) : nat :=
  loop_weight (sc_loop s) + (if sc_tick s then 4 else 0) + sum_list (task_weight <$> sc_tasks s).

Lemma weight_snoc ts t : sum_list (task_weight <$> (ts ++ [t])) = (sum_list (task_weight <$> ts) + task_weight t)%nat.
Proof. rewrite fmap_app, sum_list_with_app. cbn. lia. Qed.

Lemma launch_weight s : (weight (launchProcess s) <= weight s + 3)%nat.
Proof. unfold launchProcess, weight. destruct (negb _); cbn; [|lia]. rewrite weight_snoc. cbn. lia. Qed.

Lemma own_step_weight s s' : own_step s s' -> (weight s' < weight s)%nat.
Proof.
  intros ([|b|i| | | |] & Ho & E); try done; cbn in E.
  - destruct b; cbn in E; destruct (sc_loop s) eqn:El; try done.
    + injection E as <-. pose proof (launch_weight s) as Hw. unfold weight in *. cbn.
      assert (sc_loop (launchProcess s) = sc_loop s) as E1 by (unfold launchProcess; by destruct (negb _)).
      rewrite E1, El in Hw. cbn in Hw. rewrite El. cbn. lia.
    + destruct (sc_cancelled s); [|done]. injection E as <-. unfold weight. cbn. rewrite El. cbn. lia.
    + destruct (sc_tick s) eqn:Et; [|done]. cbn in E.
      assert (weight (set_tick false s) + 4 = weight s)%nat as Hw by (unfold weight; cbn; rewrite Et; lia).
      destruct (IsComplete _); injection E as <-.
      * unfold weight in *. cbn in *. rewrite El in *. cbn in *. lia.
      * pose proof (launch_weight (set_tick false s)). lia.
    + injection E as <-. unfold weight. cbn. rewrite El. cbn. lia.
  - unfold go in E. destruct (sc_tasks s !! i) as [t|] eqn:Et; [|done].
    pose proof (fun t' => sum_list_insert task_weight (sc_tasks s) i t t' Et) as Hsum.
    destruct t; [..|done]; injection E as <-; unfold weight; cbn.
    + specialize (Hsum Executing). cbn in Hsum. lia.
    + specialize (Hsum Returned). cbn in Hsum. lia.
    + specialize (Hsum Ended). cbn in Hsum. lia.
Qed.

(** With a goroutine left there is a transition, unless the loop waits. *)
Lemma own_progress s : counted s -> sc_cancelled s = true -> sc_wg s <> 0%nat -> exists s', own_step s s'.
Proof.
  intros [Hc Hi] Hx Hw.
  assert (forall b s', run b s = Some s' -> exists s', own_step s s') as Hrun.
  { intros b s' E. exists s', (LRun b). done. }
  destruct (sc_loop s) eqn:El.
  - rewrite Hc, Hi in Hw by done. by cbn in Hw.
  - eapply (Hrun First). cbn. by rewrite El.
  - eapply (Hrun Done). cbn. by rewrite El, Hx.
  - eapply (Hrun Deferred). cbn. by rewrite El.
  - cbn in Hc. destruct (decide (Exists (fun t => t <> Ended) (sc_tasks s))) as [He|He].
    + apply Exists_exists in He as (t & [i Hti]%list_elem_of_lookup & Ht).
      assert (is_Some (go i s)) as [s' E] by (unfold go; rewrite Hti; destruct t; [eexists; reflexivity..|done]).
      exists s', (LGo i). done.
    + apply not_Exists_Forall in He; [|intros t; apply _]. destruct Hw. rewrite Hc. unfold live.
      clear - He. induction He as [|t ts Ht _ IH]; [done|]. cbn. rewrite IH. destruct t; [by destruct Ht..|done].
Qed.

(** C28. Once the context is cancelled, the loop and the executions come to their
    end if every execution does: no schedule of them goes on for ever, and
    when none of them can go on, Stop returns nil. *)
Theorem cancelled_scheduler_ends s s' :
  fresh s -> rtc steps s s' -> sc_cancelled s' = true ->
  Acc (fun y x => own_step x y) s' /\
  ((forall s'', ~ own_step s' s'') -> stop_returns s' = true).
Proof.
  intros Hf Hr Hx. split.
  - clear. remember (weight s') as n eqn:En. revert s' En.
    induction n as [n IH] using lt_wf_ind. intros s' ->. constructor. intros y Hy.
    by apply (IH (weight y)); [apply own_step_weight|].
  - intros Hn. apply Nat.eqb_eq. destruct (decide (sc_wg s' = 0%nat)) as [|Hw]; [done|].
    destruct (own_progress s') as [s'' Hs]; [by eapply reachable_counted|done..|]. by destruct (Hn s'').
Qed.

(* ------------------------------------------------------------------ *)
(** ** One execution at a time *)

(** Executions that have begun and not returned, and goroutines that have
    not got to Execute yet *)
Definition is_executing (t : task) : nat := match t with Executing => 1 | _ => 0 end.
Definition is_launched (t : task) : nat := match t with Launched => 1 | _ => 0 end.
Definition executing (s : Sched) : nat := sum_list (is_executing <$> sc_tasks s).
Definition waiting (s : Sched) : nat := sum_list (is_launched <$> sc_tasks s).

(** Every goroutine launched gets to Execute before the loop goes on. *)
Definition patient_step (s s' : Sched) : Prop :=
  exists l, step l s = Some s' /\ match l with LRun _ => waiting s = 0%nat | _ => True end.

Definition single (s : Sched) : Prop :=
  (executing s + waiting s <= 1)%nat /\ executing s = (if IsRunning (sc_process s) then 1 else 0)%nat.

Lemma launch_single s : single s -> waiting s = 0%nat -> single (launchProcess s).
Proof.
  intros [H1 H2] Hw. unfold launchProcess. destruct (IsRunning (sc_process s)) eqn:Er; [cbn; by split; rewrite ?Er|].
  unfold single, executing, waiting in *. cbn. rewrite Er, !fmap_app, !sum_list_with_app. cbn. lia.
Qed.

Lemma go_single i s s' : single s -> go i s = Some s' -> single s'.
Proof.
  intros [H1 H2] E. unfold go in E. destruct (sc_tasks s !! i) as [t|] eqn:Et; [|done].
  pose proof (fun t' => sum_list_insert is_executing (sc_tasks s) i t t' Et) as He.
  pose proof (fun t' => sum_list_insert is_launched (sc_tasks s) i t t' Et) as Hl.
  unfold single, executing, waiting in *.
  destruct t; [..|done]; injection E as <-; cbn.
  - specialize (He Executing). specialize (Hl Executing). cbn in He, Hl. rewrite start_running.
    destruct (IsRunning (sc_process s)); lia.
  - specialize (He Returned). specialize (Hl Returned). cbn in He, Hl. rewrite stop_running.
    destruct (IsRunning (sc_process s)); lia.
  - specialize (He Ended). specialize (Hl Ended). cbn in He, Hl. lia.
Qed.

Lemma patient_single s s' : single s -> patient_step s s' -> single s'.
Proof.
  intros Hs (l & E & Hp). destruct l as [|b|i| | |e|d]; cbn in E.
  - destruct (decide _); [|done]. by injection E as <-.
  - destruct b; cbn in E; destruct (sc_loop s); try done.
    + injection E as <-. by apply (launch_single s) in Hp.
    + destruct (sc_cancelled s); [|done]. by injection E as <-.
    + destruct (sc_tick s); [|done]. cbn in E. destruct (IsComplete _); injection E as <-; [done|].
      by apply launch_single.
    + by injection E as <-.
  - by eapply go_single.
  - by injection E as <-.
  - by injection E as <-.
  - injection E as <-. unfold single in *. cbn. by rewrite work_running.
  - unfold ResetInterval in E. destruct (_ <=? _)%Z; [done|]. by injection E as <-.
Qed.

(** As long as a launched goroutine gets to Execute before the loop goes on,
    there is at most one execution at a time, and the process says it is
    running exactly while there is one. *)
Theorem one_execution_at_a_time s s' :
  fresh s -> IsRunning (sc_process s) = false -> rtc patient_step s s' ->
  (executing s' <= 1)%nat /\ (IsRunning (sc_process s') = true <-> executing s' = 1%nat).
Proof.
  intros (expr & p & E) Hn Hr. unfold NewSchedulerWithInterval in E.
  destruct (parseEveryExpr expr); [done|]. destruct (_ <=? _)%Z; [done|]. injection E as <-.
  assert (single s') as [H1 H2].
  { cbn in Hn. set (s := mkScheduler _ _ _ _ _ _ _) in Hr.
    assert (single s) as Hs by (unfold single; cbn; rewrite Hn; cbn; lia). clearbody s. clear Hn.
    induction Hr as [x|x y y2 Hxy _ IH]; [done|]. by apply IH, (patient_single x). }
  split; [lia|]. rewrite H2. by destruct (IsRunning (sc_process s')).
Qed.

End Facts.

(* ------------------------------------------------------------------ *)
(** ** The replication process *)

(** What Execute does to the process's fields besides the flag *)
#[global] Instance fetch_and_replicate : Schedulable Process := {
  event := list StateMap * string * option DirectDeliverer;
  IsRunning := fp_isRunning;
  IsComplete _ := false;
  start := set_running true;
  stop := set_running false;
  work e p := mkProcess (fp_isRunning p) e.1.1 e.1.2 (fp_stateFilePath p) e.2;
  start_running _ := eq_refl;
  stop_running _ := eq_refl;
  work_running _ _ := eq_refl }.

Section Replication.
Context `{Registries, Argon2, Sha256, AesGcm, SatEnv, NetUrl, GoQuote, RangeOrder}.

Definition flag_kept (w w' : SWorld) : Prop := fp_isRunning (sw_proc w') = fp_isRunning (sw_proc w).

Definition keeps_flag {A} (m : free base A) : Prop := forall w, flag_kept w (frun (@exec_base _) m w).1.

Lemma keeps_flag_proc {A} (m : free base A) : keeps_proc m -> keeps_flag m.
Proof. intros Hm w. unfold flag_kept. specialize (Hm w). by injection Hm as -> _. Qed.

Lemma keeps_flag_set f : (forall p, fp_isRunning (f p) = fp_isRunning p) -> keeps_flag (perform (SetProc f)).
Proof. intros Hf w. apply Hf. Qed.

Lemma keeps_flag_bind {A B} (m : free base A) (f : A -> free base B) :
  keeps_flag m -> (forall a, keeps_flag (f a)) -> keeps_flag (bind m f).
Proof.
  intros Hm Hf w. unfold flag_kept. rewrite frun_bind.
  destruct (frun (@exec_base _) m w) as [w' a] eqn:E. rewrite Hf. pose proof (Hm w) as Hw. by rewrite E in Hw.
Qed.

Abbreviation calm := (within (@exec_sop _) flag_kept).

Lemma calm_locked {A} (m : free base A) : keeps_flag m -> calm (locked m).
Proof. intros Hm. split; [exact Hm|done]. Qed.

Lemma calm_registry {R} (o : regop image R) : calm (registry o).
Proof. split; [|done]. intros w. cbn. by destruct (reg_exec _ _ _). Qed.

Lemma calm_ctx : calm ctx_err.
Proof. by split. Qed.

Lemma settled_try {A B} (m : act (result A)) (h : goerr -> act B) (k : A -> act B) :
  calm m -> (forall e, calm (h e)) -> (forall a, calm (k a)) -> calm (try m h k).
Proof. intros. apply within_bind; [done|]. by intros [e|a]. Qed.

Ltac flag :=
  first
  [ solve [apply keeps_flag_proc; keeps]
  | apply keeps_flag_set; done
  | apply keeps_flag_bind; [|intros ?]; flag ].

Ltac calm := repeat first
  [ done
  | apply calm_registry
  | apply calm_ctx
  | apply calm_locked; solve [flag]
  | apply settled_try; [|intros ?|intros ?]
  | apply within_bind; [|intros ?]
  | apply within_for_each; intros ? ?
  | match goal with |- calm (if ?b then _ else _) => destruct b end
  | match goal with |- calm (match ?x with _ => _ end) => destruct x end
  | progress unfold throw, ok, wrap ].

Lemma calm_Delete d del : calm (Delete d del).
Proof. unfold Delete, remove_entity, file_op, forget, loadDigestMap, saveDigestMap. calm. Qed.

Lemma calm_Deliver d rep : calm (Deliver d rep).
Proof.
  unfold Deliver, deliver_entity, writeAtomically, discard, file_op, merge_updates, loadDigestMap, saveDigestMap. calm.
Qed.

Lemma calm_changes r url del rep : calm (apply_changes r url del rep).
Proof.
  unfold apply_changes, DeleteReplicationEntity, delete_entity, Replicate, replicate_entity, push_image, countMissingLayers.
  calm.
Qed.

Lemma calm_fetch {A} (unmarshal : string -> option A) f : calm (FetchStateArtifact unmarshal f).
Proof. unfold FetchStateArtifact, pullImage, extractArtifactJSON. calm. Qed.

Lemma calm_group i u p ins r : calm (processGroupState i u p ins r).
Proof.
  pose proof calm_Delete. pose proof calm_Deliver. pose proof calm_changes. pose proof @calm_fetch.
  unfold processGroupState. calm; auto.
Qed.

Lemma calm_config url u p ins : calm (reconcileRemoteConfig url u p ins).
Proof. unfold reconcileRemoteConfig. pose proof @calm_fetch. calm; auto. Qed.

Lemma calm_prepare : calm prepare.
Proof. unfold prepare. pose proof @calm_fetch. calm; auto. Qed.

#[local] Instance flag_kept_preorder : PreOrder flag_kept.
Proof. split; [done|]. unfold flag_kept. intros ?????. congruence. Qed.

Lemma calm_threads pl : Forall calm (threads pl).
Proof.
  unfold threads. apply Forall_app. split; [|apply Forall_singleton].
  - apply Forall_fmap, Forall_true. intros i. apply within_bind; [apply calm_group|done].
  - apply within_bind; [apply calm_config|done].
Qed.

(** Execute of the replication process keeps the promise of the class: from
    its start to its stop the flag is up. *)
Lemma execute_flag w w1 pl ts w2 :
  srun prepare (srun StateProcess.start w).1 = (w1, inr pl) ->
  rtc (pstep (@exec_sop _)) (threads pl, w1) (ts, w2) ->
  sw_proc (srun StateProcess.start w).1 = start (sw_proc w) /\
  IsRunning (sw_proc w1) = true /\ IsRunning (sw_proc w2) = true /\
  sw_proc (srun StateProcess.stop w2).1 = stop (sw_proc w2).
Proof.
  intros Hp Hr. pose proof (within_run _ _ prepare (srun StateProcess.start w).1 calm_prepare) as Hk.
  apply (within_schedule _ flag_kept (threads pl, w1) (ts, w2) (calm_threads pl)) in Hr.
  change (flag_kept (srun StateProcess.start w).1 (srun prepare (srun StateProcess.start w).1).1) in Hk.
  rewrite Hp in Hk. unfold flag_kept in *. cbn in *. split_and!; [done|done|by rewrite Hr|done].
Qed.

End Replication.

(* ------------------------------------------------------------------ *)
(** ** Two executions at once *)

Definition idle_process : Process := mkProcess false [] "" "" None.

(** The labels one after the other, with what they lead to *)
Fixpoint run_labels (ls : list label) (s : Scheduler Process) : option (Scheduler Process) :=
  match ls with [] => Some s | l :: ls => s' ← step l s; run_labels ls s' end.

Lemma run_labels_steps ls s s' : run_labels ls s = Some s' -> rtc steps s s'.
Proof.
  revert s. induction ls as [|l ls IH]; intros s E; cbn in E.
  - by injection E as <-.
  - destruct (step l s) as [s1|] eqn:E1; [|done]. eapply rtc_l; [by exists l|]. by apply IH.
Qed.

Definition demo_scheduler : Scheduler Process := mkScheduler idle_process 10000000000 Idle false [] 0 false.
Definition after (ls : list label) : Scheduler Process := default demo_scheduler (run_labels ls demo_scheduler).

Lemma scheduler_fresh : fresh demo_scheduler.
Proof. exists "@every 10s", idle_process. reflexivity. Qed.

Definition runs (ls : list label) : bool :=
  match run_labels ls demo_scheduler with Some _ => true | None => false end.

Lemma after_steps ls : runs ls = true -> rtc steps demo_scheduler (after ls).
Proof.
  unfold after, runs. destruct (run_labels ls demo_scheduler) as [s|] eqn:E; [|done].
  intros _. by apply (run_labels_steps ls).
Qed.

(** The loop takes a tick before the goroutine it launched got to Execute. *)
Definition two_ticks : list label := [LStart; LRun First; LTick; LRun Fired; LGo 0; LGo 1].

(** Nothing keeps two executions of the replication process from running at
    once: its flag is only raised inside Execute, so a tick taken before a
    launched goroutine got there launches another; and when the first of the
    two returns, the process says it is not running while the second still
    is. *)
Theorem executions_can_overlap :
  fresh demo_scheduler /\ IsRunning (sc_process demo_scheduler) = false /\
  rtc steps demo_scheduler (after two_ticks) /\ executing (after two_ticks) = 2%nat /\
  let s := after (two_ticks ++ [LGo 0]) in
  rtc steps demo_scheduler s /\ executing s = 1%nat /\ IsRunning (sc_process s) = false.
Proof.
  split; [exact scheduler_fresh|]. cbv zeta.
  pose proof (after_steps two_ticks). pose proof (after_steps (two_ticks ++ [LGo 0])).
  split_and!; [reflexivity|auto|vm_compute; reflexivity|auto|vm_compute; reflexivity..].
Qed.

(** A run that is cancelled during the first execution and comes to its end *)
Definition one_run : list label := [LStart; LRun First; LGo 0; LCancel; LRun Done; LGo 0; LRun Deferred; LGo 0].

Lemma stop_waits_for_all_witness :
  stop_returns (after one_run) = true /\ sc_loop (after one_run) = Gone /\
  sc_tasks (after one_run) = [Ended] /\
  forall s, rtc steps (after one_run) s -> sc_tasks s = [Ended].
Proof.
  split_and!; [reflexivity..|]. intros s Hr.
  destruct (stop_waits_for_all demo_scheduler (after one_run) scheduler_fresh) as (_ & _ & Ht).
  - apply after_steps. vm_compute. reflexivity.
  - discriminate.
  - reflexivity.
  - exact (proj1 (Ht s Hr)).
Defined.

Lemma cancelled_scheduler_ends_witness :
  sc_wg (after (take 4 one_run)) = 2%nat /\ Acc (fun y x => own_step x y) (after (take 4 one_run)).
Proof.
  split; [reflexivity|].
  apply (cancelled_scheduler_ends demo_scheduler (after (take 4 one_run)) scheduler_fresh).
  - apply after_steps. vm_compute. reflexivity.
  - reflexivity.
Defined.

Lemma one_execution_at_a_time_witness : executing (after (take 3 one_run)) = 1%nat /\
  IsRunning (sc_process (after (take 3 one_run))) = true.
Proof.
  split; [reflexivity|].
  apply (one_execution_at_a_time demo_scheduler (after (take 3 one_run)) scheduler_fresh); [reflexivity| |reflexivity].
  eapply rtc_l; [by exists LStart|]. eapply rtc_l; [by exists (LRun First)|].
  eapply rtc_l; [by exists (LGo 0)|]. apply rtc_refl.
Defined.
