(* ===== verification/HotReload.v ===== *)
(** * Hot reload

    internal/satellite/hotreload, internal/satellite/watcher and, of
    cmd/harbor-satellite/main.go, the loop that reloads the configuration when
    its file changed, with auditLoggerConfig and reconfigureAuditOnReload.

    One reload is the program [on_event] over the satellite's operations, the
    audit logger's, the scheduler's interval, zerolog's global level and zot's
    check of a configuration file.  What the watcher sees of the file and the
    channel between the two goroutines are the step relation [wstep].
    zerolog's levels and zot's checks are parameters. *)

From stdpp Require Import gmap relations.
From Stdlib Require Import Ascii.
From S2P Require Import Prelude Free Duration Utf8 GoLib Json CryptoLib SatConfig AuditTrail SatState SatWorld HttpClient Device Secure Manager Scheduler.

#[local] Open Scope string_scope.
#[local] Open Scope list_scope.

(** zerolog.ParseLevel *)
Class Zerolog := { Level : Type; InfoLevel : Level; ParseLevel : string -> option Level }.

(** json.Unmarshal into zot's Config, and zot's server.LoadConfiguration,
    which decides on the text of the file at the path it is given *)
Class Zot := { zot_unmarshal : string -> option string; zot_load : string -> option string }.

(* ------------------------------------------------------------------ *)
(** ** Operations *)

(** Scheduler.ResetIntervalFromExpr returns, or its Ticker panics. *)
Inductive reset := ResetPanic | ResetErr (e : goerr) | ResetDone.

Section Operations.
Context `{Registries, Zerolog}.

Inductive hop : Type -> Type :=
| Sat {R} (o : sop R) : hop R
| Aud {R} (o : aop R) : hop R
| SetGlobalLevel (l : Level) : hop unit
| HasScheduler : hop bool
| ResetScheduler (intervalExpr : string) : hop reset
| LoadConfiguration (path : string) : hop (result unit).

Abbreviation reload := (free hop).

Definition sat {A} (p : act A) : reload A := embed (@Sat) p.
Definition aud {A} (p : audit A) : reload A := embed (@Aud) p.
Definition getting {A} (p : free base A) : reload A := sat (locked p).

Context {P : Type} `{Zot, !Schedulable P}.

Record HWorld := mkHWorld {
  hw_sat : SWorld; hw_audit : AWorld; hw_level : Level; hw_scheduler : option (Scheduler P) }.

Definition put_sat (s : SWorld) (w : HWorld) : HWorld := mkHWorld s (hw_audit w) (hw_level w) (hw_scheduler w).
Definition put_audit (a : AWorld) (w : HWorld) : HWorld := mkHWorld (hw_sat w) a (hw_level w) (hw_scheduler w).
Definition put_level (l : Level) (w : HWorld) : HWorld := mkHWorld (hw_sat w) (hw_audit w) l (hw_scheduler w).
Definition put_scheduler (s : option (Scheduler P)) (w : HWorld) : HWorld :=
  mkHWorld (hw_sat w) (hw_audit w) (hw_level w) s.

Definition reset_scheduler (intervalExpr : string) (s : Scheduler P) : Scheduler P * reset :=
  match parseEveryExpr intervalExpr with
  | inl e => (s, ResetErr (WrapErr "failed to parse interval" e))
  | inr d => match ResetInterval d s with inl _ => (s, ResetPanic) | inr s' => (s', ResetDone) end
  end.

Definition exec_hop R (o : hop R) (w : HWorld) : HWorld * R :=
  match o in hop R return HWorld * R with
  | Sat o => let '(s, r) := exec_sop o (hw_sat w) in (put_sat s w, r)
  | Aud o => let '(a, r) := exec_audit _ o (hw_audit w) in (put_audit a w, r)
  | SetGlobalLevel l => (put_level l w, tt)
  | HasScheduler => (w, match hw_scheduler w with Some _ => true | None => false end)
  | ResetScheduler intervalExpr =>
      match hw_scheduler w with
      | Some s => let '(s', r) := reset_scheduler intervalExpr s in (put_scheduler (Some s') w, r)
      | None => (w, ResetDone)
      end
  | LoadConfiguration path =>
      (put_sat (s_tick (hw_sat w)) w,
       match sw_files (hw_sat w) !! path with
       | None => inl NotExist
       | Some text => match zot_load text with Some m => inl (PlainErr m) | None => inr tt end
       end)
  end.

Definition hrun {A} (p : reload A) (w : HWorld) : HWorld * A := frun exec_hop p w.

End Operations.

Abbreviation reload := (free hop).

(* ------------------------------------------------------------------ *)
(** ** hotreload.go *)

Inductive callback := handleIntervals | handleZotConfig | handleLogLevel.

(** ConfigChangeType *)
Definition change_type (c : ConfigChange) : string :=
  match c with
  | LogLevelChanged _ _ => "log_level"
  | IntervalsChanged _ _ => "intervals"
  | ZotConfigChanged => "zot_config"
  | AuditConfigChanged _ _ => "audit"
  end.

Record HotReloadManager := mkHotReloadManager {
  hr_zotTempPath : string; hr_changeCallbacks : gmap string (list callback) }.

Definition registerChangeCallback (changeType : string) (c : callback) (hrm : HotReloadManager) : HotReloadManager :=
  mkHotReloadManager (hr_zotTempPath hrm)
    (<[changeType := default [] (hr_changeCallbacks hrm !! changeType) ++ [c]]> (hr_changeCallbacks hrm)).

Definition registerCallbacks (hrm : HotReloadManager) : HotReloadManager :=
  registerChangeCallback "log_level" handleLogLevel
    (registerChangeCallback "zot_config" handleZotConfig
      (registerChangeCallback "intervals" handleIntervals hrm)).

Definition NewHotReloadManager (zotTempPath : string) : HotReloadManager :=
  registerCallbacks (mkHotReloadManager zotTempPath ∅).

Section Callbacks.
Context `{Registries, Zerolog, Zot}.

(** A panic ends the process: [None]. *)
Definition handleIntervalsChange : reload (option (option goerr)) :=
  let* present := perform HasScheduler in
  if present : bool then
    let* intervalExpr := getting GetStateReplicationInterval in
    let* r := perform (ResetScheduler intervalExpr) in
    Ret (match r with
         | ResetPanic => None
         | ResetErr e => Some (Some (WrapErr "unable to restart state replication scheduler" e))
         | ResetDone => Some None
         end)
  else Ret (Some None).

Definition handleLogLevelChange (newLogLevel : string) : reload (option (option goerr)) :=
  perform (SetGlobalLevel (default InfoLevel (ParseLevel newLogLevel))) ;;;
  Ret (Some None).

Definition failed (e : goerr) : reload (option (option goerr)) := Ret (Some (Some e)).

Definition handleZotConfigChange (hrm : HotReloadManager) : reload (option (option goerr)) :=
  let* raw := getting GetRawZotConfig in
  match zot_unmarshal raw with
  | Some m => failed (WrapErr "unable to unmarshal zot config" (PlainErr m))
  | None =>
      let? _ := perform (LoadConfiguration (hr_zotTempPath hrm)) catch failed in
      let* raw := getting GetRawZotConfig in
      let? _ := getting (perform (WriteFile (hr_zotTempPath hrm) raw))
        catch (fun e => failed (WrapErr "unable to change zot configuration" e)) in
      Ret (Some None)
  end.

(** [change.NewValue.(string)] *)
Definition new_value (c : ConfigChange) : option string :=
  match c with LogLevelChanged _ new | IntervalsChanged _ new => Some new | _ => None end.

Definition call (hrm : HotReloadManager) (c : callback) (change : ConfigChange) : reload (option (option goerr)) :=
  match c with
  | handleIntervals => handleIntervalsChange
  | handleZotConfig => handleZotConfigChange hrm
  | handleLogLevel =>
      match new_value change with
      | Some level => handleLogLevelChange level
      | None => failed (PlainErr "invalid log level type")
      end
  end.

Fixpoint call_all (hrm : HotReloadManager) (callbacks : list callback) (change : ConfigChange)
    : reload (option (list goerr)) :=
  match callbacks with
  | [] => Ret (Some [])
  | c :: callbacks' =>
      let* r := call hrm c change in
      match r with
      | None => Ret None
      | Some err =>
          let* rest := call_all hrm callbacks' change in
          Ret ((fun errors => option_list err ++ errors) <$> rest)
      end
  end.

Definition notifyChangeCallbacks (hrm : HotReloadManager) (change : ConfigChange) : reload (option (list goerr)) :=
  match hr_changeCallbacks hrm !! change_type change with
  | None => Ret (Some [])
  | Some callbacks => call_all hrm callbacks change
  end.

Fixpoint notify_all (hrm : HotReloadManager) (changes : list ConfigChange) : reload (option (list goerr)) :=
  match changes with
  | [] => Ret (Some [])
  | change :: changes' =>
      let* r := notifyChangeCallbacks hrm change in
      match r with
      | None => Ret None
      | Some errors =>
          let* rest := notify_all hrm changes' in
          Ret ((fun more => errors ++ more) <$> rest)
      end
  end.

Definition ProcessConfigChanges (hrm : HotReloadManager) (changes : list ConfigChange)
    : reload (option (option goerr)) :=
  let* r := notify_all hrm changes in
  Ret (match r with
       | None => None
       | Some [] => Some None
       | Some errors =>
           Some (Some (PlainErr ("errors occurred while processing configuration changes: [" +:+
             Go.join " " (error_text <$> errors) +:+ "]")))
       end).

End Callbacks.

(* ------------------------------------------------------------------ *)
(** ** main.go: the audit logger follows the configuration *)

Definition auditLoggerConfig (c : SatConfig.AuditConfig) : AuditTrail.AuditConfig :=
  let s := SatConfig.au_Syslog c in
  let f := SatConfig.sy_File s in
  let o := SatConfig.au_Otel c in
  AuditTrail.mkAuditConfig (SatConfig.au_Enabled c)
    (mkSyslogConfig (SatConfig.au_Enabled c && EnabledOrDefault s) (TargetOrDefault s) (TagOrDefault s)
       (SatConfig.sy_SocketPath s) (SatConfig.sy_Network s) (SatConfig.sy_Address s)
       (mkSyslogFileConfig (SatConfig.sf_Path f) (MaxSizeMBOrDefault f) (MaxBackupsOrDefault f)
          (MaxAgeDaysOrDefault f) (CompressOrDefault f)))
    (mkOTelConfig (SatConfig.ot_Enabled o) (SatConfig.ot_Endpoint o)).

Definition config_changed (outcome reason : string) (changedKeys : list string) : AuditEvent :=
  mkAuditEvent "update" "config" outcome "" "satellite" "system" "" "" "" "" "" reason
    (<["changed_keys" := JArr (JStr <$> changedKeys)]> {["source" := JStr "hot_reload"]}).

Section Audit.
Context `{NetUrlPort}.

Definition reconfigureAuditOnReload (current next : SatConfig.AuditConfig) (changedKeys : list string)
    : audit SatConfig.AuditConfig :=
  let logChanged outcome reason := Log (config_changed outcome reason changedKeys) in
  let changed := negb (SatConfig.Equal next current) in
  let disabling := changed && SatConfig.au_Enabled current && negb (SatConfig.au_Enabled next) in
  (if disabling then logChanged "success" "" else Ret tt) ;;;
  let* (outcome, reason, current) :=
    (if changed then
       let* rc := Reconfigure (auditLoggerConfig next) in
       Ret (match rc with
            | inl _ => ("failure", "reconfigure_failed", current)
            | inr _ => ("success", "", next)
            end)
     else Ret ("success", "", current)) in
  (if negb disabling then logChanged outcome reason else Ret tt) ;;;
  Ret current.

End Audit.

(* ------------------------------------------------------------------ *)
(** ** main.go: one change event *)

Section Event.
Context `{Registries, Zerolog, Zot, NetUrlPort, Argon2, Sha256, AesGcm, SatEnv, GoQuote}.

(** The audit configuration now in effect; [None] after a panic.  Warnings and
    errors are only logged. *)
Definition on_event (hrm : HotReloadManager) (currentAuditCfg : SatConfig.AuditConfig)
    : reload (option SatConfig.AuditConfig) :=
  let* (_, r) := getting ReloadConfig in
  match r with
  | inl _ => Ret (Some currentAuditCfg)
  | inr [] => Ret (Some currentAuditCfg)
  | inr changes =>
      let* next := getting GetAuditConfig in
      let* current := aud (reconfigureAuditOnReload currentAuditCfg next (change_type <$> changes)) in
      let* r := ProcessConfigChanges hrm changes in
      Ret (match r with None => None | Some _ => Some current end)
  end.

End Event.

(* ------------------------------------------------------------------ *)
(** ** watcher.go and the channel *)

(** fsnotify's events: Op has Write, or it has not *)
Inductive fs_event := FsWrite | FsOther.

(** The reload loop: in its select, about to read the file, or after that *)
Inductive reload_loop := Receiving | Reloading | Reloaded.
#[global] Instance reload_loop_eq_dec : EqDecision reload_loop.
Proof. solve_decision. Defined.

(** The file holds a version of the configuration or, between the truncation
    and the write of an editor or of os.WriteFile, nothing. *)
Record Watched := mkWatched {
  wa_disk : option nat; wa_events : list fs_event; wa_loop : reload_loop; wa_loaded : nat; wa_skipped : nat }.

(** [eventChan <- struct{}{}] on a channel without buffer, with a default branch *)
Definition send (w : Watched) : Watched :=
  if decide (wa_loop w = Receiving)
  then mkWatched (wa_disk w) (wa_events w) Reloading (wa_loaded w) (wa_skipped w)
  else mkWatched (wa_disk w) (wa_events w) (wa_loop w) (wa_loaded w) (S (wa_skipped w)).

(** One iteration of WatchChanges *)
Definition WatchChanges (w : Watched) : option Watched :=
  match wa_events w with
  | [] => None
  | e :: events =>
      let w := mkWatched (wa_disk w) events (wa_loop w) (wa_loaded w) (wa_skipped w) in
      Some (match e with FsWrite => send w | FsOther => w end)
  end.

Inductive wlabel := WTruncate | WWrite (version : nat) | WChmod | WWatch | WReload | WReturn.

Definition change (disk : option nat) (e : fs_event) (w : Watched) : Watched :=
  mkWatched disk (wa_events w ++ [e]) (wa_loop w) (wa_loaded w) (wa_skipped w).

Definition wstep (l : wlabel) (w : Watched) : option Watched :=
  match l with
  | WTruncate => Some (change None FsWrite w)
  | WWrite v => Some (change (Some v) FsWrite w)
  | WChmod => Some (change (wa_disk w) FsOther w)
  | WWatch => WatchChanges w
  | WReload =>
      if decide (wa_loop w = Reloading)
      then Some (mkWatched (wa_disk w) (wa_events w) Reloaded (default (wa_loaded w) (wa_disk w)) (wa_skipped w))
      else None
  | WReturn =>
      if decide (wa_loop w = Reloaded)
      then Some (mkWatched (wa_disk w) (wa_events w) Receiving (wa_loaded w) (wa_skipped w))
      else None
  end.

Definition wsteps (w w' : Watched) : Prop := exists l, wstep l w = Some w'.

(** The configuration that was loaded at the start is on disk. *)
Definition started (w : Watched) : Prop :=
  wa_disk w = Some (wa_loaded w) /\ wa_events w = [] /\ wa_loop w = Receiving /\ wa_skipped w = 0.

(** Nothing is left to be done. *)
Definition settled (w : Watched) : Prop := wa_events w = [] /\ wa_loop w = Receiving.
