(* ===== verification/HotReloadFacts.v ===== *)
(** * Properties of the hot reload

    What one reload changes and what it leaves alone, whatever fails; that the
    audit log tells the truth about its own reconfiguration; when an edit of
    the file is taken up, and how it is lost. *)

From stdpp Require Import gmap relations.
From Stdlib Require Import Ascii.
From S2P Require Import Prelude Free Duration Utf8 GoLib Json CryptoLib SatConfig AuditTrail AuditFacts SatState SatWorld SatRun HttpClient Device Secure Manager Scheduler HotReload.

#[local] Open Scope string_scope.
#[local] Open Scope list_scope.

(* ------------------------------------------------------------------ *)
(** ** The watcher *)

(** As long as no event was skipped, what is not loaded yet is on its way. *)
Definition on_its_way (w : Watched) : Prop :=
  wa_skipped w = 0 -> FsWrite ∈ wa_events w \/ wa_loop w = Reloading \/
  wa_disk w = None \/ wa_disk w = Some (wa_loaded w).

Lemma on_its_way_step w w' : wsteps w w' -> on_its_way w -> on_its_way w'.
Proof.
  intros [l Hl] Hw. unfold on_its_way in *. destruct w as [disk events lp loaded skipped]. cbn in Hw.
  destruct l; cbn in Hl.
  - injection Hl as <-. cbn. intros _. left. set_solver.
  - injection Hl as <-. cbn. intros _. left. set_solver.
  - injection Hl as <-. cbn. intros Hs. destruct (Hw Hs) as [H|[H|H]]; [left; set_solver|tauto..].
  - unfold WatchChanges in Hl. cbn in Hl. destruct events as [|[] events]; [done| |]; injection Hl as <-.
    + unfold send. cbn. destruct (decide (lp = Receiving)) as [->|]; cbn; [tauto|done].
    + cbn. intros Hs. destruct (Hw Hs) as [H|H]; [left; set_solver|tauto].
  - destruct (decide (lp = Reloading)) as [->|]; [|done]. injection Hl as <-. cbn. intros _.
    destruct disk; cbn; tauto.
  - destruct (decide (lp = Reloaded)) as [->|]; [|done]. injection Hl as <-. cbn. intros Hs.
    destruct (Hw Hs) as [H|[H|H]]; [tauto|done|tauto].
Qed.

Lemma on_its_way_rtc w w' : rtc wsteps w w' -> on_its_way w -> on_its_way w'.
Proof. induction 1; eauto using on_its_way_step. Qed.

(** Once the watcher and the reload loop have nothing left to do, the
    configuration that is on disk is the one that was loaded last, unless an
    event was skipped. *)
Theorem edits_are_loaded w w' v :
  started w -> rtc wsteps w w' -> settled w' -> wa_skipped w' = 0 -> wa_disk w' = Some v -> wa_loaded w' = v.
Proof.
  intros (Hd & He & Hl & Hs) Hr (He' & Hl') Hs' Hd'.
  apply on_its_way_rtc in Hr; [|intros _; tauto]. destruct (Hr Hs') as [H|[H|[H|H]]].
  - rewrite He' in H. set_solver.
  - congruence.
  - congruence.
  - congruence.
Qed.

Fixpoint watch (ls : list wlabel) (w : Watched) : option Watched :=
  match ls with [] => Some w | l :: ls' => w1 ← wstep l w; watch ls' w1 end.

Lemma watch_steps ls w w' : watch ls w = Some w' -> rtc wsteps w w'.
Proof.
  revert w. induction ls as [|l ls IH]; intros w; cbn; [by intros [= ->]|].
  destruct (wstep l w) as [w1|] eqn:E; [|done]. intros Hw. eapply rtc_l; [by exists l|]. by apply IH.
Qed.

Definition edited : Watched := mkWatched (Some 0) [] Receiving 0 0.

(** An edit that is lost: the file is rewritten as os.WriteFile does it, the
    loop reads it between the truncation and the write, and the event of the
    write comes while the loop is not in its select.  Nothing is left to be
    done, and the new configuration is only on disk. *)
Theorem edit_lost : exists w,
  rtc wsteps edited w /\ settled w /\ wa_disk w = Some 1 /\ wa_loaded w = 0.
Proof.
  destruct (watch [WTruncate; WWatch; WReload; WWrite 1; WWatch; WReturn] edited) as [w|] eqn:E; [|discriminate E].
  exists w. split; [by eapply watch_steps|]. vm_compute in E. injection E as <-. split_and!; [by split|reflexivity..].
Qed.

Lemma edits_are_loaded_witness :
  exists w, rtc wsteps edited w /\ settled w /\ wa_skipped w = 0 /\ wa_disk w = Some 1 /\ wa_loaded w = 1.
Proof.
  destruct (watch [WTruncate; WWatch; WReload; WReturn; WWrite 1; WWatch; WReload; WReturn] edited)
    as [w|] eqn:E; [|discriminate E].
  pose proof (watch_steps _ _ _ E) as Hr. vm_compute in E. injection E as <-.
  eexists. split; [exact Hr|]. split_and!; [by split|reflexivity..|].
  apply (edits_are_loaded edited _ 1); [by split_and!|exact Hr|by split|reflexivity|reflexivity].
Defined.

(* ------------------------------------------------------------------ *)
(** ** The audit logger's own reconfiguration *)

Section AuditReload.
Context `{NetUrlPort}.

Abbreviation arun := (frun exec_audit).

(** Where the configuration sends the records: to the target by its name, a
    file if there is none; 100 MB, 7 backups, 30 days and compression are
    the limits of a file when none are set. *)
Definition configured_target (s : SatConfig.SyslogAudit) : SyslogTarget :=
  let f := SatConfig.sy_File s in
  if bool_decide (SatConfig.sy_Target s ∈ ["network"])
  then ToNetwork (SatConfig.sy_Network s) (SatConfig.sy_Address s)
  else if bool_decide (SatConfig.sy_Target s ∈ [""; "file"])
  then ToFile (mkSyslogFileConfig (SatConfig.sf_Path f) (default 100%Z (SatConfig.sf_MaxSizeMB f))
         (default 7%Z (SatConfig.sf_MaxBackups f)) (default 30%Z (SatConfig.sf_MaxAgeDays f))
         (default true (SatConfig.sf_Compress f)))
  else if bool_decide (SatConfig.sy_Target s ∈ ["daemon"]) then ToDaemon (SatConfig.sy_SocketPath s)
  else UnknownTarget.

(** The logger runs with the configuration: enabled as it says, with syslog to
    the configured target under the configured tag unless syslog is switched
    off, and with OTLP to the configured endpoint if that is switched on. *)
Definition in_effect (c : SatConfig.AuditConfig) : AWorld -> Prop :=
  let s := SatConfig.au_Syslog c in
  let o := SatConfig.au_Otel c in
  logger_runs (SatConfig.au_Enabled c)
    (if SatConfig.au_Enabled c && default true (SatConfig.sy_Enabled s)
     then Some (configured_target s, if String.eqb (SatConfig.sy_Tag s) "" then "harbor-audit" else SatConfig.sy_Tag s)
     else None)
    (if SatConfig.au_Enabled c && SatConfig.ot_Enabled o then Some (SatConfig.ot_Endpoint o) else None).

Lemma configured_target_ok c : target_of (au_Syslog (auditLoggerConfig c)) = configured_target (SatConfig.au_Syslog c).
Proof.
  unfold target_of, configured_target, auditLoggerConfig, TargetOrDefault. cbn.
  destruct (SatConfig.au_Syslog c) as [en target tag socket network address file]. cbn.
  destruct (String.eqb_spec target "") as [->|]; [done|].
  destruct (String.eqb_spec target "network") as [->|]; [done|].
  rewrite bool_decide_eq_false_2 by set_solver.
  destruct (String.eqb_spec target "file") as [->|]; [done|].
  rewrite bool_decide_eq_false_2 by set_solver.
  destruct (String.eqb_spec target "daemon") as [->|]; [done|]. by rewrite bool_decide_eq_false_2 by set_solver.
Qed.

Lemma in_effect_runs c w : runs_with (auditLoggerConfig c) w -> in_effect c w.
Proof.
  unfold runs_with, in_effect, wanted_syslog, wanted_otel. rewrite configured_target_ok.
  cbn. unfold EnabledOrDefault, TagOrDefault. destruct (SatConfig.au_Enabled c); cbn [andb]; [|done].
  destruct (default true _); [|done]. by destruct (SatConfig.sy_Tag (SatConfig.au_Syslog c)).
Qed.

Lemma in_effect_off c w : in_effect c w -> aw_enabled w = SatConfig.au_Enabled c /\
  (SatConfig.au_Enabled c = false -> aw_transports w = []).
Proof.
  intros (He & _ & ts & ts' & Ht & Hs & Ho). split; [done|]. intros E. rewrite E in *. cbn in *. by subst.
Qed.

(** The event was handed to these transports, if any, and none of it is lost. *)
Definition told (e : AuditEvent) (ts : list Transport) (w w' : AWorld) : Prop :=
  ts = [] \/ exists v v', grows w v /\ aw_component v = aw_component w /\ recorded e ts v v' /\ grows v' w'.

Lemma grows_refl w : grows w w.
Proof. by split. Qed.

Lemma logged_here e w w' : in_effect w' w -> exists v, (arun (Log e) w).1 = v /\ keeps w v /\
  (aw_transports w = [] \/ recorded e (aw_transports w) w v).
Proof.
  intros [He Ht]%in_effect_off. eexists. split; [reflexivity|]. split; [apply tame_run, tame_log|].
  pose proof (log_run e w) as Hl. cbn zeta in Hl. destruct (aw_enabled w); [by right|]. left. by apply Ht.
Qed.

Lemma told_later e c w v : grows w v -> aw_component v = aw_component w -> in_effect c v ->
  let v' := (arun (Log e) v).1 in
  in_effect c v' /\ grows w v' /\ aw_transports v' = aw_transports v /\
  forall w', grows v' w' -> told e (aw_transports v) w w'.
Proof.
  intros Hg Hc He. pose proof (dest_run (Log e) v) as Hd.
  destruct (logged_here e v c He) as (v' & Ev & (G & T & E & C) & Hl). rewrite Ev in *.
  assert (grows w v') as Hw by (split; intros x Hx; apply G, Hg, Hx).
  split; [by eapply logger_runs_stays|]. split; [done|]. split; [done|].
  intros w' Hw'. destruct Hl as [Hl|Hl]; [by left|right]. by exists v, v'.
Qed.

(** Switching the logger off cannot fail. *)
Lemma switch_off cfg w : au_Enabled cfg = false ->
  let '(w', r) := arun (Reconfigure cfg) w in r = inr tt /\ aw_enabled w' = false /\ aw_transports w' = [].
Proof.
  intros Hc. unfold Reconfigure, buildTransports. rewrite Hc. cbn. rewrite frun_bind.
  destruct (tame_run _ (a_tick (a_logger [] w)) (tame_close_all (aw_transports w))) as (_ & T & E & _).
  destruct (arun (closeAll _) _) as [w1 []]. cbn in *. by rewrite T, E.
Qed.

(** A reload of the audit settings from [w] to [w'], with [c] as the settings
    in force: settings that did not change are not applied again; disabling is
    recorded by the transports that are closed by it; otherwise the new
    transports record that they took over, or, when they cannot be set up, the
    old ones stay and record the failure. *)
Definition audit_followed (current next : SatConfig.AuditConfig) (keys : list string) (w w' : AWorld)
    (c : SatConfig.AuditConfig) : Prop :=
  in_effect c w' /\ grows w w' /\
  if SatConfig.Equal next current then
    c = current /\ aw_transports w' = aw_transports w /\
    told (config_changed "success" "" keys) (aw_transports w') w w'
  else if SatConfig.au_Enabled current && negb (SatConfig.au_Enabled next) then
    c = next /\ aw_transports w' = [] /\ told (config_changed "success" "" keys) (aw_transports w) w w'
  else
    (c = next /\ told (config_changed "success" "" keys) (aw_transports w') w w') \/
    (c = current /\ aw_transports w' = aw_transports w /\
     told (config_changed "failure" "reconfigure_failed" keys) (aw_transports w') w w').

Lemma reload_audit current next keys w :
  in_effect current w ->
  let '(w', c) := arun (reconfigureAuditOnReload current next keys) w in audit_followed current next keys w w' c.
Proof.
  intros He. unfold reconfigureAuditOnReload, audit_followed.
  destruct (SatConfig.Equal next current) eqn:Eq; cbn [negb andb].
  - rewrite !frun_bind. cbn [frun bind]. rewrite frun_bind.
    destruct (told_later (config_changed "success" "" keys) current w w (grows_refl w) eq_refl He) as (H1 & H2 & H3 & H4).
    destruct (arun (Log _) w) as [w1 []]. cbn in *. rewrite H3. split_and!; try done. apply H4, grows_refl.
  - destruct (SatConfig.au_Enabled current && negb (SatConfig.au_Enabled next)) eqn:Ed; cbn [negb].
    + apply andb_prop in Ed as [_ Ed%negb_true_iff]. rewrite !frun_bind.
      destruct (told_later (config_changed "success" "" keys) current w w (grows_refl w) eq_refl He) as (H1 & H2 & H3 & H4).
      destruct (arun (Log _) w) as [w1 []]. cbn [fst] in *. rewrite !frun_bind.
      pose proof (switch_off (auditLoggerConfig next) w1 Ed) as Hs.
      pose proof (reconfigure_runs (auditLoggerConfig next) w1) as Hru.
      pose proof (reconfigure_grows (auditLoggerConfig next) w1) as [G _].
      destruct (arun (Reconfigure _) w1) as [w2 r]. destruct Hs as (-> & E & T). cbn in *.
      split; [by apply in_effect_runs|]. rewrite T.
      split; [split; intros x Hx; apply G, H2, Hx|]. split_and!; [done..|]. by apply H4.
    + rewrite !frun_bind. cbn [frun bind]. rewrite !frun_bind.
      pose proof (reconfigure_swaps (auditLoggerConfig next) w) as Hr.
      pose proof (reconfigure_runs (auditLoggerConfig next) w) as Hru.
      pose proof (reconfigure_grows (auditLoggerConfig next) w) as [G C].
      destruct (arun (Reconfigure _) w) as [w1 [e|[]]]; cbn [fst snd bind frun] in *.
      * destruct Hr as [T E].
        destruct (told_later (config_changed "failure" "reconfigure_failed" keys) current w w1 G C) as (H1 & H2 & H3 & H4);
          [by apply Hru|].
        rewrite frun_bind. destruct (arun (Log _) w1) as [w2 []]. cbn in *. rewrite H3. split_and!; [done..|]. right.
        split_and!; [done..|]. apply H4, grows_refl.
      * destruct Hr as [E T].
        destruct (told_later (config_changed "success" "" keys) next w w1 G C) as (H1 & H2 & H3 & H4);
          [by apply in_effect_runs|].
        rewrite frun_bind. destruct (arun (Log _) w1) as [w2 []]. cbn in *. rewrite H3. split_and!; [done..|]. left.
        split; [done|]. apply H4, grows_refl.
Qed.

(** C15. A reload of the audit settings.  The configuration that is returned is the
    one the logger runs with afterwards, in every case: its targets, addresses,
    files, tag and endpoint.  Settings that did not change are not applied
    again; disabling is recorded by the transports that are closed by it;
    otherwise the new transports record that they took over, or, when they
    cannot be set up, the old ones stay and record the failure. *)
Theorem audit_reload_truthful current next keys w :
  in_effect current w ->
  let '(w', c) := arun (reconfigureAuditOnReload current next keys) w in
  in_effect c w' /\ grows w w' /\
  if SatConfig.Equal next current then
    c = current /\ aw_transports w' = aw_transports w /\
    told (config_changed "success" "" keys) (aw_transports w') w w'
  else if SatConfig.au_Enabled current && negb (SatConfig.au_Enabled next) then
    c = next /\ aw_transports w' = [] /\ told (config_changed "success" "" keys) (aw_transports w) w w'
  else
    (c = next /\ told (config_changed "success" "" keys) (aw_transports w') w w') \/
    (c = current /\ aw_transports w' = aw_transports w /\
     told (config_changed "failure" "reconfigure_failed" keys) (aw_transports w') w w').
Proof. exact (reload_audit current next keys w). Qed.

End AuditReload.

(* ------------------------------------------------------------------ *)
(** ** Running one reload *)

Section Run.
Context `{Registries, Zerolog, Zot, NetUrlPort, Argon2, Sha256, AesGcm, SatEnv, GoQuote} `{Schedulable P}.

Abbreviation brun := (frun (@exec_base _)).
Abbreviation HWorld := (HWorld (P := P)).

Lemma hrun_bind {A B} (m : reload A) (k : A -> reload B) (w : HWorld) :
  hrun (bind m k) w = hrun (k (hrun m w).2) (hrun m w).1.
Proof. unfold hrun. rewrite frun_bind. by destruct (frun exec_hop m w). Qed.

Lemma hrun_try {A B} (m : reload (result A)) h (k : A -> reload B) (w : HWorld) :
  hrun (try m h k) w = match (hrun m w).2 with inl e => hrun (h e) (hrun m w).1 | inr a => hrun (k a) (hrun m w).1 end.
Proof. unfold try. rewrite hrun_bind. by destruct (hrun m w).2. Qed.

Lemma hrun_getting {A} (p : free base A) (w : HWorld) :
  hrun (getting p) w = (put_sat (brun p (hw_sat w)).1 w, (brun p (hw_sat w)).2).
Proof.
  unfold getting, sat, locked, perform, hrun. cbn. by destruct (brun p (hw_sat w)).
Qed.

Lemma hrun_aud {A} (p : audit A) (w : HWorld) :
  hrun (aud p) w = (put_audit (frun exec_audit p (hw_audit w)).1 w, (frun exec_audit p (hw_audit w)).2).
Proof.
  unfold hrun, aud. apply (frun_embed exec_audit exec_hop (fun R => Aud) hw_audit put_audit); try done.
  - by intros [].
  - intros R o v. cbn. by destruct (exec_audit R o (hw_audit v)).
Qed.

Lemma hrun_get {A} (f : ConfigManager -> A) (w : HWorld) :
  hrun (getting (get f)) w = (put_sat (s_tick (hw_sat w)) w, f (sw_cm (hw_sat w))).
Proof. by rewrite hrun_getting. Qed.

Abbreviation hrm := NewHotReloadManager.

(** One kind of change: a list with at most one change *)
Definition when (b : bool) (c : ConfigChange) : list ConfigChange := if b then [c] else [].

Lemma notify_app p l l' (w : HWorld) :
  hrun (notify_all (hrm p) (l ++ l')) w =
  match hrun (notify_all (hrm p) l) w with
  | (w1, None) => (w1, None)
  | (w1, Some e) => let '(w2, r) := hrun (notify_all (hrm p) l') w1 in (w2, (fun e' => e ++ e') <$> r)
  end.
Proof.
  revert w. induction l as [|c l IH]; intros w; cbn [app notify_all].
  - cbn. destruct (hrun _ w) as [w2 [e|]]; done.
  - rewrite !hrun_bind. destruct (hrun (notifyChangeCallbacks _ c) w) as [w1 [e|]]; cbn [fst snd]; [|done].
    rewrite !hrun_bind, IH. destruct (hrun (notify_all _ l) w1) as [w2 [e1|]]; cbn; [|done].
    destruct (hrun (notify_all _ l') w2) as [w3 [e2|]]; cbn; [|done]. by rewrite app_assoc.
Qed.

Lemma notify_one p c (w : HWorld) :
  hrun (notify_all (hrm p) [c]) w = hrun (notifyChangeCallbacks (hrm p) c) w.
Proof.
  cbn [notify_all]. rewrite hrun_bind. destruct (hrun _ w) as [w1 [e|]]; cbn; [by rewrite app_nil_r|done].
Qed.

Lemma notify_level p b old new (w : HWorld) :
  hrun (notify_all (hrm p) (when b (LogLevelChanged old new))) w =
  (if b then put_level (default InfoLevel (ParseLevel new)) w else w, Some []).
Proof. destruct b; [|done]. unfold when. rewrite notify_one. reflexivity. Qed.

Definition new_scheduler (intervalExpr : string) (w : HWorld) : option (Scheduler P) :=
  fst ∘ reset_scheduler intervalExpr <$> hw_scheduler w.

(** The reset panics. *)
Definition panics (intervalExpr : string) (w : HWorld) : bool :=
  match hw_scheduler w, parseEveryExpr intervalExpr with
  | Some _, inr d => (d <=? 0)%Z
  | _, _ => false
  end.

Lemma notify_intervals p b old new (w : HWorld) :
  new = ac_StateReplicationInterval (cf_AppConfig (cm_config (sw_cm (hw_sat w)))) ->
  exists s errs, quiet (hw_sat w) s /\ sw_fault s = sw_fault (hw_sat w) /\
  hrun (notify_all (hrm p) (when b (IntervalsChanged old new))) w =
  (if b then put_scheduler (new_scheduler new w) (put_sat s w) else w,
   if b && panics new w then None else Some errs).
Proof.
  intros Hn. destruct b; [|by exists (hw_sat w), []]. unfold when. rewrite notify_one.
  unfold notifyChangeCallbacks. replace (hr_changeCallbacks (hrm p) !! _) with (Some [handleIntervals]) by done.
  unfold new_scheduler, panics. destruct w as [s a l [sch|]]; cbn in *.
  - rewrite <- Hn. unfold reset_scheduler, ResetInterval.
    destruct (parseEveryExpr new) as [e|d]; cbn; [|destruct (d <=? 0)%Z; cbn].
    + by exists (s_tick s), [WrapErr "unable to restart state replication scheduler" (WrapErr "failed to parse interval" e)].
    + by exists (s_tick s), [].
    + by exists (s_tick s), [].
  - by exists s, [].
Qed.

(** What becomes of zot's file: the new configuration is written when it can
    be decoded and zot accepts the file that is there; a write that fails
    leaves a beginning of it. *)
Definition zot_followed (p raw : string) (v : SWorld) (files : gmap string string) : Prop :=
  match zot_unmarshal raw, sw_files v !! p with
  | None, Some text =>
      match zot_load text with
      | None => files !! p = Some raw \/
                exists n m k, sw_fault v n = Some (m, k) /\ files !! p = Some (Go.take_bytes k raw)
      | Some _ => files = sw_files v
      end
  | _, _ => files = sw_files v
  end.

Lemma brun_fault {A} (q : free base A) v : sw_fault (brun q v).1 = sw_fault v.
Proof.
  revert v. induction q as [a|R o k IH]; intros v; [done|]. cbn [frun].
  destruct (exec_base o v) as [v' r] eqn:E. rewrite IH. revert E.
  destruct o; cbn; repeat case_match; by intros [= <- _].
Qed.

(** zot's configuration: only its file is written, and only after the checks. *)
Lemma notify_zot p b (w : HWorld) :
  let raw := cf_ZotConfigRaw (cm_config (sw_cm (hw_sat w))) in
  exists s errs, hrun (notify_all (hrm p) (when b ZotConfigChanged)) w = (put_sat s w, Some errs) /\
  sw_cm s = sw_cm (hw_sat w) /\
  (forall q, q <> p -> sw_files s !! q = sw_files (hw_sat w) !! q) /\
  (b = false -> sw_files s = sw_files (hw_sat w)) /\
  (b = true -> errs = [] -> sw_files s !! p = Some raw) /\
  (b = true -> is_Some (zot_unmarshal raw) \/ is_Some (sw_files (hw_sat w) !! p ≫= zot_load) ->
     sw_files s = sw_files (hw_sat w) /\ errs <> []) /\
  (b = true -> zot_followed p raw (hw_sat w) (sw_files s)).
Proof.
  destruct b; [|by exists (hw_sat w), []; destruct w; split_and!]. unfold when. rewrite notify_one.
  unfold notifyChangeCallbacks. replace (hr_changeCallbacks (hrm p) !! _) with (Some [handleZotConfig]) by done.
  destruct w as [s a l sch]. unfold zot_followed. cbn -[fault].
  set (raw := cf_ZotConfigRaw (cm_config (sw_cm s))).
  destruct (zot_unmarshal raw) as [m|]; cbn -[fault].
  { by exists (s_tick s), [WrapErr "unable to unmarshal zot config" (PlainErr m)]. }
  destruct (sw_files s !! p) as [text|] eqn:Et; cbn -[fault].
  2:{ exists (s_tick (s_tick s)), [NotExist]. cbn. split_and!; try done. }
  destruct (zot_load text) as [m|]; cbn -[fault].
  { exists (s_tick (s_tick s)), [PlainErr m]. cbn. split_and!; try done. }
  fold raw. destruct (fault _) as [[m n]|] eqn:Ef; cbn.
  - eexists _, [_]. split; [reflexivity|]. cbn. split_and!; try done.
    + intros q Hq. by rewrite lookup_insert_ne.
    + intros _ [[? [=]]|[? [=]]].
    + intros _. right. eexists _, m, n. rewrite lookup_insert_eq. split; [exact Ef|done].
  - eexists _, []. split; [reflexivity|]. cbn. split_and!; try done.
    + intros q Hq. by rewrite lookup_insert_ne.
    + intros _ _. by rewrite lookup_insert_eq.
    + intros _ [[? [=]]|[? [=]]].
    + intros _. left. by rewrite lookup_insert_eq.
Qed.

Lemma notify_audit p b old new (w : HWorld) :
  hrun (notify_all (hrm p) (when b (AuditConfigChanged old new))) w = (w, Some []).
Proof. by destruct b. Qed.

(** [c] is what validation made of the configuration that the file holds. *)
Definition validated (s : SWorld) (c : Config) : Prop :=
  exists read warnings, (brun (readAndReturnConfig (cm_configPath (sw_cm s))) (s_tick s)).2 = inr read /\
    ValidateAndEnforceDefaults (Some read) (cm_DefaultGroundControlURL (sw_cm s)) = (warnings, inr c).

Lemma reload_config s :
  let '(s1, (_, r)) := brun ReloadConfig s in
  match r with
  | inl _ => quiet s s1
  | inr changes => exists c, changes = detectChanges (cm_config (sw_cm s)) c /\
      sw_cm s1 = set_cm_config c (sw_cm s) /\ sw_files s1 = sw_files s /\ validated s c
  end.
Proof.
  unfold ReloadConfig, perform. cbn [bind frun exec_base]. rewrite brun_try.
  assert (calm (readAndReturnConfig (cm_configPath (sw_cm s)))) as Hc
    by repeat first [apply calm_fingerprint | calm_step].
  pose proof (calm_run _ (s_tick s) Hc) as Hq.
  destruct (brun (readAndReturnConfig _) _) as [s1 [e|c]] eqn:Er; cbn [fst snd] in *.
  - exact Hq.
  - destruct (ValidateAndEnforceDefaults _ _) as [warnings [e|c']] eqn:Ev; [exact Hq|]. cbn.
    exists c'. apply quiet_fields in Hq as (Hf & _ & Hm & _). cbn in Hf, Hm. rewrite Hm, Hf. split_and!; [done..|].
    exists c, warnings. by rewrite Er.
Qed.

Section Process.
Context (p : string) (old new : Config).
Let level (c : Config) := ac_LogLevel (cf_AppConfig c).
Let interval (c : Config) := ac_StateReplicationInterval (cf_AppConfig c).

Lemma process_outcome (w : HWorld) : cm_config (sw_cm (hw_sat w)) = new ->
  let '(w', r) := hrun (ProcessConfigChanges (hrm p) (detectChanges old new)) w in
  exists s, w' = mkHWorld s (hw_audit w)
      (if String.eqb (level old) (level new) then hw_level w else default InfoLevel (ParseLevel (level new)))
      (if String.eqb (interval old) (interval new) then hw_scheduler w else new_scheduler (interval new) w) /\
    sw_cm s = sw_cm (hw_sat w) /\
    (forall q, q <> p -> sw_files s !! q = sw_files (hw_sat w) !! q) /\
    (cf_ZotConfigRaw old = cf_ZotConfigRaw new \/ r = None -> sw_files s = sw_files (hw_sat w)) /\
    (cf_ZotConfigRaw old <> cf_ZotConfigRaw new -> r <> None ->
     zot_followed p (cf_ZotConfigRaw new) (hw_sat w) (sw_files s)) /\
    (r = None <-> interval old <> interval new /\ panics (interval new) w = true).
Proof.
  intros Hn. unfold ProcessConfigChanges. rewrite hrun_bind.
  change (detectChanges old new) with
    (when (negb (String.eqb (level old) (level new))) (LogLevelChanged (level old) (level new)) ++
     when (negb (String.eqb (interval old) (interval new))) (IntervalsChanged (interval old) (interval new)) ++
     when (negb (String.eqb (cf_ZotConfigRaw old) (cf_ZotConfigRaw new))) ZotConfigChanged ++
     when (negb (Equal (ac_Audit (cf_AppConfig old)) (ac_Audit (cf_AppConfig new))))
       (AuditConfigChanged (ac_Audit (cf_AppConfig old)) (ac_Audit (cf_AppConfig new)))).
  rewrite notify_app, notify_level. set (b1 := negb (String.eqb (level old) _)).
  set (w1 := if b1 then _ else w).
  assert (w1 = mkHWorld (hw_sat w) (hw_audit w)
    (if String.eqb (level old) (level new) then hw_level w else default InfoLevel (ParseLevel (level new)))
    (hw_scheduler w)) as Ew by (subst w1 b1; destruct (String.eqb _ _); by destruct w).
  rewrite Ew. clear Ew w1 b1. set (l := if String.eqb (level old) _ then _ else _). clearbody l.
  rewrite notify_app. set (w1 := mkHWorld _ _ _ _).
  destruct (notify_intervals p (negb (String.eqb (interval old) (interval new))) (interval old) (interval new) w1)
    as (s & errs & Hq & Hu & ->); [by rewrite <- Hn|].
  apply quiet_fields in Hq as (Hf & _ & Hm & _). cbn in Hf, Hm.
  set (w2 := if negb _ then _ else _).
  assert (exists s2, w2 = mkHWorld s2 (hw_audit w) l
    (if String.eqb (interval old) (interval new) then hw_scheduler w else new_scheduler (interval new) w) /\
    sw_cm s2 = sw_cm (hw_sat w) /\ sw_files s2 = sw_files (hw_sat w) /\ sw_fault s2 = sw_fault (hw_sat w))
    as (s2 & -> & Hm2 & Hf2 & Hu2).
  { subst w2. destruct (String.eqb _ _); [exists (hw_sat w)|exists s]; by split_and!. }
  assert (panics (interval new) w1 = panics (interval new) w) as -> by done.
  assert (negb (String.eqb (interval old) (interval new)) && panics (interval new) w = true <->
          interval old <> interval new /\ panics (interval new) w = true) as Hp.
  { rewrite andb_true_iff, negb_true_iff, String.eqb_neq. tauto. }
  destruct (negb _ && panics _ _).
  - cbn. exists s2. rewrite Hm2, Hf2. split_and!; [done..|]. split; [intros _; by apply Hp|done].
  - rewrite notify_app. set (w3 := mkHWorld _ _ _ _).
    destruct (notify_zot p (negb (String.eqb (cf_ZotConfigRaw old) (cf_ZotConfigRaw new))) w3)
      as (s3 & errs' & -> & Hm3 & Hf3 & Hn3 & _ & _ & Hz3). rewrite notify_audit. cbn. 
    set (r := match errs ++ errs' ++ [] with [] => _ | _ => _ end).
    assert (r <> None) as Hr by (unfold r; by destruct (errs ++ errs' ++ [])).
    exists s3. split; [done|].
    rewrite Hm3. split; [done|]. split; [intros q Hq; rewrite Hf3 by done; cbn; by rewrite Hf2|].
    split; [intros [E|E]; [rewrite Hn3 by (by rewrite E, String.eqb_refl); done|done]|].
    split; [|split; [done|by intros H'%Hp]]. intros E%String.eqb_neq _. rewrite E in Hz3. specialize (Hz3 eq_refl).
    unfold zot_followed in *. cbn in Hz3. rewrite Hm2, Hf2, Hu2, Hn in Hz3. exact Hz3.
Qed.

End Process.

End Run.

(** A file target that needs a directory that cannot be made *)
Definition network_audit (address : string) : SatConfig.AuditConfig :=
  SatConfig.mkAuditConfig true
    (mkSyslogAudit None "network" "" "" "tcp" address no_syslog_file) (mkOtelAudit false "").

Definition unreachable : AWorld :=
  mkAWorld [Syslog (mkSyslogTransport 0 "edge" "harbor-audit" "7" facilityLocal0)] true "satellite" [0%nat] [] 1 [] [] [] 0
    (fun n => if (n =? 2)%nat then Some "connection refused" else None) (fun _ => (200%Z, None)) (fun _ => "id")
    (fun _ => 0%Z) (inr "edge") 7 (fun _ => Some (Connection "tcp" "siem-1:514")).

(** The new address does not answer: the old transport stays, and holds the
    record of the failure. *)
Lemma audit_reload_truthful_witness :
  let '(w', c) := frun exec_audit
    (@reconfigureAuditOnReload tiny_url tiny_port (network_audit "siem-1:514") (network_audit "siem-2:514") ["audit"])
    unreachable in
  c = network_audit "siem-1:514" /\ aw_transports w' = aw_transports unreachable /\
  (forall e, told e (aw_transports w') unreachable w' -> length (aw_out w') = 1).
Proof.
  assert (@in_effect tiny_url tiny_port (network_audit "siem-1:514") unreachable) as He.
  { split; [reflexivity|]. split; [left; discriminate|]. exists (aw_transports unreachable), [].
    split; [reflexivity|]. split; [|reflexivity]. exists 0%nat, "edge", "7", (Connection "tcp" "siem-1:514"). repeat split. cbn. lia. }
  pose proof (@audit_reload_truthful tiny_url tiny_port _ (network_audit "siem-2:514") ["audit"] unreachable He) as Ht.
  cbv beta zeta in Ht |- *.
  assert (SatConfig.Equal (network_audit "siem-2:514") (network_audit "siem-1:514") = false) as Ee by reflexivity.
  rewrite Ee in Ht.
  match type of Ht with context [frun exec_audit ?p ?w] =>
    assert ((frun exec_audit p w).2 = network_audit "siem-1:514" /\ length (aw_out (frun exec_audit p w).1) = 1) as [Hc Hl]
      by (vm_compute; split; reflexivity);
    destruct (frun exec_audit p w) as [w' c] end.
  cbn [fst snd] in *. subst c. destruct Ht as (_ & _ & [[E _]|(_ & T & _)]); [discriminate E|].
  split; [reflexivity|]. split; [exact T|]. intros _ _. exact Hl.
Defined.

(** What is checked of a new zot configuration is that it can be decoded; the
    file at the path that LoadConfiguration reads is still the old one, so one
    that zot refuses is written all the same. *)
Section OldZotFile.
Context `{Registries, Zerolog} `{Schedulable P}.

#[local] Instance picky_zot : Zot := {|
  zot_unmarshal _ := None;
  zot_load text := if String.eqb text "{}" then Some "http: port is required" else None |}.

Example refused_zot_config_written (w : HWorld (P := P)) p :
  sw_files (hw_sat w) !! p = Some "old" -> (forall n, sw_fault (hw_sat w) n = None) ->
  cf_ZotConfigRaw (cm_config (sw_cm (hw_sat w))) = "{}" ->
  let '(w', r) := hrun (notifyChangeCallbacks (NewHotReloadManager p) ZotConfigChanged) w in
  zot_load "{}" = Some "http: port is required" /\ r = Some [] /\ sw_files (hw_sat w') !! p = Some "{}".
Proof.
  intros Hp Hf Hr. unfold notifyChangeCallbacks.
  replace (hr_changeCallbacks (NewHotReloadManager p) !! _) with (Some [handleZotConfig]) by done.
  destruct w as [s a l sch]. cbn in *. rewrite Hp. cbn. unfold fault. cbn. rewrite Hf, Hr. cbn.
  by rewrite lookup_insert_eq.
Qed.

End OldZotFile.
