(* ===== verification/Startup.v ===== *)
(** * Starting the satellite

    internal/env/harbor-satellite.go, pkg/config/paths.go, internal/satellite/parsec/config.go,
    internal/satellite/registry/manager.go, HandleOwnRegistry of
    internal/utils and, of cmd/harbor-satellite/main.go, the checks of main,
    the part of run before the goroutines are started, and gracefulShutdown.
    Environment variables and flags are parsed by libraries; what they yield is
    [HarborSatellite].  PARSEC's start ([parsec]), zot's verification and zot
    itself are parameters. *)

From stdpp Require Import gmap.
From Stdlib Require Import Ascii.
From S2P Require Import Prelude Utf8 GoLib Json SatConfig Free CryptoLib AuditTrail AuditFacts Duration Redact SatState SatWorld SatRun HttpClient ContainerRuntime Device Secure Manager SatPersist StateProcess Scheduler HotReload HotReloadFacts.

#[local] Open Scope string_scope.
#[local] Open Scope list_scope.

(* ------------------------------------------------------------------ *)
(** ** internal/env and the options *)

Record HarborSatellite := mkHarborSatellite {
  en_Token : string; en_GroundControlURL : string; en_SPIFFEEnabled : bool;
  en_SPIFFEEndpointSocket : string; en_SPIFFEExpectedServerID : string; en_UseUnsecure : bool;
  en_BYORegistry : bool; en_RegistryURL : string; en_RegistryUsername : string; en_RegistryPassword : string;
  en_ConfigDir : string; en_RegistryDataDir : string; en_ShutdownTimeout : string;
  en_NoRegistryFallback : bool; en_HarborRegistryURL : string; en_DirectDelivery : bool;
  en_ImageDir : string; en_ParsecEnabled : bool; en_ParsecSocketPath : string }.

Definition DefaultSPIFFEEndpointSocket : string := "unix:///run/spire/sockets/agent.sock".
Definition DefaultSocketPath : string := "/run/parsec/parsec.sock".

Definition or_default (d s : string) : string := if String.eqb s "" then d else s.

Definition ApplyDefaults (h : HarborSatellite) : HarborSatellite :=
  mkHarborSatellite (en_Token h) (en_GroundControlURL h) (en_SPIFFEEnabled h)
    (or_default DefaultSPIFFEEndpointSocket (en_SPIFFEEndpointSocket h)) (en_SPIFFEExpectedServerID h)
    (en_UseUnsecure h) (en_BYORegistry h) (en_RegistryURL h) (en_RegistryUsername h) (en_RegistryPassword h)
    (en_ConfigDir h) (en_RegistryDataDir h) (or_default "30s" (en_ShutdownTimeout h))
    (en_NoRegistryFallback h) (en_HarborRegistryURL h) (en_DirectDelivery h) (en_ImageDir h)
    (en_ParsecEnabled h) (or_default DefaultSocketPath (en_ParsecSocketPath h)).

(** [FallbackOnly] is a flag only. *)
Record SatelliteOptions := mkSatelliteOptions {
  op_env : HarborSatellite; op_JSONLogging : bool; op_Mirrors : list string; op_FallbackOnly : bool }.

(** The options after flag.Parse: a token or password that no flag gave is the
    environment's. *)
Definition with_secrets (env : HarborSatellite) (flags : SatelliteOptions) : SatelliteOptions :=
  let h := op_env flags in
  mkSatelliteOptions
    (mkHarborSatellite (or_default (en_Token env) (en_Token h)) (en_GroundControlURL h) (en_SPIFFEEnabled h)
       (en_SPIFFEEndpointSocket h) (en_SPIFFEExpectedServerID h) (en_UseUnsecure h) (en_BYORegistry h)
       (en_RegistryURL h) (en_RegistryUsername h) (or_default (en_RegistryPassword env) (en_RegistryPassword h))
       (en_ConfigDir h) (en_RegistryDataDir h) (en_ShutdownTimeout h) (en_NoRegistryFallback h)
       (en_HarborRegistryURL h) (en_DirectDelivery h) (en_ImageDir h) (en_ParsecEnabled h) (en_ParsecSocketPath h))
    (op_JSONLogging flags) (op_Mirrors flags) (op_FallbackOnly flags).

(** parsec.Config.Validate *)
Definition parsec_Validate (enabled : bool) (socketPath : string) : option goerr :=
  if negb enabled then None
  else if String.eqb socketPath "" then Some (PlainErr "parsec: socket_path must not be empty when enabled")
  else if negb (Go.has_prefix "/" socketPath) then Some (PlainErr "parsec: socket_path must be absolute")
  else None.

(** What main insists on; [Some m]: exit status 1 with the message *)
Definition missing_arguments (o : SatelliteOptions) : option string :=
  let h := op_env o in
  let none := String.eqb "" in
  if negb (op_FallbackOnly o) then
    if negb (en_SPIFFEEnabled h) && (none (en_Token h) || none (en_GroundControlURL h))
    then Some "Missing required arguments: --token and --ground-control-url or matching env vars (or enable SPIFFE with --spiffe-enabled)."
    else if none (en_GroundControlURL h)
    then Some "Missing required argument: --ground-control-url or GROUND_CONTROL_URL env var."
    else if none (en_HarborRegistryURL h)
    then Some "Missing required argument: --harbor-registry-url or HARBOR_REGISTRY_URL env var."
    else None
  else None.

Definition DefaultGroundControlURL : string := "http://127.0.0.1:8080".

Definition registry_url_missing (o : SatelliteOptions) : bool :=
  en_BYORegistry (op_env o) && String.eqb (en_RegistryURL (op_env o)) "".

(* ------------------------------------------------------------------ *)
(** ** paths.go *)

(** os.UserHomeDir, os.UserConfigDir and os.Getwd *)
Class HostPaths := {
  UserHomeDir : string + string; UserConfigDir : string + string; Getwd : string + string }.

Record PathConfig := mkPathConfig {
  pc_ConfigDir : string; pc_ConfigFile : string; pc_PrevConfigFile : string; pc_ZotTempConfig : string;
  pc_ZotStorageDir : string; pc_StateFile : string }.

Section Paths.
Context `{HostPaths}.

Definition expandPath (path : string) : result string :=
  if negb (String.eqb path "~") && negb (Go.has_prefix "~/" path) then inr path
  else match UserHomeDir with
       | inl m => inl (WrapErr "get home directory" (PlainErr m))
       | inr home => inr (if String.eqb path "~" then home else path_Join [home; Go.drop_bytes 2 path])
       end.

(** filepath.Abs *)
Definition Abs (path : string) : result string :=
  if Go.has_prefix "/" path then inr (path_Clean path)
  else match Getwd with inl m => inl (PlainErr m) | inr wd => inr (path_Join [wd; path]) end.

Definition ensureDir (path : string) : free base (result unit) :=
  let? _ := perform (MkdirAll path) catch wrap ("create directory " +:+ path) in
  let testFile := path_Join [path; ".write-test"] in
  let? _ := perform (WriteFile testFile "") catch wrap ("directory " +:+ path +:+ " not writable") in
  let? _ := perform (Remove testFile) catch wrap ("clean up write test in " +:+ path) in
  ok tt.

Definition DefaultConfigDir : result string :=
  match UserConfigDir with
  | inl m => inl (WrapErr "get user config directory" (PlainErr m))
  | inr configDir => inr (path_Join [configDir; "satellite"])
  end.

Definition ResolvePathConfig (configDir : string) : free base (result PathConfig) :=
  match expandPath configDir with
  | inl e => throw (WrapErr "expand config directory path" e)
  | inr expanded =>
      match Abs expanded with
      | inl e => throw (WrapErr "resolve absolute path" e)
      | inr expanded =>
          let? _ := ensureDir expanded catch throw in
          ok (mkPathConfig expanded (path_Join [expanded; "config.json"]) (path_Join [expanded; "prev_config.json"])
                (path_Join [expanded; "zot-hot.json"]) (path_Join [expanded; "zot"])
                (path_Join [expanded; "state.json"]))
      end
  end.

(** json.Marshal of an [any] without a float64: there is none in zot's default
    configuration. *)
Fixpoint enc_any (a : any) : option json :=
  match a with
  | ANil => Some JNull
  | ABool b => Some (JBool b)
  | ANum _ => None
  | AStr s => Some (JStr s)
  | AArr l =>
      (fix go l acc := match l with
                       | [] => Some (JArr (rev acc))
                       | a :: l' => match enc_any a with Some v => go l' (v :: acc) | None => None end
                       end) l []
  | AObj m =>
      match map_fold (fun k a acc => l ← acc; v ← enc_any a; Some (<[k := v]> l)) (Some (∅ : gmap string json)) m with
      | Some l => Some (enc_map l)
      | None => None
      end
  end.

Definition BuildZotConfigWithStoragePath (storageDir : string) : result string :=
  match Redact.Unmarshal DefaultZotConfigJSON with
  | Some (AObj zotConfig) =>
      match zotConfig !! "storage" with
      | Some (AObj storage) =>
          match enc_any (AObj (<["storage" := AObj (<["rootDirectory" := AStr storageDir]> storage)]> zotConfig)) with
          | Some v => inr (MarshalIndent v)
          | None => inl (PlainErr "marshal updated Zot config")
          end
      | _ => inl (PlainErr "invalid Zot config: storage section not found")
      end
  | _ => inl (PlainErr "unmarshal default Zot config")
  end.

End Paths.

Example zot_config_example :
  BuildZotConfigWithStoragePath "/data/zot" =
  inr (MarshalIndent (JObj [("distSpecVersion", JStr "1.1.0");
    ("http", JObj [("address", JStr "0.0.0.0"); ("port", JStr "8585")]);
    ("log", JObj [("level", JStr "info")]);
    ("storage", JObj [("rootDirectory", JStr "/data/zot")])])).
Proof. vm_compute. reflexivity. Qed.

(* ------------------------------------------------------------------ *)
(** ** main.go: run, before the goroutines *)

Section Setup.
Context `{NetUrl, SatEnv, Argon2, Sha256, AesGcm, GoQuote, runtime.Toml, runtime.Viper}.

Definition resolveLocalRegistryEndpoint : free base (result string) :=
  let* own := GetOwnRegistry in
  if own : bool then
    let* url := GetLocalRegistryURL in ok (FormatRegistryURL url)
  else
    let* raw := GetRawZotConfig in
    match Redact.Unmarshal raw with
    | Some (AObj data) =>
        match data !! "http" with
        | Some (AObj httpData) =>
            match httpData !! "address", httpData !! "port" with
            | Some (AStr addr), Some (AStr port) =>
                if String.eqb addr "" || String.eqb port ""
                then throw (PlainErr "missing 'address' or 'port' in zot http config")
                else ok (addr +:+ ":" +:+ port)
            | _, _ => throw (PlainErr "missing 'address' or 'port' in zot http config")
            end
        | _ => throw (PlainErr "missing 'http' section in zot config")
        end
    | Some ANil => throw (PlainErr "missing 'http' section in zot config")
    | _ => throw (WrapErr "unmarshalling zot config" (PlainErr "json"))
    end.

(** What cannot be resolved is only printed. *)
Definition apply_resolved (r : result (list runtime.CRIConfig)) (localRegistry : string)
    : free base (list CRIConfigResult) :=
  match r with
  | inl _ => Ret []
  | inr configs => runtime.ApplyCRIConfigs configs localRegistry
  end.

Definition resolveCRIAndApply (mirrors : list string) (noFallback : bool) (localRegistry : string)
    : free base (list CRIConfigResult) :=
  let* fbCfg := GetRegistryFallbackConfig in
  if fb_Enabled fbCfg then
    let* r := runtime.ResolveCRIConfigs [] true (default [] (fb_Registries fbCfg)) (default [] (fb_Runtimes fbCfg)) in
    apply_resolved r localRegistry
  else match mirrors with
       | _ :: _ =>
           let* r := runtime.ResolveCRIConfigs mirrors false [] [] in
           apply_resolved r localRegistry
       | [] => if noFallback then Ret [] else Ret []
       end.

(** The settings of the flags, in run's order *)
Definition apply_spiffe (h : HarborSatellite) : free base unit :=
  if en_SPIFFEEnabled h then
    With [SetSPIFFEConfig (mkSPIFFEConfig (en_SPIFFEEnabled h) (en_SPIFFEEndpointSocket h) (en_SPIFFEExpectedServerID h))]
  else Ret tt.

Definition apply_own_registry (h : HarborSatellite) : free base unit :=
  if en_BYORegistry h then
    With [SetBringOwnRegistry true; SetLocalRegistryURL (en_RegistryURL h);
          SetLocalRegistryUsername (en_RegistryUsername h); SetLocalRegistryPassword (en_RegistryPassword h)]
  else Ret tt.

Definition apply_harbor_override (h : HarborSatellite) : free base (result unit) :=
  if String.eqb (en_HarborRegistryURL h) "" then ok tt
  else
    With [SetHarborRegistryURL (en_HarborRegistryURL h)] ;;;
    let* registered := IsZTRDone in
    if registered : bool then
      let* sc := GetStateConfig in
      match ApplyHarborRegistryOverride sc (en_HarborRegistryURL h) with
      | None => throw (WrapErr "apply harbor registry URL override" (PlainErr "url"))
      | Some sc => With [SetStateConfig sc] ;;; ok tt
      end
    else ok tt.

Definition apply_zot_config (storageDir : string) : free base (result unit) :=
  match BuildZotConfigWithStoragePath storageDir with
  | inl e => throw (WrapErr "build Zot config" e)
  | inr zotConfigJSON => With [SetZotConfigRaw zotConfigJSON] ;;; ok tt
  end.

Definition apply_direct_delivery (h : HarborSatellite) : free base (result unit) :=
  if en_DirectDelivery h then
    let* imageDir := (if String.eqb (en_ImageDir h) "" then runtime.DetectImageDir else Ret (en_ImageDir h)) in
    if String.eqb imageDir "" then
      throw (PlainErr "--direct-delivery enabled but no k3s/RKE2 image directory found; use --image-dir to specify one")
    else
      let? _ := perform (MkdirAll imageDir) catch wrap ("create image directory " +:+ imageDir) in
      With [SetDirectDelivery (mkDirectDeliveryConfig true imageDir)] ;;;
      ok tt
  else ok tt.

(** The configuration with the flags over it; [parsec]: what MustDetect and
    NewKeyProvider return *)
Definition configure (parsec : result unit) (o : SatelliteOptions) (pathConfig : PathConfig)
    : free base (result unit) :=
  let h := op_env o in
  let? _ := (if en_ParsecEnabled h then Ret parsec else ok tt) catch throw in
  let* (_, init) := InitConfigManager (en_Token h) (en_GroundControlURL h) (pc_ConfigFile pathConfig)
                      (pc_PrevConfigFile pathConfig) (op_JSONLogging o) (en_UseUnsecure h) in
  match init with
  | inl e => throw e
  | inr cm =>
      perform (SetCm (fun _ => cm)) ;;;
      apply_spiffe h ;;;
      apply_own_registry h ;;;
      let? _ := apply_harbor_override h catch throw in
      apply_zot_config (pc_ZotStorageDir pathConfig)
  end.

(** Until the loggers are made; [None]: --fallback-only *)
Definition prepare_start (parsec : result unit) (o : SatelliteOptions) (pathConfig : PathConfig)
    : free base (result (option (list CRIConfigResult))) :=
  let? _ := configure parsec o pathConfig catch throw in
  let? localRegistryEndpoint := resolveLocalRegistryEndpoint
    catch wrap "resolving local registry endpoint" in
  let* criResults := resolveCRIAndApply (op_Mirrors o) (en_NoRegistryFallback (op_env o)) localRegistryEndpoint in
  if op_FallbackOnly o then ok None
  else
    let? _ := apply_direct_delivery (op_env o) catch throw in
    ok (Some criResults).

(** What the goroutines start with *)
Record Started := mkStarted {
  sd_criResults : list CRIConfigResult; sd_currentAuditCfg : SatConfig.AuditConfig;
  sd_hotReloadManager : HotReloadManager }.

Context `{Registries, Zerolog, Zot, NetUrlPort}.

Definition start_up (parsec : result unit) (o : SatelliteOptions) (pathConfig : PathConfig)
    : reload (result (option Started)) :=
  let? prepared := getting (prepare_start parsec o pathConfig) catch throw in
  match prepared with
  | None => ok None
  | Some criResults =>
      let* level := getting GetLogLevel in
      perform (SetGlobalLevel (default InfoLevel (ParseLevel level))) ;;;
      let* auditCfg := getting GetAuditConfig in
      let? _ := aud (NewAuditLogger (auditLoggerConfig auditCfg) "satellite")
        catch wrap "failed to initialize audit logger" in
      let? _ := getting WriteConfig catch throw in
      ok (Some (mkStarted criResults auditCfg (NewHotReloadManager (pc_ZotTempConfig pathConfig))))
  end.

(** HandleOwnRegistry of internal/utils *)
Definition HandleOwnRegistry : free base (result unit) :=
  let* remoteRegistryURL := GetLocalRegistryURL in
  match Parse remoteRegistryURL with
  | inl m => throw (WrapErr "error parsing URL" (PlainErr m))
  | inr _ => With [SetLocalRegistryURL (FormatRegistryURL remoteRegistryURL)] ;;; ok tt
  end.

End Setup.

(* ------------------------------------------------------------------ *)
(** ** main *)

Section Main.
Context `{HostPaths}.

Definition with_config_dir (dir : string) (o : SatelliteOptions) : SatelliteOptions :=
  let h := op_env o in
  mkSatelliteOptions
    (mkHarborSatellite (en_Token h) (or_default DefaultGroundControlURL (en_GroundControlURL h)) (en_SPIFFEEnabled h)
       (en_SPIFFEEndpointSocket h) (en_SPIFFEExpectedServerID h) (en_UseUnsecure h) (en_BYORegistry h)
       (en_RegistryURL h) (en_RegistryUsername h) (en_RegistryPassword h) dir (en_RegistryDataDir h)
       (en_ShutdownTimeout h) (en_NoRegistryFallback h) (en_HarborRegistryURL h) (en_DirectDelivery h)
       (en_ImageDir h) (en_ParsecEnabled h) (en_ParsecSocketPath h))
    (op_JSONLogging o) (op_Mirrors o) (op_FallbackOnly o).

Definition with_storage (dir : string) (p : PathConfig) : PathConfig :=
  if String.eqb dir "" then p
  else mkPathConfig (pc_ConfigDir p) (pc_ConfigFile p) (pc_PrevConfigFile p) (pc_ZotTempConfig p) dir (pc_StateFile p).

(** From flag.Parse to run: what run is called with, or the message with which
    the program exits *)
Definition main (env : HarborSatellite) (flags : SatelliteOptions)
    : free base (string + (SatelliteOptions * PathConfig)) :=
  let o := with_secrets env flags in
  let h := op_env o in
  match parsec_Validate (en_ParsecEnabled h) (en_ParsecSocketPath h) with
  | Some e => Ret (inl ("Invalid PARSEC configuration: " +:+ error_text e))
  | None =>
      match (if String.eqb (en_ConfigDir h) "" then DefaultConfigDir else inr (en_ConfigDir h)) with
      | inl e => Ret (inl ("Error resolving default config directory: " +:+ error_text e))
      | inr configDir =>
          let? pathConfig := ResolvePathConfig configDir
            catch (fun e => Ret (inl ("Error resolving config paths: " +:+ error_text e))) in
          let pathConfig := with_storage (en_RegistryDataDir h) pathConfig in
          match missing_arguments o with
          | Some m => Ret (inl m)
          | None =>
              let o := with_config_dir configDir o in
              if registry_url_missing o
              then Ret (inl "Missing required argument: --registry-url is required when --byo-registry is enabled.")
              else Ret (inr (o, pathConfig))
          end
      end
  end.

End Main.

(* ------------------------------------------------------------------ *)
(** ** registry/manager.go *)

Record ZotManager := mkZotManager { zm_zotConfig : string; zm_tempConfPath : string }.

(** The directory of temporary files is /tmp. *)
Definition WriteTempZotConfig (zm : ZotManager) : free base (result unit) :=
  let? tmp := perform (CreateTemp "/tmp" "zot-*.json") catch wrap "failed to create temp zot config file" in
  let? _ := perform (FileWrite tmp (zm_zotConfig zm)) catch wrap ("failed to write to temp zot file present at " +:+ tmp) in
  let? _ := perform (FileClose tmp) catch wrap ("failed to close temp zot config file " +:+ tmp) in
  let? _ := perform (Rename tmp (zm_tempConfPath zm)) catch wrap "failed to rename to target config path" in
  ok tt.

Definition RemoveTempZotConfig (tmpPath : string) : free base (result unit) :=
  let? _ := perform (Remove tmpPath) catch wrap ("failed to delete temp zot_config file present at " +:+ tmpPath) in
  ok tt.

(** [verify] and [launch]: zot's verify command on the file and the registry's
    run until the context is cancelled.  The removal's error is only logged. *)
Definition HandleRegistrySetup (verify launch : string -> free base (result unit)) (zm : ZotManager)
    : free base (result unit) :=
  let? _ := WriteTempZotConfig zm catch wrap "error writing temp zot config to disk" in
  let* r := (let? _ := verify (zm_tempConfPath zm) catch wrap "error verifying registry config" in
             let? _ := launch (zm_tempConfPath zm) catch wrap "error launching default zot registry" in
             ok tt) in
  RemoveTempZotConfig (zm_tempConfPath zm) ;;;
  Ret r.

Definition handleRegistrySetup `{NetUrl} (verify launch : string -> free base (result unit)) (pathConfig : PathConfig)
    : free base (result unit) :=
  let* own := GetOwnRegistry in
  if own : bool then HandleOwnRegistry
  else
    let* raw := GetRawZotConfig in
    let? _ := HandleRegistrySetup verify launch (mkZotManager raw (pc_ZotTempConfig pathConfig))
      catch wrap "default registry setup failed" in
    ok tt.

(** ReadZotConfig *)
Definition ReadZotConfig (filePath : string) (zotConfig : ZotConfig) : free base (result ZotConfig) :=
  let? text := perform (ReadFile (path_Clean filePath)) catch wrap "could not open file" in
  match Json.Unmarshal dec_zot text zotConfig with
  | None => throw (PlainErr "could not unmarshal JSON")
  | Some c => ok c
  end.

(* ------------------------------------------------------------------ *)
(** ** gracefulShutdown *)

Definition shutdown_duration (shutdownTimeout : string) : Z :=
  default 30000000000%Z (time.ParseDuration shutdownTimeout).

(** [finished]: the schedulers and the goroutines ended within the timeout.
    The error of a goroutine and of PersistState are only logged. *)
Definition gracefulShutdown `{Registries, NetUrl} (finished : bool) : act (result unit) :=
  if finished then PersistState ;;; ok tt
  else throw (PlainErr "graceful shutdown timeout exceeded").

(* ------------------------------------------------------------------ *)
(** ** Properties of the start

    What is in force and on disk once the satellite has started. *)

Section Start.
Context `{NetUrl, SatEnv, Argon2, Sha256, AesGcm, GoQuote, runtime.Toml, runtime.Viper}.
Context `{Registries, Zerolog, Zot, NetUrlPort} `{Schedulable P}.

Abbreviation brun := (frun (@exec_base _)).

(** zot's configuration and the path of the file stay. *)
Definition same_zot (w w' : SWorld) : Prop :=
  cf_ZotConfigRaw (cm_config (sw_cm w')) = cf_ZotConfigRaw (cm_config (sw_cm w)) /\
  cm_configPath (sw_cm w') = cm_configPath (sw_cm w).

#[local] Instance same_zot_preorder : PreOrder same_zot.
Proof. split; [by split|]. intros u v w [] []. split; congruence. Qed.

Abbreviation steady := (within (@exec_base _) same_zot).

Lemma steady_op {R} (o : base R) : match o with SetCm _ => False | _ => True end -> steady (perform o).
Proof.
  intros Ho. split; [|done]. intros w. destruct o; try done; cbn; repeat case_match; done.
Qed.

Lemma steady_with l : Forall (fun f => forall c, cf_ZotConfigRaw (f c) = cf_ZotConfigRaw c) l -> steady (With l).
Proof.
  intros Hl. split; [|done]. intros w. split; [|done]. cbn. generalize (cm_config (sw_cm w)) as c.
  induction Hl as [|f l Hf _ IH]; intros c; [done|]. cbn [foldl]. by rewrite IH.
Qed.

Lemma steady_bind {A B} (m : free base A) (f : A -> free base B) : steady m -> (forall a, steady (f a)) -> steady (bind m f).
Proof. apply within_bind. Qed.

Ltac steady_step :=
  match goal with
  | |- forall _, _ => intros ?
  | |- within _ _ (Ret _) => exact I
  | |- within _ _ (perform _) => apply steady_op; exact I
  | |- within _ _ (With _) => apply steady_with; repeat constructor
  | |- within _ _ (try _ _ _) => apply steady_bind
  | |- within _ _ (bind _ _) => apply steady_bind
  | |- within _ _ (match ?x with _ => _ end) => destruct x
  | |- within _ _ (let _ := _ in _) => cbv zeta
  | |- within _ _ ?m => let h := program_head m in unfold h
  end.

Lemma steady_run {A} (p : free base A) w : steady p -> same_zot w (brun p w).1.
Proof. apply within_run. typeclasses eauto. Qed.

Lemma steady_detect checks : steady (runtime.detectWithCheckers checks).
Proof. induction checks; [done|]. cbn [runtime.detectWithCheckers]. repeat first [assumption | steady_step]. Qed.

Lemma steady_hosts bk l local : steady (runtime.write_hosts bk l local).
Proof. induction l as [|r l IH]; [done|]. cbn [runtime.write_hosts]. repeat first [exact IH | steady_step]. Qed.

Lemma steady_apply l local : steady (runtime.ApplyCRIConfigs l local).
Proof.
  induction l as [|c l IH]; [done|]. cbn [runtime.ApplyCRIConfigs].
  repeat first [exact IH | apply steady_hosts | steady_step].
Qed.

Lemma steady_directory dirs : steady (runtime.first_directory dirs).
Proof. induction dirs as [|d dirs IH]; [done|]. cbn [runtime.first_directory]. repeat first [exact IH | steady_step]. Qed.

Lemma steady_fallback mirrors no local : steady (resolveCRIAndApply mirrors no local).
Proof. repeat first [apply steady_apply | apply steady_detect | steady_step]. Qed.

Lemma steady_delivery h : steady (apply_direct_delivery h).
Proof. repeat first [apply steady_directory | steady_step]. Qed.

Lemma steady_endpoint : steady resolveLocalRegistryEndpoint.
Proof. repeat steady_step. Qed.

Lemma steady_override h : steady (apply_harbor_override h).
Proof. repeat steady_step. Qed.

Lemma init_path token url path prev json unsecure w cm :
  (brun (InitConfigManager token url path prev json unsecure) w).2.2 = inr cm -> cm_configPath cm = path.
Proof.
  unfold InitConfigManager. destruct (ParseRequestURI url) as [m|u]; [done|]. rewrite frun_bind.
  destruct (brun (readAndReturnConfig path) w) as [w1 [e|cfg]].
  1: destruct (Err.is_not_exist e); [|done].
  all: destruct (ValidateAndEnforceDefaults _ _) as [ws [e'|c]]; cbn; [done|]; by intros [= <-].
Qed.

Lemma configure_outcome parsec o pc w : (brun (configure parsec o pc) w).2 = inr tt ->
  let cm := sw_cm (brun (configure parsec o pc) w).1 in
  inr (cf_ZotConfigRaw (cm_config cm)) = BuildZotConfigWithStoragePath (pc_ZotStorageDir pc) /\
  cm_configPath cm = pc_ConfigFile pc.
Proof.
  unfold configure. rewrite brun_try. set (check := if _ : bool then _ else _).
  destruct (brun check w) as [w1 [e|[]]]; cbn [fst snd]; [done|].
  rewrite frun_bind. pose proof (init_path (en_Token (op_env o)) (en_GroundControlURL (op_env o)) (pc_ConfigFile pc)
    (pc_PrevConfigFile pc) (op_JSONLogging o) (en_UseUnsecure (op_env o)) w1) as Hp.
  destruct (brun (InitConfigManager _ _ _ _ _ _) w1) as [w2 [ws [e|cm]]]; cbn [fst snd] in *; [done|].
  specialize (Hp cm eq_refl). cbn [bind perform frun exec_base]. rewrite !frun_bind.
  pose proof (steady_run (apply_spiffe (op_env o)) (s_tick (s_cm cm w2)) ltac:(repeat steady_step)) as S1.
  destruct (brun (apply_spiffe _) _) as [w3 []]. rewrite !frun_bind. cbn [fst] in S1.
  pose proof (steady_run (apply_own_registry (op_env o)) w3 ltac:(repeat steady_step)) as S2.
  destruct (brun (apply_own_registry _) _) as [w4 []]. rewrite brun_try. cbn [fst] in S2.
  pose proof (steady_run (apply_harbor_override (op_env o)) w4 (steady_override _)) as S3.
  destruct (brun (apply_harbor_override _) _) as [w5 [e|[]]]; cbn [fst snd] in *; [done|].
  unfold apply_zot_config. destruct (BuildZotConfigWithStoragePath _) as [e|z]; [done|]. intros _. cbn.
  split; [done|]. destruct S1, S2, S3. cbn in *. congruence.
Qed.

Lemma prepare_outcome parsec o pc w :
  match (brun (prepare_start parsec o pc) w).2 with
  | inl _ => True
  | inr None => op_FallbackOnly o = true
  | inr (Some _) =>
      let cm := sw_cm (brun (prepare_start parsec o pc) w).1 in
      inr (cf_ZotConfigRaw (cm_config cm)) = BuildZotConfigWithStoragePath (pc_ZotStorageDir pc) /\
      cm_configPath cm = pc_ConfigFile pc
  end.
Proof.
  unfold prepare_start. rewrite brun_try. pose proof (configure_outcome parsec o pc w) as Hc.
  destruct (brun (configure parsec o pc) w) as [w1 [e|[]]]; cbn [fst snd] in *; [done|]. specialize (Hc eq_refl).
  rewrite brun_try. pose proof (steady_run _ w1 steady_endpoint) as S1.
  destruct (brun resolveLocalRegistryEndpoint w1) as [w2 [e|endpoint]]; cbn [fst snd] in *; [done|].
  rewrite frun_bind. pose proof (steady_run _ w2 (steady_fallback (op_Mirrors o) (en_NoRegistryFallback (op_env o)) endpoint)) as S2.
  destruct (brun (resolveCRIAndApply _ _ _) w2) as [w3 results]. cbn [fst] in S2.
  destruct (op_FallbackOnly o); [done|]. rewrite brun_try.
  pose proof (steady_run _ w3 (steady_delivery (op_env o))) as S3.
  destruct (brun (apply_direct_delivery _) w3) as [w4 [e|[]]]; cbn [fst snd] in *; [done|]. cbn.
  destruct S1, S2, S3, Hc. split; congruence.
Qed.

Lemma hrun_set_level l (w : HWorld (P := P)) : hrun (perform (SetGlobalLevel l)) w = (put_level l w, tt).
Proof. done. Qed.

Lemma hrun_level (w : HWorld (P := P)) : hrun (getting GetLogLevel) w =
  (put_sat (s_tick (hw_sat w)) w, ac_LogLevel (cf_AppConfig (cm_config (sw_cm (hw_sat w))))).
Proof. rewrite hrun_getting. reflexivity. Qed.

Lemma hrun_audit_config (w : HWorld (P := P)) : hrun (getting GetAuditConfig) w =
  (put_sat (s_tick (hw_sat w)) w, ac_Audit (cf_AppConfig (cm_config (sw_cm (hw_sat w))))).
Proof. rewrite hrun_getting. reflexivity. Qed.

(** A satellite that has started.  Whatever the configuration file said, zot's
    configuration is the default one with the storage directory of this start;
    the file holds the configuration that is in force, with the flags applied;
    the audit logger runs with the configuration that the reloads compare
    theirs with; and the log level is the configuration's.  A start that only
    configures the container runtimes leaves the loggers alone. *)
Theorem start_up_outcome parsec o pc (w : HWorld (P := P)) :
  let '(w', r) := hrun (start_up parsec o pc) w in
  match r with
  | inl _ => True
  | inr None => op_FallbackOnly o = true /\ hw_audit w' = hw_audit w /\ hw_level w' = hw_level w
  | inr (Some st) =>
      let cm := sw_cm (hw_sat w') in
      let c := cm_config cm in
      inr (cf_ZotConfigRaw c) = BuildZotConfigWithStoragePath (pc_ZotStorageDir pc) /\
      (exists text v, config_text cm c v text /\ sw_files (hw_sat w') !! pc_ConfigFile pc = Some text) /\
      sd_currentAuditCfg st = ac_Audit (cf_AppConfig c) /\
      in_effect (sd_currentAuditCfg st) (hw_audit w') /\
      hw_level w' = default InfoLevel (ParseLevel (ac_LogLevel (cf_AppConfig c)))
  end.
Proof.
  unfold start_up. rewrite hrun_try, hrun_getting. cbn [fst snd].
  pose proof (prepare_outcome parsec o pc (hw_sat w)) as Hp.
  destruct (brun (prepare_start parsec o pc) (hw_sat w)) as [s1 [e|[results|]]]; cbn [fst snd] in *; [done| |done].
  destruct Hp as [Hz Hp].
  rewrite hrun_bind, hrun_level. cbn [fst snd]. rewrite hrun_bind, hrun_set_level. cbn [fst snd].
  rewrite hrun_bind, hrun_audit_config. cbn [fst snd].
  set (c := cm_config (sw_cm s1)) in *. set (auditCfg := ac_Audit (cf_AppConfig _)).
  rewrite hrun_try, hrun_aud. cbn [put_sat put_level hw_audit].
  pose proof (new_logger_runs (auditLoggerConfig auditCfg) "satellite" (hw_audit w)) as Hl.
  destruct (frun exec_audit (NewAuditLogger _ _) _) as [a2 [e|[]]]; cbn [fst snd]; [done|].
  specialize (Hl eq_refl). rewrite hrun_try, hrun_getting. cbn [put_sat put_level put_audit hw_sat hw_level].
  unfold WriteConfig. rewrite frun_bind. cbn [perform frun exec_base fst snd s_tick sw_cm].
  match goal with |- context [brun (writeConfigUnlocked ?c ?p) ?v] => pose proof (write_unlocked c p v) as Hw end.
  destruct (brun (writeConfigUnlocked _ _) _) as [s3 r]. cbn [fst snd] in Hw |- *.
  destruct r as [e|u]; [done|]. inversion Hw as [text Ht Hq| |]; subst. cbn [ok hrun frun put_sat put_audit put_level hw_sat hw_audit hw_level].
  apply quiet_fields in Hq as (Hf & _ & Hm & _). cbn in Hm, Hf, Ht. unfold hrun, ok. cbn [frun]. cbn. rewrite Hm, Hf.
  split; [done|]. split; [exists text; eexists; split; [exact Ht|]; rewrite <- Hp; by rewrite lookup_insert_eq|].
  split; [done|]. split; [by apply in_effect_runs|done].
Qed.


End Start.
