(* ===== verification/SatelliteRun.v ===== *)
(** * The satellite's schedulers

    internal/satellite/satellite.go.  The processes' fields are in the world;
    a scheduler is the transition system of [Scheduler], for each of the three
    processes.  What the registration's IsComplete asks of the ConfigManager is
    part of its scheduler's process. *)

From stdpp Require Import gmap relations.
From Stdlib Require Import Ascii.
From S2P Require Import Prelude Tls Utf8 GoLib Json SatConfig Free Float64 CryptoLib AuditTrail Duration SatState SatWorld SatRun HttpClient Device Secure Manager ZtrClient Replicator DirectDelivery SatPersist StateProcess Scheduler Report SchedulerFacts.

#[local] Open Scope string_scope.
#[local] Open Scope list_scope.

(* ------------------------------------------------------------------ *)
(** ** The processes as the schedulers see them *)

(** ZtrProcess and SpiffeZtrProcess, and whether the satellite is registered *)
#[global] Instance registration : Schedulable (ZtrProcess * bool) := {
  event := (bool * option SpiffeClient * bool);
  Scheduler.IsRunning p := zt_isRunning p.1;
  Scheduler.IsComplete p := p.2;
  Scheduler.start p := (set_ztr_running true p.1, p.2);
  Scheduler.stop p := (set_ztr_running false p.1, p.2);
  work e p := (mkZtrProcess (zt_isRunning p.1) e.1.1 e.1.2, e.2);
  start_running _ := eq_refl;
  stop_running _ := eq_refl;
  work_running _ _ := eq_refl }.

#[global] Instance status_report : Schedulable StatusReportingProcess := {
  event := (list CRIConfigResult * bool * option SpiffeClient);
  Scheduler.IsRunning := sp_isRunning;
  Scheduler.IsComplete _ := false;
  Scheduler.start := set_report_running true;
  Scheduler.stop := set_report_running false;
  work e p := mkStatusReportingProcess (sp_isRunning p) e.1.1 e.1.2 e.2;
  start_running _ := eq_refl;
  stop_running _ := eq_refl;
  work_running _ _ := eq_refl }.

(* ------------------------------------------------------------------ *)
(** ** Satellite *)

Inductive AnyScheduler :=
| Registration (s : Scheduler (ZtrProcess * bool))
| Replication (s : Scheduler Process)
| StatusReport (s : Scheduler StatusReportingProcess).

(** [stateProcess]: Run created it. *)
Record Satellite := mkSatellite {
  sa_criResults : list CRIConfigResult; sa_schedulers : list AnyScheduler; sa_stateFilePath : string;
  sa_stateProcess : bool }.

Definition NewSatellite (criResults : list CRIConfigResult) (stateFilePath : string) : Satellite :=
  mkSatellite criResults [] stateFilePath false.

Definition add_scheduler (a : AnyScheduler) (s : Satellite) : Satellite :=
  mkSatellite (sa_criResults s) (sa_schedulers s ++ [a]) (sa_stateFilePath s) (sa_stateProcess s).

Section Run.
Context `{Registries, NetUrl, SpiffeIds}.

(** The process of the registration, by the configuration *)
Definition registration_process : free base (result ZtrProcess) :=
  let* enabled := IsSPIFFEEnabled in
  if enabled : bool then
    let* spiffeCfg := GetSPIFFEConfig in Ret (NewSpiffeZtrProcess spiffeCfg)
  else ok NewZtrProcess.

(** A scheduler that is created is appended and started. *)
Definition launch {P} `{Schedulable P} (wrap : Scheduler P -> AnyScheduler) (intervalExpr : string) (process : P)
    (s : Satellite) : result Satellite :=
  match NewSchedulerWithInterval intervalExpr process with
  | inl e => inl e
  | inr sched => inr (add_scheduler (wrap (Start sched)) s)
  end.

Definition run_registration (s : Satellite) : free base (result Satellite) :=
  let* registered := IsZTRDone in
  if registered : bool then ok s
  else
    let? process := registration_process catch throw in
    perform (SetLocals (set_ztr (fun _ => process))) ;;;
    let* interval := GetRegistrationInterval in
    Ret (launch Registration interval (process, false) s).

Definition run_replication (process : Process) (s : Satellite) : free base (result Satellite) :=
  let* interval := GetStateReplicationInterval in
  Ret (launch Replication interval process s).

Definition run_status_report (s : Satellite) : free base (result Satellite) :=
  let* spiffeCfg := GetSPIFFEConfig in
  let process := NewStatusReportingProcess spiffeCfg in
  let process := match sa_criResults s with [] => process | results => set_pending results process end in
  perform (SetLocals (set_report (fun _ => process))) ;;;
  let* interval := GetHeartbeatInterval in
  Ret (launch StatusReport interval process s).

(** The satellite afterwards, with the schedulers that were started before an
    error; [cancelled]: what ctx.Err() returns in the end *)
Definition Run (cancelled : option goerr) (s : Satellite) : free base (Satellite * result unit) :=
  let* process := NewFetchAndReplicateStateProcess (sa_stateFilePath s) in
  perform (SetProc (fun _ => process)) ;;;
  let s := mkSatellite (sa_criResults s) (sa_schedulers s) (sa_stateFilePath s) true in
  let? s1 := run_registration s catch (fun e => Ret (s, inl e)) in
  let? s2 := run_replication process s1 catch (fun e => Ret (s1, inl e)) in
  let? s3 := run_status_report s2 catch (fun e => Ret (s2, inl e)) in
  Ret (s3, match cancelled with Some e => inl e | None => inr tt end).

Definition PersistState (s : Satellite) : act (result unit) :=
  if sa_stateProcess s then StateProcess.PersistState else ok tt.

End Run.

(** Stop returns once every scheduler's counter is 0, or when its context is
    done; a scheduler that does not stop is only counted. *)
Definition any_stop_returns (a : AnyScheduler) : bool :=
  match a with
  | Registration s => stop_returns s
  | Replication s => stop_returns s
  | StatusReport s => stop_returns s
  end.

Definition Stop (s : Satellite) : nat := length (List.filter (fun a => negb (any_stop_returns a)) (sa_schedulers s)).

(* ------------------------------------------------------------------ *)
(** ** Properties of the satellite's schedulers *)

Section Facts.
Context `{Registries, NetUrl, SpiffeIds}.

Abbreviation brun := (frun (@exec_base _)).

(** A scheduler that was created and started: the first steps of every run
    that the scheduler's theorems are about *)
Definition started {P} `{Schedulable P} (intervalExpr : string) (process : P) (s : Scheduler P) : Prop :=
  exists s0 d, NewSchedulerWithInterval intervalExpr process = inr s0 /\ step LStart s0 = Some s /\
    parseEveryExpr intervalExpr = inr d /\ (0 < d)%Z /\ GetInterval s = d /\ sc_process s = process.

(** The interval cannot be used. *)
Definition refused (intervalExpr : string) : Prop :=
  match parseEveryExpr intervalExpr with inl _ => True | inr d => (d <= 0)%Z end.

Lemma launch_outcome {P} `{Schedulable P} (wrap : Scheduler P -> AnyScheduler) intervalExpr process s :
  match launch wrap intervalExpr process s with
  | inl _ => refused intervalExpr
  | inr s' => exists sched, started intervalExpr process sched /\ s' = add_scheduler (wrap sched) s
  end.
Proof.
  unfold launch, NewSchedulerWithInterval, refused. destruct (parseEveryExpr intervalExpr) as [e|d] eqn:E; [done|].
  destruct (Z.leb_spec d 0) as [Hd|Hd]; [done|]. eexists. split; [|reflexivity].
  eexists _, d. unfold NewSchedulerWithInterval. rewrite E. destruct (Z.leb_spec d 0); [lia|].
  split_and!; try reflexivity; done.
Qed.

Section Outcome.
Context (cancelled : option goerr) (criResults : list CRIConfigResult) (path : string) (w : SWorld).

Let c : Config := cm_config (sw_cm w).
Definition registered : bool := negb (String.eqb (rc_Username (stc_RegistryCredentials (cf_StateConfig c))) "").
Definition remembered_process : Process := (brun (NewFetchAndReplicateStateProcess path) w).2.

(** The registration's scheduler, unless the satellite is registered *)
Definition registering (first : list AnyScheduler) : Prop :=
  if registered then first = []
  else exists z ztr, first = [Registration ztr] /\
    started (ac_RegisterSatelliteInterval (cf_AppConfig c)) (z, false) ztr.

Definition replicating (first : list AnyScheduler) (replication : Scheduler Process) : Prop :=
  registering first /\ started (ac_StateReplicationInterval (cf_AppConfig c)) remembered_process replication.

(** How the start ends: the schedulers that run, and the result *)
Inductive ran (w' : SWorld) : list AnyScheduler -> result unit -> Prop :=
| not_registering e :
    registered = false ->
    sp_Enabled (ac_SPIFFE (cf_AppConfig c)) = true \/ refused (ac_RegisterSatelliteInterval (cf_AppConfig c)) ->
    ran w' [] (inl e)
| not_replicating first e :
    registering first -> refused (ac_StateReplicationInterval (cf_AppConfig c)) -> ran w' first (inl e)
| not_reporting first replication e :
    replicating first replication -> refused (ac_HeartbeatInterval (cf_AppConfig c)) ->
    ran w' (first ++ [Replication replication]) (inl e)
| all_started first replication p report :
    replicating first replication -> started (ac_HeartbeatInterval (cf_AppConfig c)) p report ->
    sw_proc w' = remembered_process -> lo_report (sw_locals w') = p -> sp_pendingCRI p = criResults ->
    ran w' (first ++ [Replication replication; StatusReport report])
      (match cancelled with Some e => inl e | None => inr tt end).

Lemma remembers : calm (NewFetchAndReplicateStateProcess path).
Proof. repeat calm_step. Qed.

Lemma registration_step s v : sa_schedulers s = [] -> cm_config (sw_cm v) = c ->
  match brun (run_registration s) v with
  | (v', inl _) => registered = false /\
      (sp_Enabled (ac_SPIFFE (cf_AppConfig c)) = true \/ refused (ac_RegisterSatelliteInterval (cf_AppConfig c)))
  | (v', inr s') => sw_cm v' = sw_cm v /\ sw_proc v' = sw_proc v /\ registering (sa_schedulers s') /\
      sa_criResults s' = sa_criResults s
  end.
Proof.
  intros Hs Hc. clearbody c. unfold run_registration, registering, registered. rewrite frun_bind. cbn. rewrite !Hc.
  destruct (String.eqb _ _); cbn; [|done].
  rewrite ?Hc. destruct (sp_Enabled _) eqn:Es; cbn; rewrite ?Hc, ?Es; cbn; rewrite ?Hc.
  - destruct (NewSpiffeZtrProcess _) as [e|z]; cbn; [by auto|]. rewrite Hc.
    pose proof (launch_outcome Registration (ac_RegisterSatelliteInterval (cf_AppConfig c)) (z, false) s) as Hl.
    destruct (launch _ _ _ _); [by auto|]. destruct Hl as (ztr & Hz & ->). cbn. rewrite Hs. split_and!; try done.
    by exists z, ztr.
  - pose proof (launch_outcome Registration (ac_RegisterSatelliteInterval (cf_AppConfig c)) (NewZtrProcess, false) s) as Hl.
    destruct (launch _ _ _ _); [by auto|]. destruct Hl as (ztr & Hz & ->). cbn. rewrite Hs. split_and!; try done.
    by exists NewZtrProcess, ztr.
Qed.

Lemma report_step s v : cm_config (sw_cm v) = c ->
  match brun (run_status_report s) v with
  | (v', inl _) => refused (ac_HeartbeatInterval (cf_AppConfig c))
  | (v', inr s') => sw_proc v' = sw_proc v /\ exists report,
      started (ac_HeartbeatInterval (cf_AppConfig c)) (lo_report (sw_locals v')) report /\
      sp_pendingCRI (lo_report (sw_locals v')) = sa_criResults s /\
      sa_schedulers s' = sa_schedulers s ++ [StatusReport report]
  end.
Proof.
  intros Hc. clearbody c. unfold run_status_report. cbn. rewrite !Hc.
  set (p := match sa_criResults s with [] => _ | _ => _ end).
  assert (sp_pendingCRI p = sa_criResults s) as Hp by (subst p; by destruct (sa_criResults s)). clearbody p.
  pose proof (launch_outcome StatusReport (ac_HeartbeatInterval (cf_AppConfig c)) p s) as Hl.
  destruct (launch _ _ _ _); [done|]. destruct Hl as (report & Hr & ->). cbn. split; [done|]. by exists report.
Qed.

(** Starting the satellite.  Each scheduler is created with the interval of
    the configuration and started, in this order: the registration, unless the
    satellite is registered; the replication, with the state of the file; the
    status report, with the results of the runtimes' configuration to report.
    It fails when SPIFFE cannot be set up or an interval cannot be used, with
    the schedulers before it running, or at the end when the context was
    cancelled. *)
Theorem run_outcome :
  let '(w', (s, r)) := brun (Run cancelled (NewSatellite criResults path)) w in
  ran w' (sa_schedulers s) r.
Proof.
  unfold Run. rewrite frun_bind. pose proof (calm_run _ w remembers) as Hq. cbn [sa_stateFilePath NewSatellite].
  destruct (brun (NewFetchAndReplicateStateProcess path) w) as [w1 process] eqn:Ep. cbn [fst] in Hq.
  assert (remembered_process = process) as Er by (unfold remembered_process; by rewrite Ep).
  apply quiet_fields in Hq as (_ & _ & Hm & _ & Hl & _).
  cbn [bind perform frun exec_base]. cbn [sa_criResults sa_schedulers NewSatellite].
  set (s0 := mkSatellite _ _ _ _). set (w2 := s_tick _).
  assert (cm_config (sw_cm w2) = c) as Hc by (cbn; by rewrite Hm).
  rewrite brun_try. pose proof (registration_step s0 w2 eq_refl Hc) as Hreg.
  destruct (brun (run_registration s0) w2) as [w3 [e|s1]]; cbn [fst snd].
  { destruct Hreg. by apply not_registering. }
  destruct Hreg as (Hm3 & Hp3 & Hr & Hcri). rewrite brun_try.
  pose proof (launch_outcome Replication (ac_StateReplicationInterval (cf_AppConfig c)) process s1) as Hrep.
  unfold run_replication. rewrite frun_bind. cbn [GetStateReplicationInterval].
  assert (brun GetStateReplicationInterval w3 = (s_tick w3, ac_StateReplicationInterval (cf_AppConfig c))) as ->
    by (cbn; by rewrite Hm3, Hc).
  cbn [frun]. destruct (launch _ _ _ _) as [e|s2]; cbn [fst snd frun]; [by apply not_replicating|].
  destruct Hrep as (replication & Hst & ->). rewrite brun_try.
  assert (replicating (sa_schedulers s1) replication) as Hre by (split; [done|]; by rewrite Er).
  pose proof (report_step (add_scheduler (Replication replication) s1) (s_tick w3)) as Hrs.
  destruct (brun (run_status_report _) (s_tick w3)) as [w4 [e|s3]]; cbn [fst snd frun].
  { apply not_reporting; [done|]. apply Hrs. cbn. by rewrite Hm3. }
  destruct Hrs as (Hp4 & report & Hst' & Hpend & ->); [cbn; by rewrite Hm3|]. cbn [add_scheduler sa_schedulers].
  rewrite <- app_assoc. eapply all_started; [done|exact Hst'| |done|].
  - rewrite Hp4, Er. cbn. by rewrite Hp3.
  - rewrite Hpend. cbn. by rewrite Hcri.
Qed.

End Outcome.
End Facts.
