(* ===== verification/Handshake.v ===== *)
(** * Registration, end to end

    The satellite's ZtrProcess (ZtrClient) against Ground Control's ztrHandler
    (Satellites, Ztr): what the handler answers is what the process
    installs. *)

From stdpp Require Import gmap relations.
From Stdlib Require Import Ascii.
From S2P Require Import Free Prelude Db DbFacts Prog Logic Runs Env Harbor CryptoLib Crypto Duration Spiffe Server Demo Satellites SatelliteFacts Registration Ztr.
From S2P Require Import Free Utf8 GoLib Json SatConfig AuditTrail SatState SatWorld SatRun SatDemo Tls HttpClient Device Secure Manager ZtrClient ZtrClientFacts.

#[local] Open Scope string_scope.
#[local] Open Scope list_scope.

(* ------------------------------------------------------------------ *)
(** ** The message *)

Definition valid_state (sc : StateConfig) : Prop :=
  valid_utf8 (rc_URL (stc_RegistryCredentials sc)) /\ valid_utf8 (rc_Username (stc_RegistryCredentials sc)) /\
  valid_utf8 (rc_Password (stc_RegistryCredentials sc)) /\ valid_utf8 (stc_StateURL sc).

Lemma dec_enc_state sc : dec_state (enc_state sc) no_state = Some sc.
Proof.
  destruct sc as [[url user password] state]. unfold enc_state, enc_credentials, omit_string.
  cbn [stc_RegistryCredentials stc_StateURL rc_URL rc_Username rc_Password].
  destruct (String.eqb_spec url "") as [->|], (String.eqb_spec user "") as [->|],
    (String.eqb_spec password "") as [->|], (String.eqb_spec state "") as [->|]; reflexivity.
Qed.

Lemma state_wf sc : valid_state sc -> wf (enc_state sc) /\ (depth (enc_state sc) <= maxNestingDepth)%N.
Proof.
  destruct sc as [[url user password] state]. unfold valid_state, enc_state, enc_credentials, omit_string.
  cbn [stc_RegistryCredentials stc_StateURL rc_URL rc_Username rc_Password]. intros (H1 & H2 & H3 & H4).
  destruct (String.eqb url ""), (String.eqb user ""), (String.eqb password ""), (String.eqb state "");
    cbn; unfold maxNestingDepth; (split; [|lia]); by split_and!.
Qed.

(** A StateConfig that Ground Control encodes is decoded by the satellite. *)
Lemma state_travels sc : valid_state sc -> Decode dec_state (Encode (enc_state sc)) no_state = Some sc.
Proof.
  intros Hv. apply state_wf in Hv as [Hw Hd]. unfold Decode. rewrite first_value_Encode by done.
  apply dec_enc_state.
Qed.

Section Handshake.
Context `{Server, GroundControl, PqText, Argon2, Services, PgTypes}.
Context `{Registries, X509, Sha256, AesGcm, SatEnv, NetUrl, GoQuote, SpiffeIds}.

(** The state configuration a handler answers with *)
Definition state_of (p : payload) : option StateConfig :=
  match p with
  | PStateConfig state_url url username password =>
      Some (mkStateConfig (mkRegistryCredentials url username password) state_url)
  | _ => None
  end.

(** [response] is the handler's answer on the wire, which redirects nowhere. *)
Definition on_the_wire (g : World) (response : HttpResponse) : Prop :=
  rs_Location response = "" /\
  exists p, w_replies g = [mkReply (rs_StatusCode response) p] /\
    forall sc, state_of p = Some sc -> rs_Body response = Encode (enc_state sc) /\ valid_state sc.

(** If a request of the satellite for its registration is answered at all, it
    is with what the handler answered. *)
Definition served (g : World) (w : SWorld) : Prop :=
  forall client req st st' response,
    NewRequest "GET" (gc_url (sw_cm w) +:+ "/satellites/ztr/" +:+ cm_Token (sw_cm w)) "" = inr req ->
    reg_exec _ (HttpDo client req) st = (st', inr response) -> on_the_wire g response.


End Handshake.

(** The demo satellite against the demo Ground Control *)
Section Witness.
Import Demo.
Import NewSatellite.

Definition served_world : World := (run (ztrHandler demo_request demo_token) (demo_world demo_db)).1.

Definition gc_answer (c : HttpClient) (r : HttpRequest) : string + HttpResponse :=
  if String.eqb (rq_URL r) ("http://gc/satellites/ztr/" +:+ demo_token) then
    match w_replies served_world with
    | [mkReply status p] =>
        match state_of p with
        | Some sc => inr (mkHttpResponse status "200 OK" "" (Encode (enc_state sc)))
        | None => inl "no credentials"
        end
    | _ => inl "no answer"
    end
  else inl "no route".

#[local] Instance gc_network : Registries := demo_registries_with ∅ gc_answer.

Definition before : SWorld := new_satellite (fun _ => None) (∅ : images).

Lemma served_reply : w_replies served_world =
  [mkReply 200 (PStateConfig "https://harbor.example/satellite/satellite-state/edge-01/state:latest"
                  "https://harbor.example" "robot$edge-01" "fresh")].
Proof. vm_compute. reflexivity. Qed.

Lemma token_before : cm_Token (sw_cm before) = demo_token.
Proof. vm_compute. reflexivity. Qed.

Lemma served_world_eq : (run (ztrHandler demo_request demo_token) (demo_world demo_db)).1 = served_world.
Proof. unfold served_world. reflexivity. Qed.

Lemma demo_served : served (run (ztrHandler demo_request (cm_Token (sw_cm before))) (demo_world demo_db)).1 before.
Proof.
  rewrite token_before, served_world_eq.
  intros client req st st' response [= <-] E. cbn in E. unfold gc_answer in E. rewrite served_reply in E.
  cbn in E. injection E as <- <-. split; [done|]. eexists. split; [exact served_reply|].
  intros sc [= <-]. split; [reflexivity|]. by split_and!.
Qed.

Definition user (cm : ConfigManager) : string :=
  rc_Username (stc_RegistryCredentials (cf_StateConfig (cm_config cm))).

Lemma installed : sw_cm (srun Execute before).1 <> sw_cm before.
Proof.
  assert (String.eqb (user (sw_cm (srun Execute before).1)) (user (sw_cm before)) = false) as H by (vm_compute; reflexivity).
  intros E. rewrite E, String.eqb_refl in H. discriminate.
Qed.


End Witness.
